(* ===== verification/_CoqProject ===== *)
-Q . S2P
Prelude.v
PyStr.v
PyFloat.v
PyTime.v
PyDateTime.v
PyDict.v
PyVal.v
PyHash.v
PyJson.v
StateIo.v
MarketCalendar.v
CalendarFacts.v
CalendarProps.v
SessionClock.v
LevelDecision.v
LevelFacts.v
LevelProps.v
Marketdata.v
MarketdataFacts.v
ProviderFailover.v
FailoverFacts.v
FailoverController.v
ControllerProps.v
Outbox.v
Delivery.v
OutboxFacts.v
DeliveryProps.v
DeliverySteps.v
GlobexTrend.v
TrendService.v
TrendSpec.v
TrendFacts.v
TrendRefine.v
TrendProps.v
Continuity.v
ContinuityProps.v
FarmHealth.v
FarmProps.v
LineQuota.v
LineQuotaProps.v
FileStore.v
Lake.v
QuoteCompactor.v
LakeFacts.v
LakeSafety.v
LakeDeletion.v
LakeProps.v
LakeSettles.v
ShockMonitor.v
ShockSpec.v
ShockFacts.v
ShockProps.v
EsBars.v
EsBarSampler.v
EsBarSpec.v
EsBarFacts.v
EsBarRows.v
EsBarRefine.v
EsBarSampling.v
EsBarProps.v
RuntimeMode.v
RuntimeModeProps.v
SessionEpisode.v
SessionEpisodeSpec.v
SessionEpisodeFacts.v
SessionEpisodeProps.v
StrategyContract.v
TradeIntent.v
Dispatcher.v
TradeDelivery.v
TradeCalls.v
TradeFacts.v
TradeClaims.v
TradeProps.v
TradeRecovery.v
TradeFences.v
TradeAlerts.v
Sampling.v
OptionLines.v
OptionLinesProps.v
