(* ===== verification/Prelude.v ===== *)
(** * SPX Spark: a verification development

    SPX Spark (the Python package under [src/src/spx_spark/]; paths below are
    relative to it) collects SPX and ES market data from Schwab and IBKR, watches
    option walls and overnight trends, and sends notifications to an operator.
    This library models the parts that decide: which day and session it is, which
    provider is trusted and whether entries are allowed, when a wall has broken or
    held, when an overnight trend has turned, when a fast move is a shock and when
    it is reclaimed, which five-minute ES bars exist and whether they may be used,
    which structural episode a session is in, whether a data plane is down, how
    many data lines may be used and which option contracts they carry, whether a trade alert may go out and what becomes
    of a notification, when a raw quote file may be deleted, and when the
    operator's orders let the IBKR stream run.

    ** How the parts interact

    The collectors store quotes ([Marketdata]).  The failover controller judges
    both providers from the stored quotes and the session of the calendar, moves
    the failover machine and writes the control file from which every reader
    decides whether entries are allowed.  The wall/flip machine and the Globex
    trend service turn observed prices into transitions and events; the trend
    service hands an event to the notifier and learns later whether it was
    accepted.  The shock monitor advances one state file per session with every
    synchronized SPX/ES sample, marks its alerts before they are sent and again
    when they are acknowledged.  The ES bar sampler publishes the bars of the
    quotes it accepts and then a lease; a consumer that cannot match the two gets
    no bars, and trade intents lose their authority.  A trade intent that keeps it
    is delivered by [process_trade_intent], which asks the outbox, takes a lease,
    looks at the market again, enqueues and acknowledges; several processes may
    do so at once on one state file.  Delivery enqueues into the outbox, claims an
    attempt, calls the sinks and settles.  The continuity ledger, the farm-health tracker and the
    capacity estimates watch the IBKR and Schwab connections and gate the restart
    of the Gateway and the number of subscriptions.  From that number and the
    price a sampling plan is cut to a hot lane and slices; the stream reconciles
    its lines with it and rotates the slices, while error callbacks arrive.  The lake compactor turns the
    raw hours that the collectors append to into Parquet with a manifest, and
    deletes a raw hour once it has verified its compaction again.

    ** The Python layer

    - [Prelude]: exceptions and fallible results ([res]), loops, lists, hints.
    - [PyStr], [PyFloat], [PyTime], [PyDateTime]: text, binary64 computed exactly
      on [spec_float], dates as ordinals, wall clocks and instants as numbers of
      microseconds, ISO-8601 printing and parsing with their round trip.
    - [PyDict], [PyVal]: insertion-ordered dicts and dynamic values with Python's
      truth, conversions and comparisons.
    - [PyHash], [PyJson]: SHA-256 and the JSON text that the outbox hashes and
      stores, with its round trip.
    - [StateIo] ([state_io.py]): JSON state files, written with sorted keys; a file
      that is not UTF-8 ([Undecodable]) raises, as any reader of the source does.

    ** Components and files

    - [MarketCalendar] ([market_calendar.py]): holidays, trading-day searches,
      sessions, the SPX session window, expiries.  [CalendarFacts],
      [CalendarProps]: the searches terminate at the nearest trading day, sessions
      exclude each other, the session date is that of the latest session begun.
      [SessionClock] is the interface (a class with its laws) that the other
      components use; the default calendar is its instance.
    - [LevelDecision] ([application/order_map/level_decision_machine.py]): the
      lifecycle of one wall.  [LevelFacts] describes every operation, [LevelProps]
      states the phase graph, relates the hold timer, the phase clock and the
      evidence of a breakout to the observations of the run, and from that what a
      confirmation and a breakout need; arming, degraded data and re-arming.
    - [Marketdata] ([marketdata.py]): instruments, quotes, their dict form and the
      choice of the best quote; [MarketdataFacts].
    - [ProviderFailover] ([provider_failover.py]): the failover machine and the
      entry decision; [FailoverFacts]: hysteresis, the transition log, round trip,
      failing closed.
    - [FailoverController] ([provider_failover_controller.py]): one evaluation
      from the stored file to the file written back; [ControllerProps]: when the
      written file admits entries, the overnight rule, unreadable files,
      incidents.
    - [Outbox] ([infrastructure/notifications.py], [domain/events.py]): the two
      tables and their transactions; [OutboxFacts].
    - [Delivery] ([notifier/unified_delivery.py], [notifier/model.py],
      [notifier/human_policy.py], [notifier/sinks.py], [notifier/rust_ingress.py]):
      envelopes, routes, the delivery worker.  [DeliveryProps]: a system of
      workers, crashes and recoveries over the outbox.  The workers of other
      processes may outlive a recovery, and then the events they hold are
      overtaken; of every other event, what was or may have been sent is never
      sent again.  [DeliverySteps]: the worker is a run of that system.
    - [GlobexTrend], [TrendService] ([application/globex_trend/machine.py],
      [service.py], [models.py], [settings/globex_trend.py]): the trend machine and
      the locked sections of its service on the JSON state.  [TrendSpec] is the
      specification on typed states, [TrendFacts] and [TrendRefine] the
      refinement, [TrendProps] its consequences for runs of the service.
    - [Continuity] ([ibkr/continuity.py]) and [ContinuityProps]: the outage state
      and its append-only ledger.
    - [FarmHealth] ([ibkr/farm_health.py], the restart gate of
      [ibkr/stream/supervisor.py]) and [FarmProps].
    - [LineQuota] ([schwab/quota_machine.py], [ibkr/stream/capacity_tracker.py],
      [ibkr/stream/quota_plan.py], and the callers' expressions in
      [schwab/collector.py] and [ibkr/stream/option_subscription_ops.py]) and
      [LineQuotaProps].
    - [Lake] ([data_platform/ids.py], [data_platform/lake/layout.py],
      [manifest.py]) and [QuoteCompactor] ([compact.py], [compact_support.py],
      [normalize.py], [raw_delete_machine.py]), on the file store of [FileStore]:
      programs of steps, before each of which collectors may append, and each of
      which may fail or be the last.  [LakeFacts] and [LakeSafety] show what every
      operation keeps, [LakeDeletion] what the gates of the deletion have proved
      when the file is unlinked, [LakeProps] that no call loses raw rows, and
      [LakeSettles] that an undisturbed compaction publishes and then settles.
    - [ShockMonitor] ([application/shock/machine.py], [models.py], [delivery.py],
      the locked sections of [service.py] with the marks of the Greek samples and
      the overnight monitor's entry, the state part of [level_projection.py]): the
      price shock and reclaim machine on its JSON state.  [ShockSpec] is the machine on typed states, [ShockFacts] the
      refinement, [ShockProps] what an alert proves about the observed samples.
    - [EsBars] ([application/market_features/es_bar_state.py], the segments of
      [market.py]): the JSON state of the five-minute bars.  [EsBarSampler]
      ([application/runtime/es_bar_sampler.py], [es_bar_consumer.py],
      [es_bar_consumer_fence.py]): the cycle and loop that publish it, the lease,
      the consumer's readiness and the fence.  [EsBarSpec] groups accepted
      observations into reference bars; [EsBarFacts] and [EsBarRows] relate lists
      and rows to them, [EsBarRefine] shows that a cycle takes the file of one
      history to that of the next; [EsBarSampling] lets sampler processes and
      readers interleave, [EsBarProps] has the two theorems.
    - [RuntimeMode] ([runtime_mode.py], the gate of [config_ibkr.py] and
      [ibkr/stream/session_ops.py]): the operator's override in its two files, of
      which a write or a clear is a list of changes.  [RuntimeModeProps]: what is
      in force after commands that may stop half way and files that may be
      spoilt, and when the stream may take market data.
    - [SessionEpisode] ([application/market_features/session_episode.py] and its
      use in [service.py]): the structural episode of a session on its JSON
      state.  [SessionEpisodeSpec] is the machine on typed states,
      [SessionEpisodeFacts] the refinement, [SessionEpisodeProps] the stored
      range, the path behind a confirmed reversal and the phase graph.
    - [StrategyContract] ([strategy_contract.py],
      [application/market_features/trade_intent_authority.py],
      [manual_signal_contract.py] and the contracts of [trade_intent_runtime.py]
      and its support files): what an intent and its card must say.  [Dispatcher] ([notifier/dispatcher.py]): the producer's
      calls of the outbox.  [TradeIntent], [TradeDelivery] and [TradeCalls]
      ([trade_intent_runtime.py], [trade_intent_runtime_support.py],
      [trade_intent_delivery_contract.py]): the producer's state with its leases,
      the sections that a call runs under the lock as computations on the state
      file, the latest file, the audit and the outbox, and [process_trade_intent]
      as the stretches from one section to the next.  [sys_step] lets calls
      start, run, die and interleave with each other and with the steps of the
      outbox.  [TradeFacts] has a Hoare logic for the sections, [TradeClaims]
      and [TradeFences] what each section keeps of a claimed
      opportunity, of the latest file and of a cancelled event, [TradeRecovery]
      that an enqueued event is found by its inspection, [TradeProps] the runs,
      [TradeAlerts] the theorems: one alert per
      opportunity, a latest file that tells the truth, alerts in order,
      recovery after a crash, cancellation for good.

    - [Sampling] ([sampling.py], [ibkr/stream/contracts.py], the plan of
      [ensure_option_plan]): the strikes, groups and contracts of a sampling plan
      and its cut to a line budget; the plan is a permutation of whole call/put
      pairs.  [OptionLines] ([ibkr/stream/option_subscription_ops.py],
      [spy_rotation_ops.py], [session_ops.py], [ibkr/verifier.py]): requests,
      cancellations, error callbacks, [reconcile_option_plan] and
      [rotate_options] as programs on the stream's state against a [Gateway]
      whose answers and callbacks depend on all calls before.
      [OptionLinesProps] has weakest preconditions for them, the owners and the
      number of the open lines (the ceiling, unless a plan's hot lane and the pins
      are more), what a reconciliation leaves, and what a turn of the rotation has
      shown.

    ** Correspondence

    Definitions keep the names of the source; a step of a long function that is a
    definition of its own is named after what it does.  State dicts stay dicts
    with the source's keys; dataclasses are records; enums are inductive types
    with their values.  A call that raises returns [Err]; an operation on a store
    or a file takes the content and returns the new one.  A database transaction
    or a file-locked section is one step: it either commits or leaves the state,
    and steps of different processes interleave in any order.  In the lake a
    step is one call to the operating system.  A section of the trade alerts is
    one step for the other processes, and keeps what it wrote when it raises.

    ** Bounds and fuel

    - The trading-day loops run at most [DATE_FUEL] times, more often than there
      are dates; [CalendarFacts] shows that they always leave the loop.
    - The JSON parser is bounded by the length of the text; the round trip shows
      that this is enough for everything that is printed.
    - The printer of a float tries up to 17 digits, which always suffice for
      binary64.
    - The ES bars are related to their history from the epoch to the year 2106
      ([in_life]), in which a double holds the microseconds of an instant.
    - A call of [process_trade_intent] has at most six stretches ([STRETCHES]);
      [calls_end] shows it for every interleaving.
    - The runs of the properties (of the machines, of the outbox, of the trend
      service) are inductive relations and have no bound.

    ** Parameters and deviations

    - The time-zone database is not in the repository: [to_et], New York's wall
      clock of an instant, is a parameter wherever it is needed.
    - What the broker, the sinks, the Rust ingress, the alert review, the macro
      calendar and the option-flow stage answer is an argument of the operation
      that asks.
    - DuckDB is the class [Duck]: its answers on the content it reads.  [uuid4] is
      a sequence of names, assumed injective where a theorem needs fresh ones.
    - The IBKR client is the class [Gateway].  Error callbacks run where a call
      waits or between operations, and do not raise; the sets of labels that
      [reconcile_option_plan] walks keep the order of the lane; of the cache of
      option definitions only which of them are known shows ([answer_resolve]);
      attributes that the collector always has are not looked up with defaults.
    - In [FileStore] an append and a write are single steps, manifests are kept as
      what a reader decodes, and directories, modes and syncs do not show; a lock
      excludes nobody, so the theorems admit appending writers only.
    - Of a call of [process_trade_intent] the rendered text, the verdict on the
      quotes at action time, the faults of the outbox database (raised before it
      changes anything) and the fences of the Rust service are arguments.  A
      section is not interrupted between its writes.  The signature of an intent
      with a number that is not finite raises, where Python writes NaN.
    - Text is made of characters below 256, and case mapping is that of ASCII.
    - An integer too large for a float becomes an infinity, where Python raises.
    - [instant_in_range] is checked where the source converts to UTC or adds a
      [timedelta] to a datetime that came from outside; differences of instants
      and the calendar's wall clocks are unbounded.

    ** Not modelled

    Pricing, densities, exposures and volatility surfaces need [exp], [log] and
    arrays of third-party libraries, for which the exact float model has no
    counterpart.  The ranking of strategies and the market-feature frames rest
    partly on them and are left for later.  Of the shock monitor, the evaluator
    that chooses the quotes and the option-flow tape are left for later, and an
    alert keeps the fields that machines read.  Of the ES bar sampler, the
    normalized sample is an argument, and the command line, the process lock and
    the deployment's readiness check are left out; the seeding of the
    moving-average history is modelled and has no theorem yet.  Of the session
    episodes, the extremes of the ATM straddle are left out, and a cycle saves
    its state (the service can also keep it in memory between saves).  Of the trade alerts, the making of intents, the producer's ledger and the
    prompts of the writer are left out.  Of the IBKR stream, the SPY lane, the
    pins, the slow poll, the replan controller with its price reference, the
    flush and the connection itself are left out; the lanes that are not modelled
    are sets of labels that stay as they are.  Research
    code, notebooks and backtests do not run in the deployed system.  Command
    lines, HTTP, event loops, subprocesses, file locking, database engines and
    every text meant for people are I/O around the modelled operations. *)

From stdpp Require Import base list strings gmap numbers sorting.
From Stdlib Require Import ZArith Lia.

#[local] Open Scope Z_scope.

(** ** Python exceptions and fallible results *)

Inductive pyexn :=
  | ValueError | KeyError | TypeError | IndexError | AttributeError
  | ZeroDivisionError | OverflowError | AssertionError | RuntimeError
  | NoResultFound | IntegrityError | IOFailure
  (** not an exception of Python: a bounded loop of the model ran out of fuel;
      every loop comes with the theorem that this never happens *)
  | OutOfFuel.

#[global] Instance pyexn_eq_dec : EqDecision pyexn.
Proof. solve_decision. Defined.

(** A Python call either returns a value or raises. *)
Inductive res (A : Type) :=
  | Ok (a : A)
  | Err (e : pyexn).
Arguments Ok {A} a.
Arguments Err {A} e.

#[global] Instance res_ret : MRet res := fun _ a => Ok a.
#[global] Instance res_bind : MBind res := fun _ _ k m =>
  match m with Ok a => k a | Err e => Err e end.
#[global] Instance res_fmap : FMap res := fun _ _ f m =>
  match m with Ok a => Ok (f a) | Err e => Err e end.

(** [raise_unless b e]: the guard [if not b: raise e]. *)
Definition raise_unless (b : bool) (e : pyexn) : res unit :=
  if b then Ok tt else Err e.

(** [try m except exns: h]: [h] runs when [m] raises one of [exns]. *)
Definition try_except {A} (m : res A) (exns : list pyexn) (h : res A) : res A :=
  match m with
  | Ok a => Ok a
  | Err e => if decide (e ∈ exns) then h else Err e
  end.

Definition of_option {A} (e : pyexn) (o : option A) : res A :=
  match o with Some a => Ok a | None => Err e end.

Fixpoint res_mapM {A B} (f : A → res B) (l : list A) : res (list B) :=
  match l with
  | [] => Ok []
  | a :: l => b ← f a; bs ← res_mapM f l; Ok (b :: bs)
  end.

Fixpoint res_filter {A} (p : A → res bool) (l : list A) : res (list A) :=
  match l with
  | [] => Ok []
  | a :: l => b ← p a; r ← res_filter p l; Ok (if b : bool then a :: r else r)
  end.

Definition is_ok {A} (m : res A) : Prop := ∃ a, m = Ok a.

Lemma res_bind_ok {A B} (m : res A) (k : A → res B) b :
  m ≫= k = Ok b ↔ ∃ a, m = Ok a ∧ k a = Ok b.
Proof. destruct m; cbn; naive_solver. Qed.

Lemma res_bind_err {A B} (m : res A) (k : A → res B) e :
  m ≫= k = Err e ↔ m = Err e ∨ ∃ a, m = Ok a ∧ k a = Err e.
Proof. destruct m; cbn; naive_solver. Qed.

Lemma res_fmap_ok {A B} (f : A → B) (m : res A) b :
  f <$> m = Ok b ↔ ∃ a, m = Ok a ∧ b = f a.
Proof. destruct m; cbn; naive_solver. Qed.

Lemma raise_unless_ok b e u : raise_unless b e = Ok u ↔ b = true.
Proof. destruct b, u; cbn; naive_solver. Qed.

(** ** Booleans and comparisons over [Z] *)

Lemma Z_leb_Z_le a b : (a <=? b) = true ↔ a ≤ b.
Proof. apply Z.leb_le. Qed.

(** Reflect the boolean tests of the source into propositions. *)
Ltac bool_to_prop :=
  repeat match goal with
  | H : (_ && _)%bool = true |- _ => apply andb_true_iff in H as [? ?]
  | H : (_ || _)%bool = false |- _ => apply orb_false_iff in H as [? ?]
  | H : negb _ = true |- _ => apply negb_true_iff in H
  | H : negb _ = false |- _ => apply negb_false_iff in H
  | H : (_ <=? _) = true |- _ => apply Z.leb_le in H
  | H : (_ <=? _) = false |- _ => apply Z.leb_gt in H
  | H : (_ <? _) = true |- _ => apply Z.ltb_lt in H
  | H : (_ <? _) = false |- _ => apply Z.ltb_ge in H
  | H : (_ =? _) = true |- _ => apply Z.eqb_eq in H
  | H : (_ =? _) = false |- _ => apply Z.eqb_neq in H
  | H : bool_decide _ = true |- _ => apply bool_decide_eq_true_1 in H
  | H : bool_decide _ = false |- _ => apply bool_decide_eq_false_1 in H
  end.

(** Split every [if] and [match] of a hypothesis or of the goal, closing
    the impossible branches. *)
Ltac split_cases := repeat (case_match; simplify_eq/=; try done).

(** Invert a chain of monadic binds that returned [Ok]. *)
Ltac res_inv :=
  repeat match goal with
  | H : mbind _ _ = Ok _ |- _ =>
      apply res_bind_ok in H as (? & ? & H)
  | H : raise_unless _ _ = Ok _ |- _ => apply raise_unless_ok in H
  | H : Ok _ = Ok _ |- _ => injection H as H; try subst
  | H : mret _ = Ok _ |- _ => injection H as H; try subst
  | H : Err _ = Ok _ |- _ => discriminate H
  end.

Lemma res_mapM_elem {A B} (f : A → res B) l ys y :
  res_mapM f l = Ok ys → y ∈ ys ↔ ∃ x, x ∈ l ∧ f x = Ok y.
Proof.
  revert ys. induction l as [|x l IH]; intros ys E; cbn in E.
  { injection E as <-. split; [by intros []%not_elem_of_nil|]. by intros (? & []%not_elem_of_nil & _). }
  res_inv. rename x0 into b, x1 into bs. subst. rewrite elem_of_cons, (IH bs) by done. split.
  - intros [->|(x' & ? & ?)]; [exists x; split; [by left|done]|exists x'; split; [by right|done]].
  - intros (x' & [->|]%elem_of_cons & ?); [left; congruence|right; eauto].
Qed.

Lemma res_mapM_total {A B} (f : A → res B) l : (∀ x, x ∈ l → is_ok (f x)) → is_ok (res_mapM f l).
Proof.
  induction l as [|x l IH]; intros H; [by eexists|]. destruct (H x ltac:(by left)) as [y Hy].
  destruct IH as [ys Hys]; [intros; apply H; by right|]. exists (y :: ys). cbn. by rewrite Hy, Hys.
Qed.

Lemma res_mapM_is_ok {A B} (f : A → res B) l ys x : res_mapM f l = Ok ys → x ∈ l → is_ok (f x).
Proof.
  intros E Hx. revert ys E. induction Hx as [|x y l _ IH]; intros ys E; cbn in E; res_inv; [by eexists|by eapply IH].
Qed.

(** Case on the outermost test of a hypothesis. *)
Ltac split_if H := match type of H with (if ?b then _ else _) = _ => destruct b eqn:? end.

(** Decide a closed proposition, such as a literal key being among literal keys. *)
Ltac in_list := apply (bool_decide_eq_true_1 _); reflexivity.
Ltac not_in := in_list.

Create HintDb spx discriminated.
#[export] Hint Resolve Z.le_refl Z.lt_le_incl : spx.

(** ** Lists *)

(** Python's [max(l, key=f)]: the first element whose key no other beats;
    [gt] is the strict order of the keys. *)
Fixpoint max_by_from {A} (gt : A → A → bool) (best : A) (l : list A) : A :=
  match l with
  | [] => best
  | a :: l => max_by_from gt (if gt a best then a else best) l
  end.

Definition max_by {A} (gt : A → A → bool) (l : list A) : option A :=
  match l with [] => None | a :: l => Some (max_by_from gt a l) end.

(** Python's [min(l, key=f)]: the first element no other is below. *)
Definition min_by {A} (lt : A → A → bool) (l : list A) : option A := max_by lt l.

Lemma max_by_from_elem {A} (gt : A → A → bool) b l :
  max_by_from gt b l = b ∨ max_by_from gt b l ∈ l.
Proof.
  revert b. induction l as [|a l IH]; intros b; cbn; [by left|].
  destruct (IH (if gt a b then a else b)) as [H|H].
  - rewrite H. destruct (gt a b); [right; left | by left].
  - right. by right.
Qed.

Lemma max_by_elem {A} (gt : A → A → bool) l m : max_by gt l = Some m → m ∈ l.
Proof.
  destruct l as [|a l]; cbn; [done|]. intros [= <-].
  destruct (max_by_from_elem gt a l) as [->|]; [left | by right].
Qed.

Lemma max_by_None {A} (gt : A → A → bool) l : max_by gt l = None ↔ l = [].
Proof. destruct l; cbn; naive_solver. Qed.

(** When [gt] compares an integer key, the result has the largest key. *)
Lemma max_by_from_key {A} (f : A → Z) b l :
  f b ≤ f (max_by_from (λ a c, f c <? f a) b l) ∧
  ∀ a, a ∈ l → f a ≤ f (max_by_from (λ a c, f c <? f a) b l).
Proof.
  revert b. induction l as [|a l IH]; intros b; cbn.
  { split; [lia|]. intros ? []%not_elem_of_nil. }
  destruct (Z.ltb_spec (f b) (f a)) as [Hlt|Hge].
  - destruct (IH a) as [H1 H2]. split; [lia|].
    intros c [->|Hc]%elem_of_cons; [done | auto].
  - destruct (IH b) as [H1 H2]. split; [done|].
    intros c [->|Hc]%elem_of_cons; [lia | auto].
Qed.

Lemma max_by_key {A} (f : A → Z) l m :
  max_by (λ a c, f c <? f a) l = Some m → m ∈ l ∧ ∀ a, a ∈ l → f a ≤ f m.
Proof.
  intros H. split; [by eapply max_by_elem|].
  destruct l as [|b l]; cbn in *; [done|]. injection H as <-.
  destruct (max_by_from_key f b l) as [H1 H2].
  intros a [->|Ha]%elem_of_cons; auto.
Qed.

(** With a transitive order, no element of the list beats the result. *)
Lemma max_by_from_above {A} (gt : A → A → bool) (b : A) l :
  (∀ x y z, gt x y = true → gt y z = true → gt x z = true) →
  max_by_from gt b l = b ∨ gt (max_by_from gt b l) b = true.
Proof.
  intros Htr. revert b. induction l as [|a l IH]; intros b; cbn; [by left|].
  destruct (gt a b) eqn:E; [|by apply IH].
  right. destruct (IH a) as [->|H]; [done|by eapply Htr].
Qed.

Lemma max_by_from_best {A} (gt : A → A → bool) (b : A) l :
  (∀ x, gt x x = false) → (∀ x y z, gt x y = true → gt y z = true → gt x z = true) →
  ∀ x, x = b ∨ x ∈ l → gt x (max_by_from gt b l) = false.
Proof.
  intros Hirr Htr. revert b. induction l as [|a l IH]; intros b x Hx; cbn.
  { destruct Hx as [->|[]%not_elem_of_nil]. apply Hirr. }
  rewrite elem_of_cons in Hx. destruct (gt a b) eqn:E.
  - destruct Hx as [->|[->|Hx]]; [|apply IH; auto..].
    apply not_true_is_false. intros Hb. pose proof (Htr _ _ _ E Hb) as Ha.
    rewrite (IH a a) in Ha by auto. done.
  - destruct Hx as [->|[->|Hx]]; [apply IH; auto| |apply IH; auto].
    destruct (max_by_from_above gt b l Htr) as [->|Hm]; [done|].
    apply not_true_is_false. intros Ha. rewrite (Htr _ _ _ Ha Hm) in E. done.
Qed.

Lemma max_by_best {A} (gt : A → A → bool) l m :
  (∀ x, gt x x = false) → (∀ x y z, gt x y = true → gt y z = true → gt x z = true) →
  max_by gt l = Some m → m ∈ l ∧ ∀ x, x ∈ l → gt x m = false.
Proof.
  intros Hirr Htr H. split; [by eapply max_by_elem|].
  destruct l as [|b l]; cbn in H; [done|]. injection H as <-. intros x Hx.
  apply max_by_from_best; [done|done|]. by apply elem_of_cons in Hx.
Qed.

(** The choice only depends on what the order compares. *)
Lemma max_by_Forall2 {A B} (R : A → B → Prop) (gt : A → A → bool) (gt' : B → B → bool) l m :
  (∀ a b x y, R a x → R b y → gt a b = gt' x y) →
  Forall2 R l m → option_Forall2 R (max_by gt l) (max_by gt' m).
Proof.
  intros Hgt [|a x l' m' Hax Hl]; cbn; [constructor|]. constructor.
  revert a x Hax. induction Hl as [|b y l' m' Hby _ IH]; intros a x Hax; cbn; [done|].
  apply IH. rewrite (Hgt b a y x) by done. by destruct (gt' y x).
Qed.

Lemma Forall2_elem_l {A B} (R : A → B → Prop) xs ys x : Forall2 R xs ys → x ∈ xs → ∃ y, y ∈ ys ∧ R x y.
Proof using.
  induction 1 as [|a b xs ys Hab _ IH]; [by intros []%not_elem_of_nil|]. intros [->|Hx]%elem_of_cons.
  - exists b. split; [left|done].
  - destruct (IH Hx) as (y & Hy & Hr). exists y. split; [by right|done].
Qed.
Lemma Forall2_elem_r {A B} (R : A → B → Prop) xs ys y : Forall2 R xs ys → y ∈ ys → ∃ x, x ∈ xs ∧ R x y.
Proof. intros H%Forall2_flip. apply (Forall2_elem_l (flip R)), H. Qed.

(** Python's stable [sorted(l, key=f)], [lt] being the order of the keys. *)
Fixpoint insert_by {A} (lt : A → A → bool) (x : A) (l : list A) : list A :=
  match l with
  | [] => [x]
  | y :: l => if lt y x then y :: insert_by lt x l else x :: y :: l
  end.
Definition sort_by {A} (lt : A → A → bool) (l : list A) : list A := foldr (insert_by lt) [] l.

Lemma insert_by_perm {A} (lt : A → A → bool) x l : insert_by lt x l ≡ₚ x :: l.
Proof.
  induction l as [|y l IH]; cbn; [done|]. destruct (lt y x); [|done]. rewrite IH. constructor.
Qed.

Lemma sort_by_perm {A} (lt : A → A → bool) l : sort_by lt l ≡ₚ l.
Proof.
  unfold sort_by. induction l as [|x l IH]; cbn; [done|]. by rewrite insert_by_perm, IH.
Qed.

(** Sorting commutes with a map that respects the order. *)
Lemma insert_by_sorted {A} (lt : A → A → bool) (R : A → A → Prop) `{!Transitive R} x l :
  (∀ y, lt y x = true → R y x) → (∀ y, lt y x = false → R x y) →
  StronglySorted R l → StronglySorted R (insert_by lt x l).
Proof.
  intros Ht Hf. induction 1 as [|y l Hl IH Hy]; cbn; [repeat constructor|]. destruct (lt y x) eqn:E.
  - constructor; [done|]. rewrite insert_by_perm. constructor; [by apply Ht|done].
  - constructor; [by constructor|]. apply Hf in E. constructor; [done|]. eapply Forall_impl; [exact Hy|]. intros z Hz. by etrans.
Qed.

Lemma sort_by_sorts {A} (lt : A → A → bool) (R : A → A → Prop) `{!Transitive R} l :
  (∀ x y, lt y x = true → R y x) → (∀ x y, lt y x = false → R x y) → StronglySorted R (sort_by lt l).
Proof. intros Ht Hf. unfold sort_by. induction l as [|x l IH]; [constructor|]. by apply insert_by_sorted; auto. Qed.

Lemma sort_by_map {A B} (lt : A → A → bool) (lt' : B → B → bool) (f : A → B) l :
  (∀ x y, lt' (f x) (f y) = lt x y) → map f (sort_by lt l) = sort_by lt' (map f l).
Proof.
  intros Hf. unfold sort_by. induction l as [|x l IH]; [done|]. cbn. rewrite <- IH.
  generalize (foldr (insert_by lt) [] l) as m. induction m as [|y m IHm]; [done|]. cbn.
  rewrite Hf. destruct (lt y x); cbn; by rewrite ?IHm.
Qed.

Lemma sort_by_nil {A} (lt : A → A → bool) l : sort_by lt l = [] → l = [].
Proof. intros H. pose proof (sort_by_perm lt l) as P. rewrite H in P. by apply Permutation.Permutation_nil in P. Qed.

(** [dict.fromkeys(l)] keeps the first occurrence of each element. *)
Fixpoint dedup_keep_first {A} `{EqDecision A} (seen l : list A) : list A :=
  match l with
  | [] => []
  | a :: l => if decide (a ∈ seen) then dedup_keep_first seen l
              else a :: dedup_keep_first (a :: seen) l
  end.

Lemma dedup_keep_first_NoDup {A} `{EqDecision A} (seen l : list A) :
  NoDup (dedup_keep_first seen l) ∧
  ∀ a, a ∈ dedup_keep_first seen l ↔ a ∈ l ∧ a ∉ seen.
Proof.
  revert seen. induction l as [|x l IH]; intros seen; cbn.
  { split; [constructor|]. intros a. rewrite elem_of_nil. naive_solver. }
  case_decide as Hx.
  - destruct (IH seen) as [Hn He]. split; [done|]. intros a. rewrite He.
    set_solver.
  - destruct (IH (x :: seen)) as [Hn He]. split.
    + constructor; [|done]. rewrite He. set_solver.
    + intros a. rewrite elem_of_cons, He, elem_of_cons, !elem_of_cons.
      destruct (decide (a = x)) as [->|]; naive_solver.
Qed.

Lemma dedup_nil {A} `{EqDecision A} (l : list A) : dedup_keep_first [] l = [] → l = [].
Proof. destruct l as [|a l]; [done|]. cbn. by rewrite decide_False by apply not_elem_of_nil. Qed.

Lemma dedup_NoDup {A} `{EqDecision A} (seen l : list A) : NoDup l → (∀ a, a ∈ l → a ∉ seen) → dedup_keep_first seen l = l.
Proof.
  revert seen. induction l as [|a l IH]; intros seen Hn Hs; [done|]. inversion Hn as [|? ? Ha Hn']; subst. cbn.
  rewrite decide_False by (apply Hs; left). f_equal. apply IH; [done|]. intros b Hb [->|Hc]%elem_of_cons; [done|].
  apply (Hs b); [by right|done].
Qed.

Lemma filter_all {A} (P : A → Prop) `{∀ x, Decision (P x)} l : Forall P l → filter P l = l.
Proof. induction 1 as [|x l Hx _ IH]; [done|]. by rewrite filter_cons_True, IH by done. Qed.
Lemma filter_none {A} (P : A → Prop) `{∀ x, Decision (P x)} l : Forall (λ x, ¬ P x) l → filter P l = [].
Proof. induction 1 as [|x l Hx _ IH]; [done|]. by rewrite filter_cons_False, IH by done. Qed.

(** ** While loops

    [while_loop p step s] runs [step] at most [p] times, where [inl] is the
    state of the next iteration and [inr] leaves the loop.  The fuel is binary,
    so a generous bound costs nothing. *)
Fixpoint while_loop {S R} (p : positive) (step : S → S + R) (s : S) : S + R :=
  match p with
  | xH => step s
  | xO p => match while_loop p step s with
            | inl s => while_loop p step s
            | inr r => inr r
            end
  | xI p => match step s with
            | inl s => match while_loop p step s with
                       | inl s => while_loop p step s
                       | inr r => inr r
                       end
            | inr r => inr r
            end
  end.

(** The same loop with unary fuel, for induction. *)
Fixpoint while_nat {S R} (n : nat) (step : S → S + R) (s : S) : S + R :=
  match n with
  | O => inl s
  | Datatypes.S n => match step s with inl s => while_nat n step s | inr r => inr r end
  end.

Lemma while_nat_add {S R} n m (step : S → S + R) s :
  while_nat (n + m) step s =
  match while_nat n step s with inl s => while_nat m step s | inr r => inr r end.
Proof. revert s. induction n as [|n IH]; intros s; cbn; [done|]. by destruct (step s). Qed.

Lemma while_loop_nat {S R} p (step : S → S + R) s :
  while_loop p step s = while_nat (Pos.to_nat p) step s.
Proof.
  revert s. induction p as [p IH|p IH|]; intros s; cbn [while_loop].
  - rewrite Pos2Nat.inj_xI. cbn [while_nat]. destruct (step s) as [s'|]; [|done].
    replace (2 * Pos.to_nat p)%nat with (Pos.to_nat p + Pos.to_nat p)%nat by lia.
    rewrite while_nat_add, IH. by destruct (while_nat _ step s').
  - rewrite Pos2Nat.inj_xO.
    replace (2 * Pos.to_nat p)%nat with (Pos.to_nat p + Pos.to_nat p)%nat by lia.
    rewrite while_nat_add, IH. by destruct (while_nat _ step s).
  - change (Pos.to_nat 1) with 1%nat. cbn. by destruct (step s).
Qed.

(** Total correctness: an invariant and a measure that every iteration
    decreases give a result that satisfies the postcondition. *)
Lemma while_loop_total {S R} p (step : S → S + R) (I : S → Prop) (mu : S → Z) (Q : R → Prop) :
  (∀ s, I s → match step s with inl s' => I s' ∧ 0 ≤ mu s' < mu s | inr r => Q r end) →
  ∀ s, I s → mu s < Zpos p → ∃ r, while_loop p step s = inr r ∧ Q r.
Proof.
  intros Hstep s HI Hp. rewrite while_loop_nat.
  assert (Hn : mu s < Z.of_nat (Pos.to_nat p)) by lia. clear Hp.
  assert (H0 : (0 < Pos.to_nat p)%nat) by lia. revert s HI Hn H0.
  generalize (Pos.to_nat p) as n. induction n as [|n IH]; intros s HI Hn H0; [lia|].
  cbn. specialize (Hstep s HI) as Hs. destruct (step s) as [s'|r]; [|by eauto].
  destruct Hs as [HI' Hmu]. apply (IH s' HI'); lia.
Qed.
