(* ===== verification/PyStr.v ===== *)
(** * Python text

    The [str] operations the source uses, on [string].  Text is modelled by
    its ASCII characters: case mapping, digits and white space are those of
    ASCII, which is what every identifier, timestamp, provider code and error
    marker of the program uses.  Decimal printing and parsing of integers come
    with their round trip. *)

From stdpp Require Import base list strings numbers pretty.
From Stdlib Require Import ZArith Lia.
From S2P Require Import Prelude.

#[local] Open Scope Z_scope.

Definition ascii_code (c : Ascii.ascii) : Z := Z.of_N (Ascii.N_of_ascii c).
Definition ascii_chr (z : Z) : Ascii.ascii := Ascii.ascii_of_N (Z.to_N z).

Definition chr_lower (c : Ascii.ascii) : Ascii.ascii :=
  let z := ascii_code c in if (65 <=? z) && (z <=? 90) then ascii_chr (z + 32) else c.
Definition chr_upper (c : Ascii.ascii) : Ascii.ascii :=
  let z := ascii_code c in if (97 <=? z) && (z <=? 122) then ascii_chr (z - 32) else c.
Definition chr_is_digit (c : Ascii.ascii) : bool :=
  let z := ascii_code c in (48 <=? z) && (z <=? 57).
Definition chr_is_space (c : Ascii.ascii) : bool :=
  let z := ascii_code c in
  ((9 <=? z) && (z <=? 13)) || ((28 <=? z) && (z <=? 32)).

Fixpoint str_map (f : Ascii.ascii → Ascii.ascii) (s : string) : string :=
  match s with "" => "" | String c s => String (f c) (str_map f s) end.
Definition str_lower : string → string := str_map chr_lower.
Definition str_upper : string → string := str_map chr_upper.

Fixpoint str_len (s : string) : Z :=
  match s with "" => 0 | String _ s => 1 + str_len s end.

Fixpoint str_take (n : nat) (s : string) : string :=
  match n, s with S n, String c s => String c (str_take n s) | _, _ => "" end.
Fixpoint str_drop (n : nat) (s : string) : string :=
  match n, s with S n, String _ s => str_drop n s | _, s => s end.
(** [s[i:j]] for [0 <= i <= j]. *)
Definition str_slice (i j : nat) (s : string) : string := str_take (j - i) (str_drop i s).
(** [s[i:i+1]]: the character at [i] as a string, empty past the end. *)
Definition str_at (i : nat) (s : string) : string := str_slice i (S i) s.

Definition str_starts (p s : string) : bool := String.prefix p s.

(** [needle in s]. *)
Fixpoint str_contains (needle s : string) : bool :=
  str_starts needle s ||
  match s with "" => false | String _ s => str_contains needle s end.

(** [s.find(c)] for one character: the index of its first occurrence. *)
Fixpoint str_find_chr (c : Ascii.ascii) (s : string) : option nat :=
  match s with
  | "" => None
  | String d s => if Ascii.eqb c d then Some O else S <$> str_find_chr c s
  end.

Fixpoint str_all (p : Ascii.ascii → bool) (s : string) : bool :=
  match s with "" => true | String c s => p c && str_all p s end.

(** [s.isdigit()]. *)
Definition str_isdigit (s : string) : bool := negb (String.eqb s "") && str_all chr_is_digit s.

Fixpoint str_lstrip (s : string) : string :=
  match s with
  | "" => ""
  | String c s' => if chr_is_space c then str_lstrip s' else s
  end.
Fixpoint str_rev_app (s t : string) : string :=
  match s with "" => t | String c s => str_rev_app s (String c t) end.
Definition str_rev (s : string) : string := str_rev_app s "".
(** [s.endswith(suffix)]. *)
Definition str_ends (suffix s : string) : bool := str_starts (str_rev suffix) (str_rev s).
Definition str_rstrip (s : string) : string := str_rev (str_lstrip (str_rev s)).
Definition str_strip (s : string) : string := str_rstrip (str_lstrip s).

(** [s.replace(old, new)] for a one-character [old]. *)
Fixpoint str_replace_chr (old : Ascii.ascii) (new s : string) : string :=
  match s with
  | "" => ""
  | String c s =>
      if Ascii.eqb c old then new +:+ str_replace_chr old new s
      else String c (str_replace_chr old new s)
  end.

(** [sep.join(l)]. *)
Fixpoint str_join (sep : string) (l : list string) : string :=
  match l with
  | [] => ""
  | [s] => s
  | s :: l => s +:+ sep +:+ str_join sep l
  end.

(** ** Decimal digits *)

Definition digit_chr (d : Z) : Ascii.ascii := ascii_chr (48 + d).
Definition chr_digit (c : Ascii.ascii) : option Z :=
  if chr_is_digit c then Some (ascii_code c - 48) else None.

(** The last [w] decimal digits of [z], zero padded: [f"{z:0wd}"] for
    [0 <= z < 10^w]. *)
Fixpoint zpad (w : nat) (z : Z) : string :=
  match w with
  | O => ""
  | S w => zpad w (z / 10) +:+ String (digit_chr (z mod 10)) ""
  end.

(** [int(s)] restricted to a run of decimal digits. *)
Fixpoint digits_from (acc : Z) (s : string) : option Z :=
  match s with
  | "" => Some acc
  | String c s => d ← chr_digit c; digits_from (10 * acc + d) s
  end.
Definition parse_digits (s : string) : option Z :=
  match s with "" => None | _ => digits_from 0 s end.

(** [str(z)] for an integer. *)
Definition str_of_Z (z : Z) : string := pretty z.

Lemma chr_digit_chr d : 0 ≤ d < 10 → chr_digit (digit_chr d) = Some d.
Proof.
  intros Hd.
  assert (d = 0 ∨ d = 1 ∨ d = 2 ∨ d = 3 ∨ d = 4 ∨ d = 5 ∨ d = 6 ∨ d = 7 ∨ d = 8 ∨ d = 9)
    as Hc by lia.
  repeat destruct Hc as [->|Hc]; try reflexivity. by rewrite Hc.
Qed.

Lemma str_app_cons c s t : String c s +:+ t = String c (s +:+ t).
Proof. reflexivity. Qed.

Lemma str_app_sing c t : String c "" +:+ t = String c t.
Proof. reflexivity. Qed.

Lemma digits_from_app acc s t :
  digits_from acc (s +:+ t) = (a ← digits_from acc s; digits_from a t).
Proof.
  revert acc. induction s as [|c s IH]; intros acc; [done|].
  rewrite str_app_cons. cbn.
  destruct (chr_digit c); cbn; [apply IH | done].
Qed.

Lemma digits_from_zpad w z acc :
  0 ≤ z < 10 ^ Z.of_nat w →
  digits_from acc (zpad w z) = Some (acc * 10 ^ Z.of_nat w + z).
Proof.
  revert z acc. induction w as [|w IH]; intros z acc Hz.
  { cbn in *. f_equal. lia. }
  rewrite Nat2Z.inj_succ, Z.pow_succ_r in Hz by lia.
  cbn [zpad]. rewrite digits_from_app, IH; cycle 1.
  { split; [apply Z.div_pos; lia | apply Z.div_lt_upper_bound; lia]. }
  cbn. rewrite chr_digit_chr by (apply Z.mod_pos_bound; lia). cbn.
  rewrite Nat2Z.inj_succ, Z.pow_succ_r by lia. f_equal.
  pose proof (Z.div_mod z 10). lia.
Qed.

(** Printing with leading zeros and reading back is the identity. *)
Lemma parse_digits_zpad w z :
  (0 < w)%nat → 0 ≤ z < 10 ^ Z.of_nat w → parse_digits (zpad w z) = Some z.
Proof.
  intros Hw Hz. unfold parse_digits.
  destruct (zpad w z) eqn:E.
  - destruct w; [lia|]. cbn in E. by destruct (zpad w (z / 10)).
  - rewrite <- E. rewrite digits_from_zpad; [f_equal; lia | done].
Qed.

Lemma str_len_app s t : str_len (s +:+ t) = str_len s + str_len t.
Proof.
  induction s as [|c s IH]; [done|].
  change (String c s +:+ t) with (String c (s +:+ t)). cbn. lia.
Qed.

Lemma str_len_zpad w z : str_len (zpad w z) = Z.of_nat w.
Proof.
  revert z. induction w as [|w IH]; intros z; cbn [zpad]; [done|].
  rewrite str_len_app, IH. cbn. lia.
Qed.

Lemma str_app_assoc (s t u : string) : (s +:+ t) +:+ u = s +:+ (t +:+ u).
Proof. induction s as [|c s IH]; [done|]. by rewrite !str_app_cons, IH. Qed.

Lemma str_app_nil_r (s : string) : s +:+ "" = s.
Proof. induction s as [|c s IH]; [done|]. by rewrite str_app_cons, IH. Qed.

Lemma str_all_app p s t : str_all p (s +:+ t) = str_all p s && str_all p t.
Proof.
  induction s as [|c s IH]; [done|]. rewrite str_app_cons. cbn.
  by rewrite IH, andb_assoc.
Qed.

(** ** The order of strings *)

Lemma str_compare_trans s t u :
  String.compare s t = Lt → String.compare t u = Lt → String.compare s u = Lt.
Proof.
  revert t u. induction s as [|a s IH]; intros [|b t] [|c u]; cbn; try done.
  unfold Ascii.compare. intros H1 H2.
  destruct (N.compare_spec (Ascii.N_of_ascii a) (Ascii.N_of_ascii b)) as [E|E|E]; [| |done];
    destruct (N.compare_spec (Ascii.N_of_ascii b) (Ascii.N_of_ascii c)) as [E'|E'|E']; try done.
  - rewrite E, E', N.compare_refl. eauto.
  - rewrite E. by rewrite (proj2 (N.compare_lt_iff _ _) E').
  - rewrite <- E'. by rewrite (proj2 (N.compare_lt_iff _ _) E).
  - by rewrite (proj2 (N.compare_lt_iff _ _) (N.lt_trans _ _ _ E E')).
Qed.

Lemma str_ltb_trans s t u : String.ltb s t = true → String.ltb t u = true → String.ltb s u = true.
Proof.
  unfold String.ltb. intros H1 H2.
  destruct (String.compare s t) eqn:E1; [done| |done].
  destruct (String.compare t u) eqn:E2; [done| |done].
  by rewrite (str_compare_trans _ _ _ E1 E2).
Qed.

Lemma str_ltb_irrefl s : String.ltb s s = false.
Proof.
  unfold String.ltb. destruct (String.compare s s) eqn:E; [done| |done].
  pose proof (String.compare_antisym s s) as H. rewrite E in H. done.
Qed.
