(* ===== verification/PyFloat.v ===== *)
(** * Python floats

    IEEE 754 binary64 with round-to-nearest-even, computed exactly on the
    [spec_float] type of the standard library (precision 53, [emax] 1024):
    the arithmetic, comparisons, conversions and rounding that the source
    performs on prices and on [timedelta.total_seconds()]. *)

From stdpp Require Import base list.
From Stdlib Require Import ZArith Lia SpecFloat.
From S2P Require Import Prelude.

#[local] Open Scope Z_scope.

Abbreviation float := spec_float.

#[global] Instance float_eq_dec : EqDecision float.
Proof. solve_decision. Defined.

Definition prec : Z := 53.
Definition emax : Z := 1024.

Definition fadd : float → float → float := SFadd prec emax.
Definition fsub : float → float → float := SFsub prec emax.
Definition fmul : float → float → float := SFmul prec emax.
Definition fdiv_ieee : float → float → float := SFdiv prec emax.
Definition fopp : float → float := SFopp.
Definition fabs : float → float := SFabs.
Definition fltb : float → float → bool := SFltb.
Definition fleb : float → float → bool := SFleb.
Definition feqb : float → float → bool := SFeqb.
Definition fgtb (x y : float) : bool := fltb y x.
Definition fgeb (x y : float) : bool := fleb y x.

Definition f_is_nan (x : float) : bool := match x with S754_nan => true | _ => false end.
Definition f_is_inf (x : float) : bool := match x with S754_infinity _ => true | _ => false end.
Definition f_is_zero (x : float) : bool := match x with S754_zero _ => true | _ => false end.

(** Python's [x / y] raises on a zero divisor. *)
Definition fdiv (x y : float) : res float :=
  if f_is_zero y then Err ZeroDivisionError else Ok (fdiv_ieee x y).

(** [max(a, b)] and [min(a, b)] keep their first argument unless the second
    one is strictly better. *)
Definition fmax (a b : float) : float := if fgtb b a then b else a.
Definition fmin (a b : float) : float := if fltb b a then b else a.

(** [float(z)]. *)
Definition f_of_Z (z : Z) : float := binary_normalize prec emax z 0 false.

(** The quotient of two integers, correctly rounded: [n / d] for [int]s. *)
Definition f_of_ratio (n d : Z) : float :=
  if n =? 0 then S754_zero false
  else let '(m, e, l) := SFdiv_core_binary prec emax (Z.abs n) 0 d 0 in
       binary_round_aux prec emax (n <? 0) m e l.

(** The float denoted by the decimal literal [n/10^k]. *)
Definition f_lit (n : Z) (k : nat) : float := f_of_ratio n (10 ^ Z.of_nat k).

(** [timedelta.total_seconds()] of a duration in microseconds. *)
Definition total_seconds (us : Z) : float := f_of_ratio us 1000000.

(** [int(x)]: truncation towards zero. *)
Definition f_trunc (x : float) : res Z :=
  match x with
  | S754_zero _ => Ok 0
  | S754_infinity _ => Err OverflowError
  | S754_nan => Err ValueError
  | S754_finite s m e =>
      let a := if 0 <=? e then Zpos m * 2 ^ e else Zpos m / 2 ^ (- e) in
      Ok (if s then - a else a)
  end.

(** A finite float as an exact fraction. *)
Definition f_ratio (x : float) : option (Z * Z) :=
  match x with
  | S754_zero _ => Some (0, 1)
  | S754_finite s m e =>
      let n := if s then Zneg m else Zpos m in
      Some (if 0 <=? e then (n * 2 ^ e, 1) else (n, 2 ^ (- e)))
  | _ => None
  end.

(** Round half to even of [n/d], [0 < d]. *)
Definition div_half_even (n d : Z) : Z :=
  let q := n / d in let r := n mod d in
  match 2 * r ?= d with
  | Lt => q
  | Gt => q + 1
  | Eq => if Z.even q then q else q + 1
  end.

(** [round(x, k)]. *)
Definition f_round (k : nat) (x : float) : float :=
  match f_ratio x with
  | Some (n, d) =>
      let p := 10 ^ Z.of_nat k in
      let q := div_half_even (Z.abs n * p) d in
      if q =? 0 then S754_zero (match x with S754_zero s | S754_finite s _ _ => s | _ => false end)
      else f_of_ratio (if n <? 0 then - q else q) p
  | None => x
  end.

(** [round(x)]: the nearest integer, ties to even. *)
Definition f_round_int (x : float) : res Z :=
  match f_ratio x, x with
  | Some (n, d), _ => Ok (div_half_even n d)
  | None, S754_nan => Err ValueError
  | None, _ => Err OverflowError
  end.

Definition f_is_integer (x : float) : bool :=
  match f_ratio x with Some (n, d) => n mod d =? 0 | None => false end.

(** ** Order *)

Lemma fcompare_antisym x y :
  SFcompare y x = CompOpp <$> SFcompare x y.
Proof.
  destruct x as [s|s| |s m e], y as [s'|s'| |s' m' e']; cbn; try reflexivity;
    try (destruct s); try (destruct s'); try reflexivity;
    rewrite (Z.compare_antisym e e'); destruct (e ?= e') eqn:?; cbn; try reflexivity;
    rewrite <- ?Pos.compare_antisym; try reflexivity;
    change (PosDef.Pos.compare_cont Eq) with Pos.compare;
    rewrite (Pos.compare_antisym m m'); destruct (Pos.compare m m'); reflexivity.
Qed.

Lemma fltb_irrefl x : fltb x x = false.
Proof.
  unfold fltb, SFltb. pose proof (fcompare_antisym x x) as H.
  destruct (SFcompare x x) as [[]|]; [done| |done |done]. cbn in H. congruence.
Qed.

Lemma fltb_asym x y : fltb x y = true → fltb y x = false.
Proof.
  unfold fltb, SFltb. rewrite (fcompare_antisym x y).
  by destruct (SFcompare x y) as [[]|].
Qed.

Lemma fltb_fleb x y : fltb x y = true → fleb x y = true.
Proof. unfold fltb, fleb, SFltb, SFleb. by destruct (SFcompare x y) as [[]|]. Qed.

(** A comparison that succeeds refutes the opposite one; nan fails both. *)
Lemma fltb_not_fleb x y : fltb x y = true → fleb y x = false.
Proof.
  unfold fltb, fleb, SFltb, SFleb. rewrite (fcompare_antisym x y).
  by destruct (SFcompare x y) as [[]|].
Qed.

Lemma fleb_not_fltb x y : fleb x y = true → fltb y x = false.
Proof.
  unfold fltb, fleb, SFltb, SFleb. rewrite (fcompare_antisym x y).
  by destruct (SFcompare x y) as [[]|].
Qed.

Lemma fcompare_nan x y : SFcompare x y = None ↔ f_is_nan x = true ∨ f_is_nan y = true.
Proof. destruct x, y; cbn; naive_solver. Qed.

Lemma fleb_total x y :
  f_is_nan x = false → f_is_nan y = false → fleb x y = negb (fltb y x).
Proof.
  intros Hx Hy. unfold fltb, fleb, SFltb, SFleb. rewrite (fcompare_antisym x y).
  destruct (SFcompare x y) as [[]|] eqn:E; [done..|].
  apply fcompare_nan in E as [?|?]; congruence.
Qed.

(** *** The order is lexicographic

    [SFcompare] compares the class, then the exponent, then the mantissa;
    [f_key] lists these with their signs, so that the order of floats is the
    order of keys. *)

Definition f_key (x : float) : option (Z * Z * Z) :=
  match x with
  | S754_nan => None
  | S754_infinity s => Some (if s then -2 else 2, 0, 0)
  | S754_zero _ => Some (0, 0, 0)
  | S754_finite s m e => Some (if s then (-1, - e, Zneg m) else (1, e, Zpos m))
  end.

Definition key_lt (a b : Z * Z * Z) : Prop :=
  let '(c, e, m) := a in let '(c', e', m') := b in
  c < c' ∨ c = c' ∧ (e < e' ∨ e = e' ∧ m < m').

Lemma fltb_key x y :
  fltb x y = true ↔ ∃ a b, f_key x = Some a ∧ f_key y = Some b ∧ key_lt a b.
Proof.
  assert (Hgen : fltb x y = true ↔ match f_key x, f_key y with
                                   | Some a, Some b => key_lt a b | _, _ => False end).
  { unfold fltb, SFltb.
    destruct x as [s|s| |s m e], y as [s'|s'| |s' m' e']; cbn -[Z.lt];
      try (destruct s); try (destruct s'); cbn -[Z.lt]; try (split; intros; first [done|lia|naive_solver lia]);
      destruct (Z.compare_spec e e'); cbn -[Z.lt];
      change (PosDef.Pos.compare_cont Eq) with Pos.compare;
      try (destruct (Pos.compare_spec m m')); cbn -[Z.lt]; split; intros; first [done|lia]. }
  rewrite Hgen. destruct (f_key x), (f_key y); naive_solver.
Qed.

Lemma feqb_key x y : feqb x y = true ↔ ∃ a, f_key x = Some a ∧ f_key y = Some a.
Proof.
  assert (Hgen : feqb x y = true ↔ match f_key x, f_key y with
                                   | Some a, Some b => a = b | _, _ => False end).
  { unfold feqb, SFeqb.
    destruct x as [s|s| |s m e], y as [s'|s'| |s' m' e']; cbn;
      try (destruct s); try (destruct s'); cbn; try (split; intros; first [done|naive_solver lia]);
      destruct (Z.compare_spec e e'); cbn;
      change (PosDef.Pos.compare_cont Eq) with Pos.compare;
      try (destruct (Pos.compare_spec m m')); cbn; split; intros; simplify_eq; first [done|lia|f_equal; lia]. }
  rewrite Hgen. destruct (f_key x), (f_key y); naive_solver.
Qed.

Lemma key_lt_trans a b c : key_lt a b → key_lt b c → key_lt a c.
Proof. destruct a as [[? ?] ?], b as [[? ?] ?], c as [[? ?] ?]. cbn. lia. Qed.

Lemma fltb_trans x y z : fltb x y = true → fltb y z = true → fltb x z = true.
Proof.
  rewrite !fltb_key. intros (a & b & Ha & Hb & H) (b' & c & Hb' & Hc & H').
  simplify_eq. exists a, c. split_and!; [done|done|by eapply key_lt_trans].
Qed.

Lemma fltb_feqb_r x y z : fltb x y = true → feqb y z = true → fltb x z = true.
Proof. rewrite !fltb_key, feqb_key. naive_solver. Qed.

Lemma fltb_feqb_l x y z : feqb x y = true → fltb y z = true → fltb x z = true.
Proof. rewrite !fltb_key, feqb_key. naive_solver. Qed.

Lemma feqb_trans x y z : feqb x y = true → feqb y z = true → feqb x z = true.
Proof. rewrite !feqb_key. naive_solver. Qed.

Lemma feqb_sym x y : feqb x y = feqb y x.
Proof. apply eq_iff_eq_true. rewrite !feqb_key. naive_solver. Qed.

Lemma fltb_not_feqb x y : fltb x y = true → feqb x y = false.
Proof.
  intros H. apply not_true_is_false. intros He. rewrite feqb_sym in He.
  pose proof (fltb_feqb_r _ _ _ H He) as Hf. by rewrite fltb_irrefl in Hf.
Qed.

(** *** Truncating a quotient of integers *)

Lemma iter_shr_1 p r :
  0 ≤ shr_m r → shr_m (iter_pos shr_1 p r) = shr_m r / 2 ^ Zpos p ∧ 0 ≤ shr_m (iter_pos shr_1 p r).
Proof.
  assert (H1 : ∀ r, 0 ≤ shr_m r → shr_m (shr_1 r) = shr_m r / 2 ∧ 0 ≤ shr_m (shr_1 r)).
  { intros [m x y] Hr. cbn in Hr. destruct m as [|[q|q|]|]; cbn; try done; split; try lia; Z.to_euclidean_division_equations; lia. }
  assert (H2 : ∀ p r a, 0 ≤ a → r / 2 ^ a / 2 ^ Zpos p = r / 2 ^ (a + Zpos p)).
  { intros q x a Ha. rewrite Z.div_div by lia. by rewrite <- Z.pow_add_r by lia. }
  revert r. induction p as [p IH|p IH|]; intros r Hr; cbn [iter_pos].
  - destruct (H1 r Hr) as [E0 N0]. destruct (IH _ N0) as [E1 N1]. destruct (IH _ N1) as [E2 N2].
    split; [|done]. rewrite E2, E1, E0, H2 by lia. change 2 with (2 ^ 1) at 1. rewrite Z.div_div by lia.
    rewrite <- Z.pow_add_r by lia. do 2 f_equal. lia.
  - destruct (IH _ Hr) as [E1 N1]. destruct (IH _ N1) as [E2 N2]. split; [|done]. rewrite E2, E1, H2 by lia. do 2 f_equal. lia.
  - destruct (H1 r Hr) as [E N]. split; [|done]. by rewrite E.
Qed.

Lemma shr_value r e n :
  0 ≤ shr_m r → shr_m (shr r e n).1 = shr_m r / 2 ^ Z.max n 0 ∧ 0 ≤ shr_m (shr r e n).1 ∧ (shr r e n).2 = e + Z.max n 0.
Proof.
  intros Hr. unfold shr. destruct n as [|p|p]; cbn [fst snd]; [rewrite Z.div_1_r; split_and!; [done|done|lia]| |rewrite Z.div_1_r; split_and!; [done|done|lia]].
  destruct (iter_shr_1 p r Hr) as [E N]. rewrite Z.max_l by lia. done.
Qed.

Lemma Zdigits2_le m k : 0 ≤ m → m < 2 ^ k → 0 ≤ k → Zdigits2 m ≤ k.
Proof.
  intros Hm Hk H0. destruct m as [|p|p]; cbn; [done| |done].
  assert (H : 2 ^ (Zpos (digits2_pos p) - 1) ≤ Zpos p).
  { clear. induction p as [p IH|p IH|]; cbn [digits2_pos]; [| |done].
    - rewrite Pos2Z.inj_succ. replace (Z.succ (Zpos (digits2_pos p)) - 1) with (Z.succ (Zpos (digits2_pos p) - 1)) by lia.
      rewrite Z.pow_succ_r by lia. lia.
    - rewrite Pos2Z.inj_succ. replace (Z.succ (Zpos (digits2_pos p)) - 1) with (Z.succ (Zpos (digits2_pos p) - 1)) by lia.
      rewrite Z.pow_succ_r by lia. lia. }
  assert (2 ^ (Zpos (digits2_pos p) - 1) < 2 ^ k) as Hlt by lia. apply Z.pow_lt_mono_r_iff in Hlt; lia.
Qed.

(** Rounding a mantissa whose unit is below one millionth of the value. *)
Lemma f_trunc_round q e l n :
  0 ≤ n → n < 2 ^ 32 * 1000000 → e ≤ -21 → q = n * 2 ^ (- e) / 1000000 →
  f_trunc (binary_round_aux prec emax false q e l) = Ok (n / 1000000).
Proof.
  intros Hn Hb He Hq. unfold binary_round_aux, shr_fexp.
  set (r0 := shr_record_of_loc q l). assert (Hr0 : shr_m r0 = q) by (subst r0; by destruct l as [|[]]).
  assert (Hq0 : 0 ≤ q) by (subst q; apply Z.div_pos; [|lia]; nia).
  set (k := fexp prec emax (Zdigits2 q + e) - e).
  destruct (shr_value r0 e k ltac:(lia)) as (Em & Nm & Ee). destruct (shr r0 e k) as [r1 E]. cbn [fst snd] in *.
  assert (HP : 0 < 2 ^ (- e)) by lia.
  assert (Hq32 : q < 2 ^ (32 - e)).
  { replace (32 - e) with (32 + - e) by lia. rewrite Z.pow_add_r by lia. subst q. apply Z.div_lt_upper_bound; nia. }
  pose proof (Zdigits2_le q (32 - e) Hq0 Hq32 ltac:(lia)) as Hd.
  assert (HE : E ≤ -21 ∧ e ≤ E).
  { rewrite Ee. subst k. unfold fexp, emin, prec, emax. lia. }
  assert (EQ : shr_m r1 = n * 2 ^ (- E) / 1000000).
  { rewrite Em, Hr0, Hq, Z.div_div by lia. replace (- e) with (- E + Z.max k 0) by lia.
    rewrite Z.pow_add_r by lia. rewrite Z.mul_assoc, (Z.mul_comm 1000000), Z.mul_comm. rewrite Z.div_mul_cancel_l by lia. done. }
  set (R := round_nearest_even (shr_m r1) (loc_of_shr_record r1)).
  assert (HR : R = shr_m r1 ∨ R = shr_m r1 + 1).
  { subst R. unfold round_nearest_even. destruct (loc_of_shr_record r1) as [|[]]; auto. destruct (Z.even _); auto. }
  set (r2 := shr_record_of_loc R loc_Exact). assert (Hr2 : shr_m r2 = R) by done.
  set (j := fexp prec emax (Zdigits2 R + E) - E).
  destruct (shr_value r2 E j ltac:(cbn; lia)) as (Em' & Nm' & Ee'). destruct (shr r2 E j) as [r3 E']. cbn [fst snd] in *.
  assert (HPE : 2 ^ 21 ≤ 2 ^ (- E)) by (apply Z.pow_le_mono_r; lia).
  assert (HRb : R < 2 ^ (33 - E)).
  { replace (33 - E) with (33 + - E) by lia. rewrite Z.pow_add_r by lia.
    assert (shr_m r1 < 2 ^ 32 * 2 ^ (- E)) by (rewrite EQ; apply Z.div_lt_upper_bound; nia). nia. }
  pose proof (Zdigits2_le R (33 - E) ltac:(lia) HRb ltac:(lia)) as Hd'.
  assert (HE' : E' ≤ -20 ∧ E ≤ E') by (rewrite Ee'; subst j; unfold fexp, emin, prec, emax; lia).
  assert (Hfin : R / 2 ^ (- E) = n / 1000000).
  { pose proof (Z.div_mod n 1000000 ltac:(lia)) as Dn. pose proof (Z.mod_pos_bound n 1000000 ltac:(lia)) as Bn.
    set (K := n / 1000000) in *. set (f := n mod 1000000) in *.
    pose proof (Z.mul_div_le (n * 2 ^ (- E)) 1000000 ltac:(lia)) as L1.
    pose proof (Z.mul_succ_div_gt (n * 2 ^ (- E)) 1000000 ltac:(lia)) as L2. rewrite <- EQ in L1, L2.
    symmetry. apply Z.div_unique with (R - K * 2 ^ (- E)); [|lia]. left. split; destruct HR as [->| ->]; nia. }
  assert (Hsplit : shr_m r3 / 2 ^ (- E') = n / 1000000).
  { rewrite Em', Hr2, Z.div_div by lia. rewrite <- Z.pow_add_r by lia. rewrite <- Hfin. do 2 f_equal. lia. }
  destruct (shr_m r3) as [|m|m] eqn:E3; [by rewrite <- Hsplit| |lia].
  destruct (Z.leb_spec E' (emax - prec)); [|unfold emax, prec in *; lia].
  cbn [f_trunc]. destruct (Z.leb_spec 0 E'); [lia|]. by rewrite Hsplit.
Qed.

(** [int(td.total_seconds())] for a duration below [2^32] seconds. *)
Lemma f_trunc_total_seconds us : 0 ≤ us → us < 2 ^ 32 * 1000000 → f_trunc (total_seconds us) = Ok (us / 1000000).
Proof.
  intros H0 Hb. unfold total_seconds, f_of_ratio. destruct (Z.eqb_spec us 0) as [->|Hne]; [done|].
  unfold SFdiv_core_binary. rewrite Z.abs_eq by lia. change (Zdigits2 1000000) with 20. change (0 - 0) with 0.
  set (e := Z.min _ 0). assert (He : e ≤ -21).
  { pose proof (Zdigits2_le us 52 ltac:(lia) ltac:(lia) ltac:(lia)). subst e. unfold fexp, emin, prec, emax. lia. }
  assert (Hs : match 0 - e with Z0 => us | Zpos _ => Z.shiftl us (0 - e) | Zneg _ => 0 end = us * 2 ^ (- e)).
  { destruct (0 - e) as [|p|p] eqn:E; [lia| |lia]. rewrite <- E, Z.shiftl_mul_pow2 by lia. do 2 f_equal; lia. }
  rewrite Hs. destruct (Z.div_eucl _ 1000000) as [q r] eqn:Eq. rewrite (proj2 (Z.ltb_ge us 0)) by lia.
  apply f_trunc_round; try lia. unfold Z.div. by rewrite Eq.
Qed.
