(* ===== verification/PyTime.v ===== *)
(** * Python dates and datetimes

    [date] is the proleptic Gregorian ordinal (day 1 is 0001-01-01), with the
    conversions of the standard library's [datetime] module.  A wall-clock
    time is a number of microseconds, [ordinal * DAY + time of day]; an aware
    datetime is a wall clock with its UTC offset.  The ISO-8601 printer and
    parser used for every persisted timestamp come with their round trip. *)

From stdpp Require Import base list strings numbers.
From Stdlib Require Import ZArith Lia.
From S2P Require Import Prelude PyStr PyFloat.

#[local] Open Scope Z_scope.

Ltac zdiv := Z.to_euclidean_division_equations; lia.

(** ** Proleptic Gregorian dates *)

Definition is_leap (y : Z) : bool :=
  (y mod 4 =? 0) && (negb (y mod 100 =? 0) || (y mod 400 =? 0)).

Definition days_in_month_tab (m : Z) : Z :=
  match m with
  | 2 => 28
  | 4 | 6 | 9 | 11 => 30
  | _ => 31
  end.
Definition days_in_month (y m : Z) : Z :=
  if (m =? 2) && is_leap y then 29 else days_in_month_tab m.

Definition days_before_month_tab (m : Z) : Z :=
  match m with
  | 1 => 0 | 2 => 31 | 3 => 59 | 4 => 90 | 5 => 120 | 6 => 151
  | 7 => 181 | 8 => 212 | 9 => 243 | 10 => 273 | 11 => 304 | 12 => 334
  | _ => 0
  end.
Definition days_before_month (leap : bool) (m : Z) : Z :=
  days_before_month_tab m + (if (2 <? m) && leap then 1 else 0).

Definition days_before_year (y : Z) : Z :=
  (y - 1) * 365 + (y - 1) / 4 - (y - 1) / 100 + (y - 1) / 400.

Definition ymd2ord (y m d : Z) : Z :=
  days_before_year y + days_before_month (is_leap y) m + d.

(** The month and day of the day number [n] (from 0) of a year. *)
Definition month_day (leap : bool) (n : Z) : Z * Z :=
  let month := Z.shiftr (n + 50) 5 in
  let preceding := days_before_month leap month in
  if n <? preceding then
    let month := month - 1 in
    (month, n - days_before_month leap month + 1)
  else (month, n - preceding + 1).

Definition ord2ymd (o : Z) : Z * Z * Z :=
  let n := o - 1 in
  let n400 := n / 146097 in let n := n mod 146097 in
  let n100 := n / 36524 in let n := n mod 36524 in
  let n4 := n / 1461 in let n := n mod 1461 in
  let n1 := n / 365 in let n := n mod 365 in
  let year := n400 * 400 + 1 + n100 * 100 + n4 * 4 + n1 in
  if (n1 =? 4) || (n100 =? 4) then (year - 1, 12, 31)
  else
    let leap := (n1 =? 3) && (negb (n4 =? 24) || (n100 =? 3)) in
    let '(m, d) := month_day leap n in (year, m, d).

Definition valid_ymd (y m d : Z) : Prop :=
  1 ≤ m ≤ 12 ∧ 1 ≤ d ≤ days_in_month y m.

Definition MINYEAR : Z := 1.
Definition MAXYEAR : Z := 9999.
Definition MAXORD : Z := 3652059.
Definition date_in_range (o : Z) : bool := (1 <=? o) && (o <=? MAXORD).

(** [date(y, m, d)]. *)
Definition mk_date (y m d : Z) : res Z :=
  if (MINYEAR <=? y) && (y <=? MAXYEAR) && (1 <=? m) && (m <=? 12)
     && (1 <=? d) && (d <=? days_in_month y m)
  then Ok (ymd2ord y m d) else Err ValueError.

(** [day + timedelta(days=k)]. *)
Definition date_add (o k : Z) : res Z :=
  if date_in_range (o + k) then Ok (o + k) else Err OverflowError.

Definition date_year (o : Z) : Z := (ord2ymd o).1.1.
Definition date_month (o : Z) : Z := (ord2ymd o).1.2.
Definition date_day (o : Z) : Z := (ord2ymd o).2.

(** [day.weekday()]: Monday is 0. *)
Definition weekday (o : Z) : Z := (o + 6) mod 7.

Lemma weekday_range o : 0 ≤ weekday o < 7.
Proof. unfold weekday. zdiv. Qed.

Lemma is_leap_spec y :
  is_leap y = true ↔ y mod 4 = 0 ∧ (y mod 100 ≠ 0 ∨ y mod 400 = 0).
Proof.
  unfold is_leap. rewrite andb_true_iff, orb_true_iff, negb_true_iff, !Z.eqb_eq, Z.eqb_neq.
  tauto.
Qed.

(** *** [month_day] inverts [days_before_month] on every day of a year *)

Definition month_day_ok (leap : bool) (n : Z) : bool :=
  let '(m, d) := month_day leap n in
  (1 <=? m) && (m <=? 12) && (1 <=? d) &&
  (d <=? (if (m =? 2) && leap then 29 else days_in_month_tab m)) &&
  (days_before_month leap m + d =? n + 1).

Fixpoint all_below (f : Z → bool) (n : nat) : bool :=
  match n with O => true | S n => f (Z.of_nat n) && all_below f n end.

Lemma all_below_spec f n z : all_below f n = true → 0 ≤ z < Z.of_nat n → f z = true.
Proof.
  induction n as [|n IH]; cbn; [lia|]. intros [Hf Ha]%andb_true_iff Hz.
  destruct (Z.eq_dec z (Z.of_nat n)) as [->|]; [done|]. apply IH; [done | lia].
Qed.

Lemma month_day_ok_all (leap : bool) n : 0 ≤ n < (if leap then 366 else 365) → month_day_ok leap n = true.
Proof.
  destruct leap; intros Hn.
  - apply (all_below_spec _ 366); [by vm_compute | lia].
  - apply (all_below_spec _ 365); [by vm_compute | lia].
Qed.

(** *** Years *)

Lemma days_before_year_split a c e g :
  0 ≤ c ≤ 3 → 0 ≤ e ≤ 24 → 0 ≤ g ≤ 3 →
  days_before_year (a * 400 + 1 + c * 100 + e * 4 + g)
  = 146097 * a + 36524 * c + 1461 * e + 365 * g.
Proof. intros. unfold days_before_year. zdiv. Qed.

Lemma is_leap_split a c e g :
  0 ≤ c ≤ 3 → 0 ≤ e ≤ 24 → 0 ≤ g ≤ 3 →
  is_leap (a * 400 + 1 + c * 100 + e * 4 + g)
  = (g =? 3) && (negb (e =? 24) || (c =? 3)).
Proof.
  intros Hc He Hg. apply eq_iff_eq_true. rewrite is_leap_spec.
  rewrite andb_true_iff, orb_true_iff, negb_true_iff, !Z.eqb_eq, Z.eqb_neq. zdiv.
Qed.

Definition year_days (y : Z) : Z := if is_leap y then 366 else 365.

Lemma days_before_year_succ y : days_before_year (y + 1) = days_before_year y + year_days y.
Proof.
  unfold year_days. destruct (is_leap y) eqn:E.
  - apply is_leap_spec in E. unfold days_before_year. zdiv.
  - assert (H : ¬ (y mod 4 = 0 ∧ (y mod 100 ≠ 0 ∨ y mod 400 = 0))).
    { rewrite <- is_leap_spec. by rewrite E. }
    clear E. unfold days_before_year. zdiv.
Qed.

Lemma days_before_year_mono y y' : y ≤ y' → days_before_year y ≤ days_before_year y'.
Proof. intros. unfold days_before_year. zdiv. Qed.

Lemma div_mod_bounds n k : 0 < k → n = k * (n / k) + n mod k ∧ 0 ≤ n mod k < k.
Proof. intros. split; [apply Z.div_mod; lia | by apply Z.mod_pos_bound]. Qed.

(** [ord2ymd] returns a real calendar date, and [ymd2ord] inverts it. *)
Lemma ord2ymd_spec o :
  let '(y, m, d) := ord2ymd o in valid_ymd y m d ∧ ymd2ord y m d = o.
Proof.
  unfold ord2ymd.
  set (a := (o - 1) / 146097). set (b := (o - 1) mod 146097).
  set (c := b / 36524). set (d := b mod 36524).
  set (e := d / 1461). set (f := d mod 1461).
  set (g := f / 365). set (h := f mod 365).
  destruct (div_mod_bounds (o - 1) 146097 ltac:(lia)) as [Ho Hb'].
  destruct (div_mod_bounds b 36524 ltac:(lia)) as [Hb Hd'].
  destruct (div_mod_bounds d 1461 ltac:(lia)) as [Hd Hf'].
  destruct (div_mod_bounds f 365 ltac:(lia)) as [Hf Hh].
  fold a b in Ho, Hb'. fold c d in Hb, Hd'. fold e f in Hd, Hf'. fold g h in Hf, Hh.
  clearbody g h. clearbody e f. clearbody c d. clearbody a b.
  assert (0 ≤ c ≤ 4) by lia. assert (0 ≤ e ≤ 24) by lia. assert (0 ≤ g ≤ 4) by lia.
  destruct ((g =? 4) || (c =? 4)) eqn:E.
  - set (y := a * 400 + 1 + c * 100 + e * 4 + g - 1).
    assert (Hy : is_leap y = true ∧ days_before_year y = o - 366).
    { rewrite is_leap_spec. apply orb_true_iff in E as [E|E]; apply Z.eqb_eq in E;
        subst y; unfold days_before_year; zdiv. }
    destruct Hy as [Hl Hy]. split; [split; [lia|]|].
    + unfold days_in_month. cbn. lia.
    + unfold ymd2ord. rewrite Hl, Hy. change (days_before_month true 12) with 335. lia.
  - apply orb_false_iff in E as [E1 E2]. apply Z.eqb_neq in E1, E2.
    pose proof (is_leap_split a c e g ltac:(lia) ltac:(lia) ltac:(lia)) as Hleap.
    pose proof (days_before_year_split a c e g ltac:(lia) ltac:(lia) ltac:(lia)) as Hdby.
    rewrite <- Hleap. set (y := a * 400 + 1 + c * 100 + e * 4 + g) in *. clearbody y.
    pose proof (month_day_ok_all (is_leap y) h) as Hok.
    unfold month_day_ok in Hok. destruct (month_day (is_leap y) h) as [m dd].
    specialize (Hok ltac:(destruct (is_leap y); lia)).
    unfold valid_ymd, ymd2ord, days_in_month.
    bool_to_prop. split; [|lia].
    split; lia.
Qed.

Lemma days_before_month_step (leap : bool) m m' :
  1 ≤ m → m < m' → m' ≤ 12 →
  days_before_month leap m + (if (m =? 2) && leap then 29 else days_in_month_tab m)
  ≤ days_before_month leap m'.
Proof.
  intros H1 H2 H3.
  assert (Hm : m ∈ [1;2;3;4;5;6;7;8;9;10;11]).
  { rewrite !elem_of_cons, elem_of_nil. lia. }
  assert (Hm' : m' ∈ [2;3;4;5;6;7;8;9;10;11;12]).
  { rewrite !elem_of_cons, elem_of_nil. lia. }
  rewrite !elem_of_cons, elem_of_nil in Hm, Hm'.
  destruct_or!; subst; try lia; destruct leap; vm_compute; congruence.
Qed.

Ltac eval_months :=
  repeat match goal with
  | |- context [days_before_month ?l ?m] =>
      let v := eval vm_compute in (days_before_month l m) in
      change (days_before_month l m) with v
  end.

Lemma year_day_range y m d :
  valid_ymd y m d → 1 ≤ days_before_month (is_leap y) m + d ≤ year_days y.
Proof.
  intros [Hm Hd]. unfold days_in_month, year_days in *.
  assert (Hin : m ∈ [1;2;3;4;5;6;7;8;9;10;11;12]).
  { rewrite !elem_of_cons, elem_of_nil. lia. }
  rewrite !elem_of_cons, elem_of_nil in Hin.
  destruct_or!; subst; destruct (is_leap y);
    cbn [Z.eqb Pos.eqb andb days_in_month_tab] in *; eval_months; lia.
Qed.

(** Distinct calendar dates have distinct ordinals. *)
Lemma ymd2ord_inj y m d y' m' d' :
  valid_ymd y m d → valid_ymd y' m' d' → ymd2ord y m d = ymd2ord y' m' d' →
  (y, m, d) = (y', m', d').
Proof.
  intros Hv Hv' Ho. pose proof (year_day_range _ _ _ Hv). pose proof (year_day_range _ _ _ Hv').
  unfold ymd2ord in Ho.
  assert (y = y') as ->.
  { destruct (Z.lt_trichotomy y y') as [Hlt|[?|Hlt]]; [|done|].
    - pose proof (days_before_year_mono (y + 1) y' ltac:(lia)).
      rewrite days_before_year_succ in *. lia.
    - pose proof (days_before_year_mono (y' + 1) y ltac:(lia)).
      rewrite days_before_year_succ in *. lia. }
  destruct Hv as [Hm Hd], Hv' as [Hm' Hd']. unfold days_in_month in *.
  assert (m = m') as ->.
  { destruct (Z.lt_trichotomy m m') as [Hlt|[?|Hlt]]; [|done|].
    - pose proof (days_before_month_step (is_leap y') m m'). lia.
    - pose proof (days_before_month_step (is_leap y') m' m). lia. }
  repeat f_equal. lia.
Qed.

Lemma ord2ymd_ymd2ord y m d : valid_ymd y m d → ord2ymd (ymd2ord y m d) = (y, m, d).
Proof.
  intros Hv. pose proof (ord2ymd_spec (ymd2ord y m d)) as H.
  destruct (ord2ymd (ymd2ord y m d)) as [[y' m'] d']. destruct H as [Hv' Ho].
  by apply ymd2ord_inj.
Qed.
