(* ===== verification/PyDateTime.v ===== *)
(** * Python datetimes and ISO-8601 text

    Wall clocks, aware and naive datetimes, [datetime.isoformat()] on UTC
    instants and [datetime.fromisoformat()] (the standard library's own parser:
    calendar, basic and week dates, optional time, fraction and offset), with
    the theorem that parsing what was printed gives the instant back.

    Instants and wall clocks are unbounded integers; [instant_in_range] tells
    those of the years 1..9999, and the operations that raise [OverflowError]
    outside them check it. *)

From stdpp Require Import base list strings numbers.
From Stdlib Require Import Ascii ZArith Lia.
From S2P Require Import Prelude PyStr PyFloat PyTime.

#[local] Open Scope Z_scope.

(** ** Wall clocks *)

Definition SECOND : Z := 1000000.
Definition MINUTE : Z := 60 * SECOND.
Definition HOUR : Z := 60 * MINUTE.
Definition DAY : Z := 24 * HOUR.

(** [time(h, m)]: microseconds since midnight. *)
Definition time_hm (h m : Z) : Z := h * HOUR + m * MINUTE.

(** [datetime.combine(day, time)]. *)
Definition combine (day tod : Z) : Z := day * DAY + tod.
Definition wall_date (w : Z) : Z := w / DAY.
Definition wall_time (w : Z) : Z := w mod DAY.

Lemma DAY_pos : 0 < DAY.
Proof. done. Qed.

Lemma wall_split w : w = combine (wall_date w) (wall_time w).
Proof.
  unfold combine, wall_date, wall_time. pose proof (Z.div_mod w DAY ltac:(done)). lia.
Qed.

Lemma wall_time_range w : 0 ≤ wall_time w < DAY.
Proof. by apply Z.mod_pos_bound. Qed.

Lemma wall_date_combine d t : 0 ≤ t < DAY → wall_date (combine d t) = d.
Proof. intros. unfold wall_date, combine. rewrite Z.div_add_l, Z.div_small by done. lia. Qed.

Lemma wall_time_combine d t : 0 ≤ t < DAY → wall_time (combine d t) = t.
Proof.
  intros. unfold wall_time, combine.
  rewrite Z.add_comm, Z.mod_add by done. by apply Z.mod_small.
Qed.

(** ** Datetimes *)

(** A datetime object: its wall clock and, when it is aware, its UTC offset
    in microseconds. *)
Record pydt := PyDt { dt_wall : Z; dt_off : option Z }.

Definition utc (u : Z) : pydt := PyDt u (Some 0).

(** [value.astimezone(timezone.utc)] of an aware datetime, as an instant. *)
Definition dt_instant (d : pydt) : option Z :=
  off ← dt_off d; Some (dt_wall d - off).

(** [marketdata.as_utc]: a naive datetime is taken to be UTC already. *)
Definition dt_as_utc (d : pydt) : Z := dt_wall d - default 0 (dt_off d).

Lemma dt_instant_utc u : dt_instant (utc u) = Some u.
Proof. unfold dt_instant, utc. cbn. f_equal. lia. Qed.

Lemma dt_as_utc_utc u : dt_as_utc (utc u) = u.
Proof. unfold dt_as_utc, utc. cbn. lia. Qed.

(** ** Printing *)

Definition hour_of (t : Z) : Z := t / HOUR.
Definition minute_of (t : Z) : Z := t / MINUTE mod 60.
Definition second_of (t : Z) : Z := t / SECOND mod 60.
Definition micro_of (t : Z) : Z := t mod SECOND.

Definition iso_date (o : Z) : string :=
  let '(y, m, d) := ord2ymd o in zpad 4 y +:+ "-" +:+ zpad 2 m +:+ "-" +:+ zpad 2 d.

Definition iso_time (t : Z) : string :=
  zpad 2 (hour_of t) +:+ ":" +:+ zpad 2 (minute_of t) +:+ ":" +:+ zpad 2 (second_of t)
  +:+ (if micro_of t =? 0 then "" else "." +:+ zpad 6 (micro_of t)).

(** [isoformat()] of the UTC instant [u]. *)
Definition isoformat (u : Z) : string :=
  iso_date (wall_date u) +:+ "T" +:+ iso_time (wall_time u) +:+ "+00:00".

(** [d.isoformat()]: a naive datetime has no offset text. *)
Definition iso_offset (off : Z) : string :=
  let t := Z.abs off in
  (if off <? 0 then "-" else "+") +:+ zpad 2 (hour_of t) +:+ ":" +:+ zpad 2 (minute_of t)
  +:+ (if (second_of t =? 0) && (micro_of t =? 0) then "" else ":" +:+ zpad 2 (second_of t))
  +:+ (if micro_of t =? 0 then "" else "." +:+ zpad 6 (micro_of t)).

Definition dt_isoformat (d : pydt) : string :=
  iso_date (wall_date (dt_wall d)) +:+ "T" +:+ iso_time (wall_time (dt_wall d))
  +:+ match dt_off d with Some off => iso_offset off | None => "" end.

Lemma dt_isoformat_utc u : dt_isoformat (utc u) = isoformat u.
Proof. reflexivity. Qed.

(** [day.strftime("%Y%m%d")]. *)
Definition strftime_ymd (o : Z) : string :=
  let '(y, m, d) := ord2ymd o in zpad 4 y +:+ zpad 2 m +:+ zpad 2 d.
(** [t.strftime("%H%M%S")]. *)
Definition strftime_hms (t : Z) : string :=
  zpad 2 (hour_of t) +:+ zpad 2 (minute_of t) +:+ zpad 2 (second_of t).

(** ** Parsing *)

Definition str_is (c : Ascii.ascii) (s : string) : bool :=
  match s with String d _ => Ascii.eqb c d | "" => false end.

(** Exactly [k] digits at the head of [s], and the rest. *)
Definition take_digits (k : nat) (s : string) : option (Z * string) :=
  let h := str_take k s in
  if str_len h =? Z.of_nat k then v ← parse_digits h; Some (v, str_drop k s) else None.

(** The number of digits at the head of [s]. *)
Fixpoint digit_run (s : string) : nat :=
  match s with
  | String c s => if chr_is_digit c then S (digit_run s) else O
  | "" => O
  end.

(** Where the date part of the text ends. *)
Definition iso_separator (s : string) : option nat :=
  let n := String.length s in
  if Nat.eqb n 7 then Some 7%nat
  else if str_is "-"%char (str_drop 4 s) then
    if str_is "W"%char (str_drop 5 s) then
      if str_is "-"%char (str_drop 8 s) then
        if Nat.eqb n 9 then None
        else if str_isdigit (str_at 10 s) then Some 8%nat else Some 10%nat
      else Some 8%nat
    else Some 10%nat
  else if str_is "W"%char (str_drop 4 s) then
    let idx := (7 + digit_run (str_drop 7 s))%nat in
    Some (if Nat.ltb idx 9 then idx else if Nat.even idx then 7%nat else 8%nat)
  else Some 8%nat.

(** Monday of ISO week 1 of a year. *)
Definition iso_week1_monday (y : Z) : Z :=
  let first := ymd2ord y 1 1 in
  let wd := (first + 6) mod 7 in
  let monday := first - wd in
  if 3 <? wd then monday + 7 else monday.

Definition isoweek_ordinal (y week day : Z) : option Z :=
  let long := let first := ymd2ord y 1 1 mod 7 in
              (first =? 4) || ((first =? 3) && is_leap y) in
  if (1 <=? y) && (y <=? MAXYEAR) &&
     ((1 <=? week) && (week <=? 52) || (week =? 53) && long) && (1 <=? day) && (day <=? 7)
  then
    let o := iso_week1_monday y + (week - 1) * 7 + (day - 1) in
    if date_in_range o then Some o else None
  else None.

(** The ordinal of an ISO date. *)
Definition parse_iso_date (s : string) : option Z :=
  '(y, r) ← take_digits 4 s;
  let sep := str_is "-"%char r in
  let r := if sep then str_drop 1 r else r in
  if str_is "W"%char r then
    '(w, r) ← take_digits 2 (str_drop 1 r);
    match r with
    | "" => isoweek_ordinal y w 1
    | _ => if negb (Bool.eqb (str_is "-"%char r) sep) then None
           else '(d, r) ← take_digits 1 (if sep then str_drop 1 r else r);
                match r with "" => isoweek_ordinal y w d | _ => None end
    end
  else
    '(m, r) ← take_digits 2 r;
    if negb (Bool.eqb (str_is "-"%char r) sep) then None
    else '(d, r) ← take_digits 2 (if sep then str_drop 1 r else r);
         match r, mk_date y m d with "", Ok o => Some o | _, _ => None end.

(** A fraction of a second: up to six digits count, the rest are dropped. *)
Definition parse_fraction (s : string) : option Z :=
  let n := Nat.min 6 (String.length s) in
  if str_all chr_is_digit s then
    v ← parse_digits (str_take n s); Some (v * 10 ^ (6 - Z.of_nat n))
  else None.

(** [HH[:?MM[:?SS[.,f+]]]]. *)
Definition parse_hms (s : string) : option (Z * Z * Z * Z) :=
  '(h, r) ← take_digits 2 s;
  match r with
  | "" => Some (h, 0, 0, 0)
  | _ =>
    let sep := str_is ":"%char r in
    '(m, r) ← take_digits 2 (if sep then str_drop 1 r else r);
    match r with
    | "" => Some (h, m, 0, 0)
    | _ =>
      if sep && negb (str_is ":"%char r) then None
      else
        '(sec, r) ← take_digits 2 (if sep then str_drop 1 r else r);
        match r with
        | "" => Some (h, m, sec, 0)
        | String c f =>
            if Ascii.eqb c "."%char || Ascii.eqb c ","%char then
              us ← parse_fraction f; Some (h, m, sec, us)
            else None
        end
    end
  end.

(** The position of the offset in a time text. *)
Definition tz_position (s : string) : option nat :=
  match str_find_chr "-"%char s with
  | Some i => Some i
  | None => match str_find_chr "+"%char s with
            | Some i => Some i
            | None => str_find_chr "Z"%char s
            end
  end.

Definition hms_us (v : Z * Z * Z * Z) : Z :=
  let '(h, m, s, us) := v in h * HOUR + m * MINUTE + s * SECOND + us.

(** A UTC offset: [Z], or a sign and a time below 24 hours. *)
Definition parse_offset (sign : string) (s : string) : option Z :=
  if String.eqb sign "Z" && String.eqb s "" then Some 0
  else
    v ← parse_hms s;
    let us := hms_us v in
    if us <? DAY then Some (if String.eqb sign "-" then - us else us) else None.

(** Time of day and offset. *)
Definition parse_iso_time (s : string) : option (Z * option Z) :=
  let tz := tz_position s in
  let body := match tz with Some i => str_take i s | None => s end in
  v ← parse_hms body;
  let '(h, m, sec, us) := v in
  if (h <? 24) && (m <? 60) && (sec <? 60) then
    match tz with
    | None => Some (hms_us v, None)
    | Some i => off ← parse_offset (str_at i s) (str_drop (S i) s); Some (hms_us v, Some off)
    end
  else None.

(** [datetime.fromisoformat(s)]; [None] is [ValueError]. *)
Definition fromisoformat (s : string) : option pydt :=
  if str_len s <? 7 then None
  else
    i ← iso_separator s;
    o ← parse_iso_date (str_take i s);
    match str_drop (S i) s with
    | "" => Some (PyDt (combine o 0) None)
    | t => '(tod, off) ← parse_iso_time t; Some (PyDt (combine o tod) off)
    end.

Example fromisoformat_full :
  fromisoformat "2026-10-18T09:30:00.250000+00:00"
  = Some (utc (combine (ymd2ord 2026 10 18) (time_hm 9 30 + 250000))).
Proof. reflexivity. Qed.
Example fromisoformat_offset :
  fromisoformat "2026-10-18T09:30-04:00"
  = Some (PyDt (combine (ymd2ord 2026 10 18) (time_hm 9 30)) (Some (-4 * HOUR))).
Proof. reflexivity. Qed.
Example fromisoformat_week : fromisoformat "2026-W42-7" = fromisoformat "20261018".
Proof. reflexivity. Qed.
Example fromisoformat_bad : fromisoformat "2026-02-29" = None.
Proof. reflexivity. Qed.

(** ** Round trip *)

Lemma str_length_app s t : String.length (s +:+ t) = (String.length s + String.length t)%nat.
Proof. induction s as [|c s IH]; [done|]. rewrite str_app_cons. cbn. by rewrite IH. Qed.

Lemma length_zpad w z : String.length (zpad w z) = w.
Proof.
  revert z. induction w as [|w IH]; intros z; cbn [zpad]; [done|].
  rewrite str_length_app, IH. cbn. lia.
Qed.

Lemma str_take_app s t n : String.length s = n → str_take n (s +:+ t) = s.
Proof.
  intros <-. induction s as [|c s IH]; [by destruct t|].
  rewrite str_app_cons. cbn. by rewrite IH.
Qed.

Lemma str_drop_app s t n k :
  String.length s = n → str_drop (n + k) (s +:+ t) = str_drop k t.
Proof. intros <-. induction s as [|c s IH]; [done|]. by rewrite str_app_cons. Qed.

Lemma str_drop_app_0 s t n : String.length s = n → str_drop n (s +:+ t) = t.
Proof. intros <-. rewrite <- (Nat.add_0_r (String.length s)). by rewrite (str_drop_app s). Qed.

(** Reading back a zero-padded field that starts a text. *)
Lemma take_digits_zpad k z r :
  (0 < k)%nat → 0 ≤ z < 10 ^ Z.of_nat k → take_digits k (zpad k z +:+ r) = Some (z, r).
Proof.
  intros Hk Hz. unfold take_digits.
  rewrite str_take_app by apply length_zpad.
  rewrite str_len_zpad, Z.eqb_refl, parse_digits_zpad by done. cbn.
  by rewrite str_drop_app_0 by apply length_zpad.
Qed.

Definition DIGITS : list ascii := ["0";"1";"2";"3";"4";"5";"6";"7";"8";"9"]%char.

Lemma digit_chr_forall (P : ascii → bool) z :
  forallb P DIGITS = true →
  P (digit_chr (z mod 10)) = true.
Proof.
  intros H. pose proof (Z.mod_pos_bound z 10 ltac:(lia)) as Hz.
  set (d := z mod 10) in *. clearbody d. cbn in H.
  repeat apply andb_true_iff in H as [? H].
  assert (d = 0 ∨ d = 1 ∨ d = 2 ∨ d = 3 ∨ d = 4 ∨ d = 5 ∨ d = 6 ∨ d = 7 ∨ d = 8 ∨ d = 9)
    as Hc by lia.
  by destruct_or! Hc; subst.
Qed.

Lemma zpad_all (P : ascii → bool) w z :
  forallb P DIGITS = true →
  str_all P (zpad w z) = true.
Proof.
  intros H. revert z. induction w as [|w IH]; intros z; [done|].
  cbn [zpad]. rewrite str_all_app, IH. cbn. by rewrite digit_chr_forall.
Qed.

Lemma str_find_chr_app c s t :
  str_all (λ d, negb (Ascii.eqb c d)) s = true →
  str_find_chr c (s +:+ t) = Nat.add (String.length s) <$> str_find_chr c t.
Proof.
  induction s as [|d s IH]; intros H.
  { change ("" +:+ t) with t. by destruct (str_find_chr c t). }
  rewrite str_app_cons. cbn in *. apply andb_true_iff in H as [H1 H2].
  apply negb_true_iff in H1. rewrite H1, (IH H2). by destruct (str_find_chr c t).
Qed.

(** The characters an ISO time is made of contain no offset mark. *)
Lemma iso_time_no_mark c t :
  c ∈ ["-"; "+"; "Z"]%char →
  str_all (λ d, negb (Ascii.eqb c d)) (iso_time t) = true.
Proof.
  intros Hc. unfold iso_time. rewrite !str_all_app.
  assert (Hf : forallb (λ d, negb (Ascii.eqb c d)) (DIGITS ++ [":";"."]%char) = true).
  { rewrite !elem_of_cons, elem_of_nil in Hc. by destruct_or! Hc; subst. }
  rewrite forallb_app in Hf. apply andb_true_iff in Hf as [Hd Hp]. cbn in Hp.
  apply andb_true_iff in Hp as [Hp1 Hp2]. apply andb_true_iff in Hp2 as [Hp2 _].
  rewrite !(zpad_all _ _ _ Hd). cbn [str_all]. rewrite Hp1.
  destruct (micro_of t =? 0); cbn [str_all andb]; [done|].
  by rewrite str_all_app, (zpad_all _ _ _ Hd); cbn [str_all]; rewrite Hp2.
Qed.

Lemma time_fields_range t :
  0 ≤ t < DAY →
  0 ≤ hour_of t < 24 ∧ 0 ≤ minute_of t < 60 ∧ 0 ≤ second_of t < 60 ∧ 0 ≤ micro_of t < 1000000.
Proof.
  unfold hour_of, minute_of, second_of, micro_of, DAY, HOUR, MINUTE, SECOND. cbn. intros.
  split_and!; zdiv.
Qed.

Lemma hms_us_fields t :
  0 ≤ t → hms_us (hour_of t, minute_of t, second_of t, micro_of t) = t.
Proof.
  unfold hms_us, hour_of, minute_of, second_of, micro_of, HOUR, MINUTE, SECOND. cbn. intros.
  zdiv.
Qed.

Lemma parse_hms_iso_time t :
  0 ≤ t < DAY → parse_hms (iso_time t) = Some (hour_of t, minute_of t, second_of t, micro_of t).
Proof.
  intros Ht. destruct (time_fields_range t Ht) as (Hh & Hm & Hs & Hu).
  unfold parse_hms, iso_time. rewrite !str_app_sing.
  rewrite take_digits_zpad by (cbn; lia). cbn -[take_digits zpad].
  rewrite take_digits_zpad by (cbn; lia). cbn -[take_digits zpad].
  destruct (micro_of t =? 0) eqn:E.
  - rewrite take_digits_zpad by (cbn; lia). cbn. apply Z.eqb_eq in E. by rewrite E.
  - rewrite take_digits_zpad by (cbn; lia). cbn -[take_digits zpad].
    unfold parse_fraction. rewrite (zpad_all chr_is_digit), length_zpad by done.
    change (Nat.min 6 6) with 6%nat.
    rewrite <- (str_app_nil_r (zpad 6 (micro_of t))), str_take_app by apply length_zpad.
    rewrite parse_digits_zpad by (cbn; lia). cbn. by rewrite Z.mul_1_r.
Qed.

Lemma parse_iso_time_print t :
  0 ≤ t < DAY → parse_iso_time (iso_time t +:+ "+00:00") = Some (t, Some 0).
Proof.
  intros Ht. unfold parse_iso_time, tz_position.
  rewrite !str_find_chr_app by (apply iso_time_no_mark, list_elem_of_In; cbn; auto).
  change (str_find_chr "-"%char "+00:00") with (@None nat).
  change (str_find_chr "+"%char "+00:00") with (Some 0%nat).
  cbn [fmap option_fmap option_map mbind option_bind]. rewrite Nat.add_0_r.
  rewrite str_take_app, parse_hms_iso_time by done. cbn [mbind option_bind].
  destruct (time_fields_range t Ht) as (Hh & Hm & Hs & Hu).
  rewrite !(proj2 (Z.ltb_lt _ _)) by lia. cbn [andb].
  rewrite <- (Nat.add_1_r (String.length _)), (str_drop_app (iso_time t)) by done.
  unfold str_at, str_slice. rewrite str_drop_app_0 by done.
  replace (S (String.length (iso_time t)) - String.length (iso_time t))%nat with 1%nat by lia.
  change (parse_offset _ _) with (Some 0). cbn [mbind option_bind].
  by rewrite hms_us_fields by lia.
Qed.

Lemma date_in_range_ymd o y m d :
  date_in_range o = true → ord2ymd o = (y, m, d) → valid_ymd y m d ∧ 1 ≤ y ≤ 9999 ∧ ymd2ord y m d = o.
Proof.
  unfold date_in_range, MAXORD. intros Hr Ho. bool_to_prop.
  pose proof (ord2ymd_spec o) as Hs. rewrite Ho in Hs. destruct Hs as [Hv He].
  split_and!; [done|..|done]; pose proof (year_day_range _ _ _ Hv); unfold ymd2ord in He.
  - destruct (Z.le_gt_cases 1 y) as [|Hy]; [done|].
    pose proof (days_before_year_mono (y + 1) 1 ltac:(lia)) as Hm.
    rewrite days_before_year_succ in Hm. change (days_before_year 1) with 0 in Hm. lia.
  - destruct (Z.le_gt_cases y 9999) as [|Hy]; [done|].
    pose proof (days_before_year_mono 10000 y ltac:(lia)) as Hm.
    change (days_before_year 10000) with 3652059 in Hm. lia.
Qed.

Lemma valid_ymd_fields y m d : valid_ymd y m d → 1 ≤ m ≤ 12 ∧ 1 ≤ d ≤ 31.
Proof.
  intros [Hm Hd]. split; [done|]. unfold days_in_month, days_in_month_tab in Hd.
  split; [lia|]. repeat case_match; lia.
Qed.

Lemma parse_iso_date_print o :
  date_in_range o = true → parse_iso_date (iso_date o) = Some o.
Proof.
  intros Hr. unfold iso_date. destruct (ord2ymd o) as [[y m] d] eqn:E.
  destruct (date_in_range_ymd _ _ _ _ Hr E) as (Hv & Hy & Ho).
  destruct (valid_ymd_fields _ _ _ Hv) as [Hm Hd].
  unfold parse_iso_date. rewrite !str_app_sing.
  rewrite take_digits_zpad by (cbn; lia). cbn -[take_digits zpad mk_date].
  rewrite take_digits_zpad by (cbn; lia). cbn -[take_digits zpad mk_date].
  assert (HW : str_is "W" (zpad 2 m +:+ String "-" (zpad 2 d)) = false).
  { apply negb_true_iff, (digit_chr_forall (λ c, negb (Ascii.eqb "W" c))). done. }
  rewrite HW. cbn -[take_digits zpad mk_date].
  rewrite <- (str_app_nil_r (zpad 2 d)), take_digits_zpad by (cbn; lia).
  cbn -[mk_date]. unfold mk_date, MINYEAR, MAXYEAR. destruct Hv as [_ Hv].
  rewrite !(proj2 (Z.leb_le _ _)) by lia. cbn. by rewrite Ho.
Qed.

(** Every instant of the years 1..9999 survives printing and parsing. *)
Definition instant_in_range (u : Z) : bool := date_in_range (wall_date u).

Lemma length_iso_date o : String.length (iso_date o) = 10%nat.
Proof.
  unfold iso_date. destruct (ord2ymd o) as [[y m] d].
  by rewrite !str_length_app, !length_zpad.
Qed.

Lemma length_iso_time t : (8 ≤ String.length (iso_time t))%nat.
Proof. unfold iso_time. rewrite !str_length_app, !length_zpad. cbn. lia. Qed.

Lemma str_len_length s : str_len s = Z.of_nat (String.length s).
Proof. induction s as [|c s IH]; cbn [str_len String.length]; [done|]. lia. Qed.

Lemma iso_separator_print u : iso_separator (isoformat u) = Some 10%nat.
Proof.
  unfold iso_separator, isoformat, iso_date.
  destruct (ord2ymd (wall_date u)) as [[y m] d].
  destruct (Nat.eqb _ 7) eqn:E.
  { apply Nat.eqb_eq in E. rewrite !str_length_app, !length_zpad in E.
    pose proof (length_iso_time (wall_time u)). cbn in E. lia. }
  rewrite !str_app_assoc, !str_app_sing.
  rewrite str_drop_app_0 by apply length_zpad. cbn [str_is Ascii.eqb Bool.eqb].
  rewrite (str_drop_app _ _ 4 1) by apply length_zpad. cbn [str_drop].
  change (str_is "W"%char (zpad 2 m +:+ _)) with (Ascii.eqb "W" (digit_chr (m / 10 mod 10))).
  by rewrite (proj1 (negb_true_iff _) (digit_chr_forall (λ c, negb (Ascii.eqb "W" c)) _ eq_refl)).
Qed.

Lemma fromisoformat_isoformat u :
  instant_in_range u = true → fromisoformat (isoformat u) = Some (utc u).
Proof.
  intros Hr. unfold fromisoformat.
  destruct (str_len (isoformat u) <? 7) eqn:E.
  { apply Z.ltb_lt in E. unfold isoformat in E.
    rewrite str_len_length, !str_length_app, length_iso_date in E.
    pose proof (length_iso_time (wall_time u)). lia. }
  rewrite iso_separator_print. cbn [mbind option_bind]. unfold isoformat.
  rewrite str_take_app by apply length_iso_date.
  rewrite parse_iso_date_print by done. cbn [mbind option_bind].
  change 11%nat with (10 + 1)%nat.
  rewrite (str_drop_app _ _ 10 1) by apply length_iso_date.
  rewrite str_app_sing. cbn [str_drop].
  destruct (iso_time (wall_time u) +:+ "+00:00") eqn:E'.
  { apply (f_equal String.length) in E'. rewrite str_length_app in E'. cbn in E'. lia. }
  rewrite <- E', parse_iso_time_print by apply wall_time_range.
  cbn [mbind option_bind]. by rewrite <- wall_split.
Qed.

#[export] Hint Resolve fromisoformat_isoformat : spx.

(** ** The order of timestamps as text *)

Lemma str_ltb_cons c s t : String.ltb (String c s) (String c t) = String.ltb s t.
Proof. unfold String.ltb. cbn. unfold Ascii.compare. by rewrite N.compare_refl. Qed.

Lemma str_ltb_app_r s t t' : String.ltb (s +:+ t) (s +:+ t') = String.ltb t t'.
Proof. induction s as [|c s IH]; [done|]. by rewrite !str_app_cons, str_ltb_cons. Qed.

Lemma str_ltb_app_l s s' t t' :
  String.length s = String.length s' → String.ltb s s' = true → String.ltb (s +:+ t) (s' +:+ t') = true.
Proof.
  revert s'. induction s as [|c s IH]; intros [|c' s'] Hl; try done. rewrite !str_app_cons.
  unfold String.ltb in *. cbn. unfold Ascii.compare. destruct (N.compare _ _); try done.
  intros H. apply IH; [cbn in Hl; lia|done].
Qed.

Lemma zpad_ltb w a b : 0 ≤ a → a < b → b < 10 ^ Z.of_nat w → String.ltb (zpad w a) (zpad w b) = true.
Proof.
  revert a b. induction w as [|w IH]; intros a b Ha Hab Hb; [cbn in Hb; lia|]. cbn [zpad].
  rewrite Nat2Z.inj_succ, Z.pow_succ_r in Hb by lia.
  destruct (Z.eq_dec (a / 10) (b / 10)) as [E|E].
  - rewrite E, str_ltb_app_r. assert (Hm : a mod 10 < b mod 10) by zdiv.
    assert (H10 : ∀ z, 0 ≤ z mod 10 < 10) by (intros; zdiv). generalize (H10 a), (H10 b). revert Hm.
    generalize (a mod 10), (b mod 10). intros x y Hxy Hx Hy.
    assert (all_below (λ x, all_below (λ y, negb (x <? y) || String.ltb (String (digit_chr x) "") (String (digit_chr y) "")) 10) 10 = true)
      as H by (by vm_compute).
    pose proof (all_below_spec _ _ y (all_below_spec _ _ x H ltac:(lia)) ltac:(lia)) as Hd. cbv beta in Hd.
    apply orb_true_iff in Hd as [Hd|Hd]; [|done]. rewrite (proj2 (Z.ltb_lt x y) Hxy) in Hd. done.
  - apply str_ltb_app_l; [by rewrite !length_zpad|]. apply IH; zdiv.
Qed.

Lemma ord2ymd_lex o o' y m d y' m' d' :
  o < o' → ord2ymd o = (y, m, d) → ord2ymd o' = (y', m', d') →
  y < y' ∨ y = y' ∧ (m < m' ∨ m = m' ∧ d < d').
Proof.
  intros Hlt E E'. pose proof (ord2ymd_spec o) as H. pose proof (ord2ymd_spec o') as H'.
  rewrite E in H. rewrite E' in H'. destruct H as [Hv Ho], H' as [Hv' Ho'].
  pose proof (year_day_range _ _ _ Hv). pose proof (year_day_range _ _ _ Hv'). unfold ymd2ord in *.
  destruct (Z.lt_trichotomy y y') as [?|[->|Hy]]; [by left| |].
  - right. split; [done|]. destruct Hv as [Hm Hd], Hv' as [Hm' Hd']. unfold days_in_month in *.
    destruct (Z.lt_trichotomy m m') as [?|[->|Hm'']]; [by left|right; split; [done|lia]|].
    pose proof (days_before_month_step (is_leap y') m' m). lia.
  - pose proof (days_before_year_mono (y' + 1) y ltac:(lia)). rewrite days_before_year_succ in *. lia.
Qed.

Lemma iso_date_ltb o o' :
  date_in_range o = true → date_in_range o' = true → o < o' → String.ltb (iso_date o) (iso_date o') = true.
Proof.
  intros Ho Ho' Hlt. unfold iso_date. destruct (ord2ymd o) as [[y m] d] eqn:E, (ord2ymd o') as [[y' m'] d'] eqn:E'.
  pose proof (ord2ymd_lex _ _ _ _ _ _ _ _ Hlt E E') as Hlex.
  destruct (date_in_range_ymd o y m d Ho E) as (Hv & Hy & _). destruct (date_in_range_ymd o' y' m' d' Ho' E') as (Hv' & Hy' & _).
  apply valid_ymd_fields in Hv as [Hm Hd], Hv' as [Hm' Hd'].
  destruct Hlex as [Hl|[-> [Hl|[-> Hl]]]].
  - apply str_ltb_app_l; [by rewrite !length_zpad|apply zpad_ltb; lia].
  - rewrite str_ltb_app_r, str_ltb_app_r. apply str_ltb_app_l; [by rewrite !length_zpad|apply zpad_ltb; lia].
  - rewrite !str_ltb_app_r. apply zpad_ltb; lia.
Qed.

(** The text of whole seconds is ordered as time is. *)
Lemma isoformat_ltb u v :
  instant_in_range u = true → instant_in_range v = true → u mod SECOND = 0 → v mod SECOND = 0 →
  u < v → String.ltb (isoformat u) (isoformat v) = true.
Proof.
  intros Hu Hv Mu Mv Hlt. unfold isoformat.
  pose proof (wall_split u) as Su. pose proof (wall_split v) as Sv. unfold combine in *.
  pose proof (wall_time_range u). pose proof (wall_time_range v).
  pose proof DAY_pos.
  destruct (Z.lt_trichotomy (wall_date u) (wall_date v)) as [Hd|[Hd|Hd]]; [| |exfalso; nia].
  { apply str_ltb_app_l; [by rewrite !length_iso_date|by apply iso_date_ltb]. }
  rewrite Hd, str_ltb_app_r, str_ltb_app_r. assert (Ht : wall_time u < wall_time v) by (rewrite Hd in Su; lia).
  assert (Zu : micro_of (wall_time u) = 0) by (unfold micro_of, wall_time, DAY, HOUR, MINUTE, SECOND in *; zdiv).
  assert (Zv : micro_of (wall_time v) = 0) by (unfold micro_of, wall_time, DAY, HOUR, MINUTE, SECOND in *; zdiv).
  unfold iso_time. rewrite Zu, Zv. cbn [Z.eqb]. clear Su Sv Hu Hv Hlt Hd Mu Mv. revert Ht Zu Zv H H0. generalize (wall_time u), (wall_time v).
  intros a b Hab Za Zb Ra Rb. unfold micro_of, hour_of, minute_of, second_of, DAY, HOUR, MINUTE, SECOND in *.
  assert (Hc : a / (60 * (60 * 1000000)) < b / (60 * (60 * 1000000)) ∨ a / (60 * (60 * 1000000)) = b / (60 * (60 * 1000000)) ∧
     (a / (60 * 1000000) mod 60 < b / (60 * 1000000) mod 60 ∨ a / (60 * 1000000) mod 60 = b / (60 * 1000000) mod 60
       ∧ a / 1000000 mod 60 < b / 1000000 mod 60)) by zdiv.
  rewrite !str_app_assoc. destruct Hc as [Hc|[-> [Hc|[-> Hc]]]]; rewrite ?str_ltb_app_r, ?str_ltb_app_r, ?str_ltb_app_r, ?str_ltb_app_r;
    (apply str_ltb_app_l; [by rewrite !length_zpad|apply zpad_ltb; zdiv]).
Qed.
