(* ===== verification/PyDict.v ===== *)
(** * Insertion-ordered dictionaries

    A Python [dict] with string keys: an association list in insertion order
    whose updates keep the position of an existing key.  [dict_to_map] relates
    it to stdpp's finite maps, so that facts that do not depend on the order
    can be stated and proved on [gmap]. *)

From stdpp Require Import base list strings gmap fin_maps.
From Stdlib Require Import ZArith Lia.
From S2P Require Import Prelude.

Section dict.
Context {A : Type}.
Implicit Types d : list (string * A).

(** [d.get(k)]. *)
Fixpoint dget (k : string) (d : list (string * A)) : option A :=
  match d with
  | [] => None
  | (k', v) :: d => if String.eqb k k' then Some v else dget k d
  end.

(** [d[k] = v]. *)
Fixpoint dset (k : string) (v : A) (d : list (string * A)) : list (string * A) :=
  match d with
  | [] => [(k, v)]
  | (k', v') :: d => if String.eqb k k' then (k, v) :: d else (k', v') :: dset k v d
  end.

(** [d.pop(k, None)]. *)
Fixpoint dpop (k : string) (d : list (string * A)) : list (string * A) :=
  match d with
  | [] => []
  | (k', v') :: d => if String.eqb k k' then dpop k d else (k', v') :: dpop k d
  end.

Definition dhas (k : string) d : bool :=
  match dget k d with Some _ => true | None => false end.

(** [d.setdefault(k, v)]. *)
Definition dsetdefault (k : string) (v : A) d : list (string * A) :=
  if dhas k d then d else dset k v d.

(** [{**d, **e}]. *)
Definition dmerge d (e : list (string * A)) : list (string * A) :=
  fold_left (λ acc kv, dset kv.1 kv.2 acc) e d.

(** [d[k]]. *)
Definition dindex (k : string) d : res A := of_option KeyError (dget k d).

Definition dkeys d : list string := d.*1.

Definition dict_to_map d : gmap string A := list_to_map d.

Lemma dget_dset k k' v d :
  dget k (dset k' v d) = if String.eqb k k' then Some v else dget k d.
Proof.
  induction d as [|[k0 v0] d IH]; cbn; [done|].
  destruct (String.eqb_spec k' k0) as [->|Hne]; cbn.
  - by destruct (String.eqb k k0).
  - rewrite IH. destruct (String.eqb_spec k k0), (String.eqb_spec k k'); congruence.
Qed.

Lemma dget_dset_eq k v d : dget k (dset k v d) = Some v.
Proof. by rewrite dget_dset, String.eqb_refl. Qed.

Lemma dget_dset_ne k k' v d : k ≠ k' → dget k (dset k' v d) = dget k d.
Proof. intros H. rewrite dget_dset. by apply String.eqb_neq in H as ->. Qed.

Lemma dget_dpop k k' d :
  dget k (dpop k' d) = if String.eqb k k' then None else dget k d.
Proof.
  induction d as [|[k0 v0] d IH]; cbn; [by destruct (String.eqb k k')|].
  destruct (String.eqb_spec k' k0) as [->|Hne]; cbn; rewrite IH.
  - by destruct (String.eqb k k0).
  - destruct (String.eqb_spec k k0), (String.eqb_spec k k'); congruence.
Qed.

Lemma dget_dpop_eq k d : dget k (dpop k d) = None.
Proof. by rewrite dget_dpop, String.eqb_refl. Qed.

Lemma dget_dpop_ne k k' d : k ≠ k' → dget k (dpop k' d) = dget k d.
Proof. intros H. rewrite dget_dpop. by apply String.eqb_neq in H as ->. Qed.

Lemma dget_dsetdefault k k' v d :
  dget k (dsetdefault k' v d) =
  if String.eqb k k' then Some (default v (dget k d)) else dget k d.
Proof.
  unfold dsetdefault, dhas. destruct (String.eqb_spec k k') as [->|Hne].
  - destruct (dget k' d) eqn:E; [done|]. by rewrite dget_dset_eq.
  - destruct (dget k' d); [done|]. by apply dget_dset_ne.
Qed.

Lemma dict_to_map_lookup d k : dict_to_map d !! k = dget k d.
Proof.
  unfold dict_to_map. induction d as [|[k' v] d IH]; cbn; [done|].
  rewrite lookup_insert, IH.
  destruct (decide (k' = k)) as [->|Hne]; [by rewrite String.eqb_refl|].
  by destruct (String.eqb_spec k k'); [congruence|].
Qed.

Lemma dict_to_map_dset d k v : dict_to_map (dset k v d) = <[k := v]> (dict_to_map d).
Proof.
  apply map_eq. intros i. rewrite lookup_insert, !dict_to_map_lookup, dget_dset.
  destruct (String.eqb_spec i k), (decide (k = i)); congruence.
Qed.

Lemma dict_to_map_dpop d k : dict_to_map (dpop k d) = delete k (dict_to_map d).
Proof.
  apply map_eq. intros i. rewrite lookup_delete, !dict_to_map_lookup, dget_dpop.
  destruct (String.eqb_spec i k), (decide (k = i)); congruence.
Qed.

Lemma dget_elem k v d : dget k d = Some v → (k, v) ∈ d.
Proof.
  induction d as [|[k' v'] d IH]; cbn; [done|].
  destruct (String.eqb_spec k k') as [->|]; intros H.
  - injection H as ->. left.
  - right. auto.
Qed.

Lemma dget_keys k d : is_Some (dget k d) ↔ k ∈ dkeys d.
Proof.
  unfold dkeys. induction d as [|[k' v'] d IH]; cbn.
  - rewrite elem_of_nil. split; [by intros []|done].
  - rewrite elem_of_cons, <- IH.
    destruct (String.eqb_spec k k') as [->|]; [naive_solver|]. naive_solver.
Qed.

Lemma dset_fresh k v d : k ∉ dkeys d → dset k v d = d ++ [(k, v)].
Proof.
  unfold dkeys. induction d as [|[k' v'] d IH]; [done|]. cbn. rewrite not_elem_of_cons. intros [Hne Hd].
  apply String.eqb_neq in Hne as ->. by rewrite IH.
Qed.

(** Keys stay unique. *)
Lemma dset_keys k v d : dkeys (dset k v d) = if dhas k d then dkeys d else dkeys d ++ [k].
Proof.
  unfold dhas, dkeys. induction d as [|[k' v'] d IH]; cbn; [done|].
  destruct (String.eqb_spec k k') as [->|]; cbn; [done|].
  rewrite IH. by destruct (dget k d).
Qed.

Lemma dset_NoDup k v d : NoDup (dkeys d) → NoDup (dkeys (dset k v d)).
Proof.
  intros H. rewrite dset_keys. unfold dhas. destruct (dget k d) eqn:E; [done|].
  apply NoDup_app. split_and!; [done| |by apply NoDup_singleton].
  intros x Hx ->%list_elem_of_singleton. apply dget_keys in Hx as [? Hx]. congruence.
Qed.

Lemma dpop_keys_subseteq k k' d : k ∈ dkeys (dpop k' d) → k ∈ dkeys d.
Proof.
  rewrite <- !dget_keys, dget_dpop. destruct (String.eqb k k'); [by intros []|done].
Qed.

Lemma dpop_NoDup k d : NoDup (dkeys d) → NoDup (dkeys (dpop k d)).
Proof.
  induction d as [|[k' v'] d IH]; cbn; [done|].
  intros [Hn Hd]%NoDup_cons. destruct (String.eqb k k'); [auto|].
  cbn. constructor; [|auto]. intros ?%dpop_keys_subseteq. done.
Qed.

Lemma NoDup_dget k v d : NoDup (dkeys d) → (k, v) ∈ d → dget k d = Some v.
Proof.
  unfold dkeys. induction d as [|[k' v'] d IH]; cbn.
  { by intros _ []%not_elem_of_nil. }
  intros [Hn Hd]%NoDup_cons [[= -> ->]|Hin]%elem_of_cons.
  - by rewrite String.eqb_refl.
  - destruct (String.eqb_spec k k') as [->|]; [|auto].
    exfalso. apply Hn. apply (list_elem_of_fmap_2 fst) in Hin. done.
Qed.
End dict.

#[global] Arguments dget : simpl never.
#[global] Arguments dset : simpl never.
#[global] Arguments dpop : simpl never.
#[global] Arguments dsetdefault : simpl never.

Create HintDb dict discriminated.
#[export] Hint Rewrite @dget_dset_eq @dget_dpop_eq : dict.
#[export] Hint Resolve @dset_NoDup @dpop_NoDup : dict.

(** Evaluate lookups through updates at distinct literal keys. *)
Ltac dict_simpl :=
  repeat first
    [ rewrite dget_dset_eq in * | rewrite dget_dpop_eq in *
    | rewrite dget_dset_ne in * by done | rewrite dget_dpop_ne in * by done ].
