(* ===== verification/PyVal.v ===== *)
(** * Dynamic values

    The values that decoded JSON and the source's [dict[str, object]] states
    hold, with Python's truth value, [str], [int] and [float] conversions,
    [isinstance] tests and [d.get(k)].  An integer too large for a float
    becomes an infinity here where Python raises [OverflowError]. *)

From stdpp Require Import base list strings pretty numbers.
From Stdlib Require Import Ascii ZArith Lia SpecFloat.
From S2P Require Import Prelude PyStr PyFloat PyTime PyDateTime PyDict.

#[local] Open Scope Z_scope.

Inductive pyval :=
  | VNone
  | VBool (b : bool)
  | VInt (z : Z)
  | VFloat (f : float)
  | VStr (s : string)
  | VList (l : list pyval)
  | VDict (d : list (string * pyval)).

Abbreviation pydict := (list (string * pyval)).

(** [d.get(k)]. *)
Definition vget (k : string) (d : pydict) : pyval := default VNone (dget k d).

Definition is_none (v : pyval) : bool := match v with VNone => true | _ => false end.
(** [v is True], [v is False]. *)
Definition is_true (v : pyval) : bool := match v with VBool true => true | _ => false end.
Definition is_false (v : pyval) : bool := match v with VBool false => true | _ => false end.
(** [v == s] for a literal string. *)
Definition is_str (s : string) (v : pyval) : bool :=
  match v with VStr t => String.eqb t s | _ => false end.

(** [bool(v)]. *)
Definition truthy (v : pyval) : bool :=
  match v with
  | VNone => false
  | VBool b => b
  | VInt z => negb (z =? 0)
  | VFloat f => negb (f_is_zero f)
  | VStr s => negb (String.eqb s "")
  | VList l => match l with [] => false | _ => true end
  | VDict d => match d with [] => false | _ => true end
  end.

(** [v or w]. *)
Definition v_or (v w : pyval) : pyval := if truthy v then v else w.

(** [isinstance(v, int | float)], as a float. *)
Definition num_of (v : pyval) : option float :=
  match v with
  | VBool b => Some (f_of_Z (if b then 1 else 0))
  | VInt z => Some (f_of_Z z)
  | VFloat f => Some f
  | _ => None
  end.
(** [isinstance(v, int)]: booleans are integers. *)
Definition int_of (v : pyval) : option Z :=
  match v with VBool b => Some (if b then 1 else 0) | VInt z => Some z | _ => None end.
Definition str_of (v : pyval) : option string := match v with VStr s => Some s | _ => None end.
Definition dict_of (v : pyval) : option pydict := match v with VDict d => Some d | _ => None end.
Definition list_of (v : pyval) : option (list pyval) := match v with VList l => Some l | _ => None end.

(** ** [repr] of a float: the shortest decimal that reads back *)

Fixpoint shortest_digits (fuel : nat) (n : Z) (x : float) (num den e10 : Z) : Z * Z :=
  let p := n - e10 in
  let q := if 0 <=? p then div_half_even (num * 10 ^ p) den
           else div_half_even num (den * 10 ^ (- p)) in
  match fuel with
  | O => (q, n)
  | S fuel =>
      let back := if 0 <=? p then f_of_ratio q (10 ^ p) else f_of_ratio (q * 10 ^ (- p)) 1 in
      if feqb back x then (q, n) else shortest_digits fuel (n + 1) x num den e10
  end.

(** The decimal exponent: [10^(e-1) <= num/den < 10^e]. *)
Fixpoint dec_exponent (fuel : nat) (e num den : Z) : Z :=
  let below := if 0 <=? e then num <? den * 10 ^ e else num * 10 ^ (- e) <? den in
  match fuel with
  | O => e
  | S fuel => if below then e else dec_exponent fuel (e + 1) num den
  end.

Fixpoint strip_zeros_rev (s : string) : string :=
  match s with String "0" s => strip_zeros_rev s | _ => s end.
Definition strip_zeros (s : string) : string := str_rev (strip_zeros_rev (str_rev s)).

Fixpoint zeros (n : nat) : string := match n with O => "" | S n => String "0" (zeros n) end.

Definition repr_pos (x : float) (num den : Z) : string :=
  let log2 := Z.log2 num - Z.log2 den in
  let e10 := dec_exponent 4 (log2 * 30103 / 100000 - 1) num den in
  let '(q, n) := shortest_digits 17 1 x num den e10 in
  let ds := pretty q in
  let e10 := e10 + (Z.of_nat (String.length ds) - n) in
  let ds := strip_zeros ds in
  let k := Z.of_nat (String.length ds) in
  if (-4 <? e10) && (e10 <=? 16) then
    if e10 <=? 0 then "0." +:+ zeros (Z.to_nat (- e10)) +:+ ds
    else if k <=? e10 then ds +:+ zeros (Z.to_nat (e10 - k)) +:+ ".0"
    else str_take (Z.to_nat e10) ds +:+ "." +:+ str_drop (Z.to_nat e10) ds
  else
    let e := e10 - 1 in
    str_take 1 ds +:+ (if 1 <? k then "." +:+ str_drop 1 ds else "") +:+ "e" +:+
    (if e <? 0 then "-" else "+") +:+
    (if Z.abs e <? 100 then zpad 2 (Z.abs e) else pretty (Z.abs e)).

(** [repr(x)], also [str(x)]. *)
Definition f_repr (x : float) : string :=
  match x with
  | S754_nan => "nan"
  | S754_infinity s => if s then "-inf" else "inf"
  | S754_zero s => if s then "-0.0" else "0.0"
  | S754_finite s m e =>
      let '(num, den) := if 0 <=? e then (Zpos m * 2 ^ e, 1) else (Zpos m, 2 ^ (- e)) in
      (if s then "-" else "") +:+ repr_pos (S754_finite false m e) num den
  end.

(** [f"{x:.kf}"]. *)
Definition f_fixed (k : nat) (x : float) : string :=
  match x, f_ratio x with
  | _, Some (n, d) =>
      let neg := match x with S754_zero s | S754_finite s _ _ => s | _ => false end in
      let p := 10 ^ Z.of_nat k in
      let q := div_half_even (Z.abs n * p) d in
      (if neg then "-" else "") +:+ pretty (q / p) +:+
      (match k with O => "" | _ => "." +:+ zpad k (q mod p) end)
  | S754_infinity true, _ => "-inf"
  | S754_infinity false, _ => "inf"
  | _, _ => "nan"
  end.

Example f_repr_tests :
  map f_repr [f_lit 1 1; f_of_Z 1; f_lit 25 2; f_of_Z 10000000000000000; f_lit 1 5;
              f_lit 67891234 4; fopp (f_lit 5 1)]
  = ["0.1"; "1.0"; "0.25"; "1e+16"; "1e-05"; "6789.1234"; "-0.5"].
Proof. by vm_compute. Qed.
Example f_fixed_tests :
  map (f_fixed 1) [f_lit 25 2; f_lit 35 2; f_of_Z 90; fopp (f_lit 15 1)]
  = ["0.2"; "0.3"; "90.0"; "-1.5"].
Proof. by vm_compute. Qed.

(** ** [str(v)] and [repr(v)] *)

Definition hex_digit (z : Z) : ascii :=
  ascii_chr (if z <? 10 then 48 + z else 87 + z).

Definition repr_chr (quote c : ascii) : string :=
  let z := ascii_code c in
  if Ascii.eqb c quote || Ascii.eqb c "\" then String "\" (String c "")
  else if z =? 10 then "\n" else if z =? 13 then "\r" else if z =? 9 then "\t"
  else if (z <? 32) || (127 =? z) then
    "\x" +:+ String (hex_digit (z / 16)) (String (hex_digit (z mod 16)) "")
  else String c "".

Fixpoint repr_body (quote : ascii) (s : string) : string :=
  match s with "" => "" | String c s => repr_chr quote c +:+ repr_body quote s end.

Definition DQUOTE : ascii := "034".

Definition repr_str (s : string) : string :=
  let q := if str_contains "'" s && negb (str_contains (String DQUOTE "") s)
           then DQUOTE else "'"%char in
  String q "" +:+ repr_body q s +:+ String q "".

Fixpoint py_repr (v : pyval) : string :=
  match v with
  | VNone => "None"
  | VBool b => if b then "True" else "False"
  | VInt z => str_of_Z z
  | VFloat f => f_repr f
  | VStr s => repr_str s
  | VList l => "[" +:+ str_join ", " (map py_repr l) +:+ "]"
  | VDict d => "{" +:+ str_join ", " (map (λ kv, repr_str kv.1 +:+ ": " +:+ py_repr kv.2) d) +:+ "}"
  end.

Definition py_str (v : pyval) : string := match v with VStr s => s | _ => py_repr v end.

Example py_repr_test :
  py_str (VDict [("a", VList [VInt (-3); VBool true; VStr "x'y"]); ("b", VNone)])
  = "{'a': [-3, True, " +:+ String DQUOTE ("x'y" +:+ String DQUOTE "], 'b': None}").
Proof. by vm_compute. Qed.

(** ** [int(v)] and [float(v)] *)

(** A digit run with single underscores between digits: value and rest. *)
Fixpoint digits_us (acc : Z) (seen : bool) (s : string) : option (Z * nat * string) :=
  match s with
  | String c s' =>
      match chr_digit c with
      | Some d => '(v, n, r) ← digits_us (10 * acc + d) true s'; Some (v, S n, r)
      | None =>
          match s' with
          | String c' _ =>
              if seen && Ascii.eqb c "_" && chr_is_digit c' then digits_us acc false s'
              else Some (acc, O, s)
          | "" => Some (acc, O, s)
          end
      end
  | "" => Some (acc, O, "")
  end.

Definition parse_sign (s : string) : bool * string :=
  match s with
  | String "-" r => (true, r)
  | String "+" r => (false, r)
  | _ => (false, s)
  end.

Definition parse_int (s : string) : option Z :=
  let '(neg, r) := parse_sign (str_strip s) in
  match digits_us 0 false r with
  | Some (v, S _, "") => Some (if neg then - v else v)
  | _ => None
  end.

Definition py_int (v : pyval) : res Z :=
  match v with
  | VBool b => Ok (if b then 1 else 0)
  | VInt z => Ok z
  | VFloat f => f_trunc f
  | VStr s => of_option ValueError (parse_int s)
  | _ => Err TypeError
  end.

(** [M * 10^e], correctly rounded. *)
Definition f_of_dec (m e : Z) : float :=
  if 0 <=? e then f_of_ratio (m * 10 ^ e) 1 else f_of_ratio m (10 ^ (- e)).

Definition parse_float (s : string) : option float :=
  let '(neg, r) := parse_sign (str_lower (str_strip s)) in
  let sg (f : float) := if neg then fopp f else f in
  if String.eqb r "inf" || String.eqb r "infinity" then Some (sg (S754_infinity false))
  else if String.eqb r "nan" then Some S754_nan
  else
    '(ip, ni, r) ← digits_us 0 false r;
    '(m, nf, r) ← match r with
                  | String "." r' => digits_us ip false r'
                  | _ => Some (ip, O, r)
                  end;
    if Nat.eqb (ni + nf) 0 then None
    else match r with
         | "" => Some (sg (f_of_dec m (- Z.of_nat nf)))
         | String "e" r =>
             let '(eneg, r) := parse_sign r in
             match digits_us 0 false r with
             | Some (e, S _, "") =>
                 Some (sg (f_of_dec m ((if eneg then - e else e) - Z.of_nat nf)))
             | _ => None
             end
         | _ => None
         end.

Definition py_float (v : pyval) : res float :=
  match v with
  | VStr s => of_option ValueError (parse_float s)
  | _ => of_option TypeError (num_of v)
  end.

Example parse_tests :
  (parse_int " -1_000 ", parse_int "12a", parse_float "1.5e3", parse_float "abc", parse_float "-.5")
  = (Some (-1000), None, Some (f_of_Z 1500), None, Some (fopp (f_lit 5 1))).
Proof. by vm_compute. Qed.

(** [datetime.fromisoformat(v)] guarded by [isinstance(v, str)]. *)
Definition iso_of (v : pyval) : option pydt := s ← str_of v; fromisoformat s.

Definition vtime (u : Z) : pyval := VStr (isoformat u).

Lemma iso_of_vtime u : instant_in_range u = true → iso_of (vtime u) = Some (utc u).
Proof. apply fromisoformat_isoformat. Qed.

Lemma truthy_vtime u : truthy (vtime u) = true.
Proof.
  unfold vtime. cbn. unfold isoformat, iso_date.
  destruct (ord2ymd (wall_date u)) as [[y m] d]. done.
Qed.

Lemma v_or_truthy v w : truthy v = true → v_or v w = v.
Proof. unfold v_or. by intros ->. Qed.

Lemma vget_dset k k' v d :
  vget k (dset k' v d) = if String.eqb k k' then v else vget k d.
Proof. unfold vget. rewrite dget_dset. by destruct (String.eqb k k'). Qed.

Lemma vget_dset_eq k v d : vget k (dset k v d) = v.
Proof. by rewrite vget_dset, String.eqb_refl. Qed.

Lemma vget_dset_ne k k' v d : k ≠ k' → vget k (dset k' v d) = vget k d.
Proof. intros H. rewrite vget_dset. by apply String.eqb_neq in H as ->. Qed.

Lemma vget_dpop_eq k d : vget k (dpop k d) = VNone.
Proof. unfold vget. by rewrite dget_dpop_eq. Qed.

Lemma vget_dpop_ne k k' d : k ≠ k' → vget k (dpop k' d) = vget k d.
Proof. intros H. unfold vget. by rewrite dget_dpop_ne. Qed.

#[export] Hint Rewrite @vget_dset_eq @vget_dpop_eq : dict.
#[export] Hint Resolve iso_of_vtime truthy_vtime : spx.

(** Evaluate [d.get(k)] through updates at distinct literal keys. *)
Ltac vget_simpl :=
  repeat first
    [ rewrite vget_dset_eq in * | rewrite vget_dpop_eq in *
    | rewrite vget_dset_ne in * by done | rewrite vget_dpop_ne in * by done ].

(** ** Datetimes and durations held by dynamic values *)

(** [value.astimezone(timezone.utc)] behind the check that [value] is aware. *)
Definition aware_utc (d : pydt) : res Z :=
  match dt_instant d with
  | None => Err ValueError
  | Some u => if instant_in_range u then Ok u else Err OverflowError
  end.

(** A stored ISO timestamp, read back with a missing zone taken as UTC; [None]
    when the value is not a string or does not parse. *)
Definition iso_utc (v : pyval) : res (option Z) :=
  match iso_of v with
  | None => Ok None
  | Some d => let u := dt_as_utc d in
              if instant_in_range u then Ok (Some u) else Err OverflowError
  end.

Lemma iso_utc_vtime u : instant_in_range u = true → iso_utc (vtime u) = Ok (Some u).
Proof. intros H. unfold iso_utc. rewrite iso_of_vtime by done. by rewrite dt_as_utc_utc, H. Qed.

Lemma aware_utc_utc u : instant_in_range u = true → aware_utc (utc u) = Ok u.
Proof. intros H. unfold aware_utc. rewrite dt_instant_utc. by rewrite H. Qed.

Lemma aware_utc_range d u : aware_utc d = Ok u → instant_in_range u = true.
Proof. unfold aware_utc. intros. split_cases. Qed.

Lemma iso_utc_range v u : iso_utc v = Ok (Some u) → instant_in_range u = true.
Proof. unfold iso_utc. intros. split_cases. Qed.

(** [timedelta(seconds=x)]: whole seconds exactly, the fraction rounded half
    to even in microseconds. *)
Definition td_seconds (x : float) : res Z :=
  whole ← f_trunc x;
  frac ← f_round_int (fmul (fsub x (f_of_Z whole)) (f_of_Z 1000000));
  let us := whole * SECOND + frac in
  if Z.abs (us / DAY) <=? 999999999 then Ok us else Err OverflowError.

(** [moment + timedelta]. *)
Definition dt_add (u us : Z) : res Z :=
  if instant_in_range (u + us) then Ok (u + us) else Err OverflowError.

Lemma dt_add_range u us v : dt_add u us = Ok v → v = u + us ∧ instant_in_range v = true.
Proof. unfold dt_add. intros. split_cases. Qed.

Example td_seconds_tests :
  (td_seconds (f_lit 15 1), td_seconds (f_of_Z 300), td_seconds (fopp (f_lit 5 1)))
  = (Ok 1500000, Ok 300000000, Ok (-500000)).
Proof. by vm_compute. Qed.

(** [str(d.get(k) or default)]. *)
Definition vstr_or (k default : string) (d : pydict) : string :=
  py_str (v_or (vget k d) (VStr default)).

Definition v_opt_str (o : option string) : pyval := match o with Some s => VStr s | None => VNone end.
Definition v_opt_time (t : option Z) : pyval := match t with Some u => vtime u | None => VNone end.
Definition v_opt_float (o : option float) : pyval := match o with Some f => VFloat f | None => VNone end.
(** [o or default] for an optional string. *)
Definition str_or (o : option string) (default : string) : string :=
  match o with Some s => if String.eqb s "" then default else s | None => default end.
(** [d[k]]. *)
Definition vindex (k : string) (d : pydict) : res pyval := dindex k d.

Lemma vstr_or_dset_eq k s dflt d : vstr_or k dflt (dset k (VStr s) d) = (if String.eqb s "" then dflt else s).
Proof.
  unfold vstr_or. rewrite vget_dset_eq. unfold v_or. cbn. by destruct (String.eqb s "").
Qed.

Lemma vstr_or_dset_ne k k' v dflt d : k ≠ k' → vstr_or k dflt (dset k' v d) = vstr_or k dflt d.
Proof. intros. unfold vstr_or. by rewrite vget_dset_ne. Qed.

(** [datetime.fromtimestamp(x, tz=utc)] for [x > 0]; [None] where it raises. *)
Definition EPOCH : Z := combine (ymd2ord 1970 1 1) 0.
Definition dt_fromtimestamp (x : float) : option Z :=
  match f_trunc x with
  | Err _ => None
  | Ok whole =>
      match f_round_int (fmul (fsub x (f_of_Z whole)) (f_of_Z 1000000)) with
      | Err _ => None
      | Ok us => let u := EPOCH + whole * SECOND + us in
                 if instant_in_range u then Some u else None
      end
  end.

(** [d.get(k, default)]. *)
Definition vget_or (k : string) (dflt : pyval) (d : pydict) : pyval := default dflt (dget k d).

Lemma vget_cons k k' v d :
  vget k ((k', v) :: d) = if String.eqb k k' then v else vget k d.
Proof. unfold vget, dget. by destruct (String.eqb k k'). Qed.

(** ** [v == w]

    Numbers compare by value whatever their type, dictionaries without regard
    to their order. *)
Definition num_ratio (v : pyval) : option (Z * Z) :=
  match v with
  | VBool b => Some (if b then 1 else 0, 1)
  | VInt z => Some (z, 1)
  | VFloat f => f_ratio f
  | _ => None
  end.

Fixpoint py_eq (v w : pyval) {struct v} : bool :=
  match v, w with
  | VNone, VNone => true
  | VStr s, VStr t => String.eqb s t
  | VFloat f, VFloat g => feqb f g
  | VList l, VList m =>
      (fix eq_items (l m : list pyval) : bool :=
         match l, m with
         | [], [] => true
         | x :: l, y :: m => py_eq x y && eq_items l m
         | _, _ => false
         end) l m
  | VDict d, VDict e =>
      Nat.eqb (length d) (length e)
      && (fix eq_members (d : pydict) : bool :=
            match d with
            | [] => true
            | (k, x) :: d => match dget k e with Some y => py_eq x y | None => false end
                             && eq_members d
            end) d
  | _, _ => match num_ratio v, num_ratio w with
            | Some (n, d), Some (n', d') => n * d' =? n' * d
            | _, _ => false
            end
  end.

Example py_eq_tests :
  (py_eq (VInt 1) (VBool true), py_eq (VFloat (f_of_Z 2)) (VInt 2), py_eq (VStr "1") (VInt 1),
   py_eq (VDict [("a", VInt 1); ("b", VNone)]) (VDict [("b", VNone); ("a", VInt 1)]), py_eq VNone (VInt 0))
  = (true, true, false, true, false).
Proof. by vm_compute. Qed.

(** ** String enumerations

    A [class X(str, Enum)]: its members and their values; [X(s)] looks the
    value up, and every member is found by its own value. *)
Class PyEnum (A : Type) := {
  enum_members : list A;
  enum_value : A → string;
  enum_find a : find (λ b, String.eqb (enum_value b) (enum_value a)) enum_members = Some a;
}.

Definition enum_of {A} `{PyEnum A} (s : string) : option A :=
  find (λ b, String.eqb (enum_value b) s) enum_members.
(** [try: X(s) except ValueError: default]. *)
Definition enum_or {A} `{PyEnum A} (dflt : A) (s : string) : A := default dflt (enum_of s).
(** [X(s)]. *)
Definition enum_parse {A} `{PyEnum A} (s : string) : res A := of_option ValueError (enum_of s).

Section enums.
Context {A : Type} `{PyEnum A}.

Lemma enum_of_value a : enum_of (enum_value a) = Some a.
Proof. apply enum_find. Qed.

Lemma enum_or_value dflt a : enum_or dflt (enum_value a) = a.
Proof. unfold enum_or. by rewrite enum_of_value. Qed.

Lemma enum_parse_value a : enum_parse (enum_value a) = Ok a.
Proof. unfold enum_parse. by rewrite enum_of_value. Qed.

Lemma enum_value_inj a b : enum_value a = enum_value b → a = b.
Proof. intros E. pose proof (enum_of_value a) as Ha. rewrite E, enum_of_value in Ha. congruence. Qed.
End enums.

#[export] Hint Rewrite @enum_of_value @enum_or_value @enum_parse_value : enum.

(** What reading and decoding a JSON file gives. *)
Inductive FileContent :=
  | NoFile
  (** present, but it cannot be opened, or its text is not JSON *)
  | Unreadable
  (** present, but its bytes are not UTF-8: decoding raises
      [UnicodeDecodeError], a [ValueError] *)
  | Undecodable
  | Json (v : pyval).

(** ** Lookups at literal keys *)

(** Evaluate the comparison of two literal keys. *)
Ltac key_eval :=
  repeat (match goal with
          | |- context [String.eqb ?a ?b] =>
              let r := eval vm_compute in (String.eqb a b) in
              lazymatch r with true => idtac | false => idtac end;
              change (String.eqb a b) with r
          end; cbv match).
Lemma vget_dset_lit k k' v d : String.eqb k k' = false → vget k (dset k' v d) = vget k d.
Proof. intros H. by rewrite vget_dset, H. Qed.

(** Evaluate lookups at literal keys through updates at literal keys. *)
Ltac look :=
  repeat match goal with
         | |- context [vget ?k (dset ?k' ?v ?d)] =>
             let b := eval vm_compute in (String.eqb k k') in
             lazymatch b with
             | true => rewrite (vget_dset_eq k v d)
             | false => rewrite (vget_dset_lit k k' v d eq_refl)
             end
         end;
  rewrite ?vget_cons; key_eval.

(** Look keys up in a dict display. *)
Ltac look_display :=
  repeat match goal with
         | |- context [vget ?k (?x :: ?l)] =>
             let v := eval cbv [vget dget default from_option String.eqb Ascii.eqb Bool.eqb id] in
                        (vget k (x :: l)) in
             change (vget k (x :: l)) with v
         end.

Lemma vindex_some k v d : vget k d = v → v ≠ VNone → vindex k d = Ok v.
Proof.
  unfold vget, vindex, dindex. destruct (dget k d); cbn; [by intros ->|by intros <-].
Qed.

Lemma vindex_vget k st v : vindex k st = Ok v → vget k st = v.
Proof. unfold vindex, dindex, vget. destruct (dget k st); cbn; by intros [= ->]. Qed.

Lemma vget_dhas k (d : pydict) : vget k d ≠ VNone → dhas k d = true.
Proof. unfold vget, dhas. by destruct (dget k d). Qed.

Lemma dhas_dset k k' v (d : pydict) : dhas k d = true → dhas k (dset k' v d) = true.
Proof. unfold dhas. rewrite dget_dset. by destruct (String.eqb k k'). Qed.

Lemma dsetdefault_has k v (d : pydict) : dhas k d = true → dsetdefault k v d = d.
Proof. unfold dsetdefault. by intros ->. Qed.

Lemma isoformat_inj u v :
  instant_in_range u = true → instant_in_range v = true →
  String.eqb (isoformat u) (isoformat v) = (u =? v).
Proof.
  intros Hu Hv. destruct (Z.eqb_spec u v) as [->|Hne]; [apply String.eqb_refl|].
  apply String.eqb_neq. intros E. apply Hne.
  pose proof (fromisoformat_isoformat u Hu) as Pu. pose proof (fromisoformat_isoformat v Hv) as Pv.
  rewrite E in Pu. rewrite Pu in Pv. unfold utc in Pv. congruence.
Qed.
