(* ===== verification/PyHash.v ===== *)
(** * SHA-256

    [hashlib.sha256(data).hexdigest()] on byte strings: the compression
    function of FIPS 180-4 on 32-bit words, and the UTF-8 encoding of the
    modelled characters. *)

From stdpp Require Import base list strings numbers.
From Stdlib Require Import ZArith Lia.
From S2P Require Import Prelude PyStr.

#[local] Open Scope Z_scope.

(** ** 32-bit words *)

Definition w32 (z : Z) : Z := Z.land z 4294967295.
Definition wadd (a b : Z) : Z := w32 (a + b).
Definition rotr (n x : Z) : Z := Z.lor (Z.shiftr x n) (w32 (Z.shiftl x (32 - n))).
Definition wnot (x : Z) : Z := Z.lxor x 4294967295.

(** The constants of the standard: the first 32 bits of the fractional parts of
    the cube roots of the first 64 primes and of the square roots of the first 8. *)
Definition is_prime (n : Z) : bool := forallb (λ d, negb (n mod d =? 0)) (seqZ 2 (n - 2)).
Definition small_primes : list Z := List.filter is_prime (seqZ 2 310).

(** The largest [r < 2^n] with [r^3 <= z], bit by bit. *)
Fixpoint cube_root (n : nat) (r z : Z) : Z :=
  match n with
  | O => r
  | S n => let r' := r + 2 ^ Z.of_nat n in cube_root n (if r' ^ 3 <=? z then r' else r) z
  end.

Definition SHA_K : list Z :=
  Eval vm_compute in map (λ p, w32 (cube_root 36 0 (p * 2 ^ 96))) small_primes.
Definition SHA_H : list Z :=
  Eval vm_compute in map (λ p, w32 (Z.sqrt (p * 2 ^ 64))) (take 8 small_primes).

Definition small_sigma (a b c x : Z) : Z := Z.lxor (rotr a x) (Z.lxor (rotr b x) (Z.shiftr x c)).
Definition big_sigma (a b c x : Z) : Z := Z.lxor (rotr a x) (Z.lxor (rotr b x) (rotr c x)).

(** The message schedule, newest word first. *)
Fixpoint schedule (n : nat) (ws : list Z) : list Z :=
  match n with
  | O => ws
  | S n =>
      let w i := nth i ws 0 in
      schedule n (wadd (wadd (small_sigma 17 19 10 (w 1%nat)) (w 6%nat))
                       (wadd (small_sigma 7 18 3 (w 14%nat)) (w 15%nat)) :: ws)
  end.

Definition sha_round (s : list Z) (kw : Z * Z) : list Z :=
  match s with
  | [a; b; c; d; e; f; g; h] =>
      let t1 := wadd h (wadd (big_sigma 6 11 25 e)
                  (wadd (Z.lxor (Z.land e f) (Z.land (wnot e) g)) (wadd kw.1 kw.2))) in
      let t2 := wadd (big_sigma 2 13 22 a)
                  (Z.lxor (Z.land a b) (Z.lxor (Z.land a c) (Z.land b c))) in
      [wadd t1 t2; a; b; c; wadd d t1; e; f; g]
  | _ => s
  end.

Definition sha_block (h : list Z) (words : list Z) : list Z :=
  let ws := rev (schedule 48 (rev words)) in
  zip_with wadd h (fold_left sha_round (combine SHA_K ws) h).

(** ** Messages *)

Fixpoint be_words (bytes : list Z) : list Z :=
  match bytes with
  | a :: b :: c :: d :: bytes => (((a * 256 + b) * 256 + c) * 256 + d) :: be_words bytes
  | _ => []
  end.

(** The [n] big-endian bytes of [z]. *)
Fixpoint be_bytes (n : nat) (z : Z) : list Z :=
  match n with O => [] | S n => be_bytes n (z / 256) ++ [z mod 256] end.

Definition sha_pad (bytes : list Z) : list Z :=
  let len := Z.of_nat (length bytes) in
  bytes ++ [128] ++ replicate (Z.to_nat ((55 - len) mod 64)) 0 ++ be_bytes 8 (8 * len).

Fixpoint sha_blocks (n : nat) (h : list Z) (words : list Z) : list Z :=
  match n with
  | O => h
  | S n => sha_blocks n (sha_block h (take 16 words)) (drop 16 words)
  end.

Definition hex_chr (d : Z) : Ascii.ascii := ascii_chr (if d <? 10 then 48 + d else 87 + d).
Definition hex_byte (b : Z) : string := String (hex_chr (b / 16)) (String (hex_chr (b mod 16)) "").

Definition sha256_hex (bytes : list Z) : string :=
  let words := be_words (sha_pad bytes) in
  let h := sha_blocks (length words / 16)%nat SHA_H words in
  str_join "" (map hex_byte (flat_map (be_bytes 4) h)).

(** [s.encode("utf-8")]: one byte for an ASCII character, two for the others. *)
Fixpoint utf8 (s : string) : list Z :=
  match s with
  | "" => []
  | String c s => let z := ascii_code c in
                  (if z <? 128 then [z] else [192 + z / 64; 128 + z mod 64]) ++ utf8 s
  end.

(** [hashlib.sha256(s.encode()).hexdigest()]. *)
Definition sha256_hexdigest (s : string) : string := sha256_hex (utf8 s).

Example sha256_vectors :
  sha256_hexdigest "" = "e3b0c44298fc1c149afbf4c8996fb92427ae41e4649b934ca495991b7852b855"
  ∧ sha256_hexdigest "abc" = "ba7816bf8f01cfea414140de5dae2223b00361a396177a9cb410ff61f20015ad"
  ∧ sha256_hexdigest "abcdbcdecdefdefgefghfghighijhijkijkljklmklmnlmnomnopnopq"
    = "248d6a61d20638b8e5c026930c3e6039a33ce45964ff2167f6ecedd419db06c1".
Proof. by vm_compute. Qed.
