(* ===== verification/PyJson.v ===== *)
(** * JSON

    [json.dumps(v, ensure_ascii=False, sort_keys=True, separators=(",", ":"),
    allow_nan=False)] and [json.loads] on the modelled characters, and the
    round trip of values without floats.  An escape of a character beyond the
    modelled ones is refused. *)

From Stdlib Require Import Ascii ZArith Lia SpecFloat.
From stdpp Require Import base list strings pretty numbers.

From S2P Require Import Prelude PyStr PyFloat PyDict PyVal.

#[local] Open Scope Z_scope.

(** ** Writing *)

Definition json_chr (c : ascii) : string :=
  let z := ascii_code c in
  if Ascii.eqb c DQUOTE || Ascii.eqb c "\" then String "\" (String c "")
  else if z =? 10 then "\n" else if z =? 13 then "\r" else if z =? 9 then "\t"
  else if z =? 12 then "\f" else if z =? 8 then "\b"
  else if z <? 32 then
    "\u00" +:+ String (hex_digit (z / 16)) (String (hex_digit (z mod 16)) "")
  else String c "".

Fixpoint json_body (s : string) : string :=
  match s with "" => "" | String c s => json_chr c +:+ json_body s end.
Definition json_str (s : string) : string :=
  String DQUOTE (json_body s +:+ String DQUOTE "").

(** [sorted(d.items())] for distinct keys. *)
Definition sort_items {A} : list (string * A) → list (string * A) :=
  sort_by (λ a b, String.ltb a.1 b.1).

Fixpoint dumps (v : pyval) : res string :=
  match v with
  | VNone => Ok "null"
  | VBool b => Ok (if b then "true" else "false")
  | VInt z => Ok (str_of_Z z)
  | VFloat f => if f_is_nan f || f_is_inf f then Err ValueError else Ok (f_repr f)
  | VStr s => Ok (json_str s)
  | VList l =>
      xs ← (fix go l := match l with
                        | [] => Ok []
                        | v :: l => x ← dumps v; xs ← go l; Ok (x :: xs)
                        end) l;
      Ok ("[" +:+ str_join "," xs +:+ "]")
  | VDict d =>
      xs ← (fix go d := match d with
                        | [] => Ok []
                        | (k, v) :: d => x ← dumps v; xs ← go d; Ok ((k, x) :: xs)
                        end) d;
      Ok ("{" +:+ str_join "," (map (λ kx, json_str kx.1 +:+ ":" +:+ kx.2) (sort_items xs)) +:+ "}")
  end.

(** ** Reading *)

Definition json_space (c : ascii) : bool :=
  let z := ascii_code c in (z =? 32) || (z =? 9) || (z =? 10) || (z =? 13).

Fixpoint skip_ws (s : string) : string :=
  match s with String c s' => if json_space c then skip_ws s' else s | "" => "" end.

Definition hex_value (c : ascii) : option Z :=
  let z := ascii_code c in
  if (48 <=? z) && (z <=? 57) then Some (z - 48)
  else if (97 <=? z) && (z <=? 102) then Some (z - 87)
  else if (65 <=? z) && (z <=? 70) then Some (z - 55) else None.

Definition short_escape (c : ascii) : option ascii :=
  let z := ascii_code c in
  if Ascii.eqb c DQUOTE || Ascii.eqb c "\" || Ascii.eqb c "/" then Some c
  else if z =? 98 then Some (ascii_chr 8) else if z =? 102 then Some (ascii_chr 12)
  else if z =? 110 then Some (ascii_chr 10) else if z =? 114 then Some (ascii_chr 13)
  else if z =? 116 then Some (ascii_chr 9) else None.

(** The rest of a string after its opening quote. *)
Fixpoint scan_str (s : string) : option (string * string) :=
  match s with
  | "" => None
  | String c s =>
      if Ascii.eqb c DQUOTE then Some ("", s)
      else if Ascii.eqb c "\" then
        match s with
        | String e s =>
            if Ascii.eqb e "u" then
              match s with
              | String a (String b (String c (String d s))) =>
                  a ← hex_value a; b ← hex_value b; c ← hex_value c; d ← hex_value d;
                  let z := ((a * 16 + b) * 16 + c) * 16 + d in
                  if z <? 256 then '(t, r) ← scan_str s; Some (String (ascii_chr z) t, r) else None
              | _ => None
              end
            else ch ← short_escape e; '(t, r) ← scan_str s; Some (String ch t, r)
        | "" => None
        end
      else if ascii_code c <? 32 then None
      else '(t, r) ← scan_str s; Some (String c t, r)
  end.

(** The longest run of digits. *)
Fixpoint span_digits (s : string) : string * string :=
  match s with
  | String c s' => if chr_is_digit c then let '(a, r) := span_digits s' in (String c a, r) else ("", s)
  | "" => ("", "")
  end.

(** The grammar's integer part: a single zero or digits without a leading zero. *)
Definition int_part (s : string) : option (string * string) :=
  match s with
  | String "0" s => Some ("0", s)
  | _ => let '(ds, r) := span_digits s in if String.eqb ds "" then None else Some (ds, r)
  end.

Definition frac_part (s : string) : string * string :=
  match s with
  | String "." s' => let '(ds, r) := span_digits s' in
                     if String.eqb ds "" then ("", s) else ("." +:+ ds, r)
  | _ => ("", s)
  end.

Definition exp_part (s : string) : string * string :=
  match s with
  | String e s' =>
      if Ascii.eqb e "e" || Ascii.eqb e "E" then
        let '(sg, r) := match s' with
                        | String c r => if Ascii.eqb c "+" || Ascii.eqb c "-"
                                        then (String c "", r) else ("", s')
                        | "" => ("", s')
                        end in
        let '(ds, r) := span_digits r in
        if String.eqb ds "" then ("", s) else (String e (sg +:+ ds), r)
      else ("", s)
  | "" => ("", s)
  end.

Definition parse_number (s : string) : option (pyval * string) :=
  let '(neg, s) := match s with String "-" s => (true, s) | _ => (false, s) end in
  '(ip, s) ← int_part s;
  let '(fp, s) := frac_part s in
  let '(ep, s) := exp_part s in
  if String.eqb fp "" && String.eqb ep "" then
    z ← parse_digits ip; Some (VInt (if neg : bool then - z else z), s)
  else f ← parse_float ((if neg then "-" else "") +:+ ip +:+ fp +:+ ep); Some (VFloat f, s).

Definition literals : list (string * pyval) :=
  [("null", VNone); ("true", VBool true); ("false", VBool false); ("NaN", VFloat S754_nan);
   ("Infinity", VFloat (S754_infinity false)); ("-Infinity", VFloat (S754_infinity true))].

Definition parse_literal (s : string) : option (pyval * string) :=
  '(w, v) ← find (λ wv, str_starts wv.1 s) literals; Some (v, str_drop (String.length w) s).

Definition expect (c : ascii) (s : string) : option string :=
  match s with String d s => if Ascii.eqb c d then Some s else None | "" => None end.

Section containers.
(** Reads a value at the head of the text. *)
Context (pv : string → option (pyval * string)).

(** The items of a list from the start of an item. *)
Fixpoint parse_items (n : nat) (s : string) : option (list pyval * string) :=
  match n with
  | O => None
  | S n =>
      '(v, s) ← pv (skip_ws s);
      match skip_ws s with
      | String "]" s => Some ([v], s)
      | String "," s => '(vs, s) ← parse_items n s; Some (v :: vs, s)
      | _ => None
      end
  end.

(** The members of an object from the start of a key. *)
Fixpoint parse_members (n : nat) (s : string) : option (pydict * string) :=
  match n with
  | O => None
  | S n =>
      s ← expect DQUOTE (skip_ws s);
      '(k, s) ← scan_str s;
      s ← expect ":" (skip_ws s);
      '(v, s) ← pv (skip_ws s);
      match skip_ws s with
      | String "}" s => Some ([(k, v)], s)
      | String "," s => '(kvs, s) ← parse_members n s; Some ((k, v) :: kvs, s)
      | _ => None
      end
  end.
End containers.

Fixpoint parse_value (fuel : nat) (s : string) : option (pyval * string) :=
  match fuel with
  | O => None
  | S fuel =>
      match s with
      | String c r =>
          if Ascii.eqb c DQUOTE then '(t, r) ← scan_str r; Some (VStr t, r)
          else if Ascii.eqb c "[" then
            match skip_ws r with
            | String "]" r => Some (VList [], r)
            | _ => '(vs, r) ← parse_items (parse_value fuel) (String.length r) r; Some (VList vs, r)
            end
          else if Ascii.eqb c "{" then
            match skip_ws r with
            | String "}" r => Some (VDict [], r)
            | _ => '(kvs, r) ← parse_members (parse_value fuel) (String.length r) r;
                   Some (VDict (dmerge [] kvs), r)
            end
          else match parse_literal s with Some vr => Some vr | None => parse_number s end
      | "" => None
      end
  end.

Definition loads (s : string) : res pyval :=
  match parse_value (S (String.length s)) (skip_ws s) with
  | Some (v, r) => if String.eqb (skip_ws r) "" then Ok v else Err ValueError
  | None => Err ValueError
  end.

Definition json_sample : pyval :=
  VDict [("b", VList [VInt (-120); VFloat (f_lit 15 1); VNone; VBool true; VStr "a\b/c"]);
         ("a", VDict [("z", VList []); ("y", VDict [])])].

(** Text with double quotes written as single ones. *)
Definition dq (s : string) : string := str_replace_chr "'" (String DQUOTE "") s.

Example json_sample_text :
  dumps json_sample = Ok (dq "{'a':{'y':{},'z':[]},'b':[-120,1.5,null,true,'a\\b/c']}")
  ∧ loads (dq " {'b' : [-120, 1.5e0,null,true, 'a\u005cb\/c' ], 'a':{'z':[],'y':{}}}") = Ok json_sample
  ∧ loads "01" = Err ValueError ∧ loads "[1,]" = Err ValueError ∧ loads "-" = Err ValueError.
Proof. by vm_compute. Qed.

(** ** The round trip *)

(** Induction on values through their lists and dictionaries. *)
Section pyval_induction.
Context (P : pyval → Prop).
Context (HN : P VNone) (HB : ∀ b, P (VBool b)) (HI : ∀ z, P (VInt z)) (HF : ∀ f, P (VFloat f))
        (HS : ∀ s, P (VStr s)) (HL : ∀ l, Forall P l → P (VList l))
        (HD : ∀ d, Forall (λ kv, P kv.2) d → P (VDict d)).

Definition pyval_nested_ind : ∀ v, P v :=
  fix go (v : pyval) : P v :=
    match v with
    | VNone => HN | VBool b => HB b | VInt z => HI z | VFloat f => HF f | VStr s => HS s
    | VList l => HL l ((fix gol l := match l return Forall P l with
                                     | [] => Forall_nil_2 _
                                     | v :: l => Forall_cons_2 _ _ _ (go v) (gol l)
                                     end) l)
    | VDict d => HD d ((fix god d := match d return Forall (λ kv, P kv.2) d with
                                     | [] => Forall_nil_2 _
                                     | (k, v) :: d => Forall_cons_2 _ (k, v) _ (go v) (god d)
                                     end) d)
    end.
End pyval_induction.

(** Values without floats and with distinct keys. *)
Fixpoint json_plain (v : pyval) : bool :=
  match v with
  | VFloat _ => false
  | VList l => forallb json_plain l
  | VDict d => bool_decide (NoDup d.*1) && forallb (λ kv, json_plain kv.2) d
  | _ => true
  end.

(** The value with every dictionary sorted by key. *)
Fixpoint canon (v : pyval) : pyval :=
  match v with
  | VList l => VList (map canon l)
  | VDict d => VDict (sort_items (map (λ kv, (kv.1, canon kv.2)) d))
  | _ => v
  end.

Lemma dumps_list l :
  dumps (VList l) = (xs ← res_mapM dumps l; Ok ("[" +:+ str_join "," xs +:+ "]")).
Proof.
  cbn [dumps]. f_equal. induction l as [|v l IH]; [done|].
  cbn [res_mapM]. rewrite IH. by destruct (dumps v), (res_mapM dumps l).
Qed.

Definition dump_item (kv : string * pyval) : res (string * string) := x ← dumps kv.2; Ok (kv.1, x).
Definition member_text (kx : string * string) : string := json_str kx.1 +:+ ":" +:+ kx.2.

Lemma dumps_dict d :
  dumps (VDict d) = (xs ← res_mapM dump_item d;
                     Ok ("{" +:+ str_join "," (map member_text (sort_items xs)) +:+ "}")).
Proof.
  cbn [dumps]. f_equal. induction d as [|[k v] d IH]; [done|].
  cbn [res_mapM]. change (dump_item (k, v)) with (x ← dumps v; Ok (k, x)). rewrite IH.
  destruct (dumps v); [|done]. by destruct (res_mapM dump_item d).
Qed.

(** Text after a value: nothing, or the next punctuation. *)
Definition stops (r : string) : bool :=
  match r with "" => true | String c _ => Ascii.eqb c "," || Ascii.eqb c "]" || Ascii.eqb c "}" end.

Lemma scan_json_chr c s :
  scan_str (json_chr c +:+ s) = ('(t, r) ← scan_str s; Some (String c t, r)).
Proof. destruct c as [[] [] [] [] [] [] [] []]; reflexivity. Qed.

Lemma scan_json_body s r : scan_str (json_body s +:+ String DQUOTE r) = Some (s, r).
Proof.
  induction s as [|c s IH]; [done|]. cbn [json_body].
  by rewrite str_app_assoc, scan_json_chr, IH.
Qed.

Lemma json_str_app s r : json_str s +:+ r = String DQUOTE (json_body s +:+ String DQUOTE r).
Proof. unfold json_str. by rewrite str_app_cons, str_app_assoc. Qed.

(** Decimal numerals. *)
Lemma pretty_digit n : (n < 10)%N → pretty_N_char n = digit_chr (Z.of_N n).
Proof.
  intros H.
  assert (n = 0 ∨ n = 1 ∨ n = 2 ∨ n = 3 ∨ n = 4 ∨ n = 5 ∨ n = 6 ∨ n = 7 ∨ n = 8 ∨ n = 9)%N as Hc by lia.
  repeat destruct Hc as [->|Hc]; try reflexivity. by subst.
Qed.

Lemma digit_chr_is_digit d : 0 ≤ d < 10 → chr_is_digit (digit_chr d) = true.
Proof.
  intros H. pose proof (chr_digit_chr d H) as E. unfold chr_digit in E. by destruct (chr_is_digit _).
Qed.

(** A nonempty numeral: all digits, no leading zero. *)
Lemma pretty_N_go_numeral n s :
  (0 < n)%N →
  ∃ d p, 0 < d < 10 ∧ pretty_N_go n s = String (digit_chr d) p +:+ s
         ∧ str_all chr_is_digit p = true ∧ digits_from d p = Some (Z.of_N n).
Proof.
  revert s. induction (N.lt_wf_0 n) as [n _ IH]. intros s Hn.
  rewrite pretty_N_go_step by lia. rewrite pretty_digit by (apply N.mod_lt; lia).
  destruct (decide (n `div` 10 = 0)%N) as [E|E].
  - rewrite E, pretty_N_go_0. assert (n < 10)%N as Hlt by (apply N.div_small_iff in E; lia).
    rewrite N.mod_small by done. exists (Z.of_N n), "". split_and!; [lia|lia|done..].
  - assert (0 < n `div` 10)%N as Hq by by apply N.neq_0_lt_0.
    destruct (IH (n `div` 10)%N (N.div_lt n 10 Hn eq_refl)
                (String (digit_chr (Z.of_N (n `mod` 10))) s) Hq) as (d & p & Hd & -> & Hp & Hv).
    assert (0 ≤ Z.of_N (n `mod` 10) < 10) as Hm.
    { split; [apply N2Z.is_nonneg|]. by apply (N2Z.inj_lt _ 10), N.mod_lt. }
    exists d, (p +:+ String (digit_chr (Z.of_N (n `mod` 10))) ""). split; [done|].
    rewrite <- str_app_cons, str_app_assoc. split; [done|]. split.
    + rewrite str_all_app, Hp. cbn [str_all andb]. by rewrite digit_chr_is_digit.
    + rewrite digits_from_app, Hv. cbn. rewrite chr_digit_chr by done. cbn. f_equal.
      rewrite N2Z.inj_mod, N2Z.inj_div.
      change (Z.of_N 10) with 10. pose proof (Z.div_mod (Z.of_N n) 10). lia.
Qed.

Lemma span_digits_app p r :
  str_all chr_is_digit p = true → stops r = true → span_digits (p +:+ r) = (p, r).
Proof.
  intros Hp Hr. induction p as [|c p IH].
  - change ("" +:+ r) with r. destruct r as [|c r]; [done|]. cbn in Hr |- *.
    destruct (Ascii.eqb_spec c ","); [by subst|]. destruct (Ascii.eqb_spec c "]"); [by subst|].
    destruct (Ascii.eqb_spec c "}"); [by subst|done].
  - cbn in Hp. apply andb_true_iff in Hp as [Hc Hp]. rewrite str_app_cons. cbn. by rewrite Hc, IH.
Qed.

(** A character that may follow a value starts no fraction and no exponent. *)
Lemma stops_tail r : stops r = true → frac_part r = ("", r) ∧ exp_part r = ("", r).
Proof.
  destruct r as [|c r]; [done|]. cbn [stops]. intros H.
  destruct (Ascii.eqb_spec c ","); [by subst|]. destruct (Ascii.eqb_spec c "]"); [by subst|].
  destruct (Ascii.eqb_spec c "}"); [by subst|done].
Qed.

Lemma parse_number_digits (neg : bool) d p z r :
  0 < d < 10 → str_all chr_is_digit p = true → digits_from d p = Some z → stops r = true →
  parse_number ((if neg then "-" else "") +:+ (String (digit_chr d) p +:+ r))
  = Some (VInt (if neg then - z else z), r).
Proof.
  intros Hd Hp Hz Hr. unfold parse_number.
  assert (Hi : int_part (String (digit_chr d) p +:+ r) = Some (String (digit_chr d) p, r)).
  { rewrite str_app_cons. pose proof (span_digits_app (String (digit_chr d) p) r) as Hs.
    cbn [str_all] in Hs. rewrite digit_chr_is_digit, Hp in Hs by lia. specialize (Hs eq_refl Hr).
    rewrite str_app_cons in Hs. unfold int_part. rewrite Hs.
    assert (d = 1 ∨ d = 2 ∨ d = 3 ∨ d = 4 ∨ d = 5 ∨ d = 6 ∨ d = 7 ∨ d = 8 ∨ d = 9) as Hc by lia.
    repeat destruct Hc as [->|Hc]; try reflexivity. by subst. }
  assert (Hh : match (if neg then "-" else "") +:+ (String (digit_chr d) p +:+ r) with
               | String "-" s => (true, s)
               | _ => (false, (if neg then "-" else "") +:+ (String (digit_chr d) p +:+ r))
               end = (neg, String (digit_chr d) p +:+ r)).
  { destruct neg; [done|]. rewrite str_app_cons. change ("" +:+ ?s) with s.
    assert (d = 1 ∨ d = 2 ∨ d = 3 ∨ d = 4 ∨ d = 5 ∨ d = 6 ∨ d = 7 ∨ d = 8 ∨ d = 9) as Hc by lia.
    repeat destruct Hc as [->|Hc]; try reflexivity. by subst. }
  rewrite Hh, Hi. cbn [mbind option_bind]. destruct (stops_tail r Hr) as [-> ->].
  cbn [String.eqb andb]. cbn [parse_digits digits_from].
  rewrite chr_digit_chr by lia. cbn [mbind option_bind].
  replace (10 * 0 + d) with d by lia. by rewrite Hz.
Qed.

(** A numeral is not read as a literal, a string, a list or an object. *)
Lemma parse_value_numeral fuel (neg : bool) d p r :
  0 < d < 10 →
  parse_value (S fuel) ((if neg then "-" else "") +:+ (String (digit_chr d) p +:+ r))
  = parse_number ((if neg then "-" else "") +:+ (String (digit_chr d) p +:+ r)).
Proof.
  intros Hd. assert (d = 1 ∨ d = 2 ∨ d = 3 ∨ d = 4 ∨ d = 5 ∨ d = 6 ∨ d = 7 ∨ d = 8 ∨ d = 9) as Hc by lia.
  rewrite str_app_cons.
  repeat destruct Hc as [->|Hc]; try (by destruct neg). subst. by destruct neg.
Qed.

Lemma parse_int_text fuel z r :
  stops r = true → parse_value (S fuel) (str_of_Z z +:+ r) = Some (VInt z, r).
Proof.
  intros Hr. destruct z as [|n|n].
  - change (str_of_Z 0 +:+ r) with (String "0" r).
    change (parse_value _ _) with (parse_number (String "0" r)). unfold parse_number.
    cbn [int_part mbind option_bind]. destruct (stops_tail r Hr) as [-> ->]. done.
  - destruct (pretty_N_go_numeral (Npos n) "" ltac:(lia)) as (d & p & Hd & E & Hp & Hv).
    rewrite str_app_nil_r in E. change (str_of_Z (Zpos n)) with (pretty_N_go (Npos n) "").
    rewrite E. exact (eq_trans (parse_value_numeral fuel false d p r Hd)
                        (parse_number_digits false d p _ r Hd Hp Hv Hr)).
  - destruct (pretty_N_go_numeral (Npos n) "" ltac:(lia)) as (d & p & Hd & E & Hp & Hv).
    rewrite str_app_nil_r in E.
    change (str_of_Z (Zneg n)) with ("-" +:+ pretty_N_go (Npos n) ""). rewrite E, str_app_assoc.
    exact (eq_trans (parse_value_numeral fuel true d p r Hd)
             (parse_number_digits true d p _ r Hd Hp Hv Hr)).
Qed.

Definition value_start (t : string) : bool :=
  match t with String c _ => negb (json_space c) && negb (Ascii.eqb c "]") | "" => false end.

Lemma skip_value_start t r : value_start t = true → skip_ws (t +:+ r) = t +:+ r.
Proof. destruct t as [|c t]; [done|]. rewrite str_app_cons. cbn. by destruct (json_space c). Qed.

(** [t] is a text that reads back as [v]. *)
Definition reads_as (v : pyval) (t : string) : Prop :=
  value_start t = true ∧
  ∀ r fuel, (String.length t ≤ fuel)%nat → stops r = true →
            parse_value fuel (t +:+ r) = Some (v, r).

Lemma length_app_str s t : String.length (s +:+ t) = (String.length s + String.length t)%nat.
Proof. induction s as [|c s IH]; [done|]. rewrite str_app_cons. cbn. by rewrite IH. Qed.

Lemma items_read vs ts fuel n r :
  Forall2 reads_as vs ts → ts ≠ [] → (length ts ≤ n)%nat →
  (String.length (str_join "," ts) ≤ fuel)%nat →
  parse_items (parse_value fuel) n (str_join "," ts +:+ String "]" r) = Some (vs, r).
Proof.
  intros H. revert n. induction H as [|v t vs ts [Hs Ht] H IH]; intros n Hne Hn Hf; [done|].
  destruct n as [|n]; [cbn in Hn; lia|]. destruct H as [|v' t' vs ts Hv' H].
  - cbn [str_join]. cbn [parse_items]. rewrite skip_value_start by done.
    cbn [str_join] in Hf. rewrite Ht by done. cbn. done.
  - remember (t' :: ts) as ts' eqn:Ets. assert (ts' ≠ []) as Hne' by by subst.
    assert (Hj : str_join "," (t :: ts') = t +:+ "," +:+ str_join "," ts') by (subst; done).
    rewrite Hj in *. rewrite !length_app_str in Hf. cbn [String.length] in Hf.
    rewrite !str_app_assoc. cbn [parse_items]. rewrite skip_value_start by done.
    rewrite Ht by (done || lia). cbn [mbind option_bind].
    change (skip_ws ("," +:+ ?s)) with ("," +:+ s). rewrite str_app_sing. cbn iota beta.
    cbn in Hn. rewrite IH; [done|done|lia|lia].
Qed.

Lemma members_read kvs kts fuel n r :
  Forall2 (λ kv kt, kv.1 = kt.1 ∧ reads_as kv.2 kt.2) kvs kts → kts ≠ [] → (length kts ≤ n)%nat →
  (String.length (str_join "," (map member_text kts)) ≤ fuel)%nat →
  parse_members (parse_value fuel) n (str_join "," (map member_text kts) +:+ String "}" r)
  = Some (kvs, r).
Proof.
  intros H. revert n. induction H as [|[k v] [k' t] kvs kts [Hk [Hs Ht]] H IH]; intros n Hne Hn Hf; [done|].
  cbn in Hk. subst k'. cbn [fst snd] in *. destruct n as [|n]; [cbn in Hn; lia|].
  assert (Hj : ∃ tail, str_join "," (map member_text ((k, t) :: kts))
                       = json_str k +:+ (":" +:+ (t +:+ tail))
             ∧ (tail = "" ∧ kts = [] ∨ kts ≠ [] ∧ tail = "," +:+ str_join "," (map member_text kts))).
  { destruct kts as [|kt kts]; [exists ""|eexists]; (split; [|by auto]); cbn [map str_join];
      unfold member_text at 1; cbn [fst snd]; by rewrite ?str_app_nil_r, ?str_app_assoc. }
  destruct Hj as (tail & Hj & Htail). rewrite Hj in *. rewrite !length_app_str in Hf. cbn [String.length] in Hf.
  rewrite !str_app_assoc, json_str_app. cbn [parse_members].
  change (skip_ws (String DQUOTE ?s)) with (String DQUOTE s).
  change (expect DQUOTE (String DQUOTE ?s)) with (Some s). cbn [mbind option_bind].
  rewrite scan_json_body. cbn [mbind option_bind].
  rewrite str_app_sing. change (skip_ws (String ":" ?s)) with (String ":" s).
  change (expect ":" (String ":" ?s)) with (Some s). cbn [mbind option_bind].
  rewrite skip_value_start by done. destruct Htail as [[-> ->]|[Hne' ->]].
  - inversion H; subst. rewrite Ht by (done || cbn in Hf; lia). done.
  - rewrite Ht by (done || lia). cbn [mbind option_bind]. rewrite str_app_assoc, str_app_sing.
    change (skip_ws (String "," ?s)) with (String "," s). cbn iota beta.
    rewrite !length_app_str in Hf. cbn [String.length] in Hf, Hn. rewrite IH; [done|done|cbn in Hn; lia|lia].
Qed.

Lemma sort_items_Forall2 {A B} (R : string * A → string * B → Prop) l l' :
  (∀ x y, R x y → x.1 = y.1) → Forall2 R l l' → Forall2 R (sort_items l) (sort_items l').
Proof.
  intros HR. unfold sort_items, sort_by. induction 1 as [|x y l l' Hxy H IH]; [constructor|]. cbn.
  revert IH. generalize (foldr (insert_by (λ a b, String.ltb a.1 b.1)) [] l)
    (foldr (insert_by (λ a b, String.ltb a.1 b.1)) [] l'). clear H.
  induction 1 as [|x' y' m m' Hxy' H IH]; cbn; [by repeat constructor|].
  rewrite (HR _ _ Hxy), (HR _ _ Hxy'). destruct (String.ltb _ _); by repeat constructor.
Qed.

Lemma dmerge_nil {A} (e : list (string * A)) : NoDup e.*1 → dmerge [] e = e.
Proof.
  intros H. unfold dmerge. change e with ([] ++ e) at 2. change e.*1 with (([] ++ e).*1) in H.
  revert H. generalize (@nil (string * A)) as acc.
  induction e as [|[k v] e IH]; intros acc H; cbn [fold_left]; [by rewrite app_nil_r|].
  cbn [fst snd]. rewrite dset_fresh, IH.
  - by rewrite <- app_assoc.
  - by rewrite <- app_assoc.
  - unfold dkeys. rewrite fmap_app in H. apply list.NoDup_app in H as (_ & H & _).
    intros Hk. apply (H k Hk). by left.
Qed.

Lemma stops_sing c r : Ascii.eqb c "," || Ascii.eqb c "]" || Ascii.eqb c "}" = true → stops (String c r) = true.
Proof. done. Qed.

Lemma list_reads vs ts :
  Forall2 reads_as vs ts → reads_as (VList vs) ("[" +:+ str_join "," ts +:+ "]").
Proof.
  intros H. split; [done|]. intros r [|fuel] Hf Hr; rewrite str_app_sing in *; [cbn in Hf; lia|].
  rewrite str_app_cons, str_app_assoc, str_app_sing.
  cbn [String.length] in Hf. rewrite length_app_str in Hf. cbn [String.length] in Hf.
  cbn [parse_value]. change (Ascii.eqb "[" DQUOTE) with false. change (Ascii.eqb "[" "[") with true.
  cbn iota. destruct H as [|v t vs ts Hv H]; [done|].
  assert (Hs : skip_ws (str_join "," (t :: ts) +:+ String "]" r) = str_join "," (t :: ts) +:+ String "]" r
               ∧ ∃ c s, str_join "," (t :: ts) +:+ String "]" r = String c s ∧ Ascii.eqb c "]" = false).
  { destruct Hv as [Hv _]. destruct t as [|c t]; [done|]. cbn in Hv. apply andb_true_iff in Hv as [H1 H2].
    apply negb_true_iff in H1, H2. destruct ts as [|t' ts]; cbn [str_join]; rewrite ?str_app_cons;
      (split; [cbn; by rewrite H1|by eauto]). }
  destruct Hs as (Hs & c & s & Hcs & Hc). rewrite Hs.
  assert (Hn : (length (t :: ts) ≤ String.length (str_join "," (t :: ts) +:+ String "]" r))%nat).
  { rewrite length_app_str. cbn [String.length]. clear. generalize t as t'. induction ts as [|t0 ts IH]; intros t'.
    - cbn. lia.
    - change (str_join "," (t' :: t0 :: ts)) with (t' +:+ ("," +:+ str_join "," (t0 :: ts))).
      rewrite !length_app_str. specialize (IH t0). cbn [length String.length] in *. lia. }
  pose proof (items_read (v :: vs) (t :: ts) fuel _ r (Forall2_cons _ _ Hv H) ltac:(done) Hn
                ltac:(lia)) as Hi.
  rewrite Hcs in *. rewrite Hi. destruct c as [[] [] [] [] [] [] [] []]; try done.
Qed.

Lemma dict_reads kvs kts :
  Forall2 (λ kv kt, kv.1 = kt.1 ∧ reads_as kv.2 kt.2) kvs kts → NoDup kvs.*1 →
  reads_as (VDict kvs) ("{" +:+ str_join "," (map member_text kts) +:+ "}").
Proof.
  intros H Hnd. split; [done|]. intros r [|fuel] Hf Hr; rewrite str_app_sing in *; [cbn in Hf; lia|].
  rewrite str_app_cons, str_app_assoc, str_app_sing.
  cbn [String.length] in Hf. rewrite length_app_str in Hf. cbn [String.length] in Hf.
  cbn [parse_value]. change (Ascii.eqb "{" DQUOTE) with false. change (Ascii.eqb "{" "[") with false.
  change (Ascii.eqb "{" "{") with true.
  cbn iota. destruct H as [|v t vs ts Hv H]; [done|].
  assert (Hs : ∃ s, str_join "," (map member_text (t :: ts)) +:+ String "}" r = String DQUOTE s).
  { destruct t as [k t]. destruct ts as [|t' ts]; cbn [map str_join]; unfold member_text at 1; cbn [fst snd];
      rewrite ?str_app_assoc, json_str_app; by eexists. }
  destruct Hs as (s & Hcs).
  assert (Hn : (length (t :: ts) ≤ String.length (str_join "," (map member_text (t :: ts)) +:+ String "}" r))%nat).
  { rewrite length_app_str. cbn [String.length]. clear. generalize t as t'. induction ts as [|t0 ts IH]; intros t'.
    - cbn. lia.
    - change (str_join "," (map member_text (t' :: t0 :: ts)))
        with (member_text t' +:+ ("," +:+ str_join "," (map member_text (t0 :: ts)))).
      rewrite !length_app_str. specialize (IH t0). cbn [length String.length] in *. lia. }
  pose proof (members_read (v :: vs) (t :: ts) fuel _ r (Forall2_cons _ _ Hv H) ltac:(done) Hn
                ltac:(lia)) as Hi.
  rewrite Hcs in *. change (skip_ws (String DQUOTE ?s)) with (String DQUOTE s).
  rewrite Hi. cbn [mbind option_bind]. rewrite dmerge_nil by done. done.
Qed.

Lemma int_reads z : reads_as (VInt z) (str_of_Z z).
Proof.
  split.
  - destruct z as [|n|n]; [done| |done].
    destruct (pretty_N_go_numeral (Npos n) "" ltac:(lia)) as (d & p & Hd & E & _).
    rewrite str_app_nil_r in E. change (str_of_Z (Zpos n)) with (pretty_N_go (Npos n) "").
    rewrite E. cbn [value_start].
    assert (d = 1 ∨ d = 2 ∨ d = 3 ∨ d = 4 ∨ d = 5 ∨ d = 6 ∨ d = 7 ∨ d = 8 ∨ d = 9) as Hc by lia.
    repeat destruct Hc as [->|Hc]; try reflexivity. by subst.
  - intros r [|fuel] Hf Hr; [|by apply parse_int_text].
    destruct (str_of_Z z) eqn:E; [|cbn in Hf; lia].
    pose proof (parse_int_text 0 z "" eq_refl) as H. rewrite E in H. done.
Qed.

(** Every plain value is written as a text that reads back as its sorted form. *)
Lemma plain_text v : json_plain v = true → ∃ t, dumps v = Ok t ∧ reads_as (canon v) t.
Proof.
  induction v as [|b|z|f|s|l IH|d IH] using pyval_nested_ind; intros Hp.
  - eexists. split; [done|]. split; [done|]. intros r [|fuel] Hf Hr; [cbn in Hf; lia|by destruct r].
  - exists (if b then "true" else "false"). split; [done|]. split; [by destruct b|].
    intros r [|fuel] Hf Hr; [destruct b; cbn in Hf; lia|]. by destruct b, r.
  - eexists. split; [done|]. apply int_reads.
  - done.
  - eexists. split; [done|]. split; [done|]. intros r [|fuel] Hf Hr.
    { unfold json_str in Hf. cbn in Hf. lia. }
    rewrite json_str_app. cbn [parse_value].
    change (Ascii.eqb DQUOTE DQUOTE) with true. cbn iota. by rewrite scan_json_body.
  - cbn [json_plain] in Hp. rewrite dumps_list.
    assert (∃ ts, res_mapM dumps l = Ok ts ∧ Forall2 reads_as (map canon l) ts) as (ts & E & H).
    { induction IH as [|v l Hv _ IHl]; [by exists []|]. cbn in Hp. apply andb_true_iff in Hp as [Hpv Hpl].
      destruct (Hv Hpv) as (t & Et & Ht), (IHl Hpl) as (ts & Ets & Hts).
      exists (t :: ts). cbn [res_mapM map]. rewrite Et. cbn [mbind res_bind]. rewrite Ets.
      split; [done|by constructor]. }
    rewrite E. eexists. split; [done|]. by apply list_reads.
  - cbn [json_plain] in Hp. apply andb_true_iff in Hp as [Hnd Hp]. apply bool_decide_eq_true_1 in Hnd.
    rewrite dumps_dict.
    assert (∃ kts, res_mapM dump_item d = Ok kts
              ∧ Forall2 (λ kv kt, kv.1 = kt.1 ∧ reads_as kv.2 kt.2)
                  (map (λ kv, (kv.1, canon kv.2)) d) kts) as (kts & E & H).
    { clear Hnd. induction IH as [|[k v] d Hv _ IHd]; [by exists []|]. cbn in Hp.
      apply andb_true_iff in Hp as [Hpv Hpd].
      destruct (Hv Hpv) as (t & Et & Ht), (IHd Hpd) as (ts & Ets & Hts).
      exists ((k, t) :: ts). cbn [res_mapM map]. change (dump_item (k, v)) with (x ← dumps v; Ok (k, x)).
      cbn [snd] in Et. rewrite Et. cbn [mbind res_bind]. rewrite Ets. split; [done|by constructor]. }
    rewrite E. eexists. split; [done|]. cbn [canon]. apply dict_reads.
    + apply sort_items_Forall2; [by intros x y []|done].
    + unfold sort_items. rewrite sort_by_perm.
      replace ((map (λ kv : string * pyval, (kv.1, canon kv.2)) d).*1) with (d.*1); [done|].
      clear. induction d as [|[k v] d IH]; cbn; [done|]. by rewrite IH.
Qed.

Theorem loads_dumps v : json_plain v = true → ∃ t, dumps v = Ok t ∧ loads t = Ok (canon v).
Proof.
  intros Hp. destruct (plain_text v Hp) as (t & Ht & Hs & Hr). exists t. split; [done|].
  unfold loads. pose proof (skip_value_start t "" Hs) as E. rewrite str_app_nil_r in E. rewrite E.
  pose proof (Hr "" (S (String.length t)) ltac:(lia) eq_refl) as H. rewrite str_app_nil_r in H.
  by rewrite H.
Qed.
