(* ===== verification/StateIo.v ===== *)
(** * State files ([state_io.py])

    A JSON file is what a reader decodes; a write sorts the keys and replaces the
    file as one step. *)

From stdpp Require Import base list strings.
From Stdlib Require Import Ascii ZArith.
From S2P Require Import Prelude PyStr PyDict PyVal PyJson.

#[local] Open Scope Z_scope.

(** [atomic_write_json_secure], as it is read back. *)
Definition written_json (payload : pydict) : FileContent := Json (canon (VDict payload)).

(** The object that a file holds; the empty one for anything else. *)
Definition json_object (content : FileContent) : pydict :=
  match content with Json v => default [] (dict_of v) | _ => [] end.

(** [read_json_object]: [OSError] and [JSONDecodeError] are caught, a failure to
    decode the bytes is not. *)
Definition read_json_object (content : FileContent) : res pydict :=
  match content with Undecodable => Err ValueError | _ => Ok (json_object content) end.

Lemma read_json_ok content d : read_json_object content = Ok d → d = json_object content.
Proof. destruct content; by intros [= <-]. Qed.

(** ** Written dicts *)

Definition canon_dict (d : pydict) : pydict := sort_items (map (λ kv, (kv.1, canon kv.2)) d).

Lemma dget_insert_item {A} k (x : string * A) d :
  dget k (insert_by (λ a b, String.ltb a.1 b.1) x d) = dget k (x :: d).
Proof.
  induction d as [|y d IH]; [done|]. cbn [insert_by]. destruct (String.ltb y.1 x.1) eqn:E; [|done].
  destruct x as [kx vx], y as [ky vy]. unfold dget in *. cbn in E. rewrite IH.
  destruct (String.eqb_spec k ky) as [->|]; [|done]. destruct (String.eqb_spec ky kx) as [->|]; [|done].
  by rewrite str_ltb_irrefl in E.
Qed.

Lemma dget_sort_items {A} k (d : list (string * A)) : dget k (sort_items d) = dget k d.
Proof.
  unfold sort_items, sort_by. induction d as [|[k' v] d IH]; [done|]. cbn [foldr]. rewrite dget_insert_item.
  unfold dget in *. by rewrite IH.
Qed.

Lemma dget_map_snd {A B} (f : A → B) k (d : list (string * A)) : dget k (map (λ kv, (kv.1, f kv.2)) d) = f <$> dget k d.
Proof. induction d as [|[k' v] d IH]; [done|]. unfold dget in *. cbn. by destruct (String.eqb k k'). Qed.

Lemma vget_canon k d : vget k (canon_dict d) = canon (vget k d).
Proof. unfold vget, canon_dict. rewrite dget_sort_items, dget_map_snd. by destruct (dget k d). Qed.

Lemma canon_rows rows : canon (VList (map VDict rows)) = VList (map VDict (map canon_dict rows)).
Proof. cbn [canon]. f_equal. induction rows as [|r rows IH]; [done|]. cbn [map]. by rewrite <- IH. Qed.

Lemma canon_opt_str o : canon (v_opt_str o) = v_opt_str o.
Proof. by destruct o. Qed.
Lemma canon_opt_time o : canon (v_opt_time o) = v_opt_time o.
Proof. by destruct o. Qed.

Lemma written_reads payload : json_object (written_json payload) = canon_dict payload.
Proof. done. Qed.

Lemma vget_dmerge k d (e : pydict) : k ∉ e.*1 → vget k (dmerge d e) = vget k d.
Proof.
  unfold dmerge. revert d. induction e as [|[k' v] e IH]; intros d Hk; [done|]. cbn [fold_left fst snd].
  apply not_elem_of_cons in Hk as [Hk1 Hk2]. rewrite IH by done. by apply vget_dset_ne.
Qed.
