(* ===== verification/MarketCalendar.v ===== *)
(** * The US equity calendar ([market_calendar.py])

    Dates are ordinals and the America/New_York wall clock is a number of
    microseconds, because [_as_et] gives every datetime of the module the same
    [tzinfo] and Python then compares wall clocks.  The time-zone database is
    not part of the repository: [to_et], the New York wall clock of a UTC
    instant, is a parameter of the section. *)

From stdpp Require Import base list strings gmap sets numbers.
From Stdlib Require Import ZArith Lia.
From S2P Require Import Prelude PyStr PyTime PyDateTime.

#[local] Open Scope Z_scope.

(** ** Constants *)

Definition RTH_OPEN : Z := time_hm 9 30.
Definition RTH_CLOSE : Z := time_hm 16 0.
Definition EARLY_CLOSE : Z := time_hm 13 0.
Definition REVIEW_READY : Z := time_hm 17 0.
Definition NEXT_EXPIRY_PREFETCH_BEFORE_CLOSE : Z := 30 * MINUTE.
Definition GLOBEX_OPEN : Z := time_hm 18 0.
Definition GLOBEX_MAINTENANCE : Z := time_hm 17 0.
Definition SPX_GTH_OPEN : Z := time_hm 20 15.
Definition SPX_GTH_CLOSE : Z := time_hm 9 25.
Definition FIVE_MINUTES : Z := 5 * MINUTE.

(** ** Holidays *)

Definition observed_new_year (year : Z) : res Z :=
  new_year ← mk_date year 1 1;
  if weekday new_year =? 6 then date_add new_year 1 else Ok new_year.

Definition observed_fixed_holiday (day : Z) : res Z :=
  if weekday day =? 5 then date_add day (-1)
  else if weekday day =? 6 then date_add day 1
  else Ok day.

Definition nth_weekday (year month wd occurrence : Z) : res Z :=
  first ← mk_date year month 1;
  let offset := (wd - weekday first) mod 7 in
  date_add first (offset + (occurrence - 1) * 7).

Definition last_weekday (year month wd : Z) : res Z :=
  first_next_month ← (if month =? 12 then mk_date (year + 1) 1 1
                      else mk_date year (month + 1) 1);
  last ← date_add first_next_month (-1);
  date_add last (- ((weekday last - wd) mod 7)).

(** The Meeus/Jones/Butcher rule: month and day of Easter Sunday. *)
Definition easter_month_day (year : Z) : Z * Z :=
  let a := year mod 19 in
  let b := year / 100 in
  let c := year mod 100 in
  let d := b / 4 in
  let e := b mod 4 in
  let f := (b + 8) / 25 in
  let g := (b - f + 1) / 3 in
  let h := (19 * a + b - d - g + 15) mod 30 in
  let i := c / 4 in
  let k := c mod 4 in
  let ell := (32 + 2 * e + 2 * i - h - k) mod 7 in
  let m := (a + 11 * h + 22 * ell) / 451 in
  ((h + ell - 7 * m + 114) / 31, (h + ell - 7 * m + 114) mod 31 + 1).

Definition easter_sunday (year : Z) : res Z :=
  let '(month, day) := easter_month_day year in mk_date year month day.

Definition holidays_for_nominal_year (year : Z) : res (list Z) :=
  new_year ← observed_new_year year;
  mlk ← nth_weekday year 1 0 3;
  presidents ← nth_weekday year 2 0 3;
  easter ← easter_sunday year;
  good_friday ← date_add easter (-2);
  memorial ← last_weekday year 5 0;
  july4 ← mk_date year 7 4;
  independence ← observed_fixed_holiday july4;
  labor ← nth_weekday year 9 0 1;
  thanksgiving ← nth_weekday year 11 3 4;
  dec25 ← mk_date year 12 25;
  christmas ← observed_fixed_holiday dec25;
  let holidays := [new_year; mlk; presidents; good_friday; memorial; independence;
                   labor; thanksgiving; christmas] in
  if 2022 <=? year then
    june19 ← mk_date year 6 19;
    juneteenth ← observed_fixed_holiday june19;
    Ok (holidays ++ [juneteenth])
  else Ok holidays.

Definition holidays_around (year : Z) : res (list Z) :=
  a ← holidays_for_nominal_year (year - 1);
  b ← holidays_for_nominal_year year;
  c ← holidays_for_nominal_year (year + 1);
  Ok (a ++ b ++ c).

(** ** The calendar object *)

Record MarketCalendar := {
  full_day_closures : gset Z;
  early_closes : gmap Z Z;
}.

Definition DEFAULT_MARKET_CALENDAR : MarketCalendar :=
  {| full_day_closures := ∅; early_closes := ∅ |}.

Definition is_trading_day (c : MarketCalendar) (day : Z) : res bool :=
  if (5 <=? weekday day) || bool_decide (day ∈ full_day_closures c) then Ok false
  else h ← holidays_around (date_year day); Ok (negb (bool_decide (day ∈ h))).

(** One iteration of [while not self.is_trading_day(candidate): candidate += step]. *)
Definition seek_step (c : MarketCalendar) (dir candidate : Z) : Z + res Z :=
  match is_trading_day c candidate with
  | Ok true => inr (Ok candidate)
  | Ok false => match date_add candidate dir with Ok d => inl d | Err e => inr (Err e) end
  | Err e => inr (Err e)
  end.

(** More iterations than there are dates. *)
Definition DATE_FUEL : positive := 3652061.

Definition seek (c : MarketCalendar) (dir candidate : Z) : res Z :=
  match while_loop DATE_FUEL (seek_step c dir) candidate with
  | inr r => r
  | inl _ => Err OutOfFuel
  end.

Definition next_trading_day (c : MarketCalendar) (day : Z) : res Z :=
  candidate ← date_add day 1; seek c 1 candidate.

Definition previous_trading_day (c : MarketCalendar) (day : Z) : res Z :=
  candidate ← date_add day (-1); seek c (-1) candidate.

Definition elapsed_step (c : MarketCalendar) (end_ : Z) (s : Z * Z) : (Z * Z) + res Z :=
  let '(current, elapsed) := s in
  if current <? end_ then
    match next_trading_day c current with
    | Ok candidate =>
        if end_ <? candidate then inr (Ok elapsed) else inl (candidate, elapsed + 1)
    | Err e => inr (Err e)
    end
  else inr (Ok elapsed).

Definition trading_days_elapsed (c : MarketCalendar) (start end_ : Z) : res (option Z) :=
  if end_ <? start then Ok None
  else match while_loop DATE_FUEL (elapsed_step c end_) (start, 0) with
       | inr r => Some <$> r
       | inl _ => Err OutOfFuel
       end.

(** ** Sessions *)

Record MarketSession := {
  ms_trading_date : Z;
  open_at : Z;
  close_at : Z;
  review_ready_at : Z;
  early_close : bool;
}.

Definition expected_five_minute_buckets (s : MarketSession) : Z :=
  (close_at s - open_at s) / FIVE_MINUTES.

Record SpxSessionWindow := {
  sw_trading_date : Z;
  session_start : Z;
  gth_end : Z;
  rth_open : Z;
  session_end : Z;
}.

Definition segment_at (w : SpxSessionWindow) (moment : Z) : option string :=
  if (session_start w <=? moment) && (moment <? gth_end w) then Some "gth"
  else if (gth_end w <=? moment) && (moment <? rth_open w) then Some "closed_gap"
  else if (rth_open w <=? moment) && (moment <=? session_end w) then Some "rth"
  else None.

Definition is_scheduled_early_close (day : Z) : res bool :=
  thanksgiving ← nth_weekday (date_year day) 11 3 4;
  after ← date_add thanksgiving 1;
  if day =? after then Ok true
  else if (date_month day =? 7) && (date_day day =? 3) then Ok true
  else Ok ((date_month day =? 12) && (date_day day =? 24)).

Definition session (c : MarketCalendar) (day : Z) : res (option MarketSession) :=
  trading ← is_trading_day c day;
  if negb trading then Ok None
  else
    close_time ← match early_closes c !! day with
                 | Some t => Ok t
                 | None => early ← is_scheduled_early_close day;
                           Ok (if early : bool then EARLY_CLOSE else RTH_CLOSE)
                 end;
    Ok (Some {| ms_trading_date := day;
                open_at := combine day RTH_OPEN;
                close_at := combine day close_time;
                review_ready_at := combine day REVIEW_READY;
                early_close := negb (close_time =? RTH_CLOSE) |}).

Definition spx_session_window (c : MarketCalendar) (day : Z) : res (option SpxSessionWindow) :=
  s ← session c day;
  match s with
  | None => Ok None
  | Some s =>
      eve ← date_add day (-1);
      Ok (Some {| sw_trading_date := day;
                  session_start := combine eve SPX_GTH_OPEN;
                  gth_end := combine day SPX_GTH_CLOSE;
                  rth_open := open_at s;
                  session_end := close_at s |})
  end.

(** ** Operations on the current time

    [current] below is the New York wall clock that [_as_et] returned. *)

Definition rth_open_at (c : MarketCalendar) (current : Z) : res bool :=
  s ← session c (wall_date current);
  Ok match s with
     | None => false
     | Some s => (open_at s <=? current) && (current <? close_at s)
     end.

Definition globex_open_at (current : Z) : bool :=
  let wd := weekday (wall_date current) in
  let t := wall_time current in
  if wd =? 5 then false
  else if wd =? 6 then GLOBEX_OPEN <=? t
  else if wd =? 4 then t <? GLOBEX_MAINTENANCE
  else (t <? GLOBEX_MAINTENANCE) || (GLOBEX_OPEN <=? t).

Definition spx_gth_open_at (c : MarketCalendar) (current : Z) : res bool :=
  if wall_time current <? SPX_GTH_CLOSE then is_trading_day c (wall_date current)
  else if SPX_GTH_OPEN <=? wall_time current then
    next ← date_add (wall_date current) 1; is_trading_day c next
  else Ok false.

(** The scan over the last fifteen days for the session that is retained. *)
Fixpoint retained_scan (c : MarketCalendar) (current : Z) (n : nat) (candidate : Z)
    : res (option Z) :=
  match n with
  | O => Ok None
  | S n =>
      trading ← is_trading_day c candidate;
      retained ← (if trading : bool then spx_session_window c candidate else Ok None);
      match retained with
      | Some w =>
          if session_start w <=? current then Ok (Some (sw_trading_date w))
          else prev ← date_add candidate (-1); retained_scan c current n prev
      | None => prev ← date_add candidate (-1); retained_scan c current n prev
      end
  end.

Definition spx_session_date_at (c : MarketCalendar) (retain_completed : bool) (current : Z)
    : res (option Z) :=
  let fallback := if retain_completed then retained_scan c current 15 (wall_date current)
                  else Ok None in
  if SPX_GTH_OPEN <=? wall_time current then
    candidate ← next_trading_day c (wall_date current);
    window ← spx_session_window c candidate;
    match window with
    | Some w => if (session_start w <=? current) && (current <? gth_end w)
                then Ok (Some candidate) else fallback
    | None => fallback
    end
  else
    window ← spx_session_window c (wall_date current);
    match window with
    | Some w => if (session_start w <=? current) && (current <=? session_end w)
                then Ok (Some (sw_trading_date w)) else fallback
    | None => fallback
    end.

Definition post_rth_pre_gth_quiet_at (c : MarketCalendar) (current : Z) : res bool :=
  completed_day ← spx_session_date_at c true current;
  match completed_day with
  | None => Ok false
  | Some day =>
      completed ← session c day;
      match completed with
      | None => Ok false
      | Some s =>
          if current <? close_at s then Ok false
          else
            next_day ← next_trading_day c day;
            next_window ← spx_session_window c next_day;
            Ok match next_window with
               | Some w => current <? session_start w
               | None => false
               end
      end
  end.

Definition research_expiry_at (c : MarketCalendar) (current : Z) : res Z :=
  let day := wall_date current in
  trading ← is_trading_day c day;
  if trading && (wall_time current <? REVIEW_READY) then Ok day
  else if trading : bool then next_trading_day c day
  else seek c 1 day.

Definition research_expiries_at (c : MarketCalendar) (current : Z) : res (Z * Z) :=
  first ← research_expiry_at c current;
  second ← next_trading_day c first;
  Ok (first, second).

Definition option_collection_expiry_at (c : MarketCalendar) (current : Z) : res Z :=
  s ← session c (wall_date current);
  match s with
  | Some s =>
      if (close_at s <=? current) && (current <? review_ready_at s)
      then next_trading_day c (ms_trading_date s)
      else research_expiry_at c current
  | None => research_expiry_at c current
  end.

Definition option_collection_expiries_at (c : MarketCalendar) (current : Z) : res (Z * Z) :=
  first ← option_collection_expiry_at c current;
  second ← next_trading_day c first;
  Ok (first, second).

Definition next_expiry_prefetch_at (c : MarketCalendar) (current : Z) : res bool :=
  s ← session c (wall_date current);
  Ok match s with
     | None => false
     | Some s => (close_at s - NEXT_EXPIRY_PREFETCH_BEFORE_CLOSE <=? current)
                 && (current <? review_ready_at s)
     end.

Definition completed_review_date_at (c : MarketCalendar) (current : Z) : res Z :=
  let day := wall_date current in
  trading ← is_trading_day c day;
  if trading && (REVIEW_READY <=? wall_time current) then Ok day
  else previous_trading_day c day.

Section with_zone.
(** The New York wall clock of a UTC instant. *)
Context (to_et : Z → Z).

Definition as_et (value : pydt) : res Z :=
  match dt_instant value with
  | None => Err ValueError
  | Some u => Ok (to_et u)
  end.

Definition is_rth_open c now : res bool := current ← as_et now; rth_open_at c current.
Definition is_globex_open now : res bool := current ← as_et now; Ok (globex_open_at current).
Definition is_spx_gth_open c now : res bool := current ← as_et now; spx_gth_open_at c current.
Definition is_post_rth_pre_gth_quiet c now : res bool :=
  current ← as_et now; post_rth_pre_gth_quiet_at c current.
Definition spx_session_date_for c (retain_completed : bool) now : res (option Z) :=
  current ← as_et now; spx_session_date_at c retain_completed current.
Definition research_expiry c now : res Z := current ← as_et now; research_expiry_at c current.
Definition research_expiries c now : res (Z * Z) :=
  current ← as_et now; research_expiries_at c current.
Definition option_collection_expiry c now : res Z :=
  current ← as_et now; option_collection_expiry_at c current.
Definition option_collection_expiries c now : res (Z * Z) :=
  current ← as_et now; option_collection_expiries_at c current.
Definition is_next_expiry_prefetch_window c now : res bool :=
  current ← as_et now; next_expiry_prefetch_at c current.
Definition completed_review_date c now : res Z :=
  current ← as_et now; completed_review_date_at c current.

(** [default_spxw_expiry]: with [today], roll a non-trading date forward;
    otherwise the research expiry of [now]. *)
Definition default_spxw_expiry (today : option Z) (now : pydt) : res string :=
  match today with
  | Some day => strftime_ymd <$> seek DEFAULT_MARKET_CALENDAR 1 day
  | None => strftime_ymd <$> research_expiry DEFAULT_MARKET_CALENDAR now
  end.
End with_zone.

(** Known dates of the exchange calendar. *)
Example easter_2026 : easter_sunday 2026 = mk_date 2026 4 5.
Proof. by vm_compute. Qed.
Example next_after_thanksgiving_eve :
  next_trading_day DEFAULT_MARKET_CALENDAR (ymd2ord 2026 11 25) = Ok (ymd2ord 2026 11 27).
Proof. by vm_compute. Qed.
Example black_friday_half_day :
  session DEFAULT_MARKET_CALENDAR (ymd2ord 2026 11 27)
  = Ok (Some {| ms_trading_date := ymd2ord 2026 11 27;
                open_at := combine (ymd2ord 2026 11 27) RTH_OPEN;
                close_at := combine (ymd2ord 2026 11 27) EARLY_CLOSE;
                review_ready_at := combine (ymd2ord 2026 11 27) REVIEW_READY;
                early_close := true |}).
Proof. by vm_compute. Qed.
