(* ===== verification/CalendarFacts.v ===== *)
(** * Facts about the market calendar

    Holidays exist for every supported year and lie far apart, the trading-day
    searches terminate with the nearest trading day, and the session predicates
    of [MarketCalendar] fit together. *)

From stdpp Require Import base list strings gmap sets numbers.
From Stdlib Require Import ZArith Lia.
From S2P Require Import Prelude PyStr PyTime PyDateTime MarketCalendar.

#[local] Open Scope Z_scope.

(** ** Dates in range *)

Lemma days_before_year_bounds y :
  1 ≤ y ≤ 9999 → 0 ≤ days_before_year y ≤ MAXORD - year_days y.
Proof.
  intros Hy. split.
  - apply (days_before_year_mono 1). lia.
  - pose proof (days_before_year_mono (y + 1) 10000 ltac:(lia)) as H.
    rewrite days_before_year_succ in H. change (days_before_year 10000) with MAXORD in H. lia.
Qed.

Lemma year_days_cases y :
  (is_leap y = true ∧ year_days y = 366) ∨ (is_leap y = false ∧ year_days y = 365).
Proof. unfold year_days. destruct (is_leap y); auto. Qed.

Lemma date_add_ok o k : 1 ≤ o + k ≤ MAXORD → date_add o k = Ok (o + k).
Proof.
  intros. unfold date_add, date_in_range.
  by rewrite !(proj2 (Z.leb_le _ _)) by lia.
Qed.

Lemma date_add_inv o k d : date_add o k = Ok d → d = o + k ∧ 1 ≤ d ≤ MAXORD.
Proof.
  unfold date_add, date_in_range. intros. case_match; simplify_eq. bool_to_prop. lia.
Qed.

Lemma mk_date_ok y m d :
  1 ≤ y ≤ 9999 → valid_ymd y m d → mk_date y m d = Ok (ymd2ord y m d).
Proof.
  intros Hy [Hm Hd]. unfold mk_date, MINYEAR, MAXYEAR.
  by rewrite !(proj2 (Z.leb_le _ _)) by lia.
Qed.

(** The day of the year a date falls on. *)
Definition in_window (y lo hi h : Z) : Prop :=
  days_before_year y + lo ≤ h ≤ days_before_year y + hi.

Ltac month_cases y :=
  unfold ymd2ord; destruct (year_days_cases y) as [[-> ->]|[-> ->]]; eval_months.

Lemma mk_date_literal y m d :
  1 ≤ y ≤ 9999 → 1 ≤ m ≤ 12 → 1 ≤ d ≤ 28 → mk_date y m d = Ok (ymd2ord y m d).
Proof.
  intros Hy Hm Hd. apply mk_date_ok; [done|]. split; [done|].
  unfold days_in_month, days_in_month_tab. repeat case_match; lia.
Qed.

(** ** Every holiday rule yields a date in a fixed window of its year *)

Lemma observed_new_year_ok y :
  1 ≤ y ≤ 9999 → ∃ h, observed_new_year y = Ok h ∧ in_window y 1 2 h.
Proof.
  intros Hy. pose proof (days_before_year_bounds y Hy). unfold observed_new_year, in_window.
  rewrite mk_date_literal by lia. cbn [mbind res_bind].
  assert (Ho : ymd2ord y 1 1 = days_before_year y + 1).
  { unfold ymd2ord. destruct (is_leap y); eval_months; lia. }
  pose proof (year_days_cases y).
  case_match.
  - rewrite date_add_ok by lia. eexists. split; [done|]. lia.
  - eexists. split; [done|]. lia.
Qed.

Lemma observed_fixed_ok o :
  2 ≤ o ≤ MAXORD - 1 → ∃ h, observed_fixed_holiday o = Ok h ∧ o - 1 ≤ h ≤ o + 1.
Proof.
  intros Ho. unfold observed_fixed_holiday. repeat case_match.
  - rewrite date_add_ok by lia. eexists. split; [done|]. lia.
  - rewrite date_add_ok by lia. eexists. split; [done|]. lia.
  - eexists. split; [done|]. lia.
Qed.

Lemma nth_weekday_ok y m wd n :
  1 ≤ y ≤ 9999 → 1 ≤ m ≤ 12 → 1 ≤ n ≤ 4 →
  ∃ h, nth_weekday y m wd n = Ok h
       ∧ ymd2ord y m 1 + (n - 1) * 7 ≤ h ≤ ymd2ord y m 1 + (n - 1) * 7 + 6
       ∧ (0 ≤ wd < 7 → weekday h = wd).
Proof.
  intros Hy Hm Hn. pose proof (days_before_year_bounds y Hy) as Hb. unfold nth_weekday.
  rewrite mk_date_literal by lia. cbn [mbind res_bind].
  set (f := ymd2ord y m 1). pose proof (Z.mod_pos_bound (wd - weekday f) 7 ltac:(lia)) as Hmod.
  assert (Hf : 1 ≤ f ∧ f + 27 ≤ MAXORD).
  { assert (Hv : valid_ymd y m 28).
    { split; [done|]. unfold days_in_month, days_in_month_tab. repeat case_match; lia. }
    assert (Hv1 : valid_ymd y m 1).
    { split; [done|]. unfold days_in_month, days_in_month_tab. repeat case_match; lia. }
    pose proof (year_day_range _ _ _ Hv). pose proof (year_day_range _ _ _ Hv1).
    subst f. unfold ymd2ord. lia. }
  rewrite date_add_ok by lia. eexists. split; [done|]. split; [lia|].
  intros Hwd. unfold weekday in *. zdiv.
Qed.

Lemma last_monday_may_ok y :
  1 ≤ y ≤ 9999 → ∃ h, last_weekday y 5 0 = Ok h ∧ in_window y 145 152 h.
Proof.
  intros Hy. pose proof (days_before_year_bounds y Hy) as Hb. unfold last_weekday, in_window.
  cbn [Z.eqb Pos.eqb]. change (5 + 1) with 6.
  rewrite mk_date_literal by lia. cbn [mbind res_bind].
  assert (Ho : ymd2ord y 6 1 = days_before_year y + 152 ∨ ymd2ord y 6 1 = days_before_year y + 153).
  { unfold ymd2ord. destruct (is_leap y); eval_months; lia. }
  pose proof (year_days_cases y).
  rewrite date_add_ok by lia. cbn [mbind res_bind].
  pose proof (Z.mod_pos_bound (weekday (ymd2ord y 6 1 + -1) - 0) 7 ltac:(lia)).
  rewrite date_add_ok by lia. eexists. split; [done|]. lia.
Qed.

Lemma easter_month_day_range y :
  0 ≤ y → let '(m, d) := easter_month_day y in
          (m = 3 ∧ 15 ≤ d ≤ 31) ∨ (m = 4 ∧ 1 ≤ d ≤ 26).
Proof.
  intros Hy. unfold easter_month_day.
  set (h := (19 * (y mod 19) + _ - _ - _ + 15) mod 30).
  set (ell := (32 + _ + _ - h - _) mod 7).
  assert (Hh : 0 ≤ h < 30) by (apply Z.mod_pos_bound; lia).
  assert (He : 0 ≤ ell < 7) by (apply Z.mod_pos_bound; lia).
  assert (Ha : 0 ≤ y mod 19 < 19) by (apply Z.mod_pos_bound; lia).
  clearbody h ell. set (a := y mod 19) in *. clearbody a.
  set (m := (a + 11 * h + 22 * ell) / 451).
  assert (Hm : m = 0 ∨ m = 1) by (subst m; zdiv). clearbody m.
  assert (Hr : 107 ≤ h + ell - 7 * m + 114 ≤ 149) by lia.
  set (v := h + ell - 7 * m + 114) in *. clearbody v.
  destruct (Z.le_gt_cases v 123); [left|right]; zdiv.
Qed.

Lemma easter_sunday_ok y :
  1 ≤ y ≤ 9999 → ∃ h, easter_sunday y = Ok h ∧ in_window y 74 117 h.
Proof.
  intros Hy. pose proof (days_before_year_bounds y Hy) as Hb.
  pose proof (easter_month_day_range y ltac:(lia)) as He. unfold easter_sunday, in_window.
  destruct (easter_month_day y) as [m d].
  rewrite mk_date_ok; [|done|]; cycle 1.
  { split; [lia|]. unfold days_in_month, days_in_month_tab.
    destruct He as [[-> ?]|[-> ?]]; cbn; lia. }
  eexists. split; [done|].
  destruct He as [[-> ?]|[-> ?]]; unfold ymd2ord; destruct (is_leap y); eval_months; lia.
Qed.

(** ** The holidays of a year exist and lie at least five days apart *)

Definition separated (l : list Z) : Prop := ∀ a b, a ∈ l → b ∈ l → a = b ∨ 5 ≤ Z.abs (a - b).

Lemma ymd2ord_window y m d lo hi :
  1 ≤ m ≤ 12 →
  days_before_month false m + d = lo → days_before_month true m + d = hi →
  days_before_year y + Z.min lo hi ≤ ymd2ord y m d ≤ days_before_year y + Z.max lo hi.
Proof. intros Hm <- <-. unfold ymd2ord. destruct (is_leap y); lia. Qed.

Ltac bind_ok H :=
  let h := fresh "h" in let E := fresh "E" in let W := fresh "W" in
  destruct H as (h & E & W); rewrite E; cbn [mbind res_bind].

(** An observed holiday stays within a day of its nominal date. *)
Lemma observed_literal_ok y m d :
  1 ≤ y ≤ 9999 → 1 ≤ m ≤ 12 → 2 ≤ d ≤ 28 →
  ∃ h, observed_fixed_holiday (ymd2ord y m d) = Ok h
       ∧ ymd2ord y m d - 1 ≤ h ≤ ymd2ord y m d + 1.
Proof.
  intros Hy Hm Hd. apply observed_fixed_ok.
  pose proof (days_before_year_bounds y Hy).
  assert (Hv : valid_ymd y m d).
  { split; [done|]. unfold days_in_month, days_in_month_tab. repeat case_match; lia. }
  pose proof (year_day_range _ _ _ Hv) as Hr.
  assert (Hr2 : d ≤ days_before_month (is_leap y) m + d).
  { unfold days_before_month, days_before_month_tab. repeat case_match; lia. }
  assert (Hr3 : days_before_month (is_leap y) m + d < year_days y).
  { unfold days_before_month, days_before_month_tab, year_days. repeat case_match; lia. }
  unfold ymd2ord. lia.
Qed.

Ltac separate :=
  intros a b; rewrite !elem_of_cons, !elem_of_nil; intros Ha Hb;
  repeat (destruct Ha as [->|Ha]); try done;
  repeat (destruct Hb as [->|Hb]); try done; first [by left | right; lia].
Ltac within := intros a; rewrite !elem_of_cons, !elem_of_nil; intros Ha; lia.

Lemma holidays_ok y :
  1 ≤ y ≤ 9999 →
  ∃ l, holidays_for_nominal_year y = Ok l ∧ separated l
       ∧ ∀ h, h ∈ l → in_window y 1 361 h.
Proof.
  intros Hy. pose proof (days_before_year_bounds y Hy).
  unfold holidays_for_nominal_year, separated, in_window.
  bind_ok (observed_new_year_ok y Hy).
  bind_ok (nth_weekday_ok y 1 0 3 Hy ltac:(lia) ltac:(lia)).
  bind_ok (nth_weekday_ok y 2 0 3 Hy ltac:(lia) ltac:(lia)).
  bind_ok (easter_sunday_ok y Hy). unfold in_window in *.
  rewrite (date_add_ok _ (-2)) by (pose proof (year_days_cases y); lia). cbn [mbind res_bind].
  bind_ok (last_monday_may_ok y Hy). unfold in_window in *.
  rewrite (mk_date_literal y 7 4) by lia. cbn [mbind res_bind].
  bind_ok (observed_literal_ok y 7 4 Hy ltac:(lia) ltac:(lia)).
  bind_ok (nth_weekday_ok y 9 0 1 Hy ltac:(lia) ltac:(lia)).
  bind_ok (nth_weekday_ok y 11 3 4 Hy ltac:(lia) ltac:(lia)).
  rewrite (mk_date_literal y 12 25) by lia. cbn [mbind res_bind].
  bind_ok (observed_literal_ok y 12 25 Hy ltac:(lia) ltac:(lia)).
  pose proof (ymd2ord_window y 1 1 1 1 ltac:(lia) eq_refl eq_refl).
  pose proof (ymd2ord_window y 2 1 32 32 ltac:(lia) eq_refl eq_refl).
  pose proof (ymd2ord_window y 7 4 185 186 ltac:(lia) eq_refl eq_refl).
  pose proof (ymd2ord_window y 9 1 244 245 ltac:(lia) eq_refl eq_refl).
  pose proof (ymd2ord_window y 11 1 305 306 ltac:(lia) eq_refl eq_refl).
  pose proof (ymd2ord_window y 12 25 359 360 ltac:(lia) eq_refl eq_refl).
  pose proof (ymd2ord_window y 6 19 170 171 ltac:(lia) eq_refl eq_refl).
  case_match.
  - rewrite (mk_date_literal y 6 19) by lia. cbn [mbind res_bind].
    bind_ok (observed_literal_ok y 6 19 Hy ltac:(lia) ltac:(lia)).
    eexists. split; [done|]. cbn [app]. split; [separate|within].
  - eexists. split; [done|]. split; [separate|within].
Qed.

(** ** Trading days *)

Lemma date_year_window o : in_window (date_year o) 1 (year_days (date_year o)) o.
Proof.
  unfold date_year, in_window. pose proof (ord2ymd_spec o) as H.
  destruct (ord2ymd o) as [[y m] d]. destruct H as [Hv Ho]. cbn.
  pose proof (year_day_range _ _ _ Hv). unfold ymd2ord in Ho. lia.
Qed.

Lemma window_year y o : in_window y 1 (year_days y) o → date_year o = y.
Proof.
  intros H. pose proof (date_year_window o) as H'. unfold in_window in *.
  set (y' := date_year o) in *. clearbody y'.
  destruct (Z.lt_trichotomy y y') as [Hl|[->|Hl]]; [|done|].
  - pose proof (days_before_year_mono (y + 1) y' ltac:(lia)).
    rewrite days_before_year_succ in *. lia.
  - pose proof (days_before_year_mono (y' + 1) y ltac:(lia)).
    rewrite days_before_year_succ in *. lia.
Qed.

Lemma date_year_mono o o' : o ≤ o' → date_year o ≤ date_year o'.
Proof.
  intros Ho. pose proof (date_year_window o) as H. pose proof (date_year_window o') as H'.
  unfold in_window in *. apply Z.le_ngt. intros Hl.
  pose proof (days_before_year_mono (date_year o' + 1) (date_year o) ltac:(lia)) as Hm.
  rewrite days_before_year_succ in Hm. lia.
Qed.

Lemma days_below_year y o : in_window y 1 361 o → in_window y 1 (year_days y) o.
Proof. unfold in_window. pose proof (year_days_cases y). lia. Qed.

(** The date is a holiday by the rules of its own year. *)
Definition own_year_holiday (o : Z) : Prop :=
  ∃ l, holidays_for_nominal_year (date_year o) = Ok l ∧ o ∈ l.

(** The years whose three holiday tables all exist. *)
Definition supported_date (o : Z) : Prop := 2 ≤ date_year o ≤ 9998.

Lemma holidays_around_own o :
  supported_date o →
  ∃ l, holidays_around (date_year o) = Ok l ∧ (o ∈ l ↔ own_year_holiday o).
Proof.
  intros Ho. unfold supported_date, holidays_around in *.
  remember (date_year o) as y eqn:Hy.
  destruct (holidays_ok (y - 1) ltac:(lia)) as (l1 & E1 & _ & W1).
  destruct (holidays_ok y ltac:(lia)) as (l2 & E2 & _ & W2).
  destruct (holidays_ok (y + 1) ltac:(lia)) as (l3 & E3 & _ & W3).
  rewrite E1, E2, E3. cbn. eexists. split; [done|].
  unfold own_year_holiday. rewrite <- Hy, E2, !elem_of_app. split.
  - intros [H|[H|H]]; [|by eauto|].
    + apply W1, days_below_year, window_year in H. exfalso. lia.
    + apply W3, days_below_year, window_year in H. exfalso. lia.
  - intros (l & [= <-] & H). auto.
Qed.

#[global] Instance own_year_holiday_dec o : Decision (own_year_holiday o).
Proof.
  unfold own_year_holiday. destruct (holidays_for_nominal_year (date_year o)) as [l|e].
  - destruct (decide (o ∈ l)); [left; eauto | right; intros (? & [= <-] & ?); done].
  - right. by intros (? & ? & ?).
Defined.

(** The neighbouring years never decide: a supported date trades exactly when
    it is neither closed, nor a weekend, nor a holiday of its own year. *)
Lemma is_trading_day_spec c o :
  supported_date o →
  is_trading_day c o =
    Ok (negb ((5 <=? weekday o) || bool_decide (o ∈ full_day_closures c)
              || bool_decide (own_year_holiday o))).
Proof.
  intros Ho. destruct (holidays_around_own o Ho) as (l & El & Hl).
  unfold is_trading_day. destruct ((5 <=? weekday o) || _); [done|].
  rewrite El. cbn. do 2 f_equal. by apply bool_decide_ext.
Qed.

Definition trades (c : MarketCalendar) (o : Z) : bool :=
  match is_trading_day c o with Ok b => b | Err _ => false end.

Lemma trades_ok c o : supported_date o → is_trading_day c o = Ok (trades c o).
Proof. intros H. unfold trades. by rewrite is_trading_day_spec. Qed.

(** Two holidays on different dates are five days apart, across years too. *)
Lemma holidays_separated o o' :
  supported_date o → supported_date o' →
  own_year_holiday o → own_year_holiday o' → o = o' ∨ 5 ≤ Z.abs (o - o').
Proof.
  unfold supported_date, own_year_holiday.
  intros Ho Ho' (l & E & H) (l' & E' & H').
  destruct (holidays_ok (date_year o) ltac:(lia)) as (k & Ek & Hs & Hw).
  destruct (holidays_ok (date_year o') ltac:(lia)) as (k' & Ek' & Hs' & Hw').
  rewrite Ek in E. rewrite Ek' in E'. injection E as <-. injection E' as <-.
  apply Hw in H as Hin. apply Hw' in H' as Hin'.
  destruct (Z.lt_trichotomy (date_year o) (date_year o')) as [Hl|[He|Hl]].
  - unfold in_window in *.
    pose proof (days_before_year_mono (date_year o + 1) (date_year o') ltac:(lia)).
    rewrite days_before_year_succ in *. pose proof (year_days_cases (date_year o)). lia.
  - rewrite <- He, Ek in Ek'. injection Ek' as <-. auto.
  - unfold in_window in *.
    pose proof (days_before_year_mono (date_year o' + 1) (date_year o) ltac:(lia)).
    rewrite days_before_year_succ in *. pose proof (year_days_cases (date_year o')). lia.
Qed.

(** ** Searching for the nearest trading day *)

(** [no_fuel m]: the model of a loop did not run out of iterations. *)
Definition no_fuel {A} (m : res A) : Prop := m ≠ Err OutOfFuel.

Lemma no_fuel_bind {A B} (m : res A) (k : A → res B) :
  no_fuel m → (∀ a, no_fuel (k a)) → no_fuel (m ≫= k).
Proof. unfold no_fuel. destruct m; cbn; [auto|congruence]. Qed.

Ltac no_fuel_tac :=
  repeat first
    [ match goal with |- no_fuel (mbind _ _) => apply no_fuel_bind; [|intros ?] end
    | match goal with |- no_fuel (if ?b then _ else _) => destruct b end
    | match goal with |- no_fuel (match ?b with _ => _ end) => destruct b end
    | done ].

Lemma no_fuel_date_add o k : no_fuel (date_add o k).
Proof. unfold date_add. no_fuel_tac. Qed.
Lemma no_fuel_mk_date y m d : no_fuel (mk_date y m d).
Proof. unfold mk_date. no_fuel_tac. Qed.

Lemma no_fuel_holidays y : no_fuel (holidays_for_nominal_year y).
Proof.
  unfold holidays_for_nominal_year, observed_new_year, nth_weekday, last_weekday,
    easter_sunday, observed_fixed_holiday.
  destruct (easter_month_day y) as [m d].
  no_fuel_tac; try apply no_fuel_date_add; apply no_fuel_mk_date.
Qed.

Lemma no_fuel_is_trading_day c o : no_fuel (is_trading_day c o).
Proof.
  unfold is_trading_day, holidays_around. no_fuel_tac; apply no_fuel_holidays.
Qed.

(** The date [k] steps away in direction [dir] is the first that trades. *)
Definition nearest (c : MarketCalendar) (dir o r : Z) : Prop :=
  ∃ k, 0 ≤ k ∧ r = o + dir * k ∧ is_trading_day c r = Ok true
       ∧ ∀ j, 0 ≤ j < k → is_trading_day c (o + dir * j) = Ok false.

Lemma seek_spec c dir o :
  dir = 1 ∨ dir = -1 → 1 ≤ o ≤ MAXORD →
  match seek c dir o with Ok r => nearest c dir o r | Err e => e ≠ OutOfFuel end.
Proof.
  intros Hdir Ho. unfold seek.
  destruct (while_loop_total DATE_FUEL (seek_step c dir)
    (λ x, 1 ≤ x ≤ MAXORD ∧ ∃ k, 0 ≤ k ∧ x = o + dir * k
          ∧ ∀ j, 0 ≤ j < k → is_trading_day c (o + dir * j) = Ok false)
    (λ x, if dir =? 1 then MAXORD - x else x)
    (λ r, match r with Ok r => nearest c dir o r | Err e => e ≠ OutOfFuel end))
    with (s := o) as (r & -> & Hr); [| | |done].
  - intros x (Hx & k & Hk & -> & Hnone). unfold seek_step.
    pose proof (no_fuel_is_trading_day c (o + dir * k)) as Hnf.
    destruct (is_trading_day c (o + dir * k)) as [[|]|e] eqn:E.
    + exists k. auto.
    + destruct (date_add _ dir) as [d|e] eqn:Ed.
      * apply date_add_inv in Ed as [-> Hd]. split.
        { split; [done|]. exists (k + 1). split_and!; [lia|lia|].
          intros j Hj. destruct (Z.eq_dec j k) as [->|]; [done|]. apply Hnone. lia. }
        destruct (Z.eqb_spec dir 1); lia.
      * intros ->. by apply no_fuel_date_add in Ed.
    + intros ->. by apply Hnf.
  - split; [done|]. exists 0. split_and!; [done|lia|]. intros j Hj. lia.
  - unfold DATE_FUEL, MAXORD in *. destruct (dir =? 1); lia.
Qed.

Lemma date_year_step o k :
  -366 < k < 366 → date_year o - 1 ≤ date_year (o + k) ≤ date_year o + 1.
Proof.
  intros Hk. pose proof (date_year_window o) as H. pose proof (date_year_window (o + k)) as H'.
  unfold in_window in *.
  set (y := date_year o) in *. set (y' := date_year (o + k)) in *. clearbody y y'.
  pose proof (days_before_year_succ y). pose proof (days_before_year_succ (y + 1)).
  pose proof (days_before_year_succ y'). pose proof (days_before_year_succ (y' + 1)).
  pose proof (year_days_cases (y + 1)). pose proof (year_days_cases (y' + 1)).
  split; apply Z.le_ngt; intros Hl.
  - pose proof (days_before_year_mono (y' + 1 + 1) y ltac:(lia)). lia.
  - pose proof (days_before_year_mono (y + 1 + 1) y' ltac:(lia)). lia.
Qed.

(** A search of a few days from these dates stays in supported years. *)
Lemma supported_steps o k :
  3 ≤ date_year o ≤ 9997 → -366 < k < 366 → supported_date (o + k) ∧ 1 ≤ o + k ≤ MAXORD.
Proof.
  intros Ho Hk. pose proof (date_year_step o k Hk). pose proof (date_year_window (o + k)) as H'.
  unfold in_window, supported_date in *.
  pose proof (days_before_year_bounds (date_year (o + k)) ltac:(lia)). lia.
Qed.

(** At most two of four consecutive dates are on a weekend and at most one is
    a holiday, so the default calendar trades within four days. *)
Lemma trades_within_four dir o :
  dir = 1 ∨ dir = -1 → 3 ≤ date_year o ≤ 9997 →
  ∃ k, 0 ≤ k ≤ 3 ∧ is_trading_day DEFAULT_MARKET_CALENDAR (o + dir * k) = Ok true.
Proof.
  intros Hdir Ho.
  assert (Hsup : ∀ k, 0 ≤ k ≤ 3 → supported_date (o + dir * k)).
  { intros k Hk. apply supported_steps; [done|]. destruct Hdir as [-> | ->]; lia. }
  assert (Hdec : ∀ k, 0 ≤ k ≤ 3 →
    is_trading_day DEFAULT_MARKET_CALENDAR (o + dir * k) = Ok true
    ∨ 5 ≤ weekday (o + dir * k) ∨ own_year_holiday (o + dir * k)).
  { intros k Hk. rewrite is_trading_day_spec by auto. cbn.
    destruct (Z.leb_spec 5 (weekday (o + dir * k))); [auto|]. cbn.
    rewrite bool_decide_eq_false_2 by set_solver. cbn.
    destruct (decide (own_year_holiday (o + dir * k))); [auto|].
    rewrite bool_decide_eq_false_2 by done. auto. }
  assert (Hsep : ∀ j k, 0 ≤ j < k → k ≤ 3 → own_year_holiday (o + dir * j) →
                        own_year_holiday (o + dir * k) → False).
  { intros j k Hj Hk H1 H2.
    destruct (holidays_separated _ _ (Hsup j ltac:(lia)) (Hsup k ltac:(lia)) H1 H2);
      destruct Hdir as [-> | ->]; lia. }
  destruct (Hdec 0 ltac:(lia)) as [?|H0]; [by exists 0|].
  destruct (Hdec 1 ltac:(lia)) as [?|H1]; [by exists 1|].
  destruct (Hdec 2 ltac:(lia)) as [?|H2]; [by exists 2|].
  destruct (Hdec 3 ltac:(lia)) as [?|H3]; [by exists 3|].
  exfalso. unfold weekday in *.
  destruct H0 as [H0|H0], H1 as [H1|H1], H2 as [H2|H2], H3 as [H3|H3];
    try (by eapply (Hsep 0 1)); try (by eapply (Hsep 0 2)); try (by eapply (Hsep 0 3));
    try (by eapply (Hsep 1 2)); try (by eapply (Hsep 1 3)); try (by eapply (Hsep 2 3));
    destruct Hdir as [-> | ->]; clear Hsep Hdec Hsup; zdiv.
Qed.

Lemma next_trading_day_cases c day :
  0 ≤ day →
  match next_trading_day c day with
  | Ok r => day < r ∧ is_trading_day c r = Ok true
            ∧ ∀ x, day < x < r → is_trading_day c x = Ok false
  | Err e => e ≠ OutOfFuel
  end.
Proof.
  intros Hd. unfold next_trading_day. destruct (date_add day 1) as [o|e] eqn:E; cbn.
  - apply date_add_inv in E as [-> Ho].
    pose proof (seek_spec c 1 (day + 1) ltac:(auto) ltac:(lia)) as Hs.
    destruct (seek c 1 (day + 1)) as [r|e]; [|done].
    destruct Hs as (k & Hk & -> & Ht & Hn). split_and!; [lia|done|].
    intros x Hx. specialize (Hn (x - day - 1) ltac:(lia)).
    by replace x with (day + 1 + 1 * (x - day - 1)) by lia.
  - intros ->. by apply no_fuel_date_add in E.
Qed.

Lemma previous_trading_day_cases c day :
  day ≤ MAXORD + 1 →
  match previous_trading_day c day with
  | Ok r => r < day ∧ is_trading_day c r = Ok true
            ∧ ∀ x, r < x < day → is_trading_day c x = Ok false
  | Err e => e ≠ OutOfFuel
  end.
Proof.
  intros Hd. unfold previous_trading_day. destruct (date_add day (-1)) as [o|e] eqn:E; cbn.
  - apply date_add_inv in E as [-> Ho].
    pose proof (seek_spec c (-1) (day + -1) ltac:(auto) ltac:(lia)) as Hs.
    destruct (seek c (-1) (day + -1)) as [r|e]; [|done].
    destruct Hs as (k & Hk & -> & Ht & Hn). split_and!; [lia|done|].
    intros x Hx. specialize (Hn (day - 1 - x) ltac:(lia)).
    by replace x with (day + -1 + -1 * (day - 1 - x)) by lia.
  - intros ->. by apply no_fuel_date_add in E.
Qed.

(** From a date with a trading day close by, the search cannot fail. *)
Lemma seek_ok dir o :
  dir = 1 ∨ dir = -1 → 3 ≤ date_year o ≤ 9997 →
  ∃ k, 0 ≤ k ≤ 3 ∧ seek DEFAULT_MARKET_CALENDAR dir o = Ok (o + dir * k).
Proof.
  intros Hdir Ho. destruct (trades_within_four dir o Hdir Ho) as (k & Hk & Ht).
  destruct (supported_steps o 0 Ho ltac:(lia)) as [_ Hr]. rewrite Z.add_0_r in Hr.
  (* run the loop up to the first trading date *)
  unfold seek, DATE_FUEL. rewrite while_loop_nat.
  assert (Hn : (Z.to_nat k < Pos.to_nat 3652061)%nat) by lia. revert Hn.
  generalize (Pos.to_nat 3652061) as n.
  assert (Hgen : ∀ n i, 0 ≤ i ≤ k → (Z.to_nat (k - i) < n)%nat →
    ∃ j, 0 ≤ j ≤ 3 ∧ while_nat n (seek_step DEFAULT_MARKET_CALENDAR dir) (o + dir * i)
                     = inr (Ok (o + dir * j))).
  { induction n as [|n IH]; intros i Hi Hn; [lia|]. cbn [while_nat]. unfold seek_step at 1.
    destruct (supported_steps o (dir * i) Ho) as [Hs _]; [destruct Hdir as [-> | ->]; lia|].
    destruct (supported_steps o (dir * (i + 1)) Ho) as [_ Hs'];
      [destruct Hdir as [-> | ->]; lia|].
    rewrite trades_ok by done. destruct (trades _ _) eqn:Et.
    { exists i. split; [lia|done]. }
    assert (i ≠ k) by (intros ->; rewrite trades_ok, Et in Ht by done; done).
    rewrite date_add_ok by (replace (o + dir * i + dir) with (o + dir * (i + 1)) by lia; done).
    replace (o + dir * i + dir) with (o + dir * (i + 1)) by lia. apply IH; lia. }
  intros n Hn. destruct (Hgen n 0 ltac:(lia)) as (j & Hj & E); [by rewrite Z.sub_0_r|].
  rewrite Z.mul_0_r, Z.add_0_r in E. rewrite E. eauto.
Qed.

Lemma next_ok day :
  4 ≤ date_year day ≤ 9996 →
  ∃ r, next_trading_day DEFAULT_MARKET_CALENDAR day = Ok r ∧ day < r ≤ day + 4.
Proof.
  intros Hy. pose proof (date_year_step day 1 ltac:(lia)).
  destruct (supported_steps day 1 ltac:(lia) ltac:(lia)) as [_ Hr].
  destruct (seek_ok 1 (day + 1)) as (k & Hk & E); [auto|lia|].
  exists (day + 1 + 1 * k). split; [|lia]. unfold next_trading_day.
  by rewrite date_add_ok by done.
Qed.

Lemma previous_ok day :
  4 ≤ date_year day ≤ 9996 →
  ∃ r, previous_trading_day DEFAULT_MARKET_CALENDAR day = Ok r ∧ day - 4 ≤ r < day.
Proof.
  intros Hy. pose proof (date_year_step day (-1) ltac:(lia)).
  destruct (supported_steps day (-1) ltac:(lia) ltac:(lia)) as [_ Hr].
  destruct (seek_ok (-1) (day + -1)) as (k & Hk & E); [auto|lia|].
  exists (day + -1 + -1 * k). split; [|lia]. unfold previous_trading_day.
  by rewrite date_add_ok by done.
Qed.
