(* ===== verification/CalendarProps.v ===== *)
(** * Properties of the market calendar

    The trading-day searches find the nearest trading day, the elapsed count
    counts trading days, and the session predicates of the module agree with
    each other on every wall clock. *)

From stdpp Require Import base list strings gmap sets numbers.
From Stdlib Require Import ZArith Lia.
From S2P Require Import Prelude PyStr PyTime PyDateTime MarketCalendar CalendarFacts.

#[local] Open Scope Z_scope.

(** ** Counting trading days *)

(** The trading days [x] with [a < x <= b]. *)
Definition trading_days (c : MarketCalendar) (a b : Z) : list Z :=
  filter (λ x, trades c x = true) (seqZ (a + 1) (b - a)).

Lemma trading_days_elem c a b x :
  x ∈ trading_days c a b ↔ a < x ≤ b ∧ trades c x = true.
Proof. unfold trading_days. rewrite list_elem_of_filter, elem_of_seqZ. naive_solver lia. Qed.

Lemma trading_days_split c a m b :
  a ≤ m ≤ b → trading_days c a b = trading_days c a m ++ trading_days c m b.
Proof.
  intros H. unfold trading_days. rewrite <- list.filter_app. f_equal.
  replace (b - a) with ((m - a) + (b - m)) by lia.
  rewrite seqZ_app by lia. by replace (a + 1 + (m - a)) with (m + 1) by lia.
Qed.

Lemma trading_days_none c a b :
  (∀ x, a < x ≤ b → is_trading_day c x = Ok false) → trading_days c a b = [].
Proof.
  intros H. destruct (trading_days c a b) as [|x l] eqn:E; [done|]. exfalso.
  assert (Hx : x ∈ trading_days c a b) by (rewrite E; left).
  apply trading_days_elem in Hx as [Hx Ht]. unfold trades in Ht. by rewrite H in Ht.
Qed.

Lemma trading_days_next c a r :
  a < r → is_trading_day c r = Ok true →
  (∀ x, a < x < r → is_trading_day c x = Ok false) → trading_days c a r = [r].
Proof.
  intros Ha Ht Hn. rewrite (trading_days_split c a (r - 1) r) by lia.
  rewrite trading_days_none by (intros; apply Hn; lia). cbn. unfold trading_days.
  replace (r - (r - 1)) with 1 by lia. replace (r - 1 + 1) with r by lia.
  assert (Hf : trades c r = true) by (unfold trades; by rewrite Ht).
  rewrite seqZ_cons, seqZ_nil by lia.
  rewrite list.filter_cons_True by done. done.
Qed.

(** The loop invariant: the trading days since [start] have been counted. *)
Lemma trading_days_elapsed_cases c start end_ :
  0 ≤ start → end_ ≤ MAXORD →
  match trading_days_elapsed c start end_ with
  | Ok (Some n) => start ≤ end_ ∧ n = Z.of_nat (length (trading_days c start end_))
  | Ok None => end_ < start
  | Err e => e ≠ OutOfFuel
  end.
Proof.
  intros Hs He. unfold trading_days_elapsed. destruct (Z.ltb_spec end_ start); [done|].
  destruct (while_loop_total DATE_FUEL (elapsed_step c end_)
    (λ s, start ≤ s.1 ≤ end_ ∧ s.2 = Z.of_nat (length (trading_days c start s.1)))
    (λ s, end_ - s.1)
    (λ r, match r with
          | Ok n => n = Z.of_nat (length (trading_days c start end_))
          | Err e => e ≠ OutOfFuel
          end)) with (s := (start, 0)) as (r & -> & Hr).
  - intros [cur n]. cbn [fst snd]. intros [Hc ->]. unfold elapsed_step.
    destruct (Z.ltb_spec cur end_) as [Hlt|]; [|by replace end_ with cur by lia].
    pose proof (next_trading_day_cases c cur ltac:(lia)) as Hn.
    destruct (next_trading_day c cur) as [r|e]; [|done]. destruct Hn as (Hr & Ht & Hn).
    destruct (Z.ltb_spec end_ r).
    + rewrite (trading_days_split c start cur end_), (trading_days_none c cur end_) by
        (first [lia | intros; apply Hn; lia]). by rewrite app_nil_r.
    + cbn [fst snd]. split; [|lia]. split; [lia|].
      rewrite (trading_days_split c start cur r), (trading_days_next c cur r) by
        (first [lia | done]). rewrite length_app. cbn. lia.
  - cbn. split; [lia|]. unfold trading_days. by rewrite Z.sub_diag.
  - cbn. unfold DATE_FUEL, MAXORD in *. lia.
  - by destruct r.
Qed.

(** On the default calendar no search of the loop fails. *)
Lemma trading_days_elapsed_ok start end_ :
  start ≤ end_ → 4 ≤ date_year start → date_year end_ ≤ 9996 →
  ∃ n, trading_days_elapsed DEFAULT_MARKET_CALENDAR start end_ = Ok (Some n).
Proof.
  intros Hse Hs He. unfold trading_days_elapsed. destruct (Z.ltb_spec end_ start); [lia|].
  pose proof (date_year_window start) as Hw. pose proof (date_year_window end_) as Hw'.
  unfold in_window in *. pose proof (date_year_mono _ _ Hse).
  pose proof (days_before_year_bounds (date_year start) ltac:(lia)).
  pose proof (days_before_year_bounds (date_year end_) ltac:(lia)).
  destruct (while_loop_total DATE_FUEL (elapsed_step DEFAULT_MARKET_CALENDAR end_)
    (λ s, start ≤ s.1 ≤ end_) (λ s, end_ - s.1) is_ok)
    with (s := (start, 0)) as (r & -> & [n ->]).
  - intros [cur n] Hc. cbn [fst snd] in *. unfold elapsed_step.
    destruct (Z.ltb_spec cur end_) as [Hlt|]; [|by eexists].
    pose proof (date_year_mono start cur ltac:(lia)).
    pose proof (date_year_mono cur end_ ltac:(lia)).
    destruct (next_ok cur ltac:(lia)) as (r & -> & Hr).
    destruct (Z.ltb_spec end_ r); [by eexists|]. cbn. lia.
  - cbn. lia.
  - cbn. unfold DATE_FUEL, MAXORD in *. lia.
  - by exists n.
Qed.

(** ** Sessions *)

Lemma is_scheduled_early_close_ok day :
  supported_date day → ∃ b, is_scheduled_early_close day = Ok b.
Proof.
  intros Hy. unfold supported_date, is_scheduled_early_close in *.
  destruct (nth_weekday_ok (date_year day) 11 3 4) as (h & -> & Hh & _); [lia..|]. cbn.
  pose proof (days_before_year_bounds (date_year day) ltac:(lia)).
  pose proof (ymd2ord_window (date_year day) 11 1 305 306 ltac:(lia) eq_refl eq_refl).
  pose proof (year_days_cases (date_year day)).
  rewrite date_add_ok by lia. cbn. repeat case_match; eauto.
Qed.

(** Every early close of the calendar is a time before the review time. *)
Definition sane_closes (c : MarketCalendar) : Prop :=
  ∀ day t, early_closes c !! day = Some t → RTH_OPEN < t ≤ RTH_CLOSE.

Lemma session_spec c day :
  supported_date day → sane_closes c →
  if trades c day then
    ∃ t, RTH_OPEN < t ≤ RTH_CLOSE ∧
         session c day = Ok (Some {| ms_trading_date := day;
                                     open_at := combine day RTH_OPEN;
                                     close_at := combine day t;
                                     review_ready_at := combine day REVIEW_READY;
                                     early_close := negb (t =? RTH_CLOSE) |})
  else session c day = Ok None.
Proof.
  intros Hd Hc. unfold session. rewrite trades_ok by done. cbn [mbind res_bind].
  destruct (trades c day); cbn [negb]; [|done].
  destruct (early_closes c !! day) as [t|] eqn:E.
  - exists t. split; [by eapply Hc|done].
  - destruct (is_scheduled_early_close_ok day Hd) as [[|] ->]; cbn [mbind res_bind].
    + exists EARLY_CLOSE. by split.
    + exists RTH_CLOSE. by split.
Qed.

(** What [session] and [spx_session_window] return for a date: the window of
    a trading day starts the evening before. *)
Definition session_facts (c : MarketCalendar) (day : Z) : Prop :=
  if trades c day then
    ∃ t, time_hm 9 30 < t ≤ time_hm 16 0 ∧
         session c day = Ok (Some {| ms_trading_date := day;
                                     open_at := combine day (time_hm 9 30);
                                     close_at := combine day t;
                                     review_ready_at := combine day (time_hm 17 0);
                                     early_close := negb (t =? RTH_CLOSE) |}) ∧
         spx_session_window c day
         = Ok (Some {| sw_trading_date := day;
                       session_start := combine (day - 1) (time_hm 20 15);
                       gth_end := combine day (time_hm 9 25);
                       rth_open := combine day (time_hm 9 30);
                       session_end := combine day t |})
  else session c day = Ok None ∧ spx_session_window c day = Ok None.

Lemma spx_session_window_spec c day :
  supported_date day → 1 ≤ day - 1 → day ≤ MAXORD → sane_closes c → session_facts c day.
Proof.
  intros Hd H1 H2 Hc. pose proof (session_spec c day Hd Hc) as Hs.
  unfold session_facts, spx_session_window. destruct (trades c day).
  - destruct Hs as (t & Ht & ->). exists t. cbn [mbind res_bind open_at close_at].
    by rewrite date_add_ok by lia.
  - rewrite Hs. done.
Qed.

Lemma seek_now c dir o : is_trading_day c o = Ok true → seek c dir o = Ok o.
Proof.
  intros H. unfold seek. rewrite while_loop_nat.
  assert (Hn : (0 < Pos.to_nat DATE_FUEL)%nat) by lia.
  destruct (Pos.to_nat DATE_FUEL); [lia|]. cbn. unfold seek_step. by rewrite H.
Qed.

Lemma next_of_trading c day :
  1 ≤ day + 1 ≤ MAXORD → is_trading_day c (day + 1) = Ok true → next_trading_day c day = Ok (day + 1).
Proof. intros Hd H. unfold next_trading_day. rewrite date_add_ok by done. by apply seek_now. Qed.

(** A wall clock whose date is well inside the supported years. *)
Definition supported_clock (w : Z) : Prop := 5 ≤ date_year (wall_date w) ≤ 9995.

Lemma supported_clock_steps w k :
  supported_clock w → -366 < k < 366 →
  supported_date (wall_date w + k) ∧ 2 ≤ wall_date w + k ≤ MAXORD.
Proof.
  unfold supported_clock. intros Hw Hk.
  destruct (supported_steps (wall_date w) k ltac:(lia) Hk) as [H1 H2]. split; [done|].
  pose proof (date_year_window (wall_date w + k)) as H. unfold in_window, supported_date in *.
  pose proof (days_before_year_mono 2 (date_year (wall_date w + k)) ltac:(lia)) as Hm.
  change (days_before_year 2) with 365 in Hm. lia.
Qed.

(** Comparisons of wall clocks come down to dates and times of day. *)
Ltac clock :=
  unfold combine, time_hm, DAY, HOUR, MINUTE, SECOND in *; lia.

Ltac clock_ltb :=
  repeat match goal with
  | |- context [?a <=? ?b] =>
      first [ rewrite (proj2 (Z.leb_le a b)) by clock
            | rewrite (proj2 (Z.leb_gt a b)) by clock ]
  | |- context [?a <? ?b] =>
      first [ rewrite (proj2 (Z.ltb_lt a b)) by clock
            | rewrite (proj2 (Z.ltb_ge a b)) by clock ]
  end; cbn [andb orb negb].

Lemma window_near c w k :
  supported_clock w → sane_closes c → -300 < k < 300 → session_facts c (wall_date w + k).
Proof.
  intros Hw Hc Hk. destruct (supported_clock_steps w k Hw ltac:(lia)) as [H1 H2].
  apply (spx_session_window_spec c (wall_date w + k)); [done|lia|lia|done].
Qed.

Lemma supported_now w : supported_clock w → supported_date (wall_date w) ∧ 2 ≤ wall_date w ≤ MAXORD.
Proof.
  intros Hw. pose proof (supported_clock_steps w 0 Hw ltac:(lia)) as H.
  by rewrite Z.add_0_r in H.
Qed.

Lemma window_now c w : supported_clock w → sane_closes c → session_facts c (wall_date w).
Proof.
  intros Hw Hc. pose proof (window_near c w 0 Hw Hc ltac:(lia)) as H.
  by rewrite Z.add_0_r in H.
Qed.

(** Name the date and the time of day of the wall clock [w]. *)
Ltac split_clock w d t :=
  let Hw := fresh "Hsplit" in
  pose proof (wall_split w) as Hw; pose proof (wall_time_range w);
  set (d := wall_date w) in *; set (t := wall_time w) in *; clearbody d t.

(** *** Regular hours *)

Lemma rth_open_at_spec c w :
  supported_clock w → sane_closes c →
  ∃ b, rth_open_at c w = Ok b ∧
       (b = true → trades c (wall_date w) = true ∧ time_hm 9 30 ≤ wall_time w < time_hm 16 0
        ∧ ∃ s, session c (wall_date w) = Ok (Some s) ∧ w < close_at s).
Proof.
  intros Hw Hc. pose proof (window_now c w Hw Hc) as Hs. unfold session_facts in Hs.
  unfold rth_open_at. destruct (trades c (wall_date w)) eqn:Et.
  - destruct Hs as (t & Ht & -> & _). cbn [mbind res_bind open_at close_at].
    eexists. split; [done|]. intros Hb. bool_to_prop. split; [done|].
    split; [|by eexists]. split_clock w d u. clock.
  - destruct Hs as [-> _]. cbn. exists false. by split.
Qed.

Lemma spx_gth_open_at_spec c w :
  supported_clock w →
  spx_gth_open_at c w =
    Ok (if wall_time w <? time_hm 9 25 then trades c (wall_date w)
        else if time_hm 20 15 <=? wall_time w then trades c (wall_date w + 1) else false).
Proof.
  intros Hw. destruct (supported_now w Hw) as [H1 H2].
  destruct (supported_clock_steps w 1 Hw ltac:(lia)) as [H3 H4].
  unfold spx_gth_open_at. change SPX_GTH_CLOSE with (time_hm 9 25).
  change SPX_GTH_OPEN with (time_hm 20 15). case_match; [by apply trades_ok|].
  case_match; [|done]. rewrite date_add_ok by lia. cbn. by apply trades_ok.
Qed.

Lemma trades_weekday c o : supported_date o → trades c o = true → 0 ≤ weekday o ≤ 4.
Proof.
  intros Ho Ht. pose proof (weekday_range o). unfold trades in Ht.
  rewrite is_trading_day_spec in Ht by done.
  destruct (Z.leb_spec 5 (weekday o)); [done|lia].
Qed.

(** *** The session of a moment, on the default calendar *)

Abbreviation DEF := DEFAULT_MARKET_CALENDAR (only parsing).

Lemma default_sane : sane_closes DEF.
Proof. intros day t. cbn. by rewrite lookup_empty. Qed.

Lemma next_default w :
  supported_clock w →
  ∃ k, 1 ≤ k ≤ 4 ∧ next_trading_day DEF (wall_date w) = Ok (wall_date w + k)
       ∧ trades DEF (wall_date w + k) = true
       ∧ ∀ j, 1 ≤ j < k → trades DEF (wall_date w + j) = false.
Proof.
  intros Hw. destruct (next_ok (wall_date w)) as (r & E & Hr);
    [unfold supported_clock in Hw; lia|].
  destruct (supported_now w Hw) as [_ Hd].
  pose proof (next_trading_day_cases DEF (wall_date w) ltac:(lia)) as Hn. rewrite E in Hn.
  destruct Hn as (_ & Ht & Hn). exists (r - wall_date w).
  replace (wall_date w + (r - wall_date w)) with r by lia. unfold trades. rewrite Ht.
  split_and!; [lia|lia|done|done|]. intros j Hj. by rewrite Hn by lia.
Qed.

(** The last trading day up to today, found by the backward scan. *)
Lemma retained_scan_spec w n k :
  supported_clock w → 0 ≤ k → k + Z.of_nat n < 100 →
  (∀ j, 0 ≤ j < k → trades DEF (wall_date w - j) = false) →
  match retained_scan DEF w n (wall_date w - k) with
  | Ok (Some d) => ∃ m, k ≤ m < k + Z.of_nat n ∧ d = wall_date w - m ∧ trades DEF d = true
                        ∧ ∀ j, 0 ≤ j < m → trades DEF (wall_date w - j) = false
  | Ok None => ∀ j, 0 ≤ j < k + Z.of_nat n → trades DEF (wall_date w - j) = false
  | Err _ => False
  end.
Proof.
  intros Hw. revert k. induction n as [|n IH]; intros k Hk Hn Hnone; cbn [retained_scan].
  { intros j Hj. apply Hnone. lia. }
  destruct (supported_clock_steps w (- k) Hw ltac:(lia)) as [Hs Hr].
  destruct (supported_clock_steps w (- k - 1) Hw ltac:(lia)) as [_ Hr'].
  pose proof (window_near DEF w (- k) Hw default_sane ltac:(lia)) as Hf.
  rewrite Z.add_opp_r in *. unfold session_facts in Hf. rewrite trades_ok by done.
  cbn [mbind res_bind]. destruct (trades DEF (wall_date w - k)) eqn:Et.
  - destruct Hf as (t & _ & _ & ->). cbn [mbind res_bind session_start sw_trading_date].
    assert (Hle : combine (wall_date w - k - 1) (time_hm 20 15) ≤ w).
    { split_clock w d u. clock. }
    rewrite (proj2 (Z.leb_le _ _) Hle). exists k. split_and!; [lia|lia|done|done|done].
  - rewrite date_add_ok by lia. cbn [mbind res_bind].
    replace (wall_date w - k + -1) with (wall_date w - (k + 1)) by lia.
    specialize (IH (k + 1) ltac:(lia) ltac:(lia)).
    destruct (retained_scan DEF w n (wall_date w - (k + 1))) as [[d|]|]; cycle 1.
    + intros j Hj. apply IH; [|lia]. intros i Hi.
      destruct (Z.eq_dec i k) as [->|]; [done|]. apply Hnone. lia.
    + apply IH. intros i Hi. destruct (Z.eq_dec i k) as [->|]; [done|]. apply Hnone. lia.
    + destruct IH as (m & Hm & H).
      { intros i Hi. destruct (Z.eq_dec i k) as [->|]; [done|]. apply Hnone. lia. }
      exists m. split; [lia|done].
Qed.

Lemma retained_scan_ok w :
  supported_clock w →
  ∃ m, 0 ≤ m ≤ 3 ∧ retained_scan DEF w 15 (wall_date w) = Ok (Some (wall_date w - m))
       ∧ trades DEF (wall_date w - m) = true
       ∧ ∀ j, 0 ≤ j < m → trades DEF (wall_date w - j) = false.
Proof.
  intros Hw. pose proof (retained_scan_spec w 15 0 Hw ltac:(lia) ltac:(lia)) as H.
  rewrite Z.sub_0_r in H. specialize (H ltac:(intros j ?; lia)).
  destruct (trades_within_four (-1) (wall_date w)) as (k & Hk & Ht);
    [auto | unfold supported_clock in Hw; lia |].
  replace (wall_date w + -1 * k) with (wall_date w - k) in Ht by lia.
  assert (Htk : trades DEF (wall_date w - k) = true) by (unfold trades; by rewrite Ht).
  destruct (retained_scan DEF w 15 (wall_date w)) as [[d|]|]; [| |done].
  - destruct H as (m & Hm & -> & Hd & Hn). exists m. split_and!; [lia| |done|done|done].
    apply Z.le_ngt. intros Hl. rewrite Hn in Htk by lia. done.
  - rewrite H in Htk by lia. done.
Qed.

(** The session of a moment: tonight's, today's, or the retained one. *)
Lemma spx_session_date_at_spec retain w :
  supported_clock w →
  spx_session_date_at DEF retain w =
    let fallback := if retain : bool then retained_scan DEF w 15 (wall_date w) else Ok None in
    if time_hm 20 15 <=? wall_time w then
      if trades DEF (wall_date w + 1) then Ok (Some (wall_date w + 1)) else fallback
    else
      match session DEF (wall_date w) with
      | Ok (Some s) => if w <=? close_at s then Ok (Some (wall_date w)) else fallback
      | _ => fallback
      end.
Proof.
  intros Hw. unfold spx_session_date_at. change SPX_GTH_OPEN with (time_hm 20 15).
  pose proof (window_now DEF w Hw default_sane) as Hf. unfold session_facts in Hf.
  destruct (Z.leb_spec (time_hm 20 15) (wall_time w)).
  - destruct (next_default w Hw) as (k & Hk & -> & Ht & Hn). cbn [mbind res_bind].
    pose proof (window_near DEF w k Hw default_sane ltac:(lia)) as Hf'.
    unfold session_facts in Hf'. rewrite Ht in Hf'. destruct Hf' as (t & _ & _ & ->).
    cbn [mbind res_bind session_start gth_end].
    destruct (Z.eq_dec k 1) as [->|Hk1].
    + rewrite Ht. split_clock w d u. clock_ltb. done.
    + rewrite (Hn 1) by lia. split_clock w d u. clock_ltb. done.
  - destruct (trades DEF (wall_date w)) eqn:Et.
    + destruct Hf as (t & _ & -> & ->).
      cbn [mbind res_bind session_start gth_end session_end close_at sw_trading_date].
      assert (Hle : combine (wall_date w - 1) (time_hm 20 15) ≤ w).
      { split_clock w d u. clock. }
      rewrite (proj2 (Z.leb_le _ _) Hle). done.
    + by destruct Hf as [-> ->].
Qed.

(** [d] is the latest trading date whose session window has started by [w]. *)
Definition latest_started (w d : Z) : Prop :=
  is_trading_day DEFAULT_MARKET_CALENDAR d = Ok true
  ∧ combine (d - 1) SPX_GTH_OPEN ≤ w
  ∧ ∀ d', wall_date w - 30 ≤ d' ≤ wall_date w + 30 →
          is_trading_day DEFAULT_MARKET_CALENDAR d' = Ok true →
          combine (d' - 1) SPX_GTH_OPEN ≤ w → d' ≤ d.

Lemma trades_near w k :
  supported_clock w → -300 < k < 300 →
  is_trading_day DEF (wall_date w + k) = Ok (trades DEF (wall_date w + k)).
Proof.
  intros Hw Hk. destruct (supported_clock_steps w k Hw ltac:(lia)) as [Hs _].
  by apply trades_ok.
Qed.

Lemma retained_latest w m :
  supported_clock w → 0 ≤ m ≤ 3 → trades DEF (wall_date w - m) = true →
  (∀ j, 0 ≤ j < m → trades DEF (wall_date w - j) = false) →
  (time_hm 20 15 ≤ wall_time w → trades DEF (wall_date w + 1) = false) →
  latest_started w (wall_date w - m).
Proof.
  intros Hw Hm Ht Hn Hno. unfold latest_started. change SPX_GTH_OPEN with (time_hm 20 15).
  split_and!.
  - rewrite <- Z.add_opp_r in *. rewrite trades_near by (first [done|lia]). by rewrite Ht.
  - split_clock w d u. clock.
  - intros d' Hd' Ht' Hle. apply Z.le_ngt. intros Hlt.
    replace d' with (wall_date w + (d' - wall_date w)) in Ht' by lia.
    rewrite trades_near in Ht' by (first [done|lia]). injection Ht' as Ht'.
    replace (wall_date w + (d' - wall_date w)) with d' in Ht' by lia.
    assert (Hcase : d' = wall_date w + 1 ∧ time_hm 20 15 ≤ wall_time w ∨ d' ≤ wall_date w).
    { clear - Hle. split_clock w d u. clock. }
    destruct Hcase as [[-> Hev]|Hcase]; [by rewrite Hno in Ht'|].
    replace d' with (wall_date w - (wall_date w - d')) in Ht' by lia.
    by rewrite Hn in Ht' by lia.
Qed.

Lemma tonight_latest w :
  supported_clock w → time_hm 20 15 ≤ wall_time w → trades DEF (wall_date w + 1) = true →
  latest_started w (wall_date w + 1).
Proof.
  intros Hw Hev Ht. unfold latest_started. change SPX_GTH_OPEN with (time_hm 20 15). split_and!.
  - rewrite trades_near by (first [done|lia]). by rewrite Ht.
  - split_clock w d u. clock.
  - intros d' _ _ Hle. split_clock w d u. clock.
Qed.

(** ** The properties *)

(** C18: [next_trading_day] and [previous_trading_day] of the default calendar
    always return, within four days, the nearest date that trades: no date in
    between trades. *)
Theorem trading_day_search_nearest day :
  4 ≤ date_year day ≤ 9996 →
  (∃ r, next_trading_day DEFAULT_MARKET_CALENDAR day = Ok r ∧ day < r ≤ day + 4
        ∧ is_trading_day DEFAULT_MARKET_CALENDAR r = Ok true
        ∧ ∀ x, day < x < r → is_trading_day DEFAULT_MARKET_CALENDAR x = Ok false) ∧
  (∃ r, previous_trading_day DEFAULT_MARKET_CALENDAR day = Ok r ∧ day - 4 ≤ r < day
        ∧ is_trading_day DEFAULT_MARKET_CALENDAR r = Ok true
        ∧ ∀ x, r < x < day → is_trading_day DEFAULT_MARKET_CALENDAR x = Ok false).
Proof.
  intros Hy. pose proof (date_year_window day) as Hw. unfold in_window in Hw.
  pose proof (days_before_year_bounds (date_year day) ltac:(lia)). split.
  - destruct (next_ok day Hy) as (r & E & Hr).
    pose proof (next_trading_day_cases DEF day ltac:(lia)) as H'. rewrite E in H'. naive_solver.
  - destruct (previous_ok day Hy) as (r & E & Hr).
    pose proof (previous_trading_day_cases DEF day ltac:(lia)) as H'. rewrite E in H'.
    naive_solver.
Qed.

(** Thanksgiving week of 2026. *)
Lemma trading_day_search_nearest_witness :
  ∃ r, next_trading_day DEFAULT_MARKET_CALENDAR (ymd2ord 2026 11 25) = Ok r.
Proof.
  destruct (trading_day_search_nearest (ymd2ord 2026 11 25)) as [(r & E & _) _].
  - vm_compute. split; discriminate.
  - by exists r.
Defined.

(** [trading_days_elapsed] of the default calendar counts the trading days
    after [start] up to and including [end_], and is [None] exactly when [end_]
    precedes [start]. *)
Theorem trading_days_elapsed_counts start end_ :
  4 ≤ date_year start ≤ 9996 → 4 ≤ date_year end_ ≤ 9996 →
  trading_days_elapsed DEFAULT_MARKET_CALENDAR start end_ =
    Ok (if end_ <? start then None
        else Some (Z.of_nat (length (trading_days DEFAULT_MARKET_CALENDAR start end_)))).
Proof.
  intros Hs He. pose proof (date_year_window start) as Hw. pose proof (date_year_window end_) as Hw'.
  unfold in_window in *.
  pose proof (days_before_year_bounds (date_year start) ltac:(lia)).
  pose proof (days_before_year_bounds (date_year end_) ltac:(lia)).
  pose proof (trading_days_elapsed_cases DEF start end_ ltac:(lia) ltac:(lia)) as Hc.
  destruct (Z.ltb_spec end_ start).
  - unfold trading_days_elapsed. by rewrite (proj2 (Z.ltb_lt _ _)).
  - destruct (trading_days_elapsed_ok start end_) as [n E]; [lia..|]. rewrite E in *.
    by destruct Hc as [_ ->].
Qed.

(** A week with a holiday: Thursday is Thanksgiving. *)
Lemma trading_days_elapsed_counts_witness :
  trading_days_elapsed DEFAULT_MARKET_CALENDAR (ymd2ord 2026 11 23) (ymd2ord 2026 11 30)
  = Ok (Some 4).
Proof.
  rewrite (trading_days_elapsed_counts (ymd2ord 2026 11 23) (ymd2ord 2026 11 30)).
  - vm_compute. reflexivity.
  - vm_compute. split; discriminate.
  - vm_compute. split; discriminate.
Defined.

Lemma latest_session w :
  supported_clock w → ∃ d, spx_session_date_at DEF true w = Ok (Some d) ∧ latest_started w d.
Proof.
  intros Hw. destruct (retained_scan_ok w Hw) as (m & Hm & Es & Ht & Hn).
  rewrite spx_session_date_at_spec, Es by done. cbn zeta iota.
  pose proof (window_now DEF w Hw default_sane) as Hf. unfold session_facts in Hf.
  destruct (Z.leb_spec (time_hm 20 15) (wall_time w)) as [Hev|Hday].
  - destruct (trades DEF (wall_date w + 1)) eqn:E1.
    + eauto using tonight_latest.
    + eexists. split; [done|]. by apply retained_latest.
  - assert (Hr : latest_started w (wall_date w - m)).
    { apply retained_latest; [done..|]. lia. }
    destruct (trades DEF (wall_date w)) eqn:E0.
    + assert (m = 0) as ->.
      { destruct (Z.eq_dec m 0) as [|Hne]; [done|].
        specialize (Hn 0 ltac:(lia)). rewrite Z.sub_0_r in Hn. congruence. }
      rewrite Z.sub_0_r in Hr |- *. destruct Hf as (t & _ & -> & _). cbn [close_at].
      destruct (w <=? _); eauto.
    + destruct Hf as [-> _]. eauto.
Qed.

(** With [retain_completed] the default calendar assigns every moment a
    session: the latest trading date whose window, which opens at 20:15 the
    evening before, has already started. *)
Theorem spx_session_date_latest_started w :
  supported_clock w →
  ∃ d, spx_session_date_at DEFAULT_MARKET_CALENDAR true w = Ok (Some d) ∧ latest_started w d.
Proof. apply latest_session. Qed.

(** Saturday noon keeps Friday's session. *)
Lemma spx_session_date_latest_started_witness :
  spx_session_date_at DEFAULT_MARKET_CALENDAR true (combine (ymd2ord 2026 10 17) (time_hm 12 0))
  = Ok (Some (ymd2ord 2026 10 16))
  ∧ ∃ d, latest_started (combine (ymd2ord 2026 10 17) (time_hm 12 0)) d.
Proof.
  split; [vm_compute; reflexivity|].
  destruct (spx_session_date_latest_started (combine (ymd2ord 2026 10 17) (time_hm 12 0)))
    as (d & _ & H).
  - vm_compute. split; discriminate.
  - by exists d.
Defined.

(** Cboe's overnight session is open exactly when the moment belongs to a
    session whose window puts it in the segment "gth". *)
Theorem spx_gth_open_iff_segment w :
  supported_clock w →
  spx_gth_open_at DEFAULT_MARKET_CALENDAR w = Ok true ↔
  ∃ d win, spx_session_date_at DEFAULT_MARKET_CALENDAR false w = Ok (Some d)
           ∧ spx_session_window DEFAULT_MARKET_CALENDAR d = Ok (Some win)
           ∧ segment_at win w = Some "gth".
Proof.
  intros Hw. rewrite spx_gth_open_at_spec, spx_session_date_at_spec by done. cbn zeta iota.
  pose proof (window_now DEF w Hw default_sane) as Hf0.
  pose proof (window_near DEF w 1 Hw default_sane ltac:(lia)) as Hf1.
  unfold session_facts in *. unfold segment_at.
  destruct (Z.leb_spec (time_hm 20 15) (wall_time w)) as [Hev|Hday].
  - rewrite (proj2 (Z.ltb_ge _ _)) by clock.
    destruct (trades DEF (wall_date w + 1)); [|naive_solver].
    destruct Hf1 as (t & _ & _ & E). split; [intros _|done].
    do 2 eexists. split; [done|]. split; [exact E|]. cbn [session_start gth_end].
    split_clock w d u. clock_ltb. done.
  - destruct (trades DEF (wall_date w)).
    + destruct Hf0 as (t & Ht & -> & E). cbn [close_at].
      destruct (Z.ltb_spec (wall_time w) (time_hm 9 25)).
      * split; [intros _|done]. exists (wall_date w). eexists. split; [|split; [exact E|]];
          cbn [session_start gth_end]; split_clock w d u; clock_ltb; done.
      * split; [done|]. intros (d & win & H1 & H2 & H3). destruct (w <=? _); [|done].
        injection H1 as <-. rewrite E in H2. injection H2 as <-.
        cbn [session_start gth_end rth_open session_end] in H3.
        rewrite (proj2 (Z.ltb_ge _ (combine _ (time_hm 9 25)))), andb_false_r in H3 by
          (split_clock w d u; clock).
        by repeat case_match.
    + destruct Hf0 as [-> _]. destruct (wall_time w <? _); naive_solver.
Qed.

Lemma spx_gth_open_iff_segment_witness :
  ∃ d win, spx_session_date_at DEFAULT_MARKET_CALENDAR false
             (combine (ymd2ord 2026 10 18) (time_hm 21 0)) = Ok (Some d)
           ∧ spx_session_window DEFAULT_MARKET_CALENDAR d = Ok (Some win)
           ∧ segment_at win (combine (ymd2ord 2026 10 18) (time_hm 21 0)) = Some "gth".
Proof.
  apply (spx_gth_open_iff_segment (combine (ymd2ord 2026 10 18) (time_hm 21 0))).
  - vm_compute. split; discriminate.
  - vm_compute. reflexivity.
Defined.

Lemma globex_weekday_day w :
  0 ≤ weekday (wall_date w) ≤ 4 → wall_time w < time_hm 17 0 → globex_open_at w = true.
Proof.
  intros Hd Ht. unfold globex_open_at. change GLOBEX_MAINTENANCE with (time_hm 17 0).
  rewrite (proj2 (Z.eqb_neq _ 5)), (proj2 (Z.eqb_neq _ 6)) by lia.
  rewrite (proj2 (Z.ltb_lt _ _)) by done. by destruct (weekday _ =? 4).
Qed.

Lemma globex_evening w :
  0 ≤ weekday (wall_date w + 1) ≤ 4 → time_hm 18 0 ≤ wall_time w → globex_open_at w = true.
Proof.
  intros Hd Ht. unfold globex_open_at. change GLOBEX_OPEN with (time_hm 18 0).
  assert (Hw : weekday (wall_date w) ≠ 5 ∧ weekday (wall_date w) ≠ 4).
  { unfold weekday in *. zdiv. }
  rewrite (proj2 (Z.eqb_neq _ 5)), (proj2 (Z.eqb_neq _ 4)) by lia.
  rewrite (proj2 (Z.leb_le _ _)) by done. rewrite orb_true_r. by destruct (weekday _ =? 6).
Qed.

Lemma latest_started_near w d : latest_started w d → supported_clock w → 
  ∃ k, -4 ≤ k ≤ 1 ∧ d = wall_date w + k.
Proof.
  intros (Ht & Hle & Hmax) Hw. change SPX_GTH_OPEN with (time_hm 20 15) in *.
  exists (d - wall_date w). split; [|lia].
  destruct (retained_scan_ok w Hw) as (m & Hm & _ & Htm & _). split.
  - assert (wall_date w - m ≤ d); [|lia]. apply Hmax; [lia| |].
    + rewrite <- Z.add_opp_r in *. rewrite trades_near by (first [done|lia]). by rewrite Htm.
    + split_clock w x u. clock.
  - clear - Hle. split_clock w x u. clock.
Qed.

(** The quiet window is defined on every moment, and it starts with the close
    of the latest session. *)
Lemma post_rth_pre_gth_quiet_spec w :
  supported_clock w →
  ∃ q d s, post_rth_pre_gth_quiet_at DEF w = Ok q
           ∧ spx_session_date_at DEF true w = Ok (Some d)
           ∧ session DEF d = Ok (Some s) ∧ (q = true → close_at s ≤ w).
Proof.
  intros Hw. destruct (latest_session w Hw) as (d & Ed & Hl). destruct (latest_started_near w d Hl Hw) as (k & Hk & ->).
  pose proof (window_near DEF w k Hw default_sane ltac:(lia)) as Hf. unfold session_facts in Hf.
  destruct Hl as (Ht & _). rewrite trades_near in Ht by (first [done|lia]). injection Ht as Ht.
  rewrite Ht in Hf. destruct Hf as (t & Htr & Es & _).
  unfold post_rth_pre_gth_quiet_at. rewrite Ed. cbn [mbind res_bind]. rewrite Es.
  cbn [mbind res_bind close_at].
  destruct (Z.ltb_spec w (combine (wall_date w + k) t)).
  { do 3 eexists. by split_and!. }
  destruct (next_ok (wall_date w + k)) as (r & -> & Hr).
  { unfold supported_clock in Hw. pose proof (date_year_step (wall_date w) k ltac:(lia)). lia. }
  cbn [mbind res_bind].
  pose proof (window_near DEF w (r - wall_date w) Hw default_sane ltac:(lia)) as Hf.
  replace (wall_date w + (r - wall_date w)) with r in Hf by lia. unfold session_facts in Hf.
  destruct (trades DEF r).
  - destruct Hf as (t' & _ & _ & ->). cbn. do 3 eexists. by split_and!.
  - destruct Hf as [_ ->]. cbn. do 3 eexists. by split_and!.
Qed.

(** Regular hours and Cboe's overnight session never overlap, both lie
    inside the Globex session, and neither overlaps the quiet window between a
    completed session and the next one. *)
Theorem open_sessions_exclusive w :
  supported_clock w →
  ∃ rth gth quiet,
    rth_open_at DEFAULT_MARKET_CALENDAR w = Ok rth
    ∧ spx_gth_open_at DEFAULT_MARKET_CALENDAR w = Ok gth
    ∧ post_rth_pre_gth_quiet_at DEFAULT_MARKET_CALENDAR w = Ok quiet
    ∧ (rth = true → gth = false) ∧ (rth || gth = true → globex_open_at w = true ∧ quiet = false).
Proof.
  intros Hw. destruct (supported_now w Hw) as [Hs0 _].
  destruct (supported_clock_steps w 1 Hw ltac:(lia)) as [Hs1 _].
  destruct (rth_open_at_spec DEF w Hw default_sane) as (rth & -> & Hrth).
  rewrite spx_gth_open_at_spec by done.
  destruct (post_rth_pre_gth_quiet_spec w Hw) as (q & d & s & -> & Ed & Es & Hq).
  rewrite spx_session_date_at_spec in Ed by done. cbn zeta iota in Ed.
  pose proof (window_now DEF w Hw default_sane) as Hf0.
  pose proof (window_near DEF w 1 Hw default_sane ltac:(lia)) as Hf1.
  unfold session_facts in *. do 3 eexists. do 3 (split; [done|]). split.
  - intros Hr. destruct (Hrth Hr) as (_ & Ht & _).
    rewrite (proj2 (Z.ltb_ge _ _)), (proj2 (Z.leb_gt _ _)) by clock. done.
  - intros Ho.
    assert (Hcase : (trades DEF (wall_date w) = true ∧ wall_time w < time_hm 16 0
                     ∧ ∃ s, session DEF (wall_date w) = Ok (Some s) ∧ w < close_at s)
                    ∨ trades DEF (wall_date w + 1) = true ∧ time_hm 20 15 ≤ wall_time w).
    { apply orb_true_iff in Ho as [Ho|Ho].
      - left. destruct (Hrth Ho) as (Ht & Hr & Hs). split_and!; [done|lia|done].
      - destruct (Z.ltb_spec (wall_time w) (time_hm 9 25)).
        + left. rewrite Ho in Hf0. destruct Hf0 as (t & Ht & E & _).
          split_and!; [done|clock|]. eexists. split; [exact E|]. cbn [close_at].
          split_clock w x u. clock.
        + destruct (Z.leb_spec (time_hm 20 15) (wall_time w)); [|done]. by right. }
    destruct Hcase as [(Ht & Hday & s' & E & Hlt)|[Ht Hev]].
    + split. { apply globex_weekday_day; [by eapply trades_weekday|clock]. }
      rewrite (proj2 (Z.leb_gt _ _)), E, (proj2 (Z.leb_le _ _)) in Ed by clock.
      injection Ed as <-. rewrite E in Es. injection Es as <-.
      destruct q; [|done]. specialize (Hq eq_refl). lia.
    + split. { apply globex_evening; [by eapply trades_weekday|clock]. }
      rewrite (proj2 (Z.leb_le _ _) Hev), Ht in Ed. injection Ed as <-.
      rewrite Ht in Hf1. destruct Hf1 as (t & Htr & E & _). rewrite E in Es. injection Es as <-.
      destruct q; [|done]. specialize (Hq eq_refl). cbn [close_at] in Hq.
      split_clock w x u. clock.
Qed.

Lemma open_sessions_exclusive_witness :
  ∃ rth gth quiet,
    rth_open_at DEFAULT_MARKET_CALENDAR (combine (ymd2ord 2026 10 16) (time_hm 10 0)) = Ok rth
    ∧ spx_gth_open_at DEFAULT_MARKET_CALENDAR (combine (ymd2ord 2026 10 16) (time_hm 10 0)) = Ok gth
    ∧ (rth = true → gth = false) ∧ quiet = true.
Proof.
  destruct (open_sessions_exclusive (combine (ymd2ord 2026 10 16) (time_hm 10 0)))
    as (rth & gth & _ & H1 & H2 & _ & H3 & _).
  - vm_compute. split; discriminate.
  - exists rth, gth, true. auto.
Defined.

(** [r] is the first date from today on whose session has [key] still ahead. *)
Definition first_session_ahead (key : MarketSession → Z) (w r : Z) : Prop :=
  wall_date w ≤ r
  ∧ (∃ s, session DEFAULT_MARKET_CALENDAR r = Ok (Some s) ∧ w < key s)
  ∧ ∀ d s, wall_date w ≤ d < r → session DEFAULT_MARKET_CALENDAR d = Ok (Some s) → key s ≤ w.

Lemma seek_default w :
  supported_clock w →
  ∃ k, 0 ≤ k ≤ 4 ∧ seek DEF 1 (wall_date w) = Ok (wall_date w + k)
       ∧ trades DEF (wall_date w + k) = true
       ∧ ∀ j, 0 ≤ j < k → trades DEF (wall_date w + j) = false.
Proof.
  intros Hw. destruct (trades DEF (wall_date w)) eqn:E0.
  - exists 0. rewrite Z.add_0_r. split_and!; [lia|lia| |done|intros; lia].
    apply seek_now. destruct (supported_now w Hw). rewrite trades_ok by done. by rewrite E0.
  - destruct (supported_now w Hw) as [_ Hd].
    destruct (seek_ok 1 (wall_date w)) as (k & Hk & E); [auto|unfold supported_clock in Hw; lia|].
    pose proof (seek_spec DEF 1 (wall_date w) ltac:(auto) ltac:(lia)) as Hn. rewrite E in Hn.
    destruct Hn as (k' & Hk' & Ek & Ht & Hn). assert (k' = k) as -> by lia.
    rewrite Z.mul_1_l in *. exists k. split_and!; [lia|lia|done| |].
    + unfold trades. by rewrite Ht.
    + intros j Hj. specialize (Hn j Hj). rewrite Z.mul_1_l in Hn. unfold trades. by rewrite Hn.
Qed.

(** A search that starts [a] days ahead finds the first session ahead when the
    earlier ones are over and every session it may find is in the future. *)
Lemma first_ahead_intro key w a k :
  supported_clock w → 0 ≤ a ≤ k → k ≤ 4 → trades DEF (wall_date w + k) = true →
  (∀ j, a ≤ j < k → trades DEF (wall_date w + j) = false) →
  (∀ j s, 0 ≤ j < a → session DEF (wall_date w + j) = Ok (Some s) → key s ≤ w) →
  (∀ s, session DEF (wall_date w + k) = Ok (Some s) → w < key s) →
  first_session_ahead key w (wall_date w + k).
Proof.
  intros Hw Ha Hk Ht Hn Hb Hlt. split_and!; [lia| |].
  - pose proof (window_near DEF w k Hw default_sane ltac:(lia)) as Hf. unfold session_facts in Hf.
    rewrite Ht in Hf. destruct Hf as (t & _ & E & _). eexists. split; [exact E|]. by apply Hlt.
  - intros d s Hd Es. replace d with (wall_date w + (d - wall_date w)) in Es by lia.
    destruct (Z.lt_ge_cases (d - wall_date w) a); [eapply Hb; [|done]; lia|].
    pose proof (window_near DEF w (d - wall_date w) Hw default_sane ltac:(lia)) as Hf.
    unfold session_facts in Hf. rewrite Hn in Hf by lia. destruct Hf as [E _]. congruence.
Qed.

Lemma session_near_times w k s :
  supported_clock w → -300 < k < 300 → session DEF (wall_date w + k) = Ok (Some s) →
  trades DEF (wall_date w + k) = true
  ∧ ms_trading_date s = wall_date w + k
  ∧ combine (wall_date w + k) (time_hm 9 30) < close_at s ≤ combine (wall_date w + k) (time_hm 16 0)
  ∧ review_ready_at s = combine (wall_date w + k) (time_hm 17 0).
Proof.
  intros Hw Hk E. pose proof (window_near DEF w k Hw default_sane Hk) as Hf.
  unfold session_facts in Hf. destruct (trades _ _).
  - destruct Hf as (t & Ht & E' & _). rewrite E' in E. injection E as <-. cbn.
    split_and!; try done; clock.
  - destruct Hf as [E' _]. congruence.
Qed.

Lemma next_first_ahead key w :
  supported_clock w →
  (∀ s, session DEF (wall_date w + 0) = Ok (Some s) → key s ≤ w) →
  (∀ k s, 1 ≤ k ≤ 4 → session DEF (wall_date w + k) = Ok (Some s) → w < key s) →
  ∃ r, next_trading_day DEF (wall_date w) = Ok r ∧ first_session_ahead key w r.
Proof.
  intros Hw H0 Hk. destruct (next_default w Hw) as (k & Hk' & -> & Ht & Hn).
  eexists. split; [done|]. apply (first_ahead_intro key w 1 k); [done|lia|lia|done|done| |].
  - intros j s Hj. replace j with 0 by lia. apply H0.
  - intros s. by apply Hk.
Qed.

Lemma research_expiry_first w :
  supported_clock w →
  ∃ r, research_expiry_at DEF w = Ok r ∧ first_session_ahead review_ready_at w r.
Proof.
  intros Hw. destruct (supported_now w Hw) as [Hs _]. unfold research_expiry_at.
  change REVIEW_READY with (time_hm 17 0). rewrite trades_ok by done. cbn [mbind res_bind].
  assert (Hlater : ∀ k s, 1 ≤ k ≤ 4 → session DEF (wall_date w + k) = Ok (Some s) →
                          w < review_ready_at s).
  { intros k s Hk Es. apply session_near_times in Es as (_ & _ & _ & ->); [|done|lia].
    split_clock w d u. clock. }
  destruct (trades DEF (wall_date w)) eqn:E0; cbn [andb].
  - destruct (Z.ltb_spec (wall_time w) (time_hm 17 0)).
    + exists (wall_date w). split; [done|]. rewrite <- (Z.add_0_r (wall_date w)).
      apply (first_ahead_intro _ w 0 0); [done|lia|lia|by rewrite Z.add_0_r| | |].
      * intros j Hj. lia.
      * intros j s Hj. lia.
      * intros s Es. apply session_near_times in Es as (_ & _ & _ & ->); [|done|lia].
        split_clock w d u. clock.
    + apply next_first_ahead; [done| |done]. intros s Es.
      apply session_near_times in Es as (_ & _ & _ & ->); [|done|lia]. split_clock w d u. clock.
  - destruct (seek_default w Hw) as (k & Hk & -> & Ht & Hn). eexists. split; [done|].
    apply (first_ahead_intro _ w 0 k); [done|lia|lia|done|done| |].
    + intros j s Hj. lia.
    + intros s. destruct (Z.eq_dec k 0) as [->|]; [|apply Hlater; lia].
      rewrite Z.add_0_r in Ht. congruence.
Qed.

Lemma option_collection_expiry_first w :
  supported_clock w →
  ∃ r, option_collection_expiry_at DEF w = Ok r ∧ first_session_ahead close_at w r.
Proof.
  intros Hw. pose proof (window_now DEF w Hw default_sane) as Hf. unfold session_facts in Hf.
  destruct (supported_now w Hw) as [Hs _].
  assert (Hlater : ∀ k s, 1 ≤ k ≤ 4 → session DEF (wall_date w + k) = Ok (Some s) →
                          w < close_at s).
  { intros k s Hk Es. apply session_near_times in Es as (_ & _ & Hc & _); [|done|lia].
    split_clock w d u. clock. }
  unfold option_collection_expiry_at, research_expiry_at.
  change REVIEW_READY with (time_hm 17 0). rewrite trades_ok by done. cbn [mbind res_bind].
  destruct (trades DEF (wall_date w)) eqn:E0; cbn [andb].
  - destruct Hf as (t & Ht & E & _). rewrite E.
    cbn [mbind res_bind close_at review_ready_at ms_trading_date].
    destruct (Z.leb_spec (combine (wall_date w) t) w) as [Hle|Hgt]; cbn [andb].
    + destruct (next_first_ahead close_at w Hw) as (r & En & Hr); [|exact Hlater|].
      { rewrite Z.add_0_r, E. by intros s [= <-]. }
      exists r. split; [|done].
      destruct (Z.ltb_spec w (combine (wall_date w) (time_hm 17 0))) as [|Hge]; [done|].
      rewrite (proj2 (Z.ltb_ge _ _)); [done|]. clear - Hge. split_clock w d u. clock.
    + rewrite (proj2 (Z.ltb_lt _ _)) by (clear - Hgt Ht; split_clock w d u; clock).
      exists (wall_date w). split; [done|]. rewrite <- (Z.add_0_r (wall_date w)).
      apply (first_ahead_intro _ w 0 0); [done|lia|lia|by rewrite Z.add_0_r| | |].
      * intros j Hj. lia.
      * intros j s Hj. lia.
      * rewrite Z.add_0_r, E. by intros s [= <-].
  - destruct Hf as [-> _]. cbn [mbind res_bind].
    destruct (seek_default w Hw) as (k & Hk & -> & Ht & Hn). eexists. split; [done|].
    apply (first_ahead_intro _ w 0 k); [done|lia|lia|done|done| |].
    + intros j s Hj. lia.
    + intros s. destruct (Z.eq_dec k 0) as [->|]; [|apply Hlater; lia].
      rewrite Z.add_0_r in Ht. congruence.
Qed.

(** the research expiry is the first session whose review time is still
    ahead, and the option-collection expiry is the first session that has not
    closed yet: after today's close the collectors move to the next session. *)
Theorem expiries_first_session_ahead w :
  supported_clock w →
  (∃ r, research_expiry_at DEFAULT_MARKET_CALENDAR w = Ok r
        ∧ first_session_ahead review_ready_at w r) ∧
  (∃ r, option_collection_expiry_at DEFAULT_MARKET_CALENDAR w = Ok r
        ∧ first_session_ahead close_at w r).
Proof.
  intros Hw. split; [by apply research_expiry_first | by apply option_collection_expiry_first].
Qed.

Lemma expiries_first_session_ahead_witness :
  ∃ r, option_collection_expiry_at DEFAULT_MARKET_CALENDAR
         (combine (ymd2ord 2026 11 27) (time_hm 13 30)) = Ok r
       ∧ first_session_ahead close_at (combine (ymd2ord 2026 11 27) (time_hm 13 30)) r.
Proof.
  apply (expiries_first_session_ahead (combine (ymd2ord 2026 11 27) (time_hm 13 30))).
  vm_compute. split; discriminate.
Defined.
