(* ===== verification/SessionClock.v ===== *)
(** * The session clock interface

    What the trading components ask of the market calendar at an instant, and
    the laws they rely on; the default calendar implements it for any New York
    wall clock [to_et]. *)

From stdpp Require Import base list strings gmap sets numbers.
From Stdlib Require Import ZArith Lia.
From S2P Require Import Prelude PyStr PyTime PyDateTime MarketCalendar CalendarFacts CalendarProps.

#[local] Open Scope Z_scope.

(** The sessions of an instant.  On the instants the clock supports, every
    question has an answer and the sessions are consistent. *)
Class SessionClock := {
  clock_rth_open : Z → res bool;
  clock_gth_open : Z → res bool;
  clock_globex_open : Z → res bool;
  clock_research_expiry : Z → res Z;
  clock_supported : Z → Prop;
  clock_total u :
    clock_supported u →
    ∃ rth gth globex expiry,
      clock_rth_open u = Ok rth ∧ clock_gth_open u = Ok gth ∧ clock_globex_open u = Ok globex
      ∧ clock_research_expiry u = Ok expiry
      ∧ (rth = true → gth = false) ∧ (rth || gth = true → globex = true);
}.

(** The default calendar seen through the wall clock [to_et]. *)
#[refine] Instance calendar_clock (to_et : Z → Z) : SessionClock := {|
  clock_rth_open u := is_rth_open to_et DEFAULT_MARKET_CALENDAR (utc u);
  clock_gth_open u := is_spx_gth_open to_et DEFAULT_MARKET_CALENDAR (utc u);
  clock_globex_open u := is_globex_open to_et (utc u);
  clock_research_expiry u := research_expiry to_et DEFAULT_MARKET_CALENDAR (utc u);
  clock_supported u := supported_clock (to_et u);
  clock_total := _;
|}.
Proof.
  intros u Hu. unfold is_rth_open, is_spx_gth_open, is_globex_open, research_expiry, as_et.
  rewrite dt_instant_utc. cbn [mbind res_bind].
  destruct (research_expiry_first (to_et u) Hu) as (expiry & -> & _).
  destruct (rth_open_at_spec DEFAULT_MARKET_CALENDAR (to_et u) Hu default_sane) as (rth & -> & Hr).
  rewrite spx_gth_open_at_spec by done.
  destruct (supported_now _ Hu) as [Hs0 _].
  destruct (supported_clock_steps _ 1 Hu ltac:(lia)) as [Hs1 _].
  do 4 eexists. do 4 (split; [reflexivity|]). split.
  - intros Hrt. destruct (Hr Hrt) as (_ & Ht & _).
    rewrite (proj2 (Z.ltb_ge _ _)), (proj2 (Z.leb_gt _ _)) by clock. done.
  - intros Ho. apply orb_true_iff in Ho as [Ho|Ho].
    + destruct (Hr Ho) as (Ht & Hb & _). apply globex_weekday_day; [|clock].
      by eapply trades_weekday.
    + destruct (Z.ltb_spec (wall_time (to_et u)) (time_hm 9 25)).
      * apply globex_weekday_day; [by eapply trades_weekday|clock].
      * destruct (Z.leb_spec (time_hm 20 15) (wall_time (to_et u))); [|done].
        apply globex_evening; [by eapply trades_weekday|clock].
Defined.
