(* ===== verification/LevelDecision.v ===== *)
(** * The wall/flip decision state machine ([application/order_map/level_decision_machine.py])

    One lifecycle per price level: armed when the spot comes near a wall,
    tested, accepted or rejected after a hold, confirmed after a retest or a
    sustained move, and expired or invalidated otherwise.  The state is the
    [dict[str, object]] of the source, timestamps are ISO strings, prices are
    binary64. *)

From stdpp Require Import base list strings.
From Stdlib Require Import ZArith Lia SpecFloat.
From S2P Require Import Prelude PyStr PyFloat PyTime PyDateTime PyDict PyVal PyHash.

#[local] Open Scope Z_scope.

(** ** Data *)

Inductive LevelPhase :=
  | FAR | APPROACHING | TESTING | BREAK_PENDING | REJECT_PENDING | ACCEPTED
  | REJECTED | RETEST | CONFIRMED | INVALIDATED | EXPIRED.

Inductive LevelThesis := T_NONE | BREAKOUT | FADE.

#[global] Instance LevelPhase_eq_dec : EqDecision LevelPhase.
Proof. solve_decision. Defined.
#[global] Instance LevelThesis_eq_dec : EqDecision LevelThesis.
Proof. solve_decision. Defined.

Definition phase_value (p : LevelPhase) : string :=
  match p with
  | FAR => "far" | APPROACHING => "approaching" | TESTING => "testing"
  | BREAK_PENDING => "break_pending" | REJECT_PENDING => "reject_pending"
  | ACCEPTED => "accepted" | REJECTED => "rejected" | RETEST => "retest"
  | CONFIRMED => "confirmed" | INVALIDATED => "invalidated" | EXPIRED => "expired"
  end.

Definition all_phases : list LevelPhase :=
  [FAR; APPROACHING; TESTING; BREAK_PENDING; REJECT_PENDING; ACCEPTED; REJECTED;
   RETEST; CONFIRMED; INVALIDATED; EXPIRED].

Definition thesis_value (t : LevelThesis) : string :=
  match t with T_NONE => "none" | BREAKOUT => "breakout" | FADE => "fade" end.

(** [LevelPhase(s)] and [LevelThesis(s)]. *)
Definition phase_of_value (s : string) : option LevelPhase :=
  find (λ p, String.eqb (phase_value p) s) all_phases.
Definition thesis_of_value (s : string) : res LevelThesis :=
  of_option ValueError
    (find (λ t, String.eqb (thesis_value t) s) [T_NONE; BREAKOUT; FADE]).

Record LevelDecisionSettings := {
  approach_points : float;
  test_points : float;
  break_buffer_points : float;
  reject_points : float;
  accept_hold_seconds : float;
  retest_points : float;
  confirm_move_points : float;
  confirm_hold_seconds : float;
  phase_timeout_seconds : float;
  event_ttl_seconds : float;
  data_grace_seconds : float;
  structure_drift_points : float;
  es_confirm_ratio : float;
  terminal_rearm_seconds : float;
}.

Definition default_level_settings : LevelDecisionSettings := {|
  approach_points := f_of_Z 12;
  test_points := f_of_Z 4;
  break_buffer_points := f_of_Z 3;
  reject_points := f_of_Z 6;
  accept_hold_seconds := f_of_Z 20;
  retest_points := f_of_Z 4;
  confirm_move_points := f_of_Z 4;
  confirm_hold_seconds := f_of_Z 10;
  phase_timeout_seconds := f_of_Z 90;
  event_ttl_seconds := f_of_Z 300;
  data_grace_seconds := f_of_Z 30;
  structure_drift_points := f_of_Z 5;
  es_confirm_ratio := f_lit 25 2;
  terminal_rearm_seconds := f_of_Z 30;
|}.

Record LevelObservation := {
  at_ : pydt;
  spot : option float;
  es : option float;
  levels : list (string * float);
  quality_ok : bool;
  quality_reason : option string;
  session_date : string;
  session_mode : string;
  spx_levels : option (list (string * float));
  trigger_coordinate_kind : string;
  trigger_instrument_id : option string;
  trigger_basis_points : option float;
  spx_spot : option float;
  arm_allowed : bool;
  arm_block_reason : option string;
}.

Record LevelTransition := {
  previous_phase : LevelPhase;
  current_phase : LevelPhase;
  lt_state : pydict;
  changed : bool;
  lt_reason : string;
}.

Definition LEVEL_OUTSIDE_DIRECTION : list (string * Z) :=
  [("put_wall", -1); ("flip_low", -1); ("flip_high", 1); ("call_wall", 1)].

Definition TERMINAL_PHASES : list LevelPhase := [INVALIDATED; EXPIRED].
Definition PHASE_TIMEOUT_PHASES : list LevelPhase :=
  [BREAK_PENDING; REJECT_PENDING; ACCEPTED; REJECTED; RETEST].

Definition phase_in (p : LevelPhase) (l : list LevelPhase) : bool := bool_decide (p ∈ l).

(** ** Reading the state *)

Definition empty_level_state (now : Z) : pydict :=
  [("schema_version", VInt 1); ("phase", VStr (phase_value FAR));
   ("thesis", VStr (thesis_value T_NONE)); ("next_reentry_generation", VInt 0);
   ("updated_at", vtime now)].

Definition phase_of (state : pydict) : LevelPhase :=
  default FAR (phase_of_value (vstr_or "phase" (phase_value FAR) state)).

Definition phase_age (state : pydict) (now : Z) : res float :=
  phase_at ← iso_utc (vget "phase_at" state);
  Ok (fmax (total_seconds (now - default now phase_at)) (f_of_Z 0)).

Definition phase_timed_out (state : pydict) (now : Z) (settings : LevelDecisionSettings) : res bool :=
  age ← phase_age state now; Ok (fgtb age (phase_timeout_seconds settings)).

Definition expired (state : pydict) (now : Z) : res bool :=
  expires_at ← iso_utc (vget "expires_at" state);
  Ok match expires_at with Some e => e <=? now | None => false end.

(** A boolean is not a generation, although it is an [int]. *)
Definition generation (state : pydict) (field : string) : Z :=
  match vget field state with VInt z => if 0 <=? z then z else 0 | _ => 0 end.

Definition rearm_guard (state : pydict) : option (string * float) :=
  guard ← dict_of (vget "rearm_guard" state);
  kind ← str_of (vget "level_kind" guard);
  if String.eqb kind "" then None
  else level ← num_of (vget "level" guard); Some (kind, level).

Definition rearm_guard_blocks (guard : option (string * float)) (kind : string) (level : float)
    (settings : LevelDecisionSettings) : bool :=
  match guard with
  | Some (k, l) => String.eqb kind k
                   && fleb (fabs (fsub level l)) (structure_drift_points settings)
  | None => false
  end.

Definition structure_drifted (state : pydict) (o : LevelObservation)
    (settings : LevelDecisionSettings) : res bool :=
  match dget (vstr_or "level_kind" "" state) (levels o) with
  | None => Ok true
  | Some current =>
      lv ← vindex "level" state; level ← py_float lv;
      Ok (fgtb (fabs (fsub current level)) (structure_drift_points settings))
  end.

Definition session_boundary_changed (state : pydict) (phase : LevelPhase) (o : LevelObservation)
    : bool :=
  let prior_mode := vstr_or "session_mode" "" state in
  let current_mode := session_mode o in
  if negb (String.eqb prior_mode "")
     && negb (String.eqb current_mode "" || String.eqb current_mode "unknown")
     && negb (String.eqb prior_mode current_mode)
  then true
  else
    let prior_date := vstr_or "session_date" "" state in
    let current_date := session_date o in
    if negb (bool_decide (phase = FAR)) && negb (String.eqb prior_date "")
       && negb (String.eqb current_date "") && negb (String.eqb prior_date current_date)
    then true
    else if negb (phase_in phase TERMINAL_PHASES) || negb (String.eqb current_mode "rth")
    then false
    else
      let prior_coordinate := vstr_or "trigger_coordinate_kind" "" state in
      String.eqb (trigger_coordinate_kind o) "official_spx"
      && (String.eqb prior_coordinate "chain_implied_spx"
          || String.eqb prior_coordinate "es_equivalent").

Definition es_confirms (state : pydict) (o : LevelObservation) (spot es : float)
    (direction : Z) (settings : LevelDecisionSettings) : res bool :=
  start_es ← py_float (v_or (v_or (vget "confirmation_start_es" state) (vget "start_es" state))
                            (VFloat (f_of_Z 0)));
  start_spot ← py_float (v_or (v_or (vget "confirmation_start_spot" state)
                                    (vget "start_spot" state)) (VFloat (f_of_Z 0)));
  if f_is_zero start_es then Ok false
  else
    let es_move := fmul (f_of_Z direction) (fsub es start_es) in
    let spx_move := fabs (fsub spot start_spot) in
    Ok (fgeb es_move (fmax (fmul spx_move (es_confirm_ratio settings)) (f_lit 25 2))).

(** The evidence a breakout must carry in each phase; a message names what is
    missing. *)
Definition breakout_evidence_issue (state : pydict) (phase : LevelPhase) : option string :=
  if negb (String.eqb (vstr_or "thesis" "" state) (thesis_value BREAKOUT)) then None
  else if phase_in phase [BREAK_PENDING; ACCEPTED; RETEST; CONFIRMED]
          && is_none (vget "breakout_inside_seen_at" state)
  then Some "breakout_inside_crossing_evidence_missing"
  else if phase_in phase [RETEST; CONFIRMED]
          && is_none (vget "breakout_extension_seen_at" state)
  then Some "breakout_extension_evidence_missing"
  else
    let confirmation_mode := vstr_or "breakout_confirmation_mode" "retest" state in
    if bool_decide (phase = RETEST) && is_none (vget "breakout_retest_seen_at" state)
    then Some "breakout_retest_evidence_missing"
    else if bool_decide (phase = CONFIRMED) then
      if String.eqb confirmation_mode "sustained" then
        if is_none (vget "breakout_sustained_seen_at" state)
        then Some "breakout_sustained_evidence_missing" else None
      else if is_none (vget "breakout_retest_seen_at" state)
      then Some "breakout_retest_evidence_missing" else None
    else None.

(** ** Producing transitions *)

Definition unchanged (state : pydict) (phase : LevelPhase) (now : Z) (reason : string)
    : LevelTransition :=
  {| previous_phase := phase; current_phase := phase;
     lt_state := dset "updated_at" (vtime now) state; changed := false; lt_reason := reason |}.

Definition update_extreme (state : pydict) (phase : LevelPhase) (spot es : float) (now : Z)
    (reason : string) : LevelTransition :=
  {| previous_phase := phase; current_phase := phase;
     lt_state := dset "updated_at" (vtime now)
                   (dset "last_es" (VFloat es) (dset "last_spot" (VFloat spot) state));
     changed := false; lt_reason := reason |}.

Definition transition (state : pydict) (previous current : LevelPhase) (now : Z)
    (reason : string) : res LevelTransition :=
  count ← py_int (v_or (vget "transition_count" state) (VInt 0));
  Ok {| previous_phase := previous; current_phase := current;
        lt_state := dset "transition_count" (VInt (count + 1))
                      (dset "reason" (VStr reason)
                         (dset "updated_at" (vtime now)
                            (dset "phase_at" (vtime now)
                               (dset "phase" (VStr (phase_value current)) state))));
        changed := negb (bool_decide (previous = current)); lt_reason := reason |}.

Definition guard_value (g : string * float) : pyval :=
  VDict [("level_kind", VStr g.1); ("level", VFloat g.2)].

Definition to_far (state : pydict) (previous : LevelPhase) (now : Z) (reason : string)
    (guard : option (string * float)) : LevelTransition :=
  let current_generation := generation state "reentry_generation" in
  let current_generation :=
    if String.eqb reason "session_boundary_reset" then 0
    else if phase_in previous TERMINAL_PHASES then current_generation + 1
    else current_generation in
  let new_state := dset "reason" (VStr reason)
                     (dset "next_reentry_generation" (VInt current_generation)
                        (empty_level_state now)) in
  {| previous_phase := previous; current_phase := FAR;
     lt_state := match guard with
                 | Some g => dset "rearm_guard" (guard_value g) new_state
                 | None => new_state
                 end;
     changed := true; lt_reason := reason |}.

Definition spx_decision_spot (o : LevelObservation) (spot : float) : option float :=
  match spx_spot o with
  | Some s => Some s
  | None =>
      if String.eqb (trigger_coordinate_kind o) "official_spx"
         || String.eqb (trigger_coordinate_kind o) "chain_implied_spx" then Some spot
      else if String.eqb (trigger_coordinate_kind o) "es_equivalent" then
        basis ← trigger_basis_points o; Some (fsub spot basis)
      else None
  end.

Definition confirmed_transition (state : pydict) (previous : LevelPhase) (o : LevelObservation)
    (spot : float) (now desired_direction : Z) (settings : LevelDecisionSettings)
    (reason : string) : res LevelTransition :=
  ttl ← td_seconds (event_ttl_seconds settings);
  expires ← dt_add now ttl;
  let state := dset "direction" (VStr (if 0 <? desired_direction then "up" else "down"))
                 (dset "expires_at" (vtime expires)
                    (dset "confirmed_at" (vtime now) state)) in
  let state := match spx_decision_spot o spot with
               | Some s => dset "decision_spot" (VFloat s) state
               | None => state
               end in
  transition state previous CONFIRMED now reason.

Definition latch_confirmation_start (state : pydict) (spot es : float) (now : Z) : pydict :=
  dset "confirmation_started_at" (vtime now)
    (dset "confirmation_start_es" (VFloat es)
       (dset "confirmation_start_spot" (VFloat spot) state)).

Definition latch_breakout_inside_evidence (state : pydict) (spot : float) (now : Z) : pydict :=
  if negb (is_none (vget "breakout_inside_seen_at" state)) then state
  else match num_of (vget "level" state), int_of (vget "outside_direction" state) with
       | Some level, Some outside =>
           if fleb (fmul (f_of_Z outside) (fsub spot level)) (f_of_Z 0) then
             dset "breakout_inside_seen_spot" (VFloat spot)
               (dset "breakout_inside_seen_at" (vtime now) state)
           else state
       | _, _ => state
       end.

(** ** Promoting a proxy lifecycle when cash SPX recovers *)

Definition can_upgrade_rth_trigger_coordinate (state : pydict) (phase : LevelPhase)
    (o : LevelObservation) : bool :=
  let prior := vstr_or "trigger_coordinate_kind" "" state in
  negb (bool_decide (phase = FAR))
  && negb (phase_in phase TERMINAL_PHASES)
  && String.eqb (vstr_or "session_mode" "" state) "rth"
  && String.eqb (session_mode o) "rth"
  && (String.eqb prior "chain_implied_spx" || String.eqb prior "es_equivalent")
  && String.eqb (trigger_coordinate_kind o) "official_spx".

(** The price fields that were recorded in the ES-equivalent coordinate. *)
Definition BASIS_SHIFTED_FIELDS : list string :=
  ["start_spot"; "last_spot"; "confirmation_start_spot"; "breakout_inside_seen_spot";
   "breakout_extension_seen_spot"; "breakout_retest_seen_spot"].

Definition shift_field (basis : float) (state : pydict) (field : string) : pydict :=
  match num_of (vget field state) with
  | Some v => dset field (VFloat (fsub v basis)) state
  | None => state
  end.

Definition upgrade_rth_trigger_coordinate (state : pydict) (o : LevelObservation) (now : Z)
    : res pydict :=
  let prior_kind := vstr_or "trigger_coordinate_kind" "" state in
  let prior_basis := num_of (vget "trigger_basis_points" state) in
  let from_es := String.eqb prior_kind "es_equivalent" in
  let state :=
    match num_of (vget "spx_level" state) with
    | Some frozen => dset "level" (VFloat frozen) state
    | None => match from_es, prior_basis, num_of (vget "level" state) with
              | true, Some b, Some l => dset "level" (VFloat (fsub l b)) state
              | _, _, _ => state
              end
    end in
  let state := match from_es, prior_basis with
               | true, Some b => fold_left (shift_field b) BASIS_SHIFTED_FIELDS state
               | _, _ => state
               end in
  lv ← vindex "level" state; level ← py_float lv;
  Ok (dset "coordinate_upgraded_basis_points" (v_opt_float prior_basis)
        (dset "coordinate_upgraded_from" (VStr prior_kind)
           (dset "coordinate_upgraded_at" (vtime now)
              (dset "trigger_basis_points" (v_opt_float (trigger_basis_points o))
                 (dset "trigger_instrument_id" (VStr (str_or (trigger_instrument_id o) "index:SPX"))
                    (dset "trigger_coordinate_kind" (VStr "official_spx")
                       (dset "spx_level" (VFloat level) state))))))).

(** ** Degraded market data *)

Definition handle_bad_quality (state : pydict) (phase : LevelPhase) (o : LevelObservation)
    (settings : LevelDecisionSettings) : res LevelTransition :=
  now ← aware_utc (at_ o);
  let quality_reason := str_or (quality_reason o) "market_data_unavailable" in
  let state := dsetdefault "quality_degraded_at" (vtime now)
                 (dset "quality_reason" (VStr quality_reason)
                    (dset "quality_status" (VStr "degraded") state)) in
  if phase_in phase TERMINAL_PHASES || bool_decide (phase = FAR)
  then Ok (unchanged state phase now quality_reason)
  else if phase_in phase PHASE_TIMEOUT_PHASES then
    age ← phase_age state now;
    if fgtb age (phase_timeout_seconds settings)
    then transition state phase EXPIRED now "phase_timeout_during_data_degradation"
    else
      is_expired ← expired state now;
      if is_expired : bool then
        let remaining := fadd (fsub (phase_timeout_seconds settings) age) (f_of_Z 1) in
        td ← td_seconds remaining;
        expires ← dt_add now td;
        Ok (unchanged (dset "expires_at" (vtime expires) state) phase now quality_reason)
      else Ok (unchanged state phase now quality_reason)
  else
    is_expired ← expired state now;
    if is_expired : bool then
      transition state phase EXPIRED now
        (if bool_decide (phase = CONFIRMED) then "confirmed_ttl_elapsed_during_data_degradation"
         else "event_ttl_elapsed_during_data_degradation")
    else
      failed_at ← iso_utc (vget "quality_failed_at" state);
      match failed_at with
      | None => Ok (unchanged (dset "quality_failed_at" (vtime now) state) phase now quality_reason)
      | Some failed =>
          let state := if fgeb (total_seconds (now - failed)) (data_grace_seconds settings)
                       then dset "quality_status" (VStr "degraded") state else state in
          Ok (unchanged state phase now quality_reason)
      end.

(** ** The phases of a live observation *)

(** The TTL check: [inl] goes on with the state, [inr] ends the step. *)
Definition check_expiry (state : pydict) (phase : LevelPhase) (spot : float) (now : Z)
    (settings : LevelDecisionSettings) : res (pydict + LevelTransition) :=
  is_expired ← expired state now;
  if negb is_expired then Ok (inl state)
  else if bool_decide (phase = CONFIRMED) then
    inr <$> transition state phase EXPIRED now "confirmed_ttl_elapsed"
  else
    age ← phase_age state now;
    if phase_in phase PHASE_TIMEOUT_PHASES then
      if fleb age (phase_timeout_seconds settings) then
        let remaining := fadd (fsub (phase_timeout_seconds settings) age) (f_of_Z 1) in
        td ← td_seconds remaining;
        expires ← dt_add now td;
        Ok (inl (dset "expires_at" (vtime expires) state))
      else Ok (inl state)
    else
      match num_of (vget "level" state) with
      | Some level =>
          if fleb (fabs (fsub spot level)) (approach_points settings) then
            td ← td_seconds (event_ttl_seconds settings);
            expires ← dt_add now td;
            Ok (inr (unchanged (dset "expires_at" (vtime expires) state) phase now
                       "event_ttl_extended_near_level"))
          else inr <$> transition state phase EXPIRED now "event_ttl_elapsed"
      | None => inr <$> transition state phase EXPIRED now "event_ttl_elapsed"
      end.

Definition step_approaching (state : pydict) (spot es level : float) (now : Z)
    (settings : LevelDecisionSettings) : res LevelTransition :=
  if fleb (fabs (fsub spot level)) (test_points settings)
  then transition state APPROACHING TESTING now "entered_test_zone"
  else if fgtb (fabs (fsub spot level)) (approach_points settings)
  then Ok (to_far state APPROACHING now "moved_away_before_test" None)
  else Ok (update_extreme state APPROACHING spot es now "approach_continues").

Definition step_testing (state : pydict) (spot es outside_move inside_move : float) (now : Z)
    (settings : LevelDecisionSettings) : res LevelTransition :=
  if negb (is_none (vget "breakout_inside_seen_at" state))
     && fgeb outside_move (break_buffer_points settings) then
    let state := latch_confirmation_start
                   (dset "thesis" (VStr (thesis_value BREAKOUT)) state) spot es now in
    transition state TESTING BREAK_PENDING now "crossed_outside_buffer"
  else if fgeb outside_move (break_buffer_points settings) then
    Ok (update_extreme state TESTING spot es now "breakout_blocked_no_inside_crossing")
  else if fgeb inside_move (reject_points settings) then
    let state := latch_confirmation_start
                   (dset "thesis" (VStr (thesis_value FADE)) state) spot es now in
    transition state TESTING REJECT_PENDING now "rejected_from_level"
  else Ok (update_extreme state TESTING spot es now "testing_continues").

Definition latch_extension (state : pydict) (spot : float) (now : Z) : pydict :=
  dset "breakout_extension_seen_spot" (VFloat spot)
    (dset "breakout_extension_seen_at" (vtime now) state).

Definition extended (desired_move : float) (settings : LevelDecisionSettings) : bool :=
  fgtb desired_move (fmax (retest_points settings) (confirm_move_points settings)).

Definition step_pending (state : pydict) (phase : LevelPhase) (thesis : LevelThesis)
    (o : LevelObservation) (spot es desired_move : float) (desired_direction now : Z)
    (settings : LevelDecisionSettings) : res LevelTransition :=
  let threshold := if bool_decide (phase = BREAK_PENDING) then break_buffer_points settings
                   else reject_points settings in
  let target := if bool_decide (phase = BREAK_PENDING) then ACCEPTED else REJECTED in
  accepted ← (if negb (fgeb desired_move threshold) then Ok false
              else age ← phase_age state now;
                   if negb (fgeb age (accept_hold_seconds settings)) then Ok false
                   else es_confirms state o spot es desired_direction settings);
  if accepted : bool then
    let state := if bool_decide (thesis = BREAKOUT) && extended desired_move settings
                 then latch_extension state spot now else state in
    transition state phase target now "direction_accepted"
  else Ok (update_extreme state phase spot es now "pending_acceptance").

(** The sustained path of an accepted breakout that does not come back. *)
Definition step_sustained (state : pydict) (phase : LevelPhase) (o : LevelObservation)
    (spot es desired_move : float) (desired_direction now : Z)
    (settings : LevelDecisionSettings) : res LevelTransition :=
  if fltb desired_move (confirm_move_points settings) then
    Ok (update_extreme (dpop "confirm_started_at" state) phase spot es now
          "sustained_breakout_not_resolved")
  else
    started ← iso_utc (vget "confirm_started_at" state);
    match started with
    | None => Ok (update_extreme (dset "confirm_started_at" (vtime now) state) phase spot es now
                    "sustained_breakout_hold_started")
    | Some started =>
        confirmed ← (if negb (fgeb (total_seconds (now - started)) (confirm_hold_seconds settings))
                     then Ok false
                     else es_confirms state o spot es desired_direction settings);
        if confirmed : bool then
          let state := dset "breakout_sustained_seen_at" (vtime now)
                         (dset "breakout_confirmation_mode" (VStr "sustained") state) in
          confirmed_transition state phase o spot now desired_direction settings
            "sustained_breakout_confirmed"
        else Ok (update_extreme state phase spot es now "sustained_breakout_confirmation_hold")
    end.

Definition step_accepted (state : pydict) (phase : LevelPhase) (thesis : LevelThesis)
    (o : LevelObservation) (spot es level desired_move : float) (desired_direction now : Z)
    (settings : LevelDecisionSettings) : res LevelTransition :=
  if bool_decide (thesis = BREAKOUT) && is_none (vget "breakout_extension_seen_at" state) then
    if extended desired_move settings then
      Ok (update_extreme (latch_extension state spot now) phase spot es now
            "breakout_extension_latched_before_retest")
    else Ok (update_extreme state phase spot es now "waiting_for_breakout_extension_before_retest")
  else if fleb (fabs (fsub spot level)) (retest_points settings) then
    let state := dpop "confirm_started_at" state in
    let state := if bool_decide (thesis = BREAKOUT)
                 then dset "breakout_retest_seen_spot" (VFloat spot)
                        (dset "breakout_retest_seen_at" (vtime now) state)
                 else state in
    transition state phase RETEST now "returned_for_retest"
  else if bool_decide (thesis = BREAKOUT) then
    step_sustained state phase o spot es desired_move desired_direction now settings
  else
    confirmed ← (if negb (fgeb desired_move (confirm_move_points settings)) then Ok false
                 else age ← phase_age state now;
                      if negb (fgeb age (confirm_hold_seconds settings)) then Ok false
                      else es_confirms state o spot es desired_direction settings);
    if confirmed : bool then
      confirmed_transition state phase o spot now desired_direction settings
        "accepted_follow_through_confirmed"
    else Ok (update_extreme state phase spot es now "waiting_for_retest").

Definition step_retest (state : pydict) (thesis : LevelThesis) (o : LevelObservation)
    (spot es desired_move : float) (desired_direction now : Z)
    (settings : LevelDecisionSettings) : res LevelTransition :=
  if fltb desired_move (confirm_move_points settings) then
    Ok (update_extreme (dpop "confirm_started_at" state) RETEST spot es now "retest_not_resolved")
  else
    started ← iso_utc (vget "confirm_started_at" state);
    match started with
    | None => Ok (update_extreme (dset "confirm_started_at" (vtime now) state) RETEST spot es now
                    "confirmation_hold_started")
    | Some started =>
        confirmed ← (if negb (fgeb (total_seconds (now - started)) (confirm_hold_seconds settings))
                     then Ok false
                     else es_confirms state o spot es desired_direction settings);
        if confirmed : bool then
          let state := if bool_decide (thesis = BREAKOUT)
                       then dset "breakout_confirmation_mode" (VStr "retest") state else state in
          confirmed_transition state RETEST o spot now desired_direction settings "retest_confirmed"
        else Ok (update_extreme state RETEST spot es now "confirmation_hold")
    end.

(** The conclusion of an active lifecycle that is past its coordinate and
    structure checks. *)
Definition step_active (state : pydict) (phase : LevelPhase) (o : LevelObservation)
    (spot es : float) (now : Z) (settings : LevelDecisionSettings) : res LevelTransition :=
  lv ← vindex "level" state; level ← py_float lv;
  ov ← vindex "outside_direction" state; outside ← py_int ov;
  let outside_move := fmul (f_of_Z outside) (fsub spot level) in
  let inside_move := fopp outside_move in
  thesis ← thesis_of_value (vstr_or "thesis" (thesis_value T_NONE) state);
  let state := if phase_in phase [APPROACHING; TESTING]
               then latch_breakout_inside_evidence state spot now else state in
  match phase with
  | APPROACHING => step_approaching state spot es level now settings
  | TESTING => step_testing state spot es outside_move inside_move now settings
  | _ =>
      let desired_direction := if bool_decide (thesis = BREAKOUT) then outside else - outside in
      let desired_move := fmul (f_of_Z desired_direction) (fsub spot level) in
      if fleb desired_move (fopp (break_buffer_points settings))
      then transition state phase INVALIDATED now "crossed_invalidation"
      else
        timed_out ← (if bool_decide (phase = CONFIRMED) then Ok false
                     else phase_timed_out state now settings);
        if timed_out : bool then transition state phase EXPIRED now "phase_timeout"
        else match phase with
             | BREAK_PENDING | REJECT_PENDING =>
                 step_pending state phase thesis o spot es desired_move desired_direction now settings
             | ACCEPTED | REJECTED =>
                 step_accepted state phase thesis o spot es level desired_move desired_direction
                   now settings
             | RETEST =>
                 step_retest state thesis o spot es desired_move desired_direction now settings
             | _ => Ok (unchanged state phase now "no_transition")
             end
  end.

(** ** Arming *)

Definition event_id (session_date kind : string) (level : float) (moment : Z) : string :=
  let token := session_date +:+ "|" +:+ kind +:+ "|" +:+ f_fixed 4 level +:+ "|"
               +:+ isoformat moment in
  "level:" +:+ str_take 24 (sha256_hexdigest token).

(** [float(x or 0.0)]. *)
Definition float_or_zero (x : float) : float := if f_is_zero x then f_of_Z 0 else x.

(** Rows [(distance, kind, level)] of the armable levels near the spot. *)
Definition eligible_levels (o : LevelObservation) (spot : float)
    (settings : LevelDecisionSettings) (guard : option (string * float))
    : list (float * string * float) :=
  omap (λ kl, let distance := fabs (fsub spot kl.2) in
              if dhas kl.1 LEVEL_OUTSIDE_DIRECTION
                 && fleb distance (approach_points settings)
                 && negb (rearm_guard_blocks guard kl.1 kl.2 settings)
              then Some (distance, kl.1, kl.2) else None) (levels o).

(** [(row[0], row[1])] in tuple order. *)
Definition row_before (r r' : float * string * float) : bool :=
  if feqb r.1.1 r'.1.1 then String.ltb r.1.2 r'.1.2 else fltb r.1.1 r'.1.1.

Definition arm_nearest_level (o : LevelObservation) (observed es : float)
    (settings : LevelDecisionSettings) (reentry_generation : Z)
    (guard : option (string * float)) : res LevelTransition :=
  now ← aware_utc (at_ o);
  let spot := float_or_zero observed in
  match min_by row_before (eligible_levels o spot settings guard) with
  | None =>
      let state := dset "next_reentry_generation" (VInt reentry_generation)
                     (empty_level_state now) in
      Ok match guard with
         | Some g => {| previous_phase := FAR; current_phase := FAR;
                        lt_state := dset "rearm_guard" (guard_value g) state;
                        changed := false; lt_reason := "rearm_guard_active" |}
         | None => {| previous_phase := FAR; current_phase := FAR; lt_state := state;
                      changed := false; lt_reason := "no_near_level" |}
         end
  | Some (_, kind, level) =>
      let phase := if fleb (fabs (fsub spot level)) (test_points settings)
                   then TESTING else APPROACHING in
      outside ← dindex kind LEVEL_OUTSIDE_DIRECTION;
      ttl ← td_seconds (event_ttl_seconds settings);
      expires ← dt_add now ttl;
      let state : pydict :=
        [("schema_version", VInt 1);
         ("event_id", VStr (event_id (session_date o) kind level now));
         ("reentry_generation", VInt reentry_generation);
         ("phase", VStr (phase_value phase));
         ("thesis", VStr (thesis_value T_NONE));
         ("level_kind", VStr kind);
         ("level", VFloat level);
         ("spx_level", VFloat (default level (dget kind (default [] (spx_levels o)))));
         ("trigger_coordinate_kind", VStr (trigger_coordinate_kind o));
         ("trigger_instrument_id", v_opt_str (trigger_instrument_id o));
         ("trigger_basis_points", v_opt_float (trigger_basis_points o));
         ("outside_direction", VInt outside);
         ("started_at", vtime now);
         ("phase_at", vtime now);
         ("expires_at", vtime expires);
         ("start_spot", VFloat spot);
         ("start_es", VFloat (float_or_zero es));
         ("session_date", VStr (session_date o));
         ("session_mode", VStr (session_mode o));
         ("last_spot", VFloat spot);
         ("last_es", VFloat (float_or_zero es));
         ("updated_at", vtime now);
         ("transition_count", VInt 1);
         ("reason", VStr "nearest_level_armed")] in
      Ok {| previous_phase := FAR; current_phase := phase;
            lt_state := latch_breakout_inside_evidence state observed now;
            changed := true; lt_reason := "nearest_level_armed" |}
  end.

Definition handle_terminal_rearm (state : pydict) (phase : LevelPhase) (o : LevelObservation)
    (spot es : float) (settings : LevelDecisionSettings) : res LevelTransition :=
  now ← aware_utc (at_ o);
  age ← phase_age state now;
  if fltb age (terminal_rearm_seconds settings)
  then Ok (unchanged state phase now "terminal_hold")
  else
    let kind := vstr_or "level_kind" "" state in
    let current_level := dget kind (levels o) in
    let old_level := num_of (vget "level" state) in
    let known_kind := dhas kind LEVEL_OUTSIDE_DIRECTION in
    let kind_removed := known_kind && negb (dhas kind (levels o)) in
    let kind_migrated := match current_level, old_level with
                         | Some c, Some l =>
                             fgtb (fabs (fsub c l)) (structure_drift_points settings)
                         | _, _ => false
                         end in
    if kind_removed || kind_migrated then
      armed ← arm_nearest_level o spot es settings (generation state "reentry_generation" + 1) None;
      if negb (bool_decide (current_phase armed = FAR)) then
        Ok {| previous_phase := phase; current_phase := current_phase armed;
              lt_state := lt_state armed; changed := true;
              lt_reason := "stable_structure_promoted_rearm" |}
      else Ok (to_far state phase now "stable_structure_promoted" None)
    else
      let reset_band_points := fmax (retest_points settings) (reject_points settings) in
      let inside_band := match old_level with
                         | Some l => fleb (fabs (fsub spot l)) reset_band_points
                         | None => false
                         end in
      if inside_band then Ok (unchanged state phase now "terminal_waiting_for_level_exit")
      else
        let guard := match known_kind, old_level with
                     | true, Some l =>
                         if fgtb (fabs (fsub spot l)) (approach_points settings)
                         then None else Some (kind, l)
                     | _, _ => None
                     end in
        Ok (to_far state phase now "terminal_level_exited" guard).

(** ** The step *)

Definition QUALITY_KEYS : list string :=
  ["quality_failed_at"; "quality_degraded_at"; "quality_status"; "quality_reason"].

(** A live observation: quality is good and both prices are present. *)
Definition advance_live (state : pydict) (phase : LevelPhase) (o : LevelObservation)
    (spot es : float) (now : Z) (settings : LevelDecisionSettings) : res LevelTransition :=
  let state := fold_left (λ d k, dpop k d) QUALITY_KEYS state in
  state ← (if can_upgrade_rth_trigger_coordinate state phase o
           then upgrade_rth_trigger_coordinate state o now else Ok state);
  match breakout_evidence_issue state phase with
  | Some issue => transition state phase INVALIDATED now issue
  | None =>
      if bool_decide (phase = FAR) then
        if negb (arm_allowed o)
        then Ok (unchanged state phase now (str_or (arm_block_reason o) "new_arm_blocked"))
        else
          let guard := match rearm_guard state with
                       | Some g => if fgtb (fabs (fsub spot g.2)) (approach_points settings)
                                   then None else Some g
                       | None => None
                       end in
          arm_nearest_level o spot es settings (generation state "next_reentry_generation") guard
      else if phase_in phase TERMINAL_PHASES then
        if negb (arm_allowed o)
        then Ok (unchanged state phase now (str_or (arm_block_reason o) "new_arm_blocked"))
        else handle_terminal_rearm state phase o spot es settings
      else
        checked ← check_expiry state phase spot now settings;
        match checked with
        | inr t => Ok t
        | inl state =>
            if negb (String.eqb (vstr_or "trigger_coordinate_kind" "unknown" state)
                                (trigger_coordinate_kind o))
            then transition state phase INVALIDATED now "trigger_coordinate_changed"
            else
              drifted ← structure_drifted state o settings;
              if drifted : bool
              then transition state phase INVALIDATED now "structure_drift"
              else step_active state phase o spot es now settings
        end
  end.

Definition advance_level_decision (previous : option pydict) (o : LevelObservation)
    (settings : LevelDecisionSettings) : res LevelTransition :=
  now ← aware_utc (at_ o);
  let state := default (empty_level_state now) previous in
  let phase := phase_of state in
  if session_boundary_changed state phase o
  then Ok (to_far state phase now "session_boundary_reset" None)
  else match quality_ok o, spot o, es o with
       | true, Some spot, Some es => advance_live state phase o spot es now settings
       | _, _, _ => handle_bad_quality state phase o settings
       end.
