(* ===== verification/LevelFacts.v ===== *)
(** * Facts about the wall/flip decision machine

    For every operation of the machine: the phase edge it follows, the breakout
    evidence it keeps, the confirmations it produces, and the levels it arms. *)

From stdpp Require Import base list strings.
From Stdlib Require Import ZArith Lia SpecFloat.
From S2P Require Import Prelude PyStr PyFloat PyTime PyDateTime PyDict PyVal PyHash LevelDecision.

#[local] Open Scope Z_scope.

(** ** The phase graph *)

(** The edges of the lifecycle; every phase may also stay or be reset to FAR. *)
Definition legal_step (p q : LevelPhase) : bool :=
  bool_decide (p = q) || bool_decide (q = FAR) ||
  match p, q with
  | FAR, (APPROACHING | TESTING) => true
  | APPROACHING, (TESTING | INVALIDATED | EXPIRED) => true
  | TESTING, (BREAK_PENDING | REJECT_PENDING | INVALIDATED | EXPIRED) => true
  | BREAK_PENDING, (ACCEPTED | INVALIDATED | EXPIRED) => true
  | REJECT_PENDING, (REJECTED | INVALIDATED | EXPIRED) => true
  | (ACCEPTED | REJECTED), (RETEST | CONFIRMED | INVALIDATED | EXPIRED) => true
  | RETEST, (CONFIRMED | INVALIDATED | EXPIRED) => true
  | CONFIRMED, (INVALIDATED | EXPIRED) => true
  | (INVALIDATED | EXPIRED), (APPROACHING | TESTING) => true
  | _, _ => false
  end.

(** A step reports the phase it started from, stores the phase it reports,
    and follows an edge. *)
Record fate (p : LevelPhase) (t : LevelTransition) : Prop := {
  fate_previous : previous_phase t = p;
  fate_stored : phase_of (lt_state t) = current_phase t;
  fate_legal : legal_step p (current_phase t) = true;
}.

Lemma legal_refl p : legal_step p p = true.
Proof. unfold legal_step. by rewrite bool_decide_eq_true_2. Qed.

Lemma legal_far p : legal_step p FAR = true.
Proof. by destruct p. Qed.

Lemma phase_of_value_inv p : phase_of_value (phase_value p) = Some p.
Proof. by destruct p. Qed.

Lemma phase_of_dset_eq p d : phase_of (dset "phase" (VStr (phase_value p)) d) = p.
Proof.
  unfold phase_of. rewrite vstr_or_dset_eq. destruct p; reflexivity.
Qed.

Lemma phase_of_dset_ne k v d : k ≠ "phase" → phase_of (dset k v d) = phase_of d.
Proof. intros. unfold phase_of. by rewrite vstr_or_dset_ne. Qed.

Lemma vstr_or_dpop_ne k k' dflt d : k ≠ k' → vstr_or k dflt (dpop k' d) = vstr_or k dflt d.
Proof. intros. unfold vstr_or. by rewrite vget_dpop_ne. Qed.

Lemma phase_of_dpop_ne k d : k ≠ "phase" → phase_of (dpop k d) = phase_of d.
Proof. intros. unfold phase_of. by rewrite vstr_or_dpop_ne. Qed.

Lemma phase_of_empty now : phase_of (empty_level_state now) = FAR.
Proof. reflexivity. Qed.

(** Reduce the stored phase through updates of other fields. *)
Ltac phase_simpl :=
  repeat first
    [ rewrite phase_of_dset_eq | rewrite phase_of_dset_ne by done
    | rewrite phase_of_dpop_ne by done ].

Lemma unchanged_fate st p now r : phase_of st = p → fate p (unchanged st p now r).
Proof. intros Hp. split; cbn [unchanged update_extreme to_far previous_phase current_phase lt_state]; [done| |apply legal_refl]. by phase_simpl. Qed.

Lemma update_extreme_fate st p x y now r : phase_of st = p → fate p (update_extreme st p x y now r).
Proof. intros Hp. split; cbn [unchanged update_extreme to_far previous_phase current_phase lt_state]; [done| |apply legal_refl]. by phase_simpl. Qed.

Lemma transition_fate st p q now r t :
  legal_step p q = true → transition st p q now r = Ok t → fate p t.
Proof.
  unfold transition. intros Hl H. res_inv. split; cbn [unchanged update_extreme to_far previous_phase current_phase lt_state]; [done| |done]. by phase_simpl.
Qed.

Lemma to_far_fate st p now r g : fate p (to_far st p now r g).
Proof.
  split; cbn [unchanged update_extreme to_far previous_phase current_phase lt_state]; [done| |apply legal_far]. destruct g; phase_simpl; apply phase_of_empty.
Qed.

Lemma confirmed_transition_fate st p o x now d s r t :
  legal_step p CONFIRMED = true → confirmed_transition st p o x now d s r = Ok t → fate p t.
Proof. unfold confirmed_transition. intros Hl H. res_inv. by eapply transition_fate. Qed.

Create HintDb level discriminated.
#[export] Hint Resolve unchanged_fate update_extreme_fate transition_fate to_far_fate
  confirmed_transition_fate : level.

Lemma phase_of_latch_inside st x now :
  phase_of (latch_breakout_inside_evidence st x now) = phase_of st.
Proof. unfold latch_breakout_inside_evidence. repeat case_match; phase_simpl; done. Qed.

Lemma phase_of_latch_confirmation st x y now :
  phase_of (latch_confirmation_start st x y now) = phase_of st.
Proof. unfold latch_confirmation_start. by phase_simpl. Qed.

(** Close the branches of a step: each returns one of the shapes above. *)
Ltac fate_branches :=
  repeat first
    [ progress res_inv
    | match goal with
      | H : (if ?b then _ else _) = Ok _ |- _ => destruct b
      | H : (match ?b with _ => _ end) = Ok _ |- _ => destruct b
      end ];
  try (eapply transition_fate; [|eassumption]; reflexivity);
  try (eapply confirmed_transition_fate; [|eassumption]; reflexivity);
  try (apply to_far_fate);
  try (apply unchanged_fate; repeat case_match; by phase_simpl);
  try (apply update_extreme_fate; by phase_simpl).

Lemma step_approaching_fate st x y l now s t :
  phase_of st = APPROACHING → step_approaching st x y l now s = Ok t → fate APPROACHING t.
Proof. unfold step_approaching. intros Hp H. fate_branches. Qed.

Lemma step_testing_fate st x y a b now s t :
  phase_of st = TESTING → step_testing st x y a b now s = Ok t → fate TESTING t.
Proof. unfold step_testing. intros Hp H. fate_branches. Qed.

Lemma step_pending_fate st p th o x y m d now s t :
  p = BREAK_PENDING ∨ p = REJECT_PENDING →
  phase_of st = p → step_pending st p th o x y m d now s = Ok t → fate p t.
Proof. unfold step_pending, latch_extension. intros [-> | ->] Hp H; cbn in H; fate_branches. Qed.

Lemma step_sustained_fate st p o x y m d now s t :
  p = ACCEPTED ∨ p = REJECTED →
  phase_of st = p → step_sustained st p o x y m d now s = Ok t → fate p t.
Proof. unfold step_sustained. intros [-> | ->] Hp H; fate_branches. Qed.

Lemma step_accepted_fate st p th o x y l m d now s t :
  p = ACCEPTED ∨ p = REJECTED →
  phase_of st = p → step_accepted st p th o x y l m d now s = Ok t → fate p t.
Proof.
  unfold step_accepted, latch_extension.
  intros Hor Hp H. repeat match type of H with
    | (if ?b then step_sustained _ _ _ _ _ _ _ _ _ else _) = _ =>
        destruct b; [by eapply step_sustained_fate|]
    | (if ?b then _ else _) = _ => destruct b
    end; destruct Hor as [-> | ->]; fate_branches.
Qed.

Lemma step_retest_fate st th o x y m d now s t :
  phase_of st = RETEST → step_retest st th o x y m d now s = Ok t → fate RETEST t.
Proof. unfold step_retest. intros Hp H. fate_branches. Qed.

Definition active (p : LevelPhase) : bool := negb (phase_in p [FAR; INVALIDATED; EXPIRED]).

Lemma legal_end p q : active p = true → q = INVALIDATED ∨ q = EXPIRED → legal_step p q = true.
Proof. intros Hp [-> | ->]; by destruct p. Qed.

Lemma issue_active st p i : breakout_evidence_issue st p = Some i → active p = true.
Proof.
  unfold breakout_evidence_issue. intros H. split_if H; [done|]. by destruct p.
Qed.

Lemma step_active_fate st p o x y now s t :
  active p = true → phase_of st = p → step_active st p o x y now s = Ok t → fate p t.
Proof.
  unfold step_active. intros Ha Hp H. res_inv. cbv zeta in H.
  set (st' := if phase_in p [APPROACHING; TESTING] then _ else _) in H.
  assert (Hp' : phase_of st' = p).
  { subst st'. destruct (phase_in _ _); [by rewrite phase_of_latch_inside|done]. }
  clearbody st'.
  destruct p; try done;
    try (by eapply step_approaching_fate); try (by eapply step_testing_fate);
    (match type of H with (if ?b then _ else _) = _ => destruct b end;
     [by eapply transition_fate; [|eassumption]|]); apply res_bind_ok in H as (tmo & _ & H);
    (match type of H with (if ?b then _ else _) = _ => destruct b end;
     [by eapply transition_fate; [|eassumption]|]).
  - eapply step_pending_fate; [by left|done|eassumption].
  - eapply step_pending_fate; [by right|done|eassumption].
  - eapply step_accepted_fate; [by left|done|eassumption].
  - eapply step_accepted_fate; [by right|done|eassumption].
  - by eapply step_retest_fate.
  - injection H as <-. by apply unchanged_fate.
Qed.

Lemma check_expiry_fate st p x now s r :
  active p = true → phase_of st = p → check_expiry st p x now s = Ok r →
  match r with inl st' => phase_of st' = p | inr t => fate p t end.
Proof.
  unfold check_expiry. intros Ha Hp H.
  assert (Hend : legal_step p EXPIRED = true) by (apply legal_end; auto).
  repeat first
    [ progress res_inv
    | match goal with
      | H : fmap _ _ = Ok _ |- _ => apply res_fmap_ok in H as (? & H & ->)
      | H : (if ?b then _ else _) = Ok _ |- _ => destruct b
      | H : (match ?b with _ => _ end) = Ok _ |- _ => destruct b
      end ];
  try (by eapply transition_fate; [|eassumption]);
  try (apply unchanged_fate); by phase_simpl.
Qed.

Lemma handle_bad_quality_fate st p o s t :
  phase_of st = p → handle_bad_quality st p o s = Ok t → fate p t.
Proof.
  unfold handle_bad_quality, dsetdefault. intros Hp H. res_inv.
  set (st1 := if dhas _ _ then _ else _) in H.
  assert (H1 : phase_of st1 = p) by (subst st1; destruct (dhas _ _); by phase_simpl).
  clearbody st1.
  destruct (phase_in p TERMINAL_PHASES || bool_decide (p = FAR)) eqn:E.
  { injection H as <-. by apply unchanged_fate. }
  assert (Hend : legal_step p EXPIRED = true).
  { apply legal_end; [|auto]. by destruct p. }
  clear E. fate_branches; by eapply transition_fate; [|eassumption].
Qed.

Lemma fold_dpop_phase ks st :
  "phase" ∉ ks → phase_of (fold_left (λ d k, dpop k d) ks st) = phase_of st.
Proof.
  revert st. induction ks as [|k ks IH]; intros st Hk; cbn [fold_left]; [done|].
  apply not_elem_of_cons in Hk as [Hk Hks]. rewrite IH by done. by apply phase_of_dpop_ne.
Qed.

Lemma fold_shift_phase b fs st :
  "phase" ∉ fs → phase_of (fold_left (shift_field b) fs st) = phase_of st.
Proof.
  revert st. induction fs as [|f fs IH]; intros st Hf; cbn [fold_left]; [done|].
  apply not_elem_of_cons in Hf as [Hf Hfs]. rewrite IH by done. unfold shift_field.
  case_match; [by apply phase_of_dset_ne|done].
Qed.

Lemma upgrade_phase st o now st' :
  upgrade_rth_trigger_coordinate st o now = Ok st' → phase_of st' = phase_of st.
Proof.
  unfold upgrade_rth_trigger_coordinate. cbv zeta. intros H.
  set (st1 := match num_of (vget "spx_level" st) with Some _ => _ | None => _ end) in H.
  assert (H1 : phase_of st1 = phase_of st) by (subst st1; repeat case_match; by phase_simpl).
  clearbody st1. set (st2 := if String.eqb _ "es_equivalent" then _ else _) in H.
  assert (H2 : phase_of st2 = phase_of st1).
  { subst st2. repeat case_match; [|done..]. apply fold_shift_phase. not_in. }
  clearbody st2. res_inv. phase_simpl. by rewrite H2.
Qed.

(** ** The evidence of a breakout

    [same_evidence] identifies states that agree on the fields the evidence
    audit reads; every bookkeeping update stays inside its classes. *)

Definition EVIDENCE_KEYS : list string :=
  ["thesis"; "breakout_inside_seen_at"; "breakout_extension_seen_at"; "breakout_retest_seen_at";
   "breakout_sustained_seen_at"; "breakout_confirmation_mode"].

(** Agreement of two states on the keys [K]. *)
Definition agree (K : list string) (d d' : pydict) : Prop :=
  ∀ k, k ∈ K → vget k d = vget k d'.

#[global] Instance agree_equiv K : Equivalence (agree K).
Proof.
  split.
  - by intros d k.
  - intros d d' H k Hk. by rewrite H.
  - intros d d' d'' H H' k Hk. by rewrite H, H'.
Qed.

Lemma agree_dset K k v d : k ∉ K → agree K (dset k v d) d.
Proof. intros Hk k' Hk'. apply vget_dset_ne. by intros ->. Qed.

Lemma agree_dpop K k d : k ∉ K → agree K (dpop k d) d.
Proof. intros Hk k' Hk'. apply vget_dpop_ne. by intros ->. Qed.

Lemma fold_dpop_agree K ks st :
  Forall (λ k, k ∉ K) ks → agree K (fold_left (λ d k, dpop k d) ks st) st.
Proof.
  revert st. induction ks as [|k ks IH]; intros st Hk; cbn [fold_left]; [done|].
  inversion_clear Hk. rewrite IH by done. by apply agree_dpop.
Qed.

Lemma fold_shift_agree K b fs st :
  Forall (λ k, k ∉ K) fs → agree K (fold_left (shift_field b) fs st) st.
Proof.
  revert st. induction fs as [|f fs IH]; intros st Hf; cbn [fold_left]; [done|].
  inversion_clear Hf. rewrite IH by done. unfold shift_field.
  case_match; [by apply agree_dset|done].
Qed.

(** The keys that a coordinate upgrade writes. *)
Definition UPGRADE_WRITES : list string :=
  ["level"; "spx_level"; "trigger_coordinate_kind"; "trigger_instrument_id";
   "trigger_basis_points"; "coordinate_upgraded_at"; "coordinate_upgraded_from";
   "coordinate_upgraded_basis_points"] ++ BASIS_SHIFTED_FIELDS.

Lemma upgrade_agree K st o now st' :
  Forall (λ k, k ∉ K) UPGRADE_WRITES →
  upgrade_rth_trigger_coordinate st o now = Ok st' → agree K st' st.
Proof.
  unfold upgrade_rth_trigger_coordinate. cbv zeta. intros HK H.
  assert (Hk : ∀ k, k ∈ UPGRADE_WRITES → k ∉ K) by (by apply Forall_forall).
  set (st1 := match num_of (vget "spx_level" st) with Some _ => _ | None => _ end) in H.
  assert (H1 : agree K st1 st).
  { subst st1. repeat case_match; try done; apply agree_dset, Hk; in_list. }
  clearbody st1. set (st2 := if String.eqb _ "es_equivalent" then _ else _) in H.
  assert (H2 : agree K st2 st1).
  { subst st2. repeat case_match; [|done..]. apply fold_shift_agree.
    by apply Forall_app in HK as [_ HK]. }
  clearbody st2. res_inv. rewrite !agree_dset by (apply Hk; in_list). by rewrite H2.
Qed.

Definition same_evidence : pydict → pydict → Prop := agree EVIDENCE_KEYS.

#[global] Instance same_evidence_equiv : Equivalence same_evidence := agree_equiv _.

Lemma same_evidence_dset k v d : k ∉ EVIDENCE_KEYS → same_evidence (dset k v d) d.
Proof. apply agree_dset. Qed.

Lemma same_evidence_dpop k d : k ∉ EVIDENCE_KEYS → same_evidence (dpop k d) d.
Proof. apply agree_dpop. Qed.

(** What a state must carry in phase [p]. *)
Definition evidence (p : LevelPhase) (d : pydict) : Prop :=
  breakout_evidence_issue d p = None ∧
  match p with
  | BREAK_PENDING | ACCEPTED => vstr_or "thesis" "" d = "breakout"
  | REJECT_PENDING | REJECTED => vstr_or "thesis" "" d = "fade"
  | _ => True
  end.

#[global] Instance evidence_proper p : Proper (same_evidence ==> iff) (evidence p).
Proof.
  intros d d' H. unfold evidence, breakout_evidence_issue, vstr_or.
  by rewrite !(H "thesis"), (H "breakout_inside_seen_at"), (H "breakout_extension_seen_at"),
    (H "breakout_retest_seen_at"), (H "breakout_sustained_seen_at"),
    (H "breakout_confirmation_mode") by in_list.
Qed.

Definition seen (k : string) (d : pydict) : Prop := is_none (vget k d) = false.

Definition breakout_needs (p : LevelPhase) (d : pydict) : Prop :=
  match p with
  | BREAK_PENDING | ACCEPTED => seen "breakout_inside_seen_at" d
  | RETEST => seen "breakout_inside_seen_at" d ∧ seen "breakout_extension_seen_at" d
              ∧ seen "breakout_retest_seen_at" d
  | CONFIRMED =>
      seen "breakout_inside_seen_at" d ∧ seen "breakout_extension_seen_at" d
      ∧ (if String.eqb (vstr_or "breakout_confirmation_mode" "retest" d) "sustained"
         then seen "breakout_sustained_seen_at" d else seen "breakout_retest_seen_at" d)
  | _ => True
  end.

Lemma issue_none p d :
  breakout_evidence_issue d p = None ↔
  (vstr_or "thesis" "" d = "breakout" → breakout_needs p d).
Proof.
  unfold breakout_evidence_issue, seen.
  destruct (String.eqb_spec (vstr_or "thesis" "" d) (thesis_value BREAKOUT)) as [Ht|Ht];
    cbn [negb]; [|split; [intros _ ?; by exfalso|done]].
  rewrite Ht. unfold breakout_needs, seen.
  destruct p; cbn -[vget vstr_or]; try (split; [done|reflexivity]);
    repeat match goal with
    | |- context [is_none ?v] => destruct (is_none v); cbn [andb orb]
    | |- context [String.eqb ?a "sustained"] => destruct (String.eqb a "sustained")
    end; split; intros H; try (specialize (H eq_refl)); destruct_and?; try discriminate;
    try reflexivity; intros; split_and?; reflexivity.
Qed.

(** Phases that need no evidence. *)
Definition loose (p : LevelPhase) : bool := phase_in p [FAR; APPROACHING; TESTING; INVALIDATED; EXPIRED].

Lemma evidence_loose p d : loose p = true → evidence p d.
Proof. intros Hp. split; [apply issue_none|]; by destruct p. Qed.

Lemma evidence_fade p d :
  vstr_or "thesis" "" d = "fade" → (p = BREAK_PENDING ∨ p = ACCEPTED → False) → evidence p d.
Proof.
  intros Ht Hp. split; [apply issue_none; rewrite Ht; done|]. destruct p; naive_solver.
Qed.

Lemma evidence_not_breakout p d :
  vstr_or "thesis" "" d ≠ "breakout" → phase_in p [RETEST; CONFIRMED] = true → evidence p d.
Proof. intros Ht Hp. split; [by apply issue_none|by destruct p]. Qed.

Ltac same_ev :=
  repeat first
    [ rewrite same_evidence_dset by not_in
    | rewrite same_evidence_dpop by not_in ].

Lemma evidence_unchanged st p now r : evidence p st → evidence p (lt_state (unchanged st p now r)).
Proof. intros H. cbn [unchanged lt_state]. by same_ev. Qed.

Lemma evidence_update_extreme st p x y now r :
  evidence p st → evidence p (lt_state (update_extreme st p x y now r)).
Proof. intros H. cbn [update_extreme lt_state]. by same_ev. Qed.

Lemma transition_current st p q now r t :
  transition st p q now r = Ok t → current_phase t = q ∧ same_evidence (lt_state t) st.
Proof.
  unfold transition. intros H. res_inv. cbn [current_phase lt_state]. split; [done|]. by same_ev.
Qed.

Lemma evidence_transition st p q now r t :
  evidence q st → transition st p q now r = Ok t → evidence (current_phase t) (lt_state t).
Proof. intros He H. apply transition_current in H as [-> ->]. done. Qed.

Lemma evidence_to_far st p now r g : evidence FAR (lt_state (to_far st p now r g)).
Proof. by apply evidence_loose. Qed.

Lemma evidence_confirmed st p o x now d s r t :
  evidence CONFIRMED st → confirmed_transition st p o x now d s r = Ok t →
  evidence (current_phase t) (lt_state t).
Proof.
  unfold confirmed_transition. intros He H. res_inv.
  eapply evidence_transition; [|eassumption]. by case_match; same_ev.
Qed.

(** The parsed thesis and the audited thesis are the same field. *)
Lemma thesis_parse st th :
  thesis_of_value (vstr_or "thesis" "none" st) = Ok th →
  vstr_or "thesis" "" st = match th with BREAKOUT => "breakout" | FADE => "fade"
                           | T_NONE => vstr_or "thesis" "" st end
  ∧ (th = T_NONE → vstr_or "thesis" "" st ≠ "breakout" ∧ vstr_or "thesis" "" st ≠ "fade").
Proof.
  unfold vstr_or, v_or, thesis_of_value. destruct (truthy (vget "thesis" st)); [|by intros [= <-]].
  cbn [find]. set (v := py_str _). clearbody v.
  destruct (String.eqb_spec (thesis_value T_NONE) v) as [<-|]; [by intros [= <-]|].
  destruct (String.eqb_spec (thesis_value BREAKOUT) v) as [<-|]; [by intros [= <-]|].
  destruct (String.eqb_spec (thesis_value FADE) v) as [<-|]; [by intros [= <-]|]. done.
Qed.

Lemma seen_dset_eq k s d : seen k (dset k (VStr s) d).
Proof. unfold seen. by rewrite vget_dset_eq. Qed.

Lemma seen_dset_ne k k' v d : k ≠ k' → seen k (dset k' v d) ↔ seen k d.
Proof. intros. unfold seen. by rewrite vget_dset_ne. Qed.

Lemma seen_dpop_ne k k' d : k ≠ k' → seen k (dpop k' d) ↔ seen k d.
Proof. intros. unfold seen. by rewrite vget_dpop_ne. Qed.

Lemma seen_dset_vtime k k' u d : seen k d → seen k (dset k' (vtime u) d).
Proof. unfold seen. intros H. rewrite vget_dset. by destruct (String.eqb k k'). Qed.

Lemma seen_dset_vfloat k k' x d : seen k d → seen k (dset k' (VFloat x) d).
Proof. unfold seen. intros H. rewrite vget_dset. by destruct (String.eqb k k'). Qed.

#[export] Hint Resolve seen_dset_eq seen_dset_vtime seen_dset_vfloat : level.
#[export] Hint Resolve evidence_unchanged evidence_update_extreme evidence_to_far : level.

Lemma seen_dset_now k u d : seen k (dset k (vtime u) d).
Proof. unfold seen. by rewrite vget_dset_eq. Qed.
#[export] Hint Resolve seen_dset_now : level.

(** The outcome of a step keeps its evidence. *)
Definition keeps (t : LevelTransition) : Prop := evidence (current_phase t) (lt_state t).

Lemma keeps_loose st p q now r t : loose q = true → transition st p q now r = Ok t → keeps t.
Proof. intros Hq H. eapply evidence_transition; [|eassumption]. by apply evidence_loose. Qed.

Lemma keeps_stay st p now r : evidence p st → keeps (unchanged st p now r).
Proof. apply evidence_unchanged. Qed.
Lemma keeps_extreme st p x y now r : evidence p st → keeps (update_extreme st p x y now r).
Proof. apply evidence_update_extreme. Qed.
Lemma keeps_far st p now r g : keeps (to_far st p now r g).
Proof. apply evidence_to_far. Qed.

Lemma step_approaching_keeps st x y l now s t :
  step_approaching st x y l now s = Ok t → keeps t.
Proof.
  unfold step_approaching. intros H. split_if H; [by eapply keeps_loose; [|eassumption]|].
  split_if H; injection H as <-; [apply keeps_far|]. apply keeps_extreme. by apply evidence_loose.
Qed.

Lemma step_testing_keeps st x y a b now s t :
  step_testing st x y a b now s = Ok t → keeps t.
Proof.
  unfold step_testing. intros H. split_if H.
  { bool_to_prop. eapply evidence_transition; [|eassumption].
    unfold latch_confirmation_start. same_ev. split; [apply issue_none|].
    - intros _. cbn [breakout_needs]. rewrite seen_dset_ne by done. done.
    - by rewrite vstr_or_dset_eq. }
  split_if H; [injection H as <-; apply keeps_extreme; by apply evidence_loose|].
  split_if H; [|injection H as <-; apply keeps_extreme; by apply evidence_loose].
  eapply evidence_transition; [|eassumption]. unfold latch_confirmation_start. same_ev.
  apply evidence_fade; [by rewrite vstr_or_dset_eq|naive_solver].
Qed.

(** Latching the extension only adds evidence. *)
Lemma evidence_latch_extension st p x now : evidence p st → evidence p (latch_extension st x now).
Proof.
  unfold latch_extension. intros [Hi Hc]. same_ev. split.
  - apply issue_none. rewrite vstr_or_dset_ne by done. intros Ht.
    apply issue_none in Hi; [|done]. destruct p; try done; cbn [breakout_needs] in *;
      rewrite ?vstr_or_dset_ne by done; destruct_and?; split_and?;
      repeat case_match; eauto with level.
  - destruct p; try done; by rewrite vstr_or_dset_ne.
Qed.

Lemma step_pending_keeps st p th o x y m d now s t :
  p = BREAK_PENDING ∨ p = REJECT_PENDING → evidence p st →
  step_pending st p th o x y m d now s = Ok t → keeps t.
Proof.
  unfold step_pending. intros Hp He H. apply res_bind_ok in H as (b & _ & H). destruct b.
  - eapply evidence_transition; [|eassumption].
    assert (Hn : evidence (if bool_decide (p = BREAK_PENDING) then ACCEPTED else REJECTED) st).
    { destruct He as [Hi Hc]. rewrite issue_none in Hi.
      destruct Hp as [-> | ->]; cbn; (split; [apply issue_none; exact Hi|exact Hc]). }
    destruct (_ && _); [by apply evidence_latch_extension|done].
  - injection H as <-. by apply keeps_extreme.
Qed.

Lemma step_sustained_keeps st p o x y m d now s t :
  evidence p st → vstr_or "thesis" "" st = "breakout" → p = ACCEPTED →
  seen "breakout_extension_seen_at" st →
  step_sustained st p o x y m d now s = Ok t → keeps t.
Proof.
  unfold step_sustained. intros He Hth -> Hext H.
  split_if H; [injection H as <-; apply keeps_extreme; by same_ev|].
  apply res_bind_ok in H as (started & _ & H).
  destruct started; [|injection H as <-; apply keeps_extreme; by same_ev].
  apply res_bind_ok in H as (b & _ & H). destruct b; [|injection H as <-; by apply keeps_extreme].
  eapply evidence_confirmed; [|eassumption]. split; [apply issue_none|done].
  intros _. destruct He as [Hi _]. rewrite issue_none in Hi. specialize (Hi Hth).
  cbn [breakout_needs] in *.
  rewrite vstr_or_dset_ne, vstr_or_dset_eq, !seen_dset_ne by done. cbn.
  split_and!; [done|done|apply seen_dset_now].
Qed.

Lemma step_accepted_keeps st p th o x y l m d now s t :
  p = ACCEPTED ∨ p = REJECTED → evidence p st →
  thesis_of_value (vstr_or "thesis" "none" st) = Ok th →
  step_accepted st p th o x y l m d now s = Ok t → keeps t.
Proof.
  unfold step_accepted. intros Hp He Hth H. apply thesis_parse in Hth as [Hth Hnone].
  assert (Hbr : th = BREAKOUT → p = ACCEPTED ∧ seen "breakout_inside_seen_at" st).
  { intros ->. destruct He as [Hi Hc]. rewrite issue_none in Hi. specialize (Hi Hth).
    destruct Hp as [-> | ->]; [done|congruence]. }
  split_if H.
  { split_if H; injection H as <-; apply keeps_extreme; [by apply evidence_latch_extension|done]. }
  assert (Hext : th = BREAKOUT → seen "breakout_extension_seen_at" st).
  { intros ->. by rewrite bool_decide_eq_true_2 in * by done. }
  split_if H.
  { eapply evidence_transition; [|eassumption]. case_bool_decide as Hb.
    - destruct (Hbr Hb) as [_ Hin]. same_ev. split; [apply issue_none|done]. intros _.
      cbn [breakout_needs]. rewrite !(seen_dset_ne "breakout_inside_seen_at") by done.
      rewrite !(seen_dset_ne "breakout_extension_seen_at") by done. rewrite !seen_dpop_ne by done.
      split_and!; [done|by apply Hext|apply seen_dset_now].
    - same_ev. apply evidence_not_breakout; [|done]. intros Hc.
      destruct th; [by apply Hnone in Hc|done|congruence]. }
  split_if H.
  { apply bool_decide_eq_true_1 in Heqb1 as ->. destruct (Hbr eq_refl) as [-> _].
    eapply step_sustained_keeps; [done|done|done|by apply Hext|eassumption]. }
  apply res_bind_ok in H as (b & _ & H). destruct b; [|injection H as <-; by apply keeps_extreme].
  apply bool_decide_eq_false_1 in Heqb1.
  eapply evidence_confirmed; [|eassumption]. apply evidence_not_breakout; [|done].
  intros Hc. destruct th; [by apply Hnone in Hc|done|congruence].
Qed.

Lemma step_retest_keeps st th o x y m d now s t :
  evidence RETEST st → thesis_of_value (vstr_or "thesis" "none" st) = Ok th →
  step_retest st th o x y m d now s = Ok t → keeps t.
Proof.
  unfold step_retest. intros He Hth H. apply thesis_parse in Hth as [Hth Hnone].
  split_if H; [injection H as <-; apply keeps_extreme; by same_ev|].
  apply res_bind_ok in H as (started & _ & H).
  destruct started; [|injection H as <-; apply keeps_extreme; by same_ev].
  apply res_bind_ok in H as (b & _ & H). destruct b; [|injection H as <-; by apply keeps_extreme].
  eapply evidence_confirmed; [|eassumption]. case_bool_decide as Hb.
  - subst th. destruct He as [Hi _]. rewrite issue_none in Hi. specialize (Hi Hth).
    cbn [breakout_needs] in Hi. split; [apply issue_none|done]. intros _. cbn [breakout_needs].
    rewrite vstr_or_dset_eq, !seen_dset_ne by done. cbn. by rewrite seen_dset_ne.
  - apply evidence_not_breakout; [|done]. intros Hc. destruct th; [|done|congruence].
    by apply Hnone in Hc.
Qed.

Lemma step_active_keeps st p o x y now s t :
  active p = true → evidence p st → step_active st p o x y now s = Ok t → keeps t.
Proof.
  unfold step_active. intros Ha He H.
  apply res_bind_ok in H as (lv & _ & H). apply res_bind_ok in H as (l & _ & H).
  apply res_bind_ok in H as (ov & _ & H). apply res_bind_ok in H as (d & _ & H).
  cbv zeta in H. apply res_bind_ok in H as (th & Hth & H).
  set (st' := if phase_in p [APPROACHING; TESTING] then _ else _) in H.
  destruct p; try done; try (by eapply step_approaching_keeps); try (by eapply step_testing_keeps);
    (split_if H; [by eapply keeps_loose; [|eassumption]|]);
    apply res_bind_ok in H as (tmo & _ & H);
    (split_if H; [by eapply keeps_loose; [|eassumption]|]).
  - eapply step_pending_keeps; [by left|exact He|exact H].
  - eapply step_pending_keeps; [by right|exact He|exact H].
  - eapply step_accepted_keeps; [by left|exact He|exact Hth|exact H].
  - eapply step_accepted_keeps; [by right|exact He|exact Hth|exact H].
  - eapply step_retest_keeps; [exact He|exact Hth|exact H].
  - injection H as <-. by apply keeps_stay.
Qed.

Lemma check_expiry_keeps st p x now s r :
  evidence p st → check_expiry st p x now s = Ok r →
  match r with inl st' => evidence p st' | inr t => keeps t end.
Proof.
  unfold check_expiry. intros He H.
  repeat first
    [ progress res_inv
    | match goal with
      | H : fmap _ _ = Ok _ |- _ => apply res_fmap_ok in H as (? & H & ->)
      | H : (if ?b then _ else _) = Ok _ |- _ => destruct b
      | H : (match ?b with _ => _ end) = Ok _ |- _ => destruct b
      end ];
  try (by eapply keeps_loose; [|eassumption]);
  try (apply keeps_stay); by same_ev.
Qed.

Lemma handle_bad_quality_keeps st p o s t :
  evidence p st → handle_bad_quality st p o s = Ok t → keeps t.
Proof.
  unfold handle_bad_quality, dsetdefault. intros He H.
  apply res_bind_ok in H as (now & _ & H). cbv zeta in H.
  set (st1 := if dhas _ _ then _ else _) in H.
  assert (H1 : evidence p st1) by (subst st1; destruct (dhas _ _); by same_ev).
  clearbody st1.
  repeat first
    [ progress res_inv
    | match goal with
      | H : (if ?b then _ else _) = Ok _ |- _ => destruct b
      | H : (match ?b with _ => _ end) = Ok _ |- _ => destruct b
      end ];
  try (by eapply keeps_loose; [|eassumption]);
  apply keeps_stay; repeat case_match; by same_ev.
Qed.

Lemma fold_dpop_same ks st :
  Forall (λ k, k ∉ EVIDENCE_KEYS) ks → same_evidence (fold_left (λ d k, dpop k d) ks st) st.
Proof. apply fold_dpop_agree. Qed.

Lemma upgrade_same st o now st' :
  upgrade_rth_trigger_coordinate st o now = Ok st' → same_evidence st' st.
Proof. apply upgrade_agree. in_list. Qed.

(** ** What a confirmation needs *)

Definition CONFIRM_KEYS : list string :=
  ["level"; "outside_direction"; "thesis"; "confirmation_start_es"; "start_es";
   "confirmation_start_spot"; "start_spot"; "confirm_started_at"].

#[global] Instance es_confirms_proper :
  Proper (agree CONFIRM_KEYS ==> eq ==> eq ==> eq ==> eq ==> eq ==> eq) es_confirms.
Proof.
  intros d d' H o _ <- x _ <- y _ <- dir _ <- s _ <-. unfold es_confirms.
  by rewrite (H "confirmation_start_es"), (H "start_es"), (H "confirmation_start_spot"),
    (H "start_spot") by in_list.
Qed.

(** Whether a confirmation reads the hold timer: after a retest, and for a
    breakout; a fade that follows through reads the age of its phase. *)
Definition timed (p : LevelPhase) (th : LevelThesis) : bool :=
  bool_decide (p = RETEST) || bool_decide (th = BREAKOUT).

(** The move has lasted: since the hold was started, or since the phase was. *)
Definition held (p : LevelPhase) (th : LevelThesis) (st : pydict) (now : Z) (s : LevelDecisionSettings) : Prop :=
  if timed p th then
    ∃ since, iso_utc (vget "confirm_started_at" st) = Ok (Some since)
             ∧ fgeb (total_seconds (now - since)) (confirm_hold_seconds s) = true
  else ∃ age, phase_age st now = Ok age ∧ fgeb age (confirm_hold_seconds s) = true.

(** A confirmation of the move [m] in direction [d], produced from [st] in phase
    [p] under the thesis [th]. *)
Record confirmation (p : LevelPhase) (th : LevelThesis) (st : pydict) (o : LevelObservation)
    (x y m : float) (d now : Z) (s : LevelDecisionSettings) (t : LevelTransition) : Prop := {
  conf_move : fltb m (confirm_move_points s) = false;
  conf_es : es_confirms st o x y d s = Ok true;
  conf_held : held p th st now s;
  conf_keys : agree CONFIRM_KEYS (lt_state t) st;
  conf_at : vget "confirmed_at" (lt_state t) = vtime now;
  conf_expiry : ∃ ttl, td_seconds (event_ttl_seconds s) = Ok ttl
                       ∧ vget "expires_at" (lt_state t) = vtime (now + ttl);
}.

Ltac ag_simpl := repeat first [ rewrite agree_dset by not_in | rewrite agree_dpop by not_in ].

Lemma confirmed_transition_inv st p o x now d s r t :
  confirmed_transition st p o x now d s r = Ok t →
  agree CONFIRM_KEYS (lt_state t) st
  ∧ vget "confirmed_at" (lt_state t) = vtime now
  ∧ ∃ ttl, td_seconds (event_ttl_seconds s) = Ok ttl
           ∧ vget "expires_at" (lt_state t) = vtime (now + ttl).
Proof.
  unfold confirmed_transition, transition. intros H.
  apply res_bind_ok in H as (ttl & Httl & H). apply res_bind_ok in H as (expires & He & H).
  apply dt_add_range in He as [-> _]. apply res_bind_ok in H as (c & _ & H).
  injection H as <-. cbn [lt_state]. split_and!.
  - ag_simpl. case_match; by ag_simpl.
  - rewrite !vget_dset_ne by done. case_match; vget_simpl; done.
  - exists ttl. split; [done|]. rewrite !vget_dset_ne by done. case_match; vget_simpl; done.
Qed.

Lemma transition_not_confirmed st p q now r t :
  q ≠ CONFIRMED → transition st p q now r = Ok t → current_phase t ≠ CONFIRMED.
Proof. intros Hq H. by apply transition_current in H as [-> _]. Qed.

(** The last part of the three paths to a confirmation. *)
Lemma confirmation_intro st st' p q th o x y m d now s r t :
  fltb m (confirm_move_points s) = false →
  es_confirms st o x y d s = Ok true → held q th st now s → agree CONFIRM_KEYS st' st →
  confirmed_transition st' p o x now d s r = Ok t → confirmation q th st o x y m d now s t.
Proof.
  intros Hm He Hh Ha H. apply confirmed_transition_inv in H as (H1 & H2 & H3).
  split; try done. by rewrite H1.
Qed.

Lemma step_sustained_confirms st p o x y m d now s t :
  p ≠ CONFIRMED → step_sustained st p o x y m d now s = Ok t → current_phase t = CONFIRMED →
  confirmation p BREAKOUT st o x y m d now s t.
Proof.
  unfold step_sustained. intros Hp H Hc. split_if H; [by injection H as <-|].
  apply res_bind_ok in H as (started & Hs & H). destruct started as [since|]; [|by injection H as <-].
  apply res_bind_ok in H as (b & Hb & H). destruct b; [|by injection H as <-].
  split_if Hb; [done|]. bool_to_prop.
  eapply confirmation_intro; [done|done| | |exact H]; [|by ag_simpl].
  unfold held, timed. rewrite orb_true_r. eauto.
Qed.

Lemma fgeb_not_fltb x y : fgeb x y = true → fltb x y = false.
Proof. apply fleb_not_fltb. Qed.

Lemma step_accepted_confirms st p th o x y l m d now s t :
  p ≠ CONFIRMED → p ≠ RETEST → step_accepted st p th o x y l m d now s = Ok t →
  current_phase t = CONFIRMED → confirmation p th st o x y m d now s t.
Proof.
  unfold step_accepted. intros Hp Hr H Hc. split_if H; [split_if H; by injection H as <-|].
  split_if H. { by apply transition_not_confirmed in H. }
  split_if H; [apply bool_decide_eq_true_1 in Heqb1 as ->; by eapply step_sustained_confirms|].
  apply res_bind_ok in H as (b & Hb & H). destruct b; [|by injection H as <-].
  split_if Hb; [done|]. apply res_bind_ok in Hb as (age & Hage & Hb). split_if Hb; [done|].
  bool_to_prop. eapply confirmation_intro; [by apply fgeb_not_fltb|done| |reflexivity|exact H].
  unfold held, timed. assert (bool_decide (p = RETEST) = false) as -> by (by apply bool_decide_eq_false_2).
  assert (bool_decide (th = BREAKOUT) = false) as -> by (by apply bool_decide_eq_false_2). exists age. eauto.
Qed.

Lemma step_retest_confirms st th o x y m d now s t :
  step_retest st th o x y m d now s = Ok t → current_phase t = CONFIRMED →
  confirmation RETEST th st o x y m d now s t.
Proof.
  unfold step_retest. intros H Hc. split_if H; [by injection H as <-|].
  apply res_bind_ok in H as (started & Hs & H). destruct started as [since|]; [|by injection H as <-].
  apply res_bind_ok in H as (b & Hb & H). destruct b; [|by injection H as <-].
  split_if Hb; [done|]. bool_to_prop.
  eapply confirmation_intro; [done|done| | |exact H]; [exists since; eauto|].
  destruct (bool_decide _); by ag_simpl.
Qed.

Lemma step_approaching_not_confirmed st x y l now s t :
  step_approaching st x y l now s = Ok t → current_phase t ≠ CONFIRMED.
Proof.
  unfold step_approaching. intros H. split_if H; [by eapply transition_not_confirmed; [|eassumption]|].
  split_if H; by injection H as <-.
Qed.

Lemma step_testing_not_confirmed st x y a b now s t :
  step_testing st x y a b now s = Ok t → current_phase t ≠ CONFIRMED.
Proof.
  unfold step_testing. intros H. split_if H; [by eapply transition_not_confirmed; [|eassumption]|].
  split_if H; [by injection H as <-|].
  split_if H; [by eapply transition_not_confirmed; [|eassumption]|by injection H as <-].
Qed.

Lemma step_pending_not_confirmed st p th o x y m d now s t :
  p ≠ CONFIRMED → step_pending st p th o x y m d now s = Ok t → current_phase t ≠ CONFIRMED.
Proof.
  unfold step_pending. intros Hp H. apply res_bind_ok in H as (b & _ & H). destruct b.
  - eapply transition_not_confirmed; [|eassumption]. by destruct (bool_decide (p = _)).
  - by injection H as <-.
Qed.

(** The direction of a thesis at a level whose outside lies at [outside]. *)
Definition thesis_direction (th : LevelThesis) (outside : Z) : Z :=
  if bool_decide (th = BREAKOUT) then outside else - outside.

Lemma step_active_confirms st p o x y now s t :
  active p = true → p ≠ CONFIRMED → step_active st p o x y now s = Ok t →
  current_phase t = CONFIRMED →
  ∃ level outside th,
    py_float (vget "level" st) = Ok level ∧ py_int (vget "outside_direction" st) = Ok outside
    ∧ thesis_of_value (vstr_or "thesis" "none" st) = Ok th
    ∧ confirmation p th st o x y (fmul (f_of_Z (thesis_direction th outside)) (fsub x level))
        (thesis_direction th outside) now s t.
Proof.
  unfold step_active. intros Ha Hp H Hc.
  apply res_bind_ok in H as (lv & Hlv & H). apply res_bind_ok in H as (l & Hl & H).
  apply res_bind_ok in H as (ov & Hov & H). apply res_bind_ok in H as (d & Hd & H).
  cbv zeta in H. apply res_bind_ok in H as (th & Hth & H).
  apply vindex_vget in Hlv, Hov. exists l, d, th. rewrite Hlv, Hov. do 3 (split; [done|]).
  set (st' := if phase_in p [APPROACHING; TESTING] then _ else _) in H.
  destruct p; try done.
  - by apply step_approaching_not_confirmed in H.
  - by apply step_testing_not_confirmed in H.
  - split_if H; [by apply transition_not_confirmed in H|].
    apply res_bind_ok in H as (tmo & _ & H).
    split_if H; [by apply transition_not_confirmed in H|].
    by apply step_pending_not_confirmed in H.
  - split_if H; [by apply transition_not_confirmed in H|].
    apply res_bind_ok in H as (tmo & _ & H).
    split_if H; [by apply transition_not_confirmed in H|].
    by apply step_pending_not_confirmed in H.
  - split_if H; [by apply transition_not_confirmed in H|].
    apply res_bind_ok in H as (tmo & _ & H).
    split_if H; [by apply transition_not_confirmed in H|].
    by eapply step_accepted_confirms.
  - split_if H; [by apply transition_not_confirmed in H|].
    apply res_bind_ok in H as (tmo & _ & H).
    split_if H; [by apply transition_not_confirmed in H|].
    by eapply step_accepted_confirms.
  - split_if H; [by apply transition_not_confirmed in H|].
    apply res_bind_ok in H as (tmo & _ & H).
    split_if H; [by apply transition_not_confirmed in H|].
    by eapply step_retest_confirms.
Qed.

Lemma check_expiry_confirms st p x now s r :
  p ≠ CONFIRMED → check_expiry st p x now s = Ok r →
  match r with
  | inl st' => agree ("phase_at" :: CONFIRM_KEYS) st' st
  | inr t => current_phase t ≠ CONFIRMED
  end.
Proof.
  unfold check_expiry. intros Hp H.
  repeat first
    [ progress res_inv
    | match goal with
      | H : fmap _ _ = Ok _ |- _ => apply res_fmap_ok in H as (? & H & ->)
      | H : (if ?b then _ else _) = Ok _ |- _ => destruct b
      | H : (match ?b with _ => _ end) = Ok _ |- _ => destruct b
      end ];
  try (by eapply transition_not_confirmed; [|eassumption]); try done; by ag_simpl.
Qed.

Lemma handle_bad_quality_confirms st p o s t :
  p ≠ CONFIRMED → handle_bad_quality st p o s = Ok t → current_phase t ≠ CONFIRMED.
Proof.
  unfold handle_bad_quality. intros Hp H. 
  repeat first
    [ progress res_inv
    | match goal with
      | H : (if ?b then _ else _) = Ok _ |- _ => destruct b
      | H : (match ?b with _ => _ end) = Ok _ |- _ => destruct b
      end ];
  try (by eapply transition_not_confirmed; [|eassumption]); done.
Qed.

Abbreviation arm := arm_nearest_level.
Abbreviation advance := advance_level_decision.

Lemma arm_fate o x y s g gd t : arm o x y s g gd = Ok t → fate FAR t.
Proof.
  unfold arm_nearest_level. intros H. res_inv.
  destruct (min_by _ _) as [[[dist k] l]|].
  - res_inv. split; cbn [previous_phase current_phase lt_state]; [done| |].
    + rewrite phase_of_latch_inside. by destruct (fleb _ (test_points s)).
    + by destruct (fleb _ (test_points s)).
  - injection H as <-. by destruct gd.
Qed.

Lemma rearm_fate st p o x y s t :
  phase_in p TERMINAL_PHASES = true → phase_of st = p →
  handle_terminal_rearm st p o x y s = Ok t → fate p t.
Proof.
  unfold handle_terminal_rearm. intros Hp Hph H. res_inv.
  destruct (fltb _ _); [res_inv; by apply unchanged_fate|].
  split_if H.
  - res_inv. split_if H; res_inv; [|apply to_far_fate].
    match goal with E : arm _ _ _ _ _ _ = Ok _ |- _ => apply arm_fate in E as [_ Hs Hl] end.
    split; cbn [previous_phase current_phase lt_state]; [done|done|].
    destruct (phase_of st), (current_phase x2); done.
  - split_if H; res_inv; [by apply unchanged_fate|].
    apply to_far_fate.
Qed.

Lemma advance_live_fate st p o x y now s t :
  phase_of st = p → advance_live st p o x y now s = Ok t → fate p t.
Proof.
  unfold advance_live. intros Hp H.
  set (st0 := fold_left _ QUALITY_KEYS st) in H.
  assert (H0 : phase_of st0 = p) by (subst st0; rewrite fold_dpop_phase; [done|not_in]).
  clearbody st0. apply res_bind_ok in H as (st1 & E1 & H).
  assert (H1 : phase_of st1 = p).
  { destruct (can_upgrade_rth_trigger_coordinate _ _ _); [|res_inv; done].
    by rewrite (upgrade_phase _ _ _ _ E1). }
  clear E1. destruct (breakout_evidence_issue st1 p) as [issue|] eqn:Ei.
  { eapply transition_fate; [|eassumption]. apply legal_end; [|auto]. by eapply issue_active. }
  destruct (bool_decide (p = FAR)) eqn:Ef.
  { apply bool_decide_eq_true_1 in Ef as ->.
    destruct (negb (arm_allowed o)); [injection H as <-; by apply unchanged_fate|].
    by eapply arm_fate. }
  destruct (phase_in p TERMINAL_PHASES) eqn:Et.
  { destruct (negb (arm_allowed o)); [injection H as <-; by apply unchanged_fate|].
    by eapply rearm_fate. }
  assert (Ha : active p = true) by (by destruct p).
  apply res_bind_ok in H as (r & Er & H). apply check_expiry_fate in Er; [|done..].
  destruct r as [st2|t']; [|by injection H as <-].
  assert (Hend : legal_step p INVALIDATED = true) by (apply legal_end; auto).
  destruct (negb _); [by eapply transition_fate; [|eassumption]|].
  res_inv. match type of H with (if ?b then _ else _) = _ => destruct b end;
    [by eapply transition_fate; [|eassumption]|]. by eapply step_active_fate; [| |eassumption].
Qed.

Lemma advance_fate prev o s t :
  advance prev o s = Ok t → fate (match prev with Some d => phase_of d | None => FAR end) t.
Proof.
  unfold advance_level_decision. intros H. res_inv.
  match goal with H : context [default (empty_level_state ?n) prev] |- _ =>
    assert (Hp : phase_of (default (empty_level_state n) prev)
                 = match prev with Some d => phase_of d | None => FAR end) by (by destruct prev);
    set (st := default (empty_level_state n) prev) in *; rewrite <- Hp; clearbody st end.
  destruct (session_boundary_changed _ _ _); [res_inv; apply to_far_fate|].
  destruct (quality_ok o), (spot o), (es o);
    first [by eapply advance_live_fate | by eapply handle_bad_quality_fate].
Qed.

Lemma arm_keeps o x y s g gd t : arm o x y s g gd = Ok t → keeps t.
Proof.
  intros H. apply evidence_loose. unfold arm_nearest_level in H. res_inv.
  destruct (min_by _ _) as [[[dist k] l]|]; res_inv; cbn [current_phase].
  - by destruct (fleb _ (test_points s)).
  - by destruct gd.
Qed.

Lemma rearm_keeps st p o x y s t :
  phase_in p TERMINAL_PHASES = true → evidence p st →
  handle_terminal_rearm st p o x y s = Ok t → keeps t.
Proof.
  unfold handle_terminal_rearm. intros Hp He H.
  apply res_bind_ok in H as (now & _ & H). apply res_bind_ok in H as (age & _ & H).
  split_if H; [injection H as <-; by apply keeps_stay|]. cbv zeta in H.
  split_if H.
  - apply res_bind_ok in H as (armed & E & H). apply arm_keeps in E.
    split_if H; injection H as <-; [done|apply keeps_far].
  - split_if H; injection H as <-; [by apply keeps_stay|apply keeps_far].
Qed.

Lemma advance_keeps prev o s t :
  match prev with Some d => evidence (phase_of d) d | None => True end →
  advance prev o s = Ok t → keeps t.
Proof.
  unfold advance_level_decision. intros He H. apply res_bind_ok in H as (now & _ & H).
  cbv zeta in H. set (st := default _ prev) in H.
  assert (Hst : evidence (phase_of st) st).
  { subst st. destruct prev; [done|]. by apply evidence_loose. }
  clearbody st. split_if H; [injection H as <-; apply keeps_far|].
  destruct (quality_ok o), (spot o) as [x|], (es o) as [y|];
    try (by eapply handle_bad_quality_keeps).
  unfold advance_live in H. cbv zeta in H.
  set (st0 := fold_left _ QUALITY_KEYS st) in H. set (p := phase_of st) in *.
  assert (H0 : evidence p st0).
  { subst st0. rewrite fold_dpop_same; [done|in_list]. }
  clearbody st0 p. apply res_bind_ok in H as (st1 & E1 & H).
  assert (H1 : evidence p st1).
  { destruct (can_upgrade_rth_trigger_coordinate _ _ _).
    - by rewrite (upgrade_same _ _ _ _ E1).
    - by injection E1 as <-. }
  clear E1. destruct (breakout_evidence_issue st1 p); [by eapply keeps_loose; [|eassumption]|].
  split_if H.
  { split_if H; [injection H as <-; by apply keeps_stay|by eapply arm_keeps]. }
  split_if H.
  { split_if H; [injection H as <-; by apply keeps_stay|by eapply rearm_keeps]. }
  apply res_bind_ok in H as (r & Er & H). apply check_expiry_keeps in Er; [|done].
  destruct r as [st2|t']; [|by injection H as <-].
  split_if H; [by eapply keeps_loose; [|eassumption]|].
  apply res_bind_ok in H as (drift & _ & H).
  split_if H; [by eapply keeps_loose; [|eassumption]|].
  eapply step_active_keeps; [|exact Er|exact H]. by destruct p.
Qed.
Lemma arm_not_confirmed o x y s g gd t : arm o x y s g gd = Ok t → current_phase t ≠ CONFIRMED.
Proof. intros H. apply arm_fate in H as [_ _ Hl]. by destruct (current_phase t). Qed.

Lemma rearm_not_confirmed st p o x y s t :
  phase_in p TERMINAL_PHASES = true → phase_of st = p →
  handle_terminal_rearm st p o x y s = Ok t → current_phase t ≠ CONFIRMED.
Proof.
  intros Hp Hst H. eapply rearm_fate in H as [_ _ Hl]; [|done|done].
  destruct (current_phase t), p; done.
Qed.

(** The keys of the previous state that a confirmation reads unchanged. *)
Definition KEPT_KEYS : list string :=
  ["phase_at"; "confirm_started_at"; "outside_direction"; "thesis"; "start_es";
   "confirmation_start_es"].

Lemma advance_live_confirms d p o x y now s t :
  phase_of d = p → p ≠ CONFIRMED → advance_live d p o x y now s = Ok t →
  current_phase t = CONFIRMED →
  ∃ st level outside th,
    agree KEPT_KEYS st d
    ∧ py_float (vget "level" st) = Ok level ∧ py_int (vget "outside_direction" d) = Ok outside
    ∧ thesis_of_value (vstr_or "thesis" "none" d) = Ok th
    ∧ confirmation p th st o x y (fmul (f_of_Z (thesis_direction th outside)) (fsub x level))
        (thesis_direction th outside) now s t.
Proof.
  unfold advance_live. cbv zeta. intros Hp Hne H Hc.
  set (st0 := fold_left _ QUALITY_KEYS d) in H.
  assert (H0 : agree KEPT_KEYS st0 d) by (apply fold_dpop_agree; in_list).
  assert (Hp0 : phase_of st0 = p) by (subst st0; rewrite fold_dpop_phase; [done|not_in]).
  clearbody st0. apply res_bind_ok in H as (st1 & E1 & H).
  assert (H1 : agree KEPT_KEYS st1 d ∧ phase_of st1 = p).
  { destruct (can_upgrade_rth_trigger_coordinate _ _ _); [|by injection E1 as <-].
    rewrite (upgrade_phase _ _ _ _ E1). split; [|done].
    etransitivity; [|exact H0]. eapply upgrade_agree; [in_list|exact E1]. }
  clear E1. destruct H1 as [H1 Hp1].
  destruct (breakout_evidence_issue st1 p); [by apply transition_not_confirmed in H|].
  split_if H.
  { split_if H; [injection H as <-; cbn in Hc; congruence|by apply arm_not_confirmed in H]. }
  split_if H.
  { split_if H; [injection H as <-; cbn in Hc; congruence|].
    by eapply rearm_not_confirmed in H. }
  apply res_bind_ok in H as (r & Er & H). apply check_expiry_confirms in Er; [|done].
  destruct r as [st2|t']; [|by injection H as <-].
  split_if H; [by apply transition_not_confirmed in H|].
  apply res_bind_ok in H as (drift & _ & H).
  split_if H; [by apply transition_not_confirmed in H|].
  assert (H2 : agree KEPT_KEYS st2 d).
  { etransitivity; [|exact H1]. intros k Hk. apply Er. clear -Hk. revert k Hk.
    apply Forall_forall. in_list. }
  apply step_active_confirms in H as (l & dd & th & Hl & Hd & Hth & Hconf);
    [|by destruct p|done|done].
  exists st2, l, dd, th. rewrite <- (H2 "outside_direction") by in_list.
  unfold vstr_or. rewrite <- (H2 "thesis") by in_list. done.
Qed.

(** ** Arming *)

Lemma row_before_irrefl r : row_before r r = false.
Proof. unfold row_before. destruct (feqb _ _); [apply str_ltb_irrefl|apply fltb_irrefl]. Qed.

Lemma row_before_trans r1 r2 r3 :
  row_before r1 r2 = true → row_before r2 r3 = true → row_before r1 r3 = true.
Proof.
  unfold row_before. intros H1 H2.
  destruct (feqb r1.1.1 r2.1.1) eqn:E1, (feqb r2.1.1 r3.1.1) eqn:E2.
  - rewrite (feqb_trans _ _ _ E1 E2). by eapply str_ltb_trans.
  - pose proof (fltb_feqb_l _ _ _ E1 H2) as H. by rewrite (fltb_not_feqb _ _ H).
  - pose proof (fltb_feqb_r _ _ _ H1 E2) as H. by rewrite (fltb_not_feqb _ _ H).
  - pose proof (fltb_trans _ _ _ H1 H2) as H. by rewrite (fltb_not_feqb _ _ H).
Qed.

(** The level may be armed: a known wall or flip inside the approach radius
    that the re-arm guard does not block. *)
Definition armable (o : LevelObservation) (x : float) (s : LevelDecisionSettings)
    (g : option (string * float)) (kind : string) (level : float) : Prop :=
  (kind, level) ∈ levels o
  ∧ dhas kind LEVEL_OUTSIDE_DIRECTION = true
  ∧ fleb (fabs (fsub x level)) (approach_points s) = true
  ∧ rearm_guard_blocks g kind level s = false.

Lemma eligible_levels_elem o x s g d kind level :
  (d, kind, level) ∈ eligible_levels o x s g ↔
  d = fabs (fsub x level) ∧ armable o x s g kind level.
Proof.
  unfold eligible_levels, armable. rewrite list_elem_of_omap. split.
  - intros ([k l] & Hin & H). cbn [fst snd] in H. split_if H; [|done]. injection H as <- <- <-.
    bool_to_prop. done.
  - intros (-> & Hin & H1 & H2 & H3). exists (kind, level). split; [done|]. cbn [fst snd].
    by rewrite H1, H2, H3.
Qed.

(** What arming chooses. *)
Lemma arm_nearest_spec o x y s gen g t :
  arm_nearest_level o x y s gen g = Ok t →
  let x0 := float_or_zero x in
  (current_phase t = FAR ∧ ∀ kind level, ¬ armable o x0 s g kind level)
  ∨ ∃ kind level,
      armable o x0 s g kind level
      ∧ vget "level_kind" (lt_state t) = VStr kind ∧ vget "level" (lt_state t) = VFloat level
      ∧ generation (lt_state t) "reentry_generation" = Z.max 0 gen
      ∧ current_phase t = (if fleb (fabs (fsub x0 level)) (test_points s) then TESTING else APPROACHING)
      ∧ ∀ kind' level', armable o x0 s g kind' level' →
          fltb (fabs (fsub x0 level')) (fabs (fsub x0 level)) = false.
Proof.
  unfold arm_nearest_level, min_by. cbv zeta. intros H. apply res_bind_ok in H as (now & _ & H).
  set (x0 := float_or_zero x) in *. clearbody x0.
  destruct (max_by row_before _) as [[[d kind] level]|] eqn:E.
  - right. exists kind, level.
    apply max_by_best in E as [Hin Hbest]; [|apply row_before_irrefl|apply row_before_trans].
    apply eligible_levels_elem in Hin as [-> Ha]. split; [done|].
    apply res_bind_ok in H as (dd & _ & H). apply res_bind_ok in H as (ttl & _ & H).
    apply res_bind_ok in H as (ex & _ & H). injection H as <-. cbn [lt_state current_phase].
    split_and!.
    + unfold latch_breakout_inside_evidence. repeat case_match; by vget_simpl.
    + unfold latch_breakout_inside_evidence. repeat case_match; by vget_simpl.
    + unfold generation. set (st := latch_breakout_inside_evidence _ _ _).
      replace (vget "reentry_generation" st) with (VInt gen); [destruct (Z.leb_spec 0 gen); lia|].
      subst st. unfold latch_breakout_inside_evidence. repeat case_match; by vget_simpl.
    + done.
    + intros k' l' Ha'.
      assert (Hin' : (fabs (fsub x0 l'), k', l') ∈ eligible_levels o x0 s g)
        by (by apply eligible_levels_elem).
      apply Hbest in Hin'. unfold row_before in Hin'. cbn [fst snd] in Hin'.
      destruct (feqb _ _) eqn:Ef; [|done]. apply not_true_is_false. intros Hlt.
      by rewrite (fltb_not_feqb _ _ Hlt) in Ef.
  - left. split; [by destruct g; injection H as <-|]. intros kind level Ha.
    apply max_by_None in E.
    assert (Hin : (fabs (fsub x0 level), kind, level) ∈ eligible_levels o x0 s g)
      by (by apply eligible_levels_elem).
    rewrite E in Hin. by apply not_elem_of_nil in Hin.
Qed.

Lemma generation_nonneg d k : 0 ≤ generation d k.
Proof. unfold generation. destruct (vget k d); try lia. destruct (Z.leb_spec 0 z); lia. Qed.

(** The first arming of a kind that has no level keeps the caller's generation. *)
Lemma to_far_generation st p now r g :
  phase_in p TERMINAL_PHASES = true → r ≠ "session_boundary_reset" →
  generation (lt_state (to_far st p now r g)) "next_reentry_generation"
  = generation st "reentry_generation" + 1.
Proof.
  intros Hp Hr. pose proof (generation_nonneg st "reentry_generation").
  unfold to_far. cbn [lt_state]. rewrite Hp. apply String.eqb_neq in Hr as ->.
  unfold generation at 1. destruct g; vget_simpl; destruct (Z.leb_spec 0 (generation st "reentry_generation" + 1)); lia.
Qed.

(** Why a finished lifecycle may re-arm. *)
Definition rearm_reason (d : pydict) (o : LevelObservation) (x : float)
    (s : LevelDecisionSettings) : Prop :=
  let kind := vstr_or "level_kind" "" d in
  (dhas kind LEVEL_OUTSIDE_DIRECTION = true ∧ dget kind (levels o) = None)
  ∨ (∃ c l, dget kind (levels o) = Some c ∧ num_of (vget "level" d) = Some l
            ∧ fgtb (fabs (fsub c l)) (structure_drift_points s) = true)
  ∨ ∀ l, num_of (vget "level" d) = Some l →
         fleb (fabs (fsub x l)) (fmax (retest_points s) (reject_points s)) = false.

Lemma rearm_spec st p o x y s t now :
  handle_terminal_rearm st p o x y s = Ok t → aware_utc (at_ o) = Ok now →
  phase_in p TERMINAL_PHASES = true → phase_in (current_phase t) TERMINAL_PHASES = false →
  (∃ age, phase_age st now = Ok age ∧ fltb age (terminal_rearm_seconds s) = false)
  ∧ rearm_reason st o x s
  ∧ generation (lt_state t) (if bool_decide (current_phase t = FAR) then "next_reentry_generation"
                             else "reentry_generation")
    = generation st "reentry_generation" + 1.
Proof.
  unfold handle_terminal_rearm. intros H Hnow Hp Hnt. rewrite Hnow in H. cbn [mbind res_bind] in H.
  apply res_bind_ok in H as (age & Hage & H).
  split_if H. { injection H as <-. cbn in Hnt. congruence. }
  cbv zeta in H. split; [by exists age|]. unfold rearm_reason.
  set (kind := vstr_or "level_kind" "" st) in *. split_if H.
  - split.
    { unfold dhas in Heqb0 at 2. destruct (dget kind (levels o)) as [c|] eqn:Ec.
      - rewrite andb_false_r in Heqb0. cbn [orb] in Heqb0.
        destruct (num_of (vget "level" st)) as [l|]; [|done]. right. left. eauto.
      - left. rewrite orb_false_r in Heqb0. by bool_to_prop. }
    apply res_bind_ok in H as (armed & Ha & H). pose proof (generation_nonneg st "reentry_generation").
    split_if H; injection H as <-.
    + cbn [current_phase lt_state]. apply negb_true_iff in Heqb1. rewrite Heqb1.
      apply arm_nearest_spec in Ha as [[Hf _]|(k & l & _ & _ & _ & Hg & _)].
      * rewrite Hf in Heqb1. by rewrite bool_decide_eq_true_2 in Heqb1.
      * rewrite Hg. lia.
    + by apply to_far_generation.
  - split_if H; injection H as <-; [cbn in Hnt; congruence|]. split.
    + right. right. intros l Hl. by rewrite Hl in Heqb1.
    + by apply to_far_generation.
Qed.

Definition REARM_KEYS : list string := ["phase_at"; "level_kind"; "level"; "reentry_generation"].

(** A live observation of a finished lifecycle goes straight to re-arming. *)
Lemma live_terminal d p o x y now s t :
  advance_live d p o x y now s = Ok t →
  phase_in p TERMINAL_PHASES = true → phase_in (current_phase t) TERMINAL_PHASES = false →
  arm_allowed o = true
  ∧ ∃ st, agree REARM_KEYS st d ∧ handle_terminal_rearm st p o x y s = Ok t.
Proof.
  unfold advance_live. cbv zeta. intros H Hp Hnt.
  set (st0 := fold_left _ QUALITY_KEYS d) in H.
  assert (H0 : agree REARM_KEYS st0 d) by (apply fold_dpop_agree; in_list). clearbody st0.
  unfold can_upgrade_rth_trigger_coordinate in H. rewrite Hp in H.
  rewrite andb_false_r in H. cbn [negb andb mbind res_bind] in H.
  destruct (breakout_evidence_issue st0 p) eqn:Ei.
  { apply issue_active in Ei. by destruct p. }
  split_if H. { apply bool_decide_eq_true_1 in Heqb. by subst p. }
  destruct (arm_allowed o); cbn [negb] in H; [|injection H as <-; cbn in Hnt; congruence].
  split; [done|]. by exists st0.
Qed.
