(* ===== verification/LevelProps.v ===== *)
(** * Properties of the wall/flip decision machine

    The legal phase graph, the run of a machine and what its record says about
    the observations it has seen, what a confirmation needs, the evidence a
    breakout has, how a level is armed, what degraded data may conclude, and how
    terminal lifecycles re-arm. *)

From stdpp Require Import base list strings.
From Stdlib Require Import ZArith Lia SpecFloat.
From S2P Require Import Prelude PyStr PyFloat PyTime PyDateTime PyDict PyVal LevelDecision LevelFacts.

#[local] Open Scope Z_scope.

(** ** The history of a run

    The moments of the machine from the empty state, the newest first: each
    has the settings of its session, the observation, and the state after it. *)

Record Moment := { m_settings : LevelDecisionSettings; m_obs : LevelObservation; m_state : pydict }.

Definition moment_of (s : LevelDecisionSettings) (o : LevelObservation) (t : LevelTransition) : Moment :=
  {| m_settings := s; m_obs := o; m_state := lt_state t |}.

Inductive level_run : list Moment → Prop :=
  | run_first s o t :
      advance_level_decision None o s = Ok t → level_run [moment_of s o t]
  | run_next s o t m h :
      level_run (m :: h) → advance_level_decision (Some (m_state m)) o s = Ok t →
      level_run (moment_of s o t :: m :: h).

(** The observation is live with spot [x]: of good quality, with both prices. *)
Definition live (o : LevelObservation) (x : float) : Prop :=
  quality_ok o = true ∧ spot o = Some x ∧ is_Some (es o).

(** How far [x] lies from the level of a state, in the direction of its thesis. *)
Definition move_in (d : pydict) (x : float) : res float :=
  level ← py_float (vget "level" d); outside ← py_int (vget "outside_direction" d);
  th ← thesis_of_value (vstr_or "thesis" "none" d);
  Ok (fmul (f_of_Z (thesis_direction th outside)) (fsub x level)).

(** What an observation shows at the level of its moment: the spot inside the
    level or on it; past the level by more than the retest and the confirmation
    distance; back at the level; away from it by the confirmation distance. *)
Definition inside_at (m : Moment) : Prop :=
  ∃ x level outside, live (m_obs m) x ∧ num_of (vget "level" (m_state m)) = Some level
    ∧ int_of (vget "outside_direction" (m_state m)) = Some outside
    ∧ fleb (fmul (f_of_Z outside) (fsub x level)) (f_of_Z 0) = true.
Definition extended_at (m : Moment) : Prop :=
  ∃ x v, live (m_obs m) x ∧ move_in (m_state m) x = Ok v
    ∧ fgtb v (fmax (retest_points (m_settings m)) (confirm_move_points (m_settings m))) = true.
Definition retest_at (m : Moment) : Prop :=
  ∃ x level, live (m_obs m) x ∧ py_float (vget "level" (m_state m)) = Ok level
    ∧ fleb (fabs (fsub x level)) (retest_points (m_settings m)) = true.
Definition moved_at (m : Moment) : Prop :=
  ∃ x v, live (m_obs m) x ∧ move_in (m_state m) x = Ok v
    ∧ fltb v (confirm_move_points (m_settings m)) = false.

(** If the observation is live, it shows the confirmation distance. *)
Definition holding_at (m : Moment) : Prop := ∀ x, live (m_obs m) x → moved_at m.

Definition phase_at (m : Moment) : LevelPhase := phase_of (m_state m).
Definition event_at (m : Moment) : pyval := vget "event_id" (m_state m).

(** Among the moments of the lifecycle [e], up to the newest of [h], one has
    [C], with [R] before it. *)
Definition found (e : pyval) (C : Moment → Prop) (R : list Moment → Prop) (h : list Moment) : Prop :=
  ∃ h1 m h2, h = h1 ++ m :: h2 ∧ Forall (λ m', event_at m' = e) (h1 ++ [m]) ∧ C m ∧ R h2.

(** The path of a breakout: inside, then extended, then back or holding on. *)
Definition inside_seen (e : pyval) : list Moment → Prop := found e inside_at (λ _, True).
Definition extension_seen (e : pyval) : list Moment → Prop := found e extended_at (inside_seen e).
Definition retest_seen (e : pyval) : list Moment → Prop := found e retest_at (extension_seen e).
Definition sustained_seen (e : pyval) : list Moment → Prop := found e moved_at (extension_seen e).

(** The run has been in the phase of its newest moment since [u]. *)
Definition phase_since (u : Z) (h : list Moment) : Prop :=
  ∃ h1 m h2, h = h1 ++ m :: h2 ∧ aware_utc (at_ (m_obs m)) = Ok u
    ∧ Forall (λ m', phase_at m' = phase_at m) h1.
(** The first of these moments showed the confirmation distance, and so did
    every live one since. *)
Definition held_since (u : Z) (h : list Moment) : Prop :=
  ∃ h1 m h2, h = h1 ++ m :: h2 ∧ aware_utc (at_ (m_obs m)) = Ok u ∧ moved_at m
    ∧ Forall (λ m', phase_at m' = phase_at m ∧ holding_at m') h1.

Lemma found_later e C R m h : event_at m = e → found e C R h → found e C R (m :: h).
Proof.
  intros He (h1 & m1 & h2 & -> & Hl & Hc & Hr). exists (m :: h1), m1, h2.
  split; [done|]. split; [by constructor|done].
Qed.

Lemma found_now e C (R : list Moment → Prop) m h : event_at m = e → C m → R h → found e C R (m :: h).
Proof. intros He Hc Hr. exists [], m, h. split; [done|]. split; [|done]. by constructor. Qed.

Lemma phase_since_later u m m' h :
  phase_at m = phase_at m' → phase_since u (m' :: h) → phase_since u (m :: m' :: h).
Proof.
  intros Hp (h1 & m1 & h2 & E & Hu & Hl). exists (m :: h1), m1, h2. rewrite E.
  split; [done|]. split; [done|]. constructor; [|done]. rewrite Hp.
  destruct h1; injection E as -> ->; [done|]. by inversion Hl.
Qed.

Lemma held_since_later u m m' h :
  phase_at m = phase_at m' → holding_at m → held_since u (m' :: h) → held_since u (m :: m' :: h).
Proof.
  intros Hp Hm (h1 & m1 & h2 & E & Hu & Hv & Hl). exists (m :: h1), m1, h2. rewrite E.
  split; [done|]. split; [done|]. split; [done|]. constructor; [|done]. split; [|done]. rewrite Hp.
  destruct h1; injection E as -> ->; [done|]. by inversion_clear Hl as [|? ? [??] ?].
Qed.

(** ** What one step does to the record *)

Abbreviation TIMER := "confirm_started_at".
Definition resolved (p : LevelPhase) : bool := phase_in p [CONFIRMED; INVALIDATED; EXPIRED].

(** Where the hold timer can be running. *)
Definition timer_phase (d : pydict) : Prop :=
  phase_of d = RETEST ∨ phase_of d = ACCEPTED ∧ seen "breakout_extension_seen_at" d.
Definition timer_ok (d : pydict) : Prop :=
  vget TIMER d = VNone ∨ resolved (phase_of d) = true ∨ timer_phase d.

(** A key keeps its value, or is set to the time of this step, which has [C]. *)
Definition kept_or (k : string) (C : Prop) (d d' : pydict) (now : Z) : Prop :=
  vget k d' = vget k d ∨ vget k d' = vtime now ∧ C.

(** The evidence that a step from [d] adds at the moment [m]. *)
Record evidence_fate (d : pydict) (m : Moment) (now : Z) : Prop := {
  ef_inside : kept_or "breakout_inside_seen_at" (inside_at m) d (m_state m) now;
  ef_extension : kept_or "breakout_extension_seen_at"
    (extended_at m ∧ seen "breakout_inside_seen_at" d) d (m_state m) now;
  ef_retest : kept_or "breakout_retest_seen_at"
    (retest_at m ∧ seen "breakout_extension_seen_at" d) d (m_state m) now;
  ef_sustained : kept_or "breakout_sustained_seen_at"
    (moved_at m ∧ seen "breakout_extension_seen_at" d) d (m_state m) now;
}.

(** The hold timer: off, of no more use, or running on or started now, with the
    distance kept. *)
Definition timer_fate (d : pydict) (m : Moment) (now : Z) : Prop :=
  vget TIMER (m_state m) = VNone ∨ resolved (phase_at m) = true
  ∨ timer_phase (m_state m) ∧ phase_at m = phase_of d ∧ holding_at m
    ∧ kept_or TIMER (moved_at m) d (m_state m) now.

Definition LATER_EVIDENCE : list string :=
  ["breakout_extension_seen_at"; "breakout_retest_seen_at"; "breakout_sustained_seen_at"].

Inductive step_fate (d : pydict) (m : Moment) (now : Z) : Prop :=
  | fate_fresh :
      phase_at m = FAR ∨ vget "phase_at" (m_state m) = vtime now →
      (∀ k, k ∈ TIMER :: LATER_EVIDENCE → vget k (m_state m) = VNone) →
      vget "breakout_inside_seen_at" (m_state m) = VNone
      ∨ vget "breakout_inside_seen_at" (m_state m) = vtime now ∧ inside_at m →
      step_fate d m now
  | fate_same :
      event_at m = vget "event_id" d →
      vget "phase_at" (m_state m) = vget "phase_at" d ∧ phase_at m = phase_of d
      ∨ vget "phase_at" (m_state m) = vtime now →
      evidence_fate d m now → timer_fate d m now → step_fate d m now.

(** The keys that the moment's facts read, and those that the record is of. *)
Definition SHOWN_KEYS : list string := ["level"; "outside_direction"; "thesis"].
Definition TRACKED : list string :=
  ["event_id"; "outside_direction"; "phase_at"; TIMER] ++ EVIDENCE_KEYS.

Lemma agree_sub K K' d d' : Forall (λ k, k ∈ K) K' → agree K d d' → agree K' d d'.
Proof. intros HK H k Hk. apply H. by eapply Forall_forall in HK. Qed.

Section step.
Context (s : LevelDecisionSettings) (o : LevelObservation) (now : Z).

Local Abbreviation mk d := {| m_settings := s; m_obs := o; m_state := d |}.

#[local] Instance move_in_proper : Proper (agree SHOWN_KEYS ==> eq ==> eq) move_in.
Proof.
  intros d d' H x _ <-. unfold move_in, vstr_or.
  by rewrite (H "level"), (H "outside_direction"), (H "thesis") by in_list.
Qed.

#[local] Instance seen_proper k : Proper (agree [k] ==> iff) (seen k).
Proof. intros d d' H. unfold seen. by rewrite (H k) by (by left). Qed.

(** The same facts hold of states that agree on what is shown. *)
Lemma shown_same d d' :
  agree SHOWN_KEYS d d' →
  (inside_at (mk d) ↔ inside_at (mk d')) ∧ (extended_at (mk d) ↔ extended_at (mk d'))
  ∧ (retest_at (mk d) ↔ retest_at (mk d')) ∧ (moved_at (mk d) ↔ moved_at (mk d'))
  ∧ (holding_at (mk d) ↔ holding_at (mk d')).
Proof.
  intros H. assert (Hm : moved_at (mk d) ↔ moved_at (mk d')).
  { unfold moved_at. cbn [m_state m_obs m_settings]. by setoid_rewrite H. }
  unfold inside_at, extended_at, retest_at, holding_at. cbn [m_state m_obs m_settings].
  rewrite (H "level"), (H "outside_direction") by in_list.
  split_and!; try done; try (by setoid_rewrite H). by setoid_rewrite Hm.
Qed.

Lemma evidence_fate_same d d1 e e1 :
  agree EVIDENCE_KEYS d d1 → agree (SHOWN_KEYS ++ EVIDENCE_KEYS) e e1 →
  evidence_fate d (mk e) now → evidence_fate d1 (mk e1) now.
Proof.
  intros Hd He [H1 H2 H3 H4].
  assert (Hs : agree SHOWN_KEYS e e1) by (eapply agree_sub; [|exact He]; in_list).
  apply shown_same in Hs as (S1 & S2 & S3 & S4 & _).
  assert (Hi : seen "breakout_inside_seen_at" d ↔ seen "breakout_inside_seen_at" d1)
    by (apply seen_proper; eapply agree_sub; [|exact Hd]; in_list).
  assert (Hx : seen "breakout_extension_seen_at" d ↔ seen "breakout_extension_seen_at" d1)
    by (apply seen_proper; eapply agree_sub; [|exact Hd]; in_list).
  unfold kept_or in *. cbn [m_state] in *.
  split; unfold kept_or; cbn [m_state];
    match goal with |- vget ?k _ = _ ∨ _ => rewrite <- (He k), <- (Hd k) by in_list end; tauto.
Qed.

Lemma timer_phase_same d d' :
  agree TRACKED d d' → phase_of d = phase_of d' → timer_phase d → timer_phase d'.
Proof.
  unfold timer_phase. intros H ->. by rewrite (seen_proper _ d d') by (eapply agree_sub; [|exact H]; in_list).
Qed.

Lemma step_fate_same d d1 e e1 :
  agree TRACKED d d1 → phase_of d = phase_of d1 →
  agree ("level" :: TRACKED) e e1 → phase_of e = phase_of e1 →
  step_fate d (mk e) now → step_fate d1 (mk e1) now.
Proof.
  intros Hd Hpd He Hpe H.
  assert (Hs : agree SHOWN_KEYS e e1) by (eapply agree_sub; [|exact He]; in_list).
  apply shown_same in Hs as (S1 & _ & _ & S4 & S5).
  destruct H as [H1 H2 H3|H1 H2 H3 H4]; unfold phase_at, event_at in *; cbn [m_state] in *.
  - apply fate_fresh; unfold phase_at; cbn [m_state].
    + by rewrite <- Hpe, <- (He "phase_at") by in_list.
    + intros k Hk. rewrite <- (He k); [by apply H2|]. clear -Hk. revert k Hk. apply Forall_forall. in_list.
    + rewrite <- (He "breakout_inside_seen_at") by in_list. tauto.
  - apply fate_same; unfold phase_at, event_at; cbn [m_state].
    + by rewrite <- (He "event_id"), <- (Hd "event_id") by in_list.
    + by rewrite <- (He "phase_at"), <- (Hd "phase_at"), <- Hpe, <- Hpd by in_list.
    + eapply evidence_fate_same; [| |exact H3]; (eapply agree_sub; [|eassumption]; in_list).
    + unfold timer_fate, kept_or, phase_at in *. cbn [m_state] in *.
      rewrite <- (He TIMER), <- (Hd TIMER), <- Hpe, <- Hpd by in_list.
      destruct H4 as [H4|[H4|(H4 & H5 & H6 & H7)]]; [auto|auto|]. right. right.
      split; [|tauto]. eapply timer_phase_same; [|exact Hpe|exact H4]. eapply agree_sub; [|exact He]. in_list.
Qed.
End step.

(** Look the literal keys up through the updates of an operation. *)
Ltac keys := repeat first [ rewrite agree_dset by not_in | rewrite agree_dpop by not_in ]; try done.

Section operations.
Context (s : LevelDecisionSettings) (o : LevelObservation) (x : float) (now : Z).
Context (Hlive : live o x).

Local Abbreviation mk d := {| m_settings := s; m_obs := o; m_state := d |}.

(** A working state that has gained evidence of the step and nothing else. *)
Record ready (st e : pydict) : Prop := {
  rd_event : vget "event_id" e = vget "event_id" st;
  rd_phase_at : vget "phase_at" e = vget "phase_at" st;
  rd_phase : phase_of e = phase_of st;
  rd_evidence : evidence_fate st (mk e) now;
}.

Lemma evidence_refl st e : agree EVIDENCE_KEYS e st → evidence_fate st (mk e) now.
Proof. intros H. split; left; cbn [m_state]; apply H; in_list. Qed.

Lemma ready_agree st e :
  agree ("event_id" :: "phase_at" :: EVIDENCE_KEYS) e st → phase_of e = phase_of st → ready st e.
Proof.
  intros H Hp. split; [apply H; in_list|apply H; in_list|done|].
  apply evidence_refl. eapply agree_sub; [|exact H]. in_list.
Qed.

Lemma ready_refl st : ready st st.
Proof. by apply ready_agree. Qed.

Lemma ready_more st e e1 :
  ready st e → agree ("event_id" :: "phase_at" :: SHOWN_KEYS ++ EVIDENCE_KEYS) e e1 →
  phase_of e = phase_of e1 → ready st e1.
Proof.
  intros [He Hpa Hp Hev] H Hpe.
  split; [by rewrite <- (H "event_id") by in_list|by rewrite <- (H "phase_at") by in_list|by rewrite <- Hpe|].
  eapply evidence_fate_same; [reflexivity| |exact Hev]. eapply agree_sub; [|exact H]. in_list.
Qed.

(** The ends of a step: another phase, a confirmation, or the same phase. *)
Lemma ready_to st e p q r t :
  ready st e → vget TIMER e = VNone ∨ resolved q = true → transition e p q now r = Ok t →
  step_fate st (mk (lt_state t)) now.
Proof.
  intros [He _ _ Hev] Ht H. unfold transition in H. res_inv. cbn [lt_state].
  apply fate_same; unfold event_at, phase_at; cbn [m_state].
  - by vget_simpl.
  - right. by vget_simpl.
  - eapply evidence_fate_same; [reflexivity| |exact Hev]. symmetry. keys.
  - destruct Ht as [Ht|Ht]; [left; cbn [m_state]; by vget_simpl|].
    right. left. unfold phase_at. cbn [m_state]. by phase_simpl.
Qed.

Lemma ready_confirmed st e p dd r t :
  ready st e → confirmed_transition e p o x now dd s r = Ok t → step_fate st (mk (lt_state t)) now.
Proof.
  unfold confirmed_transition. intros He H. res_inv.
  eapply (ready_to _ _ _ CONFIRMED); [|by right|eassumption].
  eapply ready_more; [exact He|symmetry; case_match; keys|case_match; by phase_simpl].
Qed.

Lemma ready_stay st e e1 :
  ready st e → timer_fate st (mk e) now →
  agree ("level" :: TRACKED) e e1 → phase_of e = phase_of e1 → step_fate st (mk e1) now.
Proof.
  intros [He Hpa Hp Hev] Ht H Hpe.
  eapply step_fate_same; [reflexivity|reflexivity|exact H|exact Hpe|].
  apply fate_same; [done|left; split; [done|exact Hp]|exact Hev|exact Ht].
Qed.

Lemma ready_extreme st e p y r :
  ready st e → timer_fate st (mk e) now → step_fate st (mk (lt_state (update_extreme e p x y now r))) now.
Proof.
  intros He Ht. eapply ready_stay; [exact He|exact Ht| |]; cbn [lt_state update_extreme].
  - symmetry. keys.
  - by phase_simpl.
Qed.

Lemma ready_unchanged st e p r :
  ready st e → timer_fate st (mk e) now → step_fate st (mk (lt_state (unchanged e p now r))) now.
Proof.
  intros He Ht. eapply ready_stay; [exact He|exact Ht| |]; cbn [lt_state unchanged].
  - symmetry. keys.
  - by phase_simpl.
Qed.

Lemma far_fate st e p r g : step_fate st (mk (lt_state (to_far e p now r g))) now.
Proof.
  apply fate_fresh; unfold phase_at; cbn [m_state].
  - left. apply to_far_fate.
  - intros k Hk. cbn [lt_state to_far].
    assert (E : Forall (λ k, vget k (empty_level_state now) = VNone) (TIMER :: LATER_EVIDENCE))
      by (repeat constructor).
    eapply Forall_forall in E; [|exact Hk].
    assert (Hn : k ≠ "reason" ∧ k ≠ "next_reentry_generation" ∧ k ≠ "rearm_guard").
    { clear -Hk. revert k Hk. apply Forall_forall. in_list. }
    destruct Hn as (? & ? & ?). destruct g; rewrite !vget_dset_ne by done; exact E.
  - left. cbn [lt_state to_far]. destruct g; by vget_simpl.
Qed.


(** The inside evidence is the one fact of the first two phases. *)
Definition FIRST_KEYS : list string :=
  ["event_id"; "phase_at"; TIMER; "level"; "outside_direction"] ++ LATER_EVIDENCE.

Record latched (st e : pydict) : Prop := {
  la_kept : agree FIRST_KEYS e st;
  la_phase : phase_of e = phase_of st;
  la_inside : kept_or "breakout_inside_seen_at" (inside_at (mk e)) st e now;
}.

Lemma latched_more st e e1 :
  latched st e → agree ("breakout_inside_seen_at" :: FIRST_KEYS) e1 e → phase_of e1 = phase_of e → latched st e1.
Proof.
  intros [Hk Hp Hi] H Hpe. split; [|by rewrite Hpe|].
  - etransitivity; [|exact Hk]. eapply agree_sub; [|exact H]. in_list.
  - unfold kept_or, inside_at in *. cbn [m_state] in *.
    by rewrite (H "breakout_inside_seen_at"), (H "level"), (H "outside_direction") by in_list.
Qed.

Lemma latched_ready st e : latched st e → ready st e.
Proof.
  intros [Hk Hp Hi]. split; [by rewrite (Hk "event_id") by in_list|by rewrite (Hk "phase_at") by in_list|done|].
  split; [exact Hi|left; apply Hk; in_list..].
Qed.

Lemma latched_latch st : latched st (latch_breakout_inside_evidence st x now).
Proof.
  unfold latch_breakout_inside_evidence. destruct (negb _); [by split; [| |left]|].
  destruct (num_of (vget "level" st)) as [level|] eqn:Hl, (int_of (vget "outside_direction" st)) as [outside|] eqn:Ho; try (by split; [| |left]).
  destruct (fleb _ _) eqn:Hi; [|by split; [| |left]].
  split; [keys|by phase_simpl|right]. split; [by vget_simpl|].
  exists x, level, outside. cbn [m_obs m_state]. by vget_simpl.
Qed.

Lemma approaching_step st e y l t :
  latched st e → vget TIMER st = VNone → step_approaching e x y l now s = Ok t →
  step_fate st (mk (lt_state t)) now.
Proof.
  unfold step_approaching. intros He Ht H. pose proof (latched_ready _ _ He) as Hr.
  assert (Hte : vget TIMER e = VNone) by (by rewrite (la_kept _ _ He TIMER) by in_list).
  split_if H; [by eapply ready_to; [|left|]|].
  split_if H; injection H as <-; [apply far_fate|]. apply ready_extreme; [done|by left].
Qed.

Lemma testing_step st e y a b t :
  latched st e → vget TIMER st = VNone → step_testing e x y a b now s = Ok t →
  step_fate st (mk (lt_state t)) now.
Proof.
  unfold step_testing. intros He Ht H. pose proof (latched_ready _ _ He) as Hr.
  assert (Hte : vget TIMER e = VNone) by (by rewrite (la_kept _ _ He TIMER) by in_list).
  assert (Hto : ∀ v q r, transition (latch_confirmation_start (dset "thesis" v e) x y now) TESTING q now r = Ok t →
    step_fate st (mk (lt_state t)) now).
  { intros v q r Hq. unfold latch_confirmation_start in Hq. eapply ready_to; [|left|exact Hq]; [|by vget_simpl].
    apply latched_ready. eapply latched_more; [exact He|keys|by phase_simpl]. }
  split_if H; [by eapply Hto|]. split_if H; [injection H as <-; apply ready_extreme; [done|by left]|].
  split_if H; [by eapply Hto|]. injection H as <-. apply ready_extreme; [done|by left].
Qed.

Lemma ready_extension st m :
  move_in st x = Ok m → extended m s = true → seen "breakout_inside_seen_at" st →
  ready st (latch_extension st x now).
Proof.
  intros Hm He Hi. unfold latch_extension.
  split; [by vget_simpl..|by phase_simpl|].
  split; unfold kept_or; cbn [m_state]; [left; by vget_simpl| |left; by vget_simpl..].
  right. split; [by vget_simpl|]. split; [|done]. exists x, m. cbn [m_obs m_state m_settings].
  split; [done|]. split; [|exact He]. rewrite <- Hm. apply move_in_proper; [keys|done].
Qed.

(** A breakout in these phases has been seen inside. *)
Lemma breakout_inside st p th :
  evidence p st → p ∈ [BREAK_PENDING; REJECT_PENDING; ACCEPTED; REJECTED] →
  thesis_of_value (vstr_or "thesis" "none" st) = Ok th → th = BREAKOUT →
  seen "breakout_inside_seen_at" st ∧ p ∈ [BREAK_PENDING; ACCEPTED].
Proof.
  intros [Hi Hc] Hp Hth ->. apply thesis_parse in Hth as [Hth _].
  rewrite issue_none in Hi. specialize (Hi Hth).
  destruct p; cbn [breakout_needs] in Hi; cbv iota in Hc;
    try (exfalso; revert Hp; apply (bool_decide_eq_false_1 _); reflexivity);
    try congruence; (split; [done|in_list]).
Qed.

Lemma pending_step st p th y m dd t :
  evidence p st → p ∈ [BREAK_PENDING; REJECT_PENDING] → vget TIMER st = VNone →
  thesis_of_value (vstr_or "thesis" "none" st) = Ok th → move_in st x = Ok m →
  step_pending st p th o x y m dd now s = Ok t → step_fate st (mk (lt_state t)) now.
Proof.
  unfold step_pending. intros He Hp Ht Hth Hm H. apply res_bind_ok in H as (b & _ & H).
  destruct b; [|injection H as <-; apply ready_extreme; [apply ready_refl|by left]].
  eapply ready_to; [|left|exact H]; (destruct (bool_decide (th = BREAKOUT)) eqn:Eb;
    [destruct (extended m s) eqn:Ex|]); cbn [andb]; try apply ready_refl; try done.
  - apply bool_decide_eq_true_1 in Eb. eapply ready_extension; [done..|].
    eapply breakout_inside; [exact He| |exact Hth|exact Eb].
    clear -Hp. revert p Hp. apply Forall_forall. in_list.
  - unfold latch_extension. by vget_simpl.
Qed.

Lemma moved_holding e : moved_at (mk e) → holding_at (mk e).
Proof. by intros H ? _. Qed.

Lemma moved_same st e m :
  move_in st x = Ok m → fltb m (confirm_move_points s) = false → agree SHOWN_KEYS e st → moved_at (mk e).
Proof.
  intros Hm Hf H. exists x, m. cbn [m_obs m_state m_settings].
  split; [done|]. split; [|done]. rewrite <- Hm. by apply move_in_proper.
Qed.

(** While the move is kept the timer runs on, and it is started where it is off. *)
Lemma timer_runs st m :
  timer_phase st → move_in st x = Ok m → fltb m (confirm_move_points s) = false →
  timer_fate st (mk st) now ∧ timer_fate st (mk (dset TIMER (vtime now) st)) now.
Proof.
  intros Hp Hm Hf.
  assert (H1 : moved_at (mk st)) by (by eapply moved_same).
  assert (H2 : moved_at (mk (dset TIMER (vtime now) st))) by (eapply moved_same; [done..|keys]).
  split; right; right; unfold phase_at; cbn [m_state].
  - split; [done|]. split; [done|]. split; [by apply moved_holding|by left].
  - split; [|split; [by phase_simpl|split; [by apply moved_holding|right; split; [by vget_simpl|done]]]].
    unfold timer_phase. phase_simpl. by rewrite seen_dset_ne.
Qed.

Lemma sustained_step st p y m dd t :
  timer_phase st → seen "breakout_extension_seen_at" st → move_in st x = Ok m →
  step_sustained st p o x y m dd now s = Ok t → step_fate st (mk (lt_state t)) now.
Proof.
  unfold step_sustained. intros Hp Hx Hm H. split_if H.
  { injection H as <-. apply ready_extreme; [|left; cbn [m_state]; by vget_simpl].
    eapply ready_agree; [keys|by phase_simpl]. }
  destruct (timer_runs st m) as [Hrun Hstart]; [done..|].
  apply res_bind_ok in H as (started & _ & H). destruct started as [since|].
  - apply res_bind_ok in H as (b & _ & H). destruct b.
    + eapply ready_confirmed; [|exact H].
      split; [by vget_simpl..|by phase_simpl|].
      split; unfold kept_or; cbn [m_state]; [left; by vget_simpl..|].
      right. split; [by vget_simpl|]. split; [|done]. eapply moved_same; [done..|keys].
    + injection H as <-. apply ready_extreme; [apply ready_refl|done].
  - injection H as <-. apply ready_extreme; [|done]. eapply ready_agree; [keys|by phase_simpl].
Qed.

Lemma retest_step st th y m dd t :
  phase_of st = RETEST → move_in st x = Ok m →
  step_retest st th o x y m dd now s = Ok t → step_fate st (mk (lt_state t)) now.
Proof.
  unfold step_retest. intros Hp Hm H. split_if H.
  { injection H as <-. apply ready_extreme; [|left; cbn [m_state]; by vget_simpl].
    eapply ready_agree; [keys|by phase_simpl]. }
  destruct (timer_runs st m) as [Hrun Hstart]; [by left|done..|].
  apply res_bind_ok in H as (started & _ & H). destruct started as [since|].
  - apply res_bind_ok in H as (b & _ & H). destruct b.
    + eapply ready_confirmed; [|exact H]. destruct (bool_decide _); [|apply ready_refl].
      split; [by vget_simpl..|by phase_simpl|]. split; left; cbn [m_state]; by vget_simpl.
    + injection H as <-. apply ready_extreme; [apply ready_refl|done].
  - injection H as <-. apply ready_extreme; [|done]. eapply ready_agree; [keys|by phase_simpl].
Qed.


Lemma accepted_breakout st th :
  evidence ACCEPTED st → thesis_of_value (vstr_or "thesis" "none" st) = Ok th → th = BREAKOUT.
Proof.
  intros [_ Hc] Hth. apply thesis_parse in Hth as [Hth Hn]. cbv iota in Hc.
  destruct th; [by apply Hn in Hc|done|congruence].
Qed.

Lemma ready_retest st l :
  py_float (vget "level" st) = Ok l → fleb (fabs (fsub x l)) (retest_points s) = true →
  seen "breakout_extension_seen_at" st →
  ready st (dset "breakout_retest_seen_spot" (VFloat x)
             (dset "breakout_retest_seen_at" (vtime now) (dpop TIMER st))).
Proof.
  intros Hl Hr Hx. split; [by vget_simpl..|by phase_simpl|].
  split; unfold kept_or; cbn [m_state]; [left; by vget_simpl..| |left; by vget_simpl].
  right. split; [by vget_simpl|]. split; [|done]. exists x, l. cbn [m_obs m_state m_settings]. by vget_simpl.
Qed.

Lemma accepted_step st p th y l m dd t :
  evidence p st → phase_of st = p → p = ACCEPTED ∨ p = REJECTED → timer_ok st →
  thesis_of_value (vstr_or "thesis" "none" st) = Ok th →
  py_float (vget "level" st) = Ok l → move_in st x = Ok m →
  step_accepted st p th o x y l m dd now s = Ok t → step_fate st (mk (lt_state t)) now.
Proof.
  unfold step_accepted. intros He Hst Hp Ht Hth Hl Hm H.
  assert (Hbr : th = BREAKOUT ↔ p = ACCEPTED).
  { split; [intros ->|intros ->; by eapply accepted_breakout].
    destruct Hp as [-> | ->]; [done|]. destruct He as [_ Hc]. apply thesis_parse in Hth as [Hth _].
    cbv iota in Hc. congruence. }
  assert (Hoff : seen "breakout_extension_seen_at" st ∧ p = ACCEPTED ∨ vget TIMER st = VNone).
  { destruct Ht as [Ht|[Ht|[Ht|[Ht1 Ht2]]]]; [by right| | |left; split; [done|congruence]];
      rewrite Hst in Ht; by destruct Hp as [-> | ->]. }
  split_if H.
  { bool_to_prop.
    match goal with Hb : th = BREAKOUT |- _ => rename Hb into Eb end.
    assert (Ht0 : vget TIMER st = VNone) by (destruct Hoff as [[Hs _]|?]; [unfold seen in Hs; congruence|done]).
    split_if H; injection H as <-; (apply ready_extreme; [|left; unfold latch_extension; cbn [m_state]; by vget_simpl]);
      [|apply ready_refl].
    eapply ready_extension; [done..|]. eapply breakout_inside; [exact He| |exact Hth|done].
    apply Hbr in Eb as ->. in_list. }
  assert (Hx : th = BREAKOUT → seen "breakout_extension_seen_at" st).
  { intros ->. by rewrite bool_decide_eq_true_2 in * by done. }
  split_if H.
  { eapply ready_to; [|left|exact H]; (destruct (bool_decide (th = BREAKOUT)) eqn:Eb;
      [apply bool_decide_eq_true_1 in Eb|]); try by vget_simpl.
    - eapply ready_retest; [done..|by apply Hx].
    - eapply ready_agree; [keys|by phase_simpl]. }
  split_if H.
  { apply bool_decide_eq_true_1 in Heqb1. eapply sustained_step; [|by apply Hx|done|exact H].
    right. split; [|by apply Hx]. rewrite Hst. by apply Hbr. }
  apply bool_decide_eq_false_1 in Heqb1. apply res_bind_ok in H as (b & _ & H). destruct b.
  - eapply ready_confirmed; [|exact H]. apply ready_refl.
  - injection H as <-. apply ready_extreme; [apply ready_refl|]. left. cbn [m_state].
    destruct Hoff as [[_ Ha]|?]; [by apply Hbr in Ha|done].
Qed.

Lemma timer_off st p : timer_ok st → phase_of st = p → phase_in p [APPROACHING; TESTING; BREAK_PENDING; REJECT_PENDING] = true → vget TIMER st = VNone.
Proof. intros [Ht|[Ht|[Ht|[Ht _]]]] Hp Hi; [done|by destruct (phase_of st), p..]. Qed.

Lemma active_step st p y t :
  active p = true → phase_of st = p → evidence p st → timer_ok st →
  step_active st p o x y now s = Ok t → step_fate st (mk (lt_state t)) now.
Proof.
  unfold step_active. intros Ha Hst He Ht H.
  apply res_bind_ok in H as (lv & Hlv & H). apply res_bind_ok in H as (l & Hl & H).
  apply res_bind_ok in H as (ov & Hov & H). apply res_bind_ok in H as (od & Hd & H).
  cbv zeta in H. apply res_bind_ok in H as (th & Hth & H). apply vindex_vget in Hlv, Hov. subst lv ov.
  change (thesis_value T_NONE) with "none" in Hth.
  assert (Hm : move_in st x = Ok (fmul (f_of_Z (thesis_direction th od)) (fsub x l))).
  { unfold move_in. by rewrite Hl, Hd, Hth. }
  pose proof (timer_off st p Ht Hst) as Hoff.
  destruct p; try done;
    [eapply approaching_step; [apply latched_latch|by apply Hoff|exact H]
    |eapply testing_step; [apply latched_latch|by apply Hoff|exact H]|..];
    (split_if H; [by eapply ready_to; [apply ready_refl|right|exact H]|]);
    apply res_bind_ok in H as (tmo & _ & H);
    (split_if H; [by eapply ready_to; [apply ready_refl|right|exact H]|]).
  - eapply pending_step; [exact He|in_list|by apply Hoff|exact Hth|exact Hm|exact H].
  - eapply pending_step; [exact He|in_list|by apply Hoff|exact Hth|exact Hm|exact H].
  - eapply accepted_step; [exact He|exact Hst|by left|exact Ht|exact Hth|exact Hl|exact Hm|exact H].
  - eapply accepted_step; [exact He|exact Hst|by right|exact Ht|exact Hth|exact Hl|exact Hm|exact H].
  - eapply retest_step; [exact Hst|exact Hm|exact H].
  - injection H as <-. apply ready_unchanged; [apply ready_refl|]. right. left. unfold phase_at. cbn [m_state]. by rewrite Hst.
Qed.


(** The TTL check keeps the record, or ends the step. *)
Lemma expiry_step st p r :
  active p = true → phase_of st = p → timer_ok st → check_expiry st p x now s = Ok r →
  match r with
  | inl e => agree ("level" :: TRACKED) e st ∧ phase_of e = p
  | inr t => step_fate st (mk (lt_state t)) now
  end.
Proof.
  unfold check_expiry. intros Ha Hst Ht H. apply res_bind_ok in H as (ex & _ & H).
  split_if H; [injection H as <-; done|]. split_if H.
  { apply res_fmap_ok in H as (t & H & ->). eapply ready_to; [apply ready_refl| |exact H]; by right. }
  apply res_bind_ok in H as (age & _ & H). split_if H.
  { split_if H; [|injection H as <-; done].
    res_inv. split; [keys|by phase_simpl]. }
  assert (Hoff : vget TIMER st = VNone).
  { eapply timer_off; [exact Ht|exact Hst|]. by destruct p. }
  assert (Hend : ∀ t q, transition st p EXPIRED now q = Ok t → step_fate st (mk (lt_state t)) now).
  { intros t q Hq. eapply ready_to; [apply ready_refl|by left|exact Hq]. }
  destruct (num_of (vget "level" st)) as [level|].
  - split_if H; [|apply res_fmap_ok in H as (t & H & ->); by eapply Hend].
    res_inv. apply ready_unchanged; [eapply ready_agree; [keys|by phase_simpl]|]. left. cbn [m_state]. by vget_simpl.
  - apply res_fmap_ok in H as (t & H & ->). by eapply Hend.
Qed.

(** Arming starts a fresh record. *)
Lemma arm_step st y gen g t :
  aware_utc (at_ o) = Ok now → arm o x y s gen g = Ok t → step_fate st (mk (lt_state t)) now.
Proof.
  unfold arm_nearest_level. intros Hnow H. rewrite Hnow in H. cbn [mbind res_bind] in H. cbv zeta in H.
  assert (Hf : ∀ e, Forall (λ k, vget k e = VNone) ("breakout_inside_seen_at" :: TIMER :: LATER_EVIDENCE) →
    phase_of e = FAR ∨ vget "phase_at" e = vtime now →
    step_fate st (mk (latch_breakout_inside_evidence e x now)) now
    ∧ (phase_of e = FAR → step_fate st (mk e) now)).
  { intros e He Hp. inversion_clear He as [|? ? Hi Hl].
    assert (Hl' : ∀ k, k ∈ TIMER :: LATER_EVIDENCE → vget k e = VNone) by (by apply Forall_forall).
    pose proof (latched_latch e) as [Hk Hph Hin]. split.
    - apply fate_fresh; unfold phase_at; cbn [m_state].
      + by rewrite Hph, (Hk "phase_at") by in_list.
      + intros k Hkk. rewrite (Hk k); [by apply Hl'|]. clear -Hkk. revert k Hkk. apply Forall_forall. in_list.
      + destruct Hin as [Hin|Hin]; [left; by rewrite Hin|by right].
    - intros Hfar. apply fate_fresh; [by left|exact Hl'|by left]. }
  destruct (min_by _ _) as [[[dist kind] level]|].
  - res_inv. cbn [lt_state]. refine (proj1 (Hf _ _ _)); [repeat constructor|right; reflexivity].
  - injection H as <-. destruct g; cbn [lt_state]; (refine (proj2 (Hf _ _ _) _); [repeat constructor|left|]); reflexivity.
Qed.

Lemma timer_still st e :
  agree TRACKED e st → phase_of e = phase_of st → timer_ok st → holding_at (mk e) → timer_fate st (mk e) now.
Proof.
  intros H Hp Ht Hh. unfold timer_fate, phase_at, kept_or. cbn [m_state]. rewrite (H TIMER), Hp by in_list.
  destruct Ht as [Ht|[Ht|Ht]]; [auto|auto|]. right. right. split; [|tauto].
  eapply timer_phase_same; [| |exact Ht]; by symmetry.
Qed.

Lemma terminal_stays st p r :
  phase_in p TERMINAL_PHASES = true → phase_of st = p → step_fate st (mk (lt_state (unchanged st p now r))) now.
Proof.
  intros Hp Hst. apply ready_unchanged; [apply ready_refl|]. right. left. unfold phase_at. cbn [m_state].
  rewrite Hst. by destruct p.
Qed.

Lemma rearm_step st p y t :
  aware_utc (at_ o) = Ok now → phase_in p TERMINAL_PHASES = true → phase_of st = p →
  handle_terminal_rearm st p o x y s = Ok t → step_fate st (mk (lt_state t)) now.
Proof.
  unfold handle_terminal_rearm. intros Hnow Hp Hst H. rewrite Hnow in H. cbn [mbind res_bind] in H.
  apply res_bind_ok in H as (age & _ & H). split_if H; [injection H as <-; by apply terminal_stays|].
  cbv zeta in H. split_if H.
  - apply res_bind_ok in H as (armed & Ha & H). eapply arm_step in Ha; [|done].
    split_if H; injection H as <-; [exact Ha|apply far_fate].
  - split_if H; injection H as <-; [by apply terminal_stays|apply far_fate].
Qed.
End operations.

Section observation.
Context (s : LevelDecisionSettings) (o : LevelObservation) (now : Z).
Context (Hnow : aware_utc (at_ o) = Ok now).

Local Abbreviation mk d := {| m_settings := s; m_obs := o; m_state := d |}.

Lemma degraded_step st p t :
  (∀ x, ¬ live o x) → phase_of st = p → timer_ok st → handle_bad_quality st p o s = Ok t →
  step_fate st (mk (lt_state t)) now.
Proof.
  unfold handle_bad_quality, dsetdefault. intros Hdead Hst Ht H. rewrite Hnow in H. cbn [mbind res_bind] in H.
  cbv zeta in H. set (st1 := if dhas _ _ then _ else _) in H.
  assert (H1 : agree ("level" :: TRACKED) st1 st ∧ phase_of st1 = p).
  { subst st1. destruct (dhas _ _); (split; [keys|by phase_simpl]). }
  clearbody st1. destruct H1 as [H1 Hp1].
  assert (H1' : agree TRACKED st1 st) by (eapply agree_sub; [|exact H1]; in_list).
  assert (Hhold : ∀ e, holding_at (mk e)) by (intros e x Hx; by apply Hdead in Hx).
  assert (Hstay : ∀ e r, agree ("level" :: TRACKED) e st1 → phase_of e = p →
    step_fate st (mk (lt_state (unchanged e p now r))) now).
  { intros e r He Hpe. assert (He' : agree TRACKED e st) by (etransitivity; [|exact H1']; eapply agree_sub; [|exact He]; in_list).
    apply ready_unchanged; [eapply ready_agree; [|congruence]; eapply agree_sub; [|exact He']; in_list|].
    apply timer_still; [done|congruence|done|apply Hhold]. }
  assert (Hend : ∀ r, transition st1 p EXPIRED now r = Ok t → step_fate st (mk (lt_state t)) now).
  { intros r Hr. eapply (ready_to _ _ _ _ _ _ EXPIRED); [|by right|exact Hr].
    eapply ready_agree; [|congruence]. eapply agree_sub; [|exact H1']. in_list. }
  split_if H; [injection H as <-; by apply Hstay|]. split_if H.
  - apply res_bind_ok in H as (age & _ & H). split_if H; [by eapply Hend|].
    apply res_bind_ok in H as (ex & _ & H). destruct ex; res_inv; (apply Hstay; [keys|by phase_simpl]).
  - apply res_bind_ok in H as (ex & _ & H). destruct ex; [by eapply Hend|].
    apply res_bind_ok in H as (fa & _ & H). destruct fa; injection H as <-; apply Hstay;
      try case_match; try (by phase_simpl); keys.
Qed.

Lemma live_step d p x y t :
  live o x → phase_of d = p → evidence p d → timer_ok d →
  advance_live d p o x y now s = Ok t → step_fate d (mk (lt_state t)) now.
Proof.
  unfold advance_live. cbv zeta. intros Hlive Hp He Ht H.
  set (st0 := fold_left _ QUALITY_KEYS d) in H.
  assert (H0 : agree TRACKED st0 d) by (apply fold_dpop_agree; in_list).
  assert (Hp0 : phase_of st0 = p) by (subst st0; rewrite fold_dpop_phase; [done|not_in]).
  clearbody st0. apply res_bind_ok in H as (st1 & E1 & H).
  assert (H1 : agree TRACKED st1 d ∧ phase_of st1 = p).
  { destruct (can_upgrade_rth_trigger_coordinate _ _ _); [|by injection E1 as <-].
    rewrite (upgrade_phase _ _ _ _ E1). split; [|done].
    etransitivity; [|exact H0]. eapply upgrade_agree; [in_list|exact E1]. }
  clear E1 H0 Hp0 st0. destruct H1 as [H1 Hp1].
  eapply step_fate_same; [exact H1|congruence|reflexivity|reflexivity|].
  assert (He1 : evidence p st1).
  { assert (same_evidence st1 d) as -> by (eapply agree_sub; [|exact H1]; in_list). done. }
  assert (Ht1 : timer_ok st1).
  { unfold timer_ok. rewrite (H1 TIMER), Hp1, <- Hp by in_list. destruct Ht as [Ht|[Ht|Ht]]; [auto|auto|].
    right. right. eapply timer_phase_same; [symmetry; exact H1|congruence|exact Ht]. }
  clear H1 He Ht Hp d.
  destruct (breakout_evidence_issue st1 p); [by eapply ready_to; [apply ready_refl|right|exact H]|].
  split_if H.
  { apply bool_decide_eq_true_1 in Heqb as ->. split_if H; [|by eapply arm_step]. injection H as <-.
    apply ready_unchanged; [apply ready_refl|]. left. cbn [m_state].
    destruct Ht1 as [Ht1|[Ht1|[Ht1|[Ht1 _]]]]; [done|by rewrite Hp1 in Ht1|congruence..]. }
  split_if H.
  { split_if H; [injection H as <-; by apply terminal_stays|by eapply rearm_step]. }
  assert (Ha : active p = true) by (by destruct p).
  apply res_bind_ok in H as (r & Er & H). pose proof Er as Ek. apply check_expiry_keeps in Ek; [|done].
  eapply expiry_step in Er; [|done..].
  destruct r as [st2|t']; [|by injection H as <-]. destruct Er as [H2 Hp2].
  assert (H2' : agree TRACKED st2 st1) by (eapply agree_sub; [|exact H2]; in_list).
  eapply step_fate_same; [exact H2'|congruence|reflexivity|reflexivity|].
  split_if H; [by eapply ready_to; [apply ready_refl|right|exact H]|].
  apply res_bind_ok in H as (drift & _ & H).
  split_if H; [by eapply ready_to; [apply ready_refl|right|exact H]|].
  eapply active_step; [done|done|exact Hp2|exact Ek| |exact H].
  unfold timer_ok. rewrite (H2' TIMER), Hp2, <- Hp1 by in_list. destruct Ht1 as [Ht|[Ht|Ht]]; [auto|auto|].
  right. right. eapply timer_phase_same; [symmetry; exact H2'|congruence|exact Ht].
Qed.
End observation.

(** The state a step starts from. *)
Definition start (prev : option pydict) (now : Z) : pydict := default (empty_level_state now) prev.

Lemma advance_step prev o s t now :
  aware_utc (at_ o) = Ok now → evidence (phase_of (start prev now)) (start prev now) → timer_ok (start prev now) →
  advance prev o s = Ok t → step_fate (start prev now) (moment_of s o t) now.
Proof.
  unfold advance_level_decision, start. intros Hnow He Ht H. rewrite Hnow in H. cbn [mbind res_bind] in H.
  cbv zeta in H. set (d := default _ prev) in *. clearbody d.
  split_if H; [injection H as <-; apply far_fate|].
  destruct (quality_ok o) eqn:Eq, (spot o) as [x|] eqn:Ex, (es o) as [y|] eqn:Ee;
    try (eapply degraded_step; [exact Hnow| |done|exact Ht|exact H]; intros x' (Hq & Hx & [y' Hy]); congruence).
  eapply live_step; [exact Hnow|split_and!; eauto|done|exact He|exact Ht|exact H].
Qed.


(** ** The record is the history *)

Record run_inv (m : Moment) (h : list Moment) : Prop := {
  ri_evidence : evidence (phase_at m) (m_state m);
  ri_timer : vget TIMER (m_state m) = VNone ∨ resolved (phase_at m) = true
    ∨ timer_phase (m_state m) ∧ ∃ u, vget TIMER (m_state m) = vtime u ∧ held_since u (m :: h);
  ri_phase : phase_at m = FAR ∨ ∃ u, vget "phase_at" (m_state m) = vtime u ∧ phase_since u (m :: h);
  ri_inside : seen "breakout_inside_seen_at" (m_state m) → inside_seen (event_at m) (m :: h);
  ri_extension : seen "breakout_extension_seen_at" (m_state m) → extension_seen (event_at m) (m :: h);
  ri_retest : seen "breakout_retest_seen_at" (m_state m) → retest_seen (event_at m) (m :: h);
  ri_sustained : seen "breakout_sustained_seen_at" (m_state m) → sustained_seen (event_at m) (m :: h);
}.

Lemma run_inv_timer m h : run_inv m h → timer_ok (m_state m).
Proof. intros Hi. destruct (ri_timer _ _ Hi) as [H|[H|[H _]]]; unfold timer_ok, phase_at in *; auto. Qed.

Lemma fresh_inv m h now :
  aware_utc (at_ (m_obs m)) = Ok now → evidence (phase_at m) (m_state m) →
  phase_at m = FAR ∨ vget "phase_at" (m_state m) = vtime now →
  (∀ k, k ∈ TIMER :: LATER_EVIDENCE → vget k (m_state m) = VNone) →
  vget "breakout_inside_seen_at" (m_state m) = VNone
  ∨ vget "breakout_inside_seen_at" (m_state m) = vtime now ∧ inside_at m →
  run_inv m h.
Proof.
  intros Hnow He Hp Hl Hi. assert (Hno : ∀ k, k ∈ TIMER :: LATER_EVIDENCE → seen k (m_state m) → False).
  { intros k Hk. unfold seen. by rewrite Hl. }
  split; try (intros Hs; exfalso; eapply Hno; [|exact Hs]; in_list); [done|left; apply Hl; in_list| |].
  - destruct Hp as [Hp|Hp]; [by left|]. right. exists now. split; [done|]. by exists [], m, h.
  - intros Hs. destruct Hi as [Hi|[_ Hi]]; [unfold seen in Hs; by rewrite Hi in Hs|]. by apply found_now.
Qed.

(** A key of the evidence, carried over one step. *)
Lemma kept_found k (C : Moment → Prop) (P : Prop) (R : list Moment → Prop) m m0 h now :
  event_at m = event_at m0 → kept_or k (C m ∧ P) (m_state m0) (m_state m) now →
  (seen k (m_state m0) → found (event_at m0) C R (m0 :: h)) → (P → R (m0 :: h)) →
  seen k (m_state m) → found (event_at m0) C R (m :: m0 :: h).
Proof.
  intros He [Hk|[_ [Hc Hp]]] Hold HR Hs.
  - apply found_later; [done|]. apply Hold. unfold seen in *. by rewrite <- Hk.
  - apply found_now; [done|done|by apply HR].
Qed.

Lemma same_inv m m0 h now :
  aware_utc (at_ (m_obs m)) = Ok now → evidence (phase_at m) (m_state m) →
  event_at m = event_at m0 →
  vget "phase_at" (m_state m) = vget "phase_at" (m_state m0) ∧ phase_at m = phase_at m0
  ∨ vget "phase_at" (m_state m) = vtime now →
  evidence_fate (m_state m0) m now → timer_fate (m_state m0) m now →
  run_inv m0 h → run_inv m (m0 :: h).
Proof.
  intros Hnow He Hev Hp [Hi Hx Hr Hsu] Ht [Ie It Ip Ii Ix Ir Is].
  split; [done| | |..].
  - destruct Ht as [Ht|[Ht|(Ht & Htp & Hh & Hk)]]; [by left|by right; left|].
    destruct Hk as [Hk|[Hk Hm]]; [|right; right; split; [done|exists now; split; [done|by exists [], m, (m0 :: h)]]].
    destruct It as [It|[It|(_ & u & Hu & Hs)]];
      [left; congruence|right; left; by rewrite Htp|right; right; split; [done|]].
    exists u. rewrite Hk. split; [done|]. by apply held_since_later.
  - destruct Hp as [[Hp1 Hp2]|Hp]; [|right; exists now; split; [done|by exists [], m, (m0 :: h)]].
    destruct Ip as [Ip|(u & Hu & Hs)]; [left; congruence|right; exists u].
    rewrite Hp1. split; [done|]. by apply phase_since_later.
  - rewrite Hev. eapply (kept_found _ _ True); [done| |exact Ii|done].
    destruct Hi as [Hi|[Hi1 Hi2]]; [by left|by right].
  - rewrite Hev. eapply kept_found; [done|exact Hx|exact Ix|exact Ii].
  - rewrite Hev. eapply kept_found; [done|exact Hr|exact Ir|exact Ix].
  - rewrite Hev. eapply kept_found; [done|exact Hsu|exact Is|exact Ix].
Qed.

(** The empty state has no record. *)
Lemma first_inv m now :
  aware_utc (at_ (m_obs m)) = Ok now → evidence (phase_at m) (m_state m) →
  step_fate (empty_level_state now) m now → run_inv m [].
Proof.
  intros Hnow He [H1 H2 H3|H1 H2 [Hi Hx Hr Hs] Ht]; [by eapply fresh_inv|].
  assert (Hno : ∀ k (P : Prop) C, k ∈ LATER_EVIDENCE → (P → False) →
    kept_or k (C ∧ P) (empty_level_state now) (m_state m) now → seen k (m_state m) → False).
  { intros k P C Hk HP [Hv|[_ [_ Hp]]] Hsn; [|by apply HP]. unfold seen in Hsn. rewrite Hv in Hsn.
    
    assert (E : Forall (λ k, vget k (empty_level_state now) = VNone) LATER_EVIDENCE) by (repeat constructor).
    eapply Forall_forall in E; [|exact Hk]. by rewrite E in Hsn. }
  split; [done| | |..].
  - destruct Ht as [Ht|[Ht|(Ht & Htp & Hh & [Hk|[Hk Hm]])]]; [by left|by right; left|by left|].
    right. right. split; [done|]. exists now. split; [done|by exists [], m, []].
  - destruct H2 as [[_ Hp]|Hp]; [by left|right; exists now; split; [done|by exists [], m, []]].
  - intros Hsn. destruct Hi as [Hi|[_ Hi]]; [unfold seen in Hsn; by rewrite Hi in Hsn|]. by apply found_now.
  - intros Hsn. exfalso. by eapply Hno; [| |exact Hx|exact Hsn]; [in_list|].
  - intros Hsn. exfalso. by eapply Hno; [| |exact Hr|exact Hsn]; [in_list|].
  - intros Hsn. exfalso. by eapply Hno; [| |exact Hs|exact Hsn]; [in_list|].
Qed.

Lemma run_inv_holds m h : level_run (m :: h) → run_inv m h.
Proof.
  intros Hrun. remember (m :: h) as hs eqn:E. revert m h E.
  induction Hrun as [s o t H|s o t m0 h0 Hrun IH H]; intros m h [= <- <-].
  - destruct (aware_utc (at_ o)) as [now|e] eqn:Hnow;
      [|unfold advance_level_decision in H; by rewrite Hnow in H].
    eapply first_inv; [exact Hnow| |].
    + unfold phase_at. cbn [m_state moment_of]. rewrite (fate_stored _ _ (advance_fate _ _ _ _ H)).
      by apply (advance_keeps None _ _ _ I H).
    + eapply (advance_step None); [exact Hnow|by apply evidence_loose|by left|exact H].
  - specialize (IH m0 h0 eq_refl).
    destruct (aware_utc (at_ o)) as [now|e] eqn:Hnow;
      [|unfold advance_level_decision in H; by rewrite Hnow in H].
    assert (He : evidence (phase_at (moment_of s o t)) (m_state (moment_of s o t))).
    { unfold phase_at. cbn [m_state moment_of]. rewrite (fate_stored _ _ (advance_fate _ _ _ _ H)).
      apply (advance_keeps (Some (m_state m0)) _ _ _ (ri_evidence _ _ IH) H). }
    assert (Hf : step_fate (m_state m0) (moment_of s o t) now)
      by (eapply (advance_step (Some _)); [exact Hnow|apply IH|by eapply run_inv_timer|exact H]).
    destruct Hf; [by eapply fresh_inv|by eapply same_inv].
Qed.

(** What the timer or the phase clock of a confirmation says about the run. *)
Lemma confirmed_history m h st th o x y mv dir now s t :
  run_inv m h → agree KEPT_KEYS st (m_state m) →
  phase_in (phase_at m) [ACCEPTED; REJECTED; RETEST] = true →
  confirmation (phase_at m) th st o x y mv dir now s t →
  if timed (phase_at m) th
  then ∃ u, held_since u (m :: h) ∧ fgeb (total_seconds (now - u)) (confirm_hold_seconds s) = true
  else ∃ u, phase_since u (m :: h)
            ∧ fgeb (fmax (total_seconds (now - u)) (f_of_Z 0)) (confirm_hold_seconds s) = true.
Proof.
  intros Hi Hk Hp [_ _ Hh _ _ _]. unfold held in Hh. destruct (timed _ _).
  - destruct Hh as (u' & Hu' & Hlong). rewrite (Hk TIMER) in Hu' by in_list.
    destruct (ri_timer _ _ Hi) as [Ht|[Ht|(_ & u & Hu & Hs)]].
    + rewrite Ht in Hu'. vm_compute in Hu'. discriminate Hu'.
    + by destruct (phase_at m).
    + assert (Hr : instant_in_range u = true) by (destruct Hs as (? & ? & ? & _ & Ha & _); by eapply aware_utc_range).
      rewrite Hu, iso_utc_vtime in Hu' by done. injection Hu' as <-. by exists u.
  - destruct Hh as (age & Hage & Hlong). unfold phase_age in Hage. rewrite (Hk "phase_at") in Hage by in_list.
    destruct (ri_phase _ _ Hi) as [Hf|(u & Hu & Hs)]; [by rewrite Hf in Hp|].
    assert (Hr : instant_in_range u = true) by (destruct Hs as (? & ? & ? & _ & Ha & _); by eapply aware_utc_range).
    rewrite Hu, iso_utc_vtime in Hage by done. injection Hage as <-. by exists u.
Qed.

(** ** Example runs *)

Definition noon : pydt := utc (combine (ymd2ord 2026 10 16) (time_hm 16 0)).

(** A good observation with the put wall at 6700. *)
Definition obs_at (moment : pydt) (x y : Z) : LevelObservation := {|
  at_ := moment; spot := Some (f_of_Z x); es := Some (f_of_Z y);
  levels := [("put_wall", f_of_Z 6700); ("call_wall", f_of_Z 6900)];
  quality_ok := true; quality_reason := None; session_date := "2026-10-16";
  session_mode := "rth"; spx_levels := None; trigger_coordinate_kind := "official_spx";
  trigger_instrument_id := Some "index:SPX"; trigger_basis_points := None; spx_spot := None;
  arm_allowed := true; arm_block_reason := None |}.

Definition later (minutes seconds : Z) : pydt :=
  utc (combine (ymd2ord 2026 10 16) (time_hm 16 0) + minutes * MINUTE + seconds * SECOND).

(** The states along a run of observations. *)
Fixpoint run (prev : option pydict) (os : list LevelObservation) : res (option pydict) :=
  match os with
  | [] => Ok prev
  | o :: os => t ← advance_level_decision prev o default_level_settings;
               run (Some (lt_state t)) os
  end.

(** The history that a run of observations leaves on top of another. *)
Fixpoint play (h : list Moment) (os : list LevelObservation) : res (list Moment) :=
  match os with
  | [] => Ok h
  | o :: os => t ← advance_level_decision (m_state <$> head h) o default_level_settings;
               play (moment_of default_level_settings o t :: h) os
  end.

Lemma play_on m h os h' : level_run (m :: h) → play (m :: h) os = Ok h' → level_run h'.
Proof.
  revert m h. induction os as [|o os IH]; cbn [play]; intros m h Hrun H; [by injection H as <-|].
  apply res_bind_ok in H as (t & Ht & H). eapply IH; [|exact H]. by apply run_next.
Qed.

Lemma play_run o os h : play [] (o :: os) = Ok h → level_run h.
Proof.
  cbn [play]. intros H. apply res_bind_ok in H as (t & Ht & H). eapply play_on; [|exact H]. by apply run_first.
Qed.

(** A breakout of the put wall: inside at 6701, pending at 6696, accepted and
    extended at 6692, back at 6699, a hold begun at 6692 and lost at 6697, and
    another that lasts. *)
Definition BREAKOUT_RUN : list LevelObservation :=
  [obs_at (later 0 0) 6701 6751; obs_at (later 0 5) 6696 6746; obs_at (later 0 30) 6692 6742;
   obs_at (later 0 40) 6699 6749; obs_at (later 0 50) 6692 6742; obs_at (later 0 55) 6697 6747;
   obs_at (later 1 0) 6692 6742; obs_at (later 1 6) 6692 6741].
Definition CONFIRMING : LevelObservation := obs_at (later 1 12) 6692 6742.

(** ** The properties *)

(** Every step of the decision machine reports the phase it started from,
    stores the phase it reports and follows an edge of the lifecycle graph: a
    level cannot be confirmed without having been tested and accepted or
    rejected, and a finished lifecycle only re-arms. *)
Theorem level_phase_graph prev o s t :
  advance_level_decision prev o s = Ok t →
  previous_phase t = match prev with Some d => phase_of d | None => FAR end
  ∧ phase_of (lt_state t) = current_phase t
  ∧ legal_step (previous_phase t) (current_phase t) = true.
Proof. intros H. apply advance_fate in H as [<- ? ?]. done. Qed.

Lemma level_phase_graph_witness :
  ∃ t, advance_level_decision None (obs_at noon 6705 6750) default_level_settings = Ok t
       ∧ previous_phase t = FAR ∧ current_phase t = APPROACHING
       ∧ phase_of (lt_state t) = current_phase t.
Proof.
  eexists. split; [vm_compute; reflexivity|]. split; [reflexivity|]. split; [reflexivity|].
  apply (level_phase_graph None (obs_at noon 6705 6750) default_level_settings).
  vm_compute. reflexivity.
Defined.

(** C34: in every run of the machine a breakout has been seen before it is
    believed.  Within its lifecycle (the moments of the run with its event id)
    a pending or accepted breakout has had a live observation inside the level or
    on it; a breakout in RETEST has also had, later, one past the level by more
    than the retest and the confirmation distance and, after that, one back at
    the level; a CONFIRMED breakout has the same path, or, in the sustained mode,
    one that still showed the confirmation distance in place of the return.
    Hence the evidence audit never fails on a state the machine has left. *)
Theorem level_evidence_recorded m h :
  level_run (m :: h) →
  breakout_evidence_issue (m_state m) (phase_at m) = None
  ∧ (vstr_or "thesis" "" (m_state m) = "breakout" →
     match phase_at m with
     | BREAK_PENDING | ACCEPTED => inside_seen (event_at m) (m :: h)
     | RETEST => retest_seen (event_at m) (m :: h)
     | CONFIRMED =>
         if String.eqb (vstr_or "breakout_confirmation_mode" "retest" (m_state m)) "sustained"
         then sustained_seen (event_at m) (m :: h) else retest_seen (event_at m) (m :: h)
     | _ => True
     end).
Proof.
  intros Hrun. apply run_inv_holds in Hrun as [[He _] _ _ Hi Hx Hr Hs]. split; [done|]. intros Hth.
  rewrite issue_none in He. specialize (He Hth). unfold breakout_needs in He.
  destruct (phase_at m); try done; [by apply Hi|by apply Hi|apply Hr; tauto|].
  destruct (String.eqb _ _); [apply Hs; tauto|apply Hr; tauto].
Qed.

Lemma level_evidence_recorded_witness :
  ∃ m h, level_run (m :: h) ∧ phase_at m = CONFIRMED
    ∧ vstr_or "thesis" "" (m_state m) = "breakout" ∧ retest_seen (event_at m) (m :: h).
Proof.
  destruct (play [] (BREAKOUT_RUN ++ [CONFIRMING])) as [[|m h]|] eqn:E; try (vm_compute in E; discriminate E).
  exists m, h. assert (Hrun : level_run (m :: h)) by (eapply play_run; exact E). split; [exact Hrun|].
  assert (Hp : phase_at m = CONFIRMED ∧ vstr_or "thesis" "" (m_state m) = "breakout"
               ∧ vstr_or "breakout_confirmation_mode" "retest" (m_state m) = "retest").
  { vm_compute in E. injection E as <- _. vm_compute. auto. }
  destruct Hp as (Hp & Hth & Hm). split; [exact Hp|]. split; [exact Hth|].
  pose proof (proj2 (level_evidence_recorded m h Hrun) Hth) as H. rewrite Hp, Hm in H. exact H.
Defined.

(** C1: in every run of the machine, a level becomes CONFIRMED only from
    ACCEPTED, REJECTED or RETEST, on an observation of good quality with both
    prices that shows SPX away from the level by the confirmation distance in
    the direction of the thesis, with ES confirming that direction in the same
    observation; the event then expires one event TTL later.  After a retest, and
    for a breakout, the move has been held: since a moment at least the
    confirmation time ago the run has stayed in this phase, that moment showed
    the confirmation distance, and so did every live observation after it.  A
    fade confirmed without a retest needs no such hold, only that the run has
    been in its phase for the confirmation time. *)
Theorem level_confirmation_needs m h o s t now :
  level_run (m :: h) →
  advance_level_decision (Some (m_state m)) o s = Ok t →
  aware_utc (at_ o) = Ok now →
  phase_at m ≠ CONFIRMED → current_phase t = CONFIRMED →
  phase_in (phase_at m) [ACCEPTED; REJECTED; RETEST] = true
  ∧ quality_ok o = true
  ∧ ∃ st x y level outside th,
      spot o = Some x ∧ es o = Some y ∧ agree KEPT_KEYS st (m_state m)
      ∧ py_float (vget "level" st) = Ok level
      ∧ py_int (vget "outside_direction" (m_state m)) = Ok outside
      ∧ thesis_of_value (vstr_or "thesis" "none" (m_state m)) = Ok th
      ∧ confirmation (phase_at m) th st o x y
          (fmul (f_of_Z (thesis_direction th outside)) (fsub x level))
          (thesis_direction th outside) now s t
      ∧ if timed (phase_at m) th
        then ∃ u, held_since u (m :: h)
                  ∧ fgeb (total_seconds (now - u)) (confirm_hold_seconds s) = true
        else ∃ u, phase_since u (m :: h)
                  ∧ fgeb (fmax (total_seconds (now - u)) (f_of_Z 0)) (confirm_hold_seconds s) = true.
Proof.
  intros Hrun H Hnow Hne Hc. apply advance_fate in H as Hf. destruct Hf as [_ _ Hl].
  assert (Hp : phase_in (phase_at m) [ACCEPTED; REJECTED; RETEST] = true).
  { rewrite Hc in Hl. unfold phase_at in *. by destruct (phase_of (m_state m)). }
  split; [done|]. clear Hl.
  unfold advance_level_decision in H. rewrite Hnow in H. cbn [mbind res_bind default] in H.
  split_if H; [by injection H as <-|].
  destruct (quality_ok o), (spot o) as [x|], (es o) as [y|];
    try (apply handle_bad_quality_confirms in H; [by rewrite Hc in H|done]).
  split; [done|].
  eapply advance_live_confirms in H as (st & level & outside & th & Hk & Hlv & Ho & Hth & Hconf); [|done..].
  exists st, x, y, level, outside, th. do 7 (split; [done|]).
  apply run_inv_holds in Hrun as Hi. by eapply confirmed_history.
Qed.

Lemma level_confirmation_needs_witness :
  ∃ m h t now u, level_run (m :: h)
    ∧ advance_level_decision (Some (m_state m)) CONFIRMING default_level_settings = Ok t
    ∧ current_phase t = CONFIRMED ∧ aware_utc (at_ CONFIRMING) = Ok now
    ∧ held_since u (m :: h)
    ∧ fgeb (total_seconds (now - u)) (confirm_hold_seconds default_level_settings) = true.
Proof.
  destruct (play [] BREAKOUT_RUN) as [[|m h]|] eqn:E; try (vm_compute in E; discriminate E).
  destruct (advance_level_decision (Some (m_state m)) CONFIRMING default_level_settings) as [t|e] eqn:E2;
    [|vm_compute in E; injection E as <- _; vm_compute in E2; discriminate E2].
  assert (Hrun : level_run (m :: h)) by (eapply play_run; exact E).
  assert (Hp : phase_at m = RETEST) by (vm_compute in E; injection E as <- _; vm_compute; reflexivity).
  assert (Hc : current_phase t = CONFIRMED).
  { vm_compute in E. injection E as <- _. vm_compute in E2. injection E2 as <-. reflexivity. }
  destruct (aware_utc (at_ CONFIRMING)) as [now|e] eqn:En; [|vm_compute in En; discriminate En].
  assert (Hne : phase_at m ≠ CONFIRMED) by (rewrite Hp; discriminate).
  destruct (level_confirmation_needs m h CONFIRMING default_level_settings t now Hrun E2 En Hne Hc)
    as (_ & _ & st & x & y & level & outside & th & _ & _ & _ & _ & _ & _ & _ & Hh).
  rewrite Hp in Hh. destruct Hh as (u & Hu & Hlong).
  exists m, h, t, now, u. split; [exact Hrun|]. split; [exact E2|]. split; [exact Hc|]. split; [reflexivity|].
  split; [exact Hu|exact Hlong].
Defined.

(** Arming from FAR picks an armable level with no armable level strictly
    nearer to the spot, stores it, and starts in TESTING exactly inside the
    test zone; it stays FAR exactly when no level is armable. *)
Theorem level_arming_nearest o x y s gen g t :
  arm_nearest_level o x y s gen g = Ok t →
  let x0 := float_or_zero x in
  (current_phase t = FAR ∧ ∀ kind level, ¬ armable o x0 s g kind level)
  ∨ ∃ kind level,
      armable o x0 s g kind level
      ∧ vget "level_kind" (lt_state t) = VStr kind ∧ vget "level" (lt_state t) = VFloat level
      ∧ generation (lt_state t) "reentry_generation" = Z.max 0 gen
      ∧ current_phase t = (if fleb (fabs (fsub x0 level)) (test_points s) then TESTING else APPROACHING)
      ∧ ∀ kind' level', armable o x0 s g kind' level' →
          fltb (fabs (fsub x0 level')) (fabs (fsub x0 level)) = false.
Proof. apply arm_nearest_spec. Qed.

Lemma level_arming_nearest_witness :
  ∃ t, arm_nearest_level (obs_at noon 6705 6750) (f_of_Z 6705) (f_of_Z 6750)
         default_level_settings 0 None = Ok t
       ∧ ((current_phase t = FAR
           ∧ ∀ kind level, ¬ armable (obs_at noon 6705 6750) (f_of_Z 6705) default_level_settings
                               None kind level)
          ∨ ∃ kind level, armable (obs_at noon 6705 6750) (f_of_Z 6705) default_level_settings
                            None kind level).
Proof.
  destruct (arm_nearest_level (obs_at noon 6705 6750) (f_of_Z 6705) (f_of_Z 6750)
              default_level_settings 0 None) as [t|e] eqn:E; [|vm_compute in E; discriminate E].
  exists t. split; [reflexivity|].
  destruct (level_arming_nearest (obs_at noon 6705 6750) (f_of_Z 6705) (f_of_Z 6750)
              default_level_settings 0 None t E) as [H|(k & l & H & _)].
  - left. exact H.
  - right. exists k, l. exact H.
Defined.

(** What degraded data may change: nothing a decision is made of. *)
Definition DECISION_KEYS : list string :=
  ["level"; "level_kind"; "direction"; "confirmed_at"; "confirm_started_at"] ++ EVIDENCE_KEYS.

Definition observation_degraded (o : LevelObservation) : bool :=
  negb (quality_ok o) || match spot o, es o with Some _, Some _ => false | _, _ => true end.

(** C15: an observation with degraded data never concludes anything.  Inside
    one session the phase stays as it is, or an active lifecycle expires
    because its phase clock or its event TTL ran out; level, direction, thesis
    and evidence are untouched.  When the observation belongs to another session
    the lifecycle is dropped as it is for good data: the phase is FAR, and
    level, direction, thesis, evidence and timer are gone. *)
Theorem level_degraded_never_concludes d o s t now :
  advance_level_decision (Some d) o s = Ok t →
  aware_utc (at_ o) = Ok now →
  observation_degraded o = true →
  if session_boundary_changed d (phase_of d) o then
    current_phase t = FAR ∧ vget "thesis" (lt_state t) = VStr (thesis_value T_NONE)
    ∧ ∀ k, k ∈ DECISION_KEYS → k = "thesis" ∨ vget k (lt_state t) = VNone
  else
    agree DECISION_KEYS (lt_state t) d
    ∧ (current_phase t = phase_of d
       ∨ active (phase_of d) = true ∧ current_phase t = EXPIRED
         ∧ (expired d now = Ok true
            ∨ ∃ age, phase_age d now = Ok age ∧ fgtb age (phase_timeout_seconds s) = true)).
Proof.
  intros H Hnow Hdeg. unfold advance_level_decision in H. rewrite Hnow in H.
  cbn [mbind res_bind from_option id] in H. cbn [default from_option id] in H.
  destruct (session_boundary_changed d (phase_of d) o) eqn:Hs.
  { injection H as <-. split; [done|]. split; [by cbn [lt_state to_far]; vget_simpl|].
    apply Forall_forall. repeat constructor; first [by left|right; reflexivity]. }
  assert (Hq : handle_bad_quality d (phase_of d) o s = Ok t).
  { unfold observation_degraded in Hdeg.
    destruct (quality_ok o), (spot o), (es o); try exact H; by cbn in Hdeg. }
  clear H. unfold handle_bad_quality, dsetdefault in Hq. rewrite Hnow in Hq.
  cbn [mbind res_bind] in Hq. cbv zeta in Hq. set (st1 := if dhas _ _ then _ else _) in Hq.
  assert (H1 : agree ("phase_at" :: "expires_at" :: DECISION_KEYS) st1 d).
  { subst st1. destruct (dhas _ _); by ag_simpl. }
  clearbody st1. unfold phase_age, expired in *.
  rewrite (H1 "phase_at"), (H1 "expires_at") in Hq by in_list.
  assert (Hd : agree DECISION_KEYS st1 d).
  { intros k Hk. apply H1. right. by right. }
  clear H1. set (p := phase_of d) in *. clearbody p.
  split_if Hq. { injection Hq as <-. cbn [unchanged lt_state current_phase]. split; [by ag_simpl|auto]. }
  assert (Hend : ∀ r, transition st1 p EXPIRED now r = Ok t →
    agree DECISION_KEYS (lt_state t) d ∧ active p = true ∧ current_phase t = EXPIRED).
  { intros r Ht. unfold transition in Ht. res_inv. cbn [lt_state current_phase].
    split; [by ag_simpl|]. split; [by destruct p|done]. }
  split_if Hq.
  - apply res_bind_ok in Hq as (age & Hage & Hq). split_if Hq.
    { apply Hend in Hq as (? & ? & ?). split; [done|]. right. eauto 6. }
    apply res_bind_ok in Hq as (ex & _ & Hq). destruct ex.
    + res_inv. cbn [unchanged lt_state current_phase]. split; [by ag_simpl|auto].
    + injection Hq as <-. cbn [unchanged lt_state current_phase]. split; [by ag_simpl|auto].
  - apply res_bind_ok in Hq as (ex & Hex & Hq). destruct ex.
    { apply Hend in Hq as (? & ? & ?). split; [done|]. right. auto. }
    apply res_bind_ok in Hq as (fa & _ & Hq). destruct fa; injection Hq as <-;
      cbn [unchanged lt_state current_phase].
    + split; [|auto]. case_match; by ag_simpl.
    + split; [|auto]. by ag_simpl.
Qed.

(** A blackout right after arming: the lifecycle waits. *)
Definition dark (o : LevelObservation) : LevelObservation := {|
  at_ := at_ o; spot := None; es := es o; levels := levels o; quality_ok := false;
  quality_reason := Some "quote_stale"; session_date := session_date o;
  session_mode := session_mode o; spx_levels := None;
  trigger_coordinate_kind := trigger_coordinate_kind o; trigger_instrument_id := None;
  trigger_basis_points := None; spx_spot := None; arm_allowed := true; arm_block_reason := None |}.

Lemma level_degraded_never_concludes_witness :
  ∃ d t, run None [obs_at noon 6705 6750] = Ok (Some d)
    ∧ advance_level_decision (Some d) (dark (obs_at (later 0 5) 6705 6750))
        default_level_settings = Ok t
    ∧ agree DECISION_KEYS (lt_state t) d.
Proof.
  destruct (run None [obs_at noon 6705 6750]) as [[d|]|] eqn:E;
    [|vm_compute in E; discriminate E|vm_compute in E; discriminate E].
  destruct (advance_level_decision (Some d) (dark (obs_at (later 0 5) 6705 6750))
              default_level_settings) as [t|e] eqn:E2;
    [|vm_compute in E; injection E as <-; vm_compute in E2; discriminate E2].
  exists d, t. split; [reflexivity|]. split; [exact E2|].
  assert (Hs : session_boundary_changed d (phase_of d) (dark (obs_at (later 0 5) 6705 6750)) = false)
    by (vm_compute in E; injection E as <-; vm_compute; reflexivity).
  destruct (aware_utc (at_ (dark (obs_at (later 0 5) 6705 6750)))) as [now|e] eqn:En;
    [|vm_compute in En; discriminate En].
  pose proof (level_degraded_never_concludes d (dark (obs_at (later 0 5) 6705 6750))
                default_level_settings t now E2 En eq_refl) as H.
  rewrite Hs in H. exact (proj1 H).
Defined.

(** Inside one session a finished lifecycle re-arms only on a live
    observation with arming allowed, after the re-arm delay, and only once the
    level was removed or moved by more than the drift limit or the spot left
    the reset band; the generation of the lifecycle grows by one. *)
Theorem level_terminal_rearm d o s t now :
  advance_level_decision (Some d) o s = Ok t →
  aware_utc (at_ o) = Ok now →
  phase_in (phase_of d) TERMINAL_PHASES = true →
  session_boundary_changed d (phase_of d) o = false →
  phase_in (current_phase t) TERMINAL_PHASES = false →
  observation_degraded o = false ∧ arm_allowed o = true
  ∧ (∃ age, phase_age d now = Ok age ∧ fltb age (terminal_rearm_seconds s) = false)
  ∧ (∃ x, spot o = Some x ∧ rearm_reason d o x s)
  ∧ generation (lt_state t) (if bool_decide (current_phase t = FAR) then "next_reentry_generation"
                             else "reentry_generation")
    = generation d "reentry_generation" + 1.
Proof.
  intros H Hnow Hterm Hs Hnt. unfold advance_level_decision in H. rewrite Hnow in H.
  cbn [mbind res_bind from_option id] in H. rewrite Hs in H.
  assert (Hbad : handle_bad_quality d (phase_of d) o s = Ok t → False).
  { intros Hq. unfold handle_bad_quality in Hq. rewrite Hnow in Hq. cbn [mbind res_bind] in Hq.
    cbv zeta in Hq. rewrite Hterm in Hq. cbn [orb] in Hq. injection Hq as <-.
    cbn [unchanged current_phase] in Hnt. congruence. }
  unfold observation_degraded.
  destruct (quality_ok o), (spot o) as [x|], (es o) as [y|]; try (by apply Hbad in H).
  clear Hbad. apply live_terminal in H as (Harm & st & Hst & H); [|done..].
  eapply rearm_spec in H as ((age & Hage & Hlt) & Hr & Hg); [|done..].
  split; [done|]. split; [done|]. unfold phase_age in *. rewrite (Hst "phase_at") in Hage by in_list.
  split; [eauto|].
  unfold rearm_reason, vstr_or in *. rewrite (Hst "level_kind"), (Hst "level") in Hr by in_list.
  split; [eauto|]. rewrite Hg. unfold generation. by rewrite (Hst "reentry_generation") by in_list.
Qed.

(** A TESTING lifecycle that expired in the dark re-arms once it is live and
    the spot is well away. *)
Lemma level_terminal_rearm_witness :
  ∃ d t, run None [obs_at noon 6701 6750; dark (obs_at (later 10 0) 6701 6750)] = Ok (Some d)
    ∧ advance_level_decision (Some d) (obs_at (later 11 0) 6730 6760)
        default_level_settings = Ok t
    ∧ generation (lt_state t) "next_reentry_generation" = generation d "reentry_generation" + 1.
Proof.
  destruct (run None [obs_at noon 6701 6750; dark (obs_at (later 10 0) 6701 6750)])
    as [[d|]|] eqn:E; [|vm_compute in E; discriminate E|vm_compute in E; discriminate E].
  destruct (advance_level_decision (Some d) (obs_at (later 11 0) 6730 6760)
              default_level_settings) as [t|e] eqn:E2;
    [|vm_compute in E; injection E as <-; vm_compute in E2; discriminate E2].
  exists d, t. split; [reflexivity|]. split; [exact E2|].
  assert (Hp : phase_in (phase_of d) TERMINAL_PHASES = true)
    by (vm_compute in E; injection E as <-; vm_compute; reflexivity).
  assert (Hs : session_boundary_changed d (phase_of d) (obs_at (later 11 0) 6730 6760) = false)
    by (vm_compute in E; injection E as <-; vm_compute; reflexivity).
  assert (Hc : current_phase t = FAR).
  { vm_compute in E. injection E as <-. vm_compute in E2. injection E2 as <-. reflexivity. }
  assert (Hnt : phase_in (current_phase t) TERMINAL_PHASES = false) by (rewrite Hc; reflexivity).
  destruct (aware_utc (at_ (obs_at (later 11 0) 6730 6760))) as [now|e] eqn:En;
    [|vm_compute in En; discriminate En].
  destruct (level_terminal_rearm d (obs_at (later 11 0) 6730 6760) default_level_settings
              t now E2 En Hp Hs Hnt) as (_ & _ & _ & _ & Hg).
  rewrite Hc in Hg. exact Hg.
Defined.
