(* ===== verification/Marketdata.v ===== *)
(** * Quotes and instruments ([marketdata.py])

    The normalized market-data model shared by the collectors, the failover
    controller and the decision machines.  Timestamps are aware UTC datetimes,
    kept as instants; fields that the JSON decoders pass through unchecked stay
    dynamic values. *)

From stdpp Require Import base list strings.
From Stdlib Require Import Ascii ZArith Lia SpecFloat.
From S2P Require Import Prelude PyStr PyFloat PyTime PyDateTime PyDict PyVal.

#[local] Open Scope Z_scope.

(** ** Enumerations *)

Inductive Provider := IBKR | SCHWAB | HYPERLIQUID | POLYMARKET | INTERNAL | MOCK | PROVIDER_UNKNOWN.
Inductive InstrumentType :=
  INDEX | EQUITY | ETF | FUTURE | OPTION | CFD | CRYPTO_PERP | PREDICTION_MARKET | TYPE_UNKNOWN.
Inductive OptionRight := CALL | PUT.
Inductive MarketDataQuality :=
  LIVE | FROZEN | DELAYED | DELAYED_FROZEN | SYNTHETIC | STALE | QUALITY_UNKNOWN | MISSING | ERROR.
Inductive QuoteMarketSession := REGULAR | EXTENDED | GTH | GLOBEX | SESSION_UNKNOWN.
Inductive ProviderStatus := AVAILABLE | DEGRADED | UNAVAILABLE | STATUS_UNKNOWN.

#[global] Instance Provider_eq_dec : EqDecision Provider.
Proof. solve_decision. Defined.
#[global] Instance InstrumentType_eq_dec : EqDecision InstrumentType.
Proof. solve_decision. Defined.
#[global] Instance OptionRight_eq_dec : EqDecision OptionRight.
Proof. solve_decision. Defined.
#[global] Instance MarketDataQuality_eq_dec : EqDecision MarketDataQuality.
Proof. solve_decision. Defined.
#[global] Instance QuoteMarketSession_eq_dec : EqDecision QuoteMarketSession.
Proof. solve_decision. Defined.
#[global] Instance ProviderStatus_eq_dec : EqDecision ProviderStatus.
Proof. solve_decision. Defined.

Definition provider_value (p : Provider) : string :=
  match p with
  | IBKR => "ibkr" | SCHWAB => "schwab" | HYPERLIQUID => "hyperliquid"
  | POLYMARKET => "polymarket" | INTERNAL => "internal" | MOCK => "mock"
  | PROVIDER_UNKNOWN => "unknown"
  end.
#[global, refine] Instance Provider_enum : PyEnum Provider := {|
  enum_members := [IBKR; SCHWAB; HYPERLIQUID; POLYMARKET; INTERNAL; MOCK; PROVIDER_UNKNOWN];
  enum_value := provider_value;
  enum_find := _;
|}.
Proof. by intros []. Defined.

Definition instrument_type_value (t : InstrumentType) : string :=
  match t with
  | INDEX => "index" | EQUITY => "equity" | ETF => "etf" | FUTURE => "future"
  | OPTION => "option" | CFD => "cfd" | CRYPTO_PERP => "crypto_perp"
  | PREDICTION_MARKET => "prediction_market" | TYPE_UNKNOWN => "unknown"
  end.
#[global, refine] Instance InstrumentType_enum : PyEnum InstrumentType := {|
  enum_members := [INDEX; EQUITY; ETF; FUTURE; OPTION; CFD; CRYPTO_PERP; PREDICTION_MARKET;
                   TYPE_UNKNOWN];
  enum_value := instrument_type_value;
  enum_find := _;
|}.
Proof. by intros []. Defined.

Definition right_value (r : OptionRight) : string := match r with CALL => "C" | PUT => "P" end.
#[global, refine] Instance OptionRight_enum : PyEnum OptionRight := {|
  enum_members := [CALL; PUT];
  enum_value := right_value;
  enum_find := _;
|}.
Proof. by intros []. Defined.

Definition quality_value (q : MarketDataQuality) : string :=
  match q with
  | LIVE => "live" | FROZEN => "frozen" | DELAYED => "delayed"
  | DELAYED_FROZEN => "delayed_frozen" | SYNTHETIC => "synthetic" | STALE => "stale"
  | QUALITY_UNKNOWN => "unknown" | MISSING => "missing" | ERROR => "error"
  end.
#[global, refine] Instance MarketDataQuality_enum : PyEnum MarketDataQuality := {|
  enum_members := [LIVE; FROZEN; DELAYED; DELAYED_FROZEN; SYNTHETIC; STALE; QUALITY_UNKNOWN;
                   MISSING; ERROR];
  enum_value := quality_value;
  enum_find := _;
|}.
Proof. by intros []. Defined.

Definition market_session_value (s : QuoteMarketSession) : string :=
  match s with
  | REGULAR => "regular" | EXTENDED => "extended" | GTH => "gth" | GLOBEX => "globex"
  | SESSION_UNKNOWN => "unknown"
  end.
#[global, refine] Instance QuoteMarketSession_enum : PyEnum QuoteMarketSession := {|
  enum_members := [REGULAR; EXTENDED; GTH; GLOBEX; SESSION_UNKNOWN];
  enum_value := market_session_value;
  enum_find := _;
|}.
Proof. by intros []. Defined.

Definition status_value (s : ProviderStatus) : string :=
  match s with
  | AVAILABLE => "available" | DEGRADED => "degraded" | UNAVAILABLE => "unavailable"
  | STATUS_UNKNOWN => "unknown"
  end.
#[global, refine] Instance ProviderStatus_enum : PyEnum ProviderStatus := {|
  enum_members := [AVAILABLE; DEGRADED; UNAVAILABLE; STATUS_UNKNOWN];
  enum_value := status_value;
  enum_find := _;
|}.
Proof. by intros []. Defined.

Definition FUTURE_TIMESTAMP_TOLERANCE_SECONDS : float := f_of_Z 5.

Definition QUALITY_RANK (q : MarketDataQuality) : Z :=
  match q with
  | LIVE => 100 | FROZEN => 85 | DELAYED => 75 | DELAYED_FROZEN => 65 | SYNTHETIC => 50
  | QUALITY_UNKNOWN => 30 | STALE => 20 | MISSING => 0 | ERROR => 0
  end.

Definition DEFAULT_PROVIDER_PRIORITY : list (Provider + string) :=
  map inl [SCHWAB; IBKR; HYPERLIQUID; POLYMARKET; INTERNAL; MOCK; PROVIDER_UNKNOWN].

(** ** Cleaning values *)

(** [float(value)] without nan and infinities. *)
Definition clean_float (v : pyval) : option float :=
  match py_float v with
  | Ok x => if f_is_nan x || f_is_inf x then None else Some x
  | Err _ => None
  end.

Definition implied_vol_in_valid_range (v : option float) : option float :=
  x ← v; if fltb (f_of_Z 0) x && fleb x (f_of_Z 10) then Some x else None.

Definition normalize_implied_vol (v : pyval) : option float :=
  implied_vol_in_valid_range (clean_float v).

Definition normalize_implied_vol_percent (v : pyval) : option float :=
  x ← clean_float v;
  if fleb x (f_of_Z 0) then None
  else implied_vol_in_valid_range (Some (fdiv_ieee x (f_of_Z 100))).

Definition first_present (values : list (option float)) : option float :=
  match omap (λ v, x ← v; if fltb (f_of_Z 0) x then Some x else None) values with
  | [] => None
  | x :: _ => Some x
  end.

Fixpoint bool_or_none (values : list pyval) : option bool :=
  match values with
  | [] => None
  | v :: rest =>
      match v with
      | VNone => bool_or_none rest
      | VBool b => Some b
      | VStr s =>
          let text := str_lower (str_strip s) in
          if bool_decide (text ∈ ["true"; "1"; "yes"; "y"]) then Some true
          else if bool_decide (text ∈ ["false"; "0"; "no"; "n"]) then Some false
          else bool_or_none rest
      | VInt _ | VFloat _ => Some (truthy v)
      | _ => bool_or_none rest
      end
  end.

Definition elapsed_ms (start end_ : option Z) : option float :=
  s ← start; e ← end_;
  Some (fmax (fmul (total_seconds (e - s)) (f_of_Z 1000)) (f_of_Z 0)).

(** [as_utc] of any datetime. *)
Definition as_utc (d : pydt) : res Z :=
  let u := dt_as_utc d in if instant_in_range u then Ok u else Err OverflowError.

Definition timestamp_of_number (x : float) : option Z :=
  if fleb x (f_of_Z 0) then None
  else dt_fromtimestamp (if fgtb x (f_of_Z 10000000000) then fdiv_ieee x (f_of_Z 1000) else x).

(** [parse_timestamp] of a decoded value. *)
Definition parse_timestamp (v : pyval) : res (option Z) :=
  match v with
  | VNone => Ok None
  | VStr "" => Ok None
  | VStr s =>
      let text := str_strip s in
      if String.eqb text "" then Ok None
      else if str_isdigit text then
        Ok (z ← parse_digits text; timestamp_of_number (f_of_Z z))
      else if str_starts "-" text && str_isdigit (str_drop 1 text) then
        Ok (z ← parse_digits (str_drop 1 text); timestamp_of_number (f_of_Z (- z)))
      else
        match fromisoformat (str_replace_chr "Z"%char "+00:00" text) with
        | Some d => Some <$> as_utc d
        | None => Ok None
        end
  | _ => Ok (x ← num_of v; timestamp_of_number x)
  end.

Definition normalize_option_right (v : pyval) : res OptionRight :=
  let text := str_upper (str_strip (py_str v)) in
  if bool_decide (text ∈ ["C"; "CALL"]) then Ok CALL
  else if bool_decide (text ∈ ["P"; "PUT"]) then Ok PUT
  else Err ValueError.

(** [text.rstrip("0").rstrip(".")]. *)
Definition rstrip_chr (c : Ascii.ascii) (s : string) : string :=
  let fix go (s : string) : string :=
    match s with
    | "" => ""
    | String d r => if Ascii.eqb c d then go r else s
    end in
  str_rev (go (str_rev s)).

Definition format_strike (value : option float) : res string :=
  match value with
  | None => Ok ""
  | Some x =>
      if f_is_integer x then z ← f_trunc x; Ok (str_of_Z z)
      else Ok (rstrip_chr "."%char (rstrip_chr "0"%char (f_fixed 4 x)))
  end.

(** ** Instruments *)

Record InstrumentId := {
  symbol : string;
  instrument_type : InstrumentType;
  provider_symbol : pyval;
  exchange : pyval;
  currency : string;
  expiry : pyval;
  strike : option float;
  right : option OptionRight;
  multiplier : pyval;
  underlier : pyval;
  trading_class : pyval;
}.

(** The constructors [InstrumentId.index], [equity], [cfd], [future] share
    this shape; [option] parses its right. *)
Definition simple_instrument (t : InstrumentType) (symbol : string)
    (provider_symbol exchange : option string) (currency : string)
    (expiry underlier : option string) : InstrumentId := {|
  symbol := symbol; instrument_type := t;
  provider_symbol := v_opt_str provider_symbol; exchange := v_opt_str exchange;
  currency := currency; expiry := v_opt_str expiry; strike := None; right := None;
  multiplier := VNone; underlier := v_opt_str underlier; trading_class := VNone |}.

Definition index_instrument symbol provider_symbol exchange currency :=
  simple_instrument INDEX symbol provider_symbol exchange currency None None.
Definition equity_instrument symbol provider_symbol exchange currency :=
  simple_instrument EQUITY symbol provider_symbol exchange currency None None.
Definition cfd_instrument symbol provider_symbol exchange currency underlier :=
  simple_instrument CFD symbol provider_symbol exchange currency None underlier.
Definition future_instrument symbol expiry provider_symbol exchange currency :=
  simple_instrument FUTURE symbol provider_symbol exchange currency expiry None.

Definition option_instrument (underlier expiry : string) (strike : float) (right : pyval)
    (trading_class provider_symbol exchange : option string) (currency : string)
    (multiplier : option string) : res InstrumentId :=
  parsed_right ← normalize_option_right right;
  Ok {| symbol := underlier; instrument_type := OPTION;
        provider_symbol := v_opt_str provider_symbol; exchange := v_opt_str exchange;
        currency := currency; expiry := VStr expiry; strike := Some strike;
        right := Some parsed_right; multiplier := v_opt_str multiplier;
        underlier := VStr underlier; trading_class := v_opt_str trading_class |}.

(** [str.join] rejects parts that are not strings. *)
Definition as_str (v : pyval) : res string := of_option TypeError (str_of v).

Definition canonical_id (i : InstrumentId) : res string :=
  match instrument_type i with
  | OPTION =>
      let tc := v_or (v_or (trading_class i) (underlier i)) (VStr (symbol i)) in
      k ← format_strike (strike i);
      under ← as_str (v_or (underlier i) (VStr (symbol i)));
      cls ← as_str tc;
      exp ← as_str (v_or (expiry i) (VStr ""));
      Ok (str_join ":" [instrument_type_value OPTION; under; cls; exp; k;
                        match right i with Some r => right_value r | None => "" end])
  | t =>
      if bool_decide (t = FUTURE) && truthy (expiry i)
      then Ok (instrument_type_value t +:+ ":" +:+ symbol i +:+ ":" +:+ py_str (expiry i))
      else Ok (instrument_type_value t +:+ ":" +:+ symbol i)
  end.

Definition family_id (i : InstrumentId) : res string :=
  if bool_decide (instrument_type i = FUTURE) then Ok ("future:" +:+ symbol i)
  else canonical_id i.

Definition instrument_matches_id (i : InstrumentId) (requested_id : string) : res bool :=
  cid ← canonical_id i;
  if String.eqb cid requested_id then Ok true
  else if negb (String.eqb (str_lower (instrument_type_value (instrument_type i))) "future")
  then Ok false
  else fid ← family_id i; Ok (String.eqb fid requested_id).

Definition v_enum {A} `{PyEnum A} (o : option A) : pyval :=
  match o with Some a => VStr (enum_value a) | None => VNone end.

Definition instrument_to_dict (i : InstrumentId) : res pydict :=
  cid ← canonical_id i;
  fid ← family_id i;
  Ok [("symbol", VStr (symbol i)); ("instrument_type", VStr (instrument_type_value (instrument_type i)));
      ("provider_symbol", provider_symbol i); ("exchange", exchange i);
      ("currency", VStr (currency i)); ("expiry", expiry i); ("strike", v_opt_float (strike i));
      ("right", v_enum (right i)); ("multiplier", multiplier i); ("underlier", underlier i);
      ("trading_class", trading_class i); ("canonical_id", VStr cid); ("family_id", VStr fid)].

Definition instrument_from_dict (payload : pydict) : res InstrumentId :=
  let rv := vget "right" payload in
  right ← (if truthy rv then Some <$> normalize_option_right rv else Ok None);
  Ok {| symbol := vstr_or "symbol" "" payload;
        instrument_type := enum_or TYPE_UNKNOWN
                             (py_str (vget_or "instrument_type" (VStr "unknown") payload));
        provider_symbol := vget "provider_symbol" payload;
        exchange := vget "exchange" payload;
        currency := vstr_or "currency" "USD" payload;
        expiry := vget "expiry" payload;
        strike := clean_float (vget "strike" payload);
        right := right;
        multiplier := vget "multiplier" payload;
        underlier := vget "underlier" payload;
        trading_class := vget "trading_class" payload |}.

(** ** Quotes *)

Record OptionGreeks := {
  implied_vol : option float;
  delta : option float;
  gamma : option float;
  theta : option float;
  vega : option float;
  rho : option float;
  underlier_price : option float;
  model : pyval;
}.

Definition greeks_to_dict (g : OptionGreeks) : pydict :=
  [("implied_vol", v_opt_float (implied_vol g)); ("delta", v_opt_float (delta g));
   ("gamma", v_opt_float (gamma g)); ("theta", v_opt_float (theta g));
   ("vega", v_opt_float (vega g)); ("rho", v_opt_float (rho g));
   ("underlier_price", v_opt_float (underlier_price g)); ("model", model g)].

Definition greeks_from_dict (payload : pydict) : option OptionGreeks :=
  match payload with
  | [] => None
  | _ => Some {| implied_vol := normalize_implied_vol (vget "implied_vol" payload);
                 delta := clean_float (vget "delta" payload);
                 gamma := clean_float (vget "gamma" payload);
                 theta := clean_float (vget "theta" payload);
                 vega := clean_float (vget "vega" payload);
                 rho := clean_float (vget "rho" payload);
                 underlier_price := clean_float (vget "underlier_price" payload);
                 model := vget "model" payload |}
  end.

Record SessionQuoteObservation := {
  ob_session : QuoteMarketSession;
  ob_quote_time : option Z;
  ob_trade_time : option Z;
  ob_bid : option float;
  ob_ask : option float;
  ob_last : option float;
  ob_mark : option float;
}.

Definition ob_source_time (o : SessionQuoteObservation) : option Z :=
  match ob_quote_time o with Some t => Some t | None => ob_trade_time o end.

Definition ob_effective_price (o : SessionQuoteObservation) : option float :=
  first_present [ob_mark o; ob_last o; ob_bid o; ob_ask o].


Definition observation_to_dict (o : SessionQuoteObservation) : pydict :=
  [("session", VStr (market_session_value (ob_session o)));
   ("quote_time", v_opt_time (ob_quote_time o)); ("trade_time", v_opt_time (ob_trade_time o));
   ("bid", v_opt_float (ob_bid o)); ("ask", v_opt_float (ob_ask o));
   ("last", v_opt_float (ob_last o)); ("mark", v_opt_float (ob_mark o))].

Record Quote := {
  instrument : InstrumentId;
  provider : Provider;
  received_at : Z;
  quality : MarketDataQuality;
  q_provider_symbol : pyval;
  bid : option float;
  ask : option float;
  last : option float;
  mark : option float;
  close : option float;
  bid_size : option float;
  ask_size : option float;
  last_size : option float;
  volume : option float;
  open_interest : option float;
  structure_time : option Z;
  quote_time : option Z;
  trade_time : option Z;
  last_update_at : option Z;
  source_latency_ms : option float;
  market_data_type : pyval;
  greeks : option OptionGreeks;
  sampling_mode : pyval;
  sampling_group : option Z;
  source_session : option string;
  market_session : option QuoteMarketSession;
  session_observations : list SessionQuoteObservation;
  error : pyval;
  raw : option pydict;
}.

Definition mid (q : Quote) : option float :=
  b ← bid q; a ← ask q;
  if fleb a (f_of_Z 0) || fltb a b then None
  else if bool_decide (instrument_type (instrument q) = OPTION) then
    if fltb b (f_of_Z 0) then None else Some (fdiv_ieee (fadd b a) (f_of_Z 2))
  else if fleb b (f_of_Z 0) then None
  else Some (fdiv_ieee (fadd b a) (f_of_Z 2)).

Definition spread (q : Quote) : option float :=
  b ← bid q; a ← ask q;
  if fleb b (f_of_Z 0) || fleb a (f_of_Z 0) || fltb a b then None else Some (fsub a b).

Definition spread_bps (q : Quote) : option float :=
  s ← spread q; m ← mid q;
  if fleb m (f_of_Z 0) then None
  else Some (fmul (fdiv_ieee s m) (f_of_Z 10000)).

Definition effective_price (q : Quote) : option float :=
  first_present [mark q; mid q; last q; close q].

Definition has_price (q : Quote) : bool :=
  match effective_price q with Some _ => true | None => false end.

Definition is_usable (q : Quote) : bool :=
  has_price q && negb (bool_decide (quality q ∈ [MISSING; ERROR])).

Definition quote_age_ms (q : Quote) (as_of : option Z) : float :=
  let source_time := default (default (received_at q) (trade_time q)) (quote_time q) in
  let as_of := default (received_at q) as_of in
  fmul (total_seconds (as_of - source_time)) (f_of_Z 1000).

Definition session_source_time (q : Quote) (s : QuoteMarketSession) : option Z :=
  match find (λ o, bool_decide (ob_session o = s)) (session_observations q) with
  | Some o => ob_source_time o
  | None => None
  end.

Definition PROVENANCE_KEYS : list string :=
  ["pricing_provider"; "pricing_sampling_mode"; "pricing_market_data_type";
   "pricing_explicit_delayed"; "pricing_live_entitlement"; "pricing_live_entitlement_source";
   "pricing_observed_at"; "pricing_source_at";
   "greeks_provider"; "greeks_sampling_mode"; "greeks_market_data_type";
   "greeks_explicit_delayed"; "greeks_live_entitlement"; "greeks_live_entitlement_source";
   "greeks_observed_at";
   "open_interest_provider"; "open_interest_sampling_mode"; "open_interest_market_data_type";
   "open_interest_explicit_delayed"; "open_interest_live_entitlement";
   "open_interest_live_entitlement_source"; "open_interest_observed_at"].

(** [value is None or isinstance(value, (str, int, float, bool))]. *)
Definition is_scalar (v : pyval) : bool := match v with VList _ | VDict _ => false | _ => true end.

Definition field_provenance (r : pydict) : pydict :=
  omap (λ k, v ← dget k r; if is_scalar v then Some (k, v) else None) PROVENANCE_KEYS.

Definition quote_to_dict (q : Quote) (include_raw : bool) : res pydict :=
  i ← instrument_to_dict (instrument q);
  cid ← canonical_id (instrument q);
  let payload :=
    [("instrument", VDict i); ("instrument_id", VStr cid);
     ("provider", VStr (provider_value (provider q))); ("provider_symbol", q_provider_symbol q);
     ("received_at", vtime (received_at q)); ("quality", VStr (quality_value (quality q)));
     ("bid", v_opt_float (bid q)); ("ask", v_opt_float (ask q)); ("last", v_opt_float (last q));
     ("mark", v_opt_float (mark q)); ("close", v_opt_float (close q));
     ("bid_size", v_opt_float (bid_size q)); ("ask_size", v_opt_float (ask_size q));
     ("last_size", v_opt_float (last_size q)); ("volume", v_opt_float (volume q));
     ("open_interest", v_opt_float (open_interest q));
     ("structure_time", v_opt_time (structure_time q)); ("quote_time", v_opt_time (quote_time q));
     ("trade_time", v_opt_time (trade_time q)); ("last_update_at", v_opt_time (last_update_at q));
     ("source_latency_ms", v_opt_float (source_latency_ms q));
     ("market_data_type", market_data_type q);
     ("greeks", match greeks q with Some g => VDict (greeks_to_dict g) | None => VNone end);
     ("sampling_mode", sampling_mode q);
     ("sampling_group", match sampling_group q with Some z => VInt z | None => VNone end);
     ("mid", v_opt_float (mid q)); ("spread", v_opt_float (spread q));
     ("spread_bps", v_opt_float (spread_bps q));
     ("effective_price", v_opt_float (effective_price q)); ("error", error q)] in
  let payload := match raw q with
                 | Some r => match field_provenance r with
                             | [] => payload
                             | fp => dset "field_provenance" (VDict fp) payload
                             end
                 | None => payload
                 end in
  let payload := match source_session q with
                 | Some s => dset "source_session" (VStr s) payload
                 | None => payload
                 end in
  let payload := match market_session q with
                 | Some s => dset "market_session" (VStr (market_session_value s)) payload
                 | None => payload
                 end in
  let payload :=
    match session_observations q with
    | [] => payload
    | obs =>
        dset "session_observations" (VList (map (λ o, VDict (observation_to_dict o)) obs))
          (dset "extended_source_at" (v_opt_time (session_source_time q EXTENDED))
             (dset "regular_source_at" (v_opt_time (session_source_time q REGULAR)) payload))
    end in
  Ok (if include_raw
      then dset "raw" (match raw q with Some r => VDict r | None => VNone end) payload
      else payload).

(** [datetime.now(tz=utc)] is the argument [now]. *)
Definition observation_from_dict (raw : pydict) : res SessionQuoteObservation :=
  qt ← parse_timestamp (vget "quote_time" raw);
  tt ← parse_timestamp (vget "trade_time" raw);
  Ok {| ob_session := enum_or SESSION_UNKNOWN (vstr_or "session" "unknown" raw);
        ob_quote_time := qt; ob_trade_time := tt;
        ob_bid := clean_float (vget "bid" raw); ob_ask := clean_float (vget "ask" raw);
        ob_last := clean_float (vget "last" raw); ob_mark := clean_float (vget "mark" raw) |}.

Definition observations_from_value (v : pyval) : res (list SessionQuoteObservation) :=
  match v with
  | VList l => res_mapM observation_from_dict (omap dict_of l)
  | _ => Ok []
  end.

Definition raw_from_payload (payload : pydict) : option pydict :=
  let r := default [] (dict_of (vget "raw" payload)) in
  let r := match dict_of (vget "field_provenance" payload) with
           | Some fp => dmerge r (filter (λ kv, is_scalar kv.2 = true) fp)
           | None => r
           end in
  match r with [] => None | _ => Some r end.

Definition quote_from_dict (payload : pydict) (now : Z) : res Quote :=
  instrument ← match dict_of (vget "instrument" payload) with
               | Some i => instrument_from_dict i
               | None =>
                   Ok (simple_instrument TYPE_UNKNOWN
                         (py_str (v_or (v_or (vget "instrument_id" payload) (vget "symbol" payload))
                                       (VStr "UNKNOWN"))) None None "USD" None None)
               end;
  let provider := enum_or PROVIDER_UNKNOWN (py_str (vget_or "provider" (VStr "unknown") payload)) in
  let quality := enum_or QUALITY_UNKNOWN (py_str (vget_or "quality" (VStr "unknown") payload)) in
  let session := match vget "market_session" payload with
                 | VNone => None
                 | v => Some (enum_or SESSION_UNKNOWN (py_str v))
                 end in
  observations ← observations_from_value (vget "session_observations" payload);
  received ← parse_timestamp (vget "received_at" payload);
  structure ← parse_timestamp (vget "structure_time" payload);
  qt ← parse_timestamp (vget "quote_time" payload);
  tt ← parse_timestamp (vget "trade_time" payload);
  updated ← parse_timestamp (vget "last_update_at" payload);
  group ← match vget "sampling_group" payload with
          | VNone => Ok None
          | v => Some <$> py_int v
          end;
  Ok {| instrument := instrument; provider := provider;
        received_at := default now received; quality := quality;
        q_provider_symbol := vget "provider_symbol" payload;
        bid := clean_float (vget "bid" payload); ask := clean_float (vget "ask" payload);
        last := clean_float (vget "last" payload); mark := clean_float (vget "mark" payload);
        close := clean_float (vget "close" payload);
        bid_size := clean_float (vget "bid_size" payload);
        ask_size := clean_float (vget "ask_size" payload);
        last_size := clean_float (vget "last_size" payload);
        volume := clean_float (vget "volume" payload);
        open_interest := clean_float (vget "open_interest" payload);
        structure_time := structure; quote_time := qt; trade_time := tt;
        last_update_at := updated;
        source_latency_ms := clean_float (vget "source_latency_ms" payload);
        market_data_type := vget "market_data_type" payload;
        greeks := match vget "greeks" payload with VDict g => greeks_from_dict g | _ => None end;
        sampling_mode := vget "sampling_mode" payload; sampling_group := group;
        source_session := match vget "source_session" payload with
                          | VNone => None | v => Some (py_str v) end;
        market_session := session; session_observations := observations;
        error := vget "error" payload; raw := raw_from_payload payload |}.

(** ** Provider states and snapshots *)

Record ProviderState := {
  ps_provider : Provider;
  ps_status : ProviderStatus;
  checked_at : Z;
  ps_reason : pyval;
  connected : option bool;
  authenticated : option bool;
  latency_ms : option float;
  priority : option Z;
}.

Definition v_opt_bool (b : option bool) : pyval := match b with Some b => VBool b | None => VNone end.

Definition provider_state_to_dict (s : ProviderState) : pydict :=
  [("provider", VStr (provider_value (ps_provider s))); ("status", VStr (status_value (ps_status s)));
   ("checked_at", vtime (checked_at s)); ("reason", ps_reason s);
   ("connected", v_opt_bool (connected s)); ("authenticated", v_opt_bool (authenticated s));
   ("latency_ms", v_opt_float (latency_ms s));
   ("priority", match priority s with Some z => VInt z | None => VNone end)].

Definition provider_state_from_dict (payload : pydict) (now : Z) : res ProviderState :=
  checked ← parse_timestamp (vget "checked_at" payload);
  prio ← match vget "priority" payload with VNone => Ok None | v => Some <$> py_int v end;
  Ok {| ps_provider := enum_or PROVIDER_UNKNOWN (py_str (vget_or "provider" (VStr "unknown") payload));
        ps_status := enum_or STATUS_UNKNOWN (py_str (vget_or "status" (VStr "unknown") payload));
        checked_at := default now checked; ps_reason := vget "reason" payload;
        connected := bool_or_none [vget "connected" payload];
        authenticated := bool_or_none [vget "authenticated" payload];
        latency_ms := clean_float (vget "latency_ms" payload); priority := prio |}.

(** ** Choosing a quote *)

Definition normalize_provider_priority (providers : list (Provider + string)) : list (string * Z) :=
  (fold_left (λ acc p,
     let normalized := match p with inl p => p | inr s => enum_or PROVIDER_UNKNOWN s end in
     (dset (provider_value normalized) acc.2 acc.1, acc.2 + 1))
   providers ([], 0)).1.

(** The sort key [(quality rank, -priority, freshness, has mid)]. *)
Record QuoteKey := { k_quality : Z; k_priority : Z; k_fresh : float; k_mid : float }.

Definition sort_key (rank : list (string * Z)) (as_of : Z) (q : Quote) : QuoteKey := {|
  k_quality := QUALITY_RANK (quality q);
  k_priority := - default (Z.of_nat (length rank)) (dget (provider_value (provider q)) rank);
  k_fresh := fopp (quote_age_ms q (Some as_of));
  k_mid := match mid q with Some _ => f_of_Z 1 | None => f_of_Z 0 end;
|}.

(** Tuple comparison: the first component that differs decides. *)
Definition key_gt (a b : QuoteKey) : bool :=
  if negb (k_quality a =? k_quality b) then k_quality b <? k_quality a
  else if negb (k_priority a =? k_priority b) then k_priority b <? k_priority a
  else if negb (feqb (k_fresh a) (k_fresh b)) then fgtb (k_fresh a) (k_fresh b)
  else fgtb (k_mid a) (k_mid b).

Definition choose_best_quote (quotes : list Quote) (provider_priority : list (Provider + string))
    (as_of : Z) : option Quote :=
  let candidates := filter (λ q, is_usable q = true) quotes in
  let rank := normalize_provider_priority provider_priority in
  max_by (λ q r, key_gt (sort_key rank as_of q) (sort_key rank as_of r)) candidates.

Record NormalizedSnapshot := {
  created_at : Z;
  sn_quotes : list Quote;
  sn_provider_states : list ProviderState;
}.

Definition quotes_for (s : NormalizedSnapshot) (instrument_id : string) : res (list Quote) :=
  res_filter (λ q, instrument_matches_id (instrument q) instrument_id) (sn_quotes s).

Definition best_quote (s : NormalizedSnapshot) (instrument_id : string)
    (provider_priority : list (Provider + string)) (now : Z) : res (option Quote) :=
  qs ← quotes_for s instrument_id; Ok (choose_best_quote qs provider_priority now).

(** ** Classifying quality *)

Definition quality_from_market_data_type (value : pyval) : res (option MarketDataQuality) :=
  let by_number (z : Z) :=
    match z with 1 => Some LIVE | 2 => Some FROZEN | 3 => Some DELAYED | 4 => Some DELAYED_FROZEN
               | _ => None end in
  match value with
  | VNone => Ok None
  | _ =>
      match py_int value with
      | Ok z => Ok (by_number z)
      | Err e =>
          if bool_decide (e ∈ [TypeError; ValueError]) then
            Ok (snd <$> find (λ kv, String.eqb kv.1 (str_lower (str_strip (py_str value))))
                  [("live", LIVE); ("frozen", FROZEN); ("delayed", DELAYED);
                   ("delayed-frozen", DELAYED_FROZEN); ("delayed_frozen", DELAYED_FROZEN)])
          else Err e
      end
  end.

Definition classify_quote_quality (market_data_type : pyval) (quote_time received_at : option Z)
    (stale_after_seconds : float) (explicit_delayed : option bool) (error : option string)
    : res MarketDataQuality :=
  if negb (String.eqb (default "" error) "") then Ok ERROR
  else
    mapped ← quality_from_market_data_type market_data_type;
    Ok match mapped with
       | Some m => m
       | None =>
           if bool_decide (explicit_delayed = Some true) then DELAYED
           else match quote_time, received_at with
                | Some qt, Some rt =>
                    if fgtb (total_seconds (rt - qt)) stale_after_seconds then STALE else LIVE
                | _, _ => QUALITY_UNKNOWN
                end
       end.
