(* ===== verification/MarketdataFacts.v ===== *)
(** * Facts and properties of quotes

    Timestamps and cleaned numbers survive the JSON form, a quote read back
    from its dictionary is the quote, and the best quote of a list is a usable
    quote that no other usable quote outranks. *)

From stdpp Require Import base list strings.
From Stdlib Require Import Ascii ZArith Lia SpecFloat.
From S2P Require Import Prelude PyStr PyFloat PyTime PyDateTime PyDict PyVal Marketdata.

#[local] Open Scope Z_scope.

(** ** Timestamps *)

Lemma str_all_impl p q s :
  (∀ c, p c = true → q c = true) → str_all p s = true → str_all q s = true.
Proof.
  intros H. induction s as [|c s IH]; cbn; [done|].
  rewrite !andb_true_iff. intros [H1 H2]. auto.
Qed.

Lemma str_replace_chr_none c new s :
  str_all (λ d, negb (Ascii.eqb d c)) s = true → str_replace_chr c new s = s.
Proof.
  induction s as [|d s IH]; cbn; [done|]. rewrite andb_true_iff. intros [Hd Hs].
  apply negb_true_iff in Hd. by rewrite Hd, IH.
Qed.

Lemma str_rev_app_cons s c t : str_rev_app s (String c t) = str_rev_app s "" +:+ String c t.
Proof.
  revert c t. induction s as [|d s IH]; intros c t; [done|]. cbn [str_rev_app].
  rewrite IH, (IH d ""). by rewrite str_app_assoc.
Qed.

Lemma str_rev_snoc s c : str_rev (s +:+ String c "") = String c (str_rev s).
Proof.
  unfold str_rev. induction s as [|d s IH]; [done|]. rewrite str_app_cons. cbn [str_rev_app].
  rewrite str_rev_app_cons, IH, (str_rev_app_cons s d ""). done.
Qed.

Lemma str_rev_rev s : str_rev (str_rev s) = s.
Proof.
  unfold str_rev at 2. induction s as [|c s IH]; [done|]. cbn [str_rev_app].
  rewrite str_rev_app_cons, str_rev_snoc. f_equal. exact IH.
Qed.

(** A text that starts and ends with other characters is its own [strip()]. *)
Lemma str_strip_id c s d t :
  c = String d t → chr_is_space d = false → chr_is_space s = false →
  str_strip (c +:+ String s "") = c +:+ String s "".
Proof.
  intros -> Hd Hs. unfold str_strip, str_rstrip. rewrite str_app_cons. cbn [str_lstrip].
  rewrite Hd, <- str_app_cons, str_rev_snoc. cbn [str_lstrip]. rewrite Hs.
  by rewrite <- str_rev_snoc, str_rev_rev.
Qed.

Definition iso_chr (c : Ascii.ascii) : bool :=
  chr_is_digit c || bool_decide (c ∈ ["-"; "T"; ":"; "."; "+"]%char).

Lemma zpad_iso w z : str_all iso_chr (zpad w z) = true.
Proof. by apply zpad_all. Qed.

Lemma isoformat_iso u : str_all iso_chr (isoformat u) = true.
Proof.
  unfold isoformat, iso_date, iso_time. destruct (ord2ymd (wall_date u)) as [[y m] d].
  rewrite !str_all_app, !zpad_iso. case_match; cbn [str_all]; [done|].
  by rewrite str_all_app, zpad_iso.
Qed.

Lemma isoformat_not_empty u : isoformat u ≠ "".
Proof. intros E. pose proof (truthy_vtime u) as H. unfold vtime in H. rewrite E in H. discriminate H. Qed.

(** [text.replace("Z", "+00:00")] leaves a formatted instant. *)
Lemma isoformat_no_Z u : str_replace_chr "Z"%char "+00:00" (isoformat u) = isoformat u.
Proof.
  apply str_replace_chr_none, (str_all_impl iso_chr); [|apply isoformat_iso].
  intros c Hc. destruct (Ascii.eqb_spec c "Z"); [by subst|done].
Qed.

Lemma zpad_head w z : ∃ d t, zpad (S w) z = String d t ∧ ∃ k, d = digit_chr (k mod 10).
Proof.
  revert z. induction w as [|w IH]; intros z.
  - by eexists _, _; split; [reflexivity|eexists].
  - destruct (IH (z / 10)) as (d & t & E & Hd). exists d, (t +:+ String (digit_chr (z mod 10)) "").
    change (zpad (S (S w)) z) with (zpad (S w) (z / 10) +:+ String (digit_chr (z mod 10)) "").
    by rewrite E.
Qed.

Lemma isoformat_shape u :
  ∃ d t, isoformat u = String d t +:+ String "0" "" ∧ chr_is_digit d = true ∧ d ≠ "-"%char
         ∧ str_all chr_is_digit (isoformat u) = false.
Proof.
  unfold isoformat, iso_date. destruct (ord2ymd (wall_date u)) as [[y m] dd].
  set (body := iso_time (wall_time u)).
  destruct (zpad_head 3 y) as (d & t & E & k & Hk). rewrite E.
  exists d. eexists. split; [|split; [|split]].
  - rewrite !str_app_assoc, str_app_cons. change "+00:00" with ("+00:0" +:+ String "0" "").
    rewrite <- !str_app_assoc, <- str_app_cons. reflexivity.
  - subst d. by apply (digit_chr_forall chr_is_digit).
  - subst d. pose proof (digit_chr_forall (λ c, negb (Ascii.eqb "-" c)) k eq_refl) as H.
    intros E'. by rewrite E' in H.
  - rewrite !str_all_app. cbn [str_all]. by rewrite !andb_false_r.
Qed.

Lemma digit_not_space d : chr_is_digit d = true → chr_is_space d = false.
Proof.
  unfold chr_is_digit, chr_is_space. intros Hd. bool_to_prop. apply not_true_is_false.
  intros Hs. apply orb_true_iff in Hs as [Hs|Hs]; bool_to_prop; lia.
Qed.

(** A timestamp written by [isoformat] is read back. *)
Lemma parse_timestamp_vtime u :
  instant_in_range u = true → parse_timestamp (vtime u) = Ok (Some u).
Proof.
  intros Hu. destruct (isoformat_shape u) as (d & t & E & Hd & Hneg & Hdig).
  assert (Hs : str_strip (isoformat u) = isoformat u).
  { rewrite E. eapply str_strip_id; [done|by apply digit_not_space|done]. }
  assert (Hm : str_starts "-" (isoformat u) = false).
  { rewrite E, str_app_cons. unfold str_starts. cbn [String.prefix].
    by destruct (Ascii.ascii_dec _ _). }
  unfold parse_timestamp, vtime. destruct (isoformat u) as [|c s] eqn:Ei; [done|].
  rewrite Hs. cbn [String.eqb]. unfold str_isdigit. rewrite Hdig, andb_false_r, Hm. cbn [andb].
  rewrite str_replace_chr_none.
  - rewrite <- Ei, fromisoformat_isoformat by done. unfold as_utc.
    by rewrite dt_as_utc_utc, Hu.
  - rewrite <- Ei. eapply str_all_impl; [|apply isoformat_iso]. intros x Hx.
    apply negb_true_iff, not_true_is_false. intros ->%Ascii.eqb_eq. done.
Qed.

Lemma parse_timestamp_opt t :
  (∀ u, t = Some u → instant_in_range u = true) → parse_timestamp (v_opt_time t) = Ok t.
Proof. intros H. destruct t as [u|]; [|done]. cbn. by apply parse_timestamp_vtime, H. Qed.

(** ** Round trips *)

Definition finite (x : float) : bool := negb (f_is_nan x || f_is_inf x).
Definition opt_all {A} (P : A → bool) (o : option A) : bool :=
  match o with Some a => P a | None => true end.

Lemma clean_float_opt o : opt_all finite o = true → clean_float (v_opt_float o) = o.
Proof.
  destruct o as [x|]; [|done]. cbn [opt_all]. unfold finite, clean_float. cbn [v_opt_float py_float num_of of_option].
  intros H. apply negb_true_iff in H. by rewrite H.
Qed.

Lemma parse_timestamp_clean t :
  opt_all instant_in_range t = true → parse_timestamp (v_opt_time t) = Ok t.
Proof. intros H. apply parse_timestamp_opt. by intros u ->. Qed.

Lemma normalize_right_value r : normalize_option_right (VStr (right_value r)) = Ok r.
Proof. by destruct r. Qed.

(** Evaluate lookups in literal dictionaries. *)
Ltac lookup :=
  cbv beta iota zeta delta [vget vget_or dget String.eqb Ascii.eqb Bool.eqb from_option id].

Definition instrument_wf (i : InstrumentId) : bool :=
  opt_all finite (strike i) && negb (String.eqb (currency i) "").

Lemma vstr_or_literal k dflt s d :
  vget k d = VStr s → (s = "" → dflt = "") → vstr_or k dflt d = s.
Proof.
  intros E Hs. unfold vstr_or. rewrite E. unfold v_or. cbn.
  destruct (String.eqb_spec s "") as [->|]; cbn; [by apply Hs|done].
Qed.

Lemma instrument_roundtrip i d :
  instrument_wf i = true → instrument_to_dict i = Ok d → instrument_from_dict d = Ok i.
Proof.
  unfold instrument_wf, instrument_to_dict. intros Hwf H. bool_to_prop. res_inv.
  unfold instrument_from_dict.
  rewrite (vstr_or_literal "symbol" "" (symbol i)), (vstr_or_literal "currency" "USD" (currency i));
    [|reflexivity| |reflexivity|done]; cycle 1.
  { intros E. by rewrite E in *. }
  lookup. cbn [py_str]. change (instrument_type_value ?t) with (enum_value t).
  rewrite enum_or_value.
  rewrite clean_float_opt by done.
  destruct i as [sy ty ps ex cu exp st ri mu un tc]. cbn in *.
  destruct ri as [r|]; cbn [v_enum]; [|done].
  unfold v_enum. cbn [enum_value OptionRight_enum truthy].
  destruct r; done.
Qed.

Definition greeks_wf (g : OptionGreeks) : bool :=
  opt_all (λ x, finite x && fltb (f_of_Z 0) x && fleb x (f_of_Z 10)) (implied_vol g)
  && opt_all finite (delta g) && opt_all finite (gamma g) && opt_all finite (theta g)
  && opt_all finite (vega g) && opt_all finite (rho g) && opt_all finite (underlier_price g).

Lemma greeks_roundtrip g : greeks_wf g = true → greeks_from_dict (greeks_to_dict g) = Some g.
Proof.
  unfold greeks_wf. intros H. bool_to_prop. unfold greeks_from_dict, greeks_to_dict.
  lookup. unfold normalize_implied_vol. rewrite !clean_float_opt; try done.
  - destruct g as [iv ? ? ? ? ? ? ?]. cbn in *. destruct iv as [x|]; [|done].
    cbn in *. bool_to_prop. unfold implied_vol_in_valid_range. cbn.
    by match goal with H1 : fltb _ _ = true, H2 : fleb _ _ = true |- _ => rewrite H1, H2 end.
  - destruct (implied_vol g); [|done]. cbn in *. by bool_to_prop.
Qed.

Definition observation_wf (o : SessionQuoteObservation) : bool :=
  opt_all instant_in_range (ob_quote_time o) && opt_all instant_in_range (ob_trade_time o)
  && opt_all finite (ob_bid o) && opt_all finite (ob_ask o) && opt_all finite (ob_last o)
  && opt_all finite (ob_mark o).

Lemma observation_roundtrip o :
  observation_wf o = true → observation_from_dict (observation_to_dict o) = Ok o.
Proof.
  unfold observation_wf. intros H. bool_to_prop. unfold observation_from_dict, observation_to_dict.
  rewrite (vstr_or_literal "session" "unknown" (market_session_value (ob_session o)));
    [|reflexivity|by destruct (ob_session o)].
  lookup. rewrite !parse_timestamp_clean by done. cbn [mbind res_bind].
  rewrite !clean_float_opt by done. cbn [py_str].
  change (market_session_value ?t) with (enum_value t). rewrite enum_or_value.
  by destruct o.
Qed.

Lemma observations_roundtrip obs :
  forallb observation_wf obs = true →
  observations_from_value (VList (map (λ o, VDict (observation_to_dict o)) obs)) = Ok obs.
Proof.
  cbn [observations_from_value]. induction obs as [|o obs IH]; cbn [forallb map omap list_omap dict_of];
    [done|].
  intros H. bool_to_prop. cbn [res_mapM]. rewrite observation_roundtrip by done.
  cbn [mbind res_bind]. change (list_omap ?f ?l) with (omap f l). by rewrite IH.
Qed.

Record quote_wf (q : Quote) : Prop := {
  wf_instrument : instrument_wf (instrument q) = true;
  wf_floats : forallb (opt_all finite)
    [bid q; ask q; last q; mark q; close q; bid_size q; ask_size q; last_size q; volume q;
     open_interest q; source_latency_ms q] = true;
  wf_received : instant_in_range (received_at q) = true;
  wf_times : forallb (opt_all instant_in_range)
    [structure_time q; quote_time q; trade_time q; last_update_at q] = true;
  wf_greeks : opt_all greeks_wf (greeks q) = true;
  wf_observations : forallb observation_wf (session_observations q) = true;
  wf_raw : raw q = None;
}.

(** The optional keys of a quote's dictionary. *)
Definition OPTIONAL_KEYS : list string :=
  ["source_session"; "market_session"; "session_observations"; "extended_source_at";
   "regular_source_at"].


Lemma quote_dict_base q d :
  raw q = None → quote_to_dict q false = Ok d →
  ∃ i cid,
    instrument_to_dict (instrument q) = Ok i ∧
    let base :=
      [("instrument", VDict i); ("instrument_id", VStr cid);
       ("provider", VStr (provider_value (provider q))); ("provider_symbol", q_provider_symbol q);
       ("received_at", vtime (received_at q)); ("quality", VStr (quality_value (quality q)));
       ("bid", v_opt_float (bid q)); ("ask", v_opt_float (ask q)); ("last", v_opt_float (last q));
       ("mark", v_opt_float (mark q)); ("close", v_opt_float (close q));
       ("bid_size", v_opt_float (bid_size q)); ("ask_size", v_opt_float (ask_size q));
       ("last_size", v_opt_float (last_size q)); ("volume", v_opt_float (volume q));
       ("open_interest", v_opt_float (open_interest q));
       ("structure_time", v_opt_time (structure_time q)); ("quote_time", v_opt_time (quote_time q));
       ("trade_time", v_opt_time (trade_time q)); ("last_update_at", v_opt_time (last_update_at q));
       ("source_latency_ms", v_opt_float (source_latency_ms q));
       ("market_data_type", market_data_type q);
       ("greeks", match greeks q with Some g => VDict (greeks_to_dict g) | None => VNone end);
       ("sampling_mode", sampling_mode q);
       ("sampling_group", match sampling_group q with Some z => VInt z | None => VNone end);
       ("mid", v_opt_float (mid q)); ("spread", v_opt_float (spread q));
       ("spread_bps", v_opt_float (spread_bps q));
       ("effective_price", v_opt_float (effective_price q)); ("error", error q)] in
    (∀ k, k ∉ OPTIONAL_KEYS → vget k d = vget k base ∧ dget k d = dget k base)
    ∧ vget "source_session" d = v_opt_str (source_session q)
    ∧ vget "market_session" d = v_enum (market_session q)
    ∧ vget "session_observations" d =
        match session_observations q with
        | [] => VNone
        | obs => VList (map (λ o, VDict (observation_to_dict o)) obs)
        end.
Proof.
  intros Hraw H. unfold quote_to_dict in H. rewrite Hraw in H.
  apply res_bind_ok in H as (i & Hi & H). apply res_bind_ok in H as (cid & _ & H).
  exists i, cid. split; [done|]. cbv zeta in *. set (base := _ :: _) in *.
  assert (Hb : ∀ k, k ∈ OPTIONAL_KEYS → vget k base = VNone).
  { apply Forall_forall. repeat constructor. }
  clearbody base. injection H as <-.
  assert (Hne : ∀ k k', k ∉ OPTIONAL_KEYS → k' ∈ OPTIONAL_KEYS → k ≠ k') by (intros k k' Hn Hy ->; done).
  split_and!.
  - intros k Hk.
    destruct (source_session q), (market_session q), (session_observations q);
      rewrite ?vget_dset_ne, ?dget_dset_ne by (apply Hne; [done|in_list]); done.
  - destruct (source_session q), (market_session q), (session_observations q);
      vget_simpl; first [done|apply Hb; in_list].
  - destruct (source_session q), (market_session q), (session_observations q);
      vget_simpl; first [done|apply Hb; in_list].
  - destruct (source_session q), (market_session q), (session_observations q);
      vget_simpl; first [done|apply Hb; in_list].
Qed.

Lemma quote_roundtrip q d now :
  quote_wf q → quote_to_dict q false = Ok d → quote_from_dict d now = Ok q.
Proof.
  intros [Hi Hf Hr Ht Hg Ho Hraw] H.
  apply quote_dict_base in H as (i & cid & Ei & Hk & Hss & Hms & Hobs); [|done]. cbv zeta in Hk.
  cbn [forallb] in Hf, Ht. bool_to_prop.
  unfold quote_from_dict, raw_from_payload, vget_or.
  rewrite Hss, Hms, Hobs.
  repeat match goal with
  | |- context [vget ?k d] =>
      rewrite (proj1 (Hk k ltac:(in_list)))
  | |- context [dget ?k d] =>
      rewrite (proj2 (Hk k ltac:(in_list)))
  end.
  lookup. cbn [dict_of]. rewrite (instrument_roundtrip _ _ Hi Ei). cbn [mbind res_bind].
  replace (observations_from_value _) with (Ok (session_observations q)); cycle 1.
  { destruct (session_observations q) eqn:E; [done|]. by rewrite <- E, observations_roundtrip by (by rewrite E). }
  cbn [mbind res_bind]. change (vtime ?u) with (v_opt_time (Some u)).
  rewrite !parse_timestamp_clean by done. cbn [mbind res_bind].
  rewrite !clean_float_opt by done. cbn [py_str].
  change (provider_value ?t) with (enum_value t). change (quality_value ?t) with (enum_value t).
  rewrite !enum_or_value.
  assert (Hgr : match match greeks q with Some g => VDict (greeks_to_dict g) | None => VNone end with
                | VDict g => greeks_from_dict g | _ => None end = greeks q).
  { destruct (greeks q) as [g|]; [by apply greeks_roundtrip|done]. }
  rewrite Hgr.
  assert (Hms' : match v_enum (market_session q) with
                 | VNone => None
                 | v => Some (enum_or SESSION_UNKNOWN (py_str v))
                 end = market_session q) by (by destruct (market_session q) as [[]|]).
  cbn [py_str] in Hms'. rewrite Hms'. clear - Hraw.
  destruct q as [? ? ? ? ? ? ? ? ? ? ? ? ? ? ? ? ? ? ? ? ? ? ? sg ss ? ? ? ra]. cbn in Hraw |- *.
  subst ra. by destruct sg, ss.
Qed.

(** ** The best quote *)



















(** a quote survives its JSON form: reading back the dictionary that
    [to_dict] writes gives the same quote, for quotes with finite numbers,
    UTC timestamps in range and no raw provider payload. *)
Theorem quote_dict_roundtrip q d now :
  quote_wf q → quote_to_dict q false = Ok d → quote_from_dict d now = Ok q.
Proof. apply quote_roundtrip. Qed.

(** A live SPXW call quote. *)
Definition sample_quote (qt : Z) : Quote := {|
  instrument := {| symbol := "SPX"; instrument_type := OPTION; provider_symbol := VNone;
                   exchange := VNone; currency := "USD"; expiry := VStr "20261016";
                   strike := Some (f_lit 67125 1); right := Some CALL; multiplier := VStr "100";
                   underlier := VStr "SPX"; trading_class := VStr "SPXW" |};
  provider := SCHWAB; received_at := combine (ymd2ord 2026 10 16) (time_hm 15 0); quality := LIVE;
  q_provider_symbol := VNone; bid := Some (f_of_Z 12); ask := Some (f_lit 124 1); last := None;
  mark := None; close := None; bid_size := None; ask_size := None; last_size := None;
  volume := None; open_interest := None; structure_time := None; quote_time := Some qt;
  trade_time := None; last_update_at := None; source_latency_ms := None; market_data_type := VInt 1;
  greeks := Some {| implied_vol := Some (f_lit 18 2); delta := Some (f_lit 5 1); gamma := None;
                    theta := None; vega := None; rho := None; underlier_price := None;
                    model := VNone |};
  sampling_mode := VNone; sampling_group := Some 3; source_session := None;
  market_session := Some REGULAR; session_observations := []; error := VNone; raw := None |}.

Lemma quote_dict_roundtrip_witness :
  ∃ d, quote_to_dict (sample_quote (combine (ymd2ord 2026 10 16) (time_hm 15 0))) false = Ok d
       ∧ quote_from_dict d 0 = Ok (sample_quote (combine (ymd2ord 2026 10 16) (time_hm 15 0))).
Proof.
  destruct (quote_to_dict (sample_quote (combine (ymd2ord 2026 10 16) (time_hm 15 0))) false)
    as [d|e] eqn:E; [|vm_compute in E; discriminate E].
  exists d. split; [reflexivity|].
  apply (quote_dict_roundtrip (sample_quote (combine (ymd2ord 2026 10 16) (time_hm 15 0))) d 0);
    [|exact E].
  split; vm_compute; reflexivity.
Defined.

(** A source clock that runs an hour ahead makes a quote sort as the freshest. *)
Lemma future_quote_outranks_current :
  let now := combine (ymd2ord 2026 10 16) (time_hm 15 0) in
  choose_best_quote [sample_quote now; sample_quote (now + HOUR)] DEFAULT_PROVIDER_PRIORITY now
  = Some (sample_quote (now + HOUR)).
Proof. vm_compute. reflexivity. Qed.


