(* ===== verification/ProviderFailover.v ===== *)
(** * The market-data failover machine ([provider_failover.py])

    Schwab is primary and IBKR the fallback; streaks of health observations
    move the mode, and the persisted control state decides, failing closed,
    whether new entries are allowed.  Datetimes are aware UTC instants. *)

From stdpp Require Import base list strings.
From Stdlib Require Import ZArith Lia.
From S2P Require Import Prelude PyStr PyFloat PyTime PyDateTime PyDict PyVal Marketdata.

#[local] Open Scope Z_scope.

Inductive FailoverMode := SCHWAB_PRIMARY | RECOVERY_PENDING | IBKR_FALLBACK | BOTH_UNAVAILABLE.

#[global] Instance FailoverMode_eq_dec : EqDecision FailoverMode.
Proof. solve_decision. Defined.

Definition mode_value (m : FailoverMode) : string :=
  match m with
  | SCHWAB_PRIMARY => "schwab_primary" | RECOVERY_PENDING => "recovery_pending"
  | IBKR_FALLBACK => "ibkr_fallback" | BOTH_UNAVAILABLE => "both_unavailable"
  end.

#[global, refine] Instance FailoverMode_enum : PyEnum FailoverMode := {|
  enum_members := [SCHWAB_PRIMARY; RECOVERY_PENDING; IBKR_FALLBACK; BOTH_UNAVAILABLE];
  enum_value := mode_value;
  enum_find := _;
|}.
Proof. by intros []. Defined.

Record FailoverObservation := {
  observed_at : Z;
  schwab_healthy : bool;
  ibkr_healthy : bool;
  schwab_reason : option string;
  ibkr_reason : option string;
}.

Record FailoverTransition := {
  transition_id : string;
  tr_sequence : Z;
  previous_mode : FailoverMode;
  tr_mode : FailoverMode;
  occurred_at : Z;
  tr_reason : string;
}.

Record FailoverState := {
  mode : FailoverMode;
  updated_at : Z;
  sequence : Z;
  schwab_unhealthy_streak : Z;
  schwab_recovery_streak : Z;
  ibkr_unhealthy_streak : Z;
  ibkr_recovery_streak : Z;
  last_schwab_reason : option string;
  last_ibkr_reason : option string;
  transition : option FailoverTransition;
}.

Record FailoverThresholds := {
  schwab_unhealthy_observations : Z;
  schwab_recovery_observations : Z;
  ibkr_unhealthy_observations : Z;
  ibkr_recovery_observations : Z;
}.

(** [FailoverThresholds.__post_init__]. *)
Definition check_thresholds (t : FailoverThresholds) : res FailoverThresholds :=
  if (0 <? schwab_unhealthy_observations t) && (0 <? schwab_recovery_observations t)
     && (0 <? ibkr_unhealthy_observations t) && (0 <? ibkr_recovery_observations t)
  then Ok t else Err ValueError.

Definition transition_to_dict (t : FailoverTransition) : pydict :=
  [("transition_id", VStr (transition_id t)); ("sequence", VInt (tr_sequence t));
   ("previous_mode", VStr (mode_value (previous_mode t))); ("mode", VStr (mode_value (tr_mode t)));
   ("occurred_at", vtime (occurred_at t)); ("reason", VStr (tr_reason t))].

Definition plain_state (m : FailoverMode) (now : Z) : FailoverState := {|
  mode := m; updated_at := now; sequence := 0; schwab_unhealthy_streak := 0;
  schwab_recovery_streak := 0; ibkr_unhealthy_streak := 0; ibkr_recovery_streak := 0;
  last_schwab_reason := None; last_ibkr_reason := None; transition := None |}.

Definition initial_state (now : Z) : FailoverState := plain_state SCHWAB_PRIMARY now.

Definition optional_text (v : pyval) : option string :=
  match v with
  | VNone => None
  | _ => let text := str_strip (py_str v) in if String.eqb text "" then None else Some text
  end.

(** [int(d.get(k) or 0)]. *)
Definition int_or_zero (k : string) (d : pydict) : res Z := py_int (v_or (vget k d) (VInt 0)).

Definition transition_from_value (v : pyval) : res (option FailoverTransition) :=
  match v with
  | VDict raw =>
      occurred ← parse_timestamp (vget "occurred_at" raw);
      match occurred with
      | None => Ok None
      | Some occurred =>
          seq ← int_or_zero "sequence" raw;
          pv ← dindex "previous_mode" raw; pm ← enum_parse (py_str pv);
          mv ← dindex "mode" raw; m ← enum_parse (py_str mv);
          Ok (Some {| transition_id := vstr_or "transition_id" "" raw; tr_sequence := seq;
                      previous_mode := pm; tr_mode := m; occurred_at := occurred;
                      tr_reason := vstr_or "reason" "" raw |})
      end
  | _ => Ok None
  end.

Definition state_from_dict (raw : pydict) : res FailoverState :=
  tr ← transition_from_value (vget "transition" raw);
  updated ← parse_timestamp (vget "updated_at" raw);
  updated ← of_option ValueError updated;
  m ← enum_parse (vstr_or "mode" (mode_value SCHWAB_PRIMARY) raw);
  seq ← int_or_zero "sequence" raw;
  su ← int_or_zero "schwab_unhealthy_streak" raw;
  sr ← int_or_zero "schwab_recovery_streak" raw;
  iu ← int_or_zero "ibkr_unhealthy_streak" raw;
  ir ← int_or_zero "ibkr_recovery_streak" raw;
  Ok {| mode := m; updated_at := updated; sequence := seq; schwab_unhealthy_streak := su;
        schwab_recovery_streak := sr; ibkr_unhealthy_streak := iu; ibkr_recovery_streak := ir;
        last_schwab_reason := optional_text (vget "last_schwab_reason" raw);
        last_ibkr_reason := optional_text (vget "last_ibkr_reason" raw);
        transition := tr |}.

Definition ibkr_market_data_required (s : FailoverState) : bool :=
  bool_decide (mode s ∈ [RECOVERY_PENDING; IBKR_FALLBACK; BOTH_UNAVAILABLE]).

Definition state_to_dict (s : FailoverState) : pydict :=
  [("mode", VStr (mode_value (mode s))); ("updated_at", vtime (updated_at s));
   ("sequence", VInt (sequence s));
   ("schwab_unhealthy_streak", VInt (schwab_unhealthy_streak s));
   ("schwab_recovery_streak", VInt (schwab_recovery_streak s));
   ("ibkr_unhealthy_streak", VInt (ibkr_unhealthy_streak s));
   ("ibkr_recovery_streak", VInt (ibkr_recovery_streak s));
   ("last_schwab_reason", v_opt_str (last_schwab_reason s));
   ("last_ibkr_reason", v_opt_str (last_ibkr_reason s));
   ("transition", match transition s with
                  | Some t => VDict (transition_to_dict t) | None => VNone end);
   ("ibkr_market_data_required", VBool (ibkr_market_data_required s))].

(** The next mode and its reason, and whether the IBKR streaks restart. *)
Definition next_mode (s : FailoverState) (o : FailoverObservation) (t : FailoverThresholds)
    (schwab_unhealthy schwab_recovery ibkr_unhealthy ibkr_recovery : Z)
    : FailoverMode * string * bool :=
  let schwab_back := schwab_healthy o && (schwab_recovery_observations t <=? schwab_recovery) in
  let ibkr_back := ibkr_healthy o && negb (schwab_healthy o)
                   && (ibkr_recovery_observations t <=? ibkr_recovery) in
  let both_down := negb (schwab_healthy o) && (ibkr_unhealthy_observations t <=? ibkr_unhealthy) in
  let stay := (mode s, "health observation", false) in
  match mode s with
  | SCHWAB_PRIMARY =>
      if schwab_unhealthy_observations t <=? schwab_unhealthy then
        if ibkr_healthy o then (IBKR_FALLBACK, "Schwab unhealthy; IBKR fallback is ready", false)
        else (RECOVERY_PENDING, "Schwab unhealthy; requesting IBKR fallback", true)
      else stay
  | RECOVERY_PENDING =>
      if ibkr_back then (IBKR_FALLBACK, "IBKR fallback became ready", false)
      else if schwab_back then (SCHWAB_PRIMARY, "Schwab recovered before fallback activation", false)
      else if both_down then (BOTH_UNAVAILABLE, "Schwab and IBKR are unavailable", false)
      else stay
  | IBKR_FALLBACK =>
      if schwab_back then (SCHWAB_PRIMARY, "Schwab recovery confirmed", false)
      else if both_down
      then (BOTH_UNAVAILABLE, "IBKR fallback failed while Schwab remained unavailable", false)
      else stay
  | BOTH_UNAVAILABLE =>
      if schwab_back then (SCHWAB_PRIMARY, "Schwab recovery confirmed", false)
      else if ibkr_back then (IBKR_FALLBACK, "IBKR fallback recovered", false)
      else stay
  end.

Definition transition_stamp (u : Z) : string :=
  strftime_ymd (wall_date u) +:+ "T" +:+ strftime_hms (wall_time u)
  +:+ zpad 6 (micro_of (wall_time u)) +:+ "Z".

Definition advance_failover (s : FailoverState) (o : FailoverObservation) (t : FailoverThresholds)
    : FailoverState :=
  let now := observed_at o in
  let schwab_unhealthy := if schwab_healthy o then 0 else schwab_unhealthy_streak s + 1 in
  let schwab_recovery := if schwab_healthy o then schwab_recovery_streak s + 1 else 0 in
  let ibkr_unhealthy := if bool_decide (mode s = SCHWAB_PRIMARY) || ibkr_healthy o then 0
                        else ibkr_unhealthy_streak s + 1 in
  let ibkr_recovery := if ibkr_healthy o then ibkr_recovery_streak s + 1 else 0 in
  let '(m, reason, restart) :=
    next_mode s o t schwab_unhealthy schwab_recovery ibkr_unhealthy ibkr_recovery in
  let ibkr_unhealthy := if restart : bool then 0 else ibkr_unhealthy in
  let ibkr_recovery := if restart then 0 else ibkr_recovery in
  let moved := negb (bool_decide (m = mode s)) in
  let sequence := if moved then sequence s + 1 else sequence s in
  let transition :=
    if moved then
      Some {| transition_id := "provider-failover:" +:+ transition_stamp now +:+ ":"
                               +:+ str_of_Z sequence +:+ ":" +:+ mode_value m;
              tr_sequence := sequence; previous_mode := mode s; tr_mode := m;
              occurred_at := now; tr_reason := reason |}
    else transition s in
  let reset := moved && bool_decide (m = SCHWAB_PRIMARY) in
  {| mode := m; updated_at := now; sequence := sequence;
     schwab_unhealthy_streak := schwab_unhealthy; schwab_recovery_streak := schwab_recovery;
     ibkr_unhealthy_streak := if reset then 0 else ibkr_unhealthy;
     ibkr_recovery_streak := if reset then 0 else ibkr_recovery;
     last_schwab_reason := schwab_reason o; last_ibkr_reason := ibkr_reason o;
     transition := transition |}.

(** ** Reading the persisted control *)

Definition control_requires_ibkr_market_data (raw : pydict) (now : Z) (max_age_seconds : float)
    : res bool :=
  if negb (is_true (vget "monitoring_active" raw)) then Ok false
  else if negb (is_true (vget "ibkr_market_data_required" raw)) then Ok false
  else
    updated ← parse_timestamp (vget "updated_at" raw);
    Ok match updated with
       | None => false
       | Some u => let age := total_seconds (now - u) in
                   fleb (f_of_Z 0) age && fleb age max_age_seconds
       end.

Record ControlDecision := {
  allowed : bool;
  cd_reason : string;
  cd_mode : option string;
  cd_updated_at : option string;
  age_seconds : option float;
  cd_max_age_seconds : float;
}.

Definition new_entry_control_decision (raw : pydict) (now : Z) (max_age_seconds : float)
    : res ControlDecision :=
  let m := vstr_or "mode" "" raw in
  updated ← parse_timestamp (vget "updated_at" raw);
  let age := u ← updated; Some (total_seconds (now - u)) in
  let reason :=
    if negb (is_true (vget "monitoring_active" raw)) then "monitoring_inactive"
    else if negb (is_true (vget "new_entries_allowed" raw)) then "entries_not_explicitly_allowed"
    else if negb (String.eqb m (mode_value SCHWAB_PRIMARY) || String.eqb m (mode_value IBKR_FALLBACK))
    then "unsafe_failover_mode"
    else match age with
         | None => "control_timestamp_missing"
         | Some a =>
             if fltb a (fopp FUTURE_TIMESTAMP_TOLERANCE_SECONDS) then "control_timestamp_in_future"
             else if fgtb a max_age_seconds then "control_state_stale"
             else "allowed"
         end in
  Ok {| allowed := String.eqb reason "allowed"; cd_reason := reason;
        cd_mode := if String.eqb m "" then None else Some m;
        cd_updated_at := isoformat <$> updated; age_seconds := age;
        cd_max_age_seconds := max_age_seconds |}.

Definition control_allows_new_entries (raw : pydict) (now : Z) (max_age_seconds : float) : res bool :=
  allowed <$> new_entry_control_decision raw now max_age_seconds.
