(* ===== verification/FailoverFacts.v ===== *)
(** * Facts and properties of the failover machine

    The mode moves only after the configured run of observations, the
    transition log follows the mode, the persisted state reads back, and the
    entry decision fails closed. *)

From stdpp Require Import base list strings.
From Stdlib Require Import ZArith Lia.
From S2P Require Import Prelude PyStr PyFloat PyTime PyDateTime PyDict PyVal Marketdata MarketdataFacts ProviderFailover.

#[local] Open Scope Z_scope.

(** ** Streaks count the last observations *)

Definition run_failover (t : FailoverThresholds) (s : FailoverState) (os : list FailoverObservation)
    : FailoverState := fold_left (λ s o, advance_failover s o t) os s.

Lemma run_failover_snoc t s os o :
  run_failover t s (os ++ [o]) = advance_failover (run_failover t s os) o t.
Proof. unfold run_failover. by rewrite fold_left_app. Qed.

(** The last [n] observations all satisfy [p]. *)
Definition last_all (p : FailoverObservation → bool) (n : Z) (os : list FailoverObservation) : Prop :=
  ∃ pre suf, os = pre ++ suf ∧ Z.of_nat (length suf) = n ∧ Forall (λ o, p o = true) suf.

Lemma last_all_nil p : last_all p 0 [].
Proof. by exists [], []. Qed.

Lemma last_all_zero p os : last_all p 0 os.
Proof. exists os, []. by rewrite app_nil_r. Qed.

Lemma last_all_snoc p n os o : last_all p n os → p o = true → last_all p (n + 1) (os ++ [o]).
Proof.
  intros (pre & suf & -> & <- & Hs) Ho. exists pre, (suf ++ [o]).
  rewrite app_assoc, length_app. split_and!; [done|cbn; lia|].
  apply Forall_app. split; [done|]. by constructor.
Qed.

Lemma last_all_le p n m os : 0 ≤ m ≤ n → last_all p n os → last_all p m os.
Proof.
  intros Hm (pre & suf & -> & <- & Hs).
  exists (pre ++ take (length suf - Z.to_nat m) suf), (drop (length suf - Z.to_nat m) suf).
  rewrite <- app_assoc, take_drop, length_drop. split_and!; [done|lia|by apply Forall_drop].
Qed.

Definition o_not (p : FailoverObservation → bool) (o : FailoverObservation) : bool := negb (p o).

(** Every streak of a run is bounded by the matching suffix of observations. *)
Definition streaks_ok (s : FailoverState) (os : list FailoverObservation) : Prop :=
  (0 ≤ schwab_unhealthy_streak s ∧ last_all (o_not schwab_healthy) (schwab_unhealthy_streak s) os)
  ∧ (0 ≤ schwab_recovery_streak s ∧ last_all schwab_healthy (schwab_recovery_streak s) os)
  ∧ (0 ≤ ibkr_unhealthy_streak s ∧ last_all (o_not ibkr_healthy) (ibkr_unhealthy_streak s) os)
  ∧ (0 ≤ ibkr_recovery_streak s ∧ last_all ibkr_healthy (ibkr_recovery_streak s) os).

(** One streak after one observation: extended, or restarted at zero. *)
Lemma streak_step (p : FailoverObservation → bool) n os o (b : bool) :
  0 ≤ n ∧ last_all p n os → (b = true → p o = true) →
  0 ≤ (if b then n + 1 else 0) ∧ last_all p (if b then n + 1 else 0) (os ++ [o]).
Proof.
  intros [Hn Hl] Hb. destruct b; [|split; [lia|apply last_all_zero]].
  split; [lia|]. apply last_all_snoc; auto.
Qed.

Lemma zero_or p n os (b : bool) :
  0 ≤ n ∧ last_all p n os → 0 ≤ (if b then 0 else n) ∧ last_all p (if b then 0 else n) os.
Proof. intros H. destruct b; [|done]. split; [lia|apply last_all_zero]. Qed.

Lemma advance_streaks s o t os :
  streaks_ok s os → streaks_ok (advance_failover s o t) (os ++ [o]).
Proof.
  intros (H1 & H2 & H3 & H4). unfold advance_failover.
  destruct (next_mode _ _ _ _ _ _ _) as [[m r] restart]. unfold streaks_ok.
  cbn [schwab_unhealthy_streak schwab_recovery_streak ibkr_unhealthy_streak ibkr_recovery_streak].
  split; [|split; [|split]].
  - pose proof (streak_step _ _ _ o (negb (schwab_healthy o)) H1 id) as H.
    unfold o_not in *. by destruct (schwab_healthy o).
  - by apply (streak_step _ _ _ o (schwab_healthy o) H2).
  - apply zero_or, zero_or.
    pose proof (streak_step _ _ _ o (negb (bool_decide (mode s = SCHWAB_PRIMARY) || ibkr_healthy o)) H3)
      as H. unfold o_not in *.
    destruct (bool_decide (mode s = SCHWAB_PRIMARY)), (ibkr_healthy o); apply H; done.
  - apply zero_or, zero_or. by apply (streak_step _ _ _ o (ibkr_healthy o) H4).
Qed.

Lemma run_streaks t now os : streaks_ok (run_failover t (initial_state now) os) os.
Proof.
  induction os as [|o os IH] using rev_ind.
  - cbn. unfold streaks_ok. cbn. split_and!; first [lia | apply last_all_nil].
  - rewrite run_failover_snoc. by apply advance_streaks.
Qed.

(** The mode that a step chooses, and the counters it looked at. *)
Lemma advance_mode s o t :
  ∃ m r b,
    next_mode s o t
      (if schwab_healthy o then 0 else schwab_unhealthy_streak s + 1)
      (if schwab_healthy o then schwab_recovery_streak s + 1 else 0)
      (if bool_decide (mode s = SCHWAB_PRIMARY) || ibkr_healthy o then 0
       else ibkr_unhealthy_streak s + 1)
      (if ibkr_healthy o then ibkr_recovery_streak s + 1 else 0) = (m, r, b)
    ∧ mode (advance_failover s o t) = m.
Proof.
  unfold advance_failover. destruct (next_mode _ _ _ _ _ _ _) as [[m r] b]. by exists m, r, b.
Qed.

Definition thresholds_ok (t : FailoverThresholds) : Prop := check_thresholds t = Ok t.

Lemma thresholds_ok_pos t :
  thresholds_ok t → 0 < schwab_unhealthy_observations t ∧ 0 < schwab_recovery_observations t
                    ∧ 0 < ibkr_unhealthy_observations t ∧ 0 < ibkr_recovery_observations t.
Proof. unfold thresholds_ok, check_thresholds. intros H. split_if H; [|done]. bool_to_prop. done. Qed.

(** ** The properties *)

(** C8: hysteresis.  Along any run from the initial state, Schwab loses the
    primary role only after [schwab_unhealthy_observations] unhealthy
    observations in a row and regains it only after
    [schwab_recovery_observations] healthy ones in a row; IBKR takes over a
    pending or dual outage only after [ibkr_recovery_observations] healthy
    observations in a row, and both are declared down only after
    [ibkr_unhealthy_observations] unhealthy IBKR ones in a row. *)
Theorem failover_hysteresis t now os o :
  let s := run_failover t (initial_state now) os in
  let s' := run_failover t (initial_state now) (os ++ [o]) in
  mode s ≠ mode s' → thresholds_ok t →
  (mode s = SCHWAB_PRIMARY →
     last_all (o_not schwab_healthy) (schwab_unhealthy_observations t) (os ++ [o]))
  ∧ (mode s' = SCHWAB_PRIMARY →
     last_all schwab_healthy (schwab_recovery_observations t) (os ++ [o]))
  ∧ (mode s' = IBKR_FALLBACK → mode s ≠ SCHWAB_PRIMARY →
     last_all ibkr_healthy (ibkr_recovery_observations t) (os ++ [o]) ∧ schwab_healthy o = false)
  ∧ (mode s' = BOTH_UNAVAILABLE →
     last_all (o_not ibkr_healthy) (ibkr_unhealthy_observations t) (os ++ [o])
     ∧ schwab_healthy o = false).
Proof.
  cbv zeta. rewrite run_failover_snoc. pose proof (run_streaks t now os) as Hs.
  set (s := run_failover t (initial_state now) os) in *. clearbody s. intros Hne Ht.
  destruct (thresholds_ok_pos t Ht) as (T1 & T2 & T3 & T4).
  destruct Hs as (H1 & H2 & H3 & H4).
  pose proof (streak_step _ _ _ o (negb (schwab_healthy o)) H1 id) as S1.
  pose proof (streak_step _ _ _ o (schwab_healthy o) H2 id) as S2.
  assert (S3 : ibkr_healthy o = false →
    last_all (o_not ibkr_healthy) (ibkr_unhealthy_streak s + 1) (os ++ [o])).
  { intros Hi. apply last_all_snoc; [apply H3|]. unfold o_not. by rewrite Hi. }
  pose proof (streak_step _ _ _ o (ibkr_healthy o) H4 id) as S4.
  destruct (advance_mode s o t) as (m & r & b & Hm & Hmode). rewrite Hmode in *.
  unfold next_mode, o_not in *.
  destruct (mode s) eqn:Em, (schwab_healthy o) eqn:Es, (ibkr_healthy o) eqn:Ei;
    cbn -[Z.leb Z.add] in Hm, S1, S2, S4; try rewrite bool_decide_eq_true_2 in Hm by done;
    try rewrite bool_decide_eq_false_2 in Hm by done; cbn -[Z.leb Z.add] in Hm;
    repeat (split_if Hm; bool_to_prop); simplify_eq; try lia;
    split_and!; intros; try done; try congruence;
    first [ by eapply last_all_le; [|apply S1]; lia | by eapply last_all_le; [|apply S2]; lia
          | by split; [eapply last_all_le; [|apply S4]; lia|]
          | by split; [eapply last_all_le; [|by apply S3]; lia|] ].
Qed.

Definition two_each : FailoverThresholds := {|
  schwab_unhealthy_observations := 2; schwab_recovery_observations := 2;
  ibkr_unhealthy_observations := 2; ibkr_recovery_observations := 2 |}.

Definition health_obs (u : Z) (s i : bool) : FailoverObservation := {|
  observed_at := u; schwab_healthy := s; ibkr_healthy := i; schwab_reason := None;
  ibkr_reason := None |}.

Lemma failover_hysteresis_witness :
  mode (run_failover two_each (initial_state 0) [health_obs 1 false true; health_obs 2 false true])
  = IBKR_FALLBACK
  ∧ last_all (o_not schwab_healthy) 2 ([health_obs 1 false true] ++ [health_obs 2 false true]).
Proof.
  split; [vm_compute; reflexivity|].
  destruct (failover_hysteresis two_each 0 [health_obs 1 false true] (health_obs 2 false true))
    as [H _].
  - vm_compute. discriminate.
  - vm_compute. reflexivity.
  - apply H. vm_compute. reflexivity.
Defined.

(** The log entry of the last mode change. *)
Definition log_matches (s : FailoverState) : Prop :=
  match transition s with
  | None => sequence s = 0
  | Some tr => 0 < sequence s ∧ tr_sequence tr = sequence s ∧ tr_mode tr = mode s
               ∧ previous_mode tr ≠ mode s ∧ occurred_at tr ≤ updated_at s
  end.

(** the sequence number counts the mode changes and the recorded
    transition is always the last one: it names the current mode, the mode
    before it, and the time of the change. *)
Theorem failover_log_follows_mode s o t :
  log_matches s → updated_at s ≤ observed_at o →
  let s' := advance_failover s o t in
  log_matches s'
  ∧ sequence s' = sequence s + (if bool_decide (mode s' = mode s) then 0 else 1)
  ∧ (mode s' = mode s → transition s' = transition s)
  ∧ (mode s' ≠ mode s → ∃ tr, transition s' = Some tr ∧ previous_mode tr = mode s
                               ∧ occurred_at tr = observed_at o).
Proof.
  intros Hl Ht. cbv zeta. unfold advance_failover.
  destruct (next_mode _ _ _ _ _ _ _) as [[m r] b]. unfold log_matches in *.
  cbn [transition sequence mode updated_at].
  destruct (decide (m = mode s)) as [->|Hne].
  - rewrite bool_decide_eq_true_2 by done. cbn [negb]. split_and!; [|lia|done|done].
    destruct (transition s); [|done]. destruct_and!. split_and!; try done. lia.
  - rewrite bool_decide_eq_false_2 by done. cbn [negb tr_sequence tr_mode previous_mode occurred_at].
    assert (0 ≤ sequence s) by (destruct (transition s); destruct_and?; lia).
    split_and!; try done; try lia; eauto.
Qed.

Lemma failover_log_follows_mode_witness :
  ∃ tr, transition (advance_failover (plain_state RECOVERY_PENDING 0) (health_obs 5 true false)
                      {| schwab_unhealthy_observations := 2; schwab_recovery_observations := 1;
                         ibkr_unhealthy_observations := 2; ibkr_recovery_observations := 2 |})
        = Some tr ∧ previous_mode tr = RECOVERY_PENDING ∧ occurred_at tr = 5.
Proof.
  destruct (failover_log_follows_mode (plain_state RECOVERY_PENDING 0) (health_obs 5 true false)
              {| schwab_unhealthy_observations := 2; schwab_recovery_observations := 1;
                 ibkr_unhealthy_observations := 2; ibkr_recovery_observations := 2 |})
    as (_ & _ & _ & H).
  - vm_compute. reflexivity.
  - vm_compute. discriminate.
  - apply H. vm_compute. discriminate.
Defined.

(** C16: the entry decision fails closed: entries are allowed exactly when the
    control is monitoring, explicitly permits entries, is in a mode with a
    live source, and carries a timestamp that is neither missing, nor more
    than the tolerance in the future, nor older than the limit. *)
Theorem entry_decision_fails_closed raw now max_age d :
  new_entry_control_decision raw now max_age = Ok d →
  allowed d = true ↔
  vget "monitoring_active" raw = VBool true
  ∧ vget "new_entries_allowed" raw = VBool true
  ∧ vstr_or "mode" "" raw ∈ [mode_value SCHWAB_PRIMARY; mode_value IBKR_FALLBACK]
  ∧ ∃ u, parse_timestamp (vget "updated_at" raw) = Ok (Some u)
         ∧ fltb (total_seconds (now - u)) (fopp FUTURE_TIMESTAMP_TOLERANCE_SECONDS) = false
         ∧ fgtb (total_seconds (now - u)) max_age = false.
Proof.
  unfold new_entry_control_decision. intros H. apply res_bind_ok in H as (upd & Hu & H).
  assert (Hd : ∀ x, Ok x = Ok d → allowed x = true ↔ allowed d = true) by (by intros x [= ->]).
  apply Hd in H. rewrite <- H. clear H Hd. cbv beta iota zeta delta [allowed]. rewrite Hu.
  assert (Htrue : ∀ v, is_true v = true ↔ v = VBool true) by (intros [| [] | | | | |]; done).
  destruct (is_true (vget "monitoring_active" raw)) eqn:E1; cbn [negb];
    [|split; [done|]; intros (E & _); apply Htrue in E; congruence].
  destruct (is_true (vget "new_entries_allowed" raw)) eqn:E2; cbn [negb];
    [|split; [done|]; intros (_ & E & _); apply Htrue in E; congruence].
  apply Htrue in E1, E2. rewrite !elem_of_cons, elem_of_nil.
  destruct (String.eqb_spec (vstr_or "mode" "" raw) (mode_value SCHWAB_PRIMARY)) as [Em|Em];
    [|destruct (String.eqb_spec (vstr_or "mode" "" raw) (mode_value IBKR_FALLBACK)) as [Em'|Em']];
    cbn [orb negb]; [| |split; [done|intros (_ & _ & [?|[?|[]]] & _); by exfalso]];
    (destruct upd as [u|]; cbn [mbind option_bind]; [|split; [done|by intros (_ & _ & _ & ? & ? & _)]];
     destruct (fltb _ (fopp _)) eqn:F1;
       [split; [done|intros (_ & _ & _ & ? & [= <-] & ? & _); congruence]|];
     destruct (fgtb _ max_age) eqn:F2;
       [split; [done|intros (_ & _ & _ & ? & [= <-] & _ & ?); congruence]|];
     split; [intros _|done]; do 2 (split; [assumption|]); split; [by auto|by exists u]).
Qed.

Definition live_control (u : Z) : pydict :=
  [("monitoring_active", VBool true); ("new_entries_allowed", VBool true);
   ("mode", VStr "ibkr_fallback"); ("updated_at", vtime u)].

Lemma entry_decision_fails_closed_witness :
  ∃ d, new_entry_control_decision (live_control (combine 739905 0)) (combine 739905 0 + SECOND)
         (f_of_Z 30) = Ok d
       ∧ vget "monitoring_active" (live_control (combine 739905 0)) = VBool true.
Proof.
  destruct (new_entry_control_decision (live_control (combine 739905 0)) (combine 739905 0 + SECOND)
              (f_of_Z 30)) as [d|e] eqn:E; [|vm_compute in E; discriminate E].
  exists d. split; [reflexivity|].
  apply (entry_decision_fails_closed (live_control (combine 739905 0)) (combine 739905 0 + SECOND)
           (f_of_Z 30) d E).
  vm_compute in E. injection E as <-. reflexivity.
Defined.

(** ** The persisted state *)

Definition trimmed (r : option string) : bool :=
  match r with Some s => negb (String.eqb s "") && String.eqb (str_strip s) s | None => true end.

Record state_wf (s : FailoverState) : Prop := {
  swf_updated : instant_in_range (updated_at s) = true;
  swf_reasons : trimmed (last_schwab_reason s) && trimmed (last_ibkr_reason s) = true;
  swf_transition : ∀ t, transition s = Some t → instant_in_range (occurred_at t) = true;
}.

Lemma optional_text_trimmed r : trimmed r = true → optional_text (v_opt_str r) = r.
Proof.
  destruct r as [s|]; [|done]. cbn [trimmed]. intros H. bool_to_prop.
  cbn [v_opt_str optional_text py_str]. apply String.eqb_eq in H0 as ->. by rewrite H.
Qed.

Lemma int_or_zero_int k z d : vget k d = VInt z → int_or_zero k d = Ok z.
Proof. unfold int_or_zero. intros ->. unfold v_or. cbn. by destruct (Z.eqb_spec z 0) as [->|]. Qed.

Lemma transition_roundtrip t :
  instant_in_range (occurred_at t) = true →
  transition_from_value (VDict (transition_to_dict t)) = Ok (Some t).
Proof.
  intros H. unfold transition_from_value, transition_to_dict.
  rewrite (int_or_zero_int "sequence" (tr_sequence t)) by reflexivity.
  rewrite (vstr_or_literal "transition_id" "" (transition_id t)) by done.
  rewrite (vstr_or_literal "reason" "" (tr_reason t)) by done.
  unfold dindex. lookup. cbn [of_option py_str mbind res_bind].
  rewrite parse_timestamp_vtime by done. cbn [mbind res_bind].
  change (mode_value ?m) with (enum_value m). rewrite !enum_parse_value. by destruct t.
Qed.

(** the failover state survives its persisted form. *)
Theorem failover_state_roundtrip s :
  state_wf s → state_from_dict (state_to_dict s) = Ok s.
Proof.
  intros [Hu Hr Ht]. bool_to_prop. unfold state_from_dict.
  assert (Etr : transition_from_value (vget "transition" (state_to_dict s)) = Ok (transition s)).
  { change (vget "transition" _) with
      (match transition s with Some t => VDict (transition_to_dict t) | None => VNone end).
    destruct (transition s) as [t|]; [|done]. by apply transition_roundtrip, Ht. }
  rewrite Etr. cbn [mbind res_bind].
  change (vget "updated_at" (state_to_dict s)) with (vtime (updated_at s)).
  rewrite parse_timestamp_vtime by done. cbn [mbind res_bind of_option].
  rewrite (vstr_or_literal "mode" _ (mode_value (mode s))) by (first [reflexivity|by destruct (mode s)]).
  rewrite (int_or_zero_int "sequence" (sequence s)) by reflexivity.
  rewrite (int_or_zero_int "schwab_unhealthy_streak" (schwab_unhealthy_streak s)) by reflexivity.
  rewrite (int_or_zero_int "schwab_recovery_streak" (schwab_recovery_streak s)) by reflexivity.
  rewrite (int_or_zero_int "ibkr_unhealthy_streak" (ibkr_unhealthy_streak s)) by reflexivity.
  rewrite (int_or_zero_int "ibkr_recovery_streak" (ibkr_recovery_streak s)) by reflexivity.
  change (vget "last_schwab_reason" _) with (v_opt_str (last_schwab_reason s)).
  change (vget "last_ibkr_reason" _) with (v_opt_str (last_ibkr_reason s)).
  rewrite !optional_text_trimmed by done.
  change (mode_value ?m) with (enum_value m). rewrite enum_parse_value. by destruct s.
Qed.

Lemma failover_state_roundtrip_witness :
  state_from_dict (state_to_dict (plain_state RECOVERY_PENDING (combine 739905 0)))
  = Ok (plain_state RECOVERY_PENDING (combine 739905 0)).
Proof.
  apply (failover_state_roundtrip (plain_state RECOVERY_PENDING (combine 739905 0))).
  split; [vm_compute; reflexivity|vm_compute; reflexivity|]. intros t Ht. discriminate Ht.
Defined.
