(* ===== verification/FailoverController.v ===== *)
(** * The failover controller ([provider_failover_controller.py])

    It judges each provider from the latest stored state, advances the failover
    machine and persists the control file.  The file's content is what a JSON
    reader sees of it; the calendar is the [SessionClock] interface. *)

From stdpp Require Import base list strings.
From Stdlib Require Import ZArith Lia.
From S2P Require Import Prelude PyStr PyFloat PyTime PyDateTime PyDict PyVal MarketCalendar SessionClock Marketdata ProviderFailover.

#[local] Open Scope Z_scope.

Record LatestState := {
  as_of : Z;
  ls_quotes : list Quote;
  ls_provider_states : list ProviderState;
}.

Record ProviderFailoverSettings := {
  enabled : bool;
  required_instruments : list string;
  globex_required_instruments : list string;
  provider_state_max_age_seconds : float;
  quote_max_age_seconds : float;
  control_state_max_age_seconds : float;
  transition_alert_max_age_seconds : float;
  monitor_rth_only : bool;
  thresholds : FailoverThresholds;
  gth_min_live_option_contracts : Z;
  gth_option_quote_max_age_seconds : float;
}.

(** [ProviderFailoverSettings.__post_init__]. *)
Definition check_failover_settings (s : ProviderFailoverSettings) : res ProviderFailoverSettings :=
  let positive x := negb (fleb x (f_of_Z 0)) in
  if negb (bool_decide (required_instruments s = []))
     && negb (bool_decide (globex_required_instruments s = []))
     && bool_decide (NoDup (required_instruments s))
     && positive (provider_state_max_age_seconds s) && positive (quote_max_age_seconds s)
     && positive (gth_option_quote_max_age_seconds s) && positive (control_state_max_age_seconds s)
     && positive (transition_alert_max_age_seconds s) && (2 <=? gth_min_live_option_contracts s)
  then Ok s else Err ValueError.

Record ProviderHealth := { healthy : bool; ph_reason : string }.

(** [reason or default] for a textual reason. *)
Definition reason_or (v : pyval) (dflt : string) : string := py_str (v_or v (VStr dflt)).

(** [max(states of the provider, key=checked_at)]. *)
Definition latest_provider_state (s : LatestState) (p : Provider) : option ProviderState :=
  max_by (λ a b, checked_at b <? checked_at a)
         (filter (λ st, ps_provider st = p) (ls_provider_states s)).

Definition age_in (age limit : float) : bool := fleb (f_of_Z 0) age && fleb age limit.

Definition transport_health (s : LatestState) (p : Provider) (max_age : float) : ProviderHealth :=
  match latest_provider_state s p with
  | None => {| healthy := false; ph_reason := "provider state missing" |}
  | Some latest =>
      let age := total_seconds (as_of s - checked_at latest) in
      if negb (age_in age max_age)
      then {| healthy := false; ph_reason := "provider state age " +:+ f_fixed 1 age +:+ "s" |}
      else if bool_decide (connected latest = Some false)
      then {| healthy := false; ph_reason := reason_or (ps_reason latest) "transport disconnected" |}
      else if bool_decide (authenticated latest = Some false)
      then {| healthy := false;
              ph_reason := reason_or (ps_reason latest) "provider authentication failed" |}
      else {| healthy := true;
              ph_reason := "transport connected and authenticated ("
                           +:+ status_value (ps_status latest) +:+ ")" |}
  end.

Definition health_payload (h : ProviderHealth) (required : bool) : pyval :=
  VDict [("healthy", VBool (healthy h)); ("required", VBool required); ("reason", VStr (ph_reason h))].

(** ** The control file *)

Definition load_failover_state (file : FileContent) (now : Z) : res FailoverState :=
  let pending := plain_state RECOVERY_PENDING now in
  match file with
  | NoFile => Ok (initial_state now)
  | Unreadable | Undecodable => Ok pending
  | Json v =>
      try_except (match v with VDict raw => state_from_dict raw | _ => Err ValueError end)
                 [IOFailure; ValueError; KeyError; TypeError] (Ok pending)
  end.

Definition load_failover_control (file : FileContent) : pydict :=
  match file with Json (VDict raw) => raw | _ => [] end.

(** The payload that [save_failover_state] writes. *)
Definition control_payload (state : FailoverState) (monitoring_active : bool)
    (monitoring_context : string) (health_dimensions : option pydict)
    (extra_control : option pydict) : pydict :=
  let gth := String.eqb monitoring_context "gth" in
  let payload := dset "monitoring_context" (VStr monitoring_context)
                   (dset "monitoring_active" (VBool monitoring_active) (state_to_dict state)) in
  let payload := dset "ibkr_market_data_required"
                   (VBool (monitoring_active && ibkr_market_data_required state)) payload in
  let payload := dset "new_entries_allowed"
                   (VBool (monitoring_active
                           && bool_decide (mode state ∈ [SCHWAB_PRIMARY; IBKR_FALLBACK]))) payload in
  let payload := dset "preferred_option_provider" (VStr (if gth then "ibkr" else "schwab")) payload in
  let payload := dset "selection_policy"
                   (VStr (if gth then "ibkr_gth_primary" else "schwab_primary_with_ibkr_fallback"))
                   payload in
  let payload := match health_dimensions with
                 | Some h => dset "health_dimensions" (VDict h) payload
                 | None => payload
                 end in
  match extra_control with Some e => dmerge payload e | None => payload end.

(** ** Provider health *)

Definition BAD_FEEDS : list MarketDataQuality :=
  [FROZEN; DELAYED; DELAYED_FROZEN; MISSING; ERROR; QUALITY_UNKNOWN; SYNTHETIC].

Definition source_at (q : Quote) : Z :=
  default (default (default (received_at q) (last_update_at q)) (trade_time q)) (quote_time q).

Definition latest_quote_for_provider (s : LatestState) (instrument_id : string) (p : Provider)
    : res (option Quote) :=
  matches ← res_filter (λ q, m ← instrument_matches_id (instrument q) instrument_id;
                             Ok (m && bool_decide (provider q = p))) (ls_quotes s);
  Ok (max_by (λ a b, received_at b <? received_at a) matches).

Definition quote_rejected (s : LatestState) (q : Quote) (max_age : float) : bool :=
  let age := total_seconds (as_of s - source_at q) in
  let delayed := str_contains "delayed" (str_lower (py_str (v_or (market_data_type q) (VStr "")))) in
  negb (has_price q) || delayed || bool_decide (quality q ∈ BAD_FEEDS)
  || fltb age (f_of_Z 0) || fgtb age max_age.

(** The two lists of the anchor loop: missing ids and rejection notes. *)
Fixpoint judge_anchors (s : LatestState) (p : Provider) (max_age : float) (ids : list string)
    : res (list string * list string) :=
  match ids with
  | [] => Ok ([], [])
  | id :: ids =>
      found ← latest_quote_for_provider s id p;
      rest ← judge_anchors s p max_age ids;
      Ok match found with
         | None => (id :: rest.1, rest.2)
         | Some q =>
             if quote_rejected s q max_age then
               (rest.1, (id +:+ ":age=" +:+ f_fixed 1 (total_seconds (as_of s - source_at q))
                         +:+ ":quality=" +:+ quality_value (quality q)) :: rest.2)
             else rest
         end
  end.

Definition provider_health (s : LatestState) (p : Provider) (required : list string)
    (state_max_age quote_max_age : float) : res ProviderHealth :=
  let degraded :=
    match latest_provider_state s p with
    | Some latest =>
        if age_in (total_seconds (as_of s - checked_at latest)) state_max_age
           && bool_decide (ps_status latest ∈ [DEGRADED; UNAVAILABLE])
        then Some (reason_or (ps_reason latest) "provider degraded or unavailable") else None
    | None => None
    end in
  match degraded with
  | Some reason => Ok {| healthy := false; ph_reason := reason |}
  | None =>
      judged ← judge_anchors s p quote_max_age required;
      Ok match judged with
         | ([], []) => {| healthy := true; ph_reason := "required live anchors are fresh" |}
         | ([], rejected) => {| healthy := false;
                                ph_reason := "unusable " +:+ str_join "," rejected |}
         | (missing, _) => {| healthy := false; ph_reason := "missing " +:+ str_join "," missing |}
         end
  end.

(** ** The GTH option surface *)

(** [pairs.setdefault(strike, set()).add(right)]. *)
Fixpoint add_side (k : float) (r : OptionRight) (pairs : list (float * (bool * bool)))
    : list (float * (bool * bool)) :=
  let mark (s : bool * bool) := match r with CALL => (true, s.2) | PUT => (s.1, true) end in
  match pairs with
  | [] => [(k, mark (false, false))]
  | (k', s) :: pairs =>
      if feqb k k' then (k', mark s) :: pairs else (k', s) :: add_side k r pairs
  end.

Definition complete_pairs (pairs : list (float * (bool * bool))) : Z :=
  Z.of_nat (length (filter (λ kv, kv.2.1 && kv.2.2 = true) pairs)).

(** A quote of the session's SPXW surface: its strike, side and contract. *)
Definition surface_contract (s : LatestState) (p : Provider) (expiry_text : string)
    (max_age : float) (q : Quote) : res (option (float * OptionRight * string)) :=
  let i := instrument q in
  if negb (bool_decide (provider q = p)) then Ok None
  else
    tc ← of_option AttributeError (str_of (v_or (trading_class i) (VStr "")));
    if negb (String.eqb (str_upper tc) "SPXW") || negb (is_str expiry_text (expiry i)) then Ok None
    else match strike i, right i, effective_price q with
         | Some k, Some r, Some _ =>
             let age := total_seconds (as_of s - source_at q) in
             if bool_decide (quality q ∈ BAD_FEEDS) || negb (age_in age max_age) then Ok None
             else cid ← canonical_id i; Ok (Some (k, r, cid))
         | _, _, _ => Ok None
         end.

Section controller.
Context `{SessionClock}.

Definition gth_option_health (s : LatestState) (p : Provider) (min_contracts : Z)
    (max_age : float) : res ProviderHealth :=
  day ← clock_research_expiry (as_of s);
  rows ← res_mapM (surface_contract s p (strftime_ymd day) max_age) (ls_quotes s);
  let rows := omap id rows in
  let pairs := fold_left (λ acc row, add_side row.1.1 row.1.2 acc) rows [] in
  let contracts := Z.of_nat (length (dedup_keep_first [] (map snd rows))) in
  let complete := complete_pairs pairs in
  let required_pairs := Z.max (min_contracts / 2) 1 in
  Ok (if (contracts <? min_contracts) || (complete <? required_pairs) then
        {| healthy := false;
           ph_reason := "GTH SPXW coverage " +:+ str_of_Z contracts +:+ "/"
                        +:+ str_of_Z min_contracts +:+ " contracts, " +:+ str_of_Z complete +:+ "/"
                        +:+ str_of_Z required_pairs +:+ " complete pairs" |}
      else
        {| healthy := true;
           ph_reason := "GTH live ES plus " +:+ str_of_Z contracts +:+ " SPXW contracts/"
                        +:+ str_of_Z complete +:+ " pairs" |}).

Definition monitoring_active_at (now : Z) (rth_only : bool) : res bool :=
  rth ← clock_rth_open now;
  if rth : bool then Ok true
  else if rth_only then Ok false else clock_globex_open now.

Definition monitoring_context_at (now : Z) (rth_only : bool) : res string :=
  rth ← clock_rth_open now;
  if rth : bool then Ok "rth"
  else if rth_only then Ok "closed"
  else
    gth ← clock_gth_open now;
    if gth : bool then Ok "gth"
    else globex ← clock_globex_open now; Ok (if globex : bool then "globex" else "closed").

(** ** Dual-source incidents *)

Definition INCIDENT_THRESHOLD : float := f_of_Z 15.

Definition dual_source_incident (previous : pyval) (now : Z) (schwab_ok ibkr_ok : bool)
    (schwab_reason ibkr_reason : string) : res pydict :=
  let prior := default [] (dict_of previous) in
  started ← iso_utc (vget "started_at" prior);
  if negb schwab_ok && negb ibkr_ok then
    let started := default now started in
    let duration := fmax (total_seconds (now - started)) (f_of_Z 0) in
    Ok [("status", VStr (if fgeb duration INCIDENT_THRESHOLD then "active" else "pending"));
        ("incident_id", VStr ("dual-source:" +:+ strftime_ymd (wall_date started) +:+ "T"
                              +:+ strftime_hms (wall_time started) +:+ "Z"));
        ("started_at", vtime started); ("duration_seconds", VFloat (f_round 3 duration));
        ("recording_threshold_seconds", VFloat INCIDENT_THRESHOLD);
        ("schwab_reason", VStr schwab_reason); ("ibkr_reason", VStr ibkr_reason);
        ("ibkr_competing_session",
         VBool (str_contains "10197" ibkr_reason
                || str_contains "competing session" (str_lower ibkr_reason)));
        ("price_fill_policy", VStr "no_manual_or_synthetic_fill")]
  else
    match started with
    | Some u =>
        if is_str "pending" (vget "status" prior) || is_str "active" (vget "status" prior) then
          Ok (dset "duration_seconds"
                (VFloat (f_round 3 (fmax (total_seconds (now - u)) (f_of_Z 0))))
                (dset "recovered_at" (vtime now) (dset "status" (VStr "recovered") prior)))
        else Ok [("status", VStr "inactive"); ("recording_threshold_seconds", VFloat INCIDENT_THRESHOLD)]
    | None => Ok [("status", VStr "inactive"); ("recording_threshold_seconds", VFloat INCIDENT_THRESHOLD)]
    end.

(** ** One evaluation *)

(** The state re-derived at a session boundary: the mode follows the active
    context, the streaks carry over. *)
Definition boundary_state (current : FailoverState) (context : string) (ibkr_ok : bool) (now : Z)
    : FailoverState := {|
  mode := if String.eqb context "gth" then if ibkr_ok then IBKR_FALLBACK else RECOVERY_PENDING
          else SCHWAB_PRIMARY;
  updated_at := now; sequence := sequence current;
  schwab_unhealthy_streak := schwab_unhealthy_streak current;
  schwab_recovery_streak := schwab_recovery_streak current;
  ibkr_unhealthy_streak := ibkr_unhealthy_streak current;
  ibkr_recovery_streak := ibkr_recovery_streak current;
  last_schwab_reason := None; last_ibkr_reason := None; transition := None |}.

Definition provider_dimensions (transport anchors options : ProviderHealth) (gth : bool) : pyval :=
  VDict [("transport", health_payload transport true); ("anchors", health_payload anchors true);
         ("gth_options", health_payload options gth)].

Definition evaluate_and_persist (latest : LatestState) (settings : ProviderFailoverSettings)
    (file : FileContent) : res (FailoverState * FileContent) :=
  let control := load_failover_control file in
  let now := as_of latest in
  current ← load_failover_state file now;
  active ← (if enabled settings then monitoring_active_at now (monitor_rth_only settings)
            else Ok false);
  if negb active then
    let inactive := initial_state now in
    Ok (inactive, Json (VDict (control_payload inactive false "closed" None None)))
  else
    context ← monitoring_context_at now (monitor_rth_only settings);
    let gth := String.eqb context "gth" in
    let required := if String.eqb context "rth" then required_instruments settings
                    else globex_required_instruments settings in
    let state_age := provider_state_max_age_seconds settings in
    let schwab_transport := transport_health latest SCHWAB state_age in
    let ibkr_transport := transport_health latest IBKR state_age in
    schwab_anchors ← provider_health latest SCHWAB required state_age (quote_max_age_seconds settings);
    ibkr_anchors ← provider_health latest IBKR required state_age (quote_max_age_seconds settings);
    let not_required := {| healthy := true; ph_reason := "not required outside GTH" |} in
    let options p := if gth then gth_option_health latest p (gth_min_live_option_contracts settings)
                                   (gth_option_quote_max_age_seconds settings)
                     else Ok not_required in
    schwab_options ← options SCHWAB;
    ibkr_options ← options IBKR;
    let ibkr := if gth && healthy ibkr_anchors then ibkr_options else ibkr_anchors in
    let schwab := if gth then {| healthy := false;
                                 ph_reason := "IBKR is the configured GTH SPXW primary" |}
                  else schwab_anchors in
    let previous_context := vstr_or "monitoring_context" "" control in
    let context_changed := negb (String.eqb previous_context "")
                           && negb (String.eqb previous_context context) in
    let current := if context_changed || (gth && bool_decide (mode current = SCHWAB_PRIMARY))
                   then boundary_state current context (healthy ibkr) now else current in
    let updated := advance_failover current
                     {| observed_at := now; schwab_healthy := healthy schwab;
                        ibkr_healthy := healthy ibkr; schwab_reason := Some (ph_reason schwab);
                        ibkr_reason := Some (ph_reason ibkr) |} (thresholds settings) in
    incident ← dual_source_incident (vget "dual_source_incident" control) now
                 (healthy schwab_anchors) (healthy ibkr_anchors)
                 (ph_reason schwab_anchors) (ph_reason ibkr_anchors);
    let dimensions :=
      [("schwab", provider_dimensions schwab_transport schwab_anchors schwab_options gth);
       ("ibkr", provider_dimensions ibkr_transport ibkr_anchors ibkr_options gth)] in
    Ok (updated, Json (VDict (control_payload updated true context (Some dimensions)
                                (Some [("dual_source_incident", VDict incident)])))).
End controller.
