(* ===== verification/ControllerProps.v ===== *)
(** * Properties of the failover controller

    One evaluation of the controller, from the stored file to the file it
    writes back: what an overnight session, an unreadable file and a closed
    market each lead to, and when the written file lets a reader open entries. *)

From stdpp Require Import base list strings.
From Stdlib Require Import ZArith Lia.
From S2P Require Import Prelude PyStr PyFloat PyTime PyDateTime PyDict PyVal MarketCalendar SessionClock Marketdata MarketdataFacts ProviderFailover FailoverFacts FailoverController.

#[local] Open Scope Z_scope.

(** ** What a written control file says *)

Definition incident_only (extra : option pydict) : Prop :=
  extra = None ∨ ∃ v, extra = Some [("dual_source_incident", v)].

Definition entry_modes : list FailoverMode := [SCHWAB_PRIMARY; IBKR_FALLBACK].

Lemma control_payload_flags s active context dims extra :
  incident_only extra →
  let p := control_payload s active context dims extra in
  vget "monitoring_active" p = VBool active
  ∧ vget "new_entries_allowed" p = VBool (active && bool_decide (mode s ∈ entry_modes))
  ∧ vget "monitoring_context" p = VStr context
  ∧ vget "mode" p = VStr (mode_value (mode s))
  ∧ vget "updated_at" p = vtime (updated_at s)
  ∧ vget "preferred_option_provider" p
    = VStr (if String.eqb context "gth" then "ibkr" else "schwab").
Proof.
  intros He p. subst p. unfold control_payload, entry_modes, dmerge.
  destruct He as [->|[v ->]], dims; cbn [fold_left fst snd]; vget_simpl; by split_and!.
Qed.

(** Reading the file back right after it was written. *)
Lemma read_back_decision s active context dims extra now max_age :
  incident_only extra → instant_in_range (updated_at s) = true →
  let p := control_payload s active context dims extra in
  ∃ d, new_entry_control_decision p now max_age = Ok d
       ∧ (allowed d = true ↔
            active = true ∧ mode s ∈ entry_modes
            ∧ fltb (total_seconds (now - updated_at s)) (fopp FUTURE_TIMESTAMP_TOLERANCE_SECONDS) = false
            ∧ fgtb (total_seconds (now - updated_at s)) max_age = false).
Proof.
  intros He Hr p. destruct (control_payload_flags s active context dims extra He)
    as (Ha & Hn & _ & Hm & Hu & _). fold p in Ha, Hn, Hm, Hu. clearbody p. clear He.
  unfold new_entry_control_decision, vstr_or. rewrite Ha, Hn, Hm, Hu, parse_timestamp_vtime by done.
  eexists. split; [reflexivity|]. cbn [allowed mbind option_bind is_true is_false].
  destruct active; cbn [andb negb]; [|split; [done|by intros []]].
  assert (Hd : bool_decide (mode s ∈ entry_modes) = String.eqb (mode_value (mode s)) "schwab_primary"
                 || String.eqb (mode_value (mode s)) "ibkr_fallback") by by destruct (mode s).
  destruct (bool_decide_reflect (mode s ∈ entry_modes)) as [Hin|Hin]; cbn [negb].
  - replace (py_str _) with (mode_value (mode s)) by by destruct (mode s).
    symmetry in Hd. cbn [mode_value] in *. rewrite Hd. cbn [negb].
    destruct (fltb _ (fopp _)), (fgtb _ max_age); split; try done; by intros (_ & _ & ? & ?).
  - split; [done|]. by intros (_ & ? & _).
Qed.

(** ** The shape of one evaluation *)

Section evaluate.
Context `{SessionClock}.

(** The state an active evaluation advances: re-derived at a session boundary
    and when an overnight session finds Schwab in the primary role. *)
Definition evaluated_from (loaded start : FailoverState) (context : string) (now : Z) : Prop :=
  (start = loaded ∧ (context = "gth" → mode loaded ≠ SCHWAB_PRIMARY))
  ∨ ∃ ibkr_ok, start = boundary_state loaded context ibkr_ok now.

Lemma evaluate_cases latest settings file s' file' :
  evaluate_and_persist latest settings file = Ok (s', file') →
  let now := as_of latest in
  ∃ loaded, load_failover_state file now = Ok loaded ∧
  ((s' = initial_state now ∧ file' = Json (VDict (control_payload s' false "closed" None None))
    ∧ (enabled settings = false ∨ monitoring_active_at now (monitor_rth_only settings) = Ok false))
   ∨ ∃ context start o dims incident,
       enabled settings = true ∧ monitoring_active_at now (monitor_rth_only settings) = Ok true
       ∧ monitoring_context_at now (monitor_rth_only settings) = Ok context
       ∧ evaluated_from loaded start context now
       ∧ (vstr_or "monitoring_context" "" (load_failover_control file) = "" →
          context ≠ "gth" ∨ mode loaded ≠ SCHWAB_PRIMARY → start = loaded)
       ∧ observed_at o = now ∧ (context = "gth" → schwab_healthy o = false)
       ∧ s' = advance_failover start o (thresholds settings)
       ∧ file' = Json (VDict (control_payload s' true context (Some dims)
                                (Some [("dual_source_incident", incident)])))).
Proof.
  unfold evaluate_and_persist. cbv zeta. intros E.
  apply res_bind_ok in E as (loaded & Hl & E). exists loaded. split; [done|].
  apply res_bind_ok in E as (active & Ha & E).
  destruct active; cbn [negb] in E.
  2:{ left. injection E as <- <-. split_and!; try done.
      destruct (enabled settings); [by right|by left]. }
  right. destruct (enabled settings); [|done].
  apply res_bind_ok in E as (context & Hc & E). exists context.
  repeat (apply res_bind_ok in E as (? & ? & E)).
  injection E as Hs Hf. rewrite Hs in Hf.
  match type of Hs with advance_failover ?st ?o _ = _ => exists st, o end.
  eexists _, _. do 3 (split; [done|]).
  split; [|split; [|split; [|split; [|split; [by symmetry|by symmetry]]]]].
  - unfold evaluated_from. clear.
    match goal with |- context [if ?b then boundary_state _ _ _ _ else _] => destruct b eqn:Eb end;
      [right; by eexists|]. left. split; [done|]. intros ->.
    bool_to_prop. cbn in *. by bool_to_prop.
  - intros -> Hor. cbn [String.eqb negb andb orb].
    destruct (String.eqb_spec context "gth") as [->|]; cbn [andb]; [|done].
    by rewrite bool_decide_eq_false_2 by by destruct Hor.
  - done.
  - intros ->. done.
Qed.

Lemma evaluate_written latest settings file s' file' :
  evaluate_and_persist latest settings file = Ok (s', file') →
  updated_at s' = as_of latest ∧
  ∃ active context dims extra,
    incident_only extra ∧ file' = Json (VDict (control_payload s' active context dims extra))
    ∧ (active = true ↔ enabled settings = true
         ∧ monitoring_active_at (as_of latest) (monitor_rth_only settings) = Ok true).
Proof.
  intros (loaded & _ & [(-> & -> & Hoff)|(context & start & o & dims & inc & En & Ha & Hc & _ & _ & Ho & _ & -> & ->)])%evaluate_cases.
  - split; [done|]. exists false, "closed", None, None. split_and!; [by left|done|].
    split; [done|]. intros []. destruct Hoff; congruence.
  - split.
    + unfold advance_failover. destruct (next_mode _ _ _ _ _ _ _) as [[? ?] ?]. done.
    + exists true, context, (Some dims), (Some [("dual_source_incident", inc)]).
      split_and!; [right; by eexists|done..].
Qed.

Lemma gth_context now :
  clock_supported now → clock_gth_open now = Ok true →
  monitoring_active_at now false = Ok true ∧ monitoring_context_at now false = Ok "gth".
Proof.
  intros Hs Hg. destruct (clock_total now Hs) as (rth & gth & globex & e & Er & Eg & Eo & _ & Hx & Hi).
  unfold monitoring_active_at, monitoring_context_at. rewrite Er, Hg, Eo. cbn [mbind res_bind].
  assert (gth = true) as -> by congruence.
  destruct rth; [by discriminate Hx|]. by rewrite Hi.
Qed.

(** A failover step never promotes an unhealthy Schwab. *)
Lemma advance_not_promoted s o t :
  mode s ≠ SCHWAB_PRIMARY → schwab_healthy o = false →
  mode (advance_failover s o t) ≠ SCHWAB_PRIMARY.
Proof.
  intros Hm Ho. destruct (advance_mode s o t) as (m & r & b & E & ->).
  unfold next_mode in E. rewrite Ho in E. cbn [andb negb] in E.
  destruct (mode s); [done|..]; repeat split_if E; by simplify_eq.
Qed.

(** C33: overnight the controller never leaves Schwab in the primary role: the
    new mode is another one, the written file prefers IBKR's options, and it
    permits new entries exactly while IBKR's overnight surface is live. *)
Theorem controller_gth_never_schwab latest settings file s' file' :
  evaluate_and_persist latest settings file = Ok (s', file') →
  enabled settings = true → monitor_rth_only settings = false →
  clock_supported (as_of latest) → clock_gth_open (as_of latest) = Ok true →
  mode s' ≠ SCHWAB_PRIMARY
  ∧ ∃ p, file' = Json (VDict p)
         ∧ vget "monitoring_context" p = VStr "gth"
         ∧ vget "preferred_option_provider" p = VStr "ibkr"
         ∧ vget "new_entries_allowed" p = VBool (bool_decide (mode s' = IBKR_FALLBACK)).
Proof.
  intros E Hen Hr Hs Hg. destruct (gth_context _ Hs Hg) as [Ha Hc].
  apply evaluate_cases in E as (loaded & _ & [(_ & _ & Hoff)|(context & start & o & dims & inc & _ & _ & Hc' & Hst & _ & _ & Ho & -> & ->)]).
  { exfalso. rewrite Hr in Hoff. destruct Hoff; congruence. }
  rewrite Hr in Hc'. assert (context = "gth") as -> by congruence.
  assert (Hmode : mode (advance_failover start o (thresholds settings)) ≠ SCHWAB_PRIMARY).
  { apply advance_not_promoted; [|auto].
    destruct Hst as [[-> Hl]|[ok ->]]; [auto|]. unfold boundary_state. by destruct ok. }
  split; [done|]. eexists. split; [done|].
  destruct (control_payload_flags (advance_failover start o (thresholds settings)) true "gth"
              (Some dims) (Some [("dual_source_incident", inc)])) as (_ & Hn & Hcx & _ & _ & Hp);
    [by right; eexists|].
  rewrite Hn, Hcx, Hp. split_and!; [done..|]. f_equal. unfold entry_modes.
  cbn [andb]. apply bool_decide_ext. revert Hmode. generalize (mode (advance_failover start o (thresholds settings))).
  intros m Hm. rewrite !elem_of_cons, elem_of_nil. naive_solver.
Qed.

(** A file that cannot be read fails closed: with recovery runs of at
    least two observations, the first evaluation after it permits no new
    entries, whatever the session and the health of the providers, and an
    open market leaves both sources unconfirmed. *)
Theorem controller_unreadable_denies_entries latest settings s' file' :
  evaluate_and_persist latest settings Unreadable = Ok (s', file') →
  2 ≤ schwab_recovery_observations (thresholds settings) →
  2 ≤ ibkr_recovery_observations (thresholds settings) →
  (∃ p, file' = Json (VDict p) ∧ vget "new_entries_allowed" p = VBool false)
  ∧ (enabled settings = true →
     monitoring_active_at (as_of latest) (monitor_rth_only settings) = Ok true →
     mode s' ∈ [RECOVERY_PENDING; BOTH_UNAVAILABLE]).
Proof.
  intros E H1 H2.
  apply evaluate_cases in E as (loaded & Hl & [(-> & -> & Hoff)|(context & start & o & dims & inc & _ & Ha & _ & _ & Hst & _ & _ & -> & ->)]).
  { split; [|destruct Hoff; congruence]. by eexists. }
  injection Hl as <-. rewrite Hst by (done || by right). clear Hst.
  assert (Hmode : mode (advance_failover (plain_state RECOVERY_PENDING (as_of latest)) o
                          (thresholds settings)) ∈ [RECOVERY_PENDING; BOTH_UNAVAILABLE]).
  { destruct (advance_mode (plain_state RECOVERY_PENDING (as_of latest)) o (thresholds settings))
      as (m & r & b & E & ->).
    unfold next_mode in E. cbn -[Z.leb Z.add] in E.
    destruct (schwab_healthy o), (ibkr_healthy o); cbn -[Z.leb Z.add] in E;
      repeat (split_if E; bool_to_prop); simplify_eq; try lia; in_list. }
  split; [|done]. eexists. split; [done|].
  destruct (control_payload_flags (advance_failover (plain_state RECOVERY_PENDING (as_of latest)) o
              (thresholds settings)) true context (Some dims) (Some [("dual_source_incident", inc)]))
    as (_ & -> & _); [by right; eexists|].
  f_equal. cbn [andb]. apply bool_decide_eq_false_2. unfold entry_modes.
  revert Hmode. rewrite !elem_of_cons, !elem_of_nil.
  intros [?|[?|[]]] [?|[?|[]]]; congruence.
Qed.

(** C5: end to end.  The file an evaluation writes, read back later by the
    entry gate, allows entries exactly when the market was being monitored, the
    mode has a live source, and the file is neither from the future nor older
    than the limit. *)
Theorem controller_entries_end_to_end latest settings file s' p now max_age :
  evaluate_and_persist latest settings file = Ok (s', Json (VDict p)) →
  instant_in_range (as_of latest) = true →
  ∃ d active,
    new_entry_control_decision (load_failover_control (Json (VDict p))) now max_age = Ok d
    ∧ vget "monitoring_active" p = VBool active
    ∧ (active = true ↔ enabled settings = true
         ∧ monitoring_active_at (as_of latest) (monitor_rth_only settings) = Ok true)
    ∧ (allowed d = true ↔
         active = true ∧ mode s' ∈ entry_modes
         ∧ fltb (total_seconds (now - as_of latest)) (fopp FUTURE_TIMESTAMP_TOLERANCE_SECONDS) = false
         ∧ fgtb (total_seconds (now - as_of latest)) max_age = false).
Proof.
  intros E Hr. destruct (evaluate_written _ _ _ _ _ E) as (Hu & active & context & dims & extra & He & Hp & Hact).
  rewrite <- Hu in Hr. injection Hp as ->.
  destruct (read_back_decision s' active context dims extra now max_age He Hr) as (d & Hd & Hiff).
  destruct (control_payload_flags s' active context dims extra He) as (Ha & _).
  exists d, active. by rewrite Hu in Hiff.
Qed.
End evaluate.

(** ** Evaluations at concrete moments *)

Definition eastern_standard (u : Z) : Z := u - 5 * 3600 * SECOND.
Definition empty_latest (u : Z) : LatestState := {|
  as_of := u; ls_quotes := []; ls_provider_states := [] |}.
Definition plain_settings : ProviderFailoverSettings := {|
  enabled := true; required_instruments := ["index:SPX"]; globex_required_instruments := ["future:ES"];
  provider_state_max_age_seconds := f_of_Z 30; quote_max_age_seconds := f_of_Z 30;
  control_state_max_age_seconds := f_of_Z 30; transition_alert_max_age_seconds := f_of_Z 300;
  monitor_rth_only := false; thresholds := two_each; gth_min_live_option_contracts := 20;
  gth_option_quote_max_age_seconds := f_of_Z 30 |}.

(** 2026-01-06, 03:00 and 10:00 in New York. *)
Definition overnight : Z := combine (ymd2ord 2026 1 6) (time_hm 8 0).
Definition morning : Z := combine (ymd2ord 2026 1 6) (time_hm 15 0).

Definition evaluate_at (u : Z) (file : FileContent) : res (FailoverState * FileContent) :=
  @evaluate_and_persist (calendar_clock eastern_standard) (empty_latest u) plain_settings file.


Lemma controller_gth_never_schwab_witness :
  ∃ s p, evaluate_at overnight NoFile = Ok (s, Json (VDict p)) ∧ mode s ≠ SCHWAB_PRIMARY.
Proof.
  destruct (evaluate_at overnight NoFile) as [[s f]|e] eqn:E; [|vm_compute in E; discriminate E].
  destruct (@controller_gth_never_schwab (calendar_clock eastern_standard) (empty_latest overnight)
              plain_settings NoFile s f E) as (Hm & p & -> & _).
  - reflexivity.
  - reflexivity.
  - split; vm_compute; discriminate.
  - vm_compute. reflexivity.
  - exists s, p. split; [reflexivity|exact Hm].
Defined.

Lemma controller_unreadable_denies_entries_witness :
  ∃ s p, evaluate_at morning Unreadable = Ok (s, Json (VDict p))
         ∧ vget "new_entries_allowed" p = VBool false ∧ mode s ∈ [RECOVERY_PENDING; BOTH_UNAVAILABLE].
Proof.
  destruct (evaluate_at morning Unreadable) as [[s f]|e] eqn:E; [|vm_compute in E; discriminate E].
  destruct (@controller_unreadable_denies_entries (calendar_clock eastern_standard)
              (empty_latest morning) plain_settings s f E) as ((p & -> & Hp) & Hm).
  - vm_compute. discriminate.
  - vm_compute. discriminate.
  - exists s, p. split; [reflexivity|]. split; [exact Hp|]. apply Hm; vm_compute; reflexivity.
Defined.

Lemma controller_entries_end_to_end_witness :
  ∃ p d, new_entry_control_decision p (morning + SECOND) (f_of_Z 30) = Ok d ∧ allowed d = true.
Proof.
  destruct (evaluate_at morning NoFile) as [[s f]|e] eqn:E; [|vm_compute in E; discriminate E].
  destruct (evaluate_written _ _ _ _ _ E) as (_ & a & c & h & x & _ & Hf & _).
  destruct f as [| | |[| | | | | |p]]; try discriminate Hf. clear Hf.
  destruct (@controller_entries_end_to_end (calendar_clock eastern_standard) (empty_latest morning)
              plain_settings NoFile s p (morning + SECOND) (f_of_Z 30) E) as (d & active & Hd & _ & Ha & Hall).
  - vm_compute. reflexivity.
  - exists p, d. split; [exact Hd|]. apply Hall. split_and!.
    + apply Ha. split; vm_compute; reflexivity.
    + assert (match evaluate_at morning NoFile with Ok (s, _) => mode s ∈ entry_modes | _ => False end) as Hm
        by (vm_compute; left).
      rewrite E in Hm. exact Hm.
    + vm_compute. reflexivity.
    + vm_compute. reflexivity.
Defined.

(** ** Dual-source incidents *)

(** The incident record after a list of evaluations: the moment, and the two
    providers' health and reasons. *)
Record Outage := { at_ : Z; schwab_up : bool; ibkr_up : bool; schwab_why : string; ibkr_why : string }.

Definition incident_step (prior : res pyval) (o : Outage) : res pyval :=
  p ← prior;
  d ← dual_source_incident p (at_ o) (schwab_up o) (ibkr_up o) (schwab_why o) (ibkr_why o);
  Ok (VDict d).

Definition incident_run (prior : pyval) (os : list Outage) : res pyval :=
  fold_left incident_step os (Ok prior).

Definition both_down (o : Outage) : bool := negb (schwab_up o) && negb (ibkr_up o).

Definition incident_field (k : string) (v : pyval) : pyval := vget k (default [] (dict_of v)).

Definition outage_status (since now : Z) : string :=
  if fgeb (fmax (total_seconds (now - since)) (f_of_Z 0)) INCIDENT_THRESHOLD then "active" else "pending".

Lemma incident_step_down prior o since :
  both_down o = true → instant_in_range (at_ o) = true → instant_in_range since = true →
  iso_utc (incident_field "started_at" prior) = Ok (Some since)
  ∨ (iso_utc (incident_field "started_at" prior) = Ok None ∧ since = at_ o) →
  ∃ v, incident_step (Ok prior) o = Ok v
       ∧ incident_field "started_at" v = vtime since
       ∧ incident_field "status" v = VStr (outage_status since (at_ o)).
Proof.
  intros Hd Ho Hs Hstart. unfold both_down in Hd. bool_to_prop. unfold incident_step, dual_source_incident.
  cbn [mbind res_bind].
  change (vget "started_at" (default [] (dict_of prior))) with (incident_field "started_at" prior).
  destruct (schwab_up o), (ibkr_up o); try done.
  destruct Hstart as [->|[-> ->]]; cbn [mbind res_bind default negb andb];
    eexists; (split; [reflexivity|]); by split.
Qed.

(** an outage is timed from its first evaluation.  While both sources stay
    down, after a record without a start, the record keeps the first moment and
    is active exactly from the threshold on. *)
Theorem incident_timed_from_first prior o os :
  Forall (λ o, both_down o = true ∧ instant_in_range (at_ o) = true) (os ++ [o]) →
  incident_field "started_at" prior = VNone →
  ∃ v, incident_run prior (os ++ [o]) = Ok v
       ∧ let since := at_ (default o (head os)) in
         incident_field "started_at" v = vtime since
         ∧ incident_field "status" v = VStr (outage_status since (at_ o)).
Proof.
  intros Hall Hp. revert o Hall. induction os as [|o' os IH] using rev_ind; intros o Hall.
  - apply Forall_app in Hall as [_ Hall]. apply Forall_singleton in Hall as [Hd Hr]. cbn.
    apply incident_step_down; [done..|]. right. by rewrite Hp.
  - apply Forall_app in Hall as [Hpre Hlast]. apply Forall_singleton in Hlast as [Hd Hr].
    destruct (IH o' Hpre) as (v & Hv & Hst & _). cbv zeta in *.
    unfold incident_run in *. rewrite fold_left_app, Hv. cbn [fold_left].
    assert (Hh : at_ (default o (head (os ++ [o']))) = at_ (default o' (head os))) by by destruct os.
    rewrite Hh. apply incident_step_down; [done|done| |left].
    + destruct os as [|o0 os]; cbn.
      * by apply Forall_singleton in Hpre as [_ ?].
      * by apply Forall_cons in Hpre as [[_ ?] _].
    + rewrite Hst. apply iso_utc_vtime. destruct os as [|o0 os]; cbn.
      * by apply Forall_singleton in Hpre as [_ ?].
      * by apply Forall_cons in Hpre as [[_ ?] _].
Qed.

Definition down_at (u : Z) : Outage := {|
  at_ := u; schwab_up := false; ibkr_up := false; schwab_why := "missing"; ibkr_why := "missing" |}.
Definition up_at (u : Z) : Outage := {|
  at_ := u; schwab_up := true; ibkr_up := true; schwab_why := ""; ibkr_why := "" |}.

Lemma incident_timed_from_first_witness :
  ∃ v, incident_run VNone ([down_at morning] ++ [down_at (morning + 15 * SECOND)]) = Ok v
       ∧ incident_field "status" v = VStr "active".
Proof.
  destruct (incident_timed_from_first VNone (down_at (morning + 15 * SECOND)) [down_at morning])
    as (v & Hv & _ & Hs).
  - apply Forall_cons. split; [by vm_compute|]. apply Forall_singleton. by vm_compute.
  - reflexivity.
  - exists v. split; [exact Hv|]. rewrite Hs. vm_compute. reflexivity.
Defined.

(** An outage that starts on the evaluation right after a recovered one is
    timed from the start of the old one, so it is active at once. *)
Lemma recovered_incident_keeps_old_start :
  ∃ v, incident_run VNone [down_at morning; up_at (morning + 20 * SECOND); down_at (morning + 30 * SECOND)]
       = Ok v
       ∧ incident_field "started_at" v = vtime morning
       ∧ incident_field "status" v = VStr "active".
Proof. eexists. by vm_compute. Qed.
