(* ===== verification/Outbox.v ===== *)
(** * The notification outbox ([infrastructure/notifications.py], [domain/events.py])

    One row per notification event and target channel, one row per delivery
    attempt, in the tables of [alembic/versions/0001_notification_tables.py].
    A store is the committed content of the two tables; an operation is one
    transaction, so an operation that raises leaves the store as it was.  Rows
    are in the order of their integer keys; times are the naive UTC datetimes
    of the source, as instants. *)

From stdpp Require Import base list strings.
From Stdlib Require Import ZArith Lia.
From S2P Require Import Prelude PyStr PyFloat PyTime PyDateTime PyDict PyVal PyHash PyJson.

#[local] Open Scope Z_scope.

Definition CANCELLATION_CHANNEL : string := "__cancellation__".

Inductive NotificationStatus := PENDING | PROCESSING | DELIVERED | FAILED | UNCERTAIN.

#[global] Instance NotificationStatus_eq_dec : EqDecision NotificationStatus.
Proof. solve_decision. Defined.

Definition notification_status_value (s : NotificationStatus) : string :=
  match s with
  | PENDING => "pending" | PROCESSING => "processing" | DELIVERED => "delivered"
  | FAILED => "failed" | UNCERTAIN => "uncertain"
  end.

#[global, refine] Instance NotificationStatus_enum : PyEnum NotificationStatus := {|
  enum_members := [PENDING; PROCESSING; DELIVERED; FAILED; UNCERTAIN];
  enum_value := notification_status_value;
  enum_find := _;
|}.
Proof. by intros []. Defined.

(** ** The tables *)

(** A row of [notification_events]. *)
Record EventRow := {
  ev_id : Z;
  idempotency_key : string;
  ev_logical_id : string;
  ev_source : string;
  ev_kind : string;
  ev_lane : string;
  ev_correlation_id : option string;
  ev_channel : string;
  payload_json : string;
  payload_sha256 : string;
  ev_status : NotificationStatus;
  ev_expires_at : option Z;
  cancelled_at : option Z;
  cancel_reason : option string;
  last_error : option string;
  created_at : Z;
  ev_updated_at : Z;
}.

(** A row of [notification_attempts]. *)
Record AttemptRow := {
  at_id : Z;
  at_event_id : Z;
  at_no : Z;
  started_at : Z;
  finished_at : option Z;
  at_outcome : option string;
  at_attempted : bool;
  at_ok : bool;
  error_code : option string;
  error_detail : option string;
}.

Record Store := { events : list EventRow; attempts : list AttemptRow }.

Definition empty_store : Store := {| events := []; attempts := [] |}.

(** The key SQLite gives to the next row. *)
Definition next_id (ids : list Z) : Z := foldr Z.max 0 ids + 1.

(** [update ... where id == i]. *)
Definition update_events (i : Z) (f : EventRow → EventRow) (s : Store) : Store :=
  {| events := map (λ r, if ev_id r =? i then f r else r) (events s); attempts := attempts s |}.
Definition update_attempts (i : Z) (f : AttemptRow → AttemptRow) (s : Store) : Store :=
  {| events := events s; attempts := map (λ r, if at_id r =? i then f r else r) (attempts s) |}.

(** Inserting an event: [idempotency_key] is unique. *)
Definition insert_event (mk : Z → EventRow) (s : Store) : res (Store * Z) :=
  let i := next_id (map ev_id (events s)) in
  if existsb (λ r, String.eqb (idempotency_key r) (idempotency_key (mk i))) (events s)
  then Err IntegrityError
  else Ok ({| events := events s ++ [mk i]; attempts := attempts s |}, i).

Definition insert_attempt (mk : Z → AttemptRow) (s : Store) : Store * Z :=
  let i := next_id (map at_id (attempts s)) in
  ({| events := events s; attempts := attempts s ++ [mk i] |}, i).

Definition event_by_id (i : Z) (s : Store) : option EventRow := find (λ r, ev_id r =? i) (events s).

(** The first row of an event and channel. *)
Definition event_at (logical channel : string) (s : Store) : option EventRow :=
  find (λ r, String.eqb (ev_logical_id r) logical && String.eqb (ev_channel r) channel) (events s).

(** ** Values of the module *)

Record NotificationDraft := {
  dr_logical_id : string;
  dr_source : string;
  dr_kind : string;
  dr_lane : string;
  dr_payload : pydict;
  dr_channels : list string;
  dr_expires_at : option pydt;
  dr_correlation_id : option string;
}.

Record EnqueueBatch := {
  event_ids : list Z;
  inserted : Z;
  duplicate : Z;
  cancelled : bool;
}.

Record Attempt := {
  attempt_id : Z;
  att_event_id : Z;
  attempt_no : Z;
  channel : string;
  payload : pyval;
}.

Record Recovery := { retry_event_ids : list Z; uncertain_event_ids : list Z }.

(** [_now(value)], [clock] being what [datetime.now] would return. *)
Definition _now (clock : Z) (value : option pydt) : res Z :=
  match value with Some d => aware_utc d | None => Ok clock end.

(** [_payload(value)]: the stored text and the fingerprint of the payload
    without its rendered sections. *)
Definition without_sections (d : pydict) : pydict :=
  filter (λ kv, kv.1 ≠ "feishu_sections") d.

Definition _payload (d : pydict) : res (string * string) :=
  text ← dumps (VDict d);
  fingerprint ← dumps (VDict (without_sections d));
  Ok (text, sha256_hexdigest fingerprint).

Definition NUL : string := String (ascii_chr 0) "".
Definition _key (logical_event_id channel : string) : string :=
  sha256_hexdigest (logical_event_id +:+ NUL +:+ channel).

(** ** Enqueueing *)

Definition pending_row (d : NotificationDraft) (text fingerprint channel : string)
    (expires : option Z) (at_ : Z) (i : Z) : EventRow := {|
  ev_id := i; idempotency_key := _key (dr_logical_id d) channel; ev_logical_id := dr_logical_id d;
  ev_source := dr_source d; ev_kind := dr_kind d; ev_lane := dr_lane d;
  ev_correlation_id := dr_correlation_id d; ev_channel := channel; payload_json := text;
  payload_sha256 := fingerprint; ev_status := PENDING; ev_expires_at := expires;
  cancelled_at := None; cancel_reason := None; last_error := None;
  created_at := at_; ev_updated_at := at_ |}.

(** One channel of the loop: the existing row, or a new pending one. *)
Definition enqueue_channel (clock : Z) (d : NotificationDraft) (text fingerprint : string) (at_ : Z)
    (accept : bool) (acc : Store * EnqueueBatch) (channel : string) : res (Store * EnqueueBatch) :=
  let '(s, b) := acc in
  match event_at (dr_logical_id d) channel s with
  | Some row =>
      if negb (String.eqb (payload_sha256 row) fingerprint) && negb accept then Err ValueError
      else Ok (s, {| event_ids := event_ids b ++ [ev_id row]; inserted := inserted b;
                     duplicate := duplicate b + 1; cancelled := false |})
  | None =>
      expires ← match dr_expires_at d with
                | Some e => Some <$> _now clock (Some e)
                | None => Ok None
                end;
      '(s, i) ← insert_event (pending_row d text fingerprint channel expires at_) s;
      Ok (s, {| event_ids := event_ids b ++ [i]; inserted := inserted b + 1;
                duplicate := duplicate b; cancelled := false |})
  end.

Fixpoint res_fold {A B} (f : A → B → res A) (a : A) (l : list B) : res A :=
  match l with [] => Ok a | b :: l => a ← f a b; res_fold f a l end.

Definition enqueue (clock : Z) (s : Store) (d : NotificationDraft) (now : option pydt)
    (accept_semantic_duplicate : bool) : res (Store * EnqueueBatch) :=
  if String.eqb (str_strip (dr_logical_id d)) "" || bool_decide (dr_channels d = []) then Err ValueError
  else if negb (bool_decide (NoDup (dr_channels d))) then Err ValueError
  else
    at_ ← _now clock now;
    '(text, fingerprint) ← _payload (dr_payload d);
    match event_at (dr_logical_id d) CANCELLATION_CHANNEL s with
    | Some _ => Ok (s, {| event_ids := []; inserted := 0; duplicate := 0; cancelled := true |})
    | None =>
        res_fold (enqueue_channel clock d text fingerprint at_ accept_semantic_duplicate)
                 (s, {| event_ids := []; inserted := 0; duplicate := 0; cancelled := false |})
                 (dr_channels d)
    end.

(** ** Cancelling *)

Definition fence_row (logical reason : string) (at_ : Z) (i : Z) : EventRow := {|
  ev_id := i; idempotency_key := _key logical CANCELLATION_CHANNEL; ev_logical_id := logical;
  ev_source := "cancellation_fence"; ev_kind := "cancellation"; ev_lane := "internal";
  ev_correlation_id := None; ev_channel := CANCELLATION_CHANNEL; payload_json := "{}";
  payload_sha256 := sha256_hexdigest "{}"; ev_status := FAILED; ev_expires_at := None;
  cancelled_at := Some at_; cancel_reason := Some reason; last_error := None;
  created_at := at_; ev_updated_at := at_ |}.

Definition cancellable (logical : string) (r : EventRow) : bool :=
  String.eqb (ev_logical_id r) logical && negb (String.eqb (ev_channel r) CANCELLATION_CHANNEL)
  && bool_decide (ev_status r ∈ [PENDING; FAILED]).

Definition cancel_row (reason : string) (at_ : Z) (r : EventRow) : EventRow := {|
  ev_id := ev_id r; idempotency_key := idempotency_key r; ev_logical_id := ev_logical_id r;
  ev_source := ev_source r; ev_kind := ev_kind r; ev_lane := ev_lane r;
  ev_correlation_id := ev_correlation_id r; ev_channel := ev_channel r;
  payload_json := payload_json r; payload_sha256 := payload_sha256 r;
  ev_status := FAILED; ev_expires_at := ev_expires_at r;
  cancelled_at := Some at_; cancel_reason := Some reason;
  last_error := Some "cancelled_before_transport"; created_at := created_at r; ev_updated_at := at_ |}.

Definition cancel (clock : Z) (s : Store) (logical reason : string) (now : option pydt)
    : res (Store * Z) :=
  at_ ← _now clock now;
  s ← match event_at logical CANCELLATION_CHANNEL s with
      | Some _ => Ok s
      | None => fst <$> insert_event (fence_row logical reason at_) s
      end;
  let rows := filter (λ r, cancellable logical r = true) (events s) in
  Ok (fold_left (λ s r, update_events (ev_id r) (cancel_row reason at_) s) rows s,
      Z.of_nat (length rows)).

(** ** Attempts *)

(** An event row with its status, error and update time replaced. *)
Definition set_status (st : NotificationStatus) (err : option string) (at_ : Z) (r : EventRow)
    : EventRow := {|
  ev_id := ev_id r; idempotency_key := idempotency_key r; ev_logical_id := ev_logical_id r;
  ev_source := ev_source r; ev_kind := ev_kind r; ev_lane := ev_lane r;
  ev_correlation_id := ev_correlation_id r; ev_channel := ev_channel r;
  payload_json := payload_json r; payload_sha256 := payload_sha256 r;
  ev_status := st; ev_expires_at := ev_expires_at r; cancelled_at := cancelled_at r;
  cancel_reason := cancel_reason r; last_error := err; created_at := created_at r;
  ev_updated_at := at_ |}.

Definition set_processing (at_ : Z) (r : EventRow) : EventRow :=
  set_status PROCESSING (last_error r) at_ r.

Definition new_attempt (event_id no at_ : Z) (i : Z) : AttemptRow := {|
  at_id := i; at_event_id := event_id; at_no := no; started_at := at_; finished_at := None;
  at_outcome := Some "processing"; at_attempted := false; at_ok := false; error_code := None;
  error_detail := None |}.

Definition attempts_of (event_id : Z) (s : Store) : list AttemptRow :=
  filter (λ a, at_event_id a = event_id) (attempts s).

(** [int(max(attempt_no) or 0)]. *)
Definition last_attempt_no (event_id : Z) (s : Store) : Z :=
  foldr Z.max 0 (map at_no (attempts_of event_id s)).

Definition expired_at (at_ : Z) (r : EventRow) : bool :=
  match ev_expires_at r with Some e => e <=? at_ | None => false end.

Definition begin_attempt (clock : Z) (s : Store) (event_id max_attempts : Z) (now : option pydt)
    : res (Store * option Attempt) :=
  if max_attempts <? 1 then Err ValueError
  else
    at_ ← _now clock now;
    match event_by_id event_id s with
    | None => Ok (s, None)
    | Some row =>
        if bool_decide (cancelled_at row ≠ None) then Ok (s, None)
        else if bool_decide (ev_status row ∈ [DELIVERED; PROCESSING; UNCERTAIN]) then Ok (s, None)
        else if expired_at at_ row then
          Ok (update_events event_id (set_status FAILED (Some "expired_before_transport") at_) s, None)
        else
          let no := last_attempt_no event_id s + 1 in
          if max_attempts <? no then Ok (s, None)
          else
            let s := update_events event_id (set_processing at_) s in
            let '(s, i) := insert_attempt (new_attempt event_id no at_) s in
            payload ← loads (payload_json row);
            Ok (s, Some {| attempt_id := i; att_event_id := event_id; attempt_no := no;
                           channel := ev_channel row; payload := payload |})
    end.

Definition start_transport (a : AttemptRow) : AttemptRow := {|
  at_id := at_id a; at_event_id := at_event_id a; at_no := at_no a; started_at := started_at a;
  finished_at := finished_at a; at_outcome := at_outcome a; at_attempted := true; at_ok := at_ok a;
  error_code := error_code a; error_detail := error_detail a |}.

Definition mark_transport_started (s : Store) (attempt_id : Z) : Store :=
  update_attempts attempt_id start_transport s.

Definition finish (outcome : string) (ok : bool) (code detail : option string) (at_ : Z)
    (a : AttemptRow) : AttemptRow := {|
  at_id := at_id a; at_event_id := at_event_id a; at_no := at_no a; started_at := started_at a;
  finished_at := Some at_; at_outcome := Some outcome; at_attempted := at_attempted a; at_ok := ok;
  error_code := code; error_detail := detail |}.

Definition settle (clock : Z) (s : Store) (attempt_id : Z) (status : NotificationStatus)
    (outcome : string) (ok : bool) (code detail : option string) (now : option pydt) : res Store :=
  if negb (Bool.eqb ok (bool_decide (status = DELIVERED))) then Err ValueError
  else
    at_ ← _now clock now;
    a ← of_option NoResultFound (find (λ a, at_id a =? attempt_id) (attempts s));
    Ok (update_events (at_event_id a) (set_status status detail at_)
          (update_attempts attempt_id (finish outcome ok code detail at_) s)).

(** ** Recovery after a crash *)

(** The attempts left open on processing events. *)
Definition open_attempts (s : Store) : list (EventRow * AttemptRow) :=
  e ← filter (λ e, ev_status e = PROCESSING) (events s);
  (λ a, (e, a)) <$> filter (λ a, finished_at a = None ∧ at_event_id a = ev_id e) (attempts s).

(** [finish] that keeps the recorded detail. *)
Definition interrupt (outcome : string) (at_ : Z) (a : AttemptRow) : AttemptRow :=
  finish outcome false (Some outcome) (error_detail a) at_ a.

Definition recover_row (at_ : Z) (acc : Store * Recovery) (ea : EventRow * AttemptRow)
    : Store * Recovery :=
  let '(s, r) := acc in
  let '(e, a) := ea in
  let status := if at_attempted a then UNCERTAIN else FAILED in
  let outcome := if at_attempted a then "transport_outcome_uncertain"
                 else "interrupted_before_transport" in
  (update_events (ev_id e) (set_status status (Some outcome) at_)
     (update_attempts (at_id a) (interrupt outcome at_) s),
   if at_attempted a
   then {| retry_event_ids := retry_event_ids r;
           uncertain_event_ids := uncertain_event_ids r ++ [ev_id e] |}
   else {| retry_event_ids := retry_event_ids r ++ [ev_id e];
           uncertain_event_ids := uncertain_event_ids r |}).

Definition recover_incomplete_attempts (clock : Z) (s : Store) (now : option pydt)
    : res (Store * Recovery) :=
  at_ ← _now clock now;
  Ok (fold_left (recover_row at_) (open_attempts s)
        (s, {| retry_event_ids := []; uncertain_event_ids := [] |})).

(** ** Queries *)

Definition event_rows (s : Store) (logical : string) : list EventRow :=
  sort_by (λ a b, String.ltb (ev_channel a) (ev_channel b))
          (filter (λ r, ev_logical_id r = logical) (events s)).

Definition RETRY_OUTCOMES : list string := ["retryable_failure"; "interrupted_before_transport"].

Definition latest_attempt (event_id : Z) (s : Store) : option AttemptRow :=
  max_by (λ a b, at_id b <? at_id a) (attempts_of event_id s).

Definition event_due (s : Store) (r : EventRow) : bool :=
  bool_decide (cancelled_at r = None)
  && (bool_decide (ev_status r = PENDING)
      || (bool_decide (ev_status r = FAILED)
          && match latest_attempt (ev_id r) s with
             | Some a => bool_decide (default "" (at_outcome a) ∈ RETRY_OUTCOMES)
                         && (Z.of_nat (length (attempts_of (ev_id r) s)) <? 3)
             | None => false
             end)).

Definition due_event_ids (s : Store) (limit : Z) : list Z :=
  if limit <? 1 then []
  else take (Z.to_nat limit)
         (map ev_id
            (sort_by (λ a b, (created_at a <? created_at b)
                             || ((created_at a =? created_at b) && (ev_id a <? ev_id b)))
                     (filter (λ r, event_due s r = true) (events s)))).

Definition status_counts (s : Store) : list (string * Z) :=
  let count st := Z.of_nat (length (filter (λ r, ev_channel r ≠ CANCELLATION_CHANNEL ∧ ev_status r = st)
                                           (events s))) in
  filter (λ kv, 0 < kv.2)
    (map (λ st, (notification_status_value st, count st))
         [DELIVERED; FAILED; PENDING; PROCESSING; UNCERTAIN]).

(** ** Domain events ([domain/events.py]) and the queue that stores them *)

Inductive EventKind :=
  | PROVIDER_TRANSITION | DATA_QUALITY_TRANSITION | PRICE_SHOCK | OPTION_STRUCTURE_TRANSITION
  | POSITION_TRANSITION | ALERT_CANDIDATE | DELIVERY_RESULT.

#[global] Instance EventKind_eq_dec : EqDecision EventKind.
Proof. solve_decision. Defined.

Definition event_kind_value (k : EventKind) : string :=
  match k with
  | PROVIDER_TRANSITION => "provider_transition" | DATA_QUALITY_TRANSITION => "data_quality_transition"
  | PRICE_SHOCK => "price_shock" | OPTION_STRUCTURE_TRANSITION => "option_structure_transition"
  | POSITION_TRANSITION => "position_transition" | ALERT_CANDIDATE => "alert_candidate"
  | DELIVERY_RESULT => "delivery_result"
  end.

#[global, refine] Instance EventKind_enum : PyEnum EventKind := {|
  enum_members := [PROVIDER_TRANSITION; DATA_QUALITY_TRANSITION; PRICE_SHOCK;
                   OPTION_STRUCTURE_TRANSITION; POSITION_TRANSITION; ALERT_CANDIDATE; DELIVERY_RESULT];
  enum_value := event_kind_value;
  enum_find := _;
|}.
Proof. by intros []. Defined.

Record AppendResult := { ar_accepted : Z; ar_duplicate : Z; ar_writable : bool }.

Record DomainEvent := {
  de_schema_version : Z;
  de_event_id : string;
  de_kind : EventKind;
  de_source_at : pydt;
  de_available_at : pydt;
  de_aggregate_id : string;
  de_sequence : Z;
  de_payload : pydict;
}.

Definition validate_event (e : DomainEvent) : res unit :=
  if de_schema_version e <? 1 then Err ValueError
  else if String.eqb (str_strip (de_event_id e)) "" then Err ValueError
  else if String.eqb (str_strip (de_aggregate_id e)) "" then Err ValueError
  else if de_sequence e <? 0 then Err ValueError
  else if bool_decide (dt_off (de_source_at e) = None) || bool_decide (dt_off (de_available_at e) = None)
  then Err ValueError else Ok tt.

Definition _domain_event_payload (e : DomainEvent) : res pydict :=
  _ ← validate_event e;
  Ok [("schema_version", VInt (de_schema_version e)); ("event_id", VStr (de_event_id e));
      ("kind", VStr (event_kind_value (de_kind e)));
      ("source_at", VStr (dt_isoformat (de_source_at e)));
      ("available_at", VStr (dt_isoformat (de_available_at e)));
      ("aggregate_id", VStr (de_aggregate_id e)); ("sequence", VInt (de_sequence e));
      ("payload", VDict (de_payload e))].

Definition event_draft (e : DomainEvent) (payload : pydict) : NotificationDraft := {|
  dr_logical_id := de_event_id e; dr_source := "alert_pipeline";
  dr_kind := event_kind_value (de_kind e); dr_lane := "alert_candidate";
  dr_payload := [("domain_event", VDict payload)]; dr_channels := ["alert_pipeline"];
  dr_expires_at := None; dr_correlation_id := None |}.

(** The loop of [NotificationEventQueue.append]: each event is its own
    transaction, so the store keeps what was committed before an event raised. *)
Fixpoint append_loop (clock : Z) (s : Store) (scheduled : list Z) (r : AppendResult)
    (es : list DomainEvent) : Store * res (AppendResult * list Z) :=
  match es with
  | [] => (s, Ok (r, scheduled))
  | e :: es =>
      match (payload ← _domain_event_payload e;
             enqueue clock s (event_draft e payload) (Some (de_available_at e))
               (bool_decide (de_kind e = ALERT_CANDIDATE))) with
      | Err x => (s, Err x)
      | Ok (s, b) =>
          append_loop clock s (scheduled ++ event_ids b)
            {| ar_accepted := ar_accepted r + inserted b;
               ar_duplicate := ar_duplicate r + duplicate b; ar_writable := true |} es
      end
  end.

(** The appended events, and the ids handed to [schedule]. *)
Definition append_events (clock : Z) (s : Store) (es : list DomainEvent)
    : Store * res (AppendResult * list Z) :=
  append_loop clock s [] {| ar_accepted := 0; ar_duplicate := 0; ar_writable := true |} es.
