(* ===== verification/Delivery.v ===== *)
(** * Notification delivery ([notifier/unified_delivery.py], [notifier/model.py])

    Envelopes, the frozen route, enqueueing through the outbox, inspection, and
    one delivery attempt from claim to settlement.  What the network does — the
    sinks, the Rust ingress, the alert review — is an argument of the delivery:
    it answers with results or raises. *)

From stdpp Require Import base list strings.
From Stdlib Require Import Ascii ZArith Lia.
From S2P Require Import Prelude PyStr PyFloat PyTime PyDateTime PyDict PyVal PyHash PyJson MarketCalendar Outbox.

#[local] Open Scope Z_scope.

(** ** Envelopes ([notifier/model.py]) *)

Record NotificationEnvelope := {
  en_event_id : string;
  en_source : string;
  en_kind : string;
  en_lane : string;
  en_occurred_at : pydt;
  en_expires_at : option pydt;
  operator_targets : list (string * string);
  operator_opportunity_id : option string;
  operator_generation : Z;
  en_correlation_id : option string;
  message_class : option string;
  template_id : option string;
  template_version : Z;
}.

Definition MESSAGE_CLASSES : list string :=
  ["watch"; "armed"; "ready"; "no_trade"; "execution"; "management"; "exit"; "post_mortem"; "ops";
   "data_quality"; "market_warning"; "scheduled_report"].

Definition LANE_MESSAGE_CLASS : list (string * string) :=
  [("ops_transition", "ops"); ("market_warning", "market_warning"); ("trade_ready", "ready");
   ("position_safety", "management"); ("scheduled_report", "scheduled_report");
   ("strategy_watch", "watch")].

Definition effective_message_class (e : NotificationEnvelope) : string :=
  match message_class e with
  | Some c => if String.eqb c "" then default "ops" (dget (en_lane e) LANE_MESSAGE_CLASS) else c
  | None => default "ops" (dget (en_lane e) LANE_MESSAGE_CLASS)
  end.

Definition blank (s : string) : bool := String.eqb (str_strip s) "".

(** [expires_at <= occurred_at] of aware datetimes. *)
Definition dt_le (a b : pydt) : bool := dt_as_utc a <=? dt_as_utc b.

(** The loop over the operator targets; [seen] are the keys so far. *)
Fixpoint targets_ok (seen : list string) (l : list (string * string)) : bool :=
  match l with
  | [] => true
  | (key, channel) :: l =>
      negb (blank key) && negb (bool_decide (key ∈ seen))
      && bool_decide (channel ∈ ["bark"; "feishu"; "webhook"]) && targets_ok (key :: seen) l
  end.

Definition has_nul (s : string) : bool := str_contains NUL s.

(** [NotificationEnvelope.validate]: every failed check raises [ValueError]. *)
Definition envelope_ok (e : NotificationEnvelope) : bool :=
  negb (blank (en_event_id e)) && negb (blank (en_source e)) && negb (blank (en_kind e))
  && negb (blank (en_lane e))
  && bool_decide (dt_off (en_occurred_at e) ≠ None)
  && match en_expires_at e with
     | Some x => bool_decide (dt_off x ≠ None) && negb (dt_le x (en_occurred_at e))
     | None => true
     end
  && targets_ok [] (operator_targets e)
  && match operator_opportunity_id e with
     | Some i => negb (blank i) && negb (has_nul i) && (Z.of_nat (length (utf8 i)) <=? 4096)
     | None => true
     end
  && match message_class e with Some c => bool_decide (c ∈ MESSAGE_CLASSES) | None => true end
  && match template_id e with Some t => negb (blank t) | None => true end
  && (1 <=? template_version e)
  && match en_correlation_id e with Some c => negb (blank c) && negb (has_nul c) | None => true end
  && (0 <=? operator_generation e) && (operator_generation e <=? 4294967295).

Definition validate_envelope (e : NotificationEnvelope) : res unit :=
  raise_unless (envelope_ok e) ValueError.

Definition _envelope_to_dict (e : NotificationEnvelope) : pydict :=
  [("event_id", VStr (en_event_id e)); ("source", VStr (en_source e)); ("kind", VStr (en_kind e));
   ("lane", VStr (en_lane e)); ("occurred_at", VStr (dt_isoformat (en_occurred_at e)));
   ("expires_at", match en_expires_at e with Some x => VStr (dt_isoformat x) | None => VNone end);
   ("operator_targets", VList (map (λ t, VList [VStr t.1; VStr t.2]) (operator_targets e)));
   ("operator_opportunity_id", v_opt_str (operator_opportunity_id e));
   ("operator_generation", VInt (operator_generation e))].

(** [datetime.fromisoformat(str(v))]. *)
Definition dt_of (v : pyval) : res pydt := of_option ValueError (fromisoformat (py_str v)).

(** The two-element lists of [value.get("operator_targets", [])]. *)
Definition targets_of_value (v : pyval) : res (list (string * string)) :=
  match v with
  | VList l => Ok (omap (λ t, match t with VList [a; b] => Some (py_str a, py_str b) | _ => None end) l)
  | VStr _ | VDict _ => Ok []
  | _ => Err TypeError
  end.

Definition _envelope_from_dict (d : pydict) : res NotificationEnvelope :=
  event_id ← dindex "event_id" d; source ← dindex "source" d; kind ← dindex "kind" d;
  lane ← dindex "lane" d; occurred ← dindex "occurred_at" d; occurred ← dt_of occurred;
  expires ← (let x := vget "expires_at" d in if truthy x then Some <$> dt_of x else Ok None);
  targets ← targets_of_value (vget_or "operator_targets" (VList []) d);
  generation ← py_int (v_or (vget "operator_generation" d) (VInt 0));
  let e := {| en_event_id := py_str event_id; en_source := py_str source; en_kind := py_str kind;
              en_lane := py_str lane; en_occurred_at := occurred; en_expires_at := expires;
              operator_targets := targets;
              operator_opportunity_id :=
                match vget "operator_opportunity_id" d with VNone => None | v => Some (py_str v) end;
              operator_generation := generation; en_correlation_id := None; message_class := None;
              template_id := None; template_version := 1 |} in
  _ ← validate_envelope e;
  Ok e.

(** ** Routes *)

(** The notification settings that the route depends on. *)
Record RouteSettings := {
  feishu_enabled : bool;
  feishu_webhook_url : string;
  bark_enabled : bool;
  bark_url : string;
  bark_friend_enabled : bool;
  bark_friend_url : string;
  rust_trader_notification_owner : bool;
  rust_operator_notification_target_map : list (string * string * string);
}.

Definition transport_lane (e : NotificationEnvelope) : string :=
  if String.eqb (en_lane e) "ops_transition" then "ops" else "trade".

Definition delivery_target_names (s : RouteSettings) (lane : string) (friend : bool) : list string :=
  let is_trade := String.eqb lane "trade" in
  let set u := negb (String.eqb u "") in
  (if feishu_enabled s && set (feishu_webhook_url s) && is_trade then ["feishu"] else [])
  ++ (if bark_enabled s && set (bark_url s) then ["bark"] else [])
  ++ (if friend && bark_friend_enabled s && set (bark_friend_url s) && is_trade
      then ["bark_friend"] else []).

(** [s.rsplit(":", 1)[-1]]. *)
Definition after_last_colon (s : string) : string :=
  match str_find_chr ":" (str_rev s) with
  | Some i => str_rev (str_take i (str_rev s))
  | None => s
  end.

(** [operator_notification_role] of [notifier/rust_ingress.py]. *)
Definition operator_notification_role (e : NotificationEnvelope) : option string :=
  let same k l := String.eqb (en_kind e) k && String.eqb (en_lane e) l in
  if same "level_setup_transition" "market_warning" then
    Some (if bool_decide (after_last_colon (en_event_id e) ∈ ["invalidated"; "expired"])
          then "exit" else "setup")
  else if same "gamma_level_prearm_plan" "gamma_prearm_plan" then Some "setup"
  else if same "trade_intent" "trade_ready"
          || same "gth_spxw_manual_spread_candidate" "gth_manual_candidate"
          || same "gth_spxw_level_manual_spread_candidate" "gth_level_manual_candidate"
  then Some "trade_ready"
  else if same "virtual_strategy_exit" "strategy_lifecycle" then
    Some (if str_ends ":cancel" (en_event_id e) then "cancel" else "exit")
  else None.

Definition with_operator (e : NotificationEnvelope) (targets : list (string * string))
    (opportunity : option string) (generation : Z) : NotificationEnvelope := {|
  en_event_id := en_event_id e; en_source := en_source e; en_kind := en_kind e; en_lane := en_lane e;
  en_occurred_at := en_occurred_at e; en_expires_at := en_expires_at e;
  operator_targets := targets; operator_opportunity_id := opportunity;
  operator_generation := generation; en_correlation_id := en_correlation_id e;
  message_class := message_class e; template_id := template_id e;
  template_version := template_version e |}.

Definition freeze_route (s : RouteSettings) (e : NotificationEnvelope) (friend : bool)
    : NotificationEnvelope * list string :=
  let intended := sort_by String.ltb (delivery_target_names s (transport_lane e) friend) in
  if rust_trader_notification_owner s && bool_decide (operator_notification_role e ≠ None) then
    let entries := rust_operator_notification_target_map s in
    let mapping := fold_left (λ m r, dset r.1.1 (r.1.2, r.2) m) entries [] in
    if bool_decide (intended = []) || negb (Nat.eqb (length mapping) (length entries))
       || existsb (λ sink, negb (dhas sink mapping)) intended
    then (e, [])
    else (with_operator e (omap (λ sink, dget sink mapping) intended) (operator_opportunity_id e)
            (operator_generation e), ["rust_ingress"])
  else (with_operator e [] None 0, intended).

(** ** Enqueueing *)

(** What a message says. *)
Record Message := {
  title : string;
  text : string;
  friend : bool;
  feishu_text : option string;
  sections : list pydict;
}.

Definition notification_payload (e : NotificationEnvelope) (m : Message) : pydict :=
  let payload := [("envelope", VDict (_envelope_to_dict e)); ("title", VStr (title m));
                  ("text", VStr (text m)); ("friend", VBool (friend m));
                  ("feishu_text", v_opt_str (feishu_text m))] in
  match sections m with
  | [] => payload
  | l => dset "feishu_sections" (VList (map VDict l)) payload
  end.

Definition notification_payload_fingerprint (payload : pydict) : res string :=
  sha256_hexdigest <$> dumps (VDict (without_sections payload)).

Record UnifiedEnqueueResult := {
  ue_envelope : NotificationEnvelope;
  ue_targets : list string;
  ue_event_ids : list Z;
  ue_outcome : string;
  ue_inserted : Z;
  ue_duplicate : Z;
  ue_accepted : bool;
}.

Definition not_enqueued (e : NotificationEnvelope) (targets : list string) (outcome : string)
    : UnifiedEnqueueResult := {|
  ue_envelope := e; ue_targets := targets; ue_event_ids := []; ue_outcome := outcome;
  ue_inserted := 0; ue_duplicate := 0; ue_accepted := false |}.

Definition envelope_draft (e : NotificationEnvelope) (payload : pydict) (channels : list string)
    : NotificationDraft := {|
  dr_logical_id := en_event_id e; dr_source := en_source e; dr_kind := en_kind e;
  dr_lane := en_lane e; dr_payload := payload; dr_channels := channels;
  dr_expires_at := en_expires_at e; dr_correlation_id := en_correlation_id e |}.

(** The common end of both enqueue functions; the ids of an accepted result are
    the ones handed to [schedule]. *)
Definition enqueue_routed (clock : Z) (s : Store) (e : NotificationEnvelope) (targets : list string)
    (m : Message) (at_ : pydt) : res (Store * UnifiedEnqueueResult) :=
  '(s, b) ← enqueue clock s (envelope_draft e (notification_payload e m) targets) (Some at_) false;
  Ok (s, if cancelled b then not_enqueued e targets "cancelled_before_enqueue"
         else {| ue_envelope := e; ue_targets := targets; ue_event_ids := event_ids b;
                 ue_outcome := "pending"; ue_inserted := inserted b; ue_duplicate := duplicate b;
                 ue_accepted := true |}).

Definition enqueue_final_notification (clock : Z) (settings : RouteSettings) (s : Store)
    (e : NotificationEnvelope) (m : Message) (enqueued_at : option pydt)
    : res (Store * UnifiedEnqueueResult) :=
  _ ← validate_envelope e;
  let at_ := default (utc clock) enqueued_at in
  let '(routed, targets) := freeze_route settings e (friend m) in
  if bool_decide (targets = []) then Ok (s, not_enqueued routed [] "no_sink")
  else enqueue_routed clock s routed targets m at_.

(** The sections of a frozen notification are empty. *)
Definition enqueue_frozen_notification (clock : Z) (s : Store) (e : NotificationEnvelope)
    (targets : list string) (m : Message) (enqueued_at : pydt)
    : res (Store * UnifiedEnqueueResult) :=
  _ ← validate_envelope e;
  let normalized := sort_by String.ltb (dedup_keep_first [] targets) in
  if bool_decide (normalized = []) then Ok (s, not_enqueued e [] "no_sink")
  else enqueue_routed clock s e normalized
         {| title := title m; text := text m; friend := friend m; feishu_text := feishu_text m;
            sections := [] |} enqueued_at.

(** ** Inspection *)

Record DeliveryEventInspection := {
  in_event_id : string;
  in_exists : bool;
  in_cancelled : bool;
  payload_matches : bool;
  targets_match : bool;
  event_status : option string;
  target_statuses : list (string * string);
  in_reason : string;
}.

Definition acceptable (i : DeliveryEventInspection) : bool := String.eqb (in_reason i) "accepted".

Definition _aggregate_status (statuses : list string) : option string :=
  match statuses with
  | [] => None
  | _ => match find (λ s, bool_decide (s ∈ statuses))
                    ["uncertain"; "failed"; "processing"; "pending"; "delivered"] with
         | Some s => Some s
         | None => Some "invalid"
         end
  end.

Definition inspect_final_notification (s : Store) (e : NotificationEnvelope) (m : Message)
    (targets : list string) (expected_payload_fingerprint : option string)
    : res DeliveryEventInspection :=
  let expected_targets := sort_by String.ltb (dedup_keep_first [] targets) in
  let rows := event_rows s (en_event_id e) in
  let cancelled := existsb (λ r, String.eqb (ev_channel r) CANCELLATION_CHANNEL) rows in
  let delivery_rows := filter (λ r, ev_channel r ≠ CANCELLATION_CHANNEL) rows in
  let target_statuses :=
    map (λ r, (ev_channel r, notification_status_value (ev_status r))) delivery_rows in
  match delivery_rows with
  | [] => Ok {| in_event_id := en_event_id e; in_exists := false; in_cancelled := cancelled;
                payload_matches := false; targets_match := bool_decide (expected_targets = []);
                event_status := None; target_statuses := [];
                in_reason := if cancelled then "cancelled" else "missing" |}
  | _ =>
      let expected_payload := notification_payload e
        {| title := title m; text := text m; friend := friend m; feishu_text := feishu_text m;
           sections := [] |} in
      expected ← match expected_payload_fingerprint with
                 | Some f => if String.eqb f "" then notification_payload_fingerprint expected_payload
                             else Ok f
                 | None => notification_payload_fingerprint expected_payload
                 end;
      let matches := forallb (λ r, String.eqb (payload_sha256 r) expected) delivery_rows in
      let targets_match := bool_decide (map fst target_statuses = expected_targets) in
      let statuses := map snd target_statuses in
      Ok {| in_event_id := en_event_id e; in_exists := true; in_cancelled := cancelled;
            payload_matches := matches; targets_match := targets_match;
            event_status := _aggregate_status statuses; target_statuses := target_statuses;
            in_reason :=
              if cancelled then "cancelled"
              else if negb matches then "payload_mismatch"
              else if negb targets_match then "target_mismatch"
              else if existsb (λ st, bool_decide (st ∈ ["failed"; "uncertain"])) statuses
              then "terminal_or_invalid_status" else "accepted" |}
  end.

(** ** Delivering *)

Definition MAX_DELIVERY_ATTEMPTS : Z := 3.

Record SinkResult := {
  sink : string;
  attempted : bool;
  ok : bool;
  sink_error : option string;
  permanent : bool;
}.

Definition QUIET_WINDOW_EXCEPTION_LANES : list string :=
  ["position_safety"; "execution_safety"; "trade_ready"; "gth_manual_candidate";
   "gth_level_manual_candidate"; "growth_dislocation"].

Record UnifiedDeliveryResult := {
  ud_event_id : Z;
  ud_channel : option string;
  ud_outcome : string;
  ud_attempted : bool;
  ud_ok : bool;
}.

(** How an attempt is settled: [settle]'s status, outcome, error code and detail. *)
Record Settlement := {
  st_status : NotificationStatus;
  st_outcome : string;
  st_code : option string;
  st_detail : option string;
}.

Definition st_ok (x : Settlement) : bool := bool_decide (st_status x = DELIVERED).

Definition settle_with (clock : Z) (s : Store) (attempt_id : Z) (x : Settlement) (now : pydt)
    : res Store :=
  settle clock s attempt_id (st_status x) (st_outcome x) (st_ok x) (st_code x) (st_detail x) (Some now).

Definition _explicit_retryable (r : SinkResult) : bool :=
  let error := default "" (sink_error r) in
  str_starts "bark response code=" error || str_starts "feishu response code=" error
  || String.eqb error "rust_ingress_server_busy".

Definition sink_settlement (r : SinkResult) : Settlement :=
  let '(status, outcome) :=
    if ok r then (DELIVERED, if String.eqb (sink r) "rust_ingress" then "forwarded_to_rust"
                             else "delivered")
    else if permanent r || negb (attempted r) then (FAILED, "permanent_failure")
    else if _explicit_retryable r then (FAILED, "retryable_failure")
    else (UNCERTAIN, "transport_outcome_uncertain") in
  {| st_status := status; st_outcome := outcome;
     st_code := if ok r then None else Some outcome; st_detail := sink_error r |}.

(** What the world does during an attempt: an answer, or an exception shown as
    [f"{type(exc).__name__}:{exc}"]. *)
Inductive reply (A : Type) := Answered (a : A) | Raised (shown : string).
Arguments Answered {A} a.
Arguments Raised {A} shown.

Record Disposition := { settled : bool; disposition_outcome : string }.

Record Outside := {
  direct_deliver : NotificationEnvelope → string → pydict → reply (list SinkResult);
  rust_deliver : NotificationEnvelope → pydict → reply SinkResult;
  review_candidate : DomainEvent → reply Disposition;
}.

(** [_settle_sink]: a retryable failure raises [RetryableDeliveryError], a
    [RuntimeError], while attempts remain. *)
Definition _settle_sink (clock : Z) (s : Store) (a : Attempt) (r : SinkResult) (now : pydt)
    : Store * res UnifiedDeliveryResult :=
  let x := sink_settlement r in
  match settle_with clock s (attempt_id a) x now with
  | Err e => (s, Err e)
  | Ok s =>
      (s, if String.eqb (st_outcome x) "retryable_failure" && (attempt_no a <? MAX_DELIVERY_ATTEMPTS)
          then Err RuntimeError
          else Ok {| ud_event_id := att_event_id a; ud_channel := Some (channel a);
                     ud_outcome := st_outcome x; ud_attempted := attempted r; ud_ok := ok r |})
  end.

Definition _mapping (v : pyval) : res pydict := of_option ValueError (dict_of v).

(** [_deliver_one]. *)
Definition _deliver_one (w : Outside) (e : NotificationEnvelope) (channel : string) (payload : pydict)
    : reply SinkResult :=
  if String.eqb channel "rust_ingress" then rust_deliver w e payload
  else match direct_deliver w e channel payload with
       | Raised x => Raised x
       | Answered sinks =>
           Answered (default {| sink := channel; attempted := false; ok := false;
                                sink_error := Some "frozen target unavailable"; permanent := false |}
                       (find (λ r, String.eqb (sink r) channel) sinks))
       end.

Definition _domain_event_from_dict (d : pydict) : res DomainEvent :=
  payload ← of_option ValueError (dict_of (vget "payload" d));
  version ← dindex "schema_version" d; version ← py_int version;
  event_id ← dindex "event_id" d;
  kind ← dindex "kind" d; kind ← enum_parse (py_str kind);
  source ← dindex "source_at" d; source ← dt_of source;
  available ← dindex "available_at" d; available ← dt_of available;
  aggregate ← dindex "aggregate_id" d;
  sequence ← dindex "sequence" d; sequence ← py_int sequence;
  Ok {| de_schema_version := version; de_event_id := py_str event_id; de_kind := kind;
        de_source_at := source; de_available_at := available; de_aggregate_id := py_str aggregate;
        de_sequence := sequence; de_payload := payload |}.

(** The settlement of an alert review. *)
Definition review_settlement (r : reply Disposition) : Settlement :=
  match r with
  | Raised shown => {| st_status := FAILED; st_outcome := "alert_review_failed";
                       st_code := Some "alert_review_failed"; st_detail := Some shown |}
  | Answered d =>
      if settled d
      then {| st_status := DELIVERED; st_outcome := "alert_" +:+ disposition_outcome d;
              st_code := None; st_detail := None |}
      else {| st_status := FAILED; st_outcome := "alert_review_retryable";
              st_code := Some "alert_review_retryable"; st_detail := None |}
  end.

Definition _deliver_alert_pipeline (clock : Z) (w : Outside) (s : Store) (a : Attempt)
    (payload : pydict) (now : pydt) : Store * res UnifiedDeliveryResult :=
  match (d ← _mapping (vget "domain_event" payload); _domain_event_from_dict d) with
  | Err e => (s, Err e)
  | Ok event =>
      let x := review_settlement (review_candidate w event) in
      match settle_with clock s (attempt_id a) x now with
      | Err e => (s, Err e)
      | Ok s =>
          (s, if st_ok x || negb (attempt_no a <? MAX_DELIVERY_ATTEMPTS)
              then Ok {| ud_event_id := att_event_id a; ud_channel := Some (channel a);
                         ud_outcome := st_outcome x; ud_attempted := false; ud_ok := st_ok x |}
              else Err RuntimeError)
      end
  end.

Section delivery.
(** The New York wall clock of an instant. *)
Context (to_et : Z → Z).

(** [human_policy.quiet_window_suppresses]. *)
Definition quiet_window_suppresses (e : NotificationEnvelope) (now : pydt) : res bool :=
  if bool_decide (en_lane e ∈ QUIET_WINDOW_EXCEPTION_LANES) then Ok false
  else is_post_rth_pre_gth_quiet to_et DEFAULT_MARKET_CALENDAR now.

Definition quiet_settlement : Settlement := {|
  st_status := DELIVERED; st_outcome := "quiet_window_suppressed"; st_code := None; st_detail := None |}.

Definition raised_settlement (shown : string) : Settlement := {|
  st_status := UNCERTAIN; st_outcome := "transport_outcome_uncertain";
  st_code := Some "transport_exception"; st_detail := Some shown |}.

(** An attempt on a frozen target after it was claimed. *)
Definition deliver_target (clock : Z) (w : Outside) (s : Store) (a : Attempt) (payload : pydict)
    (now : pydt) : Store * res UnifiedDeliveryResult :=
  match (d ← _mapping (vget "envelope" payload); e ← _envelope_from_dict d;
         quiet ← quiet_window_suppresses e now; Ok (e, quiet)) with
  | Err x => (s, Err x)
  | Ok (_, true) =>
      match settle_with clock s (attempt_id a) quiet_settlement now with
      | Err x => (s, Err x)
      | Ok s => (s, Ok {| ud_event_id := att_event_id a; ud_channel := Some (channel a);
                          ud_outcome := "quiet_window_suppressed"; ud_attempted := false;
                          ud_ok := true |})
      end
  | Ok (e, false) =>
      let s := mark_transport_started s (attempt_id a) in
      match _deliver_one w e (channel a) payload with
      | Raised shown =>
          match settle_with clock s (attempt_id a) (raised_settlement shown) now with
          | Err x => (s, Err x)
          | Ok s => (s, Ok {| ud_event_id := att_event_id a; ud_channel := Some (channel a);
                              ud_outcome := "uncertain"; ud_attempted := true; ud_ok := false |})
          end
      | Answered r => _settle_sink clock s a r now
      end
  end.

Definition deliver_notification_event (clock : Z) (w : Outside) (s : Store) (event_id : Z)
    (now : option pydt) : Store * res UnifiedDeliveryResult :=
  let at_ := default (utc clock) now in
  match begin_attempt clock s event_id MAX_DELIVERY_ATTEMPTS (Some at_) with
  | Err e => (s, Err e)
  | Ok (s, None) => (s, Ok {| ud_event_id := event_id; ud_channel := None; ud_outcome := "not_due";
                              ud_attempted := false; ud_ok := false |})
  | Ok (s, Some a) =>
      match dict_of (payload a) with
      | None => (s, Err AttributeError)
      | Some p => if String.eqb (channel a) "alert_pipeline"
                  then _deliver_alert_pipeline clock w s a p at_
                  else deliver_target clock w s a p at_
      end
  end.
End delivery.

(** [recover_notification_tasks]: the retried ids are handed to [schedule]. *)
Definition recover_notification_tasks (clock : Z) (s : Store) (now : pydt)
    : res (Store * (list Z * Z * Z)) :=
  '(s, r) ← recover_incomplete_attempts clock s (Some now);
  Ok (s, (retry_event_ids r, Z.of_nat (length (retry_event_ids r)),
          Z.of_nat (length (uncertain_event_ids r)))).

Definition notification_exists (s : Store) (event_id : string) : bool :=
  negb (bool_decide (event_rows s event_id = [])).

Definition cancel_final_notification (clock : Z) (s : Store) (event_id reason : string) (now : pydt)
    : res (Store * Z) := cancel clock s event_id reason (Some now).
