(* ===== verification/OutboxFacts.v ===== *)
(** * Facts of the outbox

    How each transaction changes what the store says of one event: its row and
    its attempts.  The invariant of an event is kept by every transaction. *)

From stdpp Require Import base numbers strings list.
From Stdlib Require Import ZArith Lia.
From S2P Require Import Prelude PyStr PyFloat PyTime PyDateTime PyDict PyVal PyHash PyJson Outbox.

#[local] Open Scope Z_scope.

(** ** Rows by their keys *)

Lemma next_id_above ids i : i ∈ ids → i < next_id ids.
Proof.
  unfold next_id. induction ids as [|j ids IH]; [by intros []%not_elem_of_nil|].
  intros [->|Hi]%elem_of_cons; cbn; [lia|]. apply IH in Hi. lia.
Qed.

Lemma next_id_fresh ids : next_id ids ∉ ids.
Proof. intros H%next_id_above. lia. Qed.

Lemma find_map_key {A} (key : A → Z) (g : A → A) i l :
  (∀ a, key (g a) = key a) →
  find (λ a, key a =? i) (map g l) = g <$> find (λ a, key a =? i) l.
Proof.
  intros Hg. induction l as [|a l IH]; [done|]. cbn. rewrite Hg. by destruct (key a =? i).
Qed.

Lemma find_app {A} (p : A → bool) l l' :
  find p (l ++ l') = match find p l with Some a => Some a | None => find p l' end.
Proof. induction l as [|a l IH]; [done|]. cbn. by destruct (p a). Qed.

Lemma find_key_Some {A} (key : A → Z) i l a :
  find (λ a, key a =? i) l = Some a → a ∈ l ∧ key a = i.
Proof.
  intros H. apply find_some in H as [Hin Hk]. apply Z.eqb_eq in Hk. split; [|done].
  by apply list_elem_of_In.
Qed.

Lemma find_key_In {A} (key : A → Z) l a :
  NoDup (key <$> l) → a ∈ l → find (λ b, key b =? key a) l = Some a.
Proof.
  induction l as [|b l IH]; [by intros _ []%not_elem_of_nil|]. cbn.
  intros [Hb Hl]%NoDup_cons [->|Ha]%elem_of_cons; [by rewrite Z.eqb_refl|].
  destruct (Z.eqb_spec (key b) (key a)) as [E|E]; [|by apply IH].
  exfalso. apply Hb. rewrite E. by apply list_elem_of_fmap_2.
Qed.

Lemma find_key_None {A} (key : A → Z) i l :
  find (λ a, key a =? i) l = None ↔ i ∉ key <$> l.
Proof.
  induction l as [|b l IH]; [cbn; split; [intros _; apply not_elem_of_nil|done]|]. cbn.
  rewrite not_elem_of_cons. destruct (Z.eqb_spec (key b) i); [naive_solver|].
  rewrite IH. naive_solver.
Qed.

(** Replacing the rows of one key. *)
Lemma update_event_by_id i f s j :
  (∀ r, ev_id (f r) = ev_id r) →
  event_by_id j (update_events i f s) = if j =? i then f <$> event_by_id j s else event_by_id j s.
Proof.
  intros Hf. unfold event_by_id, update_events. cbn [events].
  rewrite find_map_key by (intros r; case_match; auto).
  destruct (find (λ r, ev_id r =? j) (events s)) as [r|] eqn:E; cbn; [|by case_match].
  apply find_key_Some in E as [_ <-]. by destruct (ev_id r =? i).
Qed.

Lemma update_events_attempts i f s j : attempts_of j (update_events i f s) = attempts_of j s.
Proof. done. Qed.

Lemma update_attempts_event i f s j : event_by_id j (update_attempts i f s) = event_by_id j s.
Proof. done. Qed.

Lemma filter_map_comm {A} (P : A → Prop) `{∀ a, Decision (P a)} (g : A → A) l :
  (∀ a, P (g a) ↔ P a) → filter P (map g l) = map g (filter P l).
Proof.
  intros Hg. induction l as [|a l IH]; [done|]. cbn [map]. rewrite !filter_cons, IH.
  destruct (decide (P a)), (decide (P (g a))); try done; naive_solver.
Qed.

Lemma update_attempts_of k f s j :
  (∀ a, at_event_id (f a) = at_event_id a) →
  attempts_of j (update_attempts k f s)
  = map (λ a, if at_id a =? k then f a else a) (attempts_of j s).
Proof.
  intros Hf. unfold attempts_of, update_attempts. cbn [attempts].
  apply filter_map_comm. intros a. case_match; by rewrite ?Hf.
Qed.

Lemma map_keyed_other {A} (key : A → Z) (f : A → A) k l :
  k ∉ key <$> l → map (λ a, if key a =? k then f a else a) l = l.
Proof.
  induction l as [|a l IH]; [done|]. cbn. intros [Hk Hl]%not_elem_of_cons.
  destruct (Z.eqb_spec (key a) k); [congruence|]. by rewrite IH.
Qed.

Lemma map_keyed_last {A} (key : A → Z) (f : A → A) l a :
  NoDup (key <$> l ++ [a]) → map (λ b, if key b =? key a then f b else b) (l ++ [a]) = l ++ [f a].
Proof.
  rewrite fmap_app, map_app. intros (_ & Hd & _)%NoDup_app. cbn. rewrite Z.eqb_refl.
  rewrite map_keyed_other; [done|]. intros H. apply (Hd _ H). by left.
Qed.

(** ** The invariant of one event *)

(** An attempt after which the event must not be sent again. *)
Definition UNCERTAIN_OUTCOME : string := "transport_outcome_uncertain".
Definition conclusive (a : AttemptRow) : Prop :=
  at_ok a = true ∨ at_outcome a = Some UNCERTAIN_OUTCOME.

(** The attempts an event may have: closed inconclusive ones, then a last one
    that is open exactly while the event is being processed; a pending event has
    none. *)
Definition history_ok (st : NotificationStatus) (l : list AttemptRow) : Prop :=
  at_no <$> l = seqZ 1 (Z.of_nat (length l)) ∧ (length l ≤ 3)%nat ∧
  (l = [] ∧ st ≠ PROCESSING
   ∨ ∃ pre a, l = pre ++ [a]
       ∧ Forall (λ b, finished_at b ≠ None ∧ ¬ conclusive b) pre
       ∧ (st = PROCESSING ∧ finished_at a = None ∧ ¬ conclusive a
          ∨ st ∉ [PROCESSING; PENDING] ∧ finished_at a ≠ None
            ∧ (conclusive a → st ∈ [DELIVERED; UNCERTAIN]))).

Definition event_ok (s : Store) (i : Z) : Prop :=
  match event_by_id i s with
  | Some e => history_ok (ev_status e) (attempts_of i s)
  | None => attempts_of i s = []
  end.

(** The store keeps its keys, and the invariant of every event in [P]: of the
    events outside it nothing is said, whatever their workers do. *)
Record store_wf (P : Z → Prop) (s : Store) : Prop := {
  wf_events : NoDup (ev_id <$> events s);
  wf_attempts : NoDup (at_id <$> attempts s);
  wf_known : ∀ i, event_by_id i s = None → attempts_of i s = [];
  wf_event : ∀ i, P i → event_ok s i;
}.
Arguments wf_events {P} s _.
Arguments wf_attempts {P} s _.
Arguments wf_known {P} s _.
Arguments wf_event {P} s _.

Lemma empty_wf P : store_wf P empty_store.
Proof. split; [apply NoDup_nil_2|apply NoDup_nil_2|done|done]. Qed.

Lemma store_wf_weaken (P P' : Z → Prop) s : (∀ i, P' i → P i) → store_wf P s → store_wf P' s.
Proof. intros HP [? ? ? He]. split; try done. intros i Hi. by apply He, HP. Qed.

Lemma attempts_of_NoDup P s i : store_wf P s → NoDup (at_id <$> attempts_of i s).
Proof.
  intros [_ H _ _]. unfold attempts_of. eapply sublist_NoDup; [exact H|].
  apply fmap_sublist, sublist_filter.
Qed.

Lemma attempts_of_elem s i a : a ∈ attempts_of i s ↔ a ∈ attempts s ∧ at_event_id a = i.
Proof. unfold attempts_of. rewrite list_elem_of_filter. naive_solver. Qed.

(** An open attempt is its event's last one, and its event is being processed. *)
Lemma open_is_last P s a :
  store_wf P s → P (at_event_id a) → a ∈ attempts s → finished_at a = None →
  ∃ e pre, event_by_id (at_event_id a) s = Some e ∧ ev_status e = PROCESSING
           ∧ attempts_of (at_event_id a) s = pre ++ [a] ∧ ¬ conclusive a.
Proof.
  intros Hwf HP Ha Hopen. assert (Hin : a ∈ attempts_of (at_event_id a) s) by by apply attempts_of_elem.
  pose proof (wf_event s Hwf (at_event_id a) HP) as H. unfold event_ok in H.
  destruct (event_by_id _ s) as [e|]; [|by rewrite H in Hin; apply elem_of_nil in Hin].
  destruct H as (_ & _ & [[E _]|(pre & b & E & Hpre & Hb)]).
  { rewrite E in Hin. by apply elem_of_nil in Hin. }
  rewrite E in Hin. apply elem_of_app in Hin as [Hin|Hin].
  { rewrite Forall_forall in Hpre. by destruct (Hpre a Hin). }
  apply list_elem_of_singleton in Hin as <-.
  exists e, pre. destruct Hb as [(? & ? & ?)|(? & ? & ?)]; by split_and!.
Qed.

Lemma map_keyed_keys {A} (key : A → Z) (f : A → A) k l :
  (∀ a, key (f a) = key a) → key <$> map (λ a, if key a =? k then f a else a) l = key <$> l.
Proof.
  intros Hf. induction l as [|a l IH]; [done|]. cbn. rewrite IH.
  destruct (key a =? k); by rewrite ?Hf.
Qed.

(** Moving one event with [f] and one of its attempts with [g]: the rest of the
    store keeps its rows. *)
Lemma move_one P s a f g :
  store_wf P s → a ∈ attempts s →
  (∀ r, ev_id (f r) = ev_id r) →
  (∀ b, at_id (g b) = at_id b ∧ at_event_id (g b) = at_event_id b) →
  let s' := update_events (at_event_id a) f (update_attempts (at_id a) g s) in
  NoDup (ev_id <$> events s') ∧ NoDup (at_id <$> attempts s')
  ∧ (∀ j, event_by_id j s' = if j =? at_event_id a then f <$> event_by_id j s else event_by_id j s)
  ∧ (∀ j, j ≠ at_event_id a → attempts_of j s' = attempts_of j s)
  ∧ ∀ j, event_by_id j s' = None → attempts_of j s' = [].
Proof.
  intros Hwf Ha Hf Hg s'.
  assert (Hev : ∀ j, event_by_id j s' = if j =? at_event_id a then f <$> event_by_id j s else event_by_id j s).
  { intros j. unfold s'. by rewrite update_event_by_id, update_attempts_event by done. }
  assert (Hmap : ∀ j, attempts_of j s' = map (λ b, if at_id b =? at_id a then g b else b) (attempts_of j s)).
  { intros j. unfold s'. rewrite update_events_attempts. apply update_attempts_of. apply Hg. }
  split_and!; [| |done| |].
  - unfold s', update_events, update_attempts. cbn [events]. rewrite map_keyed_keys by done. apply (wf_events s Hwf).
  - unfold s', update_events, update_attempts. cbn [attempts]. rewrite map_keyed_keys by apply Hg. apply (wf_attempts s Hwf).
  - intros j Hj. rewrite Hmap. apply map_keyed_other. intros (b & Hb & Hbin)%list_elem_of_fmap.
    apply attempts_of_elem in Hbin as [Hbin <-]. apply Hj. f_equal.
    pose proof (find_key_In at_id _ b (wf_attempts s Hwf) Hbin) as F1.
    pose proof (find_key_In at_id _ a (wf_attempts s Hwf) Ha) as F2. rewrite Hb in F2. congruence.
  - intros j Hj. rewrite Hmap. rewrite Hev in Hj. rewrite (wf_known s Hwf); [done|].
    destruct (j =? at_event_id a); [|done]. by destruct (event_by_id j s).
Qed.

(** Any move of an event outside [P]. *)
Lemma disturb P s a f g :
  store_wf P s → a ∈ attempts s → ¬ P (at_event_id a) →
  (∀ r, ev_id (f r) = ev_id r) →
  (∀ b, at_id (g b) = at_id b ∧ at_event_id (g b) = at_event_id b) →
  let s' := update_events (at_event_id a) f (update_attempts (at_id a) g s) in
  store_wf P s'
  ∧ ∀ j, j ≠ at_event_id a → event_by_id j s' = event_by_id j s ∧ attempts_of j s' = attempts_of j s.
Proof.
  intros Hwf Ha HP Hf Hg s'.
  destruct (move_one P s a f g Hwf Ha Hf Hg) as (H1 & H2 & Hev & Hat & Hk). fold s' in H1, H2, Hev, Hat, Hk.
  assert (Hoth : ∀ j, j ≠ at_event_id a → event_by_id j s' = event_by_id j s ∧ attempts_of j s' = attempts_of j s).
  { intros j Hj. split; [|by apply Hat]. rewrite Hev. by apply Z.eqb_neq in Hj as ->. }
  split; [|done]. split; try done. intros j Hj. assert (Hne : j ≠ at_event_id a) by congruence.
  destruct (Hoth j Hne) as [E1 E2]. unfold event_ok. rewrite E1, E2. by apply (wf_event s Hwf).
Qed.

(** Closing the open attempt [a] with [g] while its event moves by [f]. *)
Lemma conclude P s a e f g :
  store_wf P s → P (at_event_id a) → a ∈ attempts s → finished_at a = None →
  event_by_id (at_event_id a) s = Some e →
  (∀ r, ev_id (f r) = ev_id r) → ev_status (f e) ∉ [PROCESSING; PENDING] →
  (∀ b, at_id (g b) = at_id b ∧ at_event_id (g b) = at_event_id b ∧ at_no (g b) = at_no b) →
  finished_at (g a) ≠ None → (conclusive (g a) → ev_status (f e) ∈ [DELIVERED; UNCERTAIN]) →
  let s' := update_events (at_event_id a) f (update_attempts (at_id a) g s) in
  store_wf P s'
  ∧ event_by_id (at_event_id a) s' = Some (f e)
  ∧ (∃ pre, attempts_of (at_event_id a) s = pre ++ [a] ∧ attempts_of (at_event_id a) s' = pre ++ [g a])
  ∧ ∀ j, j ≠ at_event_id a → event_by_id j s' = event_by_id j s ∧ attempts_of j s' = attempts_of j s.
Proof.
  intros Hwf HP Ha Hopen He Hf Hst Hg Hfin Hcon s'.
  destruct (open_is_last P s a Hwf HP Ha Hopen) as (e' & pre & He' & _ & Hl & _).
  rewrite He in He'. injection He' as <-.
  destruct (move_one P s a f g Hwf Ha Hf) as (H1 & H2 & Hev & Hother & Hk); [intros b; by destruct (Hg b) as (? & ? & _)|].
  fold s' in H1, H2, Hev, Hother, Hk.
  assert (Hat : attempts_of (at_event_id a) s' = pre ++ [g a]).
  { unfold s'. rewrite update_events_attempts, update_attempts_of by apply Hg. rewrite Hl.
    apply map_keyed_last. rewrite <- Hl. by eapply attempts_of_NoDup. }
  split; [|split; [by rewrite Hev, Z.eqb_refl, He|split; [by exists pre|]]].
  - split; [done..|].
    intros j HPj. unfold event_ok. rewrite Hev. pose proof (wf_event s Hwf j HPj) as Hj. unfold event_ok in Hj.
    destruct (Z.eqb_spec j (at_event_id a)) as [->|Hne]; [|by rewrite Hother].
    rewrite He in Hj |- *. rewrite Hat. cbn [fmap option_fmap option_map]. rewrite Hl in Hj. destruct Hj as (Hn & Hlen & Hj).
    split; [|split].
    + rewrite fmap_app in *. cbn [fmap list_fmap] in *. destruct (Hg a) as (_ & _ & ->).
      by rewrite length_app in *.
    + by rewrite length_app in *.
    + right. exists pre, (g a). split; [done|]. split.
      { destruct Hj as [[E _]|(pre' & b & E & Hpre & _)]; [by destruct pre|].
        by apply app_inj_tail in E as [-> _]. }
      right. by split_and!.
  - intros j Hj. rewrite Hev, Hother by done. apply Z.eqb_neq in Hj as ->. done.
Qed.

(** ** Transactions that add or cancel events *)

Lemma insert_event_spec P mk s s' i :
  insert_event mk s = Ok (s', i) → (∀ j, ev_id (mk j) = j) → store_wf P s →
  i = next_id (map ev_id (events s)) ∧ events s' = events s ++ [mk i] ∧ attempts s' = attempts s
  ∧ event_by_id i s = None ∧ attempts_of i s = [].
Proof.
  unfold insert_event. intros H Hid Hwf. case_match; [done|]. injection H as <- <-.
  split; [done|]. split; [done|]. split; [done|].
  assert (E : event_by_id (next_id (map ev_id (events s))) s = None).
  { apply find_key_None, next_id_fresh. }
  split; [done|]. by apply (wf_known s Hwf).
Qed.

(** A row added with a fresh key and no attempt to process. *)
Lemma add_event_wf P s s' e :
  store_wf P s → events s' = events s ++ [e] → attempts s' = attempts s →
  event_by_id (ev_id e) s = None → attempts_of (ev_id e) s = [] → ev_status e ≠ PROCESSING →
  store_wf P s' ∧ (∀ j, event_by_id j s' = if j =? ev_id e then Some e else event_by_id j s)
  ∧ ∀ j, attempts_of j s' = attempts_of j s.
Proof.
  intros Hwf He Ha Hnone Hnil Hst.
  assert (Hev : ∀ j, event_by_id j s' = if j =? ev_id e then Some e else event_by_id j s).
  { intros j. unfold event_by_id. rewrite He, find_app. cbn. rewrite (Z.eqb_sym (ev_id e)).
    destruct (Z.eqb_spec j (ev_id e)) as [->|Hne].
    - unfold event_by_id in Hnone. by rewrite Hnone.
    - by destruct (find _ (events s)). }
  assert (Hat : ∀ j, attempts_of j s' = attempts_of j s) by (intros j; unfold attempts_of; by rewrite Ha).
  split; [|done]. split.
  - rewrite He, fmap_app. apply NoDup_app. split; [apply (wf_events s Hwf)|]. split; [|apply NoDup_singleton].
    intros j Hj Hj'%list_elem_of_singleton. subst j. by apply find_key_None in Hnone.
  - rewrite Ha. apply (wf_attempts s Hwf).
  - intros j. rewrite Hev, Hat. destruct (Z.eqb_spec j (ev_id e)); [done|]. apply (wf_known s Hwf).
  - intros j HP. unfold event_ok. rewrite Hev, Hat. destruct (Z.eqb_spec j (ev_id e)) as [->|Hne].
    + rewrite Hnil. split; [done|]. split; [cbn; lia|]. by left.
    + by apply (wf_event s Hwf).
Qed.

(** Rows that keep their key and their status, or go from waiting to failed. *)
Definition calm (h : EventRow → EventRow) : Prop :=
  ∀ e, ev_id (h e) = ev_id e
       ∧ (ev_status (h e) = ev_status e
          ∨ ev_status e ∈ [PENDING; FAILED] ∧ ev_status (h e) = FAILED).

Definition map_events (h : EventRow → EventRow) (s : Store) : Store :=
  {| events := map h (events s); attempts := attempts s |}.

Lemma history_failed st l :
  history_ok st l → st ∈ [PENDING; FAILED] → history_ok FAILED l.
Proof.
  intros (Hn & Hlen & H) Hst. split; [done|]. split; [done|].
  assert (st ≠ PROCESSING ∧ st ∉ [DELIVERED; UNCERTAIN]) as [Hp Hc].
  { repeat (apply elem_of_cons in Hst as [->|Hst]; [split; [done|not_in]|]). by apply elem_of_nil in Hst. }
  destruct H as [[-> _]|(pre & a & -> & Hpre & Ha)]; [by left|]. right. exists pre, a.
  split; [done|]. split; [done|]. right. destruct Ha as [[? _]|(_ & Hf & Hcon)]; [done|].
  split; [not_in|]. split; [done|]. intros ?%Hcon. done.
Qed.

Lemma map_events_wf P h s :
  calm h → store_wf P s →
  store_wf P (map_events h s)
  ∧ (∀ j, event_by_id j (map_events h s) = h <$> event_by_id j s)
  ∧ ∀ j, attempts_of j (map_events h s) = attempts_of j s.
Proof.
  intros Hh Hwf.
  assert (Hev : ∀ j, event_by_id j (map_events h s) = h <$> event_by_id j s).
  { intros j. unfold event_by_id, map_events. cbn [events]. apply find_map_key. apply Hh. }
  split; [|done]. split.
  - unfold map_events. cbn [events]. replace (ev_id <$> map h (events s)) with (ev_id <$> events s);
      [apply (wf_events s Hwf)|]. clear -Hh. induction (events s) as [|e l IH]; [done|]. cbn.
    rewrite IH. f_equal. symmetry. apply Hh.
  - apply (wf_attempts s Hwf).
  - intros j. rewrite Hev. intros Hj. apply (wf_known s Hwf). by destruct (event_by_id j s).
  - intros j HP. pose proof (wf_event s Hwf j HP) as Hj. unfold event_ok in *. rewrite Hev.
    destruct (event_by_id j s) as [e|]; [|done]. cbn [fmap option_fmap option_map].
    destruct (Hh e) as [_ [->|[Hst ->]]]; [done|]. by eapply history_failed.
Qed.

(** Updating the rows of distinct keys one after the other. *)
Lemma fold_update_events f rows s :
  (∀ r, ev_id (f r) = ev_id r) → NoDup (ev_id <$> rows) →
  fold_left (λ s r, update_events (ev_id r) f s) rows s
  = map_events (λ e, if decide (ev_id e ∈ ev_id <$> rows) then f e else e) s.
Proof.
  intros Hf. revert s. induction rows as [|r rows IH]; intros s Hn; cbn [fold_left].
  - unfold map_events. destruct s as [es l]. cbn [events attempts]. f_equal.
    rewrite <- (map_id es) at 1. apply map_ext. intros e. by rewrite decide_False by apply not_elem_of_nil.
  - apply NoDup_cons in Hn as [Hr Hn]. rewrite IH by done. unfold map_events, update_events.
    cbn [events attempts]. f_equal. rewrite map_map. apply map_ext. intros e.
    cbn [fmap list_fmap]. destruct (Z.eqb_spec (ev_id e) (ev_id r)) as [E|E].
    + rewrite Hf, decide_False by by rewrite E. rewrite decide_True; [done|]. rewrite E. by left.
    + destruct (decide (ev_id e ∈ ev_id <$> rows)) as [Hin|Hin].
      * rewrite decide_True; [done|]. by right.
      * rewrite decide_False; [done|]. by intros [?|?]%elem_of_cons.
Qed.

(** Cancelling touches exactly the cancellable rows. *)
Lemma cancel_rows_spec P logical reason at_ s :
  store_wf P s →
  fold_left (λ s r, update_events (ev_id r) (cancel_row reason at_) s)
    (filter (λ r, cancellable logical r = true) (events s)) s
  = map_events (λ e, if cancellable logical e then cancel_row reason at_ e else e) s.
Proof.
  intros Hwf. rewrite fold_update_events; [| done |].
  - unfold map_events. f_equal. apply map_ext_in. intros e He.
    destruct (cancellable logical e) eqn:Ec.
    + rewrite decide_True; [done|]. apply list_elem_of_fmap_2, list_elem_of_filter.
      split; [done|]. by apply list_elem_of_In.
    + rewrite decide_False; [done|]. intros (r & Hr & Hin)%list_elem_of_fmap.
      apply list_elem_of_filter in Hin as [Hc Hin]. apply list_elem_of_In in He.
      pose proof (find_key_In ev_id _ e (wf_events s Hwf) He) as F1.
      pose proof (find_key_In ev_id _ r (wf_events s Hwf) Hin) as F2. rewrite <- Hr in F2. congruence.
  - eapply sublist_NoDup; [apply (wf_events s Hwf)|]. apply fmap_sublist, sublist_filter.
Qed.

Lemma cancel_calm logical reason at_ :
  calm (λ e, if cancellable logical e then cancel_row reason at_ e else e).
Proof.
  intros e. unfold cancellable. case_match; [|by auto]. split; [done|]. right.
  bool_to_prop. done.
Qed.

(** ** Enqueueing keeps what is stored *)

Definition grows (s s' : Store) : Prop :=
  attempts s' = attempts s ∧ ∃ new, events s' = events s ++ new.

Lemma grows_refl s : grows s s.
Proof. split; [done|]. exists []. by rewrite app_nil_r. Qed.

Lemma grows_trans s s' s'' : grows s s' → grows s' s'' → grows s s''.
Proof.
  intros [H1 [n1 E1]] [H2 [n2 E2]]. split; [congruence|]. exists (n1 ++ n2).
  by rewrite E2, E1, app_assoc.
Qed.

Lemma grows_event s s' j e : grows s s' → event_by_id j s = Some e → event_by_id j s' = Some e.
Proof. intros [_ [n E]] H. unfold event_by_id in *. by rewrite E, find_app, H. Qed.

Lemma grows_attempts s s' j : grows s s' → attempts_of j s' = attempts_of j s.
Proof. intros [E _]. unfold attempts_of. by rewrite E. Qed.

Lemma grows_at s s' logical ch e :
  grows s s' → event_at logical ch s = Some e → event_at logical ch s' = Some e.
Proof. intros [_ [n E]] H. unfold event_at in *. by rewrite E, find_app, H. Qed.

(** What one channel of [enqueue] does. *)
Lemma enqueue_channel_cases clock d text fp at_ accept s b ch s' b' :
  enqueue_channel clock d text fp at_ accept (s, b) ch = Ok (s', b') →
  (∃ row, event_at (dr_logical_id d) ch s = Some row ∧ s' = s
          ∧ (payload_sha256 row = fp ∨ accept = true)
          ∧ b' = {| event_ids := event_ids b ++ [ev_id row]; inserted := inserted b;
                    duplicate := duplicate b + 1; cancelled := false |})
  ∨ (event_at (dr_logical_id d) ch s = None ∧ ∃ i expires,
       insert_event (pending_row d text fp ch expires at_) s = Ok (s', i)
       ∧ match dr_expires_at d with
         | Some e => ∃ u, _now clock (Some e) = Ok u ∧ expires = Some u
         | None => expires = None
         end
       ∧ b' = {| event_ids := event_ids b ++ [i]; inserted := inserted b + 1;
                 duplicate := duplicate b; cancelled := false |}).
Proof.
  unfold enqueue_channel. destruct (event_at (dr_logical_id d) ch s) as [row|].
  - case_match eqn:Ec; [done|]. intros [= <- <-]. left. exists row. split_and!; try done.
    apply andb_false_iff in Ec as [Ec|Ec]; bool_to_prop; [|by right].
    left. by apply String.eqb_eq.
  - intros H. right. split; [done|]. apply res_bind_ok in H as (expires & He & H).
    apply res_bind_ok in H as ([s2 i] & Hi & H). injection H as <- <-. exists i, expires.
    split_and!; [done| |done]. destruct (dr_expires_at d) as [e|]; [|by injection He as <-].
    apply res_fmap_ok in He as (u & Hu & ->). by exists u.
Qed.

Lemma enqueue_channel_wf P clock d text fp at_ accept s b ch s' b' :
  enqueue_channel clock d text fp at_ accept (s, b) ch = Ok (s', b') → store_wf P s →
  store_wf P s' ∧ grows s s'.
Proof.
  intros [(row & _ & -> & _)|(_ & i & expires & Hi & _)]%enqueue_channel_cases Hwf.
  { split; [done|apply grows_refl]. }
  apply (insert_event_spec P) in Hi as (_ & He & Ha & Hn & Hl); [|done|done].
  destruct (add_event_wf P s s' _ Hwf He Ha) as [Hwf' _]; try done.
  split; [done|]. split; [done|]. by eexists.
Qed.

Lemma res_fold_ind {A B} (f : A → B → res A) (P : A → A → Prop) l a a' :
  (∀ a, P a a) → (∀ a b c, P a b → P b c → P a c) →
  (∀ x y b, f x b = Ok y → P x y) → res_fold f a l = Ok a' → P a a'.
Proof.
  intros Hr Ht Hs. revert a. induction l as [|b l IH]; intros a; cbn; [by intros [= ->]|].
  intros H. apply res_bind_ok in H as (a1 & H1 & H). eauto.
Qed.

Lemma enqueue_wf P clock s d now accept s' b :
  enqueue clock s d now accept = Ok (s', b) → store_wf P s → store_wf P s' ∧ grows s s'.
Proof.
  unfold enqueue. intros H Hwf. split_if H; [done|]. split_if H; [done|].
  apply res_bind_ok in H as (at_ & _ & H). apply res_bind_ok in H as ([text fp] & _ & H).
  destruct (event_at _ _ s) as [r|].
  { injection H as <- <-. split; [done|apply grows_refl]. }
  apply (res_fold_ind _ (λ x y, store_wf P x.1 → store_wf P y.1 ∧ grows x.1 y.1)) in H.
  - exact H.
  - intros [x ?]. by split; [|apply grows_refl].
  - intros [x ?] [y ?] [z ?] H1 H2 Hx. destruct (H1 Hx) as [Hy G1], (H2 Hy) as [Hz G2].
    split; [done|]. by eapply grows_trans.
  - intros [x ?] [y ?] ch Hc Hx. exact (enqueue_channel_wf _ _ _ _ _ _ _ _ _ _ _ _ Hc Hx).
  - done.
Qed.

(** ** Cancelling *)

Lemma cancel_spec P clock s logical reason now s' n :
  cancel clock s logical reason now = Ok (s', n) → store_wf P s →
  ∃ at_ s1, _now clock now = Ok at_ ∧ store_wf P s1 ∧ grows s s1
    ∧ (∃ f, event_at logical CANCELLATION_CHANNEL s1 = Some f)
    ∧ s' = map_events (λ e, if cancellable logical e then cancel_row reason at_ e else e) s1
    ∧ store_wf P s'.
Proof.
  unfold cancel. intros H Hwf. apply res_bind_ok in H as (at_ & Hat & H). exists at_.
  apply res_bind_ok in H as (s1 & H1 & H). injection H as <- _. exists s1.
  assert (store_wf P s1 ∧ grows s s1 ∧ ∃ f, event_at logical CANCELLATION_CHANNEL s1 = Some f)
    as (Hwf1 & Hg & Hf).
  { destruct (event_at logical CANCELLATION_CHANNEL s) as [r|] eqn:Er.
    - injection H1 as <-. split_and!; [done|apply grows_refl|by exists r].
    - apply res_fmap_ok in H1 as ([s2 i] & H1 & ->). cbn [fst].
      apply (insert_event_spec P) in H1 as (_ & He & Ha & Hn & Hl); [|done|done].
      destruct (add_event_wf P s s2 _ Hwf He Ha) as [Hwf' _]; try done. split; [done|].
      split; [split; [done|by eexists]|]. unfold event_at in *. rewrite He, find_app, Er. cbn.
      rewrite String.eqb_refl. by eexists. }
  rewrite (cancel_rows_spec P) by done. split_and!; try done.
  apply map_events_wf; [apply cancel_calm|done].
Qed.

(** ** Beginning an attempt *)

Lemma foldr_max_app l x : foldr Z.max 0 (l ++ [x]) = Z.max (foldr Z.max 0 l) (Z.max x 0).
Proof. induction l as [|y l IH]; cbn; [lia|]. rewrite IH. lia. Qed.

Lemma seqZ_one m : seqZ m 1 = [m].
Proof. rewrite seqZ_cons by lia. by rewrite seqZ_nil by lia. Qed.

Lemma foldr_max_seqZ n : foldr Z.max 0 (seqZ 1 (Z.of_nat n)) = Z.of_nat n.
Proof.
  induction n as [|n IH]; [done|].
  replace (Z.of_nat (S n)) with (Z.of_nat n + 1) by lia. rewrite seqZ_app by lia.
  rewrite seqZ_one, foldr_max_app, IH. lia.
Qed.

Lemma last_attempt_no_length P s i e :
  store_wf P s → P i → event_by_id i s = Some e →
  last_attempt_no i s = Z.of_nat (length (attempts_of i s)).
Proof.
  intros Hwf HP He. pose proof (wf_event s Hwf i HP) as H. unfold event_ok in H. rewrite He in H.
  destruct H as (H & _). unfold last_attempt_no.
  change (map at_no (attempts_of i s)) with (at_no <$> attempts_of i s). rewrite H.
  apply foldr_max_seqZ.
Qed.

Definition waiting (st : NotificationStatus) : bool := bool_decide (st ∈ [PENDING; FAILED]).

Lemma not_waiting st : bool_decide (st ∈ [DELIVERED; PROCESSING; UNCERTAIN]) = negb (waiting st).
Proof. by destruct st. Qed.

Lemma waiting_not st : waiting st = true → st ≠ PROCESSING ∧ st ∉ [DELIVERED; UNCERTAIN].
Proof. destruct st; try done; intros _; (split; [done|not_in]). Qed.

Inductive began (clock : Z) (s : Store) (i max : Z) (now : option pydt) : Store → option Attempt → Prop :=
  | began_nothing : began clock s i max now s None
  | began_expired e at_ :
      _now clock now = Ok at_ → event_by_id i s = Some e → cancelled_at e = None →
      waiting (ev_status e) = true → expired_at at_ e = true →
      began clock s i max now
        (update_events i (set_status FAILED (Some "expired_before_transport") at_) s) None
  | began_attempt e at_ k p :
      _now clock now = Ok at_ → event_by_id i s = Some e → cancelled_at e = None →
      waiting (ev_status e) = true → expired_at at_ e = false →
      k = next_id (map at_id (attempts s)) → last_attempt_no i s < max →
      loads (payload_json e) = Ok p →
      began clock s i max now
        {| events := events (update_events i (set_processing at_) s);
           attempts := attempts s ++ [new_attempt i (last_attempt_no i s + 1) at_ k] |}
        (Some {| attempt_id := k; att_event_id := i; attempt_no := last_attempt_no i s + 1;
                 channel := ev_channel e; payload := p |}).

Lemma begin_attempt_cases clock s i max now s' r :
  begin_attempt clock s i max now = Ok (s', r) → began clock s i max now s' r.
Proof.
  unfold begin_attempt. intros H. split_if H; [done|].
  apply res_bind_ok in H as (at_ & Hat & H). destruct (event_by_id i s) as [e|] eqn:He.
  2:{ injection H as <- <-. constructor. }
  case_bool_decide as Hc; [injection H as <- <-; constructor|].
  rewrite not_waiting in H. destruct (waiting (ev_status e)) eqn:Hw; cbn [negb] in H.
  2:{ injection H as <- <-. constructor. }
  assert (cancelled_at e = None) as Hc' by (destruct (cancelled_at e); [by destruct Hc|done]).
  destruct (expired_at at_ e) eqn:Hx.
  { injection H as <- <-. by eapply began_expired. }
  destruct (max <? last_attempt_no i s + 1) eqn:Hm.
  { injection H as <- <-. constructor. }
  cbn [insert_attempt] in H. unfold insert_attempt in H.
  apply res_bind_ok in H as (p & Hp & H). injection H as <- <-. bool_to_prop.
  eapply began_attempt; eauto. lia.
Qed.

Lemma began_claim clock s i max now s' a :
  began clock s i max now s' (Some a) →
  ∃ e, event_by_id i s = Some e ∧ loads (payload_json e) = Ok (payload a)
       ∧ channel a = ev_channel e ∧ attempt_no a = last_attempt_no i s + 1.
Proof.
  intros H. remember (Some a) as r eqn:Er. destruct H; [done..|]. injection Er as <-.
  by eexists.
Qed.

Lemma set_status_expired_calm P i s e at_ err :
  event_by_id i s = Some e → waiting (ev_status e) = true → store_wf P s →
  store_wf P (update_events i (set_status FAILED err at_) s)
  ∧ ∀ j, event_by_id j (update_events i (set_status FAILED err at_) s)
         = if j =? i then set_status FAILED err at_ <$> event_by_id j s else event_by_id j s.
Proof.
  intros He Hw Hwf.
  assert (Hev : ∀ j, event_by_id j (update_events i (set_status FAILED err at_) s)
         = if j =? i then set_status FAILED err at_ <$> event_by_id j s else event_by_id j s)
    by (intros j; by apply update_event_by_id).
  split; [|done]. split.
  - unfold update_events. cbn [events]. rewrite map_keyed_keys by done. apply (wf_events s Hwf).
  - apply (wf_attempts s Hwf).
  - intros j. rewrite Hev. intros Hj. apply (wf_known s Hwf). destruct (j =? i); [|done]. by destruct (event_by_id j s).
  - intros j HP. pose proof (wf_event s Hwf j HP) as Hj. unfold event_ok in *. rewrite Hev.
    destruct (Z.eqb_spec j i) as [->|Hne]; [|done]. rewrite He in *. cbn.
    apply bool_decide_eq_true_1 in Hw. by eapply history_failed.
Qed.

(** A claimed attempt is open and the last one of its event. *)
Lemma began_wf P clock s i max now s' r :
  began clock s i max now s' r → max ≤ 3 → store_wf P s →
  store_wf P s'
  ∧ (∀ j, j ≠ i → event_by_id j s' = event_by_id j s ∧ attempts_of j s' = attempts_of j s)
  ∧ (∀ a, a ∈ attempts s → a ∈ attempts s')
  ∧ match r with
    | Some t => att_event_id t = i
        ∧ ∃ e at_, event_by_id i s = Some e ∧ waiting (ev_status e) = true ∧ cancelled_at e = None
            ∧ event_by_id i s' = Some (set_processing at_ e)
            ∧ attempts_of i s' = attempts_of i s ++ [new_attempt i (attempt_no t) at_ (attempt_id t)]
            ∧ (P i → attempt_no t = Z.of_nat (length (attempts_of i s)) + 1)
            ∧ new_attempt i (attempt_no t) at_ (attempt_id t) ∈ attempts s'
            ∧ attempt_id t ∉ at_id <$> attempts s
    | None => attempts s' = attempts s
    end.
Proof.
  intros H Hmax Hwf. destruct H as [|e at_ Hat He Hc Hw Hx|e at_ k p Hat He Hc Hw Hx Hk Hm Hp].
  - by split_and!.
  - destruct (set_status_expired_calm P i s e at_ (Some "expired_before_transport") He Hw Hwf) as [Hwf' Hev].
    split; [done|]. split; [|done]. intros j Hj. rewrite Hev. by apply Z.eqb_neq in Hj as ->.
  - assert (Hlast : P i → last_attempt_no i s = Z.of_nat (length (attempts_of i s)))
      by (intros HP; by eapply last_attempt_no_length).
    set (a := new_attempt i _ at_ k).
    set (s' := {| events := _; attempts := _ |}).
    assert (Hev : ∀ j, event_by_id j s' = if j =? i then set_processing at_ <$> event_by_id j s
                                         else event_by_id j s).
    { intros j. change (event_by_id j s') with (event_by_id j (update_events i (set_processing at_) s)).
      by rewrite update_event_by_id. }
    assert (Hat' : ∀ j, attempts_of j s' = attempts_of j s ++ (if decide (j = i) then [a] else [])).
    { intros j. unfold attempts_of, s'. cbn [attempts]. rewrite filter_app. f_equal.
      rewrite filter_cons, filter_nil. change (at_event_id a) with i.
      destruct (decide (i = j)), (decide (j = i)); congruence. }
    assert (Hk' : k ∉ at_id <$> attempts s) by (subst k; apply next_id_fresh).
    split.
    { split.
      - unfold s', update_events. cbn [events]. rewrite map_keyed_keys by done. apply (wf_events s Hwf).
      - unfold s'. cbn [attempts]. rewrite fmap_app. apply NoDup_app. split; [apply (wf_attempts s Hwf)|].
        split; [|apply NoDup_singleton]. intros j Hj Hj'%list_elem_of_singleton. subst j. done.
      - intros j. rewrite Hev, Hat'. destruct (Z.eqb_spec j i) as [->|Hne]; [by rewrite He|].
        rewrite decide_False, app_nil_r by done. apply (wf_known s Hwf).
      - intros j HP. pose proof (wf_event s Hwf j HP) as Hj. unfold event_ok in *. rewrite Hev, Hat'.
        destruct (Z.eqb_spec j i) as [->|Hne].
        2:{ rewrite decide_False by done. by rewrite app_nil_r. }
        rewrite decide_True by done. rewrite He in *. cbn [fmap option_fmap option_map].
        specialize (Hlast HP). destruct Hj as (Hn & Hlen & Hj). split; [|split].
        + rewrite fmap_app, Hn, length_app. cbn [length].
          rewrite Nat2Z.inj_add, seqZ_app, (seqZ_one (1 + _)) by lia.
          cbn [fmap list_fmap]. change (at_no a) with (last_attempt_no i s + 1). rewrite Hlast.
          by rewrite Z.add_comm.
        + rewrite length_app. cbn [length]. lia.
        + right. exists (attempts_of i s), a. split; [done|]. split.
          * destruct Hj as [[-> _]|(pre & b & -> & Hpre & Hb)]; [constructor|].
            apply Forall_app. split; [done|]. apply Forall_singleton.
            destruct (waiting_not _ Hw) as [Hnp Hnc].
            destruct Hb as [(E & _)|(_ & Hf & Hcon)]; [done|]. split; [done|]. intros Hco%Hcon. done.
          * left. split; [done|]. split; [done|]. unfold conclusive, a. cbn. intros [?|?]; done. }
    split; [|split].
    + intros j Hj. rewrite Hev, Hat'. rewrite decide_False by done. rewrite app_nil_r.
      by apply Z.eqb_neq in Hj as ->.
    + intros b Hb. unfold s'. cbn [attempts]. apply elem_of_app. by left.
    + split; [done|]. exists e, at_. split_and!; try done.
      * by rewrite Hev, Z.eqb_refl, He.
      * rewrite Hat', decide_True by done. done.
      * cbn. intros HP. by rewrite Hlast.
      * unfold s'. cbn [attempts]. apply elem_of_app. right. by left.
Qed.

(** ** Marking the transport *)

(** An attempt row that keeps what the invariant reads. *)
Definition neutral (g : AttemptRow → AttemptRow) : Prop :=
  ∀ a, at_id (g a) = at_id a ∧ at_event_id (g a) = at_event_id a ∧ at_no (g a) = at_no a
       ∧ finished_at (g a) = finished_at a ∧ at_outcome (g a) = at_outcome a ∧ at_ok (g a) = at_ok a.

Lemma history_neutral g st l : neutral g → history_ok st l → history_ok st (map g l).
Proof.
  intros Hg (Hn & Hlen & H).
  assert (Hc : ∀ a, conclusive (g a) ↔ conclusive a).
  { intros a. unfold conclusive. destruct (Hg a) as (_ & _ & _ & _ & -> & ->). done. }
  assert (Hf : ∀ a, finished_at (g a) = finished_at a) by (intros a; apply Hg).
  split; [|split].
  - rewrite length_map, <- Hn. clear -Hg. induction l as [|a l IH]; [done|]. cbn.
    rewrite IH. f_equal. apply Hg.
  - by rewrite length_map.
  - destruct H as [[-> ?]|(pre & a & -> & Hpre & Ha)]; [by left|]. right. exists (map g pre), (g a).
    rewrite map_app. split; [done|]. split.
    + apply Forall_map. eapply Forall_impl; [exact Hpre|]. intros b []. by rewrite Hf, Hc.
    + by rewrite Hf, Hc.
Qed.

Lemma mark_wf P s k :
  store_wf P s →
  store_wf P (mark_transport_started s k)
  ∧ (∀ i, event_by_id i (mark_transport_started s k) = event_by_id i s)
  ∧ ∀ a, a ∈ attempts s →
         ∃ b, b ∈ attempts (mark_transport_started s k) ∧ at_id b = at_id a
              ∧ finished_at b = finished_at a ∧ at_event_id b = at_event_id a.
Proof.
  intros Hwf. set (g := λ a, if at_id a =? k then start_transport a else a).
  assert (Hg : neutral g) by (intros a; unfold g; case_match; by split_and!).
  split; [|split; [done|]].
  - split; [apply (wf_events s Hwf)| | |].
    + unfold mark_transport_started, update_attempts. cbn [attempts]. rewrite map_keyed_keys by done.
      apply (wf_attempts s Hwf).
    + intros i Hi. unfold mark_transport_started. rewrite update_attempts_of by done. by rewrite (wf_known s Hwf).
    + intros i HP. pose proof (wf_event s Hwf i HP) as H. unfold event_ok in *.
      unfold mark_transport_started. rewrite update_attempts_event, update_attempts_of by done.
      fold g. destruct (event_by_id i s); [by apply history_neutral|by rewrite H].
  - intros a Ha. exists (g a). split; [|by destruct (Hg a) as (-> & -> & _ & -> & _)].
    unfold mark_transport_started, update_attempts. cbn [attempts]. apply list_elem_of_fmap_2 with (f := g).
    done.
Qed.

(** ** Recovery *)

Definition still_open (s : Store) (ea : EventRow * AttemptRow) : Prop :=
  event_by_id (ev_id ea.1) s = Some ea.1 ∧ ev_status ea.1 = PROCESSING
  ∧ ea.2 ∈ attempts s ∧ at_event_id ea.2 = ev_id ea.1 ∧ finished_at ea.2 = None.

Lemma open_filter P s e :
  store_wf P s → P (ev_id e) → e ∈ events s → ev_status e = PROCESSING →
  ∃ pre a, attempts_of (ev_id e) s = pre ++ [a]
    ∧ filter (λ a, finished_at a = None ∧ at_event_id a = ev_id e) (attempts s) = [a]
    ∧ still_open s (e, a).
Proof.
  intros Hwf HP He Hst. pose proof (find_key_In ev_id _ e (wf_events s Hwf) He) as Hf.
  pose proof (wf_event s Hwf (ev_id e) HP) as H. unfold event_ok, event_by_id in H. rewrite Hf in H.
  destruct H as (_ & _ & [[_ H]|(pre & a & Hl & Hpre & [(_ & Ha & _)|(H & _)])]); [done| |].
  2:{ rewrite Hst in H. exfalso. apply H. by left. }
  exists pre, a. split; [done|].
  assert (Hin : a ∈ attempts_of (ev_id e) s) by (rewrite Hl; apply elem_of_app; right; by left).
  apply attempts_of_elem in Hin as [Hin Hev]. split; [|by split_and!].
  rewrite <- list_filter_filter. change (filter (λ x, at_event_id x = ev_id e) (attempts s))
    with (attempts_of (ev_id e) s). rewrite Hl, filter_app, filter_cons, filter_nil.
  rewrite decide_True by done. replace (filter _ pre) with (@nil AttemptRow); [done|]. symmetry.
  clear -Hpre. induction Hpre as [|b pre [Hb _] _ IH]; [done|]. by rewrite filter_cons, decide_False.
Qed.

(** The recovered rows of the events in [P], and what is known of all of them. *)
Lemma open_attempts_keys P `{∀ i, Decision (P i)} s :
  store_wf P s →
  (λ ea, ev_id ea.1) <$> filter (λ ea, P (ev_id ea.1)) (open_attempts s)
    = ev_id <$> filter (λ e, P (ev_id e)) (filter (λ e, ev_status e = PROCESSING) (events s))
  ∧ Forall (λ ea, P (ev_id ea.1) → still_open s ea) (open_attempts s)
  ∧ Forall (λ ea, ea.2 ∈ attempts s ∧ at_event_id ea.2 = ev_id ea.1) (open_attempts s).
Proof.
  intros Hwf. unfold open_attempts.
  assert (Hall : ∀ e, e ∈ filter (λ e, ev_status e = PROCESSING) (events s) →
                      e ∈ events s ∧ ev_status e = PROCESSING).
  { intros e He. apply list_elem_of_filter in He. tauto. }
  revert Hall. induction (filter _ (events s)) as [|e l IH]; intros Hall; [by split_and!|].
  destruct IH as (IH1 & IH2 & IH3); [intros e' He'; apply Hall; by right|].
  destruct (Hall e) as [He Hst]; [by left|]. cbn [mbind list_bind].
  set (mine := filter (λ a, finished_at a = None ∧ at_event_id a = ev_id e) (attempts s)).
  assert (Hmine : ∀ a, a ∈ mine → a ∈ attempts s ∧ at_event_id a = ev_id e).
  { intros a Ha. apply list_elem_of_filter in Ha. tauto. }
  split; [|split].
  - rewrite filter_app, fmap_app, IH1, (filter_cons _ e). destruct (decide (P (ev_id e))) as [HP|HP].
    + destruct (open_filter P s e Hwf HP He Hst) as (pre & a & _ & Hf & _). fold mine in Hf. rewrite Hf.
      cbn [fmap list_fmap]. rewrite filter_cons, filter_nil. cbn [fst]. by rewrite decide_True by done.
    + replace (filter (λ ea, P (ev_id ea.1)) ((λ a, (e, a)) <$> mine)) with (@nil (EventRow * AttemptRow)); [done|].
      clear -HP. induction mine as [|a m IHm]; [done|]. cbn [fmap list_fmap]. rewrite filter_cons. cbn [fst].
      by rewrite decide_False.
  - apply Forall_app. split; [|done]. apply Forall_fmap, Forall_forall. intros a Ha HP. cbn [fst compose] in HP.
    destruct (open_filter P s e Hwf HP He Hst) as (pre & a' & _ & Hf & Ho). fold mine in Hf.
    rewrite Hf in Ha. by apply list_elem_of_singleton in Ha as ->.
  - apply Forall_app. split; [|done]. apply Forall_fmap, Forall_forall. intros a Ha. by apply Hmine.
Qed.

(** What recovery does with one open attempt. *)
Definition recovered_status (a : AttemptRow) : NotificationStatus :=
  if at_attempted a then UNCERTAIN else FAILED.
Definition recovered_outcome (a : AttemptRow) : string :=
  if at_attempted a then "transport_outcome_uncertain" else "interrupted_before_transport".

(** The keys of the attempts are settled once and for all. *)
Definition attempt_keys (s : Store) : list (Z * Z) := (λ a, (at_id a, at_event_id a)) <$> attempts s.

Lemma attempt_keys_elem s a : a ∈ attempts s → (at_id a, at_event_id a) ∈ attempt_keys s.
Proof. intros Ha. unfold attempt_keys. apply list_elem_of_fmap. by exists a. Qed.

Lemma update_attempts_keys k g s :
  (∀ b, at_id (g b) = at_id b ∧ at_event_id (g b) = at_event_id b) →
  attempt_keys (update_attempts k g s) = attempt_keys s.
Proof.
  intros Hg. unfold attempt_keys, update_attempts. cbn [attempts]. induction (attempts s) as [|a l IH]; [done|].
  cbn. rewrite IH. f_equal. destruct (at_id a =? k); [|done]. by destruct (Hg a) as [-> ->].
Qed.

(** One row of the recovery. *)
Lemma recover_row_store at_ s r e a :
  recover_row at_ (s, r) (e, a)
  = (update_events (ev_id e) (set_status (recovered_status a) (Some (recovered_outcome a)) at_)
       (update_attempts (at_id a) (interrupt (recovered_outcome a) at_) s),
     {| retry_event_ids := retry_event_ids r ++ (if at_attempted a then [] else [ev_id e]);
        uncertain_event_ids := uncertain_event_ids r ++ (if at_attempted a then [ev_id e] else []) |}).
Proof.
  unfold recover_row, recovered_status, recovered_outcome. destruct (at_attempted a); cbn; by rewrite app_nil_r.
Qed.

Lemma recover_keys at_ l s r :
  attempt_keys (fold_left (recover_row at_) l (s, r)).1 = attempt_keys s
  ∧ retry_event_ids (fold_left (recover_row at_) l (s, r)).2 = retry_event_ids r
      ++ ((λ ea, ev_id ea.1) <$> filter (λ ea, at_attempted ea.2 = false) l)
  ∧ uncertain_event_ids (fold_left (recover_row at_) l (s, r)).2 = uncertain_event_ids r
      ++ ((λ ea, ev_id ea.1) <$> filter (λ ea, at_attempted ea.2 = true) l).
Proof.
  revert s r. induction l as [|[e a] l IH]; intros s r; cbn [fold_left]; [by rewrite !app_nil_r|].
  rewrite recover_row_store.
  destruct (IH (update_events (ev_id e) (set_status (recovered_status a) (Some (recovered_outcome a)) at_)
                  (update_attempts (at_id a) (interrupt (recovered_outcome a) at_) s))
               {| retry_event_ids := retry_event_ids r ++ (if at_attempted a then [] else [ev_id e]);
                  uncertain_event_ids := uncertain_event_ids r ++ (if at_attempted a then [ev_id e] else []) |})
    as (-> & -> & ->). clear IH.
  split; [by apply update_attempts_keys|]. cbn [retry_event_ids uncertain_event_ids].
  rewrite !filter_cons, <- !app_assoc. cbn [snd].
  destruct (at_attempted a); [rewrite decide_False, decide_True by done|rewrite decide_True, decide_False by done]; done.
Qed.

Lemma recover_fold P `{∀ i, Decision (P i)} at_ l s r :
  store_wf P s → NoDup ((λ ea, ev_id ea.1) <$> filter (λ ea, P (ev_id ea.1)) l) →
  Forall (λ ea, P (ev_id ea.1) → still_open s ea) l →
  Forall (λ ea, (at_id ea.2, ev_id ea.1) ∈ attempt_keys s) l →
  let s' := (fold_left (recover_row at_) l (s, r)).1 in
  store_wf P s'
  ∧ (∀ j, P j → j ∉ (λ ea, ev_id ea.1) <$> l → event_by_id j s' = event_by_id j s ∧ attempts_of j s' = attempts_of j s)
  ∧ ∀ ea, ea ∈ l → P (ev_id ea.1) →
       event_by_id (ev_id ea.1) s'
         = Some (set_status (recovered_status ea.2) (Some (recovered_outcome ea.2)) at_ ea.1)
       ∧ ∃ pre, attempts_of (ev_id ea.1) s = pre ++ [ea.2]
                ∧ attempts_of (ev_id ea.1) s' = pre ++ [interrupt (recovered_outcome ea.2) at_ ea.2].
Proof.
  revert s r. induction l as [|[e a] l IH]; intros s r Hwf Hnd Hopen Hkeys.
  { cbn. split_and!; try done. by intros ? []%not_elem_of_nil. }
  cbn [fold_left]. rewrite recover_row_store.
  apply Forall_cons in Hopen as [Hhead Hopen], Hkeys as [Hkey Hkeys]. cbn [fst snd] in *.
  set (s1 := update_events (ev_id e) _ _). set (r1 := Build_Recovery _ _).
  unfold attempt_keys in Hkey. apply list_elem_of_fmap in Hkey as (b & [= Hb1 Hb2] & Hb).
  assert (Hstep : store_wf P s1 ∧ (∀ j, j ≠ ev_id e → event_by_id j s1 = event_by_id j s ∧ attempts_of j s1 = attempts_of j s)
    ∧ (P (ev_id e) → event_by_id (ev_id e) s1 = Some (set_status (recovered_status a) (Some (recovered_outcome a)) at_ e)
         ∧ ∃ pre, attempts_of (ev_id e) s = pre ++ [a] ∧ attempts_of (ev_id e) s1 = pre ++ [interrupt (recovered_outcome a) at_ a])).
  { destruct (decide (P (ev_id e))) as [HP|HP].
    - destruct (Hhead HP) as (He & Hst & Ha & Hae & Hfin). cbn [fst snd] in *.
      unfold s1. rewrite <- Hae in He, HP |- *.
      destruct (conclude P s a e (set_status (recovered_status a) (Some (recovered_outcome a)) at_)
                  (interrupt (recovered_outcome a) at_) Hwf HP Ha Hfin He) as (Hwf1 & Hev1 & Hpre & Hoth); try done.
      { unfold recovered_status. cbn. destruct (at_attempted a); not_in. }
      { unfold recovered_status, recovered_outcome, conclusive. cbn. destruct (at_attempted a); [intros _; in_list|].
        by intros [?|?]. }
    - unfold s1. rewrite Hb1, Hb2 in *.
      destruct (disturb P s b (set_status (recovered_status a) (Some (recovered_outcome a)) at_)
                  (interrupt (recovered_outcome a) at_) Hwf Hb HP) as (Hwf1 & Hoth); done. }
  destruct Hstep as (Hwf1 & Hoth & Hdone). clearbody r1.
  assert (Hkeys1 : Forall (λ ea, (at_id ea.2, ev_id ea.1) ∈ attempt_keys s1) l).
  { unfold s1. eapply Forall_impl; [exact Hkeys|]. intros ea. cbv beta.
    change (attempt_keys (update_events ?i ?f ?x)) with (attempt_keys x). by rewrite update_attempts_keys. }
  assert (Hnd1 : NoDup ((λ ea, ev_id ea.1) <$> filter (λ ea, P (ev_id ea.1)) l)
                 ∧ (P (ev_id e) → ∀ ea, ea ∈ l → ev_id ea.1 ≠ ev_id e)).
  { rewrite filter_cons in Hnd. cbn [fst] in Hnd. destruct (decide (P (ev_id e))) as [HP|HP]; [|done].
    apply NoDup_cons in Hnd as [Hnew Hnd]. split; [done|]. intros _ ea Hin E. apply Hnew. cbn [fst].
    rewrite <- E. apply list_elem_of_fmap. exists ea. split; [done|]. apply list_elem_of_filter. by rewrite E. }
  destruct Hnd1 as [Hnd1 Hnew].
  assert (Hopen1 : Forall (λ ea, P (ev_id ea.1) → still_open s1 ea) l).
  { rewrite Forall_forall in Hopen |- *. intros [e' a'] Hin HP. destruct (Hopen _ Hin HP) as (H1 & H2 & H3 & H4 & H5).
    cbn [fst snd] in *. assert (Hne : ev_id e' ≠ ev_id e).
    { intros E. rewrite E in HP. by apply (Hnew HP _ Hin). }
    destruct (Hoth (ev_id e') Hne) as [Ho1 Ho2]. split_and!; try done; cbn [fst snd]; [by rewrite Ho1|].
    assert (a' ∈ attempts_of (ev_id e') s1) as Hin' by (rewrite Ho2; by apply attempts_of_elem).
    by apply attempts_of_elem in Hin' as []. }
  destruct (IH s1 r1 Hwf1 Hnd1 Hopen1 Hkeys1) as (I1 & I2 & I3). split; [done|]. split.
  - intros j HPj Hj. cbn [fmap list_fmap fst] in Hj. apply not_elem_of_cons in Hj as [Hj1 Hj2].
    destruct (I2 j HPj Hj2) as [-> ->]. by apply Hoth.
  - intros [e' a'] [E|Hin]%elem_of_cons HP.
    + injection E as -> ->. cbn [fst snd] in *. destruct (I2 (ev_id e) HP) as [-> ->]; [|by apply Hdone].
      intros (ea & E & Hin)%list_elem_of_fmap. by apply (Hnew HP ea Hin).
    + destruct (I3 _ Hin HP) as (J1 & pre' & J2 & J3). cbn [fst snd] in *. split; [done|].
      exists pre'. split; [|done]. rewrite <- J2. symmetry. apply Hoth. intros E. rewrite E in HP.
      by apply (Hnew HP _ Hin).
Qed.
