(* ===== verification/DeliveryProps.v ===== *)
(** * Properties of notification delivery

    The outbox and its workers as a transition system: enqueueing, cancelling,
    claiming an attempt, starting its transport, settling it, and the recovery
    that runs when the task worker starts.  Recovery does not stop the workers of
    other processes: those that survive it may still send and settle, and the
    events they hold are overtaken.  An event that was never overtaken, and that
    was delivered or may have been, is never sent again; a crash at any point
    leaves a store from which this still holds. *)

From stdpp Require Import base numbers strings list.
From Stdlib Require Import ZArith Lia.
From S2P Require Import Prelude PyStr PyFloat PyTime PyDateTime PyDict PyVal PyHash PyJson MarketCalendar Outbox OutboxFacts Delivery.

#[local] Open Scope Z_scope.

(** ** The transition system *)

(** The committed store, the attempts that live workers hold, and the events
    that a recovery overtook: a worker held an attempt of them and lived on. *)
Record World := { db : Store; flight : list Z; overtaken : list Z }.

Definition initial_world : World := {| db := empty_store; flight := []; overtaken := [] |}.

(** A transaction has committed; the workers hold [held]. *)
Definition commit (w : World) (s : Store) (held : list Z) : World :=
  {| db := s; flight := held; overtaken := overtaken w |}.

(** The events of the attempts [ks]. *)
Definition held_events (ks : list Z) (s : Store) : list Z :=
  at_event_id <$> filter (λ a, at_id a ∈ ks) (attempts s).

(** The event has not been overtaken. *)
Definition clean (w : World) (i : Z) : Prop := i ∉ overtaken w.

#[global] Instance clean_dec w i : Decision (clean w i).
Proof. unfold clean. apply _. Defined.

(** A settlement ends the attempt, and calls its outcome uncertain only when it
    leaves the event uncertain. *)
Definition sound_settlement (x : Settlement) : Prop :=
  st_status x ∈ [DELIVERED; FAILED; UNCERTAIN]
  ∧ (st_outcome x = UNCERTAIN_OUTCOME → st_status x = UNCERTAIN).

(** A process may stop at any point: its workers take no more steps.  At a
    recovery the workers [alive] of other processes are still running. *)
Inductive step (w : World) : World → Prop :=
  | step_enqueue clock d now accept s b :
      enqueue clock (db w) d now accept = Ok (s, b) → step w (commit w s (flight w))
  | step_cancel clock logical reason now s n :
      cancel clock (db w) logical reason now = Ok (s, n) → step w (commit w s (flight w))
  | step_claim clock i now s a :
      begin_attempt clock (db w) i MAX_DELIVERY_ATTEMPTS now = Ok (s, Some a) →
      step w (commit w s (attempt_id a :: flight w))
  | step_refuse clock i now s :
      begin_attempt clock (db w) i MAX_DELIVERY_ATTEMPTS now = Ok (s, None) →
      step w (commit w s (flight w))
  | step_transport k :
      k ∈ flight w → step w (commit w (mark_transport_started (db w) k) (flight w))
  | step_settle clock k x now s :
      k ∈ flight w → sound_settlement x → settle_with clock (db w) k x now = Ok s →
      step w (commit w s (filter (λ j, j ≠ k) (flight w)))
  | step_restart clock now s r alive :
      recover_incomplete_attempts clock (db w) now = Ok (s, r) → alive ⊆ flight w →
      step w {| db := s; flight := alive; overtaken := held_events alive (db w) ++ overtaken w |}.

Inductive steps (w : World) : World → Prop :=
  | steps_refl : steps w w
  | steps_snoc w1 w2 : steps w w1 → step w1 w2 → steps w w2.

Definition reachable (w : World) : Prop := steps initial_world w.

Lemma steps_one w w1 : step w w1 → steps w w1.
Proof. intros H. eapply steps_snoc; [constructor|done]. Qed.

Lemma steps_trans w w1 w2 : steps w w1 → steps w1 w2 → steps w w2.
Proof. intros H1 H2. induction H2; [done|]. by eapply steps_snoc. Qed.

(** The same steps as a function, for concrete runs: [None] where the action is
    not possible. *)
Inductive action :=
  | a_enqueue (clock : Z) (d : NotificationDraft)
  | a_cancel (clock : Z) (logical reason : string)
  | a_begin (clock i : Z)
  | a_transport (k : Z)
  | a_settle (clock k : Z) (x : Settlement)
  | a_restart (clock : Z) (alive : list Z).

Definition sound_settlementb (x : Settlement) : bool :=
  bool_decide (st_status x ∈ [DELIVERED; FAILED; UNCERTAIN])
  && (negb (String.eqb (st_outcome x) UNCERTAIN_OUTCOME) || bool_decide (st_status x = UNCERTAIN)).

Definition act (w : World) (a : action) : option World :=
  let keep s := Some (commit w s (flight w)) in
  match a with
  | a_enqueue clock d => match enqueue clock (db w) d None false with Ok (s, _) => keep s | Err _ => None end
  | a_cancel clock l reason =>
      match cancel clock (db w) l reason None with Ok (s, _) => keep s | Err _ => None end
  | a_begin clock i =>
      match begin_attempt clock (db w) i MAX_DELIVERY_ATTEMPTS None with
      | Ok (s, Some t) => Some (commit w s (attempt_id t :: flight w))
      | Ok (s, None) => keep s
      | Err _ => None
      end
  | a_transport k =>
      if bool_decide (k ∈ flight w) then keep (mark_transport_started (db w) k) else None
  | a_settle clock k x =>
      if bool_decide (k ∈ flight w) && sound_settlementb x then
        match settle_with clock (db w) k x (utc clock) with
        | Ok s => Some (commit w s (filter (λ j, j ≠ k) (flight w)))
        | Err _ => None
        end
      else None
  | a_restart clock alive =>
      match recover_incomplete_attempts clock (db w) None with
      | Ok (s, _) =>
          if decide (Forall (λ k, k ∈ flight w) alive)
          then Some {| db := s; flight := alive; overtaken := held_events alive (db w) ++ overtaken w |}
          else None
      | Err _ => None
      end
  end.

Fixpoint play (w : World) (l : list action) : option World :=
  match l with [] => Some w | a :: l => match act w a with Some w => play w l | None => None end end.

Lemma act_step w a w' : act w a = Some w' → step w w'.
Proof.
  destruct a; cbn [act]; intros H.
  - destruct (enqueue _ _ _ _ _) as [[s b]|] eqn:E; [|done]. injection H as <-. by eapply step_enqueue.
  - destruct (cancel _ _ _ _ _) as [[s b]|] eqn:E; [|done]. injection H as <-. by eapply step_cancel.
  - destruct (begin_attempt _ _ _ _ _) as [[s [t|]]|] eqn:E; [..|done]; injection H as <-;
      [by eapply step_claim|by eapply step_refuse].
  - case_bool_decide; [|done]. injection H as <-. by apply step_transport.
  - case_bool_decide as Hk; [|done]. destruct (sound_settlementb x) eqn:Hx; [|done]. cbn in H.
    destruct (settle_with _ _ _ _ _) eqn:E; [|done]. injection H as <-.
    eapply step_settle; [done| |done]. unfold sound_settlementb in Hx. bool_to_prop. split; [done|].
    intros Ho. rewrite Ho in *. cbn in *. by bool_to_prop.
  - destruct (recover_incomplete_attempts _ _ _) as [[s r]|] eqn:E; [|done].
    destruct (decide _) as [Ha|]; [|done]. injection H as <-. eapply step_restart; [done|].
    intros k Hk. by eapply Forall_forall in Ha.
Qed.

Lemma play_steps w l w' : play w l = Some w' → steps w w'.
Proof.
  revert w. induction l as [|a l IH]; intros w; cbn; [intros [= ->]; constructor|].
  destruct (act w a) as [w1|] eqn:E; [|done]. intros H. eapply steps_trans; [|by apply IH].
  by apply steps_one, (act_step _ a).
Qed.

(** ** The invariant *)

(** The invariant is that of the events that were not overtaken. *)
Record world_ok (w : World) : Prop := {
  ok_store : store_wf (clean w) (db w);
  ok_flight : ∀ k, k ∈ flight w → ∃ a, a ∈ attempts (db w) ∧ at_id a = k
                     ∧ (clean w (at_event_id a) → finished_at a = None);
}.

Lemma ok_same_attempts w s :
  world_ok w → store_wf (clean w) s → attempts s = attempts (db w) → world_ok (commit w s (flight w)).
Proof. intros [_ Hf] Hs Ha. split; [done|]. cbn. by rewrite Ha. Qed.

Lemma settle_spec clock s k x now s' :
  settle_with clock s k x now = Ok s' →
  ∃ at_ a, aware_utc now = Ok at_ ∧ a ∈ attempts s ∧ at_id a = k
    ∧ s' = update_events (at_event_id a) (set_status (st_status x) (st_detail x) at_)
             (update_attempts (at_id a) (finish (st_outcome x) (st_ok x) (st_code x) (st_detail x) at_) s).
Proof.
  unfold settle_with, settle. intros H. split_if H; [done|].
  apply res_bind_ok in H as (at_ & Hat & H). apply res_bind_ok in H as (a & Ha & H).
  destruct (find _ (attempts s)) as [a'|] eqn:E; [|done]. injection Ha as ->.
  apply find_key_Some in E as [Hin <-]. exists at_, a. split_and!; try done. by injection H as <-.
Qed.

Lemma same_attempt (l : list AttemptRow) a a' :
  NoDup (at_id <$> l) → a ∈ l → a' ∈ l → at_id a = at_id a' → a = a'.
Proof.
  intros Hn Ha Ha' E. pose proof (find_key_In at_id _ a Hn Ha) as F1.
  pose proof (find_key_In at_id _ a' Hn Ha') as F2. rewrite E in F1. congruence.
Qed.

(** Settling an open attempt moves exactly its event. *)
Lemma settle_open P clock s k x now s' a :
  store_wf P s → P (at_event_id a) → sound_settlement x → settle_with clock s k x now = Ok s' →
  a ∈ attempts s → at_id a = k → finished_at a = None →
  ∃ at_ e pre, aware_utc now = Ok at_
    ∧ event_by_id (at_event_id a) s = Some e
    ∧ attempts_of (at_event_id a) s = pre ++ [a]
    ∧ store_wf P s'
    ∧ event_by_id (at_event_id a) s' = Some (set_status (st_status x) (st_detail x) at_ e)
    ∧ attempts_of (at_event_id a) s'
      = pre ++ [finish (st_outcome x) (st_ok x) (st_code x) (st_detail x) at_ a]
    ∧ ∀ j, j ≠ at_event_id a → event_by_id j s' = event_by_id j s ∧ attempts_of j s' = attempts_of j s.
Proof.
  intros Hwf HP [Hst Hun] H Ha Hk Hopen. apply settle_spec in H as (at_ & a' & Hat & Ha' & Hk' & ->).
  assert (a' = a) as -> by (eapply same_attempt; [apply (wf_attempts s Hwf)|done..|congruence]).
  destruct (open_is_last P s a Hwf HP Ha Hopen) as (e & _ & He & _ & _ & _).
  destruct (conclude P s a e (set_status (st_status x) (st_detail x) at_)
              (finish (st_outcome x) (st_ok x) (st_code x) (st_detail x) at_) Hwf HP Ha Hopen He)
    as (Hwf' & Hev & (pre & Hl & Hl') & Hoth); try done.
  - cbn. destruct (st_status x); try not_in; revert Hst; not_in.
  - unfold conclusive. cbn. intros [Hok|[= Hout]].
    + unfold st_ok in Hok. apply bool_decide_eq_true_1 in Hok as ->. in_list.
    + rewrite (Hun Hout). in_list.
  - exists at_, e, pre. by split_and!.
Qed.

(** Settling moves the event of the attempt, whatever the event's history. *)
Lemma settle_moves P clock s k x now s' :
  store_wf P s → settle_with clock s k x now = Ok s' →
  ∃ at_ a, a ∈ attempts s ∧ at_id a = k
    ∧ event_by_id (at_event_id a) s' = set_status (st_status x) (st_detail x) at_ <$> event_by_id (at_event_id a) s
    ∧ attempt_keys s' = attempt_keys s
    ∧ (∀ b, b ∈ attempts s → at_id b ≠ k → b ∈ attempts s')
    ∧ (¬ P (at_event_id a) → store_wf P s').
Proof.
  intros Hwf H. apply settle_spec in H as (at_ & a & _ & Ha & Hk & ->). exists at_, a.
  destruct (move_one P s a (set_status (st_status x) (st_detail x) at_)
              (finish (st_outcome x) (st_ok x) (st_code x) (st_detail x) at_) Hwf Ha) as (_ & _ & Hev & _); [done..|].
  split_and!; try done.
  - by rewrite Hev, Z.eqb_refl.
  - by apply update_attempts_keys.
  - intros b Hb Hne. unfold update_events, update_attempts. cbn [attempts]. apply list_elem_of_fmap. exists b.
    split; [|done]. destruct (Z.eqb_spec (at_id b) (at_id a)); congruence.
  - intros HP. by apply disturb.
Qed.

(** What recovery leaves: the invariant of the clean events, and every row. *)
Lemma recovered P `{∀ i, Decision (P i)} clock s now s' r :
  store_wf P s → recover_incomplete_attempts clock s now = Ok (s', r) →
  store_wf P s' ∧ attempt_keys s' = attempt_keys s
  ∧ (∀ j, P j → j ∉ (λ ea, ev_id ea.1) <$> open_attempts s → event_by_id j s' = event_by_id j s)
  ∧ (∀ ea, ea ∈ open_attempts s → P (ev_id ea.1) →
       ev_status <$> event_by_id (ev_id ea.1) s' = Some (recovered_status ea.2))
  ∧ retry_event_ids r = (λ ea, ev_id ea.1) <$> filter (λ ea, at_attempted ea.2 = false) (open_attempts s)
  ∧ uncertain_event_ids r = (λ ea, ev_id ea.1) <$> filter (λ ea, at_attempted ea.2 = true) (open_attempts s).
Proof.
  intros Hwf Hr. unfold recover_incomplete_attempts in Hr. apply res_bind_ok in Hr as (at_ & _ & Hr).
  destruct (open_attempts_keys P s Hwf) as (Hk & Ho & Hrow).
  pose proof (recover_keys at_ (open_attempts s) s {| retry_event_ids := []; uncertain_event_ids := [] |}) as Hkeys.
  pose proof (recover_fold P at_ (open_attempts s) s {| retry_event_ids := []; uncertain_event_ids := [] |} Hwf) as Hf.
  injection Hr as Hr. rewrite Hr in Hkeys, Hf. cbn [fst snd] in Hkeys, Hf. destruct Hkeys as (Hk1 & Hk2 & Hk3).
  destruct Hf as (Hwf' & Hsame & Hdone).
  - rewrite Hk. eapply sublist_NoDup; [apply (wf_events s Hwf)|]. apply fmap_sublist.
    etransitivity; [apply sublist_filter|apply sublist_filter].
  - done.
  - eapply Forall_impl; [exact Hrow|]. intros ea [Ha <-]. by apply attempt_keys_elem.
  - split_and!; try done.
    + intros j Hj Hn. by apply Hsame.
    + intros ea Hin HP. destruct (Hdone ea Hin HP) as [-> _]. done.
Qed.

Lemma step_ok w w' : step w w' → world_ok w → world_ok w'.
Proof.
  intros Hstep [Hwf Hfl]. destruct Hstep as [clock d now accept s b H|clock l reason now s n H
    |clock i now s a H|clock i now s H|k Hk|clock k x now s Hk Hx H|clock now s r alive H Hal]; cbn [db flight] in *.
  - eapply enqueue_wf in H as [Hs [Ha _]]; [|done]. by apply ok_same_attempts.
  - eapply cancel_spec in H as (at_ & s1 & _ & _ & [Ha _] & _ & -> & Hs); [|done]. by apply ok_same_attempts.
  - apply begin_attempt_cases in H. eapply began_wf in H as (Hs & _ & Hold & _ & e & at_ & Hrest); [|done|done].
    destruct Hrest as (_ & _ & _ & _ & _ & _ & Hin & _). split; [done|]. cbn.
    intros k [->|Hk]%elem_of_cons; [by eexists|]. destruct (Hfl k Hk) as (b & Hb & E & Hf).
    exists b. by split; [apply Hold|].
  - apply begin_attempt_cases in H. eapply began_wf in H as (Hs & _ & _ & Ha); [|done|done].
    by apply ok_same_attempts.
  - destruct (mark_wf _ (db w) k Hwf) as (Hs & _ & Hrows). split; [done|]. cbn. intros j Hj.
    destruct (Hfl j Hj) as (a & Ha & <- & Hf). destruct (Hrows a Ha) as (b & Hb & E & Hfb & Heb).
    exists b. rewrite Hfb, Heb. done.
  - destruct (settle_moves _ _ _ _ _ _ _ Hwf H) as (at_ & a & Ha & Hak & _ & _ & Hrest & Hdirty).
    split; cbn.
    + destruct (decide (clean w (at_event_id a))) as [HP|HP]; [|by apply Hdirty].
      destruct (Hfl k Hk) as (a' & Ha' & Hak' & Hf).
      assert (a' = a) as -> by (eapply same_attempt; [apply (wf_attempts _ Hwf)|done..|congruence]).
      destruct (settle_open _ clock (db w) k x now s a Hwf HP Hx H Ha Hak (Hf HP)) as (? & ? & ? & _ & _ & _ & Hs & _).
      done.
    + intros j [Hjk Hj]%list_elem_of_filter. destruct (Hfl j Hj) as (b & Hb & E & Hfb).
      exists b. split; [|done]. apply Hrest; [done|congruence].
  - destruct (recovered (clean w) _ _ _ _ _ Hwf H) as (Hs & Hkeys & _). split; cbn.
    + eapply store_wf_weaken; [|exact Hs]. intros i. unfold clean. cbn. rewrite not_elem_of_app. tauto.
    + intros k Hk. destruct (Hfl k (Hal k Hk)) as (a & Ha & <- & _).
      apply attempt_keys_elem in Ha as Hka. rewrite <- Hkeys in Hka.
      apply list_elem_of_fmap in Hka as (b & [= Hb1 Hb2] & Hb). exists b. split; [done|]. split; [done|].
      intros Hc. exfalso. apply Hc. cbn. apply elem_of_app. left. apply list_elem_of_fmap. exists a.
      split; [done|]. by apply list_elem_of_filter.
Qed.

Lemma steps_ok w w' : steps w w' → world_ok w → world_ok w'.
Proof. induction 1 as [|w1 w2 H IH Hs]; [done|]. intros Hw. eapply step_ok; [done|auto]. Qed.

Lemma reachable_ok w : reachable w → world_ok w.
Proof.
  intros H. apply (steps_ok _ _ H). split; [apply empty_wf|]. cbn. by intros k []%not_elem_of_nil.
Qed.

(** ** At most one send that counts *)


Lemma settled_never_begins clock s i max now s' r e :
  begin_attempt clock s i max now = Ok (s', r) → event_by_id i s = Some e →
  waiting (ev_status e) = false ∨ cancelled_at e ≠ None → s' = s ∧ r = None.
Proof.
  intros H He Hn. apply begin_attempt_cases in H.
  destruct H as [|e' at_ _ He' Hc Hw _|e' at_ k p _ He' Hc Hw]; [done|..];
    rewrite He in He'; injection He' as <-; destruct Hn; congruence.
Qed.


(** ** Rows persist *)

(** What a row keeps for good. *)
Definition keeps (e e' : EventRow) : Prop :=
  ev_id e' = ev_id e ∧ ev_logical_id e' = ev_logical_id e ∧ ev_channel e' = ev_channel e
  ∧ payload_json e' = payload_json e ∧ payload_sha256 e' = payload_sha256 e
  ∧ (cancelled_at e ≠ None → cancelled_at e' ≠ None).

Definition evolves (s s' : Store) : Prop :=
  ∃ h new, events s' = map h (events s) ++ new ∧ ∀ e, keeps e (h e).

Lemma keeps_refl e : keeps e e.
Proof. by split_and!. Qed.

Lemma keeps_trans e e' e'' : keeps e e' → keeps e' e'' → keeps e e''.
Proof. unfold keeps. intros. destruct_and!. split_and!; try congruence. auto. Qed.

Lemma evolves_map s s' h : events s' = map h (events s) → (∀ e, keeps e (h e)) → evolves s s'.
Proof. intros E H. exists h, []. by rewrite app_nil_r. Qed.

Lemma evolves_grows s s' : grows s s' → evolves s s'.
Proof. intros [_ [n E]]. exists id, n. split; [by rewrite map_id|]. intros e. apply keeps_refl. Qed.

Lemma evolves_trans s s' s'' : evolves s s' → evolves s' s'' → evolves s s''.
Proof.
  intros (h & n & E & H) (h' & n' & E' & H'). exists (λ e, h' (h e)), (map h' n ++ n').
  split; [by rewrite E', E, map_app, map_map, <- app_assoc|]. intros e. by eapply keeps_trans.
Qed.

Lemma evolves_refl s : evolves s s.
Proof. apply evolves_grows, grows_refl. Qed.

Lemma set_status_keeps i st err at_ e :
  keeps e (if ev_id e =? i then set_status st err at_ e else e).
Proof. case_match; by split_and!. Qed.

Lemma evolves_event s s' i e :
  evolves s s' → event_by_id i s = Some e → ∃ e', event_by_id i s' = Some e' ∧ keeps e e'.
Proof.
  intros (h & n & E & H) He. exists (h e). split; [|done]. unfold event_by_id in *.
  rewrite E, find_app, find_map_key by apply H. by rewrite He.
Qed.

Lemma evolves_at s s' logical ch e :
  evolves s s' → event_at logical ch s = Some e → ∃ e', event_at logical ch s' = Some e' ∧ keeps e e'.
Proof.
  intros (h & n & E & H) He. exists (h e). split; [|done]. unfold event_at in *.
  rewrite E, find_app. clear E. revert He. induction (events s) as [|x l IH]; [done|]. cbn.
  destruct (H x) as (_ & -> & -> & _).
  destruct (_ && _); [|done]. intros E. by injection E as ->.
Qed.

Lemma step_evolves w w' : step w w' → world_ok w → evolves (db w) (db w').
Proof.
  intros Hstep [Hwf Hfl]. destruct Hstep as [clock d now accept s b H|clock l reason now s n H
    |clock i now s a H|clock i now s H|k Hk|clock k x now s Hk Hx H|clock now s r alive H Hal]; cbn [db flight commit] in *.
  - eapply enqueue_wf in H as [_ H]; [|done]. by apply evolves_grows.
  - eapply cancel_spec in H as (at_ & s1 & _ & _ & Hg & _ & -> & _); [|done].
    eapply evolves_trans; [by apply evolves_grows|]. eapply evolves_map; [reflexivity|]. intros e. cbv beta. by case_match; split_and!.
  - apply begin_attempt_cases in H. inversion H; subst. eapply evolves_map; [reflexivity|]. intros e'.
    apply set_status_keeps || (unfold set_processing; case_match; by split_and!).
  - apply begin_attempt_cases in H. inversion H; subst; [apply evolves_refl|].
    eapply evolves_map; [reflexivity|]. intros e'. apply set_status_keeps.
  - apply (evolves_map _ _ id); [by rewrite map_id|]. apply keeps_refl.
  - apply settle_spec in H as (at_ & a & _ & _ & _ & ->). eapply evolves_map; [reflexivity|]. intros e'. apply set_status_keeps.
  - unfold recover_incomplete_attempts in H. apply res_bind_ok in H as (at_ & _ & H). injection H as H.
    revert H. generalize {| retry_event_ids := []; uncertain_event_ids := [] |} as r0.
    generalize (db w) at 2 3 as s0. induction (open_attempts (db w)) as [|[e a] l IH]; intros s0 r0 H; cbn in H.
    { injection H as <- <-. apply evolves_refl. }
    eapply evolves_trans; [|by eapply IH]. eapply evolves_map; [reflexivity|]. intros e'. apply set_status_keeps.
Qed.

Lemma steps_evolves w w' : steps w w' → world_ok w → evolves (db w) (db w').
Proof.
  induction 1 as [|w1 w2 H IH Hs]; intros Hw; [apply evolves_refl|].
  eapply evolves_trans; [by apply IH|]. apply step_evolves; [done|]. by eapply steps_ok.
Qed.

(** Cancelling is final.  Once a cancellation has committed, whatever
    happens afterwards — restarts included — every later enqueue of that
    logical event is refused and stores nothing, and no row that was waiting
    when it was cancelled ever begins an attempt. *)
Theorem outbox_cancel_is_final w clock logical reason now s n w' :
  reachable w → cancel clock (db w) logical reason now = Ok (s, n) →
  steps (commit w s (flight w)) w' →
  (∀ clock d now accept s' b,
     dr_logical_id d = logical → enqueue clock (db w') d now accept = Ok (s', b) →
     s' = db w' ∧ cancelled b = true ∧ event_ids b = [])
  ∧ (∀ i e clock max now s' r,
       event_by_id i (db w) = Some e → cancellable logical e = true →
       begin_attempt clock (db w') i max now = Ok (s', r) → s' = db w' ∧ r = None).
Proof.
  intros Hw Hc Hsteps. pose proof (reachable_ok w Hw) as Hok.
  assert (Hok1 : world_ok (commit w s (flight w))) by (eapply step_ok; [by eapply step_cancel|done]).
  pose proof (steps_evolves _ _ Hsteps Hok1) as Hev. cbn [db commit] in Hev.
  pose proof (cancel_spec _ _ _ _ _ _ _ _ Hc (ok_store w Hok)) as (at_ & s1 & _ & Hwf1 & Hg & (f & Hf) & Hs & _).
  assert (Hmap : evolves s1 s).
  { subst s. eapply evolves_map; [reflexivity|]. intros e. cbv beta. by case_match; split_and!. }
  split.
  - intros clock' d now' accept s' b <- He.
    destruct (evolves_at s1 (db w') _ _ f (evolves_trans _ _ _ Hmap Hev) Hf) as (f' & Hf' & _).
    unfold enqueue in He. split_if He; [done|]. split_if He; [done|].
    apply res_bind_ok in He as (? & _ & He). apply res_bind_ok in He as ([? ?] & _ & He).
    rewrite Hf' in He. by injection He as <- <-.
  - intros i e clock' max now' s' r He Hcan Hb. pose proof (grows_event _ _ _ _ Hg He) as He1.
    assert (He2 : event_by_id i s = Some (cancel_row reason at_ e)).
    { subst s. pose proof (map_events_wf _ _ s1 (cancel_calm logical reason at_) Hwf1) as (_ & Hm & _).
      rewrite Hm, He1. cbn. by rewrite Hcan. }
    destruct (evolves_event _ _ _ _ Hev He2) as (e' & He' & (_ & _ & _ & _ & _ & Hk)).
    eapply settled_never_begins; [done..|]. right. by apply Hk.
Qed.

(** ** Recovery *)

(** The open attempt of an event that a crash interrupted. *)
Definition interrupted (s : Store) (i : Z) (sent : bool) : Prop :=
  ∃ e a, event_by_id i s = Some e ∧ ev_status e = PROCESSING
         ∧ a ∈ attempts_of i s ∧ finished_at a = None ∧ at_attempted a = sent.

Lemma open_attempts_iff P `{∀ i, Decision (P i)} s i sent :
  store_wf P s → P i →
  (∃ ea, ea ∈ open_attempts s ∧ ev_id ea.1 = i ∧ at_attempted ea.2 = sent) ↔ interrupted s i sent.
Proof.
  intros Hwf HP. destruct (open_attempts_keys P s Hwf) as (Hk & Ho & _). rewrite Forall_forall in Ho. split.
  - intros ([e a] & Hin & <- & Hs). destruct (Ho _ Hin HP) as (He & Hst & Ha & Hae & Hf). cbn [fst snd] in *.
    exists e, a. split_and!; try done. by apply attempts_of_elem.
  - intros (e & a & He & Hst & Ha & Hf & Hs). apply find_key_Some in He as He'. destruct He' as [Hel <-].
    assert (Hin : ev_id e ∈ (λ ea, ev_id ea.1) <$> filter (λ ea, P (ev_id ea.1)) (open_attempts s)).
    { rewrite Hk. apply list_elem_of_fmap_2, list_elem_of_filter. split; [done|]. by apply list_elem_of_filter. }
    apply list_elem_of_fmap in Hin as ([e' a'] & Hi & Hin). apply list_elem_of_filter in Hin as [HP' Hin].
    exists (e', a'). cbn [fst snd] in *. split; [done|]. split; [done|].
    destruct (Ho _ Hin HP') as (He' & _ & Ha' & Hae' & Hf'). cbn [fst snd] in *.
    replace a' with a; [done|]. apply attempts_of_elem in Ha as [Ha Hae].
    destruct (open_is_last P s a Hwf) as (_ & pre & _ & _ & Hl & _); [by rewrite Hae|done..|].
    destruct (open_is_last P s a' Hwf) as (_ & pre' & _ & _ & Hl' & _); [by rewrite Hae'|done..|].
    rewrite Hae in Hl. rewrite Hae', <- Hi, Hl in Hl'. by apply app_inj_tail in Hl' as [_ ?].
Qed.

Lemma due_event_spec s limit i :
  i ∈ due_event_ids s limit → ∃ e, e ∈ events s ∧ ev_id e = i ∧ event_due s e = true.
Proof.
  unfold due_event_ids. case_match; [by intros []%not_elem_of_nil|]. intros Hi.
  apply subseteq_take in Hi. apply list_elem_of_fmap in Hi as (e & -> & He).
  rewrite sort_by_perm in He. apply list_elem_of_filter in He as [Hd He]. by exists e.
Qed.

(** The store that recovery leaves. *)
Lemma recover_spec P `{∀ i, Decision (P i)} s clock now s' r :
  store_wf P s → recover_incomplete_attempts clock s now = Ok (s', r) →
  store_wf P s'
  ∧ (∀ j, P j → (∀ sent, ¬ interrupted s j sent) → event_by_id j s' = event_by_id j s)
  ∧ (∀ j sent, P j → interrupted s j sent →
       ev_status <$> event_by_id j s' = Some (if sent then UNCERTAIN else FAILED))
  ∧ (∀ i, P i → i ∈ retry_event_ids r ↔ interrupted s i false)
  ∧ (∀ i, P i → i ∈ uncertain_event_ids r ↔ interrupted s i true).
Proof.
  intros Hwf H0. destruct (recovered P _ _ _ _ _ Hwf H0) as (Hwf' & _ & Hsame & Hdone & Hret & Hunc).
  assert (Hiff : ∀ i b, P i → i ∈ (λ ea, ev_id ea.1) <$> filter (λ ea, at_attempted ea.2 = b) (open_attempts s)
                        ↔ interrupted s i b).
  { intros i b HP. rewrite <- (open_attempts_iff P) by done. rewrite list_elem_of_fmap.
    setoid_rewrite list_elem_of_filter. naive_solver. }
  split; [done|]. split; [|split; [|split; intros i HP; [rewrite Hret|rewrite Hunc]; by apply Hiff]].
  - intros j HP Hj. apply Hsame; [done|]. intros (ea & -> & Hin)%list_elem_of_fmap.
    apply (Hj (at_attempted ea.2)), (open_attempts_iff P); [done..|]. by exists ea.
  - intros j sent HP Hj. apply (open_attempts_iff P) in Hj as (ea & Hin & <- & <-); [|done..].
    by apply Hdone.
Qed.

(** C19: recovery after a crash, for every event that was not overtaken before.
    It closes every attempt and leaves no event processing: an event whose
    transport had not started becomes failed and is returned for retry, one
    whose transport had started becomes uncertain and is never due again. *)
Theorem outbox_recovery_quarantines w clock now s r :
  reachable w → recover_incomplete_attempts clock (db w) now = Ok (s, r) →
  Forall (λ e, clean w (ev_id e) → ev_status e ≠ PROCESSING) (events s)
  ∧ Forall (λ a, clean w (at_event_id a) → finished_at a ≠ None) (attempts s)
  ∧ ∀ i, clean w i →
      (i ∈ retry_event_ids r ↔ interrupted (db w) i false)
      ∧ (i ∈ uncertain_event_ids r ↔ interrupted (db w) i true)
      ∧ (i ∈ retry_event_ids r → ev_status <$> event_by_id i s = Some FAILED)
      ∧ (∀ limit, i ∈ uncertain_event_ids r →
           ev_status <$> event_by_id i s = Some UNCERTAIN ∧ i ∉ due_event_ids s limit).
Proof.
  intros Hw H. destruct (reachable_ok w Hw) as [Hwf _].
  destruct (recover_spec (clean w) _ _ _ _ _ Hwf H) as (Hwf' & Hsame & Hdone & Hret & Hunc).
  assert (Hproc : ∀ e, e ∈ events s → clean w (ev_id e) → ev_status e ≠ PROCESSING).
  { intros e He HP Hst. pose proof (find_key_In ev_id _ e (wf_events s Hwf') He) as Hf.
    change (event_by_id (ev_id e) s = Some e) in Hf.
    assert (Hno : ∀ sent, ¬ interrupted (db w) (ev_id e) sent).
    { intros sent Hi. apply Hdone in Hi; [|done]. rewrite Hf in Hi. cbn in Hi. rewrite Hst in Hi. by destruct sent. }
    rewrite (Hsame _ HP Hno) in Hf. apply find_key_Some in Hf as [Hf _].
    destruct (open_filter _ _ _ Hwf HP Hf Hst) as (pre & a & _ & _ & Ho).
    apply (Hno (at_attempted a)). destruct Ho as (H1 & H2 & H3 & H4 & H5). exists e, a.
    split_and!; try done. by apply attempts_of_elem. }
  split; [by apply Forall_forall|]. split.
  - apply Forall_forall. intros a Ha HP Hf. destruct (open_is_last _ s a Hwf' HP Ha Hf) as (e & _ & He & Hst & _).
    apply find_key_Some in He as [He Hi]. apply (Hproc e He); [by rewrite Hi|done].
  - intros i HP. split; [by apply Hret|]. split; [by apply Hunc|]. split.
    { intros Hi%Hret; [|done]. by apply (Hdone i false HP). }
    intros limit Hi%Hunc; [|done]. apply Hdone in Hi; [|done]. split; [done|]. intros Hd.
    apply due_event_spec in Hd as (e & He & <- & Hd).
    pose proof (find_key_In ev_id _ e (wf_events s Hwf') He) as Hf.
    change (event_by_id (ev_id e) s = Some e) in Hf. rewrite Hf in Hi. cbn in Hi. injection Hi as Hi.
    unfold event_due in Hd. rewrite Hi in Hd. by destruct (bool_decide (cancelled_at e = None)).
Qed.

(** Nothing due is stuck.  An event that the queue reports as due, and that
    has not expired, can be claimed: the claim returns its stored payload and
    the next attempt number, at most three, and records an open attempt whose
    transport has not started. *)
Theorem outbox_due_can_begin w limit i e clock now at_ p :
  reachable w → clean w i → i ∈ due_event_ids (db w) limit → event_by_id i (db w) = Some e →
  _now clock now = Ok at_ → expired_at at_ e = false → loads (payload_json e) = Ok p →
  ∃ s a, begin_attempt clock (db w) i MAX_DELIVERY_ATTEMPTS now = Ok (s, Some a)
    ∧ payload a = p ∧ channel a = ev_channel e
    ∧ attempt_no a = Z.of_nat (length (attempts_of i (db w))) + 1 ∧ attempt_no a ≤ 3
    ∧ interrupted s i false.
Proof.
  intros Hw HP Hd He Hnow Hx Hp. destruct (reachable_ok w Hw) as [Hwf _].
  apply due_event_spec in Hd as (e' & Hin & <- & Hd).
  pose proof (find_key_In ev_id _ e' (wf_events _ Hwf) Hin) as Hf.
  change (event_by_id (ev_id e') (db w) = Some e') in Hf. rewrite He in Hf. injection Hf as <-.
  unfold event_due in Hd. apply andb_true_iff in Hd as [Hc Hd]. apply bool_decide_eq_true_1 in Hc.
  assert (Hlen : waiting (ev_status e) = true ∧ (length (attempts_of (ev_id e) (db w)) < 3)%nat).
  { apply orb_true_iff in Hd as [Hd|Hd].
    - apply bool_decide_eq_true_1 in Hd. split; [by rewrite Hd|].
      pose proof (wf_event _ Hwf (ev_id e) HP) as Ho. unfold event_ok in Ho. rewrite He in Ho.
      destruct Ho as (_ & _ & [[-> _]|(pre & a & _ & _ & [(Hp' & _)|(Hp' & _)])]); [cbn; lia|congruence|].
      exfalso. apply Hp'. rewrite Hd. in_list.
    - apply andb_true_iff in Hd as [Hs Hd]. apply bool_decide_eq_true_1 in Hs. split; [by rewrite Hs|].
      case_match; [|done]. bool_to_prop. lia. }
  destruct Hlen as [Hwait Hlen].
  assert (Hb : ∃ s a, begin_attempt clock (db w) (ev_id e) MAX_DELIVERY_ATTEMPTS now = Ok (s, Some a)
                      ∧ payload a = p ∧ channel a = ev_channel e).
  { unfold begin_attempt. rewrite Hnow. cbn [Z.ltb mbind res_bind]. change (MAX_DELIVERY_ATTEMPTS <? 1) with false.
    cbv iota. rewrite He, Hc, bool_decide_eq_false_2 by (intros Hn; by apply Hn).
    rewrite not_waiting, Hwait. cbn [negb]. rewrite Hx.
    rewrite (last_attempt_no_length _ _ _ _ Hwf HP He). change MAX_DELIVERY_ATTEMPTS with 3.
    rewrite (proj2 (Z.ltb_ge _ _)) by lia. unfold insert_attempt. rewrite Hp. by do 2 eexists. }
  destruct Hb as (s & a & Hb & Hpa & Hch). exists s, a. split_and!; try done.
  all: apply begin_attempt_cases in Hb;
    eapply began_wf in Hb as (Hs & _ & _ & Hi & e2 & at2 & He2 & _ & _ & He3 & Hat & Hno & _); [|done|done];
    specialize (Hno HP).
  - done.
  - lia.
  - exists (set_processing at2 e2), (new_attempt (ev_id e) (attempt_no a) at2 (attempt_id a)).
    split_and!; try done. rewrite Hat. apply elem_of_app. right. by left.
Qed.

(** ** Concrete runs *)

Definition noon_utc : Z := combine (ymd2ord 2026 1 6) (time_hm 12 0).

Definition sample_draft : NotificationDraft := {|
  dr_logical_id := "trade:1"; dr_source := "desk"; dr_kind := "trade_intent"; dr_lane := "trade_ready";
  dr_payload := [("title", VStr "Ready"); ("size", VInt 2)]; dr_channels := ["bark"; "feishu"];
  dr_expires_at := Some (utc (noon_utc + HOUR)); dr_correlation_id := None |}.

Definition delivered_settlement : Settlement := {|
  st_status := DELIVERED; st_outcome := "delivered"; st_code := None; st_detail := None |}.

(** The world after a run of actions; the empty one where the run is impossible. *)
Definition after (l : list action) : World := default initial_world (play initial_world l).

Lemma after_reachable l w : play initial_world l = Some w → reachable w.
Proof. apply play_steps. Qed.

Definition crashed_run : list action :=
  [a_enqueue noon_utc sample_draft; a_begin noon_utc 1; a_transport 1; a_begin noon_utc 2].



(** Without the condition the property fails: the worker of another process
    outlives a recovery that hands its event out again, and both send. *)
Definition overtaken_run : list action :=
  [a_enqueue noon_utc sample_draft; a_begin noon_utc 1; a_restart noon_utc [1]; a_begin noon_utc 1;
   a_transport 2; a_settle noon_utc 2 delivered_settlement;
   a_transport 1; a_settle noon_utc 1 delivered_settlement].

Lemma overtaken_event_is_sent_twice :
  map (λ a, (at_event_id a, at_no a, at_attempted a, at_ok a)) (attempts (db (after overtaken_run)))
  = [(1, 1, true, true); (1, 2, true, true)].
Proof. by vm_compute. Qed.

Lemma outbox_cancel_is_final_witness :
  ∃ s n, cancel noon_utc (db (after [a_enqueue noon_utc sample_draft])) "trade:1" "stale" None = Ok (s, n)
         ∧ ∀ s' b, enqueue noon_utc s sample_draft None false = Ok (s', b) → cancelled b = true.
Proof.
  destruct (cancel noon_utc (db (after [a_enqueue noon_utc sample_draft])) "trade:1" "stale" None)
    as [[s n]|e] eqn:E; [|vm_compute in E; discriminate E].
  exists s, n. split; [reflexivity|]. intros s' b H.
  destruct (outbox_cancel_is_final (after [a_enqueue noon_utc sample_draft]) noon_utc "trade:1" "stale"
              None s n (commit (after [a_enqueue noon_utc sample_draft]) s (flight (after [a_enqueue noon_utc sample_draft])))) as [Hf _].
  - apply (after_reachable [a_enqueue noon_utc sample_draft]). vm_compute. reflexivity.
  - exact E.
  - constructor.
  - destruct (Hf noon_utc sample_draft None false s' b eq_refl H) as (_ & Hc & _). exact Hc.
Defined.

Lemma outbox_recovery_quarantines_witness :
  ∃ s r, recover_incomplete_attempts noon_utc (db (after crashed_run)) None = Ok (s, r)
         ∧ retry_event_ids r = [2] ∧ uncertain_event_ids r = [1]
         ∧ Forall (λ e, clean (after crashed_run) (ev_id e) → ev_status e ≠ PROCESSING) (events s).
Proof.
  destruct (recover_incomplete_attempts noon_utc (db (after crashed_run)) None) as [[s r]|e] eqn:E;
    [|vm_compute in E; discriminate E].
  exists s, r. split; [reflexivity|].
  split; [vm_compute in E; injection E as _ <-; reflexivity|].
  split; [vm_compute in E; injection E as _ <-; reflexivity|].
  apply (outbox_recovery_quarantines (after crashed_run) noon_utc None s r); [|exact E].
  apply (after_reachable crashed_run). vm_compute. reflexivity.
Defined.

Lemma outbox_due_can_begin_witness :
  ∃ s a, begin_attempt noon_utc (db (after [a_enqueue noon_utc sample_draft])) 2 MAX_DELIVERY_ATTEMPTS None
         = Ok (s, Some a) ∧ channel a = "feishu" ∧ interrupted s 2 false.
Proof.
  set (w := after [a_enqueue noon_utc sample_draft]).
  destruct (event_by_id 2 (db w)) as [e|] eqn:He; [|vm_compute in He; discriminate He].
  destruct (loads (payload_json e)) as [p|x] eqn:Hp;
    [|exfalso; vm_compute in He; injection He as <-; vm_compute in Hp; discriminate Hp].
  destruct (outbox_due_can_begin w 5 2 e noon_utc None noon_utc p) as (s & a & Hb & _ & Hc & _ & _ & Hi).
  - apply (after_reachable [a_enqueue noon_utc sample_draft]). vm_compute. reflexivity.
  - apply (bool_decide_eq_true_1 _). vm_compute. reflexivity.
  - vm_compute. right. left.
  - exact He.
  - reflexivity.
  - vm_compute in He. injection He as <-. vm_compute. reflexivity.
  - exact Hp.
  - exists s, a. split; [exact Hb|]. split; [|exact Hi]. rewrite Hc.
    vm_compute in He. injection He as <-. reflexivity.
Defined.
