(* ===== verification/DeliverySteps.v ===== *)
(** * Delivery as steps of the outbox

    One call of the delivery worker is a run of outbox steps, whatever the
    network answers; enqueueing is idempotent; and the payload that a claimed
    attempt carries is the one that was enqueued. *)

From stdpp Require Import base numbers strings list.
From Stdlib Require Import ZArith Lia.
From S2P Require Import Prelude PyStr PyFloat PyTime PyDateTime PyDict PyVal PyHash PyJson MarketCalendar Outbox OutboxFacts Delivery DeliveryProps.

#[local] Open Scope Z_scope.

(** ** The settlements of the worker are sound *)

Lemma sink_settlement_sound r : sound_settlement (sink_settlement r).
Proof.
  unfold sink_settlement, sound_settlement.
  destruct (ok r); [|destruct (permanent r || negb (attempted r)); [|destruct (_explicit_retryable r)]];
    cbn; (split; [in_list|]); try done. by destruct (String.eqb (sink r) "rust_ingress").
Qed.

Lemma review_settlement_sound r : sound_settlement (review_settlement r).
Proof.
  unfold review_settlement, sound_settlement. destruct r as [d|]; [|by split; [in_list|]].
  destruct (settled d); cbn; (split; [in_list|]); done.
Qed.

Lemma quiet_settlement_sound : sound_settlement quiet_settlement.
Proof. split; [in_list|done]. Qed.

Lemma raised_settlement_sound shown : sound_settlement (raised_settlement shown).
Proof. split; [in_list|done]. Qed.

(** ** One worker call *)

(** What a call that ended left of its event: reported as sent, delivered;
    reported as attempted but not sent, failed or uncertain. *)
Definition left_settled (s : Store) (i : Z) (d : UnifiedDeliveryResult) : Prop :=
  ∃ e, event_by_id i s = Some e
       ∧ ev_status e ∈ [DELIVERED; FAILED; UNCERTAIN]
       ∧ (ud_ok d = true ↔ ev_status e = DELIVERED).

(** A settled attempt of a live worker: one step, and the event is settled. *)
Lemma settle_result clock w k x now s a e :
  world_ok w → k ∈ flight w → sound_settlement x → settle_with clock (db w) k x now = Ok s →
  a ∈ attempts (db w) → at_id a = k → event_by_id (at_event_id a) (db w) = Some e →
  step w (commit w s (filter (λ j, j ≠ k) (flight w)))
  ∧ ∃ e', event_by_id (at_event_id a) s = Some e' ∧ ev_status e' = st_status x.
Proof.
  intros [Hwf _] Hk Hx H Ha Hak He. split; [by eapply step_settle|].
  destruct (settle_moves _ _ _ _ _ _ _ Hwf H) as (at_ & b & Hb & Hbk & Hev & _).
  assert (b = a) as -> by (eapply same_attempt; [apply (wf_attempts _ Hwf)|done..|congruence]).
  rewrite Hev, He. by eexists.
Qed.

Lemma filter_flight (k : Z) (l : list Z) : filter (λ j, j ≠ k) (k :: l) = filter (λ j, j ≠ k) l.
Proof. rewrite filter_cons, decide_False; [done|]. intros H. by apply H. Qed.

(** The claim: a world whose worker holds the new attempt. *)
Record claimed (w w1 : World) (a : Attempt) : Prop := {
  cl_steps : steps w w1;
  cl_ok : world_ok w1;
  cl_flight : flight w1 = attempt_id a :: flight w;
  cl_row : ∃ r e, r ∈ attempts (db w1) ∧ at_id r = attempt_id a ∧ at_event_id r = att_event_id a
                  ∧ event_by_id (att_event_id a) (db w1) = Some e;
}.

(** Where a worker call that held attempt [a] ends. *)
Definition ended (w : World) (s : Store) (a : Attempt) (r : res UnifiedDeliveryResult) : Prop :=
  ∃ w', steps w w' ∧ db w' = s
    ∧ match r with
      | Ok d => flight w' = filter (λ j, j ≠ attempt_id a) (flight w)
                ∧ left_settled s (att_event_id a) d
      | Err _ => flight w' = flight w ∨ flight w' = attempt_id a :: flight w
                 ∨ flight w' = filter (λ j, j ≠ attempt_id a) (flight w)
      end.

Lemma ended_by_settling clock w w1 a x now s :
  claimed w w1 a → sound_settlement x → settle_with clock (db w1) (attempt_id a) x now = Ok s →
  ∃ w', steps w w' ∧ db w' = s ∧ flight w' = filter (λ j, j ≠ attempt_id a) (flight w)
        ∧ ∃ e, event_by_id (att_event_id a) s = Some e ∧ ev_status e = st_status x.
Proof.
  intros [Hs Hok Hfl (r & e & Hr & Hid & Hev & Hrow)] Hx H.
  destruct (settle_result clock w1 (attempt_id a) x now s r e Hok) as [Hstep He]; try done.
  { rewrite Hfl. left. } { by rewrite Hev. }
  eexists. split; [eapply steps_snoc; [exact Hs|exact Hstep]|]. cbn [db flight commit].
  rewrite Hfl, filter_flight. rewrite Hev in He. done.
Qed.

Lemma left_settled_by s i d x e :
  event_by_id i s = Some e → ev_status e = st_status x → sound_settlement x →
  ud_ok d = st_ok x → left_settled s i d.
Proof.
  intros He Hst [Hx _] Hd. exists e. rewrite Hst. split_and!; [done..|].
  rewrite Hd. unfold st_ok. apply bool_decide_eq_true.
Qed.

(** Settling from a claimed world, as the worker does it. *)
Lemma ended_settle clock w w1 a x now (k : res UnifiedDeliveryResult) :
  claimed w w1 a → sound_settlement x → (∀ d, k = Ok d → ud_ok d = st_ok x) →
  let out := match settle_with clock (db w1) (attempt_id a) x now with
             | Err e => (db w1, Err e) | Ok s => (s, k) end in
  ended w out.1 a out.2.
Proof.
  intros Hc Hx Hk out. subst out. destruct (settle_with clock (db w1) (attempt_id a) x now) as [s|e] eqn:E.
  - destruct (ended_by_settling clock w w1 a x now s Hc Hx E) as (w' & Hs & Hdb & Hfl & ev & He & Hst).
    cbn. exists w'. split; [done|]. split; [done|]. destruct k as [d|]; [|by right; right].
    split; [done|]. eapply left_settled_by; eauto.
  - cbn. exists w1. split; [apply Hc|]. split; [done|]. right. left. apply Hc.
Qed.

Lemma claim_spec clock w i now s a :
  world_ok w → begin_attempt clock (db w) i MAX_DELIVERY_ATTEMPTS now = Ok (s, Some a) →
  att_event_id a = i ∧ claimed w (commit w s (attempt_id a :: flight w)) a.
Proof.
  intros Hok H. assert (Hst : step w (commit w s (attempt_id a :: flight w))) by by eapply step_claim.
  apply begin_attempt_cases in H.
  eapply began_wf in H as (_ & _ & _ & Hi & e & at_ & _ & _ & _ & He & _ & _ & Hin & _); [|done|apply Hok].
  split; [done|]. split; [by apply steps_one|by eapply step_ok|done|]. cbn [db commit].
  do 2 eexists. split; [exact Hin|]. by rewrite Hi.
Qed.

Lemma claimed_mark w w1 a :
  claimed w w1 a →
  claimed w (commit w1 (mark_transport_started (db w1) (attempt_id a)) (flight w1)) a.
Proof.
  intros [Hs Hok Hfl (r & e & Hr & Hid & Hev & Hrow)].
  assert (Hst : step w1 (commit w1 (mark_transport_started (db w1) (attempt_id a)) (flight w1)))
    by (apply step_transport; rewrite Hfl; left).
  split; [by eapply steps_snoc|by eapply step_ok|done|]. cbn [db commit].
  destruct (mark_wf _ (db w1) (attempt_id a) (ok_store _ Hok)) as (_ & Hm1 & Hm).
  destruct (Hm r Hr) as (b & Hb & E1 & E2 & E3). exists b, e. rewrite Hm1. split_and!; congruence.
Qed.

Lemma ended_raised w w1 a e :
  claimed w w1 a → ended w (db w1) a (Err e).
Proof. intros Hc. exists w1. split; [apply Hc|]. split; [done|]. right. left. apply Hc. Qed.

Lemma ended_sink clock w w1 a r now out :
  claimed w w1 a → _settle_sink clock (db w1) a r now = out → ended w out.1 a out.2.
Proof.
  intros Hc <-. unfold _settle_sink.
  apply (ended_settle clock w w1 a (sink_settlement r) now _ Hc (sink_settlement_sound r)).
  intros d. case_match; [done|]. intros [= <-]. cbn. unfold st_ok, sink_settlement.
  destruct (ok r), (permanent r || negb (attempted r)), (_explicit_retryable r); done.
Qed.

Lemma ended_alert clock o w w1 a p now out :
  claimed w w1 a → _deliver_alert_pipeline clock o (db w1) a p now = out → ended w out.1 a out.2.
Proof.
  intros Hc <-. unfold _deliver_alert_pipeline. destruct (_ ≫= _) as [ev|e]; [|by apply (ended_raised w w1)].
  apply (ended_settle clock w w1 a (review_settlement (review_candidate o ev)) now _ Hc);
    [apply review_settlement_sound|].
  intros d. case_match; [|done]. by intros [= <-].
Qed.

Lemma ended_target to_et clock o w w1 a p now out :
  claimed w w1 a → deliver_target to_et clock o (db w1) a p now = out → ended w out.1 a out.2.
Proof.
  intros Hc <-. unfold deliver_target. destruct (_ ≫= _) as [[e [|]]|e]; [..|by apply (ended_raised w w1)].
  - apply (ended_settle clock w w1 a quiet_settlement now _ Hc quiet_settlement_sound).
    by intros d [= <-].
  - apply claimed_mark in Hc. destruct (_deliver_one o e (channel a) p) as [r|shown].
    + by eapply ended_sink.
    + apply (ended_settle clock w _ a (raised_settlement shown) now _ Hc (raised_settlement_sound shown)).
      by intros d [= <-].
Qed.

(** C36: the delivery worker refines the outbox.  Whatever the sinks, the Rust
    ingress and the review answer or raise, one call is a run of outbox steps
    to the store it leaves.  When it returns a result for a claimed attempt,
    that attempt is no longer held and its event is delivered, failed or
    uncertain — delivered exactly when the result says so; when it raises, the
    attempt is settled or still held, to be recovered. *)
Theorem deliver_is_a_run to_et clock o w i now s r :
  reachable w → deliver_notification_event to_et clock o (db w) i now = (s, r) →
  (∃ a, att_event_id a = i ∧ ended w s a r)
  ∨ (steps w (commit w s (flight w)) ∧ ∀ d, r = Ok d → ud_outcome d = "not_due" ∧ ud_ok d = false).
Proof.
  intros Hw H. apply reachable_ok in Hw. unfold deliver_notification_event in H.
  destruct (begin_attempt clock (db w) i MAX_DELIVERY_ATTEMPTS _) as [[s1 [a|]]|e] eqn:Hb.
  - left. destruct (claim_spec _ _ _ _ _ _ Hw Hb) as [Hi Hc]. exists a. split; [done|].
    change s1 with (db (commit w s1 (attempt_id a :: flight w))) in H.
    change (ended w (s, r).1 a (s, r).2). rewrite <- H. clear H.
    destruct (dict_of (payload a)) as [p|]; [|by eapply ended_raised].
    destruct (String.eqb (channel a) "alert_pipeline"); [by eapply ended_alert|by eapply ended_target].
  - right. injection H as <- <-. split; [apply steps_one; by eapply step_refuse|]. by intros d [= <-].
  - right. injection H as <- <-. split; [|done]. destruct w. constructor.
Qed.

(** A sink that accepts the message, and one that breaks while sending. *)
Definition accepting : Outside := {|
  direct_deliver e channel p :=
    Answered [{| sink := channel; attempted := true; ok := true; sink_error := None; permanent := false |}];
  rust_deliver e p := Raised "ConnectionError:refused";
  review_candidate e := Raised "RuntimeError:offline" |}.

Definition sample_envelope : NotificationEnvelope := {|
  en_event_id := "trade:9"; en_source := "desk"; en_kind := "trade_intent"; en_lane := "trade_ready";
  en_occurred_at := utc noon_utc; en_expires_at := Some (utc (noon_utc + HOUR)); operator_targets := [];
  operator_opportunity_id := None; operator_generation := 0; en_correlation_id := None;
  message_class := None; template_id := None; template_version := 1 |}.

Definition sample_message : Message := {|
  title := "Ready"; text := "buy"; friend := false; feishu_text := None; sections := [] |}.

Definition sample_run : list action :=
  [a_enqueue noon_utc (envelope_draft sample_envelope
                         (notification_payload sample_envelope sample_message) ["bark"])].
Definition sample_world : World := after sample_run.

Lemma deliver_is_a_run_witness :
  ∃ s d, deliver_notification_event (λ u, u - 5 * HOUR) noon_utc accepting (db sample_world) 1 None
         = (s, Ok d) ∧ ud_ok d = true ∧ ∃ a, ended sample_world s a (Ok d).
Proof.
  destruct (deliver_notification_event (λ u, u - 5 * HOUR) noon_utc accepting (db sample_world) 1 None)
    as [s [d|e]] eqn:E; [|vm_compute in E; discriminate E].
  exists s, d. split; [reflexivity|].
  assert (Hok : ud_ok d = true) by (vm_compute in E; injection E as _ <-; reflexivity).
  split; [exact Hok|].
  destruct (deliver_is_a_run (λ u, u - 5 * HOUR) noon_utc accepting sample_world 1 None s (Ok d))
    as [(a & _ & Ha)|(_ & Hn)].
  - apply (after_reachable sample_run). vm_compute. reflexivity.
  - exact E.
  - exists a. exact Ha.
  - destruct (Hn d eq_refl) as [_ Hf]. rewrite Hok in Hf. discriminate Hf.
Defined.

(** ** Enqueueing twice *)

(** Row [row] answers for channel [ch] of draft [d]. *)
Definition answers (s : Store) (d : NotificationDraft) (fp : string) (accept : bool) (ch : string)
    (row : EventRow) : Prop :=
  event_at (dr_logical_id d) ch s = Some row ∧ (payload_sha256 row = fp ∨ accept = true).

Lemma event_at_added s s' e :
  events s' = events s ++ [e] → event_at (ev_logical_id e) (ev_channel e) s = None →
  event_at (ev_logical_id e) (ev_channel e) s' = Some e.
Proof.
  unfold event_at. intros E H. rewrite E, find_app, H. cbn. by rewrite !String.eqb_refl.
Qed.

Lemma event_at_other s s' e logical ch :
  events s' = events s ++ [e] → ch ≠ ev_channel e → event_at logical ch s = None →
  event_at logical ch s' = None.
Proof.
  unfold event_at. intros E Hne H. rewrite E, find_app, H. cbn.
  destruct (String.eqb_spec (ev_channel e) ch); [congruence|]. by rewrite andb_false_r.
Qed.

(** One channel enqueued: its row answers for it, and the batch lists it. *)
Lemma enqueue_channel_answers P clock d text fp at_ accept s b ch s' b' :
  enqueue_channel clock d text fp at_ accept (s, b) ch = Ok (s', b') → store_wf P s →
  ∃ row, answers s' d fp accept ch row ∧ event_ids b' = event_ids b ++ [ev_id row]
         ∧ inserted b' + duplicate b' = inserted b + duplicate b + 1 ∧ cancelled b' = false
         ∧ (∀ c, c ≠ ch → event_at (dr_logical_id d) c s = None → event_at (dr_logical_id d) c s' = None)
         ∧ (event_at (dr_logical_id d) ch s = None →
              payload_json row = text ∧ ev_status row = PENDING ∧ attempts_of (ev_id row) s = []).
Proof.
  intros H Hwf.
  destruct (enqueue_channel_cases _ _ _ _ _ _ _ _ _ _ _ H)
    as [(row & Hrow & -> & Hor & ->)|(Hnone & i & expires & Hi & _ & ->)].
  - exists row. split_and!; try done; cbn; try lia. by rewrite Hrow.
  - apply (insert_event_spec P) in Hi as (Hid & He & Ha & Hn & Hl); [|done|done].
    exists (pending_row d text fp ch expires at_ i). split_and!; try done; cbn; try lia.
    + split; [|by left]. apply (event_at_added s s' (pending_row d text fp ch expires at_ i)); done.
    + intros c Hc Hcn. by eapply event_at_other.
Qed.

Lemma enqueue_loop_answers P clock d text fp at_ accept chs s b s' b' :
  res_fold (enqueue_channel clock d text fp at_ accept) (s, b) chs = Ok (s', b') → store_wf P s →
  NoDup chs →
  ∃ rows, Forall2 (answers s' d fp accept) chs rows ∧ event_ids b' = event_ids b ++ (ev_id <$> rows)
          ∧ inserted b' + duplicate b' = inserted b + duplicate b + Z.of_nat (length chs)
          ∧ (chs = [] ∨ cancelled b' = false)
          ∧ (∀ c, c ∉ chs → event_at (dr_logical_id d) c s = None → event_at (dr_logical_id d) c s' = None)
          ∧ Forall2 (λ ch row, event_at (dr_logical_id d) ch s = None →
               payload_json row = text ∧ ev_status row = PENDING ∧ attempts_of (ev_id row) s = []) chs rows.
Proof.
  revert s b. induction chs as [|ch chs IH]; intros s b H Hwf Hnd; cbn [res_fold] in H.
  { injection H as <- <-. exists []. rewrite app_nil_r. cbn. split_and!; try done; [lia|by left]. }
  apply res_bind_ok in H as ([s1 b1] & H1 & H). apply NoDup_cons in Hnd as [Hch Hnd].
  destruct (enqueue_channel_wf _ _ _ _ _ _ _ _ _ _ _ _ H1 Hwf) as [Hwf1 Hg1].
  destruct (enqueue_channel_answers _ _ _ _ _ _ _ _ _ _ _ _ H1 Hwf)
    as (row & Hrow & Hids & Hcount & Hcan & Hothers & Hnew).
  destruct (IH s1 b1 H Hwf1 Hnd) as (rows & Hrows & Hids' & Hcount' & Hcan' & Hothers' & Hnew').
  exists (row :: rows). split; [|split; [|split; [|split; [|split]]]].
  - constructor; [|done]. destruct Hrow as [Hrow ?]. split; [|done].
    apply (res_fold_ind _ (λ x y, store_wf P x.1 → store_wf P y.1 ∧ grows x.1 y.1)) in H; cycle 1.
    { intros [x ?]. by split; [|apply grows_refl]. }
    { intros [x ?] [y ?] [z ?] G1 G2 Hx. destruct (G1 Hx) as [Hy ?], (G2 Hy) as [? ?].
      split; [done|]. by eapply grows_trans. }
    { intros [x ?] [y ?] c Hc Hx. exact (enqueue_channel_wf _ _ _ _ _ _ _ _ _ _ _ _ Hc Hx). }
    { done. }
    eapply grows_at; [apply H|done].
  - rewrite Hids', Hids, <- app_assoc. done.
  - cbn [length]. lia.
  - right. destruct Hcan' as [->|]; [|done]. cbn in H. by injection H as _ <-.
  - intros c [Hc1 Hc2]%not_elem_of_cons Hn. auto.
  - constructor; [done|]. clear -Hnew' Hch Hothers Hg1. revert Hnew' Hch.
    intros H. induction H as [|c r cs rs Hr H IH]; intros Hch; [constructor|].
    apply not_elem_of_cons in Hch as [Hc Hch]. constructor; [|by apply IH].
    intros Hn. rewrite <- (grows_attempts _ _ _ Hg1). apply Hr, Hothers; [congruence|done].
Qed.

Lemma answers_again clock d text fp at_ accept chs rows s b :
  Forall2 (answers s d fp accept) chs rows →
  ∃ b', res_fold (enqueue_channel clock d text fp at_ accept) (s, b) chs = Ok (s, b')
        ∧ event_ids b' = event_ids b ++ (ev_id <$> rows) ∧ inserted b' = inserted b
        ∧ duplicate b' = duplicate b + Z.of_nat (length chs) ∧ (chs = [] ∨ cancelled b' = false).
Proof.
  intros H. revert b. induction H as [|ch row chs rows [Hrow Hor] _ IH]; intros b; cbn [res_fold].
  { exists b. rewrite app_nil_r. cbn. split_and!; try done; [lia|by left]. }
  assert (E1 : enqueue_channel clock d text fp at_ accept (s, b) ch
    = Ok (s, {| event_ids := event_ids b ++ [ev_id row]; inserted := inserted b;
                duplicate := duplicate b + 1; cancelled := false |})).
  { unfold enqueue_channel. rewrite Hrow. destruct Hor as [->| ->]; [by rewrite String.eqb_refl|].
    by rewrite andb_false_r. }
  rewrite E1.
  cbn [mbind res_bind].
  destruct (IH {| event_ids := event_ids b ++ [ev_id row]; inserted := inserted b;
                  duplicate := duplicate b + 1; cancelled := false |}) as (b' & E & H1 & H2 & H3 & H4).
  exists b'. cbn [event_ids inserted duplicate] in *. rewrite H1, <- app_assoc. cbn [length].
  split_and!; try done; [lia|]. right. destruct H4 as [->|]; [|done]. cbn in E. by injection E as <-.
Qed.

(** enqueueing is idempotent.  Enqueueing an accepted draft again, at any
    later moment of the same store, inserts nothing, changes nothing, and
    returns the same event ids. *)
Theorem enqueue_idempotent P clock s d now accept s' b clock' now' at_' :
  store_wf P s → CANCELLATION_CHANNEL ∉ dr_channels d →
  enqueue clock s d now accept = Ok (s', b) → cancelled b = false → _now clock' now' = Ok at_' →
  inserted b + duplicate b = Z.of_nat (length (dr_channels d))
  ∧ enqueue clock' s' d now' accept
    = Ok (s', {| event_ids := event_ids b; inserted := 0;
                 duplicate := Z.of_nat (length (dr_channels d)); cancelled := false |}).
Proof.
  intros Hwf Hcc H Hb Hnow. unfold enqueue in *. split_if H; [done|]. split_if H; [done|].
  rewrite Hnow. apply res_bind_ok in H as (at_ & _ & H).
  apply res_bind_ok in H as ([text fp] & Hp & H). rewrite Hp. cbn [mbind res_bind].
  destruct (event_at _ CANCELLATION_CHANNEL s) as [f|] eqn:Ef; [by injection H as <- <-|].
  bool_to_prop. destruct (enqueue_loop_answers _ _ _ _ _ _ _ _ _ _ _ _ H Hwf)
    as (rows & Hrows & Hids & Hcount & _ & Hothers & _); [done|].
  cbn [event_ids inserted duplicate app] in Hids, Hcount. split; [lia|].
  rewrite (Hothers _ Hcc Ef).
  destruct (answers_again clock' d text fp at_' accept _ _ s'
              {| event_ids := []; inserted := 0; duplicate := 0; cancelled := false |} Hrows)
    as (b' & -> & A1 & A2 & A3 & A4). f_equal. f_equal. destruct b' as [ids ins dup can].
  cbn [event_ids inserted duplicate cancelled app] in *. rewrite Hids. subst. f_equal.
  destruct A4 as [A4| ->]; [congruence|done].
Qed.

Lemma enqueue_idempotent_witness :
  ∃ s b, enqueue noon_utc empty_store sample_draft None false = Ok (s, b)
         ∧ enqueue (noon_utc + HOUR) s sample_draft None false
           = Ok (s, {| event_ids := event_ids b; inserted := 0; duplicate := 2; cancelled := false |}).
Proof.
  destruct (enqueue noon_utc empty_store sample_draft None false) as [[s b]|e] eqn:E;
    [|vm_compute in E; discriminate E].
  exists s, b. split; [reflexivity|].
  refine (proj2 (enqueue_idempotent (λ _, True) noon_utc empty_store sample_draft None false s b (noon_utc + HOUR) None
            (noon_utc + HOUR) (empty_wf _) _ E _ eq_refl)).
  - not_in.
  - vm_compute in E. injection E as _ <-. reflexivity.
Defined.

(** the payload survives the outbox.  For a channel that had no row yet, a
    claim of the enqueued event carries the draft's payload — its keys sorted,
    as the stored text has them — on that channel, as attempt one. *)
Theorem outbox_payload_roundtrip P clock s d now accept s' b ch clock' max now' :
  store_wf P s → json_plain (VDict (dr_payload d)) = true →
  enqueue clock s d now accept = Ok (s', b) → cancelled b = false →
  ch ∈ dr_channels d → event_at (dr_logical_id d) ch s = None →
  ∃ i, i ∈ event_ids b ∧ ∀ s'' a,
    begin_attempt clock' s' i max now' = Ok (s'', Some a) →
    payload a = canon (VDict (dr_payload d)) ∧ channel a = ch ∧ attempt_no a = 1.
Proof.
  intros Hwf Hp H Hb Hch Hnone. destruct (enqueue_wf _ _ _ _ _ _ _ _ H Hwf) as [Hwf' Hg].
  unfold enqueue in H. split_if H; [done|]. split_if H; [done|].
  apply res_bind_ok in H as (at_ & _ & H). apply res_bind_ok in H as ([text fp] & Hpay & H).
  destruct (event_at _ CANCELLATION_CHANNEL s) as [f|] eqn:Ef; [by injection H as <- <-|].
  bool_to_prop. destruct (enqueue_loop_answers _ _ _ _ _ _ _ _ _ _ _ _ H Hwf)
    as (rows & Hrows & Hids & _ & _ & _ & Hnew); [done|].
  cbn [event_ids app] in Hids.
  apply list_elem_of_lookup_1 in Hch as [n Hn].
  destruct (Forall2_lookup_l _ _ _ _ _ Hrows Hn) as (row & Hr & [Hat _]).
  destruct (Forall2_lookup_lr _ _ _ _ _ _ Hnew Hn Hr Hnone) as (Htext & Hst & Hatt).
  exists (ev_id row). split; [rewrite Hids; by eapply list_elem_of_fmap_2, list_elem_of_lookup_2|].
  unfold event_at in Hat. apply find_some in Hat as [Hin Hk]. apply list_elem_of_In in Hin.
  apply andb_true_iff in Hk as [_ Hk]. apply String.eqb_eq in Hk.
  pose proof (find_key_In ev_id _ row (wf_events _ Hwf') Hin) as Hf.
  change (event_by_id (ev_id row) s' = Some row) in Hf.
  intros s'' a Ha. apply begin_attempt_cases, began_claim in Ha as (e & He & Hl & Hc & Hno).
  rewrite Hf in He. injection He as <-.
  unfold _payload in Hpay. apply res_bind_ok in Hpay as (t & Ht & Hpay).
  apply res_bind_ok in Hpay as (? & _ & Hpay). injection Hpay as -> _.
  destruct (loads_dumps _ Hp) as (t' & Ht' & Hl'). rewrite Ht in Ht'. injection Ht' as <-.
  rewrite Htext, Hl' in Hl. injection Hl as <-. rewrite Hno, Hc.
  unfold last_attempt_no. by rewrite (grows_attempts _ _ _ Hg), Hatt.
Qed.

Lemma outbox_payload_roundtrip_witness :
  ∃ s b i, enqueue noon_utc empty_store sample_draft None false = Ok (s, b) ∧ i ∈ event_ids b
    ∧ ∀ s'' a, begin_attempt noon_utc s i 3 None = Ok (s'', Some a) →
               payload a = VDict [("size", VInt 2); ("title", VStr "Ready")] ∧ channel a = "feishu".
Proof.
  destruct (enqueue noon_utc empty_store sample_draft None false) as [[s b]|e] eqn:E;
    [|vm_compute in E; discriminate E].
  destruct (outbox_payload_roundtrip (λ _, True) noon_utc empty_store sample_draft None false s b "feishu" noon_utc 3 None)
    as (i & Hi & Hall).
  - apply empty_wf.
  - reflexivity.
  - exact E.
  - vm_compute in E. injection E as _ <-. reflexivity.
  - vm_compute. right. left.
  - reflexivity.
  - exists s, b, i. split; [reflexivity|]. split; [exact Hi|]. intros s'' a Ha.
    destruct (Hall s'' a Ha) as (Hp & Hc & _). split; [|exact Hc]. rewrite Hp. vm_compute. reflexivity.
Defined.

(** ** Two behaviours worth knowing *)

Definition permanent_settlement : Settlement := sink_settlement {|
  sink := "bark"; attempted := true; ok := false; sink_error := Some "http 400"; permanent := true |}.
Definition retryable_settlement : Settlement := sink_settlement {|
  sink := "bark"; attempted := true; ok := false; sink_error := Some "bark response code=500";
  permanent := false |}.

(** A permanently failed event is not dead: scheduled again, it is claimed and
    sent again. *)
Lemma permanent_failure_is_claimed_again :
  flight (after [a_enqueue noon_utc sample_draft; a_begin noon_utc 1; a_transport 1;
                 a_settle noon_utc 1 permanent_settlement; a_begin noon_utc 1]) = [2].
Proof. by vm_compute. Qed.

(** A cancellation does not reach an event that is being processed: after a
    retryable failure it is sent again although its logical event is fenced. *)
Lemma cancelled_while_processing_is_retried :
  flight (after [a_enqueue noon_utc sample_draft; a_begin noon_utc 1;
                 a_cancel noon_utc "trade:1" "stale"; a_transport 1;
                 a_settle noon_utc 1 retryable_settlement; a_begin noon_utc 1]) = [2].
Proof. by vm_compute. Qed.
