(* ===== verification/GlobexTrend.v ===== *)
(** * The ES Globex trend machine ([application/globex_trend/machine.py])

    Samples of the ES price, their multi-horizon returns, the regime with its
    confirmation counts, and the events (transition, advance, continuation) the
    machine emits.  The state is the JSON dict of the source; instants are UTC,
    as the service converts them. *)

From stdpp Require Import base list strings.
From Stdlib Require Import ZArith Lia.
From S2P Require Import Prelude PyStr PyFloat PyTime PyDateTime PyDict PyVal.

#[local] Open Scope Z_scope.

Inductive GlobexTrendRegime := NEUTRAL | BEARISH | BULLISH.

#[global] Instance GlobexTrendRegime_eq_dec : EqDecision GlobexTrendRegime.
Proof. solve_decision. Defined.

Definition regime_value (r : GlobexTrendRegime) : string :=
  match r with NEUTRAL => "neutral" | BEARISH => "bearish" | BULLISH => "bullish" end.
#[global, refine] Instance GlobexTrendRegime_enum : PyEnum GlobexTrendRegime := {|
  enum_members := [NEUTRAL; BEARISH; BULLISH];
  enum_value := regime_value;
  enum_find := _;
|}.
Proof. by intros []. Defined.

Record GlobexTrendSettings := {
  gt_enabled : bool;
  interval_seconds : Z;
  sample_interval_seconds : Z;
  short_horizon_minutes : Z;
  medium_horizon_minutes : Z;
  long_horizon_minutes : Z;
  short_move_points : float;
  medium_move_points : float;
  long_move_points : float;
  reversal_points : float;
  confirmation_observations : Z;
  max_quote_age_seconds : float;
  retention_hours : Z;
  pending_event_ttl_seconds : Z;
  continuation_step_points : float;
  continuation_confirmation_observations : Z;
  continuation_cooldown_seconds : Z;
  continuation_max_milestones_per_transition : Z;
  continuation_session_budget : Z;
}.

(** [GlobexTrendSettings.__post_init__]. *)
Definition check_trend_settings (s : GlobexTrendSettings) : res GlobexTrendSettings :=
  let not_positive_int z := z <=? 0 in
  let not_positive x := fleb x (f_of_Z 0) in
  if not_positive_int (interval_seconds s) || not_positive_int (sample_interval_seconds s)
     || not_positive_int (short_horizon_minutes s) || not_positive_int (medium_horizon_minutes s)
     || not_positive_int (long_horizon_minutes s) || not_positive (short_move_points s)
     || not_positive (medium_move_points s) || not_positive (long_move_points s)
     || not_positive (reversal_points s) || not_positive_int (confirmation_observations s)
     || not_positive (max_quote_age_seconds s) || not_positive_int (retention_hours s)
     || not_positive_int (pending_event_ttl_seconds s) || not_positive (continuation_step_points s)
     || not_positive_int (continuation_confirmation_observations s)
     || not_positive_int (continuation_cooldown_seconds s)
     || not_positive_int (continuation_max_milestones_per_transition s)
     || not_positive_int (continuation_session_budget s)
  then Err ValueError
  else if negb ((short_horizon_minutes s <? medium_horizon_minutes s)
                && (medium_horizon_minutes s <? long_horizon_minutes s))
  then Err ValueError
  else Ok s.

Definition default_trend_settings : GlobexTrendSettings := {|
  gt_enabled := true;
  interval_seconds := 30;
  sample_interval_seconds := 60;
  short_horizon_minutes := 15;
  medium_horizon_minutes := 60;
  long_horizon_minutes := 180;
  short_move_points := f_lit 35 1;
  medium_move_points := f_of_Z 8;
  long_move_points := f_of_Z 15;
  reversal_points := f_of_Z 10;
  confirmation_observations := 2;
  max_quote_age_seconds := f_of_Z 90;
  retention_hours := 18;
  pending_event_ttl_seconds := 300;
  continuation_step_points := f_of_Z 10;
  continuation_confirmation_observations := 2;
  continuation_cooldown_seconds := 1800;
  continuation_max_milestones_per_transition := 2;
  continuation_session_budget := 3;
|}.

Definition GTH_DIRECTIONAL_ADVISORY_CONTRACT_VERSION : string := "gth_directional_advisory.v1".
Definition ADVANCE_HOLD_BUFFER_POINTS : float := f_lit 15 1.

(** [initial_state]. *)
Definition initial_trend_state (session_id : string) : pydict :=
  [("version", VInt 2); ("session_id", VStr session_id); ("regime", VStr (enum_value NEUTRAL));
   ("candidate_regime", VNone); ("candidate_observations", VInt 0);
   ("transition_sequence", VInt 0); ("regime_started_at", VNone); ("regime_high", VNone);
   ("regime_low", VNone); ("samples", VList []); ("metrics", VDict []);
   ("last_transition", VNone); ("pending_event", VNone);
   ("continuation_milestone_index", VInt 0); ("continuation_candidate_index", VNone);
   ("continuation_candidate_observations", VInt 0); ("continuation_candidate_provider", VNone);
   ("continuation_events_in_context", VInt 0); ("last_continuation_at", VNone);
   ("last_continuation", VNone); ("last_advance", VNone); ("last_advance_at", VNone);
   ("advance_milestone_index", VInt 0); ("advance_candidate_index", VNone);
   ("advance_candidate_observations", VInt 0); ("advance_events_in_session", VInt 0);
   ("pending_directional_advisory_id", VNone); ("active_directional_advisory_id", VNone);
   ("active_directional_advisory_accepted_at", VNone);
   ("continuation_migration_budget_consumed", VBool false);
   ("continuation_suppressed_reason", VNone); ("updated_at", VNone)].

(** ** Reading the state *)

(** [int(state.get(k) or 0)]. *)
Definition counter (k : string) (state : pydict) : res Z := py_int (v_or (vget k state) (VInt 0)).
(** [str(state.get(k) or "") or None]. *)
Definition opt_id (k : string) (state : pydict) : option string :=
  let s := vstr_or k "" state in if String.eqb s "" then None else Some s.

(** [datetime.fromisoformat(str(row["at"]))], compared with aware datetimes. *)
Definition row_time (row : pydict) : res Z :=
  v ← vindex "at" row;
  d ← of_option ValueError (fromisoformat (py_str v));
  of_option TypeError (dt_instant d).
Definition row_price (row : pydict) : res float := v ← vindex "price" row; py_float v.

Fixpoint dict_rows (rows : list pyval) : list pydict :=
  match rows with
  | [] => []
  | VDict row :: rows => row :: dict_rows rows
  | _ :: rows => dict_rows rows
  end.
(** [_samples]. *)
Definition samples_of (state : pydict) : list pydict :=
  match vget "samples" state with VList rows => dict_rows rows | _ => [] end.

(** The price moves of a metrics dict, whose values are floats and [None]. *)
Definition metric (k : string) (metrics : pydict) : option float :=
  match vget k metrics with VFloat f => Some f | _ => None end.
Definition metrics_of (state : pydict) : pydict := default [] (dict_of (vget "metrics" state)).

(** [x is None or test(x)] and [x is not None and test(x)]. *)
Definition none_or (test : float → bool) (x : option float) : bool :=
  match x with Some f => test f | None => true end.
Definition some_and (test : float → bool) (x : option float) : bool :=
  match x with Some f => test f | None => false end.

Definition at_least_0 (f : float) : bool := fgeb f (f_of_Z 0).
Definition at_most_0 (f : float) : bool := fleb f (f_of_Z 0).

Section machine.
Context (policy : GlobexTrendSettings).

(** ** Metrics *)

(** [_horizon_return]. *)
Definition horizon_return (samples : list pydict) (at_ : Z) (price : float) (minutes : Z)
    : res (option float) :=
  target ← dt_add at_ (- (minutes * MINUTE));
  candidates ← res_filter (λ row, t ← row_time row; Ok (t <=? target)) (removelast samples);
  timed ← res_mapM (λ row, t ← row_time row; Ok (t, row)) candidates;
  match max_by (λ a b, b.1 <? a.1) timed with
  | None => Ok None
  | Some (reference_at, reference) =>
      let tolerance := fmax (f_of_Z 180) (fmul (fmul (f_of_Z minutes) (f_of_Z 60)) (f_lit 20 2)) in
      if fgtb (total_seconds (target - reference_at)) tolerance then Ok None
      else p ← row_price reference; Ok (Some (fsub price p))
  end.

Definition compute_metrics (samples : list pydict) : res pydict :=
  match last samples with
  | None => Ok []
  | Some latest =>
      at_ ← row_time latest;
      price ← row_price latest;
      prices ← res_mapM row_price samples;
      short ← horizon_return samples at_ price (short_horizon_minutes policy);
      medium ← horizon_return samples at_ price (medium_horizon_minutes policy);
      long ← horizon_return samples at_ price (long_horizon_minutes policy);
      high ← of_option ValueError (max_by fgtb prices);
      low ← of_option ValueError (min_by fltb prices);
      Ok [("price", VFloat price); ("return_15m_points", v_opt_float short);
          ("return_60m_points", v_opt_float medium); ("return_180m_points", v_opt_float long);
          ("session_high", VFloat high); ("session_low", VFloat low);
          ("drawdown_from_high_points", VFloat (fsub price high));
          ("rebound_from_low_points", VFloat (fsub price low))]
  end.

(** [_update_regime_extrema]. *)
Definition update_regime_extrema (state : pydict) (price : float) : pydict :=
  let high := num_of (vget "regime_high" state) in
  let low := num_of (vget "regime_low" state) in
  dset "regime_low" (VFloat match low with Some l => fmin l price | None => price end)
    (dset "regime_high" (VFloat match high with Some h => fmax h price | None => price end) state).

(** The regime the metrics call for, with the reason; [None] to stay. *)
Definition target_regime (regime : GlobexTrendRegime) (metrics : pydict)
    : option (GlobexTrendRegime * string) :=
  let short := metric "return_15m_points" metrics in
  let medium := metric "return_60m_points" metrics in
  let long := metric "return_180m_points" metrics in
  let rebound := metric "rebound_from_regime_low_points" metrics in
  let drawdown := metric "drawdown_from_regime_high_points" metrics in
  let falls bound x := fleb x (fopp bound) in
  let rises bound x := fgeb x bound in
  if bool_decide (regime = BEARISH) && some_and (rises (short_move_points policy)) short
     && some_and (rises (reversal_points policy)) rebound
  then Some (BULLISH, "confirmed_reversal_from_regime_low")
  else if bool_decide (regime = BULLISH) && some_and (falls (short_move_points policy)) short
          && some_and (falls (reversal_points policy)) drawdown
  then Some (BEARISH, "confirmed_reversal_from_regime_high")
  else if negb (bool_decide (regime = NEUTRAL)) then None
  else
    let impulse := bool_decide (medium = None) && bool_decide (long = None) in
    if impulse && some_and (falls (short_move_points policy)) short
    then Some (BEARISH, "initial_short_impulse")
    else if impulse && some_and (rises (short_move_points policy)) short
    then Some (BULLISH, "initial_short_impulse")
    else if (some_and (falls (medium_move_points policy)) medium
             || some_and (falls (long_move_points policy)) long) && none_or at_most_0 short
    then Some (BEARISH, "multi_horizon_downtrend")
    else if (some_and (rises (medium_move_points policy)) medium
             || some_and (rises (long_move_points policy)) long) && none_or at_least_0 short
    then Some (BULLISH, "multi_horizon_uptrend")
    else None.

(** ** Candidates, milestones and cooldowns *)

Definition reset_advance_candidate (state : pydict) : pydict :=
  dset "advance_candidate_observations" (VInt 0) (dset "advance_candidate_index" VNone state).

Definition reset_continuation_candidate (state : pydict) : pydict :=
  dset "continuation_candidate_provider" VNone
    (dset "continuation_candidate_observations" (VInt 0)
      (dset "continuation_candidate_index" VNone state)).

(** Whether the instant stored under [k] is closer than the cooldown. *)
Definition cooling (k : string) (state : pydict) (at_ : Z) : res bool :=
  match vget k state with
  | VStr raw =>
      match fromisoformat raw with
      | None => Ok false
      | Some d =>
          last_at ← of_option TypeError (dt_instant d);
          Ok (fltb (total_seconds (at_ - last_at)) (f_of_Z (continuation_cooldown_seconds policy)))
      end
  | _ => Ok false
  end.

(** One more observation of milestone [m], or its first. *)
Definition observe_milestone (index_key count_key : string) (m : Z) (state : pydict) : res Z :=
  if py_eq (vget index_key state) (VInt m)
  then n ← counter count_key state; Ok (n + 1)
  else Ok 1.

Definition option_right (up : bool) : string := if up then "C" else "P".
Definition direction_value (up : bool) : string := if up then "up" else "down".

Definition signal_coordinate : pyval :=
  VDict [("kind", VStr "future"); ("instrument_id", VStr "future:ES")].
Definition execution_block_reasons : pyval :=
  VList [VStr "gth_directional_advisory_only";
         VStr "exact_same_coordinate_option_expression_required";
         VStr "rth_trade_ready_authority_not_reused"].

(** ** Advance: a no-pullback grind while the regime is neutral *)

Definition advance_event (state : pydict) (session_id : pyval) (at_ source_at : Z) (price : float)
    (provider : string) (up : bool) (m : Z) (anchor extension : float) : pydict :=
  let direction := direction_value up in
  let sid := py_str session_id in
  [("event_type", VStr "advance");
   ("event_id", VStr ("globex-advance:" +:+ sid +:+ ":" +:+ direction +:+ ":m" +:+ str_of_Z m));
   ("session_id", session_id); ("sequence", VInt m);
   ("regime", VStr (if up then "bullish" else "bearish")); ("direction", VStr direction);
   ("milestone_index", VInt m); ("anchor_price", VFloat anchor);
   ("extension_points", VFloat extension);
   ("threshold_points", VFloat (fmul (continuation_step_points policy) (f_of_Z m)));
   ("at", vtime at_); ("source_at", vtime source_at); ("price", VFloat price);
   ("provider", VStr provider); ("metrics", VDict (metrics_of state));
   ("advisory_contract_version", VStr GTH_DIRECTIONAL_ADVISORY_CONTRACT_VERSION);
   ("advisory_id", VStr ("gth-advance:" +:+ sid +:+ ":" +:+ direction +:+ ":m" +:+ str_of_Z m));
   ("advisory_status", VStr "advisory_ready"); ("signal_stage", VStr "entry_advisory");
   ("option_right", VStr (option_right up)); ("direction_source", VStr "session_extreme_hold");
   ("signal_coordinate", signal_coordinate);
   ("option_coordinate_status", VStr "not_authorized_from_es_direction");
   ("quote_attachment_status", VStr "direction_only"); ("parent_advisory_id", VNone);
   ("contract_id", VNone); ("entry_limit", VNone); ("execution_eligible", VBool false);
   ("automatic_ordering", VBool false);
   ("operator_action", VStr (if up then "evaluate_call_setup" else "evaluate_put_setup"));
   ("execution_block_reasons", execution_block_reasons);
   ("operator_action_note", VStr "gth_trend_advance")].

(** The direction of the grind with its extension and anchor. *)
Definition session_grind (metrics : pydict) (price high low r15 : float)
    : option (bool * float * float) :=
  let r60 := metric "return_60m_points" metrics in
  let r180 := metric "return_180m_points" metrics in
  let rebound := fsub price low in
  let drawdown := fsub high price in
  if at_least_0 r15 && none_or at_least_0 r60 && none_or at_least_0 r180
     && fgeb rebound (continuation_step_points policy) && fleb drawdown ADVANCE_HOLD_BUFFER_POINTS
  then Some (true, rebound, low)
  else if at_most_0 r15 && none_or at_most_0 r60 && none_or at_most_0 r180
          && fgeb drawdown (continuation_step_points policy) && fleb rebound ADVANCE_HOLD_BUFFER_POINTS
  then Some (false, drawdown, high)
  else None.

(** [_advance_session_trend] once a grind is seen. *)
Definition advance_grind (state : pydict) (at_ source_at : Z) (price : float) (provider : string)
    (allowed up : bool) (extension anchor : float) : res (pydict * option pydict) :=
  let quiet := (reset_advance_candidate state, None) in
  cool ← cooling "last_advance_at" state at_;
  if cool : bool then Ok quiet else
  index ← counter "advance_milestone_index" state;
  let m := index + 1 in
  if fltb extension (fmul (continuation_step_points policy) (f_of_Z m)) then Ok quiet
  else if negb allowed then
    Ok (reset_advance_candidate (dset "advance_milestone_index" (VInt m) state), None)
  else
    observations ← observe_milestone "advance_candidate_index" "advance_candidate_observations" m state;
    let state := dset "advance_candidate_observations" (VInt observations)
                   (dset "advance_candidate_index" (VInt m) state) in
    if observations <? continuation_confirmation_observations policy then Ok (state, None) else
    session_id ← vindex "session_id" state;
    let event := advance_event state session_id at_ source_at price provider up m anchor extension in
    events ← counter "advance_events_in_session" state;
    let state := dset "advance_milestone_index" (VInt m) state in
    let state := dset "advance_events_in_session" (VInt (events + 1)) state in
    let state := dset "last_advance_at" (vtime at_) state in
    let state := dset "last_advance" (VDict event) state in
    let state := dset "pending_event" (VDict event) state in
    Ok (reset_advance_candidate state, Some event).

(** [_advance_session_trend]. *)
Definition advance_session_trend (state : pydict) (at_ source_at : Z) (price : float)
    (provider : string) (allowed : bool) : res (pydict * option pydict) :=
  let metrics := metrics_of state in
  let quiet := (reset_advance_candidate state, None) in
  match num_of (vget "session_high" metrics), num_of (vget "session_low" metrics),
        num_of (vget "return_15m_points" metrics) with
  | Some high, Some low, Some r15 =>
      events ← counter "advance_events_in_session" state;
      if continuation_session_budget policy <=? events then Ok quiet else
      match session_grind metrics price high low r15 with
      | None => Ok quiet
      | Some (up, extension, anchor) =>
          advance_grind state at_ source_at price provider allowed up extension anchor
      end
  | _, _, _ => Ok quiet
  end.

(** ** Continuation: milestones beyond a confirmed transition *)

Definition continuation_event (state : pydict) (session_id : pyval) (at_ source_at : Z)
    (price : float) (provider : string) (regime : GlobexTrendRegime) (sequence : pyval) (m : Z)
    (anchor extension : float) (advisory_id stage action : string) (parent : option string)
    : pydict :=
  let up := bool_decide (regime = BULLISH) in
  let direction := direction_value up in
  [("event_type", VStr "continuation");
   ("event_id", VStr ("globex-cont:" +:+ py_str session_id +:+ ":" +:+ py_str sequence +:+ ":"
                      +:+ direction +:+ ":m" +:+ str_of_Z m));
   ("session_id", session_id); ("sequence", sequence); ("regime", VStr (enum_value regime));
   ("direction", VStr direction); ("milestone_index", VInt m); ("anchor_price", VFloat anchor);
   ("extension_points", VFloat extension);
   ("threshold_points", VFloat (fmul (continuation_step_points policy) (f_of_Z m)));
   ("at", vtime at_); ("source_at", vtime source_at); ("price", VFloat price);
   ("provider", VStr provider); ("metrics", VDict (metrics_of state));
   ("advisory_contract_version", VStr GTH_DIRECTIONAL_ADVISORY_CONTRACT_VERSION);
   ("advisory_id", VStr advisory_id); ("advisory_status", VStr "advisory_ready");
   ("signal_stage", VStr stage); ("option_right", VStr (option_right up));
   ("direction_source", VStr "direct_live_es"); ("signal_coordinate", signal_coordinate);
   ("option_coordinate_status", VStr "not_authorized_from_es_direction");
   ("quote_attachment_status", VStr "direction_only"); ("parent_advisory_id", v_opt_str parent);
   ("contract_id", VNone); ("entry_limit", VNone); ("execution_eligible", VBool false);
   ("automatic_ordering", VBool false); ("operator_action", VStr action);
   ("execution_block_reasons", execution_block_reasons)].

(** What milestone [m] means: the first one advises an entry, a later one
    manages the advisory that was accepted, if there is one. *)
Definition continuation_stage (state : pydict) (up : bool) (m : Z)
    : option (string * string * option string) :=
  if m =? 1 then
    Some ("entry_advisory", if up then "evaluate_call_setup" else "evaluate_put_setup", None)
  else match opt_id "active_directional_advisory_id" state with
       | None => None
       | Some parent =>
           Some ("opportunity_management", "conditional_take_profit_or_raise_stop", Some parent)
       end.

(** [_advance_continuation] once the milestone is confirmed. *)
Definition emit_continuation (state : pydict) (at_ source_at : Z) (price : float)
    (provider : string) (regime : GlobexTrendRegime) (sequence : pyval) (m : Z)
    (anchor extension : float) : res (pydict * option pydict) :=
  let up := bool_decide (regime = BULLISH) in
  session_id ← vindex "session_id" state;
  let advisory_id := "gth-advisory:" +:+ py_str session_id +:+ ":" +:+ py_str sequence +:+ ":"
                     +:+ direction_value up in
  match continuation_stage state up m with
  | None =>
      Ok (reset_continuation_candidate
            (dset "continuation_suppressed_reason"
               (VStr "management_without_accepted_entry_advisory") state), None)
  | Some (stage, action, parent) =>
      let event := continuation_event state session_id at_ source_at price provider regime sequence m
                     anchor extension advisory_id stage action parent in
      let state := if m =? 1
                   then dset "pending_directional_advisory_id" (VStr advisory_id) state else state in
      let state := dset "continuation_milestone_index" (VInt m) state in
      events ← counter "continuation_events_in_context" state;
      let state := dset "continuation_events_in_context" (VInt (events + 1)) state in
      let state := dset "last_continuation_at" (vtime at_) state in
      let state := dset "last_continuation" (VDict event) state in
      let state := dset "continuation_suppressed_reason" VNone state in
      let state := dset "pending_event" (VDict event) state in
      Ok (reset_continuation_candidate state, Some event)
  end.

(** [_advance_continuation] beyond its budget checks. *)
Definition continue_leg (state : pydict) (at_ source_at : Z) (price : float) (provider : string)
    (regime : GlobexTrendRegime) (allowed : bool) (index : Z) (anchor : float) (sequence : pyval)
    : res (pydict * option pydict) :=
  let quiet := (reset_continuation_candidate state, None) in
  let m := index + 1 in
  let extension := if bool_decide (regime = BULLISH) then fsub price anchor else fsub anchor price in
  if negb (fgeb extension (fmul (continuation_step_points policy) (f_of_Z m))) then Ok quiet else
  cool ← cooling "last_continuation_at" state at_;
  if cool : bool then Ok quiet else
  if negb allowed then
    Ok (reset_continuation_candidate
          (dset "continuation_suppressed_reason" (VStr "continuation_gate_closed")
             (dset "continuation_milestone_index" (VInt m) state)), None)
  else
    observations ← observe_milestone "continuation_candidate_index"
                     "continuation_candidate_observations" m state;
    let state := dset "continuation_candidate_index" (VInt m) state in
    let state := dset "continuation_candidate_observations" (VInt observations) state in
    let state := dset "continuation_candidate_provider" (VStr provider) state in
    if observations <? continuation_confirmation_observations policy then Ok (state, None) else
    emit_continuation state at_ source_at price provider regime sequence m anchor extension.

(** [_advance_continuation]. *)
Definition advance_continuation (state : pydict) (at_ source_at : Z) (price : float)
    (provider : string) (regime : GlobexTrendRegime) (allowed : bool)
    : res (pydict * option pydict) :=
  let quiet := (reset_continuation_candidate state, None) in
  match bool_decide (regime = NEUTRAL), vget "last_transition" state with
  | false, VDict transition =>
      events ← counter "continuation_events_in_context" state;
      if continuation_session_budget policy <=? events then Ok quiet else
      index ← counter "continuation_milestone_index" state;
      if continuation_max_milestones_per_transition policy <=? index then Ok quiet else
      let sequence := vget "sequence" transition in
      match num_of (vget "price" transition), int_of sequence with
      | Some anchor, Some _ =>
          continue_leg state at_ source_at price provider regime allowed index anchor sequence
      | _, _ => Ok quiet
      end
  | _, _ => Ok quiet
  end.

(** ** Old states *)

(** [state.get("regime") in {"bullish", "bearish"}]: a list or a dict cannot
    be looked up in a set. *)
Definition in_trend (state : pydict) : res bool :=
  match vget "regime" state with
  | VList _ | VDict _ => Err TypeError
  | v => Ok (is_str (enum_value BULLISH) v || is_str (enum_value BEARISH) v)
  end.

Definition ADDED_KEYS : pydict :=
  [("last_continuation", VNone); ("last_advance", VNone); ("last_advance_at", VNone);
   ("advance_milestone_index", VInt 0); ("advance_candidate_index", VNone);
   ("advance_candidate_observations", VInt 0); ("advance_events_in_session", VInt 0);
   ("pending_directional_advisory_id", VNone); ("active_directional_advisory_id", VNone);
   ("active_directional_advisory_accepted_at", VNone)].

(** [_migrate_continuation_state]. *)
Definition migrate_continuation_state (state : pydict) : res pydict :=
  if dhas "continuation_milestone_index" state then
    let state := fold_left (λ st kv, dsetdefault kv.1 kv.2 st) ADDED_KEYS state in
    consumed ← (if is_str "legacy_active_context_no_hindsight"
                     (vget "continuation_suppressed_reason" state)
                then n ← counter "continuation_events_in_context" state;
                     Ok (continuation_session_budget policy <=? n)
                else Ok false);
    Ok (dsetdefault "continuation_migration_budget_consumed" (VBool consumed) state)
  else
    trending ← in_trend state;
    let active := trending && match vget "last_transition" state with VDict _ => true | _ => false end in
    let consumed := if active then continuation_session_budget policy else 0 in
    Ok (dmerge state
          [("version", VInt 2); ("continuation_milestone_index", VInt consumed);
           ("continuation_candidate_index", VNone); ("continuation_candidate_observations", VInt 0);
           ("continuation_candidate_provider", VNone);
           ("continuation_events_in_context", VInt consumed); ("last_continuation_at", VNone);
           ("last_continuation", VNone); ("last_advance", VNone); ("last_advance_at", VNone);
           ("advance_milestone_index", VInt 0); ("advance_candidate_index", VNone);
           ("advance_candidate_observations", VInt 0); ("advance_events_in_session", VInt 0);
           ("pending_directional_advisory_id", VNone); ("active_directional_advisory_id", VNone);
           ("active_directional_advisory_accepted_at", VNone);
           ("continuation_migration_budget_consumed", VBool active);
           ("continuation_suppressed_reason",
            if active then VStr "legacy_active_context_no_hindsight" else VNone)]).

(** ** The step *)

(** A sample that repeats the last source time or comes before the interval
    has passed is not taken. *)
Definition sample_skipped (samples : list pydict) (at_ source_at : Z) : res bool :=
  match last samples with
  | None => Ok false
  | Some row =>
      if String.eqb (py_str (vget "source_at" row)) (isoformat source_at) then Ok true
      else last_at ← row_time row;
           Ok (fltb (total_seconds (at_ - last_at)) (f_of_Z (sample_interval_seconds policy)))
  end.

Definition new_sample (at_ source_at : Z) (price : float) (provider : string) : pydict :=
  [("at", vtime at_); ("source_at", vtime source_at); ("price", VFloat price);
   ("provider", VStr provider)].

(** The samples not older than the retention, the new one appended. *)
Definition retained_samples (samples : list pydict) (at_ source_at : Z) (price : float)
    (provider : string) : res (list pydict) :=
  cutoff ← dt_add at_ (- (retention_hours policy * HOUR));
  res_filter (λ row, t ← row_time row; Ok (cutoff <=? t))
    (samples ++ [new_sample at_ source_at price provider]).

(** The state with the sample, the extremes and the metrics in place. *)
Definition record_sample (current : pydict) (samples : list pydict) (at_ : Z) (price : float)
    : res (pydict * pydict) :=
  let current := dset "samples" (VList (VDict <$> samples)) current in
  metrics ← compute_metrics samples;
  let current := update_regime_extrema current price in
  high ← py_float (vget "regime_high" current);
  low ← py_float (vget "regime_low" current);
  let metrics := dset "regime_high" (vget "regime_high" current) metrics in
  let metrics := dset "regime_low" (vget "regime_low" current) metrics in
  let metrics := dset "drawdown_from_regime_high_points" (VFloat (fsub price high)) metrics in
  let metrics := dset "rebound_from_regime_low_points" (VFloat (fsub price low)) metrics in
  Ok (dset "updated_at" (vtime at_) (dset "metrics" (VDict metrics) current), metrics).

Definition transition_event (session_id : string) (sequence : Z)
    (regime target : GlobexTrendRegime) (reason : string) (at_ source_at : Z) (price : float)
    (provider : string) (metrics : pydict) (invalidated : option string) : pydict :=
  [("event_type", VStr "transition");
   ("event_id", VStr ("globex-trend:" +:+ session_id +:+ ":" +:+ str_of_Z sequence +:+ ":"
                      +:+ enum_value target));
   ("session_id", VStr session_id); ("sequence", VInt sequence);
   ("from_regime", VStr (enum_value regime)); ("to_regime", VStr (enum_value target));
   ("reason", VStr reason); ("at", vtime at_); ("source_at", vtime source_at);
   ("price", VFloat price); ("provider", VStr provider); ("metrics", VDict metrics);
   ("automatic_ordering", VBool false); ("operator_action", VStr "observe_only");
   ("invalidated_advisory_id", v_opt_str invalidated);
   ("advisory_lifecycle_action",
    match invalidated with Some _ => VStr "invalidated" | None => VNone end)].

(** The confirmed transition to [target]. *)
Definition change_regime (current : pydict) (session_id : string)
    (regime target : GlobexTrendRegime) (reason : string) (at_ source_at : Z) (price : float)
    (provider : string) (metrics : pydict) : res (pydict * option pydict) :=
  n ← counter "transition_sequence" current;
  let sequence := n + 1 in
  let invalidated := opt_id "active_directional_advisory_id" current in
  let event := transition_event session_id sequence regime target reason at_ source_at price
                 provider metrics invalidated in
  let current := dset "regime" (VStr (enum_value target)) current in
  let current := dset "candidate_regime" VNone current in
  let current := dset "candidate_observations" (VInt 0) current in
  let current := dset "transition_sequence" (VInt sequence) current in
  let current := dset "regime_started_at" (vtime at_) current in
  let current := dset "regime_high" (VFloat price) current in
  let current := dset "regime_low" (VFloat price) current in
  let current := dset "last_transition" (VDict event) current in
  let current := dset "pending_event" (VDict event) current in
  let current := dset "continuation_milestone_index" (VInt 0) current in
  let current := reset_continuation_candidate current in
  let current := dset "last_continuation_at" VNone current in
  let current := dset "pending_directional_advisory_id" VNone current in
  let current := dset "active_directional_advisory_id" VNone current in
  let current := dset "active_directional_advisory_accepted_at" VNone current in
  let current := if is_true (vget "continuation_migration_budget_consumed" current)
                 then dset "continuation_migration_budget_consumed" (VBool false)
                        (dset "continuation_events_in_context" (VInt 0) current)
                 else current in
  Ok (dset "continuation_suppressed_reason" VNone current, Some event).

(** One more observation of a candidate regime, or the transition itself. *)
Definition observe_candidate (current : pydict) (session_id : string)
    (regime target : GlobexTrendRegime) (reason : string) (at_ source_at : Z) (price : float)
    (provider : string) (metrics : pydict) : res (pydict * option pydict) :=
  let current := reset_continuation_candidate current in
  observations ← (if is_str (enum_value target) (vget "candidate_regime" current)
                  then n ← counter "candidate_observations" current; Ok (n + 1)
                  else Ok 1);
  let current := dset "candidate_regime" (VStr (enum_value target)) current in
  let current := dset "candidate_observations" (VInt observations) current in
  if observations <? confirmation_observations policy then Ok (current, None)
  else change_regime current session_id regime target reason at_ source_at price provider metrics.

Definition advance_trend_state (state : pydict) (session_id : string) (at_ : Z) (price : float)
    (provider : string) (source_at : Z) (continuation_allowed : bool)
    : res (pydict * option pydict) :=
  let current := if is_str session_id (vget "session_id" state) then state
                 else initial_trend_state session_id in
  current ← migrate_continuation_state current;
  let samples := samples_of current in
  skipped ← sample_skipped samples at_ source_at;
  if skipped : bool then Ok (dset "updated_at" (vtime at_) current, None) else
  samples ← retained_samples samples at_ source_at price provider;
  '(current, metrics) ← record_sample current samples at_ price;
  regime ← enum_parse (vstr_or "regime" "neutral" current);
  let stay := dset "candidate_observations" (VInt 0) (dset "candidate_regime" VNone current) in
  match target_regime regime metrics with
  | Some (target, reason) =>
      if bool_decide (target = regime) then
        if bool_decide (regime = NEUTRAL)
        then advance_session_trend stay at_ source_at price provider continuation_allowed
        else advance_continuation stay at_ source_at price provider regime continuation_allowed
      else observe_candidate current session_id regime target reason at_ source_at price provider
             metrics
  | None =>
      if bool_decide (regime = NEUTRAL)
      then advance_session_trend stay at_ source_at price provider continuation_allowed
      else advance_continuation stay at_ source_at price provider regime continuation_allowed
  end.

End machine.
