(* ===== verification/TrendService.v ===== *)
(** * The Globex trend service ([application/globex_trend/service.py])

    The choice of the ES quote, the trading context that names a session, and
    the two sections of [run] that hold the state lock: the evaluation of one
    observation, and the acknowledgement of a delivered event.  What the
    notifier acknowledged and what the macro calendar allows are arguments; the
    alert texts are not modelled. *)

From stdpp Require Import base numbers strings list.
From Stdlib Require Import ZArith Lia.
From S2P Require Import Prelude PyStr PyFloat PyTime PyDateTime PyDict PyVal MarketCalendar SessionClock Marketdata FailoverController GlobexTrend.

#[local] Open Scope Z_scope.

(** ** The trading context *)

(** [globex_session_id]; [now] is an instant and [to_et] its New York clock. *)
Definition globex_session_id (to_et : Z → Z) (now : Z) : res string :=
  let local := to_et now in
  day ← (if 18 <=? hour_of (wall_time local) then date_add (wall_date local) 1
         else Ok (wall_date local));
  Ok (iso_date day).

Definition trend_context_id `{SessionClock} (to_et : Z → Z) (now : Z) : res string :=
  session_id ← globex_session_id to_et now;
  rth ← clock_rth_open now;
  if rth : bool then Ok (session_id +:+ ":rth") else
  gth ← clock_gth_open now;
  if gth : bool then Ok (session_id +:+ ":gth") else Ok (session_id +:+ ":globex").

Definition gth_advisory_allowed `{SessionClock} (now : Z) (macro_state : pydict) : res bool :=
  gth ← clock_gth_open now;
  Ok (gth && is_str "normal" (vget "mode" macro_state) && is_true (vget "entry_allowed" macro_state)).

(** ** The ES observation *)

Record LiveEsObservation := {
  lo_quote : Quote;
  lo_price : float;
  lo_price_kind : string;
  lo_source_at : Z;
}.

(** The provider of an observation. *)
Definition lo_provider (o : LiveEsObservation) : Provider := provider (lo_quote o).

(** [_es_price_observation]. *)
Definition es_price_observation (q : Quote) : option (float * string * Z) :=
  let mid_price :=
    match bid q, mid q, ask q, quote_time q with
    | Some b, Some m, Some a, Some t =>
        if fltb (f_of_Z 0) b && fleb b m && fleb m a then Some (m, "mid", t) else None
    | _, _, _, _ => None
    end in
  match mid_price with
  | Some r => Some r
  | None =>
      match Marketdata.last q, trade_time q with
      | Some l, Some t => if fgtb l (f_of_Z 0) then Some (l, "last", t) else None
      | _, _ => None
      end
  end.

(** The rank of a provider that may feed the machine; a lower one is better. *)
Definition provider_rank (p : Provider) : option Z :=
  match p with SCHWAB => Some 0 | IBKR => Some 1 | _ => None end.

Definition fresh (policy : GlobexTrendSettings) (age : float) : bool :=
  fleb (fopp FUTURE_TIMESTAMP_TOLERANCE_SECONDS) age && fleb age (max_quote_age_seconds policy).

(** The observation of one quote, when it qualifies. *)
Definition es_candidate (policy : GlobexTrendSettings) (now : Z) (q : Quote)
    : res (option LiveEsObservation) :=
  match provider_rank (provider q) with
  | None => Ok None
  | Some _ =>
      matches ← instrument_matches_id (instrument q) "future:ES";
      match es_price_observation q with
      | Some (price, kind, source) =>
          let transport := default (received_at q) (last_update_at q) in
          if matches && bool_decide (quality q = LIVE)
             && fresh policy (total_seconds (now - transport))
             && fresh policy (total_seconds (now - source))
          then Ok (Some {| lo_quote := q; lo_price := price; lo_price_kind := kind;
                           lo_source_at := source |})
          else Ok None
      | None => Ok None
      end
  end.

Definition observation_rank (o : LiveEsObservation) : Z := default 0 (provider_rank (lo_provider o)).
(** [(source_at, -rank)] in order. *)
Definition observation_beats (a b : LiveEsObservation) : bool :=
  (lo_source_at b <? lo_source_at a)
  || ((lo_source_at a =? lo_source_at b) && (observation_rank a <? observation_rank b)).

Definition preferred_provider `{SessionClock} (now : Z) : res (option Provider) :=
  gth ← clock_gth_open now;
  if gth : bool then Ok (Some IBKR) else
  rth ← clock_rth_open now;
  Ok (if rth : bool then Some SCHWAB else None).

Definition select_live_es `{SessionClock} (state : LatestState) (now : Z)
    (policy : GlobexTrendSettings) : res (option LiveEsObservation) :=
  found ← res_mapM (es_candidate policy now) (ls_quotes state);
  match omap id found with
  | [] => Ok None
  | matches =>
      preferred ← preferred_provider now;
      let liked := filter (λ o, Some (lo_provider o) = preferred) matches in
      Ok (max_by observation_beats (match liked with [] => matches | _ => liked end))
  end.

(** ** The pending event *)

(** [str(event.get("advisory_id") or "")]. *)
Definition advisory_id_of (event : pydict) : string := vstr_or "advisory_id" "" event.
(** Whether the pending advisory of the state is the one of [event]. *)
Definition names_pending_advisory (state event : pydict) : bool :=
  is_str "entry_advisory" (vget "signal_stage" event)
  && negb (String.eqb (advisory_id_of event) "")
  && is_str (advisory_id_of event) (vget "pending_directional_advisory_id" state).

Definition acknowledge_advisory_delivery (state event : pydict) (accepted_at : Z) : pydict :=
  if names_pending_advisory state event then
    let state := dset "pending_directional_advisory_id" VNone state in
    let state := dset "active_directional_advisory_id" (VStr (advisory_id_of event)) state in
    dset "active_directional_advisory_accepted_at" (vtime accepted_at) state
  else state.

(** Recovers the advisory of an event that was acknowledged before a crash. *)
Definition reconcile_acknowledged_advisory (state : pydict) (acknowledged_event_ids : list string)
    (accepted_at : Z) : pydict * bool :=
  match vget "pending_event" state with
  | VDict event =>
      if is_str "entry_advisory" (vget "signal_stage" event)
         && bool_decide (vstr_or "event_id" "" event ∈ acknowledged_event_ids)
      then
        let state := acknowledge_advisory_delivery state event accepted_at in
        if py_eq (vget "active_directional_advisory_id" state) (vget "advisory_id" event)
        then (dset "pending_event" VNone state, true)
        else (state, false)
      else (state, false)
  | _ => (state, false)
  end.

Definition expire_pending_advisory (state event : pydict) : pydict :=
  if names_pending_advisory state event then
    dset "continuation_suppressed_reason" (VStr "entry_advisory_delivery_expired")
      (dset "pending_directional_advisory_id" VNone state)
  else state.

(** [pending_event]: the state may change, the event is what to deliver. *)
Definition pending_event (state : pydict) (now : Z) (policy : GlobexTrendSettings)
    : res (pydict * option pydict) :=
  match vget "pending_event" state with
  | VDict event =>
      match (v ← vindex "at" event; of_option ValueError (fromisoformat (py_str v))) with
      | Ok d =>
          created_at ← of_option TypeError (dt_instant d);
          if fgtb (total_seconds (now - created_at)) (f_of_Z (pending_event_ttl_seconds policy))
          then Ok (dset "pending_event" VNone (expire_pending_advisory state event), None)
          else Ok (state, Some event)
      | Err _ => Ok (dset "pending_event" VNone state, None)
      end
  | _ => Ok (state, None)
  end.

(** ** The two locked sections of [run] *)

(** The evaluation: what is stored, the event of this step, what to deliver. *)
Definition evaluate (policy : GlobexTrendSettings) (state : pydict) (acknowledged : list string)
    (session_id : string) (now : Z) (o : LiveEsObservation) (allowed : bool)
    : res (pydict * option pydict * option pydict) :=
  let '(state, _) := reconcile_acknowledged_advisory state acknowledged now in
  '(state, event) ← advance_trend_state policy state session_id now (lo_price o)
                      (provider_value (lo_provider o)) (lo_source_at o) allowed;
  '(state, pending) ← pending_event state now policy;
  Ok (state, event, pending).

(** After the delivery of the event [alert_event_id] was acknowledged: the
    stored state, if it is rewritten. *)
Definition settle_delivery (state : pydict) (alert_event_id : string) (now : Z) : option pydict :=
  match vget "pending_event" state with
  | VDict event =>
      if is_str alert_event_id (vget "event_id" event)
      then Some (dset "pending_event" VNone (acknowledge_advisory_delivery state event now))
      else None
  | _ => None
  end.

(** What [run] does before the alert goes out: [None] when the market is
    closed or no fresh direct ES quote is there. *)
Definition run_evaluation `{SessionClock} (to_et : Z → Z) (policy : GlobexTrendSettings)
    (latest : LatestState) (macro_state : pydict) (file : pydict) (acknowledged : list string)
    (now : Z) : res (option (pydict * option pydict * option pydict)) :=
  if negb (gt_enabled policy) then Ok None else
  open ← clock_globex_open now;
  if negb open then Ok None else
  o ← select_live_es latest now policy;
  match o with
  | None => Ok None
  | Some o =>
      allowed ← gth_advisory_allowed now macro_state;
      session_id ← trend_context_id to_et now;
      r ← evaluate policy file acknowledged session_id now o allowed;
      Ok (Some r)
  end.

(** ** Which ES quote the trend service acts on *)

Section selection.
Context `{SessionClock}.

Lemma observation_beats_irrefl x : observation_beats x x = false.
Proof. unfold observation_beats. rewrite Z.ltb_irrefl, Z.eqb_refl. apply Z.ltb_irrefl. Qed.

Lemma observation_beats_trans x y z :
  observation_beats x y = true → observation_beats y z = true → observation_beats x z = true.
Proof.
  unfold observation_beats. rewrite !orb_true_iff, !andb_true_iff, !Z.ltb_lt, !Z.eqb_eq. lia.
Qed.

Lemma es_candidate_some policy now q o :
  es_candidate policy now q = Ok (Some o) →
  lo_quote o = q ∧ is_Some (provider_rank (provider q)) ∧ quality q = LIVE
  ∧ instrument_matches_id (instrument q) "future:ES" = Ok true
  ∧ es_price_observation q = Some (lo_price o, lo_price_kind o, lo_source_at o)
  ∧ fresh policy (total_seconds (now - default (received_at q) (last_update_at q))) = true
  ∧ fresh policy (total_seconds (now - lo_source_at o)) = true.
Proof.
  unfold es_candidate. intros E. destruct (provider_rank (provider q)) eqn:Ep; [|done]. res_inv.
  destruct (es_price_observation q) as [[[price kind] source]|] eqn:Eo; [|done].
  split_if E; [|done]. injection E as <-. bool_to_prop. subst. by split_and!.
Qed.

(** The candidates of a list of quotes. *)
Lemma candidates_spec policy now quotes found :
  res_mapM (es_candidate policy now) quotes = Ok found →
  (∀ c, c ∈ omap id found ↔ ∃ q, q ∈ quotes ∧ es_candidate policy now q = Ok (Some c))
  ∧ (omap id found = [] → ∀ q, q ∈ quotes → es_candidate policy now q = Ok None).
Proof.
  intros E.
  assert (Hin : ∀ c, c ∈ omap id found ↔ ∃ q, q ∈ quotes ∧ es_candidate policy now q = Ok (Some c)).
  { intros c. rewrite list_elem_of_omap. split.
    - intros (x & Hx & Hc). cbn in Hc. subst x. by eapply (res_mapM_elem _ _ _ (Some c)).
    - intros Hq. exists (Some c). split; [|done]. by eapply (res_mapM_elem _ _ _ (Some c)). }
  split; [done|]. intros Hnil q Hq. destruct (res_mapM_is_ok _ _ _ q E Hq) as [[c|] Hc]; [|done].
  assert (c ∈ omap id found) as Hcin by (apply Hin; eauto).
  rewrite Hnil in Hcin. by apply not_elem_of_nil in Hcin.
Qed.

(** The candidates among which the best is taken: the liked ones, or all. *)
Lemma liked_or_all {A} (P : A → Prop) `{∀ a, Decision (P a)} (all : list A) :
  all ≠ [] →
  let pool := match filter P all with [] => all | _ => filter P all end in
  pool ≠ [] ∧ (∀ c, c ∈ pool → c ∈ all)
  ∧ ((∀ c, c ∈ pool ↔ c ∈ all ∧ P c) ∨ pool = all ∧ ∀ c, c ∈ all → ¬ P c).
Proof.
  intros Hne. cbv zeta. destruct (filter P all) as [|l ls] eqn:Ef.
  - split_and!; [done|done|]. right. split; [done|]. intros c Hc Hp.
    assert (c ∈ filter P all) as Hcf by (by apply list_elem_of_filter).
    rewrite Ef in Hcf. by apply not_elem_of_nil in Hcf.
  - rewrite <- Ef. split_and!; [by rewrite Ef| |left]; intros c; rewrite list_elem_of_filter; tauto.
Qed.

(** The ES observation.  The chosen observation comes from a stored live
    quote of the ES future by Schwab or IBKR whose transport and source ages
    are within the limits; it is of the session's preferred provider when any
    candidate is, and no candidate of the same standing has a later source time
    or, at the same time, a better provider rank.  Nothing is chosen exactly
    when there is no candidate. *)
Theorem live_es_choice state now policy r :
  select_live_es state now policy = Ok r →
  match r with
  | None => ∀ q, q ∈ ls_quotes state → es_candidate policy now q = Ok None
  | Some o =>
      ∃ preferred, preferred_provider now = Ok preferred
      ∧ lo_quote o ∈ ls_quotes state ∧ quality (lo_quote o) = LIVE
      ∧ instrument_matches_id (instrument (lo_quote o)) "future:ES" = Ok true
      ∧ fresh policy (total_seconds (now - lo_source_at o)) = true
      ∧ fresh policy (total_seconds (now - default (received_at (lo_quote o)) (last_update_at (lo_quote o)))) = true
      ∧ ∀ q c, q ∈ ls_quotes state → es_candidate policy now q = Ok (Some c) →
               (Some (lo_provider c) = preferred → Some (lo_provider o) = preferred)
               ∧ (Some (lo_provider c) = preferred ∨ Some (lo_provider o) ≠ preferred →
                  observation_beats c o = false)
  end.
Proof.
  unfold select_live_es. intros E. res_inv. rename x into found.
  destruct (candidates_spec policy now _ found ltac:(done)) as [Hin Hnone].
  destruct (omap id found) as [|c0 cs] eqn:Em; [injection E as <-; by apply Hnone|].
  res_inv. rename x into preferred. set (all := c0 :: cs) in *.
  destruct (liked_or_all (λ o, Some (lo_provider o) = preferred) all ltac:(done)) as (Hne & Hsub & Hkind).
  match type of Hne with ?p ≠ [] => set (pool := p) in * end.
  destruct (max_by observation_beats pool) as [o|] eqn:Eo; [|by apply max_by_None in Eo].
  destruct (max_by_best _ _ _ observation_beats_irrefl observation_beats_trans Eo) as [Ho Hbest].
  destruct (proj1 (Hin o) (Hsub _ Ho)) as (q & Hq & Hc).
  destruct (es_candidate_some _ _ _ _ Hc) as (Hlo & _ & Hqual & Hinst & _ & Htr & Hsrc).
  exists preferred. rewrite Hlo. split_and!; try done. intros q' c Hq' Hc'.
  assert (Hcall : c ∈ all) by (apply Hin; eauto). destruct Hkind as [Hp|[Hp Hno]].
  - pose proof (proj1 (Hp o) Ho) as [_ Hop]. split; [done|]. intros [Hcp|]; [|done]. apply Hbest. by apply Hp.
  - split; [by intros ?%Hno|]. intros _. apply Hbest. by rewrite Hp.
Qed.
End selection.

(** A live ES quote at three in the morning of a trading day is chosen. *)
Definition es_quote (p : Provider) (at_ : Z) : Quote := {|
  instrument := future_instrument "ES" (Some "202603") None None "USD";
  provider := p; received_at := at_; quality := LIVE; q_provider_symbol := VNone;
  bid := Some (f_of_Z 6000); ask := Some (f_of_Z 6001); last := None; mark := None; close := None;
  bid_size := None; ask_size := None; last_size := None; volume := None; open_interest := None;
  structure_time := None; quote_time := Some at_; trade_time := None; last_update_at := None;
  source_latency_ms := None; market_data_type := VNone; greeks := None; sampling_mode := VNone;
  sampling_group := None; source_session := None; market_session := None;
  session_observations := []; error := VNone; raw := None |}.

Definition small_hours : Z := combine (ymd2ord 2026 3 3) (time_hm 8 0).
Definition two_feeds : LatestState := {|
  as_of := small_hours;
  ls_quotes := [es_quote SCHWAB small_hours; es_quote IBKR (small_hours - SECOND)];
  ls_provider_states := [] |}.
(** New York in winter. *)
Definition winter_clock : SessionClock := calendar_clock (λ u, u - 5 * HOUR).
Definition chosen : option LiveEsObservation :=
  match @select_live_es winter_clock two_feeds small_hours default_trend_settings with
  | Ok r => r | Err _ => None
  end.

Lemma live_es_choice_witness :
  match chosen with
  | Some o => lo_provider o = IBKR ∧ lo_quote o ∈ ls_quotes two_feeds
  | None => False
  end.
Proof.
  pose proof (@live_es_choice winter_clock two_feeds small_hours default_trend_settings chosen) as H.
  assert (E : @select_live_es winter_clock two_feeds small_hours default_trend_settings = Ok chosen)
    by (vm_compute; reflexivity).
  specialize (H E). destruct chosen as [o|] eqn:Ec; [|vm_compute in Ec; discriminate Ec].
  destruct H as (preferred & _ & Hin & _). split; [|exact Hin].
  assert (Hp : option_map lo_provider chosen = Some IBKR) by (vm_compute; reflexivity).
  rewrite Ec in Hp. injection Hp as Hp. exact Hp.
Defined.
