(* ===== verification/TrendSpec.v ===== *)
(** * The Globex trend machine, without its JSON

    The abstract specification of [GlobexTrend] and [TrendService]: a typed
    state with two ladders of milestones (continuation and advance), the step
    as a total function, and the relation [shows] that says when a stored dict
    shows a typed state. *)

From stdpp Require Import base numbers strings list.
From Stdlib Require Import ZArith Lia.
From S2P Require Import Prelude PyStr PyFloat PyTime PyDateTime PyDict PyVal GlobexTrend.

#[local] Open Scope Z_scope.

(** ** Data *)

Record sample := Sample { s_at : Z; s_source : Z; s_price : float }.

Inductive stage := NoStage | Entry | Management.
#[global] Instance stage_eq_dec : EqDecision stage.
Proof. solve_decision. Defined.

(** A transition carries the reason and the metrics that called for it. *)
Inductive event_kind :=
  | Transition (from to : GlobexTrendRegime) (reason : string) (metrics : pydict)
  | Continuation | Advance.

Record tevent := {
  e_kind : event_kind;
  e_id : string;
  e_at : Z;
  e_stage : stage;
  (** the advisory the event opens or manages *)
  e_advisory : option string;
  (** the accepted advisory a management event belongs to, or the one a
      transition invalidates *)
  e_about : option string;
}.

(** One ladder: the last milestone, the candidate with its observations, the
    events emitted and when the last one was. *)
Record ladder := Ladder {
  l_index : Z; l_cand : option Z; l_obs : Z; l_events : Z; l_last : option Z }.

Record tstate := {
  t_session : string;
  t_regime : GlobexTrendRegime;
  t_candidate : option (GlobexTrendRegime * Z);
  t_sequence : Z;
  t_extremes : option (float * float);
  t_samples : list sample;
  (** price and sequence number of the last transition *)
  t_leg : option (float * Z);
  t_pending : option tevent;
  t_cont : ladder;
  t_adv : ladder;
  (** the entry advisory that awaits delivery, and the delivered one *)
  t_offered : option string;
  t_accepted : option string;
  t_migrated : bool;
}.

Definition ladder0 : ladder := Ladder 0 None 0 0 None.
Definition fresh_state (session : string) : tstate :=
  {| t_session := session; t_regime := NEUTRAL; t_candidate := None; t_sequence := 0;
     t_extremes := None; t_samples := []; t_leg := None; t_pending := None; t_cont := ladder0;
     t_adv := ladder0; t_offered := None; t_accepted := None; t_migrated := false |}.

(** ** Ladders *)

Definition quiet (l : ladder) : ladder := Ladder (l_index l) None 0 (l_events l) (l_last l).
Definition skip_to (m : Z) (l : ladder) : ladder := Ladder m None 0 (l_events l) (l_last l).
Definition fired (m at_ : Z) (l : ladder) : ladder := Ladder m None 0 (l_events l + 1) (Some at_).
Definition observed (m n : Z) (l : ladder) : ladder :=
  Ladder (l_index l) (Some m) n (l_events l) (l_last l).

Section spec.
Context (policy : GlobexTrendSettings).

Definition resting (l : ladder) (at_ : Z) : bool :=
  match l_last l with
  | Some u => fltb (total_seconds (at_ - u)) (f_of_Z (continuation_cooldown_seconds policy))
  | None => false
  end.
Definition observations_of (m : Z) (l : ladder) : Z :=
  if bool_decide (l_cand l = Some m) then l_obs l + 1 else 1.

(** One look at the next milestone, the leg having come [far] enough: the
    ladder, and whether the milestone is confirmed. *)
Definition climb (l : ladder) (at_ : Z) (far allowed : bool) : ladder * bool :=
  let m := l_index l + 1 in
  if negb far || resting l at_ then (quiet l, false)
  else if negb allowed then (skip_to m l, false)
  else let n := observations_of m l in
       (observed m n l, continuation_confirmation_observations policy <=? n).

(** ** Metrics *)

Definition spec_horizon (samples : list sample) (at_ : Z) (price : float) (minutes : Z)
    : option float :=
  let target := at_ - minutes * MINUTE in
  match max_by (λ a b, s_at b <? s_at a) (filter (λ s, s_at s ≤ target) (removelast samples)) with
  | None => None
  | Some r =>
      let tolerance := fmax (f_of_Z 180) (fmul (fmul (f_of_Z minutes) (f_of_Z 60)) (f_lit 20 2)) in
      if fgtb (total_seconds (target - s_at r)) tolerance then None
      else Some (fsub price (s_price r))
  end.

Definition highest (price : float) (samples : list sample) : float :=
  default price (max_by fgtb (s_price <$> samples)).
Definition lowest (price : float) (samples : list sample) : float :=
  default price (min_by fltb (s_price <$> samples)).

Definition spec_extremes (t : tstate) (price : float) : float * float :=
  match t_extremes t with
  | Some (h, l) => (fmax h price, fmin l price)
  | None => (price, price)
  end.

(** The metrics of a sample at [at_], as the code lays them out. *)
Definition spec_metrics (samples : list sample) (extremes : float * float) (at_ : Z)
    (price : float) : pydict :=
  let horizon m := v_opt_float (spec_horizon samples at_ price m) in
  [("price", VFloat price); ("return_15m_points", horizon (short_horizon_minutes policy));
   ("return_60m_points", horizon (medium_horizon_minutes policy));
   ("return_180m_points", horizon (long_horizon_minutes policy));
   ("session_high", VFloat (highest price samples)); ("session_low", VFloat (lowest price samples));
   ("drawdown_from_high_points", VFloat (fsub price (highest price samples)));
   ("rebound_from_low_points", VFloat (fsub price (lowest price samples)));
   ("regime_high", VFloat extremes.1); ("regime_low", VFloat extremes.2);
   ("drawdown_from_regime_high_points", VFloat (fsub price extremes.1));
   ("rebound_from_regime_low_points", VFloat (fsub price extremes.2))].

(** ** Events *)

Definition advance_ev (t : tstate) (at_ : Z) (up : bool) (m : Z) : tevent :=
  let tail := t_session t +:+ ":" +:+ direction_value up +:+ ":m" +:+ str_of_Z m in
  {| e_kind := Advance; e_id := "globex-advance:" +:+ tail; e_at := at_; e_stage := Entry;
     e_advisory := Some ("gth-advance:" +:+ tail); e_about := None |}.

Definition advisory_name (t : tstate) (sequence : Z) : string :=
  "gth-advisory:" +:+ t_session t +:+ ":" +:+ str_of_Z sequence +:+ ":"
  +:+ direction_value (bool_decide (t_regime t = BULLISH)).

Definition continuation_ev (t : tstate) (at_ sequence m : Z) (s : stage) (about : option string)
    : tevent :=
  {| e_kind := Continuation;
     e_id := "globex-cont:" +:+ t_session t +:+ ":" +:+ str_of_Z sequence +:+ ":"
             +:+ direction_value (bool_decide (t_regime t = BULLISH)) +:+ ":m" +:+ str_of_Z m;
     e_at := at_; e_stage := s; e_advisory := Some (advisory_name t sequence); e_about := about |}.

Definition transition_ev (t : tstate) (target : GlobexTrendRegime) (reason : string)
    (metrics : pydict) (at_ : Z) : tevent :=
  {| e_kind := Transition (t_regime t) target reason metrics;
     e_id := "globex-trend:" +:+ t_session t +:+ ":" +:+ str_of_Z (t_sequence t + 1) +:+ ":"
             +:+ enum_value target;
     e_at := at_; e_stage := NoStage; e_advisory := None; e_about := t_accepted t |}.

(** ** The step *)

Definition with_cont (l : ladder) (t : tstate) : tstate :=
  {| t_session := t_session t; t_regime := t_regime t; t_candidate := t_candidate t;
     t_sequence := t_sequence t; t_extremes := t_extremes t; t_samples := t_samples t;
     t_leg := t_leg t; t_pending := t_pending t; t_cont := l; t_adv := t_adv t;
     t_offered := t_offered t; t_accepted := t_accepted t; t_migrated := t_migrated t |}.
Definition with_adv (l : ladder) (t : tstate) : tstate :=
  {| t_session := t_session t; t_regime := t_regime t; t_candidate := t_candidate t;
     t_sequence := t_sequence t; t_extremes := t_extremes t; t_samples := t_samples t;
     t_leg := t_leg t; t_pending := t_pending t; t_cont := t_cont t; t_adv := l;
     t_offered := t_offered t; t_accepted := t_accepted t; t_migrated := t_migrated t |}.
Definition with_candidate (c : option (GlobexTrendRegime * Z)) (t : tstate) : tstate :=
  {| t_session := t_session t; t_regime := t_regime t; t_candidate := c;
     t_sequence := t_sequence t; t_extremes := t_extremes t; t_samples := t_samples t;
     t_leg := t_leg t; t_pending := t_pending t; t_cont := t_cont t; t_adv := t_adv t;
     t_offered := t_offered t; t_accepted := t_accepted t; t_migrated := t_migrated t |}.
Definition with_pending (e : option tevent) (t : tstate) : tstate :=
  {| t_session := t_session t; t_regime := t_regime t; t_candidate := t_candidate t;
     t_sequence := t_sequence t; t_extremes := t_extremes t; t_samples := t_samples t;
     t_leg := t_leg t; t_pending := e; t_cont := t_cont t; t_adv := t_adv t;
     t_offered := t_offered t; t_accepted := t_accepted t; t_migrated := t_migrated t |}.
Definition with_advisories (offered accepted : option string) (t : tstate) : tstate :=
  {| t_session := t_session t; t_regime := t_regime t; t_candidate := t_candidate t;
     t_sequence := t_sequence t; t_extremes := t_extremes t; t_samples := t_samples t;
     t_leg := t_leg t; t_pending := t_pending t; t_cont := t_cont t; t_adv := t_adv t;
     t_offered := offered; t_accepted := accepted; t_migrated := t_migrated t |}.
Definition with_samples (samples : list sample) (extremes : float * float) (t : tstate) : tstate :=
  {| t_session := t_session t; t_regime := t_regime t; t_candidate := t_candidate t;
     t_sequence := t_sequence t; t_extremes := Some extremes; t_samples := samples;
     t_leg := t_leg t; t_pending := t_pending t; t_cont := t_cont t; t_adv := t_adv t;
     t_offered := t_offered t; t_accepted := t_accepted t; t_migrated := t_migrated t |}.

Definition spec_skipped (samples : list sample) (at_ source_at : Z) : bool :=
  match last samples with
  | None => false
  | Some s => (s_source s =? source_at)
              || fltb (total_seconds (at_ - s_at s)) (f_of_Z (sample_interval_seconds policy))
  end.

Definition spec_retained (samples : list sample) (at_ source_at : Z) (price : float) : list sample :=
  filter (λ s, at_ - retention_hours policy * HOUR ≤ s_at s)
    (samples ++ [Sample at_ source_at price]).

Definition spec_session_trend (t : tstate) (metrics : pydict) (at_ : Z) (price : float)
    (allowed : bool) : tstate * option tevent :=
  let rest := (with_adv (quiet (t_adv t)) t, None) in
  match num_of (vget "session_high" metrics), num_of (vget "session_low" metrics),
        num_of (vget "return_15m_points" metrics) with
  | Some high, Some low, Some r15 =>
      if continuation_session_budget policy <=? l_events (t_adv t) then rest else
      match session_grind policy metrics price high low r15 with
      | None => rest
      | Some (up, extension, _) =>
          let m := l_index (t_adv t) + 1 in
          let far := negb (fltb extension (fmul (continuation_step_points policy) (f_of_Z m))) in
          let '(l, confirmed) := climb (t_adv t) at_ far allowed in
          if confirmed then
            let e := advance_ev t at_ up m in
            (with_pending (Some e) (with_adv (fired m at_ (t_adv t)) t), Some e)
          else (with_adv l t, None)
      end
  | _, _, _ => rest
  end.

(** What milestone [m] of a leg emits. *)
Definition spec_continuation_ev (t : tstate) (at_ sequence m : Z) : option tevent :=
  if m =? 1 then Some (continuation_ev t at_ sequence m Entry None)
  else match t_accepted t with
       | None => None
       | Some a => Some (continuation_ev t at_ sequence m Management (Some a))
       end.

Definition spec_continuation (t : tstate) (at_ : Z) (price : float) (allowed : bool)
    : tstate * option tevent :=
  let rest := (with_cont (quiet (t_cont t)) t, None) in
  match bool_decide (t_regime t = NEUTRAL), t_leg t with
  | false, Some (anchor, sequence) =>
      if (continuation_session_budget policy <=? l_events (t_cont t))
         || (continuation_max_milestones_per_transition policy <=? l_index (t_cont t)) then rest
      else
        let m := l_index (t_cont t) + 1 in
        let extension := if bool_decide (t_regime t = BULLISH) then fsub price anchor
                         else fsub anchor price in
        let far := fgeb extension (fmul (continuation_step_points policy) (f_of_Z m)) in
        let '(l, confirmed) := climb (t_cont t) at_ far allowed in
        if confirmed then
          match spec_continuation_ev t at_ sequence m with
          | None => rest
          | Some e =>
              let offered := if m =? 1 then e_advisory e else t_offered t in
              (with_pending (Some e) (with_advisories offered (t_accepted t)
                                        (with_cont (fired m at_ (t_cont t)) t)), Some e)
          end
        else (with_cont l t, None)
  | _, _ => rest
  end.

(** The confirmed transition: the leg starts here and no advisory survives. *)
Definition spec_transition (t : tstate) (target : GlobexTrendRegime) (reason : string)
    (metrics : pydict) (at_ : Z) (price : float) : tstate * option tevent :=
  let e := transition_ev t target reason metrics at_ in
  let events := if t_migrated t then 0 else l_events (t_cont t) in
  ({| t_session := t_session t; t_regime := target; t_candidate := None;
      t_sequence := t_sequence t + 1; t_extremes := Some (price, price);
      t_samples := t_samples t; t_leg := Some (price, t_sequence t + 1); t_pending := Some e;
      t_cont := Ladder 0 None 0 events None; t_adv := t_adv t; t_offered := None;
      t_accepted := None; t_migrated := false |}, Some e).

Definition spec_candidate (t : tstate) (target : GlobexTrendRegime) (reason : string)
    (metrics : pydict) (at_ : Z) (price : float) : tstate * option tevent :=
  let t := with_cont (quiet (t_cont t)) t in
  let n := match t_candidate t with
           | Some (r, n) => if bool_decide (r = target) then n + 1 else 1
           | None => 1
           end in
  if n <? confirmation_observations policy then (with_candidate (Some (target, n)) t, None)
  else spec_transition t target reason metrics at_ price.

(** What a taken sample does. *)
Definition spec_take (t : tstate) (at_ source_at : Z) (price : float) (allowed : bool)
    : tstate * option tevent :=
  let samples := spec_retained (t_samples t) at_ source_at price in
  let extremes := spec_extremes t price in
  let metrics := spec_metrics samples extremes at_ price in
  let t := with_samples samples extremes t in
  match target_regime policy (t_regime t) metrics with
  | Some (target, reason) => spec_candidate t target reason metrics at_ price
  | None =>
      let t := with_candidate None t in
      if bool_decide (t_regime t = NEUTRAL) then spec_session_trend t metrics at_ price allowed
      else spec_continuation t at_ price allowed
  end.

(** The state an evaluation of [session] starts from. *)
Definition enter (t : option tstate) (session : string) : tstate :=
  match t with
  | Some t => if String.eqb (t_session t) session then t else fresh_state session
  | None => fresh_state session
  end.

Definition spec_advance (t : option tstate) (session : string) (at_ : Z) (price : float)
    (source_at : Z) (allowed : bool) : tstate * option tevent :=
  let t := enter t session in
  if spec_skipped (t_samples t) at_ source_at then (t, None)
  else spec_take t at_ source_at price allowed.

(** ** The service *)

Definition offers (t : tstate) (e : tevent) : bool :=
  bool_decide (e_stage e = Entry) && bool_decide (t_offered t = e_advisory e).
Definition spec_accept (t : tstate) (e : tevent) : tstate :=
  if offers t e then with_advisories None (e_advisory e) t else t.

Definition spec_reconcile (t : option tstate) (acknowledged : list string) : option tstate :=
  match t with
  | None => None
  | Some t =>
      match t_pending t with
      | Some e =>
          if bool_decide (e_stage e = Entry) && bool_decide (e_id e ∈ acknowledged) then
            let t := spec_accept t e in
            Some (if bool_decide (t_accepted t = e_advisory e) then with_pending None t else t)
          else Some t
      | None => Some t
      end
  end.

Definition spec_expire (t : tstate) (e : tevent) : tstate :=
  if offers t e then with_advisories None (t_accepted t) t else t.

Definition spec_pending (t : tstate) (now : Z) : tstate * option tevent :=
  match t_pending t with
  | None => (t, None)
  | Some e =>
      if fgtb (total_seconds (now - e_at e)) (f_of_Z (pending_event_ttl_seconds policy))
      then (with_pending None (spec_expire t e), None)
      else (t, Some e)
  end.

(** The evaluation: the new state, the event of the step, what to deliver. *)
Definition spec_evaluate (t : option tstate) (acknowledged : list string) (session : string)
    (now : Z) (price : float) (source_at : Z) (allowed : bool)
    : tstate * option tevent * option tevent :=
  let t := spec_reconcile t acknowledged in
  let '(t, e) := spec_advance t session now price source_at allowed in
  let '(t, p) := spec_pending t now in
  (t, e, p).

Definition spec_settle (t : tstate) (alert_id : string) : option tstate :=
  match t_pending t with
  | Some e => if String.eqb (e_id e) alert_id then Some (with_pending None (spec_accept t e)) else None
  | None => None
  end.

End spec.

(** ** When a dict shows a typed state *)

Definition v_opt_Z (o : option Z) : pyval := match o with Some z => VInt z | None => VNone end.
Definition time_ok (o : option Z) : Prop := match o with Some u => instant_in_range u = true | None => True end.
Definition id_ok (o : option string) : Prop := match o with Some s => s ≠ "" | None => True end.

Definition shows_row (row : pydict) (s : sample) : Prop :=
  vget "at" row = vtime (s_at s) ∧ instant_in_range (s_at s) = true
  ∧ vget "source_at" row = vtime (s_source s) ∧ instant_in_range (s_source s) = true
  ∧ vget "price" row = VFloat (s_price s).

Definition kind_value (k : event_kind) : string :=
  match k with Transition _ _ _ _ => "transition" | Continuation => "continuation" | Advance => "advance" end.
Definition stage_value (s : stage) : pyval :=
  match s with NoStage => VNone | Entry => VStr "entry_advisory"
             | Management => VStr "opportunity_management" end.
(** Where an event names the advisory it is about. *)
Definition about_key (k : event_kind) : string :=
  match k with Transition _ _ _ _ => "invalidated_advisory_id" | _ => "parent_advisory_id" end.

Definition shows_event (ev : pydict) (e : tevent) : Prop :=
  vget "event_type" ev = VStr (kind_value (e_kind e))
  ∧ vget "event_id" ev = VStr (e_id e) ∧ e_id e ≠ ""
  ∧ vget "at" ev = vtime (e_at e) ∧ instant_in_range (e_at e) = true
  ∧ vget "signal_stage" ev = stage_value (e_stage e)
  ∧ vget "advisory_id" ev = v_opt_str (e_advisory e) ∧ id_ok (e_advisory e)
  ∧ (e_stage e = Entry → is_Some (e_advisory e))
  ∧ vget (about_key (e_kind e)) ev = v_opt_str (e_about e)
  ∧ match e_kind e with
    | Transition from to reason metrics =>
        vget "from_regime" ev = VStr (enum_value from) ∧ vget "to_regime" ev = VStr (enum_value to)
        ∧ vget "reason" ev = VStr reason ∧ vget "metrics" ev = VDict metrics
    | _ => vget "execution_eligible" ev = VBool false ∧ vget "contract_id" ev = VNone
           ∧ vget "entry_limit" ev = VNone
    end
  ∧ vget "automatic_ordering" ev = VBool false.

Definition shows_opt (v : pyval) (o : option tevent) : Prop :=
  match o with
  | Some e => ∃ ev, v = VDict ev ∧ shows_event ev e
  | None => v = VNone
  end.

Definition shows_leg (v : pyval) (o : option (float * Z)) : Prop :=
  match o with
  | Some (price, sequence) =>
      ∃ ev, v = VDict ev ∧ vget "price" ev = VFloat price ∧ vget "sequence" ev = VInt sequence
  | None => v = VNone
  end.

(** The keys of one ladder: index, candidate, observations, events, last. *)
Definition shows_ladder (keys : string * string * string * string * string) (st : pydict)
    (l : ladder) : Prop :=
  let '(ki, kc, ko, ke, kl) := keys in
  vget ki st = VInt (l_index l) ∧ vget kc st = v_opt_Z (l_cand l) ∧ vget ko st = VInt (l_obs l)
  ∧ vget ke st = VInt (l_events l) ∧ vget kl st = v_opt_time (l_last l) ∧ time_ok (l_last l).

Definition CONT_KEYS : string * string * string * string * string :=
  ("continuation_milestone_index", "continuation_candidate_index",
   "continuation_candidate_observations", "continuation_events_in_context", "last_continuation_at").
Definition ADV_KEYS : string * string * string * string * string :=
  ("advance_milestone_index", "advance_candidate_index", "advance_candidate_observations",
   "advance_events_in_session", "last_advance_at").

Definition shows_candidate (st : pydict) (o : option (GlobexTrendRegime * Z)) : Prop :=
  match o with
  | Some (r, n) => vget "candidate_regime" st = VStr (enum_value r)
                   ∧ vget "candidate_observations" st = VInt n
  | None => vget "candidate_regime" st = VNone ∧ vget "candidate_observations" st = VInt 0
  end.

Definition shows_extremes (st : pydict) (o : option (float * float)) : Prop :=
  match o with
  | Some (h, l) => vget "regime_high" st = VFloat h ∧ vget "regime_low" st = VFloat l
  | None => vget "regime_high" st = VNone ∧ vget "regime_low" st = VNone
  end.

Definition shows_samples (v : pyval) (samples : list sample) : Prop :=
  ∃ rows, v = VList (VDict <$> rows) ∧ Forall2 shows_row rows samples.

Record shows (st : pydict) (t : tstate) : Prop := {
  sh_session : vget "session_id" st = VStr (t_session t);
  sh_regime : vget "regime" st = VStr (enum_value (t_regime t));
  sh_candidate : shows_candidate st (t_candidate t);
  sh_sequence : vget "transition_sequence" st = VInt (t_sequence t);
  sh_extremes : shows_extremes st (t_extremes t);
  sh_samples : shows_samples (vget "samples" st) (t_samples t);
  sh_leg : shows_leg (vget "last_transition" st) (t_leg t);
  sh_pending : shows_opt (vget "pending_event" st) (t_pending t);
  sh_cont : shows_ladder CONT_KEYS st (t_cont t);
  sh_adv : shows_ladder ADV_KEYS st (t_adv t);
  sh_offered : vget "pending_directional_advisory_id" st = v_opt_str (t_offered t) ∧ id_ok (t_offered t);
  sh_accepted : vget "active_directional_advisory_id" st = v_opt_str (t_accepted t)
                ∧ id_ok (t_accepted t);
  sh_migrated : vget "continuation_migration_budget_consumed" st = VBool (t_migrated t);
  (** every key the migration would add is there *)
  sh_keys : ∀ k, k ∈ ADDED_KEYS.*1 ∨ k = "continuation_milestone_index"
                 ∨ k = "continuation_migration_budget_consumed" → dhas k st = true;
}.

(** The state file: empty, or a state of this machine. *)
Definition shows_file (st : pydict) (t : option tstate) : Prop :=
  match t with Some t => shows st t | None => st = [] end.
