(* ===== verification/TrendFacts.v ===== *)
(** * The trend machine refines its specification

    On a dict that shows a typed state, every operation of [GlobexTrend] and
    [TrendService] returns normally, and what it stores and emits shows what
    [TrendSpec] computes. *)

From stdpp Require Import base numbers strings list.
From Stdlib Require Import ZArith Lia.
From S2P Require Import Prelude PyStr PyFloat PyTime PyDateTime PyDict PyVal GlobexTrend TrendService TrendSpec.

#[local] Open Scope Z_scope.

(** ** Counters and ids *)

Lemma counter_shows k st n : vget k st = VInt n → counter k st = Ok n.
Proof.
  intros H. unfold counter. rewrite H. unfold v_or. cbn. by destruct (Z.eqb_spec n 0) as [->|].
Qed.

Lemma opt_id_shows k st o : vget k st = v_opt_str o → id_ok o → opt_id k st = o.
Proof.
  intros H Hok. unfold opt_id, vstr_or. rewrite H. destruct o as [s|]; [|done]. cbn in *.
  unfold v_or. cbn. destruct (String.eqb_spec s ""); [done|]. cbn.
  by destruct (String.eqb_spec s "").
Qed.

(** ** Samples *)

Lemma row_time_shows row s : shows_row row s → row_time row = Ok (s_at s).
Proof.
  intros (Ha & Hr & _). unfold row_time. rewrite (vindex_some "at" _ row Ha) by done. cbn.
  rewrite fromisoformat_isoformat by done. cbn. by rewrite Z.sub_0_r.
Qed.

Lemma row_price_shows row s : shows_row row s → row_price row = Ok (s_price s).
Proof.
  intros (_ & _ & _ & _ & Hp). unfold row_price. by rewrite (vindex_some "price" _ row Hp).
Qed.

Lemma rows_filter (p : Z → bool) rows samples :
  Forall2 shows_row rows samples →
  ∃ rows', res_filter (λ row, t ← row_time row; Ok (p t)) rows = Ok rows'
           ∧ Forall2 shows_row rows' (filter (λ s, p (s_at s) = true) samples).
Proof.
  induction 1 as [|row s rows samples Hrow _ (rows' & Hf & Hs)]; [by exists []|]. cbn [res_filter].
  rewrite (row_time_shows _ _ Hrow). cbn [mbind res_bind]. rewrite Hf. cbn [mbind res_bind]. eexists. split; [done|].
  rewrite filter_cons. destruct (p (s_at s)) eqn:E.
  - rewrite decide_True by done. by constructor.
  - rewrite decide_False by congruence. done.
Qed.

Lemma rows_le target rows samples :
  Forall2 shows_row rows samples →
  ∃ rows', res_filter (λ row, t ← row_time row; Ok (t <=? target)) rows = Ok rows'
           ∧ Forall2 shows_row rows' (filter (λ s, s_at s ≤ target) samples).
Proof.
  intros H. destruct (rows_filter (λ t, t <=? target) _ _ H) as (rows' & Hf & Hs).
  exists rows'. split; [done|]. erewrite list_filter_iff; [done|]. intros s. by rewrite Z.leb_le.
Qed.

Lemma rows_ge cutoff rows samples :
  Forall2 shows_row rows samples →
  ∃ rows', res_filter (λ row, t ← row_time row; Ok (cutoff <=? t)) rows = Ok rows'
           ∧ Forall2 shows_row rows' (filter (λ s, cutoff ≤ s_at s) samples).
Proof.
  intros H. destruct (rows_filter (λ t, cutoff <=? t) _ _ H) as (rows' & Hf & Hs).
  exists rows'. split; [done|]. erewrite list_filter_iff; [done|]. intros s. by rewrite Z.leb_le.
Qed.

Lemma rows_prices rows samples :
  Forall2 shows_row rows samples → res_mapM row_price rows = Ok (s_price <$> samples).
Proof.
  induction 1 as [|row s rows samples Hrow _ IH]; [done|]. cbn.
  rewrite (row_price_shows _ _ Hrow). cbn. by rewrite IH.
Qed.

Definition timed (p : Z * pydict) (s : sample) : Prop := p.1 = s_at s ∧ shows_row p.2 s.

Lemma rows_timed rows samples :
  Forall2 shows_row rows samples →
  ∃ l, res_mapM (λ row, t ← row_time row; Ok (t, row)) rows = Ok l ∧ Forall2 timed l samples.
Proof.
  induction 1 as [|row s rows samples Hrow _ (l & Hl & Ht)]; [by exists []|]. cbn.
  rewrite (row_time_shows _ _ Hrow). cbn. rewrite Hl. cbn. eexists. split; [done|]. by constructor.
Qed.

Lemma removelast_Forall2 {A B} (R : A → B → Prop) l m :
  Forall2 R l m → Forall2 R (removelast l) (removelast m).
Proof. induction 1 as [|x y l m Hxy Hl IH]; [constructor|]. cbn. destruct Hl; [constructor|]. by constructor. Qed.

Lemma last_Forall2 {A B} (R : A → B → Prop) l m :
  Forall2 R l m → option_Forall2 R (last l) (last m).
Proof.
  induction 1 as [|x y l m Hxy Hl IH]; [constructor|]. destruct Hl; [by constructor|]. done.
Qed.

Lemma horizon_shows rows samples at_ price minutes :
  Forall2 shows_row rows samples → instant_in_range (at_ - minutes * MINUTE) = true →
  horizon_return rows at_ price minutes = Ok (spec_horizon samples at_ price minutes).
Proof.
  intros Hrows Hr. unfold horizon_return, spec_horizon, dt_add.
  rewrite Z.add_opp_r, Hr. cbn [mbind res_bind].
  destruct (rows_le (at_ - minutes * MINUTE) _ _ (removelast_Forall2 _ _ _ Hrows)) as (cands & -> & Hc).
  cbn [mbind res_bind]. destruct (rows_timed _ _ Hc) as (l & -> & Hl). cbn [mbind res_bind].
  assert (Hm : option_Forall2 timed (max_by (λ a b, b.1 <? a.1) l)
                 (max_by (λ a b, s_at b <? s_at a) (filter (λ s, s_at s ≤ at_ - minutes * MINUTE)
                                                     (removelast samples)))).
  { eapply max_by_Forall2; [|done]. by intros a b x y [-> _] [-> _]. }
  destruct Hm as [[t row] s [Ht Hrow]|]; [|done]. cbn in Ht, Hrow. subst t.
  destruct (fgtb _ _); [done|]. by rewrite (row_price_shows _ _ Hrow).
Qed.

Lemma samples_of_shows st samples :
  shows_samples (vget "samples" st) samples → Forall2 shows_row (samples_of st) samples.
Proof.
  intros (rows & Hv & Hs). unfold samples_of. rewrite Hv.
  assert (dict_rows (VDict <$> rows) = rows) as ->; [|done].
  clear. induction rows as [|row rows IH]; [done|]. cbn. by rewrite IH.
Qed.

(** ** Updates of a shown state *)

Ltac shown_unfold :=
  unfold shows_candidate, shows_extremes, shows_ladder, CONT_KEYS, ADV_KEYS in *;
  cbv beta match in *;
  cbn [t_session t_regime t_candidate t_sequence t_extremes t_samples t_leg t_pending t_cont t_adv
       t_offered t_accepted t_migrated with_cont with_adv with_candidate with_pending
       with_advisories with_samples quiet skip_to fired observed l_index l_cand l_obs l_events
       l_last v_opt_Z v_opt_time v_opt_str time_ok id_ok shows_opt] in *.

(** Show that an updated dict shows an updated state, given [H : shows st t]. *)
Ltac reshow H :=
  pose proof H as [? ? ? ? ? ? ? ? ? ? ? ? ? ?]; constructor;
  [shown_unfold; look; first [assumption|done|tauto|idtac] ..|intros ? ?; repeat apply dhas_dset; by eapply sh_keys].

Lemma shows_updated st t at_ : shows st t → shows (dset "updated_at" (vtime at_) st) t.
Proof. intros H. reshow H. Qed.

Lemma shows_reset_cont st t :
  shows st t → shows (reset_continuation_candidate st) (with_cont (quiet (t_cont t)) t).
Proof. intros H. unfold reset_continuation_candidate. reshow H. Qed.

Lemma shows_reset_adv st t :
  shows st t → shows (reset_advance_candidate st) (with_adv (quiet (t_adv t)) t).
Proof. intros H. unfold reset_advance_candidate. reshow H. Qed.

Lemma shows_stay st t :
  shows st t →
  shows (dset "candidate_observations" (VInt 0) (dset "candidate_regime" VNone st)) (with_candidate None t).
Proof. intros H. reshow H. Qed.

Lemma shows_with_candidate st t r n :
  shows st t →
  shows (dset "candidate_observations" (VInt n) (dset "candidate_regime" (VStr (enum_value r)) st))
        (with_candidate (Some (r, n)) t).
Proof. intros H. reshow H. Qed.

(** ** Recording a sample *)

Definition supported (policy : GlobexTrendSettings) (at_ : Z) : Prop :=
  instant_in_range at_ = true
  ∧ ∀ d, d ∈ [retention_hours policy * HOUR; short_horizon_minutes policy * MINUTE;
              medium_horizon_minutes policy * MINUTE; long_horizon_minutes policy * MINUTE] →
         instant_in_range (at_ - d) = true.

Section refine.
Context (policy : GlobexTrendSettings).

Lemma metrics_shows rows samples at_ src price :
  Forall2 shows_row rows samples → last samples = Some (Sample at_ src price) →
  supported policy at_ →
  compute_metrics policy rows =
  Ok [("price", VFloat price);
      ("return_15m_points", v_opt_float (spec_horizon samples at_ price (short_horizon_minutes policy)));
      ("return_60m_points", v_opt_float (spec_horizon samples at_ price (medium_horizon_minutes policy)));
      ("return_180m_points", v_opt_float (spec_horizon samples at_ price (long_horizon_minutes policy)));
      ("session_high", VFloat (highest price samples)); ("session_low", VFloat (lowest price samples));
      ("drawdown_from_high_points", VFloat (fsub price (highest price samples)));
      ("rebound_from_low_points", VFloat (fsub price (lowest price samples)))].
Proof.
  intros Hrows Hlast [Hat Hd]. unfold compute_metrics.
  pose proof (last_Forall2 _ _ _ Hrows) as Hl. rewrite Hlast in Hl. inversion Hl as [latest ? Hrow Hy|]. subst.
  rewrite (row_time_shows _ _ Hrow), (row_price_shows _ _ Hrow), (rows_prices _ _ Hrows). cbn [mbind res_bind s_at s_price].
  do 3 (rewrite (horizon_shows _ samples) by (done || apply Hd; rewrite !elem_of_cons; tauto); cbn [mbind res_bind]).
  unfold highest, lowest. destruct (s_price <$> samples) eqn:E; [|done].
  apply fmap_nil_inv in E as ->. done.
Qed.

Lemma record_sample_shows st t rows samples at_ src price :
  shows st t → Forall2 shows_row rows samples → last samples = Some (Sample at_ src price) →
  supported policy at_ →
  ∃ st', record_sample policy st rows at_ price
         = Ok (st', spec_metrics policy samples (spec_extremes t price) at_ price)
    ∧ vget "metrics" st' = VDict (spec_metrics policy samples (spec_extremes t price) at_ price)
    ∧ shows st' (with_samples samples (spec_extremes t price) t).
Proof.
  intros H Hrows Hlast Hs. unfold record_sample. rewrite (metrics_shows _ _ _ _ _ Hrows Hlast Hs).
  cbn [mbind res_bind]. unfold update_regime_extrema. look.
  pose proof (sh_extremes _ _ H) as He. unfold shows_extremes in He. unfold spec_extremes.
  destruct (t_extremes t) as [[h l]|]; destruct He as [-> ->]; cbn [num_of py_float of_option mbind res_bind];
    eexists; (split; [reflexivity|]); (split; [by look|]); reshow H; by exists rows.
Qed.

(** ** Milestones *)

Lemma cooling_shows k st o at_ :
  vget k st = v_opt_time o → time_ok o →
  cooling policy k st at_ =
  Ok match o with
     | Some u => fltb (total_seconds (at_ - u)) (f_of_Z (continuation_cooldown_seconds policy))
     | None => false
     end.
Proof.
  intros H Hok. unfold cooling. rewrite H. destruct o as [u|]; [|done]. cbn [v_opt_time vtime].
  rewrite fromisoformat_isoformat by done. cbn. by rewrite Z.sub_0_r.
Qed.

Lemma observe_shows ki ko st c n m :
  vget ki st = v_opt_Z c → vget ko st = VInt n →
  observe_milestone ki ko m st = Ok (if bool_decide (c = Some m) then n + 1 else 1).
Proof.
  intros Hi Ho. unfold observe_milestone. rewrite Hi, (counter_shows _ _ _ Ho).
  destruct c as [z|]; cbn; [|done].
  destruct (Z.eqb_spec (z * 1) (m * 1)), (bool_decide_reflect (Some z = Some m)); try done;
    exfalso; [assert (z = m) by lia; congruence | simplify_eq; lia].
Qed.

(** What a step stores and emits is what the specification computes. *)
Definition refines (r : res (pydict * option pydict)) (p : tstate * option tevent) : Prop :=
  ∃ st' ev, r = Ok (st', ev) ∧ shows st' p.1 ∧ option_Forall2 shows_event ev p.2.

Lemma refines_quiet st t : shows st t → refines (Ok (st, None)) (t, None).
Proof. intros H. exists st, None. split; [done|]. split; [done|constructor]. Qed.

Lemma advance_event_shows st t at_ src price provider up m anchor extension :
  instant_in_range at_ = true →
  shows_event (advance_event policy st (VStr (t_session t)) at_ src price provider up m anchor extension)
              (advance_ev t at_ up m).
Proof.
  intros Hr. unfold shows_event, advance_event, advance_ev. cbn [e_kind e_id e_at e_stage e_advisory
    e_about kind_value about_key stage_value v_opt_str id_ok].
  look_display. by split_and!.
Qed.

Lemma continuation_event_shows st t at_ src price provider sequence m anchor extension s action about :
  instant_in_range at_ = true → s ≠ NoStage →
  shows_event (continuation_event policy st (VStr (t_session t)) at_ src price provider (t_regime t)
                 (VInt sequence) m anchor extension (advisory_name t sequence)
                 (match s with Entry => "entry_advisory" | _ => "opportunity_management" end) action about)
              (continuation_ev t at_ sequence m s about).
Proof.
  intros Hr Hs. unfold shows_event, continuation_event, continuation_ev. cbn [e_kind e_id e_at e_stage
    e_advisory e_about kind_value about_key stage_value v_opt_str id_ok].
  look_display. by destruct s; [done|..]; split_and!.
Qed.

Lemma transition_event_shows t sequence target reason at_ src price provider metrics :
  instant_in_range at_ = true → sequence = t_sequence t + 1 →
  shows_event (transition_event (t_session t) sequence (t_regime t) target reason at_ src price provider
                 metrics (t_accepted t)) (transition_ev t target reason metrics at_).
Proof.
  intros Hr ->. unfold shows_event, transition_event, transition_ev. cbn [e_kind e_id e_at e_stage
    e_advisory e_about kind_value about_key stage_value v_opt_str id_ok].
  look_display. by split_and!.
Qed.

Lemma grind_refines st t at_ src price provider allowed up extension anchor :
  shows st t → instant_in_range at_ = true →
  let m := l_index (t_adv t) + 1 in
  let far := negb (fltb extension (fmul (continuation_step_points policy) (f_of_Z m))) in
  refines (advance_grind policy st at_ src price provider allowed up extension anchor)
          (let '(l, confirmed) := climb policy (t_adv t) at_ far allowed in
           if confirmed then
             let e := advance_ev t at_ up m in
             (with_pending (Some e) (with_adv (fired m at_ (t_adv t)) t), Some e)
           else (with_adv l t, None)).
Proof.
  intros H Hr. cbv zeta. unfold advance_grind, climb.
  pose proof (sh_adv _ _ H) as (Hi & Hc & Ho & He & Hl & Ht). cbn in Hi, Hc, Ho, He, Hl.
  rewrite (cooling_shows _ _ _ _ Hl Ht). cbn [mbind res_bind]. fold (resting policy (t_adv t) at_).
  destruct (resting policy (t_adv t) at_); [rewrite orb_true_r; apply refines_quiet; by apply shows_reset_adv|].
  rewrite (counter_shows _ _ _ Hi), orb_false_r, negb_involutive. cbn [mbind res_bind].
  destruct (fltb extension _); [apply refines_quiet; by apply shows_reset_adv|].
  destruct allowed; cbn [negb].
  2: { apply refines_quiet. unfold reset_advance_candidate. reshow H. }
  rewrite (observe_shows _ _ _ _ _ _ Hc Ho). cbn [mbind res_bind].
  fold (observations_of (l_index (t_adv t) + 1) (t_adv t)).
  set (m := l_index (t_adv t) + 1). set (n := observations_of m (t_adv t)).
  rewrite Z.ltb_antisym. destruct (_ <=? n); cbn [negb].
  2: { apply refines_quiet. reshow H. }
  rewrite (vindex_some _ (VStr (t_session t))) by (look; by rewrite ?(sh_session _ _ H)).
  cbn [mbind res_bind]. rewrite (counter_shows _ _ (l_events (t_adv t))) by (by look).
  cbn [mbind res_bind]. do 2 eexists. split; [reflexivity|]. split; [|constructor; by apply advance_event_shows].
  unfold reset_advance_candidate. cbn [fst]. reshow H; [eexists; split; [done|]; by apply advance_event_shows].
Qed.

Lemma session_trend_refines st t metrics at_ src price provider allowed :
  shows st t → vget "metrics" st = VDict metrics → instant_in_range at_ = true →
  refines (advance_session_trend policy st at_ src price provider allowed)
          (spec_session_trend policy t metrics at_ price allowed).
Proof.
  intros H Hm Hr. unfold advance_session_trend, spec_session_trend, metrics_of. rewrite Hm.
  change (default [] (dict_of (VDict metrics))) with metrics. cbv zeta.
  assert (Hq : refines (Ok (reset_advance_candidate st, None)) (with_adv (quiet (t_adv t)) t, None))
    by (apply refines_quiet; by apply shows_reset_adv).
  destruct (num_of (vget "session_high" metrics)) as [high|]; [|exact Hq].
  destruct (num_of (vget "session_low" metrics)) as [low|]; [|exact Hq].
  destruct (num_of (vget "return_15m_points" metrics)) as [r15|]; [|exact Hq].
  pose proof (sh_adv _ _ H) as (_ & _ & _ & He & _). rewrite (counter_shows _ _ _ He). cbn [mbind res_bind].
  destruct (_ <=? l_events _); [exact Hq|].
  destruct (session_grind policy metrics price high low r15) as [[[up extension] anchor]|]; [|exact Hq].
  by apply grind_refines.
Qed.
End refine.
