(* ===== verification/TrendRefine.v ===== *)
(** * The step and the service of the trend machine refine their specification *)

From stdpp Require Import base numbers strings list.
From Stdlib Require Import ZArith Lia.
From S2P Require Import Prelude PyStr PyFloat PyTime PyDateTime PyDict PyVal GlobexTrend TrendService TrendSpec TrendFacts.

#[local] Open Scope Z_scope.

Section step.
Context (policy : GlobexTrendSettings).

(** ** Continuation *)

Lemma advisory_name_nonempty t sequence : advisory_name t sequence ≠ "".
Proof. done. Qed.

(** The state that carries the candidate of milestone [m]. *)
Lemma emit_refines st t at_ src price provider sequence m n anchor extension :
  shows st (with_cont (observed m n (t_cont t)) t) → instant_in_range at_ = true →
  refines (emit_continuation policy st at_ src price provider (t_regime t) (VInt sequence) m anchor extension)
    match spec_continuation_ev t at_ sequence m with
    | None => (with_cont (quiet (t_cont t)) t, None)
    | Some e =>
        let offered := if m =? 1 then e_advisory e else t_offered t in
        (with_pending (Some e) (with_advisories offered (t_accepted t)
                                  (with_cont (fired m at_ (t_cont t)) t)), Some e)
    end.
Proof.
  intros H Hr. unfold emit_continuation, spec_continuation_ev, continuation_stage.
  rewrite (vindex_some _ _ _ (sh_session _ _ H)) by done. cbn [mbind res_bind py_str].
  pose proof (sh_accepted _ _ H) as [Ha Hok]. rewrite (opt_id_shows _ _ _ Ha Hok).
  pose proof (sh_cont _ _ H) as (_ & _ & _ & He & _). cbn in He.
  change (t_session (with_cont _ t)) with (t_session t). cbn [py_repr].
  fold (advisory_name t sequence). destruct (m =? 1).
  - rewrite (counter_shows _ _ (l_events (t_cont t))) by (look; done). cbn [mbind res_bind].
    do 2 eexists. split; [reflexivity|].
    pose proof (continuation_event_shows policy st t at_ src price provider sequence m anchor extension
                  Entry (if bool_decide (t_regime t = BULLISH) then "evaluate_call_setup"
                         else "evaluate_put_setup") None Hr ltac:(done)) as Hev.
    split; [|by constructor]. unfold reset_continuation_candidate. cbn [fst].
    change (e_advisory (continuation_ev t at_ sequence m Entry None)) with (Some (advisory_name t sequence)).
    pose proof (advisory_name_nonempty t sequence). reshow H. by eexists.
  - cbn [t_accepted with_cont] in Ha, Hok |- *. destruct (t_accepted t) as [a|].
    + rewrite (counter_shows _ _ (l_events (t_cont t))) by (look; done). cbn [mbind res_bind].
      do 2 eexists. split; [reflexivity|].
      pose proof (continuation_event_shows policy st t at_ src price provider sequence m anchor extension
                    Management "conditional_take_profit_or_raise_stop" (Some a) Hr ltac:(done)) as Hev.
      split; [|by constructor]. unfold reset_continuation_candidate. cbn [fst]. reshow H. by eexists.
    + apply refines_quiet. unfold reset_continuation_candidate. reshow H.
Qed.

Lemma leg_refines st t at_ src price provider allowed anchor sequence :
  shows st t → instant_in_range at_ = true →
  let m := l_index (t_cont t) + 1 in
  let extension := if bool_decide (t_regime t = BULLISH) then fsub price anchor else fsub anchor price in
  let far := fgeb extension (fmul (continuation_step_points policy) (f_of_Z m)) in
  refines (continue_leg policy st at_ src price provider (t_regime t) allowed (l_index (t_cont t)) anchor
             (VInt sequence))
    (let '(l, confirmed) := climb policy (t_cont t) at_ far allowed in
     if confirmed then
       match spec_continuation_ev t at_ sequence m with
       | None => (with_cont (quiet (t_cont t)) t, None)
       | Some e =>
           let offered := if m =? 1 then e_advisory e else t_offered t in
           (with_pending (Some e) (with_advisories offered (t_accepted t)
                                     (with_cont (fired m at_ (t_cont t)) t)), Some e)
       end
     else (with_cont l t, None)).
Proof.
  intros H Hr. cbv zeta. unfold continue_leg, climb.
  pose proof (sh_cont _ _ H) as (Hi & Hc & Ho & He & Hl & Ht). cbn in Hi, Hc, Ho, He, Hl.
  destruct (fgeb _ _); cbn [negb orb]; [|apply refines_quiet; by apply shows_reset_cont].
  rewrite (cooling_shows _ _ _ _ _ Hl Ht). cbn [mbind res_bind]. fold (resting policy (t_cont t) at_).
  destruct (resting policy (t_cont t) at_); [apply refines_quiet; by apply shows_reset_cont|].
  destruct allowed; cbn [negb].
  2: { apply refines_quiet. unfold reset_continuation_candidate. reshow H. }
  rewrite (observe_shows _ _ _ _ _ _ Hc Ho). cbn [mbind res_bind].
  fold (observations_of (l_index (t_cont t) + 1) (t_cont t)).
  set (m := l_index (t_cont t) + 1). set (n := observations_of m (t_cont t)).
  rewrite Z.ltb_antisym.
  assert (Hs : shows (dset "continuation_candidate_provider" (VStr provider)
                        (dset "continuation_candidate_observations" (VInt n)
                           (dset "continuation_candidate_index" (VInt m) st)))
                     (with_cont (observed m n (t_cont t)) t)) by (reshow H).
  destruct (_ <=? n); cbn [negb]; [by eapply emit_refines|by apply refines_quiet].
Qed.

Lemma continuation_refines st t at_ src price provider allowed :
  shows st t → instant_in_range at_ = true →
  refines (advance_continuation policy st at_ src price provider (t_regime t) allowed)
          (spec_continuation policy t at_ price allowed).
Proof.
  intros H Hr. unfold advance_continuation, spec_continuation.
  assert (Hq : refines (Ok (reset_continuation_candidate st, None)) (with_cont (quiet (t_cont t)) t, None))
    by (apply refines_quiet; by apply shows_reset_cont).
  destruct (bool_decide (t_regime t = NEUTRAL)); [exact Hq|].
  pose proof (sh_leg _ _ H) as Hleg. destruct (t_leg t) as [[anchor sequence]|]; cbn in Hleg.
  2: { rewrite Hleg. exact Hq. }
  destruct Hleg as (ev & -> & Hp & Hs).
  pose proof (sh_cont _ _ H) as (Hi & _ & _ & He & _). rewrite (counter_shows _ _ _ He). cbn [mbind res_bind].
  destruct (_ <=? l_events _); cbn [orb]; [exact Hq|].
  rewrite (counter_shows _ _ _ Hi). cbn [mbind res_bind].
  destruct (_ <=? l_index _); [exact Hq|].
  rewrite Hp, Hs. cbn [num_of int_of]. by apply leg_refines.
Qed.

(** ** Transitions *)

Lemma change_refines st t target reason at_ src price provider metrics :
  shows st t → instant_in_range at_ = true →
  refines (change_regime st (t_session t) (t_regime t) target reason at_ src price provider metrics)
          (spec_transition t target reason metrics at_ price).
Proof.
  intros H Hr. unfold change_regime, spec_transition.
  rewrite (counter_shows _ _ _ (sh_sequence _ _ H)). cbn [mbind res_bind].
  pose proof (sh_accepted _ _ H) as [Ha Hok]. rewrite (opt_id_shows _ _ _ Ha Hok).
  pose proof (transition_event_shows t (t_sequence t + 1) target reason at_ src price provider metrics
                Hr eq_refl) as Hev.
  pose proof (sh_migrated _ _ H) as Hmig.
  do 2 eexists. split; [reflexivity|]. split; [|by constructor].
  unfold reset_continuation_candidate. cbn [fst]. look. rewrite Hmig.
  destruct (t_migrated t); cbn [is_true]; reshow H; by eexists.
Qed.

Lemma candidate_refines st t target reason at_ src price provider metrics :
  shows st t → instant_in_range at_ = true →
  refines (observe_candidate policy st (t_session t) (t_regime t) target reason at_ src price provider metrics)
          (spec_candidate policy t target reason metrics at_ price).
Proof.
  intros H Hr. unfold observe_candidate, spec_candidate.
  pose proof (shows_reset_cont _ _ H) as Hq. set (st' := reset_continuation_candidate st) in *.
  set (t' := with_cont (quiet (t_cont t)) t) in *.
  assert (Hn : (if is_str (enum_value target) (vget "candidate_regime" st')
                then n ← counter "candidate_observations" st'; Ok (n + 1) else Ok 1)
               = Ok match t_candidate t' with
                    | Some (r, n) => if bool_decide (r = target) then n + 1 else 1
                    | None => 1
                    end).
  { pose proof (sh_candidate _ _ Hq) as Hc. unfold shows_candidate in Hc.
    destruct (t_candidate t') as [[r n]|]; destruct Hc as [-> Hc]; [|done].
    rewrite (counter_shows _ _ _ Hc). by destruct r, target. }
  rewrite Hn. cbn [mbind res_bind].
  destruct (_ <? confirmation_observations policy).
  - apply refines_quiet. by apply shows_with_candidate.
  - pose proof (shows_with_candidate _ _ target
                  (match t_candidate t' with
                   | Some (r, n) => if bool_decide (r = target) then n + 1 else 1
                   | None => 1
                   end) Hq) as Hw.
    exact (change_refines _ _ target reason at_ src price provider metrics Hw Hr).
Qed.

(** ** The step *)

Lemma target_regime_moves r metrics target reason :
  target_regime policy r metrics = Some (target, reason) → target ≠ r.
Proof.
  unfold target_regime. intros H.
  repeat split_if H; try done; injection H as <- _; bool_to_prop; congruence.
Qed.

Lemma shows_fresh session : shows (initial_trend_state session) (fresh_state session).
Proof.
  constructor; unfold initial_trend_state; try (by look_display); [exists []; by look_display|].
  intros k [Hk| [->| ->]]; [|done..]. revert k Hk. apply Forall_forall. by repeat constructor.
Qed.

Lemma migrate_shown st t : shows st t → migrate_continuation_state policy st = Ok st.
Proof.
  intros H. pose proof (sh_keys _ _ H) as Hk. unfold migrate_continuation_state.
  rewrite Hk by auto.
  assert (Hf : fold_left (λ st kv, dsetdefault kv.1 kv.2 st) ADDED_KEYS st = st).
  { assert (Ha : ∀ k, k ∈ ADDED_KEYS.*1 → dhas k st = true) by auto. revert Ha.
    generalize ADDED_KEYS as l. induction l as [|[k v] l IH]; intros Ha; [done|]. cbn in *.
    rewrite dsetdefault_has by (apply Ha; by left). apply IH. intros k' Hk'. apply Ha. by right. }
  rewrite Hf. pose proof (sh_cont _ _ H) as (_ & _ & _ & He & _). rewrite (counter_shows _ _ _ He).
  destruct (is_str _ _); cbn [mbind res_bind]; by rewrite dsetdefault_has by auto.
Qed.

Lemma enter_session t session : t_session (enter t session) = session.
Proof. unfold enter. destruct t as [t|]; [|done]. by destruct (String.eqb_spec (t_session t) session). Qed.

Lemma enter_shows st t session :
  shows_file st t →
  shows (if is_str session (vget "session_id" st) then st else initial_trend_state session)
        (enter t session).
Proof.
  intros H. unfold enter. destruct t as [t|]; cbn in H; [|subst st; apply shows_fresh].
  rewrite (sh_session _ _ H). cbn [is_str]. destruct (String.eqb _ _); [done|]. apply shows_fresh.
Qed.

Lemma skipped_shows rows samples at_ src :
  Forall2 shows_row rows samples → instant_in_range src = true →
  sample_skipped policy rows at_ src = Ok (spec_skipped policy samples at_ src).
Proof.
  intros Hrows Hr. unfold sample_skipped, spec_skipped.
  destruct (last_Forall2 _ _ _ Hrows) as [row s Hrow|]; [|done].
  rewrite (row_time_shows _ _ Hrow). destruct Hrow as (_ & _ & -> & Hs & _).
  cbn [py_str vtime]. rewrite isoformat_inj by done. by destruct (s_source s =? src).
Qed.

Lemma retained_shows rows samples at_ src price provider :
  Forall2 shows_row rows samples → supported policy at_ → instant_in_range src = true →
  ∃ rows', retained_samples policy rows at_ src price provider = Ok rows'
           ∧ Forall2 shows_row rows' (spec_retained policy samples at_ src price).
Proof.
  intros Hrows [Hat Hd] Hr. unfold retained_samples, spec_retained, dt_add.
  rewrite Z.add_opp_r, Hd by (by left). cbn [mbind res_bind]. apply rows_ge. apply Forall2_app; [done|].
  constructor; [|constructor]. unfold shows_row, new_sample. by look_display.
Qed.

Lemma retained_last samples at_ src price :
  0 ≤ retention_hours policy →
  last (spec_retained policy samples at_ src price) = Some (Sample at_ src price).
Proof.
  intros H. unfold spec_retained. rewrite filter_app, filter_cons_True by (cbn; unfold HOUR, MINUTE, SECOND; lia).
  by rewrite last_app.
Qed.

Lemma step_refines st t session at_ price provider src allowed :
  0 ≤ retention_hours policy → shows_file st t → supported policy at_ → instant_in_range src = true →
  refines (advance_trend_state policy st session at_ price provider src allowed)
          (spec_advance policy t session at_ price src allowed).
Proof.
  intros Hret Hf Hs Hr. unfold advance_trend_state, spec_advance.
  pose proof (enter_shows _ _ session Hf) as H. pose proof (enter_session t session) as Hid.
  set (current := if is_str _ _ then _ else _) in *. set (t0 := enter t session) in *. clearbody current t0.
  rewrite (migrate_shown _ _ H). cbn [mbind res_bind].
  pose proof (samples_of_shows _ _ (sh_samples _ _ H)) as Hrows.
  rewrite (skipped_shows _ _ at_ src Hrows Hr). cbn [mbind res_bind].
  destruct (spec_skipped policy _ at_ src); [apply refines_quiet; by apply shows_updated|].
  destruct (retained_shows _ _ at_ src price provider Hrows Hs Hr) as (rows & -> & Hrows').
  cbn [mbind res_bind]. unfold spec_take.
  set (samples := spec_retained policy (t_samples t0) at_ src price) in *.
  destruct (record_sample_shows policy _ _ _ _ _ _ _ H Hrows' (retained_last _ _ _ _ Hret) Hs)
    as (st1 & -> & Hm & H1). fold samples in Hm, H1 |- *. cbn [mbind res_bind].
  set (metrics := spec_metrics policy samples (spec_extremes t0 price) at_ price) in *.
  set (t1 := with_samples samples (spec_extremes t0 price) t0) in *.
  change (t_regime t0) with (t_regime t1). assert (Hid1 : t_session t1 = session) by done.
  clearbody t1 metrics. clear t0 samples H Hid Hrows Hrows' current rows Hf.
  assert (Hreg : enum_parse (vstr_or "regime" "neutral" st1) = Ok (t_regime t1)).
  { unfold vstr_or. rewrite (sh_regime _ _ H1). by destruct (t_regime t1). }
  rewrite Hreg. cbn [mbind res_bind]. destruct Hs as [Hat _].
  pose proof (shows_stay _ _ H1) as H2.
  destruct (target_regime policy (t_regime t1) metrics) as [[target reason]|] eqn:Et.
  - rewrite bool_decide_eq_false_2 by (by eapply target_regime_moves). rewrite <- Hid1. by apply candidate_refines.
  - change (t_regime (with_candidate None t1)) with (t_regime t1).
    destruct (bool_decide (t_regime t1 = NEUTRAL)).
    + apply session_trend_refines; [done|by look|done].
    + exact (continuation_refines _ _ at_ src price provider allowed H2 Hat).
Qed.

(** ** The service *)

Lemma stage_is_entry ev e :
  shows_event ev e → is_str "entry_advisory" (vget "signal_stage" ev) = bool_decide (e_stage e = Entry).
Proof. intros (_ & _ & _ & _ & _ & -> & _). by destruct (e_stage e). Qed.

Lemma event_id_shows ev e : shows_event ev e → vstr_or "event_id" "" ev = e_id e.
Proof.
  intros (_ & H & Hne & _). unfold vstr_or. rewrite H. unfold v_or. cbn.
  by destruct (String.eqb_spec (e_id e) "").
Qed.

Lemma advisory_id_shows ev e : shows_event ev e → advisory_id_of ev = default "" (e_advisory e).
Proof.
  intros (_ & _ & _ & _ & _ & _ & H & Hok & _). unfold advisory_id_of, vstr_or. rewrite H.
  destruct (e_advisory e) as [a|]; [|done]. unfold v_or. cbn in *. by destruct (String.eqb_spec a "").
Qed.

Lemma py_eq_opt_str (a b : option string) : py_eq (v_opt_str a) (v_opt_str b) = bool_decide (a = b).
Proof.
  destruct a as [a|], b as [b|]; cbn; try done.
  destruct (String.eqb_spec a b), (bool_decide_reflect (Some a = Some b)); congruence.
Qed.

Lemma names_shows st t ev e :
  shows st t → shows_event ev e → names_pending_advisory st ev = offers t e.
Proof.
  intros H He. unfold names_pending_advisory, offers. rewrite (stage_is_entry _ _ He), (advisory_id_shows _ _ He).
  pose proof (sh_offered _ _ H) as [-> _]. destruct He as (_ & _ & _ & _ & _ & _ & _ & Hok & Hent & _).
  destruct (bool_decide_reflect (e_stage e = Entry)) as [Hs|]; [|done]. destruct (Hent Hs) as [a Ha].
  rewrite Ha in Hok |- *. cbn in *. destruct (String.eqb_spec a ""); [done|]. cbn.
  destruct (t_offered t) as [o|]; cbn; [|done].
  destruct (String.eqb_spec o a), (bool_decide_reflect (Some o = Some a)); congruence.
Qed.

Lemma accept_shows st t ev e now :
  shows st t → shows_event ev e → shows (acknowledge_advisory_delivery st ev now) (spec_accept t e).
Proof.
  intros H He. unfold acknowledge_advisory_delivery, spec_accept. rewrite (names_shows _ _ _ _ H He).
  destruct (offers t e) eqn:Eo; [|done]. unfold offers in Eo. bool_to_prop. rewrite (advisory_id_shows _ _ He).
  destruct He as (_ & _ & _ & _ & _ & _ & _ & Hok & Hent & _). destruct (Hent ltac:(done)) as [a Ha].
  rewrite Ha in Hok |- *. cbn in Hok |- *. reshow H.
Qed.

Lemma expire_shows st t ev e :
  shows st t → shows_event ev e → shows (expire_pending_advisory st ev) (spec_expire t e).
Proof.
  intros H He. unfold expire_pending_advisory, spec_expire. rewrite (names_shows _ _ _ _ H He).
  destruct (offers t e); [|done]. reshow H.
Qed.

Lemma shows_no_pending st t : shows st t → shows (dset "pending_event" VNone st) (with_pending None t).
Proof. intros H. reshow H. Qed.

Lemma reconcile_refines st t acked now :
  shows_file st t →
  shows_file (reconcile_acknowledged_advisory st acked now).1 (spec_reconcile t acked).
Proof.
  intros H. unfold reconcile_acknowledged_advisory, spec_reconcile.
  destruct t as [t|]; cbn in H; [|by subst st]. pose proof (sh_pending _ _ H) as Hp.
  destruct (t_pending t) as [e|]; cbn in Hp; [|by rewrite Hp]. destruct Hp as (ev & -> & He).
  rewrite (stage_is_entry _ _ He), (event_id_shows _ _ He).
  destruct (_ && _); [|done].
  pose proof (accept_shows _ _ _ _ now H He) as Ha. pose proof (sh_accepted _ _ Ha) as [-> _].
  destruct He as (_ & _ & _ & _ & _ & _ & -> & _). rewrite py_eq_opt_str.
  destruct (bool_decide _); [by apply shows_no_pending|done].
Qed.

Lemma pending_refines st t now :
  shows st t → refines (pending_event st now policy) (spec_pending policy t now).
Proof.
  intros H. unfold pending_event, spec_pending. pose proof (sh_pending _ _ H) as Hp.
  destruct (t_pending t) as [e|]; cbn in Hp; [|rewrite Hp; by apply refines_quiet].
  destruct Hp as (ev & -> & He). pose proof He as (_ & _ & _ & Hat & Hr & _).
  rewrite (vindex_some _ _ _ Hat) by done. cbn [mbind res_bind py_str vtime].
  rewrite fromisoformat_isoformat by done. cbn [of_option dt_instant utc dt_off dt_wall mbind option_bind res_bind].
  rewrite Z.sub_0_r. destruct (fgtb _ _).
  - apply refines_quiet. apply shows_no_pending. by apply expire_shows.
  - exists st, (Some ev). split; [done|]. split; [done|by constructor].
Qed.

Lemma evaluate_refines st t acked session now o allowed :
  0 ≤ retention_hours policy → shows_file st t → supported policy now →
  instant_in_range (lo_source_at o) = true →
  ∃ st' ev p, evaluate policy st acked session now o allowed = Ok (st', ev, p) ∧
    let '(t', e, q) := spec_evaluate policy t acked session now (lo_price o) (lo_source_at o) allowed in
    shows st' t' ∧ option_Forall2 shows_event ev e ∧ option_Forall2 shows_event p q.
Proof.
  intros Hret Hf Hs Hr. unfold evaluate, spec_evaluate.
  pose proof (reconcile_refines _ _ acked now Hf) as H0.
  destruct (reconcile_acknowledged_advisory st acked now) as [st0 b]. cbn in H0.
  destruct (step_refines _ _ session now (lo_price o) (Marketdata.provider_value (lo_provider o)) _
              allowed Hret H0 Hs Hr) as (st1 & ev & -> & H1 & Hev).
  cbn [mbind res_bind]. destruct (spec_advance _ _ _ _ _ _ _) as [t1 e]. cbn in H1, Hev.
  destruct (pending_refines _ _ now H1) as (st2 & p & -> & H2 & Hp).
  cbn [mbind res_bind]. destruct (spec_pending policy t1 now) as [t2 q]. by do 3 eexists.
Qed.

Lemma settle_refines st t alert_id now :
  shows st t → option_Forall2 shows (settle_delivery st alert_id now) (spec_settle t alert_id).
Proof.
  intros H. unfold settle_delivery, spec_settle. pose proof (sh_pending _ _ H) as Hp.
  destruct (t_pending t) as [e|]; cbn in Hp; [|rewrite Hp; constructor]. destruct Hp as (ev & -> & He).
  assert (is_str alert_id (vget "event_id" ev) = String.eqb (e_id e) alert_id) as ->.
  { destruct He as (_ & -> & _). done. }
  destruct (String.eqb _ _); constructor. apply shows_no_pending. by apply accept_shows.
Qed.

End step.
