(* ===== verification/TrendProps.v ===== *)
(** * Properties of the trend service

    Runs of the service from an empty state file: evaluations and settled
    deliveries, in any order.  A run never fails, the events it emits respect
    their budgets, a change of regime is confirmed, and a management event
    always belongs to an entry advisory that was delivered in the same leg. *)

From stdpp Require Import base numbers strings list.
From Stdlib Require Import ZArith Lia.
From S2P Require Import Prelude PyStr PyFloat PyTime PyDateTime PyDict PyVal Marketdata GlobexTrend TrendService TrendSpec TrendFacts TrendRefine.

#[local] Open Scope Z_scope.

(** ** What a step may do *)

Definition confirming (t : tstate) (target : GlobexTrendRegime) : Z :=
  match t_candidate t with Some (r, n) => if bool_decide (r = target) then n + 1 else 1 | None => 1 end.

(** How the fields that matter between samples change from [t] to [t']. *)
Definition kept (t t' : tstate) : Prop :=
  t_session t' = t_session t ∧ t_regime t' = t_regime t ∧ t_leg t' = t_leg t
  ∧ t_accepted t' = t_accepted t ∧ t_migrated t' = t_migrated t.

Section steps.
Context (policy : GlobexTrendSettings).

Definition emits_nothing (t t' : tstate) : Prop :=
  kept t t' ∧ t_pending t' = t_pending t ∧ t_offered t' = t_offered t
  ∧ l_events (t_cont t') = l_events (t_cont t) ∧ l_events (t_adv t') = l_events (t_adv t)
  ∧ (l_index (t_cont t') = l_index (t_cont t)
     ∨ l_index (t_cont t) < continuation_max_milestones_per_transition policy
       ∧ l_index (t_cont t') = l_index (t_cont t) + 1)
  ∧ ∀ r n, t_candidate t' = Some (r, n) →
           t_candidate t = Some (r, n) ∨ n = confirming t r ∧ n < confirmation_observations policy.

Definition emits_advance (t t' : tstate) (e : tevent) : Prop :=
  kept t t' ∧ e_kind e = Advance ∧ e_stage e = Entry ∧ t_offered t' = t_offered t
  ∧ l_events (t_adv t) < continuation_session_budget policy
  ∧ l_events (t_adv t') = l_events (t_adv t) + 1 ∧ t_cont t' = t_cont t ∧ t_candidate t' = None.

Definition emits_continuation (t t' : tstate) (e : tevent) : Prop :=
  kept t t' ∧ e_kind e = Continuation
  ∧ (∃ price sequence, t_leg t = Some (price, sequence)
                       ∧ e_advisory e = Some (advisory_name t sequence))
  ∧ (e_stage e = Entry ∧ t_offered t' = e_advisory e
     ∨ e_stage e = Management ∧ is_Some (e_about e) ∧ e_about e = t_accepted t
       ∧ t_offered t' = t_offered t)
  ∧ l_events (t_cont t) < continuation_session_budget policy
  ∧ l_events (t_cont t') = l_events (t_cont t) + 1
  ∧ l_index (t_cont t) < continuation_max_milestones_per_transition policy
  ∧ l_index (t_cont t') = l_index (t_cont t) + 1
  ∧ t_adv t' = t_adv t ∧ t_candidate t' = None.

Definition emits_transition (t t' : tstate) (e : tevent) : Prop :=
  t_session t' = t_session t ∧ e_stage e = NoStage
  ∧ (∃ target reason metrics,
       e_kind e = Transition (t_regime t) target reason metrics
       ∧ target_regime policy (t_regime t) metrics = Some (target, reason)
       ∧ t_regime t' = target ∧ confirmation_observations policy ≤ confirming t target)
  ∧ t_offered t' = None ∧ t_accepted t' = None
  ∧ l_events (t_cont t') = (if t_migrated t then 0 else l_events (t_cont t))
  ∧ l_index (t_cont t') = 0 ∧ t_adv t' = t_adv t ∧ t_candidate t' = None ∧ t_migrated t' = false.

Definition outcome (t t' : tstate) (o : option tevent) : Prop :=
  match o with
  | None => emits_nothing t t'
  | Some e => t_pending t' = Some e
              ∧ (emits_advance t t' e ∨ emits_continuation t t' e ∨ emits_transition t t' e)
  end.

Lemma climb_cases l at_ far allowed :
  let '(l', confirmed) := climb policy l at_ far allowed in
  l_events l' = l_events l ∧ (l_index l' = l_index l ∨ l_index l' = l_index l + 1).
Proof. unfold climb. destruct (_ || _), allowed; cbn; auto. Qed.

Lemma session_trend_outcome t0 t metrics at_ price allowed :
  t = with_candidate None t0 →
  outcome t0 (spec_session_trend policy t metrics at_ price allowed).1
            (spec_session_trend policy t metrics at_ price allowed).2.
Proof.
  intros Ht. unfold spec_session_trend.
  assert (Hrest : ∀ l, l_events l = l_events (t_adv t) → outcome t0 (with_adv l t) None).
  { intros l Hl. subst t. unfold outcome, emits_nothing. split_and!; try done. by left. }
  destruct (num_of (vget "session_high" metrics)) as [high|]; [|by apply (Hrest (quiet (t_adv t)))].
  destruct (num_of (vget "session_low" metrics)) as [low|]; [|by apply (Hrest (quiet (t_adv t)))].
  destruct (num_of (vget "return_15m_points" metrics)) as [r15|]; [|by apply (Hrest (quiet (t_adv t)))].
  destruct (Z.leb_spec (continuation_session_budget policy) (l_events (t_adv t))) as [|Hb]; [by apply Hrest|].
  destruct (session_grind policy metrics price high low r15) as [[[up ext] anchor]|]; [|by apply (Hrest (quiet (t_adv t)))].
  set (far := negb _). pose proof (climb_cases (t_adv t) at_ far allowed) as Hc.
  destruct (climb policy (t_adv t) at_ far allowed) as [l [|]]; [|destruct Hc; by apply Hrest].
  cbn [fst snd outcome]. split; [done|]. left. unfold emits_advance. subst t. by split_and!.
Qed.

Lemma continuation_outcome t0 t at_ price allowed :
  t = with_candidate None t0 →
  outcome t0 (spec_continuation policy t at_ price allowed).1 (spec_continuation policy t at_ price allowed).2.
Proof.
  intros Ht. unfold spec_continuation.
  assert (Hrest : ∀ l, l_events l = l_events (t_cont t) →
            (l_index l = l_index (t_cont t) ∨ l_index (t_cont t) < continuation_max_milestones_per_transition policy
                                              ∧ l_index l = l_index (t_cont t) + 1) →
            outcome t0 (with_cont l t) None).
  { intros l Hl Hi. subst t. unfold outcome, emits_nothing. by split_and!. }
  destruct (bool_decide (t_regime t = NEUTRAL)); [apply Hrest; auto|].
  destruct (t_leg t) as [[anchor sequence]|] eqn:El; [|apply (Hrest (quiet (t_cont t))); auto].
  destruct (Z.leb_spec (continuation_session_budget policy) (l_events (t_cont t))) as [|Hb];
    [apply Hrest; auto|]. cbn [orb].
  destruct (Z.leb_spec (continuation_max_milestones_per_transition policy) (l_index (t_cont t))) as [|Hm];
    [apply Hrest; auto|].
  set (m := l_index (t_cont t) + 1). set (far := fgeb _ _).
  pose proof (climb_cases (t_cont t) at_ far allowed) as Hc.
  destruct (climb policy (t_cont t) at_ far allowed) as [l [|]]; [|destruct Hc; apply Hrest; naive_solver].
  unfold spec_continuation_ev. destruct (Z.eqb_spec m 1) as [Hm1|Hm1].
  - cbn [fst snd outcome]. split; [done|]. right. left. unfold emits_continuation.
    subst t. split_and!; try done; [by do 2 eexists|by left].
  - destruct (t_accepted t) as [a|] eqn:Ea; [|apply (Hrest (quiet (t_cont t))); auto].
    cbn [fst snd outcome]. split; [done|]. right. left. unfold emits_continuation.
    subst t. split_and!; try done; [by do 2 eexists|right; by split_and!].
Qed.

Lemma candidate_outcome t target reason metrics at_ price :
  target_regime policy (t_regime t) metrics = Some (target, reason) →
  outcome t (spec_candidate policy t target reason metrics at_ price).1
            (spec_candidate policy t target reason metrics at_ price).2.
Proof.
  intros Htarget. unfold spec_candidate.
  change (match t_candidate (with_cont (quiet (t_cont t)) t) with
          | Some (r, n) => if bool_decide (r = target) then n + 1 else 1 | None => 1 end)
    with (confirming t target).
  destruct (Z.ltb_spec (confirming t target) (confirmation_observations policy)) as [Hlt|Hge];
    cbn [fst snd outcome].
  - unfold emits_nothing. split_and!; try done; [by left|]. intros r n [= <- <-]. by right.
  - split; [done|]. right. right. unfold emits_transition. split_and!; try done.
    by exists target, reason, metrics.
Qed.

Lemma advance_outcome t session at_ price src allowed :
  outcome (enter t session) (spec_advance policy t session at_ price src allowed).1
          (spec_advance policy t session at_ price src allowed).2.
Proof.
  unfold spec_advance. set (t0 := enter t session).
  destruct (spec_skipped policy (t_samples t0) at_ src).
  { cbn. unfold emits_nothing. split_and!; try done; [by left|auto]. }
  unfold spec_take. set (samples := spec_retained _ _ _ _ _). set (extremes := spec_extremes t0 price).
  set (metrics := spec_metrics _ _ _ _ _). set (t1 := with_samples samples extremes t0).
  change (outcome t0) with (outcome t1). change (t_regime t0) with (t_regime t1).
  destruct (target_regime policy (t_regime t1) metrics) as [[target reason]|] eqn:Et;
    [by apply candidate_outcome|].
  destruct (bool_decide _); [by eapply session_trend_outcome|by eapply continuation_outcome].
Qed.
End steps.

(** ** Runs *)

(** What an action leaves behind: the session an evaluation named with the
    events the notifier had acknowledged and the event it emitted, or the
    event whose delivery was settled. *)
Inductive entry :=
  | Evaluated (session : string) (acknowledged : list string) (event : option pydict)
  | Settled (event_id : string).

(** A run of the service from an empty state file, the newest entry first. *)
Inductive service_run (policy : GlobexTrendSettings) : list entry → pydict → Prop :=
  | run_start : service_run policy [] []
  | run_evaluate h st acked session now o allowed st' ev p :
      service_run policy h st → supported policy now → instant_in_range (lo_source_at o) = true →
      evaluate policy st acked session now o allowed = Ok (st', ev, p) →
      service_run policy (Evaluated session acked ev :: h) st'
  | run_settle h st event_id now st' :
      service_run policy h st → settle_delivery st event_id now = Some st' →
      service_run policy (Settled event_id :: h) st'.

Definition emits (kind : string) (ev : option pydict) : bool :=
  match ev with Some d => is_str kind (vget "event_type" d) | None => false end.

(** The entries since the session was entered, and since the leg began. *)
Fixpoint session_part (session : string) (h : list entry) : list entry :=
  match h with
  | [] => []
  | Evaluated s acked ev :: h =>
      if String.eqb s session then Evaluated s acked ev :: session_part session h else []
  | Settled id :: h => Settled id :: session_part session h
  end.
Fixpoint leg_part (h : list entry) : list entry :=
  match h with
  | [] => []
  | Evaluated s acked ev :: h => if emits "transition" ev then [] else Evaluated s acked ev :: leg_part h
  | Settled id :: h => Settled id :: leg_part h
  end.
Definition leg (session : string) (h : list entry) : list entry := leg_part (session_part session h).

Definition entry_emits (kind : string) (e : entry) : bool :=
  match e with Evaluated _ _ ev => emits kind ev | Settled _ => false end.
(** How many events of a kind the entries emitted. *)
Definition emitted (kind : string) (h : list entry) : Z :=
  Z.of_nat (length (filter (λ e, entry_emits kind e = true) h)).

Definition acknowledges (e : entry) (id : string) : Prop :=
  match e with Evaluated _ acked _ => id ∈ acked | Settled id' => id' = id end.
(** The entry emitted the entry advisory [a] as event [id]. *)
Definition opens (e : entry) (id a : string) : Prop :=
  ∃ s acked ev, e = Evaluated s acked (Some ev) ∧ vget "event_id" ev = VStr id
                ∧ vget "signal_stage" ev = VStr "entry_advisory" ∧ vget "advisory_id" ev = VStr a.
(** Advisory [a] was opened, and its event acknowledged later. *)
Definition delivered (h : list entry) (a : string) : Prop :=
  ∃ newer ack older emit id,
    h = newer ++ ack :: older ∧ acknowledges ack id ∧ emit ∈ older ∧ opens emit id a.

Lemma emitted_cons kind e h :
  emitted kind (e :: h) = (if entry_emits kind e then 1 else 0) + emitted kind h.
Proof.
  unfold emitted. rewrite filter_cons. destruct (entry_emits kind e) eqn:E.
  - rewrite decide_True by done. cbn [length]. lia.
  - rewrite decide_False by congruence. lia.
Qed.

Lemma emitted_nonneg kind h : 0 ≤ emitted kind h.
Proof. unfold emitted. lia. Qed.

Lemma delivered_cons e h a : delivered h a → delivered (e :: h) a.
Proof. intros (newer & ack & older & emit & id & -> & ?). by exists (e :: newer), ack, older, emit, id. Qed.

Lemma leg_other session s acked ev h :
  s ≠ session → leg session (Evaluated s acked ev :: h) = [] ∧ session_part session (Evaluated s acked ev :: h) = [].
Proof. intros H. unfold leg. cbn. by apply String.eqb_neq in H as ->. Qed.

Lemma leg_same session acked ev h :
  session_part session (Evaluated session acked ev :: h) = Evaluated session acked ev :: session_part session h
  ∧ leg session (Evaluated session acked ev :: h)
    = if emits "transition" ev then [] else Evaluated session acked ev :: leg session h.
Proof. unfold leg. cbn. by rewrite String.eqb_refl. Qed.

(** ** The invariant *)

(** What the leg says about the advisories of a state. *)
Record advised (l : list entry) (t : tstate) : Prop := {
  adv_pending e a : t_pending t = Some e → e_stage e = Entry → e_advisory e = Some a →
                    ∃ r, r ∈ l ∧ opens r (e_id e) a;
  adv_name a : t_offered t = Some a ∨ t_accepted t = Some a →
               ∃ price sequence, t_leg t = Some (price, sequence) ∧ a = advisory_name t sequence;
  adv_accepted a : t_accepted t = Some a → delivered l a;
}.

(** What the session's and the leg's events say about the ladders. *)
Record counted (policy : GlobexTrendSettings) (s l : list entry) (t : tstate) : Prop := {
  cnt_migrated : t_migrated t = false;
  cnt_cont : l_events (t_cont t) = emitted "continuation" s;
  cnt_adv : l_events (t_adv t) = emitted "advance" s;
  cnt_cont_le : l_events (t_cont t) ≤ continuation_session_budget policy;
  cnt_adv_le : l_events (t_adv t) ≤ continuation_session_budget policy;
  cnt_leg : emitted "continuation" l ≤ l_index (t_cont t);
  cnt_index_le : l_index (t_cont t) ≤ continuation_max_milestones_per_transition policy;
  cnt_obs r n : t_candidate t = Some (r, n) → 1 ≤ n < confirmation_observations policy;
}.

Definition advised_file (h : list entry) (t : option tstate) : Prop :=
  match t with Some t => advised (leg (t_session t) h) t | None => h = [] end.
Definition counted_file (policy : GlobexTrendSettings) (h : list entry) (t : option tstate) : Prop :=
  match t with
  | Some t => counted policy (session_part (t_session t) h) (leg (t_session t) h) t
  | None => h = []
  end.

Lemma check_trend_positive policy :
  check_trend_settings policy = Ok policy →
  0 < retention_hours policy ∧ 0 < continuation_session_budget policy
  ∧ 0 < continuation_max_milestones_per_transition policy ∧ 0 < confirmation_observations policy.
Proof.
  unfold check_trend_settings. intros H. split_if H; [done|]. bool_to_prop. lia.
Qed.

Lemma shows_event_opens ev e a session acked :
  shows_event ev e → e_stage e = Entry → e_advisory e = Some a →
  opens (Evaluated session acked (Some ev)) (e_id e) a.
Proof.
  intros (_ & Hid & _ & _ & _ & Hs & Ha & _) Hst Had. exists session, acked, ev.
  rewrite Hst in Hs. rewrite Had in Ha. by split_and!.
Qed.

Lemma shows_event_emits ev e kind :
  option_Forall2 shows_event ev e →
  emits kind ev = match e with Some e => String.eqb (kind_value (e_kind e)) kind | None => false end.
Proof. intros [d e' H|]; [|done]. cbn. destruct H as (-> & _). done. Qed.

(** *** Advisories *)

Lemma advised_cons r l t : advised l t → advised (r :: l) t.
Proof.
  intros [Hp Hn Ha]. constructor; [|done|intros; by apply delivered_cons, Ha].
  intros e a H1 H2 H3. destruct (Hp e a H1 H2 H3) as (r' & Hr' & Ho). exists r'. split; [by right|done].
Qed.

Lemma advised_fresh l session : advised l (fresh_state session).
Proof. by constructor; cbn; [| intros a [|]|]. Qed.

Lemma advised_no_pending l t : advised l t → advised l (with_pending None t).
Proof. intros [Hp Hn Ha]. by constructor. Qed.

(** An acknowledged entry event makes its advisory the accepted one. *)
Lemma advised_accept r l t e :
  advised l t → t_pending t = Some e → acknowledges r (e_id e) → advised (r :: l) (spec_accept t e).
Proof.
  intros H Hpend Hack. unfold spec_accept, offers.
  destruct (bool_decide_reflect (e_stage e = Entry)) as [Hs|]; [|by apply advised_cons].
  destruct (bool_decide_reflect (t_offered t = e_advisory e)) as [Ho|]; [|by apply advised_cons]. cbn [andb].
  pose proof (advised_cons r _ _ H) as [Hp Hn Ha]. constructor; cbn; [done| |].
  - intros a [|Hea]; [done|]. apply Hn. left. by rewrite Ho.
  - intros a Hea. destruct (adv_pending _ _ H e a Hpend Hs Hea) as (r' & Hr' & Hop).
    by exists [], r, l, r', (e_id e).
Qed.

Lemma advised_reconcile r l t acked :
  advised l t → (∀ id, id ∈ acked → acknowledges r id) →
  ∃ t', spec_reconcile (Some t) acked = Some t' ∧ advised (r :: l) t' ∧ t_session t' = t_session t.
Proof.
  intros H Hack. unfold spec_reconcile. destruct (t_pending t) as [e|] eqn:Ep;
    [|eexists; split_and!; [done|by apply advised_cons|done]].
  destruct (bool_decide_reflect (e_stage e = Entry)); cbn [andb];
    [|eexists; split_and!; [done|by apply advised_cons|done]].
  destruct (bool_decide_reflect (e_id e ∈ acked)) as [Hid|]; cbn [andb];
    [|eexists; split_and!; [done|by apply advised_cons|done]].
  pose proof (advised_accept r l t e H Ep (Hack _ Hid)) as Ha.
  assert (t_session (spec_accept t e) = t_session t) by (unfold spec_accept; by destruct (offers t e)).
  destruct (bool_decide _); eexists; (split_and!; [done| |done]); [by apply advised_no_pending|done].
Qed.

Lemma advised_pending policy l t now :
  advised l t → advised l (spec_pending policy t now).1 ∧ t_session (spec_pending policy t now).1 = t_session t.
Proof.
  intros H. unfold spec_pending. destruct (t_pending t) as [e|]; [|done].
  destruct (fgtb _ _); [|done]. cbn [fst]. unfold spec_expire. destruct (offers t e); [|by split; [apply advised_no_pending|]].
  split; [|done]. destruct H as [Hp Hn Ha]. constructor; cbn; [done| |done]. intros a [|Hea]; [done|]. by apply Hn; right.
Qed.

(** A step: a transition clears the advisories, anything else keeps them. *)
Lemma advised_step policy session acked l t t' e ev :
  let r := Evaluated session acked ev in
  advised (r :: l) t → outcome policy t t' e → option_Forall2 shows_event ev e →
  advised (if emits "transition" ev then [] else r :: l) t'.
Proof.
  intros r H Ho Hev. rewrite (shows_event_emits _ _ _ Hev). destruct H as [Hp Hn Ha].
  destruct e as [e|]; cbn in Ho.
  2: { destruct Ho as ((Hs & Hr & Hl & Hacc & Hm) & Hpe & Hof & _).
       constructor; intros *; rewrite ?Hpe, ?Hof, ?Hacc, ?Hl; [apply Hp| |apply Ha].
       intros Hor. unfold advisory_name. rewrite Hs, Hr. by apply Hn. }
  inversion Hev as [d e' Hd|]. subst. destruct Ho as [Hpe Ho].
  assert (Hopen : ∀ e0 a, t_pending t' = Some e0 → e_stage e0 = Entry → e_advisory e0 = Some a →
                  ∃ r', r' ∈ (r :: l) ∧ opens r' (e_id e0) a).
  { intros e0 a He0 Hs Had. rewrite Hpe in He0. injection He0 as <-. exists r. split; [by left|].
    by eapply shows_event_opens. }
  destruct Ho as [((Hs & Hr & Hl & Hacc & Hm) & Hk & _ & Hof & _)
                 |[((Hs & Hr & Hl & Hacc & Hm) & Hk & (price & seq & Hleg & Had) & Hst & _)
                  |(Hs & Hst & (target & reason & metrics & Hk & _) & Hof & Hacc & _)]]; rewrite Hk; cbn [kind_value].
  - constructor; [done| |intros a; rewrite Hacc; apply Ha]. intros a. rewrite Hof, Hacc, Hl. intros Hor.
    unfold advisory_name. rewrite Hs, Hr. by apply Hn.
  - constructor; [done| |intros a; rewrite Hacc; apply Ha]. intros a. rewrite Hacc, Hl. intros Hor.
    unfold advisory_name. rewrite Hs, Hr. destruct Hst as [[_ Hof]|(_ & _ & _ & Hof)]; rewrite Hof in Hor; [|by apply Hn].
    destruct Hor as [Hor|Hor]; [|by apply Hn; right]. exists price, seq. split; [done|].
    rewrite Had in Hor. by injection Hor as <-.
  - constructor; intros *; rewrite ?Hpe, ?Hof, ?Hacc; [|by intros [|]|done].
    intros [= <-]. by rewrite Hst.
Qed.

Lemma advised_enter r l t session :
  advised (r :: l) t → t_session t = session → advised (r :: l) (enter (Some t) session).
Proof. intros H <-. cbn. by rewrite String.eqb_refl. Qed.

(** *** Counts *)

Lemma counted_same policy s l t t' :
  t_migrated t' = t_migrated t → t_cont t' = t_cont t → t_adv t' = t_adv t → t_candidate t' = t_candidate t →
  counted policy s l t → counted policy s l t'.
Proof. intros H1 H2 H3 H4 [? ? ? ? ? ? ? Ho]. constructor; rewrite ?H1, ?H2, ?H3, ?H4; assumption. Qed.

Lemma counted_accept policy s l t e : counted policy s l t → counted policy s l (spec_accept t e).
Proof. intros H. unfold spec_accept. destruct (offers t e); [|done]. by eapply counted_same, H. Qed.

Lemma counted_settled policy s l t id :
  counted policy s l t → counted policy (Settled id :: s) (Settled id :: l) t.
Proof. intros []. by constructor; rewrite ?emitted_cons. Qed.

Lemma counted_reconcile policy s l t t' acked :
  counted policy s l t → spec_reconcile (Some t) acked = Some t' → counted policy s l t'.
Proof.
  intros H E. unfold spec_reconcile in E. destruct (t_pending t) as [e|]; [|by injection E as <-].
  destruct (_ && _); [|by injection E as <-].
  pose proof (counted_accept _ _ _ _ e H) as Ha. destruct (bool_decide _); injection E as <-; [|done].
  by eapply counted_same, Ha.
Qed.

Lemma counted_pending policy s l t now : counted policy s l t → counted policy s l (spec_pending policy t now).1.
Proof.
  intros H. unfold spec_pending. destruct (t_pending t) as [e|]; [|done]. destruct (fgtb _ _); [|done].
  cbn [fst]. unfold spec_expire. destruct (offers t e); by eapply counted_same, H.
Qed.

Lemma counted_fresh policy s l session :
  check_trend_settings policy = Ok policy → (∀ kind, emitted kind s = 0) → (∀ kind, emitted kind l = 0) →
  counted policy s l (fresh_state session).
Proof.
  intros Hpol%check_trend_positive Hs Hl. constructor; cbn; rewrite ?Hs, ?Hl; try lia; try done.
Qed.

Lemma counted_step policy session acked s l t t' e ev :
  let r := Evaluated session acked ev in
  check_trend_settings policy = Ok policy →
  counted policy s l t → outcome policy t t' e → option_Forall2 shows_event ev e →
  counted policy (r :: s) (if emits "transition" ev then [] else r :: l) t'.
Proof.
  intros r Hpol%check_trend_positive H Ho Hev. destruct H as [Hm Hc Ha Hcl Hal Hlg Hil Hob].
  assert (Hemit : ∀ kind, entry_emits kind r
            = match e with Some e => String.eqb (kind_value (e_kind e)) kind | None => false end)
    by (intros; by apply shows_event_emits).
  rewrite (shows_event_emits _ _ _ Hev). destruct e as [e|]; cbn in Ho.
  - destruct Ho as [_ [((_ & _ & _ & _ & Hmig) & Hk & _ & _ & Hlt & He & Hco & Hcand)
                      |[((_ & _ & _ & _ & Hmig) & Hk & _ & _ & Hlt & He & Hmax & Hi & Had & Hcand)
                       |(_ & _ & (target & reason & metrics & Hk & _) & _ & _ & He & Hi & Had & Hcand & Hmig)]]];
      rewrite Hk in Hemit |- *; cbn [kind_value] in Hemit |- *;
      constructor; rewrite ?emitted_cons, ?Hemit; try (intros; congruence);
      rewrite ?Hco, ?He, ?Hi, ?Had, ?Hm; try (cbn; lia);
      key_eval; rewrite ?emitted_cons, ?Hemit; key_eval; try lia; done.
  - destruct Ho as ((_ & _ & _ & _ & Hmig) & _ & _ & He & Hea & Hi & Hcand).
    constructor; rewrite ?emitted_cons, ?Hemit, ?He, ?Hea; try congruence; try lia.
    intros rg n Hrn. destruct (Hcand rg n Hrn) as [|[Hn Hlt]]; [by eapply Hob|].
    split; [|done]. rewrite Hn. unfold confirming. destruct (t_candidate t) as [[r' n']|] eqn:Ec; [|lia].
    specialize (Hob _ _ eq_refl). destruct (bool_decide _); lia.
Qed.

(** *** Runs keep the invariant *)

Fixpoint newest (h : list entry) : option string :=
  match h with
  | [] => None
  | Evaluated s _ _ :: _ => Some s
  | Settled _ :: h => newest h
  end.

Lemma other_session_silent h session kind :
  newest h ≠ Some session → emitted kind (session_part session h) = 0 ∧ emitted kind (leg session h) = 0.
Proof.
  unfold leg. induction h as [|[s acked ev|id] h IH]; cbn; intros Hn; [done| |].
  - destruct (String.eqb_spec s session) as [->|]; [done|]. done.
  - cbn. rewrite !emitted_cons. cbn. by apply IH.
Qed.

Record run_inv (policy : GlobexTrendSettings) (h : list entry) (st : pydict) (t : option tstate)
    : Prop := {
  inv_shows : shows_file st t;
  inv_advised : advised_file h t;
  inv_counted : counted_file policy h t;
  inv_newest : newest h = t_session <$> t;
}.

(** The state the step of an evaluation works on. *)
Lemma inv_enter policy h st t session acked ev :
  check_trend_settings policy = Ok policy → run_inv policy h st t →
  let t1 := enter (spec_reconcile t acked) session in
  advised (Evaluated session acked ev :: leg session h) t1
  ∧ counted policy (session_part session h) (leg session h) t1.
Proof.
  intros Hpol [_ Hadv Hcnt Hnew]. cbv zeta. set (r := Evaluated session acked ev).
  assert (Hfresh : newest h ≠ Some session →
            advised (r :: leg session h) (fresh_state session)
            ∧ counted policy (session_part session h) (leg session h) (fresh_state session)).
  { intros Hn. split; [apply advised_fresh|].
    apply counted_fresh; [done|intros kind; by apply (other_session_silent h session kind)..]. }
  destruct t as [t|]; [|apply Hfresh; by rewrite Hnew]. cbn in Hadv, Hcnt, Hnew.
  destruct (advised_reconcile r (leg (t_session t) h) t acked Hadv ltac:(done)) as (t1 & E & Ha & Hs).
  pose proof (counted_reconcile _ _ _ _ _ _ Hcnt E) as Hc. rewrite E. cbn [enter].
  destruct (String.eqb_spec (t_session t1) session) as [Heq|Hne].
  - rewrite Hs in Heq. by subst session.
  - apply Hfresh. rewrite Hnew. rewrite Hs in Hne. congruence.
Qed.

Lemma run_inv_evaluate policy h st t acked session now o allowed :
  check_trend_settings policy = Ok policy → run_inv policy h st t →
  supported policy now → instant_in_range (lo_source_at o) = true →
  ∃ st' ev p t', evaluate policy st acked session now o allowed = Ok (st', ev, p)
    ∧ run_inv policy (Evaluated session acked ev :: h) st' (Some t')
    ∧ ∃ t2 e, spec_advance policy (spec_reconcile t acked) session now (lo_price o) (lo_source_at o) allowed
              = (t2, e) ∧ option_Forall2 shows_event ev e
      ∧ t' = (spec_pending policy t2 now).1
      ∧ option_Forall2 shows_event p (spec_pending policy t2 now).2.
Proof.
  intros Hpol Hinv Hs Hr. pose proof (check_trend_positive _ Hpol) as (Hret & _).
  destruct (evaluate_refines policy _ _ acked session now o allowed ltac:(lia) (inv_shows _ _ _ _ Hinv) Hs Hr)
    as (st' & ev & p & Hev & Hspec).
  exists st', ev, p. unfold spec_evaluate in Hspec.
  pose proof (advance_outcome policy (spec_reconcile t acked) session now (lo_price o) (lo_source_at o) allowed) as Ho.
  destruct (spec_advance _ _ _ _ _ _ _) as [t2 e] eqn:Es. cbn [fst snd] in Ho.
  destruct (inv_enter _ _ _ _ session acked ev Hpol Hinv) as [Ha Hc].
  pose proof (enter_session (spec_reconcile t acked) session) as Hid.
  destruct (spec_pending policy t2 now) as [t3 q] eqn:Ep. destruct Hspec as (Hsh & He & Hq).
  pose proof (advised_step _ _ _ _ _ _ _ _ Ha Ho He) as Ha2.
  pose proof (counted_step _ session acked _ _ _ _ _ _ Hpol Hc Ho He) as Hc2.
  assert (Hs2 : t_session t2 = session).
  { destruct e as [e|]; cbn in Ho; unfold emits_nothing, emits_advance, emits_continuation, emits_transition, kept in Ho;
      naive_solver congruence. }
  destruct (advised_pending policy _ _ now Ha2) as [Ha3 Hs3]. pose proof (counted_pending _ _ _ _ now Hc2) as Hc3.
  rewrite Ep in Ha3, Hc3, Hs3. cbn [fst] in Ha3, Hc3, Hs3. rewrite Hs2 in Hs3.
  exists t3. split; [done|]. split; [|by exists t2, e; rewrite Ep].
  destruct (leg_same session acked ev h) as [El1 El2].
  constructor; [done| | |by cbn; rewrite Hs3]; unfold advised_file, counted_file;
    rewrite Hs3, ?El1, El2; done.
Qed.

Lemma run_inv_settle policy h st t event_id now st' :
  run_inv policy h st t → settle_delivery st event_id now = Some st' →
  ∃ t', run_inv policy (Settled event_id :: h) st' (Some t').
Proof.
  intros [Hsh Hadv Hcnt Hnew] E. destruct t as [t|]; cbn in *; [|by subst st].
  pose proof (settle_refines _ _ event_id now Hsh) as Hr. rewrite E in Hr. unfold spec_settle in Hr.
  destruct (t_pending t) as [e|] eqn:Ep; [|by inversion Hr].
  destruct (String.eqb_spec (e_id e) event_id) as [Hid|]; [|by inversion Hr].
  inversion Hr as [? t' Hsh' E1 E2|]. subst.
  assert (Hs : t_session (spec_accept t e) = t_session t) by (unfold spec_accept; by destruct (offers t e)).
  eexists. constructor; [exact Hsh'| | |by cbn; rewrite Hs]; cbn; rewrite Hs; unfold leg; cbn.
  - apply advised_no_pending. by apply advised_accept.
  - apply (counted_same _ _ _ (spec_accept t e)); try done. by apply counted_settled, counted_accept.
Qed.

Lemma service_run_inv policy h st :
  check_trend_settings policy = Ok policy → service_run policy h st → ∃ t, run_inv policy h st t.
Proof.
  intros Hpol. induction 1 as [|h st acked session now o allowed st' ev p _ [t IH] Hs Hr E|h st id now st' _ [t IH] E].
  - by exists None.
  - destruct (run_inv_evaluate _ _ _ _ acked session now o allowed Hpol IH Hs Hr) as (? & ? & ? & t' & E' & Hi & _).
    rewrite E in E'. injection E' as <- <- <-. eauto.
  - destruct (run_inv_settle _ _ _ _ _ _ _ IH E) as [t' ?]. eauto.
Qed.

(** *** Runs by computation *)

Inductive move :=
  | MEvaluate (acked : list string) (session : string) (now : Z) (o : LiveEsObservation) (allowed : bool)
  | MSettle (event_id : string) (now : Z).

Definition supportedb (policy : GlobexTrendSettings) (at_ : Z) : bool :=
  instant_in_range at_
  && forallb (λ d, instant_in_range (at_ - d))
       [retention_hours policy * HOUR; short_horizon_minutes policy * MINUTE;
        medium_horizon_minutes policy * MINUTE; long_horizon_minutes policy * MINUTE].

Definition make_move (policy : GlobexTrendSettings) (h : list entry) (st : pydict) (m : move)
    : option (list entry * pydict) :=
  match m with
  | MEvaluate acked session now o allowed =>
      if supportedb policy now && instant_in_range (lo_source_at o) then
        match evaluate policy st acked session now o allowed with
        | Ok (st', ev, _) => Some (Evaluated session acked ev :: h, st')
        | Err _ => None
        end
      else None
  | MSettle id now => st' ← settle_delivery st id now; Some (Settled id :: h, st')
  end.

Fixpoint trend_run (policy : GlobexTrendSettings) (h : list entry) (st : pydict) (moves : list move)
    : option (list entry * pydict) :=
  match moves with
  | [] => Some (h, st)
  | m :: moves => '(h, st) ← make_move policy h st m; trend_run policy h st moves
  end.

Lemma supportedb_spec policy at_ : supportedb policy at_ = true → supported policy at_.
Proof.
  unfold supportedb. intros H. apply andb_true_iff in H as [H1 H2]. split; [done|].
  rewrite forallb_forall in H2. intros d Hd. apply H2. by apply list_elem_of_In.
Qed.

Lemma trend_run_spec policy h st moves h' st' :
  service_run policy h st → trend_run policy h st moves = Some (h', st') → service_run policy h' st'.
Proof.
  revert h st. induction moves as [|m moves IH]; intros h st Hrun E; cbn in E; [by injection E as <- <-|].
  destruct (make_move policy h st m) as [[h1 st1]|] eqn:Em; [|done]. cbn in E. apply (IH h1 st1); [|done].
  destruct m as [acked session now o allowed|id now]; cbn in Em.
  - destruct (supportedb policy now) eqn:Es; cbn in Em; [|done].
    destruct (instant_in_range (lo_source_at o)) eqn:Er; [|done].
    destruct (evaluate _ _ _ _ _ _ _) as [[[st2 ev] p]|] eqn:Ee; [|done]. injection Em as <- <-.
    eapply run_evaluate; [done|by apply supportedb_spec|done|exact Ee].
  - destruct (settle_delivery st id now) as [st2|] eqn:Es; [|done]. cbn in Em. injection Em as <- <-.
    by eapply run_settle.
Qed.

(** ** The theorems *)

Lemma reconcile_keeps t acked t' :
  spec_reconcile t acked = Some t' →
  ∃ t0, t = Some t0 ∧ t_session t' = t_session t0 ∧ t_regime t' = t_regime t0 ∧ t_candidate t' = t_candidate t0.
Proof.
  unfold spec_reconcile. destruct t as [t|]; [|done]. intros E. exists t. split; [done|].
  destruct (t_pending t) as [e|]; [|by injection E as <-]. destruct (_ && _); [|by injection E as <-].
  unfold spec_accept in E. destruct (offers t e), (bool_decide _); by injection E as <-.
Qed.

(** C37: Refinement and totality.  On the state file of any run of the service,
    an evaluation at a supported time never raises: the state it stores, the
    event it emits and the event it hands to the notifier are the ones of the
    typed specification. *)
Theorem trend_service_refines policy h st acked session now o allowed :
  check_trend_settings policy = Ok policy → service_run policy h st →
  supported policy now → instant_in_range (lo_source_at o) = true →
  ∃ t st' ev p, shows_file st t ∧ evaluate policy st acked session now o allowed = Ok (st', ev, p) ∧
    let '(t', e, q) := spec_evaluate policy t acked session now (lo_price o) (lo_source_at o) allowed in
    shows st' t' ∧ option_Forall2 shows_event ev e ∧ option_Forall2 shows_event p q.
Proof.
  intros Hpol Hrun Hs Hr. destruct (service_run_inv _ _ _ Hpol Hrun) as [t Hinv].
  pose proof (check_trend_positive _ Hpol) as (Hret & _).
  destruct (evaluate_refines policy st t acked session now o allowed ltac:(lia) (inv_shows _ _ _ _ Hinv) Hs Hr)
    as (st' & ev & p & ? & ?).
  exists t, st', ev, p. split; [apply Hinv|done].
Qed.

(** C7: A management event is only emitted for the entry advisory of the same
    leg: its parent is its own advisory, whose entry event was emitted earlier
    in this session and leg and acknowledged afterwards; and it authorises no
    execution. *)
Theorem trend_management_follows_delivery policy h st session acked ev :
  check_trend_settings policy = Ok policy →
  service_run policy (Evaluated session acked (Some ev) :: h) st →
  vget "signal_stage" ev = VStr "opportunity_management" →
  ∃ a, vget "parent_advisory_id" ev = VStr a ∧ vget "advisory_id" ev = VStr a
       ∧ delivered (Evaluated session acked (Some ev) :: leg session h) a
       ∧ vget "execution_eligible" ev = VBool false ∧ vget "automatic_ordering" ev = VBool false.
Proof.
  intros Hpol Hrun Hstage.
  inversion Hrun as [|h' st0 acked' session' now o allowed st' ev' p Hrun0 Hs Hr E|]; subst.
  destruct (service_run_inv _ _ _ Hpol Hrun0) as [t Hinv].
  destruct (run_inv_evaluate _ _ _ _ acked session now o allowed Hpol Hinv Hs Hr)
    as (? & ? & ? & t' & E' & _ & t2 & e & Es & He & _). rewrite E in E'. injection E' as <- <- <-.
  destruct (inv_enter _ _ _ _ session acked (Some ev) Hpol Hinv) as [[_ Hn Ha] _].
  pose proof (advance_outcome policy (spec_reconcile t acked) session now (lo_price o) (lo_source_at o) allowed) as Ho.
  rewrite Es in Ho. cbn [fst snd] in Ho. inversion He as [? e' Hev|]. subst.
  destruct Hev as (_ & _ & _ & _ & _ & Hst & Had & _ & _ & Hab & Hkind & Hauto).
  assert (Hm : e_stage e' = Management) by (rewrite Hstage in Hst; by destruct (e_stage e')).
  destruct Ho as [_ [(_ & _ & Hs' & _)|[(_ & Hk & (price & seq & Hleg & Hname) & Hst' & _)|(_ & Hs' & _)]]]; [congruence| |congruence].
  destruct Hst' as [[? _]|(_ & [a Hab'] & Hacc & _)]; [congruence|].
  rewrite Hk in Hab, Hkind. rewrite Hab' in Hacc, Hab. symmetry in Hacc.
  destruct (Hn a ltac:(by right)) as (price' & seq' & Hleg' & ->). rewrite Hleg in Hleg'. injection Hleg' as <- <-.
  rewrite Hname in Had. eexists. split_and!; [exact Hab|exact Had|by apply Ha|apply Hkind|done].
Qed.

(** Budgets.  Within a session a run emits at most the session budget of
    continuation events and of advance events, and within a leg at most the
    allowed milestones. *)
Theorem trend_event_budgets policy h st session :
  check_trend_settings policy = Ok policy → service_run policy h st →
  emitted "continuation" (session_part session h) ≤ continuation_session_budget policy
  ∧ emitted "advance" (session_part session h) ≤ continuation_session_budget policy
  ∧ emitted "continuation" (leg session h) ≤ continuation_max_milestones_per_transition policy.
Proof.
  intros Hpol Hrun. pose proof (check_trend_positive _ Hpol) as (_ & Hb & Hm & _).
  destruct (service_run_inv _ _ _ Hpol Hrun) as [t [_ _ Hc Hnew]].
  destruct (decide (newest h = Some session)) as [Hs|Hs].
  - rewrite Hs in Hnew. destruct t as [t|]; [|done]. injection Hnew as ->.
    destruct Hc as [_ Hco Had Hcl Hal Hlg Hil _]. lia.
  - rewrite !(proj1 (other_session_silent h session _ Hs)), (proj2 (other_session_silent h session _ Hs)). lia.
Qed.

(** C20: A change of regime is confirmed: the metrics recorded in the event call
    for the new regime, and unless one observation suffices the state before
    already held the new regime as its candidate, one observation short.  The
    change ends the accepted advisory. *)
Theorem trend_transition_confirmed policy h st acked session now o allowed st' ev p :
  check_trend_settings policy = Ok policy → service_run policy h st →
  supported policy now → instant_in_range (lo_source_at o) = true →
  evaluate policy st acked session now o allowed = Ok (st', Some ev, p) →
  vget "event_type" ev = VStr "transition" →
  ∃ from to reason metrics,
    vget "from_regime" ev = VStr (enum_value from) ∧ vget "to_regime" ev = VStr (enum_value to)
    ∧ vget "metrics" ev = VDict metrics ∧ target_regime policy from metrics = Some (to, reason)
    ∧ from ≠ to ∧ vget "regime" st' = VStr (enum_value to)
    ∧ vget "active_directional_advisory_id" st' = VNone
    ∧ (confirmation_observations policy = 1
       ∨ vget "session_id" st = VStr session ∧ vget "regime" st = VStr (enum_value from)
         ∧ vget "candidate_regime" st = VStr (enum_value to)
         ∧ vget "candidate_observations" st = VInt (confirmation_observations policy - 1)).
Proof.
  intros Hpol Hrun Hs Hr E Htype. destruct (service_run_inv _ _ _ Hpol Hrun) as [t Hinv].
  destruct (run_inv_evaluate _ _ _ _ acked session now o allowed Hpol Hinv Hs Hr)
    as (? & ? & ? & t' & E' & [Hsh _ _ _] & t2 & e & Es & He & Ht' & _). rewrite E in E'. injection E' as <- <- <-.
  destruct (inv_enter _ _ _ _ session acked (Some ev) Hpol Hinv) as [_ Hcnt].
  pose proof (advance_outcome policy (spec_reconcile t acked) session now (lo_price o) (lo_source_at o) allowed) as Ho.
  rewrite Es in Ho. cbn [fst snd] in Ho. inversion He as [? e' Hev|]. subst e ev.
  destruct Hev as (Hty & _ & _ & _ & _ & _ & _ & _ & _ & _ & Hkind & _). rewrite Htype in Hty.
  destruct Ho as [Hpend [(_ & Hk & _)|[(_ & Hk & _)|(_ & Hst & (to & reason & metrics & Hk & Htar & Hreg & Hconf) & _ & Hacc & _)]]];
    rewrite Hk in Hty, Hkind; [done..|]. destruct Hkind as (Hfrom & Hto & _ & Hmet).
  set (t1 := enter (spec_reconcile t acked) session) in *.
  assert (Hkeep : t_regime t' = t_regime t2 ∧ t_accepted t' = t_accepted t2).
  { subst t'. unfold spec_pending. rewrite Hpend. destruct (fgtb _ _); [|done].
    cbn. unfold spec_expire. by destruct (offers t2 e'). }
  destruct Hkeep as [Hk1 Hk2].
  exists (t_regime t1), to, reason, metrics. split_and!; try done.
  - intros E1. symmetry in E1. by eapply target_regime_moves in Htar.
  - rewrite (sh_regime _ _ Hsh). congruence.
  - destruct (sh_accepted _ _ Hsh) as [-> _]. by rewrite Hk2, Hacc.
  - unfold confirming in Hconf. destruct (t_candidate t1) as [[r n]|] eqn:Ec;
      [|left; pose proof (check_trend_positive _ Hpol) as (_ & _ & _ & ?); lia].
    pose proof (cnt_obs _ _ _ _ Hcnt _ _ Ec) as Hn.
    destruct (bool_decide_reflect (r = to)) as [->|]; [|left; lia]. right.
    unfold t1, enter in Ec |- *. destruct (spec_reconcile t acked) as [t3|] eqn:Er; [|done].
    destruct (String.eqb_spec (t_session t3) session) as [Hse|]; [|done].
    destruct (reconcile_keeps _ _ _ Er) as (t0 & -> & Hse0 & Hre0 & Hc0).
    pose proof (inv_shows _ _ _ _ Hinv) as H0. cbn in H0.
    pose proof (sh_candidate _ _ H0) as Hcand. unfold shows_candidate in Hcand. rewrite <- Hc0, Ec in Hcand.
    destruct Hcand as [Hc1 Hc2].
    rewrite (sh_session _ _ H0), (sh_regime _ _ H0), Hc1, Hc2. split_and!; [congruence..|done|f_equal; lia].
Qed.

(** ** Witnesses: a falling night

    ES falls through the short impulse, the entry advisory is emitted and
    delivered, and half an hour later the second milestone is managed. *)

Definition gth_es_quote : Quote := {|
  instrument := future_instrument "ES" (Some "202603") None None "USD";
  provider := IBKR; received_at := 0; quality := LIVE; q_provider_symbol := VNone;
  bid := None; ask := None; last := None; mark := None; close := None; bid_size := None;
  ask_size := None; last_size := None; volume := None; open_interest := None;
  structure_time := None; quote_time := None; trade_time := None; last_update_at := None;
  source_latency_ms := None; market_data_type := VNone; greeks := None; sampling_mode := VNone;
  sampling_group := None; source_session := None; market_session := None;
  session_observations := []; error := VNone; raw := None |}.

Definition night : Z := combine (ymd2ord 2026 3 3) (time_hm 3 0).
Definition tick (minute price : Z) (acked : list string) : move :=
  MEvaluate acked "2026-03-03:gth" (night + minute * MINUTE)
    {| lo_quote := gth_es_quote; lo_price := f_of_Z price; lo_price_kind := "last";
       lo_source_at := night + minute * MINUTE - SECOND |} true.

Definition falling_night : list move :=
  [tick 0 6000 []; tick 8 5998 []; tick 16 5996 []; tick 17 5995 []; tick 18 5984 []; tick 19 5984 [];
   MSettle "globex-cont:2026-03-03:gth:1:down:m1" (night + 20 * MINUTE);
   tick 60 5970 []; tick 61 5970 []].

Definition played (moves : list move) : list entry * pydict :=
  default ([], []) (trend_run default_trend_settings [] [] moves).

Lemma played_run moves :
  is_Some (trend_run default_trend_settings [] [] moves) →
  service_run default_trend_settings (played moves).1 (played moves).2.
Proof.
  unfold played. intros [[h st] E]. rewrite E. cbn. eapply trend_run_spec, E. constructor.
Qed.

Definition last_event (h : list entry) : pydict :=
  match h with Evaluated _ _ (Some ev) :: _ => ev | _ => [] end.

Lemma trend_management_follows_delivery_witness :
  ∃ a, vget "parent_advisory_id" (last_event (played falling_night).1) = VStr a
       ∧ delivered (Evaluated "2026-03-03:gth" [] (Some (last_event (played falling_night).1))
                    :: leg "2026-03-03:gth" (tail (played falling_night).1)) a.
Proof.
  destruct (trend_management_follows_delivery default_trend_settings (tail (played falling_night).1)
              (played falling_night).2 "2026-03-03:gth" [] (last_event (played falling_night).1))
    as (a & H1 & _ & H2 & _).
  - vm_compute. reflexivity.
  - assert (E : (played falling_night).1
                = Evaluated "2026-03-03:gth" [] (Some (last_event (played falling_night).1))
                  :: tail (played falling_night).1) by (vm_compute; reflexivity).
    rewrite <- E. apply played_run. vm_compute. eexists. reflexivity.
  - vm_compute. reflexivity.
  - exists a. split; [exact H1|exact H2].
Defined.

Lemma trend_service_refines_witness :
  ∃ t st' ev p, shows_file (played falling_night).2 t
    ∧ evaluate default_trend_settings (played falling_night).2 [] "2026-03-03:rth" (night + 11 * HOUR)
        {| lo_quote := gth_es_quote; lo_price := f_of_Z 5990; lo_price_kind := "mid";
           lo_source_at := night + 11 * HOUR |} false = Ok (st', ev, p).
Proof.
  destruct (trend_service_refines default_trend_settings (played falling_night).1 (played falling_night).2
              [] "2026-03-03:rth" (night + 11 * HOUR)
              {| lo_quote := gth_es_quote; lo_price := f_of_Z 5990; lo_price_kind := "mid";
                 lo_source_at := night + 11 * HOUR |} false) as (t & st' & ev & p & H1 & H2 & _).
  - vm_compute. reflexivity.
  - apply played_run. vm_compute. eexists. reflexivity.
  - apply supportedb_spec. vm_compute. reflexivity.
  - vm_compute. reflexivity.
  - exists t, st', ev, p. split; [exact H1|exact H2].
Defined.

(** Two continuation events fill the leg. *)
Lemma trend_event_budgets_witness :
  emitted "continuation" (leg "2026-03-03:gth" (played falling_night).1) = 2
  ∧ emitted "continuation" (leg "2026-03-03:gth" (played falling_night).1) ≤ 2.
Proof.
  destruct (trend_event_budgets default_trend_settings (played falling_night).1 (played falling_night).2
              "2026-03-03:gth") as (_ & _ & H).
  - vm_compute. reflexivity.
  - apply played_run. vm_compute. eexists. reflexivity.
  - split; [vm_compute; reflexivity|exact H].
Defined.

(** The third sample of the night is the second that calls for the bear. *)
Definition first_calls : list move := [tick 0 6000 []; tick 15 5996 []].
Definition second_call : LiveEsObservation :=
  {| lo_quote := gth_es_quote; lo_price := f_of_Z 5995; lo_price_kind := "last";
     lo_source_at := night + 16 * MINUTE |}.
Definition turned : res (pydict * option pydict * option pydict) :=
  evaluate default_trend_settings (played first_calls).2 [] "2026-03-03:gth" (night + 16 * MINUTE)
    second_call true.
Definition turned_event : pydict := match turned with Ok (_, Some ev, _) => ev | _ => [] end.
Definition turned_state : pydict := match turned with Ok (st, _, _) => st | Err _ => [] end.
Definition turned_pending : option pydict := match turned with Ok (_, _, p) => p | Err _ => None end.

Lemma trend_transition_confirmed_witness :
  ∃ from to reason metrics, vget "to_regime" turned_event = VStr (enum_value to)
    ∧ target_regime default_trend_settings from metrics = Some (to, reason).
Proof.
  destruct (trend_transition_confirmed default_trend_settings (played first_calls).1 (played first_calls).2 []
              "2026-03-03:gth" (night + 16 * MINUTE) second_call true turned_state turned_event turned_pending)
    as (from & to & reason & metrics & _ & H1 & _ & H2 & _).
  - vm_compute. reflexivity.
  - apply played_run. vm_compute. eexists. reflexivity.
  - apply supportedb_spec. vm_compute. reflexivity.
  - vm_compute. reflexivity.
  - vm_compute. reflexivity.
  - vm_compute. reflexivity.
  - exists from, to, reason, metrics. split; [exact H1|exact H2].
Defined.
