(* ===== verification/Continuity.v ===== *)
(** * IBKR data-plane continuity ([ibkr/continuity.py])

    The state that answers whether the data plane broke, for how long, and what
    proved its recovery, and the append-only ledger of its transitions.  One
    sample is a health projection (a dict) judged at a time; the file holds the
    state's dict form. *)

From stdpp Require Import base list strings.
From Stdlib Require Import ZArith Lia.
From S2P Require Import Prelude PyStr PyFloat PyTime PyDateTime PyDict PyVal.

#[local] Open Scope Z_scope.

Inductive continuity := HEALTHY | SUSPECT | GAP | RECOVERING.
#[global] Instance continuity_eq_dec : EqDecision continuity.
Proof. solve_decision. Defined.

Definition continuity_value (c : continuity) : string :=
  match c with HEALTHY => "healthy" | SUSPECT => "suspect" | GAP => "gap" | RECOVERING => "recovering" end.
#[global, refine] Instance continuity_enum : PyEnum continuity := {|
  enum_members := [HEALTHY; SUSPECT; GAP; RECOVERING];
  enum_value := continuity_value;
  enum_find := _;
|}.
Proof. by intros []. Defined.

Definition LANE : string := "ibkr_option".

Record ContinuityPolicy := {
  suspect_after_seconds : float;
  rearm_samples : Z;
  invalidate_after_gap_seconds : float;
}.
Definition default_continuity_policy : ContinuityPolicy :=
  {| suspect_after_seconds := f_of_Z 20; rearm_samples := 3;
     invalidate_after_gap_seconds := f_of_Z 60 |}.

Record ContinuityState := {
  cs_state : continuity;
  gap_start : option Z;
  last_good_at : option Z;
  healthy_samples : Z;
  updated_at : Z;
}.

#[global] Instance ContinuityState_eq_dec : EqDecision ContinuityState.
Proof. solve_decision. Defined.

(** ** The stored form *)

Definition opt_time (o : option Z) : pyval := match o with Some u => vtime u | None => VNone end.

Definition continuity_to_dict (s : ContinuityState) : pydict :=
  [("schema_version", VInt 1); ("lane", VStr LANE); ("state", VStr (enum_value (cs_state s)));
   ("gap_start", opt_time (gap_start s)); ("last_good_at", opt_time (last_good_at s));
   ("healthy_samples", VInt (healthy_samples s)); ("updated_at", vtime (updated_at s))].

(** [ContinuityState.from_dict]; [clock] is what [datetime.now] gives.  A
    payload without a known state is no state. *)
Definition continuity_from_dict (payload : pydict) (clock : Z) : res (option ContinuityState) :=
  match enum_of (vstr_or "state" "" payload) with
  | None => Ok None
  | Some state =>
      start ← iso_utc (vget "gap_start" payload);
      good ← iso_utc (vget "last_good_at" payload);
      samples ← py_int (v_or (vget "healthy_samples" payload) (VInt 0));
      updated ← iso_utc (vget "updated_at" payload);
      Ok (Some {| cs_state := state; gap_start := start; last_good_at := good;
                  healthy_samples := Z.max samples 0; updated_at := default clock updated |})
  end.

(** ** Judging one sample *)

(** [_number]: a boolean is not a number. *)
Definition number (v : pyval) : option float :=
  match v with VInt z => Some (f_of_Z z) | VFloat f => Some f | _ => None end.
(** [_number(health.get("max_age_seconds")) or 90.0]. *)
Definition max_age_of (health : pydict) : float :=
  match number (vget "max_age_seconds" health) with
  | Some f => if f_is_zero f then f_of_Z 90 else f
  | None => f_of_Z 90
  end.

Inductive health_kind := Unhealthy | Aging | Fine.
#[global] Instance health_kind_eq_dec : EqDecision health_kind.
Proof. solve_decision. Defined.

Definition health_status (health : pydict) (now : Z) (policy : ContinuityPolicy)
    : res (health_kind * string * option Z) :=
  observed ← iso_utc (vget "observed_at" health);
  match observed with
  | None => Ok (Unhealthy, "health_missing", None)
  | Some u =>
      let age := total_seconds (now - u) in
      let conflicts := number (vget "conflict_count" health) in
      let verdict kind reason := Ok (kind, reason, Some u) in
      if fltb age (f_of_Z 0) || fgtb age (max_age_of health) then verdict Unhealthy "health_stale"
      else if truthy (vget "policy_blocked" health) then verdict Unhealthy "policy_blocked"
      else if negb (String.eqb (vstr_or "circuit_state" "unknown" health) "closed")
      then verdict Unhealthy "circuit_open"
      else if match conflicts with Some f => negb (f_is_zero f) | None => false end
      then verdict Unhealthy "competing_session"
      else if negb (is_true (vget "connected" health)) then verdict Unhealthy "disconnected"
      else if negb (is_true (vget "data_plane_healthy" health))
      then verdict Unhealthy "data_plane_unhealthy"
      else if fgtb age (suspect_after_seconds policy) then verdict Aging "health_aging"
      else verdict Fine "ok"
  end.

(** ** The transition *)

(** [_event]. *)
Definition continuity_event (event : string) (state : ContinuityState) (now : Z) (reason : string)
    (start end_ : option Z) (recovery_samples : option Z) : pydict :=
  let seconds := s ← start; e ← end_; Some (f_round 3 (total_seconds (e - s))) in
  [("schema_version", VInt 1); ("lane", VStr LANE); ("event", VStr event);
   ("state", VStr (enum_value (cs_state state))); ("observed_at", vtime now); ("reason", VStr reason);
   ("gap_start", opt_time start); ("gap_end", opt_time end_);
   ("gap_seconds", v_opt_float seconds);
   ("recovery_samples", match recovery_samples with Some n => VInt n | None => VNone end)].

(** [x or y] on optional datetimes. *)
Definition or_time (x : option Z) (y : Z) : Z := default y x.

(** A healthy sample observed at [observed]. *)
Definition advance_healthy (prior : ContinuityState) (health : pydict) (reason : string)
    (observed now : Z) (policy : ContinuityPolicy) : ContinuityState * option pydict :=
  let gap_or_recovering := bool_decide (cs_state prior ∈ [GAP; RECOVERING]) in
  if match last_good_at prior with Some g => observed <=? g | None => false end then (prior, None)
  else if negb (bool_decide (cs_state prior = GAP))
          && match last_good_at prior with
             | Some g => fgtb (total_seconds (observed - g)) (max_age_of health)
             | None => false
             end then
    let state := {| cs_state := RECOVERING;
                    gap_start := match gap_start prior with Some s => Some s | None => last_good_at prior end;
                    last_good_at := Some observed; healthy_samples := 1; updated_at := now |} in
    (state, Some (continuity_event "gap_start" state now "health_observation_gap" (gap_start state) None (Some 1)))
  else if gap_or_recovering then
    let samples := healthy_samples prior + 1 in
    let start := or_time (gap_start prior) now in
    let done_ := rearm_samples policy <=? samples in
    let state := {| cs_state := if done_ then HEALTHY else RECOVERING;
                    gap_start := if samples <? rearm_samples policy then Some start else None;
                    last_good_at := Some observed; healthy_samples := samples; updated_at := now |} in
    (state, Some (continuity_event (if done_ then "gap_end" else "recovering") state now reason
                    (Some start) (if done_ then Some now else None) (Some samples)))
  else ({| cs_state := HEALTHY; gap_start := None; last_good_at := Some observed; healthy_samples := 0;
           updated_at := now |}, None).

(** [prior or ContinuityState(HEALTHY, None, None, 0, now)]. *)
Definition prior_or_new (prior : option ContinuityState) (now : Z) : ContinuityState :=
  default {| cs_state := HEALTHY; gap_start := None; last_good_at := None; healthy_samples := 0;
             updated_at := now |} prior.

(** The state and the event after a sample of the given kind. *)
Definition advance_kind (prior : ContinuityState) (health : pydict) (kind : health_kind)
    (reason : string) (observed : option Z) (now : Z) (policy : ContinuityPolicy)
    : ContinuityState * option pydict :=
  let lost start := {| cs_state := GAP; gap_start := start; last_good_at := last_good_at prior;
                       healthy_samples := 0; updated_at := now |} in
  match kind with
  | Fine => advance_healthy prior health reason (or_time observed now) now policy
  | Aging =>
      if bool_decide (cs_state prior ∈ [GAP; RECOVERING]) then (lost (gap_start prior), None)
      else ({| cs_state := SUSPECT; gap_start := gap_start prior; last_good_at := last_good_at prior;
               healthy_samples := 0; updated_at := now |}, None)
  | Unhealthy =>
      let start := or_time (gap_start prior) now in
      let state := lost (Some start) in
      if bool_decide (cs_state prior = GAP) then (state, None)
      else (state, Some (continuity_event "gap_start" state now reason (Some start) None None))
  end.

Definition advance_continuity (previous : pydict) (health : pydict) (now : pydt) (clock : Z)
    (policy : ContinuityPolicy) : res (ContinuityState * option pydict) :=
  let now := dt_as_utc now in
  if negb (instant_in_range now) then Err OverflowError else
  prior ← continuity_from_dict previous clock;
  '(kind, reason, observed) ← health_status health now policy;
  Ok (advance_kind (prior_or_new prior now) health kind reason observed now policy).

(** [record_continuity]: the state file and the ledger, before and after. *)
Definition record_continuity (file : pydict) (ledger : list pydict) (health : pydict) (now : pydt)
    (clock : Z) (policy : ContinuityPolicy) : res (pydict * list pydict) :=
  previous_state ← continuity_from_dict file clock;
  '(state, event) ← advance_continuity file health now clock policy;
  let file := if bool_decide (Some state = previous_state) then file else continuity_to_dict state in
  Ok (file, match event with Some e => ledger ++ [e] | None => ledger end).
