(* ===== verification/ContinuityProps.v ===== *)
(** * Properties of the continuity ledger *)

From stdpp Require Import base numbers strings list.
From Stdlib Require Import ZArith Lia.
From S2P Require Import Prelude PyStr PyFloat PyTime PyDateTime PyDict PyVal Continuity.

#[local] Open Scope Z_scope.

(** ** The stored form *)

Definition time_fits (o : option Z) : Prop :=
  match o with Some u => instant_in_range u = true | None => True end.

Record continuity_wf (s : ContinuityState) : Prop := {
  wf_gap : time_fits (gap_start s);
  wf_good : time_fits (last_good_at s);
  wf_updated : instant_in_range (updated_at s) = true;
  wf_samples : 0 ≤ healthy_samples s;
}.

Lemma iso_utc_opt_time o : time_fits o → iso_utc (opt_time o) = Ok o.
Proof. destruct o as [u|]; [|done]. apply iso_utc_vtime. Qed.

Lemma continuity_roundtrip s clock :
  continuity_wf s → continuity_from_dict (continuity_to_dict s) clock = Ok (Some s).
Proof.
  intros [Hg Hl Hu Hs]. unfold continuity_from_dict, continuity_to_dict.
  assert (Hstate : enum_of (vstr_or "state" ""
            (continuity_to_dict s)) = Some (cs_state s)) by (by destruct s as [[]]).
  unfold continuity_to_dict in Hstate. rewrite Hstate.
  change (vget "gap_start" _) with (opt_time (gap_start s)).
  change (vget "last_good_at" _) with (opt_time (last_good_at s)).
  change (vget "healthy_samples" _) with (VInt (healthy_samples s)).
  change (vget "updated_at" _) with (vtime (updated_at s)).
  rewrite !iso_utc_opt_time by done. cbn [mbind res_bind]. rewrite iso_utc_vtime by done.
  assert (py_int (v_or (VInt (healthy_samples s)) (VInt 0)) = Ok (healthy_samples s)) as ->.
  { unfold v_or. cbn. by destruct (Z.eqb_spec (healthy_samples s) 0) as [->|]. }
  cbn. rewrite Z.max_l by done. by destruct s.
Qed.

(** ** Runs *)

Section runs.
Context (policy : ContinuityPolicy).

(** A monitored run: the samples judged so far (newest first), the state file
    and the ledger. *)
Inductive monitored : list (pydict * Z) → pydict → list pydict → Prop :=
  | mon_start : monitored [] [] []
  | mon_step h file ledger health now clock file' ledger' :
      monitored h file ledger →
      record_continuity file ledger health now clock policy = Ok (file', ledger') →
      monitored ((health, dt_as_utc now) :: h) file' ledger'.

(** The source times of the fine samples since the last one that was not and the
    last silence, each newer than the one before; the newest first.  A silence is
    more than the sample's [max_age_seconds] between two of them. *)
Fixpoint recovery (h : list (pydict * Z)) : list Z :=
  match h with
  | [] => []
  | (health, now) :: h =>
      match health_status health now policy with
      | Ok (Fine, _, Some u) =>
          match recovery h with
          | v :: _ => if u <=? v then recovery h
                      else if fgtb (total_seconds (u - v)) (max_age_of health) then [u] else u :: recovery h
          | [] => [u]
          end
      | _ => []
      end
  end.

Definition broken (s : ContinuityState) : Prop := cs_state s ∈ [GAP; RECOVERING].
Definition records_start (ledger : list pydict) (u : Z) : Prop :=
  ∃ b, b ∈ ledger ∧ vget "event" b = VStr "gap_start" ∧ vget "gap_start" b = vtime u.

(** What the stored state says about the samples and the ledger. *)
Record continuity_inv (h : list (pydict * Z)) (ledger : list pydict) (s : ContinuityState) : Prop := {
  ci_wf : continuity_wf s;
  ci_samples : broken s → healthy_samples s ≤ Z.of_nat (length (recovery h));
  ci_none : cs_state s = GAP → healthy_samples s = 0;
  ci_recovering : cs_state s = RECOVERING → head (recovery h) = last_good_at s;
  ci_newest u : head (recovery h) = Some u → ∃ g, last_good_at s = Some g ∧ u ≤ g;
  ci_gap u : gap_start s = Some u → records_start ledger u;
  ci_broken : broken s → is_Some (gap_start s);
}.

Definition closes (ledger : list pydict) (e : pydict) : Prop :=
  vget "event" e = VStr "gap_end" →
  ∃ u, vget "gap_start" e = vtime u ∧ records_start ledger u ∧ vget "gap_end" e = vget "observed_at" e.

Lemma broken_states s : broken s ↔ cs_state s = GAP ∨ cs_state s = RECOVERING.
Proof. unfold broken. rewrite !elem_of_cons, elem_of_nil. tauto. Qed.

Lemma records_start_app l l' u : records_start l u → records_start (l ++ l') u.
Proof. intros (b & Hb & ?). exists b. rewrite elem_of_app. auto. Qed.

Lemma health_status_observed health now kind reason o u :
  health_status health now policy = Ok (kind, reason, o) → o = Some u → instant_in_range u = true.
Proof.
  unfold health_status. intros E ->. apply res_bind_ok in E as (observed & Ho & E).
  destruct observed as [v|]; [|done]. apply iso_utc_range in Ho.
  repeat split_if E; by injection E as _ _ <-.
Qed.

Lemma health_status_fine health now reason o :
  health_status health now policy = Ok (Fine, reason, o) → is_Some o.
Proof.
  unfold health_status. intros E. apply res_bind_ok in E as (observed & Ho & E).
  destruct observed as [v|]; [|done]. repeat split_if E; try done. injection E as _ <-. by eexists.
Qed.

(** A new fine sample extends the recovery by one, or begins it anew. *)
Lemma recovery_fine h health now reason u s :
  health_status health now policy = Ok (Fine, reason, Some u) →
  (∀ v, head (recovery h) = Some v → ∃ g, last_good_at s = Some g ∧ v ≤ g) →
  (∀ g, last_good_at s = Some g → g < u) →
  head (recovery ((health, now) :: h)) = Some u
  ∧ ∀ v, head (recovery h) = Some v → fgtb (total_seconds (u - v)) (max_age_of health) = false →
         recovery ((health, now) :: h) = u :: recovery h.
Proof.
  intros E Hnew Hg. cbn. rewrite E. destruct (recovery h) as [|v l]; [done|].
  destruct (Hnew v eq_refl) as (g & Hgood & Hv). specialize (Hg g Hgood).
  rewrite (proj2 (Z.leb_gt _ _)) by lia. split; [by destruct (fgtb _ _)|]. by intros w [= <-] ->.
Qed.

Lemma head_length {A} (l : list A) x : head l = Some x → 1 ≤ Z.of_nat (length l).
Proof. destruct l; [done|]. cbn. lia. Qed.

(** An old one does not move it past the last good sample. *)
Lemma recovery_stale h health now reason u g :
  health_status health now policy = Ok (Fine, reason, Some u) → u ≤ g →
  (∀ v, head (recovery h) = Some v → v ≤ g) →
  (∀ v, head (recovery ((health, now) :: h)) = Some v → v ≤ g)
  ∧ (head (recovery h) = Some g → recovery ((health, now) :: h) = recovery h).
Proof.
  intros E Hu Hold. cbn. rewrite E. destruct (recovery h) as [|v l]; cbn.
  - split; [|done]. by intros v [= <-].
  - split.
    + destruct (u <=? v); [|destruct (fgtb _ _)]; intros w [= <-]; [by apply Hold|done..].
    + intros [= ->]. by rewrite (proj2 (Z.leb_le _ _)).
Qed.

(** A state that is left as it is. *)
Lemma stale_inv h ledger s health now reason u g :
  continuity_inv h ledger s → health_status health now policy = Ok (Fine, reason, Some u) →
  last_good_at s = Some g → u ≤ g → continuity_inv ((health, now) :: h) ledger s.
Proof.
  intros [Hwf Hn Hz Hre Hnew Hgap Hbr] E Eg Hu.
  destruct (recovery_stale h health now reason u g E Hu) as [Hhd Hsame].
  { intros v Hv. destruct (Hnew v Hv) as (g' & E' & ?). congruence. }
  constructor; try done.
  - intros [Hs|Hs]%broken_states; [rewrite (Hz Hs); lia|].
    rewrite Hsame by (rewrite <- Eg; by apply Hre). apply Hn, broken_states. by right.
  - intros Hs. rewrite Hsame by (rewrite <- Eg; by apply Hre). by apply Hre.
  - intros v Hv. exists g. split; [done|]. by apply Hhd.
Qed.

(** A fine sample that is new leaves its time as the last good one. *)
Lemma fine_inv h ledger ledger' s s' health now reason u :
  continuity_inv h ledger s → health_status health now policy = Ok (Fine, reason, Some u) →
  (∀ g, last_good_at s = Some g → g < u) → instant_in_range now = true →
  last_good_at s' = Some u → updated_at s' = now → time_fits (gap_start s') → 0 ≤ healthy_samples s' →
  cs_state s' ≠ GAP →
  (broken s' → healthy_samples s' ≤ 1 ∨ cs_state s = RECOVERING ∧ healthy_samples s' ≤ healthy_samples s + 1
     ∧ ∀ g, last_good_at s = Some g → fgtb (total_seconds (u - g)) (max_age_of health) = false) →
  (∀ y, gap_start s' = Some y → records_start ledger' y) → (broken s' → is_Some (gap_start s')) →
  continuity_inv ((health, now) :: h) ledger' s'.
Proof.
  intros [[Hgf Hlf Huf Hsf] Hn Hz Hre Hnew Hgap Hbr] E Hlate Hr Hl Hup Hf Hpos Hng Hs Hg Hb.
  pose proof (health_status_observed _ _ _ _ _ u E eq_refl) as Hur.
  destruct (recovery_fine _ _ _ _ _ s E Hnew Hlate) as [Hhd Hmore]. pose proof (head_length _ _ Hhd) as Hlen.
  constructor; try done.
  - constructor; rewrite ?Hl, ?Hup; done.
  - intros Hbs. destruct (Hs Hbs) as [?|(Hrec & Hle & Hsil)]; [lia|].
    assert (broken s) as Hbro by (apply broken_states; by right). specialize (Hn Hbro). specialize (Hre Hrec).
    destruct (last_good_at s) as [g|].
    + rewrite (Hmore g Hre (Hsil g eq_refl)). cbn [length]. lia.
    + destruct (recovery h); [cbn in Hn; lia|done].
  - intros _. by rewrite Hhd.
  - intros v Hv. rewrite Hhd in Hv. injection Hv as <-. by exists u.
Qed.

(** What one step does to the invariant. *)
Lemma advance_healthy_inv h ledger s health now reason u :
  continuity_inv h ledger s → health_status health now policy = Ok (Fine, reason, Some u) →
  instant_in_range now = true →
  let '(s', e) := advance_healthy s health reason u now policy in
  let ledger' := match e with Some e => ledger ++ [e] | None => ledger end in
  continuity_inv ((health, now) :: h) ledger' s'
  ∧ (match e with Some e => closes ledger e | None => True end)
  ∧ (broken s → ¬ broken s' →
     rearm_samples policy ≤ Z.of_nat (length (recovery ((health, now) :: h)))
     ∧ ∃ ev, e = Some ev ∧ vget "event" ev = VStr "gap_end").
Proof.
  intros Hinv E Hr. pose proof Hinv as [[Hgf Hlf Huf Hsf] Hn Hz Hre Hnew Hgap Hbr]. unfold advance_healthy.
  destruct (match last_good_at s with Some g => u <=? g | None => false end) eqn:Eold.
  { destruct (last_good_at s) as [g|] eqn:Eg; [|done]. apply Z.leb_le in Eold.
    split_and!; [by eapply stale_inv|done|done]. }
  assert (Hlate : ∀ g, last_good_at s = Some g → g < u) by (intros g Hg; rewrite Hg in Eold; by apply Z.leb_gt in Eold).
  pose proof (fine_inv h ledger) as Hfine.
  destruct (negb _ && _) eqn:Esilent.
  - apply andb_true_iff in Esilent as [_ Hsil]. destruct (last_good_at s) as [g|] eqn:Eg; [|done].
    assert (Hst : ∃ x, (match gap_start s with Some x => Some x | None => Some g end) = Some x ∧ instant_in_range x = true)
      by (destruct (gap_start s) as [x|]; by eexists).
    destruct Hst as (x & Hx & Hxr). split_and!; [|done|].
    + eapply Hfine; try done; cbn; rewrite ?Hx; try done; [by rewrite Eg|by intros _; left|].
      intros y [= ->]. eexists. split; [apply elem_of_app; right; by left|done].
    + intros _ Hnb. exfalso. apply Hnb. apply broken_states. by right.
  - destruct (bool_decide_reflect (cs_state s ∈ [GAP; RECOVERING])) as [Hb|Hb].
    + destruct (Hbr Hb) as [x Hx]. rewrite Hx. cbn [or_time default id].
      assert (Hxr : instant_in_range x = true) by (rewrite Hx in Hgf; exact Hgf).
      pose proof (Hgap x Hx) as Hstart.
      assert (Hcount : healthy_samples s + 1 ≤ 1 ∨ cs_state s = RECOVERING ∧ healthy_samples s + 1 ≤ healthy_samples s + 1
                ∧ ∀ g, last_good_at s = Some g → fgtb (total_seconds (u - g)) (max_age_of health) = false).
      { apply broken_states in Hb as [Hb|Hb]; [left; by rewrite Hz|]. right. split_and!; [done|done|].
        intros g Hg. rewrite Hb, Hg in Esilent. done. }
      destruct (Z.leb_spec (rearm_samples policy) (healthy_samples s + 1)) as [Hle|Hlt];
        [rewrite (proj2 (Z.ltb_ge _ _)) by done|rewrite (proj2 (Z.ltb_lt _ _)) by done].
      * split_and!.
        -- eapply Hfine; try done; cbn; first [lia|by intros [|]%broken_states].
        -- intros _. exists x. by split_and!.
        -- intros _ _. split; [|by eexists].
           destruct (recovery_fine _ _ _ _ _ s E Hnew Hlate) as [Hhd Hmore]. pose proof (head_length _ _ Hhd) as Hlen.
           destruct Hcount as [?|(Hrec & _ & Hsil)]; [lia|]. specialize (Hn Hb). specialize (Hre Hrec).
           destruct (last_good_at s) as [g|]; [rewrite (Hmore g Hre (Hsil g eq_refl)); cbn [length]; lia|].
           destruct (recovery h); [cbn in Hn; lia|done].
      * split_and!; [|done|].
        -- eapply Hfine; try done; cbn; [lia|].
           intros y [= <-]. by apply records_start_app.
        -- intros _ Hnb. exfalso. apply Hnb. apply broken_states. by right.
    + split_and!; [|done|done]. eapply Hfine; try done; cbn; first [lia|by intros [|]%broken_states].
Qed.

(** A sample that is not fine breaks the recovery. *)
Lemma advance_lost_inv h ledger s health now kind reason o :
  continuity_inv h ledger s → health_status health now policy = Ok (kind, reason, o) → kind ≠ Fine →
  instant_in_range now = true →
  let '(s', e) := advance_kind s health kind reason o now policy in
  let ledger' := match e with Some e => ledger ++ [e] | None => ledger end in
  continuity_inv ((health, now) :: h) ledger' s'
  ∧ (match e with Some e => closes ledger e | None => True end) ∧ (broken s → broken s').
Proof.
  intros [[Hgf Hlf Huf Hsf] Hn Hz Hre Hnew Hgap Hbr] E Hk Hr.
  assert (Hrec : recovery ((health, now) :: h) = []) by (cbn; rewrite E; by destruct kind).
  destruct kind; [| |done]; cbn [advance_kind].
  - assert (Hx : instant_in_range (or_time (gap_start s) now) = true)
      by (unfold or_time; by destruct (gap_start s)).
    destruct (bool_decide_reflect (cs_state s = GAP)) as [Hg|Hg].
    + split_and!; [|done|by intros; apply broken_states; left].
      constructor; cbn [gap_start last_good_at healthy_samples updated_at cs_state]; rewrite ?Hrec;
        [by constructor|done|done|done|done| |by eexists].
      intros u [= <-]. destruct (Hbr ltac:(apply broken_states; auto)) as [x Hxs]. rewrite Hxs. by apply Hgap.
    + split_and!; [|done|by intros; apply broken_states; left].
      constructor; cbn [gap_start last_good_at healthy_samples updated_at cs_state]; rewrite ?Hrec;
        [by constructor|done|done|done|done| |by eexists].
      intros u [= <-]. eexists. split; [apply elem_of_app; right; by left|done].
  - destruct (bool_decide_reflect (cs_state s ∈ [GAP; RECOVERING])) as [Hb|Hb].
    + split_and!; [|done|by intros; apply broken_states; left].
      constructor; cbn [gap_start last_good_at healthy_samples updated_at cs_state]; rewrite ?Hrec;
        [by constructor|done|done|done|done|done|by intros; apply Hbr].
    + split_and!; [|done|done].
      constructor; cbn [gap_start last_good_at healthy_samples updated_at cs_state]; rewrite ?Hrec;
        [by constructor|done|done|done|done|done|by intros [|]%broken_states].
Qed.

(** The state a sample is judged against. *)
Definition prior_of (file : pydict) (now : Z) (s : ContinuityState) : Prop :=
  file = continuity_to_dict s ∨ file = [] ∧ s = prior_or_new None now.

Lemma prior_of_read file now s clock :
  prior_of file now s → continuity_wf s →
  ∃ o, continuity_from_dict file clock = Ok o ∧ prior_or_new o now = s
       ∧ (o = Some s ∧ file = continuity_to_dict s ∨ o = None).
Proof.
  intros [->|[-> ->]] Hwf.
  - exists (Some s). split; [by apply continuity_roundtrip|]. split; [done|]. by left.
  - exists None. split_and!; [done|done|by right].
Qed.

(** One recorded sample, from the state to the state. *)
Lemma record_step h file ledger s health now clock file' ledger' :
  prior_of file (dt_as_utc now) s → continuity_inv h ledger s →
  record_continuity file ledger health now clock policy = Ok (file', ledger') →
  ∃ s' e, file' = continuity_to_dict s' ∧ ledger' = (match e with Some e => ledger ++ [e] | None => ledger end)
    ∧ continuity_inv ((health, dt_as_utc now) :: h) ledger' s'
    ∧ (match e with Some e => closes ledger e | None => True end)
    ∧ (broken s → ¬ broken s' →
       rearm_samples policy ≤ Z.of_nat (length (recovery ((health, dt_as_utc now) :: h)))
       ∧ ∃ ev, e = Some ev ∧ vget "event" ev = VStr "gap_end").
Proof.
  intros Hp Hinv E. unfold record_continuity, advance_continuity in E.
  destruct (prior_of_read _ _ _ clock Hp (ci_wf _ _ _ Hinv)) as (o & Ho & Hprior & Hofile). rewrite Ho in E.
  cbn [mbind res_bind] in E.
  destruct (instant_in_range (dt_as_utc now)) eqn:Hr; cbn [negb] in E; [|done].
  apply res_bind_ok in E as ([s' e] & E1 & E). apply res_bind_ok in E1 as ([[kind reason] obs] & Ek & E1).
  rewrite Hprior in E1. injection E1 as E1. injection E as Ef El. set (u := dt_as_utc now) in *.
  assert (Hfile : file' = continuity_to_dict s').
  { rewrite <- Ef. destruct (bool_decide_reflect (Some s' = o)) as [Hs|]; [|done].
    destruct Hofile as [[-> ->]| ->]; [by injection Hs as ->|done]. }
  exists s', e. split; [done|]. split; [done|]. rewrite <- El.
  destruct (decide (kind = Fine)) as [->|Hk].
  - destruct (health_status_fine _ _ _ _ Ek) as [v ->].
    pose proof (advance_healthy_inv h ledger s health u reason v Hinv Ek Hr) as H.
    cbn [advance_kind or_time default id] in E1. rewrite E1 in H. exact H.
  - pose proof (advance_lost_inv h ledger s health u kind reason obs Hinv Ek Hk Hr) as H.
    rewrite E1 in H. destruct H as (H1 & H2 & H3). split_and!; [done|done|]. intros Hb Hnb. destruct (Hnb (H3 Hb)).
Qed.

Lemma new_inv now ledger : instant_in_range now = true → continuity_inv [] ledger (prior_or_new None now).
Proof. intros H. constructor; cbn; try done. by intros [|]%broken_states. Qed.

Definition all_closed (ledger : list pydict) : Prop := ∀ l e l', ledger = l ++ e :: l' → closes l e.

Lemma all_closed_snoc ledger e : all_closed ledger → closes ledger e → all_closed (ledger ++ [e]).
Proof.
  intros Hall He l e' l' E. destruct l' as [|x l'] using rev_ind; [by apply app_inj_tail in E as [-> ->]|].
  rewrite app_comm_cons, app_assoc in E. apply app_inj_tail in E as [-> _]. by eapply Hall.
Qed.

Lemma monitored_inv h file ledger :
  monitored h file ledger →
  all_closed ledger
  ∧ (h = [] ∧ file = [] ∧ ledger = [] ∨ ∃ s, file = continuity_to_dict s ∧ continuity_inv h ledger s).
Proof.
  induction 1 as [|h file ledger health now clock file' ledger' _ [Hall IH] E].
  { split; [|by left]. by intros [] ? ?. }
  assert (Hr : instant_in_range (dt_as_utc now) = true).
  { unfold record_continuity, advance_continuity in E. res_inv. by destruct (instant_in_range (dt_as_utc now)). }
  assert (Hpre : ∃ s, prior_of file (dt_as_utc now) s ∧ continuity_inv h ledger s).
  { destruct IH as [(-> & -> & ->)|(s & -> & Hinv)]; [|by exists s; split; [left|]].
    eexists. split; [by right|by apply new_inv]. }
  destruct Hpre as (s & Hp & Hinv).
  destruct (record_step _ _ _ _ _ _ _ _ _ Hp Hinv E) as (s' & e & -> & -> & Hinv' & Hc & _).
  split; [|right; by exists s']. destruct e; [by apply all_closed_snoc|done].
Qed.
End runs.

(** ** The theorems *)

(** The ledger is well matched: in every monitored run, each [gap_end] row
    names the start of a gap that an earlier [gap_start] row of the ledger
    recorded, and ends the gap at the time of its sample. *)
Theorem ledger_gaps_matched policy h file ledger l e l' :
  monitored policy h file ledger → ledger = l ++ e :: l' → vget "event" e = VStr "gap_end" →
  ∃ u b, vget "gap_start" e = vtime u ∧ b ∈ l ∧ vget "event" b = VStr "gap_start"
         ∧ vget "gap_start" b = vtime u ∧ vget "gap_end" e = vget "observed_at" e.
Proof.
  intros Hrun El Hend. destruct (monitored_inv _ _ _ _ Hrun) as [Hall _].
  destruct (Hall _ _ _ El Hend) as (u & Hu & (b & Hb & Hbe & Hbs) & Hobs). by exists u, b.
Qed.

(** C31: A gap closes only on proof: when a sample takes the stored state out of
    a gap or its recovery, at least [rearm_samples] fine samples with ever newer
    source times came since the last sample that was not fine and since the last
    silence between fine samples (more than the sample's [max_age_seconds]), and
    the ledger gets a [gap_end] row. *)
Theorem gap_closes_after_rearm policy h file ledger health now clock file' ledger' s s' :
  monitored policy h file ledger → file = continuity_to_dict s → broken s →
  record_continuity file ledger health now clock policy = Ok (file', ledger') →
  file' = continuity_to_dict s' → continuity_wf s → continuity_wf s' → ¬ broken s' →
  rearm_samples policy ≤ Z.of_nat (length (recovery policy ((health, dt_as_utc now) :: h)))
  ∧ ∃ ev, ledger' = ledger ++ [ev] ∧ vget "event" ev = VStr "gap_end".
Proof.
  intros Hrun Hf Hb E Hf' Hwf Hwf' Hnb. destruct (monitored_inv _ _ _ _ Hrun) as [_ [(-> & -> & ->)|(s0 & Hf0 & Hinv)]]; [done|].
  assert (s0 = s) as ->.
  { pose proof (continuity_roundtrip s 0 Hwf) as H1. pose proof (continuity_roundtrip s0 0 (ci_wf _ _ _ _ Hinv)) as H2.
    rewrite <- Hf0, Hf in H2. congruence. }
  destruct (record_step _ _ _ _ s _ _ _ _ _ ltac:(by left) Hinv E) as (s1 & e & Hf1 & -> & Hinv1 & _ & Hclose).
  assert (s1 = s') as ->.
  { pose proof (continuity_roundtrip s' 0 Hwf') as H1. pose proof (continuity_roundtrip s1 0 (ci_wf _ _ _ _ Hinv1)) as H2.
    rewrite <- Hf1, Hf' in H2. congruence. }
  destruct (Hclose Hb Hnb) as (Hlen & ev & -> & Hev). split; [done|]. by exists ev.
Qed.

(** ** Witnesses: an outage of a minute, and its recovery *)

Fixpoint replay (policy : ContinuityPolicy) (h : list (pydict * Z)) (file : pydict) (ledger : list pydict)
    (samples : list (pydict * Z)) : option (list (pydict * Z) * pydict * list pydict) :=
  match samples with
  | [] => Some (h, file, ledger)
  | (health, now) :: samples =>
      match record_continuity file ledger health (utc now) now policy with
      | Ok (file, ledger) => replay policy ((health, now) :: h) file ledger samples
      | Err _ => None
      end
  end.

Lemma replay_monitored policy h file ledger samples h' file' ledger' :
  monitored policy h file ledger → replay policy h file ledger samples = Some (h', file', ledger') →
  monitored policy h' file' ledger'.
Proof.
  revert h file ledger. induction samples as [|[health now] samples IH]; intros h file ledger Hrun E; cbn in E.
  { by injection E as <- <- <-. }
  destruct (record_continuity file ledger health (utc now) now policy) as [[f l]|] eqn:Er; [|done].
  apply (IH ((health, now) :: h) f l); [|done]. rewrite <- (dt_as_utc_utc now) at 1. by eapply mon_step.
Qed.

Definition outage : Z := combine (ymd2ord 2026 3 3) (time_hm 8 0).
Definition plane (healthy : bool) (second : Z) : pydict * Z :=
  ([("observed_at", vtime (outage + second * SECOND)); ("circuit_state", VStr "closed");
    ("connected", VBool true); ("data_plane_healthy", VBool healthy)], outage + second * SECOND).
Definition before_recovery : list (pydict * Z) :=
  [plane true 0; plane false 15; plane true 30; plane true 45].
Definition after_recovery : list (pydict * Z) := before_recovery ++ [plane true 60].

Definition replayed (samples : list (pydict * Z)) : list (pydict * Z) * pydict * list pydict :=
  default ([], [], []) (replay default_continuity_policy [] [] [] samples).
Definition state_in (file : pydict) : ContinuityState :=
  match continuity_from_dict file 0 with Ok (Some s) => s | _ => prior_or_new None 0 end.

Lemma replayed_monitored samples :
  is_Some (replay default_continuity_policy [] [] [] samples) →
  monitored default_continuity_policy (replayed samples).1.1 (replayed samples).1.2 (replayed samples).2.
Proof.
  unfold replayed. intros [[[h f] l] E]. rewrite E. cbn. eapply replay_monitored, E. constructor.
Qed.

Lemma ledger_gaps_matched_witness :
  ∃ u, vget "gap_start" (default [] ((replayed after_recovery).2 !! 3%nat)) = vtime u.
Proof.
  destruct (ledger_gaps_matched default_continuity_policy (replayed after_recovery).1.1
              (replayed after_recovery).1.2 (replayed after_recovery).2 (take 3 (replayed after_recovery).2)
              (default [] ((replayed after_recovery).2 !! 3%nat)) []) as (u & b & H & _).
  - apply replayed_monitored. vm_compute. eexists. reflexivity.
  - vm_compute. reflexivity.
  - vm_compute. reflexivity.
  - exists u. exact H.
Defined.

Lemma gap_closes_after_rearm_witness :
  3 ≤ Z.of_nat (length (recovery default_continuity_policy
                          (plane true 60 :: (replayed before_recovery).1.1))).
Proof.
  destruct (gap_closes_after_rearm default_continuity_policy (replayed before_recovery).1.1
              (replayed before_recovery).1.2 (replayed before_recovery).2 (plane true 60).1
              (utc (outage + 60 * SECOND)) 0 (replayed after_recovery).1.2 (replayed after_recovery).2
              (state_in (replayed before_recovery).1.2) (state_in (replayed after_recovery).1.2)) as [H _].
  - apply replayed_monitored. vm_compute. eexists. reflexivity.
  - vm_compute. reflexivity.
  - vm_compute. right. left.
  - vm_compute. reflexivity.
  - vm_compute. reflexivity.
  - constructor; vm_compute; first [reflexivity|exact I|discriminate].
  - constructor; vm_compute; first [reflexivity|exact I|discriminate].
  - intros [E|E]%broken_states; vm_compute in E; discriminate E.
  - exact H.
Defined.
