(* ===== verification/FarmHealth.v ===== *)
(** * IBKR data-farm health ([ibkr/farm_health.py])

    Which error codes and messages say that a data farm is up, connecting or
    broken, the tracker that aggregates the farms and times a break, and the
    gate of a Gateway restart ([ibkr/stream/supervisor.py]).  Monotonic clock
    readings are floats; what the broker answers is an argument. *)

From stdpp Require Import base list strings.
From Stdlib Require Import Ascii ZArith Lia.
From S2P Require Import Prelude PyStr PyFloat PyTime PyDateTime PyDict PyVal MarketCalendar SessionClock.

#[local] Open Scope Z_scope.

Definition FARM_OK_CODES : list Z := [2104; 2106; 2158].
Definition FARM_CONNECTING_CODES : list Z := [2119].
Definition FARM_BROKEN_CODES : list Z := [2103; 2110; 2157].
Definition TWS_CONNECTIVITY_LOST_CODES : list Z := [1100; 2110].
Definition TWS_CONNECTIVITY_RESTORED_CODES : list Z := [1101; 1102].
Definition NON_DEGRADING_ERROR_CODES : list Z :=
  FARM_OK_CODES ++ FARM_CONNECTING_CODES ++ TWS_CONNECTIVITY_RESTORED_CODES.
Definition DATA_FLOW_SILENCE_FARM : string := "data-flow-silence".

Definition code_in (code : Z) (codes : list Z) : bool := bool_decide (code ∈ codes).

(** Subscribed data stopped ticking during an open session. *)
Definition data_flow_silence_breached `{SessionClock} (ticker_time : option Z) (now : Z)
    (silence_seconds : float) : res bool :=
  match ticker_time with
  | None => Ok false
  | Some t =>
      if fleb silence_seconds (f_of_Z 0) then Ok false
      else if fleb (total_seconds (now - t)) silence_seconds then Ok false
      else
        span ← td_seconds silence_seconds;
        window_start ← dt_add now (- span);
        open ← clock_globex_open now;
        if negb open then Ok false else clock_globex_open window_start
  end.

Inductive FarmLinkStatus := FARM_OK | FARM_CONNECTING | FARM_BROKEN | FARM_UNKNOWN.
#[global] Instance FarmLinkStatus_eq_dec : EqDecision FarmLinkStatus.
Proof. solve_decision. Defined.

Definition farm_status_value (s : FarmLinkStatus) : string :=
  match s with
  | FARM_OK => "ok" | FARM_CONNECTING => "connecting" | FARM_BROKEN => "broken"
  | FARM_UNKNOWN => "unknown"
  end.

Record FarmStatusEvent := {
  fe_status : FarmLinkStatus;
  fe_error_code : option Z;
  fe_message : option string;
  fe_farm : option string;
  fe_broken_seconds : option float;
}.

(** [FarmStatusEvent.to_log_event], at the time [ts]. *)
Definition farm_log_event (e : FarmStatusEvent) (task : string) (ts : Z) : pydict :=
  let nonempty k o := match o with Some s => if String.eqb s "" then [] else [(k, VStr s)] | None => [] end in
  [("task", VStr task); ("event", VStr "farm_status");
   ("farm_status", VStr (farm_status_value (fe_status e))); ("ts", vtime ts)]
  ++ match fe_error_code e with Some c => [("error_code", VInt c)] | None => [] end
  ++ nonempty "message" (fe_message e) ++ nonempty "farm" (fe_farm e)
  ++ match fe_broken_seconds e with Some x => [("broken_seconds", VFloat (f_round 1 x))] | None => [] end.

(** ** Messages *)

Definition not_colon (c : ascii) : bool := negb (Ascii.eqb c ":").
Definition not_space (c : ascii) : bool := negb (chr_is_space c).
Definition not_dot (c : ascii) : bool := negb (Ascii.eqb c ".").

(** The characters at the head that satisfy [p], and the rest. *)
Fixpoint span_while (p : ascii → bool) (s : string) : string * string :=
  match s with
  | String c r => if p c then let '(h, t) := span_while p r in (String c h, t) else ("", s)
  | "" => ("", "")
  end.

(** The openings of [_FARM_NAME_RE], in lower case. *)
Definition FARM_NAME_OPENINGS : list string :=
  ["market data farm connection is"; "market data farm is"; "hmds data farm connection is";
   "sec-def data farm connection is"].

(** The second group of [_FARM_NAME_RE] matched at the head of [s]. *)
Definition farm_name_at (s : string) : option string :=
  let after (opening : string) : option string :=
    if str_starts opening (str_lower s) then
      match str_drop (String.length opening) s with
      | String " " rest =>
          match span_while not_colon rest with
          | (String _ _, String ":" name) =>
              match span_while not_space name with (String c r, _) => Some (String c r) | _ => None end
          | _ => None
          end
      | _ => None
      end
    else None in
  head (omap after FARM_NAME_OPENINGS).

(** [_FARM_NAME_RE.search]: the leftmost match. *)
Fixpoint farm_name_search (s : string) : option string :=
  match farm_name_at s with
  | Some name => Some name
  | None => match s with String _ s => farm_name_search s | "" => None end
  end.

Definition parse_farm_name (message : string) : option string :=
  match farm_name_search message with
  | Some name => Some (span_while not_dot name).1
  | None =>
      let lowered := str_lower message in
      if str_contains "between trader workstation and server is broken" lowered then Some "tws-server"
      else if str_contains "hmds data farm connection is inactive" lowered then Some "hmds"
      else None
  end.

Definition classify_farm_error (error_code : Z) (message : string) : FarmLinkStatus * option string :=
  let lowered := str_lower message in
  if code_in error_code TWS_CONNECTIVITY_LOST_CODES then (FARM_BROKEN, Some "tws-server")
  else if code_in error_code TWS_CONNECTIVITY_RESTORED_CODES then (FARM_OK, Some "tws-server")
  else if code_in error_code FARM_OK_CODES || str_contains "connection is ok" lowered
  then (FARM_OK, parse_farm_name message)
  else if code_in error_code FARM_CONNECTING_CODES || str_contains "is connecting" lowered
  then (FARM_CONNECTING, parse_farm_name message)
  else if code_in error_code FARM_BROKEN_CODES || str_contains "is broken" lowered
  then (FARM_BROKEN, parse_farm_name message)
  else if error_code =? 2110 then (FARM_BROKEN, Some "tws-server")
  else (FARM_UNKNOWN, parse_farm_name message).

Example parse_farm_tests :
  (parse_farm_name "Market data farm connection is broken:usfarm.nj",
   parse_farm_name "HMDS data farm connection is inactive but should be available.",
   parse_farm_name "note: Sec-def data farm connection is OK:secdefil",
   parse_farm_name "Market data farm is connecting: x")
  = (Some "usfarm", Some "hmds", Some "secdefil", None).
Proof. by vm_compute. Qed.

(** ** The tracker *)

Record FarmHealthTracker := {
  broken_restart_seconds : float;
  ft_status : FarmLinkStatus;
  broken_since : option float;
  last_error_code : option Z;
  last_error_message : option string;
  last_farm : option string;
  farms : list (string * FarmLinkStatus);
  broken_since_by_farm : list (string * float);
}.

Definition new_tracker (seconds : float) : FarmHealthTracker := {|
  broken_restart_seconds := seconds; ft_status := FARM_UNKNOWN; broken_since := None;
  last_error_code := None; last_error_message := None; last_farm := None; farms := [];
  broken_since_by_farm := [] |}.

(** The farms marked broken; the source collects them in a set. *)
Definition broken_farms (farms : list (string * FarmLinkStatus)) : list string :=
  (filter (λ kv, kv.2 = FARM_BROKEN) farms).*1.

(** [_refresh_aggregate_status]. *)
Definition refresh (t : FarmHealthTracker) : res FarmHealthTracker :=
  let broken := broken_farms (farms t) in
  let since := filter (λ kv, kv.1 ∈ broken) (broken_since_by_farm t) in
  let with_status status oldest :=
    {| broken_restart_seconds := broken_restart_seconds t; ft_status := status; broken_since := oldest;
       last_error_code := last_error_code t; last_error_message := last_error_message t;
       last_farm := last_farm t; farms := farms t; broken_since_by_farm := since |} in
  match broken with
  | [] =>
      Ok (with_status
            (if existsb (λ kv, bool_decide (kv.2 = FARM_CONNECTING)) (farms t) then FARM_CONNECTING
             else match farms t with [] => FARM_UNKNOWN | _ => FARM_OK end) None)
  | _ =>
      times ← res_mapM (λ farm, dindex farm since) broken;
      Ok (with_status FARM_BROKEN (min_by fltb times))
  end.

(** The tracker with the last error, the farms and the break times replaced. *)
Definition noted (t : FarmHealthTracker) (code : option Z) (message farm : option string)
    (farms : list (string * FarmLinkStatus)) (since : list (string * float)) : FarmHealthTracker := {|
  broken_restart_seconds := broken_restart_seconds t; ft_status := ft_status t;
  broken_since := broken_since t; last_error_code := code; last_error_message := message;
  last_farm := farm; farms := farms; broken_since_by_farm := since |}.

Definition nonempty_farm (farm : option string) : option string :=
  match farm with Some f => if String.eqb f "" then None else Some f | None => None end.

Definition observe (t : FarmHealthTracker) (error_code : Z) (message : string) (now : float)
    : res (FarmHealthTracker * option FarmStatusEvent) :=
  let '(link_status, farm) := classify_farm_error error_code message in
  if bool_decide (link_status = FARM_UNKNOWN) then Ok (t, None) else
  let previous := ft_status t in
  let since := broken_since_by_farm t in
  let '(named, fs, since) :=
    match nonempty_farm farm with
    | Some f =>
        (farm, dset f link_status (farms t),
         match link_status with
         | FARM_BROKEN => dsetdefault f now since
         | FARM_OK => dpop f since
         | _ => since
         end)
    | None =>
        if bool_decide (link_status = FARM_BROKEN)
        then (Some "unknown-farm", dset "unknown-farm" link_status (farms t),
              dsetdefault "unknown-farm" now since)
        else (farm, farms t, since)
    end in
  t ← refresh (noted t (Some error_code) (Some message) farm fs since);
  if bool_decide (ft_status t = previous) then Ok (t, None)
  else Ok (t, Some {| fe_status := ft_status t; fe_error_code := Some error_code;
                      fe_message := Some message; fe_farm := named;
                      fe_broken_seconds := s ← broken_since t; Some (fsub now s) |}).

(** A synthetic farm breaks, or comes back. *)
Definition mark_broken (t : FarmHealthTracker) (farm : string) (message : option string) (now : float)
    : res FarmHealthTracker :=
  refresh (noted t None message (Some farm) (dset farm FARM_BROKEN (farms t))
             (dsetdefault farm now (broken_since_by_farm t))).
Definition mark_ok (t : FarmHealthTracker) (farm : string) : res FarmHealthTracker :=
  if dhas farm (farms t) then
    refresh (noted t (last_error_code t) (last_error_message t) (last_farm t)
               (dset farm FARM_OK (farms t)) (dpop farm (broken_since_by_farm t)))
  else Ok t.

Record DataPlaneProbeResult := {
  probe_ok : bool;
  current_time_ok : bool;
  qualify_ok : bool;
  probe_error : option string;
  probe_current_time : option string;
  probe_contract : option string;
}.

(** [probe_data_plane]: the broker's time (or the text of its exception),
    whether it qualified the ES contract (or the text), and the contract. *)
Definition probe_data_plane (server_time : string + option Z) (qualified : string + bool)
    (contract : string) : DataPlaneProbeResult :=
  match server_time with
  | inl exc => {| probe_ok := false; current_time_ok := false; qualify_ok := false;
                  probe_error := Some ("reqCurrentTime failed: " +:+ exc);
                  probe_current_time := None; probe_contract := None |}
  | inr time =>
      let time_ok := match time with Some _ => true | None => false end in
      let text := isoformat <$> time in
      let failed error := {| probe_ok := false; current_time_ok := time_ok; qualify_ok := false;
                             probe_error := Some error; probe_current_time := text;
                             probe_contract := Some contract |} in
      match qualified with
      | inl exc => failed ("qualifyContracts failed: " +:+ exc)
      | inr false => failed "qualifyContracts returned no ES contract"
      | inr true => {| probe_ok := true; current_time_ok := true; qualify_ok := true;
                       probe_error := None; probe_current_time := text;
                       probe_contract := Some contract |}
      end
  end.

Definition mark_probe_failed (t : FarmHealthTracker) (probe : DataPlaneProbeResult) (now : float)
    : res (FarmHealthTracker * FarmStatusEvent) :=
  t ← mark_broken t "data-plane-probe" (probe_error probe) now;
  Ok (t, {| fe_status := ft_status t; fe_error_code := None; fe_message := probe_error probe;
            fe_farm := Some "data-plane-probe"; fe_broken_seconds := Some (f_of_Z 0) |}).

Definition mark_probe_succeeded (t : FarmHealthTracker) : res FarmHealthTracker :=
  mark_ok t "data-plane-probe".

Definition mark_data_flow_silent (t : FarmHealthTracker) (message : string) (now : float)
    : res (FarmHealthTracker * option FarmStatusEvent) :=
  let previous := ft_status t in
  t ← mark_broken t DATA_FLOW_SILENCE_FARM (Some message) now;
  if bool_decide (ft_status t = previous) then Ok (t, None)
  else Ok (t, Some {| fe_status := ft_status t; fe_error_code := None; fe_message := Some message;
                      fe_farm := Some DATA_FLOW_SILENCE_FARM; fe_broken_seconds := Some (f_of_Z 0) |}).

Definition mark_data_flow_live (t : FarmHealthTracker) : res FarmHealthTracker :=
  mark_ok t DATA_FLOW_SILENCE_FARM.

Definition broken_duration (t : FarmHealthTracker) (now : float) : option float :=
  s ← broken_since t; Some (fsub now s).

Definition should_restart_gateway (t : FarmHealthTracker) (now : float) : bool :=
  match broken_duration t now with
  | None => false
  | Some d => fgeb d (broken_restart_seconds t)
  end.

(** The farm broken for the longest: the first among equals. *)
Definition oldest_broken_farm (t : FarmHealthTracker) : option string :=
  fst <$> min_by (λ a b, fltb a.2 b.2) (broken_since_by_farm t).

Definition market_data_ready (t : FarmHealthTracker) : bool :=
  let down s := bool_decide (s ∈ [FARM_BROKEN; FARM_CONNECTING]) in
  if match farms t with [] => true | _ => false end && bool_decide (ft_status t = FARM_UNKNOWN) then true
  else if down (ft_status t) then false
  else negb (existsb (λ kv, down kv.2) (farms t)).

Definition reset (t : FarmHealthTracker) : FarmHealthTracker := new_tracker (broken_restart_seconds t).

(** ** The restart gate *)

(** [runtime_blocks_gateway_restart], the mode of the override in force being
    [override]. *)
Definition runtime_blocks_gateway_restart (override : option string) (force : bool) : bool :=
  if force then false else match override with Some m => String.eqb m "protected" | None => false end.

(** [IbkrStreamSupervisor._should_restart_gateway]: the settings, the failures of
    the conflict circuit, the override, the last restart and the clocks. *)
Definition supervisor_should_restart `{SessionClock} (auto_restart : bool) (conflict_failures : Z)
    (override : option string) (force : bool) (now : Z) (t : FarmHealthTracker)
    (last_restart : option float) (monotonic cooldown : float) : res bool :=
  if negb auto_restart then Ok false
  else if 0 <? conflict_failures then Ok false
  else if runtime_blocks_gateway_restart override force then Ok false
  else
    open ← clock_globex_open now;
    if negb open then Ok false
    else if negb (should_restart_gateway t monotonic) then Ok false
    else match last_restart with
         | Some r => Ok (negb (fltb (fsub monotonic r) cooldown))
         | None => Ok true
         end.
