(* ===== verification/FarmProps.v ===== *)
(** * Properties of the farm-health tracker *)

From stdpp Require Import base numbers strings list.
From Stdlib Require Import ZArith Lia.
From S2P Require Import Prelude PyStr PyFloat PyTime PyDateTime PyDict PyVal MarketCalendar SessionClock FarmHealth.

#[local] Open Scope Z_scope.

Lemma dget_cons {A} k k' (v : A) d : dget k ((k', v) :: d) = if String.eqb k k' then Some v else dget k d.
Proof. reflexivity. Qed.

Lemma dget_filter_key {A} (P : string → Prop) `{∀ k, Decision (P k)} k (d : list (string * A)) :
  dget k (filter (λ kv, P kv.1) d) = if decide (P k) then dget k d else None.
Proof.
  induction d as [|[k' v] d IH]; [by case_decide|]. rewrite filter_cons. cbn [fst].
  destruct (decide (P k')) as [Hp|Hp]; rewrite ?dget_cons, IH;
    destruct (String.eqb_spec k k') as [->|Hne]; by repeat case_decide.
Qed.

(** ** The aggregate *)

(** The status the farms add up to. *)
Definition aggregate (fs : list (string * FarmLinkStatus)) : FarmLinkStatus :=
  match broken_farms fs with
  | _ :: _ => FARM_BROKEN
  | [] => if existsb (λ kv, bool_decide (kv.2 = FARM_CONNECTING)) fs then FARM_CONNECTING
          else match fs with [] => FARM_UNKNOWN | _ => FARM_OK end
  end.

Record tracker_wf (t : FarmHealthTracker) : Prop := {
  twf_keys : NoDup (dkeys (farms t));
  (** break times are kept exactly for the broken farms *)
  twf_since f : is_Some (dget f (broken_since_by_farm t)) ↔ dget f (farms t) = Some FARM_BROKEN;
  twf_status : ft_status t = aggregate (farms t);
  (** the break is timed from the farm that broke first *)
  twf_oldest : match broken_since t with
               | None => ft_status t ≠ FARM_BROKEN
               | Some s => ft_status t = FARM_BROKEN
                           ∧ (∃ f, dget f (broken_since_by_farm t) = Some s)
                           ∧ ∀ f u, dget f (broken_since_by_farm t) = Some u → fltb u s = false
               end;
}.

Lemma broken_farms_elem fs f : NoDup (dkeys fs) → f ∈ broken_farms fs ↔ dget f fs = Some FARM_BROKEN.
Proof.
  intros Hnd. unfold broken_farms. rewrite list_elem_of_fmap. split.
  - intros ([g s] & -> & [Hs Hin]%list_elem_of_filter). cbn in *. subst s. by apply NoDup_dget.
  - intros H%dget_elem. exists (f, FARM_BROKEN). by rewrite list_elem_of_filter.
Qed.

Lemma refresh_spec t :
  NoDup (dkeys (farms t)) →
  (∀ f, dget f (farms t) = Some FARM_BROKEN → is_Some (dget f (broken_since_by_farm t))) →
  ∃ t', refresh t = Ok t' ∧ tracker_wf t' ∧ farms t' = farms t
    ∧ broken_restart_seconds t' = broken_restart_seconds t
    ∧ ∀ f, dget f (broken_since_by_farm t')
           = if decide (dget f (farms t) = Some FARM_BROKEN) then dget f (broken_since_by_farm t) else None.
Proof.
  intros Hnd Hb. unfold refresh. set (broken := broken_farms (farms t)).
  set (since := filter (λ kv, kv.1 ∈ broken) (broken_since_by_farm t)).
  assert (Hsince : ∀ f, dget f since
            = if decide (dget f (farms t) = Some FARM_BROKEN) then dget f (broken_since_by_farm t) else None).
  { intros f. etransitivity; [exact (dget_filter_key (λ k, k ∈ broken) f _)|]. unfold broken.
    pose proof (broken_farms_elem _ f Hnd). repeat case_decide; tauto. }
  assert (Hdom : ∀ f, is_Some (dget f since) ↔ dget f (farms t) = Some FARM_BROKEN).
  { intros f. rewrite Hsince. case_decide; [naive_solver|]. split; [by intros []|done]. }
  destruct broken as [|b bs] eqn:Ebr; unfold broken in Ebr.
  - eexists. split; [done|]. split_and!; try done. constructor; cbn; try done; [unfold aggregate; by rewrite Ebr|].
    destruct (existsb _ _); [done|]. by destruct (farms t).
  - destruct (res_mapM_total (λ farm, dindex farm since) (b :: bs)) as [times Et].
    { intros f Hf. rewrite <- Ebr, (broken_farms_elem _ _ Hnd) in Hf. apply Hdom in Hf as [x Hx].
      exists x. unfold dindex. by rewrite Hx. }
    rewrite Et. cbn [mbind res_bind]. eexists. split; [done|]. split_and!; try done.
    constructor; cbn; try done; [unfold aggregate; by rewrite Ebr|].
    assert (Htimes : ∀ x, x ∈ times ↔ ∃ f, dget f since = Some x).
    { intros x. rewrite (res_mapM_elem _ _ _ _ Et). rewrite <- Ebr. unfold dindex. split.
      - intros (f & _ & Hf). exists f. by destruct (dget f since); [injection Hf as <-|].
      - intros (f & Hf). exists f. rewrite (broken_farms_elem _ _ Hnd), <- Hdom, Hf. by split; [eexists|]. }
    destruct (min_by fltb times) as [s|] eqn:Em.
    + destruct (max_by_best fltb _ _ fltb_irrefl (λ x y z, fltb_trans x y z) Em) as [Hs Hbest].
      split_and!; [done|by apply Htimes|]. intros f u Hf. apply Hbest. apply Htimes. eauto.
    + apply max_by_None in Em as ->. exfalso.
      assert (Hb1 : dget b (farms t) = Some FARM_BROKEN) by (apply broken_farms_elem; [done|]; rewrite Ebr; by left).
      apply Hdom in Hb1 as [x Hx]. assert (x ∈ @nil float) as []%not_elem_of_nil. apply Htimes. eauto.
Qed.

(** ** One farm changes *)

(** The break times after [f] takes status [s] at [now]. *)
Definition since_after (s : FarmLinkStatus) (f : string) (now : float) (since : list (string * float)) :=
  match s with
  | FARM_BROKEN => dsetdefault f now since
  | FARM_OK => dpop f since
  | _ => since
  end.

Lemma refresh_farm t code message farm f s now :
  tracker_wf t →
  ∃ t', refresh (noted t code message farm (dset f s (farms t)) (since_after s f now (broken_since_by_farm t)))
        = Ok t' ∧ tracker_wf t' ∧ broken_restart_seconds t' = broken_restart_seconds t
    ∧ ∀ g u, dget g (broken_since_by_farm t') = Some u →
        (g = f ∧ s = FARM_BROKEN ∧ (u = now ∨ dget f (broken_since_by_farm t) = Some u))
        ∨ (g ≠ f ∧ dget g (broken_since_by_farm t) = Some u).
Proof.
  intros [Hnd Hsince _ _].
  destruct (refresh_spec (noted t code message farm (dset f s (farms t))
              (since_after s f now (broken_since_by_farm t)))) as (t' & E & Hwf & _ & Hthr & Hget); cbn.
  - by apply dset_NoDup.
  - intros g. rewrite dget_dset. destruct (String.eqb_spec g f) as [->|Hne].
    + intros [= ->]. cbn. rewrite dget_dsetdefault, String.eqb_refl. by eexists.
    + intros Hg%Hsince. destruct s; cbn; rewrite ?dget_dsetdefault, ?dget_dpop; apply String.eqb_neq in Hne; by rewrite ?Hne.
  - exists t'. split_and!; [done|done|done|]. intros g u. rewrite Hget. cbn.
    case_decide as Hd; [|done]. rewrite dget_dset in Hd. destruct (String.eqb_spec g f) as [->|Hne].
    + injection Hd as ->. cbn. rewrite dget_dsetdefault, String.eqb_refl. intros [= <-]. left. split_and!; [done|done|].
      destruct (dget f (broken_since_by_farm t)); auto.
    + apply String.eqb_neq in Hne as Hne'. intros Hu. right. split; [done|].
      destruct s; cbn in Hu; rewrite ?dget_dsetdefault, ?dget_dpop, ?Hne' in Hu; done.
Qed.

Lemma refresh_same t code message farm :
  tracker_wf t →
  ∃ t', refresh (noted t code message farm (farms t) (broken_since_by_farm t)) = Ok t' ∧ tracker_wf t'
    ∧ broken_restart_seconds t' = broken_restart_seconds t
    ∧ ∀ g u, dget g (broken_since_by_farm t') = Some u → dget g (broken_since_by_farm t) = Some u.
Proof.
  intros [Hnd Hsince _ _].
  destruct (refresh_spec (noted t code message farm (farms t) (broken_since_by_farm t)))
    as (t' & E & Hwf & _ & Hthr & Hget); cbn; [done|by intros g Hg%Hsince|].
  exists t'. split_and!; [done|done|done|]. intros g u. rewrite Hget. cbn. by case_decide.
Qed.

(** ** Operations and histories *)

Inductive farm_op :=
  | Observe (error_code : Z) (message : string) (now : float)
  | ProbeFailed (probe : DataPlaneProbeResult) (now : float)
  | ProbeSucceeded
  | DataSilent (message : string) (now : float)
  | DataLive
  | Reset.

Definition apply_op (t : FarmHealthTracker) (op : farm_op) : res FarmHealthTracker :=
  match op with
  | Observe code message now => '(t, _) ← observe t code message now; Ok t
  | ProbeFailed probe now => '(t, _) ← mark_probe_failed t probe now; Ok t
  | ProbeSucceeded => mark_probe_succeeded t
  | DataSilent message now => '(t, _) ← mark_data_flow_silent t message now; Ok t
  | DataLive => mark_data_flow_live t
  | Reset => Ok (reset t)
  end.

(** The farm an observation is about, and what it says of it. *)
Definition observed_farm (code : Z) (message : string) : option (string * FarmLinkStatus) :=
  let '(status, farm) := classify_farm_error code message in
  match status, nonempty_farm farm with
  | FARM_UNKNOWN, _ => None
  | _, Some f => Some (f, status)
  | FARM_BROKEN, None => Some ("unknown-farm", FARM_BROKEN)
  | _, None => None
  end.

(** What an operation says of a farm. *)
Definition verdict (op : farm_op) (f : string) : option FarmLinkStatus :=
  let about g s := if String.eqb f g then Some s else None in
  match op with
  | Observe code message _ =>
      match observed_farm code message with Some (g, s) => about g s | None => None end
  | ProbeFailed _ _ => about "data-plane-probe" FARM_BROKEN
  | ProbeSucceeded => about "data-plane-probe" FARM_OK
  | DataSilent _ _ => about DATA_FLOW_SILENCE_FARM FARM_BROKEN
  | DataLive => about DATA_FLOW_SILENCE_FARM FARM_OK
  | Reset => Some FARM_OK
  end.

Definition op_time (op : farm_op) : option float :=
  match op with Observe _ _ now | ProbeFailed _ now | DataSilent _ now => Some now | _ => None end.

(** [f] was called broken at [u] and nothing said otherwise since. *)
Definition broken_from (ops : list farm_op) (f : string) (u : float) : Prop :=
  ∃ newer op older, ops = newer ++ op :: older ∧ op_time op = Some u ∧ verdict op f = Some FARM_BROKEN
    ∧ ∀ op', op' ∈ newer → verdict op' f ∈ [None; Some FARM_BROKEN].

Lemma broken_from_cons op ops f u :
  verdict op f ∈ [None; Some FARM_BROKEN] → broken_from ops f u → broken_from (op :: ops) f u.
Proof.
  intros Hv (newer & o & older & -> & Ht & Hb & Hn). exists (op :: newer), o, older. split_and!; try done.
  intros op' [->|H]%elem_of_cons; auto.
Qed.

Lemma broken_from_now op ops f u :
  op_time op = Some u → verdict op f = Some FARM_BROKEN → broken_from (op :: ops) f u.
Proof. intros Ht Hv. exists [], op, ops. split_and!; try done. by intros ? []%not_elem_of_nil. Qed.

Lemma silent_or_broken : None ∈ [None; Some FARM_BROKEN] ∧ Some FARM_BROKEN ∈ [None; Some FARM_BROKEN].
Proof. split; [by left|by right; left]. Qed.

Definition timed_by (ops : list farm_op) (t : FarmHealthTracker) : Prop :=
  ∀ f u, dget f (broken_since_by_farm t) = Some u → broken_from ops f u.

(** One operation that gives a verdict on [f] only. *)
Lemma timed_farm ops op t t' f s now :
  timed_by ops t → verdict op f = Some s → (s = FARM_BROKEN → op_time op = Some now) →
  (∀ g, g ≠ f → verdict op g = None) →
  (∀ g u, dget g (broken_since_by_farm t') = Some u →
     (g = f ∧ s = FARM_BROKEN ∧ (u = now ∨ dget f (broken_since_by_farm t) = Some u))
     ∨ (g ≠ f ∧ dget g (broken_since_by_farm t) = Some u)) →
  timed_by (op :: ops) t'.
Proof.
  intros Ht Hv Htime Hother Hget g u [(-> & -> & [->|Hu])|[Hne Hu]]%Hget.
  - apply broken_from_now; auto.
  - apply broken_from_cons; [rewrite Hv; apply silent_or_broken|auto].
  - apply broken_from_cons; [rewrite Hother by done; apply silent_or_broken|auto].
Qed.

Lemma about_self f s : (if String.eqb f f then Some s else None) = Some (s : FarmLinkStatus).
Proof. by rewrite String.eqb_refl. Qed.
Lemma about_other f g (s : FarmLinkStatus) : g ≠ f → (if String.eqb g f then Some s else None) = None.
Proof. by intros ->%String.eqb_neq. Qed.

(** What every operation guarantees. *)
Definition op_ok (ops : list farm_op) (t : FarmHealthTracker) (op : farm_op) (t' : FarmHealthTracker) : Prop :=
  tracker_wf t' ∧ broken_restart_seconds t' = broken_restart_seconds t ∧ (timed_by ops t → timed_by (op :: ops) t').

Lemma mark_broken_ok ops op t farm message now :
  tracker_wf t → (∀ f, verdict op f = if String.eqb f farm then Some FARM_BROKEN else None) →
  op_time op = Some now →
  ∃ t', mark_broken t farm message now = Ok t' ∧ op_ok ops t op t'.
Proof.
  intros Hwf Hv Ht. destruct (refresh_farm t None message (Some farm) farm FARM_BROKEN now Hwf) as (t' & E & Hw & Hb & Hg).
  exists t'. split; [done|]. split_and!; [done|done|]. intros Htm.
  eapply timed_farm; [done|by rewrite Hv, about_self|done| |exact Hg].
  intros g Hne. by rewrite Hv, about_other.
Qed.

Lemma mark_ok_ok ops op t farm :
  tracker_wf t → (∀ f, verdict op f = if String.eqb f farm then Some FARM_OK else None) →
  ∃ t', mark_ok t farm = Ok t' ∧ op_ok ops t op t'.
Proof.
  intros Hwf Hv. unfold mark_ok. destruct (dhas farm (farms t)) eqn:Eh.
  - destruct (refresh_farm t (last_error_code t) (last_error_message t) (last_farm t) farm FARM_OK (f_of_Z 0) Hwf)
      as (t' & E & Hw & Hb & Hg).
    exists t'. split; [done|]. split_and!; [done|done|]. intros Htm.
    eapply (timed_farm _ _ _ _ farm FARM_OK); [done|by rewrite Hv, about_self|done| |exact Hg].
    intros g Hne. by rewrite Hv, about_other.
  - exists t. split; [done|]. split_and!; [done|done|]. intros Htm f u Hu.
    apply broken_from_cons; [|auto]. rewrite Hv. destruct (String.eqb_spec f farm) as [->|]; [|apply silent_or_broken].
    exfalso. destruct Hwf as [_ Hs _ _]. assert (dget farm (farms t) = Some FARM_BROKEN) as E by (apply Hs; eauto).
    unfold dhas in Eh. by rewrite E in Eh.
Qed.

Lemma observe_ok ops t code message now :
  tracker_wf t → ∃ t' e, observe t code message now = Ok (t', e) ∧ op_ok ops t (Observe code message now) t'.
Proof.
  intros Hwf. unfold observe, op_ok.
  assert (Hsilent : observed_farm code message = None → ∀ t', (∀ g u, dget g (broken_since_by_farm t') = Some u →
            dget g (broken_since_by_farm t) = Some u) → timed_by ops t → timed_by (Observe code message now :: ops) t').
  { intros Ho t' Hg Htm g u Hu. apply broken_from_cons; [cbn; rewrite Ho; apply silent_or_broken|auto]. }
  assert (Hfarm : ∀ f s, observed_farm code message = Some (f, s) →
            ∀ t', (∀ g u, dget g (broken_since_by_farm t') = Some u →
              (g = f ∧ s = FARM_BROKEN ∧ (u = now ∨ dget f (broken_since_by_farm t) = Some u))
              ∨ (g ≠ f ∧ dget g (broken_since_by_farm t) = Some u)) →
            timed_by ops t → timed_by (Observe code message now :: ops) t').
  { intros f s Ho t' Hg Htm. eapply (timed_farm _ _ _ _ f s now); [done|cbn; by rewrite Ho, about_self|done| |exact Hg].
    intros g Hne. cbn. by rewrite Ho, about_other. }
  unfold observed_farm in Hsilent, Hfarm. destruct (classify_farm_error code message) as [s farm].
  destruct (bool_decide_reflect (s = FARM_UNKNOWN)) as [->|Hs].
  { do 2 eexists. split; [done|]. split_and!; [done|done|]. by apply Hsilent. }
  assert (Hfin : ∀ r named, (∃ t', r = Ok t' ∧ tracker_wf t' ∧ broken_restart_seconds t' = broken_restart_seconds t
              ∧ (timed_by ops t → timed_by (Observe code message now :: ops) t')) →
            ∃ t' e, (t' ← r; if bool_decide (ft_status t' = ft_status t) then Ok (t', None)
               else Ok (t', Some {| fe_status := ft_status t'; fe_error_code := Some code; fe_message := Some message;
                                    fe_farm := named; fe_broken_seconds := s ← broken_since t'; Some (fsub now s) |}))
              = Ok (t', e) ∧ tracker_wf t' ∧ broken_restart_seconds t' = broken_restart_seconds t
              ∧ (timed_by ops t → timed_by (Observe code message now :: ops) t')).
  { intros r named (t' & -> & H). cbn [mbind res_bind]. destruct (bool_decide _); by do 2 eexists. }
  destruct (nonempty_farm farm) as [f|] eqn:Ef.
  - apply Hfin. destruct (refresh_farm t (Some code) (Some message) farm f s now Hwf) as (t' & E & Hw & Hb & Hg).
    exists t'. split; [|split_and!; [done|done|]]; [destruct s; exact E|]. eapply Hfarm, Hg. by destruct s.
  - destruct (bool_decide_reflect (s = FARM_BROKEN)) as [->|Hnb]; apply Hfin.
    + destruct (refresh_farm t (Some code) (Some message) farm "unknown-farm" FARM_BROKEN now Hwf)
        as (t' & E & Hw & Hb & Hg).
      exists t'. split_and!; [done|done|done|]. by eapply Hfarm.
    + destruct (refresh_same t (Some code) (Some message) farm Hwf) as (t' & E & Hw & Hb & Hg).
      exists t'. split_and!; [done|done|done|]. apply Hsilent; [by destruct s|done].
Qed.

Lemma new_tracker_wf seconds : tracker_wf (new_tracker seconds).
Proof. constructor; cbn; [constructor| |done|done]. intros f. unfold dget. split; [by intros []|done]. Qed.

Lemma apply_op_ok ops t op :
  tracker_wf t → ∃ t', apply_op t op = Ok t' ∧ op_ok ops t op t'.
Proof.
  intros Hwf. destruct op as [code message now|probe now| |message now| |]; cbn [apply_op].
  - destruct (observe_ok ops t code message now Hwf) as (t' & e & -> & H). by exists t'.
  - unfold mark_probe_failed.
    destruct (mark_broken_ok ops (ProbeFailed probe now) t "data-plane-probe" (probe_error probe) now Hwf)
      as (t' & -> & H); [done|done|]. by exists t'.
  - by apply mark_ok_ok.
  - unfold mark_data_flow_silent.
    destruct (mark_broken_ok ops (DataSilent message now) t DATA_FLOW_SILENCE_FARM (Some message) now Hwf)
      as (t' & -> & H); [done|done|]. cbn [mbind res_bind]. destruct (bool_decide _); by exists t'.
  - by apply mark_ok_ok.
  - eexists. split; [done|]. split_and!; [apply new_tracker_wf|done|]. intros _ f u. done.
Qed.

(** A tracker's life: its operations, the newest first. *)
Inductive tracked (seconds : float) : list farm_op → FarmHealthTracker → Prop :=
  | tracked_new : tracked seconds [] (new_tracker seconds)
  | tracked_op ops t op t' : tracked seconds ops t → apply_op t op = Ok t' → tracked seconds (op :: ops) t'.

Lemma tracked_inv seconds ops t :
  tracked seconds ops t → tracker_wf t ∧ timed_by ops t ∧ broken_restart_seconds t = seconds.
Proof.
  induction 1 as [|ops t op t' _ (Hwf & Htm & Hs) E]; [split_and!; [apply new_tracker_wf|done|done]|].
  destruct (apply_op_ok ops t op Hwf) as (t'' & E' & Hw & Hb & Ht). rewrite E in E'. injection E' as <-.
  split_and!; [done|auto|congruence].
Qed.

(** ** The theorems *)

(** C38: Well-typed trackers.  Every operation on a tracker that is well formed
    (a break time exactly for each broken farm, the status the farms add up to,
    the oldest break as the tracker's) returns a well-formed tracker: the
    look-up of break times never fails. *)
Theorem tracker_ops_total t op :
  tracker_wf t →
  ∃ t', apply_op t op = Ok t' ∧ tracker_wf t' ∧ broken_restart_seconds t' = broken_restart_seconds t.
Proof. intros Hwf. destruct (apply_op_ok [] t op Hwf) as (t' & E & H1 & H2 & _). eauto. Qed.

(** C30: A Gateway restart needs a sustained break: when the supervisor's gate
    opens, it is enabled, no conflict is open, the mode is not protected (or
    forced), Globex is open, the cooldown is over, and some farm was called
    broken at least the configured time ago with no operation calling it
    anything else since. *)
Theorem restart_needs_sustained_break `{SessionClock} seconds ops t auto_restart failures override force
    now last_restart monotonic cooldown :
  tracked seconds ops t →
  supervisor_should_restart auto_restart failures override force now t last_restart monotonic cooldown
    = Ok true →
  auto_restart = true ∧ failures ≤ 0 ∧ (force = true ∨ override ≠ Some "protected")
  ∧ clock_globex_open now = Ok true
  ∧ (∀ r, last_restart = Some r → fltb (fsub monotonic r) cooldown = false)
  ∧ ∃ f u, broken_from ops f u ∧ fgeb (fsub monotonic u) seconds = true.
Proof.
  intros Htr. destruct (tracked_inv _ _ _ Htr) as (Hwf & Htm & Hs). unfold supervisor_should_restart. intros E.
  destruct auto_restart; cbn [negb] in E; [|done]. destruct (Z.ltb_spec 0 failures); [done|].
  destruct (runtime_blocks_gateway_restart override force) eqn:Eb; [done|].
  apply res_bind_ok in E as (open & Eo & E). destruct open; cbn [negb] in E; [|done].
  destruct (should_restart_gateway t monotonic) eqn:Er; cbn [negb] in E; [|done].
  split_and!; [done|done| |done| |].
  - unfold runtime_blocks_gateway_restart in Eb. destruct force; [by left|]. right. intros ->. done.
  - intros r ->. injection E as E. by apply negb_true_iff in E.
  - unfold should_restart_gateway, broken_duration in Er. pose proof (twf_oldest _ Hwf) as Ho.
    destruct (broken_since t) as [s|]; [|done]. destruct Ho as (_ & [f Hf] & _). cbn in Er.
    exists f, s. split; [by apply Htm|]. by rewrite <- Hs.
Qed.

(** ** Witnesses: a market-data farm breaks and stays broken *)

Definition broken_notice : farm_op :=
  Observe 2103 "Market data farm connection is broken:usfarm.nj" (f_of_Z 1000).
Definition probe_notice : farm_op :=
  ProbeFailed (probe_data_plane (inl "timeout") (inr false) "ES") (f_of_Z 1100).
Definition after_notices : FarmHealthTracker :=
  match (t ← apply_op (new_tracker (f_of_Z 180)) broken_notice; apply_op t probe_notice) with
  | Ok t => t
  | Err _ => new_tracker (f_of_Z 180)
  end.

Lemma after_notices_tracked : tracked (f_of_Z 180) [probe_notice; broken_notice] after_notices.
Proof.
  destruct (apply_op (new_tracker (f_of_Z 180)) broken_notice) as [t|] eqn:E; [|vm_compute in E; discriminate E].
  apply (tracked_op _ _ t); [apply (tracked_op _ _ (new_tracker (f_of_Z 180))); [constructor|exact E]|].
  vm_compute in E. injection E as <-. vm_compute. reflexivity.
Qed.

Lemma tracker_ops_total_witness :
  ∃ t', apply_op after_notices (Observe 2104 "Market data farm connection is OK:usfarm" (f_of_Z 1200)) = Ok t'
        ∧ broken_restart_seconds t' = f_of_Z 180.
Proof.
  destruct (tracker_ops_total after_notices
              (Observe 2104 "Market data farm connection is OK:usfarm" (f_of_Z 1200))) as (t' & H1 & _ & H2).
  - apply (tracked_inv _ _ _ after_notices_tracked).
  - exists t'. split; [exact H1|]. rewrite H2. vm_compute. reflexivity.
Defined.

(** New York in winter. *)
Definition winter : SessionClock := calendar_clock (λ u, u - 5 * HOUR).

Lemma restart_needs_sustained_break_witness :
  ∃ f u, broken_from [probe_notice; broken_notice] f u ∧ fgeb (fsub (f_of_Z 1200) u) (f_of_Z 180) = true.
Proof.
  destruct (@restart_needs_sustained_break winter (f_of_Z 180) [probe_notice; broken_notice] after_notices
              true 0 None false (combine (ymd2ord 2026 3 3) (time_hm 8 0)) None (f_of_Z 1200) (f_of_Z 600))
    as (_ & _ & _ & _ & _ & f & u & H1 & H2).
  - apply after_notices_tracked.
  - vm_compute. reflexivity.
  - exists f, u. split; [exact H1|exact H2].
Defined.
