(* ===== verification/LineQuota.v ===== *)
(** * Provider capacity

    The Schwab request-quota machine ([schwab/quota_machine.py]), the estimate
    of IBKR's concurrent market-data lines ([ibkr/stream/capacity_tracker.py])
    and the allocation of option lines made from it
    ([ibkr/stream/quota_plan.py], [ibkr/stream/option_subscription_ops.py]). *)

From stdpp Require Import base list strings.
From Stdlib Require Import ZArith Lia.
From S2P Require Import Prelude PyStr PyFloat PyTime PyDateTime PyDict PyVal MarketCalendar SessionClock FailoverController.

#[local] Open Scope Z_scope.

(** ** Schwab request quota *)

Inductive QuotaMode := Q_NORMAL | PRESSURE | THROTTLED | COOLDOWN | Q_RECOVERING.
#[global] Instance QuotaMode_eq_dec : EqDecision QuotaMode.
Proof. solve_decision. Defined.
Definition quota_mode_value (m : QuotaMode) : string :=
  match m with
  | Q_NORMAL => "normal" | PRESSURE => "pressure" | THROTTLED => "throttled"
  | COOLDOWN => "cooldown" | Q_RECOVERING => "recovering"
  end.
#[global, refine] Instance QuotaMode_enum : PyEnum QuotaMode := {|
  enum_members := [Q_NORMAL; PRESSURE; THROTTLED; COOLDOWN; Q_RECOVERING];
  enum_value := quota_mode_value;
  enum_find := _;
|}.
Proof. by intros []. Defined.

Record RequestWindow := {
  attempts : Z; retries : Z; throttled : Z; failures : Z; response_bytes : Z }.

Record QuotaPolicy := {
  nominal_requests_per_minute : Z;
  planned_requests_per_minute : Z;
  pressure_fraction : float;
  recovery_fraction : float;
  recovery_successes : Z;
}.
Definition default_quota_policy : QuotaPolicy := {|
  nominal_requests_per_minute := 120; planned_requests_per_minute := 96;
  pressure_fraction := f_lit 70 2; recovery_fraction := f_lit 50 2; recovery_successes := 10 |}.

(** [QuotaPolicy.__post_init__]. *)
Definition check_quota_policy (p : QuotaPolicy) : res QuotaPolicy :=
  if nominal_requests_per_minute p <=? 0 then Err ValueError
  else if negb ((0 <? planned_requests_per_minute p)
                && (planned_requests_per_minute p <? nominal_requests_per_minute p)) then Err ValueError
  else if negb (fltb (f_of_Z 0) (recovery_fraction p)
                && fltb (recovery_fraction p) (pressure_fraction p)
                && fltb (pressure_fraction p) (f_of_Z 1)) then Err ValueError
  else Ok p.

Record QuotaState := QState { q_mode : QuotaMode; consecutive_successes : Z; stable_windows : Z }.
Definition plain_quota (m : QuotaMode) : QuotaState := QState m 0 0.

Definition advance_quota_state (state : QuotaState) (window : RequestWindow) (policy : QuotaPolicy)
    (retry_after_elapsed : bool) : QuotaState :=
  let failed := negb (failures window =? 0) in
  if negb (throttled window =? 0) then plain_quota THROTTLED
  else match q_mode state with
  | THROTTLED => if negb retry_after_elapsed then state else plain_quota COOLDOWN
  | COOLDOWN =>
      let successes := consecutive_successes state + Z.max (attempts window - failures window) 0 in
      let successes := if failed then 0 else successes in
      if recovery_successes policy <=? successes then plain_quota Q_RECOVERING
      else QState COOLDOWN successes 0
  | Q_RECOVERING =>
      if failed then plain_quota PRESSURE
      else
        let stable := stable_windows state + 1 in
        if 5 <=? stable then plain_quota Q_NORMAL else QState Q_RECOVERING 0 stable
  | _ =>
      let nominal := f_of_Z (nominal_requests_per_minute policy) in
      let pressure_at := fmul nominal (pressure_fraction policy) in
      let recover_at := fmul nominal (recovery_fraction policy) in
      if fgeb (f_of_Z (attempts window)) pressure_at then plain_quota PRESSURE
      else if bool_decide (q_mode state = PRESSURE) && fltb (f_of_Z (attempts window)) recover_at
              && negb failed then plain_quota Q_NORMAL
      else state
  end.

Definition lane_allowed (mode : QuotaMode) (priority : Z) : bool :=
  match mode with
  | THROTTLED => false
  | COOLDOWN => priority <=? 1
  | PRESSURE => priority <=? 3
  | _ => true
  end.

(** The transition the collector makes from its gateway window. *)
Definition collector_quota (state : QuotaState) (window : RequestWindow) (policy : QuotaPolicy) : QuotaState :=
  advance_quota_state state window policy
    (bool_decide (q_mode state = THROTTLED) && (throttled window =? 0) && (failures window =? 0)).

(** ** IBKR line capacity *)

Definition TICKER_LIMIT_ERROR_CODES : list Z := [101].
Definition TICKER_LIMIT_MESSAGE_MARKERS : list string :=
  ["max number of tickers"; "maximum number of market data"; "market data lines"].

Record CapacityEstimate := {
  configured_capacity : Z;
  estimated_capacity : Z;
  observed_lower_bound : Z;
  active_high_watermark : Z;
  consecutive_full_successes : Z;
  last_rejection_at : option string;
  last_updated_at : option string;
}.

Definition initial_capacity (configured : Z) : CapacityEstimate :=
  let capacity := Z.max configured 1 in
  {| configured_capacity := capacity; estimated_capacity := capacity; observed_lower_bound := 0;
     active_high_watermark := 0; consecutive_full_successes := 0; last_rejection_at := None;
     last_updated_at := None |}.

Definition effective_capacity (s : CapacityEstimate) : Z :=
  Z.min (estimated_capacity s) (configured_capacity s).

Definition is_ticker_limit_error (error_code : Z) (message : string) : bool :=
  bool_decide (error_code ∈ TICKER_LIMIT_ERROR_CODES)
  || existsb (λ marker, str_contains marker (str_lower message)) TICKER_LIMIT_MESSAGE_MARKERS.

(** [asdict(state)] as it is written. *)
Definition capacity_to_dict (s : CapacityEstimate) : pydict :=
  [("configured_capacity", VInt (configured_capacity s));
   ("estimated_capacity", VInt (estimated_capacity s));
   ("observed_lower_bound", VInt (observed_lower_bound s));
   ("active_high_watermark", VInt (active_high_watermark s));
   ("consecutive_full_successes", VInt (consecutive_full_successes s));
   ("last_rejection_at", v_opt_str (last_rejection_at s));
   ("last_updated_at", v_opt_str (last_updated_at s))].

(** [_positive_int]: an infinite float is not caught. *)
Definition positive_int (v : pyval) : res (option Z) :=
  match py_int v with
  | Ok z => Ok (if 0 <? z then Some z else None)
  | Err e => if bool_decide (e ∈ [TypeError; ValueError]) then Ok None else Err e
  end.
Definition optional_text (v : pyval) : option string :=
  if truthy v then Some (py_str v) else None.

Definition load_capacity_estimate (file : FileContent) (configured : Z) : res CapacityEstimate :=
  let initial := initial_capacity configured in
  match file with
  | Json (VDict payload) =>
      estimated ← positive_int (vget "estimated_capacity" payload);
      let count k := z ← py_int (vget_or k (VInt 0) payload); Ok (Z.max z 0) in
      lower ← count "observed_lower_bound";
      high ← count "active_high_watermark";
      full ← count "consecutive_full_successes";
      Ok {| configured_capacity := configured_capacity initial;
            estimated_capacity := Z.min (default (estimated_capacity initial) estimated)
                                    (configured_capacity initial);
            observed_lower_bound := lower; active_high_watermark := high;
            consecutive_full_successes := full;
            last_rejection_at := optional_text (vget "last_rejection_at" payload);
            last_updated_at := optional_text (vget "last_updated_at" payload) |}
  | Undecodable => Err ValueError
  | _ => Ok initial
  end.

(** The tracker: its state and its file. *)
Definition observe_success (s : CapacityEstimate) (file : FileContent) (active_lines now : Z)
    : CapacityEstimate * FileContent :=
  let active := Z.max active_lines 0 in
  let full := if estimated_capacity s <=? active then consecutive_full_successes s + 1 else 0 in
  let grows := (10 <=? full) && (estimated_capacity s <? configured_capacity s) in
  let estimate := if grows then estimated_capacity s + 1 else estimated_capacity s in
  let changed := negb (estimate =? estimated_capacity s) in
  let s := {| configured_capacity := configured_capacity s; estimated_capacity := estimate;
              observed_lower_bound := Z.max (observed_lower_bound s) active;
              active_high_watermark := Z.max (active_high_watermark s) active;
              consecutive_full_successes := if grows then 0 else full;
              last_rejection_at := last_rejection_at s;
              last_updated_at := if changed then Some (isoformat now) else last_updated_at s |} in
  (s, if changed then Json (VDict (capacity_to_dict s)) else file).

Definition observe_error (s : CapacityEstimate) (file : FileContent) (error_code : Z)
    (message : string) (active_lines now : Z) : CapacityEstimate * FileContent * bool :=
  if negb (is_ticker_limit_error error_code message) then (s, file, false) else
  let active := Z.max active_lines 1 in
  let lower := Z.max (observed_lower_bound s) active in
  let s := {| configured_capacity := configured_capacity s;
              estimated_capacity := Z.min (estimated_capacity s) (Z.max active lower);
              observed_lower_bound := lower;
              active_high_watermark := Z.max (active_high_watermark s) active;
              consecutive_full_successes := 0;
              last_rejection_at := Some (isoformat now); last_updated_at := Some (isoformat now) |} in
  (s, Json (VDict (capacity_to_dict s)), true).

(** [active_market_data_lines]: the labels subscribed in any lane. *)
Definition active_market_data_lines (lanes : list (list string)) : Z :=
  Z.of_nat (length (dedup_keep_first [] (concat lanes))).

(** ** Option lines *)

Record IbkrOptionAllocation := {
  al_fallback : bool;
  discovered_capacity : Z;
  base_lines : Z;
  temporary_lines : Z;
  hot_option_lines : Z;
  rotation_option_lines : Z;
  reserve_lines : Z;
}.

Definition option_lines (a : IbkrOptionAllocation) : Z := hot_option_lines a + rotation_option_lines a.
Definition hot_lane_share (a : IbkrOptionAllocation) : float :=
  if option_lines a =? 0 then f_of_Z 0 else f_of_ratio (hot_option_lines a) (option_lines a).

(** The hot and rotation targets and the least reserve of a mode. *)
Definition quota_targets (fallback : bool) : Z * Z * Z := if fallback then (46, 38, 6) else (44, 20, 20).

Definition plan_ibkr_option_allocation (discovered_capacity : Z) (fallback : bool)
    (base_lines temporary_lines : Z) : res IbkrOptionAllocation :=
  if discovered_capacity <=? 0 then Err ValueError else
  let '(target_hot, target_rotation, minimum_reserve) := quota_targets fallback in
  let usable := Z.max (discovered_capacity - base_lines - temporary_lines - minimum_reserve) 0 in
  let hot := Z.min target_hot usable in
  let hot := hot - hot mod 2 in
  let rotation := Z.min target_rotation (Z.max (usable - hot) 0) in
  let rotation := rotation - rotation mod 2 in
  Ok {| al_fallback := fallback; discovered_capacity := discovered_capacity; base_lines := base_lines;
        temporary_lines := temporary_lines; hot_option_lines := hot; rotation_option_lines := rotation;
        reserve_lines := discovered_capacity - base_lines - temporary_lines - hot - rotation |}.

(** The lines the subscription planner asks for: the allocation, the option
    lines under the configured ceiling, and the hot ones among them. *)
Definition planned_option_lines (capacity : Z) (fallback : bool) (base_subs : list string)
    (slow_poll_chunk max_option_lines : Z) : res (IbkrOptionAllocation * Z * Z) :=
  allocation ← plan_ibkr_option_allocation capacity fallback
                 (Z.max (Z.of_nat (length base_subs)) 4) (Z.max slow_poll_chunk 0);
  let lines := Z.min (option_lines allocation) (Z.max max_option_lines 0) in
  Ok (allocation, lines, Z.min (hot_option_lines allocation) lines).
