(* ===== verification/LineQuotaProps.v ===== *)
(** * Properties of the provider capacity *)

From stdpp Require Import base numbers strings list.
From Stdlib Require Import ZArith Lia.
From S2P Require Import Prelude PyStr PyFloat PyTime PyDateTime PyDict PyVal FailoverController LineQuota.

#[local] Open Scope Z_scope.

(** ** The request quota *)

Definition clean (w : RequestWindow) : bool := (throttled w =? 0) && (failures w =? 0).

(** The requests of the clean windows at the head. *)
Fixpoint clean_requests (ws : list RequestWindow) : Z :=
  match ws with
  | [] => 0
  | w :: ws => if clean w then Z.max (attempts w) 0 + clean_requests ws else 0
  end.

Lemma clean_requests_nonneg ws : 0 ≤ clean_requests ws.
Proof. induction ws as [|w ws IH]; cbn; [done|]. destruct (clean w); lia. Qed.

(** The collector's quota over windows, the newest first, from a throttling. *)
Fixpoint quota_after (policy : QuotaPolicy) (ws : list RequestWindow) : QuotaState :=
  match ws with
  | [] => plain_quota THROTTLED
  | w :: ws => collector_quota (quota_after policy ws) w policy
  end.

Definition recovered (policy : QuotaPolicy) (ws : list RequestWindow) : Prop :=
  ∃ newer older, ws = newer ++ older ∧ (∀ w, w ∈ newer → throttled w = 0)
                 ∧ recovery_successes policy ≤ clean_requests older.

Lemma recovered_cons policy w ws : throttled w = 0 → recovered policy ws → recovered policy (w :: ws).
Proof.
  intros Hw (newer & older & -> & Hn & Hr). exists (w :: newer), older. split_and!; [done| |done].
  intros x [->|Hx]%elem_of_cons; auto.
Qed.

(** Where the machine stands after the windows. *)
Definition quota_inv (policy : QuotaPolicy) (ws : list RequestWindow) (s : QuotaState) : Prop :=
  match q_mode s with
  | THROTTLED => True
  | COOLDOWN => consecutive_successes s ≤ clean_requests ws
  | _ => recovered policy ws
  end.

Lemma quota_after_inv policy ws : quota_inv policy ws (quota_after policy ws).
Proof.
  induction ws as [|w ws IH]; [done|]. cbn [quota_after]. generalize dependent (quota_after policy ws). intros s IH.
  unfold collector_quota, advance_quota_state. destruct (Z.eqb_spec (throttled w) 0) as [Ht|]; cbn [negb]; [|done].
  unfold quota_inv in *. pose proof (clean_requests_nonneg ws) as Hnn.
  assert (Hclean : failures w = 0 → clean_requests (w :: ws) = Z.max (attempts w) 0 + clean_requests ws).
  { intros Hf. cbn. unfold clean. by rewrite Ht, Hf. }
  assert (Hpos := clean_requests_nonneg (w :: ws)).
  destruct (q_mode s) eqn:Em; cbn [bool_decide decide andb].
  - destruct (fgeb _ _); [by apply recovered_cons|]. destruct (_ && _); [by apply recovered_cons|].
    rewrite Em. by apply recovered_cons.
  - destruct (fgeb _ _); [by apply recovered_cons|]. destruct (_ && _); [by apply recovered_cons|].
    rewrite Em. by apply recovered_cons.
  - destruct (negb (_ && _)); [by rewrite Em|exact Hpos].
  - destruct (Z.eqb_spec (failures w) 0) as [Hf|]; cbn [negb].
    + rewrite Hf, Z.sub_0_r. rewrite (Hclean Hf) in Hpos. 
      destruct (Z.leb_spec (recovery_successes policy) (consecutive_successes s + Z.max (attempts w) 0)); cbn [q_mode plain_quota].
      * exists [], (w :: ws). split_and!; [done|by intros ? []%not_elem_of_nil|]. rewrite (Hclean Hf). lia.
      * cbn. unfold clean. rewrite Ht, Hf. cbn. lia.
    + destruct (Z.leb_spec (recovery_successes policy) 0); cbn [q_mode plain_quota]; [|done].
      exists [], (w :: ws). split_and!; [done|by intros ? []%not_elem_of_nil|lia].
  - destruct (negb _); [by apply recovered_cons|]. destruct (_ <=? _); by apply recovered_cons.
Qed.

(** Recovery from throttling.  After the provider throttled, lanes of
    priority 2 and beyond open again only once a run of windows with neither
    throttling nor failure carried the configured number of requests, and no
    window since was throttled. *)
Theorem lanes_reopen_after_recovery policy ws priority :
  lane_allowed (q_mode (quota_after policy ws)) priority = true → 2 ≤ priority →
  ∃ newer older, ws = newer ++ older ∧ (∀ w, w ∈ newer → throttled w = 0)
                 ∧ recovery_successes policy ≤ clean_requests older.
Proof.
  intros Ha Hp. pose proof (quota_after_inv policy ws) as H. unfold quota_inv in H.
  destruct (q_mode (quota_after policy ws)); cbn in Ha; try done. apply Z.leb_le in Ha. lia.
Qed.

Definition calm (n : Z) : RequestWindow :=
  {| attempts := n; retries := 0; throttled := 0; failures := 0; response_bytes := 0 |}.

Lemma lanes_reopen_after_recovery_witness :
  ∃ older, recovery_successes default_quota_policy ≤ clean_requests older.
Proof.
  destruct (lanes_reopen_after_recovery default_quota_policy [calm 6; calm 7; calm 0] 4) as (_ & older & _ & _ & H).
  - vm_compute. reflexivity.
  - lia.
  - exists older. exact H.
Defined.

(** One rolling window judged twice counts its requests twice. *)
Lemma same_window_counted_twice :
  let once := collector_quota (plain_quota COOLDOWN) (calm 5) default_quota_policy in
  once = QState COOLDOWN 5 0
  ∧ collector_quota once (calm 5) default_quota_policy = plain_quota Q_RECOVERING.
Proof. split; vm_compute; reflexivity. Qed.

(** ** The line capacity *)

Inductive capacity_op :=
  | Subscribed (active_lines now : Z)
  | Rejected (error_code : Z) (message : string) (active_lines now : Z)
  | Restarted.

Definition capacity_step (configured : Z) (s : CapacityEstimate) (file : FileContent) (op : capacity_op)
    : res (CapacityEstimate * FileContent) :=
  match op with
  | Subscribed active now => Ok (observe_success s file active now)
  | Rejected code message active now =>
      let '(s, file, _) := observe_error s file code message active now in Ok (s, file)
  | Restarted => s ← load_capacity_estimate file configured; Ok (s, file)
  end.

Inductive capacity_run (configured : Z) : CapacityEstimate → FileContent → Prop :=
  | cap_start : capacity_run configured (initial_capacity configured) NoFile
  | cap_step s file op s' file' :
      capacity_run configured s file → capacity_step configured s file op = Ok (s', file') →
      capacity_run configured s' file'.

Record capacity_wf (configured : Z) (s : CapacityEstimate) : Prop := {
  cap_configured : configured_capacity s = Z.max configured 1;
  cap_estimate : 1 ≤ estimated_capacity s ≤ configured_capacity s;
  cap_counts : 0 ≤ observed_lower_bound s ∧ 0 ≤ active_high_watermark s ∧ 0 ≤ consecutive_full_successes s;
}.

(** The file holds the estimate in force. *)
Definition persisted (configured : Z) (s : CapacityEstimate) (file : FileContent) : Prop :=
  match file with
  | NoFile => estimated_capacity s = Z.max configured 1
  | _ => ∃ s0, file = Json (VDict (capacity_to_dict s0)) ∧ capacity_wf configured s0
               ∧ estimated_capacity s0 = estimated_capacity s
  end.

Lemma load_capacity_written configured s :
  capacity_wf configured s →
  ∃ s', load_capacity_estimate (Json (VDict (capacity_to_dict s))) configured = Ok s'
        ∧ capacity_wf configured s' ∧ estimated_capacity s' = estimated_capacity s.
Proof.
  intros [Hc He (Hl & Hh & Hf)]. unfold load_capacity_estimate.
  change (vget "estimated_capacity" (capacity_to_dict s)) with (VInt (estimated_capacity s)).
  unfold positive_int. cbn [py_int]. rewrite (proj2 (Z.ltb_lt _ _)) by lia.
  eexists. split; [reflexivity|]. rewrite Hc in He.
  split; [|cbn; lia]. constructor; cbn; [done|lia|lia].
Qed.

Lemma capacity_run_inv configured s file :
  capacity_run configured s file → capacity_wf configured s ∧ persisted configured s file.
Proof.
  induction 1 as [|s file op s' file' _ [Hwf Hp] E].
  { split; [constructor; cbn; lia|done]. }
  destruct Hwf as [Hc He (Hl & Hh & Hf)]. destruct op as [active now|code message active now|]; cbn in E.
  - injection E as <- <-.
    set (full := if estimated_capacity s <=? Z.max active 0 then consecutive_full_successes s + 1 else 0).
    assert (Hfull : 0 ≤ full) by (unfold full; destruct (_ <=? _); lia). clearbody full.
    set (grows := (10 <=? full) && (estimated_capacity s <? configured_capacity s)).
    assert (Hg : grows = true → estimated_capacity s < configured_capacity s)
      by (unfold grows; intros [_ ?%Z.ltb_lt]%andb_true_iff; done).
    clearbody grows. split.
    + constructor; cbn; [done| |]; destruct grows; try specialize (Hg eq_refl); lia.
    + unfold persisted.
      destruct grows; cbn.
      * rewrite (proj2 (Z.eqb_neq _ _)) by lia. cbn. eexists. split; [done|]. cbn. split; [|done].
        specialize (Hg eq_refl). constructor; cbn; [done|lia|lia].
      * rewrite Z.eqb_refl. cbn. exact Hp.
  - unfold observe_error in E. destruct (is_ticker_limit_error code message); cbn in E; injection E as <- <-; [|by split].
    split; [constructor; cbn; [done|lia|lia]|]. cbn. eexists. split; [done|]. cbn. split; [|done]. constructor; cbn; [done|lia|lia].
  - apply res_bind_ok in E as (s0 & E & E0). injection E0 as <- <-. destruct file as [| | |v].
    + cbn in E. injection E as <-. split; [constructor; cbn; lia|done].
    + by destruct Hp as (s1 & ? & _).
    + by destruct Hp as (s1 & ? & _).
    + destruct Hp as (s1 & [= ->] & Hwf1 & Hest).
      destruct (load_capacity_written configured s1 Hwf1) as (s2 & E2 & Hwf2 & Hest2). rewrite E in E2. injection E2 as <-.
      split; [done|]. cbn. eexists. split; [done|]. split; [done|congruence].
Qed.

Lemma allocation_fits capacity fallback base temporary a :
  0 ≤ base → 0 ≤ temporary → plan_ibkr_option_allocation capacity fallback base temporary = Ok a →
  let '(target_hot, target_rotation, minimum_reserve) := quota_targets fallback in
  base + temporary + option_lines a + reserve_lines a = capacity
  ∧ 0 ≤ hot_option_lines a ≤ target_hot ∧ 0 ≤ rotation_option_lines a ≤ target_rotation
  ∧ hot_option_lines a mod 2 = 0 ∧ rotation_option_lines a mod 2 = 0
  ∧ (base + temporary + minimum_reserve ≤ capacity → minimum_reserve ≤ reserve_lines a)
  ∧ (capacity < base + temporary + minimum_reserve → option_lines a = 0).
Proof.
  intros Hb Ht. unfold plan_ibkr_option_allocation, option_lines. destruct (capacity <=? 0); [done|].
  assert (Hmod : ∀ x, 0 ≤ x → 0 ≤ x - x mod 2 ≤ x ∧ (x - x mod 2) mod 2 = 0).
  { intros x Hx. pose proof (Z.mod_pos_bound x 2 ltac:(lia)). pose proof (Z.mod_le x 2 Hx ltac:(lia)). split; [lia|].
    by rewrite Zminus_mod, Z.mod_mod, Z.sub_diag. }
  destruct (quota_targets fallback) as [[th tr] mr] eqn:Eq.
  assert (0 ≤ th ∧ 0 ≤ tr) by (destruct fallback; injection Eq as <- <- <-; lia). intros [= <-]. cbn.
  set (usable := Z.max (capacity - base - temporary - mr) 0). pose proof (Hmod (Z.min th usable) ltac:(lia)) as [Hh1 Hh2].
  set (hot := Z.min th usable - Z.min th usable mod 2) in *.
  pose proof (Hmod (Z.min tr (Z.max (usable - hot) 0)) ltac:(lia)) as [Hr1 Hr2].
  set (rot := Z.min tr (Z.max (usable - hot) 0) - Z.min tr (Z.max (usable - hot) 0) mod 2) in *.
  split_and!; try done; lia.
Qed.

(** C32: The lines fit.  Whatever the tracker observed, a limit error, growth or
    restart, its effective capacity stays between one and the configured one and
    survives a restart; the option lines planned from it fit next to the base
    and temporary lines, come in call/put pairs under the mode's targets, keep
    the mode's reserve whenever the capacity allows it and are none otherwise. *)
Theorem planned_lines_fit configured s file fallback base_subs chunk ceiling :
  capacity_run configured s file →
  let capacity := effective_capacity s in
  let base := Z.max (Z.of_nat (length base_subs)) 4 in
  let temporary := Z.max chunk 0 in
  let '(target_hot, target_rotation, minimum_reserve) := quota_targets fallback in
  1 ≤ capacity ≤ Z.max configured 1
  ∧ (∃ s', load_capacity_estimate file configured = Ok s' ∧ effective_capacity s' = capacity)
  ∧ ∃ a lines hot, planned_option_lines capacity fallback base_subs chunk ceiling = Ok (a, lines, hot)
      ∧ base + temporary + option_lines a + reserve_lines a = capacity
      ∧ 0 ≤ hot ≤ lines ∧ lines ≤ option_lines a ∧ lines ≤ Z.max ceiling 0
      ∧ hot_option_lines a ≤ target_hot ∧ rotation_option_lines a ≤ target_rotation
      ∧ hot_option_lines a mod 2 = 0 ∧ rotation_option_lines a mod 2 = 0
      ∧ (base + temporary + minimum_reserve ≤ capacity → minimum_reserve ≤ reserve_lines a)
      ∧ (capacity < base + temporary + minimum_reserve → lines = 0).
Proof.
  intros Hrun. destruct (capacity_run_inv _ _ _ Hrun) as [[Hc He Hcnt] Hp]. cbv zeta.
  assert (Heff : effective_capacity s = estimated_capacity s) by (unfold effective_capacity; lia). rewrite Heff.
  destruct (plan_ibkr_option_allocation (estimated_capacity s) fallback (Z.max (Z.of_nat (length base_subs)) 4)
              (Z.max chunk 0)) as [a|e] eqn:Ea.
  2: { exfalso. unfold plan_ibkr_option_allocation in Ea. rewrite (proj2 (Z.leb_gt _ _)) in Ea by lia.
       by destruct (quota_targets fallback) as [[? ?] ?]. }
  pose proof (allocation_fits (estimated_capacity s) fallback (Z.max (Z.of_nat (length base_subs)) 4)
                (Z.max chunk 0) a ltac:(lia) ltac:(lia) Ea) as Hfit.
  destruct (quota_targets fallback) as [[th tr] mr].
  destruct Hfit as (Hsum & Hh & Hr & Hh2 & Hr2 & Hres & Hnone). split; [lia|]. split.
  - destruct file as [| | |v]; [|by destruct Hp as (? & ? & _)..|].
    + eexists. split; [reflexivity|]. cbn in Hp. unfold effective_capacity. cbn. lia.
    + destruct Hp as (s0 & [= ->] & Hwf0 & Hest). destruct (load_capacity_written configured s0 Hwf0) as (s' & -> & [Hc' He' _] & Hest').
      exists s'. split; [done|]. unfold effective_capacity. lia.
  - unfold planned_option_lines. rewrite Ea. cbn [mbind res_bind]. do 3 eexists. split; [reflexivity|].
    unfold option_lines in *. split_and!; try done; lia.
Qed.

(** A rejection at 80 lines leaves 80, and the lines that fit them. *)
Definition after_rejection : CapacityEstimate * FileContent :=
  match capacity_step 100 (initial_capacity 100) NoFile (Rejected 101 "Max number of tickers has been reached" 80 0) with
  | Ok r => r
  | Err _ => (initial_capacity 100, NoFile)
  end.

Lemma planned_lines_fit_witness :
  effective_capacity after_rejection.1 = 80
  ∧ ∃ a lines hot, planned_option_lines 80 false [] 6 90 = Ok (a, lines, hot) ∧ 20 ≤ reserve_lines a.
Proof.
  assert (E : effective_capacity after_rejection.1 = 80) by (vm_compute; reflexivity). split; [exact E|].
  assert (Hrun : capacity_run 100 after_rejection.1 after_rejection.2).
  { apply (cap_step _ (initial_capacity 100) NoFile (Rejected 101 "Max number of tickers has been reached" 80 0));
      [constructor|vm_compute; reflexivity]. }
  destruct (planned_lines_fit 100 after_rejection.1 after_rejection.2 false [] 6 90 Hrun)
    as (_ & _ & a & lines & hot & H1 & _ & _ & _ & _ & _ & _ & _ & _ & H2 & _).
  rewrite E in H1, H2. exists a, lines, hot. split; [exact H1|]. apply H2. vm_compute. discriminate.
Defined.
