(* ===== verification/FileStore.v ===== *)
(** * A file store with failures, crashes and a concurrent writer

    Programs over the files below one root directory.  Each call to the
    operating system is one step: before it other processes may have appended
    to files, it may raise instead of acting, and the process may be killed
    there.  A script says what happens at each step; past its end nothing goes
    wrong.  JSON state files are kept as what a reader sees of them. *)

From stdpp Require Import base list strings gmap.
From Stdlib Require Import ZArith Lia.
From S2P Require Import Prelude PyStr PyFloat PyTime PyDateTime PyDict PyVal.

#[local] Open Scope Z_scope.

(** ** Exceptions *)

Inductive exc_kind := OS_ERROR | RUNTIME_ERROR | VALUE_ERROR | OTHER_ERROR.
#[global] Instance exc_kind_eq_dec : EqDecision exc_kind.
Proof. solve_decision. Defined.

(** An exception: what [except] clauses see of its class, the name of the
    class and [str(exc)]. *)
Record exc := Exc { exc_is : exc_kind; exc_name : string; exc_text : string }.

(** [f"{type(exc).__name__}: {exc}"]. *)
Definition exc_detail (e : exc) : string := exc_name e +:+ ": " +:+ exc_text e.

Definition exc_of (e : pyexn) : exc :=
  match e with
  | ValueError => Exc VALUE_ERROR "ValueError" ""
  | RuntimeError => Exc RUNTIME_ERROR "RuntimeError" ""
  | IOFailure => Exc OS_ERROR "OSError" ""
  | OverflowError => Exc OTHER_ERROR "OverflowError" ""
  | TypeError => Exc OTHER_ERROR "TypeError" ""
  | KeyError => Exc OTHER_ERROR "KeyError" ""
  | _ => Exc OTHER_ERROR "Exception" ""
  end.

(** [except OSError], [except (OSError, RuntimeError)]. *)
Definition is_os (e : exc) : bool := bool_decide (exc_is e = OS_ERROR).
Definition is_os_or_runtime (e : exc) : bool :=
  bool_decide (exc_is e ∈ [OS_ERROR; RUNTIME_ERROR]).

(** ** The files *)

(** A path relative to the root, as its components. *)
Abbreviation path := (list string).

Definition path_name (p : path) : string := default "" (last p).
(** [path.with_name(name)]. *)
Definition with_name (p : path) (name : string) : path := removelast p ++ [name].
(** [path.as_posix()]. *)
Definition as_posix (p : path) : string := str_join "/" p.

Inductive node :=
  | Regular (content : string) (mtime_ns : Z)
  (** a symbolic link: the file it leads to, if any, and whether that is below
      the root *)
  | Link (target : option (string * Z)) (inside : bool)
  (** a directory, a device or a socket *)
  | Special (size mtime_ns : Z).

(** The files, and the JSON state files, by path.  A directory that no
    operation asks about is not recorded. *)
Record Store := { nodes : gmap path node; documents : gmap path FileContent }.

Definition set_node (p : path) (n : node) (s : Store) : Store :=
  {| nodes := <[p := n]> (nodes s); documents := documents s |}.
Definition drop_node (p : path) (s : Store) : Store :=
  {| nodes := delete p (nodes s); documents := documents s |}.
Definition set_document (p : path) (c : FileContent) (s : Store) : Store :=
  {| nodes := nodes s; documents := <[p := c]> (documents s) |}.
Definition drop_document (p : path) (s : Store) : Store :=
  {| nodes := nodes s; documents := delete p (documents s) |}.
Definition document (p : path) (s : Store) : FileContent := default NoFile (documents s !! p).

(** Content, modification time and whether the path leads to a regular file. *)
Definition reached (n : node) : option (string * Z) :=
  match n with Regular c m => Some (c, m) | Link t _ => t | Special _ _ => None end.

(** Appending at the time [stamp], creating the file if need be. *)
Definition append_node (text : string) (stamp : Z) (n : option node) : option node :=
  match n with
  | None => Some (Regular text stamp)
  | Some (Regular c _) => Some (Regular (c +:+ text) stamp)
  | Some (Link (Some (c, _)) i) => Some (Link (Some (c +:+ text, stamp)) i)
  | Some (Link None i) => Some (Link (Some (text, stamp)) i)
  | Some (Special _ _) => None
  end.

(** ** Steps *)

(** What another process appends: where, what and when. *)
Record Arrival := { arr_path : path; arr_text : string; arr_mtime : Z }.

Definition arrive (s : Store) (a : Arrival) : Store :=
  match append_node (arr_text a) (arr_mtime a) (nodes s !! arr_path a) with
  | Some n => set_node (arr_path a) n s
  | None => s
  end.

Inductive fate := Runs | Fails (e : exc) | Crashes.

(** One step of the script: the arrivals before it, its fate, and the time that
    a file written by it gets. *)
Record Move := { arrivals : list Arrival; move_fate : fate; stamp : Z }.
Definition quiet : Move := {| arrivals := []; move_fate := Runs; stamp := 0 |}.

(** The store, the steps to come, and how many unique names were drawn. *)
Record World := { store : Store; script : list Move; drawn : nat }.

Inductive Outcome (A : Type) := Done (a : A) | Raised (e : exc) | Killed.
Arguments Done {A} a.
Arguments Raised {A} e.
Arguments Killed {A}.

Definition Prog (A : Type) : Type := World → World * Outcome A.

#[global] Instance prog_ret : MRet Prog := λ _ a w, (w, Done a).
#[global] Instance prog_bind : MBind Prog := λ _ _ k m w,
  match m w with
  | (w, Done a) => k a w
  | (w, Raised e) => (w, Raised e)
  | (w, Killed) => (w, Killed)
  end.

#[global] Instance prog_fmap : FMap Prog := λ _ _ f m, a ← m; mret (f a).

Definition raise {A} (e : exc) : Prog A := λ w, (w, Raised e).
Definition lift {A} (m : res A) : Prog A := λ w,
  match m with Ok a => (w, Done a) | Err e => (w, Raised (exc_of e)) end.
Definition lift_sum {A} (m : exc + A) : Prog A := λ w,
  match m with inl e => (w, Raised e) | inr a => (w, Done a) end.

(** [try: m except ...]: [h e] is the handler of [e], when there is one. *)
Definition try_with {A} (m : Prog A) (h : exc → option (Prog A)) : Prog A := λ w,
  match m w with
  | (w, Raised e) => match h e with Some m => m w | None => (w, Raised e) end
  | r => r
  end.
(** [try: m except <cls>: h]. *)
Definition try_for {A} (cls : exc → bool) (m : Prog A) (h : exc → Prog A) : Prog A :=
  try_with m (λ e, if cls e then Some (h e) else None).

(** [try: m finally: f]; a killed process runs nothing more. *)
Definition finally {A} (m : Prog A) (f : Prog unit) : Prog A := λ w,
  match m w with
  | (w, Killed) => (w, Killed)
  | (w, o) => match f w with
              | (w, Done _) => (w, o)
              | (w, Raised e) => (w, Raised e)
              | (w, Killed) => (w, Killed)
              end
  end.

(** The next move of the script. *)
Definition next_move (w : World) : Move * list Move :=
  match script w with m :: r => (m, r) | [] => (quiet, []) end.

Definition step {A} (f : Z → Store → Store * (exc + A)) : Prog A := λ w,
  let '(m, rest) := next_move w in
  let s := foldl arrive (store w) (arrivals m) in
  let next s := {| store := s; script := rest; drawn := drawn w |} in
  match move_fate m with
  | Crashes => (next s, Killed)
  | Fails e => (next s, Raised e)
  | Runs => let '(s, r) := f (stamp m) s in
            (next s, match r with inl e => Raised e | inr a => Done a end)
  end.

(** A step that changes nothing. *)
Definition look {A} (f : Store → exc + A) : Prog A := step (λ _ s, (s, f s)).
(** A call whose effect the store does not show: a directory made, a mode set, a
    lock taken, a file synced. *)
Definition effectless : Prog unit := look (λ _, inr tt).

(** ** Calls *)

Section calls.
(** [str(root)], and the [n]th [uuid4().hex] of a process. *)
Context (root : string) (uuid_hex : nat → string).

Definition full_path (p : path) : string := root +:+ "/" +:+ as_posix p.

Definition missing (p : path) : exc :=
  Exc OS_ERROR "FileNotFoundError"
    ("[Errno 2] No such file or directory: " +:+ repr_str (full_path p)).
Definition missing_pair (p q : path) : exc :=
  Exc OS_ERROR "FileNotFoundError"
    ("[Errno 2] No such file or directory: " +:+ repr_str (full_path p) +:+ " -> " +:+ repr_str (full_path q)).
Definition not_a_file (p : path) : exc :=
  Exc OS_ERROR "IsADirectoryError" ("[Errno 21] Is a directory: " +:+ repr_str (full_path p)).

Definition stat_of (p : path) (s : Store) : exc + Z * Z :=
  match nodes s !! p with
  | Some (Special size m) => inr (size, m)
  | Some n => match reached n with
              | Some (c, m) => inr (str_len c, m)
              | None => inl (missing p)
              end
  | None => inl (missing p)
  end.
Definition content_of (p : path) (s : Store) : exc + string :=
  match nodes s !! p with
  | Some (Special _ _) => inl (not_a_file p)
  | Some n => match reached n with Some (c, _) => inr c | None => inl (missing p) end
  | None => inl (missing p)
  end.

(** [path.stat()]: size and modification time. *)
Definition stat_file (p : path) : Prog (Z * Z) := look (stat_of p).
Definition read_file (p : path) : Prog string := look (content_of p).
Definition is_symlink (p : path) : Prog bool :=
  look (λ s, inr match nodes s !! p with Some (Link _ _) => true | _ => false end).
Definition file_at (p : path) (s : Store) : bool :=
  match nodes s !! p with Some n => negb (bool_decide (reached n = None)) | None => false end.
Definition is_file (p : path) : Prog bool := look (λ s, inr (file_at p s)).
(** [S_ISREG(path.lstat().st_mode)]. *)
Definition lstat_regular (p : path) : Prog bool :=
  look (λ s, match nodes s !! p with
             | Some (Regular _ _) => inr true
             | Some _ => inr false
             | None => inl (missing p)
             end).
(** [path.resolve(strict=True).relative_to(root)]. *)
Definition resolve_inside (p : path) : Prog unit :=
  look (λ s, match nodes s !! p with
             | Some (Link None _) | None => inl (missing p)
             | Some (Link _ false) => inl (exc_of ValueError)
             | Some _ => inr tt
             end).

(** [os.rename], [os.replace]: on POSIX both overwrite the target. *)
Definition rename (p q : path) : Prog unit :=
  step (λ _ s, match nodes s !! p with
               | Some n => (set_node q n (drop_node p s), inr tt)
               | None => (s, inl (missing_pair p q))
               end).
(** [path.unlink()], [path.unlink(missing_ok=True)]. *)
Definition unlink (p : path) (missing_ok : bool) : Prog unit :=
  step (λ _ s, match nodes s !! p with
               | Some (Special _ _) => (s, inl (not_a_file p))
               | Some _ => (drop_node p s, inr tt)
               | None => (s, if missing_ok then inr tt else inl (missing p))
               end).
Definition write_file (p : path) (content : string) : Prog unit :=
  step (λ stamp s, (set_node p (Regular content stamp) s, inr tt)).
Definition append_file (p : path) (text : string) : Prog unit :=
  step (λ stamp s, match append_node text stamp (nodes s !! p) with
                   | Some n => (set_node p n s, inr tt)
                   | None => (s, inl (not_a_file p))
                   end).
(** [path.open("a")], for a lock on it. *)
Definition touch (p : path) : Prog unit :=
  step (λ stamp s, match nodes s !! p with
                   | None => (set_node p (Regular "" stamp) s, inr tt)
                   | Some (Special _ _) => (s, inl (not_a_file p))
                   | Some _ => (s, inr tt)
                   end).

Definition read_document (p : path) : Prog FileContent := look (λ s, inr (document p s)).
(** Writing a new JSON file ([open("x")]). *)
Definition create_document (p : path) (v : pyval) : Prog unit :=
  step (λ _ s, match documents s !! p with
               | None => (set_document p (Json v) s, inr tt)
               | Some _ => (s, inl (Exc OS_ERROR "FileExistsError"
                                      ("[Errno 17] File exists: " +:+ repr_str (full_path p))))
               end).
Definition replace_document (p q : path) : Prog unit :=
  step (λ _ s, match documents s !! p with
               | Some c => (set_document q c (drop_document p s), inr tt)
               | None => (s, inl (missing_pair p q))
               end).
Definition unlink_document (p : path) : Prog unit :=
  step (λ _ s, (drop_document p s, inr tt)).

(** [uuid4().hex]. *)
Definition draw : Prog string := λ w,
  ({| store := store w; script := script w; drawn := S (drawn w) |}, Done (uuid_hex (drawn w))).
End calls.

(** ** Reasoning

    [spec P m N X]: from a store where [P] holds, [m] leaves one where [N]
    holds of its result, or, if it raises or is killed anywhere, one where [X]
    holds; the arrivals of the script respect [ok]. *)

Definition assertion : Type := Store → nat → Prop.

Section specs.
Context (ok : Arrival → Prop).

Definition script_ok (w : World) : Prop := Forall (λ m, Forall ok (arrivals m)) (script w).

Definition spec {A} (P : assertion) (m : Prog A) (N : A → assertion) (X : assertion) : Prop :=
  ∀ w, script_ok w → P (store w) (drawn w) →
  let '(w', o) := m w in
  script_ok w' ∧ match o with
                 | Done a => N a (store w') (drawn w')
                 | _ => X (store w') (drawn w')
                 end.

(** [m] keeps [P], whatever happens. *)
Definition keeps {A} (P : assertion) (m : Prog A) : Prop := spec P m (λ _, P) P.

Definition stable (P : assertion) : Prop := ∀ s n a, ok a → P s n → P (arrive s a) n.

Lemma stable_foldl P s n l : stable P → Forall ok l → P s n → P (foldl arrive s l) n.
Proof. intros HP. revert s. induction l as [|a l IH]; intros s Hl H; [done|]. inversion Hl; subst. cbn. eauto. Qed.

Lemma stable_and P Q : stable P → stable Q → stable (λ s n, P s n ∧ Q s n).
Proof. intros HP HQ s n a Ha [H1 H2]. split; eauto. Qed.

Lemma spec_step {A} P (f : Z → Store → Store * (exc + A)) N (X : assertion) :
  stable P → (∀ s n, P s n → X s n) →
  (∀ st s n, P s n → match f st s with (s', inr a) => N a s' n | (s', inl _) => X s' n end) →
  spec P (step f) N X.
Proof.
  intros HP HX Hf [s sc d] Hok H. unfold step, next_move. cbn in *.
  destruct sc as [|m sc]; cbn.
  - specialize (Hf 0 s d H). destruct (f 0 s) as [s' [e|a]]; cbn; by split.
  - inversion Hok as [|? ? Hm Hsc]; subst. pose proof (stable_foldl P s d (arrivals m) HP Hm H) as H'.
    destruct (move_fate m); cbn; [|split; [done|by apply HX]..].
    specialize (Hf (stamp m) _ d H'). destruct (f _ _) as [s' [e|a]]; cbn; by split.
Qed.

Lemma spec_look {A} P (f : Store → exc + A) N (X : assertion) :
  stable P → (∀ s n, P s n → X s n) →
  (∀ s n a, P s n → f s = inr a → N a s n) → spec P (look f) N X.
Proof. intros HP HX Hf. apply spec_step; [done..|]. intros _ s n H. destruct (f s) eqn:E; eauto. Qed.

Lemma spec_conseq {A} (P P' : assertion) (m : Prog A) (N N' : A → assertion) (X X' : assertion) :
  spec P m N X → (∀ s n, P' s n → P s n) → (∀ a s n, N a s n → N' a s n) → (∀ s n, X s n → X' s n) →
  spec P' m N' X'.
Proof.
  intros Hm HP HN HX w Hok H. specialize (Hm w Hok (HP _ _ H)).
  destruct (m w) as [w' [a|e|]], Hm; eauto.
Qed.

Lemma spec_ret {A} (a : A) P N X : (∀ s n, P s n → N a s n) → spec P (mret a) N X.
Proof. intros H w Hok HP. cbn. eauto. Qed.

Lemma spec_raise {A} e P (N : A → assertion) (X : assertion) :
  (∀ s n, P s n → X s n) → spec P (raise e) N X.
Proof. intros H w Hok HP. cbn. eauto. Qed.

Lemma spec_bind {A B} P (m : Prog A) (k : A → Prog B) R N X :
  spec P m R X → (∀ a, spec (R a) (k a) N X) → spec P (m ≫= k) N X.
Proof.
  intros Hm Hk w Hok H. unfold mbind, prog_bind. specialize (Hm w Hok H).
  destruct (m w) as [w' [a|e|]]; destruct Hm as [Hok' H']; [|by split..].
  exact (Hk a w' Hok' H').
Qed.

Lemma spec_lift {A} (r : res A) P (N : A → assertion) (X : assertion) :
  (∀ s n, P s n → X s n) → (∀ a s n, r = Ok a → P s n → N a s n) → spec P (lift r) N X.
Proof. intros HX HN w Hok H. unfold lift. destruct r; cbn; (split; [done|]); eauto. Qed.

Lemma spec_lift_sum {A} (r : exc + A) P (N : A → assertion) (X : assertion) :
  (∀ s n, P s n → X s n) → (∀ a s n, r = inr a → P s n → N a s n) → spec P (lift_sum r) N X.
Proof. intros HX HN w Hok H. unfold lift_sum. destruct r; cbn; (split; [done|]); eauto. Qed.

Lemma spec_try {A} P (m : Prog A) h N (X' X : assertion) :
  spec P m N X' → (∀ s n, X' s n → X s n) → (∀ e m', h e = Some m' → spec X' m' N X) →
  spec P (try_with m h) N X.
Proof.
  intros Hm HX Hh w Hok H. unfold try_with. specialize (Hm w Hok H).
  destruct (m w) as [w' [a|e|]]; cbn in *; destruct Hm as [Hok' H']; [by split| |by eauto].
  destruct (h e) as [m'|] eqn:E; [|by eauto]. exact (Hh e m' E w' Hok' H').
Qed.

(** [X'] is where [m] may stop, [X] where the whole may. *)
Lemma spec_try_from {A} P cls (m : Prog A) h N (X' X : assertion) :
  spec P m N X' → (∀ s n, X' s n → X s n) → (∀ e, cls e = true → spec X' (h e) N X) →
  spec P (try_for cls m h) N X.
Proof.
  intros Hm HX Hh. eapply spec_try; [done|done|]. intros e m' E. destruct (cls e) eqn:Ec; [|done]. simplify_eq.
  by apply Hh.
Qed.

Lemma spec_try_for {A} P cls (m : Prog A) h N X :
  spec P m N X → (∀ e, cls e = true → spec X (h e) N X) → spec P (try_for cls m h) N X.
Proof. intros Hm Hh. by eapply spec_try_from. Qed.

Lemma spec_finally {A} P (m : Prog A) f N (X : assertion) :
  spec P m N X → (∀ a, spec (N a) f (λ _, N a) X) → keeps X f → spec P (finally m f) N X.
Proof.
  intros Hm HfN HfX w Hok H. unfold finally. specialize (Hm w Hok H).
  destruct (m w) as [w' [a|e|]]; cbn in *; destruct Hm as [Hok' H']; [| |by split].
  - specialize (HfN a w' Hok' H'). destruct (f w') as [w'' [u|e|]]; exact HfN.
  - specialize (HfX w' Hok' H'). destruct (f w') as [w'' [u|e'|]]; exact HfX.
Qed.

Lemma spec_draw hex P N X : (∀ s n, P s n → N (hex n) s (S n)) → spec P (draw hex) N X.
Proof. intros H w Hok HP. cbn. eauto. Qed.
End specs.
