(* ===== verification/Lake.v ===== *)
(** * The quote lake ([data_platform/lake/], [data_platform/ids.py])

    Hourly raw quote files are compacted into Parquet with a manifest, and a raw
    file is deleted once its compaction is verified again.  Every call to the
    operating system is a step of [FileStore]; DuckDB, which reads the raw lines
    and writes Parquet, is a parameter. *)

From stdpp Require Import base list strings gmap.
From Stdlib Require Import Ascii ZArith Lia.
From S2P Require Import Prelude PyStr PyFloat PyTime PyDateTime PyDict PyVal PyHash PyJson FileStore.

#[local] Open Scope Z_scope.

(** ** Identifiers ([ids.py]) *)

(** A component of a business key. *)
Inductive id_part :=
  | IdTime (d : pydt)
  | IdDate (day : Z)
  | IdValue (v : pyval).

(** [isoformat(timespec="microseconds")] of a UTC instant. *)
Definition iso_micro (u : Z) : string :=
  let t := wall_time u in
  iso_date (wall_date u) +:+ "T" +:+ zpad 2 (hour_of t) +:+ ":" +:+ zpad 2 (minute_of t) +:+ ":"
  +:+ zpad 2 (second_of t) +:+ "." +:+ zpad 6 (micro_of t) +:+ "+00:00".

Definition _canonical (part : id_part) : res pyval :=
  match part with
  | IdTime d => match dt_off d with
                | None => Err ValueError
                | Some _ => u ← aware_utc d; Ok (VStr (iso_micro u))
                end
  | IdDate day => Ok (VStr (iso_date day))
  | IdValue v => Ok v
  end.

Definition kind_chr (c : ascii) : bool :=
  let z := ascii_code c in
  ((97 <=? z) && (z <=? 122)) || ((48 <=? z) && (z <=? 57)) || (z =? 95).

(** The bytes of the prefix of every identifier. *)
Definition ID_DOMAIN : list Z := utf8 "spx-spark-data-platform-id-v1" ++ [0].

Definition deterministic_id (kind : string) (components : list id_part) : res string :=
  let normalized_kind := str_replace_chr "-" "_" (str_lower (str_strip kind)) in
  if String.eqb normalized_kind "" || negb (str_all kind_chr normalized_kind) then Err ValueError
  else
    parts ← res_mapM _canonical components;
    payload ← dumps (VList parts);
    let digest := sha256_hex (ID_DOMAIN ++ utf8 normalized_kind ++ [0] ++ utf8 payload) in
    Ok (normalized_kind +:+ "_" +:+ str_take 32 digest).

Definition make_event_key (event_type : string) (source_at : pydt) (source_identity : list string)
    : res string :=
  deterministic_id "evt" [IdValue (VStr event_type); IdTime source_at;
                          IdValue (VList (map VStr source_identity))].
Definition make_feature_snapshot_id (event_key : string) (available_at : pydt) (schema_version : Z)
    : res string :=
  deterministic_id "feat" [IdValue (VStr event_key); IdTime available_at; IdValue (VInt schema_version)].
Definition make_decision_id (event_key : option string) (strategy_name strategy_version : string)
    (decision_at : pydt) : res string :=
  deterministic_id "dec" [IdValue (v_opt_str event_key); IdValue (VStr strategy_name);
                          IdValue (VStr strategy_version); IdTime decision_at].
Definition make_delivery_id (decision_id channel : string) (attempted_at : pydt) : res string :=
  deterministic_id "delivery" [IdValue (VStr decision_id); IdValue (VStr channel); IdTime attempted_at].
Definition make_outcome_id (event_key : string) (decision_id : option string) (horizon_minutes : Z)
    : res string :=
  deterministic_id "outcome" [IdValue (VStr event_key); IdValue (v_opt_str decision_id);
                              IdValue (VInt horizon_minutes)].
Definition make_compaction_manifest_id (source_path source_sha256 : string) : res string :=
  deterministic_id "compact" [IdValue (VStr source_path); IdValue (VStr source_sha256)].

(** ** The layout ([layout.py]) *)

Definition QUOTE_SCHEMA_VERSION : string := "v1".
Definition QUOTE_WRITER_VERSION : string := "spx-spark-quote-compactor-v1".

(** Paths are relative to the data root. *)
Record RawQuotePartition := {
  source_path : path;
  pt_provider : string;
  pt_session_date : string;
  pt_hour : Z;
}.

(** The month and the day that [strptime] reads: one digit or two. *)
Definition strptime_field (low high : Z) (s : string) : option Z :=
  if str_all chr_is_digit s && ((str_len s =? 1) || (str_len s =? 2)) then
    z ← parse_digits s; if (low <=? z) && (z <=? high) then Some z else None
  else None.

(** [datetime.strptime(s, "%Y-%m-%d")]; a space may stand before a one-digit day. *)
Definition strptime_ymd (s : string) : option Z :=
  let year := str_take 4 s in
  let rest := str_drop 4 s in
  if str_isdigit year && (str_len year =? 4) && str_starts "-" rest then
    let rest := str_drop 1 rest in
    i ← str_find_chr "-" rest;
    y ← parse_digits year;
    m ← strptime_field 1 12 (str_take i rest);
    let day := str_drop (S i) rest in
    d ← strptime_field 1 31 (if str_starts " " day && (str_len day =? 2) then str_drop 1 day else day);
    match mk_date y m d with Ok o => Some o | Err _ => None end
  else None.

Definition partition_date (p : RawQuotePartition) : res Z :=
  of_option ValueError (strptime_ymd (pt_session_date p)).
Definition start_at (p : RawQuotePartition) : res Z :=
  day ← partition_date p; Ok (combine day (pt_hour p * HOUR)).
Definition end_at (p : RawQuotePartition) : res Z := start ← start_at p; dt_add start HOUR.

Definition source_relative_path (p : RawQuotePartition) : string := as_posix (source_path p).

Definition hour_dir (p : RawQuotePartition) : path :=
  ["schema=" +:+ QUOTE_SCHEMA_VERSION; "date=" +:+ pt_session_date p; "provider=" +:+ pt_provider p;
   "hour=" +:+ zpad 2 (pt_hour p)].
Definition parquet_path (p : RawQuotePartition) : path :=
  ["lake"; "quotes"] ++ hour_dir p ++ ["quotes.parquet"].
Definition manifest_path (p : RawQuotePartition) : path :=
  ["manifests"; "compaction"] ++ hour_dir p ++ ["quotes.json"].

(** [s.removeprefix(prefix).strip()] after [s.startswith(prefix)]. *)
Definition labelled (prefix s : string) : option string :=
  if str_starts prefix s then Some (str_strip (str_drop (String.length prefix) s)) else None.

Definition parse_raw_quote_partition (p : path) : option RawQuotePartition :=
  match p with
  | ["raw"; provider_part; date_part; hour_part; _] =>
      provider ← labelled "provider=" provider_part;
      session_date ← labelled "date=" date_part;
      hour_raw ← labelled "hour=" hour_part;
      if String.eqb provider "" || str_contains "/" provider || str_contains "\" provider then None else
      _ ← strptime_ymd session_date;
      hour ← parse_int hour_raw;
      if (0 <=? hour) && (hour <=? 23) && String.eqb hour_raw (zpad 2 hour) then
        Some {| source_path := p; pt_provider := provider; pt_session_date := session_date;
                pt_hour := hour |}
      else None
  | _ => None
  end.

Definition partition_before (a b : RawQuotePartition) : bool :=
  let str_cmp x y (k : bool) := String.ltb x y || (String.eqb x y && k) in
  str_cmp (pt_session_date a) (pt_session_date b)
    ((pt_hour a <? pt_hour b) || ((pt_hour a =? pt_hour b)
     && str_cmp (pt_provider a) (pt_provider b)
          (String.ltb (source_relative_path a) (source_relative_path b)))).

(** [discover_raw_quote_partitions], for a file name without wildcards. *)
Definition raw_quote_partitions (raw_file_name : string) (s : Store) : list RawQuotePartition :=
  let files := filter (λ p, file_at p s = true ∧ last p = Some raw_file_name) (map_to_list (nodes s)).*1 in
  sort_by partition_before (omap parse_raw_quote_partition files).
Definition discover_raw_quote_partitions (raw_file_name : string) : Prog (list RawQuotePartition) :=
  look (λ s, inr (raw_quote_partitions raw_file_name s)).

(** ** Manifests ([manifest.py]) *)

Definition MANIFEST_VERSION : Z := 1.

Record CompactionManifest := {
  manifest_version : Z;
  dataset : string;
  schema_version : string;
  writer_version : string;
  m_status : string;
  m_source_path : string;
  m_source_size : Z;
  m_source_mtime_ns : Z;
  m_source_sha256 : string;
  m_output_path : option string;
  m_output_size : option Z;
  m_output_sha256 : option string;
  m_row_count : Z;
  m_min_received_at : option string;
  m_max_received_at : option string;
  m_min_source_at : option string;
  m_max_source_at : option string;
  completed_at : string;
}.
#[global] Instance CompactionManifest_eq_dec : EqDecision CompactionManifest.
Proof. solve_decision. Defined.

Definition manifest_id (m : CompactionManifest) : res string :=
  make_compaction_manifest_id (m_source_path m) (m_source_sha256 m).

Definition v_opt_int (o : option Z) : pyval := match o with Some z => VInt z | None => VNone end.

Definition manifest_to_dict (m : CompactionManifest) : res pydict :=
  id ← manifest_id m;
  Ok [("manifest_version", VInt (manifest_version m)); ("dataset", VStr (dataset m));
      ("schema_version", VStr (schema_version m)); ("writer_version", VStr (writer_version m));
      ("status", VStr (m_status m)); ("source_path", VStr (m_source_path m));
      ("source_size", VInt (m_source_size m)); ("source_mtime_ns", VInt (m_source_mtime_ns m));
      ("source_sha256", VStr (m_source_sha256 m)); ("output_path", v_opt_str (m_output_path m));
      ("output_size", v_opt_int (m_output_size m)); ("output_sha256", v_opt_str (m_output_sha256 m));
      ("row_count", VInt (m_row_count m)); ("min_received_at", v_opt_str (m_min_received_at m));
      ("max_received_at", v_opt_str (m_max_received_at m));
      ("min_source_at", v_opt_str (m_min_source_at m)); ("max_source_at", v_opt_str (m_max_source_at m));
      ("completed_at", VStr (completed_at m)); ("manifest_id", VStr id)].

Definition _optional_str (v : pyval) : option string := if is_none v then None else Some (py_str v).
(** [str(payload[k])], [int(payload[k])]. *)
Definition text_at (k : string) (payload : pydict) : res string := py_str <$> vindex k payload.
Definition int_at (k : string) (payload : pydict) : res Z := v ← vindex k payload; py_int v.
(** [str(payload[k]) if payload.get(k) else None]. *)
Definition text_if (k : string) (payload : pydict) : option string :=
  if truthy (vget k payload) then Some (py_str (vget k payload)) else None.

Definition manifest_from_dict (payload : pydict) : res CompactionManifest :=
  version ← int_at "manifest_version" payload;
  dataset ← text_at "dataset" payload;
  schema ← text_at "schema_version" payload;
  writer ← text_at "writer_version" payload;
  status ← text_at "status" payload;
  source ← text_at "source_path" payload;
  size ← int_at "source_size" payload;
  mtime ← int_at "source_mtime_ns" payload;
  sha ← text_at "source_sha256" payload;
  output_size ← (if is_none (vget "output_size" payload) then Ok None
                 else Some <$> int_at "output_size" payload);
  rows ← int_at "row_count" payload;
  completed ← text_at "completed_at" payload;
  let m := {|
    manifest_version := version; dataset := dataset; schema_version := schema; writer_version := writer;
    m_status := status; m_source_path := source; m_source_size := size; m_source_mtime_ns := mtime;
    m_source_sha256 := sha; m_output_path := text_if "output_path" payload; m_output_size := output_size;
    m_output_sha256 := text_if "output_sha256" payload; m_row_count := rows;
    m_min_received_at := _optional_str (vget "min_received_at" payload);
    m_max_received_at := _optional_str (vget "max_received_at" payload);
    m_min_source_at := _optional_str (vget "min_source_at" payload);
    m_max_source_at := _optional_str (vget "max_source_at" payload); completed_at := completed |} in
  id ← manifest_id m;
  let supplied := vget "manifest_id" payload in
  if negb (is_none supplied) && negb (String.eqb (py_str supplied) id) then Err ValueError else Ok m.

(** What [load_manifest] makes of the file's content. *)
Definition decoded_manifest (c : FileContent) : res (option CompactionManifest) :=
  let decoded := match c with
                 | Json (VDict payload) => Some <$> manifest_from_dict payload
                 | Json _ | NoFile => Ok None
                 | Unreadable | Undecodable => Err ValueError
                 end in
  m ← try_except decoded [IOFailure; ValueError; TypeError; KeyError] (Ok None);
  Ok match m with
     | Some m => if manifest_version m =? MANIFEST_VERSION then Some m else None
     | None => None
     end.

Definition load_manifest (p : path) : Prog (option CompactionManifest) :=
  exists_ ← look (λ s, inr (negb (bool_decide (documents s !! p = None))));
  if negb exists_ then mret None
  else
    content ← try_for (λ e, bool_decide (exc_is e ∈ [OS_ERROR; VALUE_ERROR])) (read_document p)
                (λ _, mret NoFile);
    lift (decoded_manifest content).

Section compactor.
(** [uuid4().hex]. *)
Context (uuid_hex : nat → string).

Definition write_manifest (root : string) (p : path) (m : CompactionManifest) : Prog unit :=
  effectless;;
  hex ← draw uuid_hex;
  let temp := with_name p ("." +:+ path_name p +:+ "." +:+ hex +:+ ".tmp") in
  finally (payload ← lift (manifest_to_dict m);
           create_document root temp (VDict payload);;
           effectless;;
           effectless;;
           replace_document root temp p)
          (unlink_document temp).
End compactor.
