(* ===== verification/QuoteCompactor.v ===== *)
(** * The quote compactor ([data_platform/lake/compact.py])

    Compaction of one raw hour into Parquet and a manifest, and the deletion of
    the raw file behind its gates: eligibility, metadata, evidence, an audit
    line, quarantine, verification, and only then the unlink.  DuckDB is a
    parameter (the class [Duck]); [normalize.py]'s own checks are modelled. *)

From stdpp Require Import base list strings gmap.
From Stdlib Require Import Ascii ZArith Lia.
From S2P Require Import Prelude PyStr PyFloat PyTime PyDateTime PyDict PyVal PyHash PyJson FileStore Lake.

#[local] Open Scope Z_scope.

(** ** Integrity ([compact_support.py]) *)

Record SourceSnapshot := { ss_size : Z; ss_mtime_ns : Z; ss_sha256 : string }.
#[global] Instance SourceSnapshot_eq_dec : EqDecision SourceSnapshot.
Proof. solve_decision. Defined.

Fixpoint bytes_of (s : string) : list Z :=
  match s with "" => [] | String c s => ascii_code c :: bytes_of s end.

(** White space of [bytes.strip], other than the newline that ends a line. *)
Definition line_space (c : ascii) : bool :=
  let z := ascii_code c in (z =? 32) || ((9 <=? z) && (z <=? 13)).

(** The lines that are not blank; [seen] says that the current one is not. *)
Fixpoint jsonl_rows_from (seen : bool) (s : string) : Z :=
  match s with
  | "" => if seen then 1 else 0
  | String c s =>
      if ascii_code c =? 10 then (if seen then 1 else 0) + jsonl_rows_from false s
      else jsonl_rows_from (seen || negb (line_space c)) s
  end.
Definition jsonl_rows (s : string) : Z := jsonl_rows_from false s.

(** ** DuckDB *)

Record NormalizedQuoteStats := {
  st_row_count : Z;
  st_min_received_at : string;
  st_max_received_at : string;
  st_min_source_at : string;
  st_max_source_at : string;
}.

(** The arguments of [create_normalized_quotes]. *)
Record NormalizeArgs := {
  expected_provider : string;
  partition_start : Z;
  partition_end : Z;
  na_source_relative_path : string;
  na_source_sha256 : string;
}.

(** What DuckDB answers: on the raw text, the counts of invalid rows, the
    statistics of the normalized table and its Parquet bytes; on Parquet bytes,
    the same statistics as a row, and the row count; and what it raises on a
    file that cannot be read. *)
Class Duck := {
  duck_invalid : NormalizeArgs → string → exc + (Z * Z * Z * Z);
  duck_stats : NormalizeArgs → string → exc + NormalizedQuoteStats;
  duck_copy : NormalizeArgs → Z → string → exc + string;
  duck_parquet_stats : string → exc + pyval;
  duck_parquet_rows : string → exc + Z;
  duck_unreadable : exc;
}.

Record QuoteLakeCompactor := {
  data_root : string;
  raw_file_name : string;
  settle_seconds : float;
  compression_level : Z;
  raw_delete_enabled : bool;
  raw_delete_grace_hours : Z;
}.

(** The checks of the constructor. *)
Definition check_compactor (c : QuoteLakeCompactor) : res QuoteLakeCompactor :=
  if fltb (settle_seconds c) (f_of_Z 0) then Err ValueError
  else if negb ((1 <=? compression_level c) && (compression_level c <=? 22)) then Err ValueError
  else if raw_delete_grace_hours c <? 24 then Err ValueError
  else Ok c.

Record CompactionResult := {
  r_source_path : string;
  r_output_path : option string;
  r_status : string;
  r_row_count : Z;
  r_source_sha256 : option string;
  r_detail : option string;
}.

Definition RAW_DELETE_FAILURE_STATUSES : list string :=
  ["raw_delete_blocked"; "raw_delete_failed"; "raw_delete_audit_failed"].
Definition SUMMARY_FAILURE_STATUSES : list string := "failed" :: RAW_DELETE_FAILURE_STATUSES.
Definition RAW_DELETION_AUDIT_NAME : string := "raw_deletion_audit.jsonl".
Definition LIMITED_WORK_STATUSES : list string :=
  ["compacted"; "empty"; "would_compact"; "would_mark_empty"; "raw_deleted"; "would_delete_raw"].

Record CompactionSummary := {
  s_dry_run : bool;
  s_data_root : string;
  s_started_at : string;
  s_finished_at : string;
  s_results : list CompactionResult;
}.

Definition status_counts (s : CompactionSummary) : list (string * Z) :=
  let statuses := map r_status (s_results s) in
  sort_items (map (λ st, (st, Z.of_nat (length (filter (st =.) statuses)))) (remove_dups statuses)).
Definition summary_failed (s : CompactionSummary) : bool :=
  existsb (λ r, bool_decide (r_status r ∈ SUMMARY_FAILURE_STATUSES)) (s_results s).
Definition result_to_dict (r : CompactionResult) : pydict :=
  [("source_path", VStr (r_source_path r)); ("output_path", v_opt_str (r_output_path r));
   ("status", VStr (r_status r)); ("row_count", VInt (r_row_count r));
   ("source_sha256", v_opt_str (r_source_sha256 r)); ("detail", v_opt_str (r_detail r))].
Definition summary_to_dict (s : CompactionSummary) : pydict :=
  [("dry_run", VBool (s_dry_run s)); ("data_root", VStr (s_data_root s));
   ("started_at", VStr (s_started_at s)); ("finished_at", VStr (s_finished_at s));
   ("status_counts", VDict (map (λ kn, (kn.1, VInt kn.2)) (status_counts s)));
   ("results", VList (map (λ r, VDict (result_to_dict r)) (s_results s)))].

(** ** The gates ([raw_delete_machine.py]) *)

Inductive RawDeletePhase :=
  RETAINED | METADATA | CONTENT | AUTHORIZED | QUARANTINED | DELETED | BLOCKED | FAILED.
#[global] Instance RawDeletePhase_eq_dec : EqDecision RawDeletePhase.
Proof. solve_decision. Defined.
Definition raw_delete_phase_value (p : RawDeletePhase) : string :=
  match p with
  | RETAINED => "retained" | METADATA => "metadata" | CONTENT => "content" | AUTHORIZED => "authorized"
  | QUARANTINED => "quarantined" | DELETED => "deleted" | BLOCKED => "blocked" | FAILED => "failed"
  end.

Record RawDeleteGate := { g_phase : RawDeletePhase; g_reason : option string }.
Record RawDeleteEvidence := {
  ev_source : SourceSnapshot;
  ev_output : SourceSnapshot;
  ev_source_rows : Z;
  ev_parquet_rows : Z;
}.

Definition raw_delete_gate (enabled : bool) (result_status : string) (m : CompactionManifest)
    (partition_end now grace_hours : Z) : res RawDeleteGate :=
  let gate p r := {| g_phase := p; g_reason := r |} in
  if negb enabled || negb (bool_decide (result_status ∈ ["compacted"; "up_to_date"]))
  then Ok (gate RETAINED None)
  else if negb (String.eqb (m_status m) "verified") || (now <? partition_end) then Ok (gate RETAINED None)
  else
    match fromisoformat (completed_at m) with
    | None => Ok (gate BLOCKED (Some "manifest completed_at is invalid"))
    | Some d =>
        match dt_off d with
        | None => Ok (gate BLOCKED (Some "manifest completed_at must be timezone-aware"))
        | Some _ =>
            u ← aware_utc d;
            grace_deadline ← dt_add u (grace_hours * HOUR);
            Ok (gate (if grace_deadline <=? now then METADATA else RETAINED) None)
        end
    end.

Definition is_some_eq {A} `{EqDecision A} (x : A) (o : option A) : bool := bool_decide (o = Some x).

Definition evidence_mismatch_reason (e : RawDeleteEvidence) (m : CompactionManifest) : option string :=
  if negb (is_some_eq (ss_sha256 (ev_output e)) (m_output_sha256 m))
     || negb (is_some_eq (ss_size (ev_output e)) (m_output_size m))
  then Some "parquet checksum or size does not match manifest"
  else if negb (String.eqb (ss_sha256 (ev_source e)) (m_source_sha256 m))
          || negb (ss_size (ev_source e) =? m_source_size m)
  then Some "source checksum or size no longer matches manifest"
  else if negb (ev_source_rows e =? m_row_count m) || negb (ev_parquet_rows e =? m_row_count m)
          || negb (ev_source_rows e =? ev_parquet_rows e)
  then Some ("row count mismatch (source=" +:+ str_of_Z (ev_source_rows e) +:+ " parquet="
             +:+ str_of_Z (ev_parquet_rows e) +:+ " manifest=" +:+ str_of_Z (m_row_count m) +:+ ")")
  else None.

Definition quarantined_evidence_matches (s : SourceSnapshot) (row_count : Z) (m : CompactionManifest) : bool :=
  String.eqb (ss_sha256 s) (m_source_sha256 m) && (ss_size s =? m_source_size m)
  && (row_count =? m_row_count m).

(** The early returns of [unsafe_raw_delete_target_reason]. *)
Definition first_reason (m k : Prog (option string)) : Prog (option string) :=
  r ← m; match r with Some _ => mret r | None => k end.
Definition refuse_if (b : bool) (reason : string) : Prog (option string) :=
  mret (if b then Some reason else None).

Definition refuse_link (p : path) : Prog (option string) :=
  try_for is_os (link ← is_symlink p; refuse_if link "refusing to delete via symlink")
    (λ e, mret (Some ("source path lstat failed: " +:+ exc_detail e))).

Fixpoint refuse_links (ps : list path) : Prog (option string) :=
  match ps with
  | [] => mret None
  | p :: ps => first_reason (refuse_link p) (refuse_links ps)
  end.

(** [_path_components]. *)
Definition path_components (p : path) : list path := map (λ n, take n p) (seq 1 (length p)).

Definition malformed_segment (p : path) : option string :=
  let bad (il : nat * string) := negb (str_starts il.2 (nth il.1 p "")) in
  match List.find bad [(1%nat, "provider="); (2%nat, "date="); (3%nat, "hour=")] with
  | Some (_, label) =>
      Some ("malformed " +:+ str_take (String.length label - 1) label +:+ " path segment")
  | None => None
  end.

Definition PROTECTED : list string := ["latest"; "runtime"; "manifests"; "lake"; "analytics"].

Definition unsafe_raw_delete_target_reason (root raw_file_name : string) (partition : RawQuotePartition)
    : Prog (option string) :=
  let source := source_path partition in
  let name := path_name source in
  first_reason (refuse_link source)
 (first_reason (try_for is_os (effectless;; mret None) (λ _, mret (Some "data root is not resolvable")))
 (first_reason (refuse_if (negb (bool_decide (length source = 5%nat)) || negb (String.eqb (nth 0 source "") "raw"))
                  "source path is not a raw hourly landing file")
 (first_reason (mret (malformed_segment source))
 (first_reason (refuse_if (existsb (λ part, bool_decide (part ∈ PROTECTED)) source)
                  "refusing to touch latest/runtime/manifest/lake paths")
 (first_reason (refuse_if (str_starts "." name || str_ends ".lock" name)
                  "refusing to delete lock or hidden runtime files")
 (first_reason (refuse_if (negb (String.eqb name raw_file_name)
                           || negb (String.eqb (nth 4 source "") raw_file_name))
                  "source file name does not match configured raw landing name")
 (first_reason (refuse_links (path_components source))
 (first_reason (try_for (λ e, bool_decide (exc_is e ∈ [OS_ERROR; VALUE_ERROR]))
                  (resolve_inside root source;; mret None)
                  (λ _, mret (Some "source path is outside the data root")))
 (first_reason (try_for is_os (regular ← lstat_regular root source;
                               refuse_if (negb regular) "source path is not a regular file")
                  (λ e, mret (Some ("source path lstat failed: " +:+ exc_detail e))))
               (refuse_if (bool_decide (parse_raw_quote_partition source = None))
                  "source path failed strict raw partition parse"))))))))))
.

Section compactor.
Context `{Duck} (uuid_hex : nat → string) (self : QuoteLakeCompactor).

Abbreviation root := (data_root self).

(** ** Reading *)

Definition snapshot_source (p : path) : Prog SourceSnapshot :=
  '(size, mtime) ← stat_file root p;
  content ← read_file root p;
  '(size', mtime') ← stat_file root p;
  if negb (size =? size') || negb (mtime =? mtime') then
    raise (Exc RUNTIME_ERROR "RuntimeError" ("source changed while hashing: " +:+ full_path root p))
  else mret {| ss_size := size'; ss_mtime_ns := mtime'; ss_sha256 := sha256_hex (bytes_of content) |}.

Definition count_jsonl_rows (p : path) : Prog Z := jsonl_rows <$> read_file root p.

(** DuckDB opening the file [p]. *)
Definition duck_open (p : path) : Prog string :=
  look (λ s, match content_of root p s with inr c => inr c | inl _ => inl duck_unreadable end).

Definition count_parquet_rows (p : path) : Prog Z :=
  effectless;; content ← duck_open p; lift_sum (duck_parquet_rows content).

(** ** Normalizing ([normalize.py]) *)

Definition invalid_rows (text : string) : exc := Exc VALUE_ERROR "InvalidQuoteRowsError" text.

(** The statistics, and the raw text that the normalized table was read from. *)
Definition create_normalized_quotes (source : path) (args : NormalizeArgs)
    : Prog (NormalizedQuoteStats * string) :=
  effectless;;
  content ← duck_open source;
  '(missing_received_at, wrong_provider, missing_instrument, outside_partition)
    ← lift_sum (duck_invalid args content);
  let failures := filter (λ ln, ln.2 ≠ 0)
    [("missing_received_at", missing_received_at); ("wrong_provider", wrong_provider);
     ("missing_instrument", missing_instrument); ("outside_partition", outside_partition)] in
  if negb (bool_decide (failures = [])) then
    raise (invalid_rows ("invalid quote rows in " +:+ full_path root source +:+ ": "
             +:+ str_join ", " (map (λ ln, ln.1 +:+ "=" +:+ str_of_Z ln.2) failures)))
  else
    stats ← lift_sum (duck_stats args content);
    if st_row_count stats =? 0 then raise (invalid_rows ("no quote rows in " +:+ full_path root source))
    else mret (stats, content).

Definition write_normalized_parquet (args : NormalizeArgs) (content : string) (output : path) : Prog unit :=
  bytes ← lift_sum (duck_copy args (compression_level self) content);
  write_file output bytes.

Definition expected_tuple (s : NormalizedQuoteStats) : list pyval :=
  [VInt (st_row_count s); VStr (st_min_received_at s); VStr (st_max_received_at s);
   VStr (st_min_source_at s); VStr (st_max_source_at s)].
Definition tuple_repr (l : list pyval) : string := "(" +:+ str_join ", " (map py_repr l) +:+ ")".
Definition row_of (v : pyval) : list pyval := match v with VList l => l | _ => [] end.

Definition verify_parquet (p : path) (expected : NormalizedQuoteStats) : Prog unit :=
  content ← duck_open p;
  actual ← lift_sum (duck_parquet_stats content);
  if py_eq (VList (row_of actual)) (VList (expected_tuple expected)) then mret tt
  else raise (Exc VALUE_ERROR "ValueError"
                ("Parquet verification failed for " +:+ full_path root p +:+ ": "
                 +:+ tuple_repr (row_of actual) +:+ " != " +:+ tuple_repr (expected_tuple expected))).

(** ** The audit *)

Definition raw_deletion_audit_path : path := ["manifests"; "compaction"; RAW_DELETION_AUDIT_NAME].

Definition append_raw_deletion_audit (entry : pydict) (now : Z) : Prog unit :=
  line ← lift (dumps (VDict (dmerge [("at", vtime now)] entry)));
  effectless;;
  append_file root raw_deletion_audit_path (line +:+ String (ascii_chr 10) "");;
  effectless.

(** [CompactionResult(result.source_path, result.output_path, status, ...)]. *)
Definition outcome (result : CompactionResult) (status : string) (sha : option string)
    (detail : option string) : CompactionResult :=
  {| r_source_path := r_source_path result; r_output_path := r_output_path result; r_status := status;
     r_row_count := r_row_count result; r_source_sha256 := sha; r_detail := detail |}.

Definition raw_delete_blocked (result : CompactionResult) (detail : string) (sha : option string)
    : CompactionResult :=
  outcome result "raw_delete_blocked" (match sha with Some _ => sha | None => r_source_sha256 result end)
    (Some detail).

Definition finalize_raw_deletion_audit (result : CompactionResult) (audit_base : pydict) (now : Z)
    (quarantine_path : option path) : Prog CompactionResult :=
  try_for is_os
    (append_raw_deletion_audit
       (dmerge audit_base
          [("event", VStr "final"); ("status", VStr (r_status result));
           ("detail", v_opt_str (r_detail result));
           ("quarantine_path", v_opt_str (as_posix <$> quarantine_path))]) now;;
     mret result)
    (λ e, mret (outcome result "raw_delete_audit_failed" (r_source_sha256 result)
                  (Some ("final audit fsync failed after status=" +:+ r_status result +:+ ": "
                         +:+ exc_detail e
                         +:+ match r_detail result with
                             | Some d => if String.eqb d "" then "" else "; prior_detail=" +:+ d
                             | None => ""
                             end)))).

Definition quarantine_failure (result : CompactionResult) (sha detail : string) (quarantine : path)
    : CompactionResult :=
  outcome result "raw_delete_failed" (Some sha)
    (Some (detail +:+ "; quarantine_path=" +:+ as_posix quarantine)).

Definition raw_delete_audit_base (partition : RawQuotePartition) (m : CompactionManifest)
    (e : RawDeleteEvidence) : pydict :=
  [("source_path", VStr (source_relative_path partition)); ("output_path", v_opt_str (m_output_path m));
   ("source_sha256", VStr (ss_sha256 (ev_source e))); ("output_sha256", VStr (ss_sha256 (ev_output e)));
   ("source_size", VInt (ss_size (ev_source e))); ("output_size", VInt (ss_size (ev_output e)));
   ("row_count", VInt (m_row_count m))].

(** ** Deletion *)

(** [_raw_delete_metadata_reason]. *)
Definition raw_delete_metadata_reason (partition : RawQuotePartition) (m : CompactionManifest)
    : Prog (option string) :=
  first_reason (unsafe_raw_delete_target_reason root (raw_file_name self) partition)
 (first_reason (refuse_if (negb (String.eqb (m_source_path m) (source_relative_path partition)))
                  "manifest source_path does not match partition source path")
 (first_reason (refuse_if (String.eqb (default "" (m_output_path m)) ""
                           || String.eqb (default "" (m_output_sha256 m)) ""
                           || bool_decide (m_output_size m = None))
                  "verified manifest is missing parquet output metadata")
 (first_reason (refuse_if (negb (is_some_eq (as_posix (parquet_path partition)) (m_output_path m)))
                  "manifest output_path does not match partition parquet path")
 (link ← is_symlink (parquet_path partition);
  missing ← (if link : bool then mret true else negb <$> is_file (parquet_path partition));
  refuse_if missing "parquet output is missing")))).

(** [_raw_delete_evidence]: the evidence, or the result that ends the call. *)
Definition raw_delete_evidence (partition : RawQuotePartition) (m : CompactionManifest)
    (result : CompactionResult) : Prog (RawDeleteEvidence + CompactionResult) :=
  let blocked := raw_delete_blocked result in
  output ← try_for is_os_or_runtime (inl <$> snapshot_source (parquet_path partition))
             (λ e, mret (inr (blocked ("parquet verification failed: " +:+ exc_detail e) None)));
  match output with
  | inr r => mret (inr r)
  | inl output =>
      if negb (is_some_eq (ss_sha256 output) (m_output_sha256 m))
         || negb (is_some_eq (ss_size output) (m_output_size m))
      then mret (inr (blocked "parquet checksum or size does not match manifest" None))
      else
        source ← try_for is_os_or_runtime (inl <$> snapshot_source (source_path partition))
                   (λ e, mret (inr (blocked ("source verification failed: " +:+ exc_detail e) None)));
        match source with
        | inr r => mret (inr r)
        | inl source =>
            if negb (String.eqb (ss_sha256 source) (m_source_sha256 m))
               || negb (ss_size source =? m_source_size m)
            then mret (inr (blocked "source checksum or size no longer matches manifest" (Some (ss_sha256 source))))
            else
              evidence ← try_for is_os_or_runtime
                (source_rows ← count_jsonl_rows (source_path partition);
                 parquet_rows ← count_parquet_rows (parquet_path partition);
                 mret (inl {| ev_source := source; ev_output := output; ev_source_rows := source_rows;
                              ev_parquet_rows := parquet_rows |}))
                (λ e, mret (inr (blocked ("row count verification failed: " +:+ exc_detail e)
                              (Some (ss_sha256 source)))));
              match evidence with
              | inr r => mret (inr r)
              | inl evidence =>
                  match evidence_mismatch_reason evidence m with
                  | Some reason => mret (inr (blocked reason (Some (ss_sha256 source))))
                  | None => mret (inl evidence)
                  end
              end
        end
  end.

(** [_raw_delete_dry_run]. *)
Definition raw_delete_dry_run (result : CompactionResult) (e : RawDeleteEvidence) : CompactionResult :=
  outcome result "would_delete_raw" (Some (ss_sha256 (ev_source e)))
    (Some "raw JSONL eligible for verified deletion").

(** [_authorize_raw_delete]. *)
Definition authorize_raw_delete (result : CompactionResult) (audit_base : pydict) (e : RawDeleteEvidence)
    (now : Z) : Prog (option CompactionResult) :=
  try_for is_os
    (append_raw_deletion_audit
       (dmerge audit_base
          [("event", VStr "authorize"); ("status", VStr (raw_delete_phase_value AUTHORIZED));
           ("detail", VStr "pre-delete verification passed; quarantine unlink authorized")]) now;;
     mret None)
    (λ x, mret (Some (outcome result "raw_delete_audit_failed" (Some (ss_sha256 (ev_source e)))
                        (Some ("pre-delete audit fsync failed: " +:+ exc_detail x))))).

Definition quarantine_name (name hex : string) : string :=
  "." +:+ name +:+ ".raw-delete-quarantine." +:+ hex.

(** [_quarantine_raw]: the quarantine path, or the result that ends the call. *)
Definition quarantine_raw (partition : RawQuotePartition) (result : CompactionResult)
    (e : RawDeleteEvidence) (audit_base : pydict) (now : Z) : Prog (path + CompactionResult) :=
  hex ← draw uuid_hex;
  let source := source_path partition in
  let quarantine := with_name source (quarantine_name (path_name source) hex) in
  try_for is_os (rename root source quarantine;; mret (inl quarantine))
    (λ x, inr <$> finalize_raw_deletion_audit
            (outcome result "raw_delete_failed" (Some (ss_sha256 (ev_source e)))
               (Some ("quarantine rename failed: " +:+ exc_detail x))) audit_base now None).

(** [_verify_quarantine]. *)
Definition verify_quarantine (quarantine : path) (result : CompactionResult) (m : CompactionManifest)
    (e : RawDeleteEvidence) (audit_base : pydict) (now : Z) : Prog (SourceSnapshot + CompactionResult) :=
  found ← try_for is_os_or_runtime
    (quarantined ← snapshot_source quarantine;
     rows ← count_jsonl_rows quarantine;
     mret (inl (quarantined, rows)))
    (λ x, inr <$> finalize_raw_deletion_audit
            (quarantine_failure result (ss_sha256 (ev_source e))
               ("quarantined raw preserved after re-verification error: " +:+ exc_detail x) quarantine)
            audit_base now (Some quarantine));
  match found with
  | inr r => mret (inr r)
  | inl (quarantined, rows) =>
      if quarantined_evidence_matches quarantined rows m then mret (inl quarantined)
      else
        inr <$> finalize_raw_deletion_audit
          (quarantine_failure result (ss_sha256 quarantined)
             "quarantined raw preserved after post-rename mismatch (sha256/size/rows)" quarantine)
          (dmerge audit_base
             [("source_sha256", VStr (ss_sha256 quarantined)); ("source_size", VInt (ss_size quarantined));
              ("row_count", VInt rows)]) now (Some quarantine)
  end.

(** [_verify_and_unlink_quarantine]. *)
Definition verify_and_unlink_quarantine (quarantine : path) (result : CompactionResult)
    (m : CompactionManifest) (e : RawDeleteEvidence) (audit_base : pydict) (now : Z)
    : Prog CompactionResult :=
  verification ← verify_quarantine quarantine result m e audit_base now;
  match verification with
  | inr r => mret r
  | inl verification =>
      removed ← try_for is_os (unlink root quarantine false;; mret None) (λ x, mret (Some x));
      match removed with
      | Some x =>
          finalize_raw_deletion_audit
            (quarantine_failure result (ss_sha256 (ev_source e))
               ("quarantined raw preserved after unlink failure: " +:+ exc_detail x) quarantine)
            audit_base now (Some quarantine)
      | None =>
          finalize_raw_deletion_audit
            (outcome result "raw_deleted" (Some (ss_sha256 verification))
               (Some "deleted verified closed-hour raw JSONL after grace period"))
            audit_base now None
      end
  end.

(** [_authorize_and_delete_raw]. *)
Definition authorize_and_delete_raw (partition : RawQuotePartition) (result : CompactionResult)
    (m : CompactionManifest) (e : RawDeleteEvidence) (now : Z) : Prog CompactionResult :=
  let audit_base := raw_delete_audit_base partition m e in
  audit_failure ← authorize_raw_delete result audit_base e now;
  match audit_failure with
  | Some r => mret r
  | None =>
      quarantined ← quarantine_raw partition result e audit_base now;
      match quarantined with
      | inr r => mret r
      | inl quarantine => verify_and_unlink_quarantine quarantine result m e audit_base now
      end
  end.

(** [_maybe_delete_raw]. *)
Definition maybe_delete_raw (partition : RawQuotePartition) (result : CompactionResult)
    (m : CompactionManifest) (now : Z) (dry_run : bool) : Prog CompactionResult :=
  end_ ← lift (end_at partition);
  gate ← lift (raw_delete_gate (raw_delete_enabled self) (r_status result) m end_ now
                 (raw_delete_grace_hours self));
  match g_phase gate with
  | RETAINED => mret result
  | BLOCKED =>
      mret (raw_delete_blocked result (str_or (g_reason gate) "eligibility blocked") None)
  | METADATA =>
      metadata_reason ← raw_delete_metadata_reason partition m;
      match metadata_reason with
      | Some reason => mret (raw_delete_blocked result reason None)
      | None =>
          evidence ← raw_delete_evidence partition m result;
          match evidence with
          | inr failure => mret failure
          | inl evidence =>
              if dry_run then mret (raw_delete_dry_run result evidence)
              else authorize_and_delete_raw partition result m evidence now
          end
      end
  | _ => raise (exc_of RuntimeError)
  end.

(** ** Compaction *)

(** The fields shared by [_manifest_matches_metadata] and
    [_verified_manifest_matches]. *)
Definition written_here (m : CompactionManifest) : bool :=
  String.eqb (schema_version m) QUOTE_SCHEMA_VERSION && String.eqb (writer_version m) QUOTE_WRITER_VERSION.

(** [_manifest_matches_metadata], for a source of the given size and time. *)
Definition manifest_matches_metadata (partition : RawQuotePartition) (m : option CompactionManifest)
    (size mtime_ns : Z) : Prog bool :=
  match m with
  | None => mret false
  | Some m =>
      if negb (bool_decide (m_status m ∈ ["verified"; "empty"])) then mret false
      else if negb (String.eqb (m_source_path m) (source_relative_path partition)) then mret false
      else if negb (written_here m) then mret false
      else if negb (m_source_size m =? size) then mret false
      else if negb (m_source_mtime_ns m =? mtime_ns) then mret false
      else if String.eqb (m_status m) "empty" then
        mret ((size =? 0) && bool_decide (m_output_path m = None))
      else if negb (is_some_eq (as_posix (parquet_path partition)) (m_output_path m)) then mret false
      else
        missing ← (if bool_decide (m_output_size m = None) || String.eqb (default "" (m_output_sha256 m)) ""
                   then mret true else negb <$> is_file (parquet_path partition));
        if missing : bool then mret false
        else
          try_for is_os_or_runtime
            (output ← snapshot_source (parquet_path partition);
             mret (is_some_eq (ss_size output) (m_output_size m)
                   && is_some_eq (ss_sha256 output) (m_output_sha256 m)))
            (λ _, mret false)
  end.

(** [_verified_manifest_matches]. *)
Definition verified_manifest_matches (partition : RawQuotePartition) (m : option CompactionManifest)
    (source : SourceSnapshot) : Prog bool :=
  match m with
  | None => mret false
  | Some m =>
      if negb (String.eqb (m_status m) "verified") then mret false
      else if negb (String.eqb (m_source_path m) (source_relative_path partition)) then mret false
      else if negb (String.eqb (m_source_sha256 m) (ss_sha256 source))
              || negb (m_source_size m =? ss_size source) then mret false
      else if negb (written_here m) then mret false
      else
        present ← is_file (parquet_path partition);
        if negb present || String.eqb (default "" (m_output_sha256 m)) "" then mret false
        else
          try_for is_os_or_runtime
            (output ← snapshot_source (parquet_path partition);
             mret (is_some_eq (ss_sha256 output) (m_output_sha256 m)))
            (λ _, mret false)
  end.

(** [_verified_manifest]. *)
Definition verified_manifest (partition : RawQuotePartition) (source output : SourceSnapshot)
    (stats : NormalizedQuoteStats) (now : Z) : CompactionManifest := {|
  manifest_version := MANIFEST_VERSION; dataset := "quotes"; schema_version := QUOTE_SCHEMA_VERSION;
  writer_version := QUOTE_WRITER_VERSION; m_status := "verified";
  m_source_path := source_relative_path partition; m_source_size := ss_size source;
  m_source_mtime_ns := ss_mtime_ns source; m_source_sha256 := ss_sha256 source;
  m_output_path := Some (as_posix (parquet_path partition)); m_output_size := Some (ss_size output);
  m_output_sha256 := Some (ss_sha256 output); m_row_count := st_row_count stats;
  m_min_received_at := Some (st_min_received_at stats); m_max_received_at := Some (st_max_received_at stats);
  m_min_source_at := Some (st_min_source_at stats); m_max_source_at := Some (st_max_source_at stats);
  completed_at := isoformat now |}.

(** [_empty_manifest]. *)
Definition empty_manifest (partition : RawQuotePartition) (source : SourceSnapshot) (now : Z)
    : CompactionManifest := {|
  manifest_version := MANIFEST_VERSION; dataset := "quotes"; schema_version := QUOTE_SCHEMA_VERSION;
  writer_version := QUOTE_WRITER_VERSION; m_status := "empty";
  m_source_path := source_relative_path partition; m_source_size := ss_size source;
  m_source_mtime_ns := ss_mtime_ns source; m_source_sha256 := ss_sha256 source;
  m_output_path := None; m_output_size := None; m_output_sha256 := None; m_row_count := 0;
  m_min_received_at := None; m_max_received_at := None; m_min_source_at := None; m_max_source_at := None;
  completed_at := isoformat now |}.

Definition compaction_result (partition : RawQuotePartition) (output : option string) (status : string)
    (rows : Z) (sha detail : option string) : CompactionResult :=
  {| r_source_path := source_relative_path partition; r_output_path := output; r_status := status;
     r_row_count := rows; r_source_sha256 := sha; r_detail := detail |}.

(** The source is empty. *)
Definition compact_empty (partition : RawQuotePartition) (existing : option CompactionManifest)
    (snapshot : SourceSnapshot) (now : Z) (dry_run : bool) : Prog CompactionResult :=
  let res output status rows detail :=
    compaction_result partition output status rows (Some (ss_sha256 snapshot)) detail in
  let marked := match existing with
                | Some m => String.eqb (m_status m) "empty"
                            && String.eqb (m_source_path m) (source_relative_path partition)
                            && String.eqb (m_source_sha256 m) (ss_sha256 snapshot)
                | None => false
                end in
  let verified := match existing with Some m => String.eqb (m_status m) "verified" | None => false end in
  if marked then mret (res None "empty_up_to_date" 0 None)
  else if verified then
    mret (res (Some (as_posix (parquet_path partition))) "failed" (from_option m_row_count 0 existing)
            (Some "closed source became empty; preserved previous verified partition"))
  else if dry_run then mret (res None "would_mark_empty" 0 None)
  else
    try_for is_os
      (write_manifest uuid_hex root (manifest_path partition) (empty_manifest partition snapshot now);;
       mret (res None "empty" 0 None))
      (λ e, mret (res None "failed" 0 (Some (exc_detail e)))).

(** Normalizing, verifying and publishing the Parquet file and its manifest. *)
Definition publish (partition : RawQuotePartition) (snapshot : SourceSnapshot) (now : Z) (temp : path)
    : Prog (CompactionManifest * NormalizedQuoteStats) :=
  effectless;;
  unlink root temp true;;
  effectless;;
  start ← lift (start_at partition);
  end_ ← lift (end_at partition);
  let args := {| expected_provider := pt_provider partition; partition_start := start;
                 partition_end := end_; na_source_relative_path := source_relative_path partition;
                 na_source_sha256 := ss_sha256 snapshot |} in
  '(stats, content) ← create_normalized_quotes (source_path partition) args;
  write_normalized_parquet args content temp;;
  verify_parquet temp stats;;
  after ← snapshot_source (source_path partition);
  if negb (bool_decide (after = snapshot)) then
    raise (Exc RUNTIME_ERROR "RuntimeError" "source changed while compaction was running")
  else
    effectless;;
    output ← snapshot_source temp;
    rename root temp (parquet_path partition);;
    let m := verified_manifest partition snapshot output stats now in
    write_manifest uuid_hex root (manifest_path partition) m;;
    mret (m, stats).

(** [except Exception] and [finally] around it. *)
Definition publish_or_fail (partition : RawQuotePartition) (snapshot : SourceSnapshot) (now : Z)
    : Prog ((CompactionManifest * NormalizedQuoteStats) + CompactionResult) :=
  let temp := with_name (parquet_path partition)
                ("." +:+ path_name (parquet_path partition) +:+ ".tmp") in
  finally
    (try_for (λ _, true) (inl <$> publish partition snapshot now temp)
       (λ e, mret (inr (compaction_result partition None "failed" 0 (Some (ss_sha256 snapshot))
                          (Some (exc_detail e))))))
    (try_for is_os (unlink root temp true) (λ _, mret tt)).

(** A source that the manifest does not settle by its size and time. *)
Definition compact_content (partition : RawQuotePartition) (existing : option CompactionManifest)
    (now : Z) (dry_run : bool) : Prog CompactionResult :=
  let output_label := Some (as_posix (parquet_path partition)) in
  found ← try_for is_os_or_runtime (inl <$> snapshot_source (source_path partition))
            (λ e, mret (inr (compaction_result partition None "failed" 0 None (Some (exc_detail e)))));
  match found with
  | inr r => mret r
  | inl snapshot =>
      let sha := Some (ss_sha256 snapshot) in
      if ss_size snapshot =? 0 then compact_empty partition existing snapshot now dry_run
      else
        matches ← verified_manifest_matches partition existing snapshot;
        match matches, existing with
        | true, Some m =>
            maybe_delete_raw partition
              (compaction_result partition output_label "up_to_date" (m_row_count m) sha None) m now dry_run
        | _, _ =>
            if dry_run then mret (compaction_result partition output_label "would_compact" 0 sha None)
            else
              published ← publish_or_fail partition snapshot now;
              match published with
              | inr failed => mret failed
              | inl (m, stats) =>
                  maybe_delete_raw partition
                    (compaction_result partition output_label "compacted" (st_row_count stats) sha None)
                    m now false
              end
        end
  end.

(** The result when the manifest settles the source, and the step to deletion. *)
Definition up_to_date_result (partition : RawQuotePartition) (m : CompactionManifest) : CompactionResult :=
  compaction_result partition (m_output_path m)
    (if String.eqb (m_status m) "empty" then "empty_up_to_date" else "up_to_date")
    (m_row_count m) (Some (m_source_sha256 m)) None.

(** [stat.st_mtime]. *)
Definition st_mtime (mtime_ns : Z) : float :=
  fadd (f_of_Z (mtime_ns / 1000000000)) (fmul (f_lit 1 9) (f_of_Z (mtime_ns mod 1000000000))).

(** [_compact_one_unlocked], at the UTC instant [now]. *)
Definition compact_one_unlocked (partition : RawQuotePartition) (now : Z) (dry_run : bool)
    : Prog CompactionResult :=
  let plain status detail := compaction_result partition None status 0 None detail in
  end_ ← lift (end_at partition);
  if now <? end_ then mret (plain "active_hour" (Some "hour is not closed"))
  else
    found ← try_for is_os (inl <$> stat_file root (source_path partition))
              (λ e, mret (inr (if String.eqb (exc_name e) "FileNotFoundError" then plain "vanished" None
                               else plain "failed" (Some (exc_text e)))));
    match found with
    | inr r => mret r
    | inl (size, mtime_ns) =>
        settle ← lift (td_seconds (settle_seconds self));
        settle_cutoff ← lift (dt_add now (- settle));
        mtime ← lift (of_option OverflowError (dt_fromtimestamp (st_mtime mtime_ns)));
        if settle_cutoff <? mtime then mret (plain "settling" (Some "source mtime is recent"))
        else
          existing ← load_manifest (manifest_path partition);
          matches ← manifest_matches_metadata partition existing size mtime_ns;
          match matches, existing with
          | true, Some m => maybe_delete_raw partition (up_to_date_result partition m) m now dry_run
          | _, _ => compact_content partition existing now dry_run
          end
    end.

(** A lock file held around [m]: [open("a")], [flock], and the release. *)
Definition with_lock {A} (lock : path) (m : Prog A) : Prog A :=
  effectless;; touch root lock;; effectless;; finally m effectless.

Definition compact_lock : path := ["manifests"; "compaction"; ".compact.lock"].

Definition compact_one (partition : RawQuotePartition) (now : pydt) (dry_run : bool)
    : Prog CompactionResult :=
  let body :=
    now ← lift (match dt_off now with Some _ => aware_utc now | None => Err ValueError end);
    compact_one_unlocked partition now dry_run in
  if dry_run then body else with_lock compact_lock body.

(** [delete_raw_if_manifest_matches], under both locks. *)
Definition delete_raw_if_manifest_matches (partition : RawQuotePartition) (expected : CompactionManifest)
    (now : pydt) (dry_run : bool) : Prog CompactionResult :=
  let source := source_path partition in
  let body :=
    current ← load_manifest (manifest_path partition);
    match current with
    | Some m =>
        if bool_decide (m = expected) then
          now ← lift (match dt_off now with Some _ => aware_utc now | None => Err ValueError end);
          maybe_delete_raw partition (up_to_date_result partition m) m now dry_run
        else mret (compaction_result partition (m_output_path expected) "raw_delete_blocked"
                     (m_row_count expected) (Some (m_source_sha256 expected))
                     (Some "compaction manifest changed after replay authorization"))
    | None => mret (compaction_result partition (m_output_path expected) "raw_delete_blocked"
                      (m_row_count expected) (Some (m_source_sha256 expected))
                      (Some "compaction manifest changed after replay authorization"))
    end in
  let locked := with_lock (with_name source ("." +:+ path_name source +:+ ".lock")) body in
  if dry_run then locked else with_lock compact_lock locked.

(** ** A run over every partition *)

Fixpoint run_partitions (ps : list RawQuotePartition) (now : Z) (dry_run : bool) (limit : option Z)
    (work_count : Z) : Prog (list CompactionResult) :=
  match ps with
  | [] => mret []
  | p :: ps =>
      if match limit with Some n => n <=? work_count | None => false end then mret []
      else
        result ← compact_one p (utc now) dry_run;
        results ← run_partitions ps now dry_run limit
                    (work_count + if bool_decide (r_status result ∈ LIMITED_WORK_STATUSES) then 1 else 0);
        mret (result :: results)
  end.

(** [run]; [finished] is the clock at its end. *)
Definition run_compactor (now : pydt) (finished : Z) (dry_run : bool) (limit : option Z)
    (provider : option string) : Prog CompactionSummary :=
  if match limit with Some n => n <=? 0 | None => false end then raise (exc_of ValueError) else
  started ← lift (match dt_off now with Some _ => aware_utc now | None => Err ValueError end);
  partitions ← discover_raw_quote_partitions (raw_file_name self);
  let partitions := match provider with
                    | Some name => filter (λ p, pt_provider p = name) partitions
                    | None => partitions
                    end in
  let partitions := match limit with Some _ => rev partitions | None => partitions end in
  results ← run_partitions partitions started dry_run limit 0;
  mret {| s_dry_run := dry_run; s_data_root := root; s_started_at := isoformat started;
          s_finished_at := isoformat finished; s_results := results |}.
End compactor.
