(* ===== verification/LakeFacts.v ===== *)
(** * Facts of the quote lake

    Manifests survive their file.  Whatever fails, and wherever the process is
    killed, each operation of the compactor keeps the raw files; the deletion
    behind its gates leaves what the gates promised. *)

From stdpp Require Import base numbers strings list gmap.
From Stdlib Require Import Ascii ZArith Lia.
From S2P Require Import Prelude PyStr PyFloat PyTime PyDateTime PyDict PyVal PyHash PyJson FileStore Lake QuoteCompactor.

#[local] Open Scope Z_scope.

(** ** Manifests *)

(** What a manifest must be to read back: the current version, and no empty
    text where the reader takes an empty text for none. *)
Record manifest_wf (m : CompactionManifest) : Prop := {
  mw_version : manifest_version m = MANIFEST_VERSION;
  mw_output_path : m_output_path m ≠ Some "";
  mw_output_sha256 : m_output_sha256 m ≠ Some "";
}.

Lemma deterministic_id_values kind vs :
  str_all kind_chr (str_replace_chr "-" "_" (str_lower (str_strip kind))) = true →
  str_replace_chr "-" "_" (str_lower (str_strip kind)) ≠ "" →
  json_plain (VList vs) = true → is_ok (deterministic_id kind (map IdValue vs)).
Proof.
  intros H1 H2 Hp. unfold deterministic_id. cbv zeta. rewrite H1. apply String.eqb_neq in H2. rewrite H2.
  cbn [negb orb].
  assert (E : res_mapM _canonical (map IdValue vs) = Ok vs).
  { clear. induction vs as [|v vs IH]; [done|]. cbn [map res_mapM]. by rewrite IH. }
  rewrite E. destruct (plain_text (VList vs) Hp) as (t & Ht & _). cbn [mbind res_bind]. rewrite Ht. by eexists.
Qed.

Lemma manifest_id_ok m : is_ok (manifest_id m).
Proof.
  apply (deterministic_id_values "compact" [VStr (m_source_path m); VStr (m_source_sha256 m)]);
    [reflexivity|discriminate|reflexivity].
Qed.

Lemma text_if_opt k o d : vget k d = v_opt_str o → o ≠ Some "" → text_if k d = o.
Proof.
  intros E H. unfold text_if. rewrite E. destruct o as [s|]; [|done]. cbn.
  destruct (String.eqb_spec s ""); [congruence|done].
Qed.

(** A written manifest, with its id or another. *)
Definition manifest_entries (m : CompactionManifest) (id : string) : pydict :=
  [("manifest_version", VInt (manifest_version m)); ("dataset", VStr (dataset m));
   ("schema_version", VStr (schema_version m)); ("writer_version", VStr (writer_version m));
   ("status", VStr (m_status m)); ("source_path", VStr (m_source_path m));
   ("source_size", VInt (m_source_size m)); ("source_mtime_ns", VInt (m_source_mtime_ns m));
   ("source_sha256", VStr (m_source_sha256 m)); ("output_path", v_opt_str (m_output_path m));
   ("output_size", v_opt_int (m_output_size m)); ("output_sha256", v_opt_str (m_output_sha256 m));
   ("row_count", VInt (m_row_count m)); ("min_received_at", v_opt_str (m_min_received_at m));
   ("max_received_at", v_opt_str (m_max_received_at m));
   ("min_source_at", v_opt_str (m_min_source_at m)); ("max_source_at", v_opt_str (m_max_source_at m));
   ("completed_at", VStr (completed_at m)); ("manifest_id", VStr id)].

Lemma manifest_to_dict_entries m : ∃ id, manifest_id m = Ok id ∧ manifest_to_dict m = Ok (manifest_entries m id).
Proof. destruct (manifest_id_ok m) as [id Hid]. exists id. unfold manifest_to_dict. by rewrite Hid. Qed.

Lemma manifest_from_entries m id supplied :
  manifest_wf m → manifest_id m = Ok id →
  manifest_from_dict (manifest_entries m supplied) = if String.eqb supplied id then Ok m else Err ValueError.
Proof.
  intros [Hv Hp Hs] Hid. unfold manifest_entries, manifest_from_dict, int_at, text_at, vindex, dindex, of_option,
    mbind, res_bind, fmap, res_fmap.
  cbv [dget String.eqb Ascii.eqb Bool.eqb py_int py_str].
  rewrite (text_if_opt _ (m_output_path m)), (text_if_opt _ (m_output_sha256 m)) by done.
  destruct m as [v ds sv wv st sp ssz sm ssh op osz osh rc r1 r2 r3 r4 ca]. cbn in *. subst v.
  unfold manifest_id, vget in *. cbn in Hid.
  destruct osz, r1, r2, r3, r4; cbv [dget String.eqb Ascii.eqb Bool.eqb]; cbn; rewrite Hid;
    match goal with |- context [?f supplied id] => change (f supplied id) with (String.eqb supplied id) end;
    by destruct (String.eqb supplied id).
Qed.

Lemma manifest_reads_back m d :
  manifest_wf m → manifest_to_dict m = Ok d → decoded_manifest (Json (VDict d)) = Ok (Some m).
Proof.
  intros Hm E. destruct (manifest_to_dict_entries m) as (id & Hid & E'). rewrite E in E'. injection E' as ->.
  unfold decoded_manifest. rewrite (manifest_from_entries m id id), String.eqb_refl by done. cbn.
  by rewrite (mw_version m Hm).
Qed.

Lemma forged_manifest m id supplied :
  manifest_wf m → manifest_id m = Ok id → supplied ≠ id →
  decoded_manifest (Json (VDict (manifest_entries m supplied))) = Ok None.
Proof.
  intros Hm Hid Hne. unfold decoded_manifest. rewrite (manifest_from_entries m id supplied) by done.
  apply String.eqb_neq in Hne. by rewrite Hne.
Qed.

(** ** Digests *)

Lemma sha_round_length s kw : length (sha_round s kw) = length s.
Proof. destruct s as [|? [|? [|? [|? [|? [|? [|? [|? [|? ?]]]]]]]]]; done. Qed.

Lemma sha_block_length h words : length (sha_block h words) = length h.
Proof.
  unfold sha_block. rewrite length_zip_with.
  assert (E : ∀ l s, length (fold_left sha_round l s) = length s).
  { induction l as [|kw l IH]; intros s; [done|]. cbn. by rewrite IH, sha_round_length. }
  rewrite E. lia.
Qed.

Lemma sha_blocks_length n h words : length (sha_blocks n h words) = length h.
Proof. revert h words. induction n as [|n IH]; intros h words; cbn; [done|]. by rewrite IH, sha_block_length. Qed.

Lemma sha256_hex_nonempty bytes : sha256_hex bytes ≠ "".
Proof.
  unfold sha256_hex. cbv zeta. pose proof (sha_blocks_length (length (be_words (sha_pad bytes)) / 16) SHA_H
    (be_words (sha_pad bytes))) as E. cbn [SHA_H length] in E.
  destruct (sha_blocks _ _ _) as [|x l]; [discriminate E|]. cbn [flat_map be_bytes app map str_join hex_byte].
  clear. generalize (map hex_byte (flat_map (be_bytes 4) l)). intros r E. discriminate E.
Qed.

(** ** Paths *)

Lemma with_name_last p name : last (with_name p name) = Some name.
Proof. apply last_snoc. Qed.

Lemma with_name_ne p name : Some name ≠ last p → with_name p name ≠ p.
Proof. intros H E. apply H. by rewrite <- E, with_name_last. Qed.

Lemma with_name_inj p n n' : with_name p n = with_name p n' → n = n'.
Proof. unfold with_name. intros E%app_inv_head. by injection E. Qed.

Lemma str_app_inj (p s t : string) : p +:+ s = p +:+ t → s = t.
Proof. induction p as [|c p IH]; [done|]. rewrite !str_app_cons. intros E. injection E as E. by apply IH. Qed.

Lemma str_app_longer (s t : string) : t ≠ "" → s +:+ t ≠ s.
Proof.
  intros H E. apply (f_equal String.length) in E. rewrite length_app_str in E.
  destruct t; [done|]. cbn in E. lia.
Qed.

(** [c'] is [c] with something appended. *)
Definition extends (c c' : string) : Prop := ∃ t, c' = c +:+ t.

Lemma extends_refl c : extends c c.
Proof. exists "". by rewrite str_app_nil_r. Qed.
Lemma extends_app c c' t : extends c c' → extends c (c' +:+ t).
Proof. intros [u ->]. exists (u +:+ t). by rewrite str_app_assoc. Qed.

(** The text of the regular file at [p]. *)
Definition text_of (p : path) (s : Store) : option string :=
  match nodes s !! p with Some (Regular c _) => Some c | _ => None end.

Lemma text_of_set p q n s :
  text_of p (set_node q n s) = if decide (q = p) then match n with Regular c _ => Some c | _ => None end
                               else text_of p s.
Proof.
  unfold text_of, set_node. cbn. destruct (decide (q = p)) as [->|Hn];
    [by rewrite lookup_insert_eq|by rewrite lookup_insert_ne].
Qed.
Lemma text_of_drop p q s : text_of p (drop_node q s) = if decide (q = p) then None else text_of p s.
Proof.
  unfold text_of, drop_node. cbn. destruct (decide (q = p)) as [->|Hn];
    [by rewrite lookup_delete_eq|by rewrite lookup_delete_ne].
Qed.

Lemma append_node_text text st o n :
  append_node text st o = Some n →
  match o with
  | Some (Regular c _) => n = Regular (c +:+ text) st
  | Some (Special _ _) => False
  | Some (Link _ _) => ∃ t i, n = Link t i
  | None => n = Regular text st
  end.
Proof. destruct o as [[c m|[[c m]|] i|]|]; cbn; intros; simplify_eq; eauto. Qed.

Lemma arrive_text a s p c :
  text_of p s = Some c →
  ∃ c', text_of p (arrive s a) = Some c' ∧ extends c c' ∧ (p ≠ arr_path a → c' = c).
Proof.
  intros H. unfold arrive. destruct (append_node _ _ _) as [n|] eqn:E; [|by exists c; auto using extends_refl].
  rewrite text_of_set. destruct (decide (arr_path a = p)) as [<-|Hn].
  - apply append_node_text in E. unfold text_of in H. destruct (nodes s !! _) as [[d m| |]|]; simplify_eq.
    exists (c +:+ arr_text a). split_and!; [done|by eexists|done].
  - exists c. auto using extends_refl.
Qed.

Lemma arrive_lookup a s p : p ≠ arr_path a → nodes (arrive s a) !! p = nodes s !! p.
Proof.
  intros Hn. unfold arrive. destruct (append_node _ _ _); [|done]. cbn. by rewrite lookup_insert_ne.
Qed.
Lemma arrive_documents a s : documents (arrive s a) = documents s.
Proof. unfold arrive. by destruct (append_node _ _ _). Qed.

(** ** The raw files *)

Section kept.
Context `{Duck} (uuid_hex : nat → string) `{!Inj (=) (=) uuid_hex}
        (self : QuoteLakeCompactor) (partition : RawQuotePartition) (s0 : Store) (lo : nat) (held : nat → Prop).

Abbreviation src := (source_path partition).
Abbreviation root := (data_root self).

Definition is_raw (p : path) : Prop := head p = Some "raw".

(** Collectors append to the raw landing files. *)
Definition collected (a : Arrival) : Prop := is_raw (arr_path a) ∧ last (arr_path a) = Some (raw_file_name self).

(** The [k]th quarantine path of the partition. *)
Definition quarantine (k : nat) : path :=
  with_name src (quarantine_name (path_name src) (uuid_hex k)).

(** The unique names to come are not in use. *)
Definition fresh (s : Store) (n : nat) : Prop := ∀ k, (n ≤ k)%nat → nodes s !! quarantine k = None.

Definition others_kept (s : Store) : Prop :=
  ∀ p c, is_raw p → p ≠ src → text_of p s0 = Some c → ∃ c', text_of p s = Some c' ∧ extends c c'.

(** The raw file of the partition is at [p]. *)
Definition source_at (p : path) (s : Store) : Prop :=
  ∀ c, text_of src s0 = Some c → ∃ c', text_of p s = Some c' ∧ extends c c'.

(** Every raw file is in place, or, for the partition's, in quarantine under one
    of the drawn names that [held] admits; [lo] names were drawn before. *)
Definition kept : assertion := λ s n,
  (lo ≤ n)%nat ∧ fresh s n ∧ others_kept s
  ∧ (source_at src s ∨ ∃ k, (held k ∧ k < n)%nat ∧ source_at (quarantine k) s).

Context (Hname : path_name src = raw_file_name self).

Lemma quarantine_long name hex : quarantine_name name hex ≠ name.
Proof.
  intros E. apply (f_equal String.length) in E. unfold quarantine_name in E.
  rewrite !length_app_str in E. cbn in E. lia.
Qed.

Lemma quarantine_not_landing k : last (quarantine k) ≠ Some (raw_file_name self).
Proof.
  unfold quarantine. rewrite with_name_last, Hname. intros [= E]. by apply quarantine_long in E.
Qed.

Lemma quarantine_inj k k' : quarantine k = quarantine k' → k = k'.
Proof.
  intros E%with_name_inj. unfold quarantine_name in E. apply str_app_inj, str_app_inj, str_app_inj in E.
  by apply (inj uuid_hex).
Qed.

Lemma quarantine_raw_path k : is_raw src → (2 ≤ length src)%nat → is_raw (quarantine k).
Proof using.
  clear Hname. unfold is_raw, quarantine, with_name. destruct src as [|a [|b l]]; cbn; [done|lia|done].
Qed.

Lemma source_at_arrive p a s : source_at p s → source_at p (arrive s a).
Proof.
  intros Hp c Hc. destruct (Hp c Hc) as (c' & H1 & H2). destruct (arrive_text a s p c' H1) as (c'' & H3 & [t ->] & _).
  exists (c' +:+ t). split; [done|by apply extends_app].
Qed.

Lemma others_kept_arrive a s : others_kept s → others_kept (arrive s a).
Proof.
  intros Ho p c Hp Hne Hc. destruct (Ho p c Hp Hne Hc) as (c' & H1 & H2).
  destruct (arrive_text a s p c' H1) as (c'' & H3 & [t ->] & _).
  exists (c' +:+ t). split; [done|by apply extends_app].
Qed.

Lemma fresh_arrive a s n : collected a → fresh s n → fresh (arrive s a) n.
Proof.
  intros [_ Ha] Hf k Hk. rewrite arrive_lookup; [by apply Hf|]. intros E. apply (quarantine_not_landing k).
  by rewrite E.
Qed.

Lemma kept_stable : stable collected kept.
Proof.
  intros s n a Ha (Hlo & Hf & Ho & Hs). split_and!; [done|by apply fresh_arrive|by apply others_kept_arrive|].
  destruct Hs as [Hs|(k & Hk & Hs)]; [left|right; exists k; split; [done|]]; by apply source_at_arrive.
Qed.

(** A change of the store that leaves raw files alone. *)
Definition raw_same (s s' : Store) : Prop := ∀ p, is_raw p → nodes s' !! p = nodes s !! p.

Lemma raw_same_text s s' p : raw_same s s' → is_raw p → text_of p s' = text_of p s.
Proof using. intros Hs Hp. unfold text_of. by rewrite Hs. Qed.

Context (Hraw : is_raw src) (Hlen : (2 ≤ length src)%nat).

Lemma source_at_same p s s' : raw_same s s' → is_raw p → source_at p s → source_at p s'.
Proof using. intros Hs Hp H1 c Hc. destruct (H1 c Hc) as (c' & ? & ?). exists c'. by rewrite (raw_same_text s s'). Qed.

Lemma others_kept_same s s' : raw_same s s' → others_kept s → others_kept s'.
Proof using.
  intros Hs H1 p c Hp Hne Hc. destruct (H1 p c Hp Hne Hc) as (c' & ? & ?). exists c'.
  by rewrite (raw_same_text s s').
Qed.

Lemma kept_same s s' n : raw_same s s' → kept s n → kept s' n.
Proof using Hraw Hlen.
  intros Hs (Hlo & Hf & Ho & Hk). split_and!.
  - done.
  - intros k ?. rewrite Hs by by apply quarantine_raw_path. by apply Hf.
  - by apply (others_kept_same s).
  - destruct Hk as [Hk|(k & ? & Hk)]; [left|right; exists k; split; [done|]];
      (apply (source_at_same _ s); [done| |done]); [done|by apply quarantine_raw_path].
Qed.
End kept.
