(* ===== verification/LakeSafety.v ===== *)
(** * What the compactor keeps

    Each operation on the lake keeps the raw files ([kept]); the deletion keeps
    them until its last verification, and leaves the state [after] otherwise. *)

From stdpp Require Import base numbers strings list gmap.
From Stdlib Require Import Ascii ZArith Lia.
From S2P Require Import Prelude PyStr PyFloat PyTime PyDateTime PyDict PyVal PyHash PyJson FileStore Lake QuoteCompactor LakeFacts.

#[local] Open Scope Z_scope.

(** ** Programs that only look *)

Section looks.
Context (ok : Arrival → Prop) (P : assertion) (HP : stable ok P).

Lemma keeps_look {A} (f : Store → exc + A) : keeps ok P (look f).
Proof. by apply spec_look. Qed.
Lemma keeps_ret {A} (a : A) : keeps ok P (mret a).
Proof. by apply spec_ret. Qed.
Lemma keeps_raise {A} e : keeps ok P (raise (A:=A) e).
Proof. by apply spec_raise. Qed.
Lemma keeps_lift {A} (r : res A) : keeps ok P (lift r).
Proof. by apply spec_lift. Qed.
Lemma keeps_lift_sum {A} (r : exc + A) : keeps ok P (lift_sum r).
Proof. by apply spec_lift_sum. Qed.
Lemma keeps_bind {A B} (m : Prog A) (k : A → Prog B) :
  keeps ok P m → (∀ a, keeps ok P (k a)) → keeps ok P (m ≫= k).
Proof. intros H1 H2. by apply (spec_bind _ _ _ _ (λ _, P)). Qed.
Lemma keeps_fmap {A B} (f : A → B) (m : Prog A) : keeps ok P m → keeps ok P (f <$> m).
Proof. intros Hm. apply keeps_bind; [done|]. intros a. apply keeps_ret. Qed.
Lemma keeps_try_for {A} cls (m : Prog A) h :
  keeps ok P m → (∀ e, keeps ok P (h e)) → keeps ok P (try_for cls m h).
Proof. intros H1 H2. apply spec_try_for; [done|]. intros e _. apply H2. Qed.
Lemma keeps_finally {A} (m : Prog A) f : keeps ok P m → keeps ok P f → keeps ok P (finally m f).
Proof. intros H1 H2. by apply spec_finally. Qed.
End looks.

Create HintDb keeps discriminated.
#[export] Hint Resolve keeps_look keeps_ret keeps_raise keeps_lift keeps_lift_sum : keeps.

(** Walks through a program whose calls keep the invariant. *)
Ltac solve_keeps :=
  repeat first
    [ solve [auto with keeps]
    | apply keeps_bind; [|intros ?]
    | apply keeps_fmap
    | apply keeps_try_for; [|intros ?]
    | apply keeps_finally
    | match goal with |- keeps _ _ (let '(_, _) := ?x in _) => destruct x end
    | match goal with |- keeps _ _ (match ?x with _ => _ end) => destruct x end ].

Section reads.
Context `{Duck} (self : QuoteLakeCompactor) (ok : Arrival → Prop) (P : assertion) (HP : stable ok P).

Lemma keeps_snapshot p : keeps ok P (snapshot_source self p).
Proof using HP. unfold snapshot_source, stat_file, read_file. solve_keeps. Qed.
Lemma keeps_count_jsonl p : keeps ok P (count_jsonl_rows self p).
Proof using HP. unfold count_jsonl_rows, read_file. solve_keeps. Qed.
Lemma keeps_count_parquet p : keeps ok P (count_parquet_rows self p).
Proof using HP. unfold count_parquet_rows, effectless, duck_open. solve_keeps. Qed.
Lemma keeps_is_file p : keeps ok P (is_file p).
Proof using HP. unfold is_file. solve_keeps. Qed.
Lemma keeps_is_symlink p : keeps ok P (is_symlink p).
Proof using HP. unfold is_symlink. solve_keeps. Qed.
Lemma keeps_effectless : keeps ok P effectless.
Proof using HP. unfold effectless. solve_keeps. Qed.

Lemma keeps_first_reason m k : keeps ok P m → keeps ok P k → keeps ok P (first_reason m k).
Proof using HP. intros. unfold first_reason. solve_keeps; done. Qed.
Lemma keeps_refuse_if b reason : keeps ok P (refuse_if b reason).
Proof using HP. unfold refuse_if. solve_keeps. Qed.
Lemma keeps_refuse_link p : keeps ok P (refuse_link p).
Proof using HP. unfold refuse_link, is_symlink, refuse_if. solve_keeps. Qed.
Lemma keeps_refuse_links ps : keeps ok P (refuse_links ps).
Proof using HP.
  induction ps as [|p ps IH]; cbn; [by apply keeps_ret|].
  apply keeps_first_reason; [apply keeps_refuse_link|done].
Qed.

(** What a snapshot says of a file that nobody appends to. *)
Lemma snapshot_spec p b :
  (∀ s n, P s n → text_of p s = Some b) →
  spec ok P (snapshot_source self p)
    (λ ss s n, P s n ∧ ss_sha256 ss = sha256_hex (bytes_of b) ∧ ss_size ss = str_len b) P.
Proof using HP.
  intros Hb. unfold snapshot_source, stat_file, read_file.
  assert (Hst : ∀ s n r, P s n → stat_of (data_root self) p s = inr r → r.1 = str_len b).
  { intros s n r Hs. specialize (Hb s n Hs). unfold text_of in Hb. unfold stat_of.
    destruct (nodes s !! p) as [[c m| |]|]; simplify_eq. cbn. by intros [= <-]. }
  eapply spec_bind; [by apply keeps_look|]. intros [size mtime].
  eapply (spec_bind _ _ _ _ (λ c s n, P s n ∧ c = b)).
  { apply spec_look; [done|done|]. intros s n c Hs Hc. split; [done|]. specialize (Hb s n Hs).
    unfold text_of in Hb. unfold content_of in Hc.
    destruct (nodes s !! p) as [[d m| |]|]; simplify_eq. cbn in Hc. by injection Hc. }
  intros c. eapply (spec_bind _ _ _ _ (λ r s n, P s n ∧ c = b ∧ r.1 = str_len b)).
  { apply spec_look; [apply stable_and; [done|by intros ????]|by intros ?? [? _]|].
    intros s n r [Hs ->] E. split_and!; [done|done|by eapply Hst]. }
  intros [size' mtime']. destruct (_ || _).
  - apply spec_raise. by intros ?? [? _].
  - apply spec_ret. intros s n (Hs & -> & E). cbn in E. by rewrite <- E.
Qed.
End reads.

#[export] Hint Resolve keeps_snapshot keeps_count_jsonl keeps_count_parquet keeps_is_file keeps_is_symlink
  keeps_effectless keeps_refuse_if keeps_refuse_link keeps_refuse_links : keeps.

(** ** The writes of the compactor keep the raw files *)

Section writes.
Context `{Duck} (uuid_hex : nat → string) `{!Inj (=) (=) uuid_hex} (self : QuoteLakeCompactor)
        (partition : RawQuotePartition) (s0 : Store) (lo : nat) (held : nat → Prop).
Context (Hlast : last (source_path partition) = Some (raw_file_name self))
        (Hraw : is_raw (source_path partition)) (Hlen : (2 ≤ length (source_path partition))%nat).

Abbreviation src := (source_path partition).
Abbreviation K := (kept uuid_hex partition s0 lo held).
Abbreviation ok := (collected self).

Lemma src_name : path_name src = raw_file_name self.
Proof using Hlast. unfold path_name. by rewrite Hlast. Qed.

Lemma K_stable : stable ok K.
Proof using Hlast. apply kept_stable, src_name. Qed.

Lemma keeps_step {A} (f : Z → Store → Store * (exc + A)) :
  (∀ st s, raw_same s (f st s).1) → keeps ok K (step f).
Proof using All.
  intros Hf. apply spec_step; [apply K_stable|done|]. intros st s n HK.
  pose proof (Hf st s) as Hs. destruct (f st s) as [s' r]. cbn in Hs.
  destruct r; by apply (kept_same uuid_hex partition s0 lo held Hraw Hlen s).
Qed.

Lemma raw_same_refl s : raw_same s s.
Proof. done. Qed.
Lemma raw_same_set p n s : ¬ is_raw p → raw_same s (set_node p n s).
Proof. intros Hp q Hq. cbn. rewrite lookup_insert_ne; [done|]. by intros ->. Qed.
Lemma raw_same_drop p s : ¬ is_raw p → raw_same s (drop_node p s).
Proof. intros Hp q Hq. cbn. rewrite lookup_delete_ne; [done|]. by intros ->. Qed.
Lemma raw_same_trans s s' s'' : raw_same s s' → raw_same s' s'' → raw_same s s''.
Proof. intros H1 H2 p Hp. by rewrite H2, H1. Qed.

Local Hint Resolve raw_same_refl raw_same_set raw_same_drop : core.

Lemma keeps_unlink root p b : ¬ is_raw p → keeps ok K (unlink root p b).
Proof using All.
  intros Hp. apply keeps_step. intros st s. by destruct (nodes s !! p) as [[]|]; cbn; auto.
Qed.
Lemma keeps_rename root p q : ¬ is_raw p → ¬ is_raw q → keeps ok K (rename root p q).
Proof using All.
  intros Hp Hq. apply keeps_step. intros st s. destruct (nodes s !! p); cbn; [|done].
  apply (raw_same_trans _ (drop_node p s)); auto.
Qed.
Lemma keeps_write_file p c : ¬ is_raw p → keeps ok K (write_file p c).
Proof using All. intros Hp. apply keeps_step. intros st s. cbn. auto. Qed.
Lemma keeps_append_file root p c : ¬ is_raw p → keeps ok K (append_file root p c).
Proof using All. intros Hp. apply keeps_step. intros st s. by destruct (append_node _ _ _); cbn; auto. Qed.
Lemma keeps_touch_other root p : ¬ is_raw p → keeps ok K (touch root p).
Proof using All. intros Hp. apply keeps_step. intros st s. by destruct (nodes s !! p) as [[]|]; cbn; auto. Qed.
Lemma keeps_read_document p : keeps ok K (read_document p).
Proof using Hlast. apply keeps_look, K_stable. Qed.
Lemma keeps_create_document root p v : keeps ok K (create_document root p v).
Proof using All. apply keeps_step. intros st s. by destruct (documents s !! p). Qed.
Lemma keeps_replace_document root p q : keeps ok K (replace_document root p q).
Proof using All. apply keeps_step. intros st s. by destruct (documents s !! p). Qed.
Lemma keeps_unlink_document p : keeps ok K (unlink_document p).
Proof using All. by apply keeps_step. Qed.

(** A drawn name only leaves fewer to come. *)
Lemma keeps_draw : keeps ok K (draw uuid_hex).
Proof.
  apply spec_draw. intros s n (Hlo & Hf & Ho & Hs). split_and!.
  - lia.
  - intros k Hk. apply Hf. lia.
  - done.
  - destruct Hs as [Hs|(k & Hk & Hs)]; [by left|right; exists k; split; [split; [apply Hk|lia]|done]].
Qed.

(** The lock beside the raw file. *)
Lemma keeps_touch_lock root : keeps ok K (touch root (with_name src ("." +:+ path_name src +:+ ".lock"))).
Proof using All.
  apply spec_step; [apply K_stable|done|]. intros st s n HK.
  set (p := with_name _ _). destruct (nodes s !! p) as [[]|] eqn:E; [done..|].
  assert (Hp : ∀ k, p ≠ quarantine uuid_hex partition k).
  { intros k Eq%with_name_inj. unfold quarantine_name in Eq. apply str_app_inj, str_app_inj in Eq. discriminate. }
  destruct HK as (Hlo & Hf & Ho & Hs).
  assert (Hset : ∀ q c, text_of q s = Some c → text_of q (set_node p (Regular "" st) s) = Some c).
  { intros q c Hq. rewrite text_of_set. destruct (decide (p = q)) as [<-|]; [|done].
    unfold text_of in Hq. by rewrite E in Hq. }
  split_and!.
  - done.
  - intros k Hk. cbn. rewrite lookup_insert_ne by apply Hp. by apply Hf.
  - intros q c Hq Hne Hc. destruct (Ho q c Hq Hne Hc) as (c' & ? & ?). eauto.
  - destruct Hs as [Hs|(k & Hk & Hs)]; [left|right; exists k; split; [done|]];
      intros c Hc; destruct (Hs c Hc) as (c' & ? & ?); eauto.
Qed.
End writes.

#[export] Hint Resolve keeps_unlink keeps_rename keeps_write_file keeps_append_file keeps_touch_other
  keeps_read_document keeps_create_document keeps_replace_document keeps_unlink_document keeps_draw
  keeps_touch_lock K_stable : keeps.
