(* ===== verification/LakeDeletion.v ===== *)
(** * The deletion of a raw file

    The stages of [maybe_delete_raw]: what each gate establishes, and that the
    raw file is only unlinked in a state where all of them hold. *)

From stdpp Require Import base numbers strings list gmap.
From Stdlib Require Import Ascii ZArith Lia.
From S2P Require Import Prelude PyStr PyFloat PyTime PyDateTime PyDict PyVal PyHash PyJson FileStore Lake QuoteCompactor LakeFacts LakeSafety.

#[local] Open Scope Z_scope.

(** ** Rules *)

Lemma spec_post {A} ok P (m : Prog A) (N N' : A → assertion) (X X' : assertion) :
  spec ok P m N X → (∀ a s n, N a s n → N' a s n) → (∀ s n, X s n → X' s n) → spec ok P m N' X'.
Proof. intros Hm HN HX. by eapply spec_conseq. Qed.

(** A program that keeps [P], and what comes after it. *)
Lemma spec_skip {A B} ok P (m : Prog A) (k : A → Prog B) N (X : assertion) :
  keeps ok P m → (∀ s n, P s n → X s n) → (∀ a, spec ok P (k a) N X) → spec ok P (m ≫= k) N X.
Proof. intros Hm HX Hk. apply (spec_bind _ _ _ _ (λ _, P)); [|done]. by eapply spec_post. Qed.

Lemma spec_fmap {A B} ok P (f : A → B) (m : Prog A) (N : B → assertion) X :
  spec ok P m (λ a, N (f a)) X → spec ok P (f <$> m) N X.
Proof. intros Hm. eapply (spec_bind _ _ _ _ (λ a, N (f a))); [exact Hm|]. intros a. by apply spec_ret. Qed.

Lemma spec_ex {T A} ok (P : T → assertion) (m : Prog A) N X :
  (∀ t, spec ok (P t) m N X) → spec ok (λ s n, ∃ t, P t s n) m N X.
Proof. intros Hm w Hok [t Ht]. by apply (Hm t). Qed.

Lemma spec_pure {A} ok (F : Prop) P (m : Prog A) N X :
  (F → spec ok P m N X) → spec ok (λ s n, P s n ∧ F) m N X.
Proof. intros Hm w Hok [HP HF]. by apply Hm. Qed.

(** Some state of a stable description is fixed before a program that keeps it. *)
Lemma spec_fix {T A} ok (P : assertion) (f : Store → T) (m : Prog A) N X :
  (∀ t, spec ok (λ s n, P s n ∧ f s = t) m N X) → spec ok P m N X.
Proof. intros Hm w Hok HP. by apply (Hm (f (store w)) w). Qed.

Lemma spec_look_val {A} ok P (f : Store → exc + A) :
  stable ok P → spec ok P (look f) (λ a s n, P s n ∧ f s = inr a) P.
Proof. intros HP. by apply spec_look. Qed.

(** Going on only when no reason was given, [F] being what that shows. *)
Lemma spec_first_reason ok (F : Prop) (P : assertion) m k N X :
  spec ok P m (λ r s n, P s n ∧ (r = None → F)) X →
  (∀ reason s n, P s n → N (Some reason) s n) →
  (F → spec ok P k N X) → spec ok P (first_reason m k) N X.
Proof.
  intros Hm HN Hk. unfold first_reason. eapply spec_bind; [exact Hm|]. intros [reason|].
  - apply spec_ret. intros s n [HP _]. by apply HN.
  - apply (spec_conseq ok (λ s n, P s n ∧ F) _ _ N N X X); [by apply spec_pure| |done..].
    intros s n [HP HF]. auto.
Qed.

Lemma spec_refuse_if ok P b reason :
  spec ok P (refuse_if b reason) (λ r s n, P s n ∧ (r = None → b = false)) P.
Proof. apply spec_ret. intros s n HP. split; [done|]. by destruct b. Qed.

Lemma spec_weak_reason ok P m : keeps ok P m → spec ok P m (λ (r : option string) s n, P s n ∧ (r = None → True)) P.
Proof. intros Hm. eapply spec_post; [exact Hm|..]; eauto. Qed.

(** ** The audit file *)

Definition audit_text (s : Store) : option string :=
  n ← nodes s !! raw_deletion_audit_path; fst <$> reached n.
(** A line of the audit file. *)
Definition audit_has (line : string) (s : Store) : Prop :=
  ∃ before_ after_, audit_text s = Some (before_ +:+ line +:+ after_).

(** What an append to the audit file does not disturb. *)
Definition audit_frame (P : assertion) : Prop :=
  ∀ text st s n nd, append_node text st (nodes s !! raw_deletion_audit_path) = Some nd →
    P s n → P (set_node raw_deletion_audit_path nd s) n.

Lemma append_reached text st o nd :
  append_node text st o = Some nd →
  ∃ c, fst <$> (o ≫= reached) = c ∧ fst <$> reached nd = Some (default "" c +:+ text).
Proof. destruct o as [[c m|[[c m]|] i|]|]; cbn; intros; simplify_eq; eexists; (split; [done|]); done. Qed.

Lemma audit_text_append text st s nd :
  append_node text st (nodes s !! raw_deletion_audit_path) = Some nd →
  audit_text (set_node raw_deletion_audit_path nd s) = Some (default "" (audit_text s) +:+ text).
Proof.
  intros E. destruct (append_reached _ _ _ _ E) as (c & Hc & Hn). unfold audit_text. cbn.
  rewrite lookup_insert_eq. cbn. rewrite Hn. do 2 f_equal. rewrite <- Hc. by destruct (nodes s !! _).
Qed.

Lemma audit_has_append line text st s nd :
  append_node text st (nodes s !! raw_deletion_audit_path) = Some nd →
  audit_has line s → audit_has line (set_node raw_deletion_audit_path nd s).
Proof.
  intros E (b & a & H). exists b, (a +:+ text). rewrite (audit_text_append _ _ _ _ E), H. cbn.
  by rewrite !str_app_assoc.
Qed.

Section audit.
Context `{Duck} (self : QuoteLakeCompactor).
Abbreviation ok := (collected self).

Lemma collected_elsewhere a p : ok a → ¬ is_raw p → p ≠ arr_path a.
Proof. intros [Ha _] Hp ->. done. Qed.

Lemma audit_has_stable line : stable ok (λ s _, audit_has line s).
Proof.
  intros s n a Ha. unfold audit_has, audit_text. rewrite arrive_lookup; [done|].
  by apply (collected_elsewhere a).
Qed.

Context (P : assertion) (HP : stable ok P) (HA : audit_frame P).

Lemma audit_spec entry now :
  spec ok P (append_raw_deletion_audit self entry now)
    (λ _ s n, P s n ∧ ∃ line, dumps (VDict (dmerge [("at", vtime now)] entry)) = Ok line ∧ audit_has line s) P.
Proof using HP HA.
  unfold append_raw_deletion_audit. apply (spec_bind _ _ _ _ (λ line s n, P s n ∧
    dumps (VDict (dmerge [("at", vtime now)] entry)) = Ok line)); [by apply spec_lift|].
  intros line. apply spec_pure. intros Hl. eapply spec_bind; [by apply keeps_effectless|]. intros ?.
  apply (spec_bind _ _ _ _ (λ _ s n, P s n ∧ audit_has line s)).
  - apply spec_step; [done|done|]. intros st s n Hs. destruct (append_node _ _ _) as [nd|] eqn:E; [|done].
    split; [by eapply HA|]. eexists _, _. by apply (audit_text_append _ st).
  - intros _. apply spec_look; [by apply (stable_and _ P); [|apply audit_has_stable]|by intros s n [? _]|].
    intros s n u [Hs Hh] _. eauto.
Qed.

Lemma audit_keeps entry now : keeps ok P (append_raw_deletion_audit self entry now).
Proof using HP HA. eapply spec_post; [apply audit_spec|by intros u s n [? _]|done]. Qed.

(** The result, or the failure of the audit after it. *)
Definition gone : list string := ["raw_deleted"; "raw_delete_audit_failed"].

Lemma finalize_spec r base now q :
  spec ok P (finalize_raw_deletion_audit self r base now q)
    (λ r' s n, P s n ∧ (r' = r ∨ r_status r' = "raw_delete_audit_failed")) P.
Proof using HP HA.
  apply spec_try_for.
  - eapply spec_bind; [apply audit_keeps|]. intros ?. apply spec_ret. auto.
  - intros e _. apply spec_ret. auto.
Qed.
End audit.

Lemma finalize_keeps `{Duck} self P r base now q :
  stable (collected self) P → audit_frame P →
  keeps (collected self) P (finalize_raw_deletion_audit self r base now q).
Proof.
  intros HP HA. eapply spec_post; [by apply finalize_spec| |done]. by intros r' s n [? _].
Qed.

Lemma jsonl_rows_spec `{Duck} self ok (P : assertion) p c t :
  stable ok P → (∀ s n, P s n → nodes s !! p = Some (Regular c t)) →
  spec ok P (count_jsonl_rows self p) (λ rows s n, P s n ∧ rows = jsonl_rows c) P.
Proof.
  intros HP Hp. apply spec_fmap. apply spec_look; [done|done|]. intros s n a Hs E. split; [done|].
  unfold content_of in E. rewrite (Hp s n Hs) in E. by injection E as <-.
Qed.

(** ** The gates *)

Section gates.
Context `{Duck} (self : QuoteLakeCompactor) (partition : RawQuotePartition) (m : CompactionManifest).
Abbreviation ok := (collected self).
Abbreviation pq := (parquet_path partition).

(** The Parquet file that the manifest describes. *)
Definition lake_matches (b : string) : Prop :=
  m_output_sha256 m = Some (sha256_hex (bytes_of b)) ∧ m_output_size m = Some (str_len b)
  ∧ duck_parquet_rows b = inr (m_row_count m).

Context (P : assertion) (HP : stable ok P).

Lemma raw_delete_gate_metadata status end_ now g :
  raw_delete_gate (raw_delete_enabled self) status m end_ now (raw_delete_grace_hours self) = Ok g →
  g_phase g = METADATA →
  raw_delete_enabled self = true ∧ m_status m = "verified" ∧ end_ ≤ now
  ∧ ∃ d u, fromisoformat (completed_at m) = Some d ∧ aware_utc d = Ok u
           ∧ u + raw_delete_grace_hours self * HOUR ≤ now.
Proof using.
  unfold raw_delete_gate. intros E Hg. destruct (raw_delete_enabled self); cbn [negb orb] in E; [|by injection E as <-].
  destruct (negb _) eqn:E1; [by injection E as <-|]. destruct (String.eqb_spec (m_status m) "verified") as [Hv|];
    cbn [negb orb] in E; [|by injection E as <-].
  destruct (Z.ltb_spec now end_); [by injection E as <-|].
  destruct (fromisoformat _) as [d|] eqn:Ed; [|by injection E as <-].
  destruct (dt_off d); [|by injection E as <-].
  apply res_bind_ok in E as (u & Eu & E). apply res_bind_ok in E as (dl & El & E). injection E as <-.
  apply dt_add_range in El as [-> _]. destruct (Z.leb_spec (u + raw_delete_grace_hours self * HOUR) now); [|done].
  split_and!; [done|done|done|]. exists d, u. auto.
Qed.

Lemma other_stable p o : ¬ is_raw p → stable ok (λ s _, nodes s !! p = o).
Proof using. intros Hp s n a Ha Hs. rewrite arrive_lookup; [done|]. by apply (collected_elsewhere self a). Qed.

Lemma keeps_unsafe root raw_name : keeps ok P (unsafe_raw_delete_target_reason root raw_name partition).
Proof using HP.
  unfold unsafe_raw_delete_target_reason, effectless, resolve_inside, lstat_regular, refuse_if. cbv zeta.
  repeat (apply keeps_first_reason; [by solve_keeps|]); by solve_keeps.
Qed.

(** After the metadata gate the Parquet path is a regular file. *)
Lemma metadata_spec :
  spec ok P (raw_delete_metadata_reason self partition m)
    (λ r s n, P s n ∧ (r = None → m_source_path m = source_relative_path partition
                                  ∧ ∃ b t, nodes s !! pq = Some (Regular b t))) P.
Proof using HP.
  unfold raw_delete_metadata_reason.
  eapply spec_first_reason; [apply spec_weak_reason, keeps_unsafe|by auto|intros _].
  eapply spec_first_reason; [apply spec_refuse_if|by auto|intros Hs].
  apply negb_false_iff, String.eqb_eq in Hs.
  do 2 (eapply spec_first_reason; [apply spec_refuse_if|by auto|intros _]).
  apply (spec_fix _ _ (λ s, nodes s !! pq)). intros o.
  pose proof (stable_and _ _ _ HP (other_stable pq o ltac:(intros E; discriminate E))) as HPo.
  eapply (spec_bind _ _ _ _ (λ link s n, (P s n ∧ nodes s !! pq = o)
            ∧ link = match o with Some (Link _ _) => true | _ => false end)).
  { apply spec_look; [done|by intros s n []|]. intros s n a [Hp Ho] E. rewrite Ho in E. by injection E as <-. }
  intros link. apply spec_pure. intros ->.
  eapply (spec_bind _ _ _ _ (λ missing s n, (P s n ∧ nodes s !! pq = o)
            ∧ (missing = false → ∃ b t, o = Some (Regular b t)))).
  { set (fv := match o with Some nd => negb (bool_decide (reached nd = None)) | None => false end).
    assert (Hf : spec ok (λ s n, P s n ∧ nodes s !! pq = o) (negb <$> is_file pq)
      (λ missing s n, (P s n ∧ nodes s !! pq = o) ∧ missing = negb fv) P).
    { eapply (spec_bind _ _ _ _ (λ present s n, (P s n ∧ nodes s !! pq = o) ∧ present = fv)).
      - apply spec_look; [done|by intros s n []|]. intros s n a [Hp Ho] E. split; [done|].
        unfold file_at in E. rewrite Ho in E. by injection E as <-.
      - intros present. apply spec_ret. by intros s n [? ->]. }
    destruct o as [[b t|t i|z t]|]; [|by apply spec_ret; intros s n [??]|..];
      (eapply spec_post; [exact Hf| |done]); intros missing s n [Hpo ->]; (split; [done|]); intros E;
      [by eauto|discriminate E..]. }
  intros missing. apply spec_ret. intros s n [[Hp Ho] Hm]. split; [done|]. intros E. split; [done|].
  rewrite Ho. apply Hm. by destruct missing.
Qed.

Lemma evidence_match e : evidence_mismatch_reason e m = None →
  m_output_sha256 m = Some (ss_sha256 (ev_output e)) ∧ m_output_size m = Some (ss_size (ev_output e))
  ∧ m_source_sha256 m = ss_sha256 (ev_source e) ∧ m_source_size m = ss_size (ev_source e)
  ∧ m_row_count m = ev_source_rows e ∧ m_row_count m = ev_parquet_rows e.
Proof using.
  unfold evidence_mismatch_reason, is_some_eq. intros E.
  repeat match type of E with (if ?b then _ else _) = _ => destruct b eqn:?; [discriminate E|] end.
  repeat match goal with Hb : _ || _ = false |- _ => apply orb_false_iff in Hb as [??] end.
  repeat match goal with Hb : negb _ = false |- _ => apply negb_false_iff in Hb end.
  repeat match goal with Hb : bool_decide _ = true |- _ => apply bool_decide_eq_true in Hb end.
  repeat match goal with Hb : (_ =? _) = true |- _ => apply Z.eqb_eq in Hb end.
  repeat match goal with Hb : String.eqb _ _ = true |- _ => apply String.eqb_eq in Hb end.
  split_and!; congruence.
Qed.

Lemma parquet_rows_spec b t :
  (∀ s n, P s n → nodes s !! pq = Some (Regular b t)) →
  spec ok P (count_parquet_rows self pq) (λ rows s n, P s n ∧ duck_parquet_rows b = inr rows) P.
Proof using HP.
  intros Hb. unfold count_parquet_rows, duck_open. eapply spec_bind; [by apply keeps_effectless|]. intros ?.
  eapply (spec_bind _ _ _ _ (λ c s n, P s n ∧ c = b)).
  { apply spec_look; [done|done|]. intros s n c Hs E. split; [done|]. unfold content_of in E.
    rewrite (Hb s n Hs) in E. by injection E. }
  intros c. apply spec_pure. intros ->. by apply spec_lift_sum.
Qed.

(** The evidence shows that the Parquet file is the one of the manifest. *)
Lemma evidence_spec b t result :
  (∀ s n, P s n → nodes s !! pq = Some (Regular b t)) →
  spec ok P (raw_delete_evidence self partition m result)
    (λ r s n, P s n ∧ ∀ e, r = inl e → lake_matches b ∧ evidence_mismatch_reason e m = None) P.
Proof using HP.
  intros Hb.
  assert (Htext : ∀ s n, P s n → text_of pq s = Some b).
  { intros s n Hs. unfold text_of. by rewrite (Hb s n Hs). }
  assert (Hstop : ∀ r, spec ok P (mret (inr r))
    (λ (r : RawDeleteEvidence + CompactionResult) s n, P s n ∧ ∀ e, r = inl e → lake_matches b ∧ evidence_mismatch_reason e m = None) P).
  { intros r. apply spec_ret. by intros s n Hs. }
  unfold raw_delete_evidence. cbv zeta.
  eapply (spec_bind _ _ _ _ (λ r s n, P s n ∧ ∀ ss : SourceSnapshot, r = inl ss →
            ss_sha256 ss = sha256_hex (bytes_of b) ∧ ss_size ss = str_len b)).
  { apply spec_try_for; [|by intros e _; apply spec_ret]. eapply spec_bind; [by apply snapshot_spec|].
    intros ss. apply spec_ret. intros s n [Hs Hss]. split; [done|]. by intros ? [= <-]. }
  intros [output|r]; apply spec_pure; [|intros _; apply Hstop]. intros Hout.
  destruct (_ || _); [apply Hstop|].
  eapply spec_bind; [apply keeps_try_for; [by apply keeps_fmap, keeps_snapshot|intros e; apply keeps_ret]|].
  intros [source|r]; [|apply Hstop]. destruct (_ || _); [apply Hstop|].
  eapply (spec_bind _ _ _ _ (λ r s n, P s n ∧ ∀ e, r = inl e →
            ev_output e = output ∧ duck_parquet_rows b = inr (ev_parquet_rows e))).
  { apply spec_try_for; [|by intros e _; apply spec_ret]. eapply spec_bind; [by apply keeps_count_jsonl|].
    intros rows. eapply spec_bind; [by apply (parquet_rows_spec b t)|]. intros prows. apply spec_ret.
    intros s n [Hs Hr]. split; [done|]. by intros ? [= <-]. }
  intros [e|r]; apply spec_pure; [|intros _; apply Hstop]. intros He.
  destruct (evidence_mismatch_reason e m) as [reason|] eqn:Ee; [apply Hstop|].
  apply spec_ret. intros s n Hs. split; [done|]. intros ? [= <-]. split; [|done].
  destruct (He e eq_refl) as [Ho Hr]. destruct (Hout output eq_refl) as [H1 H2].
  destruct (evidence_match e Ee) as (E1 & E2 & _ & _ & _ & E3). unfold lake_matches.
  by rewrite E1, E2, E3, Ho, H1, H2.
Qed.
End gates.

(** ** From authorization to the unlink *)

Section deletion.
Context `{Duck} (uuid_hex : nat → string) `{!Inj (=) (=) uuid_hex} (self : QuoteLakeCompactor)
        (partition : RawQuotePartition) (s0 : Store) (n0 : nat).
Context (Hlast : last (source_path partition) = Some (raw_file_name self))
        (Hraw : is_raw (source_path partition)) (Hlen : (2 ≤ length (source_path partition))%nat)
        (Hn0 : fresh uuid_hex partition s0 n0).

Abbreviation src := (source_path partition).
Abbreviation ok := (collected self).
Abbreviation pq := (parquet_path partition).
Abbreviation quar := (quarantine uuid_hex partition).

(** Every raw file at its place; the same, but the partition's in quarantine. *)
Definition in_place : assertion := kept uuid_hex partition s0 n0 (λ _, False).
Definition held_kept : assertion := kept uuid_hex partition s0 n0 (λ k, (n0 ≤ k)%nat).
Definition set_aside (k : nat) : assertion := λ s n,
  fresh uuid_hex partition s n ∧ others_kept partition s0 s ∧ source_at partition s0 (quar k) s
  ∧ (n0 ≤ k < n)%nat.

(** The manifest on disk, the Parquet file, and the line that authorized. *)
Definition proofs (m : CompactionManifest) (b : string) (t : Z) (line : string) (s : Store) : Prop :=
  decoded_manifest (document (manifest_path partition) s) = Ok (Some m)
  ∧ nodes s !! pq = Some (Regular b t) ∧ audit_has line s.

Lemma in_place_held s n : in_place s n → held_kept s n.
Proof using All. intros (Hlo & Hf & Ho & [Hs|(k & [[] _] & _)]). split_and!; [done|done|done|by left]. Qed.
Lemma set_aside_held k s n : set_aside k s n → held_kept s n.
Proof using All. intros (Hf & Ho & Hs & Hk). split_and!; [lia|done|done|]. right. exists k. done. Qed.
Lemma in_place_source s n : in_place s n → source_at partition s0 src s.
Proof using All. by intros (_ & _ & _ & [Hs|(k & [[] _] & _)]). Qed.

Lemma set_aside_stable k : stable ok (set_aside k).
Proof using All.
  intros s n a Ha (Hf & Ho & Hs & Hk). split_and!; [|by apply others_kept_arrive|by apply source_at_arrive|lia|lia].
  apply (fresh_arrive uuid_hex self partition); [|done|done]. by apply src_name.
Qed.

Lemma proofs_stable m b t line : stable ok (λ s _, proofs m b t line s).
Proof using All.
  intros s n a Ha (H1 & H2 & H3). unfold proofs, document. rewrite arrive_documents. split_and!; [done| |].
  - rewrite arrive_lookup; [done|]. apply (collected_elsewhere self a); [done|]. intros E. discriminate E.
  - by apply (audit_has_stable self line s n a).
Qed.

Lemma audit_same text st s nd :
  append_node text st (nodes s !! raw_deletion_audit_path) = Some nd →
  raw_same s (set_node raw_deletion_audit_path nd s).
Proof using All. intros _. apply raw_same_set. intros E. discriminate E. Qed.

Lemma kept_frame held : audit_frame (kept uuid_hex partition s0 n0 held).
Proof using All. intros text st s n nd E Hs. eapply kept_same; [done|done|by eapply audit_same|done]. Qed.

Lemma set_aside_frame k : audit_frame (set_aside k).
Proof using All.
  intros text st s n nd E (Hf & Ho & Hs & Hk). pose proof (audit_same text st s nd E) as Hsame. split_and!.
  - intros k' Hk'. rewrite Hsame by by apply quarantine_raw_path. by apply Hf.
  - by eapply others_kept_same.
  - eapply source_at_same; [exact Hsame|by apply quarantine_raw_path|done].
  - lia.
  - lia.
Qed.

Lemma proofs_frame m b t line : audit_frame (λ s _, proofs m b t line s).
Proof using All.
  intros text st s n nd E (H1 & H2 & H3). split_and!; [done| |by eapply audit_has_append].
  cbn. rewrite lookup_insert_ne; [done|]. intros Eq. discriminate Eq.
Qed.

Lemma frame_and P Q : audit_frame P → audit_frame Q → audit_frame (λ s n, P s n ∧ Q s n).
Proof using All. intros HP HQ text st s n nd E [H1 H2]. split; [by eapply HP|by eapply HQ]. Qed.

(** Just before the rename: the drawn name is not in use. *)
Definition named (m : CompactionManifest) (b : string) (t : Z) (line : string) (k : nat) : assertion := λ s n,
  (in_place s n ∧ proofs m b t line s) ∧ n = S k ∧ (n0 ≤ k)%nat ∧ nodes s !! quar k = None.

Lemma named_stable m b t line k : stable ok (named m b t line k).
Proof using All.
  intros s n a Ha [[H1 H2] (H3 & H4 & H5)]. split; [split|split_and!; [done|done|]].
  - by apply (K_stable uuid_hex self partition s0 n0 (λ _, False) Hlast s n a).
  - by apply (proofs_stable m b t line s n a).
  - rewrite arrive_lookup; [done|]. destruct Ha as [_ Ha]. intros E.
    apply (quarantine_not_landing uuid_hex self partition (src_name self partition Hlast) k). by rewrite E.
Qed.

Lemma quar_not_src k : quar k ≠ src.
Proof using All.
  intros E. apply (quarantine_not_landing uuid_hex self partition (src_name self partition Hlast) k).
  by rewrite E.
Qed.

Lemma rename_aside m b t line k s n nd :
  named m b t line k s n → nodes s !! src = Some nd →
  set_aside k (set_node (quar k) nd (drop_node src s)) n
  ∧ proofs m b t line (set_node (quar k) nd (drop_node src s)).
Proof using All.
  intros [[Hin (H1 & H2 & H3)] (-> & Hk & Hfree)] Hnd. pose proof (in_place_source _ _ Hin) as Hsrc.
  destruct Hin as (_ & Hf & Ho & _).
  assert (Hother : ∀ p, ¬ is_raw p → nodes (set_node (quar k) nd (drop_node src s)) !! p = nodes s !! p).
  { intros p Hp. cbn. rewrite lookup_insert_ne, lookup_delete_ne; [done| |]; intros E; apply Hp; rewrite <- E;
      [done|by apply quarantine_raw_path]. }
  split.
  - split_and!; [| | |lia|lia].
    + intros k' Hk'. cbn. rewrite lookup_insert_ne, lookup_delete_ne; [by apply Hf| |].
      * intros E. by apply (quar_not_src k').
      * intros E%quarantine_inj; [lia|done].
    + intros p c Hp Hne Hc. destruct (Ho p c Hp Hne Hc) as (c' & Hc' & Hx). exists c'. split; [|done].
      rewrite text_of_set, text_of_drop. destruct (decide (quar k = p)) as [<-|_].
      * unfold text_of in Hc'. by rewrite Hfree in Hc'.
      * destruct (decide (src = p)) as [E|_]; [by rewrite E in Hne|done].
    + intros c Hc. destruct (Hsrc c Hc) as (c' & Hc' & Hx). exists c'. split; [|done].
      rewrite text_of_set. destruct (decide (quar k = quar k)); [|done]. unfold text_of in Hc'. by rewrite Hnd in Hc'.
  - split_and!; [done| |].
    + rewrite Hother; [done|]. intros E. discriminate E.
    + unfold audit_has, audit_text in *. rewrite Hother; [done|]. intros E. discriminate E.
Qed.

(** The rename into quarantine. *)
Lemma quarantine_step m b t line r e base now :
  spec ok (λ s n, in_place s n ∧ proofs m b t line s)
    (quarantine_raw uuid_hex self partition r e base now)
    (λ x s n, match x with
              | inl q => ∃ k, q = quar k ∧ set_aside k s n ∧ proofs m b t line s
              | inr r' => held_kept s n
              end)
    held_kept.
Proof using All.
  unfold quarantine_raw. cbv zeta.
  eapply (spec_bind _ _ _ _ (λ hex s n, ∃ k, named m b t line k s n ∧ hex = uuid_hex k)).
  { apply spec_draw. intros s n [(Hlo & Hf & Ho & Hs) Hp]. exists n. split; [|done].
    split; [split; [|done]|split_and!; [done|done|by apply Hf]]. split_and!; [lia| |done|].
    - intros k Hk. apply Hf. lia.
    - destruct Hs as [Hs|(k & [[] _] & _)]; by left. }
  intros hex. apply spec_ex. intros k. apply spec_pure. intros ->.
  change (with_name src (quarantine_name (path_name src) (uuid_hex k))) with (quar k).
  apply (spec_try_from _ _ _ _ _ _ (named m b t line k)).
  - eapply (spec_bind _ _ _ _ (λ _ s n, set_aside k s n ∧ proofs m b t line s)).
    + apply spec_step; [by apply named_stable|done|]. intros st s n Hs.
      destruct (nodes s !! src) as [nd|] eqn:E; [|done]. by apply rename_aside.
    + intros u. apply spec_ret. eauto.
  - intros s n [[Hs _] _]. by apply in_place_held.
  - intros x _. apply spec_fmap.
    apply (spec_conseq _ held_kept _ _ (λ _, held_kept) _ held_kept held_kept);
      [|intros s n [[Hs _] _]; by apply in_place_held|done..].
    apply finalize_keeps; [by apply K_stable|apply kept_frame].
Qed.

(** ** Quarantine *)

(** Content that the manifest describes. *)
Definition sound (m : CompactionManifest) (c : string) : Prop :=
  sha256_hex (bytes_of c) = m_source_sha256 m ∧ str_len c = m_source_size m ∧ jsonl_rows c = m_row_count m.

Definition quarantined (m : CompactionManifest) (b : string) (t : Z) (line : string) (k : nat) : assertion :=
  λ s n, set_aside k s n ∧ proofs m b t line s.

Lemma quarantined_stable m b t line k : stable ok (quarantined m b t line k).
Proof using All. apply stable_and; [apply set_aside_stable|]. intros s n a. by apply proofs_stable. Qed.

Lemma quarantined_frame m b t line k : audit_frame (quarantined m b t line k).
Proof using All. apply frame_and; [apply set_aside_frame|apply proofs_frame]. Qed.

Lemma quar_fixed k o : stable ok (λ s _, nodes s !! quar k = o).
Proof using All.
  intros s n a [_ Ha] Hs. rewrite arrive_lookup; [done|]. intros E.
  apply (quarantine_not_landing uuid_hex self partition (src_name self partition Hlast) k). by rewrite E.
Qed.

Lemma quar_frame k o : audit_frame (λ s _, nodes s !! quar k = o).
Proof using All.
  intros text st s n nd _ Hs. cbn. rewrite lookup_insert_ne; [done|]. intros E.
  assert (Hq : is_raw (quar k)) by by apply quarantine_raw_path. rewrite <- E in Hq. discriminate Hq.
Qed.

(** What reading the quarantine says of its content. *)
Definition read_well (o : option node) (qd : SourceSnapshot) (rows : Z) : Prop :=
  ∀ c t, o = Some (Regular c t) →
  ss_sha256 qd = sha256_hex (bytes_of c) ∧ ss_size qd = str_len c ∧ rows = jsonl_rows c.

Lemma read_quarantine k o (P : assertion) :
  stable ok P → (∀ s n, P s n → nodes s !! quar k = o) →
  spec ok P (qd ← snapshot_source self (quar k); rows ← count_jsonl_rows self (quar k);
             mret (inl (qd, rows)))
    (λ (x : SourceSnapshot * Z + CompactionResult) s n,
       P s n ∧ ∀ qd rows, x = inl (qd, rows) → read_well o qd rows) P.
Proof using All.
  intros HP Ho. destruct o as [[c t|t i|z t]|].
  2-4: (eapply spec_post; [solve_keeps| |done]; intros x s n Hs; split; [exact Hs|]; intros qd rows _ c' t' [=]).
  eapply spec_bind.
  { apply (snapshot_spec self ok P HP (quar k) c). intros s n Hs. unfold text_of. by rewrite (Ho s n Hs). }
  intros qd. apply spec_pure. intros [H1 H2]. eapply spec_bind; [by apply (jsonl_rows_spec self ok P (quar k) c t)|].
  intros rows. apply spec_pure. intros ->. apply spec_ret. intros s n Hs. split; [done|].
  intros qd' rows' [= <- <-] c' t' [= <- <-]. done.
Qed.

(** A verified quarantine holds content that the manifest describes. *)
Lemma verify_step m b t line k result e base now :
  spec ok (quarantined m b t line k) (verify_quarantine self (quar k) result m e base now)
    (λ x s n, quarantined m b t line k s n
              ∧ ((∃ ss, x = inl ss) → ∀ c, text_of (quar k) s = Some c → sound m c))
    (quarantined m b t line k).
Proof using All.
  apply (spec_fix _ _ (λ s, nodes s !! quar k)). intros o.
  set (P := λ s n, quarantined m b t line k s n ∧ nodes s !! quar k = o).
  assert (HP : stable ok P) by (apply stable_and; [apply quarantined_stable|apply quar_fixed]).
  assert (HA : audit_frame P) by (apply frame_and; [apply quarantined_frame|apply quar_frame]).
  apply (spec_post _ P _ (λ x s n, P s n ∧ ((∃ ss, x = inl ss) → ∀ c t', o = Some (Regular c t') → sound m c)) _ P _).
  - unfold verify_quarantine.
    apply (spec_bind _ _ _ _ (λ (x : SourceSnapshot * Z + CompactionResult) s n,
       P s n ∧ ∀ qd rows, x = inl (qd, rows) → read_well o qd rows)).
    + apply spec_try_for; [apply read_quarantine; [done|by intros s n []]|]. intros x _. apply spec_fmap.
      eapply spec_post; [by apply finalize_keeps| |done]. by intros r s n Hs.
    + intros [[qd rows]|r]; [|by apply spec_ret; intros s n [Hs _]; split; [done|]; intros [? [=]]].
      apply spec_pure. intros Hread. destruct (quarantined_evidence_matches qd rows m) eqn:Em.
      * apply spec_ret. intros s n Hs. split; [done|]. intros _ c t' Hc.
        destruct (Hread qd rows eq_refl c t' Hc) as (E1 & E2 & E3). unfold quarantined_evidence_matches in Em.
        apply andb_true_iff in Em as [[Em1%String.eqb_eq Em2%Z.eqb_eq]%andb_true_iff Em3%Z.eqb_eq].
        unfold sound. split_and!; congruence.
      * apply spec_fmap. eapply spec_post; [by apply finalize_keeps| |done]. intros r s n Hs. split; [done|].
        by intros [? [=]].
  - intros x s n [[Hq Ho] Hx]. split; [done|]. intros Hss c Hc. unfold text_of in Hc. rewrite Ho in Hc.
    destruct o as [[c' t'| |]|]; simplify_eq. by apply (Hx Hss c t').
  - by intros s n [].
Qed.

(** ** The end *)

(** The line of the audit that authorized the deletion. *)
Definition authorizes (m : CompactionManifest) (line : string) : Prop :=
  ∃ d, dumps (VDict d) = Ok line ∧ vget "event" d = VStr "authorize"
       ∧ vget "source_path" d = VStr (source_relative_path partition)
       ∧ vget "source_sha256" d = VStr (m_source_sha256 m)
       ∧ vget "output_sha256" d = v_opt_str (m_output_sha256 m) ∧ vget "row_count" d = VInt (m_row_count m).

(** The raw file is gone: what it held is what the manifest on disk describes,
    the Parquet file is the manifest's, and the deletion was authorized. *)
Definition deleted (m : CompactionManifest) : assertion := λ s _,
  others_kept partition s0 s
  ∧ (∀ c, text_of src s0 = Some c → ∃ c', extends c c' ∧ sound m c')
  ∧ ∃ b t line, proofs m b t line s ∧ lake_matches m b ∧ authorizes m line.

Lemma deleted_stable m : stable ok (deleted m).
Proof using All.
  intros s n a Ha (Ho & Hs & b & t & line & Hp & Hl). split_and!; [by apply others_kept_arrive|done|].
  exists b, t, line. split; [|done]. by apply (proofs_stable m b t line s n a).
Qed.

Lemma deleted_frame m : audit_frame (deleted m).
Proof using All.
  intros text st s n nd E (Ho & Hs & b & t & line & Hp & Hl).
  split_and!; [by apply (others_kept_same _ _ s); [eapply audit_same|]|done|].
  exists b, t, line. split; [|done]. by apply (proofs_frame m b t line text st s n nd).
Qed.

Definition kept_or_deleted (m : CompactionManifest) : assertion := λ s n, held_kept s n ∨ deleted m s n.
(** The result tells which. *)
Definition told (m : CompactionManifest) (r : CompactionResult) : assertion := λ s n,
  held_kept s n ∨ deleted m s n ∧ r_status r ∈ gone.

Lemma unlinked m b t line k s n :
  lake_matches m b → authorizes m line → quarantined m b t line k s n →
  (∀ c, text_of (quar k) s = Some c → sound m c) → deleted m (drop_node (quar k) s) n.
Proof using All.
  intros Hl Hau [(Hf & Ho & Hs & Hk) (Hdoc & Hpq & Hline)] Hc.
  assert (Hother : ∀ p, ¬ is_raw p → nodes (drop_node (quar k) s) !! p = nodes s !! p).
  { intros p Hp. cbn. rewrite lookup_delete_ne; [done|]. intros E. apply Hp. rewrite <- E.
    by apply quarantine_raw_path. }
  split_and!.
  - intros p c Hraw_p Hne Hpc. destruct (Ho p c Hraw_p Hne Hpc) as (c' & Hc' & Hx).
    rewrite text_of_drop. destruct (decide (quar k = p)) as [Eq|]; [|by exists c'].
    exfalso. unfold text_of in Hpc. rewrite <- Eq, (Hn0 k) in Hpc by lia. discriminate Hpc.
  - intros c Hsc. destruct (Hs c Hsc) as (c' & Hc' & Hx). exists c'. auto.
  - exists b, t, line. split; [|done]. split_and!; [done| |].
    + rewrite Hother; [done|]. intros E. discriminate E.
    + unfold audit_has, audit_text in *. rewrite Hother; [done|]. intros E. discriminate E.
Qed.

Lemma unlink_step m b t line k :
  lake_matches m b → authorizes m line →
  spec ok (λ s n, quarantined m b t line k s n ∧ ∀ c, text_of (quar k) s = Some c → sound m c)
    (try_for is_os (unlink (data_root self) (quar k) false;; mret None) (λ x, mret (Some x)))
    (λ x s n, match x with None => deleted m s n | Some _ => quarantined m b t line k s n end)
    (kept_or_deleted m).
Proof using All.
  intros Hl Hau. apply (spec_try_from _ _ _ _ _ _ (quarantined m b t line k)); [| |by intros e _; apply spec_ret].
  - apply (spec_bind _ _ _ _ (λ _, deleted m)); [|by intros ?; apply spec_ret].
    apply spec_step; [|by intros s n []|].
    + intros s n a Ha [Hq Hc]. split; [by apply (quarantined_stable m b t line k)|]. intros c. unfold text_of.
      rewrite (quar_fixed k (nodes s !! quar k) s n a Ha eq_refl). apply Hc.
    + intros st s n [Hq Hc]. pose proof (unlinked m b t line k s n Hl Hau Hq Hc).
      by destruct (nodes s !! quar k) as [[]|].
  - intros s n [Hs _]. left. by apply (set_aside_held k).
Qed.

(** From the quarantine to the result. *)
Lemma verify_and_unlink_step m b t line k result e base now :
  lake_matches m b → authorizes m line →
  spec ok (quarantined m b t line k)
    (verify_and_unlink_quarantine self (quar k) result m e base now) (told m) (kept_or_deleted m).
Proof using All.
  intros Hl Hau.
  assert (Hheld : ∀ s n, quarantined m b t line k s n → held_kept s n).
  { intros s n [Hs _]. by apply (set_aside_held k). }
  unfold verify_and_unlink_quarantine.
  eapply (spec_bind _ _ _ _ _); [eapply spec_post; [apply verify_step|by intros x s n H1; exact H1|]|].
  { intros s n Hs. left. by apply Hheld. }
  intros [ss|r]; [|apply spec_ret; intros s n [Hs _]; left; by apply Hheld].
  apply (spec_conseq _ (λ s n, quarantined m b t line k s n ∧ ∀ c, text_of (quar k) s = Some c → sound m c)
           _ _ (told m) _ (kept_or_deleted m) _); [|intros s n [Hs Hc]; split; [done|by apply Hc; exists ss]|done..].
  eapply spec_bind; [by apply unlink_step|]. intros [x|].
  - eapply (spec_conseq _ held_kept _ _ (λ _, held_kept) _ held_kept).
    + apply finalize_keeps; [by apply K_stable|apply kept_frame].
    + exact Hheld.
    + intros r s n Hs. by left.
    + intros s n Hs. by left.
  - eapply spec_post; [apply (finalize_spec self (deleted m)); [apply deleted_stable|apply deleted_frame]| |].
    + intros r s n [Hs Hr]. right. split; [done|]. unfold gone. destruct Hr as [->| ->]; in_list.
    + intros s n Hs. by right.
Qed.

(** ** Authorization and the whole deletion *)

(** The manifest on disk and the Parquet file. *)
Definition described (m : CompactionManifest) (b : string) (t : Z) (s : Store) : Prop :=
  decoded_manifest (document (manifest_path partition) s) = Ok (Some m) ∧ nodes s !! pq = Some (Regular b t).

Lemma described_stable m b t : stable ok (λ s _, described m b t s).
Proof using All.
  intros s n a Ha [H1 H2]. unfold described, document. rewrite arrive_documents. split; [done|].
  by apply (other_stable self pq _ ltac:(intros E; discriminate E) s n a).
Qed.

Lemma described_frame m b t : audit_frame (λ s _, described m b t s).
Proof using All.
  intros text st s n nd _ [H1 H2]. split; [done|]. cbn. rewrite lookup_insert_ne; [done|]. intros E. discriminate E.
Qed.

Lemma authorize_step m b t result e now :
  evidence_mismatch_reason e m = None →
  spec ok (λ s n, in_place s n ∧ described m b t s)
    (authorize_raw_delete self result (raw_delete_audit_base partition m e) e now)
    (λ x s n, in_place s n ∧ (x = None → ∃ line, proofs m b t line s ∧ authorizes m line)) in_place.
Proof using All.
  intros He. destruct (evidence_match m e He) as (E1 & _ & E2 & _ & _ & _).
  unfold authorize_raw_delete. apply (spec_try_from _ _ _ _ _ _ (λ s n, in_place s n ∧ described m b t s));
    [|by intros s n []|by intros x _; apply spec_ret; intros s n [Hs _]].
  eapply spec_bind.
  - apply audit_spec; [apply stable_and; [by apply K_stable|apply described_stable]|].
    apply frame_and; [apply kept_frame|apply described_frame].
  - intros u. apply spec_ret. intros s n [[Hs [H1 H2]] (line & Hl & Hh)]. split; [done|]. intros _.
    exists line. split; [done|]. eexists. split; [exact Hl|].
    unfold raw_delete_audit_base, dmerge, vget. rewrite <- E2, E1.
    cbv [fold_left dset dget String.eqb Ascii.eqb Bool.eqb fst snd default]. done.
Qed.

(** What the gates ask of the manifest at the time [now]. *)
Definition gates (m : CompactionManifest) (now : Z) : Prop :=
  raw_delete_enabled self = true ∧ m_status m = "verified"
  ∧ m_source_path m = source_relative_path partition
  ∧ (∃ end_, end_at partition = Ok end_ ∧ end_ ≤ now)
  ∧ ∃ d u, fromisoformat (completed_at m) = Some d ∧ aware_utc d = Ok u
           ∧ u + raw_delete_grace_hours self * HOUR ≤ now.

Definition settled (m : CompactionManifest) (now : Z) : assertion := λ s n,
  held_kept s n ∨ deleted m s n ∧ gates m now.
Definition settled_by (m : CompactionManifest) (now : Z) (r : CompactionResult) : assertion := λ s n,
  held_kept s n ∨ (deleted m s n ∧ gates m now) ∧ r_status r ∈ gone.

Lemma in_place_settled m now s n : in_place s n → settled m now s n.
Proof using All. intros Hs. left. by apply in_place_held. Qed.

Lemma settled_ret m now r (P : assertion) :
  (∀ s n, P s n → in_place s n) → spec ok P (mret r) (settled_by m now) (settled m now).
Proof using All. intros HP. apply spec_ret. intros s n Hs. left. by apply in_place_held, HP. Qed.

Lemma authorize_and_delete_step m b t result e now :
  evidence_mismatch_reason e m = None → lake_matches m b → gates m now →
  spec ok (λ s n, in_place s n ∧ described m b t s)
    (authorize_and_delete_raw uuid_hex self partition result m e now) (settled_by m now) (settled m now).
Proof using All.
  intros He Hl Hg. unfold authorize_and_delete_raw. cbv zeta.
  eapply spec_bind; [eapply spec_post; [by apply authorize_step|by intros x s n H1; exact H1|apply in_place_settled]|].
  intros [r|]; [by apply settled_ret; intros s n []|].
  apply (spec_conseq _ (λ s n, ∃ line, (in_place s n ∧ proofs m b t line s) ∧ authorizes m line)
           _ _ (settled_by m now) _ (settled m now) _); [|intros s n [Hs Hx]; destruct (Hx eq_refl) as (line & ? & ?); by exists line|done..].
  apply spec_ex. intros line. apply spec_pure. intros Hau.
  eapply spec_bind; [eapply spec_post; [apply quarantine_step|by intros x s n H1; exact H1|by intros s n Hs; left]|].
  intros [q|r]; [|by apply spec_ret; intros s n Hs; left].
  apply spec_ex. intros k.
  apply (spec_conseq _ (λ s n, quarantined m b t line k s n ∧ q = quar k) _ _ (settled_by m now) _ (settled m now) _);
    [|by intros s n (-> & ? & ?)|done..].
  apply spec_pure. intros ->. eapply spec_post; [by apply verify_and_unlink_step| |].
  - intros r s n [Hs|[Hs Hr]]; [by left|by right].
  - intros s n [Hs|Hs]; [by left|by right].
Qed.

Lemma maybe_delete_step result m now dry_run :
  spec ok (λ s n, in_place s n ∧ decoded_manifest (document (manifest_path partition) s) = Ok (Some m))
    (maybe_delete_raw uuid_hex self partition result m now dry_run) (settled_by m now) (settled m now).
Proof using All.
  set (P := λ s n, in_place s n ∧ decoded_manifest (document (manifest_path partition) s) = Ok (Some m)).
  assert (HP : stable ok P).
  { apply stable_and; [by apply K_stable|]. intros s n a Ha Hs. unfold document. by rewrite arrive_documents. }
  assert (HX : ∀ s n, P s n → settled m now s n) by (intros s n [Hs _]; by apply in_place_settled).
  assert (Hret : ∀ r, spec ok P (mret r) (settled_by m now) (settled m now)) by (intros r; by apply settled_ret; intros s n []).
  unfold maybe_delete_raw.
  apply (spec_bind _ _ _ _ (λ end_ s n, P s n ∧ end_at partition = Ok end_)); [by apply spec_lift|].
  intros end_. apply spec_pure. intros Hend.
  apply (spec_bind _ _ _ _ (λ g s n, P s n ∧ raw_delete_gate (raw_delete_enabled self) (r_status result) m end_ now
           (raw_delete_grace_hours self) = Ok g)); [by apply spec_lift|].
  intros g. apply spec_pure. intros Hg.
  destruct (g_phase g) eqn:Eg; try (apply Hret); try (by apply spec_raise).
  destruct (raw_delete_gate_metadata self m _ _ _ g Hg Eg) as (G1 & G2 & G3 & G4).
  eapply spec_bind; [eapply spec_post; [by apply metadata_spec|by intros x s n H1; exact H1|exact HX]|].
  intros [reason|]; [by eapply spec_conseq; [apply (Hret)|by intros s n []|done..]|].
  apply (spec_conseq _ (λ s n, ∃ b, (∃ t, in_place s n ∧ described m b t s) ∧ m_source_path m = source_relative_path partition)
           _ _ (settled_by m now) _ (settled m now) _); [| |done..].
  2: { intros s n [[Hs Hd] Hx]. destruct (Hx eq_refl) as (Hm & b & t & Hb). exists b. split; [|done]. by exists t. }
  apply spec_ex. intros b. apply spec_pure. intros Hm. apply spec_ex. intros t.
  assert (HPd : stable ok (λ s n, in_place s n ∧ described m b t s)).
  { apply stable_and; [by apply K_stable|apply described_stable]. }
  eapply spec_bind; [eapply spec_post; [apply (evidence_spec self partition m _ HPd b t); by intros s n [_ []]
                                       |by intros x s n H1; exact H1|]|].
  { intros s n [Hs _]. by apply in_place_settled. }
  intros [e|r]; [|by apply settled_ret; intros s n [[] _]].
  apply spec_pure. intros He. destruct (He e eq_refl) as [Hl Hev].
  destruct dry_run; [by apply settled_ret; intros s n []|].
  apply authorize_and_delete_step; [done|done|]. split_and!; [done|done|done|by exists end_|done].
Qed.
End deletion.
