(* ===== verification/LakeProps.v ===== *)
(** * Properties of the quote lake

    Compaction keeps the raw files and leaves the manifest it reports; a call on
    the lake, whatever fails in it and wherever it is killed, loses no raw data
    that the lake does not hold. *)

From stdpp Require Import base numbers strings list gmap.
From Stdlib Require Import Ascii ZArith Lia.
From S2P Require Import Prelude PyStr PyFloat PyTime PyDateTime PyDict PyVal PyHash PyJson FileStore Lake QuoteCompactor LakeFacts LakeSafety LakeDeletion.

#[local] Open Scope Z_scope.

#[export] Hint Extern 1 (¬ is_raw _) => (let E := fresh in intros E; discriminate E) : keeps.

Section compaction.
Context `{Duck} (uuid_hex : nat → string) `{!Inj (=) (=) uuid_hex} (self : QuoteLakeCompactor)
        (partition : RawQuotePartition) (s0 : Store) (n0 : nat).
Context (Hlast : last (source_path partition) = Some (raw_file_name self))
        (Hraw : is_raw (source_path partition)) (Hlen : (2 ≤ length (source_path partition))%nat)
        (Hn0 : fresh uuid_hex partition s0 n0).

Abbreviation ok := (collected self).
Abbreviation K := (kept uuid_hex partition s0 n0 (λ _, False)).
Abbreviation mp := (manifest_path partition).

Lemma K_ok : stable ok K.
Proof using All. by apply K_stable. Qed.
Local Hint Resolve K_ok : keeps.

(** The manifest on disk. *)
Definition on_disk (m : CompactionManifest) (s : Store) : Prop := decoded_manifest (document mp s) = Ok (Some m).

Lemma documents_stable (F : gmap path FileContent → Prop) : stable ok (λ s _, F (documents s)).
Proof using All. intros s n a _. by rewrite arrive_documents. Qed.

Lemma write_manifest_spec root m :
  manifest_wf m →
  spec ok K (write_manifest uuid_hex root mp m) (λ _ s n, K s n ∧ on_disk m s) K.
Proof using All.
  intros Hm. unfold write_manifest. eapply spec_bind; [apply keeps_effectless, K_ok|]. intros ?.
  eapply spec_bind; [by apply keeps_draw|]. intros hex. cbv zeta. set (temp := with_name mp _).
  assert (Htemp : temp ≠ mp).
  { apply with_name_ne. cbn. intros E. injection E as E. discriminate E. }
  assert (Hcl : keeps ok K (unlink_document temp)) by by apply keeps_unlink_document.
  apply spec_finally; [|intros u|exact Hcl].
  - apply (spec_bind _ _ _ _ (λ d s n, K s n ∧ manifest_to_dict m = Ok d)); [by apply spec_lift|].
    intros d. apply spec_pure. intros Hd.
    set (P := λ s n, K s n ∧ documents s !! temp = Some (Json (VDict d))).
    assert (HP : stable ok P) by (apply stable_and; [apply K_ok|apply (documents_stable (λ ds, ds !! temp = _))]).
    apply (spec_bind _ _ _ _ (λ _, P)).
    { apply spec_step; [apply K_ok|done|]. intros st s n Hs. destruct (documents s !! temp); [done|].
      split; [by apply (kept_same _ _ _ _ _ Hraw Hlen s)|]. apply lookup_insert_eq. }
    intros ?. do 2 (apply spec_skip; [by apply keeps_effectless|by intros s n []|intros ?]).
    apply spec_step; [done|by intros s n []|]. intros st s n [Hs Hd']. rewrite Hd'.
    split; [by apply (kept_same _ _ _ _ _ Hraw Hlen s)|]. unfold on_disk, document. cbn.
    rewrite lookup_insert_eq. by apply manifest_reads_back.
  - apply spec_step; [apply stable_and; [apply K_ok|apply (documents_stable (λ ds, decoded_manifest (default NoFile (ds !! mp)) = _))]
      |by intros s n []|].
    intros st s n [Hs Hd]. split; [by apply (kept_same _ _ _ _ _ Hraw Hlen s)|].
    unfold on_disk, document in *. cbn. by rewrite lookup_delete_ne.
Qed.

(** ** Compaction *)

Lemma snapshot_digest (P : assertion) p :
  stable ok P → spec ok P (snapshot_source self p) (λ ss s n, P s n ∧ ss_sha256 ss ≠ "") P.
Proof using.
  intros HP. unfold snapshot_source, stat_file, read_file.
  apply spec_skip; [by apply keeps_look|done|intros [size mtime]].
  apply spec_skip; [by apply keeps_look|done|intros content].
  apply spec_skip; [by apply keeps_look|done|intros [size' mtime']].
  destruct (_ || _); [by apply spec_raise|]. apply spec_ret. intros s n Hs. split; [done|]. apply sha256_hex_nonempty.
Qed.

Lemma verified_wf snapshot output stats now :
  ss_sha256 output ≠ "" → manifest_wf (verified_manifest partition snapshot output stats now).
Proof using. intros Ho. split; cbn; [done|discriminate|congruence]. Qed.
Lemma empty_manifest_wf snapshot now : manifest_wf (empty_manifest partition snapshot now).
Proof using. by split. Qed.

Lemma keeps_normalize source args : keeps ok K (create_normalized_quotes self source args).
Proof using All. unfold create_normalized_quotes, effectless, duck_open. solve_keeps. Qed.

Lemma keeps_write_parquet args content p :
  ¬ is_raw p → keeps ok K (write_normalized_parquet self args content p).
Proof using All. intros Hp. unfold write_normalized_parquet. solve_keeps. Qed.

Lemma keeps_verify_parquet p stats : keeps ok K (verify_parquet self p stats).
Proof using All. unfold verify_parquet, duck_open. solve_keeps. Qed.

(** A published compaction left its manifest on disk. *)
Lemma publish_spec snapshot now temp :
  ¬ is_raw temp →
  spec ok K (publish uuid_hex self partition snapshot now temp) (λ r s n, K s n ∧ on_disk r.1 s) K.
Proof using All.
  intros Htemp. unfold publish.
  apply spec_skip; [apply keeps_effectless, K_ok|done|intros ?].
  apply spec_skip; [by apply keeps_unlink|done|intros ?].
  apply spec_skip; [apply keeps_effectless, K_ok|done|intros ?].
  apply spec_skip; [apply keeps_lift|done|intros start].
  apply spec_skip; [apply keeps_lift|done|intros end_]. cbv zeta.
  apply spec_skip; [apply keeps_normalize|done|intros [stats content]].
  apply spec_skip; [by apply keeps_write_parquet|done|intros ?].
  apply spec_skip; [apply keeps_verify_parquet|done|intros ?].
  apply spec_skip; [apply keeps_snapshot, K_ok|done|intros after_].
  destruct (negb _); [by apply spec_raise|].
  apply spec_skip; [apply keeps_effectless, K_ok|done|intros ?].
  eapply spec_bind; [apply snapshot_digest, K_ok|]. intros output. apply spec_pure. intros Ho.
  apply spec_skip; [apply keeps_rename; auto with keeps|done|intros ?].
  eapply spec_bind; [by apply write_manifest_spec, verified_wf|]. intros ?. by apply spec_ret.
Qed.

Lemma on_disk_stable m : stable ok (λ s n, K s n ∧ on_disk m s).
Proof using All.
  apply stable_and; [apply K_ok|]. intros s n a _. unfold on_disk, document. by rewrite arrive_documents.
Qed.

Lemma unlink_temp_keeps m :
  keeps ok (λ s n, K s n ∧ on_disk m s)
    (try_for is_os (unlink (data_root self) (with_name (parquet_path partition) ".quotes.parquet.tmp") true)
       (λ _, mret tt)).
Proof using All.
  apply keeps_try_for; [|intros e; apply keeps_ret]. apply spec_step; [apply on_disk_stable|done|].
  intros st s n [Hs Hd].
  assert (Hdrop : K (drop_node (with_name (parquet_path partition) ".quotes.parquet.tmp") s) n).
  { apply (kept_same _ _ _ _ _ Hraw Hlen s); [|done]. apply raw_same_drop. auto with keeps. }
  by destruct (nodes s !! _) as [[]|].
Qed.

Lemma publish_or_fail_spec snapshot now :
  spec ok K (publish_or_fail uuid_hex self partition snapshot now)
    (λ x s n, K s n ∧ ∀ r, x = inl r → on_disk r.1 s) K.
Proof using All.
  unfold publish_or_fail. cbv zeta. apply spec_finally.
  - apply spec_try_for; [|by intros e _; apply spec_ret].
    apply spec_fmap. eapply spec_post; [by apply publish_spec; auto with keeps| |done].
    intros r s n [Hs Hd]. split; [done|]. by intros ? [= <-].
  - intros [r|r].
    + eapply spec_conseq; [apply (unlink_temp_keeps r.1)|by intros s n [Hs Hx]; auto| |by intros s n []].
      intros ? s n [Hs Hd]. split; [done|]. by intros ? [= <-].
    + eapply spec_conseq; [|by intros s n [Hs _]; exact Hs|by intros ? s n Hs; split; [exact Hs|]|done].
      by solve_keeps.
  - by solve_keeps.
Qed.

(** ** One call *)

Definition call_settled (now : Z) : assertion := λ s n,
  held_kept uuid_hex partition s0 n0 s n
  ∨ ∃ m, deleted partition s0 m s n ∧ gates self partition m now.
Definition call_settled_by (now : Z) (r : CompactionResult) : assertion := λ s n,
  held_kept uuid_hex partition s0 n0 s n
  ∨ (∃ m, deleted partition s0 m s n ∧ gates self partition m now) ∧ r_status r ∈ gone.

Lemma K_settled now s n : K s n → call_settled now s n.
Proof using All. intros Hs. left. by apply (in_place_held uuid_hex self partition s0 n0 Hlast Hraw Hlen Hn0). Qed.
Lemma K_settled_by now r s n : K s n → call_settled_by now r s n.
Proof using All. intros Hs. left. by apply (in_place_held uuid_hex self partition s0 n0 Hlast Hraw Hlen Hn0). Qed.

(** A program that keeps the raw files settles the call. *)
Lemma keeps_settles now (m : Prog CompactionResult) :
  keeps ok K m → spec ok K m (call_settled_by now) (call_settled now).
Proof using All. intros Hm. eapply spec_post; [exact Hm|intros r; apply K_settled_by|apply K_settled]. Qed.

Lemma maybe_delete_settles result m now dry_run :
  spec ok (λ s n, K s n ∧ on_disk m s) (maybe_delete_raw uuid_hex self partition result m now dry_run)
    (call_settled_by now) (call_settled now).
Proof using All.
  eapply spec_post; [by apply maybe_delete_step| |].
  - intros r s n [Hs|[Hs Hr]]; [by left|]. right. split; [by exists m|done].
  - intros s n [Hs|Hs]; [by left|]. right. by exists m.
Qed.

Lemma load_manifest_spec :
  spec ok K (load_manifest mp) (λ x s n, K s n ∧ ∀ m, x = Some m → on_disk m s) K.
Proof using All.
  unfold load_manifest. apply spec_skip; [apply keeps_look, K_ok|done|intros exists_].
  destruct (negb exists_); [by apply spec_ret|].
  apply (spec_bind _ _ _ _ (λ c s n, K s n ∧ (c = NoFile ∨ c = document mp s))).
  - apply spec_try_for; [|by intros e _; apply spec_ret; auto]. apply spec_look; [apply K_ok|done|].
    intros s n c Hs [= <-]. auto.
  - intros c. apply spec_lift; [by intros s n []|]. intros x s n E [Hs Hc]. split; [done|]. intros m ->.
    unfold on_disk. destruct Hc as [->| <-]; [discriminate E|done].
Qed.

Lemma keeps_compact_empty existing snapshot now dry_run :
  keeps ok K (compact_empty uuid_hex self partition existing snapshot now dry_run).
Proof using All.
  unfold compact_empty. cbv zeta. destruct (match existing with Some _ => _ | None => _ end); [apply keeps_ret|].
  destruct (match existing with Some _ => _ | None => _ end); [apply keeps_ret|].
  destruct dry_run; [apply keeps_ret|]. apply keeps_try_for; [|intros e; apply keeps_ret].
  apply keeps_bind; [|intros ?; apply keeps_ret].
  eapply spec_post; [by apply write_manifest_spec, empty_manifest_wf|by intros ? s n []|done].
Qed.

Lemma keeps_manifest_matches m size mtime (P : assertion) :
  stable ok P → keeps ok P (manifest_matches_metadata self partition m size mtime).
Proof using.
  intros HP. unfold manifest_matches_metadata, is_file. destruct m as [m|]; [|apply keeps_ret].
  do 7 (match goal with |- keeps _ _ (if ?b then _ else _) => destruct b; [apply keeps_ret|] end).
  solve_keeps.
Qed.
Lemma keeps_verified_matches m source (P : assertion) :
  stable ok P → keeps ok P (verified_manifest_matches self partition m source).
Proof using.
  intros HP. unfold verified_manifest_matches, is_file. destruct m as [m|]; [|apply keeps_ret].
  do 4 (match goal with |- keeps _ _ (if ?b then _ else _) => destruct b; [apply keeps_ret|] end).
  solve_keeps.
Qed.

Lemma found_stable (x : option CompactionManifest) : stable ok (λ s n, K s n ∧ ∀ m, x = Some m → on_disk m s).
Proof using All.
  apply stable_and; [apply K_ok|]. intros s n a _ Hx m E. unfold on_disk, document. rewrite arrive_documents. by apply Hx.
Qed.

Lemma compact_content_settles existing now dry_run :
  spec ok (λ s n, K s n ∧ ∀ m, existing = Some m → on_disk m s)
    (compact_content uuid_hex self partition existing now dry_run) (call_settled_by now) (call_settled now).
Proof using All.
  pose proof (found_stable existing) as HP. set (P := λ s n, _) in HP |- *.
  assert (HPK : ∀ s n, P s n → K s n) by (by intros s n []).
  assert (HPX : ∀ s n, P s n → call_settled now s n) by (intros s n Hs; by apply K_settled, HPK).
  assert (Hkeep : ∀ m, keeps ok K m → spec ok P m (call_settled_by now) (call_settled now)).
  { intros m Hm. eapply spec_conseq; [by apply keeps_settles|exact HPK|done..]. }
  unfold compact_content. apply spec_skip; [|done|].
  { apply keeps_try_for; [apply keeps_fmap, keeps_snapshot, HP|intros e; apply keeps_ret]. }
  intros [snapshot|r]; [|apply Hkeep, keeps_ret]. cbv zeta.
  destruct (_ =? 0); [apply Hkeep, keeps_compact_empty|].
  apply spec_skip; [apply keeps_verified_matches, HP|done|intros matches].
  assert (Hpub : spec ok P (if dry_run then mret (compaction_result partition (Some (as_posix (parquet_path partition)))
                    "would_compact" 0 (Some (ss_sha256 snapshot)) None)
     else published ← publish_or_fail uuid_hex self partition snapshot now;
          match published with
          | inl (m, stats) => maybe_delete_raw uuid_hex self partition
              (compaction_result partition (Some (as_posix (parquet_path partition))) "compacted"
                 (st_row_count stats) (Some (ss_sha256 snapshot)) None) m now false
          | inr failed => mret failed
          end) (call_settled_by now) (call_settled now)).
  { destruct dry_run; [apply Hkeep, keeps_ret|]. eapply spec_bind.
    - eapply spec_conseq; [apply publish_or_fail_spec|exact HPK|by intros x s n H1; exact H1|apply K_settled].
    - intros [[m stats]|r].
      + eapply spec_conseq; [apply maybe_delete_settles| |done..]. intros s n [Hs Hd].
        split; [done|]. by apply (Hd (m, stats)).
      + apply spec_ret. intros s n [Hs _]. by apply K_settled_by. }
  destruct matches, existing as [m|]; try exact Hpub.
  eapply spec_conseq; [apply maybe_delete_settles| |done..]. intros s n [Hs Hd]. auto.
Qed.

Lemma compact_one_settles now dry_run :
  spec ok K (compact_one_unlocked uuid_hex self partition now dry_run) (call_settled_by now) (call_settled now).
Proof using All.
  unfold compact_one_unlocked. cbv zeta.
  apply spec_skip; [apply keeps_lift|apply K_settled|intros end_].
  destruct (now <? end_); [apply keeps_settles, keeps_ret|].
  apply spec_skip; [|apply K_settled|].
  { apply keeps_try_for; [apply keeps_fmap, keeps_look, K_ok|intros e; apply keeps_ret]. }
  intros [[size mtime_ns]|r]; [|apply keeps_settles, keeps_ret].
  apply spec_skip; [apply keeps_lift|apply K_settled|intros settle].
  apply spec_skip; [apply keeps_lift|apply K_settled|intros settle_cutoff].
  apply spec_skip; [apply keeps_lift|apply K_settled|intros mtime].
  destruct (settle_cutoff <? mtime); [apply keeps_settles, keeps_ret|].
  eapply spec_bind; [eapply spec_post; [apply load_manifest_spec|by intros x s n H1; exact H1|apply K_settled]|].
  intros existing. apply spec_skip; [apply keeps_manifest_matches, found_stable| |intros matches].
  { intros s n [Hs _]. by apply K_settled. }
  destruct matches, existing as [m|]; try apply compact_content_settles.
  eapply spec_conseq; [apply maybe_delete_settles| |done..]. intros s n [Hs Hd]. auto.
Qed.

Lemma call_settled_stable now : stable ok (call_settled now).
Proof using All.
  intros s n a Ha [Hs|(m & Hd & Hg)]; [left; by apply (K_stable uuid_hex self partition s0 n0 _ Hlast s n a)|].
  right. exists m. split; [|done]. by apply (deleted_stable uuid_hex self partition s0 n0 Hlast Hraw Hlen Hn0 m s n a).
Qed.
Lemma call_settled_by_stable now r : stable ok (call_settled_by now r).
Proof using All.
  intros s n a Ha [Hs|[(m & Hd & Hg) Hr]]; [left; by apply (K_stable uuid_hex self partition s0 n0 _ Hlast s n a)|].
  right. split; [|done]. exists m. split; [|done].
  by apply (deleted_stable uuid_hex self partition s0 n0 Hlast Hraw Hlen Hn0 m s n a).
Qed.

Lemma with_lock_settles now lock m :
  keeps ok K (touch (data_root self) lock) →
  spec ok K m (call_settled_by now) (call_settled now) →
  spec ok K (with_lock self lock m) (call_settled_by now) (call_settled now).
Proof using All.
  intros Ht Hm. unfold with_lock.
  apply spec_skip; [apply keeps_effectless, K_ok|apply K_settled|intros ?].
  apply spec_skip; [exact Ht|apply K_settled|intros ?].
  apply spec_skip; [apply keeps_effectless, K_ok|apply K_settled|intros ?].
  apply spec_finally; [exact Hm| |apply keeps_effectless, call_settled_stable].
  intros r. eapply spec_post; [apply keeps_effectless, (call_settled_by_stable now r)|done|].
  intros s n [Hs|[Hs _]]; [by left|by right].
Qed.

Lemma at_utc_settles now (k : Z → Prog CompactionResult) :
  (spec ok K (k (dt_as_utc now)) (call_settled_by (dt_as_utc now)) (call_settled (dt_as_utc now))) →
  spec ok K (u ← lift (match dt_off now with Some _ => aware_utc now | None => Err ValueError end); k u)
    (call_settled_by (dt_as_utc now)) (call_settled (dt_as_utc now)).
Proof using All.
  intros Hk. apply (spec_bind _ _ _ _ (λ u s n, K s n ∧ u = dt_as_utc now)).
  - apply spec_lift; [intros s n; apply K_settled|]. intros u s n E Hs. split; [done|].
    destruct now as [w [off|]]; [|discriminate E]. unfold aware_utc in E. cbn in *. by destruct (instant_in_range _); simplify_eq.
  - intros u. apply spec_pure. by intros ->.
Qed.

Lemma compact_one_call now dry_run :
  spec ok K (compact_one uuid_hex self partition now dry_run) (call_settled_by (dt_as_utc now)) (call_settled (dt_as_utc now)).
Proof using All.
  unfold compact_one. cbv zeta. destruct dry_run; [|apply with_lock_settles; [by apply keeps_touch_other; auto with keeps|]];
    apply (at_utc_settles now (λ now, compact_one_unlocked uuid_hex self partition now _)), compact_one_settles.
Qed.

Lemma delete_exact_call expected now dry_run :
  spec ok K (delete_raw_if_manifest_matches uuid_hex self partition expected now dry_run)
    (call_settled_by (dt_as_utc now)) (call_settled (dt_as_utc now)).
Proof using All.
  set (lock := with_name (source_path partition) ("." +:+ path_name (source_path partition) +:+ ".lock")).
  unfold delete_raw_if_manifest_matches. cbv zeta. fold lock.
  match goal with |- context [with_lock self lock ?b] => set (body := b) end.
  assert (Hbody : spec ok K body (call_settled_by (dt_as_utc now)) (call_settled (dt_as_utc now))).
  { unfold body. eapply spec_bind; [eapply spec_post; [apply load_manifest_spec|by intros x s n H1; exact H1|apply K_settled]|].
    intros [m|]; [|by apply spec_ret; intros s n [Hs _]; apply K_settled_by].
    destruct (bool_decide (m = expected)); [|by apply spec_ret; intros s n [Hs _]; apply K_settled_by].
    apply (spec_bind _ _ _ _ (λ u s n, (K s n ∧ on_disk m s) ∧ u = dt_as_utc now)).
    - apply spec_lift; [intros s n [Hs _]; by apply K_settled|]. intros u s n E [Hs Hd]. split; [by auto|].
      destruct now as [w [off|]]; [|discriminate E]. unfold aware_utc in E. cbn in *. by destruct (instant_in_range _); simplify_eq.
    - intros u. apply spec_pure. intros ->. apply maybe_delete_settles. }
  assert (Hlocked : spec ok K (with_lock self lock body) (call_settled_by (dt_as_utc now)) (call_settled (dt_as_utc now))).
  { apply with_lock_settles; [by apply keeps_touch_lock|exact Hbody]. }
  destruct dry_run; [exact Hlocked|]. apply with_lock_settles; [by apply keeps_touch_other; auto with keeps|exact Hlocked].
Qed.
End compaction.

(** ** The theorems *)

Inductive lake_call :=
  | CompactOne (now : pydt) (dry_run : bool)
  | DeleteExact (expected : CompactionManifest) (now : pydt) (dry_run : bool).

Definition call_now (c : lake_call) : Z :=
  match c with CompactOne now _ | DeleteExact _ now _ => dt_as_utc now end.

Definition run_call `{Duck} (uuid_hex : nat → string) (self : QuoteLakeCompactor) (partition : RawQuotePartition)
    (c : lake_call) : Prog CompactionResult :=
  match c with
  | CompactOne now dry_run => compact_one uuid_hex self partition now dry_run
  | DeleteExact expected now dry_run => delete_raw_if_manifest_matches uuid_hex self partition expected now dry_run
  end.

Lemma parsed_path p partition :
  parse_raw_quote_partition p = Some partition → source_path partition = p ∧ is_raw p ∧ (2 ≤ length p)%nat.
Proof.
  unfold parse_raw_quote_partition. intros E.
  destruct p as [|s [|p1 [|p2 [|p3 [|p4 [|]]]]]]; try discriminate E; repeat (case_match; try discriminate E).
  repeat first [split_if E; [discriminate E|] | split_if E; [|discriminate E]
               | apply bind_Some in E as (? & _ & E)].
  injection E as <-. subst. cbn. split_and!; [done|done|lia].
Qed.

(** C3: No raw data is lost.  Whatever fails in a call on the lake, wherever the
    process is killed, and whatever the collectors append meanwhile: every other
    raw file keeps its place, and what the partition's raw file held is still in
    it, or in a quarantine file named by this call — or it is gone, and then it
    is content with the digest, the size and the number of rows of the verified
    manifest on disk, the Parquet file has the digest, the size and the number of
    rows of the manifest, the hour and the grace period are over, the deletion
    was authorized in the audit file, and a result says that the file is gone or
    that the audit failed after it. *)
Theorem lake_keeps_raw_data `{Duck} uuid_hex `{!Inj (=) (=) uuid_hex} self p partition call w w' o :
  parse_raw_quote_partition p = Some partition → last p = Some (raw_file_name self) →
  script_ok (collected self) w → fresh uuid_hex partition (store w) (drawn w) →
  run_call uuid_hex self partition call w = (w', o) →
  (∀ q c, is_raw q → q ≠ p → text_of q (store w) = Some c →
     ∃ c', text_of q (store w') = Some c' ∧ extends c c')
  ∧ ∀ c, text_of p (store w) = Some c →
      (∃ q c', (q = p ∨ ∃ k, (drawn w ≤ k < drawn w')%nat ∧ q = quarantine uuid_hex partition k)
               ∧ text_of q (store w') = Some c' ∧ extends c c')
      ∨ ∃ m c' b t line,
          extends c c' ∧ sound m c' ∧ gates self partition m (call_now call)
          ∧ proofs partition m b t line (store w') ∧ lake_matches m b ∧ authorizes partition m line
          ∧ ∀ r, o = Done r → r_status r ∈ gone.
Proof.
  intros Hp Hlast Hok Hfresh Hrun. destruct (parsed_path _ _ Hp) as (Hsrc & Hraw & Hlen).
  rewrite <- Hsrc in Hlast, Hraw, Hlen |- *.
  assert (HK : kept uuid_hex partition (store w) (drawn w) (λ _, False) (store w) (drawn w)).
  { split; [done|]. split; [done|]. split; [intros q c _ _ Hc|left; intros c Hc]; exists c; auto using extends_refl. }
  assert (Hspec : match o with Done r => call_settled_by uuid_hex self partition (store w) (drawn w) (call_now call) r (store w') (drawn w')
                  | _ => call_settled uuid_hex self partition (store w) (drawn w) (call_now call) (store w') (drawn w') end).
  { destruct call as [now dry|expected now dry]; cbn in Hrun.
    - pose proof (compact_one_call uuid_hex self partition (store w) (drawn w) Hlast Hraw Hlen Hfresh now dry w Hok HK) as Hs.
      rewrite Hrun in Hs. apply Hs.
    - pose proof (delete_exact_call uuid_hex self partition (store w) (drawn w) Hlast Hraw Hlen Hfresh expected now dry w Hok HK) as Hs.
      rewrite Hrun in Hs. apply Hs. }
  assert (Hend : held_kept uuid_hex partition (store w) (drawn w) (store w') (drawn w')
                 ∨ (∃ m, deleted partition (store w) m (store w') (drawn w') ∧ gates self partition m (call_now call))
                   ∧ ∀ r, o = Done r → r_status r ∈ gone).
  { destruct o as [r|e|]; destruct Hspec as [Hs|Hs]; [by left| |by left| |by left|];
      right; (split; [by apply Hs|]); intros r' [=]; subst; apply Hs. }
  clear Hspec. destruct Hend as [(_ & _ & Ho & Hs)|[(m & (Ho & Hs & b & t & line & Hpr & Hl & Ha) & Hg) Hr]]; (split; [done|]);
    intros c Hc.
  - left. destruct Hs as [Hs|(k & Hk & Hs)]; destruct (Hs c Hc) as (c' & Hc' & Hx); eexists _, c';
      (split; [|by split]); [by left|right; exists k; split; [lia|done]].
  - right. destruct (Hs c Hc) as (c' & Hx & Hsound). exists m, c', b, t, line. auto 10.
Qed.

(** ** A concrete lake *)

(** A database whose Parquet files are the raw lines behind a mark. *)
Definition line_stats (c : string) : NormalizedQuoteStats :=
  {| st_row_count := jsonl_rows c; st_min_received_at := "2026-03-03T14:00:00.000000Z";
     st_max_received_at := "2026-03-03T14:59:59.000000Z"; st_min_source_at := "2026-03-03T14:00:00.000000Z";
     st_max_source_at := "2026-03-03T14:59:59.000000Z" |}.
Definition line_duck : Duck := {|
  duck_invalid := λ _ _, inr (0, 0, 0, 0);
  duck_stats := λ _ c, inr (line_stats c);
  duck_copy := λ _ _ c, inr ("PAR1" +:+ c);
  duck_parquet_stats := λ c, inr (VList (expected_tuple (line_stats (str_drop 4 c))));
  duck_parquet_rows := λ c, inr (jsonl_rows (str_drop 4 c));
  duck_unreadable := Exc OTHER_ERROR "IOException" "cannot open file" |}.

Definition counted (n : nat) : string := str_of_Z (Z.of_nat n).
#[global] Instance counted_inj : Inj (=) (=) counted.
Proof. intros a b E. unfold counted, str_of_Z in E. apply (inj pretty.pretty) in E. lia. Qed.

Definition lake_settings : QuoteLakeCompactor :=
  {| data_root := "/data"; raw_file_name := "quotes.jsonl"; settle_seconds := f_of_Z 120;
     compression_level := 3; raw_delete_enabled := true; raw_delete_grace_hours := 72 |}.
Definition raw_hour : path := ["raw"; "provider=ibkr"; "date=2026-03-03"; "hour=14"; "quotes.jsonl"].
Definition ibkr_hour : RawQuotePartition :=
  {| source_path := raw_hour; pt_provider := "ibkr"; pt_session_date := "2026-03-03"; pt_hour := 14 |}.
Definition newline : string := String (ascii_chr 10) "".
Definition two_quotes : string := "{a}" +:+ newline +:+ "{b}" +:+ newline.
Definition one_quote : string := "{c}" +:+ newline.
Definition after_hour : Z := combine (ymd2ord 2026 3 3) (time_hm 15 10).

Definition at_call (call : lake_call) (w : World) : World := (run_call (H:=line_duck) counted lake_settings ibkr_hour call w).1.
Definition lake_start : World :=
  {| store := {| nodes := {[ raw_hour := Regular two_quotes 1772550000000000000 ]}; documents := ∅ |};
     script := []; drawn := 0 |}.
Definition lake_compacted : World := at_call (CompactOne (utc after_hour) false) lake_start.
Definition lake_deleted : World := at_call (CompactOne (utc (after_hour + 73 * HOUR)) false) lake_compacted.

(** No file is named like a quarantine. *)
Definition no_quarantine (partition : RawQuotePartition) (s : Store) : bool :=
  forallb (λ kn, negb (str_starts ("." +:+ path_name (source_path partition) +:+ ".raw-delete-quarantine.")
                         (default "" (last kn.1)))) (map_to_list (nodes s)).

Lemma str_starts_app p s : str_starts p (p +:+ s) = true.
Proof.
  unfold str_starts. induction p as [|c p IH]; [by destruct s|]. rewrite str_app_cons. cbn.
  by destruct (ascii_dec c c).
Qed.

Lemma no_quarantine_fresh uuid_hex partition s n : no_quarantine partition s = true → fresh uuid_hex partition s n.
Proof.
  intros Hs k _. destruct (nodes s !! _) as [nd|] eqn:E; [|done]. apply elem_of_map_to_list in E.
  unfold no_quarantine in Hs. rewrite forallb_forall in Hs. apply list_elem_of_In, Hs in E.
  unfold quarantine in E. cbn [fst] in E. rewrite with_name_last in E. cbn [default from_option id] in E.
  unfold quarantine_name in E. rewrite <- !str_app_assoc in E. by rewrite str_starts_app in E.
Qed.

Lemma lake_keeps_raw_data_witness :
  ∃ m c, extends two_quotes c ∧ sound m c
         ∧ decoded_manifest (document (manifest_path ibkr_hour) (store lake_deleted)) = Ok (Some m).
Proof.
  destruct (@lake_keeps_raw_data line_duck counted counted_inj lake_settings raw_hour ibkr_hour
              (CompactOne (utc (after_hour + 73 * HOUR)) false) lake_compacted lake_deleted
              (run_call (H:=line_duck) counted lake_settings ibkr_hour
                 (CompactOne (utc (after_hour + 73 * HOUR)) false) lake_compacted).2)
    as [_ Hc].
  - vm_compute. reflexivity.
  - reflexivity.
  - unfold script_ok. vm_compute. constructor.
  - apply no_quarantine_fresh. vm_compute. reflexivity.
  - apply surjective_pairing.
  - destruct (Hc two_quotes) as [(q & c' & [->|(k & Hk & ->)] & Ht & _)|(m & c' & b & t & line & Hx & Hs & _ & Hp & _)].
    + vm_compute. reflexivity.
    + exfalso. vm_compute in Ht. discriminate Ht.
    + exfalso. assert (E : drawn lake_compacted = 1%nat) by (vm_compute; reflexivity).
      assert (E' : drawn lake_deleted = 2%nat) by (vm_compute; reflexivity).
      assert (k = 1%nat) as -> by lia. vm_compute in Ht. discriminate Ht.
    + exists m, c'. split; [exact Hx|]. split; [exact Hs|]. apply Hp.
Defined.

(** A raw file that appears again after its hour was deleted is compacted over
    the Parquet file: the deleted rows are nowhere any more. *)
Definition lake_late : World :=
  let s := store lake_deleted in
  {| store := set_node raw_hour (Regular one_quote 1772850000000000000) s; script := []; drawn := drawn lake_deleted |}.

Lemma late_raw_file_replaces_the_lake :
  text_of (parquet_path ibkr_hour) (store lake_late) = Some ("PAR1" +:+ two_quotes)
  ∧ text_of (parquet_path ibkr_hour)
      (store (at_call (CompactOne (utc (after_hour + 200 * HOUR)) false) lake_late)) = Some ("PAR1" +:+ one_quote).
Proof. split; vm_compute; reflexivity. Qed.
