(* ===== verification/LakeSettles.v ===== *)
(** * Compaction settles

    When nothing fails and nobody writes, the compaction of a closed hour
    publishes the Parquet file and the manifest, and the next one finds the hour
    up to date and changes nothing. *)

From stdpp Require Import base numbers strings list gmap.
From Stdlib Require Import Ascii ZArith Lia.
From S2P Require Import Prelude PyStr PyFloat PyTime PyDateTime PyDict PyVal PyHash PyJson FileStore Lake QuoteCompactor LakeFacts LakeSafety LakeDeletion LakeProps.

#[local] Open Scope Z_scope.

(** ** Undisturbed runs

    The world at the store [s] with [d] names drawn, when nothing is to happen. *)
Definition calm (s : Store) (d : nat) : World := {| store := s; script := []; drawn := d |}.

Lemma run_bind {A B} (m : Prog A) (k : A → Prog B) w w' a :
  m w = (w', Done a) → (m ≫= k) w = k a w'.
Proof. intros E. unfold mbind, prog_bind. by rewrite E. Qed.
Lemma run_fmap {A B} (f : A → B) (m : Prog A) w w' a :
  m w = (w', Done a) → (f <$> m) w = (w', Done (f a)).
Proof. intros E. unfold fmap, prog_fmap. by rewrite (run_bind _ _ _ _ _ E). Qed.
Lemma run_try {A} cls (m : Prog A) h w w' a : m w = (w', Done a) → try_for cls m h w = (w', Done a).
Proof. intros E. unfold try_for, try_with. by rewrite E. Qed.
Lemma run_finally {A} (m : Prog A) f w w1 w2 a u :
  m w = (w1, Done a) → f w1 = (w2, Done u) → finally m f w = (w2, Done a).
Proof. intros E E'. unfold finally. by rewrite E, E'. Qed.
Lemma run_step {A} (f : Z → Store → Store * (exc + A)) s d s' a :
  f 0 s = (s', inr a) → step f (calm s d) = (calm s' d, Done a).
Proof. intros E. unfold step, next_move, calm. cbn. by rewrite E. Qed.
Lemma run_look {A} (f : Store → exc + A) s d a : f s = inr a → look f (calm s d) = (calm s d, Done a).
Proof. intros E. apply run_step. by rewrite E. Qed.
Lemma run_lift {A} (r : res A) w a : r = Ok a → lift r w = (w, Done a).
Proof. by intros ->. Qed.
Lemma run_lift_sum {A} (r : exc + A) w a : r = inr a → lift_sum r w = (w, Done a).
Proof. by intros ->. Qed.
Lemma run_effectless s d : effectless (calm s d) = (calm s d, Done tt).
Proof. by apply run_look. Qed.

(** The next statement of a program runs by the equation [E]. *)
Tactic Notation "runs" uconstr(E) := rewrite (run_bind _ _ _ _ _ E).
Ltac skips := repeat runs (run_effectless _ _).

Section settles.
Context `{Duck} (uuid_hex : nat → string) (self : QuoteLakeCompactor).

Abbreviation root := (data_root self).

Definition snapshot_of (c : string) (t : Z) : SourceSnapshot :=
  {| ss_size := str_len c; ss_mtime_ns := t; ss_sha256 := sha256_hex (bytes_of c) |}.

Lemma run_stat s d p c t :
  nodes s !! p = Some (Regular c t) → stat_file root p (calm s d) = (calm s d, Done (str_len c, t)).
Proof. intros E. apply run_look. unfold stat_of. by rewrite E. Qed.
Lemma run_read s d p c t :
  nodes s !! p = Some (Regular c t) → read_file root p (calm s d) = (calm s d, Done c).
Proof. intros E. apply run_look. unfold content_of. by rewrite E. Qed.
Lemma run_open s d p c t :
  nodes s !! p = Some (Regular c t) → duck_open self p (calm s d) = (calm s d, Done c).
Proof. intros E. apply run_look. unfold content_of. by rewrite E. Qed.
Lemma run_is_file s d p c t :
  nodes s !! p = Some (Regular c t) → is_file p (calm s d) = (calm s d, Done true).
Proof. intros E. apply run_look. unfold file_at. by rewrite E. Qed.

Lemma run_snapshot s d p c t :
  nodes s !! p = Some (Regular c t) →
  snapshot_source self p (calm s d) = (calm s d, Done (snapshot_of c t)).
Proof.
  intros E. unfold snapshot_source. runs (run_stat _ _ _ _ _ E). cbv beta iota.
  runs (run_read _ _ _ _ _ E). runs (run_stat _ _ _ _ _ E). cbv beta iota. by rewrite !Z.eqb_refl.
Qed.

(** No directory is at [p]. *)
Definition no_special (p : path) (s : Store) : Prop := ∀ size t, nodes s !! p ≠ Some (Special size t).

Lemma run_unlink s d p :
  no_special p s → ∃ s', unlink root p true (calm s d) = (calm s' d, Done tt)
  ∧ (∀ q, q ≠ p → nodes s' !! q = nodes s !! q) ∧ nodes s' !! p = None ∧ documents s' = documents s.
Proof.
  intros Hs. destruct (nodes s !! p) as [n|] eqn:E.
  - exists (drop_node p s). split_and!; [|intros q Hq; by apply lookup_delete_ne|apply lookup_delete_eq|done].
    apply run_step. rewrite E. destruct n; [done..|]. by edestruct Hs.
  - exists s. split_and!; [|done..]. apply run_step. by rewrite E.
Qed.

Lemma run_touch s d p :
  no_special p s → ∃ s', touch root p (calm s d) = (calm s' d, Done tt)
  ∧ (∀ q, q ≠ p → nodes s' !! q = nodes s !! q) ∧ no_special p s' ∧ documents s' = documents s.
Proof.
  intros Hs. destruct (nodes s !! p) as [n|] eqn:E.
  - exists s. split_and!; [|done..]. apply run_step. rewrite E. destruct n; [done..|]. by edestruct Hs.
  - exists (set_node p (Regular "" 0) s). split_and!; [|intros q Hq; by apply lookup_insert_ne| |done].
    + apply run_step. by rewrite E.
    + intros a b. cbn. rewrite lookup_insert_eq. done.
Qed.

(** ** Publishing *)

Lemma run_write_manifest s d p m :
  manifest_wf m → documents s !! with_name p ("." +:+ path_name p +:+ "." +:+ uuid_hex d +:+ ".tmp") = None →
  ∃ s', write_manifest uuid_hex root p m (calm s d) = (calm s' (S d), Done tt)
  ∧ nodes s' = nodes s ∧ decoded_manifest (document p s') = Ok (Some m).
Proof.
  intros Hm Hd. unfold write_manifest. skips.
  rewrite (run_bind (draw uuid_hex) _ (calm s d) (calm s (S d)) (uuid_hex d)) by done. cbv zeta.
  set (temp := with_name p _) in *.
  assert (Htemp : temp ≠ p).
  { apply with_name_ne. unfold path_name. intros E. destruct (last p) as [name|]; [|discriminate E].
    injection E as E. apply (f_equal String.length) in E. rewrite !length_app_str in E. cbn in E. lia. }
  destruct (manifest_to_dict m) as [payload|] eqn:E.
  2: { destruct (manifest_id_ok m) as [id Hid]. unfold manifest_to_dict in E. by rewrite Hid in E. }
  set (s1 := set_document temp (Json (VDict payload)) s).
  set (s2 := set_document p (Json (VDict payload)) (drop_document temp s1)).
  exists (drop_document temp s2). split_and!; [|done|].
  - apply run_finally with (w1 := calm s2 (S d)) (u := tt); [|by apply run_step].
    runs (run_lift (Ok payload) _ payload eq_refl).
    rewrite (run_bind _ _ _ (calm s1 (S d)) tt) by (apply run_step; by rewrite Hd). skips.
    apply run_step. subst s1. cbn. by rewrite lookup_insert_eq.
  - unfold document. cbn. rewrite lookup_delete_ne, lookup_insert_eq by done. by apply manifest_reads_back.
Qed.

(** ** One hour

    The hour is over, its raw file is a regular file with content that was last
    written long enough ago, and the database answers on that content: no
    invalid row, statistics that the Parquet bytes confirm. *)
Context (partition : RawQuotePartition) (c : string) (t : Z) (stats : NormalizedQuoteStats) (parquet : string).

Abbreviation src := (source_path partition).
Abbreviation out := (parquet_path partition).
Abbreviation mp := (manifest_path partition).
Abbreviation temp := (with_name out ("." +:+ path_name out +:+ ".tmp")).

Definition normalize_args (start end_ : Z) : NormalizeArgs :=
  {| expected_provider := pt_provider partition; partition_start := start; partition_end := end_;
     na_source_relative_path := source_relative_path partition;
     na_source_sha256 := sha256_hex (bytes_of c) |}.

(** What DuckDB says of the content. *)
Record clean_rows (start end_ : Z) : Prop := {
  cl_start : start_at partition = Ok start;
  cl_end : end_at partition = Ok end_;
  cl_invalid : duck_invalid (normalize_args start end_) c = inr (0, 0, 0, 0);
  cl_stats : duck_stats (normalize_args start end_) c = inr stats;
  cl_rows : st_row_count stats ≠ 0;
  cl_copy : duck_copy (normalize_args start end_) (compression_level self) c = inr parquet;
  cl_verified : ∃ row, duck_parquet_stats parquet = inr row
                ∧ py_eq (VList (row_of row)) (VList (expected_tuple stats)) = true;
}.

(** The source is in place, and no directory is where the call writes. *)
Record writable (d : nat) (s : Store) : Prop := {
  wr_source : nodes s !! src = Some (Regular c t);
  wr_temp : no_special temp s;
  wr_document : documents s !! with_name mp ("." +:+ path_name mp +:+ "." +:+ uuid_hex d +:+ ".tmp") = None;
}.

Context (start end_ : Z) (Hclean : clean_rows start end_) (Hraw : is_raw src).

Lemma src_ne p : ¬ is_raw p → src ≠ p.
Proof using Hraw. by intros Hp <-. Qed.

Lemma run_normalize s d :
  nodes s !! src = Some (Regular c t) →
  create_normalized_quotes self src (normalize_args start end_) (calm s d) = (calm s d, Done (stats, c)).
Proof using Hclean.
  intros E. destruct Hclean as [_ _ Hi Hs Hr _ _]. unfold create_normalized_quotes. skips.
  runs (run_open _ _ _ _ _ E). runs (run_lift_sum _ _ _ Hi). cbv beta iota zeta.
  match goal with |- (if ?b then _ else _) _ = _ => change b with false end; cbv iota.
  runs (run_lift_sum _ _ _ Hs). by rewrite (proj2 (Z.eqb_neq _ _) Hr).
Qed.

Lemma run_verify s d p t' :
  nodes s !! p = Some (Regular parquet t') → verify_parquet self p stats (calm s d) = (calm s d, Done tt).
Proof using Hclean.
  intros E. destruct Hclean as [_ _ _ _ _ _ (row & Hrow & Heq)]. unfold verify_parquet.
  runs (run_open _ _ _ _ _ E). runs (run_lift_sum _ _ _ Hrow). by rewrite Heq.
Qed.

Abbreviation manifest now := (verified_manifest partition (snapshot_of c t) (snapshot_of parquet 0) stats now).

(** Nothing but the files at [ps] has changed. *)
Definition only_at (ps : list path) (s s' : Store) : Prop := ∀ q, q ∉ ps → nodes s' !! q = nodes s !! q.

(** The hour as a completed call leaves it. *)
Record published (now : Z) (s : Store) : Prop := {
  pu_source : nodes s !! src = Some (Regular c t);
  pu_output : nodes s !! out = Some (Regular parquet 0);
  pu_temp : nodes s !! temp = None;
  pu_manifest : decoded_manifest (document mp s) = Ok (Some (manifest now));
}.

Lemma manifest_wf_published now : manifest_wf (manifest now).
Proof using. split; cbn; [done|discriminate|]. intros [=E]. by apply sha256_hex_nonempty in E. Qed.

Lemma run_publish s d now :
  writable d s →
  ∃ s', publish uuid_hex self partition (snapshot_of c t) now temp (calm s d)
        = (calm s' (S d), Done (manifest now, stats)) ∧ published now s' ∧ only_at [temp; out] s s'.
Proof using Hclean Hraw.
  intros [Hsrc Htemp Hdoc]. destruct Hclean as [Hstart Hend _ _ _ Hcopy _].
  assert (Hst : src ≠ temp) by by apply src_ne. assert (Hso : src ≠ out) by by apply src_ne.
  assert (Hto : temp ≠ out) by (intros E; apply (f_equal last) in E; discriminate E).
  destruct (run_unlink s d temp Htemp) as (s1 & E1 & Hn1 & _ & Hd1).
  set (s2 := set_node temp (Regular parquet 0) s1).
  assert (Hs1 : nodes s1 !! src = Some (Regular c t)) by by rewrite Hn1.
  assert (Hs2 : nodes s2 !! src = Some (Regular c t)) by (subst s2; cbn; by rewrite lookup_insert_ne).
  assert (Ht2 : nodes s2 !! temp = Some (Regular parquet 0)) by (subst s2; cbn; by rewrite lookup_insert_eq).
  set (s3 := set_node out (Regular parquet 0) (drop_node temp s2)).
  destruct (run_write_manifest s3 d mp (manifest now) (manifest_wf_published now)) as (s4 & E4 & Hn4 & Hd4).
  { subst s3 s2. cbn. by rewrite Hd1. }
  exists s4. split.
  - unfold publish. skips. runs E1. skips. runs (run_lift _ _ _ Hstart). runs (run_lift _ _ _ Hend). cbv zeta.
    runs (run_normalize _ _ Hs1). cbv beta iota.
    rewrite (run_bind _ _ _ (calm s2 d) tt)
      by (unfold write_normalized_parquet; runs (run_lift_sum _ _ _ Hcopy); by apply run_step).
    runs (run_verify _ _ _ _ Ht2). runs (run_snapshot _ _ _ _ _ Hs2).
    rewrite bool_decide_true by done. cbn [negb]. skips. runs (run_snapshot _ _ _ _ _ Ht2).
    rewrite (run_bind _ _ _ (calm s3 d) tt) by (apply run_step; by rewrite Ht2).
    by runs E4.
  - subst s3. cbn in Hn4. split; [split; [..|exact Hd4]; rewrite Hn4|].
    + rewrite lookup_insert_ne, lookup_delete_ne by done. exact Hs2.
    + apply lookup_insert_eq.
    + by rewrite lookup_insert_ne, lookup_delete_eq.
    + intros q Hq. apply not_elem_of_cons in Hq as [Hq1 Hq2]. apply not_elem_of_cons in Hq2 as [Hq2 _].
      by rewrite Hn4, lookup_insert_ne, lookup_delete_ne, lookup_insert_ne, Hn1.
Qed.

Lemma run_publish_or_fail s d now :
  writable d s →
  ∃ s', publish_or_fail uuid_hex self partition (snapshot_of c t) now (calm s d)
        = (calm s' (S d), Done (inl (manifest now, stats))) ∧ published now s' ∧ only_at [temp; out] s s'.
Proof using Hclean Hraw.
  intros Hw. destruct (run_publish s d now Hw) as (s' & E & Hp & Ho). exists s'. split; [|done].
  unfold publish_or_fail. cbv zeta. apply run_finally with (w1 := calm s' (S d)) (u := tt).
  - apply run_try. by apply run_fmap.
  - apply run_try. apply run_step. by rewrite (pu_temp _ _ Hp).
Qed.

(** ** The call *)

(** The hour is over at [now] and the file has settled. *)
Record closed (now : Z) : Prop := {
  co_over : end_ ≤ now;
  co_settled : ∃ settle cutoff mtime, td_seconds (settle_seconds self) = Ok settle
    ∧ dt_add now (- settle) = Ok cutoff ∧ dt_fromtimestamp (st_mtime t) = Some mtime ∧ mtime ≤ cutoff;
}.

Context (Hretained : raw_delete_enabled self = false) (Hcontent : str_len c ≠ 0).

Lemma run_keep_raw result m now dry_run w :
  maybe_delete_raw uuid_hex self partition result m now dry_run w = (w, Done result).
Proof using Hclean Hretained.
  unfold maybe_delete_raw. runs (run_lift _ _ _ (cl_end _ _ Hclean)). 
  by rewrite Hretained, (run_bind _ _ _ w {| g_phase := RETAINED; g_reason := None |}).
Qed.

(** The checks before the manifest is read. *)
Lemma run_closed s d now dry_run :
  closed now → nodes s !! src = Some (Regular c t) →
  compact_one_unlocked uuid_hex self partition now dry_run (calm s d)
  = (existing ← load_manifest mp;
     matches ← manifest_matches_metadata self partition existing (str_len c) t;
     match matches, existing with
     | true, Some m => maybe_delete_raw uuid_hex self partition (up_to_date_result partition m) m now dry_run
     | _, _ => compact_content uuid_hex self partition existing now dry_run
     end) (calm s d).
Proof using Hclean.
  intros [Hover (settle & cutoff & mtime & E1 & E2 & E3 & Hle)] Hs. unfold compact_one_unlocked. cbv zeta.
  runs (run_lift _ _ _ (cl_end _ _ Hclean)). rewrite (proj2 (Z.ltb_ge _ _) Hover).
  rewrite (run_bind _ _ _ _ _ (run_try _ _ _ _ _ _ (run_fmap inl _ _ _ _ (run_stat _ _ _ _ _ Hs)))). cbv beta iota.
  runs (run_lift _ _ _ E1). runs (run_lift _ _ _ E2). rewrite E3, (run_bind _ _ _ (calm s d) mtime) by done.
  by rewrite (proj2 (Z.ltb_ge _ _) Hle).
Qed.

Lemma run_compaction s d now :
  closed now → writable d s → documents s !! mp = None →
  ∃ s', compact_one_unlocked uuid_hex self partition now false (calm s d)
        = (calm s' (S d), Done (compaction_result partition (Some (as_posix out)) "compacted" (st_row_count stats)
                                  (Some (sha256_hex (bytes_of c))) None))
        ∧ published now s' ∧ only_at [temp; out] s s'.
Proof using All.
  intros Hc Hw Hdoc. destruct (run_publish_or_fail s d now Hw) as (s' & E & Hp & Ho). exists s'. split; [|done].
  rewrite run_closed by (done || apply Hw).
  rewrite (run_bind _ _ _ (calm s d) None).
  2: { unfold load_manifest. rewrite (run_bind _ _ _ (calm s d) false); [done|]. apply run_look. by rewrite Hdoc. }
  rewrite (run_bind _ _ _ (calm s d) false) by done. unfold compact_content.
  rewrite (run_bind _ _ _ _ _ (run_try _ _ _ _ _ _ (run_fmap inl _ _ _ _ (run_snapshot _ _ _ _ _ (wr_source _ _ Hw))))).
  cbv beta iota zeta. cbn [snapshot_of ss_size ss_sha256]. rewrite (proj2 (Z.eqb_neq _ _) Hcontent).
  rewrite (run_bind _ _ _ (calm s d) false) by done. runs E. cbv beta iota. by rewrite run_keep_raw.
Qed.

Lemma run_load s d m :
  decoded_manifest (document mp s) = Ok (Some m) → load_manifest mp (calm s d) = (calm s d, Done (Some m)).
Proof using.
  intros E. unfold load_manifest. rewrite (run_bind _ _ _ (calm s d) true).
  2: { apply run_look. unfold document in E. by destruct (documents s !! mp). }
  cbn [negb]. rewrite (run_bind _ _ _ (calm s d) (document mp s)) by (apply run_try; by apply run_look).
  by apply run_lift.
Qed.

Lemma run_up_to_date s d now now' dry_run :
  published now s → closed now' →
  compact_one_unlocked uuid_hex self partition now' dry_run (calm s d)
  = (calm s d, Done (compaction_result partition (Some (as_posix out)) "up_to_date" (st_row_count stats)
                       (Some (sha256_hex (bytes_of c))) None)).
Proof using All.
  intros [Hsrc Hout _ Hm] Hc. rewrite run_closed by done. runs (run_load _ _ _ Hm).
  rewrite (run_bind _ _ _ (calm s d) true); [by rewrite run_keep_raw|].
  unfold manifest_matches_metadata. cbn [verified_manifest m_status m_source_path m_source_size m_source_mtime_ns
    m_output_path m_output_size m_output_sha256 snapshot_of ss_size ss_mtime_ns ss_sha256].
  rewrite String.eqb_refl, !Z.eqb_refl. unfold is_some_eq.
  rewrite (bool_decide_true ("verified" ∈ _)) by by left.
  cbn [negb String.eqb Ascii.eqb Bool.eqb].
  rewrite (bool_decide_true (Some (as_posix out) = _)) by done. cbn [negb]. change (written_here _) with true. cbn [negb].
  rewrite (run_bind _ _ _ (calm s d) false).
  - apply run_try. runs (run_snapshot _ _ _ _ _ Hout). by rewrite !bool_decide_true by done.
  - cbn [default from_option id]. rewrite bool_decide_false by done.
    rewrite (proj2 (String.eqb_neq _ _) (sha256_hex_nonempty _)). cbn [orb].
    by rewrite (run_fmap _ _ _ _ _ (run_is_file _ _ _ _ _ Hout)).
Qed.

(** Under the lock, at the aware time [utc now]. *)
Lemma run_locked s d now r (P : Store → Prop) d' :
  instant_in_range now = true → no_special compact_lock s →
  (∀ s1, only_at [compact_lock] s s1 → no_special compact_lock s1 → documents s1 = documents s →
     ∃ s', compact_one_unlocked uuid_hex self partition now false (calm s1 d) = (calm s' d', Done r) ∧ P s') →
  ∃ s', compact_one uuid_hex self partition (utc now) false (calm s d) = (calm s' d', Done r) ∧ P s'.
Proof using All.
  intros Hnow Hlock Hrun. destruct (run_touch s d compact_lock Hlock) as (s1 & E1 & Hn & Hl & Hd).
  destruct (Hrun s1) as (s' & E & HP); [intros q Hq; apply Hn; set_solver|done..|]. exists s'. split; [|done].
  unfold compact_one, with_lock. cbv zeta. skips. runs E1. skips.
  apply run_finally with (w1 := calm s' d') (u := tt); [|apply run_effectless].
  rewrite (run_bind _ _ _ (calm s1 d) now); [exact E|].
  apply run_lift. cbn. unfold aware_utc, utc. cbn. by rewrite Z.sub_0_r, Hnow.
Qed.

Definition hour_result (status : string) : CompactionResult :=
  compaction_result partition (Some (as_posix out)) status (st_row_count stats) (Some (sha256_hex (bytes_of c))) None.

(** C21: Compaction settles, where raw deletion is disabled (the shipped setting;
    with it enabled a later call may delete the raw hour).  When nothing fails,
    [compact_one] on a closed hour that is not empty and has no manifest reports
    it compacted, and leaves the raw file in place, the Parquet file, no temporary
    file, and a manifest that reads back with the sizes, digests and counts of
    both files; every later call on the closed hour finds it up to date and
    changes nothing but its lock file. *)
Theorem compaction_settles s d now :
  instant_in_range now = true → closed now → writable d s →
  no_special compact_lock s → documents s !! mp = None →
  ∃ s', compact_one uuid_hex self partition (utc now) false (calm s d)
        = (calm s' (S d), Done (hour_result "compacted"))
  ∧ published now s' ∧ only_at [compact_lock; temp; out] s s'
  ∧ ∀ d' later, instant_in_range later = true → closed later →
    ∃ s'', compact_one uuid_hex self partition (utc later) false (calm s' d')
           = (calm s'' d', Done (hour_result "up_to_date"))
    ∧ documents s'' = documents s' ∧ only_at [compact_lock] s' s''.
Proof using All.
  intros Hnow Hc [Hsrc Htemp Hdoc] Hlock Hmp.
  assert (Hne : src ≠ compact_lock) by by apply src_ne.
  destruct (run_locked s d now (hour_result "compacted")
    (λ s', published now s' ∧ only_at [compact_lock; temp; out] s s' ∧ no_special compact_lock s') (S d) Hnow Hlock)
    as (s' & E & Hp & Ho & Hl).
  { intros s1 Ho1 Hl1 Hd1. destruct (run_compaction s1 d now Hc) as (s' & E & Hp & Ho); [split|..].
    - rewrite Ho1; set_solver.
    - intros a b. rewrite Ho1 by (intros Hin; apply list_elem_of_singleton in Hin; discriminate Hin). apply Htemp.
    - by rewrite Hd1.
    - by rewrite Hd1.
    - exists s'. split; [exact E|]. split; [done|]. split.
      + intros q Hq. rewrite Ho, Ho1; set_solver.
      + intros a b. rewrite Ho by (intros Hin; repeat (apply elem_of_cons in Hin as [Hin|Hin]; [discriminate Hin|]);
          by apply elem_of_nil in Hin). apply Hl1. }
  exists s'. split; [exact E|]. split; [done|]. split; [done|]. intros d' later Hl' Hc'.
  apply run_locked; [done|done|]. intros s1 Ho1 _ Hd1. exists s1. split; [|done].
  apply (run_up_to_date _ _ now); [|done]. destruct Hp as [H1 H2 H3 H4].
  assert (Hs1 : ∀ q, q ≠ compact_lock → nodes s1 !! q = nodes s' !! q) by (intros q Hq; apply Ho1; set_solver).
  split; [by rewrite Hs1|by rewrite Hs1|by rewrite Hs1|]. unfold document in *. by rewrite Hd1.
Qed.
End settles.

(** ** A concrete hour *)

Definition lake_retains : QuoteLakeCompactor :=
  {| data_root := "/data"; raw_file_name := "quotes.jsonl"; settle_seconds := f_of_Z 120;
     compression_level := 3; raw_delete_enabled := false; raw_delete_grace_hours := 72 |}.
Definition hour_14 : Z := combine (ymd2ord 2026 3 3) (time_hm 14 0).

Lemma compaction_settles_witness :
  ∃ s', compact_one (H:=line_duck) counted lake_retains ibkr_hour (utc after_hour) false (calm (store lake_start) 0)
        = (calm s' 1, Done (hour_result ibkr_hour two_quotes (line_stats two_quotes) "compacted"))
  ∧ text_of (parquet_path ibkr_hour) s' = Some ("PAR1" +:+ two_quotes).
Proof.
  destruct (@compaction_settles line_duck counted lake_retains ibkr_hour two_quotes 1772550000000000000
              (line_stats two_quotes) ("PAR1" +:+ two_quotes) hour_14 (hour_14 + HOUR)
              ltac:(split; try (vm_compute; reflexivity); [vm_compute; discriminate|]; eexists; split; vm_compute; reflexivity)
              ltac:(reflexivity) ltac:(reflexivity) ltac:(vm_compute; discriminate)
              (store lake_start) 0%nat after_hour) as (s' & E & Hp & _).
  - vm_compute. reflexivity.
  - split; [vm_compute; discriminate|]. do 3 eexists. split; [vm_compute; reflexivity|].
    split; [vm_compute; reflexivity|]. split; [vm_compute; reflexivity|]. vm_compute. discriminate.
  - split; [vm_compute; reflexivity| |vm_compute; reflexivity]. intros a b. vm_compute. discriminate.
  - intros a b. vm_compute. discriminate.
  - vm_compute. reflexivity.
  - exists s'. split; [exact E|]. unfold text_of. rewrite (pu_output _ _ _ _ _ _ _ Hp). reflexivity.
Defined.

(** ** Manifests *)

(** C39: A manifest that the compactor writes reads back as it was, and the same
    document under any other manifest id is not accepted. *)
Theorem lake_manifest_roundtrip m :
  manifest_wf m →
  ∃ d, manifest_to_dict m = Ok d ∧ decoded_manifest (Json (VDict d)) = Ok (Some m)
  ∧ ∀ id, vget "manifest_id" d ≠ VStr id →
      decoded_manifest (Json (VDict (dmerge d [("manifest_id", VStr id)]))) = Ok None.
Proof.
  intros Hm. destruct (manifest_to_dict_entries m) as (mid & Hid & E). exists (manifest_entries m mid).
  split; [done|]. split; [by apply manifest_reads_back|]. intros id Hne.
  change (dmerge _ _) with (manifest_entries m id). apply (forged_manifest m mid); [done..|].
  intros ->. by apply Hne.
Qed.

Lemma lake_manifest_roundtrip_witness :
  let m := empty_manifest ibkr_hour (snapshot_of "" 0) after_hour in
  ∃ d, manifest_to_dict m = Ok d ∧ decoded_manifest (Json (VDict d)) = Ok (Some m).
Proof.
  destruct (lake_manifest_roundtrip (empty_manifest ibkr_hour (snapshot_of "" 0) after_hour)) as (d & E & Hd & _).
  - split; [reflexivity|discriminate|discriminate].
  - exists d. split; [exact E|exact Hd].
Defined.
