(* ===== verification/ShockMonitor.v ===== *)
(** * The intraday shock monitor ([application/shock/machine.py], [models.py], [delivery.py])

    One synchronized SPX/ES sample at a time: a fast move that ES confirms opens
    an event, the event follows its extremes and counts the fresh samples that
    recover from them, and the alerts of both phases are due until delivered.
    The state is the JSON dict of the source; of an alert, the fields that
    machines read. *)

From stdpp Require Import base list strings.
From Stdlib Require Import Ascii ZArith Lia.
From S2P Require Import Prelude PyStr PyFloat PyTime PyDateTime PyDict PyVal Marketdata.

#[local] Open Scope Z_scope.

Definition STATE_SCHEMA_VERSION : Z := 1.
Definition SHOCK_KIND : string := "intraday_price_shock".
Definition RECLAIM_KIND : string := "intraday_price_reclaim".
(** [Provider.UNKNOWN.value]. *)
Definition UNKNOWN_PROVIDER : string := "unknown".

(** The settings that the machine reads. *)
Record IntradayShockSettings := {
  provider_switch_reset_seconds : Z;
  one_minute_seconds : Z;
  three_minute_seconds : Z;
  one_minute_threshold_bps : float;
  three_minute_threshold_bps : float;
  es_confirm_ratio : float;
  reclaim_window_seconds : Z;
  event_expiry_seconds : Z;
  reclaim_fraction : float;
  es_reclaim_fraction : float;
  reclaim_hold_fraction : float;
  es_reclaim_hold_fraction : float;
  reclaim_confirm_samples : Z;
  completion_hold_seconds : Z;
  rearm_recovery_fraction : float;
  rearm_neutral_seconds : Z;
  retry_seconds : Z;
}.

Definition default_shock_settings : IntradayShockSettings := {|
  provider_switch_reset_seconds := 30;
  one_minute_seconds := 60;
  three_minute_seconds := 180;
  one_minute_threshold_bps := f_of_Z 30;
  three_minute_threshold_bps := f_of_Z 50;
  es_confirm_ratio := f_lit 80 2;
  reclaim_window_seconds := 300;
  event_expiry_seconds := 600;
  reclaim_fraction := f_lit 60 2;
  es_reclaim_fraction := f_lit 40 2;
  reclaim_hold_fraction := f_lit 55 2;
  es_reclaim_hold_fraction := f_lit 35 2;
  reclaim_confirm_samples := 2;
  completion_hold_seconds := 60;
  rearm_recovery_fraction := f_lit 40 2;
  rearm_neutral_seconds := 300;
  retry_seconds := 30;
|}.

(** ** Samples ([models.py]); instants are UTC *)

Record PriceSample := {
  p_at : Z;
  p_spx : float;
  p_es : float;
  p_spx_source_at : option Z;
  p_es_source_at : option Z;
  p_provider : string;
}.

Definition sample_to_dict (s : PriceSample) : pydict :=
  [("at", vtime (p_at s)); ("spx", VFloat (p_spx s)); ("es", VFloat (p_es s));
   ("spx_source_at", v_opt_time (p_spx_source_at s)); ("es_source_at", v_opt_time (p_es_source_at s));
   ("provider", VStr (p_provider s))].

(** [_parse_datetime]. *)
Definition parse_datetime (v : pyval) : res (option Z) :=
  match v with
  | VStr s =>
      if String.eqb s "" then Ok None
      else match fromisoformat (str_replace_chr "Z"%char "+00:00" s) with
           | Some d => Some <$> as_utc d
           | None => Ok None
           end
  | _ => Ok None
  end.

Definition sample_from_dict (v : pyval) : res (option PriceSample) :=
  match v with
  | VDict d =>
      at_ ← parse_datetime (vget "at" d);
      match at_, num_of (vget "spx" d), num_of (vget "es" d) with
      | Some at_, Some spx, Some es =>
          if fleb spx (f_of_Z 0) || fleb es (f_of_Z 0) then Ok None
          else
            spx_source_at ← parse_datetime (vget "spx_source_at" d);
            es_source_at ← parse_datetime (vget "es_source_at" d);
            Ok (Some {| p_at := at_; p_spx := spx; p_es := es; p_spx_source_at := spx_source_at;
                        p_es_source_at := es_source_at; p_provider := vstr_or "provider" UNKNOWN_PROVIDER d |})
      | _, _, _ => Ok None
      end
  | _ => Ok None
  end.

Definition empty_monitor_state (session_date : string) : pydict :=
  [("schema_version", VInt STATE_SCHEMA_VERSION); ("session_date", VStr session_date);
   ("samples", VList []); ("active_event", VNone); ("rearm", VNone); ("last_event", VNone);
   ("updated_at", VNone)].

Definition load_monitor_state (content : FileContent) (session_date : string) : res pydict :=
  match content with
  | Json (VDict payload) =>
      Ok (if negb (is_str session_date (vget "session_date" payload)) then empty_monitor_state session_date
          else if negb (py_eq (vget "schema_version" payload) (VInt STATE_SCHEMA_VERSION))
          then empty_monitor_state session_date
          else payload)
  | Undecodable => Err ValueError
  | _ => Ok (empty_monitor_state session_date)
  end.

(** The items that are there. *)
Definition present {A} (l : list (option A)) : list A := omap id l.

(** ** Moves ([machine.py]) *)

(** [_event_datetime]. *)
Definition event_datetime (event : pydict) (field : string) : res (option Z) :=
  parse_datetime (vget field event).

Definition secs (a b : Z) : float := total_seconds (a - b).

(** [_bps]. *)
Definition bps (current anchor : float) : res float :=
  q ← fdiv current anchor; Ok (fmul (fsub q (f_of_Z 1)) (f_of_Z 10000)).

(** [_event_id]. *)
Definition shock_event_id (session_date direction : string) (anchor_at : Z) (provider : string) : string :=
  let t := wall_time anchor_at in
  let base := "spx_shock:" +:+ str_replace_chr "-"%char "" session_date +:+ ":" +:+ direction +:+ ":"
              +:+ zpad 2 (hour_of t) +:+ zpad 2 (minute_of t) +:+ zpad 2 (second_of t) in
  if String.eqb provider UNKNOWN_PROVIDER then base else base +:+ ":" +:+ provider.

Record ShockCandidate := {
  c_down : bool;
  c_anchor : PriceSample;
  c_spx_move_bps : float;
  c_es_move_bps : float;
  c_threshold_bps : float;
  c_score : float;
}.

Definition direction_str (down : bool) : string := if down then "down" else "up".

(** The move from one anchor, if it is far enough and ES confirms it. *)
Definition move_from (down : bool) (anchor current : PriceSample) (threshold_bps es_confirm_ratio : float)
    : res (option ShockCandidate) :=
  spx_move ← bps (p_spx current) (p_spx anchor);
  es_move ← bps (p_es current) (p_es anchor);
  let direction_ok := if down then fleb spx_move (fopp threshold_bps) else fgeb spx_move threshold_bps in
  let es_ok := (if down then fltb es_move (f_of_Z 0) else fgtb es_move (f_of_Z 0))
               && fgeb (fabs es_move) (fmul (fabs spx_move) es_confirm_ratio) in
  if direction_ok && es_ok then
    score ← fdiv (fabs spx_move) threshold_bps;
    Ok (Some {| c_down := down; c_anchor := anchor; c_spx_move_bps := spx_move; c_es_move_bps := es_move;
                c_threshold_bps := threshold_bps; c_score := score |})
  else Ok None.

(** [max(candidates, key=lambda candidate: float(candidate["score"]))]. *)
Definition best_candidate (candidates : list (option ShockCandidate)) : option ShockCandidate :=
  max_by (λ a b, fgtb (c_score a) (c_score b)) (present candidates).

Definition eligible_anchor (current : PriceSample) (horizon_seconds : Z) (s : PriceSample) : bool :=
  String.eqb (p_provider s) (p_provider current)
  && fltb (f_of_Z 0) (secs (p_at current) (p_at s))
  && fleb (secs (p_at current) (p_at s)) (f_of_Z horizon_seconds).

(** [_candidate_for_horizon]. *)
Definition candidate_for_horizon (history : list PriceSample) (current : PriceSample) (horizon_seconds : Z)
    (threshold_bps es_confirm_ratio : float) : res (option ShockCandidate) :=
  let eligible := filter (λ s, eligible_anchor current horizon_seconds s = true) history in
  match max_by (λ a b, fgtb (p_spx a) (p_spx b)) eligible, min_by (λ a b, fltb (p_spx a) (p_spx b)) eligible with
  | Some down_anchor, Some up_anchor =>
      down ← move_from true down_anchor current threshold_bps es_confirm_ratio;
      up ← move_from false up_anchor current threshold_bps es_confirm_ratio;
      Ok (best_candidate [down; up])
  | _, _ => Ok None
  end.

(** [_recovery_fraction]; the divisor is not zero. *)
Definition recovery_fraction (down : bool) (current anchor extreme : float) : float :=
  let shock := if down then fsub anchor extreme else fsub extreme anchor in
  if fleb shock (f_of_Z 0) then f_of_Z 0
  else fmax (fdiv_ieee (if down then fsub current extreme else fsub extreme current) shock) (f_of_Z 0).

Definition pending_due (event : pydict) (phase : string) (now retry_seconds : Z) : res bool :=
  if is_true (vget (phase +:+ "_delivered") event) then Ok false
  else
    attempted_at ← event_datetime event (phase +:+ "_last_attempt_at");
    Ok match attempted_at with
       | None => true
       | Some u => fgeb (secs now u) (f_of_Z retry_seconds)
       end.

(** [_provider_switch_reset_due]: the container as it leaves it, and its answer. *)
Definition provider_switch_reset_due (container : pydict) (sample : PriceSample) (reset_seconds : Z)
    : res (pydict * bool) :=
  let expected := vstr_or "provider" UNKNOWN_PROVIDER container in
  if String.eqb expected UNKNOWN_PROVIDER then
    Ok (dpop "provider_mismatch_since" (dset "provider" (VStr (p_provider sample)) container), false)
  else if String.eqb expected (p_provider sample) then
    Ok (dpop "provider_mismatch_since" container, false)
  else
    mismatch_since ← event_datetime container "provider_mismatch_since";
    match mismatch_since with
    | None => Ok (dset "provider_mismatch_since" (vtime (p_at sample)) container, false)
    | Some u => Ok (container, fgeb (secs (p_at sample) u) (f_of_Z reset_seconds))
    end.

(** ** Alerts *)

Record Alert := {
  al_kind : string;
  al_event_id : string;
  al_dedup_group : string;
  al_provider : string;
  al_value : float;
  al_threshold : float;
  al_source_at : option string;
}.

(** [float(event[k])], [str(event[k])]. *)
Definition float_at (k : string) (event : pydict) : res float := v ← vindex k event; py_float v.
Definition str_at_key (k : string) (event : pydict) : res string := py_str <$> vindex k event.

(** [str(event.get(a) or event.get(b) or "") or None]. *)
Definition source_of (a b : string) (event : pydict) : option string :=
  let s := py_str (v_or (vget a event) (v_or (vget b event) (VStr ""))) in
  if String.eqb s "" then None else Some s.

(** [_shock_alert]. *)
Definition shock_alert (event : pydict) : res Alert :=
  _ ← str_at_key "direction" event;
  spx_move ← float_at "shock_spx_bps" event;
  _ ← float_at "shock_es_bps" event;
  event_id ← str_at_key "event_id" event;
  _ ← float_at "shock_duration_seconds" event;
  threshold ← float_at "shock_threshold_bps" event;
  Ok {| al_kind := SHOCK_KIND; al_event_id := event_id; al_dedup_group := event_id +:+ ":shock";
        al_provider := vstr_or "provider" UNKNOWN_PROVIDER event; al_value := spx_move;
        al_threshold := threshold; al_source_at := source_of "extreme_at" "anchor_at" event |}.

(** [_reclaim_alert]. *)
Definition reclaim_alert (event : pydict) : res Alert :=
  _ ← str_at_key "direction" event;
  spx_recovery ← float_at "spx_recovery_fraction" event;
  _ ← float_at "es_recovery_fraction" event;
  event_id ← str_at_key "event_id" event;
  threshold ← float_at "reclaim_threshold" event;
  Ok {| al_kind := RECLAIM_KIND; al_event_id := event_id; al_dedup_group := event_id +:+ ":reclaim";
        al_provider := vstr_or "provider" UNKNOWN_PROVIDER event; al_value := spx_recovery;
        al_threshold := threshold; al_source_at := source_of "reclaim_confirmed_at" "extreme_at" event |}.

(** ** One sample ([advance_monitor_state])

    The local variables of the function between its stages. *)
Record Work := {
  w_state : pydict;
  w_history : list PriceSample;
  w_event : option pydict;
  w_rearm : option pydict;
}.

Section step.
Context (settings : IntradayShockSettings) (sample : PriceSample).

Abbreviation now := (p_at sample).

(** The parsed samples of the state. *)
Definition parsed_samples (state : pydict) : res (list PriceSample) :=
  match vget_or "samples" (VList []) state with
  | VList items => present <$> res_mapM sample_from_dict items
  | VDict _ | VStr _ => Ok []
  | _ => Err TypeError
  end.

(** The sample is the pair of quotes that the last one was. *)
Definition same_sources (last : PriceSample) : bool :=
  negb (bool_decide (p_spx_source_at sample = None)) && negb (bool_decide (p_es_source_at sample = None))
  && bool_decide (p_spx_source_at last = p_spx_source_at sample)
  && bool_decide (p_es_source_at last = p_es_source_at sample).

Definition retained_history (history : list PriceSample) : list PriceSample :=
  let seconds := Z.max (three_minute_seconds settings) (event_expiry_seconds settings) in
  filter (λ prior, fleb (f_of_Z 0) (secs now (p_at prior)) && fleb (secs now (p_at prior)) (f_of_Z seconds) = true)
    history.

Definition since (u : Z) (history : list PriceSample) : list PriceSample :=
  filter (λ prior, u ≤ p_at prior) history.
Definition of_provider (history : list PriceSample) : list PriceSample :=
  filter (λ prior, p_provider prior = p_provider sample) history.

(** The event ends: stored as the last one under a status and a time. *)
Definition close_event (state event : pydict) (status stamp_key : string) : pydict :=
  dset "last_event" (VDict (dset stamp_key (vtime now) (dset "status" (VStr status) event))) state.

(** The provider of the event, or of the re-arming, has been gone for long. *)
Definition switch_provider (w : Work) : res Work :=
  match w_event w, w_rearm w with
  | Some event, rearm =>
      '(event, due) ← provider_switch_reset_due event sample (provider_switch_reset_seconds settings);
      Ok (if due : bool then
            {| w_state := close_event (w_state w) event "provider_switched" "provider_switched_at";
               w_history := of_provider (w_history w); w_event := None; w_rearm := None |}
          else {| w_state := w_state w; w_history := w_history w; w_event := Some event; w_rearm := rearm |})
  | None, Some rearm =>
      '(rearm, due) ← provider_switch_reset_due rearm sample (provider_switch_reset_seconds settings);
      Ok (if due : bool then
            {| w_state := w_state w; w_history := of_provider (w_history w); w_event := None; w_rearm := None |}
          else {| w_state := w_state w; w_history := w_history w; w_event := None; w_rearm := Some rearm |})
  | None, None => Ok w
  end.

(** The reclaim was delivered long enough ago. *)
Definition complete_event (w : Work) : res Work :=
  match w_event w with
  | None => Ok w
  | Some event =>
      delivered_at ← event_datetime event "reclaim_delivered_at";
      Ok match delivered_at with
         | Some u =>
             if fgeb (secs now u) (f_of_Z (completion_hold_seconds settings)) then
               {| w_state := close_event (w_state w) event "completed" "completed_at";
                  w_history := since u (w_history w); w_event := None; w_rearm := w_rearm w |}
             else w
         | None => w
         end
  end.

Definition latest_of (times : list (option Z)) : option Z :=
  max_by (λ a b, b <? a) (present times).

(** When the event ends by itself. *)
Definition expiry_of (event : pydict) : res (option Z) :=
  anchor_at ← event_datetime event "anchor_at";
  extreme_at ← event_datetime event "extreme_at";
  extreme_es_at ← event_datetime event "extreme_es_at";
  let latest_extreme_at := match latest_of [extreme_at; extreme_es_at] with Some u => Some u | None => anchor_at end in
  match anchor_at, latest_extreme_at with
  | Some a, Some l =>
      x ← dt_add a (event_expiry_seconds settings * SECOND);
      y ← dt_add l (reclaim_window_seconds settings * SECOND);
      Ok (Some (Z.max x y))
  | _, _ => Ok None
  end.

Definition rearm_after (event : pydict) : pydict :=
  [("direction", vget "direction" event); ("anchor_spx", vget "anchor_spx" event);
   ("extreme_spx", vget "extreme_spx" event); ("provider", vget "provider" event); ("neutral_since", VNone)].

Definition expire_event (w : Work) : res Work :=
  match w_event w with
  | None => Ok w
  | Some event =>
      expiry_at ← expiry_of event;
      Ok (if match expiry_at with None => true | Some u => u <? now end then
            {| w_state := close_event (w_state w) event "expired" "expired_at"; w_history := w_history w;
               w_event := None; w_rearm := Some (rearm_after event) |}
          else w)
  end.

Definition provider_relevant (d : pydict) : bool :=
  let p := vstr_or "provider" UNKNOWN_PROVIDER d in
  String.eqb p UNKNOWN_PROVIDER || String.eqb p (p_provider sample).

(** Whether the direction that a dict holds is down. *)
Definition is_down (v : pyval) : bool := String.eqb (py_str v) "down".

(** After an expired event: a neutral recovery, held, arms the monitor again. *)
Definition rearm_step (w : Work) : res Work :=
  match w_event w, w_rearm w with
  | None, Some rearm =>
      if negb (provider_relevant rearm) then Ok w
      else
        anchor_spx ← py_float (v_or (vget "anchor_spx" rearm) (VFloat (p_spx sample)));
        extreme_spx ← py_float (v_or (vget "extreme_spx" rearm) (VFloat (p_spx sample)));
        let recovery := recovery_fraction (is_down (vget "direction" rearm)) (p_spx sample) anchor_spx extreme_spx in
        neutral_since ← event_datetime rearm "neutral_since";
        let keep r := {| w_state := w_state w; w_history := w_history w; w_event := None; w_rearm := Some r |} in
        Ok (if fgeb recovery (rearm_recovery_fraction settings) then
              match neutral_since with
              | None => keep (dset "neutral_since" (vtime now) rearm)
              | Some u =>
                  if fgeb (secs now u) (f_of_Z (rearm_neutral_seconds settings)) then
                    {| w_state := w_state w; w_history := since u (w_history w); w_event := None; w_rearm := None |}
                  else keep rearm
              end
            else keep (dset "neutral_since" VNone rearm))
  | _, _ => Ok w
  end.

(** [_find_shock_candidate]. *)
Definition find_shock_candidate (history : list PriceSample) : res (option ShockCandidate) :=
  one ← candidate_for_horizon history sample (one_minute_seconds settings) (one_minute_threshold_bps settings)
          (es_confirm_ratio settings);
  three ← candidate_for_horizon history sample (three_minute_seconds settings) (three_minute_threshold_bps settings)
            (es_confirm_ratio settings);
  Ok (best_candidate [one; three]).

Definition source_or_at (source_at : option Z) : Z := default now source_at.

Definition new_event (session_date : string) (c : ShockCandidate) : pydict :=
  let anchor := c_anchor c in
  [("event_id", VStr (shock_event_id session_date (direction_str (c_down c)) (p_at anchor) (p_provider sample)));
   ("direction", VStr (direction_str (c_down c))); ("status", VStr "shock_confirmed");
   ("anchor_at", vtime (p_at anchor)); ("anchor_spx", VFloat (p_spx anchor)); ("anchor_es", VFloat (p_es anchor));
   ("extreme_at", vtime now); ("extreme_es_at", vtime now);
   ("extreme_spx", VFloat (p_spx sample)); ("extreme_es", VFloat (p_es sample));
   ("shock_spx_bps", VFloat (c_spx_move_bps c)); ("shock_es_bps", VFloat (c_es_move_bps c));
   ("shock_threshold_bps", VFloat (c_threshold_bps c));
   ("shock_duration_seconds", VFloat (secs now (p_at anchor))); ("provider", VStr (p_provider sample));
   ("shock_delivered", VBool false); ("shock_last_attempt_at", VNone); ("reclaim_streak", VInt 0);
   ("reclaim_confirmed_at", VNone); ("reclaim_delivered", VBool false); ("reclaim_last_attempt_at", VNone);
   ("reclaim_threshold", VFloat (reclaim_fraction settings));
   ("reclaim_counted_spx_source_at", vtime (source_or_at (p_spx_source_at sample)));
   ("reclaim_counted_es_source_at", vtime (source_or_at (p_es_source_at sample)));
   ("spx_recovery_fraction", VFloat (f_of_Z 0)); ("es_recovery_fraction", VFloat (f_of_Z 0))].

(** An idle, armed monitor looks for a new shock. *)
Definition detect_shock (w : Work) : res Work :=
  match w_event w, w_rearm w with
  | None, None =>
      candidate ← find_shock_candidate (w_history w);
      match candidate with
      | None => Ok w
      | Some c =>
          session_date ← str_at_key "session_date" (w_state w);
          Ok {| w_state := w_state w; w_history := w_history w; w_event := Some (new_event session_date c);
                w_rearm := None |}
      end
  | _, _ => Ok w
  end.

(** A new extreme of a leg restarts the count. *)
Definition extend (further : bool) (at_key price_key : string) (price : float) (event : pydict) : pydict :=
  if further && is_none (vget "reclaim_confirmed_at" event)
  then dset "reclaim_streak" (VInt 0) (dset price_key (VFloat price) (dset at_key (vtime now) event))
  else event.

(** The streak after a fresh pair of quotes. *)
Definition next_streak (streak : Z) (within_window : bool) (spx_recovery es_recovery : float) : Z :=
  let first_cross := within_window && fgeb spx_recovery (reclaim_fraction settings)
                     && fgeb es_recovery (es_reclaim_fraction settings) in
  let hold_cross := within_window && fgeb spx_recovery (reclaim_hold_fraction settings)
                    && fgeb es_recovery (es_reclaim_hold_fraction settings) in
  if streak =? 0 then (if first_cross then 1 else 0) else (if hold_cross then streak + 1 else 0).

(** The count of an event that is not confirmed yet. *)
Definition count_reclaim (event : pydict) (within_window : bool) (spx_recovery es_recovery : float) : res pydict :=
  streak ← py_int (v_or (vget "reclaim_streak" event) (VInt 0));
  counted_spx_at ← event_datetime event "reclaim_counted_spx_source_at";
  counted_es_at ← event_datetime event "reclaim_counted_es_source_at";
  let sample_spx_at := source_or_at (p_spx_source_at sample) in
  let sample_es_at := source_or_at (p_es_source_at sample) in
  let fresh_pair := match counted_spx_at, counted_es_at with
                    | Some a, Some b => (a <? sample_spx_at) && (b <? sample_es_at)
                    | _, _ => true
                    end in
  Ok (if fresh_pair then
        let streak := next_streak streak within_window spx_recovery es_recovery in
        let event := dset "reclaim_counted_es_source_at" (vtime sample_es_at)
                       (dset "reclaim_counted_spx_source_at" (vtime sample_spx_at)
                          (dset "reclaim_streak" (VInt streak) event)) in
        if reclaim_confirm_samples settings <=? streak then
          dset "reclaim_confirmed_at" (vtime now) (dset "status" (VStr "reclaim_confirmed") event)
        else event
      else event).

(** An event follows the samples of its provider. *)
Definition follow_event (event : pydict) : res pydict :=
  let down := is_down (vget "direction" event) in
  extreme_spx ← float_at "extreme_spx" event;
  extreme_es ← float_at "extreme_es" event;
  let beyond current extreme := if down then fltb current extreme else fgtb current extreme in
  let event := extend (beyond (p_spx sample) extreme_spx) "extreme_at" "extreme_spx" (p_spx sample) event in
  let event := extend (beyond (p_es sample) extreme_es) "extreme_es_at" "extreme_es" (p_es sample) event in
  anchor_spx ← float_at "anchor_spx" event;
  anchor_es ← float_at "anchor_es" event;
  extreme_spx ← float_at "extreme_spx" event;
  extreme_es ← float_at "extreme_es" event;
  extreme_at ← event_datetime event "extreme_at";
  let extreme_spx_at := default now extreme_at in
  extreme_es_at ← event_datetime event "extreme_es_at";
  let extreme_es_at := default extreme_spx_at extreme_es_at in
  let reclaim_anchor_at := Z.max extreme_spx_at extreme_es_at in
  shock_spx ← bps extreme_spx anchor_spx;
  let event := dset "shock_spx_bps" (VFloat shock_spx) event in
  shock_es ← bps extreme_es anchor_es;
  let event := dset "shock_es_bps" (VFloat shock_es) event in
  anchor_at ← event_datetime event "anchor_at";
  let event := dset "shock_duration_seconds" (VFloat (secs extreme_spx_at (default extreme_spx_at anchor_at))) event in
  let spx_recovery := recovery_fraction down (p_spx sample) anchor_spx extreme_spx in
  let es_recovery := recovery_fraction down (p_es sample) anchor_es extreme_es in
  let event := dset "es_recovery_fraction" (VFloat es_recovery)
                 (dset "spx_recovery_fraction" (VFloat spx_recovery) event) in
  let within_window := fleb (secs now reclaim_anchor_at) (f_of_Z (reclaim_window_seconds settings)) in
  if is_none (vget "reclaim_confirmed_at" event)
  then count_reclaim event within_window spx_recovery es_recovery
  else Ok event.

Definition track_event (w : Work) : res Work :=
  match w_event w with
  | Some event =>
      if provider_relevant event then
        event ← follow_event event;
        Ok {| w_state := w_state w; w_history := w_history w; w_event := Some event; w_rearm := w_rearm w |}
      else Ok w
  | None => Ok w
  end.

Definition v_opt_dict (o : option pydict) : pyval := match o with Some d => VDict d | None => VNone end.

Definition stored_state (w : Work) : pydict :=
  dset "updated_at" (vtime now)
    (dset "rearm" (v_opt_dict (w_rearm w))
       (dset "active_event" (v_opt_dict (w_event w))
          (dset "samples" (VList (map (λ s, VDict (sample_to_dict s)) (w_history w ++ [sample]))) (w_state w)))).

Definition due_alerts (w : Work) : res (list Alert) :=
  match w_event w with
  | None => Ok []
  | Some event =>
      shock_due ← pending_due event "shock" now (retry_seconds settings);
      shock ← (if shock_due : bool then a ← shock_alert event; Ok [a] else Ok []);
      reclaim_due ← (if truthy (vget "reclaim_confirmed_at" event)
                     then pending_due event "reclaim" now (retry_seconds settings) else Ok false);
      reclaim ← (if reclaim_due : bool then a ← reclaim_alert event; Ok [a] else Ok []);
      Ok (shock ++ reclaim)
  end.

Definition advance_monitor_state (state : pydict) : res (pydict * list Alert) :=
  parsed_history ← parsed_samples state;
  if match list_basics.list.last parsed_history with Some l => same_sources l | None => false end then Ok (state, [])
  else
    w ← switch_provider {| w_state := state; w_history := retained_history parsed_history;
                           w_event := dict_of (vget "active_event" state); w_rearm := dict_of (vget "rearm" state) |};
    w ← complete_event w;
    w ← expire_event w;
    w ← rearm_step w;
    w ← detect_shock w;
    w ← track_event w;
    alerts ← due_alerts w;
    Ok (stored_state w, alerts).
End step.

(** ** Delivery ([delivery.py])

    The retired strategy alerts of [intraday_strategy.py] are left out: nothing
    produces them any more. *)

Definition alert_phase (a : Alert) : option string :=
  if String.eqb (al_kind a) SHOCK_KIND then Some "shock"
  else if String.eqb (al_kind a) RECLAIM_KIND then Some "reclaim" else None.

(** The attempt at one alert, on its own event. *)
Definition mark_attempt (at_ : Z) (delivered : bool) (event : pydict) (a : Alert) : pydict :=
  if negb (is_str (al_event_id a) (vget "event_id" event)) then event
  else match alert_phase a with
       | None => event
       | Some phase =>
           let event := dset (phase +:+ "_last_attempt_at") (vtime at_) event in
           if delivered then dset (phase +:+ "_delivered_at") (vtime at_) (dset (phase +:+ "_delivered") (VBool true) event)
           else event
       end.

Definition mark_alert_attempts (state : pydict) (alerts : list Alert) (at_ : Z) (delivered : bool) : pydict :=
  match vget "active_event" state with
  | VDict event => dset "active_event" (VDict (fold_left (mark_attempt at_ delivered) alerts event)) state
  | _ => state
  end.

Definition reconcile_acknowledged_alerts (state : pydict) (alerts : list Alert) (acknowledged : list string)
    (at_ : Z) : pydict * list Alert :=
  let recovered := filter (λ a, al_dedup_group a ∈ acknowledged) alerts in
  let state := if bool_decide (recovered = []) then state else mark_alert_attempts state recovered at_ true in
  (state, filter (λ a, al_dedup_group a ∉ acknowledged) alerts).

(** ** The wall/flip decision in the monitor's file ([level_projection.py])

    [project_level_decision_machine], its state; it returns no alerts. *)
Definition project_level_decision_machine (state level_decision : pydict) (now : Z) : pydict :=
  let phase := vstr_or "phase" "far" level_decision in
  let direction := vstr_or "direction" "" level_decision in
  let level_kind := vstr_or "level_kind" "" level_decision in
  let event_id := vstr_or "event_id" "" level_decision in
  let or_none x := if String.eqb x "" then VNone else VStr x in
  let confirmed := String.eqb phase "confirmed" && (String.eqb direction "up" || String.eqb direction "down") in
  let actionable := confirmed && is_true (vget "actionable" level_decision) in
  dset "level_strategy"
    (VDict [("source", VStr "level_decision_machine"); ("phase", VStr phase);
            ("thesis", VStr (vstr_or "thesis" "none" level_decision)); ("direction", or_none direction);
            ("level_kind", or_none level_kind); ("event_id", or_none event_id); ("updated_at", vtime now);
            ("actionable", VBool actionable); ("formal_signal", VBool actionable)])
    (dpop "call_strategy" state).

(** [event_greek_shadow_due] is left out; this marks the alerts that were sampled,
    on the active event and on the last one. *)
Definition greek_mark (at_ : Z) (event : pydict) (a : Alert) : pydict :=
  if negb (is_str (al_event_id a) (vget "event_id" event)) then event
  else match alert_phase a with
       | None => event
       | Some phase => dset (phase +:+ "_greeks_sampled_at") (vtime at_) event
       end.
Definition greek_mark_at (alerts : list Alert) (at_ : Z) (state : pydict) (key : string) : pydict :=
  match vget key state with
  | VDict event => dset key (VDict (fold_left (greek_mark at_) alerts event)) state
  | _ => state
  end.
Definition mark_event_greek_shadow_sampled (state : pydict) (alerts : list Alert) (at_ : Z) : pydict :=
  fold_left (greek_mark_at alerts at_) ["active_event"; "last_event"] state.

(** ** The monitor's locked sections ([service.py])

    The first observes a sample and announces the attempts, the second records a
    delivery, the third the alerts that the Greeks were sampled for.  The last one
    is the overnight monitor's: it keeps its own state and, when it observes, the
    time of it in the same file.  What the option-flow stage
    ([net_premium_flow.py]) returns, the tape that it stores and its alerts, and
    what the overnight monitor ([gth_dip.py]) returns are arguments. *)
Definition FLOW_STATE_KEY : string := "captured_net_premium_divergence".
Definition NET_PREMIUM_BEARISH_DIVERGENCE_KIND : string := "captured_net_premium_bearish_divergence".
Definition NET_PREMIUM_BULLISH_DIVERGENCE_KIND : string := "captured_net_premium_bullish_divergence".

Record Companions := { flow_tape : pydict; divergence_alerts : list Alert; level_decision : pydict }.

Definition observe_sample (settings : IntradayShockSettings) (content : FileContent) (session_date : string)
    (sample : PriceSample) (others : Companions) (notify : bool) (acknowledged : list string)
    : res (pydict * list Alert) :=
  state ← load_monitor_state content session_date;
  '(state, price_alerts) ← advance_monitor_state settings sample state;
  let state := dset FLOW_STATE_KEY (VDict (flow_tape others)) state in
  let state := project_level_decision_machine state (level_decision others) (p_at sample) in
  let alerts := price_alerts ++ divergence_alerts others in
  let '(state, alerts) :=
    if negb (bool_decide (length alerts = 0%nat)) && notify
    then reconcile_acknowledged_alerts state alerts acknowledged (p_at sample) else (state, alerts) in
  let state := if negb (bool_decide (length alerts = 0%nat)) && notify
               then mark_alert_attempts state alerts (p_at sample) false else state in
  Ok (state, alerts).

Definition record_delivery (content : FileContent) (session_date : string) (alerts : list Alert)
    (acknowledged : list string) (at_ : Z) : res (option pydict) :=
  let delivered := filter (λ a, al_dedup_group a ∈ acknowledged) alerts in
  if bool_decide (length delivered = 0%nat) then Ok None
  else state ← load_monitor_state content session_date; Ok (Some (mark_alert_attempts state delivered at_ true)).

Definition record_greek_samples (content : FileContent) (session_date : string) (sampled : list Alert) (at_ : Z)
    : res pydict :=
  state ← load_monitor_state content session_date; Ok (mark_event_greek_shadow_sampled state sampled at_).

Definition record_overnight (content : FileContent) (session_date : string) (gth_state : pydict)
    (updated_at : option string) : res pydict :=
  state ← load_monitor_state content session_date;
  let state := dset "gth_dip" (VDict gth_state) state in
  Ok match updated_at with Some u => dset "updated_at" (VStr u) state | None => state end.
