(* ===== verification/ShockSpec.v ===== *)
(** * The shock monitor, without its JSON

    The specification of [ShockMonitor] on typed states: the step as a total
    function, the relation that says when a stored dict shows a typed state, and
    the refinement: on such a dict every operation returns normally and shows
    what the specification computes. *)

From stdpp Require Import base numbers strings list.
From Stdlib Require Import Ascii ZArith Lia.
From S2P Require Import Prelude PyStr PyFloat PyTime PyDateTime PyDict PyVal Marketdata MarketdataFacts ShockMonitor.

#[local] Open Scope Z_scope.

(** ** Data *)

(** One instrument's move: where it started, its extreme and when that was. *)
Record leg := Leg { g_anchor : float; g_extreme : float; g_at : Z }.
(** The delivery of one phase. *)
Record phase := Phase { f_done : bool; f_tried : option Z; f_done_at : option Z }.
(** The samples counted towards the reclaim, the quotes last counted, and the
    confirmation. *)
Record count := Count { n_streak : Z; n_confirmed : option Z; n_spx : Z; n_es : Z }.

Record shock := Shock {
  k_id : string;
  k_down : bool;
  k_anchor_at : Z;
  k_spx : leg;
  k_es : leg;
  k_threshold : float;
  k_provider : string;
  k_mismatch : option Z;
  k_count : count;
  k_shock : phase;
  k_reclaim : phase;
}.

(** Waiting for a neutral recovery after an expired event. *)
Record rearming := Rearming {
  ra_down : bool; ra_spx : float * float; ra_provider : string; ra_mismatch : option Z; ra_neutral : option Z }.

Record monitor := Monitor {
  mo_session : string; mo_samples : list PriceSample; mo_event : option shock; mo_rearm : option rearming }.

Definition fresh_monitor (session : string) : monitor := Monitor session [] None None.

Definition no_delivery : phase := Phase false None None.

Definition with_mismatch (m : option Z) (e : shock) : shock :=
  Shock (k_id e) (k_down e) (k_anchor_at e) (k_spx e) (k_es e) (k_threshold e) (k_provider e) m (k_count e)
        (k_shock e) (k_reclaim e).
Definition with_course (spx es : leg) (n : count) (e : shock) : shock :=
  Shock (k_id e) (k_down e) (k_anchor_at e) spx es (k_threshold e) (k_provider e) (k_mismatch e) n
        (k_shock e) (k_reclaim e).
Definition with_phases (shock_ reclaim_ : phase) (e : shock) : shock :=
  Shock (k_id e) (k_down e) (k_anchor_at e) (k_spx e) (k_es e) (k_threshold e) (k_provider e) (k_mismatch e)
        (k_count e) shock_ reclaim_.

(** ** The step *)

(** A provider is missed from its first strange sample on; the container ends
    when that was too long ago. *)
Definition missed (provider : string) (mismatch : option Z) (s : PriceSample) (reset_seconds : Z)
    : option Z * bool :=
  if String.eqb provider (p_provider s) then (None, false)
  else match mismatch with
       | None => (Some (p_at s), false)
       | Some u => (Some u, fgeb (secs (p_at s) u) (f_of_Z reset_seconds))
       end.

Definition move_bps (current anchor : float) : float :=
  fmul (fsub (fdiv_ieee current anchor) (f_of_Z 1)) (f_of_Z 10000).

Definition beyond (down : bool) (current extreme : float) : bool :=
  if down then fltb current extreme else fgtb current extreme.

Definition recovered (down : bool) (price : float) (g : leg) : float :=
  recovery_fraction down price (g_anchor g) (g_extreme g).

Section spec.
Context (settings : IntradayShockSettings) (s : PriceSample).

Definition spec_switch (m : monitor) : monitor :=
  match mo_event m, mo_rearm m with
  | Some e, rearm =>
      let '(mm, due) := missed (k_provider e) (k_mismatch e) s (provider_switch_reset_seconds settings) in
      if due : bool then Monitor (mo_session m) (of_provider s (mo_samples m)) None None
      else Monitor (mo_session m) (mo_samples m) (Some (with_mismatch mm e)) rearm
  | None, Some r =>
      let '(mm, due) := missed (ra_provider r) (ra_mismatch r) s (provider_switch_reset_seconds settings) in
      if due : bool then Monitor (mo_session m) (of_provider s (mo_samples m)) None None
      else Monitor (mo_session m) (mo_samples m) None
             (Some (Rearming (ra_down r) (ra_spx r) (ra_provider r) mm (ra_neutral r)))
  | None, None => m
  end.

Definition spec_complete (m : monitor) : monitor :=
  match e ← mo_event m; f_done_at (k_reclaim e) with
  | Some u => if fgeb (secs (p_at s) u) (f_of_Z (completion_hold_seconds settings))
              then Monitor (mo_session m) (since u (mo_samples m)) None (mo_rearm m) else m
  | None => m
  end.

Definition expires (e : shock) : Z :=
  Z.max (k_anchor_at e + event_expiry_seconds settings * SECOND)
        (Z.max (g_at (k_spx e)) (g_at (k_es e)) + reclaim_window_seconds settings * SECOND).

Definition spec_expire (m : monitor) : monitor :=
  match mo_event m with
  | Some e =>
      if expires e <? p_at s then
        Monitor (mo_session m) (mo_samples m) None
          (Some (Rearming (k_down e) (g_anchor (k_spx e), g_extreme (k_spx e)) (k_provider e) None None))
      else m
  | None => m
  end.

Definition spec_rearm (m : monitor) : monitor :=
  match mo_event m, mo_rearm m with
  | None, Some r =>
      if String.eqb (ra_provider r) (p_provider s) then
        let keep n := Monitor (mo_session m) (mo_samples m) None
                        (Some (Rearming (ra_down r) (ra_spx r) (ra_provider r) (ra_mismatch r) n)) in
        if fgeb (recovery_fraction (ra_down r) (p_spx s) (ra_spx r).1 (ra_spx r).2) (rearm_recovery_fraction settings)
        then match ra_neutral r with
             | None => keep (Some (p_at s))
             | Some u => if fgeb (secs (p_at s) u) (f_of_Z (rearm_neutral_seconds settings))
                         then Monitor (mo_session m) (since u (mo_samples m)) None None else keep (Some u)
             end
        else keep None
      else m
  | _, _ => m
  end.

Definition shock_from (session : string) (c : ShockCandidate) : shock :=
  let a := c_anchor c in
  {| k_id := shock_event_id session (direction_str (c_down c)) (p_at a) (p_provider s);
     k_down := c_down c; k_anchor_at := p_at a;
     k_spx := Leg (p_spx a) (p_spx s) (p_at s); k_es := Leg (p_es a) (p_es s) (p_at s);
     k_threshold := c_threshold_bps c; k_provider := p_provider s; k_mismatch := None;
     k_count := Count 0 None (source_or_at s (p_spx_source_at s)) (source_or_at s (p_es_source_at s));
     k_shock := no_delivery; k_reclaim := no_delivery |}.

Definition spec_detect (m : monitor) : monitor :=
  match mo_event m, mo_rearm m with
  | None, None =>
      match find_shock_candidate settings s (mo_samples m) with
      | Ok (Some c) => Monitor (mo_session m) (mo_samples m) (Some (shock_from (mo_session m) c)) None
      | _ => m
      end
  | _, _ => m
  end.

(** The leg of an event that is not confirmed, and whether it went further. *)
Definition extended (down : bool) (price : float) (g : leg) : leg * bool :=
  if beyond down price (g_extreme g) then (Leg (g_anchor g) price (p_at s), true) else (g, false).

Definition in_window (spx es : leg) : bool :=
  fleb (secs (p_at s) (Z.max (g_at spx) (g_at es))) (f_of_Z (reclaim_window_seconds settings)).

(** A fresh pair of quotes counts, or breaks the streak. *)
Definition spec_count (down : bool) (spx es : leg) (n : count) : count :=
  let spx_at := source_or_at s (p_spx_source_at s) in
  let es_at := source_or_at s (p_es_source_at s) in
  if (n_spx n <? spx_at) && (n_es n <? es_at) then
    let streak := next_streak settings (n_streak n) (in_window spx es)
                    (recovered down (p_spx s) spx) (recovered down (p_es s) es) in
    Count streak (if reclaim_confirm_samples settings <=? streak then Some (p_at s) else None) spx_at es_at
  else n.

Definition spec_follow (e : shock) : shock :=
  match n_confirmed (k_count e) with
  | Some _ => e
  | None =>
      let '(spx, moved) := extended (k_down e) (p_spx s) (k_spx e) in
      let '(es, moved') := extended (k_down e) (p_es s) (k_es e) in
      let n := k_count e in
      let n := Count (if moved || moved' then 0 else n_streak n) None (n_spx n) (n_es n) in
      with_course spx es (spec_count (k_down e) spx es n) e
  end.

Definition spec_track (m : monitor) : monitor :=
  match mo_event m with
  | Some e => if String.eqb (k_provider e) (p_provider s)
              then Monitor (mo_session m) (mo_samples m) (Some (spec_follow e)) (mo_rearm m) else m
  | None => m
  end.

Definition spec_store (m : monitor) : monitor :=
  Monitor (mo_session m) (mo_samples m ++ [s]) (mo_event m) (mo_rearm m).

Definition due (f : phase) : bool :=
  negb (f_done f) && match f_tried f with
                     | None => true
                     | Some u => fgeb (secs (p_at s) u) (f_of_Z (retry_seconds settings))
                     end.

(** The phases that are due: the shock, and the reclaim when it is confirmed. *)
Definition spec_due (m : monitor) : list (string * shock) :=
  match mo_event m with
  | None => []
  | Some e => (if due (k_shock e) then [(SHOCK_KIND, e)] else [])
              ++ (if bool_decide (is_Some (n_confirmed (k_count e))) && due (k_reclaim e) then [(RECLAIM_KIND, e)] else [])
  end.

Definition spec_work (m : monitor) : monitor :=
  spec_track (spec_detect (spec_rearm (spec_expire (spec_complete (spec_switch
    (Monitor (mo_session m) (retained_history settings s (mo_samples m)) (mo_event m) (mo_rearm m))))))).

Definition spec_advance (m : monitor) : monitor * list (string * shock) :=
  if match list_basics.list.last (mo_samples m) with Some l => same_sources s l | None => false end then (m, [])
  else let m := spec_work m in (spec_store m, spec_due m).
End spec.

(** An attempt to deliver the alerts of the event [id], of the given kinds. *)
Definition tried (delivered : bool) (at_ : Z) (f : phase) : phase :=
  Phase (delivered || f_done f) (Some at_) (if delivered then Some at_ else f_done_at f).
Definition spec_mark_one (at_ : Z) (delivered : bool) (e : shock) (a : Alert) : shock :=
  if negb (String.eqb (k_id e) (al_event_id a)) then e
  else match alert_phase a with
       | Some "shock" => with_phases (tried delivered at_ (k_shock e)) (k_reclaim e) e
       | Some _ => with_phases (k_shock e) (tried delivered at_ (k_reclaim e)) e
       | None => e
       end.
Definition spec_mark (m : monitor) (alerts : list Alert) (at_ : Z) (delivered : bool) : monitor :=
  Monitor (mo_session m) (mo_samples m) ((λ e, fold_left (spec_mark_one at_ delivered) alerts e) <$> mo_event m)
    (mo_rearm m).
