(* ===== verification/ShockFacts.v ===== *)
(** * The shock monitor refines its specification

    When a stored dict shows a typed state of [ShockSpec], every operation of
    [ShockMonitor] returns normally, and what it stores and announces shows what
    the specification computes. *)

From stdpp Require Import base numbers strings list sets.
From Stdlib Require Import Ascii ZArith Lia.
From S2P Require Import Prelude PyStr PyFloat PyTime PyDateTime PyDict PyVal Marketdata MarketdataFacts ShockMonitor ShockSpec.

#[local] Open Scope Z_scope.

(** ** When a dict shows a typed state *)

Definition opt_in_range (o : option Z) : Prop := match o with Some u => instant_in_range u = true | None => True end.
Definition positive (x : float) : Prop := fltb (f_of_Z 0) x = true.
Definition known_provider (p : string) : Prop := p ≠ "" ∧ p ≠ UNKNOWN_PROVIDER.

(** Evaluate the keys that are put together from a phase. *)
Ltac phase_keys :=
  repeat match goal with
         | |- context [?a +:+ ?b] => let v := eval vm_compute in (a +:+ b) in change (a +:+ b) with v
         | H : context [?a +:+ ?b] |- _ => let v := eval vm_compute in (a +:+ b) in change (a +:+ b) with v in H
         end.

Section shows.
Context (settings : IntradayShockSettings).

(** An instant that the windows can be added to. *)
Definition roomy (u : Z) : Prop :=
  instant_in_range u = true ∧ instant_in_range (u + event_expiry_seconds settings * SECOND) = true
  ∧ instant_in_range (u + reclaim_window_seconds settings * SECOND) = true.

(** A sample as the evaluator makes it: two positive prices of a known provider. *)
Record sample_ok (s : PriceSample) : Prop := {
  so_at : roomy (p_at s);
  so_spx_at : opt_in_range (p_spx_source_at s);
  so_es_at : opt_in_range (p_es_source_at s);
  so_spx : positive (p_spx s);
  so_es : positive (p_es s);
  so_provider : known_provider (p_provider s);
}.

Record shows_row (row : pydict) (s : PriceSample) : Prop := {
  sr_at : vget "at" row = vtime (p_at s);
  sr_spx : vget "spx" row = VFloat (p_spx s);
  sr_es : vget "es" row = VFloat (p_es s);
  sr_spx_at : vget "spx_source_at" row = v_opt_time (p_spx_source_at s);
  sr_es_at : vget "es_source_at" row = v_opt_time (p_es_source_at s);
  sr_provider : vget "provider" row = VStr (p_provider s);
}.

(** A leg under its keys: anchor, extreme, time of the extreme, move. *)
Definition shows_leg (ka ke kt km : string) (ev : pydict) (g : leg) : Prop :=
  vget ka ev = VFloat (g_anchor g) ∧ vget ke ev = VFloat (g_extreme g) ∧ vget kt ev = vtime (g_at g)
  ∧ vget km ev = VFloat (move_bps (g_extreme g) (g_anchor g)).
Definition shows_phase (kd kt ka : string) (ev : pydict) (f : phase) : Prop :=
  vget kd ev = VBool (f_done f) ∧ vget kt ev = v_opt_time (f_tried f) ∧ vget ka ev = v_opt_time (f_done_at f).
Definition is_float (v : pyval) : Prop := ∃ x, v = VFloat x.

Record shows_event (ev : pydict) (e : shock) : Prop := {
  se_id : vget "event_id" ev = VStr (k_id e);
  se_direction : vget "direction" ev = VStr (direction_str (k_down e));
  se_anchor_at : vget "anchor_at" ev = vtime (k_anchor_at e);
  se_spx : shows_leg "anchor_spx" "extreme_spx" "extreme_at" "shock_spx_bps" ev (k_spx e);
  se_es : shows_leg "anchor_es" "extreme_es" "extreme_es_at" "shock_es_bps" ev (k_es e);
  se_threshold : vget "shock_threshold_bps" ev = VFloat (k_threshold e);
  se_provider : vget "provider" ev = VStr (k_provider e);
  se_mismatch : vget "provider_mismatch_since" ev = v_opt_time (k_mismatch e);
  se_streak : vget "reclaim_streak" ev = VInt (n_streak (k_count e));
  se_confirmed : vget "reclaim_confirmed_at" ev = v_opt_time (n_confirmed (k_count e));
  se_counted_spx : vget "reclaim_counted_spx_source_at" ev = vtime (n_spx (k_count e));
  se_counted_es : vget "reclaim_counted_es_source_at" ev = vtime (n_es (k_count e));
  se_shock : shows_phase "shock_delivered" "shock_last_attempt_at" "shock_delivered_at" ev (k_shock e);
  se_reclaim : shows_phase "reclaim_delivered" "reclaim_last_attempt_at" "reclaim_delivered_at" ev (k_reclaim e);
  (** numbers that the alerts show *)
  se_duration : is_float (vget "shock_duration_seconds" ev);
  se_fraction : is_float (vget "reclaim_threshold" ev);
  se_spx_recovery : is_float (vget "spx_recovery_fraction" ev);
  se_es_recovery : is_float (vget "es_recovery_fraction" ev);
}.

Definition leg_ok (g : leg) : Prop := positive (g_anchor g) ∧ positive (g_extreme g) ∧ roomy (g_at g).
Definition phase_ok (f : phase) : Prop := opt_in_range (f_tried f) ∧ opt_in_range (f_done_at f).

Record event_ok (e : shock) : Prop := {
  eo_anchor : roomy (k_anchor_at e);
  eo_spx : leg_ok (k_spx e);
  eo_es : leg_ok (k_es e);
  eo_provider : known_provider (k_provider e);
  eo_mismatch : opt_in_range (k_mismatch e);
  eo_confirmed : opt_in_range (n_confirmed (k_count e));
  eo_counted : instant_in_range (n_spx (k_count e)) = true ∧ instant_in_range (n_es (k_count e)) = true;
  eo_shock : phase_ok (k_shock e);
  eo_reclaim : phase_ok (k_reclaim e);
}.

Record shows_rearm (d : pydict) (r : rearming) : Prop := {
  sa_direction : vget "direction" d = VStr (direction_str (ra_down r));
  sa_anchor : vget "anchor_spx" d = VFloat (ra_spx r).1;
  sa_extreme : vget "extreme_spx" d = VFloat (ra_spx r).2;
  sa_provider : vget "provider" d = VStr (ra_provider r);
  sa_mismatch : vget "provider_mismatch_since" d = v_opt_time (ra_mismatch r);
  sa_neutral : vget "neutral_since" d = v_opt_time (ra_neutral r);
}.
Record rearm_ok (r : rearming) : Prop := {
  ro_anchor : positive (ra_spx r).1;
  ro_extreme : positive (ra_spx r).2;
  ro_provider : known_provider (ra_provider r);
  ro_mismatch : opt_in_range (ra_mismatch r);
  ro_neutral : opt_in_range (ra_neutral r);
}.

(** A dict, or its absence, shows a typed value, or its absence. *)
Definition shows_option {A} (R : pydict → A → Prop) (o : option pydict) (a : option A) : Prop := option_Forall2 R o a.
Definition the_event (ev : pydict) (e : shock) : Prop := shows_event ev e ∧ event_ok e.
Definition the_rearm (d : pydict) (r : rearming) : Prop := shows_rearm d r ∧ rearm_ok r.

Definition shows_value {A} (R : pydict → A → Prop) (v : pyval) (a : option A) : Prop :=
  match a with Some a => ∃ d, v = VDict d ∧ R d a | None => v = VNone end.

(** A work in progress, between two stages. *)
Record shows_work (w : Work) (m : monitor) : Prop := {
  sw_session : vget "session_date" (w_state w) = VStr (mo_session m)
               ∧ vget "schema_version" (w_state w) = VInt STATE_SCHEMA_VERSION;
  sw_history : w_history w = mo_samples m;
  sw_samples : Forall sample_ok (mo_samples m);
  sw_event : option_Forall2 the_event (w_event w) (mo_event m);
  sw_rearm : option_Forall2 the_rearm (w_rearm w) (mo_rearm m);
}.

Record shows (st : pydict) (m : monitor) : Prop := {
  sh_schema : vget "schema_version" st = VInt STATE_SCHEMA_VERSION;
  sh_session : vget "session_date" st = VStr (mo_session m);
  sh_rows : ∃ rows, dget "samples" st = Some (VList (VDict <$> rows)) ∧ Forall2 shows_row rows (mo_samples m);
  sh_samples : Forall sample_ok (mo_samples m);
  sh_event : shows_value the_event (vget "active_event" st) (mo_event m);
  sh_rearm : shows_value the_rearm (vget "rearm" st) (mo_rearm m);
}.

(** ** Times and samples *)

Lemma parse_vtime u : instant_in_range u = true → parse_datetime (vtime u) = Ok (Some u).
Proof using.
  intros Hu. unfold vtime, parse_datetime. rewrite (proj2 (String.eqb_neq _ _) (isoformat_not_empty u)).
  rewrite isoformat_no_Z.
  rewrite fromisoformat_isoformat by done. unfold as_utc. rewrite dt_as_utc_utc. cbv zeta. by rewrite Hu.
Qed.

Lemma time_shows k d o : vget k d = v_opt_time o → opt_in_range o → event_datetime d k = Ok o.
Proof using.
  intros E Ho. unfold event_datetime. rewrite E. destruct o as [u|]; [by apply parse_vtime|done].
Qed.
Lemma stamp_shows k d u : vget k d = vtime u → instant_in_range u = true → event_datetime d k = Ok (Some u).
Proof using. intros E Hu. by apply (time_shows k d (Some u)). Qed.

Lemma positive_not_le x : positive x → fleb x (f_of_Z 0) = false.
Proof using. apply fltb_not_fleb. Qed.
Lemma positive_nonzero x : positive x → f_is_zero x = false.
Proof using. unfold positive. by destruct x as [[]| | |]. Qed.

Lemma provider_shows d p : vget "provider" d = VStr p → p ≠ "" → vstr_or "provider" UNKNOWN_PROVIDER d = p.
Proof using.
  intros E Hp. unfold vstr_or. rewrite E. unfold v_or. cbn. by rewrite (proj2 (String.eqb_neq _ _) Hp).
Qed.

Lemma row_of_sample s : shows_row (sample_to_dict s) s.
Proof using. by split. Qed.

Lemma sample_from_row row s :
  shows_row row s → sample_ok s → sample_from_dict (VDict row) = Ok (Some s).
Proof using.
  intros [Ha Hx He Hxa Hea Hp] [[Hat _] Hxt Het Hspx Hes [Hpn _]]. unfold sample_from_dict.
  rewrite Ha, (parse_vtime _ Hat). cbn [mbind res_bind]. rewrite Hx, He. cbn [num_of].
  rewrite !positive_not_le by done. cbn [orb].
  change (parse_datetime (vget "spx_source_at" row)) with (event_datetime row "spx_source_at").
  change (parse_datetime (vget "es_source_at" row)) with (event_datetime row "es_source_at").
  rewrite (time_shows _ _ _ Hxa Hxt), (time_shows _ _ _ Hea Het). cbn [mbind res_bind].
  rewrite (provider_shows _ _ Hp Hpn). by destruct s.
Qed.

Lemma parsed_rows rows samples :
  Forall2 shows_row rows samples → Forall sample_ok samples →
  present <$> res_mapM sample_from_dict (VDict <$> rows) = Ok samples.
Proof using.
  induction 1 as [|row s rows samples Hr _ IH]; intros Hok; [done|]. inversion Hok as [|? ? Hs Hok']; subst.
  specialize (IH Hok'). rewrite fmap_cons. cbn [res_mapM]. rewrite (sample_from_row row s) by done. cbn [mbind res_bind].
  destruct (res_mapM sample_from_dict (VDict <$> rows)) as [l|]; [|discriminate IH].
  injection IH as <-. done.
Qed.

Lemma parsed_shows st m : shows st m → parsed_samples st = Ok (mo_samples m).
Proof using.
  intros [_ _ (rows & E & Hr) Hok _ _]. unfold parsed_samples, vget_or. rewrite E. cbn. by apply parsed_rows.
Qed.
(** ** The stages

    Other keys than the ones written show what they showed. *)
Definition same_outside (ks : list string) (d d' : pydict) : Prop := ∀ k, k ∉ ks → vget k d' = vget k d.

Lemma outside_dset k v d : same_outside [k] d (dset k v d).
Proof using. intros k' Hk. apply vget_dset_ne. set_solver. Qed.
Lemma outside_dpop k d : same_outside [k] d (dpop k d).
Proof using. intros k' Hk. apply vget_dpop_ne. set_solver. Qed.
Lemma outside_refl ks d : same_outside ks d d.
Proof using. done. Qed.

Context (s : PriceSample) (Hs : sample_ok s).

Lemma now_in_range : instant_in_range (p_at s) = true.
Proof using Hs. apply Hs. Qed.

Lemma switch_due_shows d p mm reset :
  vget "provider" d = VStr p → known_provider p →
  vget "provider_mismatch_since" d = v_opt_time mm → opt_in_range mm →
  ∃ d', provider_switch_reset_due d s reset = Ok (d', (missed p mm s reset).2)
  ∧ same_outside ["provider_mismatch_since"] d d'
  ∧ vget "provider_mismatch_since" d' = v_opt_time (missed p mm s reset).1
  ∧ opt_in_range (missed p mm s reset).1.
Proof using Hs.
  intros Hp [Hn Hu] Hm Ho. unfold provider_switch_reset_due, missed. rewrite (provider_shows _ _ Hp Hn).
  rewrite (proj2 (String.eqb_neq _ _) Hu). destruct (String.eqb p (p_provider s)).
  - eexists. split_and!; [done|apply outside_dpop|by rewrite vget_dpop_eq|done].
  - rewrite (time_shows _ _ _ Hm Ho). cbn [mbind res_bind]. destruct mm as [u|].
    + eexists. split_and!; [done|apply outside_refl|done|done].
    + eexists. split_and!; [done|apply outside_dset|by rewrite vget_dset_eq|apply now_in_range].
Qed.

(** Rewrite lookups of keys that two dicts agree on. *)
Ltac agreed H :=
  repeat match goal with |- context [vget ?k _] => rewrite (H k ltac:(not_in)) end.

Lemma event_mismatch ev ev' e mm :
  same_outside ["provider_mismatch_since"] ev ev' → vget "provider_mismatch_since" ev' = v_opt_time mm →
  opt_in_range mm → the_event ev e → the_event ev' (with_mismatch mm e).
Proof using.
  intros Ha Hm Ho [[] []]. split; split; cbn; unfold shows_leg, shows_phase in *; agreed Ha; done.
Qed.

Lemma rearm_mismatch d d' r mm :
  same_outside ["provider_mismatch_since"] d d' → vget "provider_mismatch_since" d' = v_opt_time mm →
  opt_in_range mm → the_rearm d r → the_rearm d' (Rearming (ra_down r) (ra_spx r) (ra_provider r) mm (ra_neutral r)).
Proof using. intros Ha Hm Ho [[] []]. split; split; cbn; agreed Ha; done. Qed.

Lemma rearm_neutral d r n :
  opt_in_range n → the_rearm d r →
  the_rearm (dset "neutral_since" (v_opt_time n) d) (Rearming (ra_down r) (ra_spx r) (ra_provider r) (ra_mismatch r) n).
Proof using. intros Ho [[] []]. split; split; cbn; look; done. Qed.

Lemma forall_filter {A} (Q P : A → Prop) `{∀ x, Decision (P x)} l : Forall Q l → Forall Q (filter P l).
Proof using. rewrite !Forall_forall. intros H1 x [_ Hx]%list_elem_of_filter. by apply H1. Qed.

Lemma close_key k st ev status key : k ≠ "last_event" → vget k (close_event s st ev status key) = vget k st.
Proof using. apply vget_dset_ne. Qed.

Lemma switch_shows w m :
  shows_work w m → ∃ w', switch_provider settings s w = Ok w' ∧ shows_work w' (spec_switch settings s m).
Proof using Hs.
  intros [H1 H2 H3 H4 H5]. unfold switch_provider, spec_switch.
  inversion H4 as [ev e He E1 E2|E1 E2].
  - destruct (switch_due_shows ev (k_provider e) (k_mismatch e) (provider_switch_reset_seconds settings))
      as (ev' & E & Ha & Hm & Ho); [apply He..|]. rewrite E. cbn [mbind res_bind].
    destruct (missed _ _ _ _) as [mm due_]. cbn [fst snd] in *. destruct due_.
    + eexists. split; [done|]. split; cbn; [by rewrite !close_key|by rewrite H2|by apply forall_filter|constructor..].
    + eexists. split; [done|]. split; cbn; [done..| |done]. constructor. by apply (event_mismatch ev).
  - inversion H5 as [d r Hr E3 E4|E3 E4].
    + destruct (switch_due_shows d (ra_provider r) (ra_mismatch r) (provider_switch_reset_seconds settings))
        as (d' & E & Ha & Hm & Ho); [apply Hr..|]. rewrite E. cbn [mbind res_bind].
      destruct (missed _ _ _ _) as [mm due_]. cbn [fst snd] in *. destruct due_.
      * eexists. split; [done|]. split; cbn; [done|by rewrite H2|by apply forall_filter|constructor..].
      * eexists. split; [done|]. split; cbn; [done..|constructor|]. constructor. by apply (rearm_mismatch d).
    + exists w. split; [done|]. split; [done..| |]; rewrite <- ?E1, <- ?E2, <- ?E3, <- ?E4; constructor.
Qed.

Lemma complete_shows w m :
  shows_work w m → ∃ w', complete_event settings s w = Ok w' ∧ shows_work w' (spec_complete settings s m).
Proof using Hs.
  intros H. pose proof H as [H1 H2 H3 H4 H5]. unfold complete_event, spec_complete.
  inversion H4 as [ev e He E1 E2|E1 E2]; cbn; [|by exists w].
  destruct He as [Hsh Hok]. destruct (se_reclaim _ _ Hsh) as (_ & _ & Hd).
  rewrite (time_shows _ _ _ Hd) by apply Hok. cbn. destruct (f_done_at (k_reclaim e)) as [u|]; [|by exists w].
  destruct (fgeb _ _); [|by exists w]. eexists. split; [done|].
  split; cbn; [by rewrite !close_key|by rewrite H2|by apply forall_filter|constructor|done].
Qed.

Lemma expiry_shows ev e : the_event ev e → expiry_of settings ev = Ok (Some (expires settings e)).
Proof using.
  intros [Hsh Hok]. destruct Hok as [Ha (_ & _ & Hx) (_ & _ & He) _ _ _ _ _ _]. unfold expiry_of.
  rewrite (stamp_shows _ _ _ (se_anchor_at _ _ Hsh)) by apply Ha. cbn [mbind res_bind].
  destruct (se_spx _ _ Hsh) as (_ & _ & Hx1 & _), (se_es _ _ Hsh) as (_ & _ & He1 & _).
  rewrite (stamp_shows _ _ _ Hx1), (stamp_shows _ _ _ He1) by (apply Hx || apply He). cbn [mbind res_bind].
  unfold latest_of, present. cbn.
  set (l := if g_at (k_spx e) <? g_at (k_es e) then g_at (k_es e) else g_at (k_spx e)).
  assert (El : l = Z.max (g_at (k_spx e)) (g_at (k_es e))) by (subst l; destruct (Z.ltb_spec (g_at (k_spx e)) (g_at (k_es e))); lia).
  assert (Hl : roomy l) by (subst l; by destruct (_ <? _)).
  unfold dt_add. destruct Ha as (_ & -> & _), Hl as (_ & _ & ->). cbn. unfold expires. by rewrite <- El.
Qed.

Lemma rearm_after_shows ev e :
  the_event ev e →
  the_rearm (rearm_after ev) (Rearming (k_down e) (g_anchor (k_spx e), g_extreme (k_spx e)) (k_provider e) None None).
Proof using.
  intros [Hsh Hok]. destruct (se_spx _ _ Hsh) as (Ha & Hx & _), (eo_spx _ Hok) as (Pa & Px & _).
  unfold rearm_after. rewrite (se_direction _ _ Hsh), Ha, Hx, (se_provider _ _ Hsh).
  split; split; cbn; try done. apply Hok.
Qed.

Lemma shock_expire_shows w m :
  shows_work w m → ∃ w', expire_event settings s w = Ok w' ∧ shows_work w' (spec_expire settings s m).
Proof using Hs.
  intros H. pose proof H as [H1 H2 H3 H4 H5]. unfold expire_event, spec_expire.
  inversion H4 as [ev e He E1 E2|E1 E2]; cbn; [|by exists w].
  rewrite (expiry_shows ev e He). cbn. destruct (expires settings e <? p_at s); [|by exists w].
  eexists. split; [done|]. split; cbn; [by rewrite !close_key|done..|constructor|constructor].
  by apply rearm_after_shows.
Qed.

Lemma relevant_shows d p : vget "provider" d = VStr p → known_provider p →
  provider_relevant s d = String.eqb p (p_provider s).
Proof using.
  intros E [Hn Hu]. unfold provider_relevant. rewrite (provider_shows _ _ E Hn). cbv zeta.
  by rewrite (proj2 (String.eqb_neq _ _) Hu).
Qed.

Lemma is_down_direction d : is_down (VStr (direction_str d)) = d.
Proof using. by destruct d. Qed.

Lemma rearm_shows w m :
  shows_work w m → ∃ w', rearm_step settings s w = Ok w' ∧ shows_work w' (spec_rearm settings s m).
Proof using Hs.
  intros H. pose proof H as [H1 H2 H3 H4 H5]. unfold rearm_step, spec_rearm.
  inversion H4 as [ev e He E1 E2|E1 E2]; [by exists w|].
  inversion H5 as [d r Hr E3 E4|E3 E4]; [|by exists w]. destruct Hr as [Hsh Hok].
  rewrite (relevant_shows d (ra_provider r)) by (apply Hsh || apply Hok).
  destruct (String.eqb _ _); cbn [negb]; [|by exists w].
  assert (Hnum : ∀ k x, vget k d = VFloat x → positive x →
            py_float (v_or (vget k d) (VFloat (p_spx s))) = Ok x).
  { intros k x Ek Px. rewrite Ek, v_or_truthy; [done|]. cbn. by rewrite (positive_nonzero x Px). }
  rewrite (Hnum _ _ (sa_anchor _ _ Hsh)), (Hnum _ _ (sa_extreme _ _ Hsh)) by apply Hok. cbn [mbind res_bind].
  rewrite (sa_direction _ _ Hsh), is_down_direction.
  rewrite (time_shows _ _ _ (sa_neutral _ _ Hsh)) by apply Hok. cbn [mbind res_bind].
  destruct (fgeb _ (rearm_recovery_fraction settings)).
  - destruct (ra_neutral r) as [u|] eqn:En.
    + destruct (fgeb _ _).
      * eexists. split; [done|]. split; cbn; [done|by rewrite H2|by apply forall_filter|constructor..].
      * eexists. split; [done|]. split; cbn; [done..|constructor|]. constructor. rewrite <- En. by destruct r.
    + eexists. split; [done|]. split; cbn; [done..|constructor|]. constructor.
      by apply (rearm_neutral d r (Some (p_at s))); [apply now_in_range|].
  - eexists. split; [done|]. split; cbn; [done..|constructor|]. constructor. by apply (rearm_neutral d r None).
Qed.

(** *** Detection *)

Record settings_ok : Prop := {
  st_one : positive (one_minute_threshold_bps settings);
  st_three : positive (three_minute_threshold_bps settings);
}.

Lemma fdiv_positive x y : positive y → fdiv x y = Ok (fdiv_ieee x y).
Proof using. intros Hy. unfold fdiv. by rewrite (positive_nonzero y Hy). Qed.
Lemma bps_positive x y : positive y → bps x y = Ok (move_bps x y).
Proof using. intros Hy. unfold bps. by rewrite (fdiv_positive x y Hy). Qed.

(** A move far enough from a sample, and confirmed by ES. *)
Definition confirmed_move (a : PriceSample) (threshold : float) (c : ShockCandidate) : Prop :=
  move_from (c_down c) a s threshold (es_confirm_ratio settings) = Ok (Some c).

Lemma move_from_total down a threshold :
  sample_ok a → positive threshold →
  ∃ o, move_from down a s threshold (es_confirm_ratio settings) = Ok o
  ∧ ∀ c, o = Some c → c_down c = down ∧ c_anchor c = a ∧ c_threshold_bps c = threshold
      ∧ c_spx_move_bps c = move_bps (p_spx s) (p_spx a) ∧ c_es_move_bps c = move_bps (p_es s) (p_es a).
Proof using.
  intros [_ _ _ Hx He _] Ht. unfold move_from. rewrite (bps_positive _ _ Hx), (bps_positive _ _ He). cbn.
  destruct ((if down then _ else _) && _); [|by exists None]. rewrite (fdiv_positive _ _ Ht). cbn.
  eexists. split; [done|]. by intros c [= <-].
Qed.

Lemma best_candidate_in l c : best_candidate l = Some c → Some c ∈ l.
Proof using.
  intros H%max_by_elem. unfold present in H. apply list_elem_of_omap in H as (o & Ho & E). cbn in E. by subst.
Qed.

Definition shock_windows : list (Z * float) :=
  [(one_minute_seconds settings, one_minute_threshold_bps settings);
   (three_minute_seconds settings, three_minute_threshold_bps settings)].

(** A candidate is a confirmed move from a sample of the history in its window. *)
Definition candidate_from (history : list PriceSample) (c : ShockCandidate) (window : Z * float) : Prop :=
  c_anchor c ∈ history ∧ eligible_anchor s window.1 (c_anchor c) = true
  ∧ confirmed_move (c_anchor c) window.2 c.

Lemma horizon_total history window :
  Forall sample_ok history → positive window.2 →
  ∃ o, candidate_for_horizon history s window.1 window.2 (es_confirm_ratio settings) = Ok o
  ∧ ∀ c, o = Some c → candidate_from history c window.
Proof using.
  intros Hh Ht. unfold candidate_for_horizon. cbv zeta. rewrite Forall_forall in Hh.
  set (eligible := filter _ history).
  assert (Hel : ∀ gt a, max_by gt eligible = Some a → a ∈ history ∧ eligible_anchor s window.1 a = true ∧ sample_ok a).
  { intros gt a [He Ha]%max_by_elem%list_elem_of_filter. auto. }
  unfold min_by. destruct (max_by _ eligible) as [a|] eqn:Ea; [|by exists None].
  destruct (max_by (λ a b : PriceSample, fltb _ _) eligible) as [b|] eqn:Eb; [|by exists None].
  apply Hel in Ea as (Ha1 & Ha2 & Ha3), Eb as (Hb1 & Hb2 & Hb3).
  destruct (move_from_total true a window.2 Ha3 Ht) as (o & Eo & Ho). rewrite Eo. cbn [mbind res_bind].
  destruct (move_from_total false b window.2 Hb3 Ht) as (o' & Eo' & Ho'). rewrite Eo'. cbn [mbind res_bind].
  eexists. split; [done|]. intros c Hc%best_candidate_in.
  apply elem_of_cons in Hc as [Hc|Hc%list_elem_of_singleton]; symmetry in Hc;
    [destruct (Ho c Hc) as (E1 & E2 & _)|destruct (Ho' c Hc) as (E1 & E2 & _)];
    unfold candidate_from, confirmed_move; rewrite E1, E2; split_and!; congruence.
Qed.

Lemma candidate_total history :
  settings_ok → Forall sample_ok history →
  ∃ o, find_shock_candidate settings s history = Ok o
  ∧ ∀ c, o = Some c → ∃ window, window ∈ shock_windows ∧ candidate_from history c window.
Proof using.
  intros [H1 H3] Hh. unfold find_shock_candidate.
  destruct (horizon_total history (one_minute_seconds settings, one_minute_threshold_bps settings) Hh H1) as (o1 & E1 & C1).
  destruct (horizon_total history (three_minute_seconds settings, three_minute_threshold_bps settings) Hh H3) as (o3 & E3 & C3).
  cbn [fst snd] in E1, E3. rewrite E1, E3. cbn [mbind res_bind]. eexists. split; [done|].
  intros c Hc%best_candidate_in. apply elem_of_cons in Hc as [Hc|Hc%list_elem_of_singleton].
  - eexists. split; [left|by apply C1].
  - eexists. split; [right; left|by apply C3].
Qed.

(** The candidate's numbers are those of its anchor and the sample. *)
Lemma confirmed_move_facts a threshold c :
  sample_ok a → positive threshold → confirmed_move a threshold c →
  c_anchor c = a ∧ c_threshold_bps c = threshold
  ∧ c_spx_move_bps c = move_bps (p_spx s) (p_spx a) ∧ c_es_move_bps c = move_bps (p_es s) (p_es a).
Proof using.
  intros Ha Ht Hc. destruct (move_from_total (c_down c) a threshold Ha Ht) as (o & E & Ho).
  unfold confirmed_move in Hc. rewrite E in Hc. injection Hc as ->. by apply (Ho c).
Qed.

Lemma source_in_range o : opt_in_range o → instant_in_range (source_or_at s o) = true.
Proof using Hs. destruct o; [done|]. intros _. apply now_in_range. Qed.

Lemma new_event_shows session c a threshold :
  sample_ok a → positive threshold → confirmed_move a threshold c →
  the_event (new_event settings s session c) (shock_from s session c).
Proof using Hs.
  intros Ha Ht Hc. destruct (confirmed_move_facts a threshold c Ha Ht Hc) as (E1 & E2 & E3 & E4). split.
  - unfold new_event, shock_from. cbv zeta. rewrite E3, E4, E1.
    split; unfold shows_leg, shows_phase, is_float; look_display; cbn; eauto.
  - unfold shock_from. cbv zeta. rewrite E1.
    split; cbn; try done; unfold leg_ok, phase_ok; cbn; try (split_and?; first [apply Ha|apply Hs|done]).
    split; apply source_in_range; apply Hs.
Qed.

Lemma detect_shows w m :
  settings_ok → shows_work w m → ∃ w', detect_shock settings s w = Ok w' ∧ shows_work w' (spec_detect settings s m).
Proof using Hs.
  intros Hset H. pose proof H as [H1 H2 H3 H4 H5]. unfold detect_shock, spec_detect.
  inversion H4 as [ev e He E1 E2|E1 E2]; [by exists w|].
  inversion H5 as [d r Hr E3 E4|E3 E4]; [by exists w|].
  rewrite H2. destruct (candidate_total (mo_samples m) Hset H3) as (o & E & Ho). rewrite E. cbn [mbind res_bind].
  destruct o as [c|]; [|by exists w]. unfold str_at_key. rewrite (vindex_some _ _ _ (proj1 H1)) by done. cbn.
  eexists. split; [done|]. split; cbn; [done..| |constructor]. constructor.
  destruct (Ho c eq_refl) as (window & Hw & Hin & _ & Hc). rewrite Forall_forall in H3.
  apply (new_event_shows _ c (c_anchor c) window.2); [by apply H3| |done].
  destruct Hset. apply elem_of_cons in Hw as [->|Hw%list_elem_of_singleton]; [done|by subst].
Qed.

(** *** Following an event *)

Lemma float_shows k d x : vget k d = VFloat x → float_at k d = Ok x.
Proof using. intros E. unfold float_at. by rewrite (vindex_some _ _ _ E). Qed.

Definition restarted (moved : bool) (n : count) : count :=
  Count (if moved then 0 else n_streak n) (n_confirmed n) (n_spx n) (n_es n).

(** The dict after both extremes were looked at. *)
Definition extended_event (down : bool) (spx es : float) (ev : pydict) : pydict :=
  extend s (beyond down (p_es s) es) "extreme_es_at" "extreme_es" (p_es s)
    (extend s (beyond down (p_spx s) spx) "extreme_at" "extreme_spx" (p_spx s) ev).

Definition EXTENDED_KEYS : list string := ["extreme_at"; "extreme_spx"; "extreme_es_at"; "extreme_es"; "reclaim_streak"].

(** [ev'] is [ev] with the extremes of the legs [spx] and [es], the streak
    restarted if one of them moved. *)
Record extends_to (ev ev' : pydict) (e : shock) (spx es : leg) (moved : bool) : Prop := {
  ex_agree : same_outside EXTENDED_KEYS ev ev';
  ex_spx : vget "extreme_spx" ev' = VFloat (g_extreme spx);
  ex_spx_at : vget "extreme_at" ev' = vtime (g_at spx);
  ex_es : vget "extreme_es" ev' = VFloat (g_extreme es);
  ex_es_at : vget "extreme_es_at" ev' = vtime (g_at es);
  ex_streak : vget "reclaim_streak" ev' = VInt (if moved then 0 else n_streak (k_count e));
  ex_anchors : g_anchor spx = g_anchor (k_spx e) ∧ g_anchor es = g_anchor (k_es e);
  ex_legs : leg_ok spx ∧ leg_ok es;
}.

Lemma extended_shows ev e :
  the_event ev e → n_confirmed (k_count e) = None →
  let '(spx, moved) := extended s (k_down e) (p_spx s) (k_spx e) in
  let '(es, moved') := extended s (k_down e) (p_es s) (k_es e) in
  extends_to ev (extended_event (k_down e) (g_extreme (k_spx e)) (g_extreme (k_es e)) ev) e spx es (moved || moved').
Proof using Hs.
  intros [Hsh Hok] Hn. destruct (se_spx _ _ Hsh) as (_ & Hx & Hxt & _), (se_es _ _ Hsh) as (_ & He & Het & _).
  pose proof (se_streak _ _ Hsh) as Hstreak. pose proof (se_confirmed _ _ Hsh) as Hc. rewrite Hn in Hc.
  destruct (eo_spx _ Hok) as (P1 & P2 & R1), (eo_es _ Hok) as (P3 & P4 & R2). destruct Hs as [R _ _ P5 P6 _].
  unfold extended_event, extended, extend.
  destruct (beyond _ (p_spx s) _), (beyond _ (p_es s) _); cbn [andb orb]; rewrite ?Hc; cbn [is_none v_opt_time];
    look; rewrite ?Hc; cbn [is_none v_opt_time]; split; look; unfold leg_ok; cbn [g_anchor g_extreme g_at];
    try done; intros k Hk;
    repeat (rewrite vget_dset_ne by (intros ->; apply Hk; in_list)); done.
Qed.

(** What [follow_event] writes besides the extremes and the count. *)
Definition measured (x1 x2 x3 x4 x5 : float) (ev : pydict) : pydict :=
  dset "es_recovery_fraction" (VFloat x5) (dset "spx_recovery_fraction" (VFloat x4)
    (dset "shock_duration_seconds" (VFloat x3) (dset "shock_es_bps" (VFloat x2) (dset "shock_spx_bps" (VFloat x1) ev)))).

Lemma measured_shows ev ev' e spx es moved x3 x4 x5 :
  the_event ev e → extends_to ev ev' e spx es moved →
  the_event (measured (move_bps (g_extreme spx) (g_anchor spx)) (move_bps (g_extreme es) (g_anchor es)) x3 x4 x5 ev')
    (with_course spx es (restarted moved (k_count e)) e).
Proof using.
  intros [[] []] [Ha Hx Hxt He Het Hst [Gx Ge] [Lx Le]]. unfold shows_leg, shows_phase in *. split.
  - unfold measured. split; cbn; unfold shows_leg, shows_phase, is_float; look; rewrite ?Hx, ?Hxt, ?He, ?Het, ?Hst, ?Gx, ?Ge;
      agreed Ha; try done; try (by split_and!; try done; apply se_spx0 || apply se_es0); by eexists.
  - split; cbn; done.
Qed.

Lemma count_shows ev e window x y :
  the_event ev e → n_confirmed (k_count e) = None →
  ∃ ev', count_reclaim settings s ev window x y = Ok ev'
  ∧ the_event ev'
      (with_course (k_spx e) (k_es e)
         (let n := k_count e in
          let spx_at := source_or_at s (p_spx_source_at s) in
          let es_at := source_or_at s (p_es_source_at s) in
          if (n_spx n <? spx_at) && (n_es n <? es_at) then
            let streak := next_streak settings (n_streak n) window x y in
            Count streak (if reclaim_confirm_samples settings <=? streak then Some (p_at s) else None) spx_at es_at
          else n) e).
Proof using Hs.
  intros [Hsh Hok] Hn. unfold count_reclaim. rewrite (se_streak _ _ Hsh).
  assert (Hst : py_int (v_or (VInt (n_streak (k_count e))) (VInt 0)) = Ok (n_streak (k_count e))).
  { unfold v_or. cbn. by destruct (Z.eqb_spec (n_streak (k_count e)) 0) as [->|]. }
  rewrite Hst. cbn [mbind res_bind].
  rewrite (stamp_shows _ _ _ (se_counted_spx _ _ Hsh)), (stamp_shows _ _ _ (se_counted_es _ _ Hsh)) by apply Hok.
  cbn [mbind res_bind]. cbv zeta.
  assert (Hx : instant_in_range (source_or_at s (p_spx_source_at s)) = true) by apply source_in_range, Hs.
  assert (He : instant_in_range (source_or_at s (p_es_source_at s)) = true) by apply source_in_range, Hs.
  pose proof now_in_range as Hnow.
  destruct ((n_spx (k_count e) <? _) && _); [|by exists ev; destruct e; split].
  eexists. split; [done|]. destruct Hsh, Hok. unfold shows_leg, shows_phase, is_float in *.
  destruct (reclaim_confirm_samples settings <=? _); split; split; cbn; unfold shows_leg, shows_phase, is_float;
    look; rewrite ?se_confirmed0, ?Hn; try done.
Qed.

(** The extremes of an event, confirmed or not, and what the specification does
    with them. *)
Lemma extended_cases ev e :
  the_event ev e →
  let ev' := extended_event (k_down e) (g_extreme (k_spx e)) (g_extreme (k_es e)) ev in
  ∃ spx es moved, extends_to ev ev' e spx es moved
    ∧ spec_follow settings s e = match n_confirmed (k_count e) with
        | Some _ => with_course spx es (restarted moved (k_count e)) e
        | None => with_course spx es (spec_count settings s (k_down e) spx es (restarted moved (k_count e))) e
        end.
Proof using Hs.
  intros He. pose proof He as [Hsh Hok]. cbv zeta. destruct (n_confirmed (k_count e)) as [u|] eqn:En.
  - exists (k_spx e), (k_es e), false.
    assert (E : extended_event (k_down e) (g_extreme (k_spx e)) (g_extreme (k_es e)) ev = ev).
    { unfold extended_event, extend. rewrite !(se_confirmed _ _ Hsh), En. cbn.
      by rewrite !andb_false_r, (se_confirmed _ _ Hsh), En, andb_false_r. }
    rewrite E. unfold spec_follow. rewrite En. split; [|by destruct e as [? ? ? ? ? ? ? ? []]].
    destruct (se_spx _ _ Hsh) as (_ & ? & ? & _), (se_es _ _ Hsh) as (_ & ? & ? & _).
    split; try done; [apply (se_streak _ _ Hsh)|split; apply Hok].
  - pose proof (extended_shows ev e He En) as Hext.
    unfold spec_follow. rewrite En. destruct (extended s _ (p_spx s) _) as [spx moved].
    destruct (extended s _ (p_es s) _) as [es moved']. exists spx, es, (moved || moved').
    split; [done|]. unfold restarted. by rewrite En.
Qed.

Lemma follow_shows ev e :
  the_event ev e → ∃ ev', follow_event settings s ev = Ok ev' ∧ the_event ev' (spec_follow settings s e).
Proof using Hs.
  intros He. pose proof He as [Hsh Hok]. destruct (se_spx _ _ Hsh) as (_ & Hx & _ & _), (se_es _ _ Hsh) as (_ & Hex & _ & _).
  unfold follow_event. rewrite (se_direction _ _ Hsh), is_down_direction. cbv zeta.
  rewrite (float_shows _ _ _ Hx), (float_shows _ _ _ Hex). cbn [mbind res_bind].
  change (extend s (if k_down e then fltb (p_es s) (g_extreme (k_es e)) else fgtb (p_es s) (g_extreme (k_es e))) _ _ _ _)
    with (extended_event (k_down e) (g_extreme (k_spx e)) (g_extreme (k_es e)) ev).
  destruct (extended_cases ev e He) as (spx & es & moved & Hext & ->). set (ev' := extended_event _ _ _ ev) in *.
  pose proof Hext as [Ha M1 M2 M3 M4 _ [G1 G2] [L1 L2]].
  rewrite (float_shows "anchor_spx" ev' (g_anchor spx)) by (rewrite Ha by not_in; rewrite G1; apply Hsh).
  rewrite (float_shows "anchor_es" ev' (g_anchor es)) by (rewrite Ha by not_in; rewrite G2; apply Hsh).
  rewrite (float_shows _ _ _ M1), (float_shows _ _ _ M3). cbn [mbind res_bind].
  rewrite (stamp_shows _ _ _ M2), (stamp_shows _ _ _ M4) by (apply L1 || apply L2). cbn [mbind res_bind default from_option id].
  rewrite !bps_positive by (apply L1 || apply L2). cbn [mbind res_bind].
  rewrite (stamp_shows "anchor_at" _ (k_anchor_at e)) by (look; rewrite ?Ha by not_in; apply Hsh || apply Hok).
  cbn [mbind res_bind]. set (x := recovered (k_down e) (p_spx s) spx). set (y := recovered (k_down e) (p_es s) es).
  pose proof (measured_shows ev ev' e spx es moved (secs (g_at spx) (k_anchor_at e)) x y He Hext) as Hev.
  set (ev5 := measured _ _ _ _ _ ev') in *.
  match goal with |- context [is_none (vget "reclaim_confirmed_at" ?d)] => change d with ev5 end.
  rewrite (se_confirmed _ _ (proj1 Hev)). cbn [k_count with_course n_confirmed restarted].
  destruct (n_confirmed (k_count e)) as [u|] eqn:En; cbn [v_opt_time is_none]; [by exists ev5|].
  destruct (count_shows ev5 _ (in_window settings s spx es) x y Hev) as (ev6 & E6 & H6); [done|].
  exists ev6. split; [exact E6|exact H6].
Qed.

Lemma track_shows w m :
  shows_work w m → ∃ w', track_event settings s w = Ok w' ∧ shows_work w' (spec_track settings s m).
Proof using Hs.
  intros H. pose proof H as [H1 H2 H3 H4 H5]. unfold track_event, spec_track.
  inversion H4 as [ev e He E1 E2|E1 E2]; [|by exists w].
  rewrite (relevant_shows ev (k_provider e)) by apply He. destruct (String.eqb _ _); [|by exists w].
  destruct (follow_shows ev e He) as (ev' & -> & He'). cbn. eexists. split; [done|].
  split; cbn; [done..|by constructor|done].
Qed.

(** ** Alerts *)

(** An alert of one phase of an event. *)
Definition announces (a : Alert) (ke : string * shock) : Prop :=
  al_kind a = ke.1 ∧ al_event_id a = k_id ke.2 ∧ al_provider a = k_provider ke.2
  ∧ al_dedup_group a = k_id ke.2 +:+ (if String.eqb ke.1 SHOCK_KIND then ":shock" else ":reclaim")
  ∧ (ke.1 = SHOCK_KIND → al_value a = move_bps (g_extreme (k_spx ke.2)) (g_anchor (k_spx ke.2))
                         ∧ al_threshold a = k_threshold ke.2).

Lemma shock_alert_shows ev e : the_event ev e → ∃ a, shock_alert ev = Ok a ∧ announces a (SHOCK_KIND, e).
Proof using.
  intros [Hsh Hok]. destruct (se_spx _ _ Hsh) as (_ & _ & _ & Hx), (se_es _ _ Hsh) as (_ & _ & _ & He).
  destruct (se_duration _ _ Hsh) as (d & Hd). unfold shock_alert, str_at_key.
  rewrite (vindex_some _ _ _ (se_direction _ _ Hsh)) by done. cbn [fmap res_fmap mbind res_bind].
  rewrite (float_shows _ _ _ Hx), (float_shows _ _ _ He). cbn [mbind res_bind].
  rewrite (vindex_some _ _ _ (se_id _ _ Hsh)) by done. cbn [fmap res_fmap mbind res_bind].
  rewrite (float_shows _ _ _ Hd), (float_shows _ _ _ (se_threshold _ _ Hsh)). cbn [mbind res_bind].
  eexists. split; [done|]. unfold announces. cbn. split_and!; try done.
  apply (provider_shows _ _ (se_provider _ _ Hsh)), Hok.
Qed.

Lemma reclaim_alert_shows ev e : the_event ev e → ∃ a, reclaim_alert ev = Ok a ∧ announces a (RECLAIM_KIND, e).
Proof using.
  intros [Hsh Hok]. destruct (se_spx_recovery _ _ Hsh) as (x & Hx), (se_es_recovery _ _ Hsh) as (y & Hy).
  destruct (se_fraction _ _ Hsh) as (d & Hd). unfold reclaim_alert, str_at_key.
  rewrite (vindex_some _ _ _ (se_direction _ _ Hsh)) by done. cbn [fmap res_fmap mbind res_bind].
  rewrite (float_shows _ _ _ Hx), (float_shows _ _ _ Hy). cbn [mbind res_bind].
  rewrite (vindex_some _ _ _ (se_id _ _ Hsh)) by done. cbn [fmap res_fmap mbind res_bind].
  rewrite (float_shows _ _ _ Hd). cbn [mbind res_bind].
  eexists. split; [done|]. unfold announces. cbn. split_and!; try done.
  apply (provider_shows _ _ (se_provider _ _ Hsh)), Hok.
Qed.

Lemma due_shows_phase p kd kt ka ev f :
  shows_phase kd kt ka ev f → phase_ok f → kd = p +:+ "_delivered" → kt = p +:+ "_last_attempt_at" →
  pending_due ev p (p_at s) (retry_seconds settings) = Ok (due settings s f).
Proof using.
  intros (Hd & Ht & _) [Ho _] -> ->. unfold pending_due, due. rewrite Hd. destruct (f_done f); cbn; [done|].
  by rewrite (time_shows _ _ _ Ht Ho).
Qed.

Lemma truthy_opt_time o : truthy (v_opt_time o) = bool_decide (is_Some o).
Proof using. destruct o as [u|]; [exact (truthy_vtime u)|done]. Qed.

Lemma alerts_shows w m :
  shows_work w m → ∃ l, due_alerts settings s w = Ok l ∧ Forall2 announces l (spec_due settings s m).
Proof using.
  intros [H1 H2 H3 H4 H5]. unfold due_alerts, spec_due.
  inversion H4 as [ev e He E1 E2|E1 E2]; [|by exists []]. pose proof He as [Hsh Hok].
  rewrite (due_shows_phase "shock" _ _ _ _ _ (se_shock _ _ Hsh) (eo_shock _ Hok) eq_refl eq_refl). cbn [mbind res_bind].
  destruct (shock_alert_shows ev e He) as (a & Ea & Ha), (reclaim_alert_shows ev e He) as (b & Eb & Hb).
  rewrite (se_confirmed _ _ Hsh), truthy_opt_time.
  rewrite (due_shows_phase "reclaim" _ _ _ _ _ (se_reclaim _ _ Hsh) (eo_reclaim _ Hok) eq_refl eq_refl).
  destruct (due settings s (k_shock e)), (bool_decide _), (due settings s (k_reclaim e)); cbn [mbind res_bind andb];
    rewrite ?Ea, ?Eb; cbn [mbind res_bind app]; eexists; (split; [done|]);
    repeat (apply Forall2_cons_2; [done|]); apply Forall2_nil_2.
Qed.

(** ** The step *)

Lemma shows_value_option {A} (R : pydict → A → Prop) v a : shows_value R v a → option_Forall2 R (dict_of v) a.
Proof using. destruct a as [a|]; cbn; [intros (d & -> & H); by constructor|intros ->; constructor]. Qed.
Lemma option_shows_value {A} (R : pydict → A → Prop) o a : option_Forall2 R o a → shows_value R (v_opt_dict o) a.
Proof using. intros []; cbn; eauto. Qed.

Lemma stored_shows w m : shows_work w m → shows (stored_state s w) (spec_store s m).
Proof using Hs.
  intros [[H1 H1'] H2 H3 H4 H5]. unfold stored_state, spec_store. rewrite H2. split; cbn; look; [done..| | | |].
  - exists (sample_to_dict <$> (mo_samples m ++ [s])). split.
    + unfold vget. rewrite !dget_dset_ne, dget_dset_eq by done. f_equal. f_equal. by rewrite <- list_fmap_compose.
    + clear. induction (mo_samples m ++ [s]) as [|x l IH]; [constructor|]. constructor; [apply row_of_sample|done].
  - apply Forall_app. split; [done|]. by apply Forall_singleton.
  - by apply option_shows_value.
  - by apply option_shows_value.
Qed.

Lemma work_shows st m :
  settings_ok → shows st m →
  ∃ w, (w ← switch_provider settings s {| w_state := st; w_history := retained_history settings s (mo_samples m);
                           w_event := dict_of (vget "active_event" st); w_rearm := dict_of (vget "rearm" st) |};
        w ← complete_event settings s w; w ← expire_event settings s w; w ← rearm_step settings s w;
        w ← detect_shock settings s w; track_event settings s w) = Ok w
  ∧ shows_work w (spec_work settings s m).
Proof using Hs.
  intros Hset [H1 H2 _ H3 H4 H5]. unfold spec_work.
  set (w0 := {| w_state := st |}).
  assert (W0 : shows_work w0 (Monitor (mo_session m) (retained_history settings s (mo_samples m)) (mo_event m) (mo_rearm m))).
  { split; [by split|done|by apply forall_filter| |]; by apply shows_value_option. }
  destruct (switch_shows _ _ W0) as (w1 & -> & W1). cbn [mbind res_bind].
  destruct (complete_shows _ _ W1) as (w2 & -> & W2). cbn [mbind res_bind].
  destruct (shock_expire_shows _ _ W2) as (w3 & -> & W3). cbn [mbind res_bind].
  destruct (rearm_shows _ _ W3) as (w4 & -> & W4). cbn [mbind res_bind].
  destruct (detect_shows _ _ Hset W4) as (w5 & -> & W5). cbn [mbind res_bind].
  destruct (track_shows _ _ W5) as (w6 & -> & W6). by exists w6.
Qed.

Lemma advance_shows st m :
  settings_ok → shows st m →
  ∃ st' l, advance_monitor_state settings s st = Ok (st', l)
  ∧ shows st' (spec_advance settings s m).1 ∧ Forall2 announces l (spec_advance settings s m).2.
Proof using Hs.
  intros Hset H. unfold advance_monitor_state, spec_advance. rewrite (parsed_shows st m H). cbn [mbind res_bind].
  destruct (match list_basics.list.last (mo_samples m) with Some l => _ | None => false end); [by exists st, []|].
  destruct (work_shows st m Hset H) as (w & E & W). cbv zeta.
  destruct (switch_provider _ _ _) as [w1|]; [cbn [mbind res_bind] in *|discriminate E].
  destruct (complete_event _ _ w1) as [w2|]; [cbn [mbind res_bind] in *|discriminate E].
  destruct (expire_event _ _ w2) as [w3|]; [cbn [mbind res_bind] in *|discriminate E].
  destruct (rearm_step _ _ w3) as [w4|]; [cbn [mbind res_bind] in *|discriminate E].
  destruct (detect_shock _ _ w4) as [w5|]; [cbn [mbind res_bind] in *|discriminate E].
  rewrite E. cbn [mbind res_bind]. destruct (alerts_shows w _ W) as (l & -> & Hl). cbn.
  eexists _, l. split; [done|]. split; [by apply stored_shows|done].
Qed.

(** ** Delivery *)

Lemma phase_tried delivered at_ kd kt ka p ev f :
  instant_in_range at_ = true → kd = p +:+ "_delivered" → kt = p +:+ "_last_attempt_at" → ka = p +:+ "_delivered_at" →
  kd ≠ kt → kd ≠ ka → kt ≠ ka → shows_phase kd kt ka ev f → phase_ok f →
  shows_phase kd kt ka
    (let ev := dset (p +:+ "_last_attempt_at") (vtime at_) ev in
     if delivered : bool then dset (p +:+ "_delivered_at") (vtime at_) (dset (p +:+ "_delivered") (VBool true) ev) else ev)
    (tried delivered at_ f) ∧ phase_ok (tried delivered at_ f).
Proof using.
  intros Hat Ekd Ekt Eka N1 N2 N3 (H1 & H2 & H3) [O1 O2]. rewrite <- Ekd, <- Ekt, <- Eka.
  unfold shows_phase, phase_ok, tried. cbv zeta.
  destruct delivered; cbn; split_and!; try done;
    rewrite ?vget_dset_eq, ?vget_dset_ne by done; rewrite ?vget_dset_eq, ?vget_dset_ne by done;
    rewrite ?vget_dset_eq, ?vget_dset_ne by done; done.
Qed.

(** The keys of the two phases; the others stay. *)
Lemma mark_phase_shows delivered at_ ev e p e' :
  instant_in_range at_ = true → the_event ev e →
  p = "shock" ∧ e' = with_phases (tried delivered at_ (k_shock e)) (k_reclaim e) e
  ∨ p = "reclaim" ∧ e' = with_phases (k_shock e) (tried delivered at_ (k_reclaim e)) e →
  the_event (let ev := dset (p +:+ "_last_attempt_at") (vtime at_) ev in
     if delivered : bool then dset (p +:+ "_delivered_at") (vtime at_) (dset (p +:+ "_delivered") (VBool true) ev) else ev) e'.
Proof using.
  intros Hat [Hsh Hok] Hp.
  pose proof (phase_tried delivered at_ _ _ _ "shock" _ _ Hat eq_refl eq_refl eq_refl ltac:(done) ltac:(done) ltac:(done)
    (se_shock _ _ Hsh) (eo_shock _ Hok)) as [S1 S2].
  pose proof (phase_tried delivered at_ _ _ _ "reclaim" _ _ Hat eq_refl eq_refl eq_refl ltac:(done) ltac:(done) ltac:(done)
    (se_reclaim _ _ Hsh) (eo_reclaim _ Hok)) as [R1 R2].
  destruct Hsh, Hok. destruct Hp as [[-> ->]|[-> ->]]; (split; [|by split]);
    phase_keys; cbv zeta in *; split; cbn [k_shock k_reclaim with_phases]; first [exact S1|exact R1|idtac];
    destruct delivered; unfold shows_leg, shows_phase, is_float in *; cbn; look; done.
Qed.

Lemma mark_one_shows at_ delivered ev e a :
  instant_in_range at_ = true → the_event ev e →
  the_event (mark_attempt at_ delivered ev a) (spec_mark_one at_ delivered e a).
Proof using.
  intros Hat He. unfold mark_attempt, spec_mark_one. rewrite (se_id _ _ (proj1 He)). cbn [is_str].
  destruct (String.eqb _ _); cbn [negb]; [|done]. unfold alert_phase. destruct (String.eqb _ SHOCK_KIND).
  - apply (mark_phase_shows _ _ _ e); auto.
  - destruct (String.eqb _ RECLAIM_KIND); [|done]. apply (mark_phase_shows _ _ _ e); auto.
Qed.

Lemma marks_shows at_ delivered alerts : ∀ ev e,
  instant_in_range at_ = true → the_event ev e →
  the_event (fold_left (mark_attempt at_ delivered) alerts ev) (fold_left (spec_mark_one at_ delivered) alerts e).
Proof using.
  induction alerts as [|a alerts IH]; intros ev e Hat He; [done|]. cbn. apply IH; [done|]. by apply mark_one_shows.
Qed.

Lemma mark_shows st m alerts at_ delivered :
  instant_in_range at_ = true → shows st m →
  shows (mark_alert_attempts st alerts at_ delivered) (spec_mark m alerts at_ delivered).
Proof using.
  intros Hat [H1 H2 H3 H4 H5 H6]. unfold mark_alert_attempts, spec_mark.
  destruct (mo_event m) as [e|] eqn:Ee; cbn [fmap option_fmap option_map] in *.
  - destruct H5 as (ev & Ev & He). rewrite Ev. split; cbn; look; try done.
    + destruct H3 as (rows & E & Hr). exists rows. by rewrite dget_dset_ne by done.
    + eexists. split; [done|]. by apply marks_shows.
  - cbn in H5. rewrite H5. destruct m as [? ? ev ?]. cbn in *. subst ev. by split; cbn; rewrite ?H5.
Qed.

Lemma load_shows st m : shows st m → load_monitor_state (Json (VDict st)) (mo_session m) = Ok st.
Proof using. intros H. unfold load_monitor_state. rewrite (sh_session _ _ H), (sh_schema _ _ H). cbn. by rewrite String.eqb_refl. Qed.

Lemma empty_shows session : shows (empty_monitor_state session) (fresh_monitor session).
Proof using. split; cbn; try done. by exists []. Qed.

(** The other stages write their own keys only. *)
Lemma companions_shows st m others now :
  shows st m →
  shows (project_level_decision_machine (dset FLOW_STATE_KEY (VDict (flow_tape others)) st) (level_decision others) now) m.
Proof using.
  intros [H1 H2 H3 H4 H5 H6]. unfold project_level_decision_machine, FLOW_STATE_KEY. cbv zeta.
  set (d := VDict [_; _; _; _; _; _; _; _; _]). clearbody d.
  split; repeat first [rewrite vget_dset_ne by done|rewrite vget_dpop_ne by done]; try done.
  destruct H3 as (rows & E & Hr). exists rows. by rewrite dget_dset_ne, dget_dpop_ne, dget_dset_ne by done.
Qed.

(** What one observation does to the typed state: the step, and the marks of the
    alerts that are acknowledged already or about to be sent. *)
Lemma shock_observe_shows st m others notify acknowledged :
  settings_ok → shows st m →
  ∃ st' alerts due_ recovered sent,
    observe_sample settings (Json (VDict st)) (mo_session m) s others notify acknowledged = Ok (st', alerts)
  ∧ Forall2 announces due_ (spec_advance settings s m).2 ∧ alerts ⊆ due_ ++ divergence_alerts others
  ∧ shows st' (spec_mark (spec_mark (spec_advance settings s m).1 recovered (p_at s) true) sent (p_at s) false).
Proof using Hs.
  intros Hset H. unfold observe_sample. rewrite (load_shows st m H). cbn [mbind res_bind].
  destruct (advance_shows st m Hset H) as (st0 & due_ & -> & H0 & Hd). cbn [mbind res_bind].
  pose proof now_in_range as Hnow. set (m1 := (spec_advance settings s m).1) in *.
  pose proof (companions_shows st0 m1 others (p_at s) H0) as H1. cbv zeta.
  set (st1 := project_level_decision_machine _ _ _) in *. set (all := due_ ++ divergence_alerts others).
  assert (Hnil : ∀ m delivered, spec_mark m [] (p_at s) delivered = m) by (intros [? ? [] ?]; done).
  destruct (negb (bool_decide (length all = 0%nat)) && notify) eqn:Edue.
  - unfold reconcile_acknowledged_alerts. cbv zeta.
    set (recovered := filter (λ a, al_dedup_group a ∈ acknowledged) all).
    set (rest := filter (λ a, al_dedup_group a ∉ acknowledged) all).
    eexists _, _, due_, recovered, (if negb (bool_decide (length rest = 0%nat)) && notify then rest else []).
    split; [reflexivity|]. split; [done|]. split; [intros a Ha; by apply list_elem_of_filter in Ha as [_ Ha]|].
    assert (Hrec : shows (if bool_decide (recovered = []) then st1 else mark_alert_attempts st1 recovered (p_at s) true)
                         (spec_mark m1 recovered (p_at s) true)).
    { destruct (bool_decide (recovered = [])) eqn:E; [|by apply mark_shows].
      apply bool_decide_eq_true in E. by rewrite E, Hnil. }
    destruct (negb (bool_decide (length rest = 0%nat)) && notify); [by apply mark_shows|by rewrite Hnil].
  - rewrite Edue. eexists _, _, due_, [], []. split; [reflexivity|]. split; [done|]. split; [done|].
    by rewrite !Hnil.
Qed.

Lemma record_shows st m alerts acknowledged at_ st' :
  instant_in_range at_ = true → shows st m →
  record_delivery (Json (VDict st)) (mo_session m) alerts acknowledged at_ = Ok (Some st') →
  ∃ l, shows st' (spec_mark m l at_ true).
Proof using.
  intros Hat H. unfold record_delivery. cbv zeta. case_bool_decide; [done|]. rewrite (load_shows st m H). cbn. intros [= <-].
  eexists. apply (mark_shows st m); [exact Hat|exact H].
Qed.

End shows.

Section writers.
Context (settings : IntradayShockSettings).
Abbreviation shows := (shows settings).
Abbreviation the_event := (the_event settings).

(** The other writers of the file change keys that no typed state shows. *)
Lemma greek_mark_shows at_ ev e a : the_event ev e → the_event (greek_mark at_ ev a) e.
Proof.
  intros [Hsh Hok]. split; [|done]. unfold greek_mark. destruct (negb _); [done|]. destruct (alert_phase a) as [p|] eqn:Ep; [|done].
  assert (Hp : p = "shock" ∨ p = "reclaim") by (unfold alert_phase in Ep; repeat case_match; simplify_eq; auto).
  destruct Hsh, Hp as [-> | ->]; phase_keys; split; unfold shows_leg, shows_phase, is_float in *; look; done.
Qed.
Lemma greek_marks_shows at_ alerts ev e : the_event ev e → the_event (fold_left (greek_mark at_) alerts ev) e.
Proof. revert ev. induction alerts as [|a alerts IH]; intros ev He; [done|]. cbn. by apply IH, greek_mark_shows. Qed.

Lemma unseen_shows st m k v :
  k ∉ ["schema_version"; "session_date"; "samples"; "active_event"; "rearm"] → shows st m → shows (dset k v st) m.
Proof.
  intros Hk [H1 H2 (rows & E & Hr) H4 H5 H6]. split; rewrite ?vget_dset_ne by set_solver; try done.
  exists rows. by rewrite dget_dset_ne by set_solver.
Qed.
Lemma greek_shows st m alerts at_ : shows st m → shows (mark_event_greek_shadow_sampled st alerts at_) m.
Proof.
  intros H. unfold mark_event_greek_shadow_sampled. cbn [fold_left].
  assert (H' : shows (greek_mark_at alerts at_ st "active_event") m).
  { unfold greek_mark_at. destruct (vget "active_event" st) as [| | | | | |ev] eqn:Ev; try done. destruct H as [H1 H2 H3 H4 H5 H6].
    split; look; try done.
    - destruct H3 as (rows & E & Hr). exists rows. by rewrite dget_dset_ne by done.
    - rewrite Ev in H5. destruct (mo_event m) as [e|]; [|done]. destruct H5 as (? & [= <-] & He). eexists.
      split; [done|]. by apply greek_marks_shows. }
  unfold greek_mark_at at 1. destruct (vget "last_event" _); try done. apply unseen_shows; [set_solver|done].
Qed.
Lemma greek_samples_shows st m sampled at_ st' :
  shows st m → record_greek_samples (Json (VDict st)) (mo_session m) sampled at_ = Ok st' → shows st' m.
Proof.
  intros H. unfold record_greek_samples. rewrite (load_shows settings st m H). cbn. intros [= <-]. by apply greek_shows.
Qed.
Lemma overnight_shows st m gth at_ st' :
  shows st m → record_overnight (Json (VDict st)) (mo_session m) gth at_ = Ok st' → shows st' m.
Proof.
  intros H. unfold record_overnight. rewrite (load_shows settings st m H). cbn. intros [= <-].
  assert (shows (dset "gth_dip" (VDict gth) st) m) by (apply unseen_shows; [set_solver|done]).
  destruct at_; [|done]. apply unseen_shows; [set_solver|done].
Qed.
End writers.
