(* ===== verification/ShockProps.v ===== *)
(** * Properties of the shock monitor

    Runs of the monitor over one session: what a shock alert and a reclaim
    alert prove about the samples that were observed, and that no observation
    fails. *)

From stdpp Require Import base numbers strings list sets.
From Stdlib Require Import Ascii ZArith Lia.
From S2P Require Import Prelude PyStr PyFloat PyTime PyDateTime PyDict PyVal Marketdata ShockMonitor ShockSpec ShockFacts.

#[local] Open Scope Z_scope.

(** ** What an event stands for *)

Section evidence.
Context (settings : IntradayShockSettings) (session : string).

(** [o] recovers the given fractions of both legs, within the window. *)
Definition recovers (down : bool) (spx es : leg) (fraction es_fraction : float) (o : PriceSample) : bool :=
  in_window settings o spx es && fgeb (recovered down (p_spx o) spx) fraction
  && fgeb (recovered down (p_es o) es) es_fraction.

(** Both quotes of [o] are newer than those of [o']. *)
Definition newer (o o' : PriceSample) : Prop :=
  source_or_at o' (p_spx_source_at o') < source_or_at o (p_spx_source_at o)
  ∧ source_or_at o' (p_es_source_at o') < source_or_at o (p_es_source_at o).

(** Samples, the newest first, that recover without a break: the first one
    crosses the reclaim fractions, every later one is newer and holds. *)
Inductive recovering (down : bool) (spx es : leg) : list PriceSample → Prop :=
  | recovering_first o :
      recovers down spx es (reclaim_fraction settings) (es_reclaim_fraction settings) o = true →
      recovering down spx es [o]
  | recovering_next o o' obs :
      recovering down spx es (o' :: obs) → newer o o' →
      recovers down spx es (reclaim_hold_fraction settings) (es_reclaim_hold_fraction settings) o = true →
      recovering down spx es (o :: o' :: obs).

(** A shock move from [anchor] to [trigger]: samples of one provider within the
    window's seconds, SPX at least its threshold away, ES on the same side by the
    required share of the SPX move. *)
Record shock_move (down : bool) (window : Z * float) (anchor trigger : PriceSample) : Prop := {
  mv_provider : p_provider anchor = p_provider trigger;
  mv_later : fltb (f_of_Z 0) (secs (p_at trigger) (p_at anchor)) = true;
  mv_within : fleb (secs (p_at trigger) (p_at anchor)) (f_of_Z window.1) = true;
  mv_far : let move := move_bps (p_spx trigger) (p_spx anchor) in
           (if down then fleb move (fopp window.2) else fgeb move window.2) = true;
  mv_es_side : let move := move_bps (p_es trigger) (p_es anchor) in
               (if down then fltb move (f_of_Z 0) else fgtb move (f_of_Z 0)) = true;
  mv_es_share : fgeb (fabs (move_bps (p_es trigger) (p_es anchor)))
                     (fmul (fabs (move_bps (p_spx trigger) (p_spx anchor))) (es_confirm_ratio settings)) = true;
}.

Lemma confirmed_shock_move s a window c :
  sample_ok settings a → positive window.2 → eligible_anchor s window.1 a = true →
  confirmed_move settings s a window.2 c → shock_move (c_down c) window a s.
Proof using.
  intros Ha Ht Hel Hc. unfold confirmed_move, move_from in Hc.
  rewrite (bps_positive _ _ (so_spx _ _ Ha)), (bps_positive _ _ (so_es _ _ Ha)) in Hc. cbn [mbind res_bind] in Hc.
  unfold eligible_anchor in Hel. bool_to_prop.
  destruct (_ && (_ && _)) eqn:E in Hc; [|discriminate Hc]. bool_to_prop. split; [by apply String.eqb_eq|done..].
Qed.

(** The move that opened an event: from [anchor] to [trigger] in one of the
    windows; its extremes are the prices of [x] and [y]. *)
Record opened (e : shock) (anchor trigger x y : PriceSample) (window : Z * float) : Prop := {
  op_window : window ∈ shock_windows settings;
  op_move : shock_move (k_down e) window anchor trigger;
  op_threshold : k_threshold e = window.2;
  op_provider : k_provider e = p_provider trigger;
  op_id : k_id e = shock_event_id session (direction_str (k_down e)) (p_at anchor) (k_provider e);
  op_spx : k_spx e = Leg (p_spx anchor) (p_spx x) (p_at x);
  op_es : k_es e = Leg (p_es anchor) (p_es y) (p_at y);
}.
Definition course (l : list PriceSample) (e : shock) : Prop :=
  ∃ anchor trigger x y window, anchor ∈ l ∧ trigger ∈ l ∧ x ∈ l ∧ y ∈ l ∧ opened e anchor trigger x y window.

(** The streak of an event is made of observed samples. *)
Record counted_by (l : list PriceSample) (e : shock) (obs : list PriceSample) : Prop := {
  cb_sublist : obs `sublist_of` l;
  cb_streak : n_streak (k_count e) = Z.of_nat (length obs);
  cb_recovering : obs = [] ∨ recovering (k_down e) (k_spx e) (k_es e) obs;
  cb_provider : Forall (λ o, p_provider o = k_provider e) obs;
  cb_newest : ∀ o, head obs = Some o →
    n_spx (k_count e) = source_or_at o (p_spx_source_at o) ∧ n_es (k_count e) = source_or_at o (p_es_source_at o);
  cb_confirmed : is_Some (n_confirmed (k_count e)) → reclaim_confirm_samples settings ≤ Z.of_nat (length obs);
}.
(** The move is among the samples [known], the streak in the samples [l]. *)
Definition evidence (known l : list PriceSample) (e : shock) : Prop := course known e ∧ ∃ obs, counted_by l e obs.

(** The monitor knows nothing but observed samples. *)
Record informed (known l : list PriceSample) (m : monitor) : Prop := {
  in_session : mo_session m = session;
  in_samples : mo_samples m ⊆ known;
  in_ok : Forall (sample_ok settings) (mo_samples m);
  in_event : ∀ e, mo_event m = Some e → evidence known l e;
}.

Lemma course_mono l l' e : l ⊆ l' → course l e → course l' e.
Proof using. intros Hl (a & t & x & y & w & Ha & Ht & Hx & Hy & H). exists a, t, x, y, w. split_and!; auto. Qed.
Lemma evidence_cons s known l e : evidence known l e → evidence known (s :: l) e.
Proof using. intros [Hc (obs & [])]. split; [done|]. exists obs. split; auto. by apply sublist_cons. Qed.
Lemma informed_more s l m : informed l l m → informed (s :: l) l m.
Proof using.
  intros [H1 H2 H3 H4]. split; [done|set_solver|done|]. intros e Ee. destruct (H4 e Ee) as [Hc Ho].
  split; [apply (course_mono l); [set_solver|done]|done].
Qed.

Lemma recovering_cons down spx es s obs :
  recovers down spx es (reclaim_hold_fraction settings) (es_reclaim_hold_fraction settings) s = true →
  (∀ o, head obs = Some o → newer s o) → recovering down spx es obs → recovering down spx es (s :: obs).
Proof using. intros Hs Hn Hr. destruct Hr; constructor; try done; try (by apply Hn); by constructor. Qed.

(** One sample counted: the streak goes on, starts, or breaks. *)
Lemma count_evidence l s e spx es obs e' :
  p_provider s = k_provider e → counted_by l e obs → n_confirmed (k_count e) = None →
  k_spx e = spx → k_es e = es →
  e' = with_course spx es (spec_count settings s (k_down e) spx es (k_count e)) e →
  ∃ obs', counted_by (s :: l) e' obs'.
Proof using.
  intros Hp [H1 H2 H3 H4 H5 H6] Hn Ex Ee ->. unfold spec_count.
  destruct ((n_spx (k_count e) <? _) && _) eqn:Hfresh.
  2: { exists obs. split; cbn; rewrite ?Ex, ?Ee in *; try done; by apply sublist_cons. }
  bool_to_prop. unfold next_streak.
  set (r f g := in_window settings s spx es && fgeb (recovered (k_down e) (p_spx s) spx) f
                && fgeb (recovered (k_down e) (p_es s) es) g).
  change (_ && fgeb _ (reclaim_fraction settings) && _) with (r (reclaim_fraction settings) (es_reclaim_fraction settings)).
  change (_ && fgeb _ (reclaim_hold_fraction settings) && _) with (r (reclaim_hold_fraction settings) (es_reclaim_hold_fraction settings)).
  assert (Hnone : ∀ n, counted_by (s :: l) (with_course spx es (Count 0 (if reclaim_confirm_samples settings <=? 0 then Some (p_at s) else None) n.1 n.2) e) []).
  { intros n. split; cbn; try done; [apply sublist_nil_l|by left|]. destruct (Z.leb_spec (reclaim_confirm_samples settings) 0); [lia|].
    by intros []. }
  assert (Hsome : ∀ z, z = Z.of_nat (length (s :: obs)) → recovering (k_down e) spx es (s :: obs) →
    counted_by (s :: l) (with_course spx es (Count z (if reclaim_confirm_samples settings <=? z then Some (p_at s) else None)
      (source_or_at s (p_spx_source_at s)) (source_or_at s (p_es_source_at s))) e) (s :: obs)).
  { intros z Ez Hr. split; cbn -[length]; try done; [by apply sublist_skip|by right|by constructor|by intros o [= <-]|].
    rewrite <- Ez. destruct (Z.leb_spec (reclaim_confirm_samples settings) z); [lia|by intros []]. }
  destruct (Z.eqb_spec (n_streak (k_count e)) 0) as [E0|E0].
  - destruct (r (reclaim_fraction settings) _) eqn:Hr; [|eexists; by apply (Hnone (_, _))].
    assert (obs = []) as -> by (apply length_zero_iff_nil; lia). eexists. apply Hsome; [done|]. by constructor.
  - destruct (r (reclaim_hold_fraction settings) _) eqn:Hr; [|eexists; by apply (Hnone (_, _))].
    eexists. apply Hsome; [cbn [length]; lia|]. destruct H3 as [->|H3]; [by rewrite H2 in E0|].
    rewrite Ex, Ee in H3. apply recovering_cons; [done| |done]. intros o Ho. destruct (H5 o Ho) as [E1 E2].
    unfold newer. lia.
Qed.

(** Following a sample of its provider keeps the evidence of an event. *)
Lemma follow_evidence known l s e :
  s ∈ known → k_provider e = p_provider s → evidence known l e → evidence known (s :: l) (spec_follow settings s e).
Proof using.
  intros Hk Hp He. unfold spec_follow. destruct (n_confirmed (k_count e)) as [u|] eqn:En; [by apply evidence_cons|].
  destruct He as [(a & tr & x & y & w & Ha & Ht & Hx & Hy & Hop) (obs & Hc)].
  set (mx := beyond (k_down e) (p_spx s) (g_extreme (k_spx e))). set (my := beyond (k_down e) (p_es s) (g_extreme (k_es e))).
  set (x' := if mx then s else x). set (y' := if my then s else y).
  assert (Hspx : extended s (k_down e) (p_spx s) (k_spx e) = (Leg (p_spx a) (p_spx x') (p_at x'), mx)).
  { unfold extended. fold mx. subst x'. destruct mx; rewrite (op_spx _ _ _ _ _ _ Hop); done. }
  assert (Hes : extended s (k_down e) (p_es s) (k_es e) = (Leg (p_es a) (p_es y') (p_at y'), my)).
  { unfold extended. fold my. subst y'. destruct my; rewrite (op_es _ _ _ _ _ _ Hop); done. }
  rewrite Hspx, Hes. set (spx := Leg (p_spx a) _ _). set (es := Leg (p_es a) _ _). cbv zeta.
  set (n := Count _ None _ _). set (e0 := with_course spx es n e). split.
  - exists a, tr, x', y', w. assert (x' ∈ known) by (subst x'; by case_match).
    assert (y' ∈ known) by (subst y'; by case_match).
    split_and!; try done. destruct Hop. split; done.
  - apply (count_evidence l s e0 spx es (if mx || my then [] else obs)); try done.
    destruct Hc as [H1 H2 H3 H4 H5 H6]. subst e0 n. destruct (mx || my) eqn:Em.
    + split; cbn; first [done|apply sublist_nil_l|by left|by intros []|by apply Forall_nil_2].
    + apply orb_false_iff in Em as [Ex Ey].
      assert (spx = k_spx e) as -> by (subst spx x'; by rewrite Ex, (op_spx _ _ _ _ _ _ Hop)).
      assert (es = k_es e) as -> by (subst es y'; by rewrite Ey, (op_es _ _ _ _ _ _ Hop)).
      split; cbn; first [done|by intros []].
Qed.

(** ** Every step keeps it *)

Section stages.
Context (s : PriceSample) (Hs : sample_ok settings s) (Hset : settings_ok settings) (known l : list PriceSample)
        (Hk : s ∈ known).

Lemma informed_filter m P `{∀ x, Decision (P x)} r :
  informed known l m → informed known l (Monitor (mo_session m) (filter P (mo_samples m)) None r).
Proof using.
  intros [H1 H2 H3 H4]. split; cbn; [done| |by apply forall_filter|done].
  intros x [_ Hx]%list_elem_of_filter. by apply H2.
Qed.
Lemma informed_rearm m r : informed known l m → informed known l (Monitor (mo_session m) (mo_samples m) (mo_event m) r).
Proof using. intros []. by split. Qed.
Lemma informed_idle m r : informed known l m → informed known l (Monitor (mo_session m) (mo_samples m) None r).
Proof using. intros []. by split. Qed.

Lemma evidence_mismatch mm e : evidence known l e → evidence known l (with_mismatch mm e).
Proof using.
  intros [(a & t & x & y & w & Ha & Ht & Hx & Hy & []) (obs & [])].
  split; [exists a, t, x, y, w; split_and!; by try split|by exists obs].
Qed.

Lemma shock_from_evidence m c window :
  informed known l m → window ∈ shock_windows settings → candidate_from settings s (mo_samples m) c window →
  evidence known l (shock_from s (mo_session m) c).
Proof using Hs Hset Hk.
  intros [H1 H2 H3 _] Hw (Hin & Hel & Hc). rewrite Forall_forall in H3.
  assert (Ht : positive window.2).
  { destruct Hset. apply elem_of_cons in Hw as [->|Hw%list_elem_of_singleton]; [done|by subst]. }
  destruct (confirmed_move_facts settings s (c_anchor c) window.2 c (H3 _ Hin) Ht Hc) as (_ & E2 & _).
  split.
  - exists (c_anchor c), s, s, s, window. split_and!; [by apply H2|done..|]. split; try done; [|by rewrite <- H1].
    apply (confirmed_shock_move s (c_anchor c)); auto.
  - exists []. split; cbn; first [done|apply sublist_nil_l|by left|by intros []].
Qed.

Lemma retained_informed m :
  informed known l m →
  informed known l (Monitor (mo_session m) (retained_history settings s (mo_samples m)) (mo_event m) (mo_rearm m)).
Proof using.
  intros [H1 H2 H3 H4]. split; cbn; [done| |by apply forall_filter|done].
  intros x [_ Hx]%list_elem_of_filter. by apply H2.
Qed.

Lemma switch_informed m : informed known l m → informed known l (spec_switch settings s m).
Proof using.
  intros H. unfold spec_switch. destruct (mo_event m) as [e|] eqn:Ee.
  - destruct (missed _ _ _ _) as [mm []]; [by apply informed_filter|]. destruct H as [A1 A2 A3 A4]. split; cbn; try done.
    intros ? [= <-]. by apply evidence_mismatch, A4.
  - destruct (mo_rearm m); [|done]. destruct (missed _ _ _ _) as [mm []]; [by apply informed_filter|by apply informed_idle].
Qed.

Lemma complete_informed m : informed known l m → informed known l (spec_complete settings s m).
Proof using.
  intros H. unfold spec_complete. destruct (mo_event m ≫= _); [|done]. destruct (fgeb _ _); [by apply informed_filter|done].
Qed.

Lemma expire_informed m : informed known l m → informed known l (spec_expire settings s m).
Proof using.
  intros H. unfold spec_expire. destruct (mo_event m); [|done]. destruct (_ <? _); [by apply informed_idle|done].
Qed.

Lemma rearm_informed m : informed known l m → informed known l (spec_rearm settings s m).
Proof using.
  intros H. unfold spec_rearm. destruct (mo_event m); [done|]. destruct (mo_rearm m) as [r|]; [|done].
  destruct (String.eqb _ _); [|done]. destruct (fgeb _ _); [|by apply informed_idle].
  destruct (ra_neutral r); [|by apply informed_idle]. destruct (fgeb _ _); [by apply informed_filter|by apply informed_idle].
Qed.

Lemma detect_informed m : informed known l m → informed known l (spec_detect settings s m).
Proof using Hs Hset Hk.
  intros H. unfold spec_detect. destruct (mo_event m); [done|]. destruct (mo_rearm m); [done|].
  destruct (candidate_total settings s (mo_samples m) Hset (in_ok _ _ _ H)) as (o & -> & Ho).
  destruct o as [c|]; [|done]. destruct (Ho c eq_refl) as (window & Hw & Hc). pose proof H as [A1 A2 A3 _].
  split; cbn; try done. intros ? [= <-]. by apply (shock_from_evidence m c window).
Qed.

Lemma track_informed m : informed known l m → informed known (s :: l) (spec_track settings s m).
Proof using Hs Hset Hk.
  intros [A1 A2 A3 A4]. unfold spec_track. destruct (mo_event m) as [e|] eqn:Ee.
  - destruct (String.eqb_spec (k_provider e) (p_provider s)) as [Hp|_]; split; cbn; try done.
    + intros ? [= <-]. by apply follow_evidence; [| |apply A4].
    + intros ? E. apply evidence_cons, A4. congruence.
  - split; try done. intros ? E. congruence.
Qed.

Lemma work_informed m : informed known l m → informed known (s :: l) (spec_work settings s m).
Proof using Hs Hset Hk.
  intros H. by apply track_informed, detect_informed, rearm_informed, expire_informed, complete_informed, switch_informed,
    retained_informed.
Qed.
End stages.

Lemma mark_informed known l m alerts at_ delivered :
  informed known l m → informed known l (spec_mark m alerts at_ delivered).
Proof using.
  intros [H1 H2 H3 H4]. split; cbn; try done. intros e He. destruct (mo_event m) as [e0|]; [|discriminate He].
  cbn in He. injection He as <-. specialize (H4 e0 eq_refl). revert e0 H4.
  induction alerts as [|a alerts IH]; intros e0 H4; [done|]. cbn. apply IH. unfold spec_mark_one.
  destruct (negb _); [done|]. destruct H4 as [(x1 & x2 & x3 & x4 & w & ? & ? & ? & ? & []) (obs & [])].
  assert (Hph : ∀ f g, evidence known l (with_phases f g e0)).
  { intros f g. split; [exists x1, x2, x3, x4, w; split_and!; by try split|by exists obs]. }
  unfold alert_phase. destruct (String.eqb _ SHOCK_KIND); [apply Hph|]. destruct (String.eqb _ RECLAIM_KIND); [apply Hph|].
  split; [exists x1, x2, x3, x4, w; split_and!; by try split|by exists obs].
Qed.

Lemma advance_informed s l m :
  sample_ok settings s → settings_ok settings → informed l l m →
  informed (s :: l) (s :: l) (spec_advance settings s m).1
  ∧ ∀ k e, (k, e) ∈ (spec_advance settings s m).2 →
      evidence (s :: l) (s :: l) e ∧ (k = SHOCK_KIND ∨ k = RECLAIM_KIND ∧ is_Some (n_confirmed (k_count e))).
Proof using.
  intros Hs Hset H%(informed_more s). unfold spec_advance.
  destruct (match list_basics.list.last (mo_samples m) with Some x => _ | None => false end).
  - split; [|by intros k e []%not_elem_of_nil]. destruct H as [A1 A2 A3 A4]. split; try done. intros e Ee. by apply evidence_cons, A4.
  - pose proof (work_informed s Hs Hset (s :: l) l (list_elem_of_here _ _) m H) as [A1 A2 A3 A4].
    set (m' := spec_work settings s m) in *. cbv zeta. cbn [fst snd]. split.
    + split; cbn; [done| |apply Forall_app; split; [done|by apply Forall_singleton]|done].
      intros x [Hx|Hx%list_elem_of_singleton]%elem_of_app; [by apply A2|by subst; left].
    + intros k e. unfold spec_due. destruct (mo_event m') as [e0|]; [|by intros []%not_elem_of_nil].
      intros [Hin|Hin]%elem_of_app.
      * destruct (due _ _ (k_shock e0)); [|by apply not_elem_of_nil in Hin]. apply list_elem_of_singleton in Hin.
        injection Hin as -> ->. split; [by apply A4|by left].
      * destruct (bool_decide _) eqn:Eb; [|by apply not_elem_of_nil in Hin]. cbn in Hin.
        destruct (due _ _ (k_reclaim e0)); [|by apply not_elem_of_nil in Hin]. apply list_elem_of_singleton in Hin.
        injection Hin as -> ->. apply bool_decide_eq_true in Eb. split; [by apply A4|by right].
Qed.
End evidence.

(** ** Runs

    The state file of one session: what it was before the session's first writer
    can be decoded and holds nothing of the session; then any of its four writers,
    in any order.  The observed samples come newest first. *)
Inductive monitored (settings : IntradayShockSettings) (session : string) : list PriceSample → FileContent → Prop :=
  | monitor_starts c :
      load_monitor_state c session = Ok (empty_monitor_state session) → monitored settings session [] c
  | monitor_observes l c s others notify acknowledged st alerts :
      monitored settings session l c → sample_ok settings s →
      observe_sample settings c session s others notify acknowledged = Ok (st, alerts) →
      monitored settings session (s :: l) (Json (VDict st))
  | monitor_delivers l c alerts acknowledged at_ st :
      monitored settings session l c → instant_in_range at_ = true →
      record_delivery c session alerts acknowledged at_ = Ok (Some st) →
      monitored settings session l (Json (VDict st))
  | monitor_samples_greeks l c alerts at_ st :
      monitored settings session l c → record_greek_samples c session alerts at_ = Ok st →
      monitored settings session l (Json (VDict st))
  | monitor_overnight l c gth_state updated_at st :
      monitored settings session l c → record_overnight c session gth_state updated_at = Ok st →
      monitored settings session l (Json (VDict st)).

Section runs.
Context (settings : IntradayShockSettings) (Hset : settings_ok settings) (session : string).

(** The file of a run loads as a state that shows an informed monitor. *)
Definition shown (l : list PriceSample) (c : FileContent) (m : monitor) : Prop :=
  ∃ st, load_monitor_state c session = load_monitor_state (Json (VDict st)) session
        ∧ shows settings st m ∧ informed settings session l l m.

Lemma shown_written l st m : shows settings st m → informed settings session l l m → shown l (Json (VDict st)) m.
Proof using. by exists st. Qed.

Lemma monitored_shown l c : monitored settings session l c → ∃ m, shown l c m.
Proof using Hset.
  induction 1 as [c E|l c s others notify ack st alerts _ (m & st0 & E0 & H0 & I0) Hs E
                 |l c alerts ack at_ st _ (m & st0 & E0 & H0 & I0) Hat E
                 |l c alerts at_ st _ (m & st0 & E0 & H0 & I0) E|l c gth at_ st _ (m & st0 & E0 & H0 & I0) E];
    [|unfold observe_sample, record_delivery, record_greek_samples, record_overnight in E; rewrite E0 in E;
      rewrite <- (in_session _ _ _ _ _ I0) in E..].
  - exists (fresh_monitor session), (empty_monitor_state session). split.
    + rewrite E. symmetry. apply (load_shows settings _ (fresh_monitor session)), empty_shows.
    + split; [apply empty_shows|]. by split.
  - destruct (shock_observe_shows settings s Hs st0 m others notify ack Hset H0) as (st' & al & due_ & rec & sent & E' & _ & _ & H').
    unfold observe_sample in E'. rewrite E in E'. injection E' as <- <-. eexists. apply shown_written; [exact H'|].
    do 2 apply mark_informed. by apply advance_informed.
  - destruct (record_shows settings st0 m alerts ack at_ st Hat H0 E) as (al & H'). eexists.
    apply shown_written; [exact H'|]. by apply mark_informed.
  - exists m. apply shown_written; [|done]. by apply (greek_samples_shows settings st0 m alerts at_).
  - exists m. apply shown_written; [|done]. by apply (overnight_shows settings st0 m gth at_).
Qed.

(** The file of a run can be loaded. *)
Lemma monitored_loads l c : monitored settings session l c → ∃ st, load_monitor_state c session = Ok st.
Proof using Hset.
  intros (m & st & -> & H & I)%monitored_shown. exists st. rewrite <- (in_session _ _ _ _ _ I).
  by apply (load_shows settings).
Qed.

(** One more observation: it succeeds, and its price alerts announce events with
    evidence. *)
Lemma observation l c s others notify acknowledged :
  monitored settings session l c → sample_ok settings s →
  ∃ st alerts, observe_sample settings c session s others notify acknowledged = Ok (st, alerts)
  ∧ ∀ a, a ∈ alerts → a ∈ divergence_alerts others
      ∨ ∃ k e, announces a (k, e) ∧ evidence settings session (s :: l) (s :: l) e
        ∧ (k = SHOCK_KIND ∨ k = RECLAIM_KIND ∧ is_Some (n_confirmed (k_count e))).
Proof using Hset.
  intros H Hs. destruct (monitored_shown l c H) as (m & st0 & E0 & H0 & I0).
  destruct (shock_observe_shows settings s Hs st0 m others notify acknowledged Hset H0) as (st' & al & due_ & rec & sent & E & Hd & Hal & _).
  unfold observe_sample in E |- *. rewrite E0. rewrite (in_session _ _ _ _ _ I0) in E. rewrite E.
  exists st', al. split; [done|]. intros a Ha%Hal. apply elem_of_app in Ha as [Ha|Ha]; [right|by left].
  destruct (Forall2_elem_l _ _ _ a Hd Ha) as ([k e] & Hke & Hann).
  exists k, e. split; [done|].
  by apply (advance_informed settings session s l m Hs Hset I0).
Qed.
End runs.

(** The option-flow stage gives alerts of its own kinds. *)
Definition flow_kinds_only (others : Companions) : Prop :=
  ∀ a, a ∈ divergence_alerts others →
    al_kind a = NET_PREMIUM_BEARISH_DIVERGENCE_KIND ∨ al_kind a = NET_PREMIUM_BULLISH_DIVERGENCE_KIND.

(** ** The theorems *)

(** C40: The monitor never fails.  From any file that can be decoded and holds no
    state of the session, through every run of the writers of that file (the
    observations, the recorded deliveries, the Greek markers and the overnight
    monitor's own entries), the next observation returns normally, its result
    continues the run, and each of its alerts is a price alert of one of the two
    kinds or one that the option-flow stage gave; and the other three writers
    return normally too. *)
Theorem shock_monitor_total settings session l c s others notify acknowledged :
  settings_ok settings → monitored settings session l c → sample_ok settings s →
  ∃ st alerts, observe_sample settings c session s others notify acknowledged = Ok (st, alerts)
  ∧ monitored settings session (s :: l) (Json (VDict st))
  ∧ (∀ a, a ∈ alerts → al_kind a = SHOCK_KIND ∨ al_kind a = RECLAIM_KIND ∨ a ∈ divergence_alerts others)
  ∧ (∀ to_send ids at_, is_ok (record_delivery c session to_send ids at_))
  ∧ (∀ sampled at_, is_ok (record_greek_samples c session sampled at_))
  ∧ (∀ gth_state updated_at, is_ok (record_overnight c session gth_state updated_at)).
Proof.
  intros Hset H Hs. destruct (observation settings Hset session l c s others notify acknowledged H Hs) as (st & alerts & E & Ha).
  destruct (monitored_loads settings Hset session l c H) as (st0 & E0).
  exists st, alerts. split; [done|]. split; [by eapply monitor_observes|]. split.
  { intros a Hin. destruct (Ha a Hin) as [Hd|(k & e & (Hk & _) & _ & [->|[-> _]])]; auto. }
  unfold record_delivery, record_greek_samples, record_overnight. rewrite E0. cbn [mbind res_bind].
  split_and!; intros; cbv zeta; repeat case_match; by eexists.
Qed.

(** C25: A shock alert is a confirmed move.  Its event was opened by two observed
    samples of one provider: from the first to the second, within one of the two
    windows, SPX moved at least the window's threshold and ES the same way by the
    required share.  The alert names that move's direction and start, carries the
    threshold, and its value is the move of SPX from that start to an observed
    price. *)
Theorem shock_alerts_confirmed settings session l c s others notify acknowledged st alerts a :
  settings_ok settings → monitored settings session l c → sample_ok settings s → flow_kinds_only others →
  observe_sample settings c session s others notify acknowledged = Ok (st, alerts) →
  a ∈ alerts → al_kind a = SHOCK_KIND →
  ∃ down anchor trigger x window,
    anchor ∈ s :: l ∧ trigger ∈ s :: l ∧ x ∈ s :: l ∧ window ∈ shock_windows settings
    ∧ shock_move settings down window anchor trigger
    ∧ al_provider a = p_provider trigger ∧ al_threshold a = window.2
    ∧ al_event_id a = shock_event_id session (direction_str down) (p_at anchor) (p_provider trigger)
    ∧ al_value a = move_bps (p_spx x) (p_spx anchor).
Proof.
  intros Hset H Hs Ho E Ha Hk. destruct (observation settings Hset session l c s others notify acknowledged H Hs) as (st' & al & E' & Hal).
  rewrite E in E'. injection E' as <- <-.
  destruct (Hal a Ha) as [[Hd|Hd]%Ho|(k & e & (Ek & Eid & Ep & _ & Hv) & [(an & tr & x & y & w & Han & Htr & Hx & _ & Hop) _] & _)];
    [by rewrite Hk in Hd..|].
  cbn in *. rewrite Hk in Ek. destruct (Hv (eq_sym Ek)) as [Ev Et]. destruct Hop as [O1 O2 O3 O4 O5 O6 O7].
  exists (k_down e), an, tr, x, w. rewrite Ev, Et, Ep, Eid, O3, O5, O4, O6. by split_and!.
Qed.

(** C24: A reclaim alert is a held recovery.  Its event's extremes are prices that
    were observed, and at least the configured number of observed samples of the
    event's provider, every one with both quotes newer than the one before it,
    recovered within the window from those extremes: the first by the reclaim
    fractions, all later ones by the hold fractions. *)
Theorem reclaim_alerts_recovered settings session l c s others notify acknowledged st alerts a :
  settings_ok settings → monitored settings session l c → sample_ok settings s → flow_kinds_only others →
  observe_sample settings c session s others notify acknowledged = Ok (st, alerts) →
  a ∈ alerts → al_kind a = RECLAIM_KIND → 0 < reclaim_confirm_samples settings →
  ∃ down anchor x y obs,
    anchor ∈ s :: l ∧ x ∈ s :: l ∧ y ∈ s :: l ∧ obs `sublist_of` s :: l
    ∧ reclaim_confirm_samples settings ≤ Z.of_nat (length obs)
    ∧ Forall (λ o, p_provider o = al_provider a) obs
    ∧ al_event_id a = shock_event_id session (direction_str down) (p_at anchor) (al_provider a)
    ∧ recovering settings down (Leg (p_spx anchor) (p_spx x) (p_at x)) (Leg (p_es anchor) (p_es y) (p_at y)) obs.
Proof.
  intros Hset H Hs Ho E Ha Hk Hpos. destruct (observation settings Hset session l c s others notify acknowledged H Hs) as (st' & al & E' & Hal).
  rewrite E in E'. injection E' as <- <-.
  destruct (Hal a Ha) as [[Hd|Hd]%Ho|(k & e & (Ek & Eid & Ep & _) & [(an & tr & x & y & w & Han & Htr & Hx & Hy & Hop) (obs & Hc)] & Hkind)];
    [by rewrite Hk in Hd..|].
  cbn in *. destruct Hkind as [->|[-> Hconf]]; [by rewrite Hk in Ek|].
  destruct Hop as [_ _ _ _ O5 O6 O7], Hc as [C1 C2 C3 C4 _ C6]. specialize (C6 Hconf).
  exists (k_down e), an, x, y, obs. rewrite Ep, Eid. split_and!; try done. rewrite <- O6, <- O7.
  destruct C3 as [->|C3]; [cbn in C6; lia|done].
Qed.

(** ** A concrete session

    A fall of 58 basis points within 40 seconds, and two samples that recover
    more than 60 percent of it; prices in points, times in seconds after 15:10. *)
Definition session_day : string := "2026-03-03".
Definition tick (seconds spx es : Z) : PriceSample :=
  let u := combine (ymd2ord 2026 3 3) (time_hm 15 10) + seconds * SECOND in
  {| p_at := u; p_spx := f_of_Z spx; p_es := f_of_Z es; p_spx_source_at := Some u; p_es_source_at := Some u;
     p_provider := "schwab" |}.
(** Newest first. *)
Definition the_fall : list PriceSample := [tick 30 5970 6020; tick 10 5990 6040; tick 0 6000 6050].
Definition the_recovery : list PriceSample := tick 60 5987 6037 :: tick 40 5965 6015 :: the_fall.

Definition sample_ok_b (settings : IntradayShockSettings) (s : PriceSample) : bool :=
  let room u := instant_in_range u && instant_in_range (u + event_expiry_seconds settings * SECOND)
                && instant_in_range (u + reclaim_window_seconds settings * SECOND) in
  let opt o := match o with Some u => instant_in_range u | None => true end in
  room (p_at s) && opt (p_spx_source_at s) && opt (p_es_source_at s)
  && fltb (f_of_Z 0) (p_spx s) && fltb (f_of_Z 0) (p_es s)
  && negb (String.eqb (p_provider s) "") && negb (String.eqb (p_provider s) UNKNOWN_PROVIDER).

Lemma sample_ok_spec settings s : sample_ok_b settings s = true → sample_ok settings s.
Proof.
  unfold sample_ok_b. cbv zeta. intros H. bool_to_prop.
  repeat match goal with E : String.eqb _ _ = false |- _ => apply String.eqb_neq in E end.
  split; unfold roomy, known_provider; try done; [by destruct (p_spx_source_at s)|by destruct (p_es_source_at s)].
Qed.

(** An evaluation without option flow, far from every level. *)
Definition no_flow : Companions := {| flow_tape := []; divergence_alerts := []; level_decision := [] |}.
Lemma no_flow_kinds : flow_kinds_only no_flow.
Proof. intros a []%not_elem_of_nil. Qed.

(** What the overnight monitor leaves before the session opens. *)
Definition overnight_state : pydict := [("status", VStr "observing"); ("updated_at", VStr "2026-03-03T14:25:00+00:00")].

(** The file after the overnight monitor and the watching of [l] without
    notifying, the Greeks being sampled for the alerts of each observation. *)
Fixpoint watched (settings : IntradayShockSettings) (session : string) (l : list PriceSample) : option FileContent :=
  match l with
  | [] => match record_overnight NoFile session overnight_state (Some "2026-03-03T14:25:00+00:00") with
          | Ok st => Some (Json (VDict st))
          | Err _ => None
          end
  | s :: l =>
      if sample_ok_b settings s then
        c ← watched settings session l;
        match observe_sample settings c session s no_flow false [] with
        | Ok (st, alerts) => match record_greek_samples (Json (VDict st)) session alerts (p_at s) with
                             | Ok st => Some (Json (VDict st))
                             | Err _ => None
                             end
        | Err _ => None
        end
      else None
  end.

Lemma watched_monitored settings session l c :
  watched settings session l = Some c → monitored settings session l c.
Proof.
  revert c. induction l as [|s l IH]; intros c H; cbn [watched] in H.
  { injection H as <-. eapply (monitor_overnight _ _ _ NoFile overnight_state (Some "2026-03-03T14:25:00+00:00")); [by apply monitor_starts|reflexivity]. }
  destruct (sample_ok_b settings s) eqn:Es; [|discriminate H].
  destruct (watched settings session l) as [c0|]; [|discriminate H]. cbn [mbind option_bind] in H.
  destruct (observe_sample _ _ _ _ _ _) as [[st al]|] eqn:E; [|discriminate H].
  destruct (record_greek_samples _ _ _ _) as [st'|] eqn:E'; [|discriminate H]. injection H as <-.
  eapply monitor_samples_greeks; [|exact E']. eapply monitor_observes; [by apply IH|by apply sample_ok_spec|exact E].
Qed.

Lemma default_settings_ok : settings_ok default_shock_settings.
Proof. by split. Qed.

Lemma shock_monitor_total_witness :
  ∃ c st alerts, watched default_shock_settings session_day the_recovery = Some c
  ∧ observe_sample default_shock_settings c session_day (tick 80 5990 6040) no_flow true [] = Ok (st, alerts).
Proof.
  destruct (watched default_shock_settings session_day the_recovery) as [c|] eqn:Ec; [|vm_compute in Ec; discriminate Ec].
  destruct (shock_monitor_total default_shock_settings session_day the_recovery c (tick 80 5990 6040) no_flow true []) as (st & al & E & _).
  - apply default_settings_ok.
  - by apply watched_monitored.
  - apply sample_ok_spec. vm_compute. reflexivity.
  - exists c, st, al. split; [reflexivity|exact E].
Defined.

Lemma shock_alerts_confirmed_witness :
  ∃ down anchor trigger window, anchor ∈ the_fall ∧ trigger ∈ the_fall
    ∧ window ∈ shock_windows default_shock_settings ∧ shock_move default_shock_settings down window anchor trigger.
Proof.
  set (l := tail the_fall). set (s := tick 30 5970 6020).
  destruct (watched default_shock_settings session_day l) as [c|] eqn:Ec; [|vm_compute in Ec; discriminate Ec].
  destruct (observe_sample default_shock_settings c session_day s no_flow false []) as [[st alerts]|] eqn:E.
  2: { vm_compute in Ec. injection Ec as <-. vm_compute in E. discriminate E. }
  destruct (List.filter (λ a, String.eqb (al_kind a) SHOCK_KIND) alerts) as [|a rest] eqn:Ef.
  { vm_compute in Ec. injection Ec as <-. vm_compute in E. injection E as <- <-. vm_compute in Ef. discriminate Ef. }
  assert (Hin : In a (List.filter (λ a, String.eqb (al_kind a) SHOCK_KIND) alerts)) by (rewrite Ef; left; reflexivity).
  apply filter_In in Hin as [Hin Hk].
  destruct (shock_alerts_confirmed default_shock_settings session_day l c s no_flow false [] st alerts a)
    as (down & an & tr & x & w & Han & Htr & _ & Hw & Hmv & _).
  - apply default_settings_ok.
  - by apply watched_monitored.
  - apply sample_ok_spec. vm_compute. reflexivity.
  - apply no_flow_kinds.
  - exact E.
  - by apply list_elem_of_In.
  - by apply String.eqb_eq.
  - exists down, an, tr, w. split; [exact Han|]. split; [exact Htr|]. split; [exact Hw|exact Hmv].
Defined.

Lemma reclaim_alerts_recovered_witness :
  ∃ obs, obs `sublist_of` tick 80 5990 6040 :: the_recovery ∧ 2 ≤ Z.of_nat (length obs).
Proof.
  set (l := the_recovery). set (s := tick 80 5990 6040).
  destruct (watched default_shock_settings session_day l) as [c|] eqn:Ec; [|vm_compute in Ec; discriminate Ec].
  destruct (observe_sample default_shock_settings c session_day s no_flow false []) as [[st alerts]|] eqn:E.
  2: { vm_compute in Ec. injection Ec as <-. vm_compute in E. discriminate E. }
  destruct (List.filter (λ a, String.eqb (al_kind a) RECLAIM_KIND) alerts) as [|a rest] eqn:Ef.
  { vm_compute in Ec. injection Ec as <-. vm_compute in E. injection E as <- <-. vm_compute in Ef. discriminate Ef. }
  assert (Hin : In a (List.filter (λ a, String.eqb (al_kind a) RECLAIM_KIND) alerts)) by (rewrite Ef; left; reflexivity).
  apply filter_In in Hin as [Hin Hk].
  destruct (reclaim_alerts_recovered default_shock_settings session_day l c s no_flow false [] st alerts a)
    as (down & an & x & y & obs & _ & _ & _ & Hsub & Hlen & _).
  - apply default_settings_ok.
  - by apply watched_monitored.
  - apply sample_ok_spec. vm_compute. reflexivity.
  - apply no_flow_kinds.
  - exact E.
  - by apply list_elem_of_In.
  - by apply String.eqb_eq.
  - vm_compute. reflexivity.
  - exists obs. split; [exact Hsub|exact Hlen].
Defined.
