(* ===== verification/EsBars.v ===== *)
(** * Five-minute ES bars ([application/market_features/es_bar_state.py])

    The bar state is a JSON dict that one accepted observation of the ES future
    advances at a time: the open bar, the closed bars and a longer history of
    regular-hours bars for moving averages.  Instants are UTC microseconds. *)

From stdpp Require Import base list strings.
From Stdlib Require Import Ascii ZArith Lia.
From S2P Require Import Prelude PyStr PyFloat PyTime PyDateTime PyDict PyVal PyJson MarketCalendar.

#[local] Open Scope Z_scope.

Definition SCHEMA_VERSION : string := "es_5m_bar_state.v1".
Definition INTERVAL_SECONDS : Z := 300.
Definition MAX_CLOSED_BARS : nat := 432.
Definition MAX_RTH_MA_BARS : nat := 320.
Definition MIN_RTH_MA_SEED_BARS : nat := 206.
Definition MIN_OK_SAMPLES : Z := 20.
Definition MAX_OK_GAP_SECONDS : float := f_of_Z 30.
Definition MAX_EDGE_GAP_SECONDS : float := f_of_Z 30.
Definition FUTURE_TOLERANCE_SECONDS : Z := 5.
Definition SAMPLING : string := "fresh_live_es_source_timestamps_no_gap_fill".
Definition INTERVAL : Z := INTERVAL_SECONDS * SECOND.

(** ** Values of stored dicts *)

(** [_mapping]. *)
Definition mapping (v : pyval) : pydict := default [] (dict_of v).

(** [_number]. *)
Definition number (v : pyval) : option float :=
  match v with
  | VBool _ => None
  | _ => x ← num_of v; if f_is_nan x || f_is_inf x then None else Some x
  end.

(** [_parse_at]: a timestamp without an offset is no timestamp. *)
Definition parse_at (v : pyval) : res (option Z) :=
  match v with
  | VStr s =>
      if String.eqb s "" then Ok None
      else match fromisoformat (str_replace_chr "Z"%char "+00:00" s) with
           | Some d => match dt_instant d with
                       | None => Ok None
                       | Some _ => Some <$> aware_utc d
                       end
           | None => Ok None
           end
  | _ => Ok None
  end.

(** [l[-n:]] for a positive [n]. *)
Definition last_items {A} (n : nat) (l : list A) : list A := drop (length l - n) l.

Definition bar_start_of (row : pydict) : string := vstr_or "bar_start" "" row.

(** [sorted(rows, key=lambda row: str(row.get("bar_start") or ""))]. *)
Definition sort_rows : list pydict → list pydict := sort_by (λ a b, String.ltb (bar_start_of a) (bar_start_of b)).

Definition is_bar_row (row : pydict) : res bool :=
  start ← parse_at (vget "bar_start" row);
  match start with
  | None => Ok false
  | Some _ =>
      interval ← py_int (v_or (vget "interval_seconds" row) (VInt 0));
      Ok ((interval =? INTERVAL_SECONDS)
          && forallb (λ k, match number (vget k row) with Some _ => true | None => false end)
               ["open"; "high"; "low"; "close"])
  end.

(** [_bar_rows]. *)
Definition bar_rows (v : pyval) : res (list pydict) :=
  match v with
  | VList items => sort_rows <$> res_filter is_bar_row (omap dict_of items)
  | _ => Ok []
  end.

Definition in_rth (row : pydict) : bool := is_str "rth" (vget "segment" row).

(** [_rth_ma_rows]. *)
Definition rth_ma_rows (v : pyval) : res (list pydict) :=
  rows ← bar_rows v; Ok (filter (λ row, in_rth row = true) rows).

(** [_merge_bars]: by start time, a newer row in place of an older one. *)
Definition merge_bars (older newer : list pydict) : list pydict :=
  let by_start := fold_left (λ d row, if String.eqb (bar_start_of row) "" then d else dset (bar_start_of row) row d)
                    (older ++ newer) [] in
  (sort_items by_start).*2.

Definition COMPACT_FIELDS : list string :=
  ["bar_start"; "bar_end"; "interval_seconds"; "open"; "high"; "low"; "close"; "quality"; "gap_before"; "segment";
   "trading_date_et"; "contract_identity"; "contract_identity_ambiguous"; "ma_history_source"].

(** [_compact_rth_bar]. *)
Definition compact_rth_bar (row : pydict) : pydict := map (λ field, (field, vget field row)) COMPACT_FIELDS.

(** [_upsert_closed]. *)
Definition upsert_closed (rows : list pydict) (bar : pydict) : list pydict :=
  sort_rows (filter (λ row, bar_start_of row ≠ bar_start_of bar) rows ++ [bar]).

(** [_bucket_start]. *)
Definition bucket_start (u : Z) : res Z :=
  stamp ← f_trunc (total_seconds (u - EPOCH));
  let start := EPOCH + (stamp - stamp mod INTERVAL_SECONDS) * SECOND in
  if instant_in_range start then Ok start else Err OverflowError.

(** ** Quotes *)

(** [_es_quote]. *)
Definition es_quote (sample : pydict) : pydict :=
  match vget "instruments" sample with
  | VDict instruments => mapping (vget "future:ES" instruments)
  | _ => []
  end.

(** A string that is not empty. *)
Definition text_of (v : pyval) : option string :=
  match v with VStr s => if String.eqb s "" then None else Some s | _ => None end.

(** [_contract_identity]. *)
Definition contract_identity_of (quote : pydict) : option string := text_of (vget "contract_identity" quote).

(** [_provider_contract_identity_conflict]. *)
Definition provider_contract_identity_conflict (sample : pydict) : bool :=
  match vget "es_by_provider" sample with
  | VDict providers =>
      let identities := omap (λ kv, d ← dict_of kv.2; contract_identity_of d) providers in
      Nat.ltb 1 (length (dedup_keep_first [] identities))
  | _ => false
  end.

(** [_rejection_reason]. *)
Definition rejection_reason (source_at : option Z) (price : option float) (now : Z) (last_source_at : option Z)
    : res (option string) :=
  match source_at with
  | None => Ok (Some "es_source_timestamp_missing")
  | Some u =>
      match price with
      | Some x =>
          if fleb x (f_of_Z 0) then Ok (Some "es_price_missing_or_invalid")
          else
            limit ← dt_add now (FUTURE_TOLERANCE_SECONDS * SECOND);
            Ok (if limit <? u then Some "es_source_timestamp_future"
                else if match last_source_at with Some l => u <=? l | None => false end
                then Some "es_source_timestamp_duplicate_or_out_of_order" else None)
      | None => Ok (Some "es_price_missing_or_invalid")
      end
  end.

(** ** One bar *)

Section bars.
(** The New York wall clock of an instant, and the policy's session bounds. *)
Context (to_et : Z → Z).

(** The Eastern clock times at which the segments end. *)
Record SegmentPolicy := {
  asia_end_et : Z; europe_end_et : Z; premarket_end_et : Z; rth_end_et : Z; curb_end_et : Z;
}.
Context (policy : SegmentPolicy).

(** [session_segment] ([market.py]). *)
Definition session_segment (at_ : Z) : string :=
  let clock := wall_time (to_et at_) in
  if (time_hm 18 0 <=? clock) || (clock <? asia_end_et policy) then "asia"
  else if clock <? europe_end_et policy then "europe"
  else if clock <? premarket_end_et policy then "us_premarket"
  else if clock <? rth_end_et policy then "rth"
  else if clock <? curb_end_et policy then "curb" else "maintenance".

(** [_new_bar]. *)
Definition new_bar (bar_start source_at : Z) (price : float) (provider segment : string) (gap_before : bool)
    (contract_identity : option string) (contract_identity_ambiguous : bool) : res pydict :=
  bar_end ← dt_add bar_start INTERVAL;
  Ok [("bar_start", vtime bar_start); ("bar_end", vtime bar_end); ("interval_seconds", VInt INTERVAL_SECONDS);
      ("open", VFloat price); ("high", VFloat price); ("low", VFloat price); ("close", VFloat price);
      ("sample_count", VInt 1); ("first_source_at", vtime source_at); ("last_source_at", vtime source_at);
      ("max_sample_gap_seconds", VFloat (f_of_Z 0)); ("provider_counts", VDict [(provider, VInt 1)]);
      ("provider", VStr provider); ("contract_identity", v_opt_str contract_identity);
      ("contract_identity_ambiguous", VBool contract_identity_ambiguous); ("segment", VStr segment);
      ("trading_date_et", VStr (iso_date (wall_date (to_et source_at)))); ("gap_before", VBool gap_before);
      ("quality", VStr "open")].

(** [{str(key): int(value) for ... if isinstance(value, int | float)}]. *)
Definition counts_of (v : pyval) : res (list (string * Z)) :=
  res_mapM (λ kv, n ← py_int kv.2; Ok (kv.1, n))
    (filter (λ kv, match num_of kv.2 with Some _ => true | None => false end = true) (mapping v)).

(** [max(counts, key=counts.get)]. *)
Definition most_counted (counts : list (string * Z)) : string :=
  default "" (fst <$> max_by (λ a b, b.2 <? a.2) counts).

(** [_add_observation]. *)
Definition add_observation (current : pydict) (source_at : Z) (price : float) (provider : string)
    (contract_identity : option string) : res pydict :=
  last_source_at ← parse_at (vget "last_source_at" current);
  let gap := match last_source_at with
             | Some u => fmax (total_seconds (source_at - u)) (f_of_Z 0)
             | None => f_of_Z 0
             end in
  high ← vindex "high" current ≫= py_float;
  let result := dset "high" (VFloat (fmax high price)) current in
  low ← vindex "low" result ≫= py_float;
  let result := dset "close" (VFloat price) (dset "low" (VFloat (fmin low price)) result) in
  sample_count ← py_int (v_or (vget "sample_count" result) (VInt 0));
  let result := dset "last_source_at" (vtime source_at) (dset "sample_count" (VInt (sample_count + 1)) result) in
  max_gap ← py_float (v_or (vget "max_sample_gap_seconds" result) (VFloat (f_of_Z 0)));
  let result := dset "max_sample_gap_seconds" (VFloat (fmax max_gap gap)) result in
  counts ← counts_of (vget "provider_counts" result);
  let counts := dset provider (default 0 (dget provider counts) + 1) counts in
  let result := dset "provider" (VStr (most_counted counts))
                  (dset "provider_counts" (VDict (map (λ kn, (kn.1, VInt kn.2)) counts)) result) in
  let current_identity := text_of (vget "contract_identity" result) in
  let incoming := match contract_identity with Some s => text_of (VStr s) | None => None end in
  Ok (if is_true (vget "contract_identity_ambiguous" result) || negb (bool_decide (current_identity = incoming))
      then dset "contract_identity_ambiguous" (VBool true) (dset "contract_identity" VNone result)
      else result).

(** The seconds between two timestamps, if both are there. *)
Definition seconds_between (a b : option Z) : option float :=
  match a, b with Some u, Some v => Some (total_seconds (v - u)) | _, _ => None end.

Definition within_edge (gap : option float) : bool :=
  match gap with Some x => fleb (f_of_Z 0) x && fleb x MAX_EDGE_GAP_SECONDS | None => false end.

(** [_finalize_bar]. *)
Definition finalize_bar (current : pydict) : res pydict :=
  sample_count ← py_int (v_or (vget "sample_count" current) (VInt 0));
  let max_gap := number (vget "max_sample_gap_seconds" current) in
  start ← parse_at (vget "bar_start" current);
  end_ ← parse_at (vget "bar_end" current);
  first ← parse_at (vget "first_source_at" current);
  last ← parse_at (vget "last_source_at" current);
  let leading_gap := seconds_between start first in
  let trailing_gap := seconds_between last end_ in
  let ok := (MIN_OK_SAMPLES <=? sample_count)
            && match max_gap with Some g => fleb g MAX_OK_GAP_SECONDS | None => false end
            && negb (is_true (vget "contract_identity_ambiguous" current))
            && within_edge leading_gap && within_edge trailing_gap in
  Ok (dset "quality" (VStr (if ok then "ok" else "partial"))
        (dset "trailing_edge_gap_seconds" (v_opt_float trailing_gap)
           (dset "leading_edge_gap_seconds" (v_opt_float leading_gap) current))).

(** ** One sample *)

Definition empty_diagnostics : pydict :=
  [("last_rejection", VNone); ("closed_bar_count", VInt 0); ("rth_ma_bar_count", VInt 0);
   ("sampling", VStr SAMPLING); ("min_ok_samples", VInt MIN_OK_SAMPLES);
   ("max_ok_gap_seconds", VFloat MAX_OK_GAP_SECONDS); ("max_edge_gap_seconds", VFloat MAX_EDGE_GAP_SECONDS)].

Definition empty_bar_state : pydict :=
  [("schema_version", VStr SCHEMA_VERSION); ("interval_seconds", VInt INTERVAL_SECONDS); ("updated_at", VNone);
   ("last_source_at", VNone); ("last_provider", VNone); ("contract_identity", VNone); ("current_bar", VDict []);
   ("closed_bars", VList []); ("rth_ma_history", VList []); ("diagnostics", VDict empty_diagnostics)].

(** [_valid_state]. *)
Definition valid_state (previous : pydict) : pydict :=
  if is_str SCHEMA_VERSION (vget "schema_version" previous) then previous else empty_bar_state.

(** [_with_diagnostic]. *)
Definition with_diagnostic (state : pydict) (at_ : Z) (rejection : string) : res pydict :=
  closed ← bar_rows (vget "closed_bars" state);
  ma ← rth_ma_rows (vget "rth_ma_history" state);
  let diagnostics :=
    dset "rth_ma_bar_count" (VInt (Z.of_nat (length ma)))
      (dset "closed_bar_count" (VInt (Z.of_nat (length closed)))
         (dset "last_rejection_at" (vtime at_)
            (dset "last_rejection" (VStr rejection) (mapping (vget "diagnostics" state))))) in
  Ok (dset "diagnostics" (VDict diagnostics) state).

(** The contract of the future has changed: a fresh state that says so. *)
Definition contract_reset (at_ : Z) (from to_ : string) : pydict :=
  dset "diagnostics"
    (VDict (dmerge empty_diagnostics
              [("contract_reset_at", vtime at_); ("contract_reset_from", VStr from); ("contract_reset_to", VStr to_)]))
    empty_bar_state.

(** The open bar ends and another one begins. *)
Definition roll_bar (current : pydict) (closed ma : list pydict) (bar_start source_at : Z) (price : float)
    (provider segment : string) (contract_identity : option string) (ambiguous : bool)
    : res (pydict * list pydict * list pydict) :=
  '(gap_before, closed, ma) ←
    match current with
    | [] => Ok (false, closed, ma)
    | _ =>
        finalized ← finalize_bar current;
        let closed := upsert_closed closed finalized in
        let ma := if in_rth finalized then last_items MAX_RTH_MA_BARS (merge_bars ma [compact_rth_bar finalized])
                  else ma in
        previous_start ← parse_at (vget "bar_start" current);
        later ← (match previous_start with
                 | None => Ok true
                 | Some u => next ← dt_add u INTERVAL; Ok (next <? bar_start)
                 end : res bool);
        Ok (later || negb (is_str "ok" (vget "quality" finalized)), closed, ma)
    end;
  bar ← new_bar bar_start source_at price provider segment gap_before contract_identity ambiguous;
  Ok (bar, closed, ma).

(** One accepted observation. *)
Definition accept_observation (state : pydict) (at_ source_at : Z) (price : float) (provider : string)
    (contract_identity : option string) : res pydict :=
  let previous_contract_identity := vstr_or "contract_identity" "" state in
  let known := negb (String.eqb previous_contract_identity "") in
  let state := match contract_identity with
               | Some c => if known && negb (String.eqb c previous_contract_identity)
                           then contract_reset at_ previous_contract_identity c else state
               | None => state
               end in
  bar_start ← bucket_start source_at;
  let current := mapping (vget "current_bar" state) in
  closed ← bar_rows (vget "closed_bars" state);
  ma ← rth_ma_rows (vget "rth_ma_history" state);
  let ma := last_items MAX_RTH_MA_BARS
              (merge_bars ma (map compact_rth_bar (filter (λ row, in_rth row = true) closed))) in
  let segment := session_segment source_at in
  current_start ← (match current with [] => Ok None | _ => parse_at (vget "bar_start" current) end);
  '(current, closed, ma) ←
    (if bool_decide (current_start = Some bar_start)
     then current ← add_observation current source_at price provider contract_identity; Ok (current, closed, ma)
     else roll_bar current closed ma bar_start source_at price provider segment contract_identity
            (known && bool_decide (contract_identity = None)));
  let closed := last_items MAX_CLOSED_BARS closed in
  let diagnostics :=
    dmerge (mapping (vget "diagnostics" state))
      [("last_rejection", VNone); ("closed_bar_count", VInt (Z.of_nat (length closed)));
       ("rth_ma_bar_count", VInt (Z.of_nat (length ma))); ("sampling", VStr SAMPLING);
       ("min_ok_samples", VInt MIN_OK_SAMPLES); ("max_ok_gap_seconds", VFloat MAX_OK_GAP_SECONDS);
       ("max_edge_gap_seconds", VFloat MAX_EDGE_GAP_SECONDS)] in
  Ok [("schema_version", VStr SCHEMA_VERSION); ("interval_seconds", VInt INTERVAL_SECONDS);
      ("updated_at", vtime at_); ("last_source_at", vtime source_at); ("last_provider", VStr provider);
      ("contract_identity", match contract_identity with
                            | Some c => VStr c
                            | None => if known then VStr previous_contract_identity else VNone
                            end);
      ("current_bar", VDict current); ("closed_bars", VList (map VDict closed));
      ("rth_ma_history", VList (map VDict ma)); ("diagnostics", VDict diagnostics)].

(** What a sample observes of the future. *)
Record Observed := {
  ob_source_at : option Z;
  ob_price : option float;
  ob_provider : string;
  ob_identity : option string;
  ob_conflict : bool;
}.

Definition observe (sample : pydict) : res Observed :=
  let quote := es_quote sample in
  source_at ← (match quote with [] => Ok None | _ => parse_at (vget "source_at" quote) end);
  Ok {| ob_source_at := source_at;
        ob_price := match quote with [] => None | _ => number (vget "price" quote) end;
        ob_provider := match quote with [] => "unknown" | _ => vstr_or "provider" "unknown" quote end;
        ob_identity := contract_identity_of quote;
        ob_conflict := provider_contract_identity_conflict sample |}.

Definition advance_es_bar_state (previous sample : pydict) (at_ : Z) : res pydict :=
  let state := valid_state previous in
  o ← observe sample;
  rejection ←
    (if ob_conflict o && bool_decide (ob_identity o = None)
     then Ok (Some "es_contract_identity_provider_conflict")
     else last_source_at ← parse_at (vget "last_source_at" state);
          rejection_reason (ob_source_at o) (ob_price o) at_ last_source_at);
  match rejection, ob_source_at o, ob_price o with
  | Some reason, _, _ => with_diagnostic state at_ reason
  | None, Some source_at, Some price =>
      accept_observation state at_ source_at price (ob_provider o) (ob_identity o)
  | None, _, _ => Err AssertionError
  end.

Definition completed_es_bars (state : pydict) : res (list pydict) :=
  let valid := valid_state state in
  ma ← rth_ma_rows (vget "rth_ma_history" valid);
  closed ← bar_rows (vget "closed_bars" valid);
  Ok (merge_bars ma closed).

(** ** Warming the moving-average history *)

Context (calendar : MarketCalendar).

(** [_validated_seed_bar]. *)
Definition validated_seed_bar (contract_identity : string) (now : Z) (value : pydict) : res pydict :=
  let row := compact_rth_bar value in
  start ← parse_at (vget "bar_start" row);
  end_ ← parse_at (vget "bar_end" row);
  start ← (match start, end_ with
           | Some s, Some e => due ← dt_add s INTERVAL;
                               _ ← raise_unless ((e =? due) && (e <=? now)) ValueError; Ok s
           | _, _ => Err ValueError
           end : res Z);
  _ ← raise_unless (in_rth row && is_str "ok" (vget "quality" row)) ValueError;
  _ ← raise_unless (is_str contract_identity (vget "contract_identity" row)
                    && negb (is_true (vget "contract_identity_ambiguous" row))) ValueError;
  let local := to_et start in
  s ← session calendar (wall_date local);
  _ ← raise_unless (match s with Some s => (open_at s <=? local) && (local <? close_at s) | None => false end) ValueError;
  _ ← raise_unless (is_str (iso_date (wall_date local)) (vget "trading_date_et" row)) ValueError;
  match number (vget "open" row), number (vget "high" row), number (vget "low" row), number (vget "close" row) with
  | Some open, Some high, Some low, Some close =>
      _ ← raise_unless (negb (fleb low (f_of_Z 0) || fltb high (fmax open close) || fgtb low (fmin open close))) ValueError;
      Ok row
  | _, _, _, _ => Err ValueError
  end.

(** Two rows of the history follow each other: in one session, or across the
    boundary of two neighbouring ones. *)
Definition seed_follows (previous current : pydict) : res unit :=
  previous_start ← parse_at (vget "bar_start" previous);
  current_start ← parse_at (vget "bar_start" current);
  match previous_start, current_start with
  | Some p, Some c =>
      let previous_day := vstr_or "trading_date_et" "" previous in
      let current_day := vstr_or "trading_date_et" "" current in
      if String.eqb previous_day current_day then
        next ← dt_add p INTERVAL;
        raise_unless ((c =? next) && negb (is_true (vget "gap_before" current))) ValueError
      else
        match fromisoformat previous_day, fromisoformat current_day with
        | Some pd, Some cd =>
            let prior_date := wall_date (dt_wall pd) in
            let next_date := wall_date (dt_wall cd) in
            prior ← session calendar prior_date;
            following ← session calendar next_date;
            match prior, following with
            | Some prior, Some following =>
                _ ← raise_unless ((to_et p =? close_at prior - INTERVAL) && (to_et c =? open_at following)) ValueError;
                expected ← next_trading_day calendar prior_date;
                raise_unless (expected =? next_date) ValueError
            | _, _ => Err ValueError
            end
        | _, _ => Err ValueError
        end
  | _, _ => Err ValueError
  end.

(** [_validate_seed_continuity]. *)
Fixpoint validate_seed_continuity (rows : list pydict) : res unit :=
  match rows with
  | previous :: (current :: _) as rest =>
      _ ← seed_follows previous current; validate_seed_continuity rest
  | _ => Ok tt
  end.

(** The seed rows, each validated, no two of one start. *)
Fixpoint validated_seed (identity source : string) (now : Z) (starts : list string) (rows : list pydict)
    : res (list pydict) :=
  match rows with
  | [] => Ok []
  | raw :: rows =>
      row ← validated_seed_bar identity now raw;
      let row := dset "ma_history_source" (VStr source) row in
      let start := py_str (vget "bar_start" row) in
      _ ← raise_unless (negb (bool_decide (start ∈ starts))) ValueError;
      rest ← validated_seed identity source now (start :: starts) rows;
      Ok (row :: rest)
  end.

(** The rows of the stored history that are as good as a seed. *)
Fixpoint qualified_history (identity : string) (now : Z) (rows : list pydict) : res (list pydict) :=
  match rows with
  | [] => Ok []
  | value :: rows =>
      if negb (is_str identity (vget "contract_identity" value)) then qualified_history identity now rows
      else
        end_ ← parse_at (vget "bar_end" value);
        _ ← raise_unless (match end_ with Some e => e <=? now | None => true end) ValueError;
        if negb (is_str "ok" (vget "quality" value)) || is_true (vget "contract_identity_ambiguous" value)
        then qualified_history identity now rows
        else
          row ← validated_seed_bar identity now value;
          rest ← qualified_history identity now rows;
          Ok (row :: rest)
  end.

Definition seed_rth_ma_history (previous : pydict) (bars : list pydict) (contract_identity : string) (now : Z)
    (source : string) (promote_contract_identity : bool) : res pydict :=
  let identity := str_strip contract_identity in
  _ ← raise_unless (negb (String.eqb identity "")) ValueError;
  _ ← raise_unless (is_str SCHEMA_VERSION (vget "schema_version" previous)
                    && py_eq (vget "interval_seconds" previous) (VInt INTERVAL_SECONDS)) ValueError;
  _ ← raise_unless (match text_of (vget "contract_identity" previous) with
                    | Some active => String.eqb active identity | None => true end) ValueError;
  _ ← raise_unless (negb (bool_decide (length bars = 0%nat))) ValueError;
  validated ← validated_seed identity source now [] bars;
  let selected := last_items MAX_RTH_MA_BARS (sort_rows validated) in
  _ ← raise_unless (Nat.leb MIN_RTH_MA_SEED_BARS (length selected)) ValueError;
  _ ← validate_seed_continuity selected;
  stored ← rth_ma_rows (vget "rth_ma_history" previous);
  existing ← qualified_history identity now stored;
  let history := last_items MAX_RTH_MA_BARS (merge_bars selected existing) in
  _ ← raise_unless (Nat.leb MIN_RTH_MA_SEED_BARS (length history)) ValueError;
  _ ← validate_seed_continuity history;
  first ← of_option IndexError (head history);
  last ← of_option IndexError (list_basics.list.last history);
  first_start ← vindex "bar_start" first;
  last_end ← vindex "bar_end" last;
  let diagnostics :=
    dmerge (mapping (vget "diagnostics" previous))
      [("rth_ma_bar_count", VInt (Z.of_nat (length history))); ("rth_ma_seeded_at", vtime now);
       ("rth_ma_seed_source", VStr source); ("rth_ma_seed_contract_identity", VStr identity);
       ("rth_ma_seed_first_bar_start", first_start); ("rth_ma_seed_last_bar_end", last_end)] in
  Ok (dmerge previous
        [("contract_identity", if promote_contract_identity then VStr identity else vget "contract_identity" previous);
         ("rth_ma_history", VList (map VDict history)); ("diagnostics", VDict diagnostics)]).
End bars.
