(* ===== verification/EsBarSampler.v ===== *)
(** * The ES bar sampler and its consumers

    [application/runtime/es_bar_sampler.py] publishes the bar state and then a
    lease that reports the cycle; [application/market_features/es_bar_consumer.py]
    exposes the bars only when both files describe one fresh publication, and
    [es_bar_consumer_fence.py] takes the authority from what was computed without
    them.  A file is what a reader decodes; a write sorts the keys. *)

From stdpp Require Import base list strings.
From Stdlib Require Import Ascii ZArith Lia.
From S2P Require Import Prelude PyStr PyFloat PyTime PyDateTime PyDict PyVal PyJson StateIo MarketCalendar EsBars.

#[local] Open Scope Z_scope.

Definition DEFAULT_MAX_READY_AGE_SECONDS : float := f_of_Z 15.
Definition TASK_NAME : string := "es_bar_sampler".
Definition LEASE_SCHEMA_VERSION : string := "es_bar_sampler_lease.v2".
Definition TRANSIENT_REJECTIONS : list string :=
  ["es_source_timestamp_duplicate_or_out_of_order"; "es_source_timestamp_missing"].

Definition SAMPLE_TIMING_FIELDS : list string :=
  ["latest_state_load_ms"; "canonical_cycle_ms"; "canonical_write_performed"; "canonical_state_bytes"].

(** [_load_canonical_state]. *)
Definition load_canonical_state (content : FileContent) : res pydict :=
  match content with
  | NoFile => Ok []
  | Unreadable => Err RuntimeError
  | Undecodable => Err ValueError
  | Json (VDict payload) =>
      if bool_decide (length payload = 0%nat)
         || (is_str SCHEMA_VERSION (vget "schema_version" payload)
             && py_eq (vget "interval_seconds" payload) (VInt INTERVAL_SECONDS))
      then Ok payload else Err RuntimeError
  | Json _ => Err RuntimeError
  end.

(** ** One observation *)

(** The fields of the result that the loop reads. *)
Record Sampled := {
  sa_accepted : bool;
  sa_source_at : pyval;
  sa_rejection : pyval;
  sa_writer_instance_id : string;
  sa_timing : pydict;
}.

Section sampler.
Context (to_et : Z → Z) (policy : SegmentPolicy).

(** [sample_es_bar_once]: the state file it leaves, and its result. *)
Definition sample_es_bar_once (content : FileContent) (sample : pydict) (observed_at : Z)
    (instance_id : string) (pid : Z) (timing : pydict) : res (FileContent * Sampled) :=
  previous ← load_canonical_state content;
  state ← advance_es_bar_state to_et policy previous sample observed_at;
  let diagnostics := mapping (vget "diagnostics" state) in
  let source_at := vget "last_source_at" state in
  let accepted := truthy source_at && negb (py_eq source_at (vget "last_source_at" previous)) in
  let published :=
    dset "writer_instance_id" (VStr instance_id)
      (dset "diagnostics"
         (VDict (dset "writer_instance_id" (VStr instance_id)
                   (dset "writer_pid" (VInt pid) (dset "canonical_writer" (VStr TASK_NAME) diagnostics)))) state) in
  Ok (if accepted then written_json published else content,
      {| sa_accepted := accepted; sa_source_at := source_at; sa_rejection := vget "last_rejection" diagnostics;
         sa_writer_instance_id := instance_id; sa_timing := timing |}).

(** [run_es_bar_sample_cycle]. *)
Definition run_es_bar_sample_cycle (enabled : bool) (content : FileContent) (sample : pydict) (now : Z)
    (writer_instance_id : string) (pid : Z) (timing : pydict) : res (FileContent * Sampled) :=
  if negb enabled then
    Ok (content, {| sa_accepted := false; sa_source_at := VNone; sa_rejection := VStr "market_features_disabled";
                    sa_writer_instance_id := writer_instance_id; sa_timing := [] |})
  else sample_es_bar_once content sample now writer_instance_id pid timing.
End sampler.

(** ** The loop *)

Record SamplerLoop := {
  cycle_number : Z;
  consecutive_failures : Z;
  consecutive_data_failures : Z;
  last_accepted_at : option Z;
  last_accepted_source_at : option Z;
}.
Definition new_loop : SamplerLoop := {|
  cycle_number := 0; consecutive_failures := 0; consecutive_data_failures := 0;
  last_accepted_at := None; last_accepted_source_at := None |}.

Record LoopSettings := {
  interval_seconds : float;
  max_source_age_seconds : float;
  max_consecutive_failures : Z;
  max_cycles : option Z;
  loop_writer_instance_id : string;
}.

(** [_age_seconds]. *)
Definition age_seconds (now : Z) (then_ : option Z) : option float :=
  (λ u, total_seconds (now - u)) <$> then_.

(** [_fresh_age]. *)
Definition fresh_age (age : option float) (max_age tolerance : float) : bool :=
  match age with Some x => fleb (fopp tolerance) x && fleb x max_age | None => false end.
Definition TOLERANCE : float := f_of_Z FUTURE_TOLERANCE_SECONDS.

(** What one pass of the loop measured around the cycle, and how the cycle
    ended: an error text or its result. *)
Record CycleRun := {
  cr_started_at : Z;
  cr_finished_at : Z;
  cr_started_monotonic : float;
  cr_finished_monotonic : float;
  cr_outcome : string + Sampled;
}.

Section loop.
Context (settings : LoopSettings).

(** Whether the pass accepted an observation, of which time, and its rejection. *)
Definition judge_cycle (outcome : string + Sampled) : res (bool * option Z * option string) :=
  match outcome with
  | inl _ => Ok (false, None, Some "sampler_observation_not_accepted")
  | inr r =>
      source_at ← parse_at (sa_source_at r);
      let accepted := sa_accepted r && negb (bool_decide (source_at = None)) in
      let rejection := text_of (sa_rejection r) in
      let rejection := if sa_accepted r && bool_decide (source_at = None)
                       then Some "accepted_source_timestamp_missing" else rejection in
      let foreign := match text_of (VStr (sa_writer_instance_id r)) with
                     | Some w => negb (String.eqb w (loop_writer_instance_id settings))
                     | None => false
                     end in
      let rejection := if foreign then Some "writer_instance_mismatch" else rejection in
      let accepted := accepted && negb foreign in
      Ok (accepted, source_at,
          if negb accepted && bool_decide (rejection = None) then Some "sampler_observation_not_accepted" else rejection)
  end.

(** One pass: the state of the loop and the event that becomes the lease. *)
Definition finish_cycle (l : SamplerLoop) (run : CycleRun) : res (SamplerLoop * pydict) :=
  let cycle_number := cycle_number l + 1 in
  let error := match cr_outcome run with inl e => Some e | inr _ => None end in
  let finished_at := cr_finished_at run in
  let duration := fmax (fsub (cr_finished_monotonic run) (cr_started_monotonic run)) (f_of_Z 0) in
  let liveness_ok := bool_decide (error = None) in
  let consecutive_failures := if liveness_ok then 0 else consecutive_failures l + 1 in
  '(accepted, source_at, rejection) ← judge_cycle (cr_outcome run);
  let last_accepted_at := if accepted : bool then Some finished_at else last_accepted_at l in
  let last_accepted_source_at := if accepted then source_at else last_accepted_source_at l in
  let consecutive_data_failures := if accepted then 0 else consecutive_data_failures l + 1 in
  let last_accepted_age := age_seconds finished_at last_accepted_at in
  let last_source_age := age_seconds finished_at last_accepted_source_at in
  let max_age := max_source_age_seconds settings in
  let source_fresh := fresh_age last_source_age max_age TOLERANCE in
  let last_accept_fresh := fresh_age last_accepted_age max_age (f_of_Z 0) in
  let hard_rejection := match rejection with Some r => negb (bool_decide (r ∈ TRANSIENT_REJECTIONS)) | None => false end in
  let data_healthy := liveness_ok && source_fresh && last_accept_fresh && negb hard_rejection in
  let overrun := fmax (fsub duration (interval_seconds settings)) (f_of_Z 0) in
  let sla_ok := fleb overrun (f_of_Z 0) in
  let event :=
    [("schema_version", VStr LEASE_SCHEMA_VERSION); ("task", VStr TASK_NAME); ("event", VStr "cycle_finished");
     ("cycle", VInt cycle_number); ("ok", VBool (liveness_ok && data_healthy && sla_ok));
     ("liveness_ok", VBool liveness_ok); ("data_healthy", VBool data_healthy); ("sla_ok", VBool sla_ok);
     ("error", v_opt_str error); ("started_at", vtime (cr_started_at run)); ("finished_at", vtime finished_at);
     ("duration_ms", VFloat (fmul duration (f_of_Z 1000)));
     ("cycle_sla_ms", VFloat (fmul (interval_seconds settings) (f_of_Z 1000)));
     ("interval_seconds", VFloat (interval_seconds settings)); ("overrun_ms", VFloat (fmul overrun (f_of_Z 1000)));
     ("writer_instance_id", VStr (loop_writer_instance_id settings));
     ("writer_has_accepted", VBool (negb (bool_decide (last_accepted_source_at = None))));
     ("accepted", VBool accepted); ("source_at", v_opt_time source_at);
     ("source_age_seconds", v_opt_float (age_seconds finished_at source_at));
     ("last_accepted_at", v_opt_time last_accepted_at);
     ("last_accepted_source_at", v_opt_time last_accepted_source_at);
     ("last_accepted_age_seconds", v_opt_float last_accepted_age);
     ("last_accepted_source_age_seconds", v_opt_float last_source_age);
     ("max_source_age_seconds", VFloat max_age); ("rejection", v_opt_str rejection);
     ("consecutive_failures", VInt consecutive_failures); ("consecutive_data_failures", VInt consecutive_data_failures)] in
  let timing := match cr_outcome run with
                | inr r => filter (λ kv, is_none kv.2 = false) (map (λ field, (field, vget field (sa_timing r))) SAMPLE_TIMING_FIELDS)
                | inl _ => []
                end in
  Ok ({| cycle_number := cycle_number; consecutive_failures := consecutive_failures;
         consecutive_data_failures := consecutive_data_failures; last_accepted_at := last_accepted_at;
         last_accepted_source_at := last_accepted_source_at |},
      dmerge event timing).

(** The exit code, if the loop ends after this pass. *)
Definition exit_after (l : SamplerLoop) : option Z :=
  if max_consecutive_failures settings <=? consecutive_failures l then Some 1
  else match max_cycles settings with
       | Some n => if n <=? cycle_number l then Some 0 else None
       | None => None
       end.

(** The passes until the loop ends or is stopped: exit code and leases. *)
Fixpoint loop_passes (l : SamplerLoop) (runs : list CycleRun) : res (Z * list pydict) :=
  match runs with
  | [] => Ok (0, [])
  | run :: runs =>
      '(l, event) ← finish_cycle l run;
      match exit_after l with
      | Some code => Ok (code, [event])
      | None => '(code, events) ← loop_passes l runs; Ok (code, event :: events)
      end
  end.

Definition run_es_bar_sampler_loop (runs : list CycleRun) : res (Z * list pydict) :=
  _ ← raise_unless (negb (fleb (interval_seconds settings) (f_of_Z 0))
                    && negb (fleb (max_source_age_seconds settings) (f_of_Z 0))
                    && (0 <? max_consecutive_failures settings)
                    && match max_cycles settings with Some n => 0 <? n | None => true end
                    && negb (String.eqb (loop_writer_instance_id settings) "")) ValueError;
  loop_passes new_loop runs.
End loop.

(** [mark_sampler_starting]. *)
Definition mark_sampler_starting (writer_instance_id : string) (at_ : Z) : pydict :=
  [("schema_version", VStr LEASE_SCHEMA_VERSION); ("task", VStr TASK_NAME); ("event", VStr "starting");
   ("ok", VBool false); ("liveness_ok", VBool true); ("data_healthy", VBool false); ("sla_ok", VBool false);
   ("status", VStr "initializing"); ("started_at", vtime at_); ("finished_at", VNone);
   ("writer_instance_id", VStr writer_instance_id); ("writer_has_accepted", VBool false); ("accepted", VBool false);
   ("source_at", VNone); ("last_accepted_at", VNone); ("last_accepted_source_at", VNone);
   ("rejection", VStr "writer_initializing"); ("consecutive_failures", VInt 0); ("consecutive_data_failures", VInt 0)].

(** ** Readiness *)

Definition note (b : bool) (reason : string) : list string := if b then [reason] else [].
Definition is_none_opt {A} (o : option A) : bool := match o with Some _ => false | None => true end.

(** The reasons against a lease, and against the writers of lease and state. *)
Definition lease_reasons (lease : pydict) : list string :=
  note (negb (is_str LEASE_SCHEMA_VERSION (vget "schema_version" lease))) "lease_schema_invalid"
  ++ note (negb (is_str TASK_NAME (vget "task" lease) && is_str "cycle_finished" (vget "event" lease))) "lease_identity_invalid"
  ++ note (negb (is_true (vget "ok" lease))) "lease_not_healthy"
  ++ note (negb (is_true (vget "liveness_ok" lease))) "lease_liveness_failed"
  ++ note (negb (is_true (vget "data_healthy" lease))) "lease_data_not_healthy"
  ++ note (negb (is_true (vget "sla_ok" lease))) "lease_cycle_sla_failed"
  ++ note (negb (is_true (vget "writer_has_accepted" lease))) "writer_has_not_accepted".

Definition writer_reasons (lease state : pydict) : list string :=
  let lease_writer := text_of (vget "writer_instance_id" lease) in
  let state_writer := text_of (vget "writer_instance_id" state) in
  let diagnostics := mapping (vget "diagnostics" state) in
  note (is_none_opt lease_writer) "lease_writer_instance_missing"
  ++ note (is_none_opt state_writer) "state_writer_instance_missing"
  ++ note (match lease_writer, state_writer with Some w, Some w' => negb (String.eqb w w') | _, _ => false end)
       "writer_instance_mismatch"
  ++ note (negb (is_str TASK_NAME (vget "canonical_writer" diagnostics))) "canonical_writer_invalid"
  ++ note (negb (py_eq (vget "writer_instance_id" diagnostics) (v_opt_str state_writer))) "state_writer_fence_invalid".

Definition STALE_REASONS : list string :=
  ["lease_stale"; "last_accept_stale"; "accepted_source_stale"; "state_source_stale"].

(** A timestamp is there and fresh, or one of two reasons. *)
Definition time_reasons (time : option Z) (fresh : bool) (missing stale : string) : list string :=
  match time with None => [missing] | Some _ => note (negb fresh) stale end.

(** [evaluate_es_bar_consumer_readiness]. *)
Definition evaluate_es_bar_consumer_readiness (lease state : pydict) (now : Z) (max_age_seconds : float) : res pydict :=
  _ ← raise_unless (negb (f_is_nan max_age_seconds || f_is_inf max_age_seconds) && negb (fleb max_age_seconds (f_of_Z 0)))
        ValueError;
  finished_at ← parse_at (vget "finished_at" lease);
  last_accepted_at ← parse_at (vget "last_accepted_at" lease);
  accepted_source_at ← parse_at (vget "last_accepted_source_at" lease);
  state_source_at ← parse_at (vget "last_source_at" state);
  let fresh t := fresh_age (age_seconds now t) max_age_seconds TOLERANCE in
  let reasons :=
    lease_reasons lease
    ++ note (negb (is_str SCHEMA_VERSION (vget "schema_version" state)
                   && py_eq (vget "interval_seconds" state) (VInt INTERVAL_SECONDS))) "bar_state_schema_invalid"
    ++ writer_reasons lease state
    ++ time_reasons finished_at (fresh finished_at) "lease_finished_at_missing" "lease_stale"
    ++ time_reasons last_accepted_at (fresh last_accepted_at) "last_accepted_at_missing" "last_accept_stale"
    ++ time_reasons accepted_source_at (fresh accepted_source_at) "accepted_source_at_missing" "accepted_source_stale"
    ++ time_reasons state_source_at (fresh state_source_at) "state_source_at_missing" "state_source_stale"
    ++ note (is_none_opt accepted_source_at || negb (bool_decide (state_source_at = accepted_source_at)))
         "accepted_source_marker_mismatch" in
  let unique_reasons := dedup_keep_first [] reasons in
  let ready := bool_decide (unique_reasons = []) in
  let status := if ready then "ready"
                else if existsb (λ r, bool_decide (r ∈ STALE_REASONS)) unique_reasons then "stale" else "unavailable" in
  Ok [("schema_version", VStr "es_bar_consumer_readiness.v1"); ("lease_schema_version", vget "schema_version" lease);
      ("checked_at", vtime now); ("ready", VBool ready); ("status", VStr status);
      ("max_age_seconds", VFloat max_age_seconds); ("lease_ok", VBool (is_true (vget "ok" lease)));
      ("data_healthy", VBool (is_true (vget "data_healthy" lease))); ("sla_ok", VBool (is_true (vget "sla_ok" lease)));
      ("writer_instance_id", v_opt_str (text_of (vget "writer_instance_id" lease)));
      ("state_writer_instance_id", v_opt_str (text_of (vget "writer_instance_id" state)));
      ("lease_age_seconds", v_opt_float (age_seconds now finished_at));
      ("last_accepted_age_seconds", v_opt_float (age_seconds now last_accepted_at));
      ("accepted_source_age_seconds", v_opt_float (age_seconds now accepted_source_at));
      ("state_source_age_seconds", v_opt_float (age_seconds now state_source_at));
      ("last_accepted_source_at", v_opt_time accepted_source_at); ("state_source_at", v_opt_time state_source_at);
      ("reasons", VList (map VStr unique_reasons))].

(** The attempts of [load_consumable_es_bars]: what each one reads of the lease
    and then of the state. *)
Fixpoint read_attempts (attempt : Z) (reads : list (FileContent * FileContent)) (now : Z) (max_age_seconds : float)
    (last : pydict * pydict) : res (pydict * pydict) :=
  match reads with
  | [] => Ok last
  | (lease, state) :: reads =>
      lease ← read_json_object lease;
      state ← read_json_object state;
      readiness ← evaluate_es_bar_consumer_readiness lease state now max_age_seconds;
      let readiness := dset "publication_read_attempts" (VInt attempt) readiness in
      if is_true (vget "ready" readiness) then Ok (state, readiness)
      else read_attempts (attempt + 1) reads now max_age_seconds (state, readiness)
  end.

(** [load_consumable_es_bars]; [reads] are three. *)
Definition load_consumable_es_bars (reads : list (FileContent * FileContent)) (now : Z) (max_age_seconds : float)
    : res (list pydict * pydict) :=
  '(state, readiness) ← read_attempts 1 (take 3 reads) now max_age_seconds ([], []);
  ready ← vindex "ready" readiness;
  bars ← (if is_true ready then completed_es_bars state else Ok []);
  Ok (bars, readiness).


(** ** The fence ([es_bar_consumer_fence.py]) *)

Definition RTH_MARKET_STATE_FIELDS : list string :=
  ["price_vs_vwap"; "vwap_slope"; "opening_range_state"; "market_structure"; "efficiency_ratio"; "vwap_cross_count";
   "same_time_range_ratio"; "breadth_above_vwap"].
Definition RTH_ACTIONABLE_INTENT_STATUSES : list string := ["trade_ready"; "shadow_ready"].
Definition RTH_ES_BAR_AUTHORITY_BLOCK_REASON : string := "rth_es_bar_consumer_not_ready".

(** The items of [v or []]. *)
Definition items_of (v : pyval) : res (list pyval) :=
  match v with
  | VList l => Ok l
  | VDict d => Ok (map VStr d.*1)
  | VStr s => Ok (map (λ c, VStr (String c "")) (String.list_ascii_of_string s))
  | _ => if truthy v then Err TypeError else Ok []
  end.

Definition fence_rth_market_state_inputs (inputs es_bar_consumer : pydict) : pydict :=
  let diagnostics := dset "es_bar_consumer" (VDict es_bar_consumer) (mapping (vget "diagnostics" inputs)) in
  if is_true (vget "ready" es_bar_consumer) then dset "diagnostics" (VDict diagnostics) inputs
  else dmerge inputs
         [("status", VStr "unavailable"); ("available_count", VInt 0);
          ("required_count", VInt (Z.of_nat (length RTH_MARKET_STATE_FIELDS)));
          ("missing", VList (map VStr RTH_MARKET_STATE_FIELDS));
          ("values", VDict (map (λ field, (field, VNone)) RTH_MARKET_STATE_FIELDS)); ("diagnostics", VDict diagnostics)].

Definition fence_rth_market_state (rth_market_state es_bar_consumer : pydict) : res pydict :=
  if is_true (vget "ready" es_bar_consumer) then Ok rth_market_state
  else
    reasons ← items_of (v_or (vget "reasons" es_bar_consumer) (VList []));
    Ok (dmerge rth_market_state
          [("state", VStr "UNCERTAIN"); ("market_state", VStr "UNCERTAIN"); ("status", VStr "unavailable");
           ("classification_tier", VStr "unavailable");
           ("reasons", VList (VStr ("es_bar_consumer_" +:+ vstr_or "status" "unavailable" es_bar_consumer)
                              :: map (λ reason, VStr ("es_bar_consumer:" +:+ py_str reason)) reasons))]).

(** The texts among the items of a list, stripped. *)
Definition stripped_texts (items : list pyval) : list string :=
  omap (λ v, s ← str_of v; let s := str_strip s in if String.eqb s "" then None else Some s) items.

Definition actionable_status (v : pyval) : res bool :=
  match v with
  | VStr s => Ok (bool_decide (s ∈ RTH_ACTIONABLE_INTENT_STATUSES))
  | VList _ | VDict _ => Err TypeError
  | _ => Ok false
  end.

Definition fence_rth_trade_intent_authority (trade_intent es_bar_consumer : pydict) : res pydict :=
  actionable ← actionable_status (vget "status" trade_intent);
  if negb actionable || is_true (vget "ready" es_bar_consumer) then Ok trade_intent
  else
    existing ← items_of (v_or (vget "block_reasons" trade_intent) (VList []));
    consumer ← items_of (v_or (vget "reasons" es_bar_consumer) (VList []));
    let reasons :=
      stripped_texts existing
      ++ [RTH_ES_BAR_AUTHORITY_BLOCK_REASON; "es_bar_consumer_" +:+ vstr_or "status" "unavailable" es_bar_consumer]
      ++ map (λ reason, "es_bar_consumer:" +:+ reason) (stripped_texts consumer) in
    Ok (dmerge trade_intent
          [("status", VStr "blocked"); ("execution_eligible", VBool false); ("quote_observation_eligible", VBool false);
           ("rth_trade_ready_authority", VBool false); ("es_bar_consumer", VDict es_bar_consumer);
           ("block_reasons", VList (map VStr (dedup_keep_first [] reasons)))]).
