(* ===== verification/EsBarSpec.v ===== *)
(** * Reference bars

    The five-minute bars of a list of accepted observations, by grouping: no
    JSON, no incremental state.  Observations and bars come newest first. *)

From stdpp Require Import base list strings.
From Stdlib Require Import ZArith Lia.
From S2P Require Import Prelude PyFloat PyTime PyDateTime PyDict PyVal PyJson EsBars.

#[local] Open Scope Z_scope.

Record obs := Obs { x_at : Z; x_price : float; x_provider : string; x_identity : option string }.

(** The start of the five minutes that an instant belongs to. *)
Definition bucket (u : Z) : Z := u - (u - EPOCH) mod INTERVAL.

(** ** Aggregates of the observations of one bar *)

Definition newest (l : list obs) : option obs := head l.
Definition oldest (l : list obs) : option obs := list_basics.list.last l.

Fixpoint highest (l : list obs) : float :=
  match l with
  | [] => f_of_Z 0
  | [o] => x_price o
  | o :: l => fmax (highest l) (x_price o)
  end.
Fixpoint lowest (l : list obs) : float :=
  match l with
  | [] => f_of_Z 0
  | [o] => x_price o
  | o :: l => fmin (lowest l) (x_price o)
  end.
(** The longest time between two neighbouring observations. *)
Fixpoint longest_gap (l : list obs) : float :=
  match l with
  | o :: (o' :: _) as l => fmax (longest_gap l) (fmax (total_seconds (x_at o - x_at o')) (f_of_Z 0))
  | _ => f_of_Z 0
  end.
(** The observations of one provider. *)
Definition count_of (p : string) (l : list obs) : Z := Z.of_nat (length (filter (λ o, x_provider o = p) l)).

(** ** Bars *)

(** [b_gap]: there is no good bar right before it.  [b_unknown]: it begins with
    an observation of an unknown contract, where the contract was known before. *)
Record bar := Bar { b_obs : list obs; b_gap : bool; b_unknown : bool }.

Definition b_start (b : bar) : Z := match newest (b_obs b) with Some o => bucket (x_at o) | None => 0 end.
Definition b_first (b : bar) : obs := default (Obs 0 (f_of_Z 0) "" None) (oldest (b_obs b)).
Definition b_last (b : bar) : obs := default (Obs 0 (f_of_Z 0) "" None) (newest (b_obs b)).

(** The observations do not agree on one contract. *)
Definition ambiguous (b : bar) : bool :=
  b_unknown b || existsb (λ o, negb (bool_decide (x_identity o = x_identity (b_first b)))) (b_obs b).
Definition identity (b : bar) : option string := if ambiguous b then None else x_identity (b_first b).

Definition leading_gap (b : bar) : float := total_seconds (x_at (b_first b) - b_start b).
Definition trailing_gap (b : bar) : float := total_seconds (b_start b + INTERVAL - x_at (b_last b)).

(** Sampled densely from edge to edge, on one contract. *)
Definition good (b : bar) : bool :=
  (MIN_OK_SAMPLES <=? Z.of_nat (length (b_obs b))) && fleb (longest_gap (b_obs b)) MAX_OK_GAP_SECONDS
  && negb (ambiguous b) && within_edge (Some (leading_gap b)) && within_edge (Some (trailing_gap b)).

(** The contract of a history, and whether there is one. *)
Definition contract (h : list obs) : option string := head (omap x_identity h).
Definition known (h : list obs) : bool := negb (bool_decide (contract h = None)).

(** The bars of a history: its groups of one bucket each. *)
Fixpoint bars (h : list obs) : list bar :=
  match h with
  | [] => []
  | o :: h =>
      match bars h with
      | b :: older =>
          if bucket (x_at o) =? b_start b then Bar (o :: b_obs b) (b_gap b) (b_unknown b) :: older
          else Bar [o] ((b_start b + INTERVAL <? bucket (x_at o)) || negb (good b))
                 (known h && bool_decide (x_identity o = None)) :: b :: older
      | [] => [Bar [o] false (known h && bool_decide (x_identity o = None))]
      end
  end.

(** The bars that have ended, oldest first. *)
Definition closed_bars (h : list obs) : list bar := reverse (tail (bars h)).

(** ** Accepting observations *)

(** What a sample observed, if it is an observation of one contract. *)
Definition observation (q : Observed) : option obs :=
  match ob_source_at q, ob_price q with
  | Some u, Some x =>
      if ob_conflict q && bool_decide (ob_identity q = None) then None else Some (Obs u x (ob_provider q) (ob_identity q))
  | _, _ => None
  end.

(** A positive price, not of the future, newer than the history. *)
Definition acceptable (h : list obs) (now : Z) (o : obs) : bool :=
  negb (fleb (x_price o) (f_of_Z 0)) && (x_at o <=? now + FUTURE_TOLERANCE_SECONDS * SECOND)
  && match head h with Some l => x_at l <? x_at o | None => true end.

(** Another contract begins another history. *)
Definition extend (h : list obs) (o : obs) : list obs :=
  match x_identity o, contract h with
  | Some c, Some c' => if String.eqb c c' then o :: h else [o]
  | _, _ => o :: h
  end.

(** The history after a sample, and whether it took the sample. *)
Definition take_sample (h : list obs) (now : Z) (q : Observed) : list obs * bool :=
  match observation q with
  | Some o => if acceptable h now o then (extend h o, true) else (h, false)
  | None => (h, false)
  end.

Section segments.
Context (to_et : Z → Z) (policy : SegmentPolicy).

Definition b_segment (b : bar) : string := session_segment to_et policy (x_at (b_first b)).
Definition b_date (b : bar) : string := iso_date (wall_date (to_et (x_at (b_first b)))).
Definition rth_bar (b : bar) : bool := String.eqb (b_segment b) "rth".

(** The kept bars: the last closed ones, and the last ones of regular hours. *)
Definition kept_bars (h : list obs) : list bar := last_items MAX_CLOSED_BARS (closed_bars h).
Definition kept_rth_bars (h : list obs) : list bar :=
  last_items MAX_RTH_MA_BARS (filter (λ b, rth_bar b = true) (closed_bars h)).

(** ** What a stored row says of a bar *)

(** The fields that the moving averages need. *)
Record shows_compact (quality : string) (row : pydict) (b : bar) : Prop := {
  sc_start : vget "bar_start" row = vtime (b_start b);
  sc_end : vget "bar_end" row = vtime (b_start b + INTERVAL);
  sc_interval : vget "interval_seconds" row = VInt INTERVAL_SECONDS;
  sc_open : vget "open" row = VFloat (x_price (b_first b));
  sc_high : vget "high" row = VFloat (highest (b_obs b));
  sc_low : vget "low" row = VFloat (lowest (b_obs b));
  sc_close : vget "close" row = VFloat (x_price (b_last b));
  sc_quality : vget "quality" row = VStr quality;
  sc_gap : vget "gap_before" row = VBool (b_gap b);
  sc_segment : vget "segment" row = VStr (b_segment b);
  sc_date : vget "trading_date_et" row = VStr (b_date b);
  sc_identity : vget "contract_identity" row = v_opt_str (identity b);
  sc_ambiguous : vget "contract_identity_ambiguous" row = VBool (ambiguous b);
}.

(** The counts of the providers, and one of those with the highest. *)
Definition shows_providers (row : pydict) (l : list obs) : Prop :=
  ∃ d p, vget "provider_counts" row = VDict d ∧ vget "provider" row = VStr p
    ∧ NoDup d.*1 ∧ (∀ q, dget q d = if bool_decide (count_of q l = 0) then None else Some (VInt (count_of q l)))
    ∧ ∀ q, count_of q l ≤ count_of p l.

(** All the fields of the open bar. *)
Record shows_bar (quality : string) (row : pydict) (b : bar) : Prop := {
  sb_compact : shows_compact quality row b;
  sb_count : vget "sample_count" row = VInt (Z.of_nat (length (b_obs b)));
  sb_first : vget "first_source_at" row = vtime (x_at (b_first b));
  sb_last : vget "last_source_at" row = vtime (x_at (b_last b));
  sb_gap : vget "max_sample_gap_seconds" row = VFloat (longest_gap (b_obs b));
  sb_providers : shows_providers row (b_obs b);
}.

Definition quality_of (b : bar) : string := if good b then "ok" else "partial".

(** A closed bar. *)
Record shows_closed (row : pydict) (b : bar) : Prop := {
  sl_bar : shows_bar (quality_of b) row b;
  sl_leading : vget "leading_edge_gap_seconds" row = VFloat (leading_gap b);
  sl_trailing : vget "trailing_edge_gap_seconds" row = VFloat (trailing_gap b);
}.

(** A state file after the accepted observations [h] of one contract. *)
Record shows_state (st : pydict) (h : list obs) : Prop := {
  ss_schema : vget "schema_version" st = VStr SCHEMA_VERSION;
  ss_interval : vget "interval_seconds" st = VInt INTERVAL_SECONDS;
  ss_source : vget "last_source_at" st = v_opt_time (x_at <$> head h);
  ss_identity : vget "contract_identity" st = v_opt_str (contract h);
  ss_current : ∃ row, vget "current_bar" st = VDict row
      ∧ match bars h with [] => row = [] | b :: _ => shows_bar "open" row b end;
  ss_closed : ∃ rows, vget "closed_bars" st = VList (map VDict rows) ∧ Forall2 shows_closed rows (kept_bars h);
  ss_rth : ∃ rows, vget "rth_ma_history" st = VList (map VDict rows)
      ∧ Forall2 (λ row b, shows_compact (quality_of b) row b) rows (kept_rth_bars h);
}.
End segments.
