(* ===== verification/EsBarFacts.v ===== *)
(** * The bar state against the reference bars

    Kept lists, sorting and merging of rows; what a row that shows a bar reads
    back as; and that one sample takes a state that shows a history of
    observations to one that shows the history with the sample. *)

From Stdlib Require Import Ascii ZArith Lia.
From stdpp Require Import sorting numbers base list strings.
From S2P Require Import Prelude PyStr PyFloat PyTime PyDateTime PyDict PyVal PyJson MarketdataFacts EsBars EsBarSampler EsBarSpec.

#[local] Open Scope Z_scope.

(** ** Sorting by a key *)

Lemma str_ltb_total s t : String.ltb s t = false → String.ltb t s = false → s = t.
Proof.
  unfold String.ltb. rewrite (String.compare_antisym t s). intros H1 H2. apply String.compare_eq_iff.
  by destruct (String.compare s t).
Qed.
Lemma str_ltb_asym s t : String.ltb s t = true → String.ltb t s = false.
Proof.
  intros H. destruct (String.ltb t s) eqn:E; [|done].
  pose proof (str_ltb_trans s t s H E) as H'. by rewrite str_ltb_irrefl in H'.
Qed.
Lemma str_leb_trans s t u : String.ltb t s = false → String.ltb u t = false → String.ltb u s = false.
Proof.
  intros H1 H2. destruct (String.ltb u s) eqn:E; [|done]. destruct (String.ltb t u) eqn:E'.
  - by rewrite (str_ltb_trans t u s) in H1.
  - rewrite (str_ltb_total t u) in H1 by done. congruence.
Qed.

Section sorting.
Context {A : Type} (key : A → string).

(** In the order of the keys; strictly. *)
Definition key_le (a b : A) : Prop := String.ltb (key b) (key a) = false.
Definition key_lt (a b : A) : Prop := String.ltb (key a) (key b) = true.

Lemma sort_by_sorted l : StronglySorted key_le (sort_by (λ a b, String.ltb (key a) (key b)) l).
Proof using.
  assert (Transitive key_le) by (intros x y z; apply str_leb_trans).
  apply sort_by_sorts; [done|intros x y; apply str_ltb_asym|by intros x y].
Qed.

Lemma strict_weak l : StronglySorted key_lt l → StronglySorted key_le l.
Proof using.
  induction 1 as [|x l _ IH Hx]; constructor; [done|]. eapply Forall_impl; [exact Hx|]. intros y. apply str_ltb_asym.
Qed.

(** Sorting leaves a sorted list. *)
Lemma sort_by_id l : StronglySorted key_le l → sort_by (λ a b, String.ltb (key a) (key b)) l = l.
Proof using.
  induction 1 as [|x l Hl IH Hx]; [done|]. unfold sort_by in *. cbn [foldr]. rewrite IH.
  destruct l as [|y l]; [done|]. cbn. inversion_clear Hx as [|? ? Hy]. unfold key_le in Hy. by rewrite Hy.
Qed.

Lemma key_lt_NoDup l : StronglySorted key_lt l → NoDup (key <$> l).
Proof using.
  induction 1 as [|x l _ IH Hx]; cbn; constructor; [|done]. intros (y & E & Hy)%list_elem_of_fmap.
  rewrite Forall_forall in Hx. specialize (Hx y Hy). unfold key_lt in Hx. by rewrite E, str_ltb_irrefl in Hx.
Qed.

Lemma weak_strict l : StronglySorted key_le l → NoDup (key <$> l) → StronglySorted key_lt l.
Proof using.
  induction 1 as [|x l _ IH Hx]; cbn; [constructor|]. intros [Hn Hl]%NoDup_cons. constructor; [by apply IH|].
  rewrite Forall_forall in *. intros y Hy. specialize (Hx y Hy). unfold key_le, key_lt in *.
  destruct (String.ltb (key x) (key y)) eqn:E; [done|]. destruct Hn. rewrite (str_ltb_total (key x) (key y)) by done.
  by apply list_elem_of_fmap_2.
Qed.

Lemma key_lt_inj l x y : StronglySorted key_lt l → x ∈ l → y ∈ l → key x = key y → x = y.
Proof using.
  induction 1 as [|z l _ IH Hz]; [by intros []%not_elem_of_nil|]. rewrite Forall_forall in Hz.
  intros [->|Hx]%elem_of_cons [->|Hy]%elem_of_cons E; [done| | |by apply IH].
  - specialize (Hz y Hy). unfold key_lt in Hz. by rewrite E, str_ltb_irrefl in Hz.
  - specialize (Hz x Hx). unfold key_lt in Hz. by rewrite E, str_ltb_irrefl in Hz.
Qed.

(** A sorted list is determined by its elements. *)
Lemma sorted_unique l m :
  StronglySorted key_lt l → StronglySorted key_le m → NoDup m → (∀ x, x ∈ l ↔ x ∈ m) → m = l.
Proof using.
  intros Hl Hm Hn Hin. assert (Hp : m ≡ₚ l).
  { apply NoDup_Permutation; [done| |by intros x; rewrite Hin]. apply (NoDup_fmap_1 key). by apply key_lt_NoDup. }
  apply (StronglySorted_unique_strong key_le); [|done|by apply strict_weak|done].
  intros x y Hx Hy H1 H2. rewrite Hp in Hx. apply (key_lt_inj l); [done..|]. by apply str_ltb_total.
Qed.
End sorting.

(** ** The last items of a list *)

Lemma last_items_short {A} n (l : list A) : (length l ≤ n)%nat → last_items n l = l.
Proof. intros H. unfold last_items. by replace (length l - n)%nat with 0%nat by lia. Qed.

Lemma last_items_suffix {A} n (l : list A) : last_items n l `suffix_of` l.
Proof. apply suffix_drop. Qed.

Lemma last_items_elem {A} n (l : list A) x : x ∈ last_items n l → x ∈ l.
Proof. intros H. destruct (last_items_suffix n l) as [k E]. rewrite E. apply elem_of_app. by right. Qed.

Lemma length_last_items {A} n (l : list A) : length (last_items n l) = Nat.min n (length l).
Proof. unfold last_items. rewrite length_drop. lia. Qed.

Lemma last_items_app {A} n (l r : list A) : last_items n (last_items n l ++ r) = last_items n (l ++ r).
Proof.
  destruct (decide (length l ≤ n)%nat) as [H|H]; [by rewrite (last_items_short n l)|].
  pose proof (length_last_items n l) as E. unfold last_items in *.
  rewrite length_app, E, Nat.min_l by lia. rewrite !drop_app, !length_drop, length_app.
  rewrite drop_drop. f_equal; f_equal; lia.
Qed.

Lemma last_items_idem {A} n (l : list A) : last_items n (last_items n l) = last_items n l.
Proof. apply last_items_short. rewrite length_last_items. lia. Qed.

(** A suffix that is long enough has the same last items. *)
Lemma last_items_of_suffix {A} n (l m : list A) :
  m `suffix_of` l → (Nat.min n (length l) ≤ length m)%nat → last_items n m = last_items n l.
Proof.
  intros [k ->] Hn. rewrite length_app in Hn. unfold last_items. rewrite length_app.
  destruct (decide (n ≤ length m)%nat).
  - rewrite drop_app_ge by lia. f_equal. lia.
  - assert (k = []) as -> by (destruct k; [done|cbn in Hn; lia]). done.
Qed.

Lemma suffix_filter {A} (P : A → Prop) `{∀ x, Decision (P x)} l m : l `suffix_of` m → filter P l `suffix_of` filter P m.
Proof. intros [k ->]. rewrite filter_app. by exists (filter P k). Qed.

Lemma Forall2_last_items {A B} (R : A → B → Prop) n l m : Forall2 R l m → Forall2 R (last_items n l) (last_items n m).
Proof. intros H. unfold last_items. rewrite (Forall2_length _ _ _ H). by apply Forall2_drop. Qed.

Lemma StronglySorted_drop {A} (R : A → A → Prop) n l : StronglySorted R l → StronglySorted R (drop n l).
Proof. intros H. rewrite <- (take_drop n l) in H. by apply StronglySorted_app_1_r in H. Qed.

Lemma StronglySorted_filter {A} (R : A → A → Prop) P `{∀ x, Decision (P x)} l :
  StronglySorted R l → StronglySorted R (filter P l).
Proof.
  induction 1 as [|x l _ IH Hx]; [constructor|]. rewrite filter_cons. case_decide; [|done]. constructor; [done|].
  rewrite Forall_forall in *. intros y [_ Hy]%list_elem_of_filter. auto.
Qed.

(** ** Merging *)

Section merging.
Notation by_start l := (fold_left (λ d row, if String.eqb (bar_start_of row) "" then d else dset (bar_start_of row) row d) l []).
Notation row_lt := (key_lt bar_start_of).

Lemma by_start_snoc l r :
  by_start (l ++ [r]) = if String.eqb (bar_start_of r) "" then by_start l else dset (bar_start_of r) r (by_start l).
Proof. by rewrite fold_left_app. Qed.

Lemma by_start_keys l : NoDup (by_start l).*1 ∧ Forall (λ kv, kv.1 = bar_start_of kv.2) (by_start l).
Proof.
  induction l as [|r l [IH1 IH2]] using rev_ind; [split; constructor|]. rewrite by_start_snoc.
  destruct (String.eqb _ _); [done|]. split; [by apply dset_NoDup|]. clear IH1. revert IH2. generalize (by_start l).
  intros d. induction 1 as [|[k v] d Hk Hd IH]; [by repeat constructor|]. unfold dset in *. cbn in *.
  destruct (String.eqb_spec (bar_start_of r) k) as [<-|]; by constructor.
Qed.

(** A key shows the last row that has it. *)
Lemma by_start_app l m k :
  dget k (by_start (l ++ m)) = match dget k (by_start m) with Some r => Some r | None => dget k (by_start l) end.
Proof.
  induction m as [|r m IH] using rev_ind; [by rewrite app_nil_r|]. rewrite app_assoc, !by_start_snoc.
  destruct (String.eqb _ _); [done|]. rewrite !dget_dset, IH. by destruct (String.eqb k _).
Qed.

Lemma by_start_dget l k r :
  StronglySorted row_lt l → Forall (λ r, bar_start_of r ≠ "") l →
  dget k (by_start l) = Some r ↔ r ∈ l ∧ bar_start_of r = k.
Proof.
  induction l as [|x l IH] using rev_ind; intros Hl Hn; [cbn; split; [done|by intros [[]%not_elem_of_nil _]]|].
  pose proof Hl as (Hx & Hl' & _)%StronglySorted_app. apply Forall_app in Hn as [Hn Hnx]. inversion_clear Hnx as [|? ? Hx0].
  rewrite by_start_snoc, (proj2 (String.eqb_neq _ _) Hx0), dget_dset, elem_of_app, list_elem_of_singleton.
  destruct (String.eqb_spec k (bar_start_of x)) as [->|Hk].
  - split; [intros [= <-]; by auto|]. intros [[Hr| ->] E]; [|done]. specialize (Hx r x Hr ltac:(by left)).
    unfold key_lt in Hx. by rewrite E, str_ltb_irrefl in Hx.
  - rewrite IH by done. naive_solver.
Qed.

Lemma merge_values older newer :
  let d := by_start (older ++ newer) in
  merge_bars older newer = sort_by (λ a b, String.ltb (bar_start_of a) (bar_start_of b)) d.*2
  ∧ NoDup (bar_start_of <$> d.*2) ∧ ∀ r, r ∈ d.*2 ↔ dget (bar_start_of r) d = Some r.
Proof.
  intros d. destruct (by_start_keys (older ++ newer)) as [Hd1 Hd2]. fold d in Hd1, Hd2.
  assert (E : d = map (λ r, (bar_start_of r, r)) d.*2).
  { clear Hd1. induction Hd2 as [|[k v] d' Hk _ IH]; [done|]. cbn in *. subst k. f_equal. exact IH. }
  split_and!.
  - unfold merge_bars. fold d. rewrite E at 1. unfold sort_items.
    rewrite <- (sort_by_map (λ a b, String.ltb (bar_start_of a) (bar_start_of b))) by done.
    rewrite <- list_fmap_compose. cbn. by rewrite list_fmap_id.
  - rewrite E in Hd1. rewrite <- list_fmap_compose in Hd1. exact Hd1.
  - intros r. split; [|intros H%dget_elem; apply list_elem_of_fmap; by exists (bar_start_of r, r)].
    intros ([k v] & -> & Hin)%list_elem_of_fmap. cbn. rewrite Forall_forall in Hd2. specialize (Hd2 _ Hin). cbn in Hd2. subst k.
    by apply NoDup_dget.
Qed.

(** Merging keeps the newer rows, and the older ones that they do not replace. *)
Lemma merge_elem older newer r :
  StronglySorted row_lt older → StronglySorted row_lt newer →
  Forall (λ r, bar_start_of r ≠ "") older → Forall (λ r, bar_start_of r ≠ "") newer →
  r ∈ merge_bars older newer ↔ r ∈ newer ∨ (r ∈ older ∧ bar_start_of r ∉ bar_start_of <$> newer).
Proof.
  intros Ho Hn No Nn. destruct (merge_values older newer) as (Em & _ & Hin). rewrite Em, sort_by_perm, Hin, by_start_app.
  pose proof (by_start_dget newer (bar_start_of r) r Hn Nn) as Hnew.
  destruct (dget (bar_start_of r) (by_start newer)) as [r'|] eqn:Er.
  - apply by_start_dget in Er as [Hin' Ek]; [|done..]. split; [intros [= ->]; by left|].
    intros [H|[_ Hno]]; [by apply Hnew|]. destruct Hno. rewrite <- Ek. by apply list_elem_of_fmap_2.
  - rewrite by_start_dget by done. split.
    + intros [H _]. right. split; [done|]. intros (r' & E' & Hin')%list_elem_of_fmap.
      assert (Some r' = None); [|done]. rewrite <- Er, E'. symmetry. by apply by_start_dget.
    + intros [H|[H _]]; [discriminate (proj2 Hnew (conj H eq_refl))|done].
Qed.

Lemma merge_sorted older newer : StronglySorted row_lt (merge_bars older newer).
Proof.
  destruct (merge_values older newer) as (Em & Hd & _). rewrite Em. apply weak_strict; [apply sort_by_sorted|].
  by rewrite sort_by_perm.
Qed.

(** Two sorted lists merge into the older rows that have not been replaced and
    the newer ones, if these come last. *)
Lemma merge_bars_eq older newer :
  StronglySorted row_lt older → StronglySorted row_lt newer →
  Forall (λ r, bar_start_of r ≠ "") older → Forall (λ r, bar_start_of r ≠ "") newer →
  let merged := filter (λ r, bar_start_of r ∉ bar_start_of <$> newer) older ++ newer in
  StronglySorted row_lt merged → merge_bars older newer = merged.
Proof.
  intros Ho Hn No Nn merged Hm. pose proof (merge_sorted older newer) as Hs.
  apply (sorted_unique bar_start_of); [done|by apply strict_weak|by apply (NoDup_fmap_1 bar_start_of), key_lt_NoDup|].
  intros r. rewrite merge_elem by done. subst merged. rewrite elem_of_app, list_elem_of_filter. naive_solver.
Qed.
End merging.

(** ** Buckets *)

(** The instants of the program's life: whole and fractional seconds since the
    epoch that a double holds. *)
Definition in_life (u : Z) : Prop := EPOCH ≤ u < EPOCH + 2 ^ 32 * SECOND.

Lemma epoch_value : EPOCH = 719163 * DAY.
Proof. by vm_compute. Qed.

Lemma in_life_range u k : in_life u → - INTERVAL ≤ k ≤ 2 * INTERVAL → instant_in_range (u + k) = true.
Proof.
  unfold in_life. rewrite epoch_value. change (2 ^ 32 * SECOND) with 4294967296000000. change INTERVAL with 300000000.
  change DAY with 86400000000. intros Hu Hk. unfold instant_in_range, date_in_range, wall_date.
  change MAXORD with 3652059. change DAY with 86400000000. apply andb_true_iff. rewrite !Z.leb_le.
  split; [apply Z.div_le_lower_bound|apply Z.lt_succ_r, Z.div_lt_upper_bound]; lia.
Qed.

Lemma bucket_bounds u : bucket u ≤ u < bucket u + INTERVAL.
Proof. unfold bucket. pose proof (Z.mod_pos_bound (u - EPOCH) INTERVAL ltac:(done)). lia. Qed.

(** A bucket starts a whole number of intervals after the epoch. *)
Lemma bucket_aligned u : bucket u = EPOCH + (u - EPOCH) / INTERVAL * INTERVAL.
Proof. unfold bucket. pose proof (Z.div_mod (u - EPOCH) INTERVAL ltac:(done)). lia. Qed.

Lemma bucket_le u v : u ≤ v → bucket u ≤ bucket v.
Proof.
  intros H. rewrite !bucket_aligned. pose proof (Z.div_le_mono (u - EPOCH) (v - EPOCH) INTERVAL ltac:(done)).
  change INTERVAL with 300000000 in *. lia.
Qed.
Lemma bucket_next u v : bucket u < bucket v → bucket u + INTERVAL ≤ bucket v.
Proof. rewrite !bucket_aligned. change INTERVAL with 300000000. lia. Qed.

Lemma bucket_in_life u : in_life u → EPOCH ≤ bucket u ≤ u.
Proof.
  intros [Hu _]. pose proof (bucket_bounds u). rewrite bucket_aligned in *.
  pose proof (Z.div_pos (u - EPOCH) INTERVAL ltac:(lia) ltac:(done)). change INTERVAL with 300000000 in *. lia.
Qed.

Lemma bucket_range u : in_life u → instant_in_range (bucket u) = true.
Proof.
  intros H. replace (bucket u) with (u + (bucket u - u)) by lia. pose proof (bucket_bounds u).
  apply in_life_range; [done|]. change INTERVAL with 300000000 in *. lia.
Qed.
Lemma bucket_end_range u : in_life u → instant_in_range (bucket u + INTERVAL) = true.
Proof.
  intros H. replace (bucket u + INTERVAL) with (u + (bucket u + INTERVAL - u)) by lia. pose proof (bucket_bounds u).
  apply in_life_range; [done|]. change INTERVAL with 300000000 in *. lia.
Qed.

Lemma bucket_whole u : bucket u mod SECOND = 0.
Proof.
  rewrite bucket_aligned, epoch_value.
  replace (719163 * DAY + (u - 719163 * DAY) / INTERVAL * INTERVAL)
    with ((719163 * (DAY / SECOND) + (u - 719163 * DAY) / INTERVAL * INTERVAL_SECONDS) * SECOND).
  - by apply Z.mod_mul.
  - change (DAY / SECOND) with 86400. change DAY with 86400000000. change INTERVAL with 300000000.
    change INTERVAL_SECONDS with 300. change SECOND with 1000000. ring.
Qed.

(** The program's start of an instant's interval is its bucket. *)
Lemma bucket_start_eq u : in_life u → bucket_start u = Ok (bucket u).
Proof.
  intros H. pose proof (bucket_range u H) as Hr. destruct H as [H1 H2]. unfold bucket_start.
  rewrite f_trunc_total_seconds by (change SECOND with 1000000 in *; lia). cbn [mbind res_bind]. cbv zeta.
  replace (EPOCH + ((u - EPOCH) / 1000000 - ((u - EPOCH) / 1000000) mod INTERVAL_SECONDS) * SECOND) with (bucket u).
  - by rewrite Hr.
  - rewrite bucket_aligned. change INTERVAL with (1000000 * INTERVAL_SECONDS). rewrite <- Z.div_div by done.
    pose proof (Z.div_mod ((u - EPOCH) / 1000000) INTERVAL_SECONDS ltac:(done)). change SECOND with 1000000. lia.
Qed.

(** ** The reference bars *)

Notation later := (λ o o', x_at o' < x_at o).

(** The first bar of a history holds its newest observation. *)
Lemma bars_head o h : ∃ b older, bars (o :: h) = b :: older ∧ newest (b_obs b) = Some o.
Proof. cbn. destruct (bars h) as [|b older]; [by do 2 eexists|]. destruct (_ =? _); by do 2 eexists. Qed.

Lemma bars_nil h : bars h = [] → h = [].
Proof. destruct h as [|o h]; [done|]. intros E. destruct (bars_head o h) as (b & older & E' & _). by rewrite E in E'. Qed.

(** Observations of one bucket, and some. *)
Definition one_bucket (b : bar) : Prop := b_obs b ≠ [] ∧ Forall (λ o, bucket (x_at o) = b_start b) (b_obs b).

Lemma b_start_cons o l g n : b_start (Bar (o :: l) g n) = bucket (x_at o).
Proof. done. Qed.

Lemma bars_one_bucket h : Forall one_bucket (bars h).
Proof.
  induction h as [|o h IH]; [constructor|]. cbn [bars].
  assert (Hnew : ∀ g n, one_bucket (Bar [o] g n)) by (intros; split; [done|by repeat constructor]).
  destruct (bars h) as [|b older]; [by repeat constructor|]. inversion_clear IH as [|? ? [Hb1 Hb2] Hold].
  destruct (Z.eqb_spec (bucket (x_at o)) (b_start b)) as [E|_]; [|by repeat constructor].
  constructor; [|done]. split; [done|]. rewrite b_start_cons. cbn [b_obs]. constructor; [done|]. by rewrite E.
Qed.

(** The bars partition the history, in order. *)
Lemma bars_concat h : concat (map b_obs (bars h)) = h.
Proof.
  induction h as [|o h IH]; [done|]. cbn [bars]. destruct (bars h) as [|b older]; [by rewrite <- IH|].
  rewrite <- IH. by destruct (_ =? _).
Qed.

Lemma bars_obs b o h : b ∈ bars h → o ∈ b_obs b → o ∈ h.
Proof.
  intros Hb Ho. rewrite <- (bars_concat h). apply list_elem_of_In, in_concat. exists (b_obs b).
  split; [|by apply list_elem_of_In]. apply in_map. by apply list_elem_of_In.
Qed.

(** The newest bar starts last. *)
Lemma bars_sorted h : StronglySorted later h → StronglySorted (λ b b', b_start b' < b_start b) (bars h).
Proof.
  induction 1 as [|o h _ IH Ho]; [constructor|]. cbn [bars]. pose proof (bars_one_bucket h) as Hone.
  destruct (bars h) as [|b older] eqn:E; [by repeat constructor|]. inversion IH as [|? ? IH' Hb]; subst.
  destruct (Z.eqb_spec (bucket (x_at o)) (b_start b)) as [Eo|Hne].
  - constructor; [done|]. rewrite b_start_cons, Eo. exact Hb.
  - assert (Hlt : b_start b < bucket (x_at o)).
    { destruct h as [|o' h]; [by cbn in E|]. destruct (bars_head o' h) as (b' & l & E' & Hn). rewrite E in E'.
      injection E' as <- _. unfold b_start in *. rewrite Hn in *. inversion_clear Ho as [|? ? Ho' _].
      pose proof (bucket_le (x_at o') (x_at o)). lia. }
    constructor; [done|]. rewrite b_start_cons. constructor; [done|]. eapply Forall_impl; [exact Hb|]. cbn. lia.
Qed.

(** A bar holds the observations of its bucket: none is lost, none is added. *)
Lemma bars_members h b :
  StronglySorted later h → b ∈ bars h → b_obs b = filter (λ o, bucket (x_at o) = b_start b) h.
Proof.
  intros Hh Hb. pose proof (bars_sorted h Hh) as Hs. pose proof (bars_one_bucket h) as Ho.
  rewrite <- (bars_concat h) at 1. clear Hh. induction Hs as [|c cs _ IH Hc]; [by apply not_elem_of_nil in Hb|].
  inversion_clear Ho as [|? ? [_ Hn] Hcs]. cbn [map concat]. rewrite filter_app.
  assert (Hout : ∀ d, Forall (λ b', b_start b' ≠ b_start d) cs →
                   filter (λ o, bucket (x_at o) = b_start d) (concat (map b_obs cs)) = []).
  { intros d Hd. apply filter_none, Forall_concat, Forall_map. rewrite Forall_forall in *. intros b' Hb'.
    eapply Forall_impl; [apply (Hcs b' Hb')|]. cbn. intros o' ->. by apply Hd. }
  apply elem_of_cons in Hb as [->|Hb].
  - rewrite filter_all, Hout, app_nil_r; [done| |done]. eapply Forall_impl; [exact Hc|]. cbn. lia.
  - rewrite filter_none; [by apply IH|]. eapply Forall_impl; [exact Hn|]. cbn. intros o ->.
    rewrite Forall_forall in Hc. specialize (Hc b Hb). cbn in Hc. lia.
Qed.
