(* ===== verification/EsBarRows.v ===== *)
(** * Rows that show bars

    What the operations of [es_bar_state.py] do to a stored row that shows a
    reference bar: it reads back, takes an observation, is finalized and made
    compact, and lists of such rows are kept in order. *)

From Stdlib Require Import Ascii ZArith Lia.
From stdpp Require Import sorting numbers base list strings.
From S2P Require Import Prelude PyStr PyFloat PyTime PyDateTime PyDict PyVal PyJson StateIo MarketdataFacts EsBars EsBarSampler EsBarSpec EsBarFacts.

#[local] Open Scope Z_scope.

(** ** Values *)

Lemma parse_at_vtime u : instant_in_range u = true → parse_at (vtime u) = Ok (Some u).
Proof.
  intros Hu. unfold parse_at, vtime. rewrite (proj2 (String.eqb_neq _ _) (isoformat_not_empty u)), isoformat_no_Z.
  rewrite fromisoformat_isoformat by done. rewrite dt_instant_utc. by rewrite aware_utc_utc.
Qed.

Lemma number_float x : finite x = true → number (VFloat x) = Some x.
Proof. unfold finite. intros H%negb_true_iff. cbn. by rewrite H. Qed.

Lemma finite_total_seconds d : 0 ≤ d < 2 ^ 32 * 1000000 → finite (total_seconds d) = true.
Proof.
  intros [H1 H2]. pose proof (f_trunc_total_seconds d H1 H2) as E. by destruct (total_seconds d).
Qed.

Lemma finite_fmax x y : finite x = true → finite y = true → finite (fmax x y) = true.
Proof. intros. unfold fmax. by destruct (fgtb y x). Qed.
Lemma finite_fmin x y : finite x = true → finite y = true → finite (fmin x y) = true.
Proof. intros. unfold fmin. by destruct (fltb y x). Qed.

(** [x or 0.0] for a duration. *)
Definition duration (x : float) : Prop := x = f_of_Z 0 ∨ fltb (f_of_Z 0) x = true.

Lemma v_or_duration x : duration x → v_or (VFloat x) (VFloat (f_of_Z 0)) = VFloat x.
Proof.
  intros [->|H]; [done|]. unfold v_or. cbn [truthy]. destruct (f_is_zero x) eqn:E; [|done].
  by destruct x as [[]| | |].
Qed.

Lemma duration_fmax x y : duration x → duration (fmax x y).
Proof.
  intros Hx. unfold fmax, fgtb. destruct (fltb x y) eqn:E; [|done]. right.
  destruct Hx as [->|Hx]; [done|]. by apply (fltb_trans _ x).
Qed.

Lemma int_or_zero n : py_int (v_or (VInt n) (VInt 0)) = Ok n.
Proof. unfold v_or. cbn [truthy]. by destruct (Z.eqb_spec n 0) as [->|]. Qed.

(** ** Observations and bars *)

Record obs_ok (o : obs) : Prop := {
  oo_at : in_life (x_at o);
  oo_price : finite (x_price o) = true;
  oo_identity : x_identity o ≠ Some "";
}.

Record bar_ok (b : bar) : Prop := {
  bo_bucket : one_bucket b;
  bo_obs : Forall obs_ok (b_obs b);
  bo_sorted : StronglySorted later (b_obs b);
}.

Lemma b_first_elem b : b_obs b ≠ [] → b_first b ∈ b_obs b.
Proof.
  intros H. unfold b_first, oldest. destruct (list_basics.list.last (b_obs b)) as [o|] eqn:E.
  - apply last_Some in E as [l ->]. apply elem_of_app. right. by left.
  - by apply last_None in E.
Qed.
Lemma b_last_elem b : b_obs b ≠ [] → b_last b ∈ b_obs b.
Proof. unfold b_last, newest. destruct (b_obs b) as [|o l]; [done|]. intros _. by left. Qed.

Section bars.
Context (b : bar) (Hb : bar_ok b).

Lemma b_ok_elem o : o ∈ b_obs b → obs_ok o ∧ bucket (x_at o) = b_start b.
Proof using Hb.
  destruct Hb as [[_ H1] H2 _]. rewrite Forall_forall in *. auto.
Qed.
Lemma b_first_ok : obs_ok (b_first b) ∧ bucket (x_at (b_first b)) = b_start b.
Proof using Hb. apply b_ok_elem, b_first_elem. apply Hb. Qed.
Lemma b_last_ok : obs_ok (b_last b) ∧ bucket (x_at (b_last b)) = b_start b.
Proof using Hb. apply b_ok_elem, b_last_elem. apply Hb. Qed.

Lemma b_start_range : instant_in_range (b_start b) = true.
Proof using Hb. destruct b_first_ok as [[H _ _] <-]. by apply bucket_range. Qed.
Lemma b_end_range : instant_in_range (b_start b + INTERVAL) = true.
Proof using Hb. destruct b_first_ok as [[H _ _] <-]. by apply bucket_end_range. Qed.
Lemma b_start_whole : b_start b mod SECOND = 0.
Proof using Hb. destruct b_first_ok as [_ <-]. apply bucket_whole. Qed.
End bars.

Lemma in_life_in_range u : in_life u → instant_in_range u = true.
Proof. intros H. rewrite <- (Z.add_0_r u). by apply in_life_range. Qed.

Lemma highest_finite l : l ≠ [] → Forall obs_ok l → finite (highest l) = true ∧ finite (lowest l) = true.
Proof.
  intros Hn. induction 1 as [|o l Ho Hl IH]; [done|]. destruct Ho as [_ Hp _]. destruct l as [|o' l]; [done|].
  destruct IH as [IH1 IH2]; [done|]. cbn [highest lowest] in *. by split; [apply finite_fmax|apply finite_fmin].
Qed.

Lemma longest_gap_ok l : Forall obs_ok l → StronglySorted later l → duration (longest_gap l) ∧ finite (longest_gap l) = true.
Proof.
  induction 1 as [|o l Ho Hl IH]; intros Hs; [by split; [left|]|]. inversion_clear Hs as [|? ? Hs' Hlt].
  destruct (IH Hs') as [IH1 IH2]. destruct l as [|o' l]; [by split; [left|]|]. cbn [longest_gap] in *.
  split; [by apply duration_fmax|]. apply finite_fmax; [done|]. apply finite_fmax; [|done].
  inversion_clear Hlt as [|? ? Hlt' _]. inversion_clear Hl as [|? ? Ho' _].
  destruct Ho as [[? ?] _ _], Ho' as [[? ?] _ _]. apply finite_total_seconds. cbn in Hlt'. change SECOND with 1000000 in *. lia.
Qed.

(** The bars of a good history are good. *)
Lemma bars_ok h : StronglySorted later h → Forall obs_ok h → Forall bar_ok (bars h).
Proof.
  intros Hs Ho. apply Forall_forall. intros b Hb. pose proof (bars_one_bucket h) as H1. rewrite Forall_forall in H1.
  rewrite Forall_forall in Ho. constructor; [by apply H1| |].
  - apply Forall_forall. intros o Hin. apply Ho. by apply (bars_obs b).
  - rewrite (bars_members h b) by done. by apply StronglySorted_filter.
Qed.

Notation earlier := (λ b b', b_start b < b_start b').

(** ** Reading rows *)

Section rows.
Context (to_et : Z → Z) (policy : SegmentPolicy).
Notation shows_compact := (shows_compact to_et policy).
Notation shows_bar := (shows_bar to_et policy).
Notation shows_closed := (shows_closed to_et policy).
Notation rth_bar := (rth_bar to_et policy).

(** A row that shows a bar of some quality. *)
Definition shows (row : pydict) (b : bar) : Prop := ∃ q, shows_compact q row b.

Lemma row_start row b : shows row b → bar_start_of row = isoformat (b_start b).
Proof using. intros [q H]. unfold bar_start_of, vstr_or. by rewrite (sc_start _ _ _ _ _ H), v_or_truthy by apply truthy_vtime. Qed.

Lemma row_in_rth row b : shows row b → in_rth row = rth_bar b.
Proof using. intros [q H]. unfold in_rth. by rewrite (sc_segment _ _ _ _ _ H). Qed.

Lemma row_is_bar row b : shows row b → bar_ok b → is_bar_row row = Ok true.
Proof using.
  intros [q H] Hb. unfold is_bar_row. rewrite (sc_start _ _ _ _ _ H), parse_at_vtime by by apply b_start_range.
  cbn [mbind res_bind]. rewrite (sc_interval _ _ _ _ _ H).
  change (py_int (v_or (VInt INTERVAL_SECONDS) (VInt 0))) with (Ok (A:=Z) INTERVAL_SECONDS). cbn [mbind res_bind forallb].
  rewrite (sc_open _ _ _ _ _ H), (sc_high _ _ _ _ _ H), (sc_low _ _ _ _ _ H), (sc_close _ _ _ _ _ H).
  destruct (highest_finite (b_obs b)) as [Hh Hl]; [apply Hb|apply Hb|].
  rewrite !number_float; [done|by apply b_last_ok|done|done|by apply b_first_ok].
Qed.

Lemma rows_starts rows bs : Forall2 shows rows bs → Forall (λ r, bar_start_of r ≠ "") rows.
Proof using.
  induction 1 as [|row b rows bs H _ IH]; constructor; [|done]. rewrite (row_start _ b) by done. apply isoformat_not_empty.
Qed.

Lemma rows_sorted rows bs :
  Forall2 shows rows bs → Forall bar_ok bs → StronglySorted earlier bs → StronglySorted (key_lt bar_start_of) rows.
Proof using.
  intros H Hok Hs. revert rows H Hok. induction Hs as [|b bs _ IH Hb]; intros rows H Hok; inversion H as [|row ? rows' ? Hr Hrs]; subst.
  { constructor. }
  inversion_clear Hok as [|? ? Hok1 Hok2]. constructor; [by apply IH|]. clear IH H.
  induction Hrs as [|r c rows bs Hrc _ IH]; constructor.
  - unfold key_lt. rewrite (row_start _ b), (row_start _ c) by done. inversion_clear Hb. inversion_clear Hok2.
    apply isoformat_ltb; [by apply b_start_range..|by apply b_start_whole|by apply b_start_whole|done].
  - inversion_clear Hb. inversion_clear Hok2. by apply IH.
Qed.

Lemma omap_dict_of rows : omap dict_of (map VDict rows) = rows.
Proof using. induction rows as [|r rows IH]; [done|]. cbn. by rewrite IH. Qed.

Lemma bar_rows_shows rows bs :
  Forall2 shows rows bs → Forall bar_ok bs → StronglySorted earlier bs → bar_rows (VList (map VDict rows)) = Ok rows.
Proof using.
  intros H Hok Hs. unfold bar_rows. rewrite omap_dict_of.
  assert (res_filter is_bar_row rows = Ok rows) as ->.
  { clear Hs. induction H as [|r b rows bs Hrb _ IH]; [done|]. inversion_clear Hok. cbn [res_filter].
    rewrite (row_is_bar r b) by done. cbn [mbind res_bind]. by rewrite IH. }
  cbn. f_equal. apply (sort_by_id bar_start_of), strict_weak. by apply (rows_sorted rows bs).
Qed.

Lemma filter_in_rth (S : pydict → bar → Prop) rows bs :
  (∀ r b, S r b → shows r b) → Forall2 S rows bs →
  Forall2 S (filter (λ row, in_rth row = true) rows) (filter (λ b, rth_bar b = true) bs).
Proof using.
  intros HS. induction 1 as [|r b rows bs Hrb _ IH]; [constructor|]. rewrite !filter_cons, (row_in_rth r b) by auto.
  case_decide; [by constructor|done].
Qed.

Lemma rth_ma_rows_shows rows bs :
  Forall2 shows rows bs → Forall bar_ok bs → StronglySorted earlier bs → Forall (λ b, rth_bar b = true) bs →
  rth_ma_rows (VList (map VDict rows)) = Ok rows.
Proof using.
  intros H Hok Hs Hr. unfold rth_ma_rows. rewrite (bar_rows_shows rows bs) by done. cbn [mbind res_bind]. f_equal.
  apply filter_all. clear Hok Hs. induction H as [|r b rows bs Hrb _ IH]; [done|]. inversion_clear Hr.
  constructor; [by rewrite (row_in_rth r b)|by apply IH].
Qed.

(** A bar that starts after the others is appended. *)
Lemma upsert_closed_shows rows bs row b :
  Forall2 shows rows bs → shows row b → Forall bar_ok (bs ++ [b]) → StronglySorted earlier (bs ++ [b]) →
  upsert_closed rows row = rows ++ [row].
Proof using.
  intros H Hr Hok Hs. unfold upsert_closed. assert (H' : Forall2 shows (rows ++ [row]) (bs ++ [b])).
  { apply Forall2_app; [done|by repeat constructor]. }
  pose proof (rows_sorted _ _ H' Hok Hs) as Hrows. rewrite filter_all.
  - by apply (sort_by_id bar_start_of), strict_weak.
  - apply Forall_forall. intros r Hin E.
    pose proof (StronglySorted_app_1_elem_of (key_lt bar_start_of) rows [row] r row Hrows Hin ltac:(by left)) as Hlt.
    unfold key_lt in Hlt. by rewrite E, str_ltb_irrefl in Hlt.
Qed.

Lemma shorter_suffix {A} (l m r : list A) :
  l `suffix_of` r → m `suffix_of` r → (length m ≤ length l)%nat → m `suffix_of` l.
Proof using.
  intros [k ->] [k' E] Hlen. assert (E' : drop (length k') (k ++ l) = m) by (by rewrite E, drop_app_length).
  pose proof (f_equal length E) as El. rewrite !length_app in El. rewrite drop_app_ge in E' by lia.
  rewrite <- E'. apply suffix_drop.
Qed.

(** Rows merge with newer rows of their last bars, or with newer rows of more
    bars. *)
Lemma merge_shows (S : pydict → bar → Prop) rowsA rowsB A B :
  (∀ r b, S r b → shows r b) → Forall2 S rowsA A → Forall2 S rowsB B →
  Forall bar_ok A → Forall bar_ok B → StronglySorted earlier A → StronglySorted earlier B →
  (B `suffix_of` A → Forall2 S (merge_bars rowsA rowsB) A) ∧ (A `suffix_of` B → Forall2 S (merge_bars rowsA rowsB) B).
Proof using.
  intros HS HA HB okA okB sA sB.
  assert (HAs : Forall2 shows rowsA A) by (eapply Forall2_impl; [exact HA|done]).
  assert (HBs : Forall2 shows rowsB B) by (eapply Forall2_impl; [exact HB|done]).
  pose proof (rows_sorted _ _ HAs okA sA) as rA. pose proof (rows_sorted _ _ HBs okB sB) as rB.
  pose proof (rows_starts _ _ HAs) as nA. pose proof (rows_starts _ _ HBs) as nB.
  assert (Hkey : ∀ rows bs, Forall2 shows rows bs → bar_start_of <$> rows = (isoformat ∘ b_start) <$> bs).
  { induction 1 as [|r b rows bs Hrb _ IH]; [done|]. rewrite !fmap_cons, IH. by rewrite (row_start r b). }
  split; intros [k E].
  - subst A. apply Forall2_app_inv_r in HA as (r1 & r2 & H1 & H2 & ->).
    pose proof (rows_sorted _ _ HAs okA sA) as Hs. pose proof Hs as (Hlt & _ & _)%StronglySorted_app.
    assert (Hsame : bar_start_of <$> rowsB = bar_start_of <$> r2).
    { rewrite (Hkey rowsB B) by done. symmetry. apply Hkey. eapply Forall2_impl; [exact H2|done]. }
    assert (Ef : filter (λ r, bar_start_of r ∉ bar_start_of <$> rowsB) (r1 ++ r2) = r1).
    { rewrite Hsame, filter_app, filter_all, filter_none, app_nil_r; [done| |].
      - apply Forall_forall. intros r Hr Hn. apply Hn. by apply list_elem_of_fmap_2.
      - apply Forall_forall. intros r Hr (r' & E & Hr')%list_elem_of_fmap. specialize (Hlt r r' Hr Hr').
        unfold key_lt in Hlt. by rewrite E, str_ltb_irrefl in Hlt. }
    rewrite merge_bars_eq; cbv zeta; rewrite ?Ef; try done; [by apply Forall2_app|].
    apply (rows_sorted _ (k ++ B)); [|done|done]. apply Forall2_app; [|done]. eapply Forall2_impl; [exact H1|done].
  - subst B. assert (Ef : filter (λ r, bar_start_of r ∉ bar_start_of <$> rowsB) rowsA = []).
    { apply filter_none, Forall_forall. intros r Hr Hn. apply Hn. rewrite (Hkey rowsB (k ++ A)) by done.
      apply (list_elem_of_fmap_2 bar_start_of) in Hr. rewrite (Hkey rowsA A) in Hr by done.
      rewrite fmap_app. apply elem_of_app. by right. }
    rewrite merge_bars_eq; cbv zeta; rewrite ?Ef; by try done.
Qed.

(** ** Making and changing rows *)

Lemma vget_tabulate k (g : string → pyval) l : vget k (map (λ f, (f, g f)) l) = if bool_decide (k ∈ l) then g k else VNone.
Proof using.
  induction l as [|f l IH]; [done|]. cbn [map]. rewrite vget_cons, IH. destruct (String.eqb_spec k f) as [->|Hne].
  - by rewrite bool_decide_eq_true_2 by left.
  - by rewrite (bool_decide_ext (k ∈ f :: l) (k ∈ l)) by (rewrite elem_of_cons; naive_solver).
Qed.

Lemma compact_shows q row b : shows_compact q row b → shows_compact q (compact_rth_bar row) b.
Proof using.
  assert (E : ∀ k, bool_decide (k ∈ COMPACT_FIELDS) = true → vget k (compact_rth_bar row) = vget k row).
  { intros k H. unfold compact_rth_bar. by rewrite vget_tabulate, H. }
  intros []. by constructor; rewrite E.
Qed.

Lemma shows_closed_compact row b : shows_closed row b → shows_compact (quality_of b) row b.
Proof using. intros [[H _ _ _ _ _] _ _]. exact H. Qed.
Lemma shows_closed_shows row b : shows_closed row b → shows row b.
Proof using. intros H%shows_closed_compact. by eexists. Qed.

Lemma count_of_cons q o l : count_of q (o :: l) = (if decide (x_provider o = q) then 1 else 0) + count_of q l.
Proof using. unfold count_of. rewrite filter_cons. case_decide; cbn [length]; lia. Qed.

Lemma new_bar_shows o gap amb :
  in_life (x_at o) → (amb = true → x_identity o = None) →
  ∃ row, new_bar to_et (bucket (x_at o)) (x_at o) (x_price o) (x_provider o) (session_segment to_et policy (x_at o)) gap
           (x_identity o) amb = Ok row
         ∧ shows_bar "open" row (Bar [o] gap amb).
Proof using.
  intros Ho Hamb. unfold new_bar, dt_add. rewrite bucket_end_range by done. cbn [mbind res_bind]. eexists. split; [done|].
  assert (Ea : ambiguous (Bar [o] gap amb) = amb).
  { unfold ambiguous. cbn. rewrite bool_decide_eq_true_2 by done. by destruct amb. }
  constructor; [constructor|..]; look_display; try done.
  - unfold identity. rewrite Ea. destruct amb; [by rewrite Hamb|done].
  - by rewrite Ea.
  - exists [(x_provider o, VInt 1)], (x_provider o). split_and!; try done.
    + cbn. apply NoDup_singleton.
    + intros q. cbn [b_obs]. rewrite count_of_cons. change (count_of q []) with 0. unfold dget.
      destruct (String.eqb_spec q (x_provider o)) as [->|]; by case_decide.
    + intros q. cbn [b_obs]. rewrite !count_of_cons. change (count_of ?p []) with 0. by do 2 case_decide.
Qed.

(** The counts of a row read back, and take one more. *)
Lemma counts_shows d l :
  NoDup d.*1 → (∀ q, dget q d = if bool_decide (count_of q l = 0) then None else Some (VInt (count_of q l))) →
  counts_of (VDict d) = Ok (map (λ k, (k, count_of k l)) d.*1).
Proof using.
  intros Hn Hd. unfold counts_of, mapping. cbn [dict_of default].
  assert (Hall : Forall (λ kv, kv.2 = VInt (count_of kv.1 l)) d).
  { apply Forall_forall. intros [k v] Hin. pose proof (NoDup_dget k v d Hn Hin) as E. rewrite Hd in E. cbn.
    by destruct (bool_decide _); simplify_eq. }
  clear Hn Hd. cbn [from_option id]. unfold id.
  induction Hall as [|[k v] d Hv _ IH]; [done|]. cbn in Hv. subst v. rewrite filter_cons_True by done.
  cbn [res_mapM]. cbn [py_int mbind res_bind fst snd]. by rewrite IH.
Qed.

Lemma dget_tabulate k (g : string → Z) l : dget k (map (λ f, (f, g f)) l) = if bool_decide (k ∈ l) then Some (g k) else None.
Proof using.
  induction l as [|f l IH]; [done|]. unfold dget in *. cbn [map]. destruct (String.eqb_spec k f) as [->|Hne].
  - by rewrite bool_decide_eq_true_2 by left.
  - rewrite IH. by rewrite (bool_decide_ext (k ∈ f :: l) (k ∈ l)) by (rewrite elem_of_cons; naive_solver).
Qed.

Lemma providers_add d o l :
  NoDup d.*1 → (∀ q, dget q d = if bool_decide (count_of q l = 0) then None else Some (VInt (count_of q l))) →
  ∃ counts, counts_of (VDict d) = Ok counts
    ∧ let counts := dset (x_provider o) (default 0 (dget (x_provider o) counts) + 1) counts in
      NoDup (map (λ kn, (kn.1, VInt kn.2)) counts).*1
      ∧ (∀ q, dget q counts = if bool_decide (count_of q (o :: l) = 0) then None else Some (count_of q (o :: l)))
      ∧ ∀ q, count_of q (o :: l) ≤ count_of (most_counted counts) (o :: l).
Proof using.
  intros Hn Hd. eexists. split; [by apply counts_shows|]. set (counts := map _ _). cbv zeta. set (counts' := dset _ _ counts).
  assert (Hin : ∀ q, q ∈ d.*1 ↔ count_of q l ≠ 0).
  { intros q. change (d.*1) with (dkeys d). rewrite <- dget_keys, Hd. case_bool_decide; naive_solver. }
  assert (Hn' : NoDup counts'.*1).
  { apply dset_NoDup. unfold counts, dkeys. rewrite <- list_fmap_compose. by rewrite list_fmap_id. }
  assert (Hc : ∀ q, dget q counts' = if bool_decide (count_of q (o :: l) = 0) then None else Some (count_of q (o :: l))).
  { intros q. unfold counts', counts. rewrite dget_dset, !dget_tabulate, count_of_cons.
    assert (0 ≤ count_of q l) by (unfold count_of; lia).
    destruct (String.eqb_spec q (x_provider o)) as [->|Hne].
    - rewrite decide_True by done. rewrite (bool_decide_eq_false_2 (1 + _ = 0)) by lia. case_bool_decide as Hi; cbn.
      + f_equal. lia.
      + rewrite Hin in Hi. f_equal. lia.
    - rewrite decide_False by congruence. rewrite Z.add_0_l. rewrite (bool_decide_ext _ _ (Hin q)).
      do 2 case_bool_decide; congruence. }
  split_and!; [|done|].
  - rewrite <- list_fmap_compose. erewrite list_fmap_ext; [exact Hn'|]. by intros ? [? ?].
  - intros q. destruct (decide (count_of q (o :: l) = 0)) as [->|Hq]; [unfold count_of; lia|].
    pose proof (Hc q) as Eq. rewrite bool_decide_eq_false_2 in Eq by done.
    unfold most_counted. destruct (max_by _ counts') as [[k n]|] eqn:Em.
    + apply (max_by_key snd) in Em as [Hk Hmax]. specialize (Hmax _ (dget_elem _ _ _ Eq)). cbn in Hmax |- *.
      pose proof (NoDup_dget k n counts' Hn' Hk) as Ek. rewrite Hc in Ek. by destruct (bool_decide _); simplify_eq.
    + apply max_by_None in Em. by rewrite Em in Eq.
Qed.

Lemma b_first_cons o l g n g' n' : l ≠ [] → b_first (Bar (o :: l) g n) = b_first (Bar l g' n').
Proof using. destruct l; [done|]. unfold b_first, oldest. cbn [b_obs]. by rewrite last_cons_cons. Qed.

Lemma ambiguous_cons o b :
  b_obs b ≠ [] →
  ambiguous (Bar (o :: b_obs b) (b_gap b) (b_unknown b)) = ambiguous b || negb (bool_decide (x_identity o = x_identity (b_first b))).
Proof using.
  intros Hn. unfold ambiguous. rewrite (b_first_cons _ _ _ _ (b_gap b) (b_unknown b)) by done. destruct b as [l g n].
  cbn [b_obs b_unknown existsb b_gap]. destruct n; [done|]. cbn [orb]. apply orb_comm.
Qed.

(** The contract of a bar is forgotten under a condition. *)
Lemma vget_forget k (c : bool) v w d :
  String.eqb k "contract_identity_ambiguous" = false → String.eqb k "contract_identity" = false →
  vget k (if c then dset "contract_identity_ambiguous" v (dset "contract_identity" w d) else d) = vget k d.
Proof using. intros H1 H2. destruct c; [|done]. by rewrite !vget_dset, H1, H2. Qed.

Lemma text_of_str s : s ≠ "" → text_of (VStr s) = Some s.
Proof using. intros H. cbn. by rewrite (proj2 (String.eqb_neq _ _) H). Qed.

Lemma text_of_opt o : o ≠ Some "" → text_of (v_opt_str o) = o.
Proof using. destruct o as [s|]; [|done]. intros H. apply text_of_str. congruence. Qed.

(** An observation of another contract, or of an unknown one, makes a bar ambiguous. *)
Lemma forget_contract b o :
  bar_ok b → obs_ok o →
  is_true (VBool (ambiguous b)) || negb (bool_decide (text_of (v_opt_str (identity b)) =
     match x_identity o with Some s => text_of (VStr s) | None => None end))
  = ambiguous (Bar (o :: b_obs b) (b_gap b) (b_unknown b)).
Proof using.
  intros Hb Ho. rewrite ambiguous_cons by apply Hb. destruct (b_first_ok b Hb) as [[_ _ Hf] _]. destruct Ho as [_ _ Ho].
  destruct (ambiguous b) eqn:Ea; [done|]. cbn [is_true orb]. unfold identity. rewrite Ea, text_of_opt by done. f_equal.
  assert (Ei : match x_identity o with Some s => text_of (VStr s) | None => None end = x_identity o).
  { destruct (x_identity o); [|done]. apply text_of_str. congruence. }
  rewrite Ei. by apply bool_decide_ext.
Qed.

(** The open bar takes an observation of its bucket. *)
Lemma add_observation_shows row b o :
  shows_bar "open" row b → bar_ok b → obs_ok o → bucket (x_at o) = b_start b → later o (b_last b) →
  ∃ row', add_observation row (x_at o) (x_price o) (x_provider o) (x_identity o) = Ok row'
    ∧ shows_bar "open" row' (Bar (o :: b_obs b) (b_gap b) (b_unknown b)).
Proof using.
  intros [Hc Hcount Hfirst Hlast Hgap Hprov] Hb Ho Hbucket Hlater.
  pose proof (proj1 (bo_bucket b Hb)) as Hne. destruct (b_last_ok b Hb) as [[Hlb _ _] _].
  unfold add_observation. rewrite Hlast, parse_at_vtime by by apply in_life_in_range. cbn [mbind res_bind]. cbv zeta.
  rewrite (vindex_some "high" _ _ (sc_high _ _ _ _ _ Hc)) by done. cbn [mbind res_bind py_float num_of of_option].
  rewrite (vindex_some "low" (VFloat (lowest (b_obs b)))) by (rewrite ?vget_dset_ne by done; by try apply Hc).
  cbn [mbind res_bind py_float num_of of_option]. look. rewrite Hcount.
  rewrite int_or_zero. cbn [mbind res_bind]. look. rewrite Hgap.
  destruct (longest_gap_ok (b_obs b)) as [Hdur _]; [apply Hb..|].
  rewrite v_or_duration by done. cbn [py_float num_of of_option mbind res_bind]. look.
  destruct Hprov as (d & p & Ed & Ep & Hn & Hd & _). rewrite Ed.
  destruct (providers_add d o (b_obs b) Hn Hd) as (counts & Ecounts & Hn' & Hd' & Hmax).
  rewrite Ecounts. cbn [mbind res_bind]. look. eexists. split; [done|].
  rewrite (sc_ambiguous _ _ _ _ _ Hc), (sc_identity _ _ _ _ _ Hc), forget_contract by done.
  pose proof (b_first_cons o (b_obs b) (b_gap b) (b_unknown b) (b_gap b) (b_unknown b) Hne) as Ef.
  pose proof (ambiguous_cons o b Hne) as Hamb.
  assert (Eb : Bar (b_obs b) (b_gap b) (b_unknown b) = b) by by destruct b. rewrite Eb in Ef.
  destruct Hc as [H1 H2 H3 H4 H5 H6 H7 H8 H9 H10 H11 H12 H13]. set (b' := Bar _ _ _) in *.
  assert (Es : b_start b' = b_start b) by (by rewrite <- Hbucket).
  constructor; [constructor|..]; rewrite ?vget_forget by done; look; rewrite ?Es, ?Ef; try done.
  - unfold b'. cbn [b_obs]. by destruct (b_obs b).
  - unfold b'. cbn [b_obs]. by destruct (b_obs b).
  - unfold b_segment. by rewrite Ef.
  - unfold b_date. by rewrite Ef.
  - unfold identity at 1. rewrite Ef. destruct (ambiguous b') eqn:Ea; look; [done|]. rewrite H12. unfold identity.
    by destruct (ambiguous b).
  - destruct (ambiguous b') eqn:Ea; look; [done|]. rewrite H13. by destruct (ambiguous b).
  - unfold b'. cbn [b_obs length]. f_equal. lia.
  - unfold b', b_last. cbn [b_obs]. by destruct (b_obs b).
  - unfold shows_providers. do 2 eexists. split_and!; [rewrite vget_forget by done; look; reflexivity..|done| |exact Hmax].
    intros q. rewrite (dget_map_snd VInt), Hd'. unfold b'. cbn [b_obs]. by do 2 case_bool_decide.
Qed.

(** The open bar is finalized. *)
Lemma finalize_shows row b :
  shows_bar "open" row b → bar_ok b → ∃ row', finalize_bar row = Ok row' ∧ shows_closed row' b.
Proof using.
  intros [Hc Hcount Hfirst Hlast Hgap Hprov] Hb. unfold finalize_bar. rewrite Hcount.
  rewrite int_or_zero. cbn [mbind res_bind]. rewrite Hgap, number_float by (apply longest_gap_ok; apply Hb).
  rewrite (sc_start _ _ _ _ _ Hc), (sc_end _ _ _ _ _ Hc), Hfirst, Hlast.
  rewrite !parse_at_vtime; [|by apply b_start_range|by apply b_end_range|by apply in_life_in_range; apply b_first_ok
    |by apply in_life_in_range; apply b_last_ok].
  cbn [mbind res_bind]. rewrite (sc_ambiguous _ _ _ _ _ Hc). eexists. split; [done|].
  assert (Eg : (MIN_OK_SAMPLES <=? Z.of_nat (length (b_obs b))) && fleb (longest_gap (b_obs b)) MAX_OK_GAP_SECONDS
               && negb (is_true (VBool (ambiguous b))) && within_edge (seconds_between (Some (b_start b)) (Some (x_at (b_first b))))
               && within_edge (seconds_between (Some (x_at (b_last b))) (Some (b_start b + INTERVAL))) = good b).
  { unfold good. by destruct (ambiguous b). }
  rewrite Eg. fold (quality_of b). destruct Hc. constructor; [constructor; [constructor|..]|..]; look; try done.
  destruct Hprov as (d & p & ?). exists d, p. by look.
Qed.
End rows.
