(* ===== verification/EsBarRefine.v ===== *)
(** * The bar state refines the reference bars

    A written state reads back as what it shows; one sample takes a state that
    shows a history of accepted observations to one that shows the history
    with the sample, or is refused and changes nothing. *)

From Stdlib Require Import Ascii ZArith Lia.
From stdpp Require Import sorting numbers base list strings.
From S2P Require Import Prelude PyStr PyFloat PyTime PyDateTime PyDict PyVal PyJson StateIo MarketdataFacts EsBars EsBarSampler EsBarSpec EsBarFacts EsBarRows.

#[local] Open Scope Z_scope.

(** ** Written states *)

Section written.
Context (to_et : Z → Z) (policy : SegmentPolicy).
Notation shows_compact := (shows_compact to_et policy).
Notation shows_bar := (shows_bar to_et policy).
Notation shows_closed := (shows_closed to_et policy).
Notation shows_state := (shows_state to_et policy).

Lemma canon_compact q row b : shows_compact q row b → shows_compact q (canon_dict row) b.
Proof using.
  intros [H1 H2 H3 H4 H5 H6 H7 H8 H9 H10 H11 H12 H13].
  constructor; rewrite vget_canon, ?H1, ?H2, ?H3, ?H4, ?H5, ?H6, ?H7, ?H8, ?H9, ?H10, ?H11, ?H12, ?H13; try done.
  apply canon_opt_str.
Qed.

Lemma canon_bar q row b : shows_bar q row b → shows_bar q (canon_dict row) b.
Proof using.
  intros [H1 H2 H3 H4 H5 (d & p & Ed & Ep & Hn & Hd & Hm)].
  constructor; [by apply canon_compact|rewrite vget_canon, ?H2, ?H3, ?H4, ?H5; done..|].
  exists (canon_dict d), p. rewrite !vget_canon, Ed, Ep. split_and!; [done..| | |done].
  - unfold canon_dict, sort_items. rewrite sort_by_perm. rewrite <- list_fmap_compose. exact Hn.
  - intros q'. unfold canon_dict. rewrite dget_sort_items. rewrite dget_map_snd, Hd. by destruct (bool_decide _).
Qed.

Lemma canon_closed row b : shows_closed row b → shows_closed (canon_dict row) b.
Proof using. intros [H1 H2 H3]. constructor; [by apply canon_bar|rewrite vget_canon, ?H2, ?H3; done..]. Qed.

Lemma canon_state st h : shows_state st h → shows_state (canon_dict st) h.
Proof using.
  intros [H1 H2 H3 H4 (row & H6 & H6') (rows & H7 & H7') (mas & H8 & H8')]. constructor; rewrite ?vget_canon.
  - by rewrite H1.
  - by rewrite H2.
  - rewrite H3. apply canon_opt_time.
  - rewrite H4. apply canon_opt_str.
  - exists (canon_dict row). rewrite H6. split; [done|]. destruct (bars h); [by subst|by apply canon_bar].
  - exists (map canon_dict rows). rewrite H7, canon_rows. split; [done|]. apply Forall2_fmap_l.
    eapply Forall2_impl; [exact H7'|]. intros r b. apply canon_closed.
  - exists (map canon_dict mas). rewrite H8, canon_rows. split; [done|]. apply Forall2_fmap_l.
    eapply Forall2_impl; [exact H8'|]. intros r b. apply canon_compact.
Qed.
End written.

(** ** Histories *)

Record hist_ok (h : list obs) : Prop := {
  ho_later : StronglySorted later h;
  ho_obs : Forall obs_ok h;
  ho_contract : ∀ o c, o ∈ h → x_identity o = Some c → contract h = Some c;
}.

Lemma contract_elem h c : contract h = Some c → ∃ o, o ∈ h ∧ x_identity o = Some c.
Proof.
  unfold contract. intros H. assert (c ∈ omap x_identity h) as (o & Ho & E)%list_elem_of_omap; [|by eauto].
  destruct (omap x_identity h); [done|]. injection H as ->. by left.
Qed.

Lemma contract_cons o h : contract (o :: h) = match x_identity o with Some c => Some c | None => contract h end.
Proof. unfold contract. cbn. by destruct (x_identity o). Qed.

Lemma contract_not_empty h : Forall obs_ok h → contract h ≠ Some "".
Proof.
  intros Ho E. apply contract_elem in E as (o & Hin & Eo). rewrite Forall_forall in Ho. by destruct (Ho o Hin) as [_ _ []].
Qed.

Lemma extend_ok h o : hist_ok h → obs_ok o → (∀ l, head h = Some l → later o l) → hist_ok (extend h o).
Proof.
  intros [H1 H2 H3] Ho Hlast.
  assert (Hone : hist_ok [o]).
  { constructor; [by repeat constructor|by apply Forall_singleton|]. intros o' c ->%list_elem_of_singleton E. unfold contract. cbn. by rewrite E. }
  assert (Hcons : (∀ c c', x_identity o = Some c → contract h = Some c' → c = c') → hist_ok (o :: h)).
  { intros Hc. constructor; [constructor; [done|]|by constructor|].
    - destruct h as [|l h]; [constructor|]. specialize (Hlast l eq_refl). constructor; [done|].
      inversion H1 as [|? ? _ Hl]; subst. eapply Forall_impl; [exact Hl|]. cbn in *. lia.
    - intros o' c [->|Hin]%elem_of_cons E; rewrite contract_cons; [by rewrite E|].
      specialize (H3 o' c Hin E). destruct (x_identity o) as [c'|] eqn:E'; [|done]. f_equal. by apply (Hc c'). }
  unfold extend. destruct (x_identity o) as [c|] eqn:Ec; [|by apply Hcons].
  destruct (contract h) as [c'|] eqn:Ec'; [|by apply Hcons].
  destruct (String.eqb_spec c c') as [->|]; [|done]. apply Hcons. intros ? ? [= <-] [= <-]. done.
Qed.

(** ** The kept bars of a history *)

Lemma StronglySorted_reverse {A} (R : A → A → Prop) l : StronglySorted R l → StronglySorted (flip R) (reverse l).
Proof.
  induction 1 as [|x l _ IH Hx]; [constructor|]. rewrite reverse_cons. apply StronglySorted_app_2; [|done|by repeat constructor].
  intros y z Hy ->%list_elem_of_singleton. rewrite elem_of_reverse in Hy. rewrite Forall_forall in Hx. by apply Hx.
Qed.

Section kept.
Context (to_et : Z → Z) (policy : SegmentPolicy) (h : list obs) (Hh : hist_ok h).
Notation rth_bar := (rth_bar to_et policy).

Lemma reversed_bars : Forall bar_ok (reverse (bars h)) ∧ StronglySorted earlier (reverse (bars h)).
Proof using Hh.
  destruct Hh as [H1 H2 _]. split; [apply Forall_reverse; by apply bars_ok|].
  apply StronglySorted_reverse. by apply bars_sorted.
Qed.

(** The closed bars are all but the open one. *)
Lemma closed_prefix : closed_bars h ++ option_list (head (bars h)) = reverse (bars h).
Proof using. unfold closed_bars. destruct (bars h) as [|b older]; [done|]. by rewrite reverse_cons. Qed.

Lemma closed_ok : Forall bar_ok (closed_bars h) ∧ StronglySorted earlier (closed_bars h).
Proof using Hh.
  destruct reversed_bars as [H1 H2]. rewrite <- closed_prefix in H1, H2.
  split; [by apply Forall_app in H1 as [? _]|by apply StronglySorted_app_1_l in H2].
Qed.

Lemma suffix_ok l : l `suffix_of` closed_bars h → Forall bar_ok l ∧ StronglySorted earlier l.
Proof using Hh.
  intros [k E]. destruct closed_ok as [H1 H2]. rewrite E in H1, H2.
  split; [by apply Forall_app in H1 as [_ ?]|by apply StronglySorted_app_1_r in H2].
Qed.

Lemma rth_ok : Forall bar_ok (filter (λ b, rth_bar b = true) (closed_bars h))
  ∧ StronglySorted earlier (filter (λ b, rth_bar b = true) (closed_bars h)).
Proof using Hh.
  destruct closed_ok as [H1 H2]. split; [|by apply StronglySorted_filter]. apply Forall_forall.
  intros b [_ Hb]%list_elem_of_filter. rewrite Forall_forall in H1. by apply H1.
Qed.

Lemma rth_suffix_ok l :
  l `suffix_of` filter (λ b, rth_bar b = true) (closed_bars h) →
  Forall bar_ok l ∧ StronglySorted earlier l ∧ Forall (λ b, rth_bar b = true) l.
Proof using Hh.
  intros [k E]. destruct rth_ok as [H1 H2]. split_and!.
  - rewrite E in H1. by apply Forall_app in H1 as [_ ?].
  - rewrite E in H2. by apply StronglySorted_app_1_r in H2.
  - apply Forall_forall. intros b Hb. assert (Hin : b ∈ k ++ l) by (apply elem_of_app; by right).
    rewrite <- E in Hin. by apply list_elem_of_filter in Hin as [? _].
Qed.
End kept.

(** ** Kept rows *)

Section kept_rows.
Context (to_et : Z → Z) (policy : SegmentPolicy).
Notation shows_closed := (shows_closed to_et policy).
Notation compacted := (λ row b, shows_compact to_et policy (quality_of b) row b).
Notation kept_rth := (kept_rth_bars to_et policy).
Notation rth_bar := (rth_bar to_et policy).

Lemma compacted_shows row b : compacted row b → shows to_et policy row b.
Proof using. intros H. by exists (quality_of b). Qed.

Lemma kept_ok h : hist_ok h → Forall bar_ok (kept_bars h) ∧ StronglySorted earlier (kept_bars h).
Proof using. intros Hh. apply (suffix_ok h Hh). apply last_items_suffix. Qed.
Lemma kept_rth_ok h :
  hist_ok h → Forall bar_ok (kept_rth h) ∧ StronglySorted earlier (kept_rth h) ∧ Forall (λ b, rth_bar b = true) (kept_rth h).
Proof using. intros Hh. apply (rth_suffix_ok to_et policy h Hh). apply last_items_suffix. Qed.

(** The stored lists read back. *)
Lemma closed_rows_read h rows :
  hist_ok h → Forall2 shows_closed rows (kept_bars h) → bar_rows (VList (map VDict rows)) = Ok rows.
Proof using.
  intros Hh H. destruct (kept_ok h Hh). apply (bar_rows_shows to_et policy rows (kept_bars h)); [|done..].
  eapply Forall2_impl; [exact H|]. apply shows_closed_shows.
Qed.
Lemma rth_rows_read h rows :
  hist_ok h → Forall2 compacted rows (kept_rth h) → rth_ma_rows (VList (map VDict rows)) = Ok rows.
Proof using.
  intros Hh H. destruct (kept_rth_ok h Hh) as (? & ? & ?). apply (rth_ma_rows_shows to_et policy rows (kept_rth h)); [|done..].
  eapply Forall2_impl; [exact H|]. apply compacted_shows.
Qed.

(** The history for moving averages already has the kept bars of regular hours. *)
Lemma rth_merge_closed h rows mas :
  hist_ok h → Forall2 shows_closed rows (kept_bars h) → Forall2 compacted mas (kept_rth h) →
  Forall2 compacted
    (last_items MAX_RTH_MA_BARS (merge_bars mas (map compact_rth_bar (filter (λ row, in_rth row = true) rows)))) (kept_rth h).
Proof using.
  intros Hh Hrows Hmas. set (R := filter (λ b, rth_bar b = true) (closed_bars h)).
  set (B := filter (λ b, rth_bar b = true) (kept_bars h)).
  assert (HB : Forall2 compacted (map compact_rth_bar (filter (λ row, in_rth row = true) rows)) B).
  { apply Forall2_fmap_l. eapply Forall2_impl; [eapply filter_in_rth; [|exact Hrows]; apply shows_closed_shows|].
    intros r b H. by apply compact_shows, shows_closed_compact. }
  assert (sA : kept_rth h `suffix_of` R) by apply last_items_suffix.
  assert (sB : B `suffix_of` R) by apply suffix_filter, last_items_suffix.
  destruct (rth_suffix_ok to_et policy h Hh _ sA) as (okA & soA & _).
  destruct (rth_suffix_ok to_et policy h Hh _ sB) as (okB & soB & _).
  destruct (merge_shows to_et policy compacted _ _ _ _ compacted_shows Hmas HB okA okB soA soB) as [M1 M2].
  assert (Elen : length (kept_rth h) = Nat.min MAX_RTH_MA_BARS (length R)) by apply length_last_items.
  destruct (decide (length B ≤ length (kept_rth h))%nat) as [Hle|Hgt].
  - assert (E : last_items MAX_RTH_MA_BARS (kept_rth h) = kept_rth h) by (apply last_items_short; lia).
    rewrite <- E. apply Forall2_last_items, M1. by apply (shorter_suffix _ _ R).
  - assert (E : last_items MAX_RTH_MA_BARS B = kept_rth h) by (apply last_items_of_suffix; [done|fold R; lia]).
    rewrite <- E. apply Forall2_last_items, M2. apply (shorter_suffix _ _ R); [done..|lia].
Qed.

(** A bar that starts after the others is added at the end. *)
Lemma merge_appends rows bs r b :
  Forall2 compacted rows bs → compacted r b → Forall bar_ok (bs ++ [b]) → StronglySorted earlier (bs ++ [b]) →
  merge_bars rows [r] = rows ++ [r].
Proof using.
  intros H Hr Hok Hs. assert (H' : Forall2 (shows to_et policy) (rows ++ [r]) (bs ++ [b])).
  { apply Forall2_app; [|repeat constructor; by apply compacted_shows].
    eapply Forall2_impl; [exact H|]. apply compacted_shows. }
  pose proof (rows_sorted to_et policy _ _ H' Hok Hs) as Hrows. pose proof (rows_starts to_et policy _ _ H') as Hn.
  apply Forall_app in Hn as [Hn1 Hn2]. pose proof Hrows as (Hlt & Hrows1 & Hrows2)%StronglySorted_app.
  assert (Ef : filter (λ x, bar_start_of x ∉ bar_start_of <$> [r]) rows = rows).
  { apply filter_all, Forall_forall. intros x Hx E. cbn in E. apply list_elem_of_singleton in E.
    specialize (Hlt x r Hx ltac:(by left)). unfold key_lt in Hlt. by rewrite E, str_ltb_irrefl in Hlt. }
  rewrite merge_bars_eq; cbv zeta; by rewrite ?Ef.
Qed.

(** The open bar comes after closed ones. *)
Lemma open_after h b older l :
  hist_ok h → bars h = b :: older → (∀ x, x ∈ l → x ∈ closed_bars h) → Forall bar_ok l → StronglySorted earlier l →
  Forall bar_ok (l ++ [b]) ∧ StronglySorted earlier (l ++ [b]).
Proof using.
  intros Hh Eb Hl Hok Hs. destruct (reversed_bars h Hh) as [H1 H2]. rewrite <- closed_prefix, Eb in H1, H2. cbn in H1, H2.
  apply Forall_app in H1 as [_ H1]. split; [by apply Forall_app|]. apply StronglySorted_app in H2 as (H2 & _).
  apply StronglySorted_app_2; [|done|by repeat constructor]. intros x y Hx Hy. apply H2; auto.
Qed.

Lemma closed_bars_roll h o b older :
  bars h = b :: older → b_start b ≠ bucket (x_at o) → closed_bars (o :: h) = closed_bars h ++ [b].
Proof using.
  intros E Hne. unfold closed_bars. cbn [bars]. rewrite E, (proj2 (Z.eqb_neq _ _)) by congruence. cbn [tail].
  by rewrite reverse_cons.
Qed.

(** The finalized bar joins the kept ones. *)
Lemma kept_bars_roll h o b older rows final :
  hist_ok h → bars h = b :: older → b_start b ≠ bucket (x_at o) →
  Forall2 shows_closed rows (kept_bars h) → shows_closed final b →
  Forall2 shows_closed (last_items MAX_CLOSED_BARS (upsert_closed rows final)) (kept_bars (o :: h)).
Proof using.
  intros Hh Eb Hne Hrows Hfinal. destruct (kept_ok h Hh) as [K1 K2].
  destruct (open_after h b older (kept_bars h) Hh Eb) as [K3 K4]; [intros x; apply last_items_elem|done..|].
  rewrite (upsert_closed_shows to_et policy rows (kept_bars h) final b); [| |by eapply shows_closed_shows|done|done].
  2: { eapply Forall2_impl; [exact Hrows|]. apply shows_closed_shows. }
  unfold kept_bars at 1. rewrite (closed_bars_roll h o b older), <- (last_items_app _ (closed_bars h)) by done.
  apply Forall2_last_items, Forall2_app; [done|by apply Forall2_cons_2].
Qed.

Lemma kept_rth_roll h o b older mas final :
  hist_ok h → bars h = b :: older → b_start b ≠ bucket (x_at o) →
  Forall2 compacted mas (kept_rth h) → compacted final b →
  Forall2 compacted
    (if rth_bar b then last_items MAX_RTH_MA_BARS (merge_bars mas [compact_rth_bar final]) else mas) (kept_rth (o :: h)).
Proof using.
  intros Hh Eb Hne Hmas Hfinal. destruct (kept_rth_ok h Hh) as (K1 & K2 & _).
  unfold kept_rth_bars at 1. rewrite (closed_bars_roll h o b older), filter_app, filter_cons, filter_nil by done.
  destruct (rth_bar b) eqn:Er; [|rewrite decide_False by done; by rewrite app_nil_r].
  destruct (open_after h b older (kept_rth h) Hh Eb) as [K3 K4]; [|done..|].
  { intros x Hx%last_items_elem. by apply list_elem_of_filter in Hx as [_ Hx]. }
  pose proof (compact_shows to_et policy _ _ _ Hfinal) as Hfinal'.
  rewrite (merge_appends mas (kept_rth h) (compact_rth_bar final) b) by done. rewrite decide_True by done.
  unfold kept_rth_bars in *. rewrite <- (last_items_app _ (filter _ (closed_bars h))).
  apply Forall2_last_items, Forall2_app; [done|by apply Forall2_cons_2].
Qed.

(** The open bar ends: the kept lists get it, and a new one begins. *)
Lemma roll_bar_shows h o rows mas current amb :
  hist_ok h → in_life (x_at o) → (amb = true → x_identity o = None) →
  match bars h with [] => current = [] | b :: _ => shows_bar to_et policy "open" current b ∧ b_start b < bucket (x_at o) end →
  Forall2 shows_closed rows (kept_bars h) → Forall2 compacted mas (kept_rth h) →
  amb = known h && bool_decide (x_identity o = None) →
  ∃ current' rows' mas',
    roll_bar to_et current rows mas (bucket (x_at o)) (x_at o) (x_price o) (x_provider o)
      (session_segment to_et policy (x_at o)) (x_identity o) amb = Ok (current', rows', mas')
    ∧ (∃ b, head (bars (o :: h)) = Some b ∧ shows_bar to_et policy "open" current' b)
    ∧ Forall2 shows_closed (last_items MAX_CLOSED_BARS rows') (kept_bars (o :: h))
    ∧ Forall2 compacted mas' (kept_rth (o :: h)).
Proof using.
  intros Hh Ho Hamb Hcur Hrows Hmas Eamb. unfold roll_bar. destruct (bars h) as [|b older] eqn:Eb.
  - subst current. cbn [mbind res_bind].
    destruct (new_bar_shows to_et policy o false amb Ho Hamb) as (row & Erow & Hrow). rewrite Erow. cbn [mbind res_bind].
    do 3 eexists. split; [done|]. apply bars_nil in Eb as ->. split_and!.
    + eexists. split; [done|]. by rewrite <- Eamb.
    + exact (Forall2_last_items _ _ _ _ Hrows).
    + exact Hmas.
  - destruct Hcur as [Hcur Hlt]. destruct (reversed_bars h Hh) as [Hok _]. rewrite Eb, reverse_cons in Hok.
    apply Forall_app in Hok as [_ Hok]. inversion_clear Hok as [|? ? Hb _].
    destruct (finalize_shows to_et policy current b Hcur Hb) as (final & Efinal & Hfinal).
    pose proof (shows_closed_compact _ _ _ _ Hfinal) as Hfc.
    assert (Ecur : ∀ A (x y : A), match current with [] => x | _ => y end = y).
    { intros. destruct current; [|done]. by destruct Hcur as [[]]. }
    rewrite Ecur, Efinal. cbn [mbind res_bind]. cbv zeta. clear Ecur.
    rewrite (row_in_rth to_et policy final b) by by apply compacted_shows.
    rewrite (sc_start _ _ _ _ _ (sb_compact _ _ _ _ _ Hcur)), parse_at_vtime by by apply b_start_range.
    cbn [mbind res_bind]. unfold dt_add. rewrite b_end_range by done. cbn [mbind res_bind].
    rewrite (sc_quality _ _ _ _ _ Hfc).
    set (gap := (b_start b + INTERVAL <? bucket (x_at o)) || negb (is_str "ok" (VStr (quality_of b)))).
    destruct (new_bar_shows to_et policy o gap amb Ho Hamb) as (row & Erow & Hrow). rewrite Erow. cbn [mbind res_bind].
    do 3 eexists. split; [done|]. assert (Hne : b_start b ≠ bucket (x_at o)) by lia.
    split_and!; [|by apply (kept_bars_roll h o b older)|by apply (kept_rth_roll h o b older)].
    eexists. split; [|exact Hrow]. cbn [bars]. rewrite Eb, (proj2 (Z.eqb_neq _ _)) by lia. cbn. rewrite <- Eamb.
    unfold gap, quality_of. by destruct (good b).
Qed.
End kept_rows.

(** ** One sample *)

Section step.
Context (to_et : Z → Z) (policy : SegmentPolicy).
Notation shows_state := (shows_state to_et policy).

Lemma bar_empty_shows d : shows_state (dset "diagnostics" d empty_bar_state) [].
Proof using.
  constructor; look; try done.
  - by exists [].
  - exists []. split; [done|constructor].
  - exists []. split; [done|constructor].
Qed.

Lemma empty_state_shows : shows_state empty_bar_state [].
Proof using. exact (bar_empty_shows (VDict empty_diagnostics)). Qed.

Lemma hist_ok_nil : hist_ok [].
Proof using. constructor; [constructor..|]. by intros ? ? ?%not_elem_of_nil. Qed.

Lemma state_contract st h :
  shows_state st h → vstr_or "contract_identity" "" st = default "" (contract h).
Proof using.
  intros H. unfold vstr_or. rewrite (ss_identity _ _ _ _ H). destruct (contract h) as [c|]; [|done].
  unfold v_or. cbn. by destruct (String.eqb_spec c "") as [->|].
Qed.

Lemma known_contract h : Forall obs_ok h → negb (String.eqb (default "" (contract h)) "") = known h.
Proof using.
  intros Ho%contract_not_empty. unfold known. destruct (contract h) as [c|]; [|done]. cbn.
  by rewrite (proj2 (String.eqb_neq c "")) by congruence.
Qed.

(** The history that an observation extends: the one so far, or none if it is
    of another contract. *)
Lemma contract_cases st h o at_ :
  shows_state st h → hist_ok h → (∀ l, head h = Some l → later o l) →
  ∃ h0, shows_state (match x_identity o with
                     | Some c => if known h && negb (String.eqb c (default "" (contract h)))
                                 then contract_reset at_ (default "" (contract h)) c else st
                     | None => st
                     end) h0
    ∧ hist_ok h0 ∧ extend h o = o :: h0 ∧ (∀ l, head h0 = Some l → later o l)
    ∧ known h && bool_decide (x_identity o = None) = known h0 && bool_decide (x_identity o = None)
    ∧ (x_identity o = None → h0 = h).
Proof using.
  intros Hst Hh Hl. unfold extend. destruct (x_identity o) as [c|] eqn:Ec; [|by exists h].
  unfold known at 1. destruct (contract h) as [c'|] eqn:Ec'; cbn; [|exists h; by rewrite !andb_false_r].
  destruct (String.eqb_spec c c') as [->|Hne]; cbn; [exists h; by rewrite !andb_false_r|].
  exists []. split_and!; [apply bar_empty_shows|apply hist_ok_nil|done..| |done]. by rewrite !andb_false_r.
Qed.

(** The open bar takes the observation, or another one begins. *)
Lemma next_bars_shows h o row rows mas :
  hist_ok h → obs_ok o → (∀ l, head h = Some l → later o l) →
  match bars h with [] => row = [] | b :: _ => shows_bar to_et policy "open" row b end →
  Forall2 (shows_closed to_et policy) rows (kept_bars h) →
  Forall2 (λ r b, shows_compact to_et policy (quality_of b) r b) mas (kept_rth_bars to_et policy h) →
  ∃ start current rows' mas',
    match row with [] => Ok None | _ => parse_at (vget "bar_start" row) end = Ok start
    ∧ (if bool_decide (start = Some (bucket (x_at o)))
       then current ← add_observation row (x_at o) (x_price o) (x_provider o) (x_identity o); Ok (current, rows, mas)
       else roll_bar to_et row rows mas (bucket (x_at o)) (x_at o) (x_price o) (x_provider o)
              (session_segment to_et policy (x_at o)) (x_identity o) (known h && bool_decide (x_identity o = None)))
      = Ok (current, rows', mas')
    ∧ (∃ b, head (bars (o :: h)) = Some b ∧ shows_bar to_et policy "open" current b)
    ∧ Forall2 (shows_closed to_et policy) (last_items MAX_CLOSED_BARS rows') (kept_bars (o :: h))
    ∧ Forall2 (λ r b, shows_compact to_et policy (quality_of b) r b) mas' (kept_rth_bars to_et policy (o :: h)).
Proof using.
  intros Hh Ho Hlast Hrow Hrows Hmas.
  assert (Hamb : known h && bool_decide (x_identity o = None) = true → x_identity o = None).
  { intros [_ H]%andb_true_iff. by apply bool_decide_eq_true_1 in H. }
  pose proof (λ H, roll_bar_shows to_et policy h o rows mas row _ Hh (oo_at o Ho) Hamb H Hrows Hmas eq_refl) as Hroll.
  destruct (bars h) as [|b older] eqn:Eb.
  { subst row. exists None. cbn [bool_decide]. rewrite bool_decide_eq_false_2 by done.
    destruct (Hroll eq_refl) as (c & r & m & E & ?). by exists c, r, m. }
  assert (Hb : bar_ok b).
  { pose proof (bars_ok h (ho_later h Hh) (ho_obs h Hh)) as H. rewrite Eb in H. by inversion H. }
  exists (Some (b_start b)).
  assert (Es : match row with [] => Ok None | _ => parse_at (vget "bar_start" row) end = Ok (Some (b_start b))).
  { rewrite <- parse_at_vtime by by apply b_start_range. rewrite <- (sc_start _ _ _ _ _ (sb_compact _ _ _ _ _ Hrow)).
    destruct row; [|done]. by destruct Hrow as [[]]. }
  destruct (Z.eq_dec (b_start b) (bucket (x_at o))) as [E|Hne].
  - rewrite bool_decide_eq_true_2 by congruence. destruct h as [|l h]; [done|]. specialize (Hlast l eq_refl).
    assert (El : b_last b = l).
    { destruct (bars_head l h) as (b' & older' & E' & Hn). rewrite Eb in E'. injection E' as <- _. unfold b_last. by rewrite Hn. }
    destruct (add_observation_shows to_et policy row b o Hrow Hb Ho (eq_sym E)) as (row' & Er & Hr); [by rewrite El|].
    rewrite Er. do 3 eexists. split; [exact Es|]. split; [done|]. 
    assert (Ec : closed_bars (o :: l :: h) = closed_bars (l :: h)).
    { unfold closed_bars. cbn [bars]. cbn [bars] in Eb. rewrite Eb, (proj2 (Z.eqb_eq _ _)) by congruence. done. }
    unfold kept_bars, kept_rth_bars. rewrite !Ec. split_and!; [|rewrite <- (last_items_idem _ (closed_bars _)); by apply Forall2_last_items|done].
    eexists. split; [|exact Hr]. cbn [bars]. cbn [bars] in Eb. rewrite Eb, (proj2 (Z.eqb_eq _ _)) by congruence. done.
  - rewrite bool_decide_eq_false_2 by congruence.
    assert (Hlt : b_start b < bucket (x_at o)).
    { destruct h as [|l h]; [done|]. specialize (Hlast l eq_refl). destruct (bars_head l h) as (b' & older' & E' & Hn).
      rewrite Eb in E'. injection E' as <- _. unfold b_start in *. rewrite Hn in *.
      pose proof (bucket_le (x_at l) (x_at o)). cbn in Hlast. lia. }
    destruct (Hroll (conj Hrow Hlt)) as (c & r & m & E & H). exists c, r, m. by split.
Qed.

Lemma bar_accept_shows st h o at_ :
  shows_state st h → hist_ok h → obs_ok o → (∀ l, head h = Some l → later o l) →
  ∃ st', accept_observation to_et policy st at_ (x_at o) (x_price o) (x_provider o) (x_identity o) = Ok st'
    ∧ shows_state st' (extend h o).
Proof using.
  intros Hst Hh Ho Hlast. unfold accept_observation. rewrite (state_contract st h), known_contract by (done || apply Hh).
  cbv zeta. destruct (contract_cases st h o at_ Hst Hh Hlast) as (h0 & Hst0 & Hh0 & Eext & Hlast0 & Eamb & Enone).
  set (st0 := match x_identity o with Some _ => _ | None => _ end) in *. clearbody st0. rewrite Eext, Eamb.
  rewrite bucket_start_eq by apply Ho. cbn [mbind res_bind].
  destruct Hst0 as [_ _ _ _ (row & Erow & Hrow) (rows & Erows & Hrows) (mas & Emas & Hmas)].
  rewrite Erow, Erows, Emas. cbn [mapping dict_of default from_option]. unfold mapping, dict_of, id. cbn [default from_option].
  rewrite (closed_rows_read to_et policy h0 rows), (rth_rows_read to_et policy h0 mas) by done. cbn [mbind res_bind].
  pose proof (rth_merge_closed to_et policy h0 rows mas Hh0 Hrows Hmas) as Hmas'.
  set (mas' := last_items _ (merge_bars mas _)) in *. clearbody mas'.
  destruct (next_bars_shows h0 o row rows mas' Hh0 Ho Hlast0 Hrow Hrows Hmas')
    as (start & current & rows' & mas'' & E1 & E2 & (b & Eb & Hb) & Hrows' & Hmas'').
  rewrite E1. cbn [mbind res_bind]. rewrite E2. cbn [mbind res_bind]. eexists. split; [done|].
  constructor; look_display; try done.
  - rewrite contract_cons. destruct (x_identity o) as [c|] eqn:Ec; [done|]. rewrite (Enone eq_refl).
    unfold known. by destruct (contract h).
  - exists current. split; [done|]. by destruct (bars (o :: h0)); simplify_eq/=.
  - by eexists.
  - by eexists.
Qed.

(** ** A cycle of the sampler *)

(** The sample's clock and source times are of the program's life. *)
Record timely (now : Z) (q : Observed) : Prop := {
  ti_now : in_life now;
  ti_source : ∀ u, ob_source_at q = Some u → in_life u;
}.

Lemma bar_observe_ok sample q :
  observe sample = Ok q → opt_all finite (ob_price q) = true ∧ ob_identity q ≠ Some "".
Proof using.
  unfold observe. intros H. res_inv. subst. cbn [ob_price ob_identity]. split.
  - destruct (es_quote sample) as [|kv quote]; [done|]. unfold number. unfold finite.
    destruct (vget "price" (kv :: quote)); cbn [num_of mbind option_bind]; try done; case_match eqn:E; cbn [opt_all]; try done; by rewrite E.
  - unfold contract_identity_of, text_of. destruct (vget "contract_identity" _) as [| | | |t| |]; try done.
    destruct (String.eqb_spec t ""); [done|]. congruence.
Qed.

Lemma observation_ok sample q now o :
  observe sample = Ok q → timely now q → observation q = Some o → obs_ok o.
Proof using.
  intros Hq [_ Hu] Ho. apply bar_observe_ok in Hq as [Hp Hi]. unfold observation in Ho.
  destruct (ob_source_at q) as [u|] eqn:Eu; [|done]. destruct (ob_price q) as [x|]; [|done].
  destruct (_ && _); [done|]. injection Ho as <-. constructor; cbn; auto.
Qed.

Lemma take_sample_ok sample h now q :
  hist_ok h → observe sample = Ok q → timely now q → hist_ok (take_sample h now q).1.
Proof using.
  intros Hh Hq Ht. unfold take_sample. destruct (observation q) as [o|] eqn:Eo; [|done].
  pose proof (observation_ok sample q now o Hq Ht Eo) as Ho. destruct (acceptable h now o) eqn:Ea; [|done].
  apply extend_ok; [done..|]. intros l El. unfold acceptable in Ea. rewrite El in Ea. bool_to_prop. done.
Qed.

(** The decision to refuse is the reference's. *)
Lemma rejection_refines h now q :
  hist_ok h → timely now q →
  ∃ reason,
    (if ob_conflict q && bool_decide (ob_identity q = None) then Ok (Some "es_contract_identity_provider_conflict")
     else rejection_reason (ob_source_at q) (ob_price q) now (x_at <$> head h)) = Ok reason
    ∧ match observation q with
      | Some o => bool_decide (reason = None) = acceptable h now o
      | None => reason ≠ None
      end.
Proof using.
  intros Hh [Hnow Hu]. unfold observation, rejection_reason, acceptable, dt_add.
  rewrite (in_life_range now) by (done || (change INTERVAL with 300000000; done)).
  destruct (ob_conflict q && bool_decide (ob_identity q = None)) eqn:Ec.
  { eexists. split; [done|]. by destruct (ob_source_at q), (ob_price q). }
  destruct (ob_source_at q) as [u|]; [|by eexists]. destruct (ob_price q) as [x|]; [|by eexists].
  cbn [x_price x_at]. destruct (fleb x (f_of_Z 0)); [by eexists|]. cbn [mbind res_bind]. eexists. split; [done|]. cbn [negb andb].
  destruct (Z.ltb_spec (now + FUTURE_TOLERANCE_SECONDS * SECOND) u) as [H|H].
  { by rewrite (proj2 (Z.leb_gt _ _)) by done. }
  rewrite (proj2 (Z.leb_le _ _)) by done. destruct (head h) as [l|]; [|done]. cbn [fmap option_fmap option_map andb].
  destruct (Z.leb_spec u (x_at l)), (Z.ltb_spec (x_at l) u); done || lia.
Qed.

Lemma bar_advance_shows st h sample now q :
  shows_state st h → hist_ok h → observe sample = Ok q → timely now q →
  ∃ st', advance_es_bar_state to_et policy st sample now = Ok st'
    ∧ if (take_sample h now q).2 then shows_state st' (take_sample h now q).1
      else vget "last_source_at" st' = vget "last_source_at" st.
Proof using.
  intros Hst Hh Hq Ht. unfold advance_es_bar_state, valid_state. rewrite (ss_schema _ _ _ _ Hst). cbn [is_str].
  rewrite String.eqb_refl. cbv zeta. rewrite Hq. cbn [mbind res_bind]. rewrite (ss_source _ _ _ _ Hst).
  assert (Elast : parse_at (v_opt_time (x_at <$> head h)) = Ok (x_at <$> head h)).
  { destruct h as [|l h]; [done|]. apply parse_at_vtime, in_life_in_range. destruct Hh as [_ H _]. by inversion_clear H as [|? ? []]. }
  rewrite Elast. cbn [mbind res_bind]. destruct (rejection_refines h now q Hh Ht) as (reason & Er & Hr).
  rewrite Er. cbn [mbind res_bind].
  assert (Hdiag : ∀ r, ∃ st', with_diagnostic st now r = Ok st' ∧ vget "last_source_at" st' = vget "last_source_at" st).
  { intros r. destruct Hst as [_ _ _ _ _ (rows & Erows & Hrows) (mas & Emas & Hmas)]. unfold with_diagnostic.
    rewrite Erows, Emas, (closed_rows_read to_et policy h rows), (rth_rows_read to_et policy h mas) by done.
    cbn [mbind res_bind]. eexists. split; [done|]. by look. }
  unfold take_sample. destruct (observation q) as [o|] eqn:Eo.
  - pose proof (observation_ok sample q now o Hq Ht Eo) as Ho. unfold observation in Eo.
    destruct reason as [reason|]; cbn in Hr; rewrite <- Hr; cbn [fst snd]; rewrite <- ?(ss_source _ _ _ _ Hst); [by apply Hdiag|].
    destruct (ob_source_at q) as [u|]; [|done]. destruct (ob_price q) as [x|]; [|done].
    destruct (_ && _); [done|]. injection Eo as <-. apply (bar_accept_shows st h (Obs u x (ob_provider q) (ob_identity q)) now); [done..|].
    intros l El. symmetry in Hr. unfold acceptable in Hr. rewrite El in Hr. bool_to_prop. done.
  - destruct reason as [reason|]; [|done]. cbn [fst snd]. rewrite <- (ss_source _ _ _ _ Hst). by apply Hdiag.
Qed.

(** The state file: absent until a first observation is accepted. *)
Definition file_shows (content : FileContent) (h : list obs) : Prop :=
  match h with
  | [] => content = NoFile
  | _ => ∃ st, content = Json (VDict st) ∧ shows_state st h
  end.

(** What a publication of the writer [w] says of itself. *)
Record marked (w : string) (u : Z) (st : pydict) : Prop := {
  mk_schema : vget "schema_version" st = VStr SCHEMA_VERSION;
  mk_interval : vget "interval_seconds" st = VInt INTERVAL_SECONDS;
  mk_source : vget "last_source_at" st = vtime u;
  mk_writer : vget "writer_instance_id" st = VStr w;
  mk_diagnostics : ∃ d, vget "diagnostics" st = VDict d ∧ vget "canonical_writer" d = VStr TASK_NAME
      ∧ vget "writer_instance_id" d = VStr w;
}.

Lemma shows_state_outside st h k v :
  k ∉ ["schema_version"; "interval_seconds"; "last_source_at"; "contract_identity"; "current_bar"; "closed_bars"; "rth_ma_history"] →
  shows_state st h → shows_state (dset k v st) h.
Proof using.
  intros Hk [H1 H2 H3 H4 H5 H6 H7]. constructor; try rewrite vget_dset_ne by (intros <-; apply Hk; in_list); done.
Qed.

Lemma canon_marked w u st : marked w u st → marked w u (canon_dict st).
Proof using.
  intros [H1 H2 H3 H4 (d & H5 & H6 & H7)]. constructor; rewrite ?vget_canon, ?H1, ?H2, ?H3, ?H4; try done.
  exists (canon_dict d). by rewrite H5, !vget_canon, H6, H7.
Qed.

Lemma file_loads content h :
  file_shows content h →
  ∃ st, load_canonical_state content = Ok st ∧ vget "last_source_at" st = v_opt_time (x_at <$> head h)
    ∧ shows_state (valid_state st) h ∧ valid_state (valid_state st) = valid_state st.
Proof using.
  destruct h as [|l h].
  - intros ->. exists []. split_and!; [done..|apply empty_state_shows|done].
  - intros (st & -> & Hst). exists st. unfold load_canonical_state, valid_state.
    rewrite (ss_schema _ _ _ _ Hst), (ss_interval _ _ _ _ Hst). cbn [is_str]. rewrite !String.eqb_refl.
    rewrite (ss_schema _ _ _ _ Hst). cbn [is_str]. rewrite !String.eqb_refl.
    split_and!; [by rewrite orb_true_r|apply Hst|done|done].
Qed.

Lemma take_sample_head h now q :
  (take_sample h now q).2 = true →
  ∃ o, head (take_sample h now q).1 = Some o ∧ observation q = Some o ∧ ∀ l, head h = Some l → later o l.
Proof using.
  unfold take_sample. destruct (observation q) as [o|]; [|done]. destruct (acceptable h now o) eqn:Ea; [|done]. intros _.
  exists o. split_and!; [|done|].
  - cbn [fst]. unfold extend. destruct (x_identity o), (contract h); try done. by destruct (String.eqb _ _).
  - intros l El. unfold acceptable in Ea. rewrite El in Ea. bool_to_prop. done.
Qed.

Lemma take_sample_refused h now q : (take_sample h now q).2 = false → (take_sample h now q).1 = h.
Proof using. unfold take_sample. destruct (observation q) as [o|]; [|done]. by destruct (acceptable h now o). Qed.

Lemma time_eq_later o h :
  obs_ok o → Forall obs_ok h → (∀ l, head h = Some l → later o l) → py_eq (vtime (x_at o)) (v_opt_time (x_at <$> head h)) = false.
Proof using.
  intros [Ho _ _] Hh Hl. destruct h as [|l h]; [done|]. specialize (Hl l eq_refl). cbn in Hl. inversion_clear Hh as [|? ? [Hlo _ _] _].
  cbn. rewrite isoformat_inj by by apply in_life_in_range. lia.
Qed.

(** One cycle: the file shows the history with the sample, published by the
    writer if the sample was accepted and untouched otherwise. *)
Lemma sample_shows content h sample now q w pid timing :
  file_shows content h → hist_ok h → observe sample = Ok q → timely now q →
  ∃ content' r, run_es_bar_sample_cycle to_et policy true content sample now w pid timing = Ok (content', r)
    ∧ file_shows content' (take_sample h now q).1 ∧ sa_accepted r = (take_sample h now q).2 ∧ sa_writer_instance_id r = w
    ∧ (if sa_accepted r
       then ∃ u st, x_at <$> head (take_sample h now q).1 = Some u ∧ sa_source_at r = vtime u ∧ content' = Json (VDict st)
                    ∧ marked w u st
       else content' = content).
Proof using.
  intros Hf Hh Hq Ht. unfold run_es_bar_sample_cycle, sample_es_bar_once. cbn [negb].
  destruct (file_loads content h Hf) as (st & Eload & Elast & Hst & Evalid). rewrite Eload. cbn [mbind res_bind].
  assert (Eadv : advance_es_bar_state to_et policy st sample now = advance_es_bar_state to_et policy (valid_state st) sample now).
  { unfold advance_es_bar_state. by rewrite Evalid. }
  destruct (bar_advance_shows _ h sample now q Hst Hh Hq Ht) as (st' & E & Hst'). rewrite Eadv, E. cbn [mbind res_bind]. cbv zeta.
  do 2 eexists. split; [done|]. cbn [sa_accepted sa_source_at sa_writer_instance_id]. rewrite Elast.
  destruct (take_sample h now q).2 eqn:Eacc.
  - destruct (take_sample_head h now q Eacc) as (o & Ehead & Eo & Hlater).
    rewrite (ss_source _ _ _ _ Hst'), Ehead. cbn [fmap option_fmap option_map v_opt_time].
    pose proof (observation_ok sample q now o Hq Ht Eo) as Ho.
    rewrite truthy_vtime, time_eq_later by (done || apply Hh). cbn [negb andb]. 
    unfold written_json. change (canon (VDict ?d)) with (VDict (canon_dict d)).
    split_and!; [|done..|].
    + unfold file_shows. destruct (take_sample h now q).1; [done|]. eexists. split; [done|]. apply canon_state.
      apply shows_state_outside; [not_in|]. by apply shows_state_outside; [not_in|].
    + do 2 eexists. split_and!; [done..|]. apply canon_marked. constructor; look; try first [reflexivity|by apply Hst'].
      * rewrite (ss_source _ _ _ _ Hst'), Ehead. done.
      * eexists. split; [done|]. by look.
  - rewrite Hst', (ss_source _ _ _ _ Hst). assert (Ee : ∀ t, truthy (v_opt_time t) && negb (py_eq (v_opt_time t) (v_opt_time t)) = false).
    { intros [t|]; [|done]. cbn. by rewrite String.eqb_refl, andb_false_r. }
    rewrite Ee. split_and!; try done. by rewrite (take_sample_refused _ _ _ Eacc).
Qed.
End step.
