(* ===== verification/EsBarSampling.v ===== *)
(** * Writers and readers of the ES bars

    Sampler processes start, sample, publish their leases, fail and stop in any
    order; each sample is one step, since the state lock holds around it
    ([exclusive_state_lock]).  A reader sees the lease in one world and the bar
    state in a later one. *)

From Stdlib Require Import Ascii ZArith Lia.
From stdpp Require Import sorting numbers base list strings gmap.
From S2P Require Import Prelude PyStr PyFloat PyTime PyDateTime PyDict PyVal PyJson StateIo MarketdataFacts EsBars EsBarSampler EsBarSpec EsBarFacts EsBarRows EsBarRefine.

#[local] Open Scope Z_scope.

(** ** Worlds *)

(** A sampler process: its loop, and how its unfinished cycle ended. *)
Record Process := { p_loop : SamplerLoop; p_outcome : option (string + Sampled) }.

(** The two files and the processes; the accepted observations and the writer
    that accepted the newest are not stored anywhere. *)
Record World := {
  w_state : FileContent;
  w_lease : FileContent;
  w_processes : gmap string Process;
  w_history : list obs;
  w_owner : string;
}.

Definition no_world : World :=
  {| w_state := NoFile; w_lease := NoFile; w_processes := ∅; w_history := []; w_owner := "" |}.

Section sampling.
Context (to_et : Z → Z) (policy : SegmentPolicy).

Inductive step : World → World → Prop :=
  (** [mark_sampler_starting] of a new process, holding the lock *)
  | step_start w id at_ :
      w_processes w !! id = None →
      step w {| w_state := w_state w; w_lease := written_json (mark_sampler_starting id at_);
                w_processes := <[id := {| p_loop := new_loop; p_outcome := None |}]> (w_processes w);
                w_history := w_history w; w_owner := w_owner w |}
  (** [--mark-starting] *)
  | step_mark w id at_ :
      step w {| w_state := w_state w; w_lease := written_json (mark_sampler_starting id at_);
                w_processes := w_processes w; w_history := w_history w; w_owner := w_owner w |}
  (** A cycle reads a sample and may publish; [raised]: it then raises. *)
  | step_sample w id p sample q now pid timing content r raised :
      w_processes w !! id = Some p → p_outcome p = None →
      observe sample = Ok q → timely now q →
      run_es_bar_sample_cycle to_et policy true (w_state w) sample now id pid timing = Ok (content, r) →
      step w {| w_state := content; w_lease := w_lease w;
                w_processes := <[id := {| p_loop := p_loop p;
                                          p_outcome := Some (match raised with Some e => inl e | None => inr r end) |}]> (w_processes w);
                w_history := (take_sample (w_history w) now q).1;
                w_owner := if (take_sample (w_history w) now q).2 then id else w_owner w |}
  (** A cycle raises before it writes, or has nothing to write. *)
  | step_fail w id p e :
      w_processes w !! id = Some p → p_outcome p = None →
      step w {| w_state := w_state w; w_lease := w_lease w;
                w_processes := <[id := {| p_loop := p_loop p; p_outcome := Some (inl e) |}]> (w_processes w);
                w_history := w_history w; w_owner := w_owner w |}
  (** The loop finishes the pass and writes the lease. *)
  | step_finish w id p settings run loop event :
      w_processes w !! id = Some p → p_outcome p = Some (cr_outcome run) → loop_writer_instance_id settings = id →
      finish_cycle settings (p_loop p) run = Ok (loop, event) →
      step w {| w_state := w_state w; w_lease := written_json event;
                w_processes := <[id := {| p_loop := loop; p_outcome := None |}]> (w_processes w);
                w_history := w_history w; w_owner := w_owner w |}
  (** A process ends, in any state. *)
  | step_stop w id :
      step w {| w_state := w_state w; w_lease := w_lease w; w_processes := delete id (w_processes w);
                w_history := w_history w; w_owner := w_owner w |}.

Definition steps : World → World → Prop := rtc step.

(** ** What holds in every world *)

(** Some observation at least as new as [u] has been accepted. *)
Definition accepted_by (h : list obs) (u : Z) : Prop := ∃ l, head h = Some l ∧ u ≤ x_at l.

(** A process, the lease: they only speak of accepted observations. *)
Record process_ok (h : list obs) (p : Process) : Prop := {
  po_loop : ∀ u, last_accepted_source_at (p_loop p) = Some u → in_life u ∧ accepted_by h u;
  po_outcome : ∀ r, p_outcome p = Some (inr r) → sa_accepted r = true →
    ∃ u, sa_source_at r = vtime u ∧ in_life u ∧ accepted_by h u;
}.
Definition lease_ok (h : list obs) (lease : FileContent) : Prop :=
  ∀ u, parse_at (vget "last_accepted_source_at" (json_object lease)) = Ok (Some u) → accepted_by h u.

Record world_ok (w : World) : Prop := {
  wo_history : hist_ok (w_history w);
  wo_state : file_shows to_et policy (w_state w) (w_history w);
  wo_marked : ∀ l, head (w_history w) = Some l → ∃ st, w_state w = Json (VDict st) ∧ marked (w_owner w) (x_at l) st;
  wo_processes : ∀ id p, w_processes w !! id = Some p → process_ok (w_history w) p;
  wo_lease : lease_ok (w_history w) (w_lease w);
}.

(** Nothing was published in between, or something newer was. *)
Definition published_since (w w' : World) : Prop :=
  (w_state w = w_state w' ∧ w_history w = w_history w' ∧ w_owner w = w_owner w')
  ∨ ∃ l', head (w_history w') = Some l' ∧ ∀ l, head (w_history w) = Some l → later l' l.

Lemma published_since_trans w1 w2 w3 :
  published_since w1 w2 → published_since w2 w3 → published_since w1 w3.
Proof using.
  intros [(E1 & E2 & E3)|(l2 & H2 & H12)] [(F1 & F2 & F3)|(l3 & H3 & H23)].
  - left. split_and!; congruence.
  - right. exists l3. rewrite E2. done.
  - right. exists l2. by rewrite <- F2.
  - right. exists l3. split; [done|]. intros l Hl. specialize (H12 l Hl). specialize (H23 l2 H2). cbn in *. lia.
Qed.

Lemma accepted_by_mono w w' u : published_since w w' → accepted_by (w_history w) u → accepted_by (w_history w') u.
Proof using.
  intros [(_ & E & _)|(l' & Hl' & H)] (l & Hl & Hu); [exists l; by rewrite <- E|]. exists l'. split; [done|].
  specialize (H l Hl). cbn in H. lia.
Qed.

(** ** Leases *)

Lemma starting_lease_ok h id at_ : lease_ok h (written_json (mark_sampler_starting id at_)).
Proof using. intros u. rewrite written_reads, vget_canon. unfold mark_sampler_starting. by look_display. Qed.

Lemma mono_process w w' p : published_since w w' → process_ok (w_history w) p → process_ok (w_history w') p.
Proof using.
  intros Hm [H1 H2]. constructor.
  - intros u Hu. destruct (H1 u Hu). split; [done|by apply (accepted_by_mono w)].
  - intros r Hr Ha. destruct (H2 r Hr Ha) as (u & ? & ? & ?). exists u. split_and!; [done..|by apply (accepted_by_mono w)].
Qed.

Lemma mono_lease w w' lease : published_since w w' → lease_ok (w_history w) lease → lease_ok (w_history w') lease.
Proof using. intros Hm H u Hu. apply (accepted_by_mono w); auto. Qed.

Lemma timing_keys k (outcome : string + Sampled) :
  k ∉ SAMPLE_TIMING_FIELDS →
  k ∉ (match outcome with
       | inr r => filter (λ kv, is_none kv.2 = false) (map (λ field, (field, vget field (sa_timing r))) SAMPLE_TIMING_FIELDS)
       | inl _ => []
       end).*1.
Proof using.
  intros Hk. destruct outcome as [e|r]; [by apply not_elem_of_nil|]. intros ([k' v] & -> & Hin)%list_elem_of_fmap.
  apply list_elem_of_filter in Hin as [_ Hin]. apply Hk. apply list_elem_of_In, in_map_iff in Hin as (f & [= <- _] & Hf).
  by apply list_elem_of_In.
Qed.

(** The pass reports the newest observation that its process has accepted. *)
Lemma finish_cycle_source settings l run l' event :
  finish_cycle settings l run = Ok (l', event) →
  vget "last_accepted_source_at" event = v_opt_time (last_accepted_source_at l')
  ∧ (last_accepted_source_at l' = last_accepted_source_at l
     ∨ ∃ r, cr_outcome run = inr r ∧ sa_accepted r = true ∧ parse_at (sa_source_at r) = Ok (last_accepted_source_at l')).
Proof using.
  unfold finish_cycle. intros H. res_inv. destruct x as [[accepted source] rejection]. res_inv. split.
  - rewrite vget_dmerge by (apply timing_keys; not_in). cbn [last_accepted_source_at]. by look_display.
  - cbn [last_accepted_source_at]. destruct accepted; [|by left]. right. destruct (cr_outcome run) as [e|r]; [done|].
    exists r. split; [done|]. cbn [judge_cycle] in H0. res_inv.
    by apply andb_true_iff in H0 as [[? _]%andb_true_iff _].
Qed.

(** ** Steps *)

(** A change that publishes nothing. *)
Lemma same_published w w' : w_state w = w_state w' → w_history w = w_history w' → w_owner w = w_owner w' → published_since w w'.
Proof using. by left. Qed.

Lemma quiet_ok w w' :
  world_ok w → w_state w = w_state w' → w_history w = w_history w' → w_owner w = w_owner w' →
  (∀ id p, w_processes w' !! id = Some p → process_ok (w_history w) p) → lease_ok (w_history w) (w_lease w') → world_ok w'.
Proof using. intros [H1 H2 H3 H4 H5] Es Eh Eo Hp Hl. constructor; rewrite <- ?Es, <- ?Eh, <- ?Eo; done. Qed.

(** The processes but for one. *)
Lemma processes_insert h (m : gmap string Process) i (p : Process) :
  (∀ id p, m !! id = Some p → process_ok h p) → process_ok h p →
  ∀ id p', <[i := p]> m !! id = Some p' → process_ok h p'.
Proof using. intros Hm Hp id p'. rewrite lookup_insert. case_decide; [by intros [= <-]|apply Hm]. Qed.

Lemma process_quiet h p outcome :
  process_ok h p → (∀ r, outcome ≠ Some (inr r)) → process_ok h {| p_loop := p_loop p; p_outcome := outcome |}.
Proof using. intros [H1 H2] Ho. constructor; [done|]. intros r E. by apply Ho in E. Qed.

Lemma finished_ok w id p settings run loop event :
  world_ok w → w_processes w !! id = Some p → p_outcome p = Some (cr_outcome run) →
  finish_cycle settings (p_loop p) run = Ok (loop, event) →
  process_ok (w_history w) {| p_loop := loop; p_outcome := None |} ∧ lease_ok (w_history w) (written_json event).
Proof using.
  intros Hw Hp Ho Hf. apply finish_cycle_source in Hf as [Hevent Hloop]. destruct (wo_processes w Hw id p Hp) as [H1 H2].
  assert (Hsource : ∀ u, last_accepted_source_at loop = Some u → in_life u ∧ accepted_by (w_history w) u).
  { intros u Hu. destruct Hloop as [E|(r & Er & Ha & E)]; [apply H1; congruence|].
    destruct (H2 r ltac:(congruence) Ha) as (u' & Eu' & Hlife & Hacc). rewrite Eu', parse_at_vtime in E by by apply in_life_in_range.
    injection E as E. by replace u with u' by congruence. }
  split; [by constructor|]. intros u. rewrite written_reads, vget_canon, Hevent.
  destruct (last_accepted_source_at loop) as [u'|] eqn:El; [|done]. destruct (Hsource u' eq_refl) as [Hlife Hacc].
  cbn [v_opt_time canon]. change (canon (vtime u')) with (vtime u'). rewrite parse_at_vtime by by apply in_life_in_range. by intros [= <-].
Qed.

Lemma sampled_ok w id p sample q now pid timing content r raised :
  world_ok w → w_processes w !! id = Some p → observe sample = Ok q → timely now q →
  run_es_bar_sample_cycle to_et policy true (w_state w) sample now id pid timing = Ok (content, r) →
  let w' := {| w_state := content; w_lease := w_lease w;
               w_processes := <[id := {| p_loop := p_loop p;
                                         p_outcome := Some (match raised with Some e => inl e | None => inr r end) |}]> (w_processes w);
               w_history := (take_sample (w_history w) now q).1;
               w_owner := if (take_sample (w_history w) now q).2 then id else w_owner w |} in
  world_ok w' ∧ published_since w w'.
Proof using.
  intros Hw Hp Hq Ht Hrun w'. destruct Hw as [H1 H2 H3 H4 H5].
  destruct (sample_shows to_et policy (w_state w) (w_history w) sample now q id pid timing H2 H1 Hq Ht)
    as (content' & r' & E & Hfile & Hacc & _ & Hpub). rewrite Hrun in E. injection E as <- <-.
  assert (Hm : published_since w w').
  { destruct (take_sample (w_history w) now q).2 eqn:Et.
    - destruct (take_sample_head _ _ _ Et) as (o & Ho & _ & Hl). right. exists o. done.
    - left. cbn. rewrite Hacc in Hpub. rewrite ?Et, (take_sample_refused _ _ _ Et). by rewrite Hpub. }
  split; [|exact Hm]. constructor; cbn [w_history w_state w_owner w_processes w_lease w'].
  - by apply (take_sample_ok sample).
  - exact Hfile.
  - intros l Hl. destruct (take_sample (w_history w) now q).2 eqn:Et; rewrite Hacc in Hpub.
    + destruct Hpub as (u & st & Eu & _ & Ec & Hmark). exists st. rewrite Hl in Eu. cbn in Eu. by injection Eu as <-.
    + rewrite Hpub. apply H3. by rewrite (take_sample_refused _ _ _ Et) in Hl.
  - apply processes_insert; [intros i p' Hi; apply (mono_process w w' p' Hm), (H4 i p' Hi)|]. constructor.
    + intros u Hu. destruct (po_loop _ _ (H4 id p Hp) u Hu). split; [done|]. by apply (accepted_by_mono w w').
    + intros r' Er Ha. cbn [p_outcome] in Er. destruct raised; [done|]. injection Er as <-. rewrite Ha in Hpub.
      destruct Hpub as (u & st & Eu & Es & _ & _). exists u. apply fmap_Some in Eu as (l & El & ->).
      pose proof (take_sample_ok sample (w_history w) now q H1 Hq Ht) as [_ Hobs _].
      split_and!; [done| |exists l; split; [done|lia]]. rewrite Forall_forall in Hobs. apply Hobs.
      destruct (take_sample _ _ _).1; [done|]. injection El as ->. by left.
  - by apply (mono_lease w w').
Qed.

Lemma bar_step_ok w w' : step w w' → world_ok w → world_ok w' ∧ published_since w w'.
Proof using.
  intros Hs Hw. pose proof (wo_processes w Hw) as Hp. pose proof (wo_lease w Hw) as Hl. destruct Hs.
  - split; [|by left]. apply (quiet_ok w); [done..| |apply starting_lease_ok]. by apply processes_insert.
  - split; [|by left]. apply (quiet_ok w); [done..|apply starting_lease_ok].
  - by apply (sampled_ok w id p sample q now pid timing content r raised).
  - split; [|by left]. apply (quiet_ok w); [done..| |done]. apply processes_insert; [done|]. apply process_quiet; [by eapply Hp|done].
  - destruct (finished_ok w id p settings run loop event) as [H1' H2']; [done..|]. split; [|by left].
    apply (quiet_ok w); [done..| |done]. by apply processes_insert.
  - split; [|by left]. apply (quiet_ok w); [done..| |done]. cbn [w_processes]. intros i p'. rewrite lookup_delete.
    case_decide; [done|apply Hp].
Qed.

Lemma no_world_ok : world_ok no_world.
Proof using.
  constructor; cbn; [apply hist_ok_nil|done|done| |].
  - intros id p. by rewrite lookup_empty.
  - intros u. done.
Qed.

Lemma bar_steps_ok w w' : steps w w' → world_ok w → world_ok w' ∧ published_since w w'.
Proof using.
  induction 1 as [w|w1 w2 w3 H12 _ IH]; intros Hw; [split; [done|by left]|].
  destruct (bar_step_ok w1 w2 H12 Hw) as [H2 M12]. destruct (IH H2) as [H3 M23]. split; [done|by apply (published_since_trans _ w2)].
Qed.
End sampling.

(** ** Readiness *)

Lemma note_nil b s : note b s = [] → b = false.
Proof. by destruct b. Qed.

(** What a ready lease and state agree on. *)
Record agreed (lease state : pydict) (now : Z) (max_age : float) (u : Z) (w : string) : Prop := {
  ag_lease_source : parse_at (vget "last_accepted_source_at" lease) = Ok (Some u);
  ag_state_source : parse_at (vget "last_source_at" state) = Ok (Some u);
  ag_lease_writer : text_of (vget "writer_instance_id" lease) = Some w;
  ag_state_writer : text_of (vget "writer_instance_id" state) = Some w;
  ag_fresh : fresh_age (age_seconds now (Some u)) max_age TOLERANCE = true;
  ag_ok : is_true (vget "ok" lease) = true;
}.

Lemma time_reasons_nil t fresh a b : time_reasons t fresh a b = [] → ∃ u, t = Some u ∧ fresh = true.
Proof. destruct t as [u|]; [|done]. destruct fresh; [|done]. by exists u. Qed.

Lemma lease_reasons_nil lease : lease_reasons lease = [] → is_true (vget "ok" lease) = true.
Proof.
  unfold lease_reasons. intros H. repeat match type of H with _ ++ _ = [] => apply app_nil in H as [? H] end.
  match goal with H : note _ "lease_not_healthy" = [] |- _ => by apply note_nil, negb_false_iff in H end.
Qed.

Lemma writer_reasons_nil lease state :
  writer_reasons lease state = [] →
  ∃ w, text_of (vget "writer_instance_id" lease) = Some w ∧ text_of (vget "writer_instance_id" state) = Some w.
Proof.
  unfold writer_reasons. intros H. repeat match type of H with _ ++ _ = [] => apply app_nil in H as [? H] end.
  destruct (text_of (vget "writer_instance_id" lease)) as [w|]; [|done].
  destruct (text_of (vget "writer_instance_id" state)) as [w'|]; [|done].
  match goal with H : note _ "writer_instance_mismatch" = [] |- _ => apply note_nil, negb_false_iff, String.eqb_eq in H as -> end.
  by exists w'.
Qed.

Lemma ready_agreed lease state now max_age r :
  evaluate_es_bar_consumer_readiness lease state now max_age = Ok r → is_true (vget "ready" r) = true →
  ∃ u w, agreed lease state now max_age u w.
Proof.
  unfold evaluate_es_bar_consumer_readiness. intros H Hr. res_inv.
  match type of Hr with context [bool_decide (dedup_keep_first [] ?l = [])] => set (reasons := l) in * end.
  revert Hr. look_display. cbn [is_true]. intros Hr.
  destruct (bool_decide (dedup_keep_first [] reasons = [])) eqn:Ed; [|done]. apply bool_decide_eq_true_1, dedup_nil in Ed.
  subst reasons. clear Hr. repeat match type of Ed with _ ++ _ = [] => apply app_nil in Ed as [? Ed] end.
  match goal with H : lease_reasons lease = [] |- _ => apply lease_reasons_nil in H as Hok end.
  match goal with H : writer_reasons lease state = [] |- _ => apply writer_reasons_nil in H as (w & Hw1 & Hw2) end.
  match goal with H : time_reasons x2 _ _ _ = [] |- _ => apply time_reasons_nil in H as (u & -> & Hfresh) end.
  apply note_nil in Ed. cbn [is_none_opt orb] in Ed. apply negb_false_iff, bool_decide_eq_true_1 in Ed. subst x3.
  by exists u, w.
Qed.

(** A ready reading comes from one of the attempts. *)
Lemma read_attempts_ready reads n now max_age last st r :
  read_attempts n reads now max_age last = Ok (st, r) → is_true (vget "ready" r) = true → is_true (vget "ready" last.2) = false →
  ∃ lease content u w, (lease, content) ∈ reads ∧ st = json_object content ∧ agreed (json_object lease) st now max_age u w.
Proof.
  revert n last. induction reads as [|[lease content] reads IH]; intros n last H Hr Hl; cbn [read_attempts] in H.
  { injection H as ->. cbn in Hl. congruence. }
  apply res_bind_ok in H as (? & ->%read_json_ok & H). apply res_bind_ok in H as (? & ->%read_json_ok & H).
  res_inv. rename x into r0. rewrite vget_dset_lit in H by done. destruct (is_true (vget "ready" r0)) eqn:E0.
  - injection H as <- <-. destruct (ready_agreed _ _ _ _ _ H0 E0) as (u & w & Ha). exists lease, content, u, w.
    split_and!; [by left|done..].
  - destruct (IH _ _ H Hr) as (lease' & content' & u & w & Hin & ? & ?); [cbn [snd]; by rewrite vget_dset_lit|].
    exists lease', content', u, w. split_and!; [by right|done..].
Qed.
