(* ===== verification/EsBarProps.v ===== *)
(** * Properties of the ES bars

    The state file after any run of sampler cycles against the reference bars,
    and what a consumer of the two files gets while samplers write them. *)

From Stdlib Require Import Ascii ZArith Lia.
From stdpp Require Import sorting numbers base list strings gmap.
From S2P Require Import Prelude PyStr PyFloat PyTime PyDateTime PyDict PyVal PyJson StateIo MarketdataFacts EsBars EsBarSampler EsBarSpec EsBarFacts EsBarRows EsBarRefine EsBarSampling.

#[local] Open Scope Z_scope.

(** ** A run of cycles *)

Record Cycle := { cy_sample : pydict; cy_now : Z; cy_writer : string; cy_pid : Z; cy_timing : pydict }.

(** The cycles of one sampler or of several, one after the other. *)
Fixpoint run_cycles (to_et : Z → Z) (policy : SegmentPolicy) (content : FileContent) (cycles : list Cycle) : res FileContent :=
  match cycles with
  | [] => Ok content
  | c :: cycles =>
      '(content, _) ← run_es_bar_sample_cycle to_et policy true content (cy_sample c) (cy_now c) (cy_writer c) (cy_pid c) (cy_timing c);
      run_cycles to_et policy content cycles
  end.

(** The observations that the samples add to a history. *)
Definition take_samples (h : list obs) (samples : list (Z * Observed)) : list obs :=
  foldl (λ h s, (take_sample h s.1 s.2).1) h samples.

(** A cycle runs at the time [s.1] and observes [s.2]. *)
Definition observes (c : Cycle) (s : Z * Observed) : Prop :=
  s.1 = cy_now c ∧ observe (cy_sample c) = Ok s.2 ∧ timely s.1 s.2.

Lemma run_cycles_shows to_et policy cycles samples content h :
  Forall2 observes cycles samples → hist_ok h → file_shows to_et policy content h →
  ∃ content', run_cycles to_et policy content cycles = Ok content' ∧ file_shows to_et policy content' (take_samples h samples)
    ∧ hist_ok (take_samples h samples).
Proof.
  intros H. revert content h. induction H as [|c [now q] cycles samples [E [Hq Ht]] _ IH]; intros content h Hh Hf; [by exists content|].
  cbn in E, Hq, Ht. subst now.
  destruct (sample_shows to_et policy content h (cy_sample c) (cy_now c) q (cy_writer c) (cy_pid c) (cy_timing c) Hf Hh Hq Ht)
    as (content' & r & Er & Hf' & _).
  destruct (IH content' (take_sample h (cy_now c) q).1) as (content'' & E' & ? & ?); [by apply (take_sample_ok (cy_sample c))|done|].
  exists content''. cbn [run_cycles]. rewrite Er. cbn [mbind res_bind]. by rewrite E'.
Qed.

(** C17: For every sequence of sampler cycles from no file, whatever quotes they
    see, no cycle fails, and the state file they leave shows exactly the
    reference bars of the observations that were accepted: the open bar, the
    last 432 closed bars and the last 320 bars of regular hours, with their
    prices, gaps, counts, contract and quality; and a reference bar holds just
    the accepted observations of its five minutes. *)
Theorem es_bars_aggregate to_et policy cycles samples :
  Forall2 observes cycles samples →
  let h := take_samples [] samples in
  ∃ content, run_cycles to_et policy NoFile cycles = Ok content
    ∧ file_shows to_et policy content h
    ∧ StronglySorted later h
    ∧ StronglySorted (λ b b', b_start b' < b_start b) (bars h)
    ∧ concat (map b_obs (bars h)) = h
    ∧ ∀ b, b ∈ bars h → b_obs b ≠ [] ∧ b_obs b = filter (λ o, bucket (x_at o) = b_start b) h.
Proof.
  intros H h. destruct (run_cycles_shows to_et policy cycles samples NoFile [] H hist_ok_nil eq_refl) as (content & E & Hf & [Hl _ _]).
  exists content. split_and!; [done..|by apply bars_sorted|apply bars_concat|].
  intros b Hb. split; [|by apply bars_members]. pose proof (bars_one_bucket h) as Ho. rewrite Forall_forall in Ho. by apply Ho.
Qed.

(** ** Consumers *)

(** The completed bars of a state are closed reference bars, the kept ones all among them. *)
Record are_closed_bars (to_et : Z → Z) (policy : SegmentPolicy) (rows : list pydict) (h : list obs) : Prop := {
  ac_closed : ∀ row, row ∈ rows → ∃ b, b ∈ closed_bars h ∧ shows_compact to_et policy (quality_of b) row b;
  ac_kept : ∀ b, b ∈ kept_bars h → ∃ row, row ∈ rows ∧ shows_compact to_et policy (quality_of b) row b;
  ac_sorted : StronglySorted (key_lt bar_start_of) rows;
}.

Lemma completed_shows to_et policy st h :
  hist_ok h → shows_state to_et policy st h →
  ∃ rows, completed_es_bars st = Ok rows ∧ are_closed_bars to_et policy rows h.
Proof.
  intros Hh Hst. unfold completed_es_bars, valid_state. rewrite (ss_schema _ _ _ _ Hst). cbn [is_str]. rewrite String.eqb_refl.
  destruct Hst as [_ _ _ _ _ (rows & Erows & Hrows) (mas & Emas & Hmas)]. cbv zeta. rewrite Erows, Emas.
  rewrite (closed_rows_read to_et policy h rows), (rth_rows_read to_et policy h mas) by done. cbn [mbind res_bind].
  eexists. split; [done|]. destruct (kept_ok h Hh) as [okK soK]. destruct (kept_rth_ok to_et policy h Hh) as (okR & soR & _).
  assert (HK : Forall2 (shows to_et policy) rows (kept_bars h)) by (eapply Forall2_impl; [exact Hrows|apply shows_closed_shows]).
  assert (HR : Forall2 (shows to_et policy) mas (kept_rth_bars to_et policy h))
    by (eapply Forall2_impl; [exact Hmas|apply compacted_shows]).
  pose proof (λ r, merge_elem mas rows r (rows_sorted _ _ _ _ HR okR soR) (rows_sorted _ _ _ _ HK okK soK)
                (rows_starts _ _ _ _ HR) (rows_starts _ _ _ _ HK)) as Hin.
  constructor; [| |apply merge_sorted].
  - intros r [Hr|[Hr _]]%Hin.
    + destruct (Forall2_elem_l _ _ _ _ Hrows Hr) as (b & Hb & H). exists b. split; [|by apply shows_closed_compact].
      by apply last_items_elem in Hb.
    + destruct (Forall2_elem_l _ _ _ _ Hmas Hr) as (b & Hb & H). exists b. split; [|done].
      apply last_items_elem, list_elem_of_filter in Hb. by apply Hb.
  - intros b Hb. destruct (Forall2_elem_r _ _ _ _ Hrows Hb) as (r & Hr & H). exists r. split; [apply Hin; by left|].
    by apply shows_closed_compact.
Qed.

(** Two files read one after the other are one publication. *)
Lemma agreed_snapshot to_et policy w1 w2 now max_age u w :
  steps to_et policy no_world w1 → steps to_et policy w1 w2 →
  agreed (json_object (w_lease w1)) (json_object (w_state w2)) now max_age u w →
  ∃ l st, head (w_history w2) = Some l ∧ u = x_at l ∧ w = w_owner w2
    ∧ w_state w2 = Json (VDict st) ∧ shows_state to_et policy st (w_history w2) ∧ hist_ok (w_history w2)
    ∧ w_state w1 = w_state w2 ∧ w_history w1 = w_history w2.
Proof.
  intros H1 H12 [Hls Hss _ Hsw _ _]. destruct (bar_steps_ok to_et policy _ _ H1 (no_world_ok to_et policy)) as [Hw1 _].
  destruct (bar_steps_ok to_et policy _ _ H12 Hw1) as [Hw2 Hm]. destruct (w_history w2) as [|l h] eqn:Eh.
  { pose proof (wo_state _ _ _ Hw2) as Hf. rewrite Eh in Hf. cbn in Hf. by rewrite Hf in Hss. }
  pose proof (wo_state _ _ _ Hw2) as Hf. rewrite Eh in Hf. destruct Hf as (st & Est & Hst).
  destruct (wo_marked _ _ _ Hw2 l) as (st' & Est' & Hmark); [by rewrite Eh|]. rewrite Est in Est'. injection Est' as <-.
  rewrite Est in Hss, Hsw. change (json_object (Json (VDict st))) with st in *.
  pose proof (wo_history _ _ _ Hw2) as Hh. rewrite Eh in Hh.
  assert (Hlife : in_life (x_at l)). { destruct Hh as [_ Ho _]. by inversion_clear Ho as [|? ? []]. }
  rewrite (mk_source _ _ _ Hmark), parse_at_vtime in Hss by by apply in_life_in_range. injection Hss as <-.
  rewrite (mk_writer _ _ _ Hmark) in Hsw. cbn in Hsw. destruct (String.eqb (w_owner w2) ""); [done|]. injection Hsw as <-.
  exists l, st. split_and!; try done.
  all: destruct Hm as [(? & ? & ?)|(l' & El' & Hnew)]; [congruence|].
  all: destruct (wo_lease _ _ _ Hw1 _ Hls) as (l1 & El1 & Hle); specialize (Hnew l1 El1); rewrite Eh in El'.
  all: injection El' as <-; cbn in Hnew; lia.
Qed.

(** An intent that keeps an actionable status was judged with ready bars. *)
Lemma fenced_actionable intent readiness intent' :
  fence_rth_trade_intent_authority intent readiness = Ok intent' → actionable_status (vget "status" intent') = Ok true →
  is_true (vget "ready" readiness) = true.
Proof.
  unfold fence_rth_trade_intent_authority. intros H Ha. res_inv. destruct (is_true (vget "ready" readiness)); [done|].
  destruct x; cbn [negb orb] in H.
  - res_inv. subst. unfold dmerge in Ha. cbn [fold_left fst snd] in Ha. revert Ha. look. intros Ha. discriminate Ha.
  - res_inv. congruence.
Qed.

Lemma load_ready reads now max_age bars readiness :
  load_consumable_es_bars reads now max_age = Ok (bars, readiness) → bars ≠ [] ∨ is_true (vget "ready" readiness) = true →
  ∃ lease content u w, (lease, content) ∈ reads ∧ agreed (json_object lease) (json_object content) now max_age u w
    ∧ completed_es_bars (json_object content) = Ok bars.
Proof.
  unfold load_consumable_es_bars. intros H Hor. res_inv. destruct x as [state r]. res_inv. subst.
  rename x into ready, H0 into Hread, H1 into Hready, H2 into Hbars.
  assert (Er : vget "ready" readiness = ready) by by apply vindex_vget.
  destruct (is_true ready) eqn:Et.
  - destruct (read_attempts_ready _ _ _ _ _ _ _ Hread) as (lease & content & u & w & Hin & -> & Ha); [congruence|done|].
    exists lease, content, u, w. split_and!; [by apply elem_of_take in Hin as (i & Hi & _); eapply list_elem_of_lookup_2|done..].
  - injection Hbars as <-. destruct Hor as [?|Hr]; [done|]. congruence.
Qed.

(** C6: Whatever samplers start, sample, fail and stop while a consumer reads the
    lease and then the state, up to three times: if it gets a bar, or if a trade
    intent keeps its authority, then some attempt read the two files of one
    publication, as if at once, by the writer of the lease; its newest
    observation is the one that the lease reports and is fresh; and the bars are
    the closed reference bars of the published observations. *)
Theorem consumer_reads_one_publication to_et policy reads now max_age bars readiness intent intent' :
  Forall (λ r, steps to_et policy no_world r.1 ∧ steps to_et policy r.1 r.2) reads →
  load_consumable_es_bars (map (λ r, (w_lease r.1, w_state r.2)) reads) now max_age = Ok (bars, readiness) →
  fence_rth_trade_intent_authority intent readiness = Ok intent' →
  bars ≠ [] ∨ actionable_status (vget "status" intent') = Ok true →
  ∃ w1 w2 l, (w1, w2) ∈ reads ∧ w_state w1 = w_state w2 ∧ w_history w1 = w_history w2
    ∧ head (w_history w2) = Some l
    ∧ parse_at (vget "last_accepted_source_at" (json_object (w_lease w1))) = Ok (Some (x_at l))
    ∧ text_of (vget "writer_instance_id" (json_object (w_lease w1))) = Some (w_owner w2)
    ∧ is_true (vget "ok" (json_object (w_lease w1))) = true
    ∧ fresh_age (age_seconds now (Some (x_at l))) max_age TOLERANCE = true
    ∧ are_closed_bars to_et policy bars (w_history w2).
Proof.
  intros Hreads Hload Hfence Hor.
  destruct (load_ready _ _ _ _ _ Hload) as (lease & content & u & w & Hin & Ha & Hbars).
  { destruct Hor as [?|Hact]; [by left|]. right. by apply (fenced_actionable intent readiness intent'). }
  apply list_elem_of_fmap in Hin as ([w1 w2] & [= -> ->] & Hin). rewrite Forall_forall in Hreads.
  destruct (Hreads _ Hin) as [H1 H12]. cbn [fst snd] in *.
  destruct (agreed_snapshot to_et policy w1 w2 now max_age u w H1 H12 Ha)
    as (l & st & El & -> & -> & Est & Hst & Hh & Es & Eh).
  exists w1, w2, l. destruct Ha as [A1 _ A3 _ A5 A6]. split_and!; try done.
  destruct (completed_shows to_et policy st (w_history w2) Hh Hst) as (rows & Erows & Hrows).
  rewrite Est in Hbars. change (json_object (Json (VDict st))) with st in Hbars. rewrite Erows in Hbars. by injection Hbars as <-.
Qed.

(** ** Examples *)

Definition demo_policy : SegmentPolicy :=
  {| asia_end_et := time_hm 3 0; europe_end_et := time_hm 8 0; premarket_end_et := time_hm 9 30; rth_end_et := time_hm 16 0;
     curb_end_et := time_hm 17 0 |}.
Definition demo_et (u : Z) : Z := u - 5 * HOUR.

(** 2024-01-02 14:30 UTC, and some seconds later. *)
Definition demo_at (s : Z) : Z := EPOCH + (1704205800 + s) * SECOND.
Definition demo_sample (s : Z) (price : Z) : pydict :=
  [("instruments", VDict [("future:ES", VDict [("source_at", vtime (demo_at s)); ("price", VFloat (f_of_Z price));
                                               ("provider", VStr "ibkr"); ("contract_identity", VStr "ESH4")])])].
Definition demo_observed (s price : Z) : Observed :=
  {| ob_source_at := Some (demo_at s); ob_price := Some (f_of_Z price); ob_provider := "ibkr"; ob_identity := Some "ESH4";
     ob_conflict := false |}.
Definition demo_cycle (s price : Z) : Cycle :=
  {| cy_sample := demo_sample s price; cy_now := demo_at (s + 1); cy_writer := "w1"; cy_pid := 7; cy_timing := [] |}.

(** Two observations of one bar and one of the next. *)
Lemma es_bars_aggregate_witness :
  let cycles := [demo_cycle 2 4790; demo_cycle 7 4795; demo_cycle 301 4793] in
  let samples := [(demo_at 3, demo_observed 2 4790); (demo_at 8, demo_observed 7 4795); (demo_at 302, demo_observed 301 4793)] in
  map (λ b, length (b_obs b)) (bars (take_samples [] samples)) = [1; 2]%nat
  ∧ ∃ content, run_cycles demo_et demo_policy NoFile cycles = Ok content
      ∧ file_shows demo_et demo_policy content (take_samples [] samples).
Proof.
  intros cycles samples. split; [vm_compute; reflexivity|].
  destruct (es_bars_aggregate demo_et demo_policy cycles samples) as (content & E & H & _).
  - assert (Hone : ∀ s price, 0 ≤ s ≤ 1000 → observe (demo_sample s price) = Ok (demo_observed s price) →
              observes (demo_cycle s price) (demo_at (s + 1), demo_observed s price)).
    { intros s price Hs Ho. split; [reflexivity|]. split; [exact Ho|].
      assert (Hlife : ∀ t, 0 ≤ t ≤ 1001 → in_life (demo_at t)).
      { intros t Ht. unfold in_life, demo_at. change SECOND with 1000000. change (2 ^ 32) with 4294967296. lia. }
      constructor; [apply Hlife; lia|]. intros u [= <-]. apply Hlife. lia. }
    unfold cycles, samples. apply Forall2_cons_2; [apply (Hone 2 4790); [lia|vm_compute; reflexivity]|].
    apply Forall2_cons_2; [apply (Hone 7 4795); [lia|vm_compute; reflexivity]|].
    apply Forall2_cons_2; [apply (Hone 301 4793); [lia|vm_compute; reflexivity]|]. apply Forall2_nil_2.
  - exists content. split; [exact E|exact H].
Defined.

(** One sampler: it starts, samples and publishes its lease. *)
Definition demo_started : World :=
  {| w_state := NoFile; w_lease := written_json (mark_sampler_starting "w1" (demo_at 0));
     w_processes := <["w1" := {| p_loop := new_loop; p_outcome := None |}]> ∅; w_history := []; w_owner := "" |}.
Definition demo_result : FileContent * Sampled :=
  match run_es_bar_sample_cycle demo_et demo_policy true NoFile (demo_sample 2 4790) (demo_at 3) "w1" 7 [] with
  | Ok r => r
  | Err _ => (NoFile, {| sa_accepted := false; sa_source_at := VNone; sa_rejection := VNone; sa_writer_instance_id := ""; sa_timing := [] |})
  end.
Definition demo_sampled : World :=
  {| w_state := demo_result.1; w_lease := w_lease demo_started;
     w_processes := <["w1" := {| p_loop := new_loop; p_outcome := Some (inr demo_result.2) |}]> (w_processes demo_started);
     w_history := (take_sample [] (demo_at 3) (demo_observed 2 4790)).1;
     w_owner := if (take_sample [] (demo_at 3) (demo_observed 2 4790)).2 then "w1" else "" |}.
Definition demo_settings : LoopSettings :=
  {| interval_seconds := f_of_Z 5; max_source_age_seconds := f_of_Z 15; max_consecutive_failures := 3; max_cycles := None;
     loop_writer_instance_id := "w1" |}.
Definition demo_run : CycleRun :=
  {| cr_started_at := demo_at 2; cr_finished_at := demo_at 3; cr_started_monotonic := f_of_Z 10; cr_finished_monotonic := f_of_Z 11;
     cr_outcome := inr demo_result.2 |}.
Definition demo_pass : SamplerLoop * pydict :=
  match finish_cycle demo_settings new_loop demo_run with Ok r => r | Err _ => (new_loop, []) end.
Definition demo_leased : World :=
  {| w_state := w_state demo_sampled; w_lease := written_json demo_pass.2;
     w_processes := <["w1" := {| p_loop := demo_pass.1; p_outcome := None |}]> (w_processes demo_sampled);
     w_history := w_history demo_sampled; w_owner := w_owner demo_sampled |}.

Lemma demo_steps : steps demo_et demo_policy no_world demo_leased.
Proof.
  eapply rtc_l; [apply (step_start demo_et demo_policy no_world "w1" (demo_at 0)); reflexivity|].
  eapply rtc_l; [apply (step_sample demo_et demo_policy demo_started "w1" {| p_loop := new_loop; p_outcome := None |}
    (demo_sample 2 4790) (demo_observed 2 4790) (demo_at 3) 7 [] demo_result.1 demo_result.2 None)|].
  1-3: reflexivity.
  - constructor; [|intros u [= <-]]; unfold in_life, demo_at; change SECOND with 1000000; change (2 ^ 32) with 4294967296; lia.
  - vm_compute. reflexivity.
  - eapply rtc_l; [apply (step_finish demo_et demo_policy demo_sampled "w1" {| p_loop := new_loop; p_outcome := Some (inr demo_result.2) |}
      demo_settings demo_run demo_pass.1 demo_pass.2)|apply rtc_refl].
    1-3: reflexivity. vm_compute. reflexivity.
Qed.

Definition demo_load : list pydict * pydict :=
  match load_consumable_es_bars [(w_lease demo_leased, w_state demo_leased)] (demo_at 4) (f_of_Z 15) with
  | Ok r => r
  | Err _ => ([], [])
  end.
Definition demo_intent : pydict := [("status", VStr "trade_ready")].

Lemma consumer_reads_one_publication_witness :
  load_consumable_es_bars [(w_lease demo_leased, w_state demo_leased)] (demo_at 4) (f_of_Z 15) = Ok demo_load
  ∧ fence_rth_trade_intent_authority demo_intent demo_load.2 = Ok demo_intent
  ∧ ∃ l, head (w_history demo_leased) = Some l ∧ x_at l = demo_at 2.
Proof.
  assert (E1 : load_consumable_es_bars [(w_lease demo_leased, w_state demo_leased)] (demo_at 4) (f_of_Z 15) = Ok demo_load)
    by (vm_compute; reflexivity).
  assert (E2 : fence_rth_trade_intent_authority demo_intent demo_load.2 = Ok demo_intent) by (vm_compute; reflexivity).
  split; [exact E1|]. split; [exact E2|].
  destruct (consumer_reads_one_publication demo_et demo_policy [(demo_leased, demo_leased)] (demo_at 4) (f_of_Z 15)
              demo_load.1 demo_load.2 demo_intent demo_intent) as (w1 & w2 & l & Hin & _ & _ & Hl & Hu & _).
  - apply Forall_singleton. split; [exact demo_steps|apply rtc_refl].
  - exact E1.
  - exact E2.
  - right. reflexivity.
  - apply list_elem_of_singleton in Hin. injection Hin as -> ->. exists l. split; [exact Hl|].
    assert (E : parse_at (vget "last_accepted_source_at" (json_object (w_lease demo_leased))) = Ok (Some (demo_at 2)))
      by (vm_compute; reflexivity).
    rewrite E in Hu. congruence.
Defined.
