(* ===== verification/RuntimeMode.v ===== *)
(** * Runtime mode ([runtime_mode.py])

    The operator's override of what the IBKR stream may do, its two files, and
    the gate that puts the override before the schedule of the runtime policy
    ([config_ibkr.py]) and the failover control. *)

From stdpp Require Import base list strings.
From Stdlib Require Import Ascii ZArith Lia.
From S2P Require Import Prelude PyStr PyFloat PyTime PyDateTime PyDict PyVal PyJson StateIo MarketCalendar ProviderFailover FailoverController.

#[local] Open Scope Z_scope.

(** [s.replace(old, new)] for a text [old] that is not empty; the first
    characters of [s] that are [skip]ped belong to an occurrence. *)
Fixpoint str_replace_from (skip : nat) (old new s : string) : string :=
  match s with
  | "" => ""
  | String c s' =>
      match skip with
      | S skip => str_replace_from skip old new s'
      | O => if str_starts old s then new +:+ str_replace_from (pred (String.length old)) old new s'
             else String c (str_replace_from 0 old new s')
      end
  end.
Definition str_replace (old new s : string) : string := str_replace_from 0 old new s.

Example str_replace_test : str_replace "ab" "X" "aababcab" = "aXXcX" ∧ str_replace "aa" "b" "aaa" = "ba".
Proof. done. Qed.

(** ** Overrides *)

Definition VALID_MODES : list string := ["auto"; "protected"; "ibkr_on"; "ibkr_off"].

(** [mode.replace("-", "_")]. *)
Definition normalized_mode (mode : string) : string := str_replace_chr "-"%char "_" mode.

(** Datetimes are aware: [created_at] and [expires_at] have an offset. *)
Record RuntimeModeOverride := { mode : string; reason : string; created_at : pydt; expires_at : option pydt }.

(** [parse_datetime]. *)
Definition parse_datetime (value : string) : res pydt :=
  match fromisoformat (str_replace_chr "Z"%char "+00:00" value) with
  | None => Err ValueError
  | Some d => Ok match dt_off d with None => PyDt (dt_wall d) (Some 0) | Some _ => d end
  end.

(** [format_datetime]. *)
Definition format_datetime (value : pydt) : res string :=
  u ← aware_utc value; Ok (str_replace "+00:00" "Z" (isoformat u)).

(** [RuntimeModeOverride.from_dict]. *)
Definition override_from_dict (raw : pydict) : res RuntimeModeOverride :=
  let mode := normalized_mode (py_str (vget_or "mode" (VStr "") raw)) in
  _ ← raise_unless (bool_decide (mode ∈ VALID_MODES)) ValueError;
  created ← vindex "created_at" raw;
  created_at ← parse_datetime (py_str created);
  expires_at ← (if truthy (vget "expires_at" raw) then Some <$> parse_datetime (py_str (vget "expires_at" raw)) else Ok None);
  Ok {| mode := mode; reason := py_str (vget_or "reason" (VStr "") raw); created_at := created_at; expires_at := expires_at |}.

(** [RuntimeModeOverride.to_dict]. *)
Definition override_to_dict (o : RuntimeModeOverride) : res pydict :=
  created ← format_datetime (created_at o);
  expires ← match expires_at o with Some d => Some <$> format_datetime d | None => Ok None end;
  Ok [("mode", VStr (mode o)); ("reason", VStr (reason o)); ("created_at", VStr created); ("expires_at", v_opt_str expires)].

(** [is_expired] at an instant. *)
Definition is_expired (o : RuntimeModeOverride) (now : Z) : res bool :=
  match expires_at o with
  | None => Ok false
  | Some d => u ← aware_utc d; Ok (u <=? now)
  end.

(** ** The files *)

(** The override and its [.last-good] copy. *)
Record ModeFiles := { live : FileContent; last_good : FileContent }.

(** [_read_override]. *)
Definition read_override (content : FileContent) : res RuntimeModeOverride :=
  match content with
  | NoFile => Err IOFailure
  | Json (VDict payload) => override_from_dict payload
  | _ => Err ValueError
  end.

(** [_protected_corrupt_override]. *)
Definition protected_corrupt_override (now : Z) : RuntimeModeOverride :=
  {| mode := "protected"; reason := "runtime_mode_corrupt_fail_closed"; created_at := utc now; expires_at := None |}.

Definition unless_expired (o : RuntimeModeOverride) (now : Z) : res (option RuntimeModeOverride) :=
  expired ← is_expired o now; Ok (if expired : bool then None else Some o).

(** [load_override]. *)
Definition load_override (files : ModeFiles) (now : Z) : res (option RuntimeModeOverride) :=
  match live files with
  | NoFile => Ok None
  | content =>
      match read_override content with
      | Ok o => unless_expired o now
      | Err _ =>
          match read_override (last_good files) with
          | Err _ => Ok (Some (protected_corrupt_override now))
          | Ok o =>
              expired ← is_expired o now;
              if expired : bool then Ok (Some (protected_corrupt_override now)) else unless_expired o now
          end
      end
  end.

(** One atomic change of a file: [os.replace] or [unlink]. *)
Inductive FileChange := PutLastGood (payload : pydict) | PutLive (payload : pydict) | DropLive | DropLastGood.

Definition change (files : ModeFiles) (c : FileChange) : ModeFiles :=
  match c with
  | PutLastGood payload => {| live := live files; last_good := written_json payload |}
  | PutLive payload => {| live := written_json payload; last_good := last_good files |}
  | DropLive => {| live := NoFile; last_good := last_good files |}
  | DropLastGood => {| live := live files; last_good := NoFile |}
  end.

(** [write_override]: the changes it makes, in order, and its result. *)
Definition write_override (mode : string) (ttl_minutes : option Z) (reason : string) (now : Z)
    : res (list FileChange * RuntimeModeOverride) :=
  let normalized := normalized_mode mode in
  _ ← raise_unless (bool_decide (normalized ∈ VALID_MODES)) ValueError;
  expires_at ← match ttl_minutes with
               | Some n => if n =? 0 then Ok None else u ← dt_add now (n * MINUTE); Ok (Some (utc u))
               | None => Ok None
               end;
  let override := {| mode := normalized; reason := reason; created_at := utc now; expires_at := expires_at |} in
  payload ← override_to_dict override;
  _ ← override_from_dict payload;
  Ok ([PutLastGood payload; PutLive payload], override).

(** [clear_override]. *)
Definition clear_override : list FileChange := [DropLive; DropLastGood].

(** ** The gate *)

(** The fields of [RuntimePolicySettings] that the gate reads. *)
Record RuntimePolicy := {
  ibkr_schedule_enabled : bool;
  ibkr_schedule_start : Z;
  ibkr_schedule_stop : Z;
  weekend_maintenance_mode : bool;
}.

(** [is_time_in_window] ([config.py]). *)
Definition is_time_in_window (current start stop : Z) : bool :=
  if start =? stop then true
  else if start <? stop then (start <=? current) && (current <? stop)
  else (start <=? current) || (current <? stop).

Section gate.
(** The wall clocks of New York and of the schedule's time zone. *)
Context (to_et to_schedule : Z → Z) (policy : RuntimePolicy).

Definition ibkr_window_is_open (now : Z) : bool :=
  ibkr_schedule_enabled policy
  && is_time_in_window (wall_time (to_schedule now)) (ibkr_schedule_start policy) (ibkr_schedule_stop policy).

Definition market_data_collection_allowed (now : Z) : res bool :=
  blocked ← (if weekend_maintenance_mode policy then
               let now_et := to_et now in
               let calendar_day := wall_date now_et in
               trading ← is_trading_day DEFAULT_MARKET_CALENDAR calendar_day;
               if trading : bool then Ok false
               else
                 next_wall_day ← date_add calendar_day 1;
                 reopen ← (if time_hm 18 0 <=? wall_time now_et then is_trading_day DEFAULT_MARKET_CALENDAR next_wall_day
                           else Ok false);
                 Ok (negb reopen)
             else Ok false);
  Ok (if blocked : bool then false else ibkr_window_is_open now).

Definition ibkr_allowed (now : Z) (override : option RuntimeModeOverride) : res bool :=
  match override with
  | None => market_data_collection_allowed now
  | Some o =>
      if String.eqb (mode o) "auto" then market_data_collection_allowed now
      else Ok (String.eqb (mode o) "ibkr_on")
  end.

Definition ibkr_market_data_allowed (failover_control : pydict) (failover_enabled control_enabled : bool)
    (control_max_age_seconds : float) (now : Z) (override : option RuntimeModeOverride) : res bool :=
  let manual := match override with Some o => negb (String.eqb (mode o) "auto") | None => false end in
  if manual then ibkr_allowed now override
  else if negb failover_enabled || negb control_enabled then ibkr_allowed now override
  else
    allowed ← market_data_collection_allowed now;
    if negb allowed then Ok false else control_requires_ibkr_market_data failover_control now control_max_age_seconds.

(** ** The stream ([ibkr/stream/session_ops.py]) *)

(** The back-off after another session took the market data; the times are of
    the monotonic clock. *)
Record Backoff := { market_data_retry_not_before : float; market_data_retry_reason : option string }.

Definition CONFLICT_REASON : string := "competing live session owns shared market data (IBKR 10197)".

Definition defer_market_data_after_conflict (b : Backoff) (clock seconds : float) : Backoff :=
  {| market_data_retry_not_before := fmax (market_data_retry_not_before b) (fadd clock (fmax seconds (f_of_Z 0)));
     market_data_retry_reason := Some CONFLICT_REASON |}.

Definition clear_market_data_conflict : Backoff :=
  {| market_data_retry_not_before := f_of_Z 0; market_data_retry_reason := None |}.

Definition market_data_block_reason (b : Backoff) (clock : float) : option string :=
  if fltb clock (market_data_retry_not_before b) then market_data_retry_reason b else None.

Definition market_data_retry_delay_seconds (b : Backoff) (clock : float) : option float :=
  match market_data_retry_reason b with
  | None => None
  | Some _ => Some (fmax (fsub (market_data_retry_not_before b) clock) (f_of_Z 0))
  end.

(** The [ProviderFailoverSettings] that the gate reads. *)
Record FailoverGate := { enabled : bool; control_ibkr_stream_enabled : bool; control_state_max_age_seconds : float }.

(** [market_data_allowed]: the back-off it leaves and its answer. *)
Definition market_data_allowed (force : bool) (g : FailoverGate) (b : Backoff) (clock : float)
    (files : ModeFiles) (control_file : FileContent) (now : Z) : Backoff * res bool :=
  if fltb clock (market_data_retry_not_before b) then (b, Ok false)
  else
    ({| market_data_retry_not_before := market_data_retry_not_before b; market_data_retry_reason := None |},
     if force then Ok true
     else
       override ← load_override files now;
       ibkr_market_data_allowed (load_failover_control control_file) (enabled g) (control_ibkr_stream_enabled g)
         (control_state_max_age_seconds g) now override).
End gate.
