(* ===== verification/RuntimeModeProps.v ===== *)
(** * What the runtime mode promises

    A written override reads back as it was. Over any history of operator
    commands, each of which may stop between two of its changes, and of files
    that stop decoding, the two files say no more than [ModeSpec] does; and the
    stream takes market data only on an order of the operator that is still in
    force, or on the schedule and the failover control. *)

From stdpp Require Import base list strings.
From Stdlib Require Import Ascii ZArith Lia.
From S2P Require Import Prelude PyStr PyFloat PyTime PyDateTime PyDict PyVal PyJson StateIo MarketCalendar MarketdataFacts ProviderFailover FailoverController RuntimeMode.

#[local] Open Scope Z_scope.

(** ** The round trip of an override *)

Lemma str_replace_prefix o old new p s :
  str_all (λ c, negb (Ascii.eqb c o)) p = true →
  str_replace (String o old) new (p +:+ s) = p +:+ str_replace (String o old) new s.
Proof.
  induction p as [|c p IH]; [done|]. rewrite !str_app_cons. cbn [str_all]. intros [Hc Hp]%andb_true_iff.
  unfold str_replace in *. cbn [str_replace_from]. rewrite IH by done. unfold str_starts. cbn [String.prefix].
  destruct (Ascii.ascii_dec o c) as [->|]; [|done]. by rewrite Ascii.eqb_refl in Hc.
Qed.

(** The text of an instant without its offset. *)
Definition iso_body (u : Z) : string := iso_date (wall_date u) +:+ "T" +:+ iso_time (wall_time u).

Lemma isoformat_body u : isoformat u = iso_body u +:+ "+00:00".
Proof. unfold isoformat, iso_body. by rewrite !str_app_assoc. Qed.

Lemma iso_body_chars (P : ascii → bool) u :
  forallb P DIGITS = true → P "-"%char && P ":"%char && P "T"%char && P "."%char = true → str_all P (iso_body u) = true.
Proof.
  intros Hd [[[H1 H2]%andb_true_iff H3]%andb_true_iff H4]%andb_true_iff.
  unfold iso_body, iso_date, iso_time. destruct (ord2ymd (wall_date u)) as [[y m] d].
  rewrite !str_all_app, !zpad_all by done. case_match; cbn [str_all]; rewrite ?str_all_app, ?zpad_all by done; cbn [str_all];
    by rewrite ?H1, ?H2, ?H3, ?H4.
Qed.

Lemma format_datetime_utc u : instant_in_range u = true → format_datetime (utc u) = Ok (iso_body u +:+ "Z").
Proof.
  intros Hr. unfold format_datetime. rewrite aware_utc_utc by done. cbn. f_equal.
  rewrite isoformat_body, str_replace_prefix by (by apply iso_body_chars). reflexivity.
Qed.

Lemma str_replace_chr_prefix c new p s :
  str_all (λ d, negb (Ascii.eqb d c)) p = true → str_replace_chr c new (p +:+ s) = p +:+ str_replace_chr c new s.
Proof.
  induction p as [|d p IH]; [done|]. rewrite !str_app_cons. cbn [str_all str_replace_chr].
  intros [Hd Hp]%andb_true_iff. apply negb_true_iff in Hd. by rewrite Hd, IH.
Qed.

(** [parse_datetime] undoes [format_datetime]. *)
Lemma parse_formatted u : instant_in_range u = true → parse_datetime (iso_body u +:+ "Z") = Ok (utc u).
Proof.
  intros Hr. unfold parse_datetime. rewrite str_replace_chr_prefix by (by apply iso_body_chars).
  change (str_replace_chr "Z"%char "+00:00" "Z") with "+00:00". rewrite <- isoformat_body.
  by rewrite fromisoformat_isoformat.
Qed.

(** The fields of an override as the commands make them: instants in UTC. *)
Definition order (m why : string) (t : Z) (expiry : option Z) : RuntimeModeOverride :=
  {| mode := m; reason := why; created_at := utc t; expires_at := utc <$> expiry |}.

Definition payload_of (m why : string) (t : Z) (expiry : option Z) : pydict :=
  [("mode", VStr m); ("reason", VStr why); ("created_at", VStr (iso_body t +:+ "Z"));
   ("expires_at", v_opt_str ((λ u, iso_body u +:+ "Z") <$> expiry))].

Definition in_range_opt (t : option Z) : bool := match t with Some u => instant_in_range u | None => true end.

Lemma to_dict_order m why t expiry :
  instant_in_range t = true → in_range_opt expiry = true →
  override_to_dict (order m why t expiry) = Ok (payload_of m why t expiry).
Proof.
  intros Ht He. unfold override_to_dict. cbn [created_at expires_at order]. rewrite format_datetime_utc by done.
  destruct expiry as [u|]; cbn [fmap option_fmap option_map]; [rewrite format_datetime_utc by done|]; done.
Qed.

Lemma truthy_formatted u : truthy (VStr (iso_body u +:+ "Z")) = true.
Proof. cbn. destruct (iso_body u) eqn:E; [done|]. done. Qed.

(** Reading a dict with the lookups of [payload_of]. *)
Lemma from_dict_order d m why t expiry :
  m ∈ VALID_MODES → instant_in_range t = true → in_range_opt expiry = true →
  (∀ k, dget k d = dget k (payload_of m why t expiry)) →
  override_from_dict d = Ok (order m why t expiry).
Proof.
  intros Hm Ht He Hd. unfold override_from_dict, vget_or, vget, vindex, dindex. rewrite !Hd. unfold payload_of, dget.
  cbn -[normalized_mode VALID_MODES parse_datetime truthy].
  assert (normalized_mode m = m) as ->.
  { unfold VALID_MODES in Hm. repeat (apply elem_of_cons in Hm as [->|Hm]; [by vm_compute|]). by apply elem_of_nil in Hm. }
  rewrite bool_decide_eq_true_2 by done. cbn -[VALID_MODES parse_datetime truthy]. rewrite parse_formatted by done.
  destruct expiry as [u|]; cbn [v_opt_str fmap option_fmap option_map default]; [|done].
  rewrite truthy_formatted. cbn [py_str]. by rewrite parse_formatted.
Qed.

Lemma canon_payload k m why t expiry : dget k (canon_dict (payload_of m why t expiry)) = dget k (payload_of m why t expiry).
Proof.
  unfold canon_dict. rewrite dget_sort_items. unfold payload_of. cbn [map fst snd canon]. by rewrite canon_opt_str.
Qed.

Lemma read_written m why t expiry :
  m ∈ VALID_MODES → instant_in_range t = true → in_range_opt expiry = true →
  read_override (written_json (payload_of m why t expiry)) = Ok (order m why t expiry).
Proof.
  intros. cbn [written_json canon read_override]. change (sort_items _) with (canon_dict (payload_of m why t expiry)).
  apply from_dict_order; [done..|]. intros. apply canon_payload.
Qed.

(** ** What [write_override] does *)

(** The expiry that a time to live gives. *)
Definition expiry_of (ttl_minutes : option Z) (now : Z) : option Z :=
  match ttl_minutes with Some n => if n =? 0 then None else Some (now + n * MINUTE) | None => None end.

(** The override that a command orders, when it is accepted. *)
Definition order_of (m : string) (ttl_minutes : option Z) (why : string) (now : Z) : option RuntimeModeOverride :=
  let e := expiry_of ttl_minutes now in
  if bool_decide (normalized_mode m ∈ VALID_MODES) && instant_in_range now && in_range_opt e
  then Some (order (normalized_mode m) why now e) else None.

Lemma write_override_spec m ttl why now :
  let payload := payload_of (normalized_mode m) why now (expiry_of ttl now) in
  match order_of m ttl why now with
  | Some o => write_override m ttl why now = Ok ([PutLastGood payload; PutLive payload], o)
              ∧ read_override (written_json payload) = Ok o
  | None => ∃ e, write_override m ttl why now = Err e
  end.
Proof.
  unfold order_of, write_override. case_bool_decide as Hm; cbn [andb]; [|by eexists].
  set (m' := normalized_mode m) in *.
  assert (He : match ttl with
               | Some n => if n =? 0 then Ok None else u ← dt_add now (n * MINUTE); Ok (Some (utc u))
               | None => Ok None
               end = if in_range_opt (expiry_of ttl now) then Ok (utc <$> expiry_of ttl now) else Err OverflowError).
  { unfold expiry_of, dt_add. destruct ttl as [n|]; [|done]. destruct (n =? 0); [done|]. cbn. by destruct (instant_in_range _). }
  cbn [raise_unless mbind res_bind]. rewrite He. destruct (in_range_opt _) eqn:Hr; cbn [andb mbind res_bind];
    [|by rewrite andb_false_r; eexists].
  change {| mode := _; reason := _; created_at := _; expires_at := _ |} with (order m' why now (expiry_of ttl now)).
  destruct (instant_in_range now) eqn:Hn; cbn [andb].
  - rewrite to_dict_order by done. cbn [mbind res_bind]. rewrite (from_dict_order _ m' why now (expiry_of ttl now)) by done.
    split; [done|]. by apply read_written.
  - eexists. unfold override_to_dict, format_datetime, aware_utc. cbn [created_at order]. rewrite dt_instant_utc, Hn. done.
Qed.

(** ** Histories *)

(** A command of the operator and how many of its changes were made, or content
    that does not decode to an override in the place of a file. *)
Inductive ModeEvent :=
  | Write (m : string) (ttl_minutes : option Z) (why : string) (t : Z) (changes : nat)
  | Clear (changes : nat)
  | SpoilLive (content : FileContent)
  | SpoilLastGood (content : FileContent).

Definition unreadable (content : FileContent) : bool :=
  match content, read_override content with NoFile, _ | _, Ok _ => false | _, Err _ => true end.

Definition spoil (content c : FileContent) : FileContent :=
  match c with NoFile => NoFile | _ => if unreadable content then content else c end.

Definition mode_step (files : ModeFiles) (ev : ModeEvent) : ModeFiles :=
  match ev with
  | Write m ttl why t n =>
      match write_override m ttl why t with
      | Ok (changes, _) => fold_left change (take n changes) files
      | Err _ => files
      end
  | Clear n => fold_left change (take n clear_override) files
  | SpoilLive content => {| live := spoil content (live files); last_good := last_good files |}
  | SpoilLastGood content => {| live := live files; last_good := spoil content (last_good files) |}
  end.

Definition mode_files (evs : list ModeEvent) : ModeFiles := fold_left mode_step evs {| live := NoFile; last_good := NoFile |}.

(** ** The specification *)

(** The order that was published and the last one that was begun, and whether
    the files that hold them still decode. *)
Record ModeSpec := { published : option RuntimeModeOverride; live_ok : bool; begun : option RuntimeModeOverride; last_good_ok : bool }.

Definition spec_step (s : ModeSpec) (ev : ModeEvent) : ModeSpec :=
  match ev with
  | Write m ttl why t n =>
      match order_of m ttl why t, n with
      | None, _ | _, O => s
      | Some o, 1%nat => {| published := published s; live_ok := live_ok s; begun := Some o; last_good_ok := true |}
      | Some o, _ => {| published := Some o; live_ok := true; begun := Some o; last_good_ok := true |}
      end
  | Clear O => s
  | Clear 1 => {| published := None; live_ok := true; begun := begun s; last_good_ok := last_good_ok s |}
  | Clear _ => {| published := None; live_ok := true; begun := None; last_good_ok := true |}
  | SpoilLive content =>
      {| published := published s; live_ok := live_ok s && negb (unreadable content); begun := begun s; last_good_ok := last_good_ok s |}
  | SpoilLastGood content =>
      {| published := published s; live_ok := live_ok s; begun := begun s; last_good_ok := last_good_ok s && negb (unreadable content) |}
  end.

Definition mode_spec (evs : list ModeEvent) : ModeSpec :=
  fold_left spec_step evs {| published := None; live_ok := true; begun := None; last_good_ok := true |}.

(** The instant of expiry has come. *)
Definition past (o : RuntimeModeOverride) (now : Z) : bool :=
  match expires_at o with Some d => dt_wall d <=? now | None => false end.

(** The published order, or nothing after its expiry; while its file does not
    decode, the order last begun, and failing that the [protected] mode. *)
Definition in_force (s : ModeSpec) (now : Z) : option RuntimeModeOverride :=
  match published s with
  | None => None
  | Some p =>
      if live_ok s then if past p now then None else Some p
      else match begun s with
           | Some o => if last_good_ok s && negb (past o now) then Some o else Some (protected_corrupt_override now)
           | None => Some (protected_corrupt_override now)
           end
  end.

(** ** The files say what the specification says *)

Definition utc_order (o : RuntimeModeOverride) : Prop :=
  match expires_at o with Some d => ∃ u, d = utc u ∧ instant_in_range u = true | None => True end.

(** A file and the order it holds. *)
Definition holds (c : FileContent) (o : option RuntimeModeOverride) (ok : bool) : Prop :=
  match o with
  | None => c = NoFile
  | Some o => c ≠ NoFile ∧ utc_order o ∧ if ok then read_override c = Ok o else unreadable c = true
  end.

Definition files_hold (files : ModeFiles) (s : ModeSpec) : Prop :=
  holds (live files) (published s) (live_ok s) ∧ holds (last_good files) (begun s) (last_good_ok s).

Lemma unreadable_err c : unreadable c = true → ∃ e, read_override c = Err e.
Proof. unfold unreadable. destruct c, (read_override _); naive_solver. Qed.

Lemma holds_spoil c o ok content : holds c o ok → holds (spoil content c) o (ok && negb (unreadable content)).
Proof.
  destruct o as [o|]; cbn [holds]; [|by intros ->]. intros (Hc & Ho & Hok).
  assert (spoil content c = if unreadable content then content else c) as -> by (by destruct c).
  destruct (unreadable content) eqn:E; cbn [negb]; rewrite ?andb_true_r, ?andb_false_r; [|done].
  split_and!; [|done..]. by intros ->.
Qed.

Lemma order_of_utc m ttl why t o : order_of m ttl why t = Some o → utc_order o.
Proof.
  unfold order_of. intros H. case_match eqn:E; [|done]. inv H. apply andb_true_iff in E as [_ E].
  unfold utc_order. cbn. destruct (expiry_of ttl t); [by eexists|done].
Qed.

Lemma files_hold_step files s ev : files_hold files s → files_hold (mode_step files ev) (spec_step s ev).
Proof.
  intros [Hl Hg]. destruct ev as [m ttl why t n|n|content|content]; cbn [mode_step spec_step].
  - pose proof (write_override_spec m ttl why t) as Hw. cbv zeta in Hw.
    destruct (order_of m ttl why t) as [o|] eqn:Ho; [|by destruct Hw as [e ->]]. apply order_of_utc in Ho.
    destruct Hw as [-> Hr]. destruct n as [|[|n]]; [done|by split|]. cbn [take]. rewrite take_nil. by split.
  - destruct n as [|[|n]]; [done|by split|]. cbn [take clear_override]. rewrite take_nil. by split.
  - split; [|done]. by apply holds_spoil.
  - split; [done|]. by apply holds_spoil.
Qed.

Lemma mode_files_hold evs : files_hold (mode_files evs) (mode_spec evs).
Proof.
  unfold mode_files, mode_spec. induction evs as [|ev evs IH] using rev_ind; [done|].
  rewrite !fold_left_app. by apply files_hold_step.
Qed.

Lemma is_expired_past o now : utc_order o → is_expired o now = Ok (past o now).
Proof.
  unfold utc_order, is_expired, past. destruct (expires_at o) as [d|]; [|done]. intros (u & -> & Hu).
  by rewrite aware_utc_utc.
Qed.

Lemma load_present files now :
  live files ≠ NoFile →
  load_override files now =
  match read_override (live files) with
  | Ok o => unless_expired o now
  | Err _ =>
      match read_override (last_good files) with
      | Err _ => Ok (Some (protected_corrupt_override now))
      | Ok o => expired ← is_expired o now;
                if expired : bool then Ok (Some (protected_corrupt_override now)) else unless_expired o now
      end
  end.
Proof. unfold load_override. by destruct (live files). Qed.

Lemma mode_files_implement (evs : list ModeEvent) (now : Z) :
  load_override (mode_files evs) now = Ok (in_force (mode_spec evs) now).
Proof.
  destruct (mode_files_hold evs) as [Hl Hg]. unfold in_force.
  destruct (published _) as [p|]; cbn [holds] in Hl; [|by unfold load_override; rewrite Hl]. destruct Hl as (Hn & Hp & Hl).
  rewrite load_present by done. unfold unless_expired. destruct (live_ok _).
  - rewrite Hl, is_expired_past by done. cbn. by destruct (past p now).
  - apply unreadable_err in Hl as [e ->]. destruct (begun _) as [o|]; cbn [holds] in Hg; [|by rewrite Hg].
    destruct Hg as (_ & Ho & Hg). destruct (last_good_ok _); cbn [andb].
    + rewrite Hg, is_expired_past by done. cbn. by destruct (past o now).
    + by apply unreadable_err in Hg as [e' ->].
Qed.

(** C29: whatever the operator's commands, wherever each of them stopped, and
    whatever became unreadable in between, [load_override] never fails and
    returns the order in force: the published one until it expires or is
    cleared; while its file does not decode, the order begun last, and
    otherwise the [protected] mode, never the schedule. *)
Theorem mode_files_implement_orders (evs : list ModeEvent) (now : Z) :
  load_override (mode_files evs) now = Ok (in_force (mode_spec evs) now).
Proof. apply mode_files_implement. Qed.

(** ** Orders that stand *)

(** The commands that put an end to the earlier orders. *)
Definition supersedes (ev : ModeEvent) : bool :=
  match ev with
  | Write m ttl why t n => (1 <? n)%nat && bool_decide (is_Some (order_of m ttl why t))
  | Clear n => (0 <? n)%nat
  | _ => false
  end.

(** A write that made at least its first change, and nothing after it that
    puts an end to it. *)
Definition standing (evs : list ModeEvent) (o : RuntimeModeOverride) : Prop :=
  ∃ before m ttl why t n after,
    evs = before ++ Write m ttl why t n :: after ∧ (0 < n)%nat ∧ order_of m ttl why t = Some o
    ∧ Forall (λ ev, supersedes ev = false) after.

Lemma standing_snoc evs o ev : standing evs o → supersedes ev = false → standing (evs ++ [ev]) o.
Proof.
  intros (before & m & ttl & why & t & n & after & -> & Hn & Ho & Ha) He.
  exists before, m, ttl, why, t, n, (after ++ [ev]). split_and!; [|done..|].
  - by rewrite <- app_assoc.
  - by apply Forall_app_2; [|apply Forall_singleton].
Qed.

Lemma standing_write evs m ttl why t n o : (0 < n)%nat → order_of m ttl why t = Some o → standing (evs ++ [Write m ttl why t n]) o.
Proof. intros. by exists evs, m, ttl, why, t, n, []. Qed.

Definition spec_stands (evs : list ModeEvent) (s : ModeSpec) : Prop :=
  ∀ p, published s = Some p → standing evs p ∧ ∀ o, begun s = Some o → standing evs o.

Lemma spec_stands_step evs s ev : spec_stands evs s → spec_stands (evs ++ [ev]) (spec_step s ev).
Proof.
  intros Hs. assert (Hk : supersedes ev = false → spec_stands (evs ++ [ev]) s).
  { intros He p Hp. destruct (Hs p Hp) as [H1 H2]. split; [by apply standing_snoc|]. intros. apply standing_snoc; auto. }
  destruct ev as [m ttl why t n|n|content|content]; cbn [spec_step].
  - destruct (order_of m ttl why t) as [o|] eqn:Ho; [|apply Hk; cbn; by rewrite Ho, andb_false_r].
    destruct n as [|[|n]]; [by apply Hk|..]; intros p Hp; cbn in Hp.
    + destruct (Hk eq_refl p Hp) as [Hp' _]. split; [done|]. intros o' [= <-]. apply standing_write; [lia|done].
    + inv Hp. split; [|intros o' [= <-]]; (apply standing_write; [lia|done]).
  - destruct n as [|[|n]]; [by apply Hk|..]; done.
  - by apply Hk.
  - by apply Hk.
Qed.

Lemma mode_spec_stands evs : spec_stands evs (mode_spec evs).
Proof.
  unfold mode_spec. induction evs as [|ev evs IH] using rev_ind; [done|]. rewrite fold_left_app. by apply spec_stands_step.
Qed.

Lemma in_force_stands evs now o :
  in_force (mode_spec evs) now = Some o →
  (standing evs o ∧ past o now = false) ∨ o = protected_corrupt_override now.
Proof.
  unfold in_force. destruct (published _) as [p|] eqn:Hp; [|done]. destruct (mode_spec_stands _ _ Hp) as [H1 H2].
  destruct (live_ok _).
  - destruct (past p now) eqn:E; [done|]. intros [= <-]. by left.
  - destruct (begun _) as [b|] eqn:Hb; [|intros [= <-]; by right].
    destruct (last_good_ok _ && _) eqn:E; intros [= <-]; [|by right].
    apply andb_true_iff in E as [_ E%negb_true_iff]. left. split; [by apply H2|done].
Qed.

(** ** The gate of the stream *)

Section gate.
Context (to_et to_schedule : Z → Z) (policy : RuntimePolicy).

(** The schedule and, where the failover controls the stream, its control. *)
Definition automatic (g : FailoverGate) (control_file : FileContent) (now : Z) : Prop :=
  market_data_collection_allowed to_et to_schedule policy now = Ok true
  ∧ (enabled g = true → control_ibkr_stream_enabled g = true →
     control_requires_ibkr_market_data (load_failover_control control_file) now (control_state_max_age_seconds g) = Ok true).

(** C28: the stream takes market data only outside its back-off and, unless it
    is forced, only on an [ibkr_on] of the operator that was written, has not
    expired and was not ended by a later command; or on an [auto] order or the
    absence of orders, when the schedule is open and, where the failover is
    enabled and lets its control drive the IBKR stream, that control requires
    IBKR; where it does not (the shipped setting), the schedule alone decides.
    Files that stop decoding never open it. *)
Theorem market_data_needs_an_order force g b clock evs control_file now b' :
  market_data_allowed to_et to_schedule policy force g b clock (mode_files evs) control_file now = (b', Ok true) →
  fltb clock (market_data_retry_not_before b) = false ∧ market_data_retry_reason b' = None
  ∧ (force = true
     ∨ (∃ o, standing evs o ∧ past o now = false ∧ mode o = "ibkr_on")
     ∨ ((∀ o, in_force (mode_spec evs) now = Some o → mode o = "auto") ∧ automatic g control_file now)).
Proof.
  unfold market_data_allowed. destruct (fltb clock _) eqn:Hc; [done|]. intros H. injection H as <- H. split_and!; [done..|].
  destruct force; [by left|right]. rewrite mode_files_implement in H. cbn [mbind res_bind] in H.
  unfold ibkr_market_data_allowed, ibkr_allowed in H. destruct (in_force _ now) as [o|] eqn:Ho.
  - destruct (String.eqb_spec (mode o) "auto") as [Ha|Ha]; cbn [negb] in H.
    + right. split; [by intros ? [= <-]|]. destruct (enabled g) eqn:E1, (control_ibkr_stream_enabled g) eqn:E2;
        cbn [negb orb] in H; unfold automatic; rewrite E1, E2; try done.
      apply res_bind_ok in H as ([|] & H1 & H2); done.
    + left. injection H as Hon%String.eqb_eq. apply in_force_stands in Ho as [[Hs Hp]| ->]; [|done]. by exists o.
  - right. split; [done|]. destruct (enabled g) eqn:E1, (control_ibkr_stream_enabled g) eqn:E2;
      cbn [negb orb] in H; unfold automatic; rewrite E1, E2; try done.
    apply res_bind_ok in H as ([|] & H1 & H2); done.
Qed.
End gate.

(** A [protected] order, an [ibkr-on] whose second change was never made, and
    the live file spoilt: the order that was begun is in force. *)
Definition witness_start : Z := 63000000 * SECOND.
Definition witness_history : list ModeEvent :=
  [Write "protected" None "night" witness_start 2; Write "ibkr-on" (Some 90) "probe" (witness_start + MINUTE) 1; SpoilLive Unreadable].
Definition witness_policy : RuntimePolicy :=
  {| ibkr_schedule_enabled := false; ibkr_schedule_start := 0; ibkr_schedule_stop := 0; weekend_maintenance_mode := true |}.
Definition witness_gate : FailoverGate :=
  {| enabled := true; control_ibkr_stream_enabled := true; control_state_max_age_seconds := f_of_Z 30 |}.

Lemma market_data_needs_an_order_witness :
  fltb (f_of_Z 5) (f_of_Z 0) = false ∧ (None : option string) = None
  ∧ (false = true
     ∨ (∃ o, standing witness_history o ∧ past o (witness_start + HOUR) = false ∧ mode o = "ibkr_on")
     ∨ ((∀ o, in_force (mode_spec witness_history) (witness_start + HOUR) = Some o → mode o = "auto")
        ∧ automatic id id witness_policy witness_gate NoFile (witness_start + HOUR))).
Proof.
  apply (market_data_needs_an_order id id witness_policy false witness_gate clear_market_data_conflict (f_of_Z 5)
           witness_history NoFile (witness_start + HOUR) clear_market_data_conflict).
  vm_compute. reflexivity.
Defined.
