(* ===== verification/SessionEpisode.v ===== *)
(** * Session episodes ([application/market_features/session_episode.py])

    One structural episode per research session: a wall or flip level breaks,
    the move extends, the level is reclaimed, the reversal is confirmed and the
    excursion recovers. The state is a JSON dict that [service.py] keeps inside
    the file of the market features. *)

From stdpp Require Import base list strings.
From Stdlib Require Import Ascii ZArith Lia.
From S2P Require Import Prelude PyStr PyFloat PyTime PyDateTime PyDict PyVal PyHash PyJson StateIo.

#[local] Open Scope Z_scope.

Inductive SessionEpisodePhase :=
  | OBSERVING | TREND_EXTENSION | STRUCTURE_BREAK | EXTREME | RECLAIM_PENDING
  | V_REVERSAL_CONFIRMED | RECOVERY | REVERSAL_INVALIDATED.

Definition episode_phase_value (p : SessionEpisodePhase) : string :=
  match p with
  | OBSERVING => "observing" | TREND_EXTENSION => "trend_extension" | STRUCTURE_BREAK => "structure_break"
  | EXTREME => "extreme" | RECLAIM_PENDING => "reclaim_pending" | V_REVERSAL_CONFIRMED => "v_reversal_confirmed"
  | RECOVERY => "recovery" | REVERSAL_INVALIDATED => "reversal_invalidated"
  end.

#[global] Instance SessionEpisodePhase_eq_dec : EqDecision SessionEpisodePhase.
Proof. solve_decision. Defined.

#[global, refine] Instance SessionEpisodePhase_enum : PyEnum SessionEpisodePhase := {|
  enum_members := [OBSERVING; TREND_EXTENSION; STRUCTURE_BREAK; EXTREME; RECLAIM_PENDING; V_REVERSAL_CONFIRMED; RECOVERY; REVERSAL_INVALIDATED];
  enum_value := episode_phase_value;
  enum_find := _;
|}.
Proof. by intros []. Defined.

(** The settings, and the fields of the two frames, that the episode reads. *)
Record EpisodePolicy := {
  session_episode_enabled : bool;
  session_break_buffer_points : float;
  session_extreme_extension_points : float;
  session_reclaim_hold_seconds : float;
  session_recovery_ratio : float;
}.
Record MinuteMarketFrame := { es : pydict; cross_asset : pydict }.
Record OptionStructureFrame := { structure : pydict; volatility : pydict; exposure : pydict }.

(** [_number]. *)
Definition finite_number (value : pyval) : option float :=
  x ← num_of value; if f_is_nan x || f_is_inf x then None else Some x.

(** [x or y] for an optional number. *)
Definition number_or (x : option float) (y : float) : float :=
  match x with Some x => if f_is_zero x then y else x | None => y end.

(** [_initial_state]. *)
Definition initial_episode (session_id : string) (spot : option float) (now : Z) : pydict :=
  [("schema_version", VInt 1); ("session_id", VStr session_id);
   ("phase", VStr (enum_value OBSERVING)); ("phase_at", vtime now); ("updated_at", vtime now);
   ("session_open", v_opt_float spot); ("session_high", v_opt_float spot); ("session_low", v_opt_float spot);
   ("current_spot", v_opt_float spot); ("transition_history", VList []);
   ("quality", VStr match spot with Some _ => "ready" | None => "spot_unavailable" end);
   ("automatic_ordering", VBool false); ("broker_order_state", VStr "not_connected")].

(** The dicts of [state.get("transition_history") or []]. *)
Definition history_rows (v : pyval) : res (list pyval) :=
  match v_or v (VList []) with
  | VList l => Ok (filter (λ x, is_Some (dict_of x)) l)
  | VDict _ | VStr _ => Ok []
  | _ => Err TypeError
  end.

(** [_transition]. *)
Definition episode_transition (state : pydict) (phase : SessionEpisodePhase) (reason : string) (now : Z) : res pydict :=
  let previous := vstr_or "phase" (enum_value OBSERVING) state in
  if String.eqb previous (enum_value phase) then Ok state
  else
    let state := dset "phase" (VStr (enum_value phase)) state in
    let state := dset "phase_at" (vtime now) state in
    let state := dset "transition_reason" (VStr reason) state in
    history ← history_rows (vget "transition_history" state);
    let row := VDict [("at", vtime now); ("previous_phase", VStr previous); ("phase", VStr (enum_value phase));
                      ("reason", VStr reason); ("spot", vget "current_spot" state); ("break_level", vget "break_level" state)] in
    let history := history ++ [row] in
    Ok (dset "transition_history" (VList (drop (length history - 100) history)) state).

(** [_levels]. *)
Definition level_entry (kind : string) (v : pyval) : list (string * float) :=
  match finite_number v with Some x => [(kind, x)] | None => [] end.
Definition levels_of (structure : pydict) : list (string * float) :=
  level_entry "put_wall" (vget "put_wall" structure) ++ level_entry "call_wall" (vget "call_wall" structure)
  ++ match vget "flip_zone" structure with
     | VList (low :: high :: _) => level_entry "flip_low" low ++ level_entry "flip_high" high
     | _ => []
     end.

(** [_crossed_level]: the direction is down when [true]. *)
Definition crossed_rows (levels : list (string * float)) (kinds : list string) (crossed : float → bool) : list (string * float) :=
  omap (λ kind, level ← dget kind levels; if crossed level : bool then Some (kind, level) else None) kinds.
(** [max(rows, key=...)] and [min(rows, key=...)]: the first of the best. *)
Definition best_row (better : float → float → bool) (rows : list (string * float)) : option (string * float) :=
  match rows with
  | [] => None
  | row :: rows => Some (fold_left (λ best row, if better row.2 best.2 then row else best) rows row)
  end.
Definition crossed_level (previous : option float) (current : float) (levels : list (string * float)) (buffer : float)
    : option (bool * string * float) :=
  match previous with
  | None => None
  | Some previous =>
      if feqb current previous then None
      else if fltb current previous then
        '(kind, level) ← best_row fgtb (crossed_rows levels ["flip_low"; "put_wall"]
                           (λ level, fgeb previous (fsub level buffer) && fltb current (fsub level buffer)));
        Some (true, kind, level)
      else
        '(kind, level) ← best_row fltb (crossed_rows levels ["flip_high"; "call_wall"]
                           (λ level, fleb previous (fadd level buffer) && fgtb current (fadd level buffer)));
        Some (false, kind, level)
  end.

(** [_is_extension]. *)
Definition is_extension (state : pydict) (spot : float) (options : OptionStructureFrame) (policy : EpisodePolicy) : bool :=
  match finite_number (vget "session_open" state) with
  | None => false
  | Some open_spot =>
      let expected_move := number_or (finite_number (vget "expected_move_points_0dte" (volatility options))) (f_of_Z 0) in
      let threshold := fmax (session_extreme_extension_points policy) (fmul expected_move (f_lit 25 2)) in
      fgeb (fabs (fsub spot open_spot)) threshold
  end.

Definition direction_down (state : pydict) : bool := is_str "down" (vget "break_direction" state).

(** [_update_extreme]. *)
Definition update_extreme (state : pydict) (spot : float) (now : Z) : pydict :=
  let direction := vstr_or "break_direction" "" state in
  let prior := finite_number (vget "extreme_spot" state) in
  let extreme :=
    match prior with
    | Some p => if String.eqb direction "down" then fmin p spot
                else if String.eqb direction "up" then fmax p spot else spot
    | None => spot
    end in
  if match prior with Some p => feqb extreme p | None => false end then state
  else dset "extreme_at" (vtime now) (dset "extreme_spot" (VFloat extreme) state).

(** [_extreme_extension]. *)
Definition extreme_extension (state : pydict) : float :=
  match finite_number (vget "break_level" state), finite_number (vget "extreme_spot" state) with
  | Some level, Some extreme => if direction_down state then fsub level extreme else fsub extreme level
  | _, _ => f_of_Z 0
  end.

(** [_reclaimed], [_reclaim_lost]. *)
Definition reclaimed (spot level : float) (down : bool) (buffer : float) : bool :=
  if down then fgeb spot (fadd level buffer) else fleb spot (fsub level buffer).
Definition reclaim_lost (spot level : float) (down : bool) (buffer : float) : bool :=
  if down then fltb spot (fsub level buffer) else fgtb spot (fadd level buffer).

(** [_cross_asset_reversal]. *)
Definition cross_asset_reversal (market : MinuteMarketFrame) (down : bool) : bool :=
  let reversal_sign := if down then f_of_Z 1 else f_of_Z (-1) in
  let against key := match finite_number (vget key (es market)) with
                     | Some x => fgtb (fmul x reversal_sign) (f_of_Z 0)
                     | None => false
                     end in
  String.eqb (vstr_or "es_spy_direction_confirmation_15m" "" (cross_asset market)) "confirmed"
  && against "return_1m_points" && against "return_5m_points" && against "return_15m_points".

(** [_recovery_ratio]. *)
Definition recovery_ratio (state : pydict) (spot : float) : res (option float) :=
  match finite_number (vget "extreme_spot" state) with
  | None => Ok None
  | Some extreme =>
      let down := direction_down state in
      let anchor := finite_number (vget (if down then "pre_break_high" else "pre_break_low") state) in
      match anchor with
      | None => Ok None
      | Some anchor =>
          let denominator := if down then fsub anchor extreme else fsub extreme anchor in
          let value := if down then fsub spot extreme else fsub extreme spot in
          if fleb denominator (f_of_Z 0) then Ok None
          else q ← fdiv value denominator; Ok (Some (fmax (f_of_Z 0) (fmin q (f_of_Z 1))))
      end
  end.

(** [_evidence]. *)
Definition evidence (market : MinuteMarketFrame) (options : OptionStructureFrame) : pydict :=
  let volume := default [] (dict_of (vget "volume_weighted" (exposure options))) in
  let gamma_ratio := match finite_number (vget "net_gamma_ratio" volume) with
                     | Some x => Some x
                     | None => finite_number (vget "net_gamma_ratio" (structure options))
                     end in
  [("es_return_1m_points", vget "return_1m_points" (es market));
   ("es_return_5m_points", vget "return_5m_points" (es market));
   ("es_return_15m_points", vget "return_15m_points" (es market));
   ("es_spy_confirmation_15m", vget "es_spy_direction_confirmation_15m" (cross_asset market));
   ("atm_iv_change_5m", vget "atm_iv_change_5m" (volatility options));
   ("atm_iv_change_15m", vget "atm_iv_change_15m" (volatility options));
   ("net_gamma_ratio_proxy", v_opt_float gamma_ratio);
   ("gamma_sign_convention", vget "sign_convention" (exposure options));
   ("dealer_position_sign", vget "dealer_position_sign" (exposure options))].

(** [_episode_id]. *)
Definition direction_name (down : bool) : string := if down then "down" else "up".
Definition session_episode_id (session_id : string) (down : bool) (level_kind : string) (now : Z) : string :=
  "session-episode:" +:+ str_take 20 (sha256_hexdigest
    (session_id +:+ "|" +:+ direction_name down +:+ "|" +:+ level_kind +:+ "|" +:+ isoformat now)).

(** ** [advance_session_episode] *)

Section advance.
Context (session_id : string) (now : Z) (market : MinuteMarketFrame) (options : OptionStructureFrame) (policy : EpisodePolicy).

Let buffer := session_break_buffer_points policy.

(** The entries of every observation with a spot. *)
Definition observe_spot (state : pydict) (spot prior_high prior_low : float) : pydict :=
  let state := dset "session_high" (VFloat (fmax prior_high spot)) state in
  let state := dset "session_low" (VFloat (fmin prior_low spot)) state in
  let state := dset "current_spot" (VFloat spot) state in
  let state := dset "updated_at" (vtime now) state in
  let state := dset "quality" (VStr "ready") state in
  let state := dset "automatic_ordering" (VBool false) state in
  let state := dset "broker_order_state" (VStr "not_connected") state in
  dset "current_evidence" (VDict (evidence market options)) state.

(** The entries of a new break. *)
Definition break_entries (down : bool) (level_kind : string) (level spot prior_high prior_low : float)
    (levels : list (string * float)) : pydict :=
  [("episode_id", VStr (session_episode_id session_id down level_kind now));
   ("break_direction", VStr (direction_name down)); ("reversal_direction", VStr (direction_name (negb down)));
   ("break_level_kind", VStr level_kind); ("break_level", VFloat level); ("break_at", vtime now);
   ("break_spot", VFloat spot); ("extreme_spot", VFloat spot); ("extreme_at", vtime now);
   ("pre_break_high", VFloat prior_high); ("pre_break_low", VFloat prior_low);
   ("frozen_levels", VDict (map (λ kl, (kl.1, VFloat kl.2)) levels)); ("reclaim_at", VNone)].

(** Before a break. *)
Definition watch_break (state : pydict) (prior_spot : option float) (spot prior_high prior_low : float) : res pydict :=
  let levels := levels_of (structure options) in
  match crossed_level prior_spot spot levels buffer with
  | Some (down, level_kind, level) =>
      episode_transition (dmerge state (break_entries down level_kind level spot prior_high prior_low levels))
        STRUCTURE_BREAK "structural_level_crossed" now
  | None =>
      if is_extension state spot options policy then
        let open_spot := number_or (finite_number (vget "session_open" state)) spot in
        episode_transition (dset "extension_direction" (VStr (if fgeb spot open_spot then "up" else "down")) state)
          TREND_EXTENSION "session_move_extended" now
      else Ok state
  end.

(** After a break and before its reclaim. *)
Definition watch_reclaim (state : pydict) (down : bool) (break_level spot : float) : res pydict :=
  if reclaimed spot break_level down buffer then
    episode_transition (dset "reclaim_spot" (VFloat spot) (dset "reclaim_at" (vtime now) state))
      RECLAIM_PENDING "broken_level_reclaimed" now
  else if fgeb (extreme_extension state) (session_extreme_extension_points policy) then
    episode_transition state EXTREME "break_extended_to_session_extreme" now
  else Ok state.

(** While the reclaim has to hold. *)
Definition watch_hold (state : pydict) (down : bool) (break_level spot : float) : res pydict :=
  if reclaim_lost spot break_level down buffer then
    episode_transition (dset "reclaim_at" VNone state) EXTREME "reclaim_failed" now
  else
    reclaim_at ← iso_utc (vget "reclaim_at" state);
    let held := match reclaim_at with Some u => total_seconds (now - u) | None => f_of_Z 0 end in
    let state := dset "reclaim_hold_seconds" (VFloat (fmax held (f_of_Z 0))) state in
    if fgeb held (session_reclaim_hold_seconds policy) && cross_asset_reversal market down then
      let state := dset "reversal_confirmed_at" (vtime now) state in
      let state := dset "reversal_evidence" (VDict (evidence market options)) state in
      episode_transition state V_REVERSAL_CONFIRMED "reclaim_held_with_cross_asset_confirmation" now
    else Ok state.

(** After the confirmation. *)
Definition watch_recovery (state : pydict) (down : bool) (break_level spot : float) : res pydict :=
  if reclaim_lost spot break_level down buffer then
    episode_transition state REVERSAL_INVALIDATED "confirmed_reclaim_lost" now
  else
    ratio ← recovery_ratio state spot;
    let state := dset "recovery_ratio" (v_opt_float ratio) state in
    if match ratio with Some r => fgeb r (session_recovery_ratio policy) | None => false end
    then episode_transition state RECOVERY "session_excursion_recovered" now
    else Ok state.

Definition advance_session_episode (previous : option pydict) (spot : option float) : res pydict :=
  if negb (session_episode_enabled policy) then
    Ok [("schema_version", VInt 1); ("session_id", VStr session_id); ("phase", VStr "disabled"); ("updated_at", vtime now)]
  else
    let parsed_spot := x ← spot; finite_number (VFloat x) in
    let state := default [] previous in
    let state := if is_str session_id (vget "session_id" state) then state else initial_episode session_id parsed_spot now in
    match parsed_spot with
    | None =>
        Ok (dmerge state [("updated_at", vtime now); ("quality", VStr "spot_unavailable"); ("automatic_ordering", VBool false)])
    | Some parsed_spot =>
        let prior_spot := finite_number (vget "current_spot" state) in
        let prior_high := number_or (finite_number (vget "session_high" state)) parsed_spot in
        let prior_low := number_or (finite_number (vget "session_low" state)) parsed_spot in
        let state := observe_spot state parsed_spot prior_high prior_low in
        let phase := enum_or OBSERVING (vstr_or "phase" "observing" state) in
        match phase with
        | OBSERVING | TREND_EXTENSION => watch_break state prior_spot parsed_spot prior_high prior_low
        | _ =>
            let break_direction := vstr_or "break_direction" "" state in
            match finite_number (vget "break_level" state) with
            | Some break_level =>
                if String.eqb break_direction "up" || String.eqb break_direction "down" then
                  let down := String.eqb break_direction "down" in
                  let state := update_extreme state parsed_spot now in
                  match phase with
                  | STRUCTURE_BREAK | EXTREME => watch_reclaim state down break_level parsed_spot
                  | RECLAIM_PENDING => watch_hold state down break_level parsed_spot
                  | V_REVERSAL_CONFIRMED | RECOVERY => watch_recovery state down break_level parsed_spot
                  | _ => Ok state
                  end
                else episode_transition state OBSERVING "episode_identity_unavailable" now
            | None => episode_transition state OBSERVING "episode_identity_unavailable" now
            end
        end
    end.

(** [record_session_episode_transition]: the day of the journal and the record
    that is appended. *)
Definition record_session_episode_transition (previous : option pydict) (current : pydict) : option (string * pydict) :=
  if match previous with
     | Some p => negb (bool_decide (p = [])) && py_eq (vget "session_id" p) (vget "session_id" current)
                 && py_eq (vget "phase" p) (vget "phase" current)
     | None => false
     end then None
  else
    let id := vget "session_id" current in
    Some (py_str (v_or id (VStr (iso_date (wall_date now)))),
          dmerge [("event", VStr "session_episode_transition");
                  ("record_key", VStr (py_str (v_or (v_or (vget "episode_id" current) id) (VStr "")) +:+ "|"
                                       +:+ vstr_or "phase_at" "" current))]
            current).
End advance.

(** ** The cycle of [service.py] *)

(** What one cycle of the service sees of the episode's inputs, with the other
    entries that it saves. *)
Record EpisodeInput := {
  i_session : string; i_now : Z; i_spot : option float; i_market : MinuteMarketFrame; i_options : OptionStructureFrame;
  i_others : pydict;
}.

(** [_dict(persisted.get("session_episode"))]. *)
Definition stored_episode (persisted : pydict) : pydict := default [] (dict_of (vget "session_episode" persisted)).

(** The episode that a state file holds. *)
Definition persisted_episode (file : FileContent) : pydict := stored_episode (json_object file).

(** The step of the episode, its journal record and the file saved at the end. *)
Definition episode_cycle (policy : EpisodePolicy) (file : FileContent) (i : EpisodeInput) : res (FileContent * option (string * pydict)) :=
  persisted ← read_json_object file;
  let previous := stored_episode persisted in
  episode ← advance_session_episode (i_session i) (i_now i) (i_market i) (i_options i) policy (Some previous) (i_spot i);
  let record := record_session_episode_transition (i_now i) (match previous with [] => None | _ => Some previous end) episode in
  Ok (written_json (dset "session_episode" (VDict episode) (i_others i)), record).
