(* ===== verification/SessionEpisodeSpec.v ===== *)
(** * Session episodes, without their JSON

    The specification of [SessionEpisode] on typed states: what one observation
    does, when a stored dict shows a state, and the refinement. *)

From stdpp Require Import base list strings.
From Stdlib Require Import Ascii ZArith Lia.
From S2P Require Import Prelude PyStr PyFloat PyTime PyDateTime PyDict PyVal PyHash PyJson StateIo SessionEpisode.

#[local] Open Scope Z_scope.

(** ** Data *)

(** A break: what was crossed, in which direction and when, the session's range
    before it and the levels of that moment; then its extreme, the reclaim that
    stands and the confirmation. *)
Record brk := Brk {
  k_id : string; k_down : bool; k_kind : string; k_level : float; k_at : Z;
  k_high : float; k_low : float; k_levels : list (string * float);
  k_extreme : float; k_reclaim : option Z; k_confirmed : option Z;
}.

Definition with_extreme (x : float) (k : brk) : brk :=
  Brk (k_id k) (k_down k) (k_kind k) (k_level k) (k_at k) (k_high k) (k_low k) (k_levels k) x (k_reclaim k) (k_confirmed k).
Definition with_reclaim (u : option Z) (k : brk) : brk :=
  Brk (k_id k) (k_down k) (k_kind k) (k_level k) (k_at k) (k_high k) (k_low k) (k_levels k) (k_extreme k) u (k_confirmed k).
Definition with_confirmed (u : Z) (k : brk) : brk :=
  Brk (k_id k) (k_down k) (k_kind k) (k_level k) (k_at k) (k_high k) (k_low k) (k_levels k) (k_extreme k) (k_reclaim k) (Some u).

(** One entry of the history. *)
Record move := Move { h_at : Z; h_from : SessionEpisodePhase; h_to : SessionEpisodePhase }.

(** The range is the high, the low and the last spot. *)
Record episode := Ep {
  e_open : option float; e_range : option (float * float * float); e_phase : SessionEpisodePhase;
  e_break : option brk; e_moves : list move;
}.

Definition spot_of (i : EpisodeInput) : option float := x ← i_spot i; finite_number (VFloat x).

Definition fresh_episode (i : EpisodeInput) : episode :=
  Ep (spot_of i) ((λ x, (x, x, x)) <$> spot_of i) OBSERVING None [].

Definition moved (now : Z) (p : SessionEpisodePhase) (e : episode) : episode :=
  if decide (e_phase e = p) then e
  else Ep (e_open e) (e_range e) p (e_break e) (e_moves e ++ [Move now (e_phase e) p]).

Definition with_break (k : brk) (e : episode) : episode := Ep (e_open e) (e_range e) (e_phase e) (Some k) (e_moves e).

(** ** The step *)

Section step.
Context (policy : EpisodePolicy) (i : EpisodeInput).

Let buffer := session_break_buffer_points policy.
Let now := i_now i.

Definition new_break (down : bool) (kind : string) (level x hi lo : float) : brk :=
  {| k_id := session_episode_id (i_session i) down kind now; k_down := down; k_kind := kind; k_level := level; k_at := now;
     k_high := hi; k_low := lo; k_levels := levels_of (structure (i_options i)); k_extreme := x; k_reclaim := None; k_confirmed := None |}.

Definition extends (e : episode) (x : float) : bool :=
  match e_open e with
  | None => false
  | Some o =>
      fgeb (fabs (fsub x o))
        (fmax (session_extreme_extension_points policy)
           (fmul (number_or (finite_number (vget "expected_move_points_0dte" (volatility (i_options i)))) (f_of_Z 0)) (f_lit 25 2)))
  end.

Definition farther (k : brk) (x : float) : float := if k_down k then fmin (k_extreme k) x else fmax (k_extreme k) x.

Definition beyond_level (k : brk) : float :=
  if k_down k then fsub (k_level k) (k_extreme k) else fsub (k_extreme k) (k_level k).

Definition recovery (k : brk) (x : float) : option float :=
  let denominator := if k_down k then fsub (k_high k) (k_extreme k) else fsub (k_extreme k) (k_low k) in
  let value := if k_down k then fsub x (k_extreme k) else fsub (k_extreme k) x in
  if fleb denominator (f_of_Z 0) then None
  else Some (fmax (f_of_Z 0) (fmin (fdiv_ieee value denominator) (f_of_Z 1))).

Definition spec_broken (e : episode) (k : brk) (x : float) : episode :=
  let k := if feqb (farther k x) (k_extreme k) then k else with_extreme (farther k x) k in
  let lost := reclaim_lost x (k_level k) (k_down k) buffer in
  match e_phase e with
  | STRUCTURE_BREAK | EXTREME =>
      if reclaimed x (k_level k) (k_down k) buffer then moved now RECLAIM_PENDING (with_break (with_reclaim (Some now) k) e)
      else if fgeb (beyond_level k) (session_extreme_extension_points policy) then moved now EXTREME (with_break k e)
      else with_break k e
  | RECLAIM_PENDING =>
      if lost then moved now EXTREME (with_break (with_reclaim None k) e)
      else
        let held := match k_reclaim k with Some u => total_seconds (now - u) | None => f_of_Z 0 end in
        if fgeb held (session_reclaim_hold_seconds policy) && cross_asset_reversal (i_market i) (k_down k)
        then moved now V_REVERSAL_CONFIRMED (with_break (with_confirmed now k) e)
        else with_break k e
  | V_REVERSAL_CONFIRMED | RECOVERY =>
      if lost then moved now REVERSAL_INVALIDATED (with_break k e)
      else if match recovery k x with Some r => fgeb r (session_recovery_ratio policy) | None => false end
      then moved now RECOVERY (with_break k e)
      else with_break k e
  | _ => with_break k e
  end.

Definition spec_watch (e : episode) (prior : option float) (x hi lo : float) : episode :=
  match crossed_level prior x (levels_of (structure (i_options i))) buffer with
  | Some (down, kind, level) => moved now STRUCTURE_BREAK (with_break (new_break down kind level x hi lo) e)
  | None => if extends e x then moved now TREND_EXTENSION e else e
  end.

Definition spec_step (e : episode) : episode :=
  match spot_of i with
  | None => e
  | Some x =>
      let '(prior, hi, lo) := match e_range e with Some (h, l, p) => (Some p, h, l) | None => (None, x, x) end in
      let e := Ep (e_open e) (Some (fmax hi x, fmin lo x, x)) (e_phase e) (e_break e) (e_moves e) in
      match e_break e with
      | None => spec_watch e prior x hi lo
      | Some k => spec_broken e k x
      end
  end.
End step.

(** A session, from its first observation on. *)
Definition session_run (policy : EpisodePolicy) (first : EpisodeInput) (rest : list EpisodeInput) : episode :=
  fold_left (λ e i, spec_step policy i e) (first :: rest) (fresh_episode first).

(** ** What is well formed *)

Definition finite (x : float) : Prop := f_is_nan x = false ∧ f_is_inf x = false.
Definition price (x : float) : Prop := finite x ∧ fltb (f_of_Z 0) x = true.

Definition input_ok (i : EpisodeInput) : Prop :=
  instant_in_range (i_now i) = true ∧ ∀ x, spot_of i = Some x → price x.

Definition brk_ok (k : brk) : Prop :=
  finite (k_level k) ∧ finite (k_extreme k) ∧ finite (k_high k) ∧ finite (k_low k)
  ∧ ∀ u, k_reclaim k = Some u → instant_in_range u = true.

Definition broken_phase (p : SessionEpisodePhase) : bool := match p with OBSERVING | TREND_EXTENSION => false | _ => true end.

Definition episode_ok (e : episode) : Prop :=
  (∀ x, e_open e = Some x → price x)
  ∧ (∀ h l p, e_range e = Some (h, l, p) → price h ∧ price l ∧ price p)
  ∧ match e_break e with Some k => brk_ok k ∧ broken_phase (e_phase e) = true | None => broken_phase (e_phase e) = false end.

(** ** What a dict shows *)

Definition shows_move (m : move) (v : pyval) : Prop :=
  ∃ d, v = VDict d ∧ vget "at" d = vtime (h_at m)
       ∧ vget "previous_phase" d = VStr (enum_value (h_from m)) ∧ vget "phase" d = VStr (enum_value (h_to m)).

Definition last_moves (l : list move) : list move := drop (length l - 100) l.

Definition shows_break (k : brk) (d : pydict) : Prop :=
  vget "episode_id" d = VStr (k_id k) ∧ vget "break_direction" d = VStr (direction_name (k_down k))
  ∧ vget "break_level_kind" d = VStr (k_kind k) ∧ vget "break_level" d = VFloat (k_level k) ∧ vget "break_at" d = vtime (k_at k)
  ∧ vget "pre_break_high" d = VFloat (k_high k) ∧ vget "pre_break_low" d = VFloat (k_low k)
  ∧ (∃ levels, vget "frozen_levels" d = VDict levels ∧ ∀ kind, vget kind levels = v_opt_float (dget kind (k_levels k)))
  ∧ vget "extreme_spot" d = VFloat (k_extreme k) ∧ vget "reclaim_at" d = v_opt_time (k_reclaim k)
  ∧ (∀ u, k_confirmed k = Some u → vget "reversal_confirmed_at" d = vtime u).

Definition shows_range (r : option (float * float * float)) (d : pydict) : Prop :=
  vget "session_high" d = v_opt_float ((λ p, p.1.1) <$> r) ∧ vget "session_low" d = v_opt_float ((λ p, p.1.2) <$> r)
  ∧ vget "current_spot" d = v_opt_float ((λ p, p.2) <$> r).

Record shows (session : string) (e : episode) (d : pydict) : Prop := Shows {
  sh_session : vget "session_id" d = VStr session;
  sh_open : vget "session_open" d = v_opt_float (e_open e);
  sh_range : shows_range (e_range e) d;
  sh_phase : vget "phase" d = VStr (enum_value (e_phase e));
  sh_break : ∀ k, e_break e = Some k → shows_break k d;
  sh_moves : ∃ rows, vget "transition_history" d = VList rows ∧ Forall2 shows_move (last_moves (e_moves e)) rows;
}.

(** Keys that a dict shows nothing with. *)
Definition shown_keys : list string :=
  ["session_id"; "session_open"; "session_high"; "session_low"; "current_spot"; "phase"; "transition_history"; "episode_id";
   "break_direction"; "break_level_kind"; "break_level"; "break_at"; "pre_break_high"; "pre_break_low"; "frozen_levels";
   "extreme_spot"; "reclaim_at"; "reversal_confirmed_at"].
