(* ===== verification/SessionEpisodeFacts.v ===== *)
(** * Session episodes: the stored dict follows the specification *)

From stdpp Require Import base list strings.
From Stdlib Require Import Ascii ZArith Lia.
From S2P Require Import Prelude PyStr PyFloat PyTime PyDateTime PyDict PyVal PyHash PyJson StateIo MarketdataFacts SessionEpisode SessionEpisodeSpec.

#[local] Open Scope Z_scope.

(** ** Numbers *)

Lemma finite_number_float x : finite x → finite_number (VFloat x) = Some x.
Proof. intros [H1 H2]. unfold finite_number. cbn. by rewrite H1, H2. Qed.

Lemma finite_number_some v x : finite_number v = Some x → finite x.
Proof.
  unfold finite_number. destruct (num_of v) as [y|]; [|done]. cbn. destruct (_ || _) eqn:E; [done|]. intros [= ->].
  by apply orb_false_iff in E.
Qed.

Lemma finite_number_opt o : (∀ x, o = Some x → finite x) → finite_number (v_opt_float o) = o.
Proof. intros H. destruct o as [x|]; [|done]. by apply finite_number_float, H. Qed.

Lemma price_finite x : price x → finite x.
Proof. by intros []. Qed.

Lemma price_not_zero x : price x → f_is_zero x = false.
Proof. intros [_ H]. destruct x as [[]| | |]; [|done..]; vm_compute in H; done. Qed.

Lemma number_or_price x y : price x → number_or (Some x) y = x.
Proof. intros H%price_not_zero. cbn. by rewrite H. Qed.

Lemma fmax_case a b (P : float → Prop) : P a → P b → P (fmax a b).
Proof. unfold fmax. by destruct (fgtb b a). Qed.
Lemma fmin_case a b (P : float → Prop) : P a → P b → P (fmin a b).
Proof. unfold fmin. by destruct (fltb b a). Qed.

(** ** Keys outside the display *)

Lemma shows_dset session e d k v : k ∉ shown_keys → shows session e d → shows session e (dset k v d).
Proof.
  intros Hk [Hs Ho Hr Hp Hb Hm].
  assert (∀ q, q ∈ shown_keys → vget q (dset k v d) = vget q d) as L.
  { intros q Hq. apply vget_dset_ne. by intros ->. }
  assert (∀ q, bool_decide (q ∈ shown_keys) = true → vget q (dset k v d) = vget q d) as L' by (intros q Hq; by apply L, (bool_decide_eq_true_1 _ Hq)).
  constructor; unfold shows_range, shows_break in *; rewrite ?L' by (by vm_compute); try done.
Qed.

Lemma shows_dmerge session e d entries :
  Forall (λ kv, kv.1 ∉ shown_keys) entries → shows session e d → shows session e (dmerge d entries).
Proof.
  unfold dmerge. revert d. induction entries as [|[k v] l IH]; intros d Hl Hd; [done|]. apply Forall_cons in Hl as [Hk Hl].
  cbn [fold_left]. apply IH; [done|]. by apply shows_dset.
Qed.

(** Forget the last update. *)
Ltac unshown := apply shows_dset; [by apply (bool_decide_eq_false_1 _); vm_compute|].

(** ** Moves *)

Lemma shows_move_dict l rows : Forall2 shows_move l rows → filter (λ x, is_Some (dict_of x)) rows = rows.
Proof.
  induction 1 as [|m v l rows (d & -> & _) _ IH]; [done|]. rewrite filter_cons_True by (by eexists). by rewrite IH.
Qed.

Lemma last_moves_snoc l m :
  last_moves (l ++ [m]) = drop (length (last_moves l ++ [m]) - 100) (last_moves l ++ [m]).
Proof.
  unfold last_moves. rewrite !length_app, length_drop. cbn [length].
  destruct (decide (length l ≤ 99)%nat) as [H|H].
  - replace (length l + 1 - 100)%nat with 0%nat by lia. replace (length l - 100)%nat with 0%nat by lia.
    replace (length l - 0 + 1 - 100)%nat with 0%nat by lia. done.
  - rewrite <- (drop_app_le l [m] (length l - 100)) by lia. rewrite drop_drop. f_equal. lia.
Qed.

Lemma phase_str session e d : shows session e d → vstr_or "phase" "observing" d = enum_value (e_phase e).
Proof. intros H. unfold vstr_or. rewrite (sh_phase _ _ _ H). by destruct (e_phase e). Qed.

Lemma enum_eqb (p q : SessionEpisodePhase) : String.eqb (enum_value p) (enum_value q) = bool_decide (p = q).
Proof.
  destruct (decide (p = q)) as [->|H]; [by rewrite bool_decide_eq_true_2, String.eqb_refl|].
  rewrite bool_decide_eq_false_2 by done. apply String.eqb_neq. intros E. by apply H, enum_value_inj.
Qed.

Lemma shows_transition session e d p reason now :
  shows session e d → ∃ d', episode_transition d p reason now = Ok d' ∧ shows session (moved now p e) d'.
Proof.
  intros H. unfold episode_transition, moved. change (enum_value OBSERVING) with "observing". rewrite (phase_str _ _ _ H), enum_eqb.
  case_bool_decide as E; destruct (decide _); try done; [by eexists|]. look.
  destruct H as [Hs Ho Hr Hp Hb (rows & Hm & Hl)]. rewrite Hm.
  assert (history_rows (VList rows) = Ok rows) as Hh.
  { unfold history_rows, v_or. destruct rows as [|r rows]; [done|]. cbn [truthy]. by rewrite (shows_move_dict _ _ Hl). }
  rewrite Hh. cbn [mbind res_bind]. eexists. split; [done|].
  unfold shows_range, shows_break in *. constructor; unfold shows_range, shows_break; cbn [e_open e_range e_phase e_break e_moves]; look; try done.
  eexists. split; [done|]. rewrite last_moves_snoc.
  set (row := VDict _). assert (Forall2 shows_move (last_moves (e_moves e) ++ [Move now (e_phase e) p]) (rows ++ [row])) as Hf.
  { apply Forall2_app; [done|]. apply Forall2_cons_2; [|done]. eexists. split; [done|]. cbn [h_at h_from h_to]. by look. }
  rewrite (Forall2_length _ _ _ Hf). by apply Forall2_drop.
Qed.

(** ** Entries of one observation *)

Definition with_range (h l p : float) (e : episode) : episode := Ep (e_open e) (Some (h, l, p)) (e_phase e) (e_break e) (e_moves e).

Ltac show_again := constructor; unfold shows_range, shows_break in *; cbn; look; try done.

Lemma shows_observe session e d now market options x hi lo :
  shows session e d → shows session (with_range (fmax hi x) (fmin lo x) x e) (observe_spot now market options d x hi lo).
Proof.
  intros H. unfold observe_spot. do 5 unshown.
  destruct H as [Hs Ho Hr Hp Hb Hm]. show_again.
Qed.

Lemma vget_levels kind levels : vget kind (map (λ kl, (kl.1, VFloat kl.2)) levels) = v_opt_float (dget kind levels).
Proof. unfold vget. rewrite dget_map_snd. by destruct (dget kind levels). Qed.

Lemma shows_new_break i e d x hi lo down kind level :
  shows (i_session i) e d →
  shows (i_session i) (with_break (new_break i down kind level x hi lo) e)
    (dmerge d (break_entries (i_session i) (i_now i) down kind level x hi lo (levels_of (structure (i_options i))))).
Proof.
  intros [Hs Ho Hr Hp Hb Hm]. unfold dmerge, break_entries. cbn [fold_left fst snd]. show_again.
  intros k [= <-]. cbn. split_and!; try done. eexists. split; [done|]. intros. apply vget_levels.
Qed.

Lemma shows_break_inv session e d k : shows session e d → e_break e = Some k → shows_break k d.
Proof. intros H. apply (sh_break _ _ _ H). Qed.

Lemma shows_set_extreme session e d k x now :
  shows session e d → e_break e = Some k →
  shows session (with_break (with_extreme x k) e) (dset "extreme_at" (vtime now) (dset "extreme_spot" (VFloat x) d)).
Proof.
  intros [Hs Ho Hr Hp Hb Hm] Hk. unshown.
  specialize (Hb k Hk). unfold shows_break in Hb. destruct_and! Hb. show_again. intros ? [= <-]. cbn. by split_and!.
Qed.

Lemma shows_set_reclaim session e d k u :
  shows session e d → e_break e = Some k → shows session (with_break (with_reclaim u k) e) (dset "reclaim_at" (v_opt_time u) d).
Proof.
  intros [Hs Ho Hr Hp Hb Hm] Hk.
  specialize (Hb k Hk). unfold shows_break in Hb. destruct_and! Hb. show_again. intros ? [= <-]. cbn. by split_and!.
Qed.

Lemma shows_set_confirmed session e d k now :
  shows session e d → e_break e = Some k → shows session (with_break (with_confirmed now k) e) (dset "reversal_confirmed_at" (vtime now) d).
Proof.
  intros [Hs Ho Hr Hp Hb Hm] Hk.
  specialize (Hb k Hk). unfold shows_break in Hb. destruct_and! Hb. show_again. intros ? [= <-]. cbn. split_and!; try done. by intros ? [= <-].
Qed.

Lemma with_break_same e k : e_break e = Some k → with_break k e = e.
Proof. destruct e. cbn. by intros ->. Qed.

Lemma shows_update_extreme session e d k x now :
  shows session e d → e_break e = Some k → finite (k_extreme k) →
  shows session (with_break (if feqb (farther k x) (k_extreme k) then k else with_extreme (farther k x) k) e) (update_extreme d x now).
Proof.
  intros H Hk Hf. pose proof (shows_break_inv _ _ _ _ H Hk) as Hb. unfold shows_break in Hb. destruct_and! Hb.
  unfold update_extreme. assert (vstr_or "break_direction" "" d = direction_name (k_down k)) as ->.
  { unfold vstr_or, v_or. match goal with E : vget "break_direction" d = _ |- _ => rewrite E end. by destruct (k_down k). }
  match goal with E : vget "extreme_spot" d = _ |- _ => rewrite E end. rewrite finite_number_float by done.
  assert ((if String.eqb (direction_name (k_down k)) "down" then fmin (k_extreme k) x
           else if String.eqb (direction_name (k_down k)) "up" then fmax (k_extreme k) x else x) = farther k x) as ->
    by (unfold farther; by destruct (k_down k)).
  destruct (feqb _ _); [by rewrite with_break_same|]. by apply shows_set_extreme.
Qed.

Lemma brk_ok_farther k x : brk_ok k → finite x → brk_ok (if feqb (farther k x) (k_extreme k) then k else with_extreme (farther k x) k).
Proof.
  intros Hok Hx. destruct (feqb _ _); [done|]. destruct Hok as (Hl & He & Hh & Hw & Hr). split_and!; cbn; try done.
  unfold farther. destruct (k_down k); [by apply fmin_case|by apply fmax_case].
Qed.

(** ** The step *)

Section step.
Context (policy : EpisodePolicy) (i : EpisodeInput).

Lemma is_extension_extends session e d x :
  shows session e d → (∀ o, e_open e = Some o → price o) → is_extension d x (i_options i) policy = extends policy i e x.
Proof.
  intros H Ho. unfold is_extension, extends. rewrite (sh_open _ _ _ H), finite_number_opt by (intros; by apply price_finite, Ho).
  by destruct (e_open e).
Qed.

Lemma shows_watch e d prior x hi lo :
  shows (i_session i) e d → (∀ o, e_open e = Some o → price o) →
  ∃ d', watch_break (i_session i) (i_now i) (i_options i) policy d prior x hi lo = Ok d'
        ∧ shows (i_session i) (spec_watch policy i e prior x hi lo) d'.
Proof.
  intros H Ho. unfold watch_break, spec_watch. destruct (crossed_level _ _ _ _) as [[[down kind] level]|].
  - apply shows_transition. by apply shows_new_break.
  - rewrite (is_extension_extends _ _ _ _ H Ho). destruct (extends _ _ _ _); [|by eexists].
    apply shows_transition. unshown; done.
Qed.

Lemma extreme_extension_beyond session e d k :
  shows session e d → e_break e = Some k → brk_ok k → extreme_extension d = beyond_level k.
Proof.
  intros H Hk (Hl & Hx & _). pose proof (shows_break_inv _ _ _ _ H Hk) as Hb. unfold shows_break in Hb. destruct_and! Hb.
  unfold extreme_extension, direction_down, beyond_level.
  repeat match goal with E : vget _ d = _ |- _ => rewrite E; clear E end.
  rewrite !finite_number_float by done. by destruct (k_down k).
Qed.

Lemma recovery_ratio_recovery session e d k x :
  shows session e d → e_break e = Some k → brk_ok k → recovery_ratio d x = Ok (recovery k x).
Proof.
  intros H Hk (Hl & Hx & Hh & Hw & _). pose proof (shows_break_inv _ _ _ _ H Hk) as Hb. unfold shows_break in Hb. destruct_and! Hb.
  unfold recovery_ratio, direction_down, recovery.
  assert (is_str "down" (vget "break_direction" d) = k_down k) as ->.
  { match goal with E : vget "break_direction" d = _ |- _ => rewrite E end. by destruct (k_down k). }
  match goal with E : vget "extreme_spot" d = _ |- _ => rewrite E end. rewrite finite_number_float by done.
  assert (finite_number (vget (if k_down k then "pre_break_high" else "pre_break_low") d)
          = Some (if k_down k then k_high k else k_low k)) as ->.
  { destruct (k_down k).
    - match goal with E : vget "pre_break_high" d = _ |- _ => rewrite E end. by apply finite_number_float.
    - match goal with E : vget "pre_break_low" d = _ |- _ => rewrite E end. by apply finite_number_float. }
  set (den := if k_down k then fsub _ _ else _). assert (den = if k_down k then fsub (k_high k) (k_extreme k) else fsub (k_extreme k) (k_low k)) as Ed
    by (unfold den; by destruct (k_down k)).
  rewrite <- Ed. destruct (fleb den (f_of_Z 0)) eqn:E0; [done|]. unfold fdiv.
  destruct (f_is_zero den) eqn:Ez; [|done]. by destruct den as [[]| | |].
Qed.

Lemma shows_broken e d k x :
  shows (i_session i) e d → e_break e = Some k → brk_ok k → finite x → broken_phase (e_phase e) = true →
  let d := update_extreme d x (i_now i) in let down := k_down k in let level := k_level k in
  ∃ d', match e_phase e with
        | STRUCTURE_BREAK | EXTREME => watch_reclaim (i_now i) policy d down level x
        | RECLAIM_PENDING => watch_hold (i_now i) (i_market i) (i_options i) policy d down level x
        | V_REVERSAL_CONFIRMED | RECOVERY => watch_recovery (i_now i) policy d down level x
        | _ => Ok d
        end = Ok d' ∧ shows (i_session i) (spec_broken policy i e k x) d'.
Proof.
  intros H Hk Hok Hx Hp d1 down level. pose proof Hok as (Hl & He & Hh & Hw & Hr).
  pose proof (shows_update_extreme _ _ _ _ x (i_now i) H Hk He) as H1. fold d1 in H1.
  unfold spec_broken. set (k1 := if feqb _ _ then k else _) in *.
  assert (k_down k1 = down ∧ k_level k1 = level ∧ k_reclaim k1 = k_reclaim k) as (Ed & El & Er) by (unfold k1; by destruct (feqb _ _)).
  assert (brk_ok k1) as Hok1 by (apply brk_ok_farther; [done|done]).
  rewrite Ed, El, Er. set (e1 := with_break k1 e) in *. assert (e_break e1 = Some k1) as Hk1 by done.
  assert (W : ∀ k', with_break k' e = with_break k' e1) by done.
  destruct (e_phase e) eqn:Ep; try done.
  6: by eexists.
  4,5: unfold watch_recovery; destruct (reclaim_lost _ _ _ _); [by apply shows_transition|];
    rewrite (recovery_ratio_recovery _ _ _ _ x H1 Hk1 Hok1); cbn [mbind res_bind];
    assert (∀ v, shows (i_session i) e1 (dset "recovery_ratio" v d1)) as Hs by (intros; unshown; done);
    destruct (match recovery k1 x with Some _ => _ | None => _ end); [by apply shows_transition|by eexists].
  1,2: unfold watch_reclaim; destruct (reclaimed _ _ _ _);
    [rewrite W; apply shows_transition; unshown; by apply (shows_set_reclaim _ _ _ _ (Some _))
    |rewrite (extreme_extension_beyond _ _ _ _ H1 Hk1 Hok1); destruct (fgeb _ _); [by apply shows_transition|by eexists]].
  unfold watch_hold. destruct (reclaim_lost _ _ _ _).
  { rewrite W. apply shows_transition. by apply (shows_set_reclaim _ _ _ _ None). }
  pose proof (shows_break_inv _ _ _ _ H1 Hk1) as Hb. unfold shows_break in Hb. destruct_and! Hb.
  match goal with E : vget "reclaim_at" d1 = _ |- _ => rewrite E, Er end.
  assert (iso_utc (v_opt_time (k_reclaim k)) = Ok (k_reclaim k)) as ->.
  { destruct (k_reclaim k) as [u|] eqn:Eu; [|done]. apply iso_utc_vtime. by apply Hr. }
  cbn [mbind res_bind]. destruct (_ && _).
  - rewrite W. apply shows_transition. unshown.
    apply shows_set_confirmed; [|done]. unshown; done.
  - eexists. split; [done|]. unshown; done.
Qed.
End step.

(** ** Well-formed states *)

Lemma moved_fields now p e :
  e_open (moved now p e) = e_open e ∧ e_range (moved now p e) = e_range e ∧ e_break (moved now p e) = e_break e
  ∧ e_phase (moved now p e) = p.
Proof. unfold moved. by destruct (decide _). Qed.

Lemma episode_ok_moved now p e :
  episode_ok e → broken_phase p = broken_phase (e_phase e) → episode_ok (moved now p e).
Proof.
  intros (H1 & H2 & H3) Hp. destruct (moved_fields now p e) as (E1 & E2 & E3 & E4). unfold episode_ok.
  rewrite E1, E2, E3, E4, Hp. by split_and!.
Qed.

Lemma episode_ok_broken now p k e :
  episode_ok e → brk_ok k → broken_phase p = true → episode_ok (moved now p (with_break k e)).
Proof.
  intros (H1 & H2 & H3) Hk Hp. destruct (moved_fields now p (with_break k e)) as (E1 & E2 & E3 & E4). unfold episode_ok.
  rewrite E1, E2, E3, E4. by split_and!.
Qed.

Lemma dget_level_entry kind k v x : dget kind (level_entry k v) = Some x → finite x.
Proof.
  unfold level_entry. destruct (finite_number v) as [y|] eqn:E; [|done]. unfold dget. destruct (String.eqb kind k); [|done]. intros [= <-].
  by apply finite_number_some in E.
Qed.

Lemma dget_app {A} k (d e : list (string * A)) : dget k (d ++ e) = match dget k d with Some x => Some x | None => dget k e end.
Proof. induction d as [|[k' v] d IH]; [done|]. unfold dget in *. cbn. destruct (String.eqb k k'); [done|apply IH]. Qed.

Lemma levels_finite kind s x : dget kind (levels_of s) = Some x → finite x.
Proof.
  unfold levels_of. rewrite !dget_app. destruct (dget kind (level_entry "put_wall" _)) eqn:E1; [intros [= ->]; by eapply dget_level_entry|].
  destruct (dget kind (level_entry "call_wall" _)) eqn:E2; [intros [= ->]; by eapply dget_level_entry|].
  destruct (vget "flip_zone" s) as [| | | | |[|a [|b l]]|]; try done. rewrite dget_app.
  destruct (dget kind (level_entry "flip_low" _)) eqn:E3; [intros [= ->]; by eapply dget_level_entry|]. apply dget_level_entry.
Qed.

Lemma crossed_rows_finite s kinds crossed : Forall (λ row, finite row.2) (crossed_rows (levels_of s) kinds crossed).
Proof.
  apply Forall_forall. intros [kind level] H. apply list_elem_of_omap in H as (k & _ & H).
  destruct (dget k (levels_of s)) as [x|] eqn:E; [|done]. cbn in H. destruct (crossed x); [|done]. inv H. by eapply levels_finite.
Qed.

Lemma best_row_in better rows row : best_row better rows = Some row → row ∈ rows.
Proof.
  destruct rows as [|r rows]; [done|]. intros [= <-]. revert r.
  induction rows as [|r' rows IH]; intros r; cbn [fold_left]; [by left|].
  destruct (better _ _); [by right; apply IH|].
  destruct (proj1 (elem_of_cons _ _ _) (IH r)) as [->|H]; [by left|by right; right].
Qed.

Lemma crossed_level_finite prior x s buffer down kind level :
  crossed_level prior x (levels_of s) buffer = Some (down, kind, level) → finite level.
Proof.
  unfold crossed_level. destruct prior as [p|]; [|done]. destruct (feqb x p); [done|].
  assert (∀ better kinds c r, best_row better (crossed_rows (levels_of s) kinds c) = Some r → finite r.2) as H.
  { intros better kinds c r Hr%best_row_in. by apply (proj1 (Forall_forall _ _) (crossed_rows_finite s kinds c)). }
  destruct (fltb x p); intros Hc; destruct (best_row _ _) as [[k l]|] eqn:E; try done; inv Hc; by apply (H _ _ _ _ E).
Qed.

Section steps.
Context (policy : EpisodePolicy).

Lemma episode_ok_fresh i : input_ok i → episode_ok (fresh_episode i).
Proof.
  intros [_ Hx]. split_and!; [exact Hx| |done]. intros h l p. cbn. destruct (spot_of i) as [x|] eqn:E; [|done].
  intros [= <- <- <-]. split_and!; by apply Hx.
Qed.

Lemma spec_step_ok i e : input_ok i → episode_ok e → episode_ok (spec_step policy i e).
Proof.
  intros [Hn Hx] (H1 & H2 & H3). unfold spec_step. destruct (spot_of i) as [x|] eqn:E; [|by split_and!].
  specialize (Hx x eq_refl).
  destruct (match e_range e with Some (h, l, p) => (Some p, h, l) | None => (None, x, x) end) as [[prior hi] lo] eqn:Er.
  assert (price hi ∧ price lo) as [Hhi Hlo].
  { destruct (e_range e) as [[[h l] p]|]; inv Er; [|done]. by destruct (H2 _ _ _ eq_refl) as (? & ? & ?). }
  set (e' := Ep _ _ _ _ _). assert (episode_ok e') as He'.
  { split_and!; [done| |done]. intros h l p [= <- <- <-]. split_and!; [by apply fmax_case|by apply fmin_case|done]. }
  change (match e_break e with Some k => spec_broken policy i e' k x | None => spec_watch policy i e' prior x hi lo end) with
    (match e_break e' with Some k => spec_broken policy i e' k x | None => spec_watch policy i e' prior x hi lo end).
  change (e_break e) with (e_break e') in H3. change (e_phase e) with (e_phase e') in H3. clearbody e'. destruct (e_break e') as [k|] eqn:Ek.
  - destruct H3 as [Hk _]. unfold spec_broken. pose proof (brk_ok_farther k x Hk ltac:(by apply price_finite)) as Hf.
    set (k1 := if feqb _ _ then k else _) in *.
    assert (∀ u, instant_in_range (i_now i) = true → u = None ∨ u = Some (i_now i) → brk_ok (with_reclaim u k1)) as Hr.
    { intros u Hu Hor. destruct Hf as (?&?&?&?&?). split_and!; cbn; try done. intros v ->. destruct Hor as [|Hor]; [done|by inv Hor]. }
    assert (brk_ok (with_confirmed (i_now i) k1)) as Hc by (destruct Hf as (?&?&?&?&?); by split_and!).
    assert (episode_ok (with_break k1 e')) as Hw by (destruct He' as (A1 & A2 & A3); rewrite Ek in A3; destruct A3; by split_and!).
    clearbody k1. destruct (e_phase e'); try done;
      repeat match goal with |- context [if ?b then _ else _] => destruct b end; try done;
      (apply episode_ok_broken; [done| |done]); first [done | apply Hr; [done|by left] | apply Hr; [done|by right]].
  - unfold spec_watch. destruct (crossed_level _ _ _ _) as [[[down kind] level]|] eqn:Ec.
    + apply episode_ok_broken; [done| |done]. split_and!; cbn; try (by apply price_finite); [|done].
      by eapply crossed_level_finite.
    + destruct (extends _ _ _ _); [|done]. apply episode_ok_moved; [done|by rewrite H3].
Qed.

(** ** The refinement *)

Lemma shows_known i e d :
  session_episode_enabled policy = true → input_ok i → episode_ok e → shows (i_session i) e d →
  ∃ d', advance_session_episode (i_session i) (i_now i) (i_market i) (i_options i) policy (Some d) (i_spot i) = Ok d'
        ∧ shows (i_session i) (spec_step policy i e) d'.
Proof.
  intros Hen [Hn Hx] (H1 & H2 & H3) H. unfold advance_session_episode. rewrite Hen. change (default [] (Some d)) with d. cbn [negb].
  change (x ← i_spot i; finite_number (VFloat x)) with (spot_of i). unfold spec_step.
  rewrite (sh_session _ _ _ H). cbn [is_str id]. rewrite String.eqb_refl.
  destruct (spot_of i) as [x|] eqn:E.
  2:{ eexists. split; [done|]. apply shows_dmerge; [|done]. repeat apply Forall_cons_2; try done; by apply (bool_decide_eq_false_1 _). }
  specialize (Hx x eq_refl). destruct (sh_range _ _ _ H) as (Rh & Rl & Rs). rewrite Rh, Rl, Rs.
  assert (match e_range e with Some (h, l, p) => (Some p, h, l) | None => (None, x, x) end
          = ((λ p, p.2) <$> e_range e, number_or ((λ p, p.1.1) <$> e_range e) x, number_or ((λ p, p.1.2) <$> e_range e) x)) as ->.
  { destruct (e_range e) as [[[h l] p]|]; [|done]. destruct (H2 h l p eq_refl) as (Ph & Pl & _). cbn -[number_or].
    by rewrite !number_or_price. }
  rewrite !finite_number_opt.
  2-4: intros y Hy; destruct (e_range e) as [[[h l] p]|]; [|done]; destruct (H2 _ _ _ eq_refl) as (? & ? & ?); inv Hy; by apply price_finite.
  set (hi := number_or _ x). set (lo := number_or _ x).
  pose proof (shows_observe _ _ _ (i_now i) (i_market i) (i_options i) x hi lo H) as H'.
  set (d1 := observe_spot _ _ _ _ _ _ _) in *. fold (with_range (fmax hi x) (fmin lo x) x e). set (e1 := with_range _ _ _ e) in *.
  rewrite (phase_str _ _ _ H'), enum_or_value. change (e_break e) with (e_break e1) in *. change (e_phase e) with (e_phase e1) in *.
  destruct (e_break e1) as [k|] eqn:Ek.
  - destruct H3 as [Hk Hp]. pose proof (shows_break_inv _ _ _ _ H' Ek) as Hb. unfold shows_break in Hb. destruct_and! Hb.
    assert (vstr_or "break_direction" "" d1 = direction_name (k_down k)) as ->.
    { unfold vstr_or, v_or. match goal with E : vget "break_direction" d1 = _ |- _ => rewrite E end. by destruct (k_down k). }
    match goal with E : vget "break_level" d1 = _ |- _ => rewrite E end. rewrite finite_number_float by apply Hk.
    destruct (shows_broken policy i e1 d1 k x H' Ek Hk (price_finite _ Hx) Hp) as (d' & Hd & Hs). exists d'. split; [|done].
    assert (String.eqb (direction_name (k_down k)) "down" = k_down k) as -> by (by destruct (k_down k)).
    assert (String.eqb (direction_name (k_down k)) "up" || k_down k = true) as -> by (by destruct (k_down k)).
    by destruct (e_phase e1).
  - assert (match e_phase e1 with OBSERVING | TREND_EXTENSION => true | _ => false end = true) by (by destruct (e_phase e1)).
    destruct (shows_watch policy i e1 d1 ((λ p, p.2) <$> e_range e) x hi lo H' H1) as (d' & Hd & Hs).
    exists d'. split; [|done]. by destruct (e_phase e1).
Qed.
End steps.

(** ** Cycles of the service *)

Lemma episode_shows_fresh i : shows (i_session i) (fresh_episode i) (initial_episode (i_session i) (spot_of i) (i_now i)).
Proof.
  constructor; unfold shows_range, initial_episode; cbn [fresh_episode e_open e_range e_phase e_break e_moves]; look; try done.
  - by destruct (spot_of i).
  - exists []. split; [done|]. apply Forall2_nil_2.
Qed.

Lemma shows_canon session e d : shows session e d → shows session e (canon_dict d).
Proof.
  intros [Hs Ho (R1 & R2 & R3) Hp Hb (rows & Hm & Hf)]. constructor; unfold shows_range; rewrite ?vget_canon, ?Hs, ?Ho, ?R1, ?R2, ?R3, ?Hp, ?Hm.
  - done.
  - by destruct (e_open e).
  - by destruct (e_range e).
  - done.
  - intros k Hk. specialize (Hb k Hk). unfold shows_break in *. rewrite !vget_canon.
    destruct Hb as (-> & -> & -> & -> & -> & -> & -> & (levels & -> & Hl) & -> & -> & Hc). split_and!; try done.
    + exists (canon_dict levels). split; [done|]. intros kind. rewrite vget_canon, Hl. by destruct (dget kind (k_levels k)).
    + by destruct (k_reclaim k).
    + intros u Hu. by rewrite (Hc u Hu).
  - exists (map canon rows). split; [done|]. apply Forall2_fmap_r. eapply Forall2_impl; [exact Hf|].
    intros m v (r & -> & H1 & H2 & H3). exists (canon_dict r). split; [done|]. by rewrite !vget_canon, H1, H2, H3.
Qed.

Lemma persisted_saved ep others : persisted_episode (written_json (dset "session_episode" (VDict ep) others)) = canon_dict ep.
Proof. unfold persisted_episode, stored_episode. rewrite written_reads, vget_canon, vget_dset_eq. done. Qed.

(** The cycles of the service over a list of inputs. *)
Fixpoint episode_cycles (policy : EpisodePolicy) (file : FileContent) (l : list EpisodeInput) : res FileContent :=
  match l with
  | [] => Ok file
  | i :: l => '(file, _) ← episode_cycle policy file i; episode_cycles policy file l
  end.

Lemma episode_cycles_app policy file l l' :
  episode_cycles policy file (l ++ l') = (file ← episode_cycles policy file l; episode_cycles policy file l').
Proof.
  revert file. induction l as [|i l IH]; intros file; [done|]. cbn [episode_cycles app].
  destruct (episode_cycle policy file i) as [[file' r]|]; cbn; [apply IH|done].
Qed.

(** A file with the session's episode can be decoded. *)
Lemma cycle_reads file :
  file ≠ Undecodable → ∃ persisted, read_json_object file = Ok persisted ∧ stored_episode persisted = persisted_episode file.
Proof. intros Hf. destruct file; try done; by eexists. Qed.
Lemma shown_decodes session file e : shows session e (persisted_episode file) → file ≠ Undecodable.
Proof. intros Hs ->. pose proof (sh_session _ _ _ Hs) as E. discriminate E. Qed.

Section cycles.
Context (policy : EpisodePolicy) (enabled : session_episode_enabled policy = true) (session : string).

Definition session_inputs (l : list EpisodeInput) : Prop := Forall (λ i, input_ok i ∧ i_session i = session) l.

Lemma cycle_known file i e :
  input_ok i → i_session i = session → episode_ok e → shows session e (persisted_episode file) →
  ∃ file' r, episode_cycle policy file i = Ok (file', r) ∧ shows session (spec_step policy i e) (persisted_episode file').
Proof.
  intros Hi <- He Hs. destruct (shows_known _ _ _ _ enabled Hi He Hs) as (d & Hd & Hs').
  destruct (cycle_reads file (shown_decodes _ _ _ Hs)) as (per & Er & Es). unfold episode_cycle. rewrite Er. cbn [mbind res_bind].
  rewrite Es, Hd. cbn. eexists _, _. split; [done|]. rewrite persisted_saved. by apply shows_canon.
Qed.

Lemma cycle_new file i :
  file ≠ Undecodable → input_ok i → i_session i = session →
  is_str session (vget "session_id" (persisted_episode file)) = false →
  ∃ file' r, episode_cycle policy file i = Ok (file', r)
             ∧ shows session (spec_step policy i (fresh_episode i)) (persisted_episode file').
Proof.
  intros Hf Hi <- Hn. destruct (shows_known _ _ _ _ enabled Hi (episode_ok_fresh _ Hi) (episode_shows_fresh i)) as (d & Hd & Hs').
  destruct (cycle_reads file Hf) as (per & Er & Es). unfold episode_cycle. rewrite Er. cbn [mbind res_bind]. rewrite Es.
  assert (advance_session_episode (i_session i) (i_now i) (i_market i) (i_options i) policy (Some (persisted_episode file)) (i_spot i) = Ok d) as ->.
  { rewrite <- Hd. unfold advance_session_episode. change (default [] (Some (persisted_episode file))) with (persisted_episode file).
    rewrite Hn. change (default [] (Some (initial_episode (i_session i) (spot_of i) (i_now i)))) with (initial_episode (i_session i) (spot_of i) (i_now i)).
    assert (is_str (i_session i) (vget "session_id" (initial_episode (i_session i) (spot_of i) (i_now i))) = true) as ->
      by (cbn; apply String.eqb_refl). done. }
  cbn. eexists _, _. split; [done|]. rewrite persisted_saved. by apply shows_canon.
Qed.

Lemma cycles_known file l e :
  session_inputs l → episode_ok e → shows session e (persisted_episode file) →
  ∃ file', episode_cycles policy file l = Ok file'
           ∧ shows session (fold_left (λ e i, spec_step policy i e) l e) (persisted_episode file')
           ∧ episode_ok (fold_left (λ e i, spec_step policy i e) l e).
Proof.
  revert file e. induction l as [|i l IH]; intros file e Hi He Hs; [by eexists|]. apply Forall_cons in Hi as [[Hi Hse] Hl].
  destruct (cycle_known file i e Hi Hse He Hs) as (file1 & r & Hc & Hs1). cbn [episode_cycles fold_left]. rewrite Hc. cbn [mbind res_bind].
  apply IH; [done| |done]. by apply spec_step_ok.
Qed.

Lemma session_followed file first rest :
  file ≠ Undecodable → session_inputs (first :: rest) →
  is_str session (vget "session_id" (persisted_episode file)) = false →
  ∃ file', episode_cycles policy file (first :: rest) = Ok file'
           ∧ shows session (session_run policy first rest) (persisted_episode file')
           ∧ episode_ok (session_run policy first rest).
Proof.
  intros Hf Hi Hn. apply Forall_cons in Hi as [[Hi Hse] Hl]. destruct (cycle_new file first Hf Hi Hse Hn) as (file1 & r & Hc & Hs1).
  cbn [episode_cycles]. rewrite Hc. cbn [mbind res_bind]. unfold session_run. cbn [fold_left].
  apply cycles_known; [done| |done]. apply spec_step_ok; [done|]. by apply episode_ok_fresh.
Qed.
End cycles.
