(* ===== verification/SessionEpisodeProps.v ===== *)
(** * What a session episode proves about its session

    On top of the refinement: the stored range is that of the session's spots,
    a confirmed reversal has its path in the observations, and a session has one
    break, after which the phases follow the graph. *)

From stdpp Require Import base list strings relations.
From Stdlib Require Import Ascii ZArith Lia.
From S2P Require Import Prelude PyStr PyFloat PyTime PyDateTime PyDict PyVal PyHash PyJson StateIo SessionEpisode SessionEpisodeSpec SessionEpisodeFacts.

#[local] Open Scope Z_scope.

(** ** Floats in order *)

Lemma feqb_refl x : finite x → feqb x x = true.
Proof. intros [Hn _]. apply feqb_key. destruct x; try done; by eexists. Qed.

Lemma fleb_refl x : finite x → fleb x x = true.
Proof. intros [Hn _]. by rewrite fleb_total, fltb_irrefl. Qed.

Lemma fleb_fltb_trans x y z : finite x → finite y → finite z → fleb x y = true → fltb y z = true → fleb x z = true.
Proof.
  intros [Hx _] [Hy _] [Hz _]. rewrite !fleb_total by done. intros H1%negb_true_iff H2. apply negb_true_iff.
  destruct (fltb z x) eqn:E; [|done]. by rewrite (fltb_trans _ _ _ H2 E) in H1.
Qed.

Lemma fltb_fleb_trans x y z : finite x → finite y → finite z → fltb x y = true → fleb y z = true → fleb x z = true.
Proof.
  intros [Hx _] [Hy _] [Hz _]. rewrite !fleb_total by done. intros H1 H2%negb_true_iff. apply negb_true_iff.
  destruct (fltb z x) eqn:E; [|done]. by rewrite (fltb_trans _ _ _ E H1) in H2.
Qed.

Lemma fmax_le_l h x y : finite h → finite x → finite y → fleb y h = true → fleb y (fmax h x) = true.
Proof. intros ???. unfold fmax, fgtb. destruct (fltb h x) eqn:E; [|done]. intros. by apply (fleb_fltb_trans y h x). Qed.
Lemma fmax_le_r h x : finite h → finite x → fleb x (fmax h x) = true.
Proof. intros [Hh _] [Hx _]. unfold fmax, fgtb. destruct (fltb h x) eqn:E; rewrite fleb_total by done; by rewrite ?fltb_irrefl, ?E. Qed.
Lemma fmin_le_l w x y : finite w → finite x → finite y → fleb w y = true → fleb (fmin w x) y = true.
Proof. intros ???. unfold fmin. destruct (fltb x w) eqn:E; [|done]. intros. by apply (fltb_fleb_trans x w y). Qed.
Lemma fmin_le_r w x : finite w → finite x → fleb (fmin w x) x = true.
Proof. intros [Hw _] [Hx _]. unfold fmin. destruct (fltb x w) eqn:E; rewrite fleb_total by done; by rewrite ?fltb_irrefl, ?E. Qed.

(** ** The range *)

Definition prices (l : list EpisodeInput) : list float := omap spot_of l.

Lemma prices_snoc l i : prices (l ++ [i]) = prices l ++ match spot_of i with Some x => [x] | None => [] end.
Proof. unfold prices. rewrite omap_app. cbn. by destruct (spot_of i). Qed.

(** The high, the low and the last of a list of prices. *)
Definition spans (xs : list float) (h w p : float) : Prop :=
  h ∈ xs ∧ w ∈ xs ∧ last xs = Some p ∧ Forall (λ x, fleb w x = true ∧ fleb x h = true) xs.

Lemma spans_snoc xs h w p x :
  Forall finite xs → finite x → spans xs h w p → spans (xs ++ [x]) (fmax h x) (fmin w x) x.
Proof.
  intros Hf Hx (Hh & Hw & Hp & Ha). pose proof (proj1 (Forall_forall _ _) Hf) as F.
  pose proof (F h Hh) as Fh. pose proof (F w Hw) as Fw. split_and!.
  - apply elem_of_app. unfold fmax. destruct (fgtb x h); [right; by left|by left].
  - apply elem_of_app. unfold fmin. destruct (fltb x w); [right; by left|by left].
  - by rewrite last_snoc.
  - apply Forall_app_2; [|apply Forall_singleton; split; [by apply fmin_le_r|by apply fmax_le_r]].
    apply Forall_forall. intros y Hy. destruct (proj1 (Forall_forall _ _) Ha y Hy).
    split; [apply fmin_le_l; auto|apply fmax_le_l; auto].
Qed.

Lemma spans_one x : finite x → spans [x] x x x.
Proof. intros H. split_and!; [by left|by left|done|]. apply Forall_singleton. split; by apply fleb_refl. Qed.

Section run.
Context (policy : EpisodePolicy).

Lemma first_step i :
  input_ok i →
  let e := spec_step policy i (fresh_episode i) in
  e_open e = spot_of i ∧ e_range e = (λ x, (x, x, x)) <$> spot_of i ∧ e_break e = None.
Proof.
  intros [_ Hx]. unfold spec_step. cbn [fresh_episode e_range e_open e_phase e_break e_moves]. destruct (spot_of i) as [x|] eqn:E; [|by rewrite <- E].
  cbn [fmap option_fmap option_map]. specialize (Hx x eq_refl). unfold spec_watch. unfold crossed_level.
  rewrite feqb_refl by (by apply price_finite). unfold fmax, fmin, fgtb. rewrite fltb_irrefl.
  match goal with |- context [if ?b then _ else _] => destruct b end; [|done].
  match goal with |- context [moved ?n ?p ?e] => by destruct (moved_fields n p e) as (-> & -> & -> & _) end.
Qed.

Lemma session_run_ind (P : list EpisodeInput → episode → Prop) first rest :
  Forall input_ok (first :: rest) →
  P [first] (spec_step policy first (fresh_episode first)) →
  (∀ l i e, Forall input_ok l → l ≠ [] → input_ok i → episode_ok e → P l e → P (l ++ [i]) (spec_step policy i e)) →
  P (first :: rest) (session_run policy first rest).
Proof.
  intros Hok H0 Hs. assert (episode_ok (session_run policy first rest) ∧ P (first :: rest) (session_run policy first rest)) as [_ ?]; [|done].
  apply Forall_cons in Hok as [Hf Hr]. unfold session_run. cbn [fold_left]. induction rest as [|i rest IH] using rev_ind.
  - split; [|done]. apply spec_step_ok; [done|]. by apply episode_ok_fresh.
  - apply Forall_app in Hr as [Hr Hi]. apply Forall_cons in Hi as [Hi _]. destruct (IH Hr) as [He HP]. rewrite fold_left_app. cbn [fold_left].
    split; [by apply spec_step_ok|]. apply (Hs (first :: rest)); [by apply Forall_cons_2|done..].
Qed.

Lemma prices_finite l : Forall input_ok l → Forall finite (prices l).
Proof.
  intros H. apply Forall_forall. intros x Hx. apply list_elem_of_omap in Hx as (i & Hi & Hx).
  apply price_finite. by apply (proj1 (Forall_forall _ _) H i Hi).
Qed.

(** What one step does to the parts. *)
Lemma spec_broken_fields i e k x :
  let e' := spec_broken policy i e k x in
  e_open e' = e_open e ∧ e_range e' = e_range e.
Proof.
  unfold spec_broken. set (k1 := if feqb _ _ then k else _). clearbody k1.
  destruct (e_phase e); repeat match goal with |- context [if ?b then _ else _] => destruct b end; try done;
    match goal with |- context [moved ?n ?p ?e] => by destruct (moved_fields n p e) as (-> & -> & _) end.
Qed.

Lemma spec_watch_fields i e prior x hi lo :
  let e' := spec_watch policy i e prior x hi lo in
  e_open e' = e_open e ∧ e_range e' = e_range e.
Proof.
  unfold spec_watch. destruct (crossed_level _ _ _ _) as [[[down kind] level]|]; [|destruct (extends _ _ _ _); [|done]];
    match goal with |- context [moved ?n ?p ?e] => by destruct (moved_fields n p e) as (-> & -> & _) end.
Qed.

Definition prior_range (e : episode) (x : float) : option float * float * float :=
  match e_range e with Some (h, w, p) => (Some p, h, w) | None => (None, x, x) end.

Lemma spec_step_some i e x :
  spot_of i = Some x →
  let hi := (prior_range e x).1.2 in let lo := (prior_range e x).2 in
  let e1 := with_range (fmax hi x) (fmin lo x) x e in
  spec_step policy i e =
  match e_break e with
  | Some k => spec_broken policy i e1 k x
  | None => spec_watch policy i e1 (prior_range e x).1.1 x hi lo
  end.
Proof. intros E. unfold spec_step, prior_range. rewrite E. by destruct (e_range e) as [[[h w] p]|]. Qed.

Lemma spec_step_fields i e :
  e_open (spec_step policy i e) = e_open e
  ∧ e_range (spec_step policy i e) =
    match spot_of i with
    | None => e_range e
    | Some x => Some match e_range e with Some (h, l, p) => (fmax h x, fmin l x, x) | None => (fmax x x, fmin x x, x) end
    end.
Proof.
  destruct (spot_of i) as [x|] eqn:E; [|unfold spec_step; by rewrite E]. rewrite (spec_step_some i e x E). cbv zeta.
  set (e1 := with_range _ _ _ e). assert (e_open e1 = e_open e) as <- by done.
  replace (Some _) with (e_range e1) by (unfold e1, prior_range; by destruct (e_range e) as [[[h w] p]|]).
  destruct (e_break e); [apply spec_broken_fields|apply spec_watch_fields].
Qed.

Definition ranges (l : list EpisodeInput) (e : episode) : Prop :=
  match e_range e with Some (h, w, p) => spans (prices l) h w p | None => prices l = [] end.

Lemma session_ranges first rest : Forall input_ok (first :: rest) → ranges (first :: rest) (session_run policy first rest).
Proof.
  intros Hok. apply session_run_ind; [done|..].
  - apply Forall_cons in Hok as [Hf _]. destruct (first_step first Hf) as (_ & Hr & _). unfold ranges. rewrite Hr. cbn.
    destruct Hf as [_ Hx]. destruct (spot_of first) as [x|]; cbn; [|done]. apply spans_one. by apply price_finite, Hx.
  - intros l i e Hl _ [_ Hx] _ IH. unfold ranges in *. destruct (spec_step_fields i e) as [_ ->]. rewrite prices_snoc.
    destruct (spot_of i) as [x|]; [|by rewrite app_nil_r]. specialize (Hx x eq_refl). apply price_finite in Hx.
    destruct (e_range e) as [[[h w] p]|]; [by eapply spans_snoc; [apply prices_finite|..]|].
    rewrite IH. unfold fmax, fmin, fgtb. rewrite fltb_irrefl. by apply spans_one.
Qed.

(** The open is the spot of the first observation, if it has one. *)
Lemma session_open_first first rest : Forall input_ok (first :: rest) → e_open (session_run policy first rest) = spot_of first.
Proof.
  intros Hok. apply (session_run_ind (λ _ e, e_open e = spot_of first)); [done|..].
  - apply Forall_cons in Hok as [Hf _]. by destruct (first_step first Hf).
  - intros l i e _ _ _ _ <-. apply spec_step_fields.
Qed.
End run.

(** ** The path of a reversal *)

Section path.
Context (policy : EpisodePolicy).

Let buffer := session_break_buffer_points policy.

(** Observation [b] is the break: its spot and the last one before it have a
    level of [b]'s option structure between them. *)
Definition breaks_at (l : list EpisodeInput) (b : nat) (k : brk) : Prop :=
  ∃ i p x, l !! b = Some i ∧ last (prices (take b l)) = Some p ∧ spot_of i = Some x
    ∧ crossed_level (Some p) x (levels_of (structure (i_options i))) buffer = Some (k_down k, k_kind k, k_level k)
    ∧ k_at k = i_now i.

(** Observation [r] reclaims the level, and no later spot loses it. *)
Definition reclaimed_at (l : list EpisodeInput) (r : nat) (k : brk) : Prop :=
  ∃ i x, l !! r = Some i ∧ spot_of i = Some x ∧ reclaimed x (k_level k) (k_down k) buffer = true
    ∧ k_reclaim k = Some (i_now i)
    ∧ ∀ j i' z, (r < j)%nat → l !! j = Some i' → spot_of i' = Some z → reclaim_lost z (k_level k) (k_down k) buffer = false.

(** Observation [c] confirms: the reclaim has held for the time that the policy
    asks for, and ES and SPY have turned. *)
Definition confirmed_at (l : list EpisodeInput) (r c : nat) (k : brk) : Prop :=
  ∃ i u, (r < c)%nat ∧ l !! c = Some i ∧ k_reclaim k = Some u ∧ k_confirmed k = Some (i_now i)
    ∧ fgeb (total_seconds (i_now i - u)) (session_reclaim_hold_seconds policy) = true
    ∧ cross_asset_reversal (i_market i) (k_down k) = true.

Definition path (l : list EpisodeInput) (e : episode) : Prop :=
  match e_break e with
  | None => True
  | Some k =>
      ∃ b, breaks_at l b k ∧
      match e_phase e with
      | RECLAIM_PENDING => ∃ r, (b < r)%nat ∧ reclaimed_at l r k
      | V_REVERSAL_CONFIRMED | RECOVERY => ∃ r c, (b < r)%nat ∧ reclaimed_at l r k ∧ confirmed_at l r c k
      | _ => True
      end
  end.

Lemma breaks_at_snoc l b k i : breaks_at l b k → breaks_at (l ++ [i]) b k.
Proof.
  intros (ib & p & x & Hb & Hp & Hx & Hc & Ha). exists ib, p, x. pose proof (lookup_lt_Some _ _ _ Hb).
  rewrite take_app_le by lia. split_and!; [by apply lookup_app_l_Some|done..].
Qed.

Lemma reclaimed_at_snoc l r k i :
  (∀ z, spot_of i = Some z → reclaim_lost z (k_level k) (k_down k) buffer = false) →
  reclaimed_at l r k → reclaimed_at (l ++ [i]) r k.
Proof.
  intros Hi (ir & x & Hr & Hx & Hc & Ha & Hl). exists ir, x. split_and!; [by apply lookup_app_l_Some|done..|].
  intros j i' z Hj Hi' Hz. apply lookup_snoc_Some in Hi' as [[_ Hi']|[_ <-]]; [by eapply Hl|by apply Hi].
Qed.

Lemma confirmed_at_snoc l r c k i : confirmed_at l r c k → confirmed_at (l ++ [i]) r c k.
Proof. intros (ic & u & Hr & Hc & H). exists ic, u. split_and!; try apply H; [done|by apply lookup_app_l_Some]. Qed.

Lemma reclaimed_now l i k x :
  spot_of i = Some x → reclaimed x (k_level k) (k_down k) buffer = true →
  reclaimed_at (l ++ [i]) (length l) (with_reclaim (Some (i_now i)) k).
Proof.
  intros Hx Hr. exists i, x. split_and!; try done; [by apply list_lookup_middle|].
  intros j i' z Hj Hi'. apply lookup_lt_Some in Hi'. rewrite length_app in Hi'. cbn in Hi'. lia.
Qed.

Lemma breaks_at_lt l b k : breaks_at l b k → (b < length l)%nat.
Proof. intros (i & p & x & Hb & _). by eapply lookup_lt_Some. Qed.
Lemma reclaimed_at_lt l r k : reclaimed_at l r k → (r < length l)%nat.
Proof. intros (i & x & Hb & _). by eapply lookup_lt_Some. Qed.

Lemma path_moved l now p k e :
  e_break e = Some k →
  (∃ b, breaks_at l b k ∧
    match p with
    | RECLAIM_PENDING => ∃ r, (b < r)%nat ∧ reclaimed_at l r k
    | V_REVERSAL_CONFIRMED | RECOVERY => ∃ r c, (b < r)%nat ∧ reclaimed_at l r k ∧ confirmed_at l r c k
    | _ => True
    end) → path l (moved now p e).
Proof. intros Hk H. unfold path. destruct (moved_fields now p e) as (_ & _ & -> & ->). by rewrite Hk. Qed.

Lemma path_broken l i e k x :
  spot_of i = Some x → e_break e = Some k → path l e → path (l ++ [i]) (spec_broken policy i e k x).
Proof.
  intros Hx Hk Hp. unfold path in Hp. rewrite Hk in Hp. destruct Hp as (b & Hb & Hp). pose proof (breaks_at_lt _ _ _ Hb) as Lb.
  unfold spec_broken. set (k1 := if feqb _ _ then k else _).
  assert (breaks_at (l ++ [i]) b k1) as Hb1 by (unfold k1; destruct (feqb _ _); by apply breaks_at_snoc).
  assert (k_level k1 = k_level k ∧ k_down k1 = k_down k ∧ k_reclaim k1 = k_reclaim k) as (El & Ed & Er) by (unfold k1; by destruct (feqb _ _)).
  assert (Hr1 : ∀ r, reclaimed_at l r k → reclaim_lost x (k_level k1) (k_down k1) buffer = false → reclaimed_at (l ++ [i]) r k1).
  { intros r Hr Hl. rewrite El, Ed in Hl. assert (reclaimed_at (l ++ [i]) r k) by (apply reclaimed_at_snoc; [intros z Hz; rewrite Hx in Hz; by inv Hz|done]).
    unfold k1. by destruct (feqb _ _). }
  assert (Hc1 : ∀ r c, confirmed_at l r c k → confirmed_at (l ++ [i]) r c k1) by (intros r c Hc; unfold k1; destruct (feqb _ _); by apply confirmed_at_snoc).
  clearbody k1. fold buffer.
  assert (Hsame : match e_phase e with
                  | RECLAIM_PENDING => reclaim_lost x (k_level k1) (k_down k1) buffer = false
                  | V_REVERSAL_CONFIRMED | RECOVERY => reclaim_lost x (k_level k1) (k_down k1) buffer = false
                  | _ => True end → path (l ++ [i]) (with_break k1 e)).
  { intros Hl. exists b. split; [done|]. cbn. destruct (e_phase e); try done.
    - destruct Hp as (r & ? & ?). exists r. auto.
    - destruct Hp as (r & c & ? & ? & ?). exists r, c. auto.
    - destruct Hp as (r & c & ? & ? & ?). exists r, c. auto. }
  destruct (e_phase e) eqn:Ep; try (by apply Hsame).
  4,5: destruct Hp as (r & c & Hbr & Hr & Hc); destruct (reclaim_lost _ _ _ _) eqn:Hl; [eapply path_moved; [done|]; by exists b|];
    match goal with |- context [if ?b then _ else _] => destruct b end; [|by apply Hsame];
    eapply path_moved; [done|]; exists b; split; [done|]; exists r, c; by auto.
  1,2: destruct (reclaimed _ _ _ _) eqn:Hrec;
    [eapply path_moved; [done|]; exists b; split; [done|]; exists (length l); split; [done|]; by eapply reclaimed_now
    |destruct (fgeb _ _); [eapply path_moved; [done|]; by exists b|by apply Hsame]].
  destruct Hp as (r & Hbr & Hr). destruct (reclaim_lost _ _ _ _) eqn:Hl; [eapply path_moved; [done|]; by exists b|].
  destruct (_ && _) eqn:Hc; [|by apply Hsame]. apply andb_true_iff in Hc as [Hh Hx'].
  pose proof Hr as (ir & xr & _ & _ & _ & Hu & _). rewrite Er, Hu in Hh.
  eapply path_moved; [done|]. exists b. split; [done|]. exists r, (length l). split_and!; [done|by apply Hr1|].
  exists i, (i_now ir). split_and!; try done; [by eapply reclaimed_at_lt|by apply list_lookup_middle|cbn; congruence].
Qed.

Lemma path_watch l i e p x hi lo :
  spot_of i = Some x → last (prices l) = Some p → e_break e = None → path (l ++ [i]) (spec_watch policy i e (Some p) x hi lo).
Proof.
  intros Hx Hp Hn. unfold spec_watch. destruct (crossed_level _ _ _ _) as [[[down kind] level]|] eqn:Hc.
  - eapply path_moved; [done|]. exists (length l). split; [|done]. exists i, p, x. rewrite take_app_length.
    split_and!; try done. by apply list_lookup_middle.
  - unfold path. destruct (extends _ _ _ _); [|by rewrite Hn].
    destruct (moved_fields (i_now i) TREND_EXTENSION e) as (_ & _ & -> & _). by rewrite Hn.
Qed.

Lemma path_step l i e : ranges l e → path l e → path (l ++ [i]) (spec_step policy i e).
Proof.
  intros Hr Hp. destruct (spot_of i) as [x|] eqn:Hx.
  - rewrite (spec_step_some policy i e x Hx). cbv zeta. set (e1 := with_range _ _ _ e). unfold ranges in Hr.
    change (path l e1) in Hp. change (e_break e) with (e_break e1).
    destruct (e_break e1) as [k|] eqn:Hk; [by apply path_broken|].
    unfold prior_range in *. destruct (e_range e) as [[[h w] p]|].
    + apply path_watch; [done| |done]. apply Hr.
    + unfold spec_watch. cbn [fst snd crossed_level]. unfold path. destruct (extends _ _ _ _); [|by rewrite Hk].
      destruct (moved_fields (i_now i) TREND_EXTENSION e1) as (_ & _ & -> & _). by rewrite Hk.
  - unfold spec_step. rewrite Hx. unfold path in *. destruct (e_break e) as [k|]; [|done]. destruct Hp as (b & Hb & Hp).
    exists b. split; [by apply breaks_at_snoc|].
    assert (∀ r, reclaimed_at l r k → reclaimed_at (l ++ [i]) r k) by (intros; apply reclaimed_at_snoc; [by rewrite Hx|done]).
    destruct (e_phase e); try done.
    + destruct Hp as (r & ? & ?). exists r. auto.
    + destruct Hp as (r & c & ? & ? & ?). exists r, c. auto using confirmed_at_snoc.
    + destruct Hp as (r & c & ? & ? & ?). exists r, c. auto using confirmed_at_snoc.
Qed.

Lemma session_path first rest : Forall input_ok (first :: rest) → path (first :: rest) (session_run policy first rest).
Proof.
  intros Hok. assert (ranges (first :: rest) (session_run policy first rest) ∧ path (first :: rest) (session_run policy first rest)) as [_ ?]; [|done].
  split; [by apply session_ranges|]. revert Hok. induction rest as [|i rest IH] using rev_ind; intros Hok.
  - apply Forall_cons in Hok as [Hf _]. unfold path, session_run. cbn [fold_left].
    by destruct (first_step policy first Hf) as (_ & _ & ->).
  - change (first :: rest ++ [i]) with ((first :: rest) ++ [i]) in *. apply Forall_app in Hok as [Hok _].
    assert (session_run policy first (rest ++ [i]) = spec_step policy i (session_run policy first rest)) as ->
      by (unfold session_run; rewrite app_comm_cons, fold_left_app; done).
    apply path_step; [by apply session_ranges|by apply IH].
Qed.
End path.

(** ** The graph *)

Inductive phase_edge : SessionEpisodePhase → SessionEpisodePhase → Prop :=
  | edge_extend : phase_edge OBSERVING TREND_EXTENSION
  | edge_break p : broken_phase p = false → phase_edge p STRUCTURE_BREAK
  | edge_extreme : phase_edge STRUCTURE_BREAK EXTREME
  | edge_reclaim p : p = STRUCTURE_BREAK ∨ p = EXTREME → phase_edge p RECLAIM_PENDING
  | edge_failed : phase_edge RECLAIM_PENDING EXTREME
  | edge_confirm : phase_edge RECLAIM_PENDING V_REVERSAL_CONFIRMED
  | edge_recover : phase_edge V_REVERSAL_CONFIRMED RECOVERY
  | edge_invalidate p : p = V_REVERSAL_CONFIRMED ∨ p = RECOVERY → phase_edge p REVERSAL_INVALIDATED.

#[local] Hint Constructors phase_edge : core.

(** What never changes of a break. *)
Definition identity (k : brk) : string * bool * string * float * Z * float * float * list (string * float) :=
  (k_id k, k_down k, k_kind k, k_level k, k_at k, k_high k, k_low k, k_levels k).

Definition advances (e e' : episode) : Prop :=
  rtc phase_edge (e_phase e) (e_phase e')
  ∧ ∀ k, e_break e = Some k → ∃ k', e_break e' = Some k' ∧ identity k' = identity k.

Lemma advances_trans e1 e2 e3 : advances e1 e2 → advances e2 e3 → advances e1 e3.
Proof.
  intros [H1 I1] [H2 I2]. split; [by etrans|]. intros k Hk. destruct (I1 k Hk) as (k2 & Hk2 & E2).
  destruct (I2 k2 Hk2) as (k3 & Hk3 & E3). exists k3. split; [done|]. congruence.
Qed.

Lemma advances_moved now p e : e_phase e = p ∨ phase_edge (e_phase e) p → advances e (moved now p e).
Proof.
  intros H. destruct (moved_fields now p e) as (_ & _ & Hb & Hp). split.
  - rewrite Hp. destruct H as [->|H]; [done|by apply rtc_once].
  - rewrite Hb. intros k Hk. by exists k.
Qed.

Lemma advances_with_break k k' e : e_break e = Some k → identity k' = identity k → advances e (with_break k' e).
Proof. intros Hk Hi. split; [done|]. intros q Hq. exists k'. split; [done|]. congruence. Qed.

Lemma advances_with_range h w p e : advances e (with_range h w p e).
Proof. split; [done|]. intros k Hk. by exists k. Qed.

Lemma step_advances policy i e : episode_ok e → advances e (spec_step policy i e).
Proof.
  intros (_ & _ & Hk). destruct (spot_of i) as [x|] eqn:Hx.
  2:{ unfold spec_step. rewrite Hx. split; [done|]. intros k H. by exists k. }
  rewrite (spec_step_some policy i e x Hx). cbv zeta. set (e1 := with_range _ _ _ e).
  apply (advances_trans _ e1); [apply advances_with_range|]. change (e_break e) with (e_break e1) in *.
  change (e_phase e) with (e_phase e1) in Hk. clearbody e1. destruct (e_break e1) as [k|] eqn:Ek.
  - destruct Hk as [_ Hp]. unfold spec_broken. set (k1 := if feqb _ _ then k else _).
    assert (identity k1 = identity k) as Hi by (unfold k1; by destruct (feqb _ _)). clearbody k1.
    assert (∀ k', identity k' = identity k1 → advances e1 (with_break k' e1)) as Hw by (intros; eapply advances_with_break; [done|congruence]).
    assert (∀ k' p, identity k' = identity k1 → e_phase e1 = p ∨ phase_edge (e_phase e1) p → advances e1 (moved (i_now i) p (with_break k' e1))) as Hm.
    { intros k' p Hk' Hpe. eapply advances_trans; [by apply Hw|]. by apply advances_moved. }
    destruct (e_phase e1) eqn:Ep; try done;
      repeat match goal with |- context [if ?b then _ else _] => destruct b end;
      first [by apply Hw | apply Hm; [done|try rewrite Ep; by auto]].
  - unfold spec_watch. destruct (crossed_level _ _ _ _) as [[[down kind] level]|].
    + split; [|by rewrite Ek]. destruct (moved_fields (i_now i) STRUCTURE_BREAK (with_break (new_break i down kind level x (prior_range e x).1.2 (prior_range e x).2) e1)) as (_ & _ & _ & ->).
      apply rtc_once. by constructor.
    + destruct (extends _ _ _ _); [|split; [done|by rewrite Ek]]. apply advances_moved. destruct (e_phase e1); try done; auto.
Qed.

Lemma run_advances policy l e :
  Forall input_ok l → episode_ok e → advances e (fold_left (λ e i, spec_step policy i e) l e).
Proof.
  revert e. induction l as [|i l IH]; intros e Hl He; [split; [done|]; intros k Hk; by exists k|].
  apply Forall_cons in Hl as [Hi Hl]. cbn [fold_left]. eapply advances_trans; [by apply step_advances|].
  apply IH; [done|]. by apply spec_step_ok.
Qed.

Lemma step_without_open policy i e : e_open e = None → e_phase e ≠ TREND_EXTENSION → e_phase (spec_step policy i e) ≠ TREND_EXTENSION.
Proof.
  intros Ho Hp. destruct (spot_of i) as [x|] eqn:Hx; [|unfold spec_step; by rewrite Hx].
  rewrite (spec_step_some policy i e x Hx). cbv zeta. set (e1 := with_range _ _ _ e). change (e_phase e) with (e_phase e1) in Hp.
  change (e_open e) with (e_open e1) in Ho. clearbody e1. destruct (e_break e) as [k|].
  - unfold spec_broken. set (k1 := if feqb _ _ then k else _). clearbody k1. destruct (e_phase e1) eqn:Ep; try (by rewrite Ep);
      repeat match goal with |- context [if ?b then _ else _] => destruct b end;
      first [by rewrite (proj2 (proj2 (proj2 (moved_fields _ _ _)))) | cbn; by rewrite Ep].
  - unfold spec_watch, extends. rewrite Ho. destruct (crossed_level _ _ _ _) as [[[down kind] level]|]; [|done].
    by rewrite (proj2 (proj2 (proj2 (moved_fields _ _ _)))).
Qed.

(** A session whose first observation has no spot has no open, and its move is
    never seen to extend. *)
Lemma session_without_open policy first rest :
  Forall input_ok (first :: rest) → spot_of first = None → e_phase (session_run policy first rest) ≠ TREND_EXTENSION.
Proof.
  intros Hi Hn.
  assert (e_open (session_run policy first rest) = None ∧ e_phase (session_run policy first rest) ≠ TREND_EXTENSION) as [_ ?]; [|done].
  apply (session_run_ind policy (λ _ e, e_open e = None ∧ e_phase e ≠ TREND_EXTENSION)); [done|..].
  - unfold spec_step. by rewrite Hn.
  - intros l i e _ _ _ _ [Ho Hp]. split; [by rewrite (proj1 (spec_step_fields policy i e))|by apply step_without_open].
Qed.

(** ** What the stored episode says *)

(** The cycles of one session on a file that holds no episode of it. *)
Record session_cycles (policy : EpisodePolicy) (session : string) (file : FileContent) (l : list EpisodeInput) (file' : FileContent) : Prop := {
  sc_enabled : session_episode_enabled policy = true;
  sc_inputs : session_inputs session l;
  sc_new : is_str session (vget "session_id" (persisted_episode file)) = false;
  sc_run : episode_cycles policy file l = Ok file';
}.

Lemma inputs_ok session l : session_inputs session l → Forall input_ok l.
Proof. intros H. eapply Forall_impl; [exact H|]. by intros i []. Qed.

Lemma session_cycles_show policy session file first rest file' :
  session_cycles policy session file (first :: rest) file' →
  shows session (session_run policy first rest) (persisted_episode file') ∧ episode_ok (session_run policy first rest)
  ∧ Forall input_ok (first :: rest).
Proof.
  intros [He Hi Hn Hr]. assert (Hu : file ≠ Undecodable) by (intros ->; discriminate Hr). destruct (session_followed policy He session file first rest Hu Hi Hn) as (f & Hf & Hs & Hok).
  rewrite Hr in Hf. inv Hf. split_and!; [done|done|by eapply inputs_ok].
Qed.

Lemma shown_phase session e d p : shows session e d → vget "phase" d = VStr (enum_value p) → e_phase e = p.
Proof. intros H Hp. rewrite (sh_phase _ _ _ H) in Hp. injection Hp as Hp. by apply enum_value_inj. Qed.

(** C27: With episodes enabled, and on any file that can be decoded and holds no
    episode of the session, the cycles of a session never raise. The stored
    episode has the session's identity; its open is the spot of the session's
    first observation, null where that observation has no spot, whatever spots
    come later, and then the phase is never [trend_extension]; its high, low and
    current spot are those of all spots observed. *)
Theorem session_episode_range policy session file first rest :
  session_episode_enabled policy = true → session_inputs session (first :: rest) → file ≠ Undecodable →
  is_str session (vget "session_id" (persisted_episode file)) = false →
  ∃ file', episode_cycles policy file (first :: rest) = Ok file' ∧
    let d := persisted_episode file' in
    vget "session_id" d = VStr session ∧ vget "session_open" d = v_opt_float (spot_of first) ∧
    (spot_of first = None → vget "phase" d ≠ VStr (enum_value TREND_EXTENSION)) ∧
    if decide (prices (first :: rest) = []) then
      vget "session_high" d = VNone ∧ vget "session_low" d = VNone ∧ vget "current_spot" d = VNone
    else ∃ h w p, vget "session_high" d = VFloat h ∧ vget "session_low" d = VFloat w ∧ vget "current_spot" d = VFloat p
                  ∧ spans (prices (first :: rest)) h w p.
Proof.
  intros He Hi Hu Hn. destruct (session_followed policy He session file first rest Hu Hi Hn) as (file' & Hf & Hs & _).
  exists file'. split; [done|]. pose proof (inputs_ok _ _ Hi) as Hok.
  pose proof (session_ranges policy first rest Hok) as Hr. unfold ranges in Hr. cbv zeta.
  rewrite (sh_session _ _ _ Hs), (sh_open _ _ _ Hs), (session_open_first policy first rest Hok). split_and!; [done..| |].
  { intros Hn1 Hph. by apply (session_without_open policy first rest Hok Hn1), (shown_phase _ _ _ _ Hs). }
  destruct (sh_range _ _ _ Hs) as (-> & -> & ->). destruct (e_range _) as [[[h w] p]|]; destruct (decide _) as [E|E]; try done.
  - destruct Hr as (Hh & _). rewrite E in Hh. by apply elem_of_nil in Hh.
  - by exists h, w, p.
Qed.

(** C26: a stored episode that says [v_reversal_confirmed] or [recovery] has its
    path among the session's observations: one that broke the level it names, in
    the direction it names, against the last spot before; a later one that
    reclaimed the level, after which no spot lost it; and a still later one by
    which the reclaim had held for the policy's time and ES and SPY had turned. *)
Theorem confirmed_reversal_has_its_path policy session file first rest file' p :
  session_cycles policy session file (first :: rest) file' →
  p = V_REVERSAL_CONFIRMED ∨ p = RECOVERY →
  vget "phase" (persisted_episode file') = VStr (enum_value p) →
  ∃ k b r c, (b < r)%nat ∧ shows_break k (persisted_episode file')
    ∧ breaks_at policy (first :: rest) b k ∧ reclaimed_at policy (first :: rest) r k ∧ confirmed_at policy (first :: rest) r c k.
Proof.
  intros H Hp Hph. destruct (session_cycles_show _ _ _ _ _ _ H) as (Hs & (_ & _ & Hok) & Hi).
  pose proof (session_path policy first rest Hi) as Hpath. unfold path in Hpath. apply (shown_phase _ _ _ _ Hs) in Hph.
  rewrite Hph in *. destruct (e_break _) as [k|] eqn:Ek; [|by destruct Hp as [->| ->]].
  destruct Hpath as (b & Hb & Hpath). assert (∃ r c, (b < r)%nat ∧ reclaimed_at policy (first :: rest) r k ∧ confirmed_at policy (first :: rest) r c k) as (r & c & ?)
    by (by destruct Hp as [->| ->]).
  exists k, b, r, c. pose proof (sh_break _ _ _ Hs k Ek). naive_solver.
Qed.

Definition identity_keys : list string :=
  ["episode_id"; "break_direction"; "break_level_kind"; "break_level"; "break_at"; "pre_break_high"; "pre_break_low"].

Lemma identity_shown k k' d d' key :
  identity k' = identity k → shows_break k d → shows_break k' d' → key ∈ identity_keys → vget key d' = vget key d.
Proof.
  intros Hi (H1 & H2 & H3 & H4 & H5 & H6 & H7 & _) (G1 & G2 & G3 & G4 & G5 & G6 & G7 & _) Hk. unfold identity in Hi.
  injection Hi as E1 E2 E3 E4 E5 E6 E7 _. unfold identity_keys in Hk.
  repeat (apply elem_of_cons in Hk as [->|Hk]; [congruence|]). by apply elem_of_nil in Hk.
Qed.

(** Later cycles of the session move the stored phase only along the graph,
    and once a level has broken they keep the episode's identity, level,
    direction, instant and the range before the break. *)
Theorem session_has_one_episode policy session file first rest file1 more file2 :
  session_cycles policy session file (first :: rest) file1 → session_inputs session more →
  episode_cycles policy file1 more = Ok file2 →
  ∃ p1 p2, vget "phase" (persisted_episode file1) = VStr (enum_value p1) ∧ vget "phase" (persisted_episode file2) = VStr (enum_value p2)
    ∧ rtc phase_edge p1 p2
    ∧ (broken_phase p1 = true → ∀ key, key ∈ identity_keys → vget key (persisted_episode file2) = vget key (persisted_episode file1)).
Proof.
  intros H Hm Hr. destruct (session_cycles_show _ _ _ _ _ _ H) as (Hs & Hok & _).
  destruct (cycles_known policy (sc_enabled _ _ _ _ _ H) session file1 more _ Hm Hok Hs) as (f & Hf & Hs2 & _).
  rewrite Hr in Hf. inv Hf. destruct (run_advances policy more _ (inputs_ok _ _ Hm) Hok) as [Hp Hk].
  eexists _, _. rewrite (sh_phase _ _ _ Hs), (sh_phase _ _ _ Hs2). split_and!; [done..|]. intros Hb key Hkey.
  destruct Hok as (_ & _ & Hok). destruct (e_break (session_run policy first rest)) as [k|] eqn:Ek; [|congruence].
  destruct (Hk k eq_refl) as (k' & Hk' & Hi). eapply identity_shown; [exact Hi|..|done]; by eapply sh_break.
Qed.

(** ** A session *)

Definition input_okb (session : string) (i : EpisodeInput) : bool :=
  instant_in_range (i_now i) && String.eqb (i_session i) session
  && match spot_of i with Some x => negb (f_is_nan x) && negb (f_is_inf x) && fltb (f_of_Z 0) x | None => true end.

Lemma session_inputs_by session l : forallb (input_okb session) l = true → session_inputs session l.
Proof.
  intros H. apply Forall_forall. intros i Hi.
  pose proof (proj1 (forallb_forall _ _) H i (proj1 (list_elem_of_In _ _) Hi)) as Hb.
  unfold input_okb in Hb. apply andb_true_iff in Hb as [[Hn Hs]%andb_true_iff Hx]. apply String.eqb_eq in Hs.
  split; [split; [done|]|done]. intros x E. rewrite E in Hx. apply andb_true_iff in Hx as [[H1 H2]%andb_true_iff H3].
  by apply negb_true_iff in H1, H2.
Qed.

(** The session of the tests: a break of the flip zone, its extreme, the
    reclaim, its confirmation and the recovery. *)
Definition episode_policy : EpisodePolicy :=
  {| session_episode_enabled := true; session_break_buffer_points := f_of_Z 2; session_extreme_extension_points := f_of_Z 5;
     session_reclaim_hold_seconds := f_of_Z 60; session_recovery_ratio := f_lit 5 1 |}.

Definition observed (minute : Z) (spot : option Z) (one five fifteen : Z) : EpisodeInput :=
  {| i_session := "2026-07-15"; i_now := combine (ymd2ord 2026 7 15) (15 * HOUR) + minute * MINUTE; i_spot := f_of_Z <$> spot;
     i_market := {| es := [("return_1m_points", VInt one); ("return_5m_points", VInt five); ("return_15m_points", VInt fifteen)];
                    cross_asset := [("es_spy_direction_confirmation_15m", VStr "confirmed")] |};
     i_options := {| structure := [("put_wall", VInt 7550); ("call_wall", VInt 7600); ("flip_zone", VList [VInt 7555; VInt 7560])];
                     volatility := [("expected_move_points_0dte", VInt 60)]; exposure := [] |};
     i_others := [("schema_version", VInt 1)] |}.

Definition observed_session : list EpisodeInput :=
  [observed 30 (Some 7548) (-2) (-8) (-15); observed 45 (Some 7538) (-1) (-5) (-12); observed 60 (Some 7562) 2 6 10;
   observed 62 (Some 7565) 1 6 8].

Definition episode_file (l : list EpisodeInput) : FileContent :=
  match episode_cycles episode_policy NoFile l with Ok f => f | Err _ => NoFile end.

Lemma session_episode_range_witness :
  ∃ file', episode_cycles episode_policy NoFile (observed 0 (Some 7572) 0 0 0 :: observed_session) = Ok file' ∧
    let d := persisted_episode file' in
    vget "session_id" d = VStr "2026-07-15" ∧ vget "session_open" d = v_opt_float (spot_of (observed 0 (Some 7572) 0 0 0)) ∧
    (spot_of (observed 0 (Some 7572) 0 0 0) = None → vget "phase" d ≠ VStr (enum_value TREND_EXTENSION)) ∧
    if decide (prices (observed 0 (Some 7572) 0 0 0 :: observed_session) = []) then
      vget "session_high" d = VNone ∧ vget "session_low" d = VNone ∧ vget "current_spot" d = VNone
    else ∃ h w p, vget "session_high" d = VFloat h ∧ vget "session_low" d = VFloat w ∧ vget "current_spot" d = VFloat p
                  ∧ spans (prices (observed 0 (Some 7572) 0 0 0 :: observed_session)) h w p.
Proof.
  apply (session_episode_range episode_policy "2026-07-15" NoFile (observed 0 (Some 7572) 0 0 0) observed_session).
  - reflexivity.
  - apply session_inputs_by. vm_compute. reflexivity.
  - discriminate.
  - reflexivity.
Defined.

Lemma confirmed_reversal_has_its_path_witness :
  let l := observed 0 (Some 7572) 0 0 0 :: observed_session in
  ∃ k b r c, (b < r)%nat ∧ shows_break k (persisted_episode (episode_file l))
    ∧ breaks_at episode_policy l b k ∧ reclaimed_at episode_policy l r k ∧ confirmed_at episode_policy l r c k.
Proof.
  apply (confirmed_reversal_has_its_path episode_policy "2026-07-15" NoFile (observed 0 (Some 7572) 0 0 0) observed_session _ V_REVERSAL_CONFIRMED).
  - split; [reflexivity|apply session_inputs_by; vm_compute; reflexivity|reflexivity|vm_compute; reflexivity].
  - left. reflexivity.
  - vm_compute. reflexivity.
Defined.

Lemma session_has_one_episode_witness :
  let l := observed 0 (Some 7572) 0 0 0 :: observed_session in
  let file2 := episode_file (l ++ [observed 63 (Some 7570) 1 5 9]) in
  ∃ p1 p2, vget "phase" (persisted_episode (episode_file l)) = VStr (enum_value p1) ∧ vget "phase" (persisted_episode file2) = VStr (enum_value p2)
    ∧ rtc phase_edge p1 p2
    ∧ (broken_phase p1 = true → ∀ key, key ∈ identity_keys →
       vget key (persisted_episode file2) = vget key (persisted_episode (episode_file l))).
Proof.
  apply (session_has_one_episode episode_policy "2026-07-15" NoFile (observed 0 (Some 7572) 0 0 0) observed_session _ [observed 63 (Some 7570) 1 5 9]).
  - split; [reflexivity|apply session_inputs_by; vm_compute; reflexivity|reflexivity|vm_compute; reflexivity].
  - apply session_inputs_by. vm_compute. reflexivity.
  - vm_compute. reflexivity.
Defined.
