(* ===== verification/StrategyContract.v ===== *)
(** * The contract of a strategy event ([strategy_contract.py],
    [trade_intent_authority.py], [manual_signal_contract.py]) and of the card
    that a human acts on ([trade_intent_runtime_support.py],
    [trade_intent_delivery_contract.py])

    What an RTH trade intent must say before it may be delivered. *)

From stdpp Require Import base list strings.
From Stdlib Require Import Ascii ZArith Lia.
From S2P Require Import Prelude PyStr PyFloat PyTime PyDateTime PyDict PyVal.

#[local] Open Scope Z_scope.

(** ** Python helpers *)

(** [math.isclose(a, b, abs_tol=tol)], with the default relative tolerance. *)
Definition isclose (a b abs_tol : float) : bool :=
  if feqb a b then true
  else if f_is_inf a || f_is_inf b then false
  else
    let diff := fabs (fsub b a) in
    let rel := f_lit 1 9 in
    fleb diff (fabs (fmul rel b)) || fleb diff (fabs (fmul rel a)) || fleb diff abs_tol.

(** [_number] and [_finite_number]: finite, and not a boolean. *)
Definition strict_number (value : pyval) : option float :=
  match value with
  | VBool _ => None
  | _ => x ← num_of value; if f_is_nan x || f_is_inf x then None else Some x
  end.

Definition with_offset_Z (s : string) : string := str_replace_chr "Z"%char "+00:00" s.

(** [parse_aware_time]. *)
Definition parse_aware_time (value : pyval) : res (option Z) :=
  match value with
  | VStr s =>
      match fromisoformat (with_offset_Z s) with
      | Some d => match dt_off d with Some _ => Some <$> aware_utc d | None => Ok None end
      | None => Ok None
      end
  | _ => Ok None
  end.

(** [as_utc] of a parsed datetime. *)
Definition to_utc (d : pydt) : res Z :=
  let u := dt_as_utc d in if instant_in_range u then Ok u else Err OverflowError.

(** [parse_time] ([notifier/operator_cards.py]). *)
Definition parse_time (value : pyval) : res (option Z) :=
  match value with
  | VStr s =>
      if String.eqb s "" then Ok None
      else match fromisoformat (with_offset_Z s) with Some d => Some <$> to_utc d | None => Ok None end
  | _ => Ok None
  end.

(** ** The envelope of a strategy event *)

Definition STRATEGY_EVENT_SCHEMA_VERSION : Z := 3.
Definition COORDINATE_INSTRUMENTS : list (string * string) :=
  [("official_spx", "index:SPX"); ("chain_implied_spx", "synthetic:SPXW_PARITY"); ("es_equivalent", "future:ES"); ("raw_es", "future:ES")].

(** [_canonical_time]. *)
Definition canonical_time (value : pyval) : res pyval :=
  match value with
  | VNone => Ok VNone
  | _ => parsed ← parse_aware_time value;
         match parsed with Some u => Ok (vtime u) | None => Err ValueError end
  end.

Definition non_empty (s default : string) : string := if String.eqb s "" then default else s.

(** [normalize_coordinate] of a dict. *)
Definition normalize_coordinate (raw : pydict) : res pydict :=
  let kind := non_empty (str_strip (vstr_or "kind" "unavailable" raw)) "unavailable" in
  let instrument := str_strip (vstr_or "instrument_id" "" raw) in
  as_of ← canonical_time (v_or (vget "as_of" raw) (vget "source_at" raw));
  Ok (dmerge raw
    [("kind", VStr kind); ("instrument_id", if String.eqb instrument "" then VNone else VStr instrument);
     ("observed_value", v_opt_float (strict_number (vget "observed_value" raw)));
     ("target_value", v_opt_float (strict_number (vget "target_value" raw)));
     ("spx_observed_value", v_opt_float (strict_number (vget "spx_observed_value" raw)));
     ("basis_points", v_opt_float (strict_number (vget "basis_points" raw)));
     ("as_of", as_of)]).

(** [normalize_block_reasons] of a list. *)
Definition normalize_block_reasons (values : list pyval) : list string :=
  dedup_keep_first [] (filter (λ s, s ≠ "") (omap (λ v, str_strip <$> str_of v) values)).

Definition issue (b : bool) (name : string) : list string := if b then [name] else [].

(** [strategy_contract_issues] with both requirements. *)
Definition strategy_contract_issues (payload : pydict) : res (list string) :=
  let raw_valid_until := vget "valid_until" payload in
  parsed_valid_until ← parse_aware_time raw_valid_until;
  coordinate_issues ←
    match vget "coordinate" payload with
    | VDict raw =>
        coordinate ← normalize_coordinate raw;
        let kind := vstr_or "kind" "unavailable" coordinate in
        let expected := dget kind COORDINATE_INSTRUMENTS in
        Ok (if String.eqb kind "unavailable" then ["coordinate_unavailable"]
            else match expected with
                 | Some instrument => issue (negb (is_str instrument (vget "instrument_id" coordinate))) "coordinate_instrument_mismatch"
                 | None => ["coordinate_kind_unsupported"]
                 end)
    | _ => Ok ["coordinate_unavailable"]
    end;
  let reason_issues :=
    match vget "block_reasons" payload with
    | VList l =>
        if existsb (λ v, match v with VStr s => String.eqb (str_strip s) "" | _ => true end) l then ["block_reasons_invalid"]
        else issue (negb (bool_decide (omap str_of l = normalize_block_reasons l))) "block_reasons_not_normalized"
    | _ => ["block_reasons_invalid"]
    end in
  Ok (dedup_keep_first []
       (issue (negb (py_eq (vget "schema_version" payload) (VInt STRATEGY_EVENT_SCHEMA_VERSION))) "strategy_schema_unsupported"
        ++ issue (String.eqb (str_strip (vstr_or "policy_version" "" payload)) "") "policy_version_unavailable"
        ++ issue (negb (is_none raw_valid_until) && bool_decide (parsed_valid_until = None)) "valid_until_invalid"
        ++ issue (bool_decide (parsed_valid_until = None)) "valid_until_unavailable"
        ++ coordinate_issues ++ reason_issues)).

(** [actionable_strategy_contract_issues]. *)
Definition actionable_strategy_contract_issues (payload : pydict) (now : Z) : res (list string) :=
  issues ← strategy_contract_issues payload;
  valid_until ← parse_aware_time (vget "valid_until" payload);
  Ok (dedup_keep_first []
       (issues
        ++ issue (match valid_until with Some u => u <=? now | None => false end) "strategy_event_expired"
        ++ issue (match vget "block_reasons" payload with VList (_ :: _) => true | _ => false end) "strategy_event_blocked")).

(** ** The authority of a live intent *)

Definition LEGACY_PUT_SHADOW_LANES : list string :=
  ["long_0dte_rth_flip_low_breakdown_put_shadow"; "long_0dte_rth_upper_rejection_put_shadow"; "long_0dte_rth_put_wall_breakdown_disabled"].
Definition APPROVED_MANUAL_LANE_CONTRACTS : list (string * (string * string)) :=
  [("long_0dte_rth_upper_breakout_call_manual", ("up", "C"));
   ("long_0dte_rth_lower_rejection_call_manual", ("up", "C"));
   ("long_0dte_rth_flip_low_breakdown_put_manual", ("down", "P"));
   ("long_0dte_rth_upper_rejection_put_manual", ("down", "P"));
   ("long_0dte_rth_put_wall_breakdown_put_manual", ("down", "P"));
   ("rth_confirmed_level", ("up", "C"));
   ("long_0dte_rth_upside_breakout_pilot", ("up", "C"))].

(** [live_trade_intent_authority_issues]. *)
Definition live_trade_intent_authority_issues (intent : pydict) : list string :=
  let strategy_lane := vstr_or "strategy_lane" "" intent in
  dedup_keep_first []
    (issue (negb (is_str "trade_ready" (vget "status" intent))) "trade_intent_not_trade_ready"
     ++ issue (negb (is_true (vget "execution_eligible" intent))) "trade_intent_execution_authority_missing"
     ++ issue (negb (is_false (vget "quote_observation_eligible" intent))) "trade_intent_quote_observation_only"
     ++ issue (negb (is_false (vget "shadow_mode" intent))) "trade_intent_shadow_mode"
     ++ issue (negb (is_false (vget "automatic_ordering" intent))) "trade_intent_automatic_ordering_contract_invalid"
     ++ issue (bool_decide (strategy_lane ∈ LEGACY_PUT_SHADOW_LANES)) "put_lane_live_execution_forbidden"
     ++ match dget strategy_lane APPROVED_MANUAL_LANE_CONTRACTS with
        | None => ["trade_intent_live_lane_not_approved"]
        | Some (expected_direction, expected_right) =>
            issue (negb (is_str expected_direction (vget "direction" intent))) "trade_intent_live_direction_mismatch"
            ++ issue (negb (str_ends (":" +:+ expected_right) (vstr_or "contract_id" "" intent))) "trade_intent_live_contract_right_mismatch"
        end).

(** ** The coordinate of a delivery *)

Definition BASIS_MAX_ABS_POINTS : float := f_of_Z 120.

Definition positive_number (v : pyval) : option float :=
  x ← strict_number v; if fleb x (f_of_Z 0) then None else Some x.

(** [delivery_coordinate_reason], [_required_coordinate_fields_reason]. *)
Definition delivery_coordinate_reason (intent : pydict) : option string :=
  match vget "coordinate" intent with
  | VDict coordinate =>
      let kind := vstr_or "kind" "" coordinate in
      if String.eqb kind "official_spx" then None
      else if negb (String.eqb kind "es_equivalent") then Some "source_coordinate_mismatch"
      else if negb (is_str "future:ES" (vget "instrument_id" coordinate)) then Some "source_es_coordinate_instrument_mismatch"
      else match strict_number (vget "basis_points" coordinate) with
           | None => Some "source_es_coordinate_basis_invalid"
           | Some basis =>
               if fgtb (fabs basis) BASIS_MAX_ABS_POINTS then Some "source_es_coordinate_basis_invalid"
               else match positive_number (vget "observed_value" coordinate), positive_number (vget "target_value" coordinate),
                          positive_number (vget "spx_level" coordinate), positive_number (vget "spx_spot" intent),
                          positive_number (vget "trigger_level" intent) with
                    | Some observed, Some target, Some spx_level, Some spx_spot, Some trigger =>
                        let tol := f_lit 1 1 in
                        if negb (isclose (fsub observed basis) spx_spot tol) then Some "source_es_coordinate_spot_incoherent"
                        else if negb (isclose (fsub target basis) trigger tol) then Some "source_es_coordinate_target_incoherent"
                        else if negb (isclose spx_level trigger tol) then Some "source_es_coordinate_level_incoherent"
                        else None
                    | _, _, _, _, _ => Some "source_es_coordinate_fields_incomplete"
                    end
           end
  | _ => Some "source_coordinate_unavailable"
  end.

(** [_ready_contract_reason] ([trade_intent_runtime.py]). *)
Definition ready_contract_reason (intent : pydict) (now : Z) (expected_policy_version : option string) : res (option string) :=
  if py_eq (vget "schema_version" intent) (VInt STRATEGY_EVENT_SCHEMA_VERSION) then
    match live_trade_intent_authority_issues intent with
    | reason :: _ => Ok (Some reason)
    | [] =>
        issues ← actionable_strategy_contract_issues intent now;
        match issues with
        | first :: _ => Ok (Some (if bool_decide ("strategy_event_expired" ∈ issues) then "intent_expired" else first))
        | [] =>
            let source_policy := vstr_or "policy_version" "" intent in
            if negb (str_starts "rth_trade_intent.v3+sha256:" source_policy) then Ok (Some "source_policy_incompatible")
            else if match expected_policy_version with
                    | Some expected => negb (String.eqb expected "") && negb (String.eqb source_policy expected)
                    | None => false
                    end then Ok (Some "source_policy_version_drift")
            else Ok (delivery_coordinate_reason intent)
        end
    end
  else Ok (Some "strategy_schema_unsupported").

(** ** The card *)

(** [_OPTION_ID_RE]: the right of an option id that ends like
    [SPXW:20260715:7550.5:C], whatever the case of its letters. *)
Fixpoint skip_digits (n : nat) (s : string) : nat * string :=
  match s with
  | String c s' => if chr_is_digit c then skip_digits (S n) s' else (n, s)
  | "" => (n, s)
  end.
Definition after_chr (c : ascii) (s : string) : option string :=
  match s with String d s' => if Ascii.eqb c d then Some s' else None | "" => None end.
Definition after_digits (s : string) : option string :=
  let '(n, rest) := skip_digits 0 s in if Nat.eqb n 0 then None else Some rest.
Definition option_id_here (s : string) : option string :=
  if String.eqb (str_upper (str_take 5 s)) "SPXW:" then
    let s := str_drop 5 s in
    if str_isdigit (str_take 8 s) && Nat.eqb (String.length (str_take 8 s)) 8 then
      s ← after_chr ":" (str_drop 8 s);
      s ← after_digits s;
      let s := match after_chr "." s with Some t => default s (after_digits t) | None => s end in
      s ← after_chr ":" s;
      match s with
      | String c rest =>
          let letter := String (chr_upper c) "" in
          if (String.eqb letter "C" || String.eqb letter "P") && (String.eqb rest "" || String.eqb rest (String "010" "")) then Some letter else None
      | "" => None
      end
    else None
  else None.
Fixpoint option_id_from (start : bool) (s : string) : option string :=
  match (if start then option_id_here s else None), s with
  | Some letter, _ => Some letter
  | None, "" => None
  | None, String c s' => option_id_from (Ascii.eqb c ":") s'
  end.
Definition option_contract_right (contract_id : pyval) : option string :=
  option_id_from true (py_str (v_or contract_id (VStr ""))).

Example option_contract_right_test :
  map option_contract_right [VStr "option:SPXW:20260715:7550.5:C"; VStr "SPXW:20260715:7550:p"; VStr "option:SPX:20260715:7550:C"; VStr "XSPXW:20260715:7550:C"; VNone]
  = [Some "C"; Some "P"; None; None; None].
Proof. by vm_compute. Qed.

Definition CARD_FIELDS : list string :=
  ["decision_bid"; "decision_ask"; "entry_limit"; "trigger_level"; "spx_spot"; "invalidation_spx"; "target_spx"; "max_loss_per_contract"].

(** The first field without a number. *)
Definition missing_field (intent : pydict) : option string :=
  find (λ field, bool_decide (strict_number (vget field intent) = None)) CARD_FIELDS.
Definition field (name : string) (intent : pydict) : float := default (f_of_Z 0) (strict_number (vget name intent)).

(** The prices of a card, in the order in which they are judged. *)
Definition card_prices_reason (up : bool) (intent : pydict) : option string :=
  let zero := f_of_Z 0 in
  let bid := field "decision_bid" intent in
  let ask := field "decision_ask" intent in
  let entry := field "entry_limit" intent in
  let trigger := field "trigger_level" intent in
  let spot := field "spx_spot" intent in
  let invalidation := field "invalidation_spx" intent in
  let target := field "target_spx" intent in
  let max_loss := field "max_loss_per_contract" intent in
  let between x := if up then fltb invalidation x && fltb x target else fltb target x && fltb x invalidation in
  if fltb bid zero || fleb ask zero || fgtb bid ask then Some "manual_card_nbbo_invalid"
  else if fleb entry zero || negb (fleb bid entry && fleb entry ask) then Some "manual_card_entry_limit_outside_nbbo"
  else if existsb (λ x, fleb x zero) [trigger; spot; invalidation; target] then Some "manual_card_spx_coordinate_invalid"
  else if fleb max_loss zero || negb (isclose max_loss (fmul entry (f_of_Z 100)) (f_lit 1 2)) then Some "manual_card_max_loss_inconsistent"
  else if negb (between trigger) then Some "manual_card_risk_coordinates_incoherent"
  else if negb (between spot) then Some "manual_card_spot_outside_risk_bounds"
  else None.

(** [_manual_card_contract_reason]. *)
Definition manual_card_contract_reason (intent : pydict) (now : Z) : res (option string) :=
  let direction := vstr_or "direction" "" intent in
  let up := String.eqb direction "up" in
  let thesis := vstr_or "thesis" "" intent in
  if negb (up || String.eqb direction "down") then Ok (Some "manual_card_direction_invalid")
  else if negb (String.eqb thesis "breakout" || String.eqb thesis "fade") then Ok (Some "manual_card_thesis_invalid")
  else match option_contract_right (vget "contract_id" intent) with
  | None => Ok (Some "manual_card_exact_contract_unavailable")
  | Some letter =>
      if negb (String.eqb letter (if up then "C" else "P")) then Ok (Some "manual_card_contract_direction_mismatch")
      else match missing_field intent with
      | Some name => Ok (Some ("manual_card_field_missing:" +:+ name))
      | None =>
          match card_prices_reason up intent with
          | Some reason => Ok (Some reason)
          | None =>
              if String.eqb (vstr_or "provider" "" intent) "" then Ok (Some "action_quote_provider_unavailable")
              else
                source ← parse_time (vget "quote_source_at" intent);
                match source with
                | None => Ok (Some "action_quote_source_time_unavailable")
                | Some _ =>
                    valid_until ← parse_time (v_or (vget "valid_until" intent) (vget "expires_at" intent));
                    match valid_until with
                    | None => Ok (Some "manual_card_expiry_unavailable")
                    | Some until =>
                        if until <=? now then Ok (Some "manual_card_expired")
                        else
                          time_stop ← parse_time (vget "time_stop_at" intent);
                          Ok match time_stop with
                             | None => Some "manual_card_time_stop_unavailable"
                             | Some stop => if stop <=? now then Some "manual_card_time_stop_elapsed" else None
                             end
                    end
                end
          end
      end
  end.

(** ** What the contract guarantees *)

Lemma issue_nil b name : issue b name = [] → b = false.
Proof. by destruct b. Qed.

Lemma is_str_eq s v : is_str s v = true → v = VStr s.
Proof. destruct v; try done. cbn. intros E. apply String.eqb_eq in E. by subst. Qed.

Lemma is_true_eq v : is_true v = true → v = VBool true.
Proof. by destruct v as [|[]| | | | |]. Qed.
Lemma is_false_eq v : is_false v = true → v = VBool false.
Proof. by destruct v as [|[]| | | | |]. Qed.

(** The authority of a live intent, read off the intent. *)
Definition authorized (intent : pydict) : Prop :=
  vget "status" intent = VStr "trade_ready" ∧ vget "execution_eligible" intent = VBool true
  ∧ vget "quote_observation_eligible" intent = VBool false ∧ vget "shadow_mode" intent = VBool false
  ∧ vget "automatic_ordering" intent = VBool false
  ∧ ∃ direction right, dget (vstr_or "strategy_lane" "" intent) APPROVED_MANUAL_LANE_CONTRACTS = Some (direction, right)
      ∧ vget "direction" intent = VStr direction ∧ str_ends (":" +:+ right) (vstr_or "contract_id" "" intent) = true.

Lemma authority_holds intent : live_trade_intent_authority_issues intent = [] → authorized intent.
Proof.
  unfold live_trade_intent_authority_issues. cbv zeta. intros H%dedup_nil.
  repeat (apply app_eq_nil in H as [?%issue_nil H]). destruct (dget _ _) as [[d r]|] eqn:E; [|done].
  apply app_eq_nil in H as [?%issue_nil ?%issue_nil]. bool_to_prop. unfold authorized.
  split; [by apply is_str_eq|]. split; [by apply is_true_eq|]. do 3 (split; [by apply is_false_eq|]).
  exists d, r. split; [done|]. split; [by apply is_str_eq|done].
Qed.

(** ** The envelope *)

Lemma actionable_holds intent now :
  actionable_strategy_contract_issues intent now = Ok [] →
  vget "block_reasons" intent = VList []
  ∧ ∃ until, parse_aware_time (vget "valid_until" intent) = Ok (Some until) ∧ now < until.
Proof.
  unfold actionable_strategy_contract_issues. intros H. apply res_bind_ok in H as (issues & Hi & H).
  apply res_bind_ok in H as (until & Hu & [= H%dedup_nil]).
  apply app_eq_nil in H as [-> H]. apply app_eq_nil in H as [He%issue_nil Hb%issue_nil].
  unfold strategy_contract_issues in Hi. rewrite Hu in Hi. cbn [mbind res_bind] in Hi.
  apply res_bind_ok in Hi as (cs & _ & [= H%dedup_nil]).
  repeat (apply app_eq_nil in H as [?%issue_nil H]). apply app_eq_nil in H as [_ H].
  destruct until as [u|]; [|done]. split; [|exists u; split; [done|bool_to_prop; lia]].
  destruct (vget "block_reasons" intent) as [| | | | |[|x l]|]; try done.
Qed.

Lemma ready_contract_holds intent now expected :
  ready_contract_reason intent now expected = Ok None →
  py_eq (vget "schema_version" intent) (VInt STRATEGY_EVENT_SCHEMA_VERSION) = true ∧ authorized intent
  ∧ actionable_strategy_contract_issues intent now = Ok []
  ∧ str_starts "rth_trade_intent.v3+sha256:" (vstr_or "policy_version" "" intent) = true
  ∧ (∀ policy, expected = Some policy → policy = "" ∨ vstr_or "policy_version" "" intent = policy)
  ∧ delivery_coordinate_reason intent = None.
Proof.
  unfold ready_contract_reason. destruct (py_eq _ _); [|done]. destruct (live_trade_intent_authority_issues intent) eqn:Ea; [|done].
  intros H. apply res_bind_ok in H as (issues & Hi & H). destruct issues as [|x l]; [|done].
  destruct (str_starts _ _) eqn:Ep; cbn [negb] in H; [|done]. split_if H; [done|].
  split; [done|]. split; [by apply authority_holds|]. split; [done|]. split; [done|]. injection H as H.
  split; [|done]. intros policy ->. destruct (String.eqb_spec policy ""); [by left|]. right.
  match goal with E : (_ && _)%bool = false |- _ => cbn in E; apply negb_false_iff, String.eqb_eq in E; done end.
Qed.

(** ** The card *)

(** The prices of a card: the entry within the quote, the whole premium at
    risk, and trigger and spot between invalidation and target. *)
Definition priced (up : bool) (intent : pydict) : Prop :=
  let x name := field name intent in
  let lo := if up then "invalidation_spx" else "target_spx" in
  let hi := if up then "target_spx" else "invalidation_spx" in
  fltb (x "decision_bid") (f_of_Z 0) = false ∧ fleb (x "entry_limit") (f_of_Z 0) = false
  ∧ fleb (x "decision_bid") (x "entry_limit") = true ∧ fleb (x "entry_limit") (x "decision_ask") = true
  ∧ isclose (x "max_loss_per_contract") (fmul (x "entry_limit") (f_of_Z 100)) (f_lit 1 2) = true
  ∧ fltb (x lo) (x "trigger_level") = true ∧ fltb (x "trigger_level") (x hi) = true
  ∧ fltb (x lo) (x "spx_spot") = true ∧ fltb (x "spx_spot") (x hi) = true.

Lemma card_prices_hold up intent : card_prices_reason up intent = None → priced up intent.
Proof.
  unfold card_prices_reason, priced. cbv zeta. intros H.
  repeat (split_if H; [done|]). clear H. destruct up; bool_to_prop; split_and!; done.
Qed.

Lemma card_holds intent now :
  manual_card_contract_reason intent now = Ok None →
  ∃ up : bool, vstr_or "direction" "" intent = (if up then "up" else "down")
    ∧ option_contract_right (vget "contract_id" intent) = Some (if up then "C" else "P")
    ∧ (∀ name, name ∈ CARD_FIELDS → strict_number (vget name intent) ≠ None)
    ∧ priced up intent
    ∧ ∃ stop, parse_time (vget "time_stop_at" intent) = Ok (Some stop) ∧ now < stop.
Proof.
  unfold manual_card_contract_reason. cbv zeta. set (dir := vstr_or "direction" "" intent). intros H.
  exists (String.eqb dir "up"). split_if H; [done|]. split_if H; [done|].
  destruct (option_contract_right _) as [letter|] eqn:El; [|done]. split_if H; [done|].
  destruct (missing_field intent) as [name|] eqn:Em; [done|]. destruct (card_prices_reason _ _) as [r|] eqn:Ep; [done|].
  split_if H; [done|]. apply res_bind_ok in H as ([src|] & _ & H); [|done].
  apply res_bind_ok in H as ([until|] & _ & H); [|done]. split_if H; [done|].
  apply res_bind_ok in H as ([stop|] & Hs & H); [|done]. injection H as H. split_if H; [done|].
  bool_to_prop. split; [|split; [|split; [|split]]].
  - destruct (String.eqb_spec dir "up") as [E|E]; [done|].
    match goal with E : (_ || _)%bool = true |- _ => cbn in E; by apply String.eqb_eq in E end.
  - match goal with E : String.eqb letter _ = true |- _ => apply String.eqb_eq in E; by rewrite E end.
  - intros name Hn E. unfold missing_field in Em. apply list_elem_of_In in Hn. pose proof (find_none _ _ Em name Hn) as Hf. cbn in Hf.
    by rewrite E in Hf.
  - by apply card_prices_hold.
  - exists stop. split; [done|lia].
Qed.
