(* ===== verification/TradeIntent.v ===== *)
(** * Delivery of trade intents ([trade_intent_runtime.py],
    [trade_intent_runtime_support.py], [trade_intent_delivery_contract.py] in
    [application/market_features])

    The producer of RTH trade alerts. One JSON file holds what has been accepted
    by the outbox, which opportunity each event claimed, the leases of calls
    under way, the lifecycles and the cancellations that are still to be made.
    A call reads and writes it in sections under a lock; between them it asks the
    outbox and looks at the market again. *)

From stdpp Require Import base list strings.
From Stdlib Require Import Ascii ZArith Lia.
From S2P Require Import Prelude PyStr PyFloat PyTime PyDateTime PyDict PyVal PyHash PyJson StateIo StrategyContract.

#[local] Open Scope Z_scope.

(** ** Identities *)

Definition get_str (k : string) (d : pydict) : string := vstr_or k "" d.

(** [_trade_ready_delivery_event_id]. *)
Definition trade_ready_delivery_event_id (intent : pydict) : string :=
  let intent_id := get_str "intent_id" intent in
  let lifecycle_event_id := get_str "event_id" intent in
  if String.eqb intent_id "" || String.eqb lifecycle_event_id "" then ""
  else
    let digest := str_take 20 (sha256_hexdigest ("trade_ready_notification.v2|" +:+ intent_id +:+ "|" +:+ lifecycle_event_id)) in
    intent_id +:+ ":notify:" +:+ digest.

(** [_opportunity_dedupe_key]. *)
Definition opportunity_dedupe_key (intent : pydict) : string :=
  let intent_id := get_str "intent_id" intent in
  let semantic_key := non_empty (get_str "semantic_key" intent) (if String.eqb intent_id "" then "" else "intent:" +:+ intent_id) in
  if String.eqb semantic_key "" then ""
  else match vget "reentry_generation" intent with
       | VInt generation => if generation <=? 0 then semantic_key else semantic_key +:+ "|reentry:" +:+ str_of_Z generation
       | _ => semantic_key
       end.

Definition SIGNED_FIELDS : list string :=
  ["status"; "event_id"; "play"; "contract_id"; "entry_limit"; "invalidation_spx"; "target_spx"; "block_reasons";
   "schema_version"; "policy_version"; "valid_until"; "coordinate"].

(** [_signature], of an intent whose numbers are finite. *)
Definition intent_signature (intent : pydict) : res string :=
  text ← dumps (VDict (map (λ k, (k, vget k intent)) SIGNED_FIELDS)); Ok (str_take 24 (sha256_hexdigest text)).

(** [_intent_occurred_at]. *)
Fixpoint first_time (values : list pyval) : res (option Z) :=
  match values with
  | [] => Ok None
  | v :: values => parsed ← iso_utc v; match parsed with Some u => Ok (Some u) | None => first_time values end
  end.
Definition intent_occurred_at (intent : pydict) : res (option Z) :=
  let as_of := match vget "coordinate" intent with VDict c => vget "as_of" c | _ => VNone end in
  first_time [vget "evaluated_at" intent; as_of; vget "quote_source_at" intent; vget "valid_until" intent; vget "expires_at" intent].

(** ** Leases *)

Definition DELIVERY_LEASE_SECONDS : float := f_of_Z 120.
Definition DELIVERY_LEASE_TTL_FRACTION : float := f_lit 25 2.

(** [_delivery_lease_seconds]. *)
Definition delivery_lease_seconds (intent : pydict) (now : Z) : res float :=
  valid_until ← iso_utc (v_or (vget "valid_until" intent) (vget "expires_at" intent));
  Ok match valid_until with
     | None => DELIVERY_LEASE_SECONDS
     | Some u =>
         let remaining := fmax (f_of_Z 0) (total_seconds (u - now)) in
         if fleb remaining (f_of_Z 0) then f_of_Z 0
         else fmin (fmin DELIVERY_LEASE_SECONDS remaining) (fmax (f_of_Z 1) (fmul remaining DELIVERY_LEASE_TTL_FRACTION))
     end.

(** [_delivery_lease]. *)
Definition delivery_lease (intent : pydict) (now : Z) : res pyval :=
  seconds ← delivery_lease_seconds intent now;
  delta ← td_seconds seconds;
  expires_at ← dt_add now delta;
  Ok (VDict [("started_at", vtime now); ("expires_at", vtime expires_at); ("lease_seconds", VFloat seconds)]).

(** [_lease_is_live]. *)
Definition lease_is_live (value : pyval) (now : Z) (max_seconds : float) : res bool :=
  started_at ← iso_utc (match value with VDict d => vget "started_at" d | _ => value end);
  expires_at ← (match value with VDict d => iso_utc (vget "expires_at" d) | _ => Ok None end);
  Ok match started_at with
     | None => false
     | Some started =>
         let age := total_seconds (now - started) in
         if fltb age (f_of_Z 0) || fgeb age DELIVERY_LEASE_SECONDS
            || (bool_decide (expires_at = None) && fgeb age (fmax (f_of_Z 0) max_seconds)) then false
         else match expires_at with Some u => now <? u | None => true end
     end.

(** ** The producer's state *)

Record Lifecycle := { lc_semantic_key : string; lc_semantic_scope : string; lc_fingerprint : string; lc_targets : list string }.

Record Producer := {
  accepted : list (string * string);
  semantic_keys : list (string * string);
  lifecycle_events : list (string * Lifecycle);
  inflight : pydict;
  cancellation_pending : list string;
  cancellation_reasons : list (string * string);
  cancellation_times : list (string * Z);
  terminal_ids : list string;
}.

(** [dict(v or {})]; a list of pairs is not taken for a dict. *)
Definition dict_or_empty (v : pyval) : res pydict :=
  match v_or v (VDict []) with VDict d => Ok d | _ => Err TypeError end.
(** What iterates as the items of [v or []]. *)
Definition items_or_empty (v : pyval) : res (list pyval) :=
  match v_or v (VList []) with
  | VList l => Ok l
  | VDict d => Ok (map (λ kv, VStr kv.1) d)
  | VStr s => Ok (map (λ c, VStr (String c "")) (String.list_ascii_of_string s))
  | _ => Err TypeError
  end.

Definition str_values (d : pydict) : list (string * string) := map (λ kv, (kv.1, py_str kv.2)) d.
Definition truthy_strs (l : list pyval) : list string := dedup_keep_first [] (map py_str (filter (λ v, truthy v = true) l)).

(** [_accepted_events]. *)
Definition accepted_events (state : pydict) : res (list (string * string)) :=
  legacy ← dict_or_empty (vget "delivered" state);
  current ← dict_or_empty (vget "accepted" state);
  Ok (filter (λ kv, kv.1 ≠ "" ∧ kv.2 ≠ "") (str_values (dmerge legacy current))).

Definition lifecycle_of (item : pydict) : Lifecycle := {|
  lc_semantic_key := get_str "semantic_key" item; lc_semantic_scope := get_str "semantic_scope" item;
  lc_fingerprint := get_str "payload_fingerprint" item;
  lc_targets := match vget "targets" item with
                | VList l => sort_by String.ltb (map py_str (filter (λ v, truthy v = true) l))
                | _ => []
                end;
|}.

(** The items that are dicts with an event id. *)
Definition lifecycle_items (l : list pyval) : list pydict :=
  filter (λ d, truthy (vget "event_id" d) = true) (omap dict_of l).

Fixpoint parsed_times (d : pydict) : res (list (string * Z)) :=
  match d with
  | [] => Ok []
  | (k, v) :: d =>
      if String.eqb k "" then parsed_times d
      else parsed ← iso_utc v; rest ← parsed_times d;
           Ok match parsed with Some u => (k, u) :: rest | None => rest end
  end.

Fixpoint live_leases (d : pydict) (now : Z) (max_seconds : string → res float) : res pydict :=
  match d with
  | [] => Ok []
  | (k, v) :: d =>
      seconds ← max_seconds k;
      live ← lease_is_live v now seconds; rest ← live_leases d now max_seconds;
      Ok (if live : bool then (k, v) :: rest else rest)
  end.

(** The state as the locked section of [process_trade_intent] reads it; the
    lease of the event at hand lasts at most [own] seconds. *)
Definition load_producer (state : pydict) (now : Z) (delivery_event_id : string) (own : res float) : res Producer :=
  accepted ← accepted_events state;
  semantic_keys ← dict_or_empty (vget "semantic_keys" state);
  items ← items_or_empty (vget "delivery_lifecycle_events" state);
  pending ← items_or_empty (vget "pending_delivery_cancellation_event_ids" state);
  reasons ← dict_or_empty (vget "pending_delivery_cancellation_reasons" state);
  times ← dict_or_empty (vget "pending_delivery_cancellation_at" state);
  times ← parsed_times times;
  terminal ← items_or_empty (vget "terminal_delivery_event_ids" state);
  leases ← dict_or_empty (vget "inflight" state);
  inflight ← live_leases leases now (λ key, if String.eqb key delivery_event_id then own else Ok DELIVERY_LEASE_SECONDS);
  let pending := truthy_strs pending in
  Ok {| accepted := accepted; semantic_keys := str_values semantic_keys;
        lifecycle_events := fold_left (λ m item, dset (get_str "event_id" item) (lifecycle_of item) m) (lifecycle_items items) [];
        inflight := inflight; cancellation_pending := pending;
        cancellation_reasons :=
          fold_left (λ m k, dsetdefault k "trade_intent_lifecycle_invalidated" m) pending
            (str_values (filter (λ kv, kv.1 ≠ "" ∧ truthy kv.2 = true) reasons));
        cancellation_times := times; terminal_ids := truthy_strs terminal |}.

(** [sorted(ids)[-200:]]. *)
Definition KEPT : nat := 200.
Definition last_kept {A} (l : list A) : list A := drop (length l - KEPT) l.
Definition kept_ids (ids : list string) : list string := last_kept (sort_by String.ltb ids).

Definition v_strs (l : list string) : pyval := VList (map VStr l).
Definition v_str_dict (d : list (string * string)) : pyval := VDict (map (λ kv, (kv.1, VStr kv.2)) d).

Definition lifecycle_dict (kv : string * Lifecycle) : pyval :=
  VDict [("event_id", VStr kv.1); ("semantic_key", VStr (lc_semantic_key kv.2)); ("semantic_scope", VStr (lc_semantic_scope kv.2));
         ("payload_fingerprint", VStr (lc_fingerprint kv.2)); ("targets", v_strs (lc_targets kv.2))].

(** The entries of the pending cancellations. *)
Definition pending_entries (p : Producer) : pydict :=
  let kept := kept_ids (cancellation_pending p) in
  [("pending_delivery_cancellation_event_ids", v_strs kept);
   ("pending_delivery_cancellation_reasons", v_str_dict (omap (λ k, (λ r, (k, r)) <$> dget k (cancellation_reasons p)) kept));
   ("pending_delivery_cancellation_at", VDict (omap (λ k, (λ u, (k, vtime u)) <$> dget k (cancellation_times p)) kept))].

(** The entries that the section saves. *)
Definition saved_entries (p : Producer) : pydict :=
  [("accepted", v_str_dict (accepted p)); ("semantic_keys", v_str_dict (semantic_keys p)); ("inflight", VDict (inflight p));
   ("delivery_lifecycle_events", VList (map lifecycle_dict (last_kept (sort_items (lifecycle_events p)))))]
  ++ pending_entries p
  ++ [("terminal_delivery_event_ids", v_strs (kept_ids (terminal_ids p)))].
