(* ===== verification/Dispatcher.v ===== *)
(** * The producer's side of the outbox ([notifier/dispatcher.py],
    [notifier/unified_delivery.py])

    What a producer of notifications calls: the immutable contract of an event,
    its inspection, its enqueueing and its cancellation.  The Rust operator
    service, asked when it owns the delivery, is an argument. *)

From stdpp Require Import base list strings.
From Stdlib Require Import Ascii ZArith Lia.
From S2P Require Import Prelude PyStr PyFloat PyTime PyDateTime PyDict PyVal PyHash PyJson Outbox Delivery.

#[local] Open Scope Z_scope.

(** The notification settings that a producer's calls depend on. *)
Record NotificationSettings := {
  routes : RouteSettings;
  notification_queue_enabled : bool;
  notification_database_path : string;
  notifications_enabled : bool;
}.

(** [_disabled]. *)
Definition queue_disabled (s : NotificationSettings) : bool := negb (notification_queue_enabled s).

(** [notification_event_contract]: the payload's fingerprint and the frozen targets. *)
Definition notification_event_contract (settings : NotificationSettings) (e : NotificationEnvelope) (m : Message)
    : res (string * list string) :=
  let '(routed, targets) := freeze_route (routes settings) e (friend m) in
  fingerprint ← notification_payload_fingerprint (notification_payload routed m);
  Ok (fingerprint, targets).

Definition unavailable_inspection (event_id : string) : DeliveryEventInspection := {|
  in_event_id := event_id; in_exists := false; in_cancelled := false; payload_matches := false; targets_match := false;
  event_status := None; target_statuses := []; in_reason := "outbox_unavailable" |}.

(** [inspect_notification_event]. *)
Definition inspect_notification_event (settings : NotificationSettings) (s : Store) (e : NotificationEnvelope) (m : Message)
    (expected_payload_fingerprint : string) (expected_targets : list string) : res DeliveryEventInspection :=
  '(fingerprint, configured_targets) ← notification_event_contract settings e m;
  if queue_disabled settings then Ok (unavailable_inspection (en_event_id e))
  else
    inspect_final_notification s (freeze_route (routes settings) e (friend m)).1 m
      (if bool_decide (expected_targets = []) then configured_targets else expected_targets)
      (Some (if String.eqb expected_payload_fingerprint "" then fingerprint else expected_payload_fingerprint)).

(** ** Enqueueing *)

Record EnqueueResult := {
  er_targets : list string;
  er_outcome : string;
  er_accepted : bool;
  er_inserted : bool;
  er_duplicate : bool;
  er_delivered : bool;
  er_queued_for_recovery : bool;
}.

(** [_enqueue_result]. *)
Definition enqueue_result (r : UnifiedEnqueueResult) : EnqueueResult :=
  let forwarded := bool_decide (ue_targets r = ["rust_ingress"]) && String.eqb (ue_outcome r) "delivered" in
  {| er_targets := ue_targets r; er_outcome := ue_outcome r; er_accepted := ue_accepted r;
     er_inserted := 0 <? ue_inserted r; er_duplicate := (ue_inserted r =? 0) && (0 <? ue_duplicate r);
     er_delivered := String.eqb (ue_outcome r) "delivered" && negb forwarded;
     er_queued_for_recovery := bool_decide (ue_outcome r ∈ ["pending"; "processing"; "failed"]) |}.

Definition quiet_enqueue : EnqueueResult := {|
  er_targets := ["quiet_window_policy"]; er_outcome := "quiet_window_suppressed"; er_accepted := true; er_inserted := false;
  er_duplicate := false; er_delivered := true; er_queued_for_recovery := false |}.
Definition disabled_enqueue : EnqueueResult := {|
  er_targets := []; er_outcome := "outbox_disabled"; er_accepted := false; er_inserted := false;
  er_duplicate := false; er_delivered := false; er_queued_for_recovery := false |}.

(** [enqueue_notification] of an envelope without a correlation id. *)
Definition enqueue_notification (to_et : Z → Z) (settings : NotificationSettings) (s : Store) (e : NotificationEnvelope)
    (m : Message) (enqueued_at : Z) : res (Store * EnqueueResult) :=
  quiet ← quiet_window_suppresses to_et e (utc enqueued_at);
  if quiet : bool then Ok (s, quiet_enqueue)
  else if queue_disabled settings then Ok (s, disabled_enqueue)
  else
    '(s, r) ← enqueue_final_notification enqueued_at (routes settings) s e m (Some (utc enqueued_at));
    Ok (s, enqueue_result r).

(** ** Cancelling *)

(** [frozen_route_for_event]. *)
Definition frozen_route_for_event (s : Store) (event_id : string) : res (list string * list (string * string)) :=
  match filter (λ r, ev_channel r ≠ CANCELLATION_CHANNEL) (event_rows s event_id) with
  | [] => Ok ([], [])
  | row :: _ as rows =>
      payload ← loads (payload_json row);
      payload ← of_option AttributeError (dict_of payload);
      raw ← _mapping (vget "envelope" payload);
      envelope ← _envelope_from_dict raw;
      Ok (sort_by String.ltb (map ev_channel rows), operator_targets envelope)
  end.

(** [cancel_pending_notification]; [rust_fenced] is whether the Rust service
    took the cancellation. *)
Definition cancel_pending_notification (settings : NotificationSettings) (rust_fenced : bool) (s : Store) (event_id : string)
    (now : Z) (reason : string) : res (Store * Z) :=
  '(targets, _) ← frozen_route_for_event s event_id;
  _ ← raise_unless (negb (rust_trader_notification_owner (routes settings) || bool_decide ("rust_ingress" ∈ targets)) || rust_fenced)
        RuntimeError;
  cancel now s event_id reason (Some (utc now)).
