(* ===== verification/TradeDelivery.v ===== *)
(** * The locked sections of trade-intent delivery
    ([trade_intent_runtime.py], [trade_intent_delivery_contract.py])

    What one call does to the state that all calls share while it holds the
    lock: the producer's state file, the file with the latest intent, the audit
    log and the outbox.  A section that raises keeps what it has written. *)

From stdpp Require Import base list strings.
From Stdlib Require Import Ascii ZArith Lia.
From S2P Require Import Prelude PyStr PyFloat PyTime PyDateTime PyDict PyVal PyHash PyJson StateIo Outbox Delivery StrategyContract TradeIntent Dispatcher.

#[local] Open Scope Z_scope.

(** ** Sections *)

Record Shared := {
  state_file : FileContent;
  latest_file : FileContent;
  audit_log : list (Z * pydict);
  outbox : Store;
}.

(** A computation on the shared state that may raise. *)
Definition Run (A : Type) : Type := Shared → Shared * res A.

#[global] Instance run_ret : MRet Run := λ _ a w, (w, Ok a).
#[global] Instance run_bind : MBind Run := λ _ _ k m w,
  match m w with (w', Ok a) => k a w' | (w', Err e) => (w', Err e) end.

Definition lift {A} (m : res A) : Run A := λ w, (w, m).
Definition read_state : Run pydict := λ w, (w, read_json_object (state_file w)).
Definition write_state (d : pydict) : Run () := λ w,
  ({| state_file := written_json d; latest_file := latest_file w; audit_log := audit_log w; outbox := outbox w |}, Ok ()).
Definition write_latest (d : pydict) : Run () := λ w,
  ({| state_file := state_file w; latest_file := written_json d; audit_log := audit_log w; outbox := outbox w |}, Ok ()).
(** [_append_jsonl] to the file of the day of [now]. *)
Definition append_audit (now : Z) (d : pydict) : Run () := λ w,
  ({| state_file := state_file w; latest_file := latest_file w; audit_log := audit_log w ++ [(wall_date now, d)];
      outbox := outbox w |}, Ok ()).

(** [type(error).__name__]. *)
Definition exn_name (e : pyexn) : string :=
  match e with
  | ValueError => "ValueError" | KeyError => "KeyError" | TypeError => "TypeError" | IndexError => "IndexError"
  | AttributeError => "AttributeError" | ZeroDivisionError => "ZeroDivisionError" | OverflowError => "OverflowError"
  | AssertionError => "AssertionError" | RuntimeError => "RuntimeError" | NoResultFound => "NoResultFound"
  | IntegrityError => "IntegrityError" | IOFailure => "OSError" | OutOfFuel => "OutOfFuel"
  end.

(** A call of the outbox inside [try: ... except Exception]; [fault] is the
    exception with which the database fails before it changes anything. *)
Definition try_outbox {A} (fault : option string) (f : Store → res (Store * A)) : Run (reply A) := λ w,
  match fault, f (outbox w) with
  | Some name, _ => (w, Ok (Raised name))
  | None, Err e => (w, Ok (Raised (exn_name e)))
  | None, Ok (s, a) =>
      ({| state_file := state_file w; latest_file := latest_file w; audit_log := audit_log w; outbox := s |}, Ok (Answered a))
  end.

Definition peek {A} (f : Store → res A) (s : Store) : res (Store * A) := a ← f s; Ok (s, a).

(** ** Projections *)

Definition TRANSIENT_DELIVERY_REASON_PREFIXES : list string :=
  ["action_quote_"; "action_execution_quote_"; "outbox_reconciliation_exception:"].
Definition TRANSIENT_DELIVERY_REASONS : list string :=
  ["delivery_in_progress"; "notification_enqueue_exception"; "accepted_outbox_reconciliation_unavailable"].

(** [notification_status_for_reason]. *)
Definition notification_status_for_reason (reason : string) : string :=
  if bool_decide (reason ∈ TRANSIENT_DELIVERY_REASONS)
     || existsb (λ p, str_starts p reason) TRANSIENT_DELIVERY_REASON_PREFIXES then "pending" else "blocked".

Definition or_none (s : string) : pyval := if String.eqb s "" then VNone else VStr s.

(** [delivery_projection]. *)
Definition delivery_projection (intent : pydict) (delivery_event_id notification_status reason : string) : res pydict :=
  let projected := dmerge intent
    [("signal_status", VStr (get_str "status" intent)); ("notification_event_id", or_none delivery_event_id);
     ("notification_status", VStr notification_status); ("notification_reason", VStr reason)] in
  if String.eqb notification_status "outbox_accepted" then Ok (dset "status" (VStr "trade_ready") projected)
  else
    items ← items_or_empty (vget "block_reasons" intent);
    let block_reasons := filter (λ s, s ≠ "") (omap str_of items) in
    let delivery_reason := "notification:" +:+ reason in
    Ok (dmerge projected
      [("status", VStr (if String.eqb notification_status "pending" then "ready_pending_delivery" else "delivery_blocked"));
       ("execution_eligible", VBool false);
       ("block_reasons", v_strs (if bool_decide (delivery_reason ∈ block_reasons) then block_reasons
                                 else block_reasons ++ [delivery_reason]))]).

(** [apply_trade_intent_delivery_result]. *)
Definition apply_trade_intent_delivery_result (intent delivery : pydict) : res pydict :=
  if negb (is_str "trade_ready" (vget "status" intent)) then Ok intent
  else
    let reason := py_str (v_or (v_or (vget "reason" delivery) (vget "outcome" delivery)) (VStr "unknown")) in
    delivery_projection intent (trade_ready_delivery_event_id intent)
      (if is_true (vget "accepted" delivery) then "outbox_accepted" else notification_status_for_reason reason) reason.

Definition reconciled_delivery_result : pydict :=
  [("accepted", VBool true); ("attempted", VBool false); ("delivered", VBool false); ("duplicate", VBool true);
   ("inserted", VBool false); ("reason", VStr "outbox_event_reconciled")].

(** The writes that a section ends with: the latest file, the audit when the
    signature is new, then the state. *)
Definition publish (now : Z) (state projected : pydict) (next : string → pydict) : Run () :=
  signature ← lift (intent_signature projected);
  _ ← write_latest projected;
  _ ← (if py_eq (VStr signature) (vget "last_signature" state) then mret () else append_audit now projected);
  write_state (next signature).

(** [persist_delivery_projection]; [false] when the acceptance is preserved. *)
Definition persist_delivery_projection (intent : pydict) (now : Z) (delivery_event_id reason : string) (preserve_accepted : bool)
    : Run bool :=
  projected ← lift (delivery_projection intent delivery_event_id (notification_status_for_reason reason) reason);
  _ ← lift (intent_signature projected);
  state ← read_state;
  accepted ← lift (if preserve_accepted then dhas delivery_event_id <$> accepted_events state else Ok false);
  if accepted : bool then mret false
  else
    _ ← publish now state projected (λ signature,
          dmerge state [("last_signature", VStr signature); ("last_status", vget "status" projected);
                        ("last_delivery_event_id", or_none delivery_event_id); ("updated_at", vtime now)]);
    mret true.

(** [record_action_revalidation]. *)
Definition record_action_revalidation (now : Z) (evidence : pydict) : Run () :=
  state ← read_state;
  write_state (dmerge state [("last_action_revalidation", VDict evidence); ("updated_at", vtime now)]).

(** [release_delivery_lease]. *)
Definition release_delivery_lease (event_id : string) (now : Z) : Run () :=
  state ← read_state;
  inflight ← lift (dict_or_empty (vget "inflight" state));
  write_state (dmerge state [("inflight", VDict (dpop event_id inflight)); ("updated_at", vtime now)]).

(** ** Before the lock *)

(** One call of [process_trade_intent], with what is outside answers to it:
    the text that [render_trade_intent] makes of the intent, the verdict on the
    quotes of the market at action time ([None] where they are in order) with
    its evidence, whether the outbox database fails, and which cancellations
    the Rust service takes. *)
Record Call := {
  intent : pydict;
  now : Z;
  action_now : Z;
  expected_policy_version : option string;
  rendered : string;
  feature_policy : bool;
  quote_verdict : res (option string * pydict);
  inspect_fault : option string;
  enqueue_fault : option string;
  ack_fault : option string;
  cancel_fault : string → option string;
  rust_fenced : string → bool;
}.

Section delivery.
Context (to_et : Z → Z) (settings : NotificationSettings).

Definition outbox_configured : bool :=
  notification_queue_enabled settings && negb (String.eqb (notification_database_path settings) "").

Definition ready (c : Call) : bool := is_str "trade_ready" (vget "status" (intent c)).
Definition event_of (c : Call) : string := if ready c then trade_ready_delivery_event_id (intent c) else "".
Definition key_of (c : Call) : string := opportunity_dedupe_key (intent c).
Definition message_of (c : Call) : Message := {|
  title := "SPX TRADE READY"; text := rendered c; friend := true; feishu_text := Some (rendered c); sections := [] |}.

(** [operator_generation] and [operator_opportunity_id] ([operator_contract.py]). *)
Definition operator_generation_of (d : pydict) : Z :=
  match dget "reentry_generation" d with Some (VInt n) => Z.max n 0 | _ => 0 end.
Definition operator_opportunity_of (d : pydict) : option string :=
  let id := get_str "intent_id" d in
  if truthy (vget "event_id" d) then Some (py_str (vget "event_id" d)) else if String.eqb id "" then None else Some id.

Definition envelope_of (c : Call) (occurred_at : Z) (expires_at : option Z) : NotificationEnvelope := {|
  en_event_id := event_of c; en_source := "trade_intent"; en_kind := "trade_intent"; en_lane := "trade_ready";
  en_occurred_at := utc occurred_at; en_expires_at := utc <$> expires_at; operator_targets := [];
  operator_opportunity_id := operator_opportunity_of (intent c); operator_generation := operator_generation_of (intent c);
  en_correlation_id := None; message_class := None; template_id := None; template_version := 1 |}.

(** What a call prepares before it takes the lock. *)
Record Prepared := {
  contract_reason : option string;
  envelope : option NotificationEnvelope;
  fingerprint : string;
  targets : list string;
}.

Definition prepare (c : Call) : res Prepared :=
  if negb (ready c) then Ok {| contract_reason := None; envelope := None; fingerprint := ""; targets := [] |}
  else
    reason ← ready_contract_reason (intent c) (now c) (expected_policy_version c);
    occurred_at ← intent_occurred_at (intent c);
    match occurred_at with
    | Some at_ =>
        if String.eqb (event_of c) "" then Ok {| contract_reason := reason; envelope := None; fingerprint := ""; targets := [] |}
        else
          expires_at ← parse_time (v_or (vget "valid_until" (intent c)) (vget "expires_at" (intent c)));
          let e := envelope_of c at_ expires_at in
          '(fingerprint, targets) ←
            (if outbox_configured then notification_event_contract settings e (message_of c) else Ok ("", []));
          Ok {| contract_reason := reason; envelope := Some e; fingerprint := fingerprint; targets := targets |}
    | None => Ok {| contract_reason := reason; envelope := None; fingerprint := ""; targets := [] |}
    end.

(** ** Lifecycles that end *)

Definition TERMINAL_PHASES : list string := ["expired"; "invalidated"].

Definition add_all (new l : list string) : list string := dedup_keep_first [] (l ++ new).

Definition with_cancellations (p : Producer) (pending : list string) (reasons : list (string * string)) (times : list (string * Z))
    (terminal : list string) : Producer := {|
  accepted := accepted p; semantic_keys := semantic_keys p; lifecycle_events := lifecycle_events p; inflight := inflight p;
  cancellation_pending := pending; cancellation_reasons := reasons; cancellation_times := times; terminal_ids := terminal |}.

Definition in_scope (scope key : string) : bool := String.eqb key scope || str_starts (scope +:+ "|") key.

(** The events of the scope, or all of them without one; every event under way
    ends. *)
Definition ending_ids (scope : string) (p : Producer) : list string :=
  let all := String.eqb scope "" in
  filter (λ id, id ∉ terminal_ids p)
    (add_all (dkeys (inflight p))
      (add_all (map fst (filter (λ kv, all || String.eqb (lc_semantic_scope kv.2) scope || in_scope scope (lc_semantic_key kv.2) = true)
                          (lifecycle_events p)))
        (map fst (filter (λ kv, all || in_scope scope kv.2 = true) (semantic_keys p))))).

(** [_mark_terminal_deliveries]. *)
Definition mark_terminal_deliveries (phase scope : string) (p : Producer) : Producer :=
  let ending := ending_ids scope p in
  with_cancellations p (add_all ending (cancellation_pending p))
    (fold_left (λ m id, dset id ("trade_intent_lifecycle_" +:+ phase) m) ending (cancellation_reasons p))
    (cancellation_times p) (add_all ending (terminal_ids p)).

Definition end_lifecycles (c : Call) (p : Producer) : Producer :=
  let phase := get_str "phase" (intent c) in
  if bool_decide (phase ∈ TERMINAL_PHASES) then mark_terminal_deliveries phase (get_str "semantic_scope" (intent c)) p else p.

(** [cancellation_times.setdefault(key, now)]. *)
Definition stamp (now : Z) (p : Producer) : Producer :=
  with_cancellations p (cancellation_pending p) (cancellation_reasons p)
    (fold_left (λ m id, dsetdefault id now m) (cancellation_pending p) (cancellation_times p)) (terminal_ids p).

(** What an event leaves when its cancellation is done. *)
Definition forget (id : string) (p : Producer) : Producer := {|
  accepted := dpop id (accepted p); semantic_keys := semantic_keys p; lifecycle_events := dpop id (lifecycle_events p);
  inflight := dpop id (inflight p); cancellation_pending := filter (λ k, k ≠ id) (cancellation_pending p);
  cancellation_reasons := dpop id (cancellation_reasons p); cancellation_times := dpop id (cancellation_times p);
  terminal_ids := terminal_ids p |}.

(** The cancellation of one event; without a time it raises before the outbox
    is asked. *)
Definition cancel_one (c : Call) (p : Producer) (id : string) : Run (reply Z) :=
  match dget id (cancellation_times p) with
  | None => mret (Raised "KeyError")
  | Some at_ =>
      try_outbox (cancel_fault c id) (λ s,
        cancel_pending_notification settings (rust_fenced c id) s id at_
          (default "trade_intent_lifecycle_terminal" (dget id (cancellation_reasons p))))
  end.

Fixpoint cancel_all (c : Call) (ids : list string) (p : Producer) : Run Producer :=
  match ids with
  | [] => mret p
  | id :: ids => answer ← cancel_one c p id;
                 cancel_all c ids (match answer with Answered _ => forget id p | Raised _ => p end)
  end.

(** ** Reconciling with the outbox *)

Definition with_lifecycle (id : string) (l : Lifecycle) (p : Producer) : Producer := {|
  accepted := accepted p; semantic_keys := semantic_keys p; lifecycle_events := dset id l (lifecycle_events p);
  inflight := inflight p; cancellation_pending := cancellation_pending p; cancellation_reasons := cancellation_reasons p;
  cancellation_times := cancellation_times p; terminal_ids := terminal_ids p |}.
Definition with_acceptance (a k : list (string * string)) (p : Producer) : Producer := {|
  accepted := a; semantic_keys := k; lifecycle_events := lifecycle_events p;
  inflight := inflight p; cancellation_pending := cancellation_pending p; cancellation_reasons := cancellation_reasons p;
  cancellation_times := cancellation_times p; terminal_ids := terminal_ids p |}.
Definition with_inflight (l : pydict) (p : Producer) : Producer := {|
  accepted := accepted p; semantic_keys := semantic_keys p; lifecycle_events := lifecycle_events p;
  inflight := l; cancellation_pending := cancellation_pending p; cancellation_reasons := cancellation_reasons p;
  cancellation_times := cancellation_times p; terminal_ids := terminal_ids p |}.

Definition key_claimed (key : string) (p : Producer) : bool :=
  negb (String.eqb key "") && bool_decide (key ∈ (semantic_keys p).*2).

(** [lifecycle_events.setdefault] for an event that may still be delivered. *)
Definition register (c : Call) (prep : Prepared) (p : Producer) : Producer :=
  let id := event_of c in
  if ready c && negb (String.eqb id "") && bool_decide (id ∉ terminal_ids p) && negb (key_claimed (key_of c) p)
     && negb (dhas id (lifecycle_events p))
  then with_lifecycle id {| lc_semantic_key := key_of c; lc_semantic_scope := get_str "semantic_scope" (intent c);
                            lc_fingerprint := fingerprint prep; lc_targets := targets prep |} p
  else p.

(** What the outbox says of the event, where it is asked. *)
Definition inspect_event (c : Call) (prep : Prepared) (claimed owned_elsewhere : bool) (p : Producer)
    : Run (option (reply DeliveryEventInspection) * Producer) :=
  let id := event_of c in
  match contract_reason prep, envelope prep with
  | None, Some e =>
      if ready c && outbox_configured && bool_decide (id ∉ terminal_ids p) && (negb claimed || dhas id (lifecycle_events p)) then
        lifecycle ← lift (dindex id (lifecycle_events p));
        let expected_fingerprint := non_empty (lc_fingerprint lifecycle) (fingerprint prep) in
        let expected_targets := if bool_decide (lc_targets lifecycle = []) then targets prep else lc_targets lifecycle in
        answer ← try_outbox (inspect_fault c) (peek (λ s,
          inspect_notification_event settings s e (message_of c) expected_fingerprint expected_targets));
        let frozen f t := with_lifecycle id {| lc_semantic_key := lc_semantic_key lifecycle; lc_semantic_scope := lc_semantic_scope lifecycle;
                                               lc_fingerprint := f; lc_targets := t |} p in
        mret (Some answer,
              match answer with
              | Raised _ => p
              | Answered i =>
                  if String.eqb (in_reason i) "missing" && negb owned_elsewhere then frozen (fingerprint prep) (targets prep)
                  else if acceptable i then frozen expected_fingerprint expected_targets
                  else p
              end)
      else mret (None, p)
  | _, _ => mret (None, p)
  end.

Definition reconciliation_note (c : Call) (status action : string) (more : pydict) : pyval :=
  VDict ([("event_id", VStr (event_of c)); ("status", VStr status); ("action", VStr action)] ++ more
         ++ [("reconciled_at", vtime (now c))]).

(** Where the reconciliation leaves the section. *)
Record Reconciled := {
  producer : Producer;
  claimed : bool;
  fault : option string;
  note : option pyval;
}.

Definition durable (answer : option (reply DeliveryEventInspection)) : bool :=
  match answer with Some (Answered i) => acceptable i | _ => false end.
Definition answered_missing (answer : option (reply DeliveryEventInspection)) : bool :=
  match answer with Some (Answered i) => String.eqb (in_reason i) "missing" | _ => false end.

(** The fault of an inspection, with its note. *)
Definition inspection_fault (c : Call) (answer : option (reply DeliveryEventInspection)) : option (string * pyval) :=
  match answer with
  | Some (Raised name) =>
      let status := "outbox_reconciliation_exception:" +:+ name in
      Some (status, reconciliation_note c status "hard_fault" [])
  | Some (Answered i) =>
      if bool_decide (in_reason i ∈ ["accepted"; "missing"]) then None
      else
        let status := "outbox_reconciliation_" +:+ in_reason i in
        Some (status, reconciliation_note c status "hard_fault"
          [("event_status", v_opt_str (event_status i));
           ("target_statuses", VList (map (λ t, VList [VStr t.1; VStr t.2]) (target_statuses i)))])
  | None => None
  end.

(** Local acceptance against the outbox. *)
Definition check_acceptance (c : Call) (answer : option (reply DeliveryEventInspection)) (claimed : bool) (p : Producer) : Reconciled :=
  let id := event_of c in
  let found := inspection_fault c answer in
  let local := negb (String.eqb id "")
               && (dhas id (TradeIntent.accepted p) || dhas id (semantic_keys p) && bool_decide (id ∉ terminal_ids p)) in
  if ready c && local && negb (durable answer) then
    if outbox_configured && answered_missing answer && bool_decide (found = None) then
      let p := with_acceptance (dpop id (TradeIntent.accepted p)) (dpop id (semantic_keys p)) p in
      {| producer := p; claimed := key_claimed (key_of c) p; fault := None;
         note := Some (reconciliation_note c "local_accepted_outbox_missing" "retry" []) |}
    else match found with
         | Some (status, n) => {| producer := p; claimed := claimed; fault := Some status; note := Some n |}
         | None =>
             let status := "accepted_outbox_reconciliation_unavailable" in
             {| producer := p; claimed := claimed; fault := Some status; note := Some (reconciliation_note c status "hard_fault" []) |}
         end
  else {| producer := p; claimed := claimed; fault := fst <$> found; note := snd <$> found |}.

(** The acceptance of an event that the outbox holds. *)
Definition restore_acceptance (c : Call) (r : Reconciled) : Reconciled :=
  let id := event_of c in
  let p := producer r in
  {| producer := with_acceptance (dsetdefault id (isoformat (now c)) (TradeIntent.accepted p))
                   (if String.eqb (key_of c) "" then semantic_keys p else dset id (key_of c) (semantic_keys p)) p;
     claimed := claimed r; fault := fault r;
     note := if dhas id (TradeIntent.accepted p) then note r
             else Some (reconciliation_note c "outbox_event_local_acceptance_missing" "restore_local_acceptance" []) |}.

Definition settle_reconciliation (c : Call) (answer : option (reply DeliveryEventInspection)) (claimed : bool) (p : Producer) : Reconciled :=
  let r := check_acceptance c answer claimed p in
  if durable answer && negb (String.eqb (event_of c) "") then restore_acceptance c r else r.

(** ** The section *)

(** What the rest of the call goes by. *)
Record Verdict := {
  vd_durable : bool;
  vd_blocked_by_cancellation : bool;
  vd_fault : option string;
  vd_duplicate : bool;
  vd_in_progress : bool;
}.

(** The intent as it is shown while its delivery is not decided. *)
Definition persisted_intent (c : Call) (prep : Prepared) (durable : bool) : res pydict :=
  if ready c then
    if durable then delivery_projection (intent c) (event_of c) "outbox_accepted" "outbox_event_reconciled"
    else match contract_reason prep with
         | Some reason => delivery_projection (intent c) (event_of c) "blocked" reason
         | None => delivery_projection (intent c) (event_of c) "pending" "awaiting_outbox_acceptance"
         end
  else Ok (intent c).

(** The state that the section saves. *)
Definition next_state (c : Call) (state persisted : pydict) (p : Producer) (signature : string) : pydict :=
  dpop "delivered"
    (dmerge state
      ([("schema_version", VInt 3); ("last_signature", VStr signature); ("last_status", vget "status" persisted);
        ("last_event_id", vget "event_id" (intent c)); ("last_delivery_event_id", or_none (event_of c));
        ("updated_at", vtime (now c))] ++ saved_entries p)).

Definition takes_lease (c : Call) (prep : Prepared) (v : Verdict) : bool :=
  ready c && bool_decide (contract_reason prep = None) && negb (String.eqb (event_of c) "") && negb (vd_duplicate v)
  && negb (vd_blocked_by_cancellation v) && negb (vd_in_progress v) && bool_decide (vd_fault v = None).

(** The verdict on a reconciled event, and the leases that stay. *)
Definition judge (c : Call) (durable : bool) (r : Reconciled) : Verdict * Producer :=
  let id := event_of c in
  let p := producer r in
  let p := if durable then with_inflight (dpop id (inflight p)) p else p in
  let some_id := negb (String.eqb id "") in
  ({| vd_durable := durable;
      vd_blocked_by_cancellation := ready c && bool_decide (cancellation_pending p ≠ []);
      vd_fault := fault r;
      vd_duplicate := some_id && (dhas id (TradeIntent.accepted p) || bool_decide (id ∈ terminal_ids p) || claimed r);
      vd_in_progress := some_id && dhas id (inflight p) |}, p).

(** The end of the section: the lease, and the writes. *)
Definition conclude_section (c : Call) (prep : Prepared) (state : pydict) (durable : bool) (r : Reconciled) : Run Verdict :=
  let '(v, p) := judge c durable r in
  p ← (if takes_lease c prep v then
         lease ← lift (delivery_lease (intent c) (now c)); mret (with_inflight (dset (event_of c) lease (inflight p)) p)
       else mret p);
  persisted ← lift (persisted_intent c prep durable);
  let state := match note r with Some n => dset "last_delivery_reconciliation" n state | None => state end in
  _ ← publish (now c) state persisted (next_state c state persisted p);
  mret v.

(** The section of [process_trade_intent] under the lock. *)
Definition locked_section (c : Call) (prep : Prepared) : Run Verdict :=
  state ← read_state;
  p ← lift (load_producer state (now c) (event_of c) (delivery_lease_seconds (intent c) (now c)));
  let claimed := key_claimed (key_of c) p in
  let p := register c prep p in
  let owned_elsewhere := negb (String.eqb (event_of c) "") && dhas (event_of c) (inflight p) in
  let p := stamp (now c) (end_lifecycles c p) in
  let pending := cancellation_pending p in
  let state := if bool_decide (pending = []) then state else dmerge state (pending_entries p) in
  _ ← (if bool_decide (pending = []) then mret () else write_state state);
  p ← cancel_all c (sort_by String.ltb pending) p;
  '(answer, p) ← inspect_event c prep claimed owned_elsewhere p;
  conclude_section c prep state (durable answer) (settle_reconciliation c answer claimed p).

(** ** Acknowledging an enqueued event *)

(** The lifecycle entry of the event, as the state file has it. *)
Definition stored_lifecycle (id : string) (items : list pyval) : option pydict :=
  find (λ d, is_str id (vget "event_id" d)) (omap dict_of items).

(** Why the acknowledgement is refused. *)
Definition ack_refusal (c : Call) (prep : Prepared) (e : NotificationEnvelope) (state : pydict) : Run (option string) :=
  let id := event_of c in
  terminal ← lift (truthy_strs <$> items_or_empty (vget "terminal_delivery_event_ids" state));
  pending ← lift (truthy_strs <$> items_or_empty (vget "pending_delivery_cancellation_event_ids" state));
  items ← lift (items_or_empty (vget "delivery_lifecycle_events" state));
  if bool_decide (id ∈ terminal) then mret (Some "lifecycle_terminal_before_delivery_ack")
  else if bool_decide (id ∈ pending) then mret (Some "lifecycle_cancellation_pending")
  else match stored_lifecycle id items with
  | None => mret (Some "lifecycle_inactive_before_delivery_ack")
  | Some lifecycle =>
      if negb outbox_configured then mret None
      else
        stored ← lift (items_or_empty (vget "targets" lifecycle));
        let frozen_fingerprint := get_str "payload_fingerprint" lifecycle in
        let frozen_targets := sort_by String.ltb (map py_str (filter (λ v, truthy v = true) stored)) in
        if negb (String.eqb frozen_fingerprint (fingerprint prep)) || negb (bool_decide (frozen_targets = targets prep))
        then mret (Some "lifecycle_contract_changed_before_delivery_ack")
        else
          answer ← try_outbox (ack_fault c) (peek (λ s,
            inspect_notification_event settings s e (message_of c) frozen_fingerprint frozen_targets));
          mret match answer with
               | Raised name => Some ("outbox_reconciliation_exception:" +:+ name)
               | Answered i => if acceptable i then None else Some ("outbox_ack_" +:+ in_reason i)
               end
  end.

(** [dict(sorted(accepted.items(), key=lambda item: item[1])[-200:])] above 200 entries. *)
Definition newest_accepted (a : list (string * string)) : list (string * string) :=
  if Nat.ltb KEPT (length a) then last_kept (sort_by (λ x y, String.ltb x.2 y.2) a) else a.

(** The entries of a state that acknowledged, or refused to. *)
Definition acknowledged_state (c : Call) (state : pydict) : res pydict :=
  accepted ← accepted_events state;
  keys ← dict_or_empty (vget "semantic_keys" state);
  let keys := str_values keys in
  Ok (dmerge (dpop "delivered" state)
       [("accepted", v_str_dict (newest_accepted (dset (event_of c) (isoformat (action_now c)) accepted)));
        ("semantic_keys", v_str_dict (if String.eqb (key_of c) "" then keys else dset (event_of c) (key_of c) keys))]).

Definition refused_state (c : Call) (state : pydict) (reason : string) : pydict :=
  dset "last_delivery_reconciliation"
    (VDict [("event_id", VStr (event_of c)); ("status", VStr reason); ("action", VStr "reject_stale_enqueue_ack");
            ("reconciled_at", vtime (action_now c))]) state.

(** [acknowledge_trade_intent_enqueue]. *)
Definition acknowledge_trade_intent_enqueue (c : Call) (prep : Prepared) (e : NotificationEnvelope) (evidence : pydict)
    : Run (bool * string) :=
  state ← read_state;
  refusal ← ack_refusal c prep e state;
  _ ← lift (accepted_events state);
  inflight ← lift (dict_or_empty (vget "inflight" state));
  let last_signature := vget "last_signature" state in
  let state := dmerge state [("inflight", VDict (dpop (event_of c) inflight)); ("last_action_revalidation", VDict evidence)] in
  next ← lift (match refusal with None => acknowledged_state c state | Some reason => Ok (refused_state c state reason) end);
  let reason := default "outbox_enqueue_accepted" refusal in
  let status := match refusal with None => "outbox_accepted" | Some r => notification_status_for_reason r end in
  projected ← lift (delivery_projection (intent c) (event_of c) status reason);
  _ ← publish (action_now c) state projected (λ signature,
        dmerge next [("last_signature", VStr signature); ("last_status", vget "status" projected); ("updated_at", vtime (action_now c))]);
  mret (bool_decide (refusal = None), reason).

(** ** Action time *)

(** [_action_revalidation]: the contract and the card once more, then the
    quotes. *)
Definition action_revalidation (c : Call) : res (option string * pydict) :=
  let known := [("intent_id", vget "intent_id" (intent c)); ("decision_evaluated_at", vget "evaluated_at" (intent c));
                ("action_revalidated_at", vtime (action_now c)); ("expected_policy_version", v_opt_str (expected_policy_version c));
                ("source_policy_version", vget "policy_version" (intent c))] in
  let blocked more reason := Ok (Some reason, dmerge known (more ++ [("reason", VStr reason)])) in
  reason ← ready_contract_reason (intent c) (action_now c) (expected_policy_version c);
  match reason with
  | Some reason => blocked [] reason
  | None =>
      reason ← manual_card_contract_reason (intent c) (action_now c);
      match reason with
      | Some reason => blocked [] reason
      | None =>
          if negb (feature_policy c) then blocked [("quote_revalidation", VStr "blocked")] "action_feature_policy_unavailable"
          else
            '(reason, found) ← quote_verdict c;
            Ok (reason, dmerge known ([("quote_revalidation", VStr "performed")] ++ found ++ [("reason", v_opt_str reason)]))
      end
  end.

End delivery.
