(* ===== verification/TradeCalls.v ===== *)
(** * Calls of the trade-intent delivery ([process_trade_intent])

    A call runs from one locked section to the next; between two sections other
    calls and the outbox's workers run, and the process may die.  [advance] is
    one such stretch, [process_trade_intent] a call that is not disturbed, and
    [sys_step] the calls of several processes with everything else that
    happens. *)

From stdpp Require Import base list strings.
From Stdlib Require Import Ascii ZArith Lia.
From S2P Require Import Prelude PyStr PyFloat PyTime PyDateTime PyDict PyVal PyHash PyJson StateIo MarketCalendar Outbox OutboxFacts Delivery DeliveryProps StrategyContract TradeIntent Dispatcher TradeDelivery.

#[local] Open Scope Z_scope.

(** ** The points of a call *)

(** The short sections that follow a decision. *)
Inductive Cleanup :=
  | Note_revalidation (at_ : Z) (evidence : pydict)
  | Release_lease (at_ : Z)
  | Project (at_ : Z) (reason : string) (preserve_accepted : bool).

Inductive Point :=
  | Start
  | To_enqueue (prep : Prepared) (e : NotificationEnvelope) (evidence : pydict)
  | To_acknowledge (prep : Prepared) (e : NotificationEnvelope) (evidence : pydict) (enqueued : EnqueueResult)
  | Cleaning (steps : list Cleanup) (result : pydict)
  | Done (result : res pydict).

Definition flags (l : list (string * bool)) : pydict := map (λ kv, (kv.1, VBool kv.2)) l.

(** A call that ends without an attempt. *)
Definition refused (result_reason : string) (more : pydict) : pydict :=
  flags [("attempted", false); ("delivered", false)] ++ more ++ [("reason", VStr result_reason)].
Definition stop (at_ : Z) (reason : string) (more : pydict) : Point :=
  Cleaning [Project at_ reason false] (refused reason more).
Definition revalidated (c : Call) : string * pyval := ("action_revalidated_at", vtime (action_now c)).

Section calls.
Context (to_et : Z → Z) (settings : NotificationSettings).

Definition has_sink : bool :=
  feishu_enabled (routes settings) || bark_enabled (routes settings) || bark_friend_enabled (routes settings).

(** From the action time on: revalidation, the card, the envelope. *)
Definition at_action (c : Call) (prep : Prepared) : res Point :=
  '(reason, evidence) ← action_revalidation c;
  card ← (match reason with Some _ => Ok None | None => manual_card_contract_reason (intent c) (action_now c) end);
  let not_accepted := flags [("accepted", false)] in
  let block r evidence :=
    Cleaning [Note_revalidation (action_now c) evidence; Release_lease (action_now c); Project (action_now c) r false]
             (refused r (not_accepted ++ [revalidated c])) in
  Ok match reason, card, envelope prep with
     | Some r, _, _ => block r evidence
     | None, Some r, _ => block r (dset "reason" (VStr r) evidence)
     | None, None, None => block "intent_occurred_at_unavailable" (dset "reason" (VStr "intent_occurred_at_unavailable") evidence)
     | None, None, Some e => To_enqueue prep e evidence
     end.

(** What a call does with the verdict of its section, in the order of its
    tests. *)
Definition after_section (c : Call) (prep : Prepared) (v : Verdict) : res Point :=
  let at_ := now c in
  let status := py_str (v_or (vget "status" (intent c)) (VStr "observing")) in
  if negb (ready c) then Ok (Cleaning [] (refused status []))
  else match contract_reason prep with
  | Some reason => Ok (stop at_ reason [])
  | None =>
      if String.eqb (get_str "intent_id" (intent c)) "" then Ok (stop at_ "intent_id_unavailable" [])
      else if String.eqb (event_of c) "" then Ok (stop at_ "notification_event_id_unavailable" [])
      else if vd_blocked_by_cancellation v then Ok (stop at_ "lifecycle_cancellation_pending" [])
      else match vd_fault v with
      | Some reason => Ok (stop at_ reason (flags [("accepted", false)]))
      | None =>
          if vd_duplicate v then
            Ok (if vd_durable v then Cleaning [] reconciled_delivery_result
                else Cleaning [Project at_ "accepted_outbox_reconciliation_unavailable" false] (refused "already_accepted" []))
          else if vd_in_progress v then Ok (Cleaning [Project at_ "delivery_in_progress" true] (refused "delivery_in_progress" []))
          else if negb (notifications_enabled settings) then
            Ok (Cleaning [Release_lease at_; Project at_ "notification_disabled" false] (refused "notification_disabled" []))
          else if negb has_sink then
            Ok (Cleaning [Release_lease at_; Project at_ "no_delivery_sink" false] (refused "no_delivery_sink" []))
          else at_action c prep
      end
  end.

(** A point that may raise: the call ends with the exception. *)
Definition or_raise (r : res Point) : Point := match r with Ok pt => pt | Err e => Done (Err e) end.
Definition settle_point (m : Run Point) : Shared → Shared * Point := λ w, let '(w', r) := m w in (w', or_raise r).

Definition enqueue_results (c : Call) (r : EnqueueResult) : pydict :=
  flags [("attempted", true); ("accepted", er_accepted r); ("inserted", er_inserted r); ("duplicate", er_duplicate r);
         ("delivered", er_delivered r); ("queued", er_queued_for_recovery r)]
  ++ [("outcome", VStr (er_outcome r)); ("writer", VStr "template"); ("targets", v_strs (er_targets r)); revalidated c].

(** The enqueueing, and what follows from its answer. *)
Definition enqueue_point (c : Call) (prep : Prepared) (e : NotificationEnvelope) (evidence : pydict) : Run Point :=
  answer ← try_outbox (enqueue_fault c) (λ s, enqueue_notification to_et settings s e (message_of c) (action_now c));
  mret match answer with
       | Raised name =>
           Cleaning [Note_revalidation (action_now c)
                       (dmerge evidence [("reason", VStr "notification_enqueue_exception"); ("enqueue_exception_type", VStr name)]);
                     Release_lease (action_now c); Project (action_now c) "notification_enqueue_exception" false]
             (flags [("attempted", true); ("accepted", false); ("delivered", false)]
              ++ [("reason", VStr "notification_enqueue_exception"); ("enqueue_exception_type", VStr name); revalidated c])
       | Answered r =>
           if er_accepted r then To_acknowledge prep e evidence r
           else Cleaning [Note_revalidation (action_now c) evidence; Release_lease (action_now c);
                          Project (action_now c) ("outbox_enqueue_" +:+ er_outcome r) false] (enqueue_results c r)
       end.

Definition acknowledge_point (c : Call) (prep : Prepared) (e : NotificationEnvelope) (evidence : pydict) (r : EnqueueResult)
    : Run Point :=
  '(accepted, reason) ← acknowledge_trade_intent_enqueue settings c prep e evidence;
  mret (Cleaning [] (if accepted : bool then enqueue_results c r
                     else flags [("accepted", false); ("attempted", true); ("delivered", false)] ++ [("reason", VStr reason); revalidated c])).

(** One of the short sections; a preserved acceptance is the call's result. *)
Definition clean (c : Call) (step : Cleanup) (steps : list Cleanup) (result : pydict) : Run Point :=
  match step with
  | Note_revalidation at_ evidence => _ ← record_action_revalidation at_ evidence; mret (Cleaning steps result)
  | Release_lease at_ => _ ← release_delivery_lease (event_of c) at_; mret (Cleaning steps result)
  | Project at_ reason preserve =>
      persisted ← persist_delivery_projection (intent c) at_ (event_of c) reason preserve;
      mret (Cleaning steps (if persisted : bool then result else reconciled_delivery_result))
  end.

Definition start_point (c : Call) : Run Point :=
  prep ← lift (prepare settings c);
  v ← locked_section settings c prep;
  lift (after_section c prep v).

Definition advance (c : Call) (pt : Point) : Shared → Shared * Point :=
  match pt with
  | Start => settle_point (start_point c)
  | To_enqueue prep e evidence => settle_point (enqueue_point c prep e evidence)
  | To_acknowledge prep e evidence r => settle_point (acknowledge_point c prep e evidence r)
  | Cleaning (step :: steps) result => settle_point (clean c step steps result)
  | Cleaning [] result => λ w, (w, Done (Ok result))
  | Done r => λ w, (w, Done r)
  end.

Fixpoint run_call (fuel : nat) (c : Call) (pt : Point) (w : Shared) : Shared * Point :=
  match fuel with
  | O => (w, pt)
  | S fuel => let '(w, pt) := advance c pt w in run_call fuel c pt w
  end.

(** [process_trade_intent]: no call has more stretches than this. *)
Definition STRETCHES : nat := 6.
Definition process_trade_intent (c : Call) (w : Shared) : Shared * res pydict :=
  match run_call STRETCHES c Start w with
  | (w, Done r) => (w, r)
  | (w, _) => (w, Err OutOfFuel)
  end.

(** ** Several processes *)

Record Thread := { call : Call; at_point : Point }.

Record System := { shared : Shared; threads : list Thread }.

Definition with_outbox (s : Store) (w : Shared) : Shared :=
  {| state_file := state_file w; latest_file := latest_file w; audit_log := audit_log w; outbox := s |}.

(** [callable] says which calls the processes make. *)
Inductive sys_step (callable : Call → Prop) (y : System) : System → Prop :=
  | sys_advance i t w' pt' :
      threads y !! i = Some t → advance (call t) (at_point t) (shared y) = (w', pt') →
      sys_step callable y {| shared := w'; threads := <[i := {| call := call t; at_point := pt' |}]> (threads y) |}
  | sys_begin c :
      callable c → sys_step callable y {| shared := shared y; threads := threads y ++ [{| call := c; at_point := Start |}] |}
  | sys_crash i :
      sys_step callable y {| shared := shared y; threads := delete i (threads y) |}
  | sys_outbox busy lost world :
      DeliveryProps.step {| db := outbox (shared y); flight := busy; overtaken := lost |} world →
      sys_step callable y {| shared := with_outbox (db world) (shared y); threads := threads y |}.

End calls.

(** ** A trade alert, run

    One intent that is ready to trade, the settings of a desk with Bark, and
    what the calls make of them, evaluated. *)

(** 15 July 2026, 15:00 UTC. *)
Definition at_open : Z := combine (ymd2ord 2026 7 15) (time_hm 15 0).
Definition minutes (n : Z) : Z := at_open + n * MINUTE.

Definition sample_intent : pydict :=
  [("schema_version", VInt 3); ("policy_version", VStr "rth_trade_intent.v3+sha256:abc"); ("status", VStr "trade_ready");
   ("phase", VStr "confirmed"); ("execution_eligible", VBool true); ("quote_observation_eligible", VBool false); ("shadow_mode", VBool false);
   ("automatic_ordering", VBool false); ("strategy_lane", VStr "rth_confirmed_level"); ("direction", VStr "up"); ("thesis", VStr "breakout");
   ("contract_id", VStr "option:SPXW:20260715:7550:C"); ("intent_id", VStr "intent:1"); ("event_id", VStr "event:1");
   ("semantic_key", VStr "2026-07-15|breakout"); ("semantic_scope", VStr "2026-07-15"); ("provider", VStr "ibkr");
   ("evaluated_at", vtime at_open); ("quote_source_at", vtime at_open); ("valid_until", vtime (minutes 5)); ("time_stop_at", vtime (minutes 30));
   ("block_reasons", VList []); ("coordinate", VDict [("kind", VStr "official_spx"); ("instrument_id", VStr "index:SPX"); ("as_of", vtime at_open)]);
   ("decision_bid", VInt 4); ("decision_ask", VInt 6); ("entry_limit", VInt 5); ("trigger_level", VInt 7550); ("spx_spot", VInt 7551);
   ("invalidation_spx", VInt 7545); ("target_spx", VInt 7570); ("max_loss_per_contract", VInt 500); ("entry_spread_fraction", VFloat (f_lit 5 1))].

Definition sample_call (now : Z) : Call := {|
  intent := sample_intent; now := now; action_now := now; expected_policy_version := None; rendered := "MANUAL READY";
  feature_policy := true; quote_verdict := Ok (None, []); inspect_fault := None; enqueue_fault := None; ack_fault := None;
  cancel_fault := λ _, None; rust_fenced := λ _, false |}.

Definition sample_settings : NotificationSettings := {|
  routes := {| feishu_enabled := false; feishu_webhook_url := ""; bark_enabled := true; bark_url := "https://bark";
               bark_friend_enabled := false; bark_friend_url := ""; rust_trader_notification_owner := false;
               rust_operator_notification_target_map := [] |};
  notification_queue_enabled := true; notification_database_path := "/data/outbox.db"; notifications_enabled := true |}.

Definition new_desk : Shared := {| state_file := NoFile; latest_file := NoFile; audit_log := []; outbox := empty_store |}.

Definition to_et_sample (u : Z) : Z := u - 4 * HOUR.

(** The desk when the alert was enqueued and its call died. *)
Definition enqueued_desk : Shared := (run_call to_et_sample sample_settings 2 (sample_call at_open) Start new_desk).1.

Definition sample_id : string := "intent:1:notify:d00f8eb2ac623a646ebf".
Definition sample_key : string := "2026-07-15|breakout".

(** A call that is not disturbed delivers the alert; a second one reports it as
    accepted; one that ends the lifecycle cancels it. *)
Example delivered_once :
  let '(w, r) := process_trade_intent to_et_sample sample_settings (sample_call at_open) new_desk in
  (vget "accepted" <$> (match r with Ok d => Some d | Err _ => None end)) = Some (VBool true)
  ∧ map ev_channel (events (outbox w)) = ["bark"]
  ∧ (process_trade_intent to_et_sample sample_settings (sample_call (minutes 1)) w).2 = Ok reconciled_delivery_result.
Proof. by vm_compute. Qed.

Definition invalidated_call (now : Z) : Call := {|
  intent := dset "status" (VStr "observing") (dset "phase" (VStr "invalidated") sample_intent); now := now; action_now := now;
  expected_policy_version := None; rendered := ""; feature_policy := true; quote_verdict := Ok (None, []); inspect_fault := None;
  enqueue_fault := None; ack_fault := None; cancel_fault := λ _, None; rust_fenced := λ _, false |}.

Example invalidated_alert_is_cancelled :
  let w := (process_trade_intent to_et_sample sample_settings (sample_call at_open) new_desk).1 in
  let w := (process_trade_intent to_et_sample sample_settings (invalidated_call (minutes 1)) w).1 in
  map (λ r, (ev_channel r, ev_status r)) (events (outbox w)) = [("bark", FAILED); (CANCELLATION_CHANNEL, FAILED)]
  ∧ vget "terminal_delivery_event_ids" (json_object (state_file w)) = VList [VStr sample_id]
  ∧ vget "accepted" (json_object (state_file w)) = VDict [].
Proof. by vm_compute. Qed.

(** The lists of the producer are cut by event id: an event that ended last is
    forgotten first when its id sorts low. *)
Definition other_ids : list string := map (λ n, "intent:9" +:+ str_of_Z (1000 + Z.of_nat n)) (seq 0 200).

Example newest_terminal_id_is_dropped : bool_decide (sample_id ∈ kept_ids (other_ids ++ [sample_id])) = false.
Proof. by vm_compute. Qed.
