(* ===== verification/TradeFacts.v ===== *)
(** * Facts on the shared state of trade-intent delivery

    The outbox never loses a row; a small program logic for the locked
    sections; what a state file claims, and how a section carries it over. *)

From stdpp Require Import base list strings.
From Stdlib Require Import Ascii ZArith Lia.
From S2P Require Import Prelude PyStr PyFloat PyTime PyDateTime PyDict PyVal PyHash PyJson StateIo MarketCalendar Outbox OutboxFacts Delivery DeliveryProps StrategyContract TradeIntent Dispatcher TradeDelivery TradeCalls.

#[local] Open Scope Z_scope.

(** ** The outbox retains its rows *)

(** What never changes in a row. *)
Definition face (r : EventRow) : string * string * string := (ev_logical_id r, ev_channel r, payload_sha256 r).
Definition retains (s s' : Store) : Prop := map face (events s) `prefix_of` map face (events s').

#[global] Instance retains_preorder : PreOrder retains.
Proof. split; unfold retains; [intros s; reflexivity|intros s1 s2 s3; apply transitivity]. Qed.

Lemma retains_map (f : EventRow → EventRow) s s' :
  (∀ r, face (f r) = face r) → events s' = map f (events s) → retains s s'.
Proof. intros Hf E. unfold retains. rewrite E, map_map. erewrite (map_ext _ _ Hf). reflexivity. Qed.

Lemma retains_update i f s : (∀ r, face (f r) = face r) → retains s (update_events i f s).
Proof.
  intros Hf. eapply (retains_map (λ r, if ev_id r =? i then f r else r)); [|done].
  intros r. destruct (ev_id r =? i); [apply Hf|done].
Qed.

Lemma retains_attempts i f s : retains s (update_attempts i f s).
Proof. by eapply (retains_map id); [|cbn; rewrite map_id]. Qed.

Lemma retains_append s s' new : events s' = events s ++ new → retains s s'.
Proof. intros E. unfold retains. rewrite E, map_app. by eexists. Qed.

Lemma insert_event_retains mk s s' i : insert_event mk s = Ok (s', i) → retains s s' ∧ ∃ r, events s' = events s ++ [r] ∧ r = mk i.
Proof.
  unfold insert_event. case_match; [done|]. intros [= <- <-]. split; [by eapply retains_append|]. by eexists.
Qed.

Lemma fold_retains {A} (f : Store → A → Store) l s : (∀ s a, retains s (f s a)) → retains s (fold_left f l s).
Proof. intros Hf. revert s. induction l as [|a l IH]; intros s; [done|]. cbn. etransitivity; [apply Hf|apply IH]. Qed.

Lemma enqueue_retains clock s d at_ accept s' b : enqueue clock s d at_ accept = Ok (s', b) → retains s s'.
Proof.
  unfold enqueue. intros H. do 2 (case_match; [done|]). apply res_bind_ok in H as (at' & _ & H).
  apply res_bind_ok in H as ([text fp] & _ & H). case_match; [by injection H as <- _|].
  revert H. apply (res_fold_ind _ (λ x y, retains x.1 y.1)); [intros ?; reflexivity|intros ???; apply transitivity|].
  intros [x bx] [y by_] ch Hc. cbn. apply enqueue_channel_cases in Hc as [(? & _ & -> & _)|(_ & i & ? & Hi & _)]; [reflexivity|].
  by apply insert_event_retains in Hi as [].
Qed.

Lemma cancel_retains clock s logical reason at_ s' n : cancel clock s logical reason at_ = Ok (s', n) → retains s s'.
Proof.
  unfold cancel. intros H. apply res_bind_ok in H as (at' & _ & H). apply res_bind_ok in H as (s1 & H1 & H).
  injection H as <- _. transitivity s1.
  - case_match; [by injection H1 as <-|]. apply res_fmap_ok in H1 as ([s2 i] & H1 & ->).
    by apply insert_event_retains in H1 as [].
  - apply (fold_retains (λ s r, update_events (ev_id r) (cancel_row reason at' ) s)). intros. by apply retains_update.
Qed.

Lemma begin_retains clock s i m at_ s' r : begin_attempt clock s i m at_ = Ok (s', r) → retains s s'.
Proof.
  unfold begin_attempt. intros H. case_match; [done|]. apply res_bind_ok in H as (at' & _ & H).
  repeat (case_match; try by injection H as <- <-).
  - injection H as <- <-. by apply retains_update.
  - apply res_bind_ok in H as (p & _ & H). injection H as <- _.
    match goal with E : insert_attempt _ _ = _ |- _ => unfold insert_attempt in E; injection E as <- _ end.
    transitivity (update_events i (set_processing at') s); [by apply retains_update|].
    by eapply (retains_map id); [|cbn; rewrite map_id].
Qed.

Lemma settle_retains clock s k st o ok_ code detail at_ s' : settle clock s k st o ok_ code detail at_ = Ok s' → retains s s'.
Proof.
  unfold settle. intros H. case_match; [done|]. apply res_bind_ok in H as (at' & _ & H). apply res_bind_ok in H as (a & _ & H).
  injection H as <-. etransitivity; [apply retains_attempts|by apply retains_update].
Qed.

Lemma recover_retains clock s at_ s' r : recover_incomplete_attempts clock s at_ = Ok (s', r) → retains s s'.
Proof.
  unfold recover_incomplete_attempts. intros H. apply res_bind_ok in H as (at' & _ & H). injection H as H.
  assert (G : ∀ l acc, retains acc.1 (fold_left (recover_row at') l acc).1).
  { induction l as [|[e a] l IH]; intros [x rx]; [done|]. cbn [fold_left]. etransitivity; [|apply IH].
    cbn. etransitivity; [apply retains_attempts|by apply retains_update]. }
  specialize (G (open_attempts s) (s, {| retry_event_ids := []; uncertain_event_ids := [] |})). by rewrite H in G.
Qed.

(** Every step of the outbox retains the rows. *)
Lemma step_retains w w' : DeliveryProps.step w w' → retains (db w) (db w').
Proof.
  intros [clock d at_ accept s b H|clock l reason at_ s n H|clock i at_ s a H|clock i at_ s H|k Hk|clock k x at_ s Hk Hx H|clock at_ s r alive H Ha];
    cbn [db commit].
  - by eapply enqueue_retains.
  - by eapply cancel_retains.
  - by eapply begin_retains.
  - by eapply begin_retains.
  - apply retains_attempts.
  - by eapply settle_retains.
  - by eapply recover_retains.
Qed.

(** The event has a row that is to be delivered. *)
Definition has_row (s : Store) (id : string) : Prop :=
  ∃ r, r ∈ events s ∧ ev_logical_id r = id ∧ ev_channel r ≠ CANCELLATION_CHANNEL.

Lemma has_row_face s id : has_row s id ↔ ∃ ch p, ch ≠ CANCELLATION_CHANNEL ∧ (id, ch, p) ∈ map face (events s).
Proof.
  split.
  - intros (r & Hr & <- & Hc). exists (ev_channel r), (payload_sha256 r). split; [done|].
    apply (list_elem_of_fmap_2 face). done.
  - intros (ch & p & Hc & Hin). apply (list_elem_of_fmap face) in Hin as (r & [= -> -> ->] & Hr). by exists r.
Qed.

Lemma has_row_mono s s' id : retains s s' → has_row s id → has_row s' id.
Proof.
  intros [new E]. rewrite !has_row_face, E. intros (ch & p & Hc & Hin).
  exists ch, p. split; [done|]. apply elem_of_app. by left.
Qed.

Lemma enqueue_notification_retains to_et settings s e m at_ s' r :
  enqueue_notification to_et settings s e m at_ = Ok (s', r) → retains s s'.
Proof.
  unfold enqueue_notification. intros H. apply res_bind_ok in H as (q & _ & H). destruct q; [by injection H as <- _|].
  destruct (queue_disabled settings); [by injection H as <- _|]. apply res_bind_ok in H as ([s1 u] & H & [= <- _]).
  unfold enqueue_final_notification in H. apply res_bind_ok in H as ([] & _ & H).
  destruct (freeze_route (routes settings) e (friend m)) as [routed ts]. case_match; [by injection H as <- _|].
  unfold enqueue_routed in H. apply res_bind_ok in H as ([s2 b] & H & [= <- _]). by eapply enqueue_retains.
Qed.

Lemma cancel_pending_retains settings f s id at_ reason s' n :
  cancel_pending_notification settings f s id at_ reason = Ok (s', n) → retains s s'.
Proof.
  unfold cancel_pending_notification. intros H. apply res_bind_ok in H as ([ts ?] & _ & H).
  apply res_bind_ok in H as ([] & _ & H). by eapply cancel_retains.
Qed.

(** ** A logic for sections *)

(** From [P], the section ends in [Q] with its value, or raises in [E]. *)
Definition hoare {A} (P : Shared → Prop) (m : Run A) (Q : A → Shared → Prop) (E : Shared → Prop) : Prop :=
  ∀ w, P w → match m w with (w', Ok a) => Q a w' | (w', Err _) => E w' end.

Section logic.
Context {A B : Type}.
Implicit Types (P E : Shared → Prop) (m : Run A).

Lemma hoare_ret P a Q E : (∀ w, P w → Q a w) → hoare (A := A) P (mret a) Q E.
Proof. intros H w. apply H. Qed.

Lemma hoare_bind P m (k : A → Run B) R Q E :
  hoare P m R E → (∀ a, hoare (R a) (k a) Q E) → hoare P (m ≫= k) Q E.
Proof.
  intros Hm Hk w Hw. specialize (Hm w Hw). unfold mbind, run_bind. destruct (m w) as [w' [a|e]]; [|done].
  by apply Hk.
Qed.

Lemma hoare_lift P (r : res A) Q E : (∀ a w, r = Ok a → P w → Q a w) → (∀ w, P w → E w) → hoare P (lift r) Q E.
Proof. intros HQ HE w Hw. unfold lift. destruct r; auto. Qed.

Lemma hoare_conseq P P' m Q Q' E :
  hoare P' m Q' E → (∀ w, P w → P' w) → (∀ a w, Q' a w → Q a w) → hoare P m Q E.
Proof. intros H HP HQ w Hw. specialize (H w (HP w Hw)). destruct (m w) as [w' [a|e]]; auto. Qed.

Lemma hoare_pure (φ : Prop) P m Q E : (φ → hoare P m Q E) → hoare (λ w, P w ∧ φ) m Q E.
Proof. intros H w [Hw Hφ]. by apply H. Qed.
End logic.

Lemma hoare_read P Q E :
  (∀ w, P w → Q (json_object (state_file w)) w) → (∀ w, P w → E w) → hoare P read_state Q E.
Proof.
  intros HQ HE w Hw. unfold read_state. destruct (read_json_object (state_file w)) as [d|e] eqn:Ed; [|by apply HE].
  apply read_json_ok in Ed as ->. by apply HQ.
Qed.

Lemma hoare_read_then {A} P (k : pydict → Run A) Q E :
  (∀ w, P w → E w) → (∀ w, P w → ∃ R : Shared → Prop, R w ∧ hoare R (k (json_object (state_file w))) Q E) →
  hoare P (read_state ≫= k) Q E.
Proof.
  intros HE Hk w Hw. unfold mbind, run_bind, read_state.
  destruct (read_json_object (state_file w)) as [d|e] eqn:Ed; [|by apply HE].
  apply read_json_ok in Ed as ->. destruct (Hk w Hw) as (R & HR & H). by apply (H w).
Qed.

(** An answer of the outbox; [f] is asked where no fault is. *)
Lemma hoare_try {A} P fault (f : Store → res (Store * A)) Q E :
  (∀ w name, P w → Q (Raised name) w) →
  (∀ w s a, P w → f (outbox w) = Ok (s, a) → Q (Answered a) (with_outbox s w)) →
  hoare P (try_outbox fault f) Q E.
Proof.
  intros Hr Ha w Hw. unfold try_outbox. destruct fault as [name|]; [by apply Hr|].
  destruct (f (outbox w)) as [[s a]|e] eqn:Ef; [by apply Ha|by apply Hr].
Qed.

(** What the writes of a section leave. *)
Definition published (projected next : pydict) (log : list (Z * pydict)) (w : Shared) : Shared :=
  {| state_file := written_json next; latest_file := written_json projected; audit_log := log; outbox := outbox w |}.

Lemma publish_ok at_ state projected next w sg :
  intent_signature projected = Ok sg →
  ∃ log, publish at_ state projected next w = (published projected (next sg) log w, Ok ()).
Proof.
  intros H. unfold publish, mbind, run_bind, lift. rewrite H. cbn [write_latest].
  destruct (py_eq (VStr sg) (vget "last_signature" state)); by eexists.
Qed.

Lemma hoare_publish P at_ state projected next (Q : () → Shared → Prop) E :
  (∀ w sg log, P w → Q tt (published projected (next sg) log w)) → (∀ w, P w → E w) →
  hoare P (publish at_ state projected next) Q E.
Proof.
  intros HQ HE w Hw. unfold publish, mbind, run_bind, lift. destruct (intent_signature projected) as [sg|]; [|by apply HE].
  cbn [write_latest]. destruct (py_eq (VStr sg) (vget "last_signature" state)); by apply (HQ w).
Qed.

(** ** What a state file claims *)

(** The opportunity that the event has claimed. *)
Definition claim_in (state : pydict) (id : string) : option string :=
  match vget "semantic_keys" state with
  | VDict d => match dget id d with Some (VStr k) => Some k | _ => None end
  | _ => None
  end.

Lemma claim_in_canon state id : claim_in (canon_dict state) id = claim_in state id.
Proof.
  unfold claim_in. rewrite vget_canon. destruct (vget "semantic_keys" state); try done. cbn [canon].
  rewrite dget_sort_items, dget_map_snd. by destruct (dget id d) as [[]|].
Qed.

Lemma claim_in_merge state entries id :
  "semantic_keys" ∉ entries.*1 → claim_in (dmerge state entries) id = claim_in state id.
Proof. intros H. unfold claim_in. by rewrite vget_dmerge. Qed.

Lemma claim_in_dset k v state id : k ≠ "semantic_keys" → claim_in (dset k v state) id = claim_in state id.
Proof. intros H. unfold claim_in. by rewrite vget_dset_ne. Qed.

Lemma claim_of_keys state keys id :
  vget "semantic_keys" state = v_str_dict keys → claim_in state id = dget id keys.
Proof.
  intros H. unfold claim_in. rewrite H. unfold v_str_dict. rewrite (dget_map_snd VStr). by destruct (dget id keys).
Qed.

(** [dict(state.get("semantic_keys") or {})], read where there is a claim. *)
Lemma claim_in_keys state id k d :
  claim_in state id = Some k → dict_or_empty (vget "semantic_keys" state) = Ok d → dget id (str_values d) = Some k.
Proof.
  unfold claim_in, dict_or_empty. destruct (vget "semantic_keys" state) as [| | | | |l|d0]; try done.
  destruct (dget id d0) as [[]|] eqn:E; try done. intros [= ->]. rewrite v_or_truthy by (by destruct d0).
  intros [= ->]. unfold str_values. rewrite dget_map_snd, E. done.
Qed.

(** The event has claimed its opportunity, and the outbox holds it. *)
Definition alerted (id key : string) (w : Shared) : Prop :=
  claim_in (json_object (state_file w)) id = Some key ∧ has_row (outbox w) id.
