(* ===== verification/TradeClaims.v ===== *)
(** * Claimed opportunities and the latest file

    A claim that the outbox backs is carried over by every section of every
    call, and no section lets another alert of the opportunity through.  And
    every section keeps the latest file true: it calls an intent ready to trade
    only when the outbox holds its alert. *)

From stdpp Require Import base list strings relations.
From Stdlib Require Import Ascii ZArith Lia.
From S2P Require Import Prelude PyStr PyFloat PyTime PyDateTime PyDict PyVal PyHash PyJson StateIo MarketCalendar Outbox OutboxFacts Delivery DeliveryProps StrategyContract TradeIntent Dispatcher TradeDelivery TradeCalls TradeFacts.

#[local] Open Scope Z_scope.

(** ** Inspections *)

Lemma freeze_route_id s e fr : en_event_id (freeze_route s e fr).1 = en_event_id e.
Proof. unfold freeze_route. repeat case_match; done. Qed.

Lemma delivery_rows_nil s id :
  filter (λ r, ev_channel r ≠ CANCELLATION_CHANNEL) (event_rows s id) = [] ↔ ¬ has_row s id.
Proof.
  assert (Hin : ∀ r, r ∈ filter (λ r, ev_channel r ≠ CANCELLATION_CHANNEL) (event_rows s id)
                     ↔ ev_channel r ≠ CANCELLATION_CHANNEL ∧ ev_logical_id r = id ∧ r ∈ events s).
  { intros r. unfold event_rows. rewrite list_elem_of_filter, sort_by_perm, list_elem_of_filter. done. }
  split.
  - intros E (r & Hr & Hl & Hc). assert (r ∈ @nil EventRow) as []%not_elem_of_nil. rewrite <- E. by apply Hin.
  - intros Hn. destruct (filter _ _) as [|r l] eqn:E; [done|]. destruct Hn. exists r.
    destruct (proj1 (Hin r)) as (? & ? & ?); [left|done].
Qed.

Lemma inspect_final_reason s e m ts fp i :
  inspect_final_notification s e m ts fp = Ok i →
  (in_reason i = "missing" → ¬ has_row s (en_event_id e)) ∧ (acceptable i = true → has_row s (en_event_id e)).
Proof.
  unfold inspect_final_notification, acceptable. rewrite <- delivery_rows_nil. intros H.
  destruct (filter _ (event_rows s (en_event_id e))) as [|r l] eqn:E.
  - injection H as <-. cbn. split; [done|]. by case_match.
  - apply res_bind_ok in H as (x & _ & [= <-]). cbn [in_reason]. split.
    + repeat (case_match; try done).
    + intros _. assert (Hr : r ∈ filter (λ r, ev_channel r ≠ CANCELLATION_CHANNEL) (event_rows s (en_event_id e))) by (rewrite E; left).
      unfold event_rows in Hr. rewrite list_elem_of_filter, sort_by_perm, list_elem_of_filter in Hr.
      exists r. naive_solver.
Qed.

Lemma inspect_event_reason settings s e m fp ts i :
  inspect_notification_event settings s e m fp ts = Ok i →
  (in_reason i = "missing" → ¬ has_row s (en_event_id e)) ∧ (acceptable i = true → has_row s (en_event_id e)).
Proof.
  unfold inspect_notification_event. intros H. apply res_bind_ok in H as ([f cfg] & _ & H).
  destruct (queue_disabled settings); [injection H as <-; done|].
  apply inspect_final_reason in H. by rewrite freeze_route_id in H.
Qed.

(** A prepared envelope is the event's. *)
Definition for_event (c : Call) (e : NotificationEnvelope) : Prop := en_event_id e = event_of c ∧ event_of c ≠ "".

(** What a call prepares for its event. *)
Lemma prepared_envelope settings c prep e :
  prepare settings c = Ok prep → envelope prep = Some e →
  event_of c ≠ "" ∧ (∃ at_ ex, e = envelope_of c at_ ex)
  ∧ (outbox_configured settings = true → notification_event_contract settings e (message_of c) = Ok (fingerprint prep, targets prep)).
Proof.
  unfold prepare. intros H He. destruct (negb (ready c)); [by injection H as <-|].
  apply res_bind_ok in H as (r & _ & H). apply res_bind_ok in H as ([at_|] & _ & H); [|by injection H as <-].
  destruct (String.eqb_spec (event_of c) "") as [|Hn]; [by injection H as <-|].
  apply res_bind_ok in H as (x & _ & H). apply res_bind_ok in H as ([f ts] & Hc & [= <-]).
  cbn in He. injection He as <-. split; [done|]. split; [by eexists _, _|]. intros Hq. by rewrite Hq in Hc.
Qed.

Lemma prepare_for_event settings c prep e : prepare settings c = Ok prep → envelope prep = Some e → for_event c e.
Proof. intros H He. by destruct (prepared_envelope _ _ _ _ H He) as (Hne & (? & ? & ->) & _). Qed.

Lemma peek_same {A} (f : Store → res A) w s a : peek f (outbox w) = Ok (s, a) → f (outbox w) = Ok a ∧ with_outbox s w = w.
Proof. unfold peek. intros H. apply res_bind_ok in H as (x & H & [= <- <-]). by destruct w. Qed.

(** Looking whether to acknowledge changes nothing; where it is not refused, the
    outbox holds the event. *)
Lemma ack_refusal_row (P : Shared → Prop) settings c prep e state :
  hoare P (ack_refusal settings c prep e state)
    (λ r w, P w ∧ (outbox_configured settings = true → for_event c e → r = None → has_row (outbox w) (event_of c))) P.
Proof.
  unfold ack_refusal. do 3 (eapply hoare_bind; [by apply hoare_lift with (Q := λ _, P)|]; intros ?).
  do 2 (case_match; [by apply hoare_ret|]). case_match; [|by apply hoare_ret].
  destruct (outbox_configured settings); cbn [negb]; [|by apply hoare_ret].
  eapply hoare_bind; [by apply hoare_lift with (Q := λ _, P)|]. intros stored. cbv zeta. case_match; [by apply hoare_ret|].
  eapply (hoare_bind _ _ _ (λ a w, P w ∧ match a with
    Answered i => for_event c e → acceptable i = true → has_row (outbox w) (event_of c) | _ => True end)).
  - apply hoare_try; [done|]. intros w s i Hw Hi. apply peek_same in Hi as [Hi ->]. split; [done|].
    intros [He _] Ha. apply inspect_event_reason in Hi as [_ Hi]. rewrite <- He. by apply Hi.
  - intros [i|name]; apply hoare_ret; [|by intros w [Hw _]]. intros w [Hw Hi]. split; [done|]. intros _ He Hn.
    destruct (acceptable i); [by apply Hi|done].
Qed.

(** ** The producer's claims *)

Lemma load_claims state at_ ev own p id key :
  load_producer state at_ ev own = Ok p → claim_in state id = Some key → dget id (semantic_keys p) = Some key.
Proof.
  unfold load_producer. intros H Hc. apply res_bind_ok in H as (a & _ & H). apply res_bind_ok in H as (keys & Hk & H).
  repeat (apply res_bind_ok in H as (? & _ & H)). injection H as <-. cbn. by eapply claim_in_keys.
Qed.

Lemma register_keys c prep p : semantic_keys (register c prep p) = semantic_keys p.
Proof. unfold register. by case_match. Qed.
Lemma end_keys c p : semantic_keys (end_lifecycles c p) = semantic_keys p.
Proof. unfold end_lifecycles. by case_match. Qed.
Lemma next_state_keys c state persisted p sg :
  vget "semantic_keys" (next_state c state persisted p sg) = v_str_dict (semantic_keys p).
Proof.
  unfold next_state. rewrite vget_dpop_ne by done. unfold saved_entries, pending_entries, dmerge. cbn [fold_left app fst snd].
  rewrite !vget_dset_lit by done. by rewrite vget_dset_eq.
Qed.

Lemma key_claimed_by id key p : key ≠ "" → dget id (semantic_keys p) = Some key → key_claimed key p = true.
Proof.
  intros Hk H. unfold key_claimed. apply String.eqb_neq in Hk as ->. cbn. apply bool_decide_eq_true.
  apply dget_elem in H. apply (list_elem_of_fmap_2 snd) in H. exact H.
Qed.

(** Asking the outbox changes nothing but the producer's lifecycles; a missing
    event has no row, a durable one has. *)
Lemma inspect_event_spec (P : Shared → Prop) settings c prep cl owned p :
  (∀ e, envelope prep = Some e → for_event c e) →
  hoare P (inspect_event settings c prep cl owned p)
    (λ r w, P w ∧ semantic_keys r.2 = semantic_keys p
            ∧ (answered_missing r.1 = true → ¬ has_row (outbox w) (event_of c))
            ∧ (durable r.1 = true → event_of c ≠ "" ∧ has_row (outbox w) (event_of c))) P.
Proof.
  intros He. unfold inspect_event. destruct (contract_reason prep); [by apply hoare_ret|].
  destruct (envelope prep) as [e|]; [|by apply hoare_ret]. destruct (ready c && _ && _ && _); [|by apply hoare_ret].
  destruct (He e eq_refl) as [Hid Hne]. eapply hoare_bind; [by apply hoare_lift with (Q := λ _, P)|]. intros lc.
  eapply (hoare_bind _ _ _ (λ a w, P w ∧ (answered_missing (Some a) = true → ¬ has_row (outbox w) (event_of c))
                                  ∧ (durable (Some a) = true → event_of c ≠ "" ∧ has_row (outbox w) (event_of c)))).
  - apply hoare_try; [done|]. intros w s i Hw H. apply peek_same in H as [H ->]. split; [done|].
    apply inspect_event_reason in H as [Hm Ha]. rewrite Hid in Hm, Ha. cbn. split; [|by auto].
    intros E%String.eqb_eq. by apply Hm.
  - intros a. apply hoare_ret. intros w (Hw & Hm & Hd). split_and!; try done. destruct a as [i|]; [|done]. cbn. by repeat case_match.
Qed.

Section claims.
Context (to_et : Z → Z) (settings : NotificationSettings) (id key : string).
Notation I := (alerted id key).

Lemma write_state_alerted d : claim_in d id = Some key → hoare I (write_state d) (λ _, I) I.
Proof.
  intros Hd w [_ Hrow]. split; [|exact Hrow]. cbn [state_file write_state]. rewrite written_reads, claim_in_canon. exact Hd.
Qed.

Lemma read_alerted {A} (k : pydict → Run A) Q :
  (∀ d, claim_in d id = Some key → hoare I (k d) Q I) → hoare I (read_state ≫= k) Q I.
Proof. intros H. apply hoare_read_then; [done|]. intros w Hw. exists I. split; [done|]. by apply H, Hw. Qed.

Lemma lift_alerted {A B} (r : res A) (k : A → Run B) Q :
  (∀ a, r = Ok a → hoare I (k a) Q I) → hoare I (lift r ≫= k) Q I.
Proof. intros H w Hw. unfold mbind, run_bind, lift. destruct r as [a|]; [by apply H|done]. Qed.

Lemma then_alerted {A B} (m : Run A) (k : A → Run B) Q :
  hoare I m (λ _, I) I → (∀ a, hoare I (k a) Q I) → hoare I (m ≫= k) Q I.
Proof. intros Hm Hk. by eapply hoare_bind. Qed.

Lemma try_alerted {A} fault (f : Store → res (Store * A)) :
  (∀ s s' a, f s = Ok (s', a) → retains s s') → hoare I (try_outbox fault f) (λ _, I) I.
Proof. intros Hf. apply hoare_try; [done|]. intros w s a [Hc Hr] H. split; [done|].
  eapply has_row_mono; [by eapply Hf|done].
Qed.

Lemma publish_alerted at_ state projected next :
  (∀ sg, claim_in (next sg) id = Some key) → hoare I (publish at_ state projected next) (λ _, I) I.
Proof.
  intros Hn. unfold publish. apply lift_alerted. intros sg _. apply then_alerted; [by intros w|]. intros _.
  apply then_alerted; [case_match; by intros w|]. intros _. by apply write_state_alerted.
Qed.

Lemma persist_alerted d at_ ev reason preserve :
  hoare I (persist_delivery_projection d at_ ev reason preserve) (λ _, I) I.
Proof.
  unfold persist_delivery_projection. do 2 (apply lift_alerted; intros ? _). apply read_alerted. intros st Hst.
  apply lift_alerted. intros [] _; [by apply hoare_ret|]. apply then_alerted; [|intros; by apply hoare_ret].
  apply publish_alerted. intros sg. by rewrite claim_in_merge by not_in.
Qed.

Lemma record_alerted at_ ev : hoare I (record_action_revalidation at_ ev) (λ _, I) I.
Proof. apply read_alerted. intros d Hd. apply write_state_alerted. by rewrite claim_in_merge by not_in. Qed.

Lemma release_alerted ev at_ : hoare I (release_delivery_lease ev at_) (λ _, I) I.
Proof.
  apply read_alerted. intros d Hd. apply lift_alerted. intros l _. apply write_state_alerted. by rewrite claim_in_merge by not_in.
Qed.

(** ** One section *)

Lemma cancel_all_alerted c ids p :
  hoare I (cancel_all settings c ids p) (λ p' w, I w ∧ semantic_keys p' = semantic_keys p) I.
Proof.
  revert p. induction ids as [|i ids IH]; intros p; cbn [cancel_all]; [by apply hoare_ret|].
  apply then_alerted.
  - unfold cancel_one. case_match; [|by apply hoare_ret]. apply try_alerted. intros. by eapply cancel_pending_retains.
  - intros answer. eapply hoare_conseq; [apply IH|done|]. intros p' w [Hw ->]. split; [done|]. by destruct answer.
Qed.

Lemma inspect_event_alerted c prep claimed owned p :
  (∀ e, envelope prep = Some e → for_event c e) →
  hoare I (inspect_event settings c prep claimed owned p)
    (λ r w, I w ∧ semantic_keys r.2 = semantic_keys p ∧ (event_of c = id → answered_missing r.1 = false)) I.
Proof.
  intros He. eapply hoare_conseq; [by apply inspect_event_spec|done|]. intros r w (Hw & Hk & Hm & _). split_and!; try done.
  intros <-. destruct (answered_missing r.1); [|done]. destruct (Hm eq_refl). apply Hw.
Qed.

(** A call about the claiming event is about the claimed opportunity. *)
Definition consistent (c : Call) : Prop := event_of c = id → key_of c = key.

Lemma settle_claims c answer cl p :
  key ≠ "" → consistent c → dget id (semantic_keys p) = Some key →
  (event_of c = id → answered_missing answer = false) → (key_of c = key → cl = true) →
  let r := settle_reconciliation settings c answer cl p in
  dget id (semantic_keys (producer r)) = Some key ∧ (key_of c = key → claimed r = true).
Proof.
  intros Hne Hco Hd Hm Hcl. cbv zeta.
  assert (Hr : let r := check_acceptance settings c answer cl p in
               dget id (semantic_keys (producer r)) = Some key ∧ (key_of c = key → claimed r = true)).
  { cbv zeta. unfold check_acceptance. assert (Hp : dget id (semantic_keys p) = Some key ∧ (key_of c = key → cl = true)) by done.
    case_match; [|exact Hp].
    destruct (outbox_configured settings && answered_missing answer && _) eqn:Em; [|case_match; [case_match|]; exact Hp].
    apply andb_true_iff in Em as [[_ Em]%andb_true_iff _].
    assert (Hk : dget id (dpop (event_of c) (semantic_keys p)) = Some key).
    { rewrite dget_dpop_ne; [done|]. intros E. rewrite (Hm (eq_sym E)) in Em. done. }
    split; [exact Hk|]. intros ->. by eapply key_claimed_by. }
  unfold settle_reconciliation. case_match; [|done]. destruct Hr as [Hk Hc]. split; [|exact Hc].
  cbn. destruct (String.eqb (key_of c) ""); [done|]. rewrite dget_dset. destruct (String.eqb_spec id (event_of c)) as [E|]; [|done].
  by rewrite (Hco (eq_sym E)).
Qed.

(** A verdict that lets no alert of the opportunity through. *)
Definition closes (c : Call) (v : Verdict) : Prop := key_of c = key → event_of c ≠ "" → vd_duplicate v = true.

Lemma conclude_alerted c prep state durable r :
  claim_in state id = Some key → dget id (semantic_keys (producer r)) = Some key → (key_of c = key → claimed r = true) →
  hoare I (conclude_section c prep state durable r) (λ v w, I w ∧ closes c v) I.
Proof.
  intros Hs Hk Hc. unfold conclude_section. destruct (judge c durable r) as [v p] eqn:Ej.
  assert (Hp : dget id (semantic_keys p) = Some key).
  { unfold judge in Ej. injection Ej as _ <-. by destruct durable. }
  assert (Hv : closes c v).
  { intros Hkey Hev. unfold judge in Ej. injection Ej as <- _. cbn. apply String.eqb_neq in Hev as ->. rewrite (Hc Hkey). cbn.
    by rewrite orb_true_r. }
  eapply (hoare_bind _ _ _ (λ p' w, I w ∧ semantic_keys p' = semantic_keys p)).
  { destruct (takes_lease c prep v); [|by apply hoare_ret]. apply lift_alerted. intros l _. by apply hoare_ret. }
  intros p'. apply hoare_pure. intros Ep. apply lift_alerted. intros persisted _.
  apply then_alerted; [|intros _; by apply hoare_ret]. apply publish_alerted. intros sg.
  rewrite (claim_of_keys _ (semantic_keys p') id); [by rewrite Ep|apply next_state_keys].
Qed.

Lemma locked_section_alerted c prep :
  key ≠ "" → consistent c → (∀ e, envelope prep = Some e → for_event c e) →
  hoare I (locked_section settings c prep) (λ v w, I w ∧ closes c v) I.
Proof.
  intros Hne Hco He. unfold locked_section. apply read_alerted. intros state Hs. apply lift_alerted. intros p Hp.
  pose proof (load_claims _ _ _ _ _ _ _ Hp Hs) as Hk. cbv zeta.
  set (p1 := stamp _ _). set (state1 := if bool_decide (cancellation_pending p1 = []) then _ else _).
  assert (Hk1 : dget id (semantic_keys p1) = Some key) by by (subst p1; cbn; rewrite end_keys, register_keys).
  assert (Hs1 : claim_in state1 id = Some key) by (subst state1; case_match; [done|by rewrite claim_in_merge by not_in]).
  apply then_alerted; [case_match; [by apply hoare_ret|by apply write_state_alerted]|]. intros _.
  eapply hoare_bind; [apply cancel_all_alerted|]. intros p2. apply hoare_pure. intros E2.
  eapply hoare_bind; [by apply inspect_event_alerted|]. intros [answer p3]. apply hoare_pure. intros [E3 Hm]. cbn [fst snd] in *.
  edestruct (settle_claims c answer (key_claimed (key_of c) p) p3) as [Hk3 Hc3]; [done|done|congruence|done| |].
  { intros ->. by eapply key_claimed_by. }
  by apply conclude_alerted.
Qed.

(** ** The acknowledgement *)

Lemma acknowledged_claim c state next :
  key ≠ "" → acknowledged_state c state = Ok next →
  (claim_in state id = Some key → consistent c → claim_in next id = Some key)
  ∧ (event_of c = id → key_of c = key → claim_in next id = Some key).
Proof.
  unfold acknowledged_state. intros Hne H. apply res_bind_ok in H as (a & _ & H). apply res_bind_ok in H as (keys & Hk & H).
  set (all := if String.eqb (key_of c) "" then str_values keys else dset (event_of c) (key_of c) (str_values keys)).
  assert (En : claim_in next id = dget id all).
  { injection H as <-. apply claim_of_keys. unfold dmerge. cbn [fold_left fst snd]. apply vget_dset_eq. }
  rewrite En.
  split.
  - intros Hc Hco. pose proof (claim_in_keys _ _ _ _ Hc Hk) as Hd. subst all.
    destruct (String.eqb (key_of c) ""); [done|]. rewrite dget_dset. destruct (String.eqb_spec id (event_of c)) as [E|]; [|done].
    by rewrite (Hco (eq_sym E)).
  - intros Hid Hkey. subst all. rewrite Hid, Hkey. apply String.eqb_neq in Hne as ->. apply dget_dset_eq.
Qed.

Lemma acknowledge_alerted c prep e evidence :
  key ≠ "" → consistent c → hoare I (acknowledge_trade_intent_enqueue settings c prep e evidence) (λ _, I) I.
Proof.
  intros Hne Hco. unfold acknowledge_trade_intent_enqueue. apply read_alerted. intros state Hs.
  apply then_alerted; [eapply hoare_conseq; [apply ack_refusal_row|done|by intros ? w []]|]. intros refusal.
  apply lift_alerted. intros ? _. apply lift_alerted. intros l _.
  set (state1 := dmerge state _). assert (Hs1 : claim_in state1 id = Some key) by (subst state1; by rewrite claim_in_merge by not_in).
  apply lift_alerted. intros next Hn. apply lift_alerted. intros projected _.
  apply then_alerted; [|intros; by apply hoare_ret]. apply publish_alerted. intros sg. rewrite claim_in_merge by not_in.
  destruct refusal as [reason|].
  - injection Hn as <-. unfold refused_state. by rewrite claim_in_dset.
  - destruct (acknowledged_claim _ _ _ Hne Hn) as [H _]. by apply H.
Qed.
End claims.

(** Whatever the state, an acknowledged alert has claimed its opportunity. *)
Lemma acknowledge_claims settings c prep e evidence :
  outbox_configured settings = true → for_event c e → key_of c ≠ "" →
  hoare (λ _, True) (acknowledge_trade_intent_enqueue settings c prep e evidence)
    (λ r w, r.1 = true → alerted (event_of c) (key_of c) w) (λ _, True).
Proof.
  intros Hq He Hne. unfold acknowledge_trade_intent_enqueue. eapply hoare_bind; [by apply hoare_read with (Q := λ _ _, True)|].
  intros state. eapply hoare_bind; [apply ack_refusal_row|]. intros refusal.
  destruct refusal as [reason|].
  { do 4 (eapply hoare_bind; [by apply hoare_lift with (Q := λ _ _, True)|]; intros ?).
    eapply (hoare_bind _ _ _ (λ _ _, True)); [|intros ?; apply hoare_ret; by intros w _ ?%bool_decide_eq_true].
    by apply hoare_publish. }
  eapply hoare_bind; [eapply hoare_lift with (Q := λ _ w, has_row (outbox w) (event_of c)); [intros ? w _ [_ Hr]; by apply Hr|done]|].
  intros ?. eapply hoare_bind; [by apply hoare_lift with (Q := λ _ w, has_row (outbox w) (event_of c))|]. intros ?.
  set (state1 := dmerge state _).
  eapply hoare_bind.
  { apply hoare_lift with (Q := λ next w, has_row (outbox w) (event_of c) ∧ claim_in next (event_of c) = Some (key_of c)); [|done].
    intros next w Hn Hw. split; [done|]. destruct (acknowledged_claim (event_of c) (key_of c) _ _ _ Hne Hn) as [_ H]. by apply H. }
  intros next. apply hoare_pure. intros Hn. eapply hoare_bind.
  { by apply hoare_lift with (Q := λ _ w, has_row (outbox w) (event_of c)). }
  intros projected. eapply (hoare_bind _ _ _ (λ _, alerted (event_of c) (key_of c))); [|intros; by apply hoare_ret].
  apply hoare_publish; [|done]. intros w sg log Hw. split; [|exact Hw].
  cbn [published state_file]. by rewrite written_reads, claim_in_canon, claim_in_merge by not_in.
Qed.

(** ** What the latest file shows *)

(** An intent shown as ready has its alert in the outbox. *)
Definition shown_ok (s : Store) (d : pydict) : Prop :=
  is_str "trade_ready" (vget "status" d) = true → ∃ id, vget "notification_event_id" d = VStr id ∧ has_row s id.
Definition truthful (w : Shared) : Prop := shown_ok (outbox w) (json_object (latest_file w)).

Lemma is_str_canon s v : is_str s (canon v) = is_str s v.
Proof. by destruct v. Qed.

Lemma shown_ok_canon s d : shown_ok s (canon_dict d) ↔ shown_ok s d.
Proof.
  unfold shown_ok. rewrite !vget_canon, is_str_canon. split; intros H Hs; destruct (H Hs) as (id & Hid & Hr); exists id.
  - split; [|done]. by destruct (vget "notification_event_id" d).
  - by rewrite Hid.
Qed.

Lemma shown_ok_retains s s' d : retains s s' → shown_ok s d → shown_ok s' d.
Proof. intros Hk H Hs. destruct (H Hs) as (id & Hid & Hr). exists id. split; [done|]. by eapply has_row_mono. Qed.

Lemma status_for_reason reason : notification_status_for_reason reason ≠ "outbox_accepted".
Proof. unfold notification_status_for_reason. by case_match. Qed.

Lemma projection_blocked d ev st reason p :
  st ≠ "outbox_accepted" → delivery_projection d ev st reason = Ok p → is_str "trade_ready" (vget "status" p) = false.
Proof.
  unfold delivery_projection. intros Hst H. apply String.eqb_neq in Hst. rewrite Hst in H.
  apply res_bind_ok in H as (items & _ & [= <-]). unfold dmerge. cbn [fold_left fst snd].
  rewrite !vget_dset_lit by done. rewrite vget_dset_eq. by destruct (String.eqb st "pending").
Qed.

Lemma projection_accepted d ev reason p :
  ev ≠ "" → delivery_projection d ev "outbox_accepted" reason = Ok p → vget "notification_event_id" p = VStr ev.
Proof.
  unfold delivery_projection. intros Hev [= <-]. unfold dmerge. cbn [fold_left fst snd].
  rewrite !vget_dset_lit by done. rewrite vget_dset_eq. unfold or_none. by apply String.eqb_neq in Hev as ->.
Qed.

Section truth.
Context (to_et : Z → Z) (settings : NotificationSettings).
Hypothesis configured : outbox_configured settings = true.

Lemma lift_truth {A B} (r : res A) (k : A → Run B) (P : Shared → Prop) Q :
  (∀ w, P w → truthful w) → (∀ a, r = Ok a → hoare P (k a) Q truthful) → hoare P (lift r ≫= k) Q truthful.
Proof. intros HP H w Hw. unfold mbind, run_bind, lift. destruct r as [a|]; [by apply H|by apply HP]. Qed.

Lemma then_truth {A B} (m : Run A) (k : A → Run B) Q :
  hoare truthful m (λ _, truthful) truthful → (∀ a, hoare truthful (k a) Q truthful) → hoare truthful (m ≫= k) Q truthful.
Proof. intros Hm Hk. by eapply hoare_bind. Qed.

Lemma read_truth {A} (k : pydict → Run A) Q : (∀ d, hoare truthful (k d) Q truthful) → hoare truthful (read_state ≫= k) Q truthful.
Proof. intros H. apply hoare_read_then; [done|]. intros w Hw. by exists truthful. Qed.

Lemma try_truth {A} fault (f : Store → res (Store * A)) :
  (∀ s s' a, f s = Ok (s', a) → retains s s') → hoare truthful (try_outbox fault f) (λ _, truthful) truthful.
Proof. intros Hf. apply hoare_try; [done|]. intros w s a Hw H. by eapply shown_ok_retains; [eapply Hf|]. Qed.

(** Publishing what is in order. *)
Lemma publish_truth at_ state projected next (P : Shared → Prop) :
  (∀ w, P w → truthful w ∧ shown_ok (outbox w) projected) →
  hoare P (publish at_ state projected next) (λ _, truthful) truthful.
Proof.
  intros HP. apply hoare_publish; [|by intros w [? _]%HP]. intros w sg log [_ Hs]%HP. unfold truthful.
  cbn [published latest_file outbox]. rewrite written_reads. by apply shown_ok_canon.
Qed.

Lemma persist_truth d at_ ev reason preserve :
  hoare truthful (persist_delivery_projection d at_ ev reason preserve) (λ _, truthful) truthful.
Proof.
  unfold persist_delivery_projection. apply lift_truth; [done|]. intros p Hp. apply lift_truth; [done|]. intros _ _.
  apply read_truth. intros st. apply lift_truth; [done|]. intros [] _; [by apply hoare_ret|].
  apply then_truth; [|intros; by apply hoare_ret]. apply publish_truth. intros w Hw. split; [done|].
  intros H. rewrite (projection_blocked _ _ _ _ _ (status_for_reason reason) Hp) in H. done.
Qed.

Lemma write_truth d : hoare truthful (write_state d) (λ _, truthful) truthful.
Proof. by intros w Hw. Qed.

Lemma clean_truth c step steps result : hoare truthful (clean c step steps result) (λ _, truthful) truthful.
Proof.
  destruct step as [at_ ev|at_|at_ reason preserve]; cbn [clean].
  - apply then_truth; [|intros; by apply hoare_ret]. apply read_truth. intros d. apply write_truth.
  - apply then_truth; [|intros; by apply hoare_ret]. apply read_truth. intros d. apply lift_truth; [done|]. intros l _. apply write_truth.
  - apply then_truth; [apply persist_truth|]. intros b. by apply hoare_ret.
Qed.

Lemma cancel_all_truth c ids p : hoare truthful (cancel_all settings c ids p) (λ _, truthful) truthful.
Proof.
  revert p. induction ids as [|i ids IH]; intros p; cbn [cancel_all]; [by apply hoare_ret|].
  apply then_truth; [|intros; apply IH]. unfold cancel_one. case_match; [|by apply hoare_ret].
  apply try_truth. intros. by eapply cancel_pending_retains.
Qed.

Lemma persisted_ok c prep dur p s :
  (dur = true → event_of c ≠ "" ∧ has_row s (event_of c)) → persisted_intent c prep dur = Ok p → shown_ok s p.
Proof.
  unfold persisted_intent, shown_ok. intros Hd H Hs. destruct (ready c) eqn:Er.
  - destruct dur.
    + destruct (Hd eq_refl) as [Hne Hr]. exists (event_of c). split; [by eapply projection_accepted|done].
    + destruct (contract_reason prep); apply projection_blocked in H; congruence.
  - injection H as <-. unfold ready in Er. congruence.
Qed.

Lemma section_truth c prep :
  (∀ e, envelope prep = Some e → for_event c e) → hoare truthful (locked_section settings c prep) (λ _, truthful) truthful.
Proof.
  intros He. unfold locked_section. apply read_truth. intros state. apply lift_truth; [done|]. intros p _. cbv zeta.
  apply then_truth; [case_match; [by apply hoare_ret|apply write_truth]|]. intros _.
  apply then_truth; [apply cancel_all_truth|]. intros p2.
  eapply hoare_bind.
  { eapply (hoare_conseq _ _ _ (λ r w, truthful w ∧ (durable r.1 = true → event_of c ≠ "" ∧ has_row (outbox w) (event_of c))));
      [by apply inspect_event_spec|done|naive_solver]. }
  intros [answer p3]. cbn [fst].
  unfold conclude_section. destruct (judge _ _ _) as [v p4].
  eapply (hoare_bind _ _ _ (λ _ w, truthful w ∧ (durable answer = true → event_of c ≠ "" ∧ has_row (outbox w) (event_of c)))).
  { case_match; [|by apply hoare_ret]. apply lift_truth; [by intros ? []|]. intros l _. by apply hoare_ret. }
  intros p5. apply lift_truth; [by intros ? []|]. intros persisted Hp.
  eapply (hoare_bind _ _ _ (λ _, truthful)); [|intros; by apply hoare_ret].
  apply publish_truth. intros w [Hw Hd]. split; [done|]. by eapply persisted_ok.
Qed.

Lemma start_truth c : hoare truthful (start_point settings c) (λ _, truthful) truthful.
Proof.
  unfold start_point. apply lift_truth; [done|]. intros prep Hprep. apply then_truth.
  - apply section_truth. intros e. by eapply prepare_for_event.
  - intros v. apply hoare_lift; done.
Qed.

Lemma acknowledge_truth c prep e evidence :
  for_event c e → hoare truthful (acknowledge_trade_intent_enqueue settings c prep e evidence) (λ _, truthful) truthful.
Proof.
  intros He. unfold acknowledge_trade_intent_enqueue. apply read_truth. intros state.
  eapply hoare_bind; [apply ack_refusal_row|]. intros refusal.
  do 3 (apply lift_truth; [by intros ? []|]; intros ? _). apply lift_truth; [by intros ? []|]. intros projected Hp.
  eapply (hoare_bind _ _ _ (λ _, truthful)); [|intros; by apply hoare_ret]. apply publish_truth. intros w [Hw Hr]. split; [done|].
  intros Hs. destruct refusal as [reason|].
  - rewrite (projection_blocked _ _ _ _ _ (status_for_reason reason) Hp) in Hs. done.
  - exists (event_of c). split; [|by apply Hr]. by eapply projection_accepted; [apply He|].
Qed.

Lemma enqueue_truth c prep e evidence :
  hoare truthful (enqueue_point to_et settings c prep e evidence) (λ _, truthful) truthful.
Proof.
  unfold enqueue_point. apply then_truth; [|intros; by apply hoare_ret].
  apply try_truth. intros s s' r. apply enqueue_notification_retains.
Qed.
End truth.
