(* ===== verification/TradeProps.v ===== *)
(** * Runs of the calls

    What every stretch of a call keeps: the claim of an opportunity, the truth of
    the latest file, what a call carries to the outbox, and how few stretches
    are left. *)

From stdpp Require Import base list strings relations.
From Stdlib Require Import Ascii ZArith Lia.
From S2P Require Import Prelude PyStr PyFloat PyTime PyDateTime PyDict PyVal PyHash PyJson StateIo MarketCalendar Outbox OutboxFacts Delivery DeliveryProps StrategyContract TradeIntent Dispatcher TradeDelivery TradeCalls TradeFacts TradeClaims.

#[local] Open Scope Z_scope.

(** ** Points *)

(** The call has decided to deliver, and is about to ask the outbox. *)
Definition enqueues (pt : Point) : bool := match pt with To_enqueue _ _ _ => true | _ => false end.

Lemma hoare_settle P (m : Run Point) (Q : Point → Shared → Prop) E w w' pt :
  hoare P m Q E → P w → settle_point m w = (w', pt) → Q pt w' ∨ (E w' ∧ ∃ e, pt = Done (Err e)).
Proof.
  intros H Hw. specialize (H w Hw). unfold settle_point. destruct (m w) as [w1 [a|e]]; intros [= <- <-]; [by left|].
  right. split; [done|]. by eexists.
Qed.

Section system.
Context (to_et : Z → Z) (settings : NotificationSettings).

(** The decision to deliver comes after the test for a duplicate. *)
Lemma duplicate_stops c prep v pt :
  (event_of c ≠ "" → vd_duplicate v = true) → after_section settings c prep v = Ok pt → enqueues pt = false.
Proof.
  intros Hv. unfold after_section. destruct (negb (ready c)); [by intros [= <-]|].
  destruct (contract_reason prep); [by intros [= <-]|]. destruct (String.eqb (get_str "intent_id" (intent c)) ""); [by intros [= <-]|].
  destruct (String.eqb_spec (event_of c) ""); [by intros [= <-]|]. destruct (vd_blocked_by_cancellation v); [by intros [= <-]|].
  destruct (vd_fault v); [by intros [= <-]|]. rewrite Hv by done. intros [= <-]. by destruct (vd_durable v).
Qed.

(** ** One alert per opportunity *)

Section opportunity.
Context (id key : string).

Lemma start_alerted c :
  key ≠ "" → consistent id key c →
  hoare (alerted id key) (start_point settings c) (λ pt w, alerted id key w ∧ (key_of c = key → enqueues pt = false)) (alerted id key).
Proof.
  intros Hne Hco. unfold start_point. apply lift_alerted. intros prep Hprep.
  eapply hoare_bind; [apply locked_section_alerted; [done..|intros e; by eapply prepare_for_event]|].
  intros v. apply hoare_pure. intros Hv. apply hoare_lift; [|done]. intros pt w Hpt Hw. split; [done|].
  intros Hk. eapply duplicate_stops; [|done]. by apply Hv.
Qed.

Lemma clean_alerted c step steps result :
  hoare (alerted id key) (clean c step steps result) (λ pt w, alerted id key w ∧ enqueues pt = false) (alerted id key).
Proof.
  destruct step as [at_ ev|at_|at_ reason preserve]; cbn [clean].
  - apply then_alerted; [apply record_alerted|]. intros _. by apply hoare_ret.
  - apply then_alerted; [apply release_alerted|]. intros _. by apply hoare_ret.
  - apply then_alerted; [apply persist_alerted|]. intros b. by apply hoare_ret.
Qed.

Lemma enqueue_alerted c prep e evidence :
  hoare (alerted id key) (enqueue_point to_et settings c prep e evidence) (λ pt w, alerted id key w ∧ enqueues pt = false) (alerted id key).
Proof.
  unfold enqueue_point. apply then_alerted.
  - apply try_alerted. intros s s' r. apply enqueue_notification_retains.
  - intros answer. apply hoare_ret. intros w Hw. split; [done|]. destruct answer as [r|]; [|done]. by destruct (er_accepted r).
Qed.

Lemma acknowledge_point_alerted c prep e evidence r :
  key ≠ "" → consistent id key c →
  hoare (alerted id key) (acknowledge_point settings c prep e evidence r) (λ pt w, alerted id key w ∧ enqueues pt = false) (alerted id key).
Proof.
  intros Hne Hco. apply then_alerted; [by apply acknowledge_alerted|]. intros [b reason]. by apply hoare_ret.
Qed.

Lemma advance_alerted c pt w w' pt' :
  key ≠ "" → consistent id key c → alerted id key w → (key_of c = key → enqueues pt = false) →
  advance to_et settings c pt w = (w', pt') → alerted id key w' ∧ (key_of c = key → enqueues pt' = false).
Proof.
  intros Hne Hco Hw Hpt H.
  assert (Hall : ∀ m, hoare (alerted id key) m (λ pt w, alerted id key w ∧ (key_of c = key → enqueues pt = false)) (alerted id key) →
                 settle_point m w = (w', pt') → alerted id key w' ∧ (key_of c = key → enqueues pt' = false)).
  { intros m Hm Hs. destruct (hoare_settle _ _ _ _ _ _ _ Hm Hw Hs) as [|[? [e ->]]]; done. }
  destruct pt as [|prep e ev|prep e ev r|[|step steps] result|r]; cbn [advance] in H; try (by injection H as <- <-).
  - eapply Hall; [|exact H]. by apply start_alerted.
  - eapply Hall; [|exact H]. eapply hoare_conseq; [apply enqueue_alerted|done|]. naive_solver.
  - eapply Hall; [|exact H]. eapply hoare_conseq; [by apply acknowledge_point_alerted|done|]. naive_solver.
  - eapply Hall; [|exact H]. eapply hoare_conseq; [apply clean_alerted|done|]. naive_solver.
Qed.

(** Every call is consistent, and none of the opportunity's is about to ask the outbox. *)
Definition quiet (y : System) : Prop :=
  alerted id key (shared y)
  ∧ Forall (λ t, consistent id key (call t) ∧ (key_of (call t) = key → enqueues (at_point t) = false)) (threads y).

Lemma quiet_step callable y y' :
  key ≠ "" → (∀ c, callable c → consistent id key c) → sys_step to_et settings callable y y' → quiet y → quiet y'.
Proof.
  intros Hne Hcall [i t w' pt' Ht Hadv|c Hc|i|busy lost world Hw] [Hal Hth]; split; cbn [shared threads].
  - destruct (Forall_lookup_1 _ _ _ _ Hth Ht) as [Hco Hpt]. by eapply advance_alerted.
  - destruct (Forall_lookup_1 _ _ _ _ Hth Ht) as [Hco Hpt]. apply Forall_insert; [done|]. split; [done|].
    cbn [call at_point]. by eapply advance_alerted.
  - done.
  - apply Forall_app. split; [done|]. constructor; [|constructor]. split; [by apply Hcall|done].
  - done.
  - by apply Forall_delete.
  - destruct Hal as [Hc Hr]. split; [done|]. cbn. apply step_retains in Hw. by eapply has_row_mono.
  - done.
Qed.

Lemma quiet_run callable y y' :
  key ≠ "" → (∀ c, callable c → consistent id key c) → rtc (sys_step to_et settings callable) y y' → quiet y → quiet y'.
Proof. intros Hne Hc H. induction H as [|y1 y2 y3 H1 H2 IH]; [done|]. intros Hq. apply IH. by eapply quiet_step. Qed.
End opportunity.

(** ** What a call carries to the outbox *)

(** The contract and the card were in order at action time. *)
Definition cleared (c : Call) : Prop :=
  ready c = true
  ∧ ready_contract_reason (intent c) (action_now c) (expected_policy_version c) = Ok None
  ∧ manual_card_contract_reason (intent c) (action_now c) = Ok None.

Definition carries (c : Call) (pt : Point) : Prop :=
  match pt with
  | To_enqueue _ e _ | To_acknowledge _ e _ _ => for_event c e ∧ cleared c
  | _ => True
  end.

Lemma revalidation_clears c evidence :
  action_revalidation c = Ok (None, evidence) →
  ready_contract_reason (intent c) (action_now c) (expected_policy_version c) = Ok None
  ∧ manual_card_contract_reason (intent c) (action_now c) = Ok None.
Proof.
  unfold action_revalidation. intros H. apply res_bind_ok in H as ([r|] & Hr & H); [done|].
  apply res_bind_ok in H as ([r'|] & Hr' & H); done.
Qed.

Lemma after_section_carries c prep v pt :
  (∀ e, envelope prep = Some e → for_event c e) → after_section settings c prep v = Ok pt → carries c pt.
Proof.
  intros He. unfold after_section. destruct (ready c) eqn:Er; cbn [negb]; [|by intros [= <-]].
  repeat (case_match; try by intros [= <-]). unfold at_action. intros H'.
  apply res_bind_ok in H' as ([[r|] evidence] & Hrev & H').
  - apply res_bind_ok in H' as (card & _ & [= <-]). done.
  - apply revalidation_clears in Hrev as [Hr Hm]. rewrite Hm in H'. cbn in H'.
    destruct (envelope prep) as [e|] eqn:Ee; injection H' as <-; [|done]. split; [by apply He|done].
Qed.

Lemma advance_carries c pt w w' pt' : carries c pt → advance to_et settings c pt w = (w', pt') → carries c pt'.
Proof.
  intros Hpt H.
  assert (Hall : ∀ m, hoare (λ _, True) m (λ pt _, carries c pt) (λ _, True) → settle_point m w = (w', pt') → carries c pt').
  { intros m Hm Hs. destruct (hoare_settle _ _ _ _ _ _ _ Hm I Hs) as [|[_ [e ->]]]; done. }
  destruct pt as [|prep e ev|prep e ev r|[|step steps] result|r]; cbn [advance] in H; try (by injection H as <- <-);
    (eapply Hall; [|exact H]); intros w0 _.
  - unfold start_point, mbind, run_bind, lift. destruct (prepare settings c) as [prep|] eqn:Ep; [|done].
    destruct (locked_section settings c prep w0) as [w1 [v|]]; [|done].
    destruct (after_section settings c prep v) as [pt|] eqn:Ea; [|done]. eapply after_section_carries; [|done].
    intros e. by eapply prepare_for_event.
  - unfold enqueue_point, mbind, run_bind. destruct (try_outbox _ _ w0) as [w1 [[r|name]|]]; cbn; [|done..].
    by destruct (er_accepted r).
  - unfold acknowledge_point, mbind, run_bind. destruct (acknowledge_trade_intent_enqueue _ _ _ _ _ w0) as [w1 [[b reason]|]]; done.
  - destruct step; cbn [clean]; unfold mbind, run_bind.
    + destruct (record_action_revalidation at_ evidence w0) as [w1 [|]]; done.
    + destruct (release_delivery_lease (event_of c) at_ w0) as [w1 [|]]; done.
    + destruct (persist_delivery_projection (intent c) at_ (event_of c) reason preserve_accepted w0) as [w1 [[]|]]; done.
Qed.

(** Every call that is under way carries what it may. *)
Lemma carries_run callable y y' :
  rtc (sys_step to_et settings callable) y y' → Forall (λ t, carries (call t) (at_point t)) (threads y) →
  Forall (λ t, carries (call t) (at_point t)) (threads y').
Proof.
  intros H. induction H as [|y1 y2 y3 H1 H2 IH]; [done|]. intros Hth. apply IH. clear H2 IH.
  destruct H1 as [i t w' pt' Ht Hadv|c Hc|i|busy lost world Hw]; cbn [threads]; [|..|done].
  - apply Forall_insert; [done|]. eapply advance_carries; [|done]. by apply (Forall_lookup_1 _ _ _ _ Hth Ht).
  - apply Forall_app. split; [done|]. by constructor.
  - by apply Forall_delete.
Qed.

(** ** The latest file *)

Lemma advance_truth c pt w w' pt' :
  outbox_configured settings = true → carries c pt → truthful w → advance to_et settings c pt w = (w', pt') → truthful w'.
Proof.
  intros Hq Hpt Hw H.
  assert (Hall : ∀ m, hoare truthful m (λ _, truthful) truthful → settle_point m w = (w', pt') → truthful w').
  { intros m Hm Hs. destruct (hoare_settle _ _ _ _ _ _ _ Hm Hw Hs) as [|[? _]]; done. }
  destruct pt as [|prep e ev|prep e ev r|[|step steps] result|r]; cbn [advance] in H; try (by injection H as <- <-);
    (eapply Hall; [|exact H]).
  - apply start_truth.
  - apply enqueue_truth.
  - apply then_truth; [by apply acknowledge_truth, Hpt|]. intros [b reason]. by apply hoare_ret.
  - apply clean_truth.
Qed.

Lemma truth_run callable y y' :
  outbox_configured settings = true → rtc (sys_step to_et settings callable) y y' →
  Forall (λ t, carries (call t) (at_point t)) (threads y) → truthful (shared y) → truthful (shared y').
Proof.
  intros Hq H. induction H as [|y1 y2 y3 H1 H2 IH]; [done|]. intros Hth Hw. apply IH.
  - eapply carries_run; [|exact Hth]. by apply rtc_once.
  - destruct H1 as [i t w' pt' Ht Hadv|c Hc|i|busy lost world Hst]; cbn [shared]; try done.
    + eapply advance_truth; [done|by apply (Forall_lookup_1 _ _ _ _ Hth Ht)|done|done].
    + eapply shown_ok_retains; [|exact Hw]. by apply step_retains in Hst.
Qed.

(** ** Every call ends *)

(** The stretches that are left. *)
Definition stretches_left (pt : Point) : nat :=
  match pt with
  | Start => 6
  | To_enqueue _ _ _ => 5
  | To_acknowledge _ _ _ _ => 2
  | Cleaning steps _ => S (length steps)
  | Done _ => 0
  end.

Definition short (n : nat) (pt : Point) : Prop := (stretches_left pt ≤ n)%nat.

Lemma after_section_short c prep v pt : after_section settings c prep v = Ok pt → short 5 pt.
Proof.
  unfold after_section, short, stop. repeat (case_match; try (intros [= <-]; cbn; lia)). unfold at_action. intros H'.
  apply res_bind_ok in H' as ([r evidence] & _ & H'). apply res_bind_ok in H' as (card & _ & [= <-]).
  repeat case_match; cbn; lia.
Qed.

Lemma advance_short c pt w : (stretches_left (advance to_et settings c pt w).2 ≤ pred (stretches_left pt))%nat.
Proof.
  assert (Hall : ∀ m n, (∀ w, match m w with (_, Ok pt) => short n pt | _ => True end) → short n (settle_point m w).2).
  { intros m n Hm. specialize (Hm w). unfold settle_point. destruct (m w) as [w1 [a|e]]; [done|]. cbn. unfold short. cbn. lia. }
  destruct pt as [|prep e ev|prep e ev r|[|step steps] result|r]; cbn [advance stretches_left pred length]; [| | |done| |done]; apply Hall; intros w0.
  - unfold start_point, mbind, run_bind, lift. destruct (prepare settings c) as [prep|]; [|done].
    destruct (locked_section settings c prep w0) as [w1 [v|]]; [|done].
    destruct (after_section settings c prep v) as [pt|] eqn:Ea; [|done]. by eapply after_section_short.
  - unfold enqueue_point, mbind, run_bind. destruct (try_outbox _ _ w0) as [w1 [[r|name]|]]; cbn; [|unfold short; cbn; lia|done].
    destruct (er_accepted r); unfold short; cbn; lia.
  - unfold acknowledge_point, mbind, run_bind. destruct (acknowledge_trade_intent_enqueue _ _ _ _ _ w0) as [w1 [[b reason]|]]; [|done].
    unfold short; cbn; lia.
  - destruct step; cbn [clean]; unfold mbind, run_bind.
    + destruct (record_action_revalidation at_ evidence w0) as [w1 [|]]; [|done]. unfold short; cbn; lia.
    + destruct (release_delivery_lease (event_of c) at_ w0) as [w1 [|]]; [|done]. unfold short; cbn; lia.
    + destruct (persist_delivery_projection (intent c) at_ (event_of c) reason preserve_accepted w0) as [w1 [[]|]]; [..|done]; unfold short; cbn; lia.
Qed.

(** A call between whose stretches others change the shared state. *)
Fixpoint run_among (others : list (Shared → Shared)) (c : Call) (pt : Point) (w : Shared) : Shared * Point :=
  match others with
  | [] => (w, pt)
  | f :: others => let '(w, pt) := advance to_et settings c pt (f w) in run_among others c pt w
  end.

Lemma run_among_short others c pt w :
  (stretches_left (run_among others c pt w).2 ≤ stretches_left pt - length others)%nat.
Proof.
  revert pt w. induction others as [|f others IH]; intros pt w; cbn [run_among length]; [cbn; lia|].
  pose proof (advance_short c pt (f w)) as H. destruct (advance to_et settings c pt (f w)) as [w1 pt1]. cbn [snd] in H.
  specialize (IH pt1 w1). lia.
Qed.

Lemma run_call_among n c pt w : run_call to_et settings n c pt w = run_among (replicate n id) c pt w.
Proof.
  revert pt w. induction n as [|n IH]; intros pt w; [done|]. cbn [run_call replicate run_among id].
  destruct (advance to_et settings c pt w). apply IH.
Qed.
End system.
