(* ===== verification/TradeRecovery.v ===== *)
(** * An alert that was enqueued before its call died

    What was enqueued is found by the inspection, and the next call with the
    same intent takes it as accepted. *)

From stdpp Require Import base list strings relations.
From Stdlib Require Import Ascii ZArith Lia.
From S2P Require Import Prelude PyStr PyFloat PyTime PyDateTime PyDict PyVal PyHash PyJson StateIo MarketCalendar Outbox OutboxFacts Delivery DeliveryProps StrategyContract TradeIntent Dispatcher TradeDelivery TradeCalls TradeFacts TradeClaims.

#[local] Open Scope Z_scope.

(** ** Rows of a fresh event *)

Definition fresh (s : Store) (id : string) : Prop := ∀ r, r ∈ events s → ev_logical_id r ≠ id.

(** A new row of the event that waits on a channel. *)
Definition waits_on (id fp : string) (ch : string) (r : EventRow) : Prop :=
  ev_logical_id r = id ∧ ev_channel r = ch ∧ payload_sha256 r = fp ∧ ev_status r = PENDING.

Lemma event_at_in logical ch s r : event_at logical ch s = Some r → r ∈ events s ∧ ev_logical_id r = logical ∧ ev_channel r = ch.
Proof.
  unfold event_at. intros H. apply find_some in H as [Hin H]. apply list_elem_of_In in Hin.
  apply andb_true_iff in H as [H1%String.eqb_eq H2%String.eqb_eq]. done.
Qed.

Lemma enqueue_fresh_rows clock d text fp at_ accept chs s b s' b' :
  res_fold (enqueue_channel clock d text fp at_ accept) (s, b) chs = Ok (s', b') → NoDup chs →
  (∀ r, r ∈ events s → ev_logical_id r = dr_logical_id d → ev_channel r ∉ chs) →
  ∃ new, events s' = events s ++ new ∧ Forall2 (waits_on (dr_logical_id d) fp) chs new.
Proof.
  revert s b. induction chs as [|ch chs IH]; intros s b H Hnd Hold; cbn [res_fold] in H.
  { injection H as <- _. exists []. by rewrite app_nil_r. }
  apply res_bind_ok in H as ([s1 b1] & H1 & H). apply NoDup_cons in Hnd as [Hch Hnd].
  apply enqueue_channel_cases in H1 as [(row & Hrow & _)|(_ & i & expires & Hi & _)].
  { apply event_at_in in Hrow as (Hin & Hl & Hc). destruct (Hold row Hin Hl). rewrite Hc. left. }
  apply insert_event_retains in Hi as (_ & r & Hr & ->).
  destruct (IH s1 b1 H Hnd) as (new & E & Hnew).
  { intros r. rewrite Hr, elem_of_app, list_elem_of_singleton. intros [Hin| ->] Hl.
    - intros Hc. apply (Hold r Hin Hl). by right.
    - done. }
  eexists. split; [rewrite E, Hr, <- app_assoc; reflexivity|]. by constructor.
Qed.

(** The rows that the inspection reads. *)
Lemma fresh_event_rows s s' id fp chs new :
  fresh s id → events s' = events s ++ new → Forall2 (waits_on id fp) chs new →
  map ev_channel (event_rows s' id) = sort_by String.ltb chs
  ∧ ∀ r, r ∈ event_rows s' id → payload_sha256 r = fp ∧ ev_status r = PENDING ∧ ev_channel r ∈ chs.
Proof.
  intros Hf E Hnew.
  assert (Hrows : filter (λ r, ev_logical_id r = id) (events s') = new).
  { rewrite E, filter_app.
    assert (H0 : filter (λ r, ev_logical_id r = id) (events s) = []).
    { destruct (filter _ (events s)) as [|r l] eqn:Ef; [done|]. assert (r ∈ filter (λ r, ev_logical_id r = id) (events s)) as Hr.
      { rewrite Ef. left. } apply list_elem_of_filter in Hr as [Hl Hin]. by destruct (Hf r Hin). }
    rewrite H0. cbn. clear -Hnew. induction Hnew as [|ch r chs new (Hl & _) _ IH]; [done|].
    rewrite filter_cons_True by done. by rewrite IH. }
  unfold event_rows. rewrite Hrows. split.
  - rewrite (sort_by_map _ String.ltb ev_channel) by done. f_equal.
    clear -Hnew. induction Hnew as [|ch r chs new (_ & Hc & _) _ IH]; [done|]. cbn. by rewrite Hc, IH.
  - intros r. rewrite sort_by_perm. clear -Hnew. induction Hnew as [|ch x chs new (_ & Hc & Hp & Hs) _ IH].
    + by intros ?%not_elem_of_nil.
    + intros [->|Hr]%elem_of_cons; [split_and!; [done|done|rewrite Hc; left]|].
      destruct (IH Hr) as (? & ? & ?). split_and!; [done..|]. by right.
Qed.

(** Rows like these are accepted. *)
Lemma inspect_waiting s e m ts fp :
  ts ≠ [] → NoDup ts → CANCELLATION_CHANNEL ∉ ts →
  map ev_channel (event_rows s (en_event_id e)) = sort_by String.ltb ts →
  (∀ r, r ∈ event_rows s (en_event_id e) → payload_sha256 r = fp ∧ ev_status r = PENDING ∧ ev_channel r ∈ ts) →
  notification_payload_fingerprint (notification_payload e {| title := title m; text := text m; friend := friend m;
    feishu_text := feishu_text m; sections := [] |}) = Ok fp →
  ∃ i, inspect_final_notification s e m ts (Some fp) = Ok i ∧ in_reason i = "accepted".
Proof.
  intros Hne Hnd Hc Hch Hrows Hfp. unfold inspect_final_notification. cbv zeta.
  set (rows := event_rows s (en_event_id e)) in *.
  assert (Hall : filter (λ r, ev_channel r ≠ CANCELLATION_CHANNEL) rows = rows).
  { clear -Hrows Hc. induction rows as [|r l IH]; [done|]. rewrite filter_cons_True.
    - rewrite IH; [done|]. intros x Hx. apply Hrows. by right.
    - intros E. destruct (Hrows r) as (_ & _ & H); [left|]. rewrite E in H. done. }
  rewrite Hall. destruct rows as [|r l] eqn:Er.
  { symmetry in Hch. by apply sort_by_nil in Hch. }
  rewrite <- Er in *. rewrite Hfp.
  replace (if String.eqb fp "" then Ok fp else Ok fp) with (Ok fp) by by destruct (String.eqb fp "").
  cbn [mbind res_bind]. eexists. split; [reflexivity|]. cbn [in_reason].
  assert (Hcan : existsb (λ r, String.eqb (ev_channel r) CANCELLATION_CHANNEL) rows = false).
  { apply not_true_is_false. intros (x & Hx & Hx'%String.eqb_eq)%existsb_exists. apply list_elem_of_In in Hx.
    destruct (Hrows x Hx) as (_ & _ & Hin). rewrite Hx' in Hin. done. }
  rewrite Hcan.
  assert (Hmatch : forallb (λ r, String.eqb (payload_sha256 r) fp) rows = true).
  { apply forallb_forall. intros x Hx. apply list_elem_of_In in Hx. apply String.eqb_eq. by apply Hrows. }
  rewrite Hmatch. cbn [negb]. rewrite !map_map. cbn [fst snd].
  rewrite bool_decide_eq_true_2; [|by rewrite dedup_NoDup; [|done|intros ? _; apply not_elem_of_nil]]. cbn [negb].
  replace (existsb _ _) with false; [done|]. symmetry. apply not_true_is_false.
  intros (x & Hx & Hx')%existsb_exists. apply in_map_iff in Hx as (y & <- & Hy). apply list_elem_of_In in Hy.
  destruct (Hrows y Hy) as (_ & Hs & _). by rewrite Hs in Hx'.
Qed.

Lemma targets_not_fence s lane fr : CANCELLATION_CHANNEL ∉ sort_by String.ltb (delivery_target_names s lane fr).
Proof.
  rewrite sort_by_perm. unfold delivery_target_names.
  destruct (_ && _ && _), (_ && _), (_ && _ && _ && _); cbn [app]; not_in.
Qed.

Lemma freeze_not_fence s e fr : CANCELLATION_CHANNEL ∉ (freeze_route s e fr).2.
Proof.
  unfold freeze_route. destruct (rust_trader_notification_owner s && _); [|apply targets_not_fence].
  destruct (_ || _ || _); not_in.
Qed.

Lemma enqueue_final_fresh clock settings s e m at_ s' r fp :
  fresh s (en_event_id e) → CANCELLATION_CHANNEL ∉ (freeze_route settings e (friend m)).2 →
  notification_payload_fingerprint (notification_payload (freeze_route settings e (friend m)).1 m) = Ok fp →
  enqueue_final_notification clock settings s e m at_ = Ok (s', r) → ue_accepted r = true →
  let ts := (freeze_route settings e (friend m)).2 in
  ts ≠ [] ∧ NoDup ts ∧ ∃ new, events s' = events s ++ new ∧ Forall2 (waits_on (en_event_id e) fp) ts new.
Proof.
  intros Hf Hcan Hfp H Ha. unfold enqueue_final_notification in H. apply res_bind_ok in H as (_ & _ & H).
  pose proof (freeze_route_id settings e (friend m)) as Hid.
  destruct (freeze_route settings e (friend m)) as [routed ts]. cbn [fst snd] in *.
  destruct (bool_decide_reflect (ts = [])) as [|Hne]; [injection H as _ <-; done|].
  unfold enqueue_routed in H. apply res_bind_ok in H as ([s1 b] & H & [= <- <-]).
  destruct (cancelled b) eqn:Eb; [done|]. unfold enqueue in H. split_if H; [done|]. split_if H; [done|].
  apply res_bind_ok in H as (at' & _ & H). apply res_bind_ok in H as ([text fp'] & Hp & H). cbn [dr_channels dr_payload dr_logical_id] in *.
  destruct (event_at _ CANCELLATION_CHANNEL s); [by injection H as _ <-|]. bool_to_prop.
  assert (fp' = fp) as ->.
  { unfold _payload in Hp. apply res_bind_ok in Hp as (t & _ & Hp). apply res_bind_ok in Hp as (x & Hx & [= _ <-]).
    unfold notification_payload_fingerprint in Hfp. apply res_fmap_ok in Hfp as (y & Hy & ->).
    cbn [envelope_draft dr_payload] in Hx. congruence. }
  split; [done|]. split; [done|].
  apply enqueue_fresh_rows in H as (new & E & Hnew); [|done|].
  - exists new. split; [done|]. cbn [dr_logical_id envelope_draft] in Hnew. by rewrite Hid in Hnew.
  - intros x Hx Hl. cbn [dr_logical_id envelope_draft] in Hl. rewrite Hid in Hl. by destruct (Hf x Hx).
Qed.

(** What was enqueued of a fresh event is accepted by its inspection, whether
    the expected fingerprint and targets are given or left to the contract. *)
Lemma enqueued_is_accepted to_et settings s e m at_ s' r fp ts f t :
  en_lane e ∈ QUIET_WINDOW_EXCEPTION_LANES → sections m = [] → fresh s (en_event_id e) →
  notification_event_contract settings e m = Ok (fp, ts) →
  enqueue_notification to_et settings s e m at_ = Ok (s', r) → er_accepted r = true →
  (f = "" ∨ f = fp) → (t = [] ∨ t = ts) →
  ∃ i, inspect_notification_event settings s' e m f t = Ok i ∧ acceptable i = true.
Proof.
  intros Hlane Hsec Hf Hc H Ha Hfx Htx. unfold inspect_notification_event. rewrite Hc. cbn [mbind res_bind].
  unfold enqueue_notification, quiet_window_suppresses in H. rewrite bool_decide_eq_true_2 in H by done. cbn [mbind res_bind] in H.
  destruct (queue_disabled settings); [injection H as <- <-; done|]. apply res_bind_ok in H as ([s1 u] & H & [= <- <-]).
  cbn [enqueue_result er_accepted] in Ha. unfold notification_event_contract in Hc.
  pose proof (freeze_not_fence (routes settings) e (friend m)) as Hcan. pose proof (freeze_route_id (routes settings) e (friend m)) as Hid.
  destruct (freeze_route (routes settings) e (friend m)) as [routed targets] eqn:Er. cbn [fst snd] in *.
  apply res_bind_ok in Hc as (fp0 & Hfp & [= -> ->]).
  destruct (enqueue_final_fresh at_ (routes settings) s e m (Some (utc at_)) s1 u fp) as (Hne & Hnd & new & E & Hnew);
    rewrite ?Er; cbn [fst snd]; try done. rewrite Er in Hne, Hnd, Hnew. cbn [snd] in Hne, Hnd, Hnew.
  destruct (fresh_event_rows s s1 (en_event_id e) fp ts new Hf E Hnew) as [Hch Hrows].
  assert (Ht : (if bool_decide (t = []) then ts else t) = ts) by (destruct Htx as [->| ->]; by case_bool_decide).
  assert (Hg : (if String.eqb f "" then fp else f) = fp) by (destruct Hfx as [->| ->]; [done|by destruct (String.eqb fp "")]).
  rewrite Ht, Hg. destruct (inspect_waiting s1 routed m ts fp) as (i & Hi & Hacc); rewrite ?Hid; try done.
  - by destruct m; cbn in *; subst.
  - exists i. split; [done|]. unfold acceptable. by rewrite Hacc.
Qed.

(** ** The section that finds its event *)

Lemma prepare_again settings c c' prep prep' :
  intent c' = intent c → rendered c' = rendered c → prepare settings c = Ok prep → prepare settings c' = Ok prep' →
  envelope prep' = envelope prep ∧ fingerprint prep' = fingerprint prep ∧ targets prep' = targets prep.
Proof.
  intros Hi Hr H H'. unfold prepare, envelope_of, message_of, event_of, ready in *. rewrite Hi, Hr in H'.
  destruct (is_str "trade_ready" (vget "status" (intent c))); cbn [negb] in *; [|injection H as <-; by injection H' as <-].
  apply res_bind_ok in H as (x & _ & H). apply res_bind_ok in H' as (x' & _ & H').
  apply res_bind_ok in H as ([at_|] & Hat & H); rewrite Hat in H'; cbn [mbind res_bind] in H'; [|injection H as <-; by injection H' as <-].
  destruct (String.eqb _ ""); [injection H as <-; by injection H' as <-|].
  apply res_bind_ok in H as (ex & Hex & H). rewrite Hex in H'. cbn [mbind res_bind] in H'.
  apply res_bind_ok in H as ([f t] & Hc & [= <-]). rewrite Hc in H'. by injection H' as <-.
Qed.

Section found.
Context (settings : NotificationSettings) (c : Call) (prep : Prepared) (e : NotificationEnvelope) (w : Shared) (p : Producer)
        (shown : pydict).
Notation id := (event_of c).

(** The entry that the event's lifecycle has or will have: of this contract, or
    of none. *)
Definition open_to : Prop :=
  match dget id (lifecycle_events p) with
  | Some l => (lc_fingerprint l = "" ∨ lc_fingerprint l = fingerprint prep) ∧ (lc_targets l = [] ∨ lc_targets l = targets prep)
  | None => key_claimed (key_of c) p = false
  end.

(** The state that the call finds: readable, nothing to cancel, the event not
    ended. *)
Record finds : Prop := {
  fd_ready : ready c = true;
  fd_configured : outbox_configured settings = true;
  fd_reason : contract_reason prep = None;
  fd_envelope : envelope prep = Some e;
  fd_event : id ≠ "";
  fd_loads : (d ← read_json_object (state_file w); load_producer d (now c) id (delivery_lease_seconds (intent c) (now c))) = Ok p;
  fd_pending : cancellation_pending p = [];
  fd_running : id ∉ terminal_ids p;
  fd_phase : get_str "phase" (intent c) ∉ TERMINAL_PHASES;
  fd_open : open_to;
  fd_fault : inspect_fault c = None;
  fd_shown : delivery_projection (intent c) id "outbox_accepted" "outbox_event_reconciled" = Ok shown;
  fd_signature : is_ok (intent_signature shown);
}.

Definition answers_accepted : Prop :=
  ∀ f t, (f = "" ∨ f = fingerprint prep) → (t = [] ∨ t = targets prep) →
    ∃ i, inspect_notification_event settings (outbox w) e (message_of c) f t = Ok i ∧ acceptable i = true.

Hypothesis Hfd : finds.
Hypothesis Hacc : answers_accepted.

(** The lifecycle that the section asks with. *)
Lemma registered : ∃ l,
  dget id (lifecycle_events (register c prep p)) = Some l
  ∧ (lc_fingerprint l = "" ∨ lc_fingerprint l = fingerprint prep) ∧ (lc_targets l = [] ∨ lc_targets l = targets prep)
  ∧ negb (key_claimed (key_of c) p) || dhas id (lifecycle_events (register c prep p)) = true.
Proof.
  destruct Hfd as [Hr _ _ _ He _ _ Hrun _ Hop _ _ _]. unfold open_to in Hop. unfold register, dhas.
  apply String.eqb_neq in He. rewrite Hr, He, bool_decide_eq_true_2 by done. cbn [andb negb].
  destruct (dget id (lifecycle_events p)) as [l|] eqn:El.
  - cbn [negb]. rewrite andb_false_r. exists l. rewrite El. destruct Hop. split_and!; try done. apply orb_true_r.
  - rewrite Hop. cbn [negb andb with_lifecycle lifecycle_events]. rewrite dget_dset_eq. eexists. split; [reflexivity|].
    cbn [lc_fingerprint lc_targets]. split_and!; auto.
Qed.

Lemma register_rest : cancellation_pending (register c prep p) = [] ∧ terminal_ids (register c prep p) = terminal_ids p
  ∧ semantic_keys (register c prep p) = semantic_keys p.
Proof. pose proof (fd_pending Hfd). unfold register. by case_match. Qed.

(** What the inspection leaves of the producer. *)
Lemma inspect_found q owned l :
  dget id (lifecycle_events q) = Some l → terminal_ids q = terminal_ids p →
  (lc_fingerprint l = "" ∨ lc_fingerprint l = fingerprint prep) → (lc_targets l = [] ∨ lc_targets l = targets prep) →
  negb (key_claimed (key_of c) p) || dhas id (lifecycle_events q) = true →
  ∃ i q', inspect_event settings c prep (key_claimed (key_of c) p) owned q w = (w, Ok (Some (Answered i), q'))
    ∧ acceptable i = true ∧ cancellation_pending q' = cancellation_pending q ∧ semantic_keys q' = semantic_keys q.
Proof.
  intros Hl Hterm Hf Ht Hask. destruct Hfd as [Hr Hq Hre Hen He _ _ Hrun _ _ Hfa _ _].
  unfold inspect_event. rewrite Hre, Hen, Hr, Hq, Hterm, Hask, bool_decide_eq_true_2 by done. cbn [andb].
  unfold dindex. rewrite Hl. cbn [of_option]. unfold mbind, run_bind, lift, try_outbox, peek. rewrite Hfa.
  destruct (Hacc (non_empty (lc_fingerprint l) (fingerprint prep)) (if bool_decide (lc_targets l = []) then targets prep else lc_targets l))
    as (i & Hi & Ha).
  { right. unfold non_empty. destruct Hf as [-> | ->]; [done|by case_match]. }
  { right. destruct Ht as [-> | ->]; by case_bool_decide. }
  rewrite Hi. cbn. assert (Hm : String.eqb (in_reason i) "missing" = false).
  { unfold acceptable in Ha. apply String.eqb_eq in Ha. by rewrite Ha. }
  rewrite Hm, Ha. cbn [andb]. eexists i, _. split; [by destruct w|]. done.
Qed.

Lemma settle_found i cl q :
  acceptable i = true → cancellation_pending q = [] →
  let r := settle_reconciliation settings c (Some (Answered i)) cl q in
  fault r = None ∧ cancellation_pending (producer r) = [] ∧ dhas id (TradeIntent.accepted (producer r)) = true
  ∧ (key_of c ≠ "" → dget id (semantic_keys (producer r)) = Some (key_of c)).
Proof.
  intros Ha Hp. cbv zeta. unfold settle_reconciliation. cbn [durable]. rewrite Ha.
  pose proof (fd_event Hfd) as He. apply String.eqb_neq in He as Heb. rewrite Heb. cbn [andb negb].
  assert (Hfa : inspection_fault c (Some (Answered i)) = None).
  { cbn. rewrite bool_decide_eq_true_2; [done|]. unfold acceptable in Ha. apply String.eqb_eq in Ha. rewrite Ha. left. }
  unfold check_acceptance. cbn [durable]. rewrite Ha, Hfa. cbn [negb andb]. rewrite andb_false_r.
  cbn [restore_acceptance producer fault with_acceptance cancellation_pending TradeIntent.accepted semantic_keys].
  split_and!; try done.
  - unfold dhas. rewrite dget_dsetdefault, String.eqb_refl. done.
  - intros Hk. apply String.eqb_neq in Hk as ->. apply dget_dset_eq.
Qed.

(** The section takes the event as accepted. *)
Lemma section_found : ∃ w' v, locked_section settings c prep w = (w', Ok v)
  ∧ v = {| vd_durable := true; vd_blocked_by_cancellation := false; vd_fault := None; vd_duplicate := true; vd_in_progress := false |}
  ∧ outbox w' = outbox w ∧ json_object (latest_file w') = canon_dict shown
  ∧ (key_of c ≠ "" → claim_in (json_object (state_file w')) id = Some (key_of c)).
Proof.
  destruct registered as (l & Hl & Hf & Ht & Hask). destruct register_rest as (Hp1 & Hterm & _).
  unfold locked_section, read_state. unfold mbind at 1, run_bind at 1.
  destruct (proj1 (res_bind_ok _ _ _) (fd_loads Hfd)) as (d & -> & Hloads).
  unfold mbind at 1, run_bind at 1, lift at 1. rewrite Hloads. cbv zeta.
  assert (Hend : end_lifecycles c (register c prep p) = register c prep p).
  { unfold end_lifecycles. rewrite bool_decide_eq_false_2; [done|apply (fd_phase Hfd)]. }
  rewrite Hend. set (q := stamp (now c) (register c prep p)).
  assert (Hq : cancellation_pending q = []) by exact Hp1. rewrite Hq. cbn [bool_decide].
  rewrite bool_decide_eq_true_2 by done. unfold mbind at 1, run_bind at 1, mret at 1, run_ret at 1.
  cbn [sort_by foldr cancel_all]. unfold mbind at 1, run_bind at 1, mret at 1, run_ret at 1.
  destruct (inspect_found q (negb (String.eqb id "") && dhas id (inflight (register c prep p))) l) as (i & q' & Hin & Ha & Hp' & Hk');
    try done.
  unfold mbind at 1, run_bind at 1. rewrite Hin. cbn [durable]. rewrite Ha.
  destruct (settle_found i (key_claimed (key_of c) p) q') as (Hfa & Hpn & Hacc' & Hkey); [done|congruence|].
  set (r := settle_reconciliation _ _ _ _ _) in *.
  pose proof (fd_event Hfd) as He. apply String.eqb_neq in He as Heb.
  unfold conclude_section, judge. rewrite Heb, Hfa. cbn [negb andb with_inflight cancellation_pending TradeIntent.accepted inflight terminal_ids].
  rewrite Hpn, Hacc'. rewrite (bool_decide_eq_false_2 ([] ≠ [])) by (by intros []). rewrite andb_false_r.
  assert (Hd : dhas id (dpop id (inflight (producer r))) = false) by (unfold dhas; by rewrite dget_dpop_eq). rewrite Hd. cbn [orb].
  unfold takes_lease. cbn [vd_duplicate negb]. rewrite !andb_false_r. cbn [andb].
  unfold mbind at 1, run_bind at 1, mret at 1, run_ret at 1. unfold persisted_intent. rewrite (fd_ready Hfd), (fd_shown Hfd).
  unfold mbind at 1, run_bind at 1, lift at 1. destruct (fd_signature Hfd) as [sg Hsg].
  match goal with |- context [publish ?a ?b ?d ?n] => destruct (publish_ok a b d n w sg Hsg) as [log Hpub] end.
  unfold mbind, run_bind. rewrite Hpub. eexists _, _. split; [reflexivity|]. split; [reflexivity|]. split; [done|].
  split; [apply written_reads|]. intros Hk. cbn [published state_file]. rewrite written_reads, claim_in_canon.
  rewrite (claim_of_keys _ _ _ (next_state_keys _ _ _ _ _)). by apply Hkey.
Qed.
End found.
