(* ===== verification/TradeFences.v ===== *)
(** * Cancelled alerts

    The fence that a cancellation leaves in the outbox outlives every list that
    the producer trims: no call delivers a fenced event again. *)

From stdpp Require Import base list strings relations.
From Stdlib Require Import Ascii ZArith Lia.
From S2P Require Import Prelude PyStr PyFloat PyTime PyDateTime PyDict PyVal PyHash PyJson StateIo MarketCalendar Outbox OutboxFacts Delivery DeliveryProps StrategyContract TradeIntent Dispatcher TradeDelivery TradeCalls TradeFacts TradeClaims TradeProps TradeRecovery.

#[local] Open Scope Z_scope.

(** ** The fence *)

Definition fenced (s : Store) (id : string) : Prop := ∃ p, (id, CANCELLATION_CHANNEL, p) ∈ map face (events s).

Lemma fenced_mono s s' id : retains s s' → fenced s id → fenced s' id.
Proof. intros [new E] [p Hp]. exists p. rewrite E. apply elem_of_app. by left. Qed.

Lemma fenced_row s id : fenced s id ↔ ∃ r, r ∈ events s ∧ ev_logical_id r = id ∧ ev_channel r = CANCELLATION_CHANNEL.
Proof.
  split.
  - intros [p Hin]. apply (list_elem_of_fmap face) in Hin as (r & E & Hr). injection E as -> Hc _. by exists r.
  - intros (r & Hr & <- & Hc). exists (payload_sha256 r). rewrite <- Hc. by apply (list_elem_of_fmap_2 face).
Qed.

Lemma fenced_event_at s id : fenced s id → ∃ r, event_at id CANCELLATION_CHANNEL s = Some r.
Proof.
  intros (r & Hr & <- & Hc)%fenced_row. unfold event_at. destruct (find _ _) eqn:E; [by eexists|].
  apply list_elem_of_In in Hr. pose proof (find_none _ _ E r Hr) as H. cbn in H. by rewrite Hc, !String.eqb_refl in H.
Qed.

Lemma cancel_fences clock s id reason at_ s' n : cancel clock s id reason at_ = Ok (s', n) → fenced s' id.
Proof.
  unfold cancel. intros H. apply res_bind_ok in H as (at' & _ & H). apply res_bind_ok in H as (s1 & H1 & [= <- _]).
  assert (Hf : fenced s1 id).
  { destruct (event_at id CANCELLATION_CHANNEL s) as [r|] eqn:Er.
    - injection H1 as <-. apply event_at_in in Er as (Hr & Hl & Hc). apply fenced_row. by exists r.
    - apply res_fmap_ok in H1 as ([s2 i] & H1 & ->). apply insert_event_retains in H1 as (_ & r & E & ->). cbn [fst].
      apply fenced_row. exists (fence_row id reason at' i). rewrite E. split; [apply elem_of_app; right; by left|done]. }
  eapply fenced_mono; [|exact Hf]. apply (fold_retains (λ s r, update_events (ev_id r) (cancel_row reason at') s)).
  intros. by apply retains_update.
Qed.

Lemma inspect_fenced settings s e m f t i :
  fenced s (en_event_id e) → inspect_notification_event settings s e m f t = Ok i → in_reason i ∉ ["accepted"; "missing"].
Proof.
  intros (r & Hr & Hl & Hc)%fenced_row. unfold inspect_notification_event. intros H. apply res_bind_ok in H as ([fp cfg] & _ & H).
  destruct (queue_disabled settings); [injection H as <-; cbn; not_in|].
  unfold inspect_final_notification in H. rewrite freeze_route_id in H. cbv zeta in H.
  assert (Hcan : existsb (λ r, String.eqb (ev_channel r) CANCELLATION_CHANNEL) (event_rows s (en_event_id e)) = true).
  { apply existsb_exists. exists r. split; [|by rewrite Hc]. apply list_elem_of_In. unfold event_rows.
    rewrite sort_by_perm, list_elem_of_filter. done. }
  rewrite Hcan in H. destruct (filter _ _) as [|x l]; [injection H as <-; cbn; not_in|].
  apply res_bind_ok in H as (y & _ & [= <-]). cbn. not_in.
Qed.

(** The outbox refuses a fenced event, and stays as it is. *)
Lemma enqueue_fenced to_et settings s e m at_ s' r :
  en_lane e ∈ QUIET_WINDOW_EXCEPTION_LANES → fenced s (en_event_id e) →
  enqueue_notification to_et settings s e m at_ = Ok (s', r) → er_accepted r = false ∧ s' = s.
Proof.
  intros Hlane Hf H. unfold enqueue_notification, quiet_window_suppresses in H. rewrite bool_decide_eq_true_2 in H by done.
  cbn [mbind res_bind] in H. destruct (queue_disabled settings); [by injection H as <- <-|].
  apply res_bind_ok in H as ([s1 u] & H & [= <- <-]). cbn [enqueue_result er_accepted].
  unfold enqueue_final_notification in H. apply res_bind_ok in H as (_ & _ & H).
  pose proof (freeze_route_id (routes settings) e (friend m)) as Hid.
  destruct (freeze_route (routes settings) e (friend m)) as [routed ts]. cbn [fst] in Hid.
  case_bool_decide; [by injection H as <- <-|]. unfold enqueue_routed in H. apply res_bind_ok in H as ([s2 b] & H & [= <- <-]).
  unfold enqueue in H. split_if H; [done|]. split_if H; [done|]. apply res_bind_ok in H as (at' & _ & H).
  apply res_bind_ok in H as ([text fp] & _ & H). cbn [dr_logical_id envelope_draft] in H. rewrite Hid in H.
  destruct (fenced_event_at _ _ Hf) as [x Hx]. rewrite Hx in H. by injection H as <- <-.
Qed.

(** ** One section *)

Section fence.
Context (to_et : Z → Z) (settings : NotificationSettings) (id : string).
Hypothesis configured : outbox_configured settings = true.
Notation F := (λ w, fenced (outbox w) id).

(** The verdict ends the call. *)
Definition ends (c : Call) (prep : Prepared) (v : Verdict) : Prop :=
  ready c = true → contract_reason prep = None → envelope prep ≠ None → vd_fault v ≠ None ∨ vd_duplicate v = true.

Lemma ended_stops c prep v pt : ends c prep v → after_section settings c prep v = Ok pt → enqueues pt = false.
Proof.
  intros Hv. unfold after_section. destruct (ready c) eqn:Er; cbn [negb]; [|by intros [= <-]].
  destruct (contract_reason prep) eqn:Ec; [by intros [= <-]|].
  destruct (String.eqb (get_str "intent_id" (intent c)) ""); [by intros [= <-]|].
  destruct (String.eqb (event_of c) ""); [by intros [= <-]|]. destruct (vd_blocked_by_cancellation v); [by intros [= <-]|].
  destruct (vd_fault v) eqn:Ef; [by intros [= <-]|]. destruct (vd_duplicate v) eqn:Ed.
  { intros [= <-]. by destruct (vd_durable v). }
  do 3 (case_match; [by intros [= <-]|]). unfold at_action. intros H'.
  apply res_bind_ok in H' as ([reason evidence] & _ & H'). apply res_bind_ok in H' as (card & _ & [= <-]).
  destruct reason; [done|]. destruct card; [done|]. destruct (envelope prep) eqn:Ee; [|done].
  destruct (Hv Er Ec) as [|]; congruence.
Qed.

Lemma try_fence {A} fault (f : Store → res (Store * A)) :
  (∀ s s' a, f s = Ok (s', a) → retains s s') → hoare F (try_outbox fault f) (λ _, F) F.
Proof. intros Hf. apply hoare_try; [done|]. intros w s a Hw H. eapply fenced_mono; [by eapply Hf|done]. Qed.

Lemma cancel_all_fence c ids p :
  hoare F (cancel_all settings c ids p) (λ p' w, F w ∧ terminal_ids p' = terminal_ids p) F.
Proof.
  revert p. induction ids as [|i ids IH]; intros p; cbn [cancel_all]; [by apply hoare_ret|].
  eapply (hoare_bind _ _ _ (λ _, F)).
  - unfold cancel_one. case_match; [|by apply hoare_ret]. apply try_fence. intros. by eapply cancel_pending_retains.
  - intros answer. eapply hoare_conseq; [apply IH|done|]. intros p' w [Hw ->]. split; [done|]. by destruct answer.
Qed.

(** What the producer learns of the fenced event. *)
Lemma inspect_fence c prep cl owned p :
  (∀ e, envelope prep = Some e → for_event c e) →
  hoare F (inspect_event settings c prep cl owned p)
    (λ r w, F w ∧ terminal_ids r.2 = terminal_ids p
            ∧ (event_of c = id → ready c = true → contract_reason prep = None → envelope prep ≠ None →
               inspection_fault c r.1 ≠ None ∨ r.1 = None ∧ (id ∈ terminal_ids p ∨ cl = true))) F.
Proof.
  intros He. unfold inspect_event. destruct (contract_reason prep); [by apply hoare_ret|].
  destruct (envelope prep) as [e|]; [|by apply hoare_ret]. destruct (ready c && _ && _ && _) eqn:Eb.
  - eapply hoare_bind; [by apply hoare_lift with (Q := λ _, F)|]. intros lc.
    eapply (hoare_bind _ _ _ (λ a w, F w ∧ (event_of c = id → inspection_fault c (Some a) ≠ None))).
    + apply hoare_try; [done|]. intros w s i Hw H. apply peek_same in H as [H ->]. split; [done|]. intros Hev. cbn.
      destruct (He e eq_refl) as [Hid _]. rewrite <- Hev, <- Hid in Hw. rewrite bool_decide_eq_false_2; [done|]. by eapply inspect_fenced.
    + intros a. apply hoare_ret. intros w (Hw & Ha). split_and!; [done| |by auto]. destruct a as [i|]; [|done]. cbn. by repeat case_match.
  - apply hoare_ret. intros w Hw. split_and!; [done..|]. intros Hev Hr _ _. right. split; [done|].
    rewrite Hr, configured in Eb. cbn [andb] in Eb. apply andb_false_iff in Eb as [Eb|Eb].
    + apply bool_decide_eq_false in Eb. left. rewrite <- Hev. by apply dec_stable.
    + apply orb_false_iff in Eb as [Eb _]. right. by apply negb_false_iff.
Qed.

Lemma settle_fence c answer cl p :
  let r := settle_reconciliation settings c answer cl p in
  terminal_ids (producer r) = terminal_ids p
  ∧ (inspection_fault c answer ≠ None → fault r ≠ None) ∧ (answer = None → claimed r = cl).
Proof.
  cbv zeta. assert (Hd : inspection_fault c answer ≠ None → durable answer = false).
  { destruct answer as [[i|]|]; try done. cbn. case_bool_decide as Hin; [done|]. intros _. unfold acceptable.
    apply String.eqb_neq. intros E. apply Hin. rewrite E. left. }
  assert (Hc : let r := check_acceptance settings c answer cl p in
               terminal_ids (producer r) = terminal_ids p ∧ (inspection_fault c answer ≠ None → fault r ≠ None) ∧ (answer = None → claimed r = cl)).
  { cbv zeta. unfold check_acceptance. case_match.
    - destruct (inspection_fault c answer) as [[st n]|] eqn:Ef.
      + rewrite (bool_decide_eq_false_2 (Some (st, n) = None)) by done. rewrite andb_false_r. by split_and!.
      + destruct (outbox_configured settings && answered_missing answer && _) eqn:Em; split_and!; try done.
        intros ->. cbn in Em. by rewrite andb_false_r in Em.
    - split_and!; try done. by destruct (inspection_fault c answer). }
  unfold settle_reconciliation. destruct (durable answer) eqn:Ed; cbn [andb]; [|exact Hc].
  destruct Hc as (Hc1 & Hc2 & Hc3). destruct (negb _); split_and!; try done. all: intros H; by rewrite Hd in Ed.
Qed.

Lemma section_fence c prep :
  (∀ e, envelope prep = Some e → for_event c e) →
  hoare F (locked_section settings c prep) (λ v w, F w ∧ (event_of c = id → ends c prep v)) F.
Proof.
  intros He. unfold locked_section. eapply (hoare_bind _ _ _ (λ _, F)); [by apply hoare_read|]. intros state.
  eapply (hoare_bind _ _ _ (λ _, F)); [by apply hoare_lift|]. intros p. cbv zeta.
  eapply (hoare_bind _ _ _ (λ _, F)); [case_match; [by apply hoare_ret|by intros w]|]. intros _.
  eapply hoare_bind; [apply cancel_all_fence|]. intros p2. apply hoare_pure. intros _.
  eapply hoare_bind; [by apply inspect_fence|]. intros [answer p3]. cbn [fst snd].
  destruct (settle_fence c answer (key_claimed (key_of c) p) p3) as (Hterm & Hfault & Hcl).
  set (r := settle_reconciliation _ _ _ _ _) in *.
  eapply (hoare_conseq _ (λ w, F w ∧ (event_of c = id → ready c = true → contract_reason prep = None → envelope prep ≠ None →
            fault r ≠ None ∨ id ∈ terminal_ids (producer r) ∨ claimed r = true))); [| |intros v w H; exact H].
  - apply hoare_pure. intros Hfc. unfold conclude_section. destruct (judge c (durable answer) r) as [v p4] eqn:Ej.
    assert (Hv : event_of c = id → ends c prep v).
    { intros Hev Hr Hc Hen. unfold judge in Ej. injection Ej as <- _. cbn [vd_fault vd_duplicate].
      destruct (Hfc Hev Hr Hc Hen) as [|H]; [by left|]. right.
      destruct (envelope prep) as [e|] eqn:Ee; [|done]. destruct (He e eq_refl) as [_ Hne]. apply String.eqb_neq in Hne as ->. cbn [andb negb].
      destruct H as [H| ->]; [|by rewrite orb_true_r].
      assert (Ht : id ∈ terminal_ids (if durable answer then with_inflight (dpop (event_of c) (inflight (producer r))) (producer r) else producer r))
        by (by destruct (durable answer)).
      rewrite Hev in Ht |- *. rewrite (bool_decide_eq_true_2 (id ∈ _)) by exact Ht. by rewrite orb_true_r. }
    eapply (hoare_bind _ _ _ (λ _, F)).
    { destruct (takes_lease c prep v); [|by apply hoare_ret]. eapply (hoare_bind _ _ _ (λ _, F)); [by apply hoare_lift|]. intros l. by apply hoare_ret. }
    intros p5. eapply (hoare_bind _ _ _ (λ _, F)); [by apply hoare_lift|]. intros persisted.
    eapply (hoare_bind _ _ _ (λ _, F)); [by apply hoare_publish|]. intros _. by apply hoare_ret.
  - intros w (Hw & Hp3 & Hl). split; [done|]. intros Hev Hr Hc Hen. destruct (Hl Hev Hr Hc Hen) as [H|[-> [H|H]]].
    + left. by apply Hfault.
    + right. left. by rewrite Hterm, Hp3.
    + right. right. by rewrite Hcl.
Qed.

Lemma start_fence c : hoare F (start_point settings c) (λ pt w, F w ∧ (event_of c = id → enqueues pt = false)) F.
Proof.
  unfold start_point. intros w Hw. unfold mbind, run_bind, lift. destruct (prepare settings c) as [prep|] eqn:Ep; [|done].
  pose proof (section_fence c prep (λ e, prepare_for_event settings c prep e Ep) w Hw) as H.
  destruct (locked_section settings c prep w) as [w1 [v|]]; [|done]. destruct H as [Hw1 Hv].
  destruct (after_section settings c prep v) as [pt|] eqn:Ea; [|done]. split; [done|]. intros Hev. eapply ended_stops; [by apply Hv|done].
Qed.

Lemma persist_fence d at_ ev reason preserve : hoare F (persist_delivery_projection d at_ ev reason preserve) (λ _, F) F.
Proof.
  unfold persist_delivery_projection. do 2 (eapply (hoare_bind _ _ _ (λ _, F)); [by apply hoare_lift|]; intros ?).
  eapply (hoare_bind _ _ _ (λ _, F)); [by apply hoare_read|]. intros st.
  eapply (hoare_bind _ _ _ (λ _, F)); [by apply hoare_lift|]. intros []; [by apply hoare_ret|].
  eapply (hoare_bind _ _ _ (λ _, F)); [by apply hoare_publish|]. intros _. by apply hoare_ret.
Qed.

Lemma clean_fence c step steps result :
  hoare F (clean c step steps result) (λ pt w, F w ∧ (event_of c = id → enqueues pt = false)) F.
Proof.
  destruct step as [at_ ev|at_|at_ reason preserve]; cbn [clean].
  - eapply (hoare_bind _ _ _ (λ _, F)); [|by intros a; apply hoare_ret].
    eapply (hoare_bind _ _ _ (λ _, F)); [by apply hoare_read|]. by intros st w Hw.
  - eapply (hoare_bind _ _ _ (λ _, F)); [|by intros a; apply hoare_ret].
    do 2 (eapply (hoare_bind _ _ _ (λ _, F)); [by first [apply hoare_read|apply hoare_lift]|]; intros ?). by intros w Hw.
  - eapply (hoare_bind _ _ _ (λ _, F)); [apply persist_fence|]. intros b. by apply hoare_ret.
Qed.

Lemma enqueue_fence c prep e evidence :
  hoare F (enqueue_point to_et settings c prep e evidence) (λ pt w, F w ∧ (event_of c = id → enqueues pt = false)) F.
Proof.
  unfold enqueue_point. eapply (hoare_bind _ _ _ (λ _, F)).
  - apply try_fence. intros s s' r. apply enqueue_notification_retains.
  - intros answer. apply hoare_ret. intros w Hw. split; [done|]. intros _. destruct answer as [r|]; [|done]. by destruct (er_accepted r).
Qed.

Lemma acknowledge_fence c prep e evidence r :
  hoare F (acknowledge_point settings c prep e evidence r) (λ pt w, F w ∧ (event_of c = id → enqueues pt = false)) F.
Proof.
  eapply (hoare_bind _ _ _ (λ _, F)); [|intros [b reason]; by apply hoare_ret].
  unfold acknowledge_trade_intent_enqueue. eapply (hoare_bind _ _ _ (λ _, F)); [by apply hoare_read|]. intros state.
  eapply (hoare_bind _ _ _ (λ _, F)); [eapply hoare_conseq; [apply (ack_refusal_row F)|done|by intros ? ? []]|]. intros refusal.
  do 4 (eapply (hoare_bind _ _ _ (λ _, F)); [by apply hoare_lift|]; intros ?).
  eapply (hoare_bind _ _ _ (λ _, F)); [by apply hoare_publish|]. intros _. by apply hoare_ret.
Qed.

(** ** The system *)

Definition stays_out (y : System) : Prop :=
  fenced (outbox (shared y)) id ∧ Forall (λ t, event_of (call t) = id → enqueues (at_point t) = false) (threads y).

Lemma advance_fence c pt w w' pt' :
  fenced (outbox w) id → (event_of c = id → enqueues pt = false) → advance to_et settings c pt w = (w', pt') →
  fenced (outbox w') id ∧ (event_of c = id → enqueues pt' = false).
Proof.
  intros Hw Hpt H.
  assert (Hall : ∀ m, hoare F m (λ pt w, F w ∧ (event_of c = id → enqueues pt = false)) F →
                 settle_point m w = (w', pt') → fenced (outbox w') id ∧ (event_of c = id → enqueues pt' = false)).
  { intros m Hm Hs. destruct (hoare_settle _ _ _ _ _ _ _ Hm Hw Hs) as [|[? [e ->]]]; done. }
  destruct pt as [|prep e ev|prep e ev r|[|step steps] result|r]; cbn [advance] in H; try (by injection H as <- <-);
    (eapply Hall; [|exact H]).
  - apply start_fence.
  - apply enqueue_fence.
  - apply acknowledge_fence.
  - apply clean_fence.
Qed.

Lemma stays_out_run callable y y' : rtc (sys_step to_et settings callable) y y' → stays_out y → stays_out y'.
Proof.
  intros H. induction H as [|y1 y2 y3 H1 _ IH]; [done|]. intros [Hf Hth]. apply IH. clear IH.
  destruct H1 as [i t w' pt' Ht Hadv|c Hc|i|busy lost world Hw]; split; cbn [shared threads]; try done.
  - eapply advance_fence; [exact Hf| |exact Hadv]. by apply (Forall_lookup_1 _ _ _ _ Hth Ht).
  - apply Forall_insert; [done|]. cbn [call at_point]. eapply advance_fence; [exact Hf| |exact Hadv].
    by apply (Forall_lookup_1 _ _ _ _ Hth Ht).
  - apply Forall_app. split; [done|]. by constructor.
  - by apply Forall_delete.
  - apply step_retains in Hw. by eapply fenced_mono.
Qed.
End fence.
