(* ===== verification/TradeAlerts.v ===== *)
(** * The guarantees of trade alerts

    The theorems on [process_trade_intent] and its acknowledgement, under any
    interleaving of calls, crashes and steps of the outbox. *)

From stdpp Require Import base list strings relations.
From Stdlib Require Import Ascii ZArith Lia.
From S2P Require Import Prelude PyStr PyFloat PyTime PyDateTime PyDict PyVal PyHash PyJson StateIo MarketCalendar Outbox OutboxFacts Delivery DeliveryProps StrategyContract TradeIntent Dispatcher TradeDelivery TradeCalls TradeFacts TradeClaims TradeProps TradeRecovery TradeFences.

#[local] Open Scope Z_scope.

(** ** Claims by reconciliation *)

Lemma restored_claim settings c answer cl p :
  durable answer = true → event_of c ≠ "" → key_of c ≠ "" →
  dget (event_of c) (semantic_keys (producer (settle_reconciliation settings c answer cl p))) = Some (key_of c).
Proof.
  intros Hd He Hk. unfold settle_reconciliation. apply String.eqb_neq in He, Hk. rewrite Hd, He. cbn [andb negb restore_acceptance producer].
  rewrite Hk. cbn [semantic_keys with_acceptance]. apply dget_dset_eq.
Qed.

Lemma section_claims settings c prep :
  (∀ e, envelope prep = Some e → for_event c e) → key_of c ≠ "" →
  hoare (λ _, True) (locked_section settings c prep)
    (λ v w, vd_durable v = true → alerted (event_of c) (key_of c) w) (λ _, True).
Proof.
  intros He Hk. unfold locked_section. eapply hoare_bind; [by apply hoare_read with (Q := λ _ _, True)|]. intros state.
  eapply hoare_bind; [by apply hoare_lift with (Q := λ _ _, True)|]. intros p. cbv zeta.
  eapply (hoare_bind _ _ _ (λ _ _, True)); [case_match; [by apply hoare_ret|by intros w _]|]. intros _.
  eapply (hoare_bind _ _ _ (λ _ _, True)).
  { intros w _. by destruct (cancel_all _ _ _ _ w) as [? []]. }
  intros p2. eapply hoare_bind.
  { eapply (hoare_conseq _ _ _ (λ r w, durable r.1 = true → event_of c ≠ "" ∧ has_row (outbox w) (event_of c)));
      [by apply (inspect_event_spec (λ _, True))|done|naive_solver]. }
  intros [answer p3]. cbn [fst].
  pose proof (restored_claim settings c answer (key_claimed (key_of c) p) p3) as Hcl.
  set (r := settle_reconciliation _ _ _ _ _) in *.
  unfold conclude_section. destruct (judge c (durable answer) r) as [v p4] eqn:Ej.
  assert (Hv : vd_durable v = durable answer ∧ semantic_keys p4 = semantic_keys (producer r)).
  { unfold judge in Ej. injection Ej as <- <-. by destruct (durable answer). }
  destruct Hv as [Hv Hk4].
  eapply (hoare_bind _ _ _ (λ p5 w, (durable answer = true → event_of c ≠ "" ∧ has_row (outbox w) (event_of c))
                                    ∧ semantic_keys p5 = semantic_keys (producer r))).
  { destruct (takes_lease c prep v); [|by apply hoare_ret].
    eapply hoare_bind; [by apply hoare_lift with (Q := λ _ w, durable answer = true → event_of c ≠ "" ∧ has_row (outbox w) (event_of c))|].
    intros l. apply hoare_ret. intros w Hw. split; [exact Hw|exact Hk4]. }
  intros p5. apply hoare_pure. intros Hk5.
  eapply hoare_bind; [by apply hoare_lift with (Q := λ _ w, durable answer = true → event_of c ≠ "" ∧ has_row (outbox w) (event_of c))|].
  intros persisted. eapply (hoare_bind _ _ _ (λ _ w, durable answer = true → alerted (event_of c) (key_of c) w)).
  - apply hoare_publish; [|done]. intros w sg log Hw Hd. destruct (Hw Hd) as [Hne Hrow]. split; [|exact Hrow].
    cbn [published state_file]. rewrite written_reads, claim_in_canon.
    rewrite (claim_of_keys _ _ _ (next_state_keys _ _ _ _ _)), Hk5. by apply Hcl.
  - intros _. apply hoare_ret. intros w Hw. by rewrite Hv.
Qed.

(** ** Reconciled calls *)

Lemma intent_id_of_event c : event_of c ≠ "" → String.eqb (get_str "intent_id" (intent c)) "" = false.
Proof.
  unfold event_of, trade_ready_delivery_event_id. destruct (ready c); [|done]. destruct (String.eqb (get_str "intent_id" (intent c)) ""); done.
Qed.

(** The call of a section that took its event as accepted. *)
Lemma found_reconciles settings c prep e w p shown :
  finds settings c prep e w p shown →
  after_section settings c prep {| vd_durable := true; vd_blocked_by_cancellation := false; vd_fault := None;
                                   vd_duplicate := true; vd_in_progress := false |} = Ok (Cleaning [] reconciled_delivery_result).
Proof.
  intros [Hr _ Hre _ He _ _ _ _ _ _ _ _]. unfold after_section. rewrite Hr, Hre, (intent_id_of_event c He). cbn [negb].
  apply String.eqb_neq in He as ->. done.
Qed.

Lemma shown_accepted d ev reason p :
  delivery_projection d ev "outbox_accepted" reason = Ok p → ev ≠ "" →
  vget "status" p = VStr "trade_ready" ∧ vget "notification_event_id" p = VStr ev.
Proof.
  intros H He. split; [|by eapply projection_accepted]. unfold delivery_projection in H. cbn [String.eqb] in H. injection H as <-.
  apply vget_dset_eq.
Qed.

(** ** Theorems *)

Section alerts.
Context (to_et : Z → Z) (settings : NotificationSettings).

(** C4: one alert per opportunity.  Once the alert of an event was acknowledged,
    or found in the outbox, its opportunity is closed: whatever calls start,
    run, or die from then on, and whatever the outbox does, no call for the
    same opportunity comes to ask the outbox again.  The calls of the event are
    of one opportunity. *)
Theorem acknowledged_opportunity_is_closed callable c prep w w' ts y' :
  outbox_configured settings = true → key_of c ≠ "" → prepare settings c = Ok prep →
  (∃ e evidence reason, envelope prep = Some e
     ∧ acknowledge_trade_intent_enqueue settings c prep e evidence w = (w', Ok (true, reason)))
  ∨ (∃ v, locked_section settings c prep w = (w', Ok v) ∧ vd_durable v = true) →
  (∀ c', callable c' → consistent (event_of c) (key_of c) c') →
  Forall (λ t, consistent (event_of c) (key_of c) (call t)
               ∧ (key_of (call t) = key_of c → enqueues (at_point t) = false)) ts →
  rtc (sys_step to_et settings callable) {| shared := w'; threads := ts |} y' →
  Forall (λ t, key_of (call t) = key_of c → enqueues (at_point t) = false) (threads y').
Proof.
  intros Hq Hk Hprep Hstart Hcall Hts Hrun. pose proof (λ e, prepare_for_event settings c prep e Hprep) as He.
  assert (Hw : alerted (event_of c) (key_of c) w').
  { destruct Hstart as [(e & evidence & reason & Hen & H)|(v & H & Hv)].
    - pose proof (acknowledge_claims settings c prep e evidence Hq (He e Hen) Hk w I) as G. rewrite H in G. by apply G.
    - pose proof (section_claims settings c prep He Hk w I) as G. rewrite H in G. by apply G. }
  destruct (quiet_run to_et settings (event_of c) (key_of c) callable _ y' Hk Hcall Hrun) as [_ Hall]; [by split|].
  eapply Forall_impl; [exact Hall|]. by intros t [_ Ht].
Qed.

(** C9: the latest file tells the truth.  With a configured outbox, in every
    run from a truthful state, the latest intent is shown as ready to trade only
    when the outbox holds the rows of its alert. *)
Theorem latest_file_is_truthful callable y y' :
  outbox_configured settings = true → threads y = [] → truthful (shared y) →
  rtc (sys_step to_et settings callable) y y' → truthful (shared y').
Proof. intros Hq Hth Hw Hrun. eapply truth_run; [done|done| |done]. by rewrite Hth. Qed.

(** What an alert that goes to the outbox says at the moment it goes. *)
Definition alert_in_order (c : Call) : Prop :=
  authorized (intent c)
  ∧ vget "block_reasons" (intent c) = VList []
  ∧ (∃ until, parse_aware_time (vget "valid_until" (intent c)) = Ok (Some until) ∧ action_now c < until)
  ∧ (∃ stop, parse_time (vget "time_stop_at" (intent c)) = Ok (Some stop) ∧ action_now c < stop)
  ∧ (∀ policy, expected_policy_version c = Some policy → policy = "" ∨ vstr_or "policy_version" "" (intent c) = policy)
  ∧ delivery_coordinate_reason (intent c) = None
  ∧ ∃ up : bool, vstr_or "direction" "" (intent c) = (if up then "up" else "down")
      ∧ option_contract_right (vget "contract_id" (intent c)) = Some (if up then "C" else "P")
      ∧ priced up (intent c).

(** C13: an alert that goes to the outbox is in order.  Whatever the
    interleaving, a call that is about to enqueue carries an intent of an
    approved lane, with its direction and right, that is not blocked and has not
    expired at action time, whose coordinate is coherent and whose card prices
    bound entry, loss, trigger and spot. *)
Theorem enqueued_alert_in_order callable y y' t :
  rtc (sys_step to_et settings callable) y y' → threads y = [] → t ∈ threads y' → enqueues (at_point t) = true →
  alert_in_order (call t).
Proof.
  intros Hrun Hth Ht He. assert (Hall : Forall (λ t, carries (call t) (at_point t)) (threads y')).
  { eapply carries_run; [done|]. by rewrite Hth. }
  apply (proj1 (Forall_forall _ _) Hall) in Ht. destruct (at_point t) as [|prep e ev| | |]; try done.
  destruct Ht as (_ & _ & Hr & Hm). apply ready_contract_holds in Hr as (_ & Ha & Hac & _ & Hpol & Hco).
  apply actionable_holds in Hac as (Hb & Hu). apply card_holds in Hm as (up & Hd & Hright & _ & Hp & Hs).
  unfold alert_in_order. split_and!; try done. by exists up.
Qed.

(** A call ends.  However the others change the shared state before each of
    its stretches, a call is over after six of them. *)
Theorem calls_end others c w :
  (STRETCHES ≤ length others)%nat → ∃ r, (run_among to_et settings others c Start w).2 = Done r.
Proof.
  intros Hl. pose proof (run_among_short to_et settings others c Start w) as H. cbn [stretches_left] in H.
  unfold STRETCHES in Hl. destruct (run_among to_et settings others c Start w).2 as [|?? ?|????|? ?|r]; cbn in H; try lia. by exists r.
Qed.

(** C14: an alert that was enqueued before its call died is taken as accepted.
    The next call with the same intent, on a state that it can read and in
    which nothing ended the event, finds the alert in the outbox: it ends with
    the reconciled result, shows the intent as ready to trade, and claims the
    opportunity; it enqueues nothing. *)
Theorem crashed_alert_is_recovered c c' prep prep' e s s1 r at_ w p shown :
  prepare settings c = Ok prep → envelope prep = Some e → fresh s (event_of c) →
  enqueue_notification to_et settings s e (message_of c) at_ = Ok (s1, r) → er_accepted r = true →
  intent c' = intent c → rendered c' = rendered c → prepare settings c' = Ok prep' → outbox w = s1 →
  finds settings c' prep' e w p shown →
  ∃ w', advance to_et settings c' Start w = (w', Cleaning [] reconciled_delivery_result)
    ∧ outbox w' = s1
    ∧ vget "status" (json_object (latest_file w')) = VStr "trade_ready"
    ∧ vget "notification_event_id" (json_object (latest_file w')) = VStr (event_of c)
    ∧ (key_of c ≠ "" → alerted (event_of c) (key_of c) w').
Proof.
  intros Hp He Hf Hen Ha Hi Hr Hp' Hout Hfd. destruct (prepare_again _ _ _ _ _ Hi Hr Hp Hp') as (_ & Efp & Ets).
  assert (Hev : event_of c' = event_of c) by (unfold event_of, ready; by rewrite Hi).
  assert (Hkey : key_of c' = key_of c) by (unfold key_of; by rewrite Hi).
  assert (Hmsg : message_of c' = message_of c) by (unfold message_of; by rewrite Hr).
  destruct (prepare_for_event _ _ _ _ Hp He) as [Hid Hne].
  assert (Hacc : answers_accepted settings c' prep' e w).
  { intros f t Hfx Htx. rewrite Hmsg, Hout. rewrite Efp in Hfx. rewrite Ets in Htx.
    eapply (enqueued_is_accepted to_et settings s e (message_of c) at_ s1 r (fingerprint prep) (targets prep)); try done.
    - destruct (prepared_envelope _ _ _ _ Hp He) as (_ & (? & ? & ->) & _). in_list.
    - by rewrite Hid.
    - apply (prepared_envelope _ _ _ _ Hp He). apply (fd_configured _ _ _ _ _ _ _ Hfd). }
  destruct (section_found settings c' prep' e w p shown Hfd Hacc) as (w' & v & Hsec & -> & Hout' & Hlat & Hcl).
  exists w'. split.
  { cbn [advance]. unfold settle_point, start_point, mbind, run_bind, lift. rewrite Hp', Hsec.
    by rewrite (found_reconciles _ _ _ _ _ _ _ Hfd). }
  split; [congruence|]. rewrite Hlat, !vget_canon. destruct (shown_accepted _ _ _ _ (fd_shown _ _ _ _ _ _ _ Hfd)) as [-> Hn].
  { by rewrite Hev. }
  rewrite Hn, Hev in *. split; [done|]. split; [done|]. intros Hk. split; [rewrite <- Hkey; apply Hcl; by rewrite Hkey|].
  destruct (Hacc "" []) as (i & Hin & Hai); [by left|by left|]. apply inspect_event_reason in Hin as [_ Hrow]. rewrite Hout', <- Hid. by apply Hrow.
Qed.

(** C11: a cancelled alert stays cancelled.  After the outbox took the
    cancellation of an event, no call that had not already decided comes to
    deliver the event, whatever the producer's lists have forgotten; and the
    outbox accepts it from nobody and stays as it is. *)
Theorem cancelled_alert_stays_cancelled callable id fence s at_ reason s' n w ts y' :
  outbox_configured settings = true → cancel_pending_notification settings fence s id at_ reason = Ok (s', n) →
  Forall (λ t, event_of (call t) = id → enqueues (at_point t) = false) ts →
  rtc (sys_step to_et settings callable) {| shared := with_outbox s' w; threads := ts |} y' →
  Forall (λ t, event_of (call t) = id → enqueues (at_point t) = false) (threads y')
  ∧ ∀ e m clock s1 r,
      en_event_id e = id → en_lane e = "trade_ready" →
      enqueue_notification to_et settings (outbox (shared y')) e m clock = Ok (s1, r) →
      er_accepted r = false ∧ s1 = outbox (shared y').
Proof.
  intros Hq Hc Hts Hrun. assert (Hf : fenced s' id).
  { unfold cancel_pending_notification in Hc. apply res_bind_ok in Hc as ([targets ?] & _ & Hc).
    apply res_bind_ok in Hc as ([] & _ & Hc). by eapply cancel_fences. }
  destruct (stays_out_run to_et settings id Hq callable _ y' Hrun) as [Hf' Hall]; [by split|]. split; [exact Hall|].
  intros e m clock s1 r <- Hlane. apply enqueue_fenced; [|done]. rewrite Hlane. in_list.
Qed.
End alerts.

(** ** The sample alert *)

Section runs.
Context (to_et : Z → Z) (settings : NotificationSettings) (callable : Call → Prop).

(** A call that runs alone is a run of the system. *)
Lemma call_runs n c pt w :
  rtc (sys_step to_et settings callable) {| shared := w; threads := [{| call := c; at_point := pt |}] |}
    (let '(w', pt') := run_call to_et settings n c pt w in {| shared := w'; threads := [{| call := c; at_point := pt' |}] |}).
Proof.
  revert pt w. induction n as [|n IH]; intros pt w; cbn [run_call]; [reflexivity|].
  destruct (advance to_et settings c pt w) as [w1 pt1] eqn:E. eapply rtc_l; [|apply IH].
  exact (sys_advance to_et settings callable {| shared := w; threads := [{| call := c; at_point := pt |}] |} 0 _ w1 pt1 eq_refl E).
Qed.

Lemma begin_runs n c w :
  callable c →
  rtc (sys_step to_et settings callable) {| shared := w; threads := [] |}
    (let '(w', pt') := run_call to_et settings n c Start w in {| shared := w'; threads := [{| call := c; at_point := pt' |}] |}).
Proof. intros H. eapply rtc_l; [by apply (sys_begin _ _ _ {| shared := w; threads := [] |} c)|]. apply call_runs. Qed.
End runs.

Definition sample_callable (c : Call) : Prop := ∃ now, c = sample_call now.

Definition sample_prepared : Prepared :=
  match prepare sample_settings (sample_call at_open) with Ok prep => prep | Err _ => {| contract_reason := None; envelope := None; fingerprint := ""; targets := [] |} end.
Definition sample_envelope : NotificationEnvelope := envelope_of (sample_call at_open) at_open (Some (minutes 5)).

Lemma sample_consistent now : consistent sample_id sample_key (sample_call now).
Proof. intros _. vm_compute. reflexivity. Qed.

Lemma acknowledged_opportunity_is_closed_witness :
  ∃ w', (acknowledge_trade_intent_enqueue sample_settings (sample_call at_open) sample_prepared sample_envelope [] enqueued_desk)
        = (w', Ok (true, "outbox_enqueue_accepted"))
    ∧ ∀ y', rtc (sys_step to_et_sample sample_settings sample_callable)
              {| shared := w'; threads := [{| call := sample_call (minutes 1); at_point := Start |}] |} y' →
            Forall (λ t, key_of (call t) = sample_key → enqueues (at_point t) = false) (threads y').
Proof.
  destruct (acknowledge_trade_intent_enqueue sample_settings (sample_call at_open) sample_prepared sample_envelope [] enqueued_desk)
    as [w' o] eqn:E.
  assert (Ho : o = Ok (true, "outbox_enqueue_accepted")) by (apply (f_equal snd) in E; vm_compute in E; by subst o).
  subst o. exists w'. split; [reflexivity|]. intros y' Hrun.
  refine (acknowledged_opportunity_is_closed to_et_sample sample_settings sample_callable (sample_call at_open) sample_prepared
            enqueued_desk w' _ y' eq_refl _ _ (or_introl _) _ _ Hrun).
  - by vm_compute.
  - by vm_compute.
  - exists sample_envelope, [], "outbox_enqueue_accepted". split; [by vm_compute|exact E].
  - intros c' [now ->]. apply sample_consistent.
  - constructor; [|constructor]. split; [apply sample_consistent|done].
Defined.

Lemma latest_file_is_truthful_witness :
  let w := (process_trade_intent to_et_sample sample_settings (sample_call at_open) new_desk).1 in
  vget "status" (json_object (latest_file w)) = VStr "trade_ready" ∧ truthful w.
Proof.
  split; [by vm_compute|].
  pose proof (begin_runs to_et_sample sample_settings sample_callable STRETCHES (sample_call at_open) new_desk (ex_intro _ at_open eq_refl)) as Hrun.
  unfold process_trade_intent. destruct (run_call to_et_sample sample_settings STRETCHES (sample_call at_open) Start new_desk) as [w pt].
  assert (H0 : truthful (shared {| shared := new_desk; threads := [] |})) by done.
  pose proof (latest_file_is_truthful to_et_sample sample_settings sample_callable {| shared := new_desk; threads := [] |} _
                eq_refl eq_refl H0 Hrun) as G.
  by destruct pt.
Defined.

Lemma enqueued_alert_in_order_witness :
  enqueues (run_call to_et_sample sample_settings 1 (sample_call at_open) Start new_desk).2 = true ∧ alert_in_order (sample_call at_open).
Proof.
  split; [by vm_compute|].
  pose proof (begin_runs to_et_sample sample_settings sample_callable 1 (sample_call at_open) new_desk (ex_intro _ at_open eq_refl)) as Hrun.
  destruct (run_call to_et_sample sample_settings 1 (sample_call at_open) Start new_desk) as [w pt] eqn:E.
  refine (enqueued_alert_in_order to_et_sample sample_settings sample_callable
            {| shared := new_desk; threads := [] |} _ {| call := sample_call at_open; at_point := pt |} Hrun eq_refl _ _); [left|].
  apply (f_equal snd) in E. vm_compute in E. by subst pt.
Defined.

Lemma calls_end_witness :
  ∃ r, (run_among to_et_sample sample_settings (replicate 6 id) (sample_call at_open) Start new_desk).2 = Done r.
Proof. apply calls_end. exact (le_n 6). Defined.

(** What the second call finds on the desk of the call that died. *)
Definition found_prepared : Prepared :=
  match prepare sample_settings (sample_call (minutes 1)) with Ok prep => prep | Err _ => sample_prepared end.
Definition found_producer : Producer :=
  match load_producer (json_object (state_file enqueued_desk)) (minutes 1) sample_id (delivery_lease_seconds sample_intent (minutes 1)) with
  | Ok p => p
  | Err _ => {| accepted := []; semantic_keys := []; lifecycle_events := []; inflight := []; cancellation_pending := [];
                cancellation_reasons := []; cancellation_times := []; terminal_ids := [] |}
  end.
Definition found_shown : pydict :=
  match delivery_projection sample_intent sample_id "outbox_accepted" "outbox_event_reconciled" with Ok d => d | Err _ => [] end.

Lemma sample_finds : finds sample_settings (sample_call (minutes 1)) found_prepared sample_envelope enqueued_desk found_producer found_shown.
Proof.
  split; try (by vm_compute).
  - vm_compute. intros H. by apply not_elem_of_nil in H.
  - in_list.
  - vm_compute. split; right; reflexivity.
  - eexists. vm_compute. reflexivity.
Qed.

Definition sample_enqueued : EnqueueResult := {|
  er_targets := ["bark"]; er_outcome := "pending"; er_accepted := true; er_inserted := true; er_duplicate := false;
  er_delivered := false; er_queued_for_recovery := true |}.

Lemma sample_enqueue :
  enqueue_notification to_et_sample sample_settings empty_store sample_envelope (message_of (sample_call at_open)) at_open
  = Ok (outbox enqueued_desk, sample_enqueued).
Proof. vm_compute. reflexivity. Qed.

Lemma crashed_alert_is_recovered_witness :
  ∃ w', advance to_et_sample sample_settings (sample_call (minutes 1)) Start enqueued_desk = (w', Cleaning [] reconciled_delivery_result)
    ∧ outbox w' = outbox enqueued_desk
    ∧ vget "status" (json_object (latest_file w')) = VStr "trade_ready"
    ∧ vget "notification_event_id" (json_object (latest_file w')) = VStr sample_id
    ∧ (sample_key ≠ "" → alerted sample_id sample_key w').
Proof.
  refine (crashed_alert_is_recovered to_et_sample sample_settings (sample_call at_open) (sample_call (minutes 1)) sample_prepared found_prepared
            sample_envelope empty_store _ _ at_open enqueued_desk found_producer found_shown _ _ _ sample_enqueue eq_refl eq_refl eq_refl _ eq_refl
            sample_finds).
  - vm_compute. reflexivity.
  - vm_compute. reflexivity.
  - intros x Hx. by apply not_elem_of_nil in Hx.
  - vm_compute. reflexivity.
Defined.

(** The sample alert, cancelled on the desk that enqueued it. *)
Definition fenced_store : Store :=
  match cancel_pending_notification sample_settings false (outbox enqueued_desk) sample_id (minutes 1) "trade_intent_lifecycle_invalidated" with
  | Ok (s, _) => s
  | Err _ => empty_store
  end.

Lemma cancelled_alert_stays_cancelled_witness :
  let pt := (run_call to_et_sample sample_settings 1 (sample_call (minutes 2)) Start (with_outbox fenced_store enqueued_desk)).2 in
  event_of (sample_call (minutes 2)) = sample_id ∧ enqueues pt = false.
Proof.
  cbv zeta. assert (He : event_of (sample_call (minutes 2)) = sample_id) by (vm_compute; reflexivity). split; [exact He|].
  pose proof (begin_runs to_et_sample sample_settings sample_callable 1 (sample_call (minutes 2)) (with_outbox fenced_store enqueued_desk)
                (ex_intro _ (minutes 2) eq_refl)) as Hrun.
  destruct (run_call to_et_sample sample_settings 1 (sample_call (minutes 2)) Start (with_outbox fenced_store enqueued_desk)) as [w pt].
  assert (Hc : cancel_pending_notification sample_settings false (outbox enqueued_desk) sample_id (minutes 1)
                 "trade_intent_lifecycle_invalidated" = Ok (fenced_store, 1)) by (vm_compute; reflexivity).
  pose proof (proj1 (cancelled_alert_stays_cancelled to_et_sample sample_settings sample_callable sample_id false (outbox enqueued_desk)
                (minutes 1) "trade_intent_lifecycle_invalidated" fenced_store 1 enqueued_desk [] _ eq_refl Hc (Forall_nil_2 _) Hrun)) as G.
  inversion G as [|? ? Hpt _]; subst. exact (Hpt He).
Defined.
