(* ===== verification/Sampling.v ===== *)
(** * The sampling plan and the option lines made from it

    [sampling.py]: the strikes around the money, their rotating groups and the
    contracts of both lanes.  [ibkr/stream/contracts.py]: the plan cut to a line
    budget, a hot lane and the slices that rotate through what is left.  The
    plan is a permutation of whole call/put pairs: [pair_plan] says which. *)

From stdpp Require Import base list strings sorting pretty.
From Stdlib Require Import Ascii ZArith Lia.
From S2P Require Import Prelude PyStr PyFloat PyTime PyDateTime PyDict PyVal MarketCalendar LineQuota.

#[local] Open Scope Z_scope.

(** ** Ranges and slices *)

(** [range(start, stop, step)]. *)
Definition py_range (start stop step : Z) : res (list Z) :=
  if step =? 0 then Err ValueError
  else
    let n := if 0 <? step then (stop - start + step - 1) / step else (start - stop - step - 1) / (- step) in
    Ok (map (λ i, start + step * Z.of_nat i) (seq 0 (Z.to_nat n))).

(** [[items[i : i + size] for i in range(0, len(items), size)]], [0 < size]. *)
Definition slices {A} (size : Z) (items : list A) : list (list A) :=
  map (λ i, take (Z.to_nat size) (drop (Z.to_nat size * i) items))
    (seq 0 (Z.to_nat ((Z.of_nat (length items) + size - 1) / size))).

(** [chunked]. *)
Definition chunked {A} (items : list A) (size : Z) : list (list A) := slices (if 0 <? size then size else 1) items.

(** [datetime.strptime(s, "%Y%m%d").date()]: the month and the day may have
    one digit, the day a space before it; two digits are tried first. *)
Definition two_digits (low high : Z) (s : string) : list (Z * string) :=
  match take_digits 2 s with Some (z, rest) => if (low <=? z) && (z <=? high) then [(z, rest)] else [] | None => [] end.
Definition one_digit (s : string) : list (Z * string) :=
  match take_digits 1 s with Some (z, rest) => if 1 <=? z then [(z, rest)] else [] | None => [] end.
Definition strptime_month (s : string) : list (Z * string) := two_digits 1 12 s ++ one_digit s.
Definition strptime_day (s : string) : list (Z * string) :=
  two_digits 1 31 s ++ one_digit s ++ (if str_starts " " s then one_digit (str_drop 1 s) else []).
Definition strptime_compact (s : string) : res Z :=
  '(year, rest) ← of_option ValueError (take_digits 4 s);
  '(month, day, rest) ← of_option ValueError
      (head ('(m, rest) ← strptime_month rest; '(d, rest) ← strptime_day rest; [(m, d, rest)]));
  _ ← raise_unless (String.eqb rest "") ValueError;
  mk_date year month day.

(** ** Contracts *)

Record OptionContractSpec := Spec {
  expiry : string;
  strike : Z;
  opt_right : string;
  lane : string;
  group_index : option Z;
}.
#[global] Instance OptionContractSpec_eq_dec : EqDecision OptionContractSpec.
Proof. solve_decision. Defined.

Record SamplingGroup := {
  g_index : Z;
  cadence_seconds : Z;
  g_strikes : list Z;
  g_contracts : list OptionContractSpec;
}.

Record SamplingSettings := {
  strike_step : Z;
  window_points : Z;
  hot_window_points : Z;
  group_count : Z;
  group_interval_seconds : Z;
  degraded_group_count : Z;
  degraded_group_interval_seconds : Z;
  group_strategy : string;
  hot_human_cadence_seconds : Z;
  hot_execution_cadence_seconds : Z;
  include_next_expiry : bool;
  default_mode : string;
  next_expiry_window_points : Z;
  next_expiry_hot_window_points : Z;
}.

Record SamplingPlan := {
  created_at : string;
  sp_mode : string;
  underlier_price : float;
  atm_strike : Z;
  expiries : list string;
  sp_strike_step : Z;
  sp_window_points : Z;
  sp_hot_window_points : Z;
  hot_cadence_seconds : Z;
  sp_group_strategy : string;
  hot_lane : list OptionContractSpec;
  rolling_groups : list SamplingGroup;
}.

Definition hot_contract_count (p : SamplingPlan) : Z := Z.of_nat (length (hot_lane p)).
Definition rolling_contract_count (p : SamplingPlan) : Z :=
  foldr (λ g n, Z.of_nat (length (g_contracts g)) + n) 0 (rolling_groups p).
Definition full_scan_seconds (p : SamplingPlan) : Z := foldr (λ g n, cadence_seconds g + n) 0 (rolling_groups p).

Definition VALID_GROUP_STRATEGIES : list string := ["contiguous"; "interleaved"].
Definition VALID_MODES : list string := ["human_alert"; "execution_monitor"; "degraded"].

Definition round_to_step (value : float) (step : Z) : res Z :=
  q ← fdiv value (f_of_Z step); n ← f_round_int q; Ok (n * step).

Definition build_strikes (center window_points step : Z) : res (list Z) :=
  let start := center - window_points in
  let stop := center + window_points in
  strikes ← py_range start (stop + step) step;
  Ok (filter (λ strike, 0 < strike) strikes).

(** The group of the strike at [index]. *)
Definition group_of (strategy : string) (group_count total index : Z) : Z :=
  if String.eqb strategy "interleaved" then index mod group_count
  else Z.min ((index * group_count) / total) (group_count - 1).

(** [groups[group_index].append(strike)], from the strike at [index] on. *)
Fixpoint assign_groups (strategy : string) (group_count total index : Z) (strikes : list Z) (groups : list (list Z))
    : list (list Z) :=
  match strikes with
  | [] => groups
  | strike :: strikes =>
      assign_groups strategy group_count total (index + 1) strikes
        (alter (λ g, g ++ [strike]) (Z.to_nat (group_of strategy group_count total index)) groups)
  end.

Definition split_groups (strikes : list Z) (group_count : Z) (strategy : string) : res (list (list Z)) :=
  if group_count <=? 0 then Err ValueError
  else if negb (bool_decide (strategy ∈ VALID_GROUP_STRATEGIES)) then Err ValueError
  else
    let groups := assign_groups strategy group_count (Z.of_nat (length strikes)) 0 strikes
                    (replicate (Z.to_nat group_count) []) in
    Ok (filter (λ g, g ≠ []) groups).

(** The call and the put of a strike. *)
Definition legs (lane : string) (group_index : option Z) (p : string * Z) : list OptionContractSpec :=
  [Spec p.1 p.2 "C" lane group_index; Spec p.1 p.2 "P" lane group_index].

(** The strikes of each expiry: all of them for the first, those of
    [next_expiry_strikes] for the others. *)
Fixpoint expiry_pairs (first : bool) (expiries : list string) (strikes : list Z) (next_expiry_strikes : option (list Z))
    : list (string * Z) :=
  match expiries with
  | [] => []
  | e :: expiries =>
      let kept := match next_expiry_strikes with
                  | Some nexts => if first then strikes else filter (λ k, k ∈ nexts) strikes
                  | None => strikes
                  end in
      map (pair e) kept ++ expiry_pairs false expiries strikes next_expiry_strikes
  end.

Definition build_contracts (expiries : list string) (strikes : list Z) (lane : string) (group_index : option Z)
    (next_expiry_strikes : option (list Z)) : list OptionContractSpec :=
  flat_map (legs lane group_index) (expiry_pairs true expiries strikes next_expiry_strikes).

Definition next_weekday_expiry (expiry : string) : res string :=
  parsed ← strptime_compact expiry;
  strftime_ymd <$> next_trading_day DEFAULT_MARKET_CALENDAR parsed.

Definition resolve_expiries (expiry : string) (next_expiry : option string) (include_next_expiry : bool) : res (list string) :=
  if include_next_expiry then
    next ← match next_expiry with
           | Some e => if String.eqb e "" then next_weekday_expiry expiry else Ok e
           | None => next_weekday_expiry expiry
           end;
    Ok [expiry; next]
  else Ok [expiry].

(** The groups of the scan, numbered from [index]. *)
Fixpoint sampling_groups (expiries : list string) (nexts : list Z) (interval index : Z) (groups : list (list Z))
    : list SamplingGroup :=
  match groups with
  | [] => []
  | strikes :: groups =>
      {| g_index := index; cadence_seconds := interval; g_strikes := strikes;
         g_contracts := build_contracts expiries strikes "rolling" (Some index) (Some nexts) |}
      :: sampling_groups expiries nexts interval (index + 1) groups
  end.

(** [build_sampling_plan]; [now] is [datetime.now(tz=timezone.utc)]. *)
Definition build_sampling_plan (now : Z) (underlier_price : float) (expiry : string) (next_expiry : option string)
    (mode : string) (settings : SamplingSettings) : res SamplingPlan :=
  if negb (bool_decide (mode ∈ VALID_MODES)) then Err ValueError else
  atm ← round_to_step underlier_price (strike_step settings);
  expiries ← resolve_expiries expiry next_expiry (include_next_expiry settings);
  hot_strikes ← build_strikes atm (hot_window_points settings) (strike_step settings);
  rolling_strikes ← build_strikes atm (window_points settings) (strike_step settings);
  next_hot_strikes ← build_strikes atm (next_expiry_hot_window_points settings) (strike_step settings);
  next_rolling_strikes ← build_strikes atm (next_expiry_window_points settings) (strike_step settings);
  let '(group_count, group_interval) :=
    if String.eqb mode "degraded" then (degraded_group_count settings, degraded_group_interval_seconds settings)
    else (group_count settings, group_interval_seconds settings) in
  let hot_cadence := if String.eqb mode "execution_monitor" then hot_execution_cadence_seconds settings
                     else hot_human_cadence_seconds settings in
  groups ← split_groups rolling_strikes group_count (group_strategy settings);
  Ok {| created_at := isoformat now; sp_mode := mode; underlier_price := underlier_price; atm_strike := atm;
        expiries := expiries; sp_strike_step := strike_step settings; sp_window_points := window_points settings;
        sp_hot_window_points := hot_window_points settings; hot_cadence_seconds := hot_cadence;
        sp_group_strategy := group_strategy settings;
        hot_lane := build_contracts expiries hot_strikes "hot" None (Some next_hot_strikes);
        rolling_groups := sampling_groups expiries next_rolling_strikes group_interval 0 groups |}.

(** One row of [plan_summary]; a group of no strikes would raise. *)
Definition group_summary (g : SamplingGroup) : res pyval :=
  least ← of_option ValueError (min_by Z.ltb (g_strikes g));
  most ← of_option ValueError (max_by (λ a b, b <? a) (g_strikes g));
  Ok (VDict [("index", VInt (g_index g)); ("cadence_seconds", VInt (cadence_seconds g)); ("min_strike", VInt least);
             ("max_strike", VInt most); ("strike_count", VInt (Z.of_nat (length (g_strikes g))));
             ("sample_strikes", VList (map VInt (take 8 (g_strikes g))));
             ("contract_count", VInt (Z.of_nat (length (g_contracts g))))]).

Definition plan_summary (p : SamplingPlan) : res pydict :=
  groups ← res_mapM group_summary (rolling_groups p);
  Ok [("mode", VStr (sp_mode p)); ("underlier_price", VFloat (underlier_price p)); ("atm_strike", VInt (atm_strike p));
      ("expiries", VList (map VStr (expiries p))); ("hot_contract_count", VInt (hot_contract_count p));
      ("rolling_contract_count", VInt (rolling_contract_count p)); ("group_strategy", VStr (sp_group_strategy p));
      ("group_count", VInt (Z.of_nat (length (rolling_groups p)))); ("full_scan_seconds", VInt (full_scan_seconds p));
      ("groups", VList groups)].

(** ** The subscription plan *)

Record OptionSubscriptionPlan := {
  plan_atm : Z;
  plan_expiry : string;
  hot : list OptionContractSpec;
  rotations : list (list OptionContractSpec);
}.
Definition rotation_count (p : OptionSubscriptionPlan) : Z := Z.of_nat (length (rotations p)).

Definition pair_of (s : OptionContractSpec) : string * Z := (expiry s, strike s).
Definition spec_key (s : OptionContractSpec) : string * Z * string := (expiry s, strike s, opt_right s).

(** [abs(strike - atm)], then the expiry, then the strike. *)
Definition pair_lt (atm : Z) (p q : string * Z) : bool :=
  let dp := Z.abs (p.2 - atm) in let dq := Z.abs (q.2 - atm) in
  (dp <? dq) || ((dp =? dq) && (String.ltb p.1 q.1 || (String.eqb p.1 q.1 && (p.2 <? q.2)))).

(** [contract_pairs_by_atm_distance]: [pairs] maps each pair, in the order in
    which it is first seen, to its specs. *)
Definition contract_pairs_by_atm_distance (specs : list OptionContractSpec) (atm_strike : Z) : list OptionContractSpec :=
  let pairs := dedup_keep_first [] (map pair_of specs) in
  flat_map (λ key, sort_by (λ s t, String.ltb (opt_right s) (opt_right t)) (filter (λ s, pair_of s = key) specs))
    (sort_by (pair_lt atm_strike) pairs).

(** The hot lines and the rotating lines of a budget, both even. *)
Definition line_budgets (max_option_lines : Z) (hot_lane_share : float) : res (Z * Z) :=
  let total_budget := Z.max max_option_lines 0 in
  share ← f_trunc (fmul (f_of_Z total_budget) hot_lane_share);
  let hot_budget := Z.min (Z.max 2 share) total_budget in
  let hot_budget := hot_budget - hot_budget mod 2 in
  let rotation_budget := Z.max (total_budget - hot_budget) 0 in
  Ok (hot_budget, rotation_budget - rotation_budget mod 2).

(** The slices of one group: what the hot lane does not hold. *)
Definition group_rotations (atm rotation_budget : Z) (hot_keys : list (string * Z * string)) (contracts : list OptionContractSpec)
    : list (list OptionContractSpec) :=
  slices rotation_budget (filter (λ s, spec_key s ∉ hot_keys) (contract_pairs_by_atm_distance contracts atm)).

Definition build_option_subscription_plan (now : Z) (atm_reference : float) (expiry_ : string) (next_expiry : option string)
    (mode : string) (settings : SamplingSettings) (max_option_lines : Z) (hot_lane_share : float)
    : res OptionSubscriptionPlan :=
  plan ← build_sampling_plan now atm_reference expiry_ next_expiry mode settings;
  '(hot_budget, rotation_budget) ← line_budgets max_option_lines hot_lane_share;
  let ordered_hot := sort_by (λ s t, String.eqb (expiry s) expiry_ && negb (String.eqb (expiry t) expiry_))
                       (contract_pairs_by_atm_distance (hot_lane plan) (atm_strike plan)) in
  let hot_ := take (Z.to_nat hot_budget) ordered_hot in
  let rotations_ := if 2 <=? rotation_budget
                    then flat_map (λ g, group_rotations (atm_strike plan) rotation_budget (map spec_key hot_) (g_contracts g))
                           (rolling_groups plan)
                    else [] in
  Ok {| plan_atm := atm_strike plan; plan_expiry := expiry_; hot := hot_; rotations := rotations_ |}.

Definition should_replan (plan : option OptionSubscriptionPlan) (atm_reference : option float) (replan_drift_points : float)
    (today_expiry : string) : bool :=
  match atm_reference, plan with
  | None, _ => false
  | Some _, None => true
  | Some atm, Some plan =>
      negb (String.eqb (plan_expiry plan) today_expiry)
      || fleb replan_drift_points (fabs (fsub atm (f_of_Z (plan_atm plan))))
  end.

Definition option_spec_label (s : OptionContractSpec) : string :=
  ("option:SPXW:" ++ expiry s ++ ":" ++ str_of_Z (strike s) ++ ":" ++ opt_right s)%string.

(** ** From the capacity to a plan *)

(** [hot_lines / option_lines if option_lines else 0.0]. *)
Definition hot_share (hot_lines option_lines : Z) : float :=
  if option_lines =? 0 then f_of_Z 0 else f_of_ratio hot_lines option_lines.

(** The plan that [ensure_option_plan] makes of a proposal. *)
Definition plan_for_proposal (now proposal_atm : Z) (proposal_expiry next_expiry : string) (settings : SamplingSettings)
    (discovered_capacity : Z) (fallback : bool) (base_subs : list string) (slow_poll_chunk max_option_lines : Z)
    : res OptionSubscriptionPlan :=
  '(_, option_lines, hot_lines) ← planned_option_lines discovered_capacity fallback base_subs slow_poll_chunk max_option_lines;
  build_option_subscription_plan now (f_of_Z proposal_atm) proposal_expiry (Some next_expiry) (default_mode settings) settings
    option_lines (hot_share hot_lines option_lines).

(** ** Lists *)

Lemma flat_map_elem {A B} (f : A → list B) l b : b ∈ flat_map f l ↔ ∃ a, a ∈ l ∧ b ∈ f a.
Proof.
  induction l as [|x l IH]; cbn; [split; [by intros ?%not_elem_of_nil|by intros (? & ?%not_elem_of_nil & _)]|].
  rewrite elem_of_app, IH. setoid_rewrite elem_of_cons. naive_solver.
Qed.

Lemma flat_map_perm {A B} (f : A → list B) l l' : l ≡ₚ l' → flat_map f l ≡ₚ flat_map f l'.
Proof.
  induction 1 as [|x l l' _ IH|x y l|]; cbn; [done|by rewrite IH| |by etrans].
  rewrite !app_assoc. f_equiv. apply Permutation_app_comm.
Qed.

Lemma flat_map_concat {A B} (f : A → list B) ls : flat_map f (concat ls) = concat (map (flat_map f) ls).
Proof. induction ls as [|l ls IH]; cbn; [done|]. by rewrite flat_map_app, IH. Qed.

Lemma flat_map_ext_elem {A B} (f g : A → list B) l : (∀ a, a ∈ l → f a = g a) → flat_map f l = flat_map g l.
Proof.
  induction l as [|x l IH]; intros H; cbn; [done|]. rewrite (H x) by left. f_equal. apply IH. intros a Ha. apply H. by right.
Qed.

Lemma filter_flat_map {A B} (P : B → Prop) (Q : A → Prop) `{∀ b, Decision (P b)} `{∀ a, Decision (Q a)} (f : A → list B) l :
  (∀ a b, a ∈ l → b ∈ f a → P b ↔ Q a) → filter P (flat_map f l) = flat_map f (filter Q l).
Proof.
  induction l as [|x l IH]; intros HPQ; [done|]. cbn [flat_map]. rewrite filter_app, IH by (intros; apply HPQ; [by right|done]).
  destruct (decide (Q x)) as [Hx|Hx].
  - rewrite filter_cons_True by done. cbn. f_equal. apply filter_all, Forall_forall. intros b Hb. by apply (HPQ x b); [left| |].
  - rewrite filter_cons_False by done. replace (filter P (f x)) with (@nil B); [done|]. symmetry.
    apply filter_none, Forall_forall. intros b Hb Hp. by apply Hx, (HPQ x b); [left| |].
Qed.

(** ** Slices *)

Lemma slices_concat_from {A} (n k : nat) (l : list A) :
  (0 < n)%nat → (length l ≤ n * k)%nat → concat (map (λ i, take n (drop (n * i) l)) (seq 0 k)) = l.
Proof.
  intros Hn. revert l. induction k as [|k IH]; intros l Hl; cbn.
  - destruct l; [done|]. cbn in Hl. lia.
  - rewrite Nat.mul_0_r, drop_0, <- seq_shift, map_map. transitivity (take n l ++ drop n l); [f_equal|apply take_drop].
    rewrite <- (IH (drop n l)) by (rewrite length_drop; lia). f_equal. apply map_ext. intros i.
    rewrite drop_drop. do 2 f_equal. lia.
Qed.

Lemma slices_concat {A} size (l : list A) : 0 < size → concat (slices size l) = l.
Proof.
  intros H. apply slices_concat_from; [lia|]. apply Nat2Z.inj_le. rewrite Nat2Z.inj_mul, !Z2Nat.id by (try apply Z.div_pos; lia).
  pose proof (Z.div_mod (Z.of_nat (length l) + size - 1) size ltac:(lia)).
  pose proof (Z.mod_pos_bound (Z.of_nat (length l) + size - 1) size ltac:(lia)). lia.
Qed.

Lemma slices_elem {A} size (l : list A) s : 0 < size → s ∈ slices size l → s ≠ [] ∧ Z.of_nat (length s) ≤ size.
Proof.
  intros Hs (i & -> & Hi)%list_elem_of_fmap. apply elem_of_seq in Hi. cbn in Hi. split.
  - intros E%(f_equal length). rewrite length_take, length_drop in E. cbn in E.
    assert (Hq : Z.of_nat i < (Z.of_nat (length l) + size - 1) / size) by lia.
    assert (Z.of_nat i * size < Z.of_nat (length l)).
    { pose proof (Z.mul_div_le (Z.of_nat (length l) + size - 1) size ltac:(lia)). nia. }
    assert (Z.to_nat size * i < length l)%nat; [|lia]. apply Nat2Z.inj_lt. rewrite Nat2Z.inj_mul, Z2Nat.id by lia. lia.
  - rewrite length_take. lia.
Qed.

(** ** Whole pairs *)

Lemma legs_elem ln gi p s : s ∈ legs ln gi p → pair_of s = p.
Proof. unfold legs. rewrite !elem_of_cons. destruct p. by intros [->|[->|?%not_elem_of_nil]]. Qed.

Lemma length_legs ln gi ps : length (flat_map (legs ln gi) ps) = (2 * length ps)%nat.
Proof. induction ps as [|p ps IH]; cbn; [done|]. rewrite IH. lia. Qed.

Lemma take_legs ln gi n ps : take (2 * n) (flat_map (legs ln gi) ps) = flat_map (legs ln gi) (take n ps).
Proof.
  revert ps. induction n as [|n IH]; intros [|p ps]; try done. replace (2 * S n)%nat with (S (S (2 * n))) by lia.
  cbn [flat_map legs app take]. by rewrite <- IH.
Qed.

Lemma drop_legs ln gi n ps : drop (2 * n) (flat_map (legs ln gi) ps) = flat_map (legs ln gi) (drop n ps).
Proof.
  revert ps. induction n as [|n IH]; intros [|p ps]; try done. replace (2 * S n)%nat with (S (S (2 * n))) by lia.
  cbn [flat_map legs app drop]. by rewrite <- IH.
Qed.

Lemma slices_legs ln gi b ps : 0 < b → slices (2 * b) (flat_map (legs ln gi) ps) = map (flat_map (legs ln gi)) (slices b ps).
Proof.
  intros Hb. unfold slices. rewrite length_legs, map_map.
  replace ((Z.of_nat (2 * length ps) + 2 * b - 1) / (2 * b)) with ((Z.of_nat (length ps) + b - 1) / b).
  2: { rewrite <- Z.div_div by lia. f_equal. apply (Z.div_unique _ 2 _ 1); lia. }
  apply map_ext. intros i. replace (Z.to_nat (2 * b)) with (2 * Z.to_nat b)%nat by lia.
  rewrite <- Nat.mul_assoc, drop_legs. apply take_legs.
Qed.

Lemma insert_legs (lt : OptionContractSpec → OptionContractSpec → bool) (lt' : string * Z → string * Z → bool) ln gi p ps :
  (∀ s t, lt s t = lt' (pair_of s) (pair_of t)) → (∀ q, lt' q q = false) →
  foldr (insert_by lt) (flat_map (legs ln gi) ps) (legs ln gi p) = flat_map (legs ln gi) (insert_by lt' p ps).
Proof.
  intros Hlt' Hirr. assert (Hlt : ∀ s t, lt s t = lt' (expiry s, strike s) (expiry t, strike t)) by apply Hlt'.
  clear Hlt'. destruct p as [e k]. induction ps as [|[qe qk] ps IH].
  - cbn. by rewrite Hlt, Hirr.
  - cbn [flat_map insert_by]. destruct (lt' (qe, qk) (e, k)) eqn:E.
    + cbn [flat_map]. rewrite <- IH. repeat (cbn; first [rewrite Hlt | rewrite E]). done.
    + repeat (cbn; first [rewrite Hlt | rewrite E | rewrite Hirr]). done.
Qed.

Lemma sort_legs (lt : OptionContractSpec → OptionContractSpec → bool) (lt' : string * Z → string * Z → bool) ln gi ps :
  (∀ s t, lt s t = lt' (pair_of s) (pair_of t)) → (∀ q, lt' q q = false) →
  sort_by lt (flat_map (legs ln gi) ps) = flat_map (legs ln gi) (sort_by lt' ps).
Proof.
  intros Hlt Hirr. unfold sort_by. induction ps as [|p ps IH]; [done|]. cbn [flat_map]. rewrite foldr_app, IH. by apply insert_legs.
Qed.

Lemma dedup_legs ln gi seen ps :
  NoDup ps → (∀ p, p ∈ ps → p ∉ seen) → dedup_keep_first seen (map pair_of (flat_map (legs ln gi) ps)) = ps.
Proof.
  revert seen. induction ps as [|[e k] ps IH]; intros seen Hn Hs; [done|]. inversion Hn as [|? ? Hp Hn']; subst.
  cbn [flat_map legs map app pair_of expiry strike fst snd dedup_keep_first]. rewrite decide_False by (apply Hs; left).
  rewrite decide_True by left. f_equal. apply IH; [done|]. intros q Hq [->|Hc]%elem_of_cons; [done|]. apply (Hs q); [by right|done].
Qed.

(** Ordering the legs of distinct pairs orders the pairs. *)
Lemma pairs_by_distance_legs ln gi ps atm :
  NoDup ps → contract_pairs_by_atm_distance (flat_map (legs ln gi) ps) atm = flat_map (legs ln gi) (sort_by (pair_lt atm) ps).
Proof.
  intros Hn. unfold contract_pairs_by_atm_distance. rewrite dedup_legs; [|done|intros p _; apply not_elem_of_nil].
  apply flat_map_ext_elem. intros p Hp. rewrite sort_by_perm in Hp.
  rewrite (filter_flat_map _ (λ q, q = p)) by (by intros q s _ ->%legs_elem).
  assert (E : filter (λ q, q = p) ps = [p]); [|rewrite E; reflexivity].
  clear -Hn Hp. induction Hn as [|q ps Hq Hn IH]; [by apply not_elem_of_nil in Hp|]. apply elem_of_cons in Hp as [<-|Hp].
  - rewrite filter_cons_True by done. f_equal. apply filter_none, Forall_forall. intros x Hx ->. done.
  - rewrite filter_cons_False; [by apply IH|]. intros ->. done.
Qed.

(** ** Windows *)

Lemma py_range_NoDup start stop step l : py_range start stop step = Ok l → NoDup l.
Proof.
  unfold py_range. destruct (Z.eqb_spec step 0) as [|Hs]; [done|]. intros [= <-].
  apply (NoDup_fmap_2_strong (λ i, start + step * Z.of_nat i)); [intros; nia|apply NoDup_seq].
Qed.

Lemma build_strikes_NoDup center window step l : build_strikes center window step = Ok l → NoDup l.
Proof.
  unfold build_strikes. intros (l' & Hl & [= <-])%res_bind_ok. apply NoDup_filter. by eapply py_range_NoDup.
Qed.

(** With a window of whole steps: the positive multiples of the step, counted
    from the center, within the window. *)
Lemma build_strikes_elem center window step l k :
  0 < step → (step | window) → build_strikes center window step = Ok l →
  k ∈ l ↔ 0 < k ∧ Z.abs (k - center) ≤ window ∧ (step | k - center).
Proof.
  intros Hs [q ->]. unfold build_strikes, py_range. rewrite (proj2 (Z.eqb_neq _ _)) by lia.
  intros [= <-]. rewrite list_elem_of_filter. rewrite (proj2 (Z.ltb_lt _ _)) by lia.
  replace (center + q * step + step - (center - q * step) + step - 1) with ((2 * q + 1) * step + (step - 1)) by lia.
  rewrite Z.add_comm, Z.div_add, Z.div_small, Z.add_0_l by lia. rewrite list_elem_of_fmap. setoid_rewrite elem_of_seq.
  split.
  - intros [Hk (i & -> & Hi)]. split; [done|]. split; [nia|]. exists (Z.of_nat i - q). lia.
  - intros (Hk & Hw & [m Hm]). split; [done|]. exists (Z.to_nat (m + q)). assert (- q ≤ m ≤ q) by nia. split; [|lia].
    rewrite Z2Nat.id by lia. lia.
Qed.

(** ** Groups *)

Lemma concat_alter_perm {A} (x : A) i gs : (i < length gs)%nat → concat (alter (λ g, g ++ [x]) i gs) ≡ₚ x :: concat gs.
Proof.
  revert i. induction gs as [|g gs IH]; intros [|i] Hi; cbn in *; [lia..| |].
  - rewrite <- app_assoc. cbn. by rewrite <- Permutation_middle.
  - change (g ++ concat (alter (λ g, g ++ [x]) i gs) ≡ₚ x :: g ++ concat gs). rewrite IH by lia. by rewrite <- Permutation_middle.
Qed.

Lemma group_of_range strategy count total index :
  0 < count → 0 < total → 0 ≤ index → 0 ≤ group_of strategy count total index < count.
Proof.
  intros Hc Ht Hi. unfold group_of. destruct (String.eqb strategy "interleaved"); [by apply Z.mod_pos_bound|].
  assert (0 ≤ index * count / total) by (apply Z.div_pos; nia). lia.
Qed.

Lemma assign_groups_perm strategy count total index strikes gs :
  0 < count → 0 < total → 0 ≤ index → Z.of_nat (length gs) = count →
  concat (assign_groups strategy count total index strikes gs) ≡ₚ concat gs ++ strikes.
Proof.
  intros Hc Ht. revert index gs. induction strikes as [|k strikes IH]; intros index gs Hi Hl; cbn; [by rewrite app_nil_r|].
  pose proof (group_of_range strategy count total index Hc Ht Hi). rewrite IH; [|lia|by rewrite length_alter].
  rewrite concat_alter_perm by lia. cbn. by rewrite <- Permutation_middle.
Qed.

Lemma concat_filter_nonempty {A} (gs : list (list A)) : concat (filter (λ g, g ≠ []) gs) = concat gs.
Proof.
  induction gs as [|[|x g] gs IH]; [done| |].
  - rewrite filter_cons_False by (by intros H). done.
  - rewrite filter_cons_True by done. cbn. by rewrite IH.
Qed.

(** Each strike is in one group, and no group is empty. *)
Lemma split_groups_perm strikes count strategy gs :
  split_groups strikes count strategy = Ok gs → concat gs ≡ₚ strikes ∧ ∀ g, g ∈ gs → g ≠ [].
Proof.
  unfold split_groups. destruct (Z.leb_spec count 0) as [|Hc]; [done|]. destruct (negb _); [done|]. intros [= <-].
  split; [|by intros g [Hg _]%list_elem_of_filter]. rewrite concat_filter_nonempty.
  destruct strikes as [|k strikes]; [cbn; generalize (Z.to_nat count); intros n; by induction n|].
  rewrite assign_groups_perm; [|done|cbn; lia|done|rewrite length_replicate; lia].
  replace (concat (replicate (Z.to_nat count) [])) with (@nil Z); [done|]. generalize (Z.to_nat count). intros n. by induction n.
Qed.

(** ** The pairs of a window *)

Lemma expiry_pairs_fst first exps strikes nexts p : p ∈ expiry_pairs first exps strikes nexts → p.1 ∈ exps ∧ p.2 ∈ strikes.
Proof.
  revert first. induction exps as [|e exps IH]; intros first; cbn; [by intros ?%not_elem_of_nil|].
  rewrite elem_of_app, elem_of_cons. intros [(k & -> & Hk)%list_elem_of_fmap|Hp%IH]; [|naive_solver]. split; [by left|].
  destruct nexts as [nexts|], first; try done. by apply list_elem_of_filter in Hk as [_ Hk].
Qed.

Lemma expiry_pairs_NoDup first exps strikes nexts : NoDup exps → NoDup strikes → NoDup (expiry_pairs first exps strikes nexts).
Proof.
  intros He Hs. revert first. induction He as [|e exps Hn He IH]; intros first; cbn; [constructor|].
  apply NoDup_app. split_and!; [|intros p (k & -> & _)%list_elem_of_fmap [Hp _]%expiry_pairs_fst; done|done].
  apply (NoDup_fmap_2 (pair e)). destruct nexts as [nexts|], first; try done. by apply NoDup_filter.
Qed.

Lemma expiry_pairs_perm first exps strikes strikes' nexts :
  strikes ≡ₚ strikes' → expiry_pairs first exps strikes nexts ≡ₚ expiry_pairs first exps strikes' nexts.
Proof.
  intros Hp. revert first. induction exps as [|e exps IH]; intros first; cbn; [done|]. rewrite IH. f_equiv.
  apply Permutation_map. destruct nexts as [nexts|], first; try done. by apply filter_Permutation.
Qed.

Lemma expiry_pairs_app first exps l l' nexts :
  expiry_pairs first exps (l ++ l') nexts ≡ₚ expiry_pairs first exps l nexts ++ expiry_pairs first exps l' nexts.
Proof.
  revert first. induction exps as [|e exps IH]; intros first; cbn; [done|]. rewrite IH.
  assert (E : ∀ a b c d : list (string * Z), (a ++ b) ++ (c ++ d) ≡ₚ (a ++ c) ++ (b ++ d)).
  { intros a b c d. rewrite <- !app_assoc. f_equiv. rewrite !app_assoc. f_equiv. apply Permutation_app_comm. }
  destruct nexts as [nexts|], first; rewrite ?filter_app, map_app; apply E.
Qed.

Lemma expiry_pairs_concat exps gs nexts :
  flat_map (λ g, expiry_pairs true exps g nexts) gs ≡ₚ expiry_pairs true exps (concat gs) nexts.
Proof.
  induction gs as [|g gs IH]; cbn; [|by rewrite expiry_pairs_app, IH].
  assert (E : ∀ first, expiry_pairs first exps [] nexts = []); [|by rewrite E].
  induction exps as [|e exps IH]; intros first; cbn; [done|]. rewrite IH. by destruct nexts, first.
Qed.

(** ** The plan on pairs *)

Definition front_lt (front : string) (p q : string * Z) : bool := String.eqb p.1 front && negb (String.eqb q.1 front).

(** The hot pairs, the nearest of the front expiry first. *)
Definition hot_pairs (front : string) (atm h : Z) (window : list (string * Z)) : list (string * Z) :=
  take (Z.to_nat h) (sort_by (front_lt front) (sort_by (pair_lt atm) window)).

(** The slices of [r] pairs of each group, without the hot pairs. *)
Definition slice_pairs (atm r : Z) (hs : list (string * Z)) (groups : list (Z * list (string * Z)))
    : list (Z * list (string * Z)) :=
  if r =? 0 then []
  else flat_map (λ g, map (pair g.1) (slices r (filter (λ p, p ∉ hs) (sort_by (pair_lt atm) g.2)))) groups.

(** The groups of a scan as pairs. *)
Definition scan_pairs (exps : list string) (nexts : list Z) (groups : list SamplingGroup) : list (Z * list (string * Z)) :=
  map (λ g, (g_index g, expiry_pairs true exps (g_strikes g) (Some nexts))) groups.

Lemma pair_lt_irrefl atm p : pair_lt atm p p = false.
Proof.
  unfold pair_lt. rewrite !Z.ltb_irrefl, String.eqb_refl, Z.eqb_refl. cbn. rewrite orb_false_r.
  unfold String.ltb. pose proof (String.compare_antisym p.1 p.1). by destruct (String.compare p.1 p.1).
Qed.

Lemma front_lt_irrefl front p : front_lt front p p = false.
Proof. unfold front_lt. by destruct (String.eqb p.1 front). Qed.

Lemma spec_key_legs ln ln' gi gi' hs p s :
  s ∈ legs ln' gi' p → spec_key s ∈ map spec_key (flat_map (legs ln gi) hs) ↔ p ∈ hs.
Proof.
  intros Hs. rewrite list_elem_of_fmap. setoid_rewrite flat_map_elem. unfold legs in *. destruct p as [e k].
  rewrite !elem_of_cons in Hs. setoid_rewrite elem_of_cons. setoid_rewrite elem_of_cons. split.
  - intros (t & Ht & [e' k'] & Hp & Hin). unfold spec_key in Ht.
    destruct Hs as [->|[->|[]%not_elem_of_nil]], Hin as [->|[->|[]%not_elem_of_nil]]; cbn in Ht; by simplify_eq.
  - intros Hp. destruct Hs as [->|[->|[]%not_elem_of_nil]].
    + exists (Spec e k "C" ln gi). split; [done|]. exists (e, k). naive_solver.
    + exists (Spec e k "P" ln gi). split; [done|]. exists (e, k). naive_solver.
Qed.

Lemma group_rotations_legs atm r hs gi ps :
  0 < r → NoDup ps →
  group_rotations atm (2 * r) (map spec_key (flat_map (legs "hot" None) hs)) (flat_map (legs "rolling" gi) ps)
  = map (flat_map (legs "rolling" gi)) (slices r (filter (λ p, p ∉ hs) (sort_by (pair_lt atm) ps))).
Proof.
  intros Hr Hn. unfold group_rotations. rewrite pairs_by_distance_legs by done.
  rewrite (filter_flat_map _ (λ p, p ∉ hs)) by (intros p s _ Hs; by rewrite spec_key_legs). by apply slices_legs.
Qed.

Lemma line_budgets_even m share hb rb :
  line_budgets m share = Ok (hb, rb) →
  ∃ h r, hb = 2 * h ∧ rb = 2 * r ∧ 0 ≤ h ∧ 0 ≤ r ∧ hb + rb ≤ Z.max m 0.
Proof.
  unfold line_budgets. intros (s & _ & H)%res_bind_ok.
  assert (Heven : ∀ z, 0 ≤ z → ∃ h, z - z mod 2 = 2 * h ∧ 0 ≤ h).
  { intros z Hz. exists (z / 2). pose proof (Z.div_mod z 2 ltac:(lia)). pose proof (Z.div_pos z 2 Hz). lia. }
  set (hot := Z.min (Z.max 2 s) (Z.max m 0)) in *. destruct (Heven hot) as (h & Hh & Hh0); [lia|].
  set (rot := Z.max (Z.max m 0 - (hot - hot mod 2)) 0) in *. destruct (Heven rot) as (r & Hr & Hr0); [lia|].
  injection H as <- <-. exists h, r. split_and!; try done. pose proof (Z.mod_pos_bound hot 2). pose proof (Z.mod_pos_bound rot 2). lia.
Qed.

(** ** The plan's parts *)

(** What a sampling plan is made of: the hot strikes, the strikes of the scan,
    and those of each that the next expiry gets. *)
Record plan_parts (s : SamplingPlan) (hots nexts_hot strikes nexts : list Z) : Prop := {
  parts_hot : hot_lane s = build_contracts (expiries s) hots "hot" None (Some nexts_hot);
  parts_groups g : g ∈ rolling_groups s →
    g_contracts g = build_contracts (expiries s) (g_strikes g) "rolling" (Some (g_index g)) (Some nexts);
  parts_hot_NoDup : NoDup hots;
  parts_NoDup : NoDup strikes;
  parts_perm : concat (map g_strikes (rolling_groups s)) ≡ₚ strikes;
}.

Lemma sampling_groups_spec exps nexts interval index groups :
  map g_strikes (sampling_groups exps nexts interval index groups) = groups
  ∧ ∀ g, g ∈ sampling_groups exps nexts interval index groups →
         g_contracts g = build_contracts exps (g_strikes g) "rolling" (Some (g_index g)) (Some nexts).
Proof.
  revert index. induction groups as [|g groups IH]; intros index; cbn; [split; [done|by intros ? ?%not_elem_of_nil]|].
  destruct (IH (index + 1)) as [-> H]. split; [done|]. intros g' [->|Hg]%elem_of_cons; [done|by apply H].
Qed.

Lemma build_sampling_plan_parts now price e next mode settings s :
  build_sampling_plan now price e next mode settings = Ok s →
  ∃ hots nexts_hot strikes nexts,
    build_strikes (atm_strike s) (hot_window_points settings) (strike_step settings) = Ok hots
    ∧ build_strikes (atm_strike s) (next_expiry_hot_window_points settings) (strike_step settings) = Ok nexts_hot
    ∧ build_strikes (atm_strike s) (window_points settings) (strike_step settings) = Ok strikes
    ∧ build_strikes (atm_strike s) (next_expiry_window_points settings) (strike_step settings) = Ok nexts
    ∧ resolve_expiries e next (include_next_expiry settings) = Ok (expiries s)
    ∧ plan_parts s hots nexts_hot strikes nexts.
Proof.
  unfold build_sampling_plan. destruct (negb _); [done|]. intros (atm & Hatm & H)%res_bind_ok.
  apply res_bind_ok in H as (exps & He & H). apply res_bind_ok in H as (hots & Hh & H).
  apply res_bind_ok in H as (strikes & Hs & H). apply res_bind_ok in H as (nexts_hot & Hnh & H).
  apply res_bind_ok in H as (nexts & Hn & H). destruct (if String.eqb mode "degraded" then _ else _) as [count interval].
  apply res_bind_ok in H as (groups & Hg & [= <-]). exists hots, nexts_hot, strikes, nexts. cbn. split_and!; try done.
  destruct (sampling_groups_spec exps nexts interval 0 groups) as [Em Hc]. constructor; cbn; try done.
  - by eapply build_strikes_NoDup.
  - by eapply build_strikes_NoDup.
  - rewrite Em. by apply split_groups_perm in Hg as [? _].
Qed.

Section plan.
Context (s : SamplingPlan) (hots nexts_hot strikes nexts : list Z).
Hypothesis Hparts : plan_parts s hots nexts_hot strikes nexts.
Hypothesis Hexp : NoDup (expiries s).

Let window : list (string * Z) := expiry_pairs true (expiries s) hots (Some nexts_hot).
Let groups : list (Z * list (string * Z)) := scan_pairs (expiries s) nexts (rolling_groups s).

Lemma group_NoDup g : g ∈ rolling_groups s → NoDup (g_strikes g).
Proof using Hparts.
  intros Hg. pose proof (parts_NoDup _ _ _ _ _ Hparts) as Hn. rewrite <- (parts_perm _ _ _ _ _ Hparts) in Hn.
  apply list_elem_of_split in Hg as (l & l' & E). rewrite E, map_app, concat_app in Hn. cbn in Hn.
  by apply NoDup_app in Hn as (_ & _ & (? & _)%NoDup_app).
Qed.

(** The lanes hold whole pairs: those of the plan on pairs. *)
Lemma plan_on_pairs front h r :
  let hs := hot_pairs front (atm_strike s) h window in
  take (Z.to_nat (2 * h)) (sort_by (λ x y, String.eqb (expiry x) front && negb (String.eqb (expiry y) front))
                            (contract_pairs_by_atm_distance (hot_lane s) (atm_strike s)))
  = flat_map (legs "hot" None) hs
  ∧ (0 ≤ r → (if 2 <=? 2 * r
     then flat_map (λ g, group_rotations (atm_strike s) (2 * r) (map spec_key (flat_map (legs "hot" None) hs)) (g_contracts g)) (rolling_groups s)
     else [])
    = map (λ c, flat_map (legs "rolling" (Some c.1)) c.2) (slice_pairs (atm_strike s) r hs groups)).
Proof using Hparts Hexp.
  cbv zeta. split.
  - rewrite (parts_hot _ _ _ _ _ Hparts). unfold build_contracts. rewrite pairs_by_distance_legs.
    2: { apply expiry_pairs_NoDup; [done|]. apply Hparts. }
    rewrite (sort_legs _ (front_lt front)); [|by intros [] []|apply front_lt_irrefl].
    replace (Z.to_nat (2 * h)) with (2 * Z.to_nat h)%nat by lia. by rewrite take_legs.
  - intros Hr. unfold slice_pairs, groups, scan_pairs. destruct (Z.eqb_spec r 0) as [->|Hr0]; [done|].
    rewrite (proj2 (Z.leb_le _ _)) by lia. generalize (hot_pairs front (atm_strike s) h window). intros hs.
    assert (Hin : ∀ g, g ∈ rolling_groups s → g ∈ rolling_groups s) by done. revert Hin.
    generalize (rolling_groups s) at 1 3 4. intros gs. induction gs as [|g gs IH]; intros Hin; [done|]. cbn [map flat_map].
    rewrite map_app, IH by (intros g' ?; apply Hin; by right). f_equal. cbn [fst snd].
    rewrite (parts_groups _ _ _ _ _ Hparts g) by (apply Hin; left). unfold build_contracts.
    rewrite group_rotations_legs; [by rewrite map_map|lia|].
    apply expiry_pairs_NoDup; [done|]. apply group_NoDup, Hin. left.
Qed.
End plan.

(** ** What the lanes hold *)

Definition key_pairs (ps : list (string * Z)) : list (string * Z * string) := flat_map (λ p, [(p, "C"); (p, "P")]) ps.

Lemma legs_keys ln gi ps : map spec_key (flat_map (legs ln gi) ps) = key_pairs ps.
Proof. induction ps as [|[e k] ps IH]; [done|]. cbn. by rewrite IH. Qed.

Lemma key_pairs_elem ps p r : (p, r) ∈ key_pairs ps ↔ p ∈ ps ∧ (r = "C" ∨ r = "P").
Proof.
  unfold key_pairs. rewrite flat_map_elem. setoid_rewrite elem_of_cons. setoid_rewrite list_elem_of_singleton. naive_solver.
Qed.

Lemma key_pairs_NoDup ps : NoDup ps → NoDup (key_pairs ps).
Proof.
  induction 1 as [|p ps Hp Hn IH]; [constructor|]. cbn. constructor; [|constructor; [|done]].
  - rewrite elem_of_cons, key_pairs_elem. intros [[=]|[? _]]. done.
  - rewrite key_pairs_elem. by intros [? _].
Qed.

Lemma slice_pairs_keys cs :
  map spec_key (concat (map (λ c : Z * list (string * Z), flat_map (legs "rolling" (Some c.1)) c.2) cs)) = key_pairs (concat (map snd cs)).
Proof.
  unfold key_pairs. induction cs as [|[i ps] cs IH]; [done|]. cbn. rewrite map_app, IH, flat_map_app. f_equal. apply legs_keys.
Qed.

(** The slices hold each pair of the groups outside the hot lane once. *)
Lemma slice_pairs_concat atm r hs groups :
  0 < r → concat (map snd (slice_pairs atm r hs groups)) ≡ₚ filter (λ p, p ∉ hs) (flat_map snd groups).
Proof.
  intros Hr. unfold slice_pairs. rewrite (proj2 (Z.eqb_neq _ _)) by lia. induction groups as [|[i ps] groups IH]; [done|].
  cbn [flat_map]. rewrite map_app, concat_app, IH, filter_app. f_equiv. cbn [fst snd].
  rewrite map_map, map_ext with (g := λ c, c) by done. rewrite map_id, slices_concat by done. by rewrite sort_by_perm.
Qed.

Lemma slice_pairs_elem atm r hs groups c :
  0 ≤ r → c ∈ slice_pairs atm r hs groups → c.2 ≠ [] ∧ Z.of_nat (length c.2) ≤ r.
Proof.
  intros Hr. unfold slice_pairs. destruct (Z.eqb_spec r 0) as [|Hr0]; [by intros ?%not_elem_of_nil|].
  intros ([i ps] & _ & (sl & -> & Hsl)%list_elem_of_fmap)%flat_map_elem. apply slices_elem in Hsl; [done|lia].
Qed.

Lemma hot_pairs_NoDup front atm h window : NoDup window → NoDup (hot_pairs front atm h window).
Proof.
  intros H. unfold hot_pairs. assert (Hn : NoDup (sort_by (front_lt front) (sort_by (pair_lt atm) window))) by by rewrite !sort_by_perm.
  rewrite <- (take_drop (Z.to_nat h)) in Hn. by apply NoDup_app in Hn as [? _].
Qed.

Lemma hot_pairs_elem front atm h window p : p ∈ hot_pairs front atm h window → p ∈ window.
Proof. unfold hot_pairs. intros (i & H%list_elem_of_lookup_2 & _)%elem_of_take. by rewrite !sort_by_perm in H. Qed.

Lemma length_hot_pairs front atm h window : 0 ≤ h → Z.of_nat (length (hot_pairs front atm h window)) ≤ h.
Proof. intros H. unfold hot_pairs. rewrite length_take. lia. Qed.

Lemma scan_pairs_perm s hots nexts_hot strikes nexts :
  plan_parts s hots nexts_hot strikes nexts →
  flat_map snd (scan_pairs (expiries s) nexts (rolling_groups s)) ≡ₚ expiry_pairs true (expiries s) strikes (Some nexts).
Proof.
  intros H. rewrite <- (expiry_pairs_perm true (expiries s) _ _ (Some nexts) (parts_perm _ _ _ _ _ H)).
  rewrite <- expiry_pairs_concat. unfold scan_pairs. generalize (rolling_groups s). intros gs.
  induction gs as [|g gs IH]; cbn; [done|]. by rewrite IH.
Qed.

(** A subscription plan seen on pairs. *)
Lemma build_plan_pairs now price e next mode settings m share s plan hb rb :
  build_sampling_plan now price e next mode settings = Ok s →
  build_option_subscription_plan now price e next mode settings m share = Ok plan →
  line_budgets m share = Ok (hb, rb) → NoDup (expiries s) →
  ∃ h r hots nexts_hot strikes nexts,
    hb = 2 * h ∧ rb = 2 * r ∧ 0 ≤ h ∧ 0 ≤ r ∧ hb + rb ≤ Z.max m 0
    ∧ plan_parts s hots nexts_hot strikes nexts
    ∧ build_strikes (atm_strike s) (window_points settings) (strike_step settings) = Ok strikes
    ∧ build_strikes (atm_strike s) (next_expiry_window_points settings) (strike_step settings) = Ok nexts
    ∧ let hs := hot_pairs e (atm_strike s) h (expiry_pairs true (expiries s) hots (Some nexts_hot)) in
      let cs := slice_pairs (atm_strike s) r hs (scan_pairs (expiries s) nexts (rolling_groups s)) in
      hot plan = flat_map (legs "hot" None) hs
      ∧ rotations plan = map (λ c, flat_map (legs "rolling" (Some c.1)) c.2) cs
      ∧ plan_atm plan = atm_strike s ∧ plan_expiry plan = e.
Proof.
  intros Hs Hp Hb He. unfold build_option_subscription_plan in Hp. rewrite Hs in Hp. cbn [mbind res_bind] in Hp. rewrite Hb in Hp.
  injection Hp as <-. destruct (line_budgets_even _ _ _ _ Hb) as (h & r & -> & -> & Hh & Hr & Hm).
  destruct (build_sampling_plan_parts _ _ _ _ _ _ _ Hs) as (hots & nexts_hot & strikes & nexts & _ & _ & Ek & En & _ & Hparts).
  exists h, r, hots, nexts_hot, strikes, nexts. split_and!; try done. cbv zeta. cbn [hot rotations plan_atm plan_expiry].
  destruct (plan_on_pairs _ _ _ _ _ Hparts He e h r) as [-> ->]; done.
Qed.

(** ** The nearest strikes *)

Definition no_farther (atm : Z) (p q : string * Z) : Prop := Z.abs (p.2 - atm) ≤ Z.abs (q.2 - atm).
#[local] Instance no_farther_trans atm : Transitive (no_farther atm).
Proof. unfold no_farther. intros p q r. lia. Qed.

Lemma sorted_by_distance atm l : StronglySorted (no_farther atm) (sort_by (pair_lt atm) l).
Proof.
  apply sort_by_sorts; [apply _|..]; intros p q; unfold pair_lt, no_farther; cbv zeta.
  - intros [?%Z.ltb_lt|[?%Z.eqb_eq _]%andb_true_iff]%orb_true_iff; lia.
  - intros [?%Z.ltb_ge _]%orb_false_iff. lia.
Qed.

(** The front expiry comes first and keeps its order. *)
Lemma sort_by_front front l :
  sort_by (front_lt front) l = filter (λ p, p.1 = front) l ++ filter (λ p, p.1 ≠ front) l.
Proof.
  unfold sort_by. induction l as [|[e k] l IH]; [done|]. cbn [foldr]. rewrite IH. destruct (decide (e = front)) as [->|He].
  - rewrite filter_cons_True, filter_cons_False by naive_solver. cbn [app].
    assert (Hf : ∀ m : list (string * Z), insert_by (front_lt front) (front, k) m = (front, k) :: m); [|apply Hf].
    intros [|y m]; cbn; [done|]. unfold front_lt. cbn. by rewrite String.eqb_refl, andb_false_r.
  - rewrite filter_cons_False, filter_cons_True by naive_solver. cbn [fst].
    assert (Hn : ∀ m, insert_by (front_lt front) (e, k) (filter (λ p, p.1 ≠ front) m) = (e, k) :: filter (λ p, p.1 ≠ front) m).
    { intros m. destruct (filter _ m) as [|y m'] eqn:E; [done|]. cbn. unfold front_lt at 1.
      assert (Hy : y ∈ filter (λ p : string * Z, p.1 ≠ front) m) by (rewrite E; left).
      apply list_elem_of_filter in Hy as [Hy%String.eqb_neq _]. by rewrite Hy. }
    rewrite <- Hn. generalize (filter (λ p : string * Z, p.1 ≠ front) l). intros m2.
    clear IH. induction l as [|[e' k'] l IHl]; [done|]. destruct (decide (e' = front)) as [->|He'].
    + rewrite filter_cons_True by done. cbn [app insert_by]. unfold front_lt at 1. cbn [fst].
      apply String.eqb_neq in He as He0. rewrite String.eqb_refl, He0. cbn. f_equal. by apply IHl.
    + rewrite filter_cons_False by naive_solver. by apply IHl.
Qed.

(** The hot lane takes the nearest strikes of the front expiry first. *)
Lemma hot_pairs_nearest front atm h window p q :
  p ∈ hot_pairs front atm h window → q ∈ window → q.1 = front → q ∉ hot_pairs front atm h window →
  p.1 = front ∧ Z.abs (p.2 - atm) ≤ Z.abs (q.2 - atm).
Proof.
  unfold hot_pairs. rewrite sort_by_front. set (d := sort_by (pair_lt atm) window). set (n := Z.to_nat h). intros Hp Hq Hf Hnq.
  assert (Hqf : q ∈ filter (λ p, p.1 = front) d). { apply list_elem_of_filter. split; [done|]. unfold d. by rewrite sort_by_perm. }
  assert (Hs : StronglySorted (no_farther atm) (filter (λ p, p.1 = front) d)).
  { pose proof (sorted_by_distance atm window) as H. fold d in H. clear -H. induction H as [|x l _ IH Hx]; [constructor|].
    destruct (decide (x.1 = front)); [rewrite filter_cons_True by done|by rewrite filter_cons_False by done].
    constructor; [done|]. rewrite Forall_forall in *. intros y [_ Hy]%list_elem_of_filter. by apply Hx. }
  assert (Hin : ∀ x, x ∈ filter (λ p, p.1 = front) d → x.1 = front) by (by intros x [? _]%list_elem_of_filter).
  generalize dependent (filter (λ p, p.1 = front) d). intros fr Hp Hnq Hqf Hs Hin.
  assert (Hlen : (n < length fr)%nat).
  { apply Nat.lt_nge. intros Hn. apply Hnq. rewrite take_app, elem_of_app. left. by rewrite take_ge by lia. }
  rewrite take_app_le in Hp, Hnq by lia. rewrite <- (take_drop n fr) in Hqf, Hs, Hin. apply elem_of_app in Hqf as [|Hqf]; [done|].
  split; [apply Hin, elem_of_app; by left|]. apply StronglySorted_app in Hs as (H & _ & _). by apply H.
Qed.

(** ** The guarantees of a subscription plan *)

(** The keys of every contract that the plan subscribes, now or in a slice. *)
Definition keys_of (p : OptionSubscriptionPlan) : list (string * Z * string) := map spec_key (hot p ++ concat (rotations p)).

Lemma keys_of_pairs p hs cs :
  hot p = flat_map (legs "hot" None) hs →
  rotations p = map (λ c : Z * list (string * Z), flat_map (legs "rolling" (Some c.1)) c.2) cs →
  keys_of p = key_pairs (hs ++ concat (map snd cs)).
Proof.
  unfold keys_of. intros -> ->. rewrite map_app, legs_keys, slice_pairs_keys. unfold key_pairs. by rewrite flat_map_app.
Qed.

(** No contract is in the plan twice. *)
Lemma plan_keys_NoDup now price e next mode settings m share s plan hb rb :
  build_sampling_plan now price e next mode settings = Ok s →
  build_option_subscription_plan now price e next mode settings m share = Ok plan →
  line_budgets m share = Ok (hb, rb) → NoDup (expiries s) → NoDup (keys_of plan).
Proof.
  intros Hs Hp Hb He.
  destruct (build_plan_pairs _ _ _ _ _ _ _ _ _ _ _ _ Hs Hp Hb He)
    as (h & r & hots & nexts_hot & strikes & nexts & _ & _ & _ & Hr & _ & Hparts & _ & _ & Hhot & Hrot & _).
  rewrite (keys_of_pairs _ _ _ Hhot Hrot). apply key_pairs_NoDup. destruct (decide (r = 0)) as [->|].
  - rewrite app_nil_r. apply hot_pairs_NoDup, expiry_pairs_NoDup; [done|by apply Hparts].
  - apply NoDup_app. split_and!.
    + apply hot_pairs_NoDup, expiry_pairs_NoDup; [done|by apply Hparts].
    + intros p H1. rewrite slice_pairs_concat by lia. by intros [H2 _]%list_elem_of_filter.
    + rewrite slice_pairs_concat by lia. apply NoDup_filter. rewrite (scan_pairs_perm _ _ _ _ _ Hparts).
      apply expiry_pairs_NoDup; [done|by apply Hparts].
Qed.

(** Slices are not empty and keep their budget. *)
Lemma plan_slices now price e next mode settings m share s plan hb rb c :
  build_sampling_plan now price e next mode settings = Ok s →
  build_option_subscription_plan now price e next mode settings m share = Ok plan →
  line_budgets m share = Ok (hb, rb) → NoDup (expiries s) → c ∈ rotations plan → c ≠ [] ∧ Z.of_nat (length c) ≤ rb.
Proof.
  intros Hs Hp Hb He.
  destruct (build_plan_pairs _ _ _ _ _ _ _ _ _ _ _ _ Hs Hp Hb He)
    as (h & r & hots & nexts_hot & strikes & nexts & _ & -> & _ & Hr & _ & _ & _ & _ & _ & Hrot & _).
  rewrite Hrot. intros ([i ps] & -> & Hc)%list_elem_of_fmap. cbn [fst snd].
  apply slice_pairs_elem in Hc as [Hne Hl]; [|done]. cbn [snd] in *. rewrite length_legs. split; [|lia].
  intros E%(f_equal length). rewrite length_legs in E. destruct ps; [done|]. cbn in E. lia.
Qed.

(** C23: the plan deals out the window.  No contract is subscribed twice over
    the hot lane and all slices; the hot lane and any one slice together fit
    the budget; every slice holds whole call/put pairs; and nothing outside the
    sampling plan is subscribed. *)
Theorem option_plan_partitions now price e next mode settings m share s plan hb rb :
  build_sampling_plan now price e next mode settings = Ok s →
  build_option_subscription_plan now price e next mode settings m share = Ok plan →
  line_budgets m share = Ok (hb, rb) → NoDup (expiries s) →
  NoDup (keys_of plan)
  ∧ hb + rb ≤ Z.max m 0 ∧ Z.of_nat (length (hot plan)) ≤ hb
  ∧ (∀ c, c ∈ rotations plan → c ≠ [] ∧ Z.of_nat (length c) ≤ rb)
  ∧ (∀ c e' k, c ∈ hot plan :: rotations plan → (e', k, "C") ∈ map spec_key c ↔ (e', k, "P") ∈ map spec_key c)
  ∧ (∀ key, key ∈ keys_of plan → key ∈ map spec_key (hot_lane s ++ flat_map g_contracts (rolling_groups s))).
Proof.
  intros Hs Hp Hb He.
  destruct (build_plan_pairs _ _ _ _ _ _ _ _ _ _ _ _ Hs Hp Hb He)
    as (h & r & hots & nexts_hot & strikes & nexts & -> & -> & Hh & Hr & Hm & Hparts & _ & _ & Hhot & Hrot & _).
  set (window := expiry_pairs true (expiries s) hots (Some nexts_hot)) in *.
  set (hs := hot_pairs e (atm_strike s) h window) in *.
  set (cs := slice_pairs (atm_strike s) r hs (scan_pairs (expiries s) nexts (rolling_groups s))) in *.
  rewrite (keys_of_pairs _ _ _ Hhot Hrot). assert (Hcs : ∀ p, p ∈ concat (map snd cs) → p ∉ hs ∧ p ∈ flat_map snd (scan_pairs (expiries s) nexts (rolling_groups s))).
  { intros p Hp'. destruct (decide (r = 0)) as [->|]; [by apply not_elem_of_nil in Hp'|].
    unfold cs in Hp'. rewrite slice_pairs_concat in Hp' by lia. by apply list_elem_of_filter in Hp'. }
  split_and!; [|done| | | |].
  - rewrite <- (keys_of_pairs _ _ _ Hhot Hrot). by eapply plan_keys_NoDup.
  - rewrite Hhot, length_legs. pose proof (length_hot_pairs e (atm_strike s) h window Hh). fold hs in H. lia.
  - intros c. by eapply plan_slices.
  - intros c e' k Hc. assert (∃ ln gi ps, c = flat_map (legs ln gi) ps) as (ln & gi & ps & ->).
    { apply elem_of_cons in Hc as [->|Hc]; [by eauto|]. rewrite Hrot in Hc. apply list_elem_of_fmap in Hc as (? & -> & _). eauto. }
    rewrite legs_keys, !key_pairs_elem. naive_solver.
  - intros [p rt] [Hp' Hrt]%key_pairs_elem. rewrite map_app, elem_of_app. apply elem_of_app in Hp' as [Hp'|Hp'].
    + left. apply hot_pairs_elem in Hp'. rewrite (parts_hot _ _ _ _ _ Hparts). unfold build_contracts.
      by rewrite legs_keys, key_pairs_elem.
    + right. apply Hcs in Hp' as [_ Hp']. unfold scan_pairs in Hp'. apply flat_map_elem in Hp' as (x & (g & -> & Hg)%list_elem_of_fmap & Hx).
      assert (Hk : (p, rt) ∈ map spec_key (g_contracts g)).
      { rewrite (parts_groups _ _ _ _ _ Hparts g Hg). unfold build_contracts. by rewrite legs_keys, key_pairs_elem. }
      apply list_elem_of_fmap in Hk as (c & -> & Hc). apply list_elem_of_fmap. exists c. split; [done|].
      apply flat_map_elem. by exists g.
Qed.

(** The plan covers the window.  With steps that divide
    the windows and room for a pair beside the hot lane, every strike of the
    window, both legs, is in the hot lane or in a slice: the wide window for the
    first expiry, the narrower one for the next. *)
Lemma plan_covers_window now price e next mode settings m share s plan hb rb e' k rt :
  build_sampling_plan now price e next mode settings = Ok s →
  build_option_subscription_plan now price e next mode settings m share = Ok plan →
  line_budgets m share = Ok (hb, rb) → NoDup (expiries s) → 2 ≤ rb →
  0 < strike_step settings → (strike_step settings | window_points settings) →
  (strike_step settings | next_expiry_window_points settings) →
  e' ∈ expiries s → 0 < k → (strike_step settings | k - atm_strike s) → Z.abs (k - atm_strike s) ≤ window_points settings →
  (e' ≠ e → Z.abs (k - atm_strike s) ≤ next_expiry_window_points settings) → rt ∈ ["C"; "P"] →
  (e', k, rt) ∈ keys_of plan.
Proof.
  intros Hs Hp Hb He Hrb Hstep Hw Hnw Hin Hk Hmul Habs Hnext Hrt.
  destruct (build_plan_pairs _ _ _ _ _ _ _ _ _ _ _ _ Hs Hp Hb He)
    as (h & r & hots & nexts_hot & strikes & nexts & -> & -> & Hh & Hr & Hm & Hparts & Hks & Hkn & Hhot & Hrot & _).
  rewrite (keys_of_pairs _ _ _ Hhot Hrot). apply key_pairs_elem.
  split; [|rewrite !elem_of_cons in Hrt; destruct Hrt as [->|[->|[]%not_elem_of_nil]]; auto].
  rewrite slice_pairs_concat by lia. rewrite elem_of_app, list_elem_of_filter.
  match goal with |- (?p ∈ ?l) ∨ _ => destruct (decide (p ∈ l)) as [|Hn]; [by left|right] end. split; [done|].
  rewrite (scan_pairs_perm _ _ _ _ _ Hparts). pose proof (build_strikes_elem _ _ _ _ k Hstep Hw Hks) as Hstr.
  pose proof (build_strikes_elem _ _ _ _ k Hstep Hnw Hkn) as Hstn.
  destruct (build_sampling_plan_parts _ _ _ _ _ _ _ Hs) as (_ & _ & _ & _ & _ & _ & _ & _ & Hre & _).
  assert (expiries s = [e] ∨ ∃ x, expiries s = [e; x]) as [E|[x E]].
  { unfold resolve_expiries in Hre. destruct (include_next_expiry settings); [|left; by injection Hre]. right.
    apply res_bind_ok in Hre as (x & _ & Hre). exists x. by injection Hre. }
  - rewrite E in *. apply list_elem_of_singleton in Hin as ->. cbn. rewrite app_nil_r. apply list_elem_of_fmap. exists k. by rewrite Hstr.
  - rewrite E in *. cbn. rewrite app_nil_r, elem_of_app, !list_elem_of_fmap. apply elem_of_cons in Hin as [->|Hin].
    + left. exists k. by rewrite Hstr.
    + apply list_elem_of_singleton in Hin as ->. right. exists k. split; [done|]. rewrite list_elem_of_filter, Hstr, Hstn.
      split_and!; try done; apply Hnext; intros ->; by inversion He as [|? ? Hx]; apply Hx; left.
Qed.

(** The hot lane is at the money.  While it lacks a contract of the traded
    expiry, it holds that expiry only, and nothing farther from the money. *)
Lemma hot_lane_is_nearest now price e next mode settings m share s plan hb rb c c' :
  build_sampling_plan now price e next mode settings = Ok s →
  build_option_subscription_plan now price e next mode settings m share = Ok plan →
  line_budgets m share = Ok (hb, rb) → NoDup (expiries s) →
  c ∈ hot_lane s → expiry c = e → spec_key c ∉ map spec_key (hot plan) → c' ∈ hot plan →
  expiry c' = e ∧ Z.abs (strike c' - atm_strike s) ≤ Z.abs (strike c - atm_strike s).
Proof.
  intros Hs Hp Hb He Hc Hce Hnot Hc'.
  destruct (build_plan_pairs _ _ _ _ _ _ _ _ _ _ _ _ Hs Hp Hb He)
    as (h & r & hots & nexts_hot & strikes & nexts & _ & _ & _ & _ & _ & Hparts & _ & _ & Hhot & _).
  rewrite Hhot in *. apply flat_map_elem in Hc' as (p & Hpin & <-%legs_elem). rewrite (parts_hot _ _ _ _ _ Hparts) in Hc.
  apply flat_map_elem in Hc as (q & Hq & Hcl). rewrite (spec_key_legs _ _ _ _ _ q) in Hnot by done. apply legs_elem in Hcl as <-.
  by apply (hot_pairs_nearest e (atm_strike s) h _ (pair_of c') (pair_of c) Hpin Hq Hce Hnot).
Qed.

(** ** Labels *)

Definition colon_free (s : string) : Prop := str_find_chr ":" s = None.

Lemma colon_split e e' x x' : colon_free e → colon_free e' → (e ++ ":" ++ x)%string = (e' ++ ":" ++ x')%string → e = e' ∧ x = x'.
Proof.
  unfold colon_free. revert e'. induction e as [|c e IH]; intros [|c' e'] He He' E; cbn [String.append] in E; simplify_eq; try done.
  cbn [str_find_chr] in *. destruct (Ascii.eqb ":" c'); [done|]. destruct (str_find_chr ":" e); [done|].
  destruct (str_find_chr ":" e') eqn:F; [done|]. destruct (IH e') as [-> ->]; done.
Qed.

Lemma append_split a b x y : String.length x = String.length y → (a ++ x)%string = (b ++ y)%string → a = b ∧ x = y.
Proof.
  assert (Hlen : ∀ u v : string, String.length (u ++ v) = (String.length u + String.length v)%nat).
  { intros u v. induction u as [|? u IH]; [done|]. change (S (String.length (u ++ v)%string) = S (String.length u + String.length v)%nat). by rewrite IH. }
  intros Hl. revert b. induction a as [|c a IH]; intros [|c' b] E.
  - done.
  - apply (f_equal String.length) in E. rewrite !Hlen in E. cbn in E. lia.
  - apply (f_equal String.length) in E. rewrite !Hlen in E. cbn in E. lia.
  - cbn [String.append] in E. injection E as -> E. destruct (IH b) as [-> ->]; done.
Qed.

(** The label of a contract names it. *)
Lemma option_spec_label_inj c c' :
  colon_free (expiry c) → colon_free (expiry c') → opt_right c ∈ ["C"; "P"] → opt_right c' ∈ ["C"; "P"] →
  option_spec_label c = option_spec_label c' → spec_key c = spec_key c'.
Proof.
  intros He He' Hr Hr' E. unfold option_spec_label in E. simplify_eq/=. apply colon_split in E as [Ee E]; [|done..].
  apply append_split in E as [Ek E].
  - unfold str_of_Z in Ek. apply (inj pretty) in Ek. change (String ":" (opt_right c) = String ":" (opt_right c')) in E. injection E as Er.
    unfold spec_key. by rewrite Ee, Ek, Er.
  - cbn. rewrite !elem_of_cons in *. destruct Hr as [->|[->|[]%not_elem_of_nil]], Hr' as [->|[->|[]%not_elem_of_nil]]; done.
Qed.

Lemma map_NoDup_strong {A B C} (f : A → B) (g : A → C) l :
  NoDup (map f l) → (∀ x y, x ∈ l → y ∈ l → g x = g y → f x = f y) → NoDup (map g l).
Proof.
  induction l as [|x l IH]; intros Hn Hg; cbn; [constructor|]. inversion Hn as [|? ? Hx Hn']; subst. constructor.
  - intros (y & E & Hy)%list_elem_of_fmap. apply Hx. rewrite (Hg x y); [|left|by right|done]. apply list_elem_of_fmap. eauto.
  - apply IH; [done|]. intros a b Ha Hb. apply Hg; by right.
Qed.

(** The contracts of a plan are of its expiries, calls or puts. *)
Lemma plan_specs now price e next mode settings m share s plan hb rb c :
  build_sampling_plan now price e next mode settings = Ok s →
  build_option_subscription_plan now price e next mode settings m share = Ok plan →
  line_budgets m share = Ok (hb, rb) → NoDup (expiries s) →
  c ∈ hot plan ++ concat (rotations plan) → expiry c ∈ expiries s ∧ opt_right c ∈ ["C"; "P"].
Proof.
  intros Hs Hp Hb He Hc.
  destruct (build_plan_pairs _ _ _ _ _ _ _ _ _ _ _ _ Hs Hp Hb He)
    as (h & r & hots & nexts_hot & strikes & nexts & _ & _ & _ & Hr & _ & Hparts & _ & _ & Hhot & Hrot & _).
  assert (Hk : spec_key c ∈ keys_of plan) by (apply list_elem_of_fmap; eauto).
  rewrite (keys_of_pairs _ _ _ Hhot Hrot) in Hk. apply key_pairs_elem in Hk as [Hk Hcp]. split; [|rewrite !elem_of_cons; tauto].
  change (expiry c) with (expiry c, strike c).1. apply elem_of_app in Hk as [Hk%hot_pairs_elem|Hk].
  - by apply expiry_pairs_fst in Hk as [? _].
  - destruct (decide (r = 0)) as [->|]; [by apply not_elem_of_nil in Hk|]. rewrite slice_pairs_concat in Hk by lia.
    apply list_elem_of_filter in Hk as [_ Hk]. rewrite (scan_pairs_perm _ _ _ _ _ Hparts) in Hk. by apply expiry_pairs_fst in Hk as [? _].
Qed.

(** Nor is any label. *)
Lemma plan_labels_NoDup now price e next mode settings m share s plan hb rb :
  build_sampling_plan now price e next mode settings = Ok s →
  build_option_subscription_plan now price e next mode settings m share = Ok plan →
  line_budgets m share = Ok (hb, rb) → NoDup (expiries s) → Forall colon_free (expiries s) →
  NoDup (map option_spec_label (hot plan ++ concat (rotations plan))).
Proof.
  intros Hs Hp Hb He Hcf. eapply map_NoDup_strong; [by eapply plan_keys_NoDup|]. intros c c' Hc Hc'.
  destruct (plan_specs _ _ _ _ _ _ _ _ _ _ _ _ _ Hs Hp Hb He Hc) as [Hin Hr].
  destruct (plan_specs _ _ _ _ _ _ _ _ _ _ _ _ _ Hs Hp Hb He Hc') as [Hin' Hr']. rewrite Forall_forall in Hcf.
  apply option_spec_label_inj; auto.
Qed.

(** ** The share of the hot lane *)

Definition share_exact (lines hot : Z) : bool :=
  match line_budgets lines (hot_share hot lines) with
  | Ok (h, r) => (h =? hot - hot mod 2) && (r =? (lines - h) - (lines - h) mod 2)
  | Err _ => false
  end.

(** The hot targets with the lines they may come with, and all-hot plans. *)
Definition reachable_shares : list (Z * Z) :=
  map (λ i, (44 + Z.of_nat i, 44)) (seq 0 21) ++ map (λ i, (46 + Z.of_nat i, 46)) (seq 0 39)
  ++ map (λ i, (Z.of_nat i, Z.of_nat i)) (seq 0 47).

Lemma reachable_shares_exact : forallb (λ p, share_exact p.1 p.2) reachable_shares = true.
Proof. vm_compute. reflexivity. Qed.

Lemma planned_share_reachable capacity fallback base_subs chunk ceiling a lines hot_ :
  planned_option_lines capacity fallback base_subs chunk ceiling = Ok (a, lines, hot_) → (lines, hot_) ∈ reachable_shares.
Proof.
  unfold planned_option_lines. intros (al & Ha & [= <- <- <-])%res_bind_ok. unfold plan_ibkr_option_allocation in Ha.
  destruct (_ <=? 0); [done|]. unfold reachable_shares. rewrite !elem_of_app, !list_elem_of_fmap. setoid_rewrite elem_of_seq.
  set (base := Z.max (Z.of_nat (length base_subs)) 4) in *. set (temporary := Z.max chunk 0) in *.
  assert (Hmod : ∀ z, 0 ≤ z mod 2 < 2) by (intros; by apply Z.mod_pos_bound). unfold option_lines.
  assert (Htarget : ∀ t r m, t mod 2 = 0 → 0 ≤ t → 0 ≤ r → r mod 2 = 0 →
    let usable := Z.max (capacity - base - temporary - m) 0 in
    let h := Z.min t usable - Z.min t usable mod 2 in
    let ro := Z.min r (Z.max (usable - h) 0) in let rot := ro - ro mod 2 in
    0 ≤ h ≤ t ∧ 0 ≤ rot ≤ r ∧ (h = t ∨ rot = 0)).
  { intros t r m Ht Ht0 Hr0 Hr. cbv zeta. set (u := Z.max (capacity - base - temporary - m) 0).
    pose proof (Hmod (Z.min t u)) as Hh. assert (Hu : 0 ≤ u) by lia. destruct (Z.le_ge_cases t u) as [Htu|Htu].
    - rewrite (Z.min_l t u), Ht in * by lia. generalize (Hmod (Z.min r (Z.max (u - (t - 0)) 0))). intros. split; [lia|]. split; [|left; lia].
      pose proof (Z.mod_le (Z.min r (Z.max (u - (t - 0)) 0)) 2 ltac:(lia) ltac:(lia)). lia.
    - rewrite (Z.min_r t u) in * by lia. pose proof (Z.mod_le u 2 ltac:(lia) ltac:(lia)). split; [lia|].
      replace (u - (u - u mod 2)) with (u mod 2) by lia.
      assert (Hro : Z.min r (Z.max (u mod 2) 0) = 0 ∨ Z.min r (Z.max (u mod 2) 0) = 1) by lia. destruct Hro as [->| ->]; [change (0 mod 2) with 0|change (1 mod 2) with 1]; lia. }
  destruct fallback; cbn [quota_targets] in Ha.
  - injection Ha as <-. cbn [hot_option_lines rotation_option_lines]. destruct (Htarget 46 38 6) as (Hh & Hr & Hor); [done..|]. cbv zeta in *.
    set (h := _ - _ mod 2) in *. set (rot := Z.min 38 _ - _ mod 2) in *. set (lines := Z.min (h + rot) (Z.max ceiling 0)).
    destruct (decide (h ≤ lines ∧ h = 46)) as [[Hl ->]|Hn].
    + right. left. exists (Z.to_nat (lines - 46)). split; [f_equal; lia|lia].
    + right. right. exists (Z.to_nat lines). split; [f_equal; lia|lia].
  - injection Ha as <-. cbn [hot_option_lines rotation_option_lines]. destruct (Htarget 44 20 20) as (Hh & Hr & Hor); [done..|]. cbv zeta in *.
    set (h := _ - _ mod 2) in *. set (rot := Z.min 20 _ - _ mod 2) in *. set (lines := Z.min (h + rot) (Z.max ceiling 0)).
    destruct (decide (h ≤ lines ∧ h = 44)) as [[Hl ->]|Hn].
    + left. exists (Z.to_nat (lines - 44)). split; [f_equal; lia|lia].
    + right. right. exists (Z.to_nat lines). split; [f_equal; lia|lia].
Qed.

(** The share, a float, gives the planner back the lines it was made from. *)
Lemma hot_share_exact capacity fallback base_subs chunk ceiling a lines hot_ :
  planned_option_lines capacity fallback base_subs chunk ceiling = Ok (a, lines, hot_) →
  let h := hot_ - hot_ mod 2 in
  line_budgets lines (hot_share hot_ lines) = Ok (h, (lines - h) - (lines - h) mod 2).
Proof.
  intros H%planned_share_reachable. pose proof reachable_shares_exact as E. rewrite forallb_forall in E.
  apply list_elem_of_In, E in H. cbn [fst snd] in H. unfold share_exact in H. destruct (line_budgets _ _) as [[h r]|]; [|done].
  apply andb_true_iff in H as [->%Z.eqb_eq ->%Z.eqb_eq]. done.
Qed.

(** ** The shipped settings *)

Definition sample_sampling : SamplingSettings :=
  {| strike_step := 5; window_points := 200; hot_window_points := 55; group_count := 4; group_interval_seconds := 4;
     degraded_group_count := 20; degraded_group_interval_seconds := 3; group_strategy := "interleaved";
     hot_human_cadence_seconds := 8; hot_execution_cadence_seconds := 2; include_next_expiry := true;
     default_mode := "human_alert"; next_expiry_window_points := 30; next_expiry_hot_window_points := 10 |}.

(** The window around 7500, and the plan for 84 lines. *)
Definition sample_window : res SamplingPlan :=
  build_sampling_plan 0 (f_of_Z 7500) "20260715" (Some "20260716") "human_alert" sample_sampling.
Definition sample_plan : res OptionSubscriptionPlan := plan_for_proposal 0 7500 "20260715" "20260716" sample_sampling 100 true [] 0 84.

Definition ok_or {A} (d : A) (r : res A) : A := match r with Ok a => a | Err _ => d end.
Definition no_plan : OptionSubscriptionPlan := {| plan_atm := 0; plan_expiry := ""; hot := []; rotations := [] |}.

(** Its hot lane takes 46 of the 84 lines, and each slice fits in the other 38. *)
Lemma option_plan_partitions_witness :
  NoDup (keys_of (ok_or no_plan sample_plan)) ∧ map (λ c, length c) (rotations (ok_or no_plan sample_plan)) = [38; 34; 36; 34]%nat.
Proof.
  destruct sample_window as [s|e] eqn:Es; [|by vm_compute in Es]. destruct sample_plan as [p|e] eqn:Ep; [|by vm_compute in Ep].
  split.
  - assert (Hn : NoDup (expiries s)).
    { replace (expiries s) with ["20260715"; "20260716"]; [by apply (bool_decide_eq_true_1 (NoDup _)); vm_compute|].
      change s with (ok_or s (Ok s)). rewrite <- Es. vm_compute. reflexivity. }
    apply (option_plan_partitions 0 (f_of_Z 7500) "20260715" (Some "20260716") "human_alert" sample_sampling 84 (hot_share 46 84) s p 46 38);
      [exact Es|rewrite <- Ep; vm_compute; reflexivity|vm_compute; reflexivity|exact Hn].
  - cbn [ok_or]. change p with (ok_or no_plan (Ok p)). rewrite <- Ep. vm_compute. reflexivity.
Defined.
