(* ===== verification/OptionLines.v ===== *)
(** * The option lines of the IBKR stream

    [ibkr/stream/option_subscription_ops.py] and [spy_rotation_ops.py]: the
    hot lane is reconciled with a subscription plan and the slices rotate
    through the lines that are left; [ibkr/verifier.py]: requests and
    cancellations; [ibkr/stream/session_ops.py]: what an error callback does to
    them.

    What the gateway answers is a function of the calls made so far, so a
    theorem about every [Gateway] is about every course of events.  The calls
    with their answers are kept, the newest first. *)

From stdpp Require Import base list strings sorting.
From Stdlib Require Import Ascii ZArith Lia.
From S2P Require Import Prelude PyStr PyFloat PyTime PyDateTime PyDict PyVal MarketCalendar FarmHealth LineQuota Sampling.

#[local] Open Scope Z_scope.

(** ** The gateway *)

Inductive Call :=
  | Request (label : string) (accepted : bool)
  | Requalify (label : string)
  | Cancel (label : string) (ok : bool)
  | EndTicker (label : string)
  | Resolve (labels : list string)
  | Sleep
  | IsConnected (answer : bool).
Abbreviation Trace := (list Call).

(** An error callback, with the clocks at its arrival. *)
Record ErrorEvent := {
  ev_req_id : Z; ev_error_code : Z; ev_message : string; ev_contract : option string;
  ev_wall : Z; ev_monotonic : float;
}.

(** [reqMktData]: the exception's text, or the request id when the client knows it. *)
Class Gateway := {
  answer_request : Trace → string → string + option Z;
  answer_requalify : Trace → string → string + bool;
  answer_cancel : Trace → string → bool;
  answer_end : Trace → string → bool;
  answer_connected : Trace → bool;
  (** The definitions that memory, the durable cache or the broker know. *)
  answer_resolve : Trace → list string → list string;
  (** The callbacks that run while a call waits. *)
  callbacks : Trace → list ErrorEvent;
  monotonic : Trace → float;
  wall_clock : Trace → Z;
}.

(** ** The collector *)

Record VerifyRow := {
  row_label : string;
  subscribed : bool;
  row_error : option string;
  request_id : option Z;
}.

(** A lane maps labels to a subscription: whether there is a ticker, and the
    row, by its place in the store of rows. *)
Abbreviation Lane := (list (string * (bool * nat))).

Record IbkrError := {
  err_req_id : Z; err_code : Z; err_message : string; err_contract : option string; err_ts : string;
  err_lane : option string;
}.

Record Lanes := { hot_subs : Lane; rotation_subs : Lane; pinned_subs : Lane; other_lanes : list (list string) }.

Record Requests := {
  rows : list VerifyRow;
  errors : list IbkrError;
  rejection_sequence : Z;
  rejection_log : list (Z * IbkrError);
  rows_by_req_id : list (Z * nat);
  lane_by_req_id : list (Z * string);
  lane_history : list (Z * string);
  request_lane : option string;
}.

Record Health := {
  subscription_health_failed : bool;
  tws_connectivity_lost : bool;
  subscriptions_lost : bool;
  connectivity_loss_sequence : Z;
  capacity : CapacityEstimate;
  capacity_file : FileContent;
  farm_health : FarmHealthTracker;
}.

Record Stream := {
  lanes : Lanes;
  requests : Requests;
  health : Health;
  option_plan : option OptionSubscriptionPlan;
  rotation_index : Z;
  rotation_retry_at : float;
  trace : Trace;
}.

Definition with_lanes (l : Lanes) (s : Stream) : Stream :=
  {| lanes := l; requests := requests s; health := health s; option_plan := option_plan s;
     rotation_index := rotation_index s; rotation_retry_at := rotation_retry_at s; trace := trace s |}.
Definition with_requests (r : Requests) (s : Stream) : Stream :=
  {| lanes := lanes s; requests := r; health := health s; option_plan := option_plan s;
     rotation_index := rotation_index s; rotation_retry_at := rotation_retry_at s; trace := trace s |}.
Definition with_health (h : Health) (s : Stream) : Stream :=
  {| lanes := lanes s; requests := requests s; health := h; option_plan := option_plan s;
     rotation_index := rotation_index s; rotation_retry_at := rotation_retry_at s; trace := trace s |}.
Definition with_plan (p : option OptionSubscriptionPlan) (index : Z) (s : Stream) : Stream :=
  {| lanes := lanes s; requests := requests s; health := health s; option_plan := p;
     rotation_index := index; rotation_retry_at := rotation_retry_at s; trace := trace s |}.
Definition with_retry (at_ : float) (s : Stream) : Stream :=
  {| lanes := lanes s; requests := requests s; health := health s; option_plan := option_plan s;
     rotation_index := rotation_index s; rotation_retry_at := at_; trace := trace s |}.
Definition with_trace (t : Trace) (s : Stream) : Stream :=
  {| lanes := lanes s; requests := requests s; health := health s; option_plan := option_plan s;
     rotation_index := rotation_index s; rotation_retry_at := rotation_retry_at s; trace := t |}.

Definition with_hot (l : Lane) (s : Stream) : Stream :=
  with_lanes {| hot_subs := l; rotation_subs := rotation_subs (lanes s); pinned_subs := pinned_subs (lanes s);
                other_lanes := other_lanes (lanes s) |} s.
Definition with_rotation (l : Lane) (s : Stream) : Stream :=
  with_lanes {| hot_subs := hot_subs (lanes s); rotation_subs := l; pinned_subs := pinned_subs (lanes s);
                other_lanes := other_lanes (lanes s) |} s.

Definition with_rows (l : list VerifyRow) (r : Requests) : Requests :=
  {| rows := l; errors := errors r; rejection_sequence := rejection_sequence r; rejection_log := rejection_log r;
     rows_by_req_id := rows_by_req_id r; lane_by_req_id := lane_by_req_id r; lane_history := lane_history r;
     request_lane := request_lane r |}.
Definition with_rejection (seq : Z) (log : list (Z * IbkrError)) (r : Requests) : Requests :=
  {| rows := rows r; errors := errors r; rejection_sequence := seq; rejection_log := log;
     rows_by_req_id := rows_by_req_id r; lane_by_req_id := lane_by_req_id r; lane_history := lane_history r;
     request_lane := request_lane r |}.
Definition with_errors (l : list IbkrError) (r : Requests) : Requests :=
  {| rows := rows r; errors := l; rejection_sequence := rejection_sequence r; rejection_log := rejection_log r;
     rows_by_req_id := rows_by_req_id r; lane_by_req_id := lane_by_req_id r; lane_history := lane_history r;
     request_lane := request_lane r |}.
Definition with_owners (by_id : list (Z * nat)) (lane history : list (Z * string)) (r : Requests) : Requests :=
  {| rows := rows r; errors := errors r; rejection_sequence := rejection_sequence r; rejection_log := rejection_log r;
     rows_by_req_id := by_id; lane_by_req_id := lane; lane_history := history; request_lane := request_lane r |}.
Definition with_request_lane (lane : option string) (r : Requests) : Requests :=
  {| rows := rows r; errors := errors r; rejection_sequence := rejection_sequence r; rejection_log := rejection_log r;
     rows_by_req_id := rows_by_req_id r; lane_by_req_id := lane_by_req_id r; lane_history := lane_history r;
     request_lane := lane |}.

Definition with_flags (failed conn_lost subs_lost : bool) (seq : Z) (h : Health) : Health :=
  {| subscription_health_failed := failed; tws_connectivity_lost := conn_lost; subscriptions_lost := subs_lost;
     connectivity_loss_sequence := seq; capacity := capacity h; capacity_file := capacity_file h; farm_health := farm_health h |}.
Definition with_capacity (c : CapacityEstimate * FileContent) (h : Health) : Health :=
  {| subscription_health_failed := subscription_health_failed h; tws_connectivity_lost := tws_connectivity_lost h;
     subscriptions_lost := subscriptions_lost h; connectivity_loss_sequence := connectivity_loss_sequence h;
     capacity := c.1; capacity_file := c.2; farm_health := farm_health h |}.
Definition with_farm (t : FarmHealthTracker) (h : Health) : Health :=
  {| subscription_health_failed := subscription_health_failed h; tws_connectivity_lost := tws_connectivity_lost h;
     subscriptions_lost := subscriptions_lost h; connectivity_loss_sequence := connectivity_loss_sequence h;
     capacity := capacity h; capacity_file := capacity_file h; farm_health := t |}.

Definition fail_health (h : Health) : Health :=
  with_flags true (tws_connectivity_lost h) (subscriptions_lost h) (connectivity_loss_sequence h) h.
Definition lose_subscriptions (h : Health) : Health :=
  with_flags true (tws_connectivity_lost h) true (connectivity_loss_sequence h) h.

Definition row_at (s : Stream) (i : nat) : VerifyRow :=
  default {| row_label := ""; subscribed := false; row_error := None; request_id := None |} (rows (requests s) !! i).
Definition set_row (i : nat) (f : VerifyRow → VerifyRow) (s : Stream) : Stream :=
  with_requests (with_rows (alter f i (rows (requests s))) (requests s)) s.
Definition reject_row (text : string) (r : VerifyRow) : VerifyRow :=
  {| row_label := row_label r; subscribed := false; row_error := Some text; request_id := request_id r |}.

(** [not row.subscribed or row.error], with an empty text as no error. *)
Definition row_unhealthy (r : VerifyRow) : bool :=
  negb (subscribed r) || match row_error r with Some e => negb (String.eqb e "") | None => false end.

Definition active_lines (s : Stream) : Z :=
  active_market_data_lines (dkeys (hot_subs (lanes s)) :: dkeys (rotation_subs (lanes s)) :: dkeys (pinned_subs (lanes s))
                            :: other_lanes (lanes s)).

(** ** Dictionaries with integer keys *)

Fixpoint zget {A} (k : Z) (d : list (Z * A)) : option A :=
  match d with [] => None | (k', v) :: d => if k =? k' then Some v else zget k d end.
Fixpoint zset {A} (k : Z) (v : A) (d : list (Z * A)) : list (Z * A) :=
  match d with [] => [(k, v)] | (k', v') :: d => if k =? k' then (k, v) :: d else (k', v') :: zset k v d end.
Definition zpop {A} (k : Z) (d : list (Z * A)) : list (Z * A) := filter (λ kv, kv.1 ≠ k) d.

(** [del l[:-n]]. *)
Definition keep_last {A} (n : nat) (l : list A) : list A := drop (length l - n) l.

Definition MAX_TRACKED_ERRORS : nat := 200.
Definition SUBSCRIPTION_REJECTION_CODES : list Z := [100; 101; 200; 354; 420; 10197].
Definition OPTION_ROTATION_RETRY_SECONDS : float := f_of_Z 30.
Definition LANE_HISTORY_LIMIT : nat := 4096.

(** ** Error callbacks *)

(** The lane of a request that an error names. *)
Definition subscription_lane (r : Requests) (req_id : Z) : option string :=
  match zget req_id (lane_by_req_id r) with
  | Some lane => Some lane
  | None => match zget req_id (lane_history r) with
            | Some lane => Some lane
            | None => if 0 <=? req_id then request_lane r else None
            end
  end.

(** What the code says of the connection. *)
Definition connectivity_flags (code : Z) (h : Health) : Health :=
  if code_in code TWS_CONNECTIVITY_LOST_CODES then
    with_flags (subscription_health_failed h) true (subscriptions_lost h) (connectivity_loss_sequence h + 1) h
  else if code_in code TWS_CONNECTIVITY_RESTORED_CODES then
    if code =? 1101 then with_flags true false true (connectivity_loss_sequence h) h
    else with_flags (subscription_health_failed h) false (subscriptions_lost h) (connectivity_loss_sequence h) h
  else h.

(** A rejected request: the log, the row, and whose lane it was. *)
Definition observe_rejection (e : ErrorEvent) (error : IbkrError) (s : Stream) : Stream :=
  let s := if ev_error_code e =? 10197 then
             if bool_decide (err_lane error = Some "rotation")
             then with_retry (fmax (rotation_retry_at s) (fadd (ev_monotonic e) OPTION_ROTATION_RETRY_SECONDS)) s
             else with_health (fail_health (health s)) s
           else s in
  let r := requests s in
  let seq := rejection_sequence r + 1 in
  let s := with_requests (with_rejection seq (keep_last MAX_TRACKED_ERRORS (rejection_log r ++ [(seq, error)])) r) s in
  match zget (ev_req_id e) (rows_by_req_id r) with
  | Some i =>
      let s := set_row i (reject_row ("IBKR " ++ str_of_Z (ev_error_code e) ++ ": " ++ ev_message e)) s in
      if match zget (ev_req_id e) (lane_by_req_id r) with
         | Some lane => bool_decide (lane ∈ ["base"; "hot"; "pinned"])
         | None => false
         end
      then with_health (fail_health (health s)) s else s
  | None => if ev_req_id e <? 0 then with_health (fail_health (health s)) s else s
  end.

(** [_on_error].  The farm tracker never raises ([FarmProps.tracker_ops_total]). *)
Definition on_error (s : Stream) (e : ErrorEvent) : Stream :=
  let r := requests s in
  let error := {| err_req_id := ev_req_id e; err_code := ev_error_code e; err_message := ev_message e;
                  err_contract := ev_contract e; err_ts := isoformat (ev_wall e);
                  err_lane := subscription_lane r (ev_req_id e) |} in
  let s := with_requests (with_errors (keep_last MAX_TRACKED_ERRORS (errors r ++ [error])) r) s in
  let '(c, file, _) := observe_error (capacity (health s)) (capacity_file (health s)) (ev_error_code e) (ev_message e)
                         (active_lines s) (ev_wall e) in
  let s := with_health (connectivity_flags (ev_error_code e) (with_capacity (c, file) (health s))) s in
  let s := if code_in (ev_error_code e) SUBSCRIPTION_REJECTION_CODES then observe_rejection e error s else s in
  match observe (farm_health (health s)) (ev_error_code e) (ev_message e) (ev_monotonic e) with
  | Ok (t, _) => with_health (with_farm t (health s)) s
  | Err _ => s
  end.

(** ** Operations on the stream *)

Definition Run (A : Type) : Type := Stream → Stream * A.
#[global] Instance run_ret : MRet Run := λ _ a s, (s, a).
#[global] Instance run_bind : MBind Run := λ _ _ k m s, let '(s, a) := m s in k a s.
Definition get : Run Stream := λ s, (s, s).
Definition modify (f : Stream → Stream) : Run () := λ s, (f s, ()).
(** [if c: m] and [for x in l: f(x)]. *)
Definition when (c : bool) (m : Run ()) : Run () := if c then m else mret ().
Fixpoint for_each {A} (l : list A) (f : A → Run ()) : Run () :=
  match l with [] => mret () | x :: l => _ ← f x; for_each l f end.
(** [all] of the answers, each asked for. *)
Fixpoint every {A} (l : list A) (f : A → Run bool) : Run bool :=
  match l with [] => mret true | x :: l => ok ← f x; rest ← every l f; mret (ok && rest) end.

Definition log (c : Call) (s : Stream) : Stream := with_trace (c :: trace s) s.

Section stream.
Context `{Gateway} (max_option_lines : Z).

(** The callbacks of a call that waits. *)
Definition wait (c : Call) : Run () := modify (λ s, fold_left on_error (callbacks (trace (log c s))) (log c s)).

Definition is_connected : Run bool := λ s, let b := answer_connected (trace s) in (log (IsConnected b) s, b).

(** [_subscription_lifecycle_blocked]. *)
Definition lifecycle_blocked : Run bool :=
  connected ← is_connected;
  s ← get;
  mret (tws_connectivity_lost (health s) || subscriptions_lost (health s) || subscription_health_failed (health s) || negb connected).

(** [_connectivity_changed_since]. *)
Definition connectivity_changed_since (sequence : Z) : Run bool :=
  connected ← is_connected;
  s ← get;
  mret (negb (connectivity_loss_sequence (health s) =? sequence) || tws_connectivity_lost (health s)
        || subscriptions_lost (health s) || negb connected).

(** [cancel_subscriptions]: no server call for a rejected request. *)
Definition cancel_subscription (kv : string * (bool * nat)) : Run bool := λ s,
  let '(label, (ticker, i)) := kv in
  if negb ticker then (s, true)
  else if negb (subscribed (row_at s i)) then
    let ok := answer_end (trace s) label in (log (EndTicker label) s, ok)
  else let ok := answer_cancel (trace s) label in (log (Cancel label ok) s, ok).
Definition cancel_subscriptions (lane : Lane) : Run bool := every lane cancel_subscription.

(** [discard_subscriptions]. *)
Definition discard_subscription (kv : string * (bool * nat)) : Run bool := λ s,
  let '(label, (ticker, i)) := kv in
  if ticker : bool then let ok := answer_end (trace s) label in (log (EndTicker label) s, ok) else (s, true).
Definition discard_subscriptions (lane : Lane) : Run bool := every lane discard_subscription.

(** [_unregister_subscription_rows]. *)
Definition unregister_row (kv : string * (bool * nat)) (s : Stream) : Stream :=
  match request_id (row_at s kv.2.2) with
  | Some id =>
      let r := requests s in
      with_requests (with_owners (zpop id (rows_by_req_id r)) (zpop id (lane_by_req_id r)) (lane_history r) r) s
  | None => s
  end.
Definition unregister_subscription_rows (lane : Lane) : Run () := for_each lane (λ kv, modify (unregister_row kv)).

(** [_register_subscription_rows]; one entry may leave the history, as one enters it. *)
Definition register_row (lane : string) (kv : string * (bool * nat)) (s : Stream) : Stream :=
  match request_id (row_at s kv.2.2) with
  | Some id =>
      let r := requests s in
      let history := zset id lane (lane_history r) in
      with_requests (with_owners (zset id kv.2.2 (rows_by_req_id r)) (zset id lane (lane_by_req_id r))
                       (keep_last LANE_HISTORY_LIMIT history) r) s
  | None => s
  end.
Definition register_subscription_rows (subs : Lane) (lane : string) : Run () := for_each subs (λ kv, modify (register_row lane kv)).

(** [_cancel_batch]. *)
Definition cancel_batch (lane : Lane) : Run bool :=
  local_only ← lifecycle_blocked;
  if local_only : bool then
    _ ← discard_subscriptions lane;
    _ ← unregister_subscription_rows lane;
    _ ← modify (λ s, with_health (lose_subscriptions (health s)) s);
    mret false
  else
    s ← get;
    let sequence := connectivity_loss_sequence (health s) in
    result ← cancel_subscriptions lane;
    changed ← connectivity_changed_since sequence;
    if changed : bool then
      _ ← unregister_subscription_rows lane;
      _ ← modify (λ s, with_health (lose_subscriptions (health s)) s);
      mret false
    else if negb result then
      _ ← modify (λ s, with_health (fail_health (health s)) s);
      mret false
    else
      _ ← unregister_subscription_rows lane;
      mret true.

(** [subscribe_contract] for a contract with a conId: the new row is at [i].
    Some errors ask for the contract to be qualified and requested again. *)
Definition needs_contract_qualification (text : string) : bool :=
  let message := str_lower text in
  str_contains "conid" message || str_contains "can't be hashed" message || str_contains "cannot be hashed" message.

Definition accept_row (id : option Z) (r : VerifyRow) : VerifyRow :=
  {| row_label := row_label r; subscribed := true; row_error := row_error r; request_id := id |}.
Definition fail_row (text : string) (r : VerifyRow) : VerifyRow :=
  {| row_label := row_label r; subscribed := subscribed r; row_error := Some text; request_id := request_id r |}.

Definition request_market_data (label : string) (i : nat) : Run (option string) := λ s,
  match answer_request (trace s) label with
  | inr id => (set_row i (accept_row id) (log (Request label true) s), None)
  | inl text => (log (Request label false) s, Some text)
  end.

Definition subscribe_contract (label : string) (i : nat) : Run bool :=
  refused ← request_market_data label i;
  match refused with
  | None => mret true
  | Some text =>
      if negb (needs_contract_qualification text) then
        _ ← modify (set_row i (fail_row ("subscribe failed: " ++ text)));
        mret false
      else
        s ← get;
        let answer := answer_requalify (trace s) label in
        _ ← wait (Requalify label);
        match answer with
        | inl why =>
            _ ← modify (set_row i (fail_row ("subscribe failed: " ++ text ++ "; qualify fallback failed: " ++ why)));
            mret false
        | inr false =>
            _ ← modify (set_row i (fail_row ("subscribe failed: " ++ text ++ "; qualify fallback returned no contracts")));
            mret false
        | inr true =>
            again ← request_market_data label i;
            match again with
            | None => mret true
            | Some why =>
                _ ← modify (set_row i (fail_row ("subscribe failed after qualify fallback: " ++ why)));
                mret false
            end
        end
  end.

(** [qualify_and_subscribe] of definitions that have their conIds. *)
Fixpoint qualify_and_subscribe (labels : list string) (result : Lane) : Run Lane :=
  match labels with
  | [] => mret result
  | label :: labels =>
      s ← get;
      let i := length (rows (requests s)) in
      _ ← modify (λ s, with_requests (with_rows (rows (requests s) ++
            [{| row_label := label; subscribed := false; row_error := None; request_id := None |}]) (requests s)) s);
      ticker ← subscribe_contract label i;
      qualify_and_subscribe labels (dset label (ticker, i) result)
  end.

(** [_resolve_option_definitions]: those of the definitions that are known. *)
Definition resolve_option_definitions (labels : list string) : Run (list string) :=
  s ← get;
  let known := answer_resolve (trace s) labels in
  _ ← wait (Resolve labels);
  mret (filter (λ l, l ∈ known) labels).

(** [_apply_subscription_rejections]. *)
Definition rejection_target (s : Stream) (subs : Lane) (req_id : Z) : option nat :=
  snd <$> list_find (λ i, request_id (row_at s i) = Some req_id) (reverse (map (λ kv, kv.2.2) subs)).
Definition apply_rejection (subs : Lane) (after : Z) (entry : Z * IbkrError) : Run bool := λ s,
  let '(sequence, error) := entry in
  if sequence <=? after then (s, false)
  else match rejection_target s subs (err_req_id error) with
       | Some i => (set_row i (reject_row ("IBKR " ++ str_of_Z (err_code error) ++ ": " ++ err_message error)) s, true)
       | None => (s, err_req_id error <? 0)
       end.
Fixpoint apply_rejections (subs : Lane) (after : Z) (entries : list (Z * IbkrError)) : Run bool :=
  match entries with
  | [] => mret false
  | e :: entries => b ← apply_rejection subs after e; rest ← apply_rejections subs after entries; mret (b || rest)
  end.

(** [_subscription_batch_succeeded]. *)
Definition subscription_batch_succeeded (subs : Lane) (expected_count : nat) (rejections connectivity : Z) (lane : string)
    : Run bool :=
  s ← get;
  if negb (Nat.eqb (length subs) expected_count) || existsb (λ kv, row_unhealthy (row_at s kv.2.2)) subs then mret false else
  _ ← when (negb (Nat.eqb (length subs) 0)) (wait Sleep);
  changed ← connectivity_changed_since connectivity;
  _ ← when changed (modify (λ s, with_health (lose_subscriptions (health s)) s));
  blocked ← (if changed : bool then mret true else lifecycle_blocked);
  if blocked : bool then mret false else
  s ← get;
  rejected ← apply_rejections subs rejections (rejection_log (requests s));
  if rejected : bool then mret false else
  _ ← register_subscription_rows subs lane;
  _ ← modify (λ s, with_health (with_capacity (observe_success (capacity (health s)) (capacity_file (health s)) (active_lines s)
                                                 (wall_clock (trace s))) (health s)) s);
  mret true.

(** [_restore_subscriptions]. *)
Definition restore_subscriptions (released : Lane) (lane : string) : Run Lane :=
  blocked ← lifecycle_blocked;
  let definitions := (filter (λ kv, kv.2.1 = true) released).*1 in
  if (blocked : bool) || bool_decide (definitions = []) then mret [] else
  s ← get;
  restored ← qualify_and_subscribe definitions [];
  ok ← subscription_batch_succeeded restored (length definitions) (rejection_sequence (requests s))
         (connectivity_loss_sequence (health s)) lane;
  if negb ok then
    _ ← cancel_batch restored;
    _ ← modify (λ s, with_health (fail_health (health s)) s);
    mret []
  else
    s ← get;
    mret (filter (λ kv, row_unhealthy (row_at s kv.2.2) = false) restored).

(** [_qualify_and_subscribe_for_lane]: an error that arrives before the request
    id is known is the lane's. *)
Definition qualify_and_subscribe_for_lane (definitions : list string) (lane : string) : Run Lane :=
  s ← get;
  let previous := request_lane (requests s) in
  _ ← modify (λ s, with_requests (with_request_lane (Some lane) (requests s)) s);
  subs ← qualify_and_subscribe definitions [];
  _ ← register_subscription_rows subs lane;
  _ ← modify (λ s, with_requests (with_request_lane previous (requests s)) s);
  mret subs.

(** ** The hot lane *)

(** [label.rsplit(":", 2)[-2]], if there are two pieces. *)
Definition rsplit_strike (label : string) : option string :=
  match str_find_chr ":" (str_rev label) with
  | None => None
  | Some i =>
      let head := str_drop (S i) (str_rev label) in
      Some (str_rev match str_find_chr ":" head with Some j => str_take j head | None => head end)
  end.
Definition option_label_distance (label : string) (atm : Z) : float :=
  match rsplit_strike label ≫= parse_float with
  | Some strike => fabs (fsub strike (f_of_Z atm))
  | None => SpecFloat.S754_infinity false
  end.

(** Farthest first, then by label. *)
Definition release_lt (atm : Z) (l m : string) : bool :=
  let dl := fopp (option_label_distance l atm) in let dm := fopp (option_label_distance m atm) in
  fltb dl dm || (feqb dl dm && String.ltb l m).

Definition label_lt (l m : string) : bool := String.ltb l m.
Definition restrict (labels : list string) (lane : Lane) : Lane := filter (λ kv, kv.1 ∈ labels) lane.
Definition without (labels : list string) (lane : Lane) : Lane := filter (λ kv, kv.1 ∉ labels) lane.

Definition desired_labels (plan : OptionSubscriptionPlan) : list string := dedup_keep_first [] (map option_spec_label (hot plan)).

(** What a plan changes: the labels to add, and those that leave, of which
    some leave before the additions to make room for them. *)
Record HotDiff := { retained : list string; added : list string; obsolete : list string; release : list string }.
Definition hot_diff (plan : OptionSubscriptionPlan) (l : Lanes) : HotDiff :=
  let desired := desired_labels plan in
  let pinned := dkeys (pinned_subs l) in
  let retained := filter (λ x, x ∈ desired) (dkeys (hot_subs l)) in
  let added := filter (λ x, x ∉ retained ∧ x ∉ pinned) desired in
  let obsolete := filter (λ x, x ∉ retained) (dkeys (hot_subs l)) in
  let hot_line_budget := Z.max (max_option_lines - Z.of_nat (length pinned)) 0 in
  let free_lines := Z.max (hot_line_budget - Z.of_nat (length (hot_subs l))) 0 in
  let release_count := Z.max (Z.of_nat (length added) - free_lines) 0 in
  {| retained := retained; added := added; obsolete := obsolete;
     release := take (Z.to_nat release_count) (sort_by (release_lt (plan_atm plan)) obsolete) |}.

(** Back to the old lane: what could be restored joins what remained. *)
Definition hot_rollback (remaining released additions : Lane) : Run () :=
  _ ← cancel_batch additions;
  restored ← restore_subscriptions released "hot";
  modify (with_hot (dmerge remaining restored)).

(** [reconcile_option_plan].  The source walks sets of labels in no particular
    order; here they keep the order of the lane. *)
Definition reconcile_option_plan (plan : OptionSubscriptionPlan) : Run bool :=
  s ← get;
  let old := hot_subs (lanes s) in
  let d := hot_diff plan (lanes s) in
  cleared ← cancel_batch (rotation_subs (lanes s));
  if negb cleared then mret false else
  _ ← modify (with_rotation []);
  let released := restrict (release d) old in
  freed ← (if bool_decide (released = []) then mret true else cancel_batch released);
  if negb freed then mret false else
  let remaining := without (release d) old in
  s ← get;
  let rejections := rejection_sequence (requests s) in
  let connectivity := connectivity_loss_sequence (health s) in
  definitions ← resolve_option_definitions (sort_by label_lt (added d));
  additions ← qualify_and_subscribe definitions [];
  additions_ok ← subscription_batch_succeeded additions (length (added d)) rejections connectivity "hot";
  if negb additions_ok then
    _ ← hot_rollback remaining released additions;
    mret false
  else
    dropped ← cancel_batch (restrict (obsolete d) remaining);
    if negb dropped then
      _ ← hot_rollback remaining released additions;
      mret false
    else
      _ ← modify (λ s, with_plan (Some plan) 0 (with_hot (dmerge (restrict (retained d) remaining) additions) s));
      mret true.

(** ** The rotation *)

Definition slice_at (plan : OptionSubscriptionPlan) (index : Z) : list OptionContractSpec :=
  default [] (rotations plan !! Z.to_nat (index mod rotation_count plan)).

Definition eligible_specs (l : Lanes) (slice : list OptionContractSpec) : list OptionContractSpec :=
  let pinned := dkeys (pinned_subs l) in
  let available := Z.max (max_option_lines - Z.of_nat (length (hot_subs l)) - Z.of_nat (length pinned)) 0 in
  take (Z.to_nat available) (filter (λ c, option_spec_label c ∉ pinned) slice).

(** [rotate_options]. *)
Definition rotate_options : Run () :=
  s ← get;
  match option_plan s with
  | None => mret ()
  | Some plan =>
      if bool_decide (rotations plan = []) then mret () else
      let now := monotonic (trace s) in
      if fltb now (rotation_retry_at s) then mret () else
      if existsb (λ kv, row_unhealthy (row_at s kv.2.2)) (rotation_subs (lanes s)) then
        _ ← cancel_batch (rotation_subs (lanes s));
        modify (λ s, with_retry (fadd now OPTION_ROTATION_RETRY_SECONDS)
                       (with_plan (option_plan s) (Z.max (rotation_index s - 1) 0) (with_rotation [] s)))
      else
        cleared ← cancel_batch (rotation_subs (lanes s));
        if negb cleared then mret () else
        _ ← modify (with_rotation []);
        s ← get;
        let eligible := eligible_specs (lanes s) (slice_at plan (rotation_index s)) in
        let rejections := rejection_sequence (requests s) in
        let connectivity := connectivity_loss_sequence (health s) in
        definitions ← resolve_option_definitions (map option_spec_label eligible);
        replacement ← qualify_and_subscribe_for_lane definitions "rotation";
        ok ← subscription_batch_succeeded replacement (length eligible) rejections connectivity "rotation";
        if negb ok then
          _ ← cancel_batch replacement;
          modify (λ s, with_retry (fmax (rotation_retry_at s) (fadd now OPTION_ROTATION_RETRY_SECONDS)) s)
        else
          modify (λ s, with_retry (f_of_Z 0) (with_plan (option_plan s) (rotation_index s + 1) (with_rotation replacement s)))
  end.
End stream.
