(* ===== verification/OptionLinesProps.v ===== *)
(** * Properties of the option lines

    Whatever the gateway does, the stream owns every line that it has open, or
    has given up its session; the open lines stay under the ceiling at every
    moment of every operation; and one turn of the rotation subscribes the
    whole plan. *)

From stdpp Require Import base list strings relations.
From Stdlib Require Import Ascii ZArith Lia.
From S2P Require Import Prelude PyStr PyFloat PyTime PyDateTime PyDict PyVal MarketCalendar FarmHealth LineQuota Sampling OptionLines.

#[local] Open Scope Z_scope.

(** ** The open lines *)

(** The labels whose request was accepted and that were neither cancelled nor
    given up since. *)
Fixpoint open_lines (t : Trace) : list string :=
  match t with
  | [] => []
  | Request l true :: t => let o := open_lines t in if decide (l ∈ o) then o else l :: o
  | Cancel l true :: t | EndTicker l :: t => filter (λ x, x ≠ l) (open_lines t)
  | _ :: t => open_lines t
  end.

(** The lines outside [others], at every moment of a trace, are at most [n]. *)
Definition count_lines (others : list string) (t : Trace) : Z := Z.of_nat (length (filter (λ x, x ∉ others) (open_lines t))).
Fixpoint peaks (others : list string) (n : Z) (t : Trace) : Prop :=
  count_lines others t ≤ n ∧ match t with [] => True | _ :: t => peaks others n t end.

(** The labels with a ticker. *)
Definition live_keys (l : Lane) : list string := (filter (λ kv, kv.2.1 = true) l).*1.
Definition owned (l : Lanes) : list string :=
  live_keys (hot_subs l) ++ live_keys (rotation_subs l) ++ live_keys (pinned_subs l) ++ concat (other_lanes l).
Definition others (s : Stream) : list string := concat (other_lanes (lanes s)).
Definition failed (s : Stream) : bool := subscription_health_failed (health s).
Definition within (X : list string) (s : Stream) : Prop := ∀ l, l ∈ open_lines (trace s) → l ∈ X.

Lemma open_lines_NoDup t : NoDup (open_lines t).
Proof.
  induction t as [|[l []| |l []| | | |] t IH]; cbn; try done; [constructor| |by apply NoDup_filter|by apply NoDup_filter].
  case_decide; [done|]. by constructor.
Qed.

Lemma within_count X O s :
  within (X ++ O) s → count_lines O (trace s) ≤ Z.of_nat (length X).
Proof.
  intros H. unfold count_lines. apply Nat2Z.inj_le, submseteq_length, NoDup_submseteq; [apply NoDup_filter, open_lines_NoDup|].
  intros l [Hn Hl]%list_elem_of_filter. apply H, elem_of_app in Hl as [Hl|Hl]; [done|]. done.
Qed.

(** ** Weakest preconditions *)

Definition wp {A} (m : Run A) (Q : A → Stream → Prop) (s : Stream) : Prop := Q (m s).2 (m s).1.

Lemma wp_ret {A} (a : A) Q s : Q a s → wp (mret a) Q s.
Proof. done. Qed.
Lemma wp_bind {A B} (m : Run A) (k : A → Run B) Q s : wp m (λ a, wp (k a) Q) s → wp (m ≫= k) Q s.
Proof. unfold wp, mbind, run_bind. by destruct (m s). Qed.
Lemma wp_mono {A} (m : Run A) (Q Q' : A → Stream → Prop) s : wp m Q s → (∀ a s', Q a s' → Q' a s') → wp m Q' s.
Proof. unfold wp. auto. Qed.
Lemma wp_get Q s : Q s s → wp get Q s.
Proof. done. Qed.
Lemma wp_modify f Q s : Q () (f s) → wp (modify f) Q s.
Proof. done. Qed.
Lemma wp_when c m Q s : (c = true → wp m Q s) → (c = false → Q () s) → wp (when c m) Q s.
Proof. destruct c; intros H1 H2; [by apply H1|by apply H2]. Qed.

(** The steps of a computation: [wp_step] runs the pure ones. *)
Ltac wp_step := first [apply wp_ret | apply wp_bind | apply wp_get | apply wp_modify].

(** ** What the operations leave alone *)

Definition reg_ok (s : Stream) : Prop := ∀ kv, kv ∈ rows_by_req_id (requests s) → (kv.2 < length (rows (requests s)))%nat.

(** From [s] to [s'] no line was opened, and nothing but requests and health changed. *)
Record quiet (s s' : Stream) : Prop := {
  q_lanes : lanes s' = lanes s;
  q_plan : option_plan s' = option_plan s ∧ rotation_index s' = rotation_index s;
  q_failed : failed s = true → failed s' = true;
  q_rows : (length (rows (requests s)) ≤ length (rows (requests s')))%nat;
  q_reg : reg_ok s → reg_ok s';
  q_within X : within X s → within X s';
  q_peaks O n : peaks O n (trace s) → peaks O n (trace s');
}.

#[local] Instance quiet_pre : PreOrder quiet.
Proof.
  split; [by intros s; constructor|]. intros s1 s2 s3 [] []. constructor; try congruence; auto; [naive_solver congruence|lia].
Qed.

Lemma peaks_count O n t : peaks O n t → count_lines O t ≤ n.
Proof. destruct t; cbn; tauto. Qed.

(** Calls that open nothing. *)
Definition opens (c : Call) : bool := match c with Request _ b => b | _ => false end.

Lemma log_closes c s l : opens c = false → l ∈ open_lines (c :: trace s) → l ∈ open_lines (trace s).
Proof. intros Hc. destruct c as [l' []| |l' []| | | |]; cbn in *; try done; by intros [_ ?]%list_elem_of_filter. Qed.

Lemma log_peaks O n c t : opens c = false → peaks O n t → peaks O n (c :: t).
Proof.
  intros Hc H. cbn. split; [|done]. apply peaks_count in H. unfold count_lines in *.
  destruct c as [l' []| |l' []| | | |]; cbn in *; try done.
  all: etrans; [|exact H]; apply Nat2Z.inj_le, submseteq_length, NoDup_submseteq; [apply NoDup_filter, NoDup_filter, open_lines_NoDup|].
  all: intros x [Hx [_ Hx']%list_elem_of_filter]%list_elem_of_filter; by apply list_elem_of_filter.
Qed.

Lemma quiet_log c s : opens c = false → quiet s (log c s).
Proof.
  intros Hc. constructor; cbn; try done.
  - intros X H l Hl. apply H. by eapply log_closes.
  - intros O n. by apply log_peaks.
Qed.

(** A change of requests and health only. *)
Lemma quiet_state s s' :
  lanes s' = lanes s → option_plan s' = option_plan s → rotation_index s' = rotation_index s → trace s' = trace s →
  (failed s = true → failed s' = true) →
  (length (rows (requests s)) ≤ length (rows (requests s')))%nat → (reg_ok s → reg_ok s') → quiet s s'.
Proof. intros Hl Hp Hi Ht Hf Hr Hg. constructor; try done; unfold within; by rewrite Ht. Qed.

Lemma set_row_quiet i f s : quiet s (set_row i f s).
Proof.
  apply quiet_state; try done; unfold reg_ok, set_row, with_requests, with_rows; cbn; by rewrite length_alter.
Qed.

(** ** Callbacks *)

Lemma zget_elem {A} k (d : list (Z * A)) v : zget k d = Some v → (k, v) ∈ d.
Proof.
  induction d as [|[k' v'] d IH]; cbn; [done|]. destruct (Z.eqb_spec k k') as [->|]; [intros [= ->]; left|right; auto].
Qed.
Lemma zset_elem {A} k (v : A) d kv : kv ∈ zset k v d → kv = (k, v) ∨ kv ∈ d.
Proof.
  induction d as [|[k' v'] d IH]; cbn; [intros ->%list_elem_of_singleton; by left|].
  destruct (k =? k'); rewrite !elem_of_cons; naive_solver.
Qed.

(** What a callback may do besides: it only touches registered rows. *)
Record gentle (s s' : Stream) : Prop := {
  ge_quiet : quiet s s';
  ge_regs kv : kv ∈ rows_by_req_id (requests s') → kv ∈ rows_by_req_id (requests s);
  ge_length : length (rows (requests s')) = length (rows (requests s));
  ge_row i : (∀ kv, kv ∈ rows_by_req_id (requests s) → kv.2 ≠ i) → row_at s' i = row_at s i;
}.

#[local] Instance gentle_pre : PreOrder gentle.
Proof.
  split; [by intros s; constructor|]. intros s1 s2 s3 [Q1 E1 L1 R1] [Q2 E2 L2 R2]. constructor; [by etrans|auto|congruence|].
  intros i Hi. rewrite R2, R1; [done|done|]. intros kv Hkv. by apply Hi, E1.
Qed.

Lemma row_at_set i f s : row_at (set_row i f s) i = f (row_at s i) ∨ (length (rows (requests s)) ≤ i)%nat.
Proof.
  unfold row_at, set_row. cbn. rewrite list_lookup_alter_eq. destruct (rows (requests s) !! i) eqn:E; [by left|].
  right. by apply lookup_ge_None.
Qed.
Lemma row_at_set_ne i j f s : i ≠ j → row_at (set_row i f s) j = row_at s j.
Proof. intros H. unfold row_at, set_row. cbn. by rewrite list_lookup_alter_ne. Qed.

Lemma gentle_health h s : (failed s = true → subscription_health_failed h = true) → gentle s (with_health h s).
Proof. intros H. constructor; try done; by apply quiet_state. Qed.
Lemma gentle_retry x s : gentle s (with_retry x s).
Proof. constructor; try done; by apply quiet_state. Qed.
Lemma gentle_log c s : opens c = false → gentle s (log c s).
Proof. intros H. constructor; try done; by apply quiet_log. Qed.
Lemma gentle_requests r s :
  rows r = rows (requests s) → (∀ kv, kv ∈ rows_by_req_id r → kv ∈ rows_by_req_id (requests s)) → gentle s (with_requests r s).
Proof.
  intros Hr He. constructor; cbn; [|done|by rewrite Hr|intros i _; unfold row_at; cbn; by rewrite Hr].
  apply quiet_state; try done; unfold reg_ok; cbn; rewrite Hr; [done|]. intros Hok kv Hkv. by apply Hok, He.
Qed.
Lemma gentle_set_row i f s : (∃ id, (id, i) ∈ rows_by_req_id (requests s)) → gentle s (set_row i f s).
Proof.
  intros [id Hid]. constructor; [apply set_row_quiet|done|unfold set_row; cbn; by rewrite length_alter|].
  intros j Hj. apply row_at_set_ne. intros ->. by apply (Hj (id, j)).
Qed.

Lemma fail_health_failed h : subscription_health_failed (fail_health h) = true.
Proof. done. Qed.

Lemma observe_rejection_gentle e error s : gentle s (observe_rejection e error s).
Proof.
  unfold observe_rejection. set (s1 := if ev_error_code e =? 10197 then _ else s).
  assert (H1 : gentle s s1).
  { unfold s1. destruct (_ =? _); [|done]. case_bool_decide; [apply gentle_retry|by apply gentle_health]. }
  etrans; [exact H1|]. clearbody s1. clear H1 s. rename s1 into s. cbv zeta.
  set (s2 := with_requests _ s). assert (H2 : gentle s s2) by by apply gentle_requests. etrans; [exact H2|].
  destruct (zget (ev_req_id e) (rows_by_req_id (requests s))) as [i|] eqn:E.
  - assert (H3 : ∀ f, gentle s2 (set_row i f s2)).
    { intros f. apply gentle_set_row. exists (ev_req_id e). by apply zget_elem in E. }
    destruct (match zget _ _ with Some _ => _ | None => _ end); [|apply H3]. etrans; [apply H3|]. by apply gentle_health.
  - destruct (_ <? 0); [by apply gentle_health|done].
Qed.

Lemma connectivity_flags_failed code h :
  subscription_health_failed h = true → subscription_health_failed (connectivity_flags code h) = true.
Proof. intros H. unfold connectivity_flags. repeat case_match; done. Qed.

Lemma on_error_gentle s e : gentle s (on_error s e).
Proof.
  unfold on_error. cbv zeta. set (s1 := with_requests _ s). assert (H1 : gentle s s1) by by apply gentle_requests.
  etrans; [exact H1|]. clearbody s1. destruct (observe_error _ _ _ _ _ _) as [[c file] b].
  set (s2 := with_health _ s1). assert (H2 : gentle s1 s2) by (apply gentle_health; intros; by apply connectivity_flags_failed).
  etrans; [exact H2|]. clearbody s2. set (s3 := if code_in _ _ then _ else s2).
  assert (H3 : gentle s2 s3) by (unfold s3; destruct (code_in _ _); [apply observe_rejection_gentle|done]).
  etrans; [exact H3|]. clearbody s3. destruct (observe _ _ _ _) as [[t ev]|]; [by apply gentle_health|done].
Qed.

Section stream.
Context `{Gateway}.

Lemma wait_gentle c s : opens c = false → gentle s (wait c s).1.
Proof.
  intros Hc. unfold wait, modify. cbn [fst]. etrans; [by apply (gentle_log c)|]. generalize (callbacks (trace (log c s))). intros es.
  generalize (log c s). clear. induction es as [|e es IH]; intros s; cbn; [done|]. etrans; [apply on_error_gentle|apply IH].
Qed.

Lemma wp_wait c s Q : opens c = false → (∀ s', gentle s s' → Q () s') → wp (wait c) Q s.
Proof. intros Hc HQ. apply HQ. by apply wait_gentle. Qed.

Lemma wp_connected s Q : (∀ b, Q b (log (IsConnected b) s)) → wp is_connected Q s.
Proof. intros HQ. apply HQ. Qed.

(** A failed session is blocked. *)
Lemma wp_blocked s Q : (∀ b s', gentle s s' → health s' = health s → (failed s = true → b = true) → Q b s') → wp lifecycle_blocked Q s.
Proof.
  intros HQ. unfold lifecycle_blocked. apply wp_bind, wp_connected. intros b. repeat wp_step. apply HQ; [by apply gentle_log|done|].
  unfold failed. cbn. intros ->. by rewrite orb_true_r.
Qed.

Lemma wp_changed n s Q : (∀ b s', gentle s s' → health s' = health s → Q b s') → wp (connectivity_changed_since n) Q s.
Proof.
  intros HQ. unfold connectivity_changed_since. apply wp_bind, wp_connected. intros b. repeat wp_step. by apply HQ; [apply gentle_log|].
Qed.

(** ** Cancelling *)

Lemma gentle_open s s' l : gentle s s' → l ∈ open_lines (trace s') → l ∈ open_lines (trace s).
Proof. intros G. exact (q_within _ _ (ge_quiet _ _ G) (open_lines (trace s)) (λ _ Hx, Hx) l). Qed.

Lemma cancel_subscription_spec kv s :
  wp (cancel_subscription kv) (λ ok s', gentle s s' ∧ health s' = health s
                                        ∧ (ok = true → kv.2.1 = true → kv.1 ∉ open_lines (trace s'))) s.
Proof.
  destruct kv as [l [ticker i]]. unfold wp, cancel_subscription. destruct ticker; cbn; [|done].
  destruct (negb (subscribed (row_at s i))); cbn.
  - split; [by apply gentle_log|]. split; [done|]. intros _ _ [? _]%list_elem_of_filter. done.
  - destruct (answer_cancel (trace s) l); (split; [by apply gentle_log|]; split; [done|]); [|done].
    intros _ _ [? _]%list_elem_of_filter. done.
Qed.

Lemma every_cancel lane s :
  wp (cancel_subscriptions lane) (λ ok s', gentle s s' ∧ health s' = health s
                                        ∧ (ok = true → ∀ l, l ∈ live_keys lane → l ∉ open_lines (trace s'))) s.
Proof.
  unfold cancel_subscriptions. revert s. induction lane as [|kv lane IH]; intros s; cbn [every].
  { apply wp_ret. split; [done|]. split; [done|]. by intros _ l ?%not_elem_of_nil. }
  apply wp_bind. eapply wp_mono; [apply cancel_subscription_spec|]. intros ok s1 (G1 & H1 & C1). apply wp_bind.
  eapply wp_mono; [apply IH|]. intros rest s2 (G2 & H2 & C2). apply wp_ret. split; [by etrans|]. split; [congruence|].
  intros [Hok Hrest]%andb_true_iff l Hl. unfold live_keys in Hl. apply list_elem_of_fmap in Hl as ([l' [t i]] & -> & [Ht Hin]%list_elem_of_filter).
  apply elem_of_cons in Hin as [<-|Hin].
  - intros Ho. by apply (C1 Hok Ht), (gentle_open _ _ _ G2).
  - apply C2; [done|]. apply list_elem_of_fmap. exists (l', (t, i)). split; [done|]. by apply list_elem_of_filter.
Qed.

Lemma discard_gentle lane s : wp (discard_subscriptions lane) (λ _ s', gentle s s' ∧ health s' = health s) s.
Proof.
  unfold discard_subscriptions. revert s. induction lane as [|[l [ticker i]] lane IH]; intros s; cbn [every]; [done|].
  apply wp_bind. unfold wp at 1, discard_subscription. destruct ticker; cbn; apply wp_bind; (eapply wp_mono; [apply IH|]);
    intros ok s' [G Hh]; apply wp_ret; [|done]. split; [|done]. etrans; [|exact G]. by apply gentle_log.
Qed.

Lemma unregister_gentle lane s : wp (unregister_subscription_rows lane) (λ _ s', gentle s s' ∧ health s' = health s) s.
Proof.
  unfold unregister_subscription_rows. revert s. induction lane as [|kv lane IH]; intros s; cbn [for_each]; [done|].
  apply wp_bind, wp_modify. eapply wp_mono; [apply IH|]. intros _ s' [G Hh].
  assert (G1 : gentle s (unregister_row kv s)).
  { unfold unregister_row. destruct (request_id _); [|done]. apply gentle_requests; [done|]. cbn. by intros kv' [_ ?]%list_elem_of_filter. }
  split; [by etrans|]. rewrite Hh. unfold unregister_row. by destruct (request_id _).
Qed.

(** A batch is cancelled, or the session has failed. *)
Lemma cancel_batch_spec lane s :
  wp (cancel_batch lane) (λ ok s', gentle s s'
      ∧ (ok = true → health s' = health s ∧ failed s = false ∧ ∀ l, l ∈ live_keys lane → l ∉ open_lines (trace s'))
      ∧ (ok = false → failed s' = true)) s.
Proof.
  unfold cancel_batch. apply wp_bind, wp_blocked. intros b s1 G1 H1 Hb. destruct b.
  - apply wp_bind. eapply wp_mono; [apply discard_gentle|]. intros _ s2 [G2 H2]. apply wp_bind.
    eapply wp_mono; [apply unregister_gentle|]. intros _ s3 [G3 H3]. repeat wp_step.
    split; [|done]. etrans; [exact G1|]. etrans; [exact G2|]. etrans; [exact G3|]. by apply gentle_health.
  - assert (Hf : failed s = false) by (destruct (failed s); [by specialize (Hb eq_refl)|done]). apply wp_bind, wp_get, wp_bind.
    eapply wp_mono; [apply every_cancel|]. intros result s2 (G2 & H2 & C2). apply wp_bind, wp_changed. intros changed s3 G3 H3.
    assert (G : gentle s s3) by (etrans; [exact G1|]; by etrans). destruct changed; [|destruct result; cbn [negb]].
    + apply wp_bind. eapply wp_mono; [apply unregister_gentle|]. intros _ s4 [G4 H4]. repeat wp_step. split; [|done].
      etrans; [exact G|]. etrans; [exact G4|]. by apply gentle_health.
    + apply wp_bind. eapply wp_mono; [apply unregister_gentle|]. intros _ s4 [G4 H4]. repeat wp_step.
      split; [by etrans|]. split; [|done]. intros _. split; [congruence|]. split; [done|]. intros l Hl Ho.
      apply (gentle_open _ _ _ G4), (gentle_open _ _ _ G3) in Ho. by apply (C2 eq_refl l).
    + repeat wp_step. split; [|done]. etrans; [exact G|]. by apply gentle_health.
Qed.

(** ** Requesting *)

(** The lines a result adds. *)
Definition opened (X : list string) (subs : Lane) (s : Stream) : Prop := within (live_keys subs ++ X) s.

(** The lanes are [L], and no more than [n] lines outside [O] are ever open. *)
Record steady (L : Lanes) (O : list string) (n : Z) (s s' : Stream) : Prop := {
  st_lanes : lanes s' = L;
  st_plan : option_plan s' = option_plan s ∧ rotation_index s' = rotation_index s;
  st_failed : failed s = true → failed s' = true;
  st_rows : (length (rows (requests s)) ≤ length (rows (requests s')))%nat;
  st_reg : reg_ok s → reg_ok s';
  st_peaks : peaks O n (trace s) → peaks O n (trace s');
}.

(** Besides, no row was registered. *)
Record requesting (L : Lanes) (O : list string) (n : Z) (s s' : Stream) : Prop := {
  rq_steady :> steady L O n s s';
  rq_fresh kv : kv ∈ rows_by_req_id (requests s') → kv ∈ rows_by_req_id (requests s);
}.

Lemma steady_trans L O n s1 s2 s3 : steady L O n s1 s2 → steady L O n s2 s3 → steady L O n s1 s3.
Proof. intros [] []. constructor; auto; [naive_solver congruence|lia]. Qed.
Lemma gentle_steady L O n s s' : lanes s = L → gentle s s' → steady L O n s s'.
Proof. intros HL [[] ? ?]. constructor; auto. congruence. Qed.

Lemma gentle_requesting L O n s s' : lanes s = L → gentle s s' → requesting L O n s s'.
Proof. intros HL G. constructor; [by apply gentle_steady|]. apply G. Qed.

Lemma requesting_trans L O n s1 s2 s3 : requesting L O n s1 s2 → requesting L O n s2 s3 → requesting L O n s1 s3.
Proof. intros [] []. constructor; auto. by eapply steady_trans. Qed.

(** A request adds at most its label to the open lines. *)
Lemma request_open l b t x : x ∈ open_lines (Request l b :: t) → x = l ∨ x ∈ open_lines t.
Proof. destruct b; cbn; [|by right]. case_decide; [by right|]. rewrite elem_of_cons. tauto. Qed.

Lemma request_peaks O n l b t X :
  (∀ x, x ∈ open_lines t → x ∈ X ++ O) → Z.of_nat (length (l :: X)) ≤ n → peaks O n t → peaks O n (Request l b :: t).
Proof.
  intros HX Hn Hp. cbn [peaks]. split; [|done]. etrans; [|exact Hn].
  unfold count_lines. apply Nat2Z.inj_le, submseteq_length, NoDup_submseteq; [apply NoDup_filter, open_lines_NoDup|].
  intros x [Hx [->|Ho]%request_open]%list_elem_of_filter; [left|]. apply HX, elem_of_app in Ho as [|]; [by right|done].
Qed.

Section requests.
Context (L : Lanes) (O X : list string) (n : Z).

(** One request, with the lines within [Y] before. *)
Lemma request_spec l i Y s :
  lanes s = L → within (Y ++ O) s → Z.of_nat (length (l :: Y)) ≤ n →
  wp (request_market_data l i) (λ refused s', requesting L O n s s' ∧ length (rows (requests s')) = length (rows (requests s))
      ∧ (∀ j, j ≠ i → row_at s' j = row_at s j)
      ∧ match refused with None => within (l :: Y ++ O) s' | Some _ => within (Y ++ O) s' end) s.
Proof.
  intros HL Hw Hn. unfold wp, request_market_data. destruct (answer_request (trace s) l) as [text|id]; cbn.
  - split; [|done]. constructor; [|done]. constructor; try done. cbn. intros Hp. by eapply (request_peaks _ _ _ false).
  - split; [|split; [by rewrite length_alter|split]].
    + constructor; [|done]. constructor; try done; cbn; rewrite ?length_alter; [done| |].
      * intros Hr kv Hkv. cbn in *. rewrite length_alter. by apply Hr.
      * intros Hp. by eapply (request_peaks _ _ _ true).
    + intros j Hj. by rewrite row_at_set_ne.
    + intros x Hx. apply (request_open l true) in Hx as [->|Hx]; [left|right; by apply Hw].
Qed.

Lemma subscribe_spec l i Y s :
  lanes s = L → reg_ok s → within (Y ++ O) s → Z.of_nat (length (l :: Y)) ≤ n →
  (∀ kv, kv ∈ rows_by_req_id (requests s) → kv.2 ≠ i) →
  wp (subscribe_contract l i) (λ ticker s', requesting L O n s s' ∧ length (rows (requests s')) = length (rows (requests s))
      ∧ within ((if ticker : bool then [l] else []) ++ Y ++ O) s') s.
Proof.
  intros HL Hreg Hw Hn Hi. unfold subscribe_contract. apply wp_bind. eapply wp_mono; [by apply request_spec|].
  intros [text|] s1 (R1 & L1 & _ & W1); [|by apply wp_ret].
  assert (Hfail : ∀ f s', requesting L O n s s' → length (rows (requests s')) = length (rows (requests s)) → within (Y ++ O) s' →
      wp (_ ← modify (set_row i f); mret false) (λ ticker s', requesting L O n s s'
        ∧ length (rows (requests s')) = length (rows (requests s)) ∧ within ((if ticker : bool then [l] else []) ++ Y ++ O) s') s').
  { intros f s' R Hl W. repeat wp_step. split; [|by rewrite <- Hl; cbn; rewrite length_alter].
    eapply requesting_trans; [exact R|]. destruct R as [[] ?], (set_row_quiet i f s'). constructor; [|done]. constructor; try done; congruence. }
  destruct (negb _); [by apply Hfail|]. apply wp_bind, wp_get. cbv zeta. apply wp_bind, wp_wait; [done|]. intros s2 G2.
  assert (R2 : requesting L O n s s2).
  { eapply requesting_trans; [exact R1|]. apply gentle_requesting; [by destruct R1 as [[]]|done]. }
  assert (L2 : length (rows (requests s2)) = length (rows (requests s))) by (rewrite (ge_length _ _ G2); done).
  assert (W2 : within (Y ++ O) s2) by by apply (q_within _ _ (ge_quiet _ _ G2)).
  destruct (answer_requalify (trace s1) l) as [why|[]]; [by apply Hfail| |by apply Hfail].
  apply wp_bind. eapply wp_mono; [apply (request_spec _ _ Y); [by destruct R2 as [[]]|done|done]|].
  intros [why|] s3 (R3 & L3 & _ & W3).
  - apply Hfail; [by eapply requesting_trans|congruence|done].
  - apply wp_ret. split; [by eapply requesting_trans|]. split; [congruence|done].
Qed.
End requests.

Lemma live_keys_app l l' : live_keys (l ++ l') = live_keys l ++ live_keys l'.
Proof. unfold live_keys. by rewrite filter_app, fmap_app. Qed.
Lemma length_live_keys l : (length (live_keys l) ≤ length l)%nat.
Proof. unfold live_keys. rewrite length_fmap. apply length_filter. Qed.
Lemma live_keys_dkeys l x : x ∈ live_keys l → x ∈ dkeys l.
Proof. unfold live_keys, dkeys. rewrite !list_elem_of_fmap. intros (kv & -> & [_ Hk]%list_elem_of_filter). by exists kv. Qed.

(** A requested lane: its labels in order, its rows new. *)
Lemma qualify_spec L O n labels result Y s :
  lanes s = L → reg_ok s → NoDup labels → (∀ l, l ∈ labels → l ∉ dkeys result) →
  within (live_keys result ++ Y ++ O) s → Z.of_nat (length labels + length result + length Y) ≤ n →
  wp (qualify_and_subscribe labels result) (λ subs s', requesting L O n s s' ∧ within (live_keys subs ++ Y ++ O) s'
      ∧ dkeys subs = dkeys result ++ labels
      ∧ ∀ kv, kv ∈ subs → kv ∈ result ∨ (length (rows (requests s)) ≤ kv.2.2 < length (rows (requests s')))%nat) s.
Proof.
  intros HL Hreg Hnd. revert result s HL Hreg. induction Hnd as [|l labels Hl Hnd IH]; intros result s HL Hreg Hfresh Hw Hn; cbn [qualify_and_subscribe].
  { apply wp_ret. split; [by apply gentle_requesting|]. split; [done|]. split; [by rewrite app_nil_r|]. by left. }
  apply wp_bind, wp_get. cbv zeta. apply wp_bind, wp_modify. set (i := length (rows (requests s))).
  set (s1 := with_requests _ s).
  assert (R1 : requesting L O n s s1).
  { constructor; [|done]. constructor; try done; unfold s1; cbn; rewrite ?length_app; [lia|]. intros Hr kv Hkv. cbn in *. rewrite length_app. specialize (Hr kv Hkv). lia. }
  apply wp_bind. eapply wp_mono; [apply (subscribe_spec L O n l i (live_keys result ++ Y)); [done|by apply (st_reg _ _ _ _ _ (rq_steady _ _ _ _ _ R1))| | |]|].
  - by rewrite <- app_assoc.
  - cbn in *. rewrite length_app. pose proof (length_live_keys result). lia.
  - intros kv Hkv E. specialize (Hreg kv Hkv). unfold i in E. lia.
  - intros ticker s2 (R2 & L2 & W2). rewrite dset_fresh by (apply Hfresh; left).
    assert (Hrow2 : length (rows (requests s2)) = S i) by (rewrite L2; unfold s1; cbn; rewrite length_app; cbn; unfold i; lia).
    eapply wp_mono; [apply IH|].
    + by destruct R2 as [[]].
    + apply (st_reg _ _ _ _ _ (rq_steady _ _ _ _ _ R2)), (st_reg _ _ _ _ _ (rq_steady _ _ _ _ _ R1)), Hreg.
    + intros x Hx. unfold dkeys. rewrite fmap_app, elem_of_app. cbn. rewrite list_elem_of_singleton.
      intros [Hk| ->]; [|done]. by apply (Hfresh x); [right|].
    + intros x Hx. apply W2 in Hx. rewrite live_keys_app, !elem_of_app in *. destruct ticker; cbn; rewrite ?list_elem_of_singleton; set_solver.
    + rewrite length_app. cbn in *. lia.
    + intros subs s3 (R3 & W3 & K3 & F3). split; [eapply requesting_trans; [exact R1|by eapply requesting_trans]|]. split; [done|].
      split; [rewrite K3; unfold dkeys; rewrite fmap_app, <- app_assoc; done|].
      intros kv Hkv. destruct (F3 kv Hkv) as [[Hin|Hin]%elem_of_app|Hr]; [by left| |right; lia].
      apply list_elem_of_singleton in Hin as ->. right. cbn. pose proof (st_rows _ _ _ _ _ (rq_steady _ _ _ _ _ R3)). unfold i in *. lia.
Qed.

(** ** Batches *)

Lemma apply_rejections_spec subs after entries s :
  wp (apply_rejections subs after entries) (λ b s', requesting (lanes s) (others s) 0 s s' ∧ trace s' = trace s
      ∧ health s' = health s ∧ (b = false → s' = s)) s.
Proof.
  assert (Hset : ∀ i f s, requesting (lanes s) (others s) 0 s (set_row i f s)).
  { intros i f s0. destruct (set_row_quiet i f s0). constructor; [|done]. constructor; try done; by intros; apply q_peaks0. }
  revert s. induction entries as [|[seq e] entries IH]; intros s; cbn [apply_rejections].
  { apply wp_ret. split; [by apply gentle_requesting|]. by split_and!. }
  apply wp_bind. unfold wp at 1, apply_rejection. destruct (seq <=? after); [|destruct (rejection_target s subs (err_req_id e)) as [i|]]; cbn [fst snd];
    apply wp_bind; (eapply wp_mono; [apply IH|]); intros b s' (R & T & Hh & E); apply wp_ret; try by split_and!.
  - split; [|by split_and!]. eapply requesting_trans; [apply Hset|exact R].
  - split_and!; try done. intros [_ Hb]%orb_false_iff. by apply E.
Qed.

Lemma register_spec L O n subs ln s :
  lanes s = L → (∀ kv, kv ∈ subs → (kv.2.2 < length (rows (requests s)))%nat) →
  wp (register_subscription_rows subs ln) (λ _ s', steady L O n s s' ∧ trace s' = trace s ∧ health s' = health s
      ∧ ∀ i, row_at s' i = row_at s i) s.
Proof.
  unfold register_subscription_rows. revert s. induction subs as [|kv subs IH]; intros s HL Hi; cbn [for_each].
  { apply wp_ret. split; [|done]. by apply gentle_steady. }
  apply wp_bind, wp_modify. assert (R : steady L O n s (register_row ln kv s) ∧ trace (register_row ln kv s) = trace s
      ∧ health (register_row ln kv s) = health s ∧ rows (requests (register_row ln kv s)) = rows (requests s)).
  { unfold register_row. destruct (request_id (row_at s kv.2.2)) as [id|]; [|split_and!; [by apply gentle_steady|done..]].
    split_and!; [|done..]. constructor; try done. intros Hr kv' Hkv'. cbn in *. apply zset_elem in Hkv' as [->|Hkv']; [|by apply Hr].
    apply Hi. left. }
  destruct R as (R & T & Hh & Hrows). eapply wp_mono; [apply IH|].
  - by destruct R.
  - intros kv' Hkv'. rewrite Hrows. apply Hi. by right.
  - intros _ s' (R' & T' & Hh' & Hrows'). split; [by eapply steady_trans|]. split; [congruence|]. split; [congruence|].
    intros i. rewrite Hrows'. unfold row_at. by rewrite Hrows.
Qed.

(** A batch that succeeds is complete, its session has not failed, and its rows
    are sound unless they were registered before. *)
Lemma batch_spec L O n subs k rej con ln s :
  lanes s = L → (∀ kv, kv ∈ subs → (kv.2.2 < length (rows (requests s)))%nat) →
  wp (subscription_batch_succeeded subs k rej con ln) (λ ok s', steady L O n s s' ∧ (∀ X, within X s → within X s')
      ∧ (ok = true → length subs = k ∧ failed s' = false
         ∧ ∀ kv, kv ∈ subs → (∀ r, r ∈ rows_by_req_id (requests s) → r.2 ≠ kv.2.2) → row_unhealthy (row_at s' kv.2.2) = false)) s.
Proof.
  intros HL Hi. unfold subscription_batch_succeeded. apply wp_bind, wp_get.
  destruct (negb (Nat.eqb (length subs) k) || existsb _ subs) eqn:Etest; [apply wp_ret; split; [by apply gentle_steady|done]|].
  apply orb_false_iff in Etest as [Hlen%negb_false_iff%Nat.eqb_eq Hhealthy].
  assert (Hgentle : ∀ s', gentle s s' → steady L O n s s' ∧ (∀ X, within X s → within X s')).
  { intros s' G. split; [by apply gentle_steady|]. intros X. apply G. }
  apply wp_bind. match goal with |- wp _ ?Q s => assert (HQ : ∀ s1, gentle s s1 → Q () s1) end.
  { intros s1 G1. apply wp_bind, wp_changed. intros changed s2 G2 H2. apply wp_bind, wp_when; intros ->.
    - repeat wp_step. split; [|split; [|done]]; apply Hgentle; etrans; [exact G1| |exact G1|]; (etrans; [exact G2|]); by apply gentle_health.
    - apply wp_bind, wp_blocked. intros blocked s3 G3 H3 Hb. assert (G : gentle s s3) by (etrans; [exact G1|]; by etrans).
      destruct blocked; [apply wp_ret; by split_and!; [apply Hgentle..|]|]. apply wp_bind, wp_get, wp_bind.
      eapply wp_mono; [apply apply_rejections_spec|]. intros rejected s4 (R4 & T4 & H4 & E4).
      destruct rejected.
      { apply wp_ret. destruct (Hgentle _ G) as [S W]. split_and!; [|by intros X HX; unfold within; rewrite T4; apply W|done].
        eapply steady_trans; [exact S|]. destruct R4 as [[] ?], S. constructor; try done; [congruence|]. intros Hp. by rewrite T4. }
      rewrite (E4 eq_refl) in *. clear R4 T4 H4 E4 s4. apply wp_bind. eapply wp_mono; [apply (register_spec L O n)|].
      { by rewrite (q_lanes _ _ (ge_quiet _ _ G)). }
      { intros kv Hkv. rewrite (ge_length _ _ G). by apply Hi. }
      intros _ s5 (R5 & T5 & H5 & Hrow5). repeat wp_step. destruct (Hgentle _ G) as [S W]. split; [|split].
      + eapply steady_trans; [exact S|]. eapply steady_trans; [exact R5|]. apply gentle_steady; [by destruct R5|]. by apply gentle_health.
      + intros X HX l Hl. cbn in Hl. rewrite T5 in Hl. exact (W X HX l Hl).
      + intros _. split; [done|]. split.
        * unfold failed. cbn. rewrite H5. destruct (subscription_health_failed (health s3)) eqn:Ef; [|done].
          rewrite H3 in Ef. by specialize (Hb Ef).
        * intros kv Hkv Hfresh. change (row_unhealthy (row_at s5 kv.2.2) = false). rewrite Hrow5, (ge_row _ _ G) by done.
          destruct (row_unhealthy (row_at s kv.2.2)) eqn:Eu; [|done].
          rewrite (proj2 (existsb_exists _ _)) in Hhealthy; [done|]. exists kv. split; [by apply list_elem_of_In|done]. }
  apply wp_when; intros _; [|by apply HQ]. apply wp_wait; [done|exact HQ].
Qed.

(** ** Restoring *)

Lemma dmerge_fresh {A} (d e : list (string * A)) :
  NoDup (dkeys e) → (∀ k, k ∈ dkeys e → k ∉ dkeys d) → dmerge d e = d ++ e.
Proof.
  unfold dmerge, dkeys. revert d. induction e as [|[k v] e IH]; intros d; cbn; [by rewrite app_nil_r|].
  intros Hn Hd. inversion Hn as [|? ? Hk Hn']; subst. rewrite dset_fresh by (apply Hd; left). rewrite IH; [by rewrite <- app_assoc|done|].
  intros k' Hk'. rewrite fmap_app, elem_of_app. cbn. rewrite list_elem_of_singleton. intros [H'| ->]; [|done]. by apply (Hd k'); [right|].
Qed.

Lemma filter_map_NoDup {A B} (f : A → B) (P : A → Prop) `{∀ a, Decision (P a)} l : NoDup (map f l) → NoDup (map f (filter P l)).
Proof.
  induction l as [|a l IH]; [done|]. intros Hn. inversion Hn as [|? ? Hk Hn']; subst.
  destruct (decide (P a)); [rewrite filter_cons_True by done|rewrite filter_cons_False by done; auto].
  cbn. constructor; [|auto]. intros (a' & E & [_ Hin]%list_elem_of_filter)%list_elem_of_fmap. apply Hk. rewrite E.
  apply list_elem_of_fmap. eauto.
Qed.

Lemma filter_keys_NoDup (P : string * (bool * nat) → Prop) `{∀ kv, Decision (P kv)} (l : Lane) :
  NoDup (dkeys l) → NoDup (dkeys (filter P l)).
Proof. apply filter_map_NoDup. Qed.

(** Some of the released lines are back, or the session has failed. *)
Lemma restore_spec L O n released Y ln s :
  lanes s = L → reg_ok s → NoDup (dkeys released) → Z.of_nat (length released + length Y) ≤ n →
  (failed s = true ∨ within (Y ++ O) s) →
  wp (restore_subscriptions released ln) (λ restored s', steady L O n s s' ∧ NoDup (dkeys restored)
      ∧ (∀ l, l ∈ dkeys restored → l ∈ dkeys released) ∧ (length restored ≤ length released)%nat
      ∧ (failed s' = true ∨ within (live_keys restored ++ Y ++ O) s')) s.
Proof.
  intros HL Hreg Hnd Hn HW. unfold restore_subscriptions. apply wp_bind, wp_blocked. intros b s1 G1 H1 Hb. fold (live_keys released).
  assert (Hempty : ∀ s', steady L O n s s' → failed s' = true ∨ within (Y ++ O) s' →
      wp (mret []) (λ restored s', steady L O n s s' ∧ NoDup (dkeys restored) ∧ (∀ l, l ∈ dkeys restored → l ∈ dkeys released)
        ∧ (length restored ≤ length released)%nat ∧ (failed s' = true ∨ within (live_keys restored ++ Y ++ O) s')) s').
  { intros s' S W. apply wp_ret. split_and!; [done|constructor|by intros l ?%not_elem_of_nil|cbn; lia|done]. }
  assert (S1 : steady L O n s s1) by by apply gentle_steady.
  assert (W1 : failed s1 = true ∨ within (Y ++ O) s1).
  { destruct HW as [HW|HW]; [left; by apply (st_failed _ _ _ _ _ S1)|right; by apply (q_within _ _ (ge_quiet _ _ G1))]. }
  destruct (b || bool_decide (live_keys released = [])) eqn:Eb; [by apply Hempty|]. apply orb_false_iff in Eb as [-> Hne].
  destruct HW as [HW|HW]; [by specialize (Hb HW)|]. clear W1.
  assert (W1 : within (Y ++ O) s1) by by apply (q_within _ _ (ge_quiet _ _ G1)).
  assert (Hlive : NoDup (live_keys released)) by by apply (filter_keys_NoDup _ released).
  apply wp_bind, wp_get, wp_bind. eapply wp_mono; [apply (qualify_spec L O n _ [] Y)|].
  { by destruct S1. } { by apply (st_reg _ _ _ _ _ S1). } { done. } { by intros l _ ?%not_elem_of_nil. } { done. }
  { cbn. pose proof (length_live_keys released). lia. }
  intros restored s2 (R2 & W2 & K2 & F2). apply wp_bind.
  assert (Hrows : ∀ kv, kv ∈ restored → (length (rows (requests s1)) ≤ kv.2.2 < length (rows (requests s2)))%nat).
  { intros kv Hkv. by destruct (F2 kv Hkv) as [?%not_elem_of_nil|]. }
  eapply wp_mono; [apply (batch_spec L O n)|].
  { by destruct R2 as [[]]. } { intros kv Hkv. by apply Hrows. }
  intros ok s3 (S3 & W3 & Hok). assert (S : steady L O n s s3).
  { eapply steady_trans; [exact S1|]. eapply steady_trans; [apply R2|done]. }
  destruct ok; cbn [negb].
  - apply wp_bind, wp_get, wp_ret. destruct (Hok eq_refl) as (_ & Hf & Hsound).
    rewrite filter_all.
    2: { apply Forall_forall. intros kv Hkv. apply Hsound; [done|]. intros r Hr E. apply (rq_fresh _ _ _ _ _ R2) in Hr.
         apply (st_reg _ _ _ _ _ S1 Hreg) in Hr. specialize (Hrows kv Hkv). lia. }
    cbn in K2. split_and!; [done|by rewrite K2| |..].
    + intros l. rewrite K2. by apply live_keys_dkeys.
    + assert (E : length (dkeys restored) = length (live_keys released)) by by rewrite K2. unfold dkeys in E. rewrite length_fmap in E.
      pose proof (length_live_keys released). lia.
    + right. by apply W3.
  - apply wp_bind. eapply wp_mono; [apply cancel_batch_spec|]. intros done_ s4 (G4 & _). apply wp_bind, wp_modify.
    apply Hempty; [|by left]. eapply steady_trans; [exact S|]. apply gentle_steady; [by destruct S|]. etrans; [exact G4|]. by apply gentle_health.
Qed.

(** The hot lane of a rollback: what remained, and what could be restored. *)
Lemma rollback_spec L O n remaining released additions Y s :
  lanes s = L → reg_ok s → NoDup (dkeys released) → Z.of_nat (length released + length Y) ≤ n →
  (failed s = true ∨ within (live_keys additions ++ Y ++ O) s) →
  wp (hot_rollback remaining released additions) (λ _ s', ∃ restored s0, s' = with_hot (dmerge remaining restored) s0
      ∧ steady L O n s s0 ∧ NoDup (dkeys restored) ∧ (∀ l, l ∈ dkeys restored → l ∈ dkeys released)
      ∧ (length restored ≤ length released)%nat ∧ (failed s' = true ∨ within (live_keys restored ++ Y ++ O) s')) s.
Proof.
  intros HL Hreg Hnd Hn HW. unfold hot_rollback. apply wp_bind. eapply wp_mono; [apply cancel_batch_spec|].
  intros ok s1 (G1 & Hok & Hko). assert (S1 : steady L O n s s1) by by apply gentle_steady.
  apply wp_bind. eapply wp_mono; [apply (restore_spec L O n released Y); [by destruct S1|by apply (st_reg _ _ _ _ _ S1)|done|done|]|].
  - destruct ok; [|left; by apply Hko]. destruct (Hok eq_refl) as (_ & Hf & Hgone). destruct HW as [HW|HW]; [congruence|]. right.
    intros l Hl. apply (q_within _ _ (ge_quiet _ _ G1)) in HW. apply HW in Hl as Hl'. apply elem_of_app in Hl' as [Hl'|]; [|done].
    by apply Hgone in Hl'.
  - intros restored s2 (S2 & N2 & K2 & L2 & W2). apply wp_modify. exists restored, s2. split_and!; try done. by eapply steady_trans.
Qed.

(** ** Sizes *)

Lemma length_dkeys (l : Lane) : length (dkeys l) = length l.
Proof. apply length_fmap. Qed.

Lemma restrict_keys labels l x : x ∈ dkeys (restrict labels l) ↔ x ∈ labels ∧ x ∈ dkeys l.
Proof.
  unfold dkeys, restrict. rewrite !list_elem_of_fmap. setoid_rewrite list_elem_of_filter. naive_solver.
Qed.
Lemma without_keys labels l x : x ∈ dkeys (without labels l) ↔ x ∉ labels ∧ x ∈ dkeys l.
Proof.
  unfold dkeys, without. rewrite !list_elem_of_fmap. setoid_rewrite list_elem_of_filter. naive_solver.
Qed.
Lemma live_restrict labels l x : x ∈ live_keys (restrict labels l) ↔ x ∈ labels ∧ x ∈ live_keys l.
Proof.
  unfold live_keys, restrict. rewrite !list_elem_of_fmap. setoid_rewrite list_elem_of_filter. setoid_rewrite list_elem_of_filter. naive_solver.
Qed.
Lemma live_without labels l x : x ∈ live_keys (without labels l) ↔ x ∉ labels ∧ x ∈ live_keys l.
Proof.
  unfold live_keys, without. rewrite !list_elem_of_fmap. setoid_rewrite list_elem_of_filter. setoid_rewrite list_elem_of_filter. naive_solver.
Qed.

Lemma length_without labels l :
  NoDup (dkeys l) → NoDup labels → (∀ x, x ∈ labels → x ∈ dkeys l) → (length (without labels l) + length labels = length l)%nat.
Proof.
  intros Hl Hn Hin. rewrite <- !length_dkeys, <- length_app. apply Permutation_length, NoDup_Permutation; [|done|].
  - apply NoDup_app. split_and!; [by apply filter_keys_NoDup| |done]. intros x [? _]%without_keys. done.
  - intros x. rewrite elem_of_app, without_keys. destruct (decide (x ∈ labels)); naive_solver.
Qed.

Section diff.
Context (max_lines : Z) (plan : OptionSubscriptionPlan) (L : Lanes).
Hypothesis Hhot : NoDup (dkeys (hot_subs L)).
Let d : HotDiff := hot_diff max_lines plan L.

Lemma desired_NoDup : NoDup (desired_labels plan).
Proof using. apply dedup_keep_first_NoDup. Qed.
Lemma added_NoDup : NoDup (added d).
Proof using. apply NoDup_filter, desired_NoDup. Qed.
Lemma obsolete_NoDup : NoDup (obsolete d).
Proof using Hhot. by apply NoDup_filter. Qed.

Lemma diff_split : (length (retained d) + length (obsolete d) = length (hot_subs L))%nat.
Proof using Hhot.
  rewrite <- length_dkeys, <- length_app. apply Permutation_length, NoDup_Permutation; [|done|].
  - apply NoDup_app. split_and!; [by apply NoDup_filter| |by apply NoDup_filter]. intros x Hx [Hn _]%list_elem_of_filter. done.
  - intros x. rewrite elem_of_app. unfold d, hot_diff. cbn [obsolete retained]. rewrite !list_elem_of_filter.
    destruct (decide (x ∈ desired_labels plan)); naive_solver.
Qed.

Lemma diff_desired : (length (retained d) + length (added d) ≤ length (desired_labels plan))%nat.
Proof using Hhot.
  rewrite <- length_app. apply submseteq_length, NoDup_submseteq.
  - apply NoDup_app. split_and!; [by apply NoDup_filter| |apply added_NoDup]. intros x Hx [[Hn _] _]%list_elem_of_filter. done.
  - intros x [[Hx _]%list_elem_of_filter|[_ Hx]%list_elem_of_filter]%elem_of_app; done.
Qed.

Lemma release_obsolete x : x ∈ release d → x ∈ obsolete d.
Proof using. unfold d, hot_diff. cbn [release obsolete]. intros (i & Hx%list_elem_of_lookup_2 & _)%elem_of_take. by rewrite sort_by_perm in Hx. Qed.

Lemma release_NoDup : NoDup (release d).
Proof using Hhot.
  unfold d, hot_diff. cbn [release]. match goal with |- NoDup (take ?n ?l) => assert (Hn : NoDup l) end.
  { rewrite sort_by_perm. by apply NoDup_filter. }
  match goal with |- NoDup (take ?n ?l) => rewrite <- (take_drop n l) in Hn end. by apply NoDup_app in Hn as [? _].
Qed.

(** Once room is made, the additions fit wherever the plan does. *)
Lemma diff_fits n :
  max_lines ≤ n →
  Z.of_nat (length (hot_subs L) + length (pinned_subs L)) ≤ n →
  Z.of_nat (length (desired_labels plan) + length (pinned_subs L)) ≤ n →
  Z.of_nat (length (without (release d) (hot_subs L)) + length (added d) + length (pinned_subs L)) ≤ n.
Proof using Hhot.
  intros Hn Hh Hp. pose proof diff_split as Hs. pose proof diff_desired as Hd.
  assert (Hw : (length (without (release d) (hot_subs L)) + length (release d) = length (hot_subs L))%nat).
  { apply length_without; [done|apply release_NoDup|]. intros x Hx%release_obsolete.
    unfold d, hot_diff in Hx. cbn [obsolete] in Hx. by apply list_elem_of_filter in Hx as [_ Hx]. }
  assert (Hr : length (release d) = (Z.to_nat (Z.max (Z.of_nat (length (added d)) - Z.max (Z.max (max_lines - Z.of_nat (length (pinned_subs L))) 0
                 - Z.of_nat (length (hot_subs L))) 0) 0) `min` length (obsolete d))%nat).
  { unfold d, hot_diff. cbn [release obsolete added]. rewrite length_take. f_equal; [|apply Permutation_length, sort_by_perm].
    by rewrite length_dkeys. }
  lia.
Qed.
End diff.

(** ** The invariant *)

(** The configured ceiling, and a number of lines that is enough: no smaller than
    the ceiling, nor than any plan with the pins. *)
Context (max_lines bound : Z) (Hbound : max_lines ≤ bound).

(** Every open line has an owner unless the session has failed, the lanes fit
    the bound, and so did the open lines at every moment. *)
Record wf (s : Stream) : Prop := {
  wf_hot : NoDup (dkeys (hot_subs (lanes s)));
  wf_reg : reg_ok s;
  wf_owned : failed s = true ∨ within (owned (lanes s)) s;
  wf_ceiling : Z.of_nat (length (hot_subs (lanes s)) + length (rotation_subs (lanes s)) + length (pinned_subs (lanes s))) ≤ bound;
  wf_peaks : peaks (others s) bound (trace s);
}.

Lemma wf_gentle s s' : gentle s s' → wf s → wf s'.
Proof.
  intros [[HL _ Hf Hr Hg HW HP] _ _ _] []. constructor; rewrite ?HL; auto; [|unfold others in *; rewrite HL; auto].
  destruct wf_owned0 as [?|?]; [left; auto|right; by apply HW].
Qed.

(** The parts of [wf] after steady work on lanes [L]. *)
Lemma wf_steady L n s s' :
  steady L (concat (other_lanes L)) n s s' → n = bound → lanes s = L → wf s →
  failed s' = true ∨ within (owned L) s' → wf s'.
Proof.
  intros [HL _ Hf Hr Hg HP] -> <- [] HW. constructor; unfold others in *; rewrite ?HL; auto.
Qed.

Lemma wf_set_lanes L s :
  NoDup (dkeys (hot_subs L)) → reg_ok s → (failed s = true ∨ within (owned L) s) →
  Z.of_nat (length (hot_subs L) + length (rotation_subs L) + length (pinned_subs L)) ≤ bound →
  peaks (concat (other_lanes L)) bound (trace s) → wf (with_lanes L s).
Proof. intros. by constructor. Qed.

Lemma wf_clear_rotation s : wf s → (∀ l, l ∈ live_keys (rotation_subs (lanes s)) → l ∉ open_lines (trace s)) → wf (with_rotation [] s).
Proof.
  intros [] Hgone. apply wf_set_lanes; try done; cbn; [|lia]. destruct wf_owned0 as [?|HW]; [by left|right].
  intros l Hl. apply HW in Hl as Hl'. unfold owned in *. cbn. rewrite !elem_of_app in *. naive_solver.
Qed.

(** What the hot lane holds after a successful reconciliation. *)
Definition reconciled (plan : OptionSubscriptionPlan) (L : Lanes) (s' : Stream) : Prop :=
  option_plan s' = Some plan ∧ rotation_index s' = 0 ∧ rotation_subs (lanes s') = [] ∧ pinned_subs (lanes s') = pinned_subs L
  ∧ ∀ l, l ∈ dkeys (hot_subs (lanes s')) ↔ l ∈ desired_labels plan ∧ (l ∉ dkeys (pinned_subs L) ∨ l ∈ dkeys (hot_subs L)).

(** What it holds after a failed one. *)
Definition unreconciled (s s' : Stream) : Prop :=
  option_plan s' = option_plan s ∧ rotation_index s' = rotation_index s ∧ pinned_subs (lanes s') = pinned_subs (lanes s)
  ∧ ∀ l, l ∈ dkeys (hot_subs (lanes s')) → l ∈ dkeys (hot_subs (lanes s)).

Section reconcile.
Context (plan : OptionSubscriptionPlan) (s0 : Stream).
Hypothesis Hwf : wf s0.
Hypothesis Hfit : Z.of_nat (length (desired_labels plan) + length (pinned_subs (lanes s0))) ≤ bound.

Let L0 : Lanes := lanes s0.
Let d : HotDiff := hot_diff max_lines plan L0.
Let L1 : Lanes := {| hot_subs := hot_subs L0; rotation_subs := []; pinned_subs := pinned_subs L0; other_lanes := other_lanes L0 |}.
Let O : list string := concat (other_lanes L0).
Let remaining : Lane := without (release d) (hot_subs L0).
Let released : Lane := restrict (release d) (hot_subs L0).
(** The lines that stay while the additions are requested. *)
Let Y : list string := live_keys remaining ++ live_keys (pinned_subs L0).

Lemma length_split : (length remaining + length released ≤ length (hot_subs L0))%nat.
Proof.
  clear Hfit Hwf. unfold remaining, released, without, restrict. generalize (hot_subs L0) as l. induction l as [|kv l IH]; [done|].
  destruct (decide (kv.1 ∈ release d)).
  - rewrite filter_cons_False, (filter_cons_True (λ kv0, kv0.1 ∈ release d)) by naive_solver. cbn [length]. lia.
  - rewrite filter_cons_True, (filter_cons_False (λ kv0, kv0.1 ∈ release d)) by naive_solver. cbn [length]. lia.
Qed.

Lemma length_Y : (length Y ≤ length remaining + length (pinned_subs L0))%nat.
Proof. clear Hfit Hwf. unfold Y. rewrite length_app. pose proof (length_live_keys remaining). pose proof (length_live_keys (pinned_subs L0)). lia. Qed.

(** The state once the rotation is cleared. *)
Definition cleared (s : Stream) : Prop :=
  wf s ∧ lanes s = L1 ∧ option_plan s = option_plan s0 ∧ rotation_index s = rotation_index s0.

Lemma cleared_give_up sA s :
  cleared sA → steady L1 O bound sA s → failed s = true ∨ within (owned L1) s → wf s ∧ unreconciled s0 s.
Proof.
  intros (Hw & HL & Hp & Hi) S HW. split; [by eapply (wf_steady L1)|]. destruct S as [E [Ep Ei] _ _ _ _].
  unfold unreconciled. rewrite E, Ep, Ei. by split_and!.
Qed.

Lemma rollback_wf sA s additions :
  cleared sA → steady L1 O bound sA s → (failed s = true ∨ within (live_keys additions ++ Y ++ O) s) →
  wp (_ ← hot_rollback remaining released additions; mret false) (λ ok s', wf s' ∧ ok = false ∧ unreconciled s0 s') s.
Proof.
  intros (Hw & HL & Hp & Hi) S HW. apply wp_bind. pose proof length_split as Hsp. pose proof length_Y as HY.
  pose proof (wf_hot _ Hwf) as Hn. pose proof (wf_ceiling _ Hwf) as Hc. fold L0 in Hn, Hc.
  eapply wp_mono; [apply (rollback_spec L1 O bound remaining released additions Y)|].
  - by destruct S.
  - apply (st_reg _ _ _ _ _ S), Hw.
  - by apply filter_keys_NoDup.
  - lia.
  - done.
  - intros _ s' (restored & sB & -> & SB & NB & KB & LB & WB). apply wp_ret.
    assert (Hd : dmerge remaining restored = remaining ++ restored).
    { apply dmerge_fresh; [done|]. intros k Hk%KB [Hk' _]%without_keys. by apply restrict_keys in Hk as [Hk _]. }
    rewrite Hd in *. assert (S' : steady L1 O bound sA sB) by by eapply steady_trans.
    assert (EB : lanes sB = L1) by by destruct S'. split; [|split; [done|]].
    + unfold with_hot. rewrite EB. apply wf_set_lanes; cbn [hot_subs rotation_subs pinned_subs other_lanes length].
      * unfold dkeys. rewrite fmap_app. apply NoDup_app. split_and!; [by apply filter_keys_NoDup| |done].
        intros k [Hk _]%without_keys Hk'%KB. by apply restrict_keys in Hk' as [Hk' _].
      * apply (st_reg _ _ _ _ _ S'), Hw.
      * destruct WB as [WB|WB]; [by left|right]. intros l Hl. apply WB in Hl. unfold owned, Y in *.
        cbn [hot_subs rotation_subs pinned_subs other_lanes]. change (live_keys []) with (@nil string).
        rewrite live_keys_app. rewrite !elem_of_app in *. tauto.
      * rewrite length_app. unfold L1. cbn [rotation_subs pinned_subs length]. lia.
      * apply (st_peaks _ _ _ _ _ S'). pose proof (wf_peaks _ Hw) as Hpk. unfold others in Hpk. by rewrite HL in Hpk.
    + destruct S' as [_ [Ep Ei] _ _ _ _]. unfold unreconciled. cbn. rewrite EB, Ep, Ei. split_and!; [done..|].
      intros l. unfold dkeys. rewrite fmap_app. intros [[_ ?]%without_keys|Hk]%elem_of_app; [done|]. by apply KB, restrict_keys in Hk as [_ ?].
Qed.

Lemma restrict_retained_obsolete x : x ∈ dkeys (hot_subs L0) → x ∈ retained d ∨ x ∈ obsolete d.
Proof.
  clear Hwf Hfit. intros Hx. unfold d, hot_diff. cbn [retained obsolete]. rewrite !list_elem_of_filter.
  destruct (decide (x ∈ desired_labels plan)); [left|right]; naive_solver.
Qed.

(** The success path's hot lane. *)
Lemma reconciled_wf sA s additions :
  cleared sA → steady L1 O bound sA s → dkeys additions ≡ₚ added d →
  within (live_keys additions ++ live_keys (restrict (retained d) remaining) ++ live_keys (pinned_subs L0) ++ O) s →
  let s' := with_plan (Some plan) 0 (with_hot (dmerge (restrict (retained d) remaining) additions) s) in
  wf s' ∧ reconciled plan L0 s'.
Proof.
  intros (Hw & HL & Hp & Hi) S HK HW. cbv zeta. pose proof (wf_hot _ Hwf) as Hn. pose proof (wf_ceiling _ Hwf) as Hc. fold L0 in Hn, Hc.
  assert (Hadd : ∀ x, x ∈ added d ↔ (x ∉ retained d ∧ x ∉ dkeys (pinned_subs L0)) ∧ x ∈ desired_labels plan).
  { intros x. unfold d, hot_diff. cbn [added retained]. by rewrite list_elem_of_filter. }
  assert (Hret : ∀ x, x ∈ retained d ↔ x ∈ desired_labels plan ∧ x ∈ dkeys (hot_subs L0)).
  { intros x. unfold d, hot_diff. cbn [retained]. by rewrite list_elem_of_filter. }
  assert (Hkeep : ∀ x, x ∈ dkeys (restrict (retained d) remaining) ↔ x ∈ retained d).
  { intros x. rewrite restrict_keys. unfold remaining. rewrite without_keys. split; [tauto|]. intros Hx. split; [done|]. split; [|by apply Hret].
    intros Hr%release_obsolete. unfold hot_diff in Hr. cbn [obsolete] in Hr. apply list_elem_of_filter in Hr as [Hr _]. by apply Hr. }
  assert (Hna : NoDup (dkeys additions)) by (rewrite HK; apply added_NoDup).
  rewrite dmerge_fresh; [|done|]. 2: { intros k Hk. rewrite HK in Hk. apply Hadd in Hk as [[Hk _] _]. by rewrite Hkeep. }
  assert (EL : lanes s = L1) by by destruct S.
  assert (Hkeys : ∀ l, l ∈ dkeys (restrict (retained d) remaining ++ additions) ↔ l ∈ retained d ∨ l ∈ added d).
  { intros l. unfold dkeys at 1. rewrite fmap_app, elem_of_app. fold (dkeys (restrict (retained d) remaining)) (dkeys additions).
    by rewrite Hkeep, HK. }
  assert (Hnd : NoDup (dkeys (restrict (retained d) remaining ++ additions))).
  { unfold dkeys. rewrite fmap_app. apply NoDup_app. split_and!; [by apply filter_keys_NoDup, filter_keys_NoDup| |done].
    intros k Hk Hk'. apply Hkeep in Hk. fold (dkeys additions) in Hk'. rewrite HK in Hk'. by apply Hadd in Hk' as [[? _] _]. }
  split.
  - unfold with_hot. rewrite EL.
    assert (Hlen : (length (restrict (retained d) remaining ++ additions) ≤ length (desired_labels plan))%nat).
    { rewrite <- length_dkeys. apply submseteq_length, NoDup_submseteq; [done|]. intros l [Hl|Hl]%Hkeys; [by apply Hret in Hl as [? _]|].
      by apply Hadd in Hl as [_ ?]. }
    pose proof (wf_peaks _ Hw) as Hpk. unfold others in Hpk. rewrite HL in Hpk. destruct S as [? _ Sf Sr Sg Sp].
    constructor; cbn [lanes requests health trace with_plan with_lanes hot_subs rotation_subs pinned_subs other_lanes].
    + done.
    + by apply Sg, Hw.
    + right. intros l Hl. apply HW in Hl. unfold owned. cbn [hot_subs rotation_subs pinned_subs other_lanes].
      change (live_keys []) with (@nil string). rewrite live_keys_app. rewrite !elem_of_app in *. tauto.
    + unfold L1. cbn [rotation_subs pinned_subs length]. fold L0 in Hfit. lia.
    + by apply Sp.
  - unfold reconciled, with_hot. rewrite EL. cbn [option_plan rotation_index lanes with_plan with_lanes rotation_subs pinned_subs hot_subs].
    split_and!; try done. intros l. rewrite Hkeys, Hadd, Hret.
    destruct (decide (l ∈ dkeys (hot_subs L0))); naive_solver.
Qed.

(** [reconcile_option_plan] keeps the invariant, and does all or nothing. *)
Lemma reconcile_wf :
  wp (reconcile_option_plan max_lines plan) (λ ok s', wf s' ∧ (if ok : bool then reconciled plan L0 s' else unreconciled s0 s')) s0.
Proof.
  assert (Hgive : ∀ s, wf s ∧ unreconciled s0 s → wp (mret false) (λ ok s', wf s' ∧ (if ok : bool then reconciled plan L0 s' else unreconciled s0 s')) s) by done.
  assert (Hroll : ∀ sA s additions, cleared sA → steady L1 O bound sA s → (failed s = true ∨ within (live_keys additions ++ Y ++ O) s) →
    wp (_ ← hot_rollback remaining released additions; mret false) (λ ok s', wf s' ∧ (if ok : bool then reconciled plan L0 s' else unreconciled s0 s')) s).
  { intros sA s additions HA S W. eapply wp_mono; [by eapply rollback_wf|]. by intros ok s' (? & -> & ?). }
  unfold reconcile_option_plan. apply wp_bind, wp_get. cbv zeta. apply wp_bind. eapply wp_mono; [apply cancel_batch_spec|].
  intros ok s1 (G1 & Hok & Hko). pose proof (wf_gentle _ _ G1 Hwf) as Hw1. pose proof (q_lanes _ _ (ge_quiet _ _ G1)) as E1.
  destruct (q_plan _ _ (ge_quiet _ _ G1)) as [Ep1 Ei1].
  destruct ok; cbn [negb]. 2: { apply Hgive. split; [done|]. unfold unreconciled. rewrite E1, Ep1, Ei1. by split_and!. }
  destruct (Hok eq_refl) as (Hh1 & Hf0 & Hgone). clear Hok Hko. apply wp_bind, wp_modify.
  set (sA := with_rotation [] s1). assert (HA : cleared sA).
  { split; [|split; [|by split]].
    - apply wf_clear_rotation; [done|]. by rewrite E1.
    - unfold sA, with_rotation, L1. cbn. by rewrite E1. }
  assert (HfA : failed sA = false) by (unfold failed, sA, with_rotation, with_lanes in *; cbn; by rewrite Hh1).
  assert (HWA : within (owned L1) sA).
  { destruct HA as (HwA & HLA & _). destruct (wf_owned _ HwA) as [?|HW]; [congruence|by rewrite HLA in HW]. }
  assert (EA : lanes sA = L1) by apply HA. clearbody sA. clear Hgone.
  fold L0 d released remaining. apply wp_bind.
  (* what is released has gone, or the session has failed *)
  assert (Hfreed : wp (if bool_decide (released = []) then mret true else cancel_batch released)
            (λ ok s, gentle sA s ∧ (ok = true → within (Y ++ O) s) ∧ (ok = false → failed s = true)) sA).
  { assert (Hsub : ∀ s, gentle sA s → (∀ l, l ∈ live_keys released → l ∉ open_lines (trace s)) → within (Y ++ O) s).
    { intros s G Hg l Hl. pose proof (gentle_open _ _ _ G Hl) as Ho. apply HWA in Ho. unfold owned, L1 in Ho.
      cbn [hot_subs rotation_subs pinned_subs other_lanes] in Ho. change (live_keys []) with (@nil string) in Ho. cbn [app] in Ho. unfold Y, O.
      destruct (decide (l ∈ release d)) as [Hr|Hr].
      - destruct (decide (l ∈ live_keys (hot_subs L0))) as [Hlive|Hlive]; [|rewrite !elem_of_app in *; tauto].
        exfalso. apply (Hg l); [|done]. by apply live_restrict.
      - rewrite !elem_of_app in *. destruct Ho as [Ho|Ho]; [|tauto]. left. left. by apply live_without. }
    destruct (bool_decide_reflect (released = [])) as [Er|Er].
    - apply wp_ret. split; [done|]. split; [|done]. intros _. apply Hsub; [done|]. rewrite Er. by intros l ?%not_elem_of_nil.
    - eapply wp_mono; [apply cancel_batch_spec|]. intros ok s (G & Ht & Hf). split; [done|]. split; [|done]. intros ->.
      destruct (Ht eq_refl) as (_ & _ & Hg). by apply Hsub. }
  eapply wp_mono; [exact Hfreed|]. clear Hfreed. intros freed s2 (G2 & W2 & F2).
  assert (S2 : steady L1 O bound sA s2) by by apply gentle_steady.
  destruct freed; cbn [negb]. 2: { apply Hgive. apply (cleared_give_up sA); [done..|]. left. by apply F2. }
  specialize (W2 eq_refl). clear F2. apply wp_bind, wp_get. cbv zeta. apply wp_bind. unfold resolve_option_definitions at 1.
  apply wp_bind, wp_get. cbv zeta. apply wp_bind, wp_wait; [done|]. intros s3 G3. apply wp_ret.
  set (defs := filter _ _). assert (S3 : steady L1 O bound sA s3).
  { eapply steady_trans; [exact S2|]. apply gentle_steady; [by destruct S2|done]. }
  assert (W3 : within (Y ++ O) s3) by by apply (q_within _ _ (ge_quiet _ _ G3)).
  assert (Hdefs : NoDup defs ∧ (length defs ≤ length (added d))%nat).
  { assert (Hs : NoDup (sort_by label_lt (added d))) by (rewrite sort_by_perm; apply added_NoDup).
    split; [by apply NoDup_filter|]. unfold defs. etrans; [apply length_filter|]. by rewrite sort_by_perm. }
  destruct Hdefs as [Hnd Hlen]. pose proof length_Y as HY. pose proof (wf_ceiling _ Hwf) as Hc. fold L0 in Hc.
  pose proof (diff_fits max_lines plan L0 (wf_hot _ Hwf) bound Hbound ltac:(lia) Hfit) as Hroom. fold d remaining in Hroom.
  apply wp_bind. eapply wp_mono; [apply (qualify_spec L1 O bound defs [] Y)|].
  { by destruct S3. } { apply (st_reg _ _ _ _ _ S3), HA. } { done. } { by intros l _ ?%not_elem_of_nil. } { done. } { cbn [length]. lia. }
  intros additions s4 (R4 & W4 & K4 & F4). assert (S4 : steady L1 O bound sA s4) by (eapply steady_trans; [exact S3|apply R4]).
  apply wp_bind. eapply wp_mono; [apply (batch_spec L1 O bound)|].
  { by destruct S4. } { intros kv Hkv. destruct (F4 kv Hkv) as [?%not_elem_of_nil|?]; [done|lia]. }
  intros ok s5 (S5 & W5 & Hok). assert (S5' : steady L1 O bound sA s5) by by eapply steady_trans.
  destruct ok; cbn [negb]. 2: { apply (Hroll sA); [done..|]. right. by apply W5. }
  destruct (Hok eq_refl) as (Hcount & _ & _). cbn [app] in K4.
  assert (HK : dkeys additions ≡ₚ added d).
  { rewrite K4. cbn [app]. assert (E : sort_by label_lt (added d) ≡ₚ added d) by apply sort_by_perm. rewrite <- E.
    apply submseteq_length_Permutation; [apply sublist_submseteq, sublist_filter|].
    rewrite E, <- Hcount, <- length_dkeys, K4. done. }
  apply wp_bind. eapply wp_mono; [apply cancel_batch_spec|]. intros dropped s6 (G6 & Ht & Hf).
  assert (S6 : steady L1 O bound sA s6) by (eapply steady_trans; [exact S5'|]; apply gentle_steady; [by destruct S5'|done]).
  assert (W6 : within (live_keys additions ++ Y ++ O) s6) by by apply (q_within _ _ (ge_quiet _ _ G6)), W5.
  destruct dropped; cbn [negb]. 2: { apply (Hroll sA); [done..|]. left. by apply Hf. }
  destruct (Ht eq_refl) as (_ & _ & Hg). apply wp_bind, wp_modify, wp_ret. eapply reconciled_wf; [exact HA|exact S6|exact HK|].
  intros l Hl. pose proof (W6 l Hl) as Hl'. unfold Y in Hl'. rewrite !elem_of_app in *. destruct Hl' as [?|[[Hr|?]|?]]; [tauto| |tauto..].
  destruct (restrict_retained_obsolete l) as [Hx|Hx].
  { by apply live_without, proj2, live_keys_dkeys in Hr. }
  - right. left. by apply live_restrict.
  - exfalso. apply (Hg l); [by apply live_restrict|done].
Qed.
End reconcile.

(** ** The rotation *)

(** The slices of a plan name each contract once. *)
Definition distinct (plan : OptionSubscriptionPlan) : Prop := ∀ c, c ∈ rotations plan → NoDup (map option_spec_label c).

(** What a reader of the lanes sees. *)
Definition shown (s : Stream) : list string :=
  dkeys (hot_subs (lanes s)) ++ dkeys (rotation_subs (lanes s)) ++ dkeys (pinned_subs (lanes s)).

(** One rotation: the slice at the index is subscribed and the index moves on,
    or it does not move on. *)
Definition rotated (s s' : Stream) : Prop :=
  hot_subs (lanes s') = hot_subs (lanes s) ∧ pinned_subs (lanes s') = pinned_subs (lanes s) ∧ option_plan s' = option_plan s
  ∧ (rotation_index s' ≤ Z.max (rotation_index s) 0
     ∨ rotation_index s' = rotation_index s + 1
       ∧ ∃ plan, option_plan s = Some plan ∧ rotations plan ≠ []
         ∧ dkeys (rotation_subs (lanes s')) = map option_spec_label (eligible_specs max_lines (lanes s) (slice_at plan (rotation_index s)))).

Lemma qualify_for_lane_spec L O n labels ln Y s :
  lanes s = L → reg_ok s → NoDup labels → within (Y ++ O) s → Z.of_nat (length labels + length Y) ≤ n →
  wp (qualify_and_subscribe_for_lane labels ln) (λ subs s', steady L O n s s' ∧ within (live_keys subs ++ Y ++ O) s' ∧ dkeys subs = labels
      ∧ ∀ kv, kv ∈ subs → (kv.2.2 < length (rows (requests s')))%nat) s.
Proof.
  intros HL Hreg Hnd HW Hn. unfold qualify_and_subscribe_for_lane. apply wp_bind, wp_get. cbv zeta. apply wp_bind, wp_modify.
  set (s1 := with_requests _ s). assert (G1 : gentle s s1) by by apply gentle_requests.
  assert (S1 : steady L O n s s1) by by apply gentle_steady. apply wp_bind. eapply wp_mono; [apply (qualify_spec L O n labels [] Y)|].
  { by destruct S1. } { by apply (st_reg _ _ _ _ _ S1). } { done. } { by intros l _ ?%not_elem_of_nil. } { done. } { cbn [length]. lia. }
  intros subs s2 (R2 & W2 & K2 & F2). assert (S2 : steady L O n s s2) by (eapply steady_trans; [exact S1|apply R2]).
  assert (Hrows : ∀ kv, kv ∈ subs → (kv.2.2 < length (rows (requests s2)))%nat).
  { intros kv Hkv. destruct (F2 kv Hkv) as [?%not_elem_of_nil|?]; [done|lia]. }
  apply wp_bind. eapply wp_mono; [apply (register_spec L O n); [by destruct S2|done]|]. intros _ s3 (S3 & T3 & _ & _).
  apply wp_bind, wp_modify, wp_ret. set (s4 := with_requests _ s3). assert (G4 : gentle s3 s4) by by apply gentle_requests.
  assert (EL3 : lanes s3 = L) by by destruct S3. split_and!.
  - eapply steady_trans; [exact S2|]. eapply steady_trans; [exact S3|]. by apply gentle_steady.
  - apply (q_within _ _ (ge_quiet _ _ G4)). intros x Hx. rewrite T3 in Hx. by apply W2.
  - done.
  - intros kv Hkv. rewrite (ge_length _ _ G4). pose proof (st_rows _ _ _ _ _ S3). specialize (Hrows kv Hkv). lia.
Qed.

Lemma eligible_fits L slice :
  Z.of_nat (length (hot_subs L) + length (pinned_subs L)) ≤ bound →
  Z.of_nat (length (eligible_specs max_lines L slice) + length (hot_subs L) + length (pinned_subs L)) ≤ bound.
Proof. intros Hc. unfold eligible_specs. rewrite length_take, length_dkeys. lia. Qed.

Lemma eligible_NoDup L slice : NoDup (map option_spec_label slice) → NoDup (map option_spec_label (eligible_specs max_lines L slice)).
Proof.
  intros Hn. unfold eligible_specs. apply (filter_map_NoDup _ (λ c, option_spec_label c ∉ dkeys (pinned_subs L))) in Hn. revert Hn.
  generalize (filter (λ c, option_spec_label c ∉ dkeys (pinned_subs L)) slice). intros l Hn.
  match goal with |- NoDup (map _ (take ?k l)) => rewrite <- (take_drop k l), map_app in Hn end. by apply NoDup_app in Hn as [? _].
Qed.

Lemma slice_elem plan i : rotations plan ≠ [] → slice_at plan i ∈ rotations plan.
Proof.
  intros Hne. unfold slice_at, rotation_count. assert (Hl : (0 < length (rotations plan))%nat) by (destruct (rotations plan); [done|cbn; lia]).
  pose proof (Z.mod_pos_bound i (Z.of_nat (length (rotations plan))) ltac:(lia)).
  destruct (lookup_lt_is_Some_2 (rotations plan) (Z.to_nat (i mod Z.of_nat (length (rotations plan))))) as [c Hc]; [lia|].
  rewrite Hc. cbn. by eapply list_elem_of_lookup_2.
Qed.

Lemma filter_full {A} (P : A → Prop) `{∀ a, Decision (P a)} l : length (filter P l) = length l → filter P l = l.
Proof.
  induction l as [|a l IH]; [done|]. pose proof (length_filter P l). destruct (decide (P a)).
  - rewrite filter_cons_True by done. cbn [length]. intros E. f_equal. apply IH. lia.
  - rewrite filter_cons_False by done. cbn [length]. lia.
Qed.

Definition plan_ok (s : Stream) : Prop := ∀ plan, option_plan s = Some plan → distinct plan.

(** [rotate_options] keeps the invariant. *)
Lemma rotate_wf s : wf s → plan_ok s → wp (rotate_options max_lines) (λ _ s', wf s' ∧ rotated s s') s.
Proof.
  intros Hwf Hplan. unfold rotate_options. apply wp_bind, wp_get.
  assert (Hstay : ∀ s', gentle s s' → wf s' ∧ rotated s s').
  { intros s' G. split; [by eapply wf_gentle|]. destruct G as [[EL [Ep Ei] _ _ _ _ _] _ _ _]. unfold rotated. rewrite EL, Ep, Ei. split_and!; [done..|left; lia]. }
  destruct (option_plan s) as [plan|] eqn:Eplan; [|apply wp_ret; by apply Hstay].
  destruct (bool_decide_reflect (rotations plan = [])) as [|Hne]; [apply wp_ret; by apply Hstay|]. cbv zeta.
  destruct (fltb _ _); [apply wp_ret; by apply Hstay|]. destruct (existsb _ _).
  - apply wp_bind. eapply wp_mono; [apply cancel_batch_spec|]. intros ok s1 (G1 & Hok & Hko). apply wp_modify.
    pose proof (wf_gentle _ _ G1 Hwf) as Hw1. pose proof G1 as [[EL [Ep Ei] _ _ _ _ _] _ _ _].
    assert (Hw2 : wf (with_rotation [] s1)).
    { destruct ok; [apply wf_clear_rotation; [done|]; rewrite EL; by apply Hok|]. destruct Hw1. apply wf_set_lanes; try done.
      - left. by apply Hko.
      - cbn. lia. }
    split; [by destruct Hw2|]. unfold rotated, with_rotation. cbn. rewrite EL, Ep, Ei. split_and!; [done..|left; lia].
  - apply wp_bind. eapply wp_mono; [apply cancel_batch_spec|]. intros ok s1 (G1 & Hok & Hko).
    destruct ok; cbn [negb]; [|apply wp_ret; by apply Hstay]. destruct (Hok eq_refl) as (Hh1 & Hf0 & Hgone). clear Hok Hko.
    pose proof (wf_gentle _ _ G1 Hwf) as Hw1. pose proof G1 as [[EL [Ep Ei] _ _ _ _ _] _ _ _].
    apply wp_bind, wp_modify. set (sA := with_rotation [] s1).
    assert (HA : wf sA) by (apply wf_clear_rotation; [done|]; by rewrite EL).
    set (L1 := {| hot_subs := hot_subs (lanes s); rotation_subs := []; pinned_subs := pinned_subs (lanes s); other_lanes := other_lanes (lanes s) |}).
    assert (EA : lanes sA = L1) by (unfold sA, with_rotation; cbn; by rewrite EL).
    assert (EpA : option_plan sA = Some plan ∧ rotation_index sA = rotation_index s) by (unfold sA, with_rotation; cbn; rewrite Ep, Ei; by split).
    set (O := concat (other_lanes L1)). set (Y := live_keys (hot_subs L1) ++ live_keys (pinned_subs L1)).
    apply wp_bind, wp_get. cbv zeta. destruct EpA as [EpA EiA]. rewrite EA, EiA.
    set (eligible := eligible_specs max_lines L1 (slice_at plan (rotation_index s))). apply wp_bind. unfold resolve_option_definitions.
    apply wp_bind, wp_get. cbv zeta. apply wp_bind, wp_wait; [done|]. intros s3 G3. apply wp_ret. set (defs := filter _ _).
    assert (S3 : steady L1 O bound sA s3) by by apply gentle_steady.
    assert (HY : ∀ l, l ∈ owned L1 ↔ l ∈ Y ++ O).
    { intros l. unfold owned, Y, O, L1. cbn [hot_subs rotation_subs pinned_subs other_lanes]. change (live_keys []) with (@nil string).
      cbn [app]. rewrite !elem_of_app. tauto. }
    assert (HWA : within (Y ++ O) sA).
    { assert (HfA : failed sA = false) by (unfold failed, sA, with_rotation, with_lanes in *; cbn; by rewrite Hh1).
      destruct (wf_owned _ HA) as [?|HW]; [congruence|]. rewrite EA in HW. intros l Hl. by apply HY, HW. }
    assert (W3 : within (Y ++ O) s3) by by apply (q_within _ _ (ge_quiet _ _ G3)).
    pose proof (wf_ceiling _ HA) as Hc. rewrite EA in Hc. cbn [rotation_subs L1 length] in Hc.
    pose proof (eligible_fits L1 (slice_at plan (rotation_index s)) ltac:(lia)) as Hfit. fold eligible in Hfit.
    assert (Hnd : NoDup (map option_spec_label eligible)).
    { apply eligible_NoDup, (Hplan plan Eplan), slice_elem, Hne. }
    assert (Hlen : (length defs ≤ length eligible)%nat).
    { unfold defs. etrans; [apply length_filter|]. by rewrite length_map. }
    assert (HlY : (length Y ≤ length (hot_subs L1) + length (pinned_subs L1))%nat).
    { unfold Y. rewrite length_app. pose proof (length_live_keys (hot_subs L1)). pose proof (length_live_keys (pinned_subs L1)). lia. }
    apply wp_bind. eapply wp_mono; [apply (qualify_for_lane_spec L1 O bound defs "rotation" Y)|].
    { by destruct S3. } { apply (st_reg _ _ _ _ _ S3), HA. } { by apply NoDup_filter. } { done. } { lia. }
    intros replacement s4 (S4 & W4 & K4 & F4). assert (S4' : steady L1 O bound sA s4) by by eapply steady_trans.
    apply wp_bind. eapply wp_mono; [apply (batch_spec L1 O bound); [by destruct S4|done]|].
    intros ok s5 (S5 & W5 & Hok). assert (S5' : steady L1 O bound sA s5) by by eapply steady_trans.
    apply W5 in W4. destruct S5' as [E5 [Ep5 Ei5] Hf5 Hr5 Hg5 Hp5] eqn:ES. destruct ok; cbn [negb].
    + destruct (Hok eq_refl) as (Hcount & _ & _). apply wp_modify.
      assert (Hall : dkeys replacement = map option_spec_label eligible).
      { rewrite K4. apply filter_full. fold defs. by rewrite length_map, <- Hcount, <- length_dkeys, K4. }
      split.
      * unfold with_rotation. rewrite E5. pose proof (wf_peaks _ HA) as Hpk. unfold others in Hpk. rewrite EA in Hpk.
        constructor; cbn [lanes requests health trace with_plan with_lanes with_retry hot_subs rotation_subs pinned_subs other_lanes].
        -- pose proof (wf_hot _ HA) as Hh. by rewrite EA in Hh.
        -- apply Hg5, HA.
        -- right. intros l Hl. apply W4 in Hl. unfold owned, Y, O, L1 in *. cbn [hot_subs rotation_subs pinned_subs other_lanes] in *.
           rewrite !elem_of_app in *. tauto.
        -- apply (f_equal length) in Hall. rewrite length_dkeys, length_map in Hall. rewrite Hall. lia.
        -- by apply Hp5.
      * unfold rotated, with_rotation. rewrite E5. cbn. rewrite Ep5, Ei5. split_and!; [done..|right]. rewrite EiA. split; [done|].
        exists plan. by split_and!.
    + apply wp_bind. eapply wp_mono; [apply cancel_batch_spec|]. intros ok s6 (G6 & Ht & Hf). apply wp_modify.
      assert (S6 : steady L1 O bound sA s6) by (eapply steady_trans; [exact S5'|]; by apply gentle_steady).
      assert (Hw6 : wf s6).
      { eapply (wf_steady L1); [exact S6|done|done|done|]. destruct ok; [right|left; by apply Hf]. destruct (Ht eq_refl) as (_ & _ & Hg).
        intros l Hl. apply HY. pose proof (gentle_open _ _ _ G6 Hl) as Hl'. apply W4 in Hl'. apply elem_of_app in Hl' as [Hl'|]; [|done].
        by apply Hg in Hl'. }
      split; [eapply wf_gentle; [apply gentle_retry|done]|]. destruct S6 as [E6 [Ep6 Ei6] _ _ _ _]. unfold rotated. cbn.
      rewrite E6, Ep6, Ei6. split_and!; [done..|]. left. rewrite EiA. lia.
Qed.

(** ** Runs *)

(** The rotation turns, callbacks arrive. *)
Inductive turn_step : Stream → Stream → Prop :=
  | turn_rotate s : turn_step s (rotate_options max_lines s).1
  | turn_callback e s : turn_step s (on_error s e).

(** Besides, plans are reconciled: any plan whose slices name no contract twice,
    whether its hot lane fits beside the pins or not.  The run keeps the plans. *)
Inductive stream_run : Stream → list OptionSubscriptionPlan → Stream → Prop :=
  | run_here s : stream_run s [] s
  | run_turn s1 s2 plans s3 : turn_step s1 s2 → stream_run s2 plans s3 → stream_run s1 plans s3
  | run_reconcile plan s1 plans s2 :
      distinct plan → stream_run (reconcile_option_plan max_lines plan s1).1 plans s2 → stream_run s1 (plan :: plans) s2.

(** The lines of a plan with the pins. *)
Definition lines_of (s : Stream) (plan : OptionSubscriptionPlan) : Z :=
  Z.of_nat (length (desired_labels plan) + length (pinned_subs (lanes s))).

Lemma turn_step_wf s s' : turn_step s s' → wf s → plan_ok s → wf s' ∧ rotated s s'.
Proof.
  intros [s0|e s0] Hw Hp; [by apply rotate_wf|]. pose proof (on_error_gentle s0 e) as G. split; [by eapply wf_gentle|].
  destruct G as [[EL [Ep Ei] _ _ _ _ _] _ _ _]. unfold rotated. rewrite EL, Ep, Ei. split_and!; [done..|left; lia].
Qed.

Lemma stream_run_wf s plans s' :
  stream_run s plans s' → Forall (λ plan, lines_of s plan ≤ bound) plans → wf s → plan_ok s → wf s' ∧ plan_ok s'.
Proof using Hbound.
  induction 1 as [s|s1 s2 plans s3 Ht _ IH|plan s1 plans s2 Hd _ IH]; intros Hf Hw Hp; [done|..].
  - destruct (turn_step_wf _ _ Ht Hw Hp) as [Hw' (_ & Epn & Ep & _)]. apply IH; [|done|unfold plan_ok; by rewrite Ep].
    unfold lines_of in *. by rewrite Epn.
  - apply Forall_cons in Hf as [Hfit Hf]. destruct (reconcile_wf plan s1 Hw Hfit) as [Hw' Hr]. unfold wp in Hr.
    assert (pinned_subs (lanes (reconcile_option_plan max_lines plan s1).1) = pinned_subs (lanes s1)
                  ∧ plan_ok (reconcile_option_plan max_lines plan s1).1) as [Epn Hp'].
    { destruct (reconcile_option_plan max_lines plan s1).2; [destruct Hr as (Ep & _ & _ & ? & _)|destruct Hr as (Ep & _ & ? & _)];
        (split; [done|]); unfold plan_ok; rewrite Ep; [by intros p [= <-]|done]. }
    apply IH; [|done..]. unfold lines_of in *. by rewrite Epn.
Qed.

(** What a run of turns keeps. *)
Definition same_lanes (s s' : Stream) : Prop :=
  hot_subs (lanes s') = hot_subs (lanes s) ∧ pinned_subs (lanes s') = pinned_subs (lanes s) ∧ option_plan s' = option_plan s.

Lemma turns_keep s s' : rtc turn_step s s' → wf s → plan_ok s → wf s' ∧ plan_ok s' ∧ same_lanes s s'.
Proof.
  induction 1 as [|s1 s2 s3 Hs _ IH]; intros Hw Hp; [by split_and!|].
  destruct (turn_step_wf _ _ Hs Hw Hp) as [Hw2 (Eh & Epn & Ep & _)].
  assert (Hp2 : plan_ok s2) by (unfold plan_ok; by rewrite Ep). destruct (IH Hw2 Hp2) as (Hw3 & Hp3 & Eh3 & Epn3 & Ep3).
  split_and!; [done..|]. unfold same_lanes. by rewrite Eh3, Epn3, Ep3.
Qed.

(** A run that carries the index past [i] moves it from [i] to [i + 1] once. *)
Lemma turns_pass s s' i :
  rtc turn_step s s' → wf s → plan_ok s → rotation_index s ≤ i → i < rotation_index s' → 0 ≤ i →
  ∃ v v', rtc turn_step s v ∧ turn_step v v' ∧ rtc turn_step v' s' ∧ rotation_index v = i ∧ rotation_index v' = i + 1.
Proof.
  intros Hrun. induction Hrun as [s|s1 s2 s3 Hs Hrun IH]; intros Hw Hp Ha Hb Hi; [lia|].
  destruct (turn_step_wf _ _ Hs Hw Hp) as [Hw2 Hrot]. pose proof Hrot as (_ & _ & Ep & Hidx).
  destruct (decide (rotation_index s2 ≤ i)) as [Hle|Hgt].
  - destruct IH as (v & v' & H1 & H2 & H3 & H4 & H5); [done|by unfold plan_ok; rewrite Ep|done..|].
    exists v, v'. split_and!; try done. by eapply rtc_l.
  - assert (rotation_index s2 = i + 1 ∧ rotation_index s1 = i) as [E2 E1] by (destruct Hidx as [?|[? _]]; lia).
    exists s1, s2. split_and!; try done.
Qed.

(** One full turn of the rotation shows every contract of the plan. *)
Lemma turn_shows s s' plan c :
  rtc turn_step s s' → wf s → plan_ok s → option_plan s = Some plan → 0 ≤ rotation_index s →
  rotation_index s + rotation_count plan ≤ rotation_index s' →
  (∀ sl, sl ∈ rotations plan → Z.of_nat (length sl + length (hot_subs (lanes s)) + length (pinned_subs (lanes s))) ≤ max_lines) →
  c ∈ concat (rotations plan) →
  ∃ v, rtc turn_step s v ∧ rtc turn_step v s' ∧ option_spec_label c ∈ shown v.
Proof.
  intros Hrun Hw Hp Eplan H0 Hturn Hroom Hc. apply list_elem_of_In, in_concat in Hc as (sl & Hsl%list_elem_of_In & Hc%list_elem_of_In).
  apply list_elem_of_lookup in Hsl as [j Hj]. pose proof (lookup_lt_Some _ _ _ Hj) as Hjl.
  set (n := rotation_count plan) in *. assert (Hn : n = Z.of_nat (length (rotations plan))) by done.
  set (a := rotation_index s) in *. set (i := a + (Z.of_nat j - a) mod n).
  assert (Hmod : 0 ≤ (Z.of_nat j - a) mod n < n) by (apply Z.mod_pos_bound; lia).
  assert (Hij : i mod n = Z.of_nat j).
  { unfold i. rewrite Z.add_mod_idemp_r by lia. replace (a + (Z.of_nat j - a)) with (Z.of_nat j) by lia. apply Z.mod_small. lia. }
  destruct (turns_pass s s' i Hrun Hw Hp) as (v & v' & H1 & H2 & H3 & Ei & Ei'); [lia..|].
  destruct (turns_keep _ _ H1 Hw Hp) as (Hwv & Hpv & Eh & Epn & Epv).
  destruct (turn_step_wf _ _ H2 Hwv Hpv) as [_ (Eh' & Epn' & _ & [Hbad|[_ (plan' & Ep' & Hne & Hk)]])]; [lia|].
  rewrite Epv, Eplan in Ep'. injection Ep' as <-. exists v'. split; [by eapply rtc_r|]. split; [done|].
  unfold shown. rewrite !elem_of_app, Hk, Epn'.
  destruct (decide (option_spec_label c ∈ dkeys (pinned_subs (lanes v)))) as [Hpin|Hpin]; [by right; right|right; left].
  apply list_elem_of_fmap. exists c. split; [done|]. unfold eligible_specs. rewrite Eh, Epn, length_dkeys.
  assert (Hsl : slice_at plan (rotation_index v) = sl). { unfold slice_at. fold n. by rewrite Ei, Hij, Nat2Z.id, Hj. }
  rewrite Hsl. assert (Hin : sl ∈ rotations plan) by by eapply list_elem_of_lookup_2. specialize (Hroom sl Hin).
  rewrite take_ge; [apply list_elem_of_filter; by rewrite <- Epn|].
  etrans; [apply length_filter|]. lia.
Qed.
End stream.

Lemma wf_mono `{Gateway} n n' s : n ≤ n' → wf n s → wf n' s.
Proof.
  intros Hn []. constructor; try done; [lia|]. clear - Hn wf_peaks0. revert wf_peaks0. generalize (others s) (trace s).
  intros O t. induction t as [|c t IH]; cbn; [lia|]. intros [? ?]. split; [lia|]. by apply IH.
Qed.

(** ** A session with a gateway that grants everything *)

#[local] Instance good_gateway : Gateway := {|
  answer_request t _ := inr (Some (Z.of_nat (length t))); answer_requalify _ _ := inr true; answer_cancel _ _ := true;
  answer_end _ _ := true; answer_connected _ := true; answer_resolve _ labels := labels; callbacks _ := [];
  monotonic t := f_of_Z (Z.of_nat (length t)); wall_clock _ := 0 |}.

Definition idle_stream : Stream := {|
  lanes := {| hot_subs := []; rotation_subs := []; pinned_subs := []; other_lanes := [] |};
  requests := {| rows := []; errors := []; rejection_sequence := 0; rejection_log := []; rows_by_req_id := []; lane_by_req_id := [];
                 lane_history := []; request_lane := None |};
  health := {| subscription_health_failed := false; tws_connectivity_lost := false; subscriptions_lost := false;
               connectivity_loss_sequence := 0; capacity := initial_capacity 100; capacity_file := NoFile;
               farm_health := new_tracker (f_of_Z 60) |};
  option_plan := None; rotation_index := 0; rotation_retry_at := f_of_Z 0; trace := [] |}.

(** A plan of two slices at 7500, reconciled, and turned [n] times. *)
Definition narrow_sampling : SamplingSettings :=
  {| strike_step := 5; window_points := 75; hot_window_points := 55; group_count := 2; group_interval_seconds := 4;
     degraded_group_count := 20; degraded_group_interval_seconds := 3; group_strategy := "interleaved";
     hot_human_cadence_seconds := 8; hot_execution_cadence_seconds := 2; include_next_expiry := true;
     default_mode := "human_alert"; next_expiry_window_points := 30; next_expiry_hot_window_points := 10 |}.
Definition narrow_plan (atm : Z) : res OptionSubscriptionPlan :=
  plan_for_proposal 0 atm "20260715" "20260716" narrow_sampling 100 true [] 0 84.
Definition narrow_window : res SamplingPlan :=
  build_sampling_plan 0 (f_of_Z 7500) "20260715" (Some "20260716") "human_alert" narrow_sampling.
Definition plan_7500 : OptionSubscriptionPlan := ok_or no_plan (narrow_plan 7500).
Definition reconciled_stream : Stream := (reconcile_option_plan 84 plan_7500 idle_stream).1.
Definition turned (n : nat) : Stream := Nat.iter n (λ s, (rotate_options 84 s).1) reconciled_stream.

Lemma idle_wf n : 0 ≤ n → wf n idle_stream.
Proof. intros Hn. constructor; cbn; [constructor|by intros ? ?%not_elem_of_nil|right; by intros ? ?%not_elem_of_nil|lia|by split]. Qed.

Lemma plan_7500_distinct : distinct plan_7500.
Proof.
  intros c. revert c. apply Forall_forall.
  apply (bool_decide_eq_true_1 (Forall (λ c, NoDup (map option_spec_label c)) (rotations plan_7500))). vm_compute. reflexivity.
Qed.

Lemma plan_7500_fits : lines_of idle_stream plan_7500 ≤ 84.
Proof. by apply Z.leb_le; vm_compute. Qed.

Lemma turned_rtc n : rtc (turn_step 84) (turned 0) (turned n).
Proof.
  unfold turned. cbn [Nat.iter]. generalize reconciled_stream. intros s. induction n as [|n IH]; [done|].
  rewrite Nat.iter_succ. eapply rtc_r; [exact IH|]. apply turn_rotate.
Qed.

Lemma turns_run `{Gateway} max_lines s s' plans s'' :
  rtc (turn_step max_lines) s s' → stream_run max_lines s' plans s'' → stream_run max_lines s plans s''.
Proof. induction 1 as [|s1 s2 s3 Ht _ IH]; [done|]. intros Hr. eapply run_turn; [exact Ht|]. by apply IH. Qed.

Lemma session_run n : stream_run 84 idle_stream [plan_7500] (turned n).
Proof.
  apply run_reconcile; [exact plan_7500_distinct|]. eapply turns_run; [exact (turned_rtc n)|apply run_here].
Qed.

Lemma turned_ok n : wf 84 (turned n) ∧ plan_ok (turned n).
Proof.
  eapply (stream_run_wf 84 84 ltac:(lia)); [exact (session_run n)| |by apply idle_wf|intros plan E; exfalso; discriminate E].
  apply Forall_singleton, plan_7500_fits.
Qed.

(** ** The guarantees of the option lines *)

(** C10: Every open line has an owner.  Whatever the gateway answers, and
    whenever its callbacks arrive, after any run of reconciliations and
    rotations each line whose request was accepted and not cancelled is in a
    lane, or the session is marked failed, for the supervisor to tear down.  And
    at no moment of the run, in the middle of an operation either, were more
    option lines open than the configured ceiling or, where that is more, than
    the largest hot lane of a reconciled plan together with the pins (a plan that
    does not fit beside the pins is subscribed whole); nor do the lanes hold more.
    The plans are any whose slices name no contract twice. *)
Theorem option_lines_have_owners `{Gateway} max_lines s plans s' :
  wf max_lines s → plan_ok s → stream_run max_lines s plans s' →
  (failed s' = true ∨ ∀ l, l ∈ open_lines (trace s') → l ∈ owned (lanes s'))
  ∧ ∀ n, max_lines ≤ n → (∀ plan, plan ∈ plans → lines_of s plan ≤ n) →
    Z.of_nat (length (hot_subs (lanes s')) + length (rotation_subs (lanes s')) + length (pinned_subs (lanes s'))) ≤ n
    ∧ peaks (others s') n (trace s').
Proof.
  intros Hw Hp Hrun.
  assert (Hn : ∀ n, max_lines ≤ n → (∀ plan, plan ∈ plans → lines_of s plan ≤ n) → wf n s').
  { intros n Hn Hf. apply (stream_run_wf max_lines n Hn s plans s' Hrun); [by apply Forall_forall|by eapply wf_mono|done]. }
  split; [|intros n H1 H2; by destruct (Hn n H1 H2)].
  destruct (Hn (foldr Z.max max_lines (lines_of s <$> plans))) as []; [|intros plan|done].
  - clear. induction plans as [|plan plans IH]; cbn; lia.
  - clear. induction plans as [|plan' plans IH]; cbn; [by intros ?%not_elem_of_nil|]. intros [->|?%IH]%elem_of_cons; lia.
Qed.

(** Two rotations of the session: a turn of the window. *)
Lemma option_lines_have_owners_witness :
  (failed (turned 2) = true ∨ ∀ l, l ∈ open_lines (trace (turned 2)) → l ∈ owned (lanes (turned 2)))
  ∧ peaks (others (turned 2)) 84 (trace (turned 2))
  ∧ failed (turned 2) = false ∧ length (open_lines (trace (turned 2))) = 68%nat ∧ rotation_index (turned 2) = 2.
Proof.
  destruct (option_lines_have_owners 84 idle_stream [plan_7500] (turned 2)) as (Ho & Hn).
  - by apply idle_wf.
  - done.
  - apply session_run.
  - split; [exact Ho|]. split; [|split; [|split]; vm_compute; reflexivity].
    apply (Hn 84); [done|]. intros plan ->%list_elem_of_singleton. exact plan_7500_fits.
Defined.

(** C22: a plan is applied whole or not at all.  A reconciliation that succeeds
    leaves exactly the plan's hot labels, less those already pinned, an empty
    rotation and the index at its start; one that fails leaves the plan and the
    index and adds nothing to the hot lane. *)
Theorem reconcile_all_or_nothing `{Gateway} max_lines plan s :
  wf max_lines s → Z.of_nat (length (desired_labels plan) + length (pinned_subs (lanes s))) ≤ max_lines →
  let '(s', ok) := reconcile_option_plan max_lines plan s in
  pinned_subs (lanes s') = pinned_subs (lanes s)
  ∧ if ok then option_plan s' = Some plan ∧ rotation_index s' = 0 ∧ rotation_subs (lanes s') = []
               ∧ ∀ l, l ∈ dkeys (hot_subs (lanes s')) ↔
                      l ∈ desired_labels plan ∧ (l ∉ dkeys (pinned_subs (lanes s)) ∨ l ∈ dkeys (hot_subs (lanes s)))
    else option_plan s' = option_plan s ∧ rotation_index s' = rotation_index s
         ∧ ∀ l, l ∈ dkeys (hot_subs (lanes s')) → l ∈ dkeys (hot_subs (lanes s)).
Proof.
  intros Hw Hfit. destruct (reconcile_wf max_lines max_lines ltac:(lia) plan s Hw Hfit) as [_ Hr].
  destruct (reconcile_option_plan max_lines plan s) as [s' []]; destruct Hr as (? & ? & ?); naive_solver.
Qed.

(** The first plan of a session, and the next one, five points up. *)
Definition plan_7505 : OptionSubscriptionPlan :=
  ok_or no_plan (narrow_plan 7505).

Lemma reconcile_all_or_nothing_witness :
  let s := (reconcile_option_plan 84 plan_7505 (turned 1)).1 in
  option_plan s = Some plan_7505 ∧ rotation_subs (lanes s) = []
  ∧ (∀ l, l ∈ dkeys (hot_subs (lanes s)) ↔ l ∈ desired_labels plan_7505 ∧ (l ∉ [] ∨ l ∈ dkeys (hot_subs (lanes (turned 1)))))
  ∧ "option:SPXW:20260715:7560:P" ∈ dkeys (hot_subs (lanes s)).
Proof.
  pose proof (reconcile_all_or_nothing 84 plan_7505 (turned 1) (proj1 (turned_ok 1))) as H.
  assert (Eok : (reconcile_option_plan 84 plan_7505 (turned 1)).2 = true) by (vm_compute; reflexivity).
  assert (Epin : dkeys (pinned_subs (lanes (turned 1))) = []) by (vm_compute; reflexivity).
  destruct (reconcile_option_plan 84 plan_7505 (turned 1)) as [s ok] eqn:E. cbn in Eok. subst ok. cbv zeta. cbn [fst].
  destruct H as (_ & Hplan & _ & Hrot & Hhot); [by apply Z.leb_le; vm_compute|]. rewrite Epin in Hhot.
  split; [exact Hplan|]. split; [exact Hrot|]. split; [exact Hhot|].
  apply Hhot. split; [by apply (bool_decide_eq_true_1 (_ ∈ _)); vm_compute|left; apply not_elem_of_nil].
Defined.

Lemma plan_slices_distinct plan : NoDup (map option_spec_label (hot plan ++ concat (rotations plan))) → distinct plan.
Proof.
  intros Hn c Hc. rewrite map_app in Hn. apply NoDup_app in Hn as (_ & _ & Hn). apply list_elem_of_split in Hc as (l1 & l2 & E).
  rewrite E, concat_app, map_app in Hn. apply NoDup_app in Hn as (_ & _ & Hn). cbn in Hn. rewrite map_app in Hn. by apply NoDup_app in Hn as [? _].
Qed.

(** C12: One turn of the rotation shows the whole window.  The plan is one that
    the planner makes, with at least a pair for the rotation, and it is
    reconciled: each hot label is in the hot lane or pinned.  The rotation's share
    of the lines fits under the ceiling beside the hot lane and the pins, only
    rotations and callbacks follow (no other plan, no other pin), and the strike
    step divides both windows.  Then, once the rotation index has advanced by the
    number of slices, every strike of the sampling window has been subscribed on
    the way, both legs: the wide window for the traded expiry, the narrower one
    for the next. *)
Theorem rotation_shows_window `{Gateway} now atm e next settings capacity fallback base_subs chunk ceiling a lines hot_ plan sampling
    s s' e' k rt :
  planned_option_lines capacity fallback base_subs chunk ceiling = Ok (a, lines, hot_) → hot_ + 2 ≤ lines →
  plan_for_proposal now atm e next settings capacity fallback base_subs chunk ceiling = Ok plan →
  build_sampling_plan now (f_of_Z atm) e (Some next) (default_mode settings) settings = Ok sampling →
  0 < strike_step settings → (strike_step settings | window_points settings) →
  (strike_step settings | next_expiry_window_points settings) →
  NoDup (expiries sampling) → Forall colon_free (expiries sampling) →
  wf ceiling s → option_plan s = Some plan → 0 ≤ rotation_index s →
  (∀ l, l ∈ desired_labels plan → l ∈ dkeys (hot_subs (lanes s)) ∨ l ∈ dkeys (pinned_subs (lanes s))) →
  Z.of_nat (length (hot_subs (lanes s)) + length (pinned_subs (lanes s))) + (lines - hot_) ≤ ceiling →
  rtc (turn_step ceiling) s s' → rotation_index s + rotation_count plan ≤ rotation_index s' →
  e' ∈ expiries sampling → 0 < k → (strike_step settings | k - atm_strike sampling) →
  Z.abs (k - atm_strike sampling) ≤ window_points settings →
  (e' ≠ e → Z.abs (k - atm_strike sampling) ≤ next_expiry_window_points settings) → rt ∈ ["C"; "P"] →
  ∃ v, rtc (turn_step ceiling) s v ∧ rtc (turn_step ceiling) v s'
       ∧ ("option:SPXW:" ++ e' ++ ":" ++ str_of_Z k ++ ":" ++ rt)%string ∈ shown v.
Proof.
  intros Hl Hroom2 Hplan Hs Hstep Hw Hnw He Hcf Hwf Eplan H0 Hhot Hroom Hrun Hturn He' Hk Hmul Habs Hnext Hrt.
  pose proof (hot_share_exact _ _ _ _ _ _ _ _ Hl) as Hb. cbv zeta in Hb.
  assert (Heven : hot_ mod 2 = 0).
  { apply planned_share_reachable in Hl. unfold reachable_shares in Hl. rewrite !elem_of_app, !list_elem_of_fmap in Hl.
    destruct Hl as [(i & [= _ ->] & _)|[(i & [= _ ->] & _)|(i & [= -> ->] & _)]]; [done..|lia]. }
  rewrite Heven, Z.sub_0_r in Hb. unfold plan_for_proposal in Hplan. rewrite Hl in Hplan. cbn [mbind res_bind] in Hplan.
  pose proof (Z.mod_pos_bound (lines - hot_) 2 ltac:(lia)) as Hm.
  assert (Hr2 : 2 ≤ (lines - hot_) - (lines - hot_) mod 2).
  { destruct (decide (lines - hot_ = 2)) as [E|]; [by rewrite E|lia]. }
  pose proof (plan_covers_window _ _ _ _ _ _ _ _ _ _ _ _ e' k rt Hs Hplan Hb He Hr2 Hstep Hw Hnw He' Hk Hmul Habs Hnext Hrt) as Hkey.
  apply list_elem_of_fmap in Hkey as (c & Ec & Hc). unfold spec_key in Ec. injection Ec as Ee Ek Er.
  assert (Elabel : option_spec_label c = ("option:SPXW:" ++ e' ++ ":" ++ str_of_Z k ++ ":" ++ rt)%string).
  { unfold option_spec_label. by rewrite <- Ee, <- Ek, <- Er. }
  rewrite <- Elabel. apply elem_of_app in Hc as [Hc|Hc].
  - exists s. split; [done|]. split; [done|]. unfold shown. rewrite !elem_of_app.
    destruct (Hhot (option_spec_label c)) as [?|?]; [|by left|by right; right]. unfold desired_labels.
    apply dedup_keep_first_NoDup. split; [apply list_elem_of_fmap; eauto|apply not_elem_of_nil].
  - assert (Hok : plan_ok s).
    { intros p Ep. rewrite Eplan in Ep. injection Ep as <-. apply plan_slices_distinct. by eapply plan_labels_NoDup. }
    apply (turn_shows ceiling ceiling ltac:(lia) s s' plan c Hrun Hwf Hok Eplan H0 Hturn); [|done].
    intros sl Hsl. destruct (plan_slices _ _ _ _ _ _ _ _ _ _ _ _ sl Hs Hplan Hb He Hsl) as [_ Hlen]. lia.
Qed.

(** After two rotations the farthest put of the window has been seen. *)
Lemma rotation_shows_window_witness :
  ∃ v, rtc (turn_step 84) (turned 0) v ∧ "option:SPXW:20260715:7425:P" ∈ shown v
       ∧ "option:SPXW:20260715:7425:P" ∉ shown (turned 0).
Proof.
  destruct (planned_option_lines 100 true [] 0 84) as [[[a lines] hot_]|e] eqn:El; [|by vm_compute in El].
  destruct narrow_window as [w|e] eqn:Ew; [|by vm_compute in Ew]. destruct (narrow_plan 7500) as [p|e] eqn:Ep; [|by vm_compute in Ep].
  assert (Hl : lines = 84 ∧ hot_ = 46).
  { change (lines, hot_) with (let '(_, l, h) := ok_or (a, lines, hot_) (Ok (a, lines, hot_)) in (l, h)).
    assert (E : ok_or (a, 0, 0) (planned_option_lines 100 true [] 0 84) = (a, lines, hot_)) by (rewrite El; reflexivity).
    vm_compute in E. injection E as _ <- <-. by split. }
  destruct Hl as [-> ->]. assert (Epl : plan_7500 = p) by (unfold plan_7500; rewrite Ep; reflexivity).
  assert (Hx : expiries w = ["20260715"; "20260716"] ∧ atm_strike w = 7500).
  { replace w with (ok_or w narrow_window) by (rewrite Ew; reflexivity). split; vm_compute; reflexivity. }
  destruct Hx as [Hx Ha].
  destruct (rotation_shows_window 0 7500 "20260715" "20260716" narrow_sampling 100 true [] 0 84 a 84 46 plan_7500 w
              (turned 0) (turned 2) "20260715" 7425 "P") as (v & H1 & _ & H2).
  - exact El.
  - lia.
  - rewrite Epl. exact Ep.
  - exact Ew.
  - done.
  - by exists 15.
  - by exists 6.
  - rewrite Hx. by apply (bool_decide_eq_true_1 (NoDup _)); vm_compute.
  - rewrite Hx. by repeat constructor.
  - exact (proj1 (turned_ok 0)).
  - vm_compute. reflexivity.
  - apply Z.leb_le. vm_compute. reflexivity.
  - intros l Hl. left. revert l Hl. apply Forall_forall. by apply (bool_decide_eq_true_1 (Forall _ _)); vm_compute.
  - by apply Z.leb_le; vm_compute.
  - exact (turned_rtc 2).
  - by apply Z.leb_le; vm_compute.
  - rewrite Hx. left.
  - done.
  - rewrite Ha. by exists (-15).
  - by rewrite Ha.
  - intros Hne. by destruct Hne.
  - right. left.
  - exists v. split; [exact H1|]. split; [exact H2|]. apply (bool_decide_eq_false_1 (_ ∈ _)). vm_compute. reflexivity.
Defined.

(** ** A plan that does not fit beside the pins *)

Definition pinned_stream : Stream :=
  with_lanes {| hot_subs := []; rotation_subs := []; pinned_subs := [("option:SPXW:20260715:7600:C", (true, 0%nat)); ("option:SPXW:20260715:7600:P", (true, 1%nat))];
                other_lanes := [] |} idle_stream.
Definition two_pairs : OptionSubscriptionPlan :=
  {| plan_atm := 7500; plan_expiry := "20260715";
     hot := build_contracts ["20260715"] [7500; 7505] "hot" None None; rotations := [] |}.

(** Of the obsolete lines as many leave as there are additions, but the
    additions themselves are not cut: four of them join two pins under a ceiling
    of four. *)
Lemma hot_additions_pass_the_ceiling :
  let '(s, ok) := reconcile_option_plan 4 two_pairs pinned_stream in
  ok = true ∧ (length (hot_subs (lanes s)) + length (pinned_subs (lanes s)))%nat = 6%nat.
Proof. vm_compute. by split. Qed.
